(* ===== verification/_CoqProject ===== *)
-Q . S2P
Prelude.v
Ring.v
World.v
Messages.v
Text.v
Session.v
SessionSpec.v
Services.v
Lock.v
Accessory.v
Loco.v
LocoFacts.v
LocoSpec.v
Feedback.v
FeedbackSpec.v
Clock.v
Program.v
Loopback.v
Spi.v
Dcc.v
DccSpec.v
Motorola.v
Mfx.v
Ddl.v
MfxSpec.v
MfxSearch.v
MfxAnswer.v
DdlSpec.v
Server.v
Command.v
Client.v
Gateway.v
DdlInit.v
CommandSpec.v
ClientSpec.v
AccessorySpec.v
GatewaySpec.v
Lan.v
LanServer.v
LanBytes.v
LanFrame.v
LanCrc.v
LanConn.v
LanSpec.v
LanTransfer.v
LanCopy.v
Avl.v
AvlTree.v
AvlTake.v
AvlHeap.v
AvlPut.v
AvlGrow.v
AvlRebal.v
AvlRemove.v
AvlRead.v
AvlSpec.v
MrCs2.v
MrIpc.v
MrFacts.v
MrFrames.v
MrRelay.v
MrDliste.v
MrDlisteSpec.v
MrMenge.v
MrListe.v
MrListeSpec.v
MrHub.v
MrHubSpec.v
MrBridge.v
MrBridgeSpec.v
MrSystem.v
MrNumber.v
MrScan.v
MrCs2Parse.v
MrCs2Spec.v
MrConfig.v
MrLok.v
MrMagnetartikel.v
MrGleisbild.v
MrFahrstrasse.v
