(* ===== verification/Prelude.v ===== *)
(** * The SRCP daemon, the CAN gateway and the core of mrsystem

    This library models three programs of this repository.  [src/basrcpd/src] is basrcpd, the daemon
    that drives a model railway: clients connect over TCP and speak SRCP (the
    simple railroad command protocol), drivers turn the commands into packets on
    the rails, a gateway keeps a Maerklin central station on a CAN bus in step.
    [src/can2udp/src] is can2lan, the gateway between that CAN bus and the
    network: every frame becomes a packet of 13 bytes for UDP and TCP clients
    and back, and configuration files are copied from a control centre and
    served to clients.  [src/mrsystem/src] is mrsystem, a control system for the
    same bus made of separate programs: bridges translate the frames of a bus or
    network into messages, and a hub hands each message to all other programs.
    Of it the core is modelled: the containers it keeps its data in, the CAN
    messages, the messages between its programs, the hub, the bridges, and the
    tables of the control centre with their files.

    ** The parts of the program and where they are modelled

    A client's line is read by its thread (clientservice.c, io.c), interpreted
    (srcp-command.c) and handed to a device group: locomotives GL (srcp-gl.c),
    accessories GA (srcp-ga.c), feedback contacts FB (srcp-fb.c), the clock TIME
    (srcp-time.c), service mode SM (srcp-sm.c), POWER, GM, DESCRIPTION, LOCK,
    SESSION, SERVER.  GL, GA and SM put the command into a queue of the bus; the
    thread of the bus's driver (loopback.c, or ddl.c with ddl_nmra.c,
    ddl_maerklin.c and ddl_mfx.c) takes it, sends it and reports back by
    cacheSetGL, setGA or the answer to the waiting session.  Each change of
    state is a line for every info session (srcp-info.c, through a pipe per
    session) and a frame for the CAN bus (mcs-gateway.c), whose own frames call
    the same device groups.

    - Prelude.v: machine integers, the state monad with undefined behaviour
      ([prog]), loops, arrays, automation; the rules [keeps] for invariants.
    - Ring.v: the ring buffer behind every command queue, and the FIFO it
      implements.
    - World.v: the data of the headers and the static variables, one record
      [world].  Messages.v: srcp-error.c, [printf], toolbox.c.
    - Text.v: [ssplitstr] and the C library's readers of numbers and words.
    - Session.v, SessionSpec.v: srcp-session.c as the linked list it is, on a
      heap; srcp-info.c's distribution of lines.
    - Services.v: srcp-info.c, config-srcpd.c, mcs-gateway.c, srcp-power.c,
      srcp-descr.c, srcp-gm.c and the waits of srcp-session.c, as far as every
      device group uses them.
    - Lock.v: the lock protocol as a class [LockTable]; Accessory.v and
      LocoFacts.v give the two instances.
    - Accessory.v, AccessorySpec.v: srcp-ga.c.  Loco.v, LocoFacts.v, LocoSpec.v:
      srcp-gl.c.  Feedback.v, FeedbackSpec.v: srcp-fb.c.  Clock.v: srcp-time.c.
      Program.v: srcp-sm.c.  Server.v: srcp-server.c.
    - Loopback.v: loopback.c.
    - Spi.v: the line of ddl.c, that is packet pools, the translation of packets
      to the bytes of the SPI bus, [send_packet].  Dcc.v, DccSpec.v:
      ddl_nmra.c.  Motorola.v: ddl_maerklin.c.  Mfx.v, MfxSpec.v, MfxSearch.v,
      MfxAnswer.v: ddl_mfx.c.  Ddl.v, DdlSpec.v: the threads of ddl.c.
      DdlInit.v: start and end of a DDL bus.
    - Command.v, CommandSpec.v: srcp-command.c.  Client.v, ClientSpec.v:
      clientservice.c, the info sessions of srcp-info.c, the line reader of io.c.
    - Gateway.v, GatewaySpec.v: mcs-gateway.c.

    can2lan is one loop (can2lan.c) over the CAN socket, the UDP socket, two
    listening TCP sockets and their clients; it uses gio.c for frames and files,
    crc-ccitt.c for the checksum of a file, ascii-frame.c for the text commands
    of the second port.

    - Lan.v: gio.c and crc-ccitt.c.  LanServer.v: can2lan.c and ascii-frame.c.
    - LanBytes.v: lemmas on big-endian numbers and buffers.  LanFrame.v: what the
      operations of gio.c leave alone, for any view of the state that is an
      instance of the class [Untouched].
    - LanCrc.v: the checksum.  LanConn.v: the table of connections.  LanSpec.v:
      frames and packets.  LanTransfer.v: a file on its way.  LanCopy.v: the copy
      of a control centre.

    In mrsystem every program has a connection to the hub (drehscheibe).  A bridge
    reads a frame (libs/mr_cs2ms2), takes the command with its parameters out of
    it (libs/cs2), packs them into a message (libs/mr_ipc) and sends that to the
    hub, whose clients are a set (menge) over a doubly linked list (dliste) and
    whose clients to be removed are a stack over a list (liste); the bridges that
    get the message from the hub make a frame of it again.

    - MrCs2.v: libs/cs2, libs/mr_cs2ms2 and the byte order of basic_libs.
      MrIpc.v: libs/mr_ipc.  MrFacts.v: what storing and reading a field leaves.
    - MrFrames.v: frames, packets and CAN messages.  MrRelay.v: a message
      translated for the hub and back.
    - MrDliste.v: dliste, queue and menge.  MrDlisteSpec.v: when memory holds a
      list, and insertion and deletion.  MrMenge.v: searches, ordered lists, sets,
      queues.  MrListe.v, MrListeSpec.v: liste and stack.
    - MrHub.v, MrHubSpec.v: drehscheibe.c.  MrBridge.v, MrBridgeSpec.v:
      common/cs2eth.c and client_cs2sl/cs2sl.c.  MrSystem.v: bridge, hub and bridge
      together.

    The control centre of mrsystem (client_zentrale) keeps locomotives,
    accessories, track pages and routes, each in a map and in a file, which a
    parser (libs/cs2_parse) reads line by line from the symbols of a scanner
    (basic_libs/scanner).

    - MrNumber.v: [strtoul] and [%x].  MrScan.v: scan_*.c.  MrCs2Parse.v:
      cs2p_*.c and write_cs2.c.  MrCs2Spec.v: a line that is written is read.
    - MrConfig.v: the loop over the lines of a file and the walk over a map, which
      every table has a copy of.  MrLok.v: lok.c.  MrMagnetartikel.v:
      magnetartikel.c.  MrGleisbild.v: gleisbild.c and gleisbildpage.c.
      MrFahrstrasse.v: fahrstrasse.c.  In each of these files a first Module has
      the code and a second one, with Spec in its name, the theorems.

    A map of mrsystem (map_*.c) is a balanced tree (avl_*.c) with nodes from
    [malloc], a comparison and call-backs that free keys and data.

    - Avl.v: both, on the memory the nodes are in.  AvlTree.v, AvlTake.v: the
      same insertion and deletion on trees without a heap, their balance and
      order.  AvlHeap.v: when memory holds a tree, and the single assignments.
      AvlPut.v, AvlGrow.v: insertion.  AvlRebal.v, AvlRemove.v: deletion with its
      stack.  AvlRead.v: search, walks, the end of a tree, its height.
      AvlSpec.v: what a map promises.

    ** How state and operations correspond to the code

    A C function is a definition of the same name; a function that touches
    shared state is a [prog world A], that is [world -> option (A * world)].
    [None] is undefined behaviour: an access outside an array, a null or freed
    pointer, a copy that does not fit, an arithmetic overflow.  Hence "the call
    is defined" in a theorem says that the C code stays inside the language.
    [world] has the static arrays by bus number ([buses], [gl], [ga], [fb], the
    queues), the session list with its heap and pipes ([sess]), the CAN side
    ([mcs], with the frames sent), what was written to client sockets
    ([sock_out]), a clock that each call of [gettimeofday] advances ([w_clock],
    [w_tick]).  A C array is a finite map with the domain [0 .. n-1]; a field is
    its name; integers are [Z] with the wrap-around of their type written out.
    A string is the text up to the NUL.
    The DDL driver adds its own data: [ddl_t] (Spi.v) is the DDL_DATA of a bus
    with the bytes sent to the SPI device, [mfx_t] (Mfx.v) the statics of
    ddl_mfx.c, and [line_t] has both and the world.
    A thread is modelled by the turns of its loop; a turn is a [prog], so that
    other threads run between turns.  Where a function waits for another
    thread, what the others do meanwhile is an argument ([others],
    [meanwhile]).  What comes from outside (bytes of a socket, of the serial
    line, levels of GPIO lines, CAN frames, the platform's serial number and
    temperature) is an argument too.
    can2lan's state is the record [lan_t] (Lan.v) with its globals, the variables
    of [main] the loop uses, the files by their path and, as [events] in order,
    all it did to the outside; a round of the loop ([turn]) gets what [pselect]
    found ready and what the reads give.

    A tree of mrsystem is [avl_t]: the fields of [AvlBaum], the memory as a finite
    map from addresses to nodes, and what the call-backs were given.  The two
    sides of a node, which the code writes out twice with 0 and 1 exchanged, are
    one definition with a side as argument.  [stores] says that the memory holds a
    pure tree.
    Its lists are [dliste_t] and [liste_t] in the same way, an iterator is the
    element it stands at, and [holds] says that the memory holds a sequence of
    items.  A CAN message is [MrCs2CanDataType]; a message between programs
    [MrIpcCmdType], whose union is the 24 bytes it occupies, so that numbers and
    raw data share them as in C.  The sign of [char] is the class [CharSign],
    because the programs run on machines with either.  The hub is [hub_t] with the
    memory of its clients; a turn of its loop gets a [kernel], all that [select],
    [accept], [recv] and [malloc] answer, and [events] is what it sends and
    closes, in order.  A bridge is [bridge_t], and a turn of it gets a [world].
    A [scanner] stands in the list of characters it reads, a [cs2parser] has a
    scanner, the table of locomotives is [LokStruct] with a finite map by name,
    the other tables have finite maps by number, and the files are a finite map by
    path.  The variables of a loop over lines are a record [loading].  The type
    float with what is printed and read of it is the class [Float].

    ** What the theorems show

    - Commands: the text of a SET GA line reaches the queue as written
      ([set_ga_line]); CHECK changes nothing ([check_is_dry]); WAIT for a contact
      answers at the first poll that finds the value or after the last one
      ([wait_fb_ends]); [ssplitstr] is the plain cutting of words
      ([ssplitstr_splits]).
    - Locks: exclusive for both device groups and gone with the session
      ([locks_exclusive], [gl_locks_exclusive], [session_end_unlocks]).
    - Device groups: every sequence of accessory calls is defined and keeps the
      state well formed, as long as the lock durations, which are counted down
      every second without end, do not overflow ([ga_calls_safe],
      [shortest_lock_overflows]); the queues are FIFOs, the locomotive
      queue without double entries; [setGA], [enqueueGL], [cacheSetGL],
      [setFBmodul], the delayed reset, the clock and the service mode do what
      they promise.
    - Sessions: ids stay unique in every reachable state
      ([session_ids_unique]), info lines arrive exactly once in each pipe and
      whole and in order at each client ([info_exactly_once],
      [info_lines_delivered]).
    - The line: what the SPI bus carries after a command is decoded by an
      independent receiver to the command, for DCC locomotives to those of the
      first packet, while those of the second wait for the refresh cycle
      ([loco_command_on_line], [accessory_on_line], [mfx_loco_on_line], [speed_reaches_decoder]); the mfx
      checksum detects bursts and both its implementations agree
      ([mfx_checksum], [answer_checksum]); the search for decoders terminates
      with the least one ([search_finds]); Motorola packets determine their
      fields ([mm_packet_determined]).
    - The bus thread: no power, no packet ([power_off_silent]); a shortcut cuts
      the power ([shortcut_cuts_power]); both while no service-mode command can be
      served, which the turn does first; the cycle of a DCC or Motorola accessory
      command over its turns, with the lines that report it ([ga_cycle]).
    - The CAN side: a stop frame silences the track in the same sense
      ([can_stop_silences]), an
      accessory frame is an enqueue without a lock ([can_accessory]).
    - can2lan: frames cross the network unchanged ([frames_cross_network]) and
      go to every client once, the filters apart ([can_frame_to_all]); the table of connections is
      sound after any rounds ([connections_counted]); a file that is sent is the
      file that is received, however TCP cuts the packets
      ([config_file_crosses]); the copy of a control centre asks for the files and the
      pages up to the first gap in their numbers, receives each and ends
      ([copy_fetches_everything]); the checksum is the polynomial division it
      stands for ([crc_ccitt_divides]).
    - The maps of mrsystem: any sequence of calls acts on a table in key order and
      keeps the tree balanced ([maps_are_tables]), so that searches are short and
      a deletion's stack large enough ([search_is_short]); the end of a map frees
      every node once ([destroy_frees_once]).
    - mrsystem: a frame of one bus reaches every bridge and leaves it as a frame,
      and it is said which bridge sends nothing and when the frame is the same one
      ([frame_to_every_bus],
      [frame_relayed]); frames and packets carry the same messages
      ([frames_and_packets]); the hub sends a message to every other client once
      and keeps its set of clients ([hub_turn]); lists, ordered lists, queues and
      sets are the sequences they stand for ([dliste_is_a_sequence],
      [insert_keeps_order], [queue_keeps_order]).  The table of locomotives that
      is saved is the one that is loaded but for the functions it is not set up for
      ([saved_locos_load]), that of the accessories up to one type and the empty
      table ([saved_accessories_load]), and the text of a track page is read as
      the page up to one type and the empty page ([page_file_parses]).  Tables with
      a number as key compare keys by their difference, which overflows for
      numbers 2^31 or more apart: [near] in MrConfig.v says where that does not
      happen, the theorems ask for keys that are [close].
    - Misbehaviour the model shows, as theorems about the code as it is: an
      anonymous session leaves a dangling pointer, long info lines make the next
      one disappear, SET TIME before INIT TIME ends info sessions, a client that
      leaves early wraps the count of command sessions, inserting a key that is
      there never returns ([insert_present_never_returns]), a failed [accept] stops
      the hub ([failed_accept_stops_hub]), insertion into a singly linked list
      loses items ([liste_insert_loses_items]), one unknown word in a file empties
      the table of locomotives ([unknown_word_clears]), routes lose items or are lost when
      they are saved and loaded ([routes_lose_last_item]), a track page that is saved is
      not the one that is loaded ([page_saved_elsewhere]), and where [char] is signed speeds
      change on their way ([signed_char_corrupts]); further ones are stated
      next to their components ([enqueue_port_unchecked],
      [refused_init_shares_entry], [new_impulse_lost], [racing_set_lost],
      [full_queue_misreports], [loopback_forgets_cv], [cv_read_is_zero],
      [solenoid_addresses]).

    ** Fuel and bounds

    Loops over arrays and lists are structural.  Walks of the session list carry
    as fuel the number of heap nodes, which the list cannot exceed ([chain_size]
    in Session.v); [gl_enqueue] and [cacheInitGL] call each other at most once
    ([gl_enqueue_terminates]); the loop over delayed resets runs at most the
    length of the queue ([check_reset_ends]); WAIT polls [20 * timeout + 1]
    times.  WAIT TIME, the command loop of a client and the wait for an answer
    have no bound in the code either and carry a number of rounds as argument.
    In can2lan a file is read in as many lines as it has bytes at most, a stream
    is sent in as many portions as it has bytes at most and a segment has as many
    packets as bytes at most; each step takes at least one.
    Searches and walks of a tree carry the number of nodes in memory
    ([addrs_size] in AvlHeap.v); the stack of a deletion has the 32 entries of
    the code, enough for less than 5702886 entries ([height_bound]).  Walks of a
    list carry one more than the elements in memory.  The scanner's loops carry the
    characters that are left and those over fixed arrays the room in them, the
    parser's the lines a text can have at most.

    ** Not modelled

    Logging; mutexes and condition variables (a handler runs without
    interruption by another thread, except at its waits); the failure of
    [malloc] except for sessions, and of writes to pipes, sockets, the CAN bus
    and the SPI device; thread creation and attributes; the wait for a free slot
    of the feedback queue; [char] is taken as unsigned and the machine as
    little-endian and LP64, which is what the daemon runs on.  The XML
    configuration, the network listener, platform detection, the drivers for
    the sensors and the opening of devices (srcpd.c, config-srcpd.c, netservice.c,
    platform.c, a20hw.c, canbus.c, syslogmessage.c) are input and output.
    Of can2lan: zlib is a parameter ([deflate], [inflate], with the laws
    [zlib_ok]); sending and writing succeed; memory is not exhausted, but
    an announced size for which [realloc] gives the null pointer ends the process; the options,
    the opening of the sockets, the search for the broadcast address and the
    reading of the locomotive file at the start are left out (the locomotives are
    the list [loco_data]); a round has no errors of [pselect] and of reading the
    CAN socket.
    Of mrsystem: what a walk's call-back does with the nodes it is given; the
    memory of the records of trees, lists and iterators themselves; the drivers
    behind a bridge, which are parameters; a message received in parts; the
    opening of sockets, options and output for the user; the messages of the
    parser; the failure of [malloc] in the tables of the control centre, its status
    files and its state machines; the other programs.
    The other programs of the repository are not part of this library. *)

From stdpp Require Export base gmap strings list pretty.
From Stdlib Require Export ZArith Lia Ascii.

#[global] Open Scope Z_scope.

(** * Machine integers

    A C integer is a [Z]; an assignment to a narrower object wraps as the
    conversion does: [u8 .. u32] are the unsigned conversions, [i8] and [i32]
    the two's complement ones. *)

Definition wrap (w z : Z) : Z := z mod 2 ^ w.
Definition swrap (w z : Z) : Z := (z + 2 ^ (w - 1)) mod 2 ^ w - 2 ^ (w - 1).

Abbreviation u8 := (wrap 8).
Abbreviation u16 := (wrap 16).
Abbreviation u32 := (wrap 32).
Abbreviation u64 := (wrap 64).
Abbreviation i8 := (swrap 8).
Abbreviation i16 := (swrap 16).
Abbreviation i32 := (swrap 32).

Lemma wrap_range w z : 0 <= w -> 0 <= wrap w z < 2 ^ w.
Proof. intros Hw. apply Z.mod_pos_bound, Z.pow_pos_nonneg; lia. Qed.

Lemma wrap_small w z : 0 <= z < 2 ^ w -> wrap w z = z.
Proof. apply Z.mod_small. Qed.

Lemma wrap_0 w : wrap w 0 = 0.
Proof. apply Zmod_0_l. Qed.

Lemma swrap_small w z : 0 < w -> - 2 ^ (w - 1) <= z < 2 ^ (w - 1) -> swrap w z = z.
Proof.
  intros Hw Hz. unfold swrap. rewrite Z.mod_small; [lia |].
  assert (2 ^ w = 2 * 2 ^ (w - 1)) by (rewrite <- Z.pow_succ_r; [f_equal | ]; lia).
  lia.
Qed.

Lemma wrap_testbit w z i : 0 <= w -> 0 <= i ->
  Z.testbit (wrap w z) i = (i <? w) && Z.testbit z i.
Proof.
  intros Hw Hi. unfold wrap. destruct (Z.ltb_spec i w).
  - rewrite Z.mod_pow2_bits_low; [done | lia].
  - rewrite Z.mod_pow2_bits_high; [done | lia].
Qed.

(** Setting a bit above a number adds it. *)
Lemma lor_high x k : 0 <= x < 2 ^ k -> 0 <= k -> Z.lor x (2 ^ k) = x + 2 ^ k.
Proof.
  intros H Hk. assert (E : Z.land x (2 ^ k) = 0).
  { apply Z.bits_inj'. intros n Hn. rewrite Z.land_spec, Z.bits_0.
    destruct (decide (n = k)) as [-> | Hne]; [| by rewrite Z.pow2_bits_false, andb_false_r by lia].
    destruct (decide (x = 0)) as [-> | Hx]; [by rewrite Z.bits_0 |].
    rewrite Z.bits_above_log2; [done | lia |]. apply Z.log2_lt_pow2; lia. }
  by rewrite Z.add_nocarry_lxor, Z.lxor_lor.
Qed.

(** The truth value C gives a comparison. *)
Definition c_bool (b : bool) : Z := if b then 1 else 0.

(** * Record update

    [r <| f := v |>] replaces field [f] of record [r]; the setter of a field is
    derived from the record's eta expansion, which one [Settable] instance per
    record provides. *)

Class Settable (R : Type) := eta_of : R -> R.
Class Setter {R E : Type} (proj : R -> E) := over : (E -> E) -> R -> R.
Arguments over {R E} proj {_} _ _ /.

Ltac derive_setter :=
  lazymatch goal with
  | |- @Setter ?R ?E ?p =>
      let eta := eval hnf in (@eta_of R _) in
      lazymatch eval pattern p in eta with
      | ?g _ =>
          let body := eval cbv beta in
            (fun (u : E -> E) (r : R) => g (fun x => u (p x)) r) in
          exact body
      end
  end.
#[export] Hint Extern 1 (Setter _) => derive_setter : typeclass_instances.

Declare Scope record_scope.
#[global] Open Scope record_scope.
Notation "r <| p := v |>" := (over p (fun _ => v) r)
  (at level 1, p at next level, left associativity) : record_scope.
Notation "r <| p ::= u |>" := (over p u r)
  (at level 1, p at next level, left associativity) : record_scope.

(** * Programs

    A C function that reads and writes the daemon's state is a [prog]: a
    function from the state to a result and the new state, or [None] where the
    behaviour of the C code is undefined (an access outside an array, through a
    null or a dangling pointer, or past a buffer's end). *)

Definition prog (S A : Type) : Type := S -> option (A * S).

Section Prog.
  Context {S : Type}.

Definition ret {A} (a : A) : prog S A := fun s => Some (a, s).
Definition bind {A B} (m : prog S A) (k : A -> prog S B) : prog S B :=
    fun s => match m s with Some (a, s') => k a s' | None => None end.
Definition undefined {A} : prog S A := fun _ => None.
Definition get : prog S S := fun s => Some (s, s).
Definition put (s' : S) : prog S unit := fun _ => Some (tt, s').
Definition modify (f : S -> S) : prog S unit := fun s => Some (tt, f s).
Definition gets {A} (f : S -> A) : prog S A := fun s => Some (f s, s).

  (** [need o]: the value the C code reads, when the access is defined. *)
Definition need {A} (o : option A) : prog S A :=
    match o with Some a => ret a | None => undefined end.

  (** [guard b]: the access is defined when [b] holds. *)
Definition guard (b : bool) : prog S unit := if b then ret tt else undefined.
End Prog.

Declare Scope prog_scope.
Delimit Scope prog_scope with prog.
#[global] Open Scope prog_scope.
Notation "'let*' x ':=' m 'in' k" := (bind m (fun x => k))
  (at level 10, x name, m at level 100, k at level 200) : prog_scope.
Notation "'let*' ' x ':=' m 'in' k" := (bind m (fun x => k))
  (at level 10, x strict pattern, m at level 100, k at level 200) : prog_scope.
Notation "'do*' m 'in' k" := (bind m (fun _ => k))
  (at level 10, m at level 100, k at level 200) : prog_scope.

(** A [for] loop of [prog]s over the values its variable takes. *)
Fixpoint for_each {S X} (l : list X) (body : X -> prog S unit) : prog S unit :=
  match l with
  | [] => ret tt
  | x :: l => do* body x in for_each l body
  end.

(** The values of a C loop variable that runs from [a] up to [b] included. *)
Definition range (a b : Z) : list Z := seqZ a (b - a + 1).

(** * Running programs *)

Section ProgLemmas.
  Context {S : Type}.
  Implicit Types (s : S).

Lemma bind_some {A B} (m : prog S A) (k : A -> prog S B) s a s' :
    m s = Some (a, s') -> bind m k s = k a s'.
Proof. unfold bind. by intros ->. Qed.

Lemma bind_run {A B} (m : prog S A) (k : A -> prog S B) s :
    bind m k s = match m s with Some (a, s') => k a s' | None => None end.
Proof. reflexivity. Qed.
Lemma bind_gets {A B} (f : S -> A) (k : A -> prog S B) s : bind (gets f) k s = k (f s) s.
Proof. reflexivity. Qed.
Lemma bind_get {B} (k : S -> prog S B) s : bind get k s = k s s.
Proof. reflexivity. Qed.
Lemma bind_modify {B} (f : S -> S) (k : unit -> prog S B) s : bind (modify f) k s = k tt (f s).
Proof. reflexivity. Qed.
Lemma bind_ret {A B} (a : A) (k : A -> prog S B) s : bind (ret a) k s = k a s.
Proof. reflexivity. Qed.
Lemma bind_assoc {A B C} (m : prog S A) (k : A -> prog S B) (k' : B -> prog S C) s :
    bind (bind m k) k' s = bind m (fun a => bind (k a) k') s.
Proof. unfold bind. by destruct (m s) as [[a s'] |]. Qed.

Lemma bind_inv {A B} (m : prog S A) (k : A -> prog S B) s r :
    bind m k s = Some r -> exists a s', m s = Some (a, s') /\ k a s' = Some r.
Proof. unfold bind. destruct (m s) as [[a s'] |]; naive_solver. Qed.

Lemma for_each_app {X} (l1 l2 : list X) (body : X -> prog S unit) s :
    for_each (l1 ++ l2) body s = (do* for_each l1 body in for_each l2 body) s.
Proof.
    revert s. induction l1 as [| x l1 IH]; intros s; [done |].
    cbn. unfold bind. destruct (body x s) as [[[] s'] |]; [| done].
    specialize (IH s'). unfold bind in IH. apply IH.
Qed.

  (** The rule of a [for] loop: an invariant each pass preserves. *)
Lemma for_each_inv {X} (I : S -> Prop) (body : X -> prog S unit) (l : list X) s :
    I s -> (forall x s0, x ∈ l -> I s0 -> exists s1, body x s0 = Some (tt, s1) /\ I s1) ->
    exists s', for_each l body s = Some (tt, s') /\ I s'.
Proof.
    revert s. induction l as [| x l IH]; intros s Hs Hbody.
    - exists s. auto.
    - destruct (Hbody x s) as (s1 & E & H1); [left | done |].
      destruct (IH s1) as (s2 & E2 & H2); [done | intros; apply Hbody; [by right | done] |].
      exists s2. cbn. unfold bind. rewrite E. auto.
Qed.

  (** The rule of a counting loop: the invariant holds at each value of the
      loop variable, the first one after the last included. *)
Lemma for_each_range (I : Z -> S -> Prop) (body : Z -> prog S unit) a b s :
    a <= b + 1 -> I a s ->
    (forall x s0, a <= x <= b -> I x s0 ->
      exists s1, body x s0 = Some (tt, s1) /\ I (x + 1) s1) ->
    exists s', for_each (range a b) body s = Some (tt, s') /\ I (b + 1) s'.
Proof.
    intros Hab. remember (Z.to_nat (b - a + 1)) as n eqn:Hn.
    revert a s Hab Hn. induction n as [| n IH]; intros a s Hab Hn Ha Hbody.
    - exists s. unfold range. rewrite seqZ_nil by lia. split; [done |].
      by replace (b + 1) with a by lia.
    - destruct (Hbody a s) as (s1 & E & H1); [lia | done |].
      destruct (IH (a + 1) s1) as (s2 & E2 & H2); [lia | lia | done | |].
      { intros x s0 Hx. apply Hbody. lia. }
      exists s2. split; [| done]. unfold range in *. rewrite seqZ_cons by lia. cbn.
      unfold bind. rewrite E. rewrite <- E2. f_equal. f_equal; lia.
Qed.
End ProgLemmas.

(** * Programs that keep an invariant

    [keeps I Q m]: from every state of the invariant [I] the program [m] has a
    defined result, which satisfies [Q], and ends in a state of [I]. *)

Definition keeps {S A} (I : S -> Prop) (Q : A -> Prop) (m : prog S A) : Prop :=
  forall s, I s -> exists a s', m s = Some (a, s') /\ I s' /\ Q a.

Section Keeps.
  Context {S : Type} (I : S -> Prop).

Lemma keeps_ret {A} (Q : A -> Prop) a : Q a -> keeps I Q (ret a).
Proof. intros H s Hs. by exists a, s. Qed.
Lemma keeps_bind {A B} (P : A -> Prop) (Q : B -> Prop) (m : prog S A) (k : A -> prog S B) :
    keeps I P m -> (forall a, P a -> keeps I Q (k a)) -> keeps I Q (let* a := m in k a).
Proof.
    intros Hm Hk s Hs. destruct (Hm s Hs) as (a & s' & E & Hs' & Ha).
    destruct (Hk a Ha s' Hs') as (b & s'' & E' & Hs'' & Hb).
    exists b, s''. by rewrite (bind_some _ _ _ _ _ E).
Qed.
Lemma keeps_assoc {A B C} (Q : C -> Prop) (m : prog S A) (k : A -> prog S B) (k' : B -> prog S C) :
    keeps I Q (let* a := m in let* b := k a in k' b) -> keeps I Q (let* b := (let* a := m in k a) in k' b).
Proof. intros H s Hs. rewrite bind_assoc. exact (H s Hs). Qed.
Lemma keeps_bind_ret {A B} (Q : B -> Prop) (a : A) (k : A -> prog S B) :
    keeps I Q (k a) -> keeps I Q (let* a := ret a in k a).
Proof. intros H s Hs. exact (H s Hs). Qed.
Lemma keeps_bind_if {A B} (Q : B -> Prop) (c : bool) (m1 m2 : prog S A) (k : A -> prog S B) :
    keeps I Q (if c then let* a := m1 in k a else let* a := m2 in k a) ->
    keeps I Q (let* a := (if c then m1 else m2) in k a).
Proof. by destruct c. Qed.
Lemma keeps_if {A} (Q : A -> Prop) (c : bool) (m1 m2 : prog S A) :
    (c = true -> keeps I Q m1) -> (c = false -> keeps I Q m2) -> keeps I Q (if c then m1 else m2).
Proof. destruct c; auto. Qed.
Lemma keeps_weaken {A} (P Q : A -> Prop) (m : prog S A) :
    keeps I P m -> (forall a, P a -> Q a) -> keeps I Q m.
Proof. intros Hm H s Hs. destruct (Hm s Hs) as (a & s' & E & Hs' & Ha). exists a, s'. auto. Qed.
Lemma keeps_need {A} (Q : A -> Prop) (o : option A) a : o = Some a -> Q a -> keeps I Q (need o).
Proof. intros -> H. by apply keeps_ret. Qed.
Lemma keeps_for_each {X} (Q : unit -> Prop) (l : list X) (body : X -> prog S unit) :
    Q tt -> (forall x, x ∈ l -> keeps I (fun _ => True) (body x)) -> keeps I Q (for_each l body).
Proof.
    intros HQ H s Hs. destruct (for_each_inv I body l s Hs) as (s' & E & Hs').
    - intros x s0 Hx H0. destruct (H x Hx s0 H0) as ([] & s1 & E & H1 & _). eauto.
    - by exists tt, s'.
Qed.
End Keeps.

Create HintDb keeps discriminated.
#[export] Hint Resolve keeps_ret : keeps.

(** One step through a program: the first command by its lemma, then the rest
    for every result it may have. *)
Ltac keep_step :=
  lazymatch goal with
  | |- keeps _ _ (bind (bind _ _) _) => apply keeps_assoc
  | |- keeps _ _ (bind (ret _) _) => apply keeps_bind_ret
  | |- keeps _ _ (bind (if _ then _ else _) _) => apply keeps_bind_if
  | |- keeps _ _ (bind _ _) =>
      eapply keeps_bind; [solve [eauto with keeps] | cbv beta; intros ? ?]
  | |- keeps _ _ (if _ then _ else _) => apply keeps_if; intros ?
  | |- keeps _ _ (match ?x with _ => _ end) => destruct x
  | |- _ => solve [eauto with keeps]
  end.

(** * What every run keeps

    [preserves R m]: whatever the outcome of [m], as long as it is defined, the
    state before and the state after are related by [R]. *)

Section Preserves.
  Context {S : Type} (R : S -> S -> Prop) `{HR : !PreOrder R}.

Definition preserves {A} (m : prog S A) : Prop := forall s a s', m s = Some (a, s') -> R s s'.

Lemma preserves_ret {A} (a : A) : preserves (ret a).
Proof using HR. intros s a' s' [= _ <-]. reflexivity. Qed.
Lemma preserves_undefined {A} : preserves (undefined : prog S A).
Proof. by intros s a s'. Qed.
Lemma preserves_gets {A} (f : S -> A) : preserves (gets f).
Proof using HR. intros s a s' [= _ <-]. reflexivity. Qed.
Lemma preserves_need {A} (o : option A) : preserves (need o).
Proof using HR. destruct o; [apply preserves_ret | apply preserves_undefined]. Qed.
Lemma preserves_guard b : preserves (guard b).
Proof using HR. destruct b; [apply preserves_ret | apply preserves_undefined]. Qed.
Lemma preserves_modify (f : S -> S) : (forall s, R s (f s)) -> preserves (modify f).
Proof. intros H s a s' [= _ <-]. apply H. Qed.
Lemma preserves_bind {A B} (m : prog S A) (k : A -> prog S B) :
  preserves m -> (forall a, preserves (k a)) -> preserves (let* a := m in k a).
Proof using HR.
  intros Hm Hk s b s' H. unfold bind in H. destruct (m s) as [[a s1] |] eqn:E; [| done].
  transitivity s1; [by apply (Hm s a) | by apply (Hk a s1 b)].
Qed.
Lemma preserves_if {A} (b : bool) (m1 m2 : prog S A) :
  preserves m1 -> preserves m2 -> preserves (if b then m1 else m2).
Proof. by destruct b. Qed.
Lemma preserves_for_each {X} (l : list X) (body : X -> prog S unit) :
  (forall x, preserves (body x)) -> preserves (for_each l body).
Proof using HR.
  intros H. induction l as [| x l IH]; [apply preserves_ret | by apply preserves_bind].
Qed.
End Preserves.

Create HintDb preserves discriminated.
#[export] Hint Extern 0 (preserves _ (ret _)) => exact (preserves_ret _ _) : preserves.
#[export] Hint Extern 0 (preserves _ undefined) => exact (preserves_undefined _) : preserves.
#[export] Hint Extern 0 (preserves _ (gets _)) => exact (preserves_gets _ _) : preserves.
#[export] Hint Extern 0 (preserves _ (need _)) => exact (preserves_need _ _) : preserves.
#[export] Hint Extern 0 (preserves _ (guard _)) => exact (preserves_guard _ _) : preserves.

(** Through a program, one command after the other; a lemma of the database
    ends the way through a call. *)
Ltac preserve :=
  repeat lazymatch goal with
  | |- preserves _ (bind _ _) => apply preserves_bind; [exact _ | | intros ?]
  | |- preserves _ (if ?b then _ else _) => destruct b
  | |- preserves _ (for_each _ _) => apply preserves_for_each; [exact _ | intros ?]
  | |- preserves _ (match ?x with _ => _ end) => destruct x
  | |- preserves _ (let _ := _ in _) => cbv zeta
  | |- _ => solve [eauto with preserves]
  end.

Lemma elem_of_range a b x : x ∈ range a b <-> a <= x <= b.
Proof. unfold range. rewrite elem_of_seqZ. lia. Qed.

(** * Arrays

    A C array of [n] elements is a finite map whose domain is [0 .. n-1]; an
    access at an index outside the domain is undefined. *)

Definition array {A} (n : Z) (a : A) : gmap Z A := map_seqZ 0 (replicate (Z.to_nat n) a).

Lemma lookup_array {A} n (a : A) i :
  array n a !! i = if decide (0 <= i < n) then Some a else None.
Proof.
  unfold array. case_decide as H.
  - rewrite lookup_map_seqZ_0 by lia. apply lookup_replicate_2. lia.
  - destruct (decide (0 <= i)).
    + rewrite lookup_map_seqZ_0 by lia. apply lookup_replicate_None. lia.
    + apply lookup_map_seqZ_None. lia.
Qed.

Lemma lookup_array_some {A} n (a : A) i : 0 <= i < n -> array n a !! i = Some a.
Proof. intros H. rewrite lookup_array. by case_decide. Qed.

(** The map is an array of [n] elements. *)
Definition is_array {A} (n : Z) (m : gmap Z A) : Prop :=
  forall i, is_Some (m !! i) <-> 0 <= i < n.

Lemma is_array_array {A} n (a : A) : is_array n (array n a).
Proof.
  intros i. rewrite lookup_array. case_decide; split; intros H'; try done.
Qed.

Lemma is_array_lookup {A} n (m : gmap Z A) i :
  is_array n m -> 0 <= i < n -> exists a, m !! i = Some a.
Proof. intros H Hi. apply H in Hi. destruct Hi as [a Ha]. eauto. Qed.

Lemma is_array_bound {A} n (m : gmap Z A) i a :
  is_array n m -> m !! i = Some a -> 0 <= i < n.
Proof. intros H E. apply H. eauto. Qed.

Lemma is_array_insert {A} n (m : gmap Z A) i a :
  is_array n m -> 0 <= i < n -> is_array n (<[i := a]> m).
Proof.
  intros H Hi j. destruct (decide (i = j)) as [-> | Hij].
  - rewrite lookup_insert. case_decide; [by split; eauto | done].
  - rewrite lookup_insert_ne by done. apply H.
Qed.

(** An array is looked up through its lemmas, never unfolded. *)
#[global] Arguments array : simpl never.
#[global] Opaque array.

(** * Lists *)

Lemma omap_ext_in {A B} (f g : A -> option B) (l : list A) :
  (forall x, x ∈ l -> f x = g x) -> omap f l = omap g l.
Proof.
  induction l as [| x l IH]; intros H; [done |]. cbn.
  rewrite (H x), IH; [done | | left]. intros y Hy. apply H. by right.
Qed.

Lemma seqZ_singleton a : seqZ a 1 = [a].
Proof. rewrite seqZ_cons, seqZ_nil by lia. done. Qed.

Lemma omap_map {A B C} (f : B -> option C) (g : A -> B) (l : list A) :
  omap f (g <$> l) = omap (fun x => f (g x)) l.
Proof. induction l as [| x l IH]; [done |]. cbn. by rewrite <- IH. Qed.

Lemma nat_div_mod_8 i j : (i / 8 = j / 8 -> i mod 8 = j mod 8 -> i = j)%nat.
Proof.
  intros H1 H2. rewrite (Nat.div_mod_eq i 8), (Nat.div_mod_eq j 8). lia.
Qed.

(** A finite check: a test that evaluates to [true] on a range holds on it. *)
Lemma forallb_seqZ (f : Z -> bool) a n x :
  forallb f (seqZ a n) = true -> a <= x < a + n -> f x = true.
Proof. rewrite forallb_forall. intros H Hx. apply H. rewrite <- list_elem_of_In, elem_of_seqZ. lia. Qed.

(** * Automation *)

(** Run a program symbolically: unfold the monad and take the branches the
    context decides. *)
Ltac prog_step :=
  match goal with
  | |- context [@bind] => progress unfold bind at 1
  | |- context [@need] => progress unfold need
  | |- context [@guard] => progress unfold guard
  | H : ?x = _ |- context [match ?x with _ => _ end] => rewrite H
  end.
Ltac run :=
  unfold bind, ret, get, put, modify, gets, need, guard, undefined in *; cbn.

(** Turn the boolean comparisons of a guard into arithmetic. *)
Ltac bool_hyps :=
  repeat match goal with
  | H : (_ && _)%bool = true |- _ => apply andb_true_iff in H; destruct H
  | H : (_ || _)%bool = false |- _ => apply orb_false_iff in H; destruct H
  | H : negb _ = true |- _ => apply negb_true_iff in H
  | H : negb _ = false |- _ => apply negb_false_iff in H
  | H : (_ =? _) = true |- _ => apply Z.eqb_eq in H
  | H : (_ =? _) = false |- _ => apply Z.eqb_neq in H
  | H : (_ <? _) = true |- _ => apply Z.ltb_lt in H
  | H : (_ <? _) = false |- _ => apply Z.ltb_ge in H
  | H : (_ <=? _) = true |- _ => apply Z.leb_le in H
  | H : (_ <=? _) = false |- _ => apply Z.leb_gt in H
  end.

(** Decide a goal about boolean comparisons by arithmetic. *)
Ltac zbool :=
  repeat match goal with
  | |- context [?a =? ?b] => destruct (Z.eqb_spec a b)
  | |- context [?a <? ?b] => destruct (Z.ltb_spec a b)
  | |- context [?a <=? ?b] => destruct (Z.leb_spec a b)
  end; cbn; try lia; try done.

Create HintDb machine discriminated.
#[export] Hint Resolve wrap_range : machine.
#[export] Hint Resolve is_array_array is_array_insert lookup_array_some : machine.
