(* ===== verification/Ring.v ===== *)
(** The command queues: a ring buffer over an array, as srcp-ga.c, srcp-gl.c,
    srcp-sm.c and srcp-fb.c each declare it (an array [queue] of [QUEUELEN]
    cells with the indices [in] and [out]).  The first part is the abstract
    FIFO a client relies on, the second the ring and the proof that it
    implements that FIFO. *)

From S2P Require Import Prelude.

(** * The abstract queue *)

(** What a bounded queue promises to its users: its operations act on a list
    of pending elements as a FIFO that holds at most [capacity] of them. *)
Class Fifo (Q A : Type) := {
  fifo_wf : Q -> Prop;
  fifo_list : Q -> list A;
  fifo_capacity : Z;
  fifo_empty : Q -> bool;
  fifo_full : Q -> bool;
  fifo_put : A -> Q -> option Q;
  fifo_take : Q -> option (A * Q);
  fifo_empty_spec q : fifo_wf q -> fifo_empty q = true <-> fifo_list q = [];
  fifo_full_spec q : fifo_wf q ->
    fifo_full q = true <-> fifo_capacity <= Z.of_nat (length (fifo_list q));
  fifo_put_spec q a : fifo_wf q -> fifo_full q = false ->
    exists q', fifo_put a q = Some q' /\ fifo_wf q' /\ fifo_list q' = fifo_list q ++ [a];
  fifo_take_spec q a l : fifo_wf q -> fifo_list q = a :: l ->
    exists q', fifo_take q = Some (a, q') /\ fifo_wf q' /\ fifo_list q' = l;
  fifo_take_empty q : fifo_wf q -> fifo_list q = [] -> fifo_take q = None;
}.

(** * The ring *)

Module Ring.

Record t (A : Type) := mk { queue : gmap Z A; in_ : Z; out : Z }.
Arguments mk {A}.
Arguments queue {A}.
Arguments in_ {A}.
Arguments out {A}.

#[global] Instance eta_ring A : Settable (t A) :=
    fun r => mk r.(queue) r.(in_) r.(out).

Section Ring.
Context {A : Type} (QUEUELEN : Z).
Implicit Types (r : t A) (a : A).

  (** The static arrays start zeroed. *)
Definition make (zero : A) : t A := mk (array QUEUELEN zero) 0 0.

Definition isempty r : bool := r.(in_) =? r.(out).

Definition len r : Z :=
    if r.(out) <=? r.(in_) then r.(in_) - r.(out)
    else QUEUELEN + r.(in_) - r.(out).

Definition isfull r : bool := QUEUELEN - 1 <=? len r.

  (** One more than an index, wrapping at the array's end. *)
Definition next (i : Z) : Z := if i + 1 =? QUEUELEN then 0 else i + 1.

  (** Change the cell at [in] and step past it. *)
Definition put_with (f : A -> A) r : option (t A) :=
    match r.(queue) !! r.(in_) with
    | Some c => Some (r <| queue ::= <[r.(in_) := f c]> |> <| in_ ::= next |>)
    | None => None
    end.

Definition put a r : option (t A) := put_with (fun _ => a) r.

Definition peek r : option A := r.(queue) !! r.(out).

Definition take r : option (A * t A) :=
    if isempty r then None
    else match peek r with
         | Some c => Some (c, r <| out ::= next |>)
         | None => None
         end.

  (** ** The queue the ring stands for *)

Definition contents r : list A :=
    omap (fun k => r.(queue) !! ((r.(out) + k) mod QUEUELEN)) (seqZ 0 (len r)).

Record wf r : Prop := {
    wf_queue : is_array QUEUELEN r.(queue);
    wf_in : 0 <= r.(in_) < QUEUELEN;
    wf_out : 0 <= r.(out) < QUEUELEN;
  }.

Lemma len_mod r : wf r -> len r = (r.(in_) - r.(out)) mod QUEUELEN.
Proof.
    intros [_ Hi Ho]. unfold len. destruct (Z.leb_spec r.(out) r.(in_)).
    - rewrite Z.mod_small; lia.
    - apply Z.mod_unique with (-1); lia.
Qed.

Lemma len_range r : wf r -> 0 <= len r < QUEUELEN.
Proof. intros [_ Hi Ho]. unfold len. zbool. Qed.

Lemma next_range i : 0 <= i < QUEUELEN -> 0 <= next i < QUEUELEN.
Proof. unfold next. zbool. Qed.

Lemma next_mod i : 0 <= i < QUEUELEN -> next i = (i + 1) mod QUEUELEN.
Proof.
    intros H. unfold next. destruct (Z.eqb_spec (i + 1) QUEUELEN) as [-> |].
    - by rewrite Z.mod_same by lia.
    - rewrite Z.mod_small; lia.
Qed.

Lemma wf_cell r i : wf r -> exists c, r.(queue) !! (i mod QUEUELEN) = Some c.
Proof.
    intros [Hq Hi _]. eapply is_array_lookup; [done |]. apply Z.mod_pos_bound. lia.
Qed.

Lemma omap_cells_length r l : wf r ->
    length (omap (fun k => r.(queue) !! ((r.(out) + k) mod QUEUELEN)) l) = length l.
Proof.
    intros Hr. induction l as [| k l IH]; [done |]. cbn.
    destruct (wf_cell r (r.(out) + k) Hr) as [c ->]. cbn. by rewrite IH.
Qed.

Lemma contents_length r : wf r -> Z.of_nat (length (contents r)) = len r.
Proof.
    intros Hr. unfold contents. rewrite omap_cells_length, length_seqZ by done.
    pose proof (len_range r Hr). lia.
Qed.

Lemma make_wf zero : 0 < QUEUELEN -> wf (make zero).
Proof. intros H. split; cbn; [apply is_array_array | lia | lia]. Qed.

Lemma make_contents zero : contents (make zero) = [].
Proof. done. Qed.

Lemma isempty_spec r : wf r -> isempty r = true <-> contents r = [].
Proof.
    intros Hr. pose proof (contents_length r Hr) as HL.
    rewrite <- length_zero_iff_nil. unfold isempty, len in *. destruct Hr.
    revert HL. zbool; lia.
Qed.

Lemma isfull_spec r : wf r ->
    isfull r = true <-> QUEUELEN - 1 <= Z.of_nat (length (contents r)).
Proof. intros Hr. rewrite contents_length by done. unfold isfull. apply Z.leb_le. Qed.

Lemma put_with_spec r f : wf r -> isfull r = false ->
  exists c r', r.(queue) !! r.(in_) = Some c /\ put_with f r = Some r' /\ wf r' /\
    r'.(out) = r.(out) /\ contents r' = contents r ++ [f c].
Proof.
  intros Hr Hf. destruct (wf_cell r r.(in_) Hr) as [c Hc].
  pose proof (len_range r Hr) as HL. pose proof (len_mod r Hr) as HM.
  assert (HF : len r < QUEUELEN - 1) by (unfold isfull in Hf; by bool_hyps).
  assert (Hi := wf_in r Hr). assert (Ho := wf_out r Hr).
  rewrite Z.mod_small in Hc by done.
  exists c. eexists. unfold put_with. rewrite Hc.
  split; [done |]. split; [reflexivity |]. split; [| split; [done |]].
  { split; cbn; [apply is_array_insert; [apply wf_queue, Hr | done] | by apply next_range | done]. }
  assert (Hlen : len (r <| queue ::= <[r.(in_) := f c]> |> <| in_ ::= next |>) = len r + 1).
  { unfold len, next in *. cbn in *. revert HF. zbool; lia. }
  unfold contents. rewrite Hlen. cbn.
  rewrite (seqZ_app 0 (len r) 1) by lia. rewrite omap_app. f_equal.
  - apply omap_ext_in. intros k Hk. apply elem_of_seqZ in Hk.
    apply lookup_insert_ne. rewrite HM in Hk.
    intros E. assert (r.(in_) - r.(out) = (r.(in_) - r.(out)) mod QUEUELEN \/
      r.(in_) - r.(out) = (r.(in_) - r.(out)) mod QUEUELEN - QUEUELEN) as [? | ?].
    { rewrite <- HM. unfold len. destruct (Z.leb_spec r.(out) r.(in_)); lia. }
    + rewrite Z.mod_small in E; lia.
    + destruct (Z.ltb_spec (r.(out) + k) QUEUELEN).
      * rewrite Z.mod_small in E; lia.
      * replace (r.(out) + k) with ((r.(out) + k - QUEUELEN) + 1 * QUEUELEN) in E by lia.
        rewrite Z.mod_add, Z.mod_small in E; lia.
  - rewrite seqZ_singleton, Z.add_0_l. cbn. replace ((r.(out) + len r) mod QUEUELEN) with r.(in_).
    + by rewrite lookup_insert_eq.
    + rewrite HM, Zplus_mod_idemp_r.
      replace (r.(out) + (r.(in_) - r.(out))) with r.(in_) by lia.
      by rewrite Z.mod_small.
Qed.

Lemma put_spec r a : wf r -> isfull r = false ->
  exists r', put a r = Some r' /\ wf r' /\ contents r' = contents r ++ [a].
Proof.
  intros Hr Hf. destruct (put_with_spec r (fun _ => a) Hr Hf) as (c & r' & _ & ? & ? & _ & ?).
  exists r'. auto.
Qed.

Lemma contents_step r : wf r -> isempty r = false ->
  exists c, peek r = Some c /\
    contents r = c :: contents (r <| out ::= next |>).
Proof.
  intros Hr He. destruct (wf_cell r r.(out) Hr) as [c Hc].
  assert (Hi := wf_in r Hr). assert (Ho := wf_out r Hr).
  rewrite Z.mod_small in Hc by done. exists c. split; [done |].
  assert (Hne : r.(in_) <> r.(out)) by (by unfold isempty in He; bool_hyps).
  assert (Hlen : len r = 1 + len (r <| out ::= next |>)).
  { unfold len, next. cbn. zbool; lia. }
  assert (Hl' : 0 <= len (r <| out ::= next |>)).
  { apply len_range. split; cbn; [apply wf_queue, Hr | done | by apply next_range]. }
  unfold contents. rewrite Hlen, (seqZ_app 0 1), seqZ_singleton by lia. cbn.
  rewrite Z.add_0_r, Z.mod_small, Hc by done. cbn. f_equal.
  rewrite <- (fmap_add_seqZ 1 0). rewrite omap_map.
  apply omap_ext_in. intros k _. cbn. rewrite next_mod by done.
  rewrite Zplus_mod_idemp_l. f_equal. f_equal. lia.
Qed.

Lemma take_spec r a l : wf r -> contents r = a :: l ->
  exists r', take r = Some (a, r') /\ wf r' /\ contents r' = l.
Proof.
  intros Hr Hc. assert (He : isempty r = false).
  { apply not_true_iff_false. rewrite isempty_spec by done. by rewrite Hc. }
  destruct (contents_step r Hr He) as (c & Hp & E). rewrite Hc in E. injection E as <- ->.
  eexists. unfold take. rewrite He, Hp. split; [reflexivity |]. split; [| done].
  split; cbn; [apply wf_queue, Hr | apply wf_in, Hr | apply next_range, wf_out, Hr].
Qed.

Lemma take_empty r : wf r -> contents r = [] -> take r = None.
Proof. intros Hr Hc. unfold take. by rewrite (proj2 (isempty_spec r Hr) Hc). Qed.

(** The ring implements the abstract queue. *)
#[export] Instance ring_fifo : Fifo (t A) A := {
  fifo_wf := wf;
  fifo_list := contents;
  fifo_capacity := QUEUELEN - 1;
  fifo_empty := isempty;
  fifo_full := isfull;
  fifo_put := put;
  fifo_take := take;
  fifo_empty_spec := isempty_spec;
  fifo_full_spec := isfull_spec;
  fifo_put_spec := put_spec;
  fifo_take_spec := take_spec;
  fifo_take_empty := take_empty;
}.

End Ring.
End Ring.
