(* ===== verification/World.v ===== *)
(** The daemon's data: the structures of the header files and the static
    variables of the source files, collected in one record [world].

    An [enum] is an inductive type with the source's constructors, an integer a
    [Z] that holds a value of its C type, a fixed-size array a finite map over
    its indices, a pointer into an array the index it points at, and a null
    pointer [None] (or an index no array has). *)

From S2P Require Import Prelude Ring.

(** * Times *)

Record timeval := mk_timeval { tv_sec : Z; tv_usec : Z }.
#[export] Instance eta_timeval : Settable timeval :=
  fun t => mk_timeval t.(tv_sec) t.(tv_usec).
#[export] Instance timeval_eq_dec : EqDecision timeval.
Proof. solve_decision. Defined.
Definition timeval0 : timeval := mk_timeval 0 0.

(** [vtime_t] and [time_distort_t] of srcp-time.h. *)
Record vtime_t := mk_vtime { day : Z; hour : Z; min : Z; sec : Z }.
#[export] Instance eta_vtime : Settable vtime_t :=
  fun v => mk_vtime v.(day) v.(hour) v.(min) v.(sec).

Record time_distort_t := mk_distort
  { ratio_x : Z; ratio_y : Z; distort_inittime : timeval }.
#[export] Instance eta_distort : Settable time_distort_t :=
  fun d => mk_distort d.(ratio_x) d.(ratio_y) d.(distort_inittime).

(** * Generic locomotives (srcp-gl.h) *)

Definition MAXMFXGL : Z := 16380.
Definition MAXNMRAGL : Z := 10240.
Definition MAXMMGL : Z := 256.
Definition MAXSRCPGL : Z := 256.

Definition SCSPEED : Z := 1.
Definition SCDIREC : Z := 2.
Definition SCEMERG : Z := 4.

Inductive gl_state_t := glsNone | glsTerm | glsInit | glsActive.
#[export] Instance gl_state_eq_dec : EqDecision gl_state_t.
Proof. solve_decision. Defined.

(** The number the enumeration gives a state. *)
Definition gl_state_code (s : gl_state_t) : Z :=
  match s with glsNone => 0 | glsTerm => 1 | glsInit => 2 | glsActive => 3 end.

Record gl_data_t := mk_gl {
  gl_state : gl_state_t;
  gl_protocol : Z;
  gl_protocolversion : Z;
  gl_n_func : Z;
  gl_id : Z;
  gl_n_fs : Z;
  gl_speed : Z;
  gl_direction : Z;
  gl_funcs : Z;
  gl_funcschange : Z;
  gl_speedchange : Z;
  gl_cachedspeed : Z;
  gl_cacheddirection : Z;
  gl_lastfunc : Z;
  gl_updatime : timeval;
  gl_inittime : timeval;
  gl_locktime : timeval;
  gl_lockduration : Z;
  gl_locked_by : Z;
  gl_decuid : Z;
}.
#[export] Instance eta_gl : Settable gl_data_t := fun g =>
  mk_gl g.(gl_state) g.(gl_protocol) g.(gl_protocolversion) g.(gl_n_func) g.(gl_id)
    g.(gl_n_fs) g.(gl_speed) g.(gl_direction) g.(gl_funcs) g.(gl_funcschange)
    g.(gl_speedchange) g.(gl_cachedspeed) g.(gl_cacheddirection) g.(gl_lastfunc)
    g.(gl_updatime) g.(gl_inittime) g.(gl_locktime) g.(gl_lockduration)
    g.(gl_locked_by) g.(gl_decuid).

(** A [gl_data_t] after [bzero]. *)
Definition gl_zero : gl_data_t :=
  mk_gl glsNone 0 0 0 0 0 0 0 0 0 0 0 0 0 timeval0 timeval0 timeval0 0 0 0.

Record gl_dir_t := mk_gl_dir {
  mfxdir : gmap Z Z;
  nmradir : gmap Z Z;
  mmdir : gmap Z Z;
  proto : gmap Z Z;
}.
#[export] Instance eta_gl_dir : Settable gl_dir_t :=
  fun d => mk_gl_dir d.(mfxdir) d.(nmradir) d.(mmdir) d.(proto).

(** The directory after [bzero]. *)
Definition gl_dir_zero : gl_dir_t :=
  mk_gl_dir (array MAXMFXGL 0) (array MAXNMRAGL 0) (array MAXMMGL 0) (array MAXSRCPGL 0).

Record GL := mk_GL {
  numberOfGl : Z;
  glstate : gmap Z gl_data_t;
  gldir : option gl_dir_t;
}.
#[export] Instance eta_GL : Settable GL :=
  fun g => mk_GL g.(numberOfGl) g.(glstate) g.(gldir).

(** * Generic accessories (srcp-ga.h) *)

Definition MAXGAPORT : Z := 2.

Inductive ga_state_t := gasNone | gasActive | gasTerm.
#[export] Instance ga_state_eq_dec : EqDecision ga_state_t.
Proof. solve_decision. Defined.

Record ga_data_t := mk_ga {
  ga_state : ga_state_t;
  ga_protocol : Z;
  ga_id : Z;
  ga_port : Z;
  ga_action : Z;
  ga_activetime : Z;
  ga_inittime : timeval;
  ga_tv0 : timeval;
  ga_tv1 : timeval;
  ga_t : timeval;
  ga_locktime : timeval;
  ga_locked_by : Z;
  ga_lockduration : Z;
}.
#[export] Instance eta_ga : Settable ga_data_t := fun g =>
  mk_ga g.(ga_state) g.(ga_protocol) g.(ga_id) g.(ga_port) g.(ga_action)
    g.(ga_activetime) g.(ga_inittime) g.(ga_tv0) g.(ga_tv1) g.(ga_t)
    g.(ga_locktime) g.(ga_locked_by) g.(ga_lockduration).

Definition ga_zero : ga_data_t :=
  mk_ga gasNone 0 0 0 0 0 timeval0 timeval0 timeval0 timeval0 timeval0 0 0.

(** The array [tv[MAXGAPORT]] of an accessory. *)
Definition ga_tv (g : ga_data_t) (port : Z) : option timeval :=
  if port =? 0 then Some g.(ga_tv0) else if port =? 1 then Some g.(ga_tv1) else None.
Definition ga_set_tv (g : ga_data_t) (port : Z) (t : timeval) : option ga_data_t :=
  if port =? 0 then Some (g <| ga_tv0 := t |>)
  else if port =? 1 then Some (g <| ga_tv1 := t |>) else None.

Record ga_group_t := mk_GA { numberOfGa : Z; gastate : gmap Z ga_data_t }.
#[export] Instance eta_GA : Settable ga_group_t :=
  fun g => mk_GA g.(numberOfGa) g.(gastate).

(** * Feedback (srcp-fb.h) *)

Record fb_state_t := mk_fb { fb_timestamp : timeval; fb_state : Z; fb_change : Z }.
#[export] Instance eta_fb : Settable fb_state_t :=
  fun f => mk_fb f.(fb_timestamp) f.(fb_state) f.(fb_change).

Record fb_t := mk_FB { numberOfFb : Z; fbstate : gmap Z fb_state_t }.
#[export] Instance eta_FB : Settable fb_t := fun f => mk_FB f.(numberOfFb) f.(fbstate).

Record fb_reset_t := mk_fb_reset { reset_port : Z; reset_timestamp : timeval }.
Definition fb_reset_zero : fb_reset_t := mk_fb_reset 0 timeval0.

(** * Service mode (srcp-sm.h) *)

Inductive sm_protocol_t := PROTO_NONE | PROTO_NMRA | PROTO_MM | PROTO_MFX.
Inductive sm_command_t := SET | GET | VERIFY | INIT | TERM.
(** [NO_TYPE] is the -1 a command without a type carries. *)
Inductive sm_type_t := REGISTER | PAGE | CV | CV_BIT | MM_REG | MM_REG_UB | BIND_MFX | CV_MFX | NO_TYPE.
#[export] Instance sm_protocol_eq_dec : EqDecision sm_protocol_t.
Proof. solve_decision. Defined.
#[export] Instance sm_command_eq_dec : EqDecision sm_command_t.
Proof. solve_decision. Defined.
#[export] Instance sm_type_eq_dec : EqDecision sm_type_t.
Proof. solve_decision. Defined.

Record sm_t := mk_sm {
  sm_protocol : sm_protocol_t;
  sm_type : sm_type_t;
  sm_command : sm_command_t;
  sm_protocolversion : Z;
  sm_addr : Z;
  sm_cvaddr : Z;
  sm_index : Z;
  sm_value : Z;
  sm_tv : timeval;
}.
#[export] Instance eta_sm : Settable sm_t := fun s =>
  mk_sm s.(sm_protocol) s.(sm_type) s.(sm_command) s.(sm_protocolversion) s.(sm_addr)
    s.(sm_cvaddr) s.(sm_index) s.(sm_value) s.(sm_tv).
Definition sm_zero : sm_t := mk_sm PROTO_NONE REGISTER SET 0 0 0 0 0 timeval0.

(** * Sessions (srcp-session.h) *)

Inductive SessionMode := smUndefined | smCommand | smInfo.
#[export] Instance session_mode_eq_dec : EqDecision SessionMode.
Proof. solve_decision. Defined.

(** A node of the session list; [sn_next] is the address of the next one. *)
Record session_node_t := mk_node {
  sn_session : Z;
  sn_thread : Z;
  sn_socket : Z;
  sn_mode : SessionMode;
  sn_pipefd0 : Z;
  sn_pipefd1 : Z;
  sn_next : Z;
}.
#[export] Instance eta_node : Settable session_node_t := fun n =>
  mk_node n.(sn_session) n.(sn_thread) n.(sn_socket) n.(sn_mode)
    n.(sn_pipefd0) n.(sn_pipefd1) n.(sn_next).

(** The statics of srcp-session.c, the heap its nodes live in, the pipes
    written and the threads cancelled.  [NULL] is address 0; [heap_top] is the
    address the next [malloc] returns and [heap_limit] where memory ends. *)
Definition NULL : Z := 0.
Record sessions_t := mk_sessions {
  heap : gmap Z session_node_t;
  heap_top : Z;
  heap_limit : Z;
  session_list : Z;
  lastsession : Z;
  runningsessions : Z;
  pipes : gmap Z (list string);
  cancelled : list Z;
}.
#[export] Instance eta_sessions : Settable sessions_t := fun s =>
  mk_sessions s.(heap) s.(heap_top) s.(heap_limit) s.(session_list) s.(lastsession)
    s.(runningsessions) s.(pipes) s.(cancelled).

(** * The CAN side (mcs-gateway.c) *)

Record can_frame := mk_frame { can_id : Z; can_dlc : Z; can_data : list Z }.
#[export] Instance eta_frame : Settable can_frame :=
  fun f => mk_frame f.(can_id) f.(can_dlc) f.(can_data).

Record mcs_t := mk_mcs {
  mcs_bus : Z;
  pingactive : Z;
  ownuid : Z;
  ownhash : Z;
  softvers : list Z;
  simma : Z;
  accactive : Z;
  can_out : list can_frame;
}.
#[export] Instance eta_mcs : Settable mcs_t := fun m =>
  mk_mcs m.(mcs_bus) m.(pingactive) m.(ownuid) m.(ownhash) m.(softvers) m.(simma)
    m.(accactive) m.(can_out).

(** * Buses (config-srcpd.h) *)

Definition MAX_BUSES : Z := 8.

Definition FB_ORDER_0 : Z := 0x0200.
Definition FB_16_PORTS : Z := 0x0400.
Definition FB_4_PORTS : Z := 0x0800.

(** What the function pointers of a bus point at: the handlers of the driver
    that registered it.  The drivers modelled are loopback.c and ddl.c. *)
Inductive driver_t := NoDriver | Loopback | DDL.
#[export] Instance driver_eq_dec : EqDecision driver_t.
Proof. solve_decision. Defined.

(** [LOOPBACK_DATA]: the accessories that wait to be switched off. *)
Definition NTGA : Z := 50.
Record bus_data_t := mk_bus {
  description : string;
  protocols : option string;
  debuglevel : Z;
  driver : driver_t;
  watchdog : Z;
  power_state : Z;
  power_changed : Z;
  power_change_time : timeval;
  power_msg : string;
  flags : Z;
  tga : gmap Z ga_data_t;
}.
#[export] Instance eta_bus : Settable bus_data_t := fun b =>
  mk_bus b.(description) b.(protocols) b.(debuglevel) b.(driver) b.(watchdog)
    b.(power_state) b.(power_changed) b.(power_change_time) b.(power_msg) b.(flags)
    b.(tga).

(** * The server (srcp-server.h) *)

Inductive server_state_t := ssInitializing | ssRunning | ssTerminating | ssResetting.
#[export] Instance server_state_eq_dec : EqDecision server_state_t.
Proof. solve_decision. Defined.

(** * The world

    [w_clock] is the machine's clock: the n-th call of [gettimeofday] reads
    [w_clock n].  [woken] are the bus threads signalled so far, [cmd_akt_time]
    is the static [akt_time] of srcp-command.c, which all client threads share,
    and [sock_out] what has been written to each client's socket. *)

Record world := mk_world {
  w_clock : nat -> timeval;
  w_tick : nat;
  num_buses : Z;
  buses : gmap Z bus_data_t;
  gl : gmap Z GL;
  gl_queue : gmap Z (Ring.t Z);
  ga : gmap Z ga_group_t;
  ga_queue : gmap Z (Ring.t ga_data_t);
  fb : gmap Z fb_t;
  fb_queue : gmap Z (Ring.t fb_reset_t);
  min_time : gmap Z Z;
  sm_queue : gmap Z (Ring.t sm_t);
  cb_data : gmap Z Z;
  vtime : vtime_t;
  distort : time_distort_t;
  sess : sessions_t;
  mcs : mcs_t;
  server_state : server_state_t;
  woken : list Z;
  cmd_akt_time : timeval;
  commandsessions : Z;
  sock_out : gmap Z (list string);
}.
#[export] Instance eta_world : Settable world := fun w =>
  mk_world w.(w_clock) w.(w_tick) w.(num_buses) w.(buses) w.(gl) w.(gl_queue) w.(ga)
    w.(ga_queue) w.(fb) w.(fb_queue) w.(min_time) w.(sm_queue) w.(cb_data) w.(vtime)
    w.(distort) w.(sess) w.(mcs) w.(server_state) w.(woken) w.(cmd_akt_time)
    w.(commandsessions) w.(sock_out).

(** ** Access to the world *)

Definition gettimeofday : prog world timeval :=
  fun w => Some (w.(w_clock) w.(w_tick), w <| w_tick ::= S |>).

Definition bus_get (b : Z) : prog world bus_data_t := fun w => need (w.(buses) !! b) w.
Definition bus_set (b : Z) (d : bus_data_t) : prog world unit :=
  modify (fun w => w <| buses ::= <[b := d]> |>).
Definition bus_mod (bus : Z) (f : bus_data_t -> bus_data_t) : prog world unit :=
  let* b := bus_get bus in bus_set bus (f b).

Definition gl_get (b : Z) : prog world GL := fun w => need (w.(gl) !! b) w.
Definition gl_set (b : Z) (g : GL) : prog world unit :=
  modify (fun w => w <| gl ::= <[b := g]> |>).

Definition ga_get (b : Z) : prog world ga_group_t := fun w => need (w.(ga) !! b) w.
Definition ga_set (b : Z) (g : ga_group_t) : prog world unit :=
  modify (fun w => w <| ga ::= <[b := g]> |>).

Definition fb_get (b : Z) : prog world fb_t := fun w => need (w.(fb) !! b) w.
Definition fb_set (b : Z) (f : fb_t) : prog world unit :=
  modify (fun w => w <| fb ::= <[b := f]> |>).

(** * The state the daemon is loaded with

    Every static variable is zero; the machine's memory is [memory] nodes. *)

Definition bus_zero : bus_data_t :=
  mk_bus "" None 0 NoDriver 0 0 0 timeval0 "" 0 (array NTGA ga_zero).

Definition initial_world (clock : nat -> timeval) (memory : Z) : world := {|
  w_clock := clock;
  w_tick := 0;
  num_buses := 0;
  buses := array MAX_BUSES bus_zero;
  gl := array MAX_BUSES (mk_GL 0 ∅ None);
  gl_queue := array MAX_BUSES (Ring.make 200 (-1));
  ga := array MAX_BUSES (mk_GA 0 ∅);
  ga_queue := array MAX_BUSES (Ring.make 50 ga_zero);
  fb := array MAX_BUSES (mk_FB 0 ∅);
  fb_queue := array MAX_BUSES (Ring.make 1000 fb_reset_zero);
  min_time := array MAX_BUSES 0;
  sm_queue := array MAX_BUSES (Ring.make 2 sm_zero);
  cb_data := array MAX_BUSES 0;
  vtime := mk_vtime 0 0 0 0;
  distort := mk_distort 0 0 timeval0;
  sess := mk_sessions ∅ 1 (1 + memory) NULL 0 0 ∅ [];
  mcs := mk_mcs 0 0 0 0 (repeat 0 8) 0 0 [];
  server_state := ssInitializing;
  woken := [];
  cmd_akt_time := timeval0;
  commandsessions := 0;
  sock_out := ∅;
|}.

Lemma lookup_array_inv {A} n (a : A) i x : array n a !! i = Some x -> x = a /\ 0 <= i < n.
Proof. rewrite lookup_array. case_decide; [| done]. intros [= <-]. auto. Qed.
