(* ===== verification/Messages.v ===== *)
(** The SRCP reply codes (srcp-error.h), the [printf] conversions the daemon
    uses and the lines it sends (srcp-error.c). *)

From S2P Require Import Prelude Ring World.

(** * Reply codes *)

Definition SRCP_INFO : Z := 100.
Definition SRCP_OK : Z := 200.
Definition SRCP_OK_PROTOCOL : Z := 201.
Definition SRCP_OK_CONNMODE : Z := 202.
Definition SRCP_HS_WRONGPROTOCOL : Z := 400.
Definition SRCP_HS_WRONGCONNMODE : Z := 401.
Definition SRCP_HS_NODATA : Z := 402.
Definition SRCP_UNKNOWNCOMMAND : Z := 410.
Definition SRCP_UNKNOWNVALUE : Z := 411.
Definition SRCP_WRONGVALUE : Z := 412.
Definition SRCP_TEMPORARILYPROHIBITED : Z := 413.
Definition SRCP_DEVICELOCKED : Z := 414.
Definition SRCP_FORBIDDEN : Z := 415.
Definition SRCP_NODATA : Z := 416.
Definition SRCP_TIMEOUT : Z := 417.
Definition SRCP_LISTTOOLONG : Z := 418.
Definition SRCP_LISTTOOSHORT : Z := 419.
Definition SRCP_UNSUPPORTEDDEVICEPROTOCOL : Z := 420.
Definition SRCP_UNSUPPORTEDDEVICE : Z := 421.
Definition SRCP_UNSUPPORTEDDEVICEGROUP : Z := 422.
Definition SRCP_UNSUPPORTEDOPERATION : Z := 423.
Definition SRCP_DEVICEREINITIALIZED : Z := 424.
Definition SRCP_OUTOFRESOURCES : Z := 500.

(** * Conversions of [printf] *)

(** A list of pieces, one after the other. *)
Fixpoint fmt (l : list string) : string :=
  match l with
  | [] => ""
  | s :: l => s +:+ fmt l
  end.

Definition nl : string := String (ascii_of_nat 10) "".

(** [%d], [%ld], [%lld]; [%u] and [%lu] of a non-negative value. *)
Definition dec (z : Z) : string := pretty z.

Fixpoint zeros (n : nat) : string :=
  match n with
  | O => ""
  | S n => String "0" (zeros n)
  end.

(** [%.3ld]: at least three digits. *)
Definition dec3 (z : Z) : string :=
  let d := dec (Z.abs z) in
  (if z <? 0 then "-" else "") +:+ zeros (3 - String.length d) +:+ d.

(** [%c] *)
Definition chr (c : Z) : string := String (ascii_of_N (Z.to_N c)) "".

(** The time stamp that opens every line: ["%lld.%.3ld"] of the seconds and the
    milliseconds, [tv_usec / 1000] truncating as C does. *)
Definition stamp (t : timeval) : string :=
  fmt [dec t.(tv_sec); "."; dec3 (Z.quot t.(tv_usec) 1000)].

(** A character constant of the source. *)
Definition ch (a : ascii) : Z := Z.of_N (N_of_ascii a).

(** * srcp_fmt_msg *)

(** The text of a code, when the table has one. *)
Definition srcp_text (errorcode : Z) : option string :=
  match errorcode with
  | 100 | 101 | 102 | 110 => Some "INFO"
  | 200 => Some "OK"
  | 202 => Some "OK CONNECTIONMODE"
  | 201 => Some "OK PROTOCOL SRCP"
  | 400 => Some "ERROR unsupported protocol"
  | 401 => Some "ERROR unsupported connection mode"
  | 402 => Some "ERROR insufficient data"
  | 410 => Some "ERROR unknown command"
  | 411 => Some "ERROR unknown value"
  | 412 => Some "ERROR wrong value"
  | 413 => Some "ERROR temporarily prohibited"
  | 414 => Some "ERROR device locked"
  | 415 => Some "ERROR forbidden"
  | 416 => Some "ERROR no data"
  | 417 => Some "ERROR timeout"
  | 418 => Some "ERROR list too long"
  | 419 => Some "ERROR list too short"
  | 420 => Some "ERROR unsupported device protocol"
  | 421 => Some "ERROR unsupported device"
  | 422 => Some "ERROR unsupported device group"
  | 423 => Some "ERROR unsupported operation"
  | 424 => Some "ERROR device reinitialized"
  | 500 => Some "ERROR out of resources"
  | _ => None
  end%string.

(** The message written and the code returned. *)
Definition srcp_fmt_msg (errorcode : Z) (time : timeval) : Z * string :=
  match srcp_text errorcode with
  | None =>
      (errorcode, fmt [stamp time; " 600 ERROR internal error "; dec errorcode; nl])
  | Some emsg =>
      (errorcode, fmt [stamp time; " "; dec errorcode; " "; emsg; nl])
  end.

(** [cmpTime] of toolbox.c: 1 when [t2] is later than [t1]. *)
Definition cmpTime (t1 t2 : timeval) : bool :=
  if t1.(tv_sec) <? t2.(tv_sec) then true
  else if t2.(tv_sec) =? t1.(tv_sec) then t1.(tv_usec) <? t2.(tv_usec)
  else false.

(** * The lines are well formed *)

Fixpoint string_last (s : string) : option ascii :=
  match s with
  | "" => None
  | String a "" => Some a
  | String _ s => string_last s
  end%string.

Lemma string_last_app s a : string_last (s +:+ String a "") = Some a.
Proof. induction s as [| b s IH]; [done |]. destruct s; [done |]. exact IH. Qed.

Lemma str_app_assoc (a b d : string) : a +:+ (b +:+ d) = (a +:+ b) +:+ d.
Proof. induction a as [| x a IH]; [done |]. exact (f_equal (String x) IH). Qed.

Lemma fmt_app l1 l2 : fmt (l1 ++ l2) = fmt l1 +:+ fmt l2.
Proof. induction l1 as [| s l1 IH]; [done |]. cbn. by rewrite IH, str_app_assoc. Qed.

Lemma fmt_nl_last l : string_last (fmt (l ++ [nl])) = Some (ascii_of_nat 10).
Proof. rewrite fmt_app. apply string_last_app. Qed.

Lemma srcp_fmt_msg_neq c t : (srcp_fmt_msg c t).2 <> ""%string.
Proof.
  unfold srcp_fmt_msg. destruct (srcp_text c) as [m |]; cbn [snd]; intros E.
  - pose proof (fmt_nl_last [stamp t; " "; dec c; " "; m]) as L. cbn [app] in L. by rewrite E in L.
  - pose proof (fmt_nl_last [stamp t; " 600 ERROR internal error "; dec c]) as L.
    cbn [app] in L. by rewrite E in L.
Qed.

Lemma example_stamp : stamp (mk_timeval 12 34567) = "12.034"%string.
Proof. vm_compute. reflexivity. Qed.

(** The table has a text for every code of srcp-error.h that a command
    handler returns, so none of them is answered as an internal error. *)
Definition handler_codes : list Z :=
  [SRCP_INFO; SRCP_OK; SRCP_UNKNOWNCOMMAND; SRCP_UNKNOWNVALUE; SRCP_WRONGVALUE;
   SRCP_TEMPORARILYPROHIBITED; SRCP_DEVICELOCKED; SRCP_FORBIDDEN; SRCP_NODATA;
   SRCP_TIMEOUT; SRCP_LISTTOOLONG; SRCP_LISTTOOSHORT; SRCP_UNSUPPORTEDDEVICEPROTOCOL;
   SRCP_UNSUPPORTEDDEVICE; SRCP_UNSUPPORTEDDEVICEGROUP; SRCP_UNSUPPORTEDOPERATION;
   SRCP_DEVICEREINITIALIZED; SRCP_OUTOFRESOURCES].

Lemma handler_codes_text code : code ∈ handler_codes -> is_Some (srcp_text code).
Proof.
  unfold handler_codes. rewrite !elem_of_cons, elem_of_nil.
  intros H. repeat destruct H as [-> | H]; try (eexists; reflexivity). done.
Qed.
