(* ===== verification/Text.v ===== *)
(** Text: the functions of the C library that read the clients' commands and
    [ssplitstr] of io.c.

    A C string is a [string] without NUL characters; a pointer into a buffer is
    an offset. *)

From S2P Require Import Prelude World Messages.

(** * Characters *)

(** [isspace] *)
Definition is_blank (a : ascii) : bool :=
  let v := ch a in (v =? 32) || ((9 <=? v) && (v <=? 13)).
Definition digit (a : ascii) : option Z :=
  let v := ch a in if (48 <=? v) && (v <=? 57) then Some (v - 48) else None.

Fixpoint skip_blanks (s : string) : string :=
  match s with
  | String a s' => if is_blank a then skip_blanks s' else s
  | EmptyString => s
  end.

Definition tolower (a : ascii) : Z :=
  let v := ch a in if (65 <=? v) && (v <=? 90) then v + 32 else v.

(** * Comparison *)

Fixpoint strncasecmp (a b : string) (n : nat) : Z :=
  match n with
  | O => 0
  | S n =>
      match a, b with
      | EmptyString, EmptyString => 0
      | EmptyString, String y _ => - tolower y
      | String x _, EmptyString => tolower x
      | String x a, String y b =>
          let d := tolower x - tolower y in
          if d =? 0 then strncasecmp a b n else d
      end
  end.
Definition strcasecmp (a b : string) : Z := strncasecmp a b (S (String.length a)).

(** [strncasecmp(text, name, strlen(name)) == 0] *)
Definition starts (text name : string) : bool := strncasecmp text name (String.length name) =? 0.

(** * Numbers *)

Definition LONG_MIN : Z := - 2 ^ 63.
Definition LONG_MAX : Z := 2 ^ 63 - 1.
Definition ULONG_MAX : Z := 2 ^ 64 - 1.

Fixpoint digits (acc : option Z) (s : string) : option Z * string :=
  match s with
  | String a s' =>
      match digit a with
      | Some v => digits (Some (10 * default 0 acc + v)) s'
      | None => (acc, s)
      end
  | EmptyString => (acc, s)
  end.

(** An optional sign and digits: the number and the rest of the text. *)
Definition number (s : string) : option (Z * string) :=
  match s with
  | EmptyString => None
  | String a s' =>
      let '(sign, s) := if ch a =? ch "-" then (-1, s')
                        else if ch a =? ch "+" then (1, s') else (1, s) in
      let '(v, rest) := digits None s in
      (fun v => (sign * v, rest)) <$> v
  end.

(** The values [strtol] and [strtoul] have for a number. *)
Definition to_long (z : Z) : Z := Z.max LONG_MIN (Z.min LONG_MAX z).
Definition to_ulong (z : Z) : Z := if ULONG_MAX <? Z.abs z then ULONG_MAX else u64 z.

Definition atoi (s : string) : Z :=
  match number (skip_blanks s) with
  | Some (z, _) => i32 (to_long z)
  | None => 0
  end.

(** * [sscanf] *)

(** The conversions the daemon uses: [%ld], [%d], [%lu], [%<w>s], [%1c] and
    [%<w>\[^\t\n\]]; white space separates them in every format. *)
Inductive directive := Dld | Dd | Dlu | Ds (width : nat) | Dc | Dline (width : nat).
Inductive item := Num (z : Z) | Str (s : string).

(** At most [width] characters for which [stop] does not hold. *)
Fixpoint span (width : nat) (stop : ascii -> bool) (s : string) : string * string :=
  match width, s with
  | S width, String a s' =>
      if stop a then (EmptyString, s)
      else let '(w, rest) := span width stop s' in (String a w, rest)
  | _, _ => (EmptyString, s)
  end.
Definition word (width : nat) (stop : ascii -> bool) (s : string) : option (item * string) :=
  match span width stop s with
  | (EmptyString, _) => None
  | (w, rest) => Some (Str w, rest)
  end.
Definition tab_or_nl (a : ascii) : bool := (ch a =? 9) || (ch a =? 10).

Definition convert (d : directive) (s : string) : option (item * string) :=
  let s := skip_blanks s in
  let num (f : Z -> Z) := (fun '(z, rest) => (Num (f z), rest)) <$> number s in
  match d with
  | Dld => num to_long
  | Dd => num (fun z => i32 (to_long z))
  | Dlu => num to_ulong
  | Ds width => word width is_blank s
  | Dc => match s with String a rest => Some (Num (ch a), rest) | EmptyString => None end
  | Dline width => word width tab_or_nl s
  end.

(** The values assigned, in order; the result of [sscanf] is their number, or
    -1 instead of 0 when the text ends first, which no caller tells apart. *)
Fixpoint sscanf (s : string) (format : list directive) : list item :=
  match format with
  | [] => []
  | d :: format =>
      match convert d s with
      | Some (v, rest) => v :: sscanf rest format
      | None => []
      end
  end.

(** * [ssplitstr] *)

Definition NUL : ascii := ascii_of_nat 0.
Definition is_sep (c : ascii) : bool := ch c <=? 0x20.

(** The loop: [s] is the source's flag, [left] the pointers still to fill and
    [pos] the offset of [str].  The result is the pointers filled, the text as
    the loop leaves it and the offset where it stops. *)
Fixpoint ssplit_loop (str : string) (s : bool) (left pos : nat) : list nat * string * nat :=
  match str with
  | EmptyString => ([], str, pos)
  | String c str' =>
      if s && negb (is_sep c) then
        if decide (left <= 1)%nat then ([pos], str, pos)
        else
          let '(ptrs, rest, e) := ssplit_loop str' false (left - 1) (S pos) in
          (pos :: ptrs, String c rest, e)
      else
        let '(ptrs, rest, e) := ssplit_loop str' (is_sep c) left (S pos) in
        (ptrs, String (if is_sep c then NUL else c) rest, e)
  end.

(** The number of tokens, the buffer after the call and the [n] pointers. *)
Definition ssplitstr (str : string) (n : nat) : Z * string * list nat :=
  let '(ptrs, buffer, e) := ssplit_loop str true n 0 in
  (Z.of_nat (length ptrs), buffer, ptrs ++ replicate (n - length ptrs) e).

(** The C string a pointer into a buffer points at. *)
Fixpoint c_str (buffer : string) : string :=
  match buffer with
  | String a s => if decide (a = NUL) then EmptyString else String a (c_str s)
  | EmptyString => EmptyString
  end.
Fixpoint at_offset (p : nat) (buffer : string) : string :=
  match p, buffer with
  | S p, String _ s => at_offset p s
  | _, _ => buffer
  end.

(** The number of tokens and the strings the [n] pointers point at. *)
Definition tokens (str : string) (n : nat) : Z * list string :=
  let '(i, buffer, ptrs) := ssplitstr str n in (i, (fun p => c_str (at_offset p buffer)) <$> ptrs).

(** ** The reference definition

    Cut off [n - 1] words, the rest of the text is the last token. *)

Fixpoint skip_seps (s : string) : string :=
  match s with
  | String c s' => if is_sep c then skip_seps s' else s
  | EmptyString => s
  end.
Fixpoint cut_word (s : string) : string * string :=
  match s with
  | String c s' =>
      if is_sep c then (EmptyString, s)
      else let '(w, rest) := cut_word s' in (String c w, rest)
  | EmptyString => (EmptyString, s)
  end.
Fixpoint split (s : string) (n : nat) : list string :=
  match n with
  | O => []
  | S O => [skip_seps s]
  | S n => let '(w, rest) := cut_word (skip_seps s) in w :: split rest n
  end.

Fixpoint no_nul (s : string) : Prop :=
  match s with EmptyString => True | String a s => a <> NUL /\ no_nul s end.

Lemma at_offset_app pre s : at_offset (String.length pre) (pre +:+ s) = s.
Proof. induction pre as [| a pre IH]; [by destruct s | exact IH]. Qed.

Lemma c_str_no_nul s : no_nul s -> c_str s = s.
Proof.
  induction s as [| a s IH]; [done |]. cbn. intros [Ha Hs].
  by rewrite decide_False, IH by done.
Qed.

Lemma app_cons_assoc pre c s : pre +:+ String c s = (pre +:+ String c "") +:+ s.
Proof. induction pre as [| a pre IH]; [done | exact (f_equal _ IH)]. Qed.
Lemma length_snoc pre c : String.length (pre +:+ String c "") = S (String.length pre).
Proof. induction pre as [| a pre IH]; [done | exact (f_equal _ IH)]. Qed.

(** The two states of the loop, before a token and inside one, for a buffer
    whose first [pos] characters are [pre]. *)
Lemma ssplit_loop_spec str : no_nul str -> forall left pre, (1 <= left)%nat ->
  (let '(ptrs, rest, e) := ssplit_loop str true left (String.length pre) in
   (length ptrs <= left)%nat /\
   (fun p => c_str (at_offset p (pre +:+ rest))) <$> (ptrs ++ replicate (left - length ptrs) e) =
     split str left) /\
  (let '(ptrs, rest, e) := ssplit_loop str false left (String.length pre) in
   (length ptrs <= left)%nat /\ c_str rest = (cut_word str).1 /\
   (fun p => c_str (at_offset p (pre +:+ rest))) <$> (ptrs ++ replicate (left - length ptrs) e) =
     split (cut_word str).2 left).
Proof.
  assert (Hpad : forall left pre, (1 <= left)%nat ->
    (fun p => c_str (at_offset p (pre +:+ ""))) <$> replicate left (String.length pre) = split "" left).
  { intros left pre _. rewrite fmap_replicate, at_offset_app.
    induction left as [| [| left] IH]; [done | done |]. cbn. f_equal. exact IH. }
  induction str as [| c str IH]; intros Hn left pre Hl.
  - cbn. rewrite Nat.sub_0_r. split; split_and!; try lia; try done; by apply Hpad.
  - destruct Hn as [Hc Hn]. specialize (IH Hn). cbn [ssplit_loop].
    assert (Hin : let '(ptrs, rest, e) := ssplit_loop str (is_sep c) left (S (String.length pre)) in
      is_sep c = true ->
      (length ptrs <= left)%nat /\
      (fun p => c_str (at_offset p (pre +:+ String NUL rest))) <$>
        (ptrs ++ replicate (left - length ptrs) e) = split str left).
    { destruct (is_sep c) eqn:Hs; [| by destruct (ssplit_loop str false _ _) as [[??]?]].
      destruct (IH left (pre +:+ String NUL "") Hl) as [A _]. rewrite length_snoc in A.
      destruct (ssplit_loop str true left _) as [[ptrs rest] e]. intros _.
      by rewrite app_cons_assoc. }
    destruct (is_sep c) eqn:Hs; cbn [andb negb].
    + destruct (ssplit_loop str true left _) as [[ptrs rest] e]. destruct (Hin eq_refl) as [A B].
      split; [split; [done |] | split; [done | split; [by cbn; rewrite Hs |]]].
      * etransitivity; [exact B |]. destruct left as [| [| left]]; [lia | |]; cbn; by rewrite Hs.
      * etransitivity; [exact B |]. cbn [cut_word]. rewrite Hs.
        destruct left as [| [| left]]; [lia | |]; cbn; by rewrite Hs.
    + clear Hin. split.
      * case_decide as Hd.
        { assert (left = 1%nat) as -> by lia. cbn. split; [lia |].
          rewrite at_offset_app, Hs. by rewrite c_str_no_nul. }
        destruct left as [| [| left]]; [lia | lia |].
        replace (S (S left) - 1)%nat with (S left) by lia.
        destruct (IH (S left) (pre +:+ String c "")) as [_ B]; [lia |]. rewrite length_snoc in B.
        destruct (ssplit_loop str false (S left) _) as [[ptrs rest] e]. destruct B as (B1 & B2 & B3).
        cbn [length]. split; [lia |].
        replace (S (S left) - S (length ptrs))%nat with (S left - length ptrs)%nat by lia.
        cbn [app fmap list_fmap split]. cbn [skip_seps cut_word]. rewrite Hs.
        cbn [cut_word]. rewrite Hs. destruct (cut_word str) as [w r] eqn:Hw. cbn in B2, B3.
        f_equal; [| by rewrite app_cons_assoc].
        rewrite at_offset_app. cbn [c_str]. by rewrite decide_False, B2 by done.
      * destruct (IH left (pre +:+ String c "") Hl) as [_ B]. rewrite length_snoc in B.
        destruct (ssplit_loop str false left _) as [[ptrs rest] e]. destruct B as (B1 & B2 & B3).
        cbn [cut_word]. rewrite Hs. destruct (cut_word str) as [w r] eqn:Hw. cbn in *.
        split_and!; [done | by rewrite decide_False, B2 by done | by rewrite app_cons_assoc].
Qed.

Lemma tokens_split str n : no_nul str -> (1 <= n)%nat ->
  (tokens str n).2 = split str n.
Proof.
  intros Hs Hn. pose proof (ssplit_loop_spec str Hs n "" Hn) as [A _]. unfold tokens, ssplitstr.
  cbn in A. destruct (ssplit_loop str true n 0) as [[ptrs rest] e]. apply A.
Qed.

(** The number of tokens that are there. *)
Definition nonempty (s : string) : bool := match s with EmptyString => false | _ => true end.
Definition count (l : list string) : nat := length (List.filter nonempty l).

Lemma split_cons c str left : is_sep c = true -> (1 <= left)%nat ->
  split (String c str) left = split str left.
Proof. intros Hs Hl. destruct left as [| [| left]]; [lia | |]; cbn; by rewrite Hs. Qed.
Lemma cut_word_cons c str : is_sep c = false ->
  cut_word (String c str) = (String c (cut_word str).1, (cut_word str).2).
Proof. intros Hs. cbn [cut_word]. rewrite Hs. by destruct (cut_word str). Qed.

Lemma ssplit_loop_count str : forall left pos, (1 <= left)%nat ->
  length (ssplit_loop str true left pos).1.1 = count (split str left) /\
  length (ssplit_loop str false left pos).1.1 = count (split (cut_word str).2 left).
Proof.
  assert (Hpad : forall left, count (split "" left) = 0%nat).
  { intros [| left]; [done |]. induction left as [| left IH]; [done |]. exact IH. }
  induction str as [| c str IH]; intros left pos Hl.
  { change (cut_word "").2 with ""%string. by rewrite Hpad. }
  cbn [ssplit_loop]. destruct (IH left (S pos) Hl) as [A B]. destruct (is_sep c) eqn:Hs; cbn [andb negb].
  - destruct (ssplit_loop str true left (S pos)) as [[ptrs rest] e]. cbn [fst] in *.
    rewrite (split_cons _ _ _ Hs Hl). split; [done |].
    replace (cut_word (String c str)).2 with (String c str) by (cbn; by rewrite Hs).
    by rewrite (split_cons _ _ _ Hs Hl).
  - split.
    + case_decide as Hd.
      { assert (left = 1%nat) as -> by lia. cbn. by rewrite Hs. }
      destruct left as [| [| left]]; [lia | lia |].
      replace (S (S left) - 1)%nat with (S left) by lia.
      destruct (IH (S left) (S pos)) as [_ B']; [lia |].
      destruct (ssplit_loop str false (S left) (S pos)) as [[ptrs rest] e]. cbn [fst length] in *.
      change (split (String c str) (S (S left))) with
        (let '(w, rest) := cut_word (skip_seps (String c str)) in w :: split rest (S left)).
      replace (skip_seps (String c str)) with (String c str) by (cbn; by rewrite Hs).
      rewrite (cut_word_cons _ _ Hs). by rewrite B'.
    + rewrite (cut_word_cons _ _ Hs). destruct (ssplit_loop str false left (S pos)) as [[ptrs rest] e].
      exact B.
Qed.

Lemma tokens_spec str n : no_nul str -> (1 <= n)%nat ->
  tokens str n = (Z.of_nat (count (split str n)), split str n).
Proof.
  intros Hs Hn. rewrite <- (tokens_split str n Hs Hn). destruct (ssplit_loop_count str n 0 Hn) as [A _].
  rewrite <- (tokens_split str n Hs Hn) in A. revert A. unfold tokens, ssplitstr.
  destruct (ssplit_loop str true n 0) as [[ptrs rest] e]. cbn [fst snd]. intros A. f_equal. f_equal. exact A.
Qed.

(** * Reading what [printf] wrote *)

(** No white space, no NUL, not empty: a word of a command. *)
Definition is_word (s : string) : Prop :=
  s <> EmptyString /\ forall a, a ∈ String.list_ascii_of_string s -> is_sep a = false.

(** What may follow a number. *)
Definition no_digit (s : string) : Prop :=
  match s with String a _ => digit a = None | EmptyString => True end.

Lemma digits_stop acc s : no_digit s -> digits acc s = (acc, s).
Proof. destruct s as [| a s]; [done |]. cbn. by intros ->. Qed.

Lemma digit_pretty x : (x < 10)%N -> digit (pretty_N_char x) = Some (Z.of_N x).
Proof.
  intros Hx. assert (H : forallb (fun x => bool_decide (digit (pretty_N_char (Z.to_N x)) = Some x))
    (seqZ 0 10) = true) by reflexivity.
  pose proof (forallb_seqZ _ 0 10 (Z.of_N x) H) as B. rewrite bool_decide_eq_true, N2Z.id in B.
  apply B. lia.
Qed.

Lemma digits_go x : forall acc s, (0 < x)%N ->
  exists k, 0 <= k /\ digits acc (pretty_N_go x s) = digits (Some (default 0 acc * 10 ^ k + Z.of_N x)) s.
Proof.
  induction x as [x IH] using (well_founded_induction N.lt_wf_0). intros acc s Hx.
  rewrite pretty_N_go_step by done.
  assert (Hm : (x mod 10 < 10)%N) by (apply N.mod_lt; lia).
  assert (Hs : forall acc, digits acc (String (pretty_N_char (x mod 10)) s) =
    digits (Some (10 * default 0 acc + Z.of_N (x mod 10))) s).
  { intros a. cbn [digits]. by rewrite digit_pretty by done. }
  pose proof (N.div_mod x 10) as E. destruct (decide (x / 10 = 0)%N) as [Z0 | NZ].
  - exists 1. split; [lia |]. rewrite Z0, pretty_N_go_0, Hs. do 2 f_equal. lia.
  - destruct (IH (x / 10)%N) with (acc := acc) (s := String (pretty_N_char (x mod 10)) s) as (k & Hk & Ek).
    { apply N.div_lt; lia. }
    { lia. }
    exists (k + 1). split; [lia |]. rewrite Ek, Hs. do 2 f_equal. cbn [default from_option].
    rewrite Z.pow_add_r by lia.
    assert (Z.of_N x = 10 * Z.of_N (x / 10) + Z.of_N (x mod 10)) as -> by (rewrite E at 1; lia).
    change (10 ^ 1) with 10. destruct acc; cbn [default from_option id]; ring.
Qed.

(** The characters of a printed number. *)
Definition numeral (a : ascii) : bool := (ch a =? 45) || ((48 <=? ch a) && (ch a <=? 57)).

Lemma numeral_go x : forall s, (forall a, a ∈ String.list_ascii_of_string s -> numeral a = true) ->
  forall a, a ∈ String.list_ascii_of_string (pretty_N_go x s) -> numeral a = true.
Proof.
  induction x as [x IH] using (well_founded_induction N.lt_wf_0). intros s Hs.
  destruct (decide (x = 0)%N) as [-> | Hx]; [by rewrite pretty_N_go_0 |].
  rewrite pretty_N_go_step by lia. apply IH; [apply N.div_lt; lia |].
  intros a. cbn. rewrite elem_of_cons. intros [-> | Ha]; [| by apply Hs].
  pose proof (N.mod_lt x 10) as Hm. pose proof (digit_pretty (x mod 10)) as D.
  unfold digit in D. unfold numeral.
  destruct ((48 <=? ch (pretty_N_char (x mod 10))) && (ch (pretty_N_char (x mod 10)) <=? 57)); [by rewrite orb_true_r |].
  exfalso. discriminate D. lia.
Qed.

Lemma numeral_dec z a : a ∈ String.list_ascii_of_string (dec z) -> numeral a = true.
Proof.
  assert (P : forall p a, a ∈ String.list_ascii_of_string (pretty (N.pos p)) -> numeral a = true).
  { intros p b. unfold pretty, pretty_N. rewrite decide_False by done.
    apply numeral_go. intros c Hc. by apply elem_of_nil in Hc. }
  unfold dec. destruct z as [| p | p]; [| apply P |].
  - change (pretty 0%Z) with "0"%string. cbn. rewrite elem_of_cons.
    intros [-> | Ha]; [done | by apply elem_of_nil in Ha].
  - change (pretty (Z.neg p)) with (String "-" (pretty (N.pos p))). cbn. rewrite elem_of_cons. intros [-> | Ha]; [done | by apply (P p)].
Qed.

Lemma dec_neq z : dec z <> EmptyString.
Proof.
  assert (P : forall p, pretty (N.pos p) <> EmptyString).
  { intros p E. assert (pretty (N.pos p) = pretty 0%N -> N.pos p = 0%N) as I by apply (inj pretty).
    destruct (digits_go (N.pos p) None "") as (k & Hk & D); [done |].
    unfold pretty, pretty_N in E. rewrite decide_False in E by done. rewrite E in D. done. }
  unfold dec. destruct z as [| p | p]; [done | apply P | done].
Qed.

Lemma numeral_word a : numeral a = true -> is_sep a = false.
Proof.
  unfold numeral, is_sep. intros H. apply Z.leb_gt. apply orb_true_iff in H as [H | H]; bool_hyps; lia.
Qed.

Lemma dec_word z : is_word (dec z).
Proof. split; [apply dec_neq |]. intros a Ha. by apply numeral_word, (numeral_dec z). Qed.

(** ** Numbers *)

Lemma go_app x : forall t s, pretty_N_go x t +:+ s = pretty_N_go x (t +:+ s).
Proof.
  induction x as [x IH] using (well_founded_induction N.lt_wf_0). intros t s.
  destruct (decide (x = 0)%N) as [-> | Hx]; [by rewrite !pretty_N_go_0 |].
  rewrite !(pretty_N_go_step x) by lia. rewrite IH by (apply N.div_lt; lia). done.
Qed.

Lemma first_char (P : ascii -> Prop) s t : s <> EmptyString ->
  (forall a, a ∈ String.list_ascii_of_string s -> P a) -> exists a s', s +:+ t = String a s' /\ P a.
Proof. destruct s as [| a s]; [done |]. intros _ H. exists a, (s +:+ t). split; [done |]. apply H. left. Qed.

(** A printed positive number is digits only. *)
Lemma digits_pos p s : no_digit s -> digits None (pretty (N.pos p) +:+ s) = (Some (Z.pos p), s).
Proof.
  intros Hs. unfold pretty, pretty_N. rewrite decide_False, go_app by done.
  destruct (digits_go (N.pos p) None ("" +:+ s)) as (k & Hk & ->); [done |].
  by rewrite digits_stop.
Qed.
Lemma digits_no_sign s v r : digits None s = (Some v, r) ->
  exists a s', s = String a s' /\ (ch a =? ch "-") = false /\ (ch a =? ch "+") = false /\ is_blank a = false.
Proof.
  destruct s as [| a s]; [done |]. cbn. destruct (digit a) eqn:D; [| done]. intros _.
  exists a, s. unfold digit in D. destruct ((48 <=? ch a) && (ch a <=? 57)) eqn:B; [| done].
  bool_hyps. unfold is_blank. change (ch "-") with 45. change (ch "+") with 43.
  split_and!; [done | apply Z.eqb_neq; lia.. |].
  apply orb_false_iff. split; [apply Z.eqb_neq; lia |]. apply andb_false_iff. right. apply Z.leb_gt. lia.
Qed.

(** A number that was printed is read back. *)
Lemma number_dec z s : no_digit s -> number (skip_blanks (dec z +:+ s)) = Some (z, s).
Proof.
  intros Hs. assert (P : forall p, exists a s', pretty (N.pos p) +:+ s = String a s' /\
    number (String a s') = Some (Z.pos p, s) /\ is_blank a = false).
  { intros p. pose proof (digits_pos p s Hs) as D.
    destruct (digits_no_sign _ _ _ D) as (a & s' & E & H1 & H2 & H3). exists a, s'.
    split_and!; [done | | done]. cbn [number]. rewrite H1, H2. rewrite <- E, D. done. }
  unfold dec. destruct z as [| p | p].
  - change (number (String "0" s) = Some (0, s)). cbn [number].
    change (ch "0" =? ch "-") with false. change (ch "0" =? ch "+") with false. cbn [digits].
    change (digit "0") with (Some 0). cbn. by rewrite digits_stop.
  - destruct (P p) as (a & s' & E & N & B). change (pretty (Z.pos p)) with (pretty (N.pos p)).
    rewrite E. cbn [skip_blanks]. by rewrite B.
  - change (pretty (Z.neg p) +:+ s) with (String "-" (pretty (N.pos p) +:+ s)).
    cbn [skip_blanks]. change (is_blank "-") with false. cbv iota. cbn [number].
    change (ch "-" =? ch "-") with true. cbv iota. by rewrite digits_pos.
Qed.

(** A number that was printed is read back by [sscanf], with what follows it
    left for the next conversion; one that does not fit a [long] is read as the
    nearest one. *)
Lemma sscanf_dec z s format : no_digit s ->
  sscanf (dec z +:+ s) (Dld :: format) = Num (to_long z) :: sscanf s format.
Proof. intros Hs. cbn [sscanf]. unfold convert. by rewrite number_dec. Qed.
Lemma to_long_id z : LONG_MIN <= z <= LONG_MAX -> to_long z = z.
Proof. unfold to_long, LONG_MIN, LONG_MAX. lia. Qed.
Lemma atoi_dec z s : no_digit s -> atoi (dec z +:+ s) = i32 (to_long z).
Proof. intros Hs. unfold atoi. by rewrite number_dec. Qed.

(** ** Commands *)

Lemma word_no_nul w s : is_word w -> no_nul s -> no_nul (w +:+ s).
Proof.
  intros [_ Hw] Hs. induction w as [| a w IH]; [done |]. cbn. split.
  - intros ->. by specialize (Hw NUL (list_elem_of_here _ _)).
  - apply IH. intros b Hb. apply Hw. by right.
Qed.

Lemma cut_word_word w s : is_word w -> cut_word (w +:+ String " " s) = (w, String " " s).
Proof.
  intros [_ Hw]. induction w as [| a w IH]; [done |].
  change (cut_word (String a w +:+ String " " s)) with
    (if is_sep a then (EmptyString, String a w +:+ String " " s)
     else let '(w, rest) := cut_word (w +:+ String " " s) in (String a w, rest)).
  rewrite (Hw a) by left. rewrite IH; [done |]. intros b Hb. apply Hw. by right.
Qed.

Lemma skip_seps_word w s : is_word w -> skip_seps (w +:+ s) = w +:+ s.
Proof. destruct w as [| a w]; intros [Hn Hw]; [done |].
  change (skip_seps (String a w +:+ s)) with (if is_sep a then skip_seps (w +:+ s) else String a (w +:+ s)).
  by rewrite (Hw a) by left.
Qed.

Lemma split_blank s n : split (String " " s) n = split s n.
Proof. by destruct n as [| [| n]]. Qed.

(** A command line of words apart by one blank falls into its words. *)
Lemma split_word w s n : is_word w ->
  split (w +:+ String " " s) (S (S n)) = w :: split s (S n).
Proof.
  intros Hw. change (split (w +:+ String " " s) (S (S n))) with
    (let '(w', rest) := cut_word (skip_seps (w +:+ String " " s)) in w' :: split rest (S n)).
  rewrite skip_seps_word, cut_word_word by done. by rewrite split_blank.
Qed.
Lemma split_last w s : is_word w -> split (w +:+ s) 1 = [w +:+ s].
Proof. intros Hw. cbn. by rewrite skip_seps_word. Qed.

Lemma append_nil (s : string) : s = s +:+ "".
Proof. induction s as [| a s IH]; [done | exact (f_equal _ IH)]. Qed.

Lemma sscanf_blank s d format : sscanf (String " " s) (d :: format) = sscanf s (d :: format).
Proof. reflexivity. Qed.

Lemma split_length s n : length (split s n) = n.
Proof.
  revert s. induction n as [| [| n] IH]; intros s; [done | done |].
  change (split s (S (S n))) with (let '(w, rest) := cut_word (skip_seps s) in w :: split rest (S n)).
  destruct (cut_word (skip_seps s)) as [w rest]. cbn [length]. by rewrite IH.
Qed.
Lemma tokens_length s n : no_nul s -> (1 <= n)%nat -> length (tokens s n).2 = n.
Proof. intros Hs Hn. rewrite tokens_spec by done. apply split_length. Qed.

(** * What [ssplitstr] is for *)

(** Words with one blank between two of them. *)
Fixpoint joined (ws : list string) : string :=
  match ws with
  | [] => EmptyString
  | [w] => w
  | w :: ws => w +:+ String " " (joined ws)
  end.

Lemma joined_no_nul ws : Forall is_word ws -> no_nul (joined ws).
Proof.
  intros H. induction H as [| w ws Hw Hws IH]; [done |]. destruct ws as [| w' ws].
  - change (joined [w]) with w. rewrite (append_nil w). by apply word_no_nul.
  - change (joined (w :: w' :: ws)) with (w +:+ String " " (joined (w' :: ws))).
    by apply word_no_nul; [| split].
Qed.

Lemma split_joined ws : Forall is_word ws -> ws <> [] -> split (joined ws) (length ws) = ws.
Proof.
  intros H. induction H as [| w ws Hw Hws IH]; [done |]. intros _. destruct ws as [| w' ws].
  - change (joined [w]) with w. cbn [length]. rewrite (append_nil w). by apply split_last.
  - change (joined (w :: w' :: ws)) with (w +:+ String " " (joined (w' :: ws))).
    change (length (w :: w' :: ws)) with (S (S (length ws))).
    rewrite split_word by done. f_equal. by apply IH.
Qed.

Lemma count_words ws : Forall is_word ws -> count ws = length ws.
Proof.
  intros H. induction H as [| w ws [Hw _] _ IH]; [done |]. unfold count in *.
  cbn [List.filter length]. destruct w; [done |]. cbn [nonempty length]. by rewrite IH.
Qed.

(** C30. [ssplitstr], which writes NULs into the buffer as it goes, hands out the
    same tokens as the plain definition that cuts off [n - 1] words and takes
    the rest of the text as the last token, and counts those that are there;
    what it is given words joined by blanks, it gives back the words. *)
Theorem ssplitstr_splits str n : no_nul str -> (1 <= n)%nat ->
  tokens str n = (Z.of_nat (count (split str n)), split str n) /\ length (split str n) = n /\
  forall ws, Forall is_word ws -> length ws = n -> str = joined ws -> tokens str n = (Z.of_nat n, ws).
Proof.
  intros Hs Hn. rewrite (tokens_spec _ _ Hs Hn). split; [done |]. split; [apply split_length |].
  intros ws Hw <- ->. rewrite split_joined, count_words by (done || (destruct ws; cbn in Hn; [lia | done])). done.
Qed.

Lemma ssplitstr_splits_witness :
  tokens "SET 1  GL 3" 3 = (3, ["SET"; "1"; "GL 3"]%string) /\ length (split "SET 1  GL 3" 3) = 3%nat /\
  forall ws, Forall is_word ws -> length ws = 3%nat -> "SET 1  GL 3"%string = joined ws ->
    tokens "SET 1  GL 3" 3 = (3, ws).
Proof. apply (ssplitstr_splits "SET 1  GL 3" 3); [by cbn | lia]. Defined.
