(* ===== verification/Session.v ===== *)
(** srcp-session.c and srcp-info.c: the list of client sessions, kept as the
    linked list the source keeps, and the delivery of info lines to the pipes
    of the info sessions.

    The first half works on the heap; [chain] relates a list head to the
    Rocq list of the nodes it leads to, and the second half shows that each
    operation acts on that list as its name says. *)

From S2P Require Import Prelude Ring World Messages.

Module Session.

(** * Memory *)

(** Where a [session_node_t **] points: at the list's root, at the [next]
    field of a node, or at a local variable of the calling function (whose new
    value that function does not read). *)
Inductive loc := Root | NextOf (p : Z) | Local (v : Z).

Definition node_at (p : Z) : prog sessions_t session_node_t :=
  fun s => need (s.(heap) !! p) s.

Definition set_node (p : Z) (n : session_node_t) : prog sessions_t unit :=
  modify (fun s => s <| heap ::= <[p := n]> |>).

Definition load (l : loc) : prog sessions_t Z :=
  match l with
  | Root => gets session_list
  | NextOf p => let* n := node_at p in ret n.(sn_next)
  | Local v => ret v
  end.

Definition store (l : loc) (v : Z) : prog sessions_t unit :=
  match l with
  | Root => modify (fun s => s <| session_list := v |>)
  | NextOf p => let* n := node_at p in set_node p (n <| sn_next := v |>)
  | Local _ => ret tt
  end.

(** [malloc]: the next address, or [NULL] when memory is exhausted. *)
Definition malloc (n : session_node_t) : prog sessions_t Z :=
  let* s := get in
  if s.(heap_top) <? s.(heap_limit) then
    do* modify (fun s => s <| heap ::= <[s.(heap_top) := n]> |> <| heap_top ::= Z.succ |>) in
    ret s.(heap_top)
  else ret NULL.

Definition free (p : Z) : prog sessions_t unit :=
  do* node_at p in modify (fun s => s <| heap ::= delete p |>).

(** * The list operations *)

Definition list_add (p : loc) (s : Z) : prog sessions_t Z :=
  let* next := load p in
  let* n := malloc (mk_node 0 0 s smUndefined (-1) (-1) next) in
  if n =? NULL then ret NULL
  else do* store p n in ret n.

Definition list_remove (p : loc) : prog sessions_t bool :=
  let* n := load p in
  if n =? NULL then ret false
  else
    let* node := node_at n in
    do* store p node.(sn_next) in
    do* free n in
    ret true.

(** A walk of the list visits at most as many nodes as the heap holds. *)
Definition walk_fuel (s : sessions_t) : nat := S (size s.(heap)).

Fixpoint search_session (fuel : nat) (n : loc) (sid : Z) : prog sessions_t (option loc) :=
  match fuel with
  | O => undefined
  | S fuel =>
      let* p := load n in
      if p =? NULL then ret None
      else
        let* node := node_at p in
        if node.(sn_session) =? sid then ret (Some n)
        else search_session fuel (NextOf p) sid
  end.
Definition list_search_session (sid : Z) : prog sessions_t (option loc) :=
  let* fuel := gets walk_fuel in search_session fuel Root sid.

Fixpoint search_session_node (fuel : nat) (p : Z) (sid : Z) : prog sessions_t Z :=
  match fuel with
  | O => undefined
  | S fuel =>
      if p =? NULL then ret NULL
      else
        let* node := node_at p in
        if node.(sn_session) =? sid then ret p
        else search_session_node fuel node.(sn_next) sid
  end.
Definition list_search_session_node (sid : Z) : prog sessions_t Z :=
  let* fuel := gets walk_fuel in
  let* p := gets session_list in
  search_session_node fuel p sid.

Fixpoint search_thread (fuel : nat) (p : Z) (sid : Z) : prog sessions_t Z :=
  match fuel with
  | O => undefined
  | S fuel =>
      if p =? NULL then ret 0
      else
        let* node := node_at p in
        if node.(sn_session) =? sid then ret node.(sn_thread)
        else search_thread fuel node.(sn_next) sid
  end.
Definition list_search_thread_by_sessionid (sid : Z) : prog sessions_t Z :=
  let* fuel := gets walk_fuel in
  let* p := gets session_list in
  search_thread fuel p sid.

Fixpoint has_info_sessionid (fuel : nat) (p : Z) (sid : Z) : prog sessions_t bool :=
  match fuel with
  | O => undefined
  | S fuel =>
      if p =? NULL then ret false
      else
        let* node := node_at p in
        if (node.(sn_session) =? sid) && bool_decide (node.(sn_mode) = smInfo)
        then ret true
        else has_info_sessionid fuel node.(sn_next) sid
  end.
Definition list_has_info_sessionid (sid : Z) : prog sessions_t bool :=
  let* fuel := gets walk_fuel in
  let* p := gets session_list in
  has_info_sessionid fuel p sid.

(** * Sessions *)

Definition create_anonymous_session (s : Z) : prog sessions_t Z :=
  let* node := list_add Root s in
  if negb (node =? NULL) then
    do* modify (fun s => s <| runningsessions ::= fun r => u32 (r + 1) |>) in
    ret node
  else ret node.

Definition destroy_anonymous_session (n : Z) : prog sessions_t unit :=
  if n =? NULL then ret tt
  else
    do* node_at n in
    let* removed := list_remove (Local n) in
    if removed then modify (fun s => s <| runningsessions ::= fun r => u32 (r - 1) |>)
    else ret tt.

(** [list_search_session] may return a null [session_node_t **], which
    [list_remove] then reads. *)
Definition destroy_session (sid : Z) : prog sessions_t unit :=
  let* p := list_search_session sid in
  match p with
  | None => undefined
  | Some p =>
      let* removed := list_remove p in
      if removed then modify (fun s => s <| runningsessions ::= fun r => u32 (r - 1) |>)
      else ret tt
  end.

Definition register_session (n : Z) : prog sessions_t unit :=
  if n =? NULL then ret tt
  else
    do* modify (fun s => s <| lastsession ::= fun l => u64 (l + 1) |>) in
    let* l := gets lastsession in
    do* (if 0 =? l then modify (fun s => s <| lastsession ::= fun l => u64 (l + 1) |>)
         else ret tt) in
    let* l := gets lastsession in
    let* node := node_at n in
    set_node n (node <| sn_session := l |>
                     <| sn_mode ::= fun m => if decide (m = smUndefined) then smCommand else m |>).

Definition is_valid_info_session (session : Z) : prog sessions_t bool :=
  list_has_info_sessionid session.

(** [write] on a pipe end: the line is queued in the pipe, or the call fails
    and the failure is only logged. *)
Definition write_pipe (fd : Z) (msg : string) : prog sessions_t unit :=
  modify (fun s => s <| pipes ::= alter (fun l => l ++ [msg]) fd |>).

Definition wants_info (n : session_node_t) : bool :=
  bool_decide (n.(sn_mode) = smInfo) && negb (n.(sn_pipefd1) =? -1).

Fixpoint enqueue_all (fuel : nat) (p : Z) (msg : string) : prog sessions_t unit :=
  match fuel with
  | O => undefined
  | S fuel =>
      if p =? NULL then ret tt
      else
        let* node := node_at p in
        do* (if wants_info node then write_pipe node.(sn_pipefd1) msg else ret tt) in
        enqueue_all fuel node.(sn_next) msg
  end.

Definition session_enqueue_info_message (sid : Z) (msg : string) : prog sessions_t unit :=
  let* head := gets session_list in
  if head =? NULL then ret tt
  else if sid =? 0 then
    let* fuel := gets walk_fuel in
    enqueue_all fuel head msg
  else
    let* p := list_search_session_node sid in
    if p =? NULL then ret tt
    else
      let* node := node_at p in
      if wants_info node then write_pipe node.(sn_pipefd1) msg else ret tt.

Definition cancel (t : Z) : prog sessions_t unit :=
  modify (fun s => s <| cancelled ::= fun c => c ++ [t] |>).

Definition session_terminate (session : Z) : prog sessions_t unit :=
  let* pc := list_search_thread_by_sessionid session in
  if negb (pc =? 0) then cancel pc else ret tt.

Fixpoint cancel_all (fuel : nat) (p : Z) : prog sessions_t unit :=
  match fuel with
  | O => undefined
  | S fuel =>
      if p =? NULL then ret tt
      else
        let* node := node_at p in
        do* cancel node.(sn_thread) in
        cancel_all fuel node.(sn_next)
  end.

(** The cancellations of [terminate_all_sessions]; it then waits until
    [runningsessions] is 0. *)
Definition terminate_all_sessions : prog sessions_t unit :=
  let* head := gets session_list in
  let* fuel := gets walk_fuel in
  cancel_all fuel head.

(** * The list a heap holds *)

(** What a node says of its session, its link aside. *)
Definition strip (n : session_node_t) : session_node_t := n <| sn_next := NULL |>.

Inductive chain (h : gmap Z session_node_t) : Z -> list (Z * session_node_t) -> Prop :=
| chain_nil : chain h NULL []
| chain_cons p n l :
    p <> NULL -> h !! p = Some n -> chain h n.(sn_next) l -> chain h p ((p, strip n) :: l).

(** The state is well formed and its list is [l]: the root leads to the nodes
    of [l], none of them twice, all of them below [heap_top]. *)
Record wf (s : sessions_t) (l : list (Z * session_node_t)) : Prop := {
  wf_chain : chain s.(heap) s.(session_list) l;
  wf_nodup : NoDup l.*1;
  wf_top : 0 < s.(heap_top);
  wf_heap : forall p, is_Some (s.(heap) !! p) -> 0 < p < s.(heap_top);
}.

Lemma chain_lookup h p l : chain h p l -> forall q m, (q, m) ∈ l ->
  exists n, h !! q = Some n /\ m = strip n.
Proof.
  induction 1; intros q m Hq; [by apply elem_of_nil in Hq |].
  apply elem_of_cons in Hq as [[= -> ->] | Hq]; eauto.
Qed.

Lemma chain_insert h p l q m :
  chain h p l -> q ∉ l.*1 -> chain (<[q := m]> h) p l.
Proof.
  induction 1; intros Hq; [constructor |]. apply not_elem_of_cons in Hq as [Hqp Hq].
  constructor; auto. by rewrite lookup_insert_ne.
Qed.

Lemma chain_delete h p l q : chain h p l -> q ∉ l.*1 -> chain (delete q h) p l.
Proof.
  induction 1; intros Hq; [constructor |]. apply not_elem_of_cons in Hq as [Hqp Hq].
  constructor; auto. by rewrite lookup_delete_ne.
Qed.

Lemma chain_size h p l : chain h p l -> NoDup l.*1 -> (length l <= size h)%nat.
Proof.
  intros Hc Hn. rewrite <- (length_fmap fst), <- size_dom.
  rewrite <- (size_list_to_set (C := gset Z) _ Hn). apply subseteq_size.
  intros q Hq. apply elem_of_list_to_set, list_elem_of_fmap in Hq as ([q' n] & -> & Hq).
  apply elem_of_dom. cbn. destruct (chain_lookup _ _ _ Hc _ _ Hq) as (n' & -> & _). eauto.
Qed.

Lemma wf_fuel s l : wf s l -> (length l < walk_fuel s)%nat.
Proof. intros [Hc Hn _ _]. unfold walk_fuel. pose proof (chain_size _ _ _ Hc Hn). lia. Qed.

Lemma wf_below s l : wf s l -> s.(heap_top) ∉ l.*1.
Proof.
  intros [Hc _ _ Hh] H. apply list_elem_of_fmap in H as ([q n] & Hq & H). cbn in Hq. subst q.
  destruct (chain_lookup _ _ _ Hc _ _ H) as (n' & Hn & _).
  destruct (Hh s.(heap_top)); [eauto | lia].
Qed.

Lemma node_at_some p s n : s.(heap) !! p = Some n -> node_at p s = Some (n, s).
Proof. intros H. unfold node_at, need. by rewrite H. Qed.

(** ** The searches *)

Definition has_session (sid : Z) (x : Z * session_node_t) : bool :=
  x.2.(sn_session) =? sid.

Lemma search_session_node_spec fuel p l sid s :
  chain s.(heap) p l -> (length l < fuel)%nat ->
  search_session_node fuel p sid s =
    Some (match find (has_session sid) l with Some (q, _) => q | None => NULL end, s).
Proof.
  intros Hc. revert fuel. induction Hc as [| p n l Hp Hn Hc IH]; intros [| fuel] Hf; cbn in Hf;
    try lia; [done |]. cbn [search_session_node find].
  apply Z.eqb_neq in Hp. rewrite Hp, (bind_some _ _ _ _ _ (node_at_some _ _ _ Hn)).
  unfold has_session at 1. cbn. destruct (_ =? sid); [done | apply IH; lia].
Qed.

Lemma search_thread_spec fuel p l sid s :
  chain s.(heap) p l -> (length l < fuel)%nat ->
  search_thread fuel p sid s =
    Some (match find (has_session sid) l with Some (_, n) => n.(sn_thread) | None => 0 end, s).
Proof.
  intros Hc. revert fuel. induction Hc as [| p n l Hp Hn Hc IH]; intros [| fuel] Hf; cbn in Hf;
    try lia; [done |]. cbn [search_thread find].
  apply Z.eqb_neq in Hp. rewrite Hp, (bind_some _ _ _ _ _ (node_at_some _ _ _ Hn)).
  unfold has_session at 1. cbn. destruct (_ =? sid); [done | apply IH; lia].
Qed.

Lemma has_info_spec fuel p l sid s :
  chain s.(heap) p l -> (length l < fuel)%nat ->
  has_info_sessionid fuel p sid s =
    Some (existsb (fun x => has_session sid x && bool_decide (x.2.(sn_mode) = smInfo)) l, s).
Proof.
  intros Hc. revert fuel. induction Hc as [| p n l Hp Hn Hc IH]; intros [| fuel] Hf; cbn in Hf;
    try lia; [done |]. cbn [has_info_sessionid existsb].
  apply Z.eqb_neq in Hp. rewrite Hp, (bind_some _ _ _ _ _ (node_at_some _ _ _ Hn)).
  unfold has_session at 1. cbn. destruct (_ && _); [done | apply IH; lia].
Qed.

(** The pipes after every node of [l] that wants info lines was sent [msg]. *)
Definition deliver (msg : string) (l : list (Z * session_node_t))
    (ps : gmap Z (list string)) : gmap Z (list string) :=
  foldl (fun ps x => if wants_info x.2 then alter (fun q => q ++ [msg]) x.2.(sn_pipefd1) ps
                     else ps) ps l.

Lemma deliver_cons msg p n l ps :
  deliver msg ((p, strip n) :: l) ps =
  deliver msg l (if wants_info n then alter (fun q => q ++ [msg]) n.(sn_pipefd1) ps else ps).
Proof. done. Qed.

Lemma enqueue_all_spec fuel p l msg s :
  chain s.(heap) p l -> (length l < fuel)%nat ->
  enqueue_all fuel p msg s = Some (tt, s <| pipes ::= deliver msg l |>).
Proof.
  intros Hc. remember s.(heap) as h eqn:Hh. revert s Hh fuel.
  induction Hc as [| p n l Hp Hn Hc IH]; intros s -> [| fuel] Hf; cbn in Hf; try lia.
  { by destruct s. }
  cbn [enqueue_all]. apply Z.eqb_neq in Hp.
  rewrite Hp, (bind_some _ _ _ _ _ (node_at_some _ _ _ Hn)).
  destruct (wants_info n) eqn:Hw.
  - unfold write_pipe, modify. unfold bind. rewrite IH; [| done | lia].
    cbn -[deliver]. by rewrite deliver_cons, Hw.
  - unfold ret, bind. rewrite IH; [| done | lia]. cbn -[deliver]. by rewrite deliver_cons, Hw.
Qed.

(** ** Removal *)

Fixpoint find_loc (n0 : loc) (l : list (Z * session_node_t)) (sid : Z) : option loc :=
  match l with
  | [] => None
  | x :: l => if has_session sid x then Some n0 else find_loc (NextOf x.1) l sid
  end.

(** The list without its first node of session [sid]. *)
Fixpoint remove_session (sid : Z) (l : list (Z * session_node_t)) :=
  match l with
  | [] => []
  | x :: l => if has_session sid x then l else x :: remove_session sid l
  end.

Lemma search_session_spec fuel n0 p l sid s :
  chain s.(heap) p l -> load n0 s = Some (p, s) -> (length l < fuel)%nat ->
  search_session fuel n0 sid s = Some (find_loc n0 l sid, s).
Proof.
  intros Hc. revert fuel n0. induction Hc as [| p n l Hp Hn Hc IH];
    intros [| fuel] n0 Hl Hf; cbn in Hf; try lia;
    cbn [search_session find_loc]; rewrite (bind_some _ _ _ _ _ Hl); [done |].
  apply Z.eqb_neq in Hp. rewrite Hp, (bind_some _ _ _ _ _ (node_at_some _ _ _ Hn)).
  unfold has_session at 1. cbn. destruct (_ =? sid); [done |]. apply IH; [| lia].
  cbn [load]. by rewrite (bind_some _ _ _ _ _ (node_at_some _ _ _ Hn)).
Qed.

(** A location outside the list [l] that can be read and written. *)
Definition outside (n0 : loc) (l : list (Z * session_node_t)) (s : sessions_t) : Prop :=
  match n0 with
  | Root => True
  | NextOf q => is_Some (s.(heap) !! q) /\ q ∉ l.*1
  | Local _ => False
  end.

(** What the removal of a node of [l], found from [n0], leaves alone. *)
Record frame (n0 : loc) (l : list (Z * session_node_t)) (s s' : sessions_t) : Prop := {
  frame_root : n0 <> Root -> s'.(session_list) = s.(session_list);
  frame_heap q : n0 <> NextOf q -> q ∉ l.*1 -> s'.(heap) !! q = s.(heap) !! q;
  frame_loc q n : n0 = NextOf q -> s.(heap) !! q = Some n ->
    exists n', s'.(heap) !! q = Some n' /\ strip n' = strip n;
  frame_dom q : is_Some (s'.(heap) !! q) -> is_Some (s.(heap) !! q);
  frame_rest : s' <| heap := s.(heap) |> <| session_list := s.(session_list) |> = s;
}.

Lemma remove_here n0 p n l s :
  load n0 s = Some (p, s) -> p <> NULL -> s.(heap) !! p = Some n ->
  chain s.(heap) n.(sn_next) l -> p ∉ l.*1 -> outside n0 ((p, strip n) :: l) s ->
  exists s', list_remove n0 s = Some (true, s') /\ load n0 s' = Some (n.(sn_next), s') /\
    chain s'.(heap) n.(sn_next) l /\ s'.(heap) !! p = None /\
    frame n0 ((p, strip n) :: l) s s'.
Proof.
  intros Hl Hp Hn Hc Hni Ho. apply Z.eqb_neq in Hp. unfold list_remove.
  rewrite (bind_some _ _ _ _ _ Hl), Hp, (bind_some _ _ _ _ _ (node_at_some _ _ _ Hn)).
  destruct n0 as [| q | v]; [| | done].
  - eexists. split; [| split; [| split; [| split]]].
    + unfold store, free, node_at. run. rewrite Hn. cbn. reflexivity.
    + done.
    + cbn. by apply chain_delete.
    + cbn. apply lookup_delete_eq.
    + split; cbn; try done; try by destruct s.
      * intros q _ Hq. apply not_elem_of_cons in Hq as [Hq _]. by rewrite lookup_delete_ne.
      * intros q. rewrite lookup_delete_is_Some. tauto.
  - destruct Ho as [[nq Hq] Hqn]. cbn in Hqn. apply not_elem_of_cons in Hqn as [Hqp Hql].
    eexists. split; [| split; [| split; [| split]]].
    + unfold store, free, set_node, node_at. run. rewrite Hq. cbn.
      rewrite lookup_insert_ne by done. rewrite Hn. cbn. reflexivity.
    + unfold load, node_at. run. rewrite lookup_delete_ne by done.
      by rewrite lookup_insert_eq.
    + cbn. apply chain_delete; [by apply chain_insert | done].
    + cbn. apply lookup_delete_eq.
    + split; cbn; try done; try by destruct s.
      * intros r Hr Hrl. apply not_elem_of_cons in Hrl as [Hrp _].
        rewrite lookup_delete_ne, lookup_insert_ne; congruence.
      * intros r n' [= <-] Hr. rewrite lookup_delete_ne, lookup_insert_eq by done.
        eexists. split; [done |]. rewrite Hq in Hr. by injection Hr as <-.
      * intros r [x Hx]. destruct (decide (p = r)) as [<- | Hpr]; [eauto |].
        rewrite lookup_delete_ne in Hx by done. destruct (decide (q = r)) as [<- | Hqr]; [eauto |].
        rewrite lookup_insert_ne in Hx by done. eauto.
Qed.

Lemma remove_spec l : forall n0 p sid lc s,
  chain s.(heap) p l -> NoDup l.*1 -> load n0 s = Some (p, s) -> outside n0 l s ->
  find_loc n0 l sid = Some lc ->
  exists s' p', list_remove lc s = Some (true, s') /\ load n0 s' = Some (p', s') /\
    chain s'.(heap) p' (remove_session sid l) /\ frame n0 l s s'.
Proof.
  induction l as [| [p0 m] l IH]; intros n0 p sid lc s Hc Hnd Hl Ho Hf; [done |].
  inversion Hc as [| p1 n l' Hp Hn Hc' E1 E2]; subst p0 m l' p1.
  apply NoDup_cons in Hnd as [Hni Hnd]. cbn [find_loc remove_session] in *.
  destruct (has_session sid (p, strip n)) eqn:Hs.
  - injection Hf as <-. destruct (remove_here n0 p n l s) as (s' & ? & ? & ? & ? & ?); eauto 6.
  - destruct (IH (NextOf p) n.(sn_next) sid lc s) as (s' & p' & Hr & Hl' & Hc2 & Fr); auto.
    { cbn [load]. by rewrite (bind_some _ _ _ _ _ (node_at_some _ _ _ Hn)). }
    { split; eauto. }
    destruct Fr as [Fr1 Fr2 Fr3 Fr4 Fr5].
    destruct (Fr3 p n eq_refl Hn) as (n' & Hn' & En).
    exists s', p. split; [done |]. split; [| split].
    + destruct n0 as [| q | v]; [| | done]; cbn [load] in *.
      * injection Hl as Hl. unfold gets. by rewrite Fr1, Hl.
      * destruct Ho as [[nq Hq] Hql]. cbn in Hql. apply not_elem_of_cons in Hql as [Hqp Hql].
        rewrite (bind_some _ _ _ _ _ (node_at_some _ _ _ Hq)) in Hl.
        rewrite <- Fr2 in Hq by (cbn; congruence).
        rewrite (bind_some _ _ _ _ _ (node_at_some _ _ _ Hq)). by injection Hl as ->.
    + rewrite <- En. constructor; [done | done |].
      cbn [load] in Hl'. rewrite (bind_some _ _ _ _ _ (node_at_some _ _ _ Hn')) in Hl'.
      by injection Hl' as ->.
    + split; [intros _; by apply Fr1 | | | done | done].
      * intros q Hq Hql. cbn in Hql. apply not_elem_of_cons in Hql as [Hqp Hql].
        apply Fr2; congruence.
      * intros q nq -> Hq. destruct Ho as [_ Hql]. cbn in Hql.
        apply not_elem_of_cons in Hql as [Hqp Hql]. exists nq. split; [| done].
        rewrite Fr2; congruence.
Qed.

(** ** The state the daemon starts with, and the operations on the list *)

Definition new_node (socket : Z) : session_node_t := mk_node 0 0 socket smUndefined (-1) (-1) NULL.

Lemma create_wf sock s l :
  wf s l -> s.(heap_top) < s.(heap_limit) ->
  exists s', create_anonymous_session sock s = Some (s.(heap_top), s') /\
    wf s' ((s.(heap_top), new_node sock) :: l) /\
    s'.(runningsessions) = u32 (s.(runningsessions) + 1) /\ s'.(pipes) = s.(pipes) /\
    s'.(lastsession) = s.(lastsession).
Proof.
  intros Hw Hlim. pose proof (wf_below _ _ Hw) as Hb. destruct Hw as [Hc Hn Ht Hh].
  assert (E : (s.(heap_top) =? NULL) = false) by (apply Z.eqb_neq; unfold NULL; lia).
  apply Z.ltb_lt in Hlim.
  eexists. unfold create_anonymous_session, list_add, malloc, load, store. run.
  rewrite Hlim. cbn. rewrite E. cbn. split; [by rewrite E |]. split; [| done].
  split; cbn.
  - apply (chain_cons _ _ (mk_node 0 0 sock smUndefined (-1) (-1) s.(session_list))).
    + unfold NULL. lia.
    + apply lookup_insert_eq.
    + by apply chain_insert.
  - by constructor.
  - lia.
  - intros p. destruct (decide (s.(heap_top) = p)) as [<- |]; [lia |].
    rewrite lookup_insert_ne by done. intros Hp. apply Hh in Hp. lia.
Qed.

Lemma create_nomem sock s :
  s.(heap_limit) <= s.(heap_top) -> create_anonymous_session sock s = Some (NULL, s).
Proof.
  intros H. apply Z.ltb_ge in H. unfold create_anonymous_session, list_add, malloc, load.
  run. by rewrite H.
Qed.

Lemma find_loc_some n0 l sid :
  existsb (has_session sid) l = true -> is_Some (find_loc n0 l sid).
Proof.
  revert n0. induction l as [| x l IH]; intros n0; [done |]. cbn.
  destruct (has_session sid x); [eauto | apply IH].
Qed.

Lemma remove_session_sub sid l x : x ∈ remove_session sid l -> x ∈ l.
Proof.
  induction l as [| y l IH]; [done |]. cbn. destruct (has_session sid y); [by right |].
  rewrite !elem_of_cons. intros [-> | H]; auto.
Qed.

Lemma remove_session_nodup sid l : NoDup l.*1 -> NoDup (remove_session sid l).*1.
Proof.
  induction l as [| y l IH]; [done |]. cbn. rewrite NoDup_cons. intros [Hy Hn].
  destruct (has_session sid y); [done |]. cbn. apply NoDup_cons. split; [| auto].
  intros H. apply Hy. apply list_elem_of_fmap in H as (x & -> & Hx).
  apply list_elem_of_fmap_2, (remove_session_sub _ _ _ Hx).
Qed.

Lemma destroy_wf sid s l :
  wf s l -> existsb (has_session sid) l = true ->
  exists s', destroy_session sid s = Some (tt, s') /\ wf s' (remove_session sid l) /\
    s'.(runningsessions) = u32 (s.(runningsessions) - 1) /\ s'.(pipes) = s.(pipes) /\
    s'.(lastsession) = s.(lastsession).
Proof.
  intros Hw He. pose proof (wf_fuel _ _ Hw) as Hf. destruct Hw as [Hc Hn Ht Hh].
  destruct (find_loc_some Root _ _ He) as [lc Hlc].
  destruct (remove_spec l Root s.(session_list) sid lc s) as (s1 & p & Hr & Hl & Hc1 & Fr);
    try done.
  exists (s1 <| runningsessions ::= fun r => u32 (r - 1) |>).
  unfold destroy_session, list_search_session. unfold gets at 1, bind.
  rewrite (search_session_spec _ Root _ _ _ _ Hc eq_refl Hf), Hlc, Hr.
  destruct Fr as [_ _ _ Fd Fe]. split; [done |].
  assert (Hrest : s1.(runningsessions) = s.(runningsessions) /\ s1.(pipes) = s.(pipes) /\
    s1.(heap_top) = s.(heap_top) /\ s1.(lastsession) = s.(lastsession)) by (rewrite <- Fe; done).
  destruct Hrest as (E1 & E2 & E3 & E4). cbn. rewrite E1, E2, E4. split; [| done].
  cbn [load] in Hl. injection Hl as Hl.
  split; cbn; rewrite ?E3; [by rewrite Hl | by apply remove_session_nodup | done | auto].
Qed.

(** ** Delivery of info lines *)

(** The nodes reached from [p], as the walks of the source read them. *)
Fixpoint nodes (fuel : nat) (h : gmap Z session_node_t) (p : Z) : list (Z * session_node_t) :=
  match fuel with
  | O => []
  | S fuel =>
      if p =? NULL then []
      else match h !! p with
           | None => []
           | Some n => (p, strip n) :: nodes fuel h n.(sn_next)
           end
  end.
Definition session_nodes (s : sessions_t) : list (Z * session_node_t) :=
  nodes (walk_fuel s) s.(heap) s.(session_list).

Lemma nodes_chain fuel h p l : chain h p l -> (length l < fuel)%nat -> nodes fuel h p = l.
Proof.
  intros Hc. revert fuel. induction Hc as [| p n l Hp Hn Hc IH]; intros [| fuel] Hf; cbn in Hf;
    try lia; [done |]. apply Z.eqb_neq in Hp. cbn [nodes]. rewrite Hp, Hn. f_equal.
  apply IH. lia.
Qed.

Lemma session_nodes_wf s l : wf s l -> session_nodes s = l.
Proof. intros Hw. apply nodes_chain; [apply Hw | by apply wf_fuel]. Qed.

(** The state after an info line went to every info session. *)
Definition broadcast (msg : string) (s : sessions_t) : sessions_t :=
  s <| pipes ::= deliver msg (session_nodes s) |>.

Lemma enqueue_info_spec msg s l :
  wf s l -> session_enqueue_info_message 0 msg s = Some (tt, broadcast msg s).
Proof.
  intros Hw. pose proof (wf_fuel _ _ Hw) as Hf. unfold broadcast.
  rewrite (session_nodes_wf _ _ Hw). destruct Hw as [Hc _ _ _].
  unfold session_enqueue_info_message. unfold gets, bind.
  destruct (Z.eqb_spec s.(session_list) NULL) as [E | E].
  - rewrite E in Hc. inversion Hc; subst; [| done]. by destruct s.
  - cbn -[walk_fuel]. by apply enqueue_all_spec.
Qed.

Lemma broadcast_wf msg s l : wf s l -> wf (broadcast msg s) l.
Proof. by intros []. Qed.

Lemma deliver_lookup msg l ps fd :
  NoDup (map (fun x => x.2.(sn_pipefd1)) (List.filter (fun x => wants_info x.2) l)) ->
  deliver msg l ps !! fd =
    (if existsb (fun x => wants_info x.2 && (x.2.(sn_pipefd1) =? fd)) l
     then fun q => q ++ [msg] else id) <$> ps !! fd.
Proof.
  revert ps. induction l as [| x l IH]; intros ps Hn.
  { cbn. by destruct (ps !! fd). }
  unfold deliver in *. cbn [foldl existsb List.filter] in *.
  destruct (wants_info x.2) eqn:Hx; cbn [andb map] in *; [| by apply IH].
  apply NoDup_cons in Hn as [Hni Hn].
  rewrite (IH _ Hn). destruct (Z.eqb_spec x.2.(sn_pipefd1) fd) as [<- | Hne]; cbn [orb].
  - rewrite lookup_alter_eq. destruct (existsb _ l) eqn:He; [| by destruct (ps !! _)].
    exfalso. apply Hni. apply existsb_exists in He as (y & Hy & Hw).
    apply andb_true_iff in Hw as [Hw Hfd]. apply Z.eqb_eq in Hfd. rewrite <- Hfd.
    apply list_elem_of_In, in_map_iff. exists y. split; [done |]. by apply filter_In.
  - by rewrite lookup_alter_ne.
Qed.

End Session.
