(* ===== verification/SessionSpec.v ===== *)
(** The properties of srcp-session.c: the invariant of the session list over
    every sequence of session starts and ends, the delivery of info lines, and
    the end of a session that never got its id. *)

From stdpp Require Import relations.
From S2P Require Import Prelude Ring World Messages Session.

Module SessionSpec.
Import Session.

(** * Registration *)

Ltac step H := rewrite (bind_some _ _ _ _ _ H).

(** The state a program ends in. *)
Definition final {A} (m : prog sessions_t A) (s : sessions_t) : sessions_t :=
  match m s with Some (_, s') => s' | None => s end.

Definition update_at (p : Z) (m : session_node_t) (x : Z * session_node_t) : Z * session_node_t :=
  if x.1 =? p then (p, m) else x.

Lemma update_at_eq p m n : update_at p m (p, n) = (p, m).
Proof. unfold update_at. cbn. by rewrite Z.eqb_refl. Qed.

Lemma update_at_ne p m q n : q <> p -> update_at p m (q, n) = (q, n).
Proof. intros H. unfold update_at. cbn. by apply Z.eqb_neq in H as ->. Qed.

Lemma update_at_fst p m l : (update_at p m <$> l).*1 = l.*1.
Proof.
  induction l as [| [q n] l IH]; [done |]. cbn. rewrite IH. f_equal. unfold update_at. cbn.
  by destruct (Z.eqb_spec q p).
Qed.

Lemma chain_update h q l p n n' :
  chain h q l -> h !! p = Some n -> n'.(sn_next) = n.(sn_next) ->
  chain (<[p := n']> h) q (update_at p (strip n') <$> l).
Proof.
  intros Hc Hp Hnx. induction Hc as [| q m l Hq Hm Hc IH]; [constructor |].
  cbn. unfold update_at at 1. cbn. destruct (Z.eqb_spec q p) as [-> | Hne].
  - apply chain_cons; [done | by rewrite lookup_insert_eq |].
    rewrite Hnx. replace (sn_next n) with (sn_next m) by congruence. exact IH.
  - apply chain_cons; [done | by rewrite lookup_insert_ne | exact IH].
Qed.

(** The next session id: the counter skips 0. *)
Definition next_id (last : Z) : Z := if u64 (last + 1) =? 0 then 1 else u64 (last + 1).

Definition registered (id : Z) (n : session_node_t) : session_node_t :=
  n <| sn_session := id |> <| sn_mode ::= fun m => if decide (m = smUndefined) then smCommand else m |>.

Lemma register_spec s p n : p <> NULL -> s.(heap) !! p = Some n ->
  register_session p s = Some (tt,
    s <| lastsession := next_id s.(lastsession) |>
      <| heap ::= <[p := registered (next_id s.(lastsession)) n]> |>).
Proof.
  intros Hp Hn. apply Z.eqb_neq in Hp. unfold register_session. rewrite Hp.
  unfold next_id. unfold bind, modify, gets, ret. cbn -[Z.eqb].
  rewrite (Z.eqb_sym 0). destruct (Z.eqb_spec (u64 (lastsession s + 1)) 0) as [E | E].
  - cbn. unfold node_at, set_node, need, bind, modify. cbn. rewrite Hn. cbn. by rewrite E.
  - unfold node_at, set_node, need, bind, modify. cbn. by rewrite Hn.
Qed.

Lemma register_wf s l p n : wf s l -> p <> NULL -> s.(heap) !! p = Some n ->
  exists s', register_session p s = Some (tt, s') /\
    wf s' (update_at p (strip (registered (next_id s.(lastsession)) n)) <$> l) /\
    s'.(lastsession) = next_id s.(lastsession) /\ s'.(runningsessions) = s.(runningsessions).
Proof.
  intros [Hc Hn Ht Hh] Hp E. eexists. split; [by apply register_spec |].
  split; [| done]. split; cbn.
  - by apply chain_update with n.
  - by rewrite update_at_fst.
  - done.
  - intros q. destruct (decide (p = q)) as [<- |]; [intros _; apply Hh; eauto |].
    rewrite lookup_insert_ne by done. apply Hh.
Qed.

(** * Sequences of session starts and ends *)

Definition capacity : Z := 2 ^ 64 - 1.

(** One operation on the list: a connection is accepted, a connected client
    got its mode and is registered, a registered session ends.  [capacity]
    sessions at most are registered. *)
Inductive session_step (s s' : sessions_t) : Prop :=
| step_create sock n : create_anonymous_session sock s = Some (n, s') -> session_step s s'
| step_register p n :
    p ∈ (session_nodes s).*1 -> s.(heap) !! p = Some n -> n.(sn_session) = 0 ->
    s.(lastsession) < capacity -> register_session p s = Some (tt, s') -> session_step s s'
| step_destroy sid :
    sid <> 0 -> existsb (has_session sid) (session_nodes s) = true ->
    destroy_session sid s = Some (tt, s') -> session_step s s'.

Definition ids (l : list (Z * session_node_t)) : list Z := (fun x => x.2.(sn_session)) <$> l.

(** The ids in use: those of registered sessions. *)
Definition used (l : list (Z * session_node_t)) : list Z := List.filter (fun i => negb (i =? 0)) (ids l).

(** The invariant: the heap holds a list, its sessions are counted, and no two
    of them have the same id. *)
Record sessions_inv (s : sessions_t) (l : list (Z * session_node_t)) : Prop := {
  inv_wf : wf s l;
  inv_count : s.(runningsessions) = u32 (Z.of_nat (length l));
  inv_unique : NoDup (used l);
  inv_last : 0 <= s.(lastsession) <= capacity;
  inv_ids : forall i, i ∈ ids l -> 0 <= i <= s.(lastsession);
}.

Lemma u32_add a b : u32 (u32 a + b) = u32 (a + b).
Proof. unfold wrap. apply Zplus_mod_idemp_l. Qed.

Lemma used_sub sid l i : i ∈ used (remove_session sid l) -> i ∈ used l.
Proof.
  unfold used, ids. rewrite !list_elem_of_In, !filter_In, <- !list_elem_of_In.
  intros [H Hi]. split; [| done]. apply list_elem_of_fmap in H as (x & -> & Hx).
  apply list_elem_of_fmap_2 with (f := fun x => x.2.(sn_session)), (remove_session_sub _ _ _ Hx).
Qed.

Lemma used_remove sid l : NoDup (used l) -> NoDup (used (remove_session sid l)).
Proof.
  induction l as [| x l IH]; [done |]. intros Hn. cbn [remove_session].
  assert (Hl : NoDup (used l)).
  { unfold used in *. cbn in Hn. destruct (negb _); [by apply NoDup_cons in Hn as [_ ?] | done]. }
  destruct (has_session sid x); [done |].
  unfold used in *. cbn in *. destruct (negb (sn_session x.2 =? 0)); [| by apply IH].
  apply NoDup_cons in Hn as [Hx Hn]. apply NoDup_cons. split; [| by apply IH].
  intros H. apply Hx. exact (used_sub sid l _ H).
Qed.

Lemma ids_remove sid l i : i ∈ ids (remove_session sid l) -> i ∈ ids l.
Proof.
  intros H. apply list_elem_of_fmap in H as (x & -> & Hx).
  apply list_elem_of_fmap_2 with (f := fun x => x.2.(sn_session)), (remove_session_sub _ _ _ Hx).
Qed.

Lemma remove_length sid l : existsb (has_session sid) l = true ->
  length l = S (length (remove_session sid l)).
Proof.
  induction l as [| x l IH]; [done |]. cbn. destruct (has_session sid x); [done |].
  cbn. intros H. by rewrite IH.
Qed.

Lemma used_update p m l n : NoDup l.*1 -> (p, n) ∈ l -> n.(sn_session) = 0 ->
  m.(sn_session) ∉ used l -> NoDup (used l) -> NoDup (used (update_at p m <$> l)).
Proof.
  intros Hnd Hp Hz Hm Hn. revert Hnd Hp Hm Hn.
  induction l as [| [q x] l IH]; intros Hnd Hp Hm Hn; [by apply elem_of_nil in Hp |].
  cbn in Hnd. apply NoDup_cons in Hnd as [Hq Hnd].
  apply elem_of_cons in Hp as [[= <- <-] | Hp].
  - assert (E : update_at p m <$> l = l).
    { clear IH Hm Hn. induction l as [| [r y] l IHl]; [done |]. cbn in *.
      apply not_elem_of_cons in Hq as [Hr Hq]. apply NoDup_cons in Hnd as [_ Hnd].
      rewrite IHl by done. unfold update_at. cbn. by destruct (Z.eqb_spec r p). }
    unfold used, ids in *. cbn in *. rewrite E, update_at_eq. cbn.
    rewrite Hz in Hm, Hn. cbn in Hm, Hn. destruct (negb _); [| done]. by apply NoDup_cons.
  - assert (Hqp : q <> p).
    { intros ->. apply Hq. exact (list_elem_of_fmap_2 fst _ _ Hp). }
    unfold used, ids in *. cbn in *. rewrite update_at_ne by done. cbn.
    destruct (negb (sn_session x =? 0)) eqn:Ex; [| by apply IH].
    apply not_elem_of_cons in Hm as [Hm1 Hm]. apply NoDup_cons in Hn as [Hx Hn].
    apply NoDup_cons. split; [| by apply IH].
    intros H. apply Hx. rewrite list_elem_of_In, filter_In, <- list_elem_of_In in H |- *.
    destruct H as [H _]. split; [| done].
    apply list_elem_of_fmap in H as (y & Hy & H). apply list_elem_of_fmap in H as (z & -> & H).
    unfold update_at in Hy. destruct (Z.eqb_spec z.1 p).
    + cbn in Hy. congruence.
    + rewrite Hy. by apply list_elem_of_fmap_2 with (f := fun x => x.2.(sn_session)).
Qed.

Lemma ids_update p m l i : i ∈ ids (update_at p m <$> l) -> i = m.(sn_session) \/ i ∈ ids l.
Proof.
  intros H. apply list_elem_of_fmap in H as (y & -> & H). apply list_elem_of_fmap in H as (z & -> & H).
  unfold update_at. destruct (Z.eqb_spec z.1 p); [by left |].
  right. by apply list_elem_of_fmap_2 with (f := fun x => x.2.(sn_session)).
Qed.

Lemma next_id_plain last : 0 <= last < capacity -> next_id last = last + 1.
Proof.
  intros H. unfold next_id, capacity in *. rewrite wrap_small by lia.
  destruct (Z.eqb_spec (last + 1) 0); lia.
Qed.

Lemma step_inv s s' l : sessions_inv s l -> session_step s s' -> exists l', sessions_inv s' l'.
Proof.
  intros [Hw Hc Hu Hl Hi] Hs. pose proof (session_nodes_wf _ _ Hw) as Hnodes.
  destruct Hs as [sock n E | p n Hp Hn Hz Hlt E | sid Hsid He E].
  - destruct (Z.ltb_spec s.(heap_top) s.(heap_limit)) as [Hlim | Hlim].
    + destruct (create_wf sock s l Hw Hlim) as (s1 & E1 & Hw1 & Hr1 & _ & Hlast).
      rewrite E1 in E. injection E as <- <-.
      eexists. split; [exact Hw1 | | exact Hu | by rewrite Hlast |].
      * rewrite Hr1, Hc, u32_add. f_equal. cbn [length]. lia.
      * intros i Hii. rewrite Hlast. cbn in Hii. apply elem_of_cons in Hii as [-> | Hii]; [lia | auto].
    + rewrite (create_nomem sock s Hlim) in E. injection E as <- <-. exists l. by split.
  - assert (Hp0 : p <> NULL).
    { destruct (wf_heap _ _ Hw p); [eauto | unfold NULL; lia]. }
    destruct (register_wf s l p n Hw Hp0 Hn) as (s1 & E1 & Hw1 & Hl1 & Hr1).
    rewrite E1 in E. injection E as <-. rewrite next_id_plain in * by lia.
    assert (Hin : (p, strip n) ∈ l).
    { rewrite Hnodes in Hp. apply list_elem_of_fmap in Hp as ([q m] & -> & Hq). cbn in Hn.
      destruct (chain_lookup _ _ _ (wf_chain _ _ Hw) _ _ Hq) as (n' & Hn' & ->).
      cbn. by replace n with n' by congruence. }
    eexists. split; [exact Hw1 | | | lia |].
    + by rewrite Hr1, Hc, length_fmap.
    + apply (used_update p _ l (strip n)); [apply Hw | done | done | | done].
      cbn. intros H. unfold used in H.
      rewrite list_elem_of_In, filter_In, <- list_elem_of_In in H. destruct H as [H _].
      apply Hi in H. lia.
    + intros i Hii. rewrite Hl1. apply ids_update in Hii as [-> | Hii]; [cbn; lia |].
      apply Hi in Hii. lia.
  - rewrite Hnodes in He. destruct (destroy_wf sid s l Hw He) as (s1 & E1 & Hw1 & Hr1 & _ & Hlast).
    rewrite E1 in E. injection E as <-.
    eexists. split; [exact Hw1 | | by apply used_remove | by rewrite Hlast |].
    + rewrite Hr1, Hc. unfold Z.sub. rewrite u32_add. f_equal.
      rewrite (remove_length _ _ He). lia.
    + intros i Hii. rewrite Hlast. by apply Hi, (ids_remove sid).
Qed.

(** The state the daemon starts with, and the states it gets to. *)
Definition no_sessions (memory : Z) : sessions_t :=
  mk_sessions ∅ 1 (1 + memory) NULL 0 0 ∅ [].

Definition reachable (memory : Z) : sessions_t -> Prop := rtc session_step (no_sessions memory).

Lemma no_sessions_inv memory : sessions_inv (no_sessions memory) [].
Proof.
  split; cbn; [| done | constructor | unfold capacity; lia | by intros i ?%elem_of_nil].
  split; cbn; [constructor | constructor | lia |]. intros p [n Hn]. by rewrite lookup_empty in Hn.
Qed.

Lemma rtc_inv s s' l : rtc session_step s s' -> sessions_inv s l -> exists l', sessions_inv s' l'.
Proof.
  intros H. revert l. induction H as [s | s s1 s2 Hs _ IH]; intros l Hl; [by exists l |].
  destruct (step_inv _ _ _ Hl Hs) as [l1 H1]. by apply (IH l1).
Qed.

(** * The end of a session without an id *)

Lemma destroy_anonymous_spec s n m : n <> NULL -> s.(heap) !! n = Some m ->
  destroy_anonymous_session n s = Some (tt,
    s <| heap ::= delete n |> <| runningsessions ::= fun r => u32 (r - 1) |>).
Proof.
  intros Hn Hm. apply Z.eqb_neq in Hn. unfold destroy_anonymous_session. rewrite Hn.
  step (node_at_some _ _ _ Hm). unfold list_remove. unfold bind, load, ret at 1. cbn -[NULL].
  rewrite Hn. unfold node_at, free, need, bind, modify. cbn. rewrite Hm. cbn. by rewrite (node_at_some _ _ _ Hm).
Qed.

(** * Examples *)

Definition example_pipes : gmap Z (list string) := {[ 11 := []; 12 := ["hello"%string] ]}.
Definition example_sessions : sessions_t :=
  mk_sessions {[ 1 := mk_node 1 100 5 smInfo 10 11 NULL;
                 2 := mk_node 2 101 6 smCommand (-1) (-1) 1;
                 3 := mk_node 3 102 7 smInfo 13 12 2 ]} 4 100 3 3 3 example_pipes [].
Definition example_list : list (Z * session_node_t) :=
  [(3, mk_node 3 102 7 smInfo 13 12 NULL); (2, mk_node 2 101 6 smCommand (-1) (-1) NULL);
   (1, mk_node 1 100 5 smInfo 10 11 NULL)].

Lemma example_sessions_wf : wf example_sessions example_list.
Proof.
  split.
  - apply (chain_cons _ 3 (mk_node 3 102 7 smInfo 13 12 2)); [done | reflexivity |].
    apply (chain_cons _ 2 (mk_node 2 101 6 smCommand (-1) (-1) 1)); [done | reflexivity |].
    apply (chain_cons _ 1 (mk_node 1 100 5 smInfo 10 11 NULL)); [done | reflexivity |].
    constructor.
  - cbn. by repeat (apply NoDup_cons; split; [rewrite ?elem_of_cons, elem_of_nil; lia |]); constructor.
  - done.
  - intros p [n Hn]. unfold example_sessions in *. cbn in *.
    repeat (apply lookup_insert_Some in Hn as [[<- _] | [_ Hn]]; [lia |]).
    apply lookup_singleton_Some in Hn as [<- _]. lia.
Qed.

(** * The properties *)

(** In every state that session starts, registrations and session ends
    lead to, the heap holds one list of sessions without a cycle or a dangling
    link, [runningsessions] counts it, and no two registered sessions have the
    same id. *)
Theorem session_ids_unique memory s : reachable memory s ->
  exists l, wf s l /\ s.(runningsessions) = u32 (Z.of_nat (length l)) /\ NoDup (used l).
Proof.
  intros H. destruct (rtc_inv _ _ _ H (no_sessions_inv memory)) as [l [H1 H2 H3 _ _]].
  by exists l.
Qed.

(** Two connections, the first one registered. *)
Definition two_clients : sessions_t :=
  final (do* create_anonymous_session 5 in do* create_anonymous_session 6 in
         register_session 1) (no_sessions 8).

Lemma session_ids_unique_witness :
  reachable 8 two_clients /\
  exists l, wf two_clients l /\ two_clients.(runningsessions) = u32 (Z.of_nat (length l)) /\
    NoDup (used l).
Proof.
  assert (H : reachable 8 two_clients); [| split; [exact H | exact (session_ids_unique 8 two_clients H)]].
  set (s1 := final (create_anonymous_session 5) (no_sessions 8)).
  set (s2 := final (create_anonymous_session 6) s1).
  apply rtc_l with s1; [apply (step_create _ _ 5 1); vm_compute; reflexivity |].
  apply rtc_l with s2; [apply (step_create _ _ 6 2); vm_compute; reflexivity |].
  apply rtc_once.
  apply (step_register _ _ 1 (mk_node 0 0 5 smUndefined (-1) (-1) NULL)).
  - vm_compute. right. left.
  - vm_compute. reflexivity.
  - reflexivity.
  - vm_compute. reflexivity.
  - vm_compute. reflexivity.
Defined.

(** C32. An info line for all sessions is written exactly once to the pipe of
    each info session and to no other pipe; the sessions are left alone. *)
Theorem info_exactly_once s l msg :
  wf s l -> NoDup (map (fun x => x.2.(sn_pipefd1)) (List.filter (fun x => wants_info x.2) l)) ->
  exists s', session_enqueue_info_message 0 msg s = Some (tt, s') /\ wf s' l /\
    s'.(heap) = s.(heap) /\
    forall fd, s'.(pipes) !! fd =
      (if existsb (fun x => wants_info x.2 && (x.2.(sn_pipefd1) =? fd)) l
       then fun q => q ++ [msg] else id) <$> s.(pipes) !! fd.
Proof.
  intros Hw Hn. exists (broadcast msg s). split; [exact (enqueue_info_spec _ _ _ Hw) |].
  split; [by apply broadcast_wf |]. split; [done |]. intros fd. unfold broadcast. cbn -[session_nodes].
  rewrite (session_nodes_wf _ _ Hw). by apply deliver_lookup.
Qed.

Lemma info_exactly_once_witness :
  exists s', session_enqueue_info_message 0 "x" example_sessions = Some (tt, s') /\
    wf s' example_list /\ s'.(heap) = example_sessions.(heap) /\
    forall fd, s'.(pipes) !! fd =
      (if existsb (fun x => wants_info x.2 && (x.2.(sn_pipefd1) =? fd)) example_list
       then fun q => q ++ ["x"%string] else id) <$> example_sessions.(pipes) !! fd.
Proof.
  apply info_exactly_once; [exact example_sessions_wf |].
  vm_compute. repeat (apply NoDup_cons; split; [rewrite ?elem_of_cons, elem_of_nil; lia |]).
  constructor.
Defined.

(** A connection that ends before it is registered leaves a dangling link:
    [destroy_anonymous_session] frees the node and counts it off, but the head
    of the list still points at it, and the next info line reads freed
    memory. *)
Theorem anonymous_end_dangles s n m l msg :
  wf s ((n, m) :: l) ->
  exists s', destroy_anonymous_session n s = Some (tt, s') /\
    s'.(runningsessions) = u32 (s.(runningsessions) - 1) /\
    s'.(session_list) = n /\ s'.(heap) !! n = None /\
    session_enqueue_info_message 0 msg s' = None.
Proof.
  intros [Hc _ _ _]. inversion Hc as [| p x l' Hp Hx Hch]; subst.
  eexists. split; [by apply destroy_anonymous_spec with x |].
  split; [done |]. split; [done |]. cbn. split; [apply lookup_delete_eq |].
  apply Z.eqb_neq in Hp. unfold session_enqueue_info_message. unfold bind, gets. cbn -[NULL Z.eqb walk_fuel].
  rewrite Hp. cbn -[NULL Z.eqb walk_fuel]. unfold walk_fuel. cbn -[NULL Z.eqb]. rewrite Hp.
  unfold bind, node_at. cbn. by rewrite lookup_delete_eq.
Qed.

Lemma anonymous_end_dangles_witness :
  exists s', destroy_anonymous_session 3 example_sessions = Some (tt, s') /\
    s'.(runningsessions) = u32 (example_sessions.(runningsessions) - 1) /\
    s'.(session_list) = 3 /\ s'.(heap) !! 3 = None /\
    session_enqueue_info_message 0 "x" s' = None.
Proof.
  exact (anonymous_end_dangles example_sessions 3 _ _ "x"%string example_sessions_wf).
Defined.
End SessionSpec.
