(* ===== verification/Services.v ===== *)
(** The services every device group uses: info lines to the clients
    (srcp-info.c), signalling a bus thread and the capabilities of a bus
    (config-srcpd.c), synchronisation frames on the CAN bus (mcs-gateway.c),
    track power (srcp-power.c), descriptions (srcp-descr.c), general messages
    (srcp-gm.c) and the wait for a bus thread's answer (srcp-session.c). *)

From S2P Require Import Prelude Ring World Messages Session.

(** * Info lines *)

(** An operation of srcp-session.c in the world. *)
Definition on_sess {A} (m : prog sessions_t A) : prog world A := fun w =>
  match m w.(sess) with
  | Some (a, s) => Some (a, w <| sess := s |>)
  | None => None
  end.

Definition enqueueInfoMessage (msg : string) : prog world unit :=
  on_sess (Session.session_enqueue_info_message 0 msg).

(** * Bus threads and capabilities *)

Definition resume_bus_thread (busnumber : Z) : prog world unit :=
  do* bus_get busnumber in
  modify (fun w => w <| woken ::= fun l => l ++ [busnumber] |>).

(** [strstr(s, p) != NULL] *)
Fixpoint strstr (s p : string) : bool :=
  String.prefix p s ||
  match s with
  | "" => false
  | String _ s => strstr s p
  end%string.

Inductive devicegroup :=
| DG_SESSION | DG_TIME | DG_GA | DG_GL | DG_FB | DG_SM | DG_LOCK | DG_DESCRIPTION
| DG_SERVER | DG_POWER | DG_GM.

Definition bus_has_devicegroup (bus : Z) (dg : devicegroup) : prog world bool :=
  let* b := bus_get bus in
  ret match dg with
      | DG_SESSION => strstr b.(description) "SESSION"
      | DG_POWER => strstr b.(description) "POWER"
      | DG_GA => strstr b.(description) "GA"
      | DG_GL => strstr b.(description) "GL"
      | DG_GM => strstr b.(description) "GM"
      | DG_FB => strstr b.(description) "FB"
      | DG_SM => strstr b.(description) "SM"
      | DG_SERVER => strstr b.(description) "SERVER"
      | DG_TIME => strstr b.(description) "TIME"
      | DG_LOCK => strstr b.(description) "LOCK"
      | DG_DESCRIPTION => negb (bool_decide (b.(description) = ""%string))
      end.

(** A character of a C string. *)
Fixpoint strchr (s : string) (a : Z) : bool :=
  match s with
  | "" => false
  | String b s => (ch b =? a)%Z || strchr s a
  end%string.

Definition bus_supports_protocol (busnumber : Z) (protocol : Z) : prog world Z :=
  let* b := bus_get busnumber in
  ret match b.(protocols) with
      | Some protocols =>
          if strchr protocols protocol then SRCP_OK else SRCP_UNSUPPORTEDDEVICEPROTOCOL
      | None => SRCP_UNSUPPORTEDDEVICEPROTOCOL
      end.

(** * CAN synchronisation *)

Definition CAN_EFF_FLAG : Z := 0x80000000.

(** [htonl] stored to memory: the bytes of a word, the first one leading. *)
Definition be_bytes (w : Z) : list Z :=
  [Z.land (Z.shiftr w 24) 255; Z.land (Z.shiftr w 16) 255;
   Z.land (Z.shiftr w 8) 255; Z.land w 255].

Definition write_can (f : can_frame) : prog world unit :=
  modify (fun w => w <| mcs ::= fun m => m <| can_out ::= fun l => l ++ [f] |> |>).

(** [info] is the buffer the caller filled: its first byte counts the bytes
    that follow.  A frame holds 8 bytes, so a count above 4 overruns it. *)
Definition info_mcs (bus : Z) (infoid : Z) (itemid : Z) (info : list Z) : prog world Z :=
  let* m := gets mcs in
  if negb (bus =? m.(mcs_bus)) then ret (-1)
  else
    let* n := need (info !! O) in
    do* guard ((0 <=? n) && (n <=? 4) && (n <? Z.of_nat (length info))) in
    do* write_can (mk_frame
      (u32 (Z.lor (Z.lor (Z.shiftl (u16 infoid) 16) m.(ownhash)) CAN_EFF_FLAG))
      (n + 4)
      (be_bytes (u32 itemid) ++ take (Z.to_nat n) (drop 1 info))) in
    ret 0.

(** * Power *)

(** [strcpy] into a [char[n]]: the string and its terminator must fit. *)
Definition strcpy_guard (n : Z) (s : string) : prog world unit :=
  guard (Z.of_nat (String.length s) <? n).

Definition getPower (bus : Z) : prog world Z :=
  let* b := bus_get bus in ret b.(power_state).

Definition setPower (bus : Z) (state : Z) (msg : string) : prog world Z :=
  let* t := gettimeofday in
  let* b := bus_get bus in
  do* strcpy_guard 100 msg in
  do* bus_set bus (b <| power_change_time := t |>
                     <| power_state := if state =? -1 then 0 else state |>
                     <| power_msg := msg |>
                     <| power_changed := if state =? -1 then 0 else 1 |>) in
  do* resume_bus_thread bus in
  ret SRCP_OK.

Definition infoPower (bus : Z) : prog world (Z * string) :=
  let* b := bus_get bus in
  ret (SRCP_INFO,
       fmt [stamp b.(power_change_time); " 100 INFO "; dec bus; " POWER ";
            if b.(power_state) =? 0 then "OFF" else "ON"; " "; b.(power_msg); nl]).

Definition initPower (bus : Z) : prog world Z := ret SRCP_OK.

Definition termPower (bus : Z) : prog world Z :=
  let* p := getPower bus in
  if 1 =? p then setPower bus 0 "Device Termination" else ret SRCP_OK.

(** * Descriptions and general messages *)

Definition describeBus (bus : Z) : prog world (Z * string) :=
  let* b := bus_get bus in
  ret (SRCP_INFO,
       fmt [stamp b.(power_change_time); " 100 INFO "; dec bus; " DESCRIPTION ";
            b.(description); nl]).

Definition MAXSRCPLINELEN : Z := 1001.

(** [snprintf(buf, n, ...)]: at most [n - 1] characters. *)
Definition snprintf (n : Z) (s : string) : string := String.substring 0 (Z.to_nat (n - 1)) s.

Definition setGM (sid rid : Z) (msg : string) : prog world Z :=
  let* sok := (if negb (sid =? 0) then on_sess (Session.is_valid_info_session sid)
               else ret true) in
  if negb sok then ret SRCP_WRONGVALUE
  else
    let* rok := (if negb (rid =? 0) then on_sess (Session.is_valid_info_session rid)
                 else ret true) in
    if negb rok then ret SRCP_WRONGVALUE
    else
      let* t := gettimeofday in
      do* on_sess (Session.session_enqueue_info_message sid
        (snprintf MAXSRCPLINELEN
           (fmt [stamp t; " 100 INFO 0 GM "; dec sid; " "; dec rid; " "; msg; nl]))) in
      ret SRCP_OK.

(** * Session start and end *)

Definition start_session (sn : Z) : prog world Z :=
  let* t := gettimeofday in
  let* n := on_sess (Session.node_at sn) in
  do* enqueueInfoMessage (snprintf 1000
    (fmt [stamp t; " 101 INFO 0 SESSION "; dec n.(sn_session); " ";
          if decide (n.(sn_mode) = smCommand) then "COMMAND" else "INFO"; nl])) in
  ret SRCP_OK.

Definition describeSESSION (bus sessionid : Z) : prog world Z := ret SRCP_UNSUPPORTEDOPERATION.

Definition termSESSION (bus sessionid termsessionid : Z) : prog world Z :=
  if sessionid =? termsessionid then
    do* on_sess (Session.session_terminate termsessionid) in ret (- SRCP_OK)
  else ret SRCP_FORBIDDEN.

(** * Waiting for a bus thread *)

(** [others] is what the other threads do while the caller sleeps on the
    condition variable; it tells whether the wait timed out. *)
Definition session_condt_wait (others : prog world bool) (bus : Z) : prog world (bool * Z) :=
  do* gettimeofday in
  let* timedout := others in
  let* w := get in
  let* value := need (w.(cb_data) !! bus) in
  ret (timedout, value).

Definition session_endwait (bus : Z) (returnvalue : Z) : prog world Z :=
  let* w := get in
  do* need (w.(cb_data) !! bus) in
  do* modify (fun w => w <| cb_data ::= <[bus := returnvalue]> |>) in
  ret returnvalue.

(** * Facts the device groups use *)

(** The sessions are well formed, whatever their list is. *)
Definition sess_ok (w : world) : Prop := exists l, Session.wf w.(sess) l.

(** The world after the info line [msg] went out. *)
Definition announce (msg : string) (w : world) : world :=
  w <| sess ::= Session.broadcast msg |>.

Definition tick (w : world) : world := w <| w_tick ::= S |>.
Definition now (w : world) : timeval := w.(w_clock) w.(w_tick).

Lemma enqueueInfoMessage_spec msg w :
  sess_ok w -> enqueueInfoMessage msg w = Some (tt, announce msg w).
Proof.
  intros [l Hl]. unfold enqueueInfoMessage, on_sess.
  by rewrite (Session.enqueue_info_spec _ _ _ Hl).
Qed.

Lemma announce_ok msg w : sess_ok w -> sess_ok (announce msg w).
Proof. intros [l Hl]. exists l. by apply Session.broadcast_wf. Qed.

Lemma gettimeofday_spec w : gettimeofday w = Some (now w, tick w).
Proof. done. Qed.

Lemma bus_get_some b d w : w.(buses) !! b = Some d -> bus_get b w = Some (d, w).
Proof. intros H. unfold bus_get, need. by rewrite H. Qed.

Lemma bus_mod_some w b f d : w.(buses) !! b = Some d ->
  bus_mod b f w = Some (tt, w <| buses ::= <[b := f d]> |>).
Proof. intros H. unfold bus_mod. by rewrite (bind_some _ _ _ _ _ (bus_get_some _ _ _ H)). Qed.

Lemma resume_spec b d w :
  w.(buses) !! b = Some d ->
  resume_bus_thread b w = Some (tt, w <| woken ::= fun l => l ++ [b] |>).
Proof. intros H. unfold resume_bus_thread, bind. by rewrite (bus_get_some _ _ _ H). Qed.

Lemma info_mcs_other bus id item info w :
  bus <> w.(mcs).(mcs_bus) -> info_mcs bus id item info w = Some (-1, w).
Proof.
  intros H. unfold info_mcs, bind, gets. apply Z.eqb_neq in H. by rewrite H.
Qed.

Lemma initial_sess_ok clock memory : sess_ok (initial_world clock memory).
Proof.
  exists []. split; cbn; [constructor | constructor | lia |].
  intros p [n Hn]. by rewrite lookup_empty in Hn.
Qed.

(** The state a program ends in. *)
Definition final {S A} (m : prog S A) (s : S) : S :=
  match m s with Some (_, s') => s' | None => s end.

(** A program's end state, known from its result alone. *)
Lemma final_run {S A} (m : prog S A) (s : S) a :
  fst <$> m s = Some a -> m s = Some (a, final m s).
Proof. unfold final. destruct (m s) as [[b s'] |]; [| done]. by intros [= ->]. Qed.

(** Which frame [info_mcs] sends for a well-formed buffer. *)
Definition mcs_frame (m : mcs_t) (infoid itemid : Z) (payload : list Z) : can_frame :=
  mk_frame (u32 (Z.lor (Z.lor (Z.shiftl (u16 infoid) 16) m.(ownhash)) CAN_EFF_FLAG))
    (Z.of_nat (length payload) + 4) (be_bytes (u32 itemid) ++ payload).

(** The world after [info_mcs]: a frame when the bus is the gateway's. *)
Definition sync (bus infoid itemid : Z) (payload : list Z) (w : world) : world :=
  if bus =? w.(mcs).(mcs_bus)
  then w <| mcs ::= fun m => m <| can_out ::= fun l => l ++ [mcs_frame m infoid itemid payload] |> |>
  else w.

Lemma info_mcs_spec bus infoid itemid payload pad w :
  (length payload <= 4)%nat ->
  exists rc, info_mcs bus infoid itemid (Z.of_nat (length payload) :: payload ++ pad) w =
    Some (rc, sync bus infoid itemid payload w) /\
    rc = if bus =? w.(mcs).(mcs_bus) then 0 else -1.
Proof.
  intros Hl. unfold info_mcs, sync, gets, bind at 1.
  destruct (Z.eqb_spec bus w.(mcs).(mcs_bus)) as [E | E]; cbn [negb]; [| by exists (-1)].
  exists 0. split; [| done]. cbn [lookup list_lookup need]. unfold bind, ret.
  assert (G : (0 <=? Z.of_nat (length payload)) && (Z.of_nat (length payload) <=? 4) &&
    (Z.of_nat (length payload) <?
     Z.of_nat (length (Z.of_nat (length payload) :: payload ++ pad))) = true).
  { cbn [length]. rewrite length_app. zbool. }
  assert (T : take (Z.to_nat (Z.of_nat (length payload)))
    (drop 1 (Z.of_nat (length payload) :: payload ++ pad)) = payload).
  { rewrite Nat2Z.id. apply take_app_length. }
  rewrite G, T. done.
Qed.
