(* ===== verification/Lock.v ===== *)
(** The lock protocol the device groups share: the abstract table of lock
    holders, the interface [LockTable] a device group implements (GA in
    Accessory.v, GL in Loco.v), and what every client of the interface may rely
    on, proved once against it. *)

From S2P Require Import Prelude Ring World Messages Session Services.

(** * The abstract table *)

(** A request of session [sid] to make [new] the holder of [o], the device its
    address names: refused for an address that names none, refused when
    another session holds the device, granted otherwise.  [new] is [sid] to
    lock and 0 to unlock; holder 0 is a free device. *)
Definition set_holder {S} `{EqDecision S} (o : option S) (h : S -> Z) (sid new : Z)
    : Z * (S -> Z) :=
  match o with
  | None => (SRCP_WRONGVALUE, h)
  | Some s =>
      if (h s =? sid) || (h s =? 0)
      then (SRCP_OK, fun s' => if decide (s' = s) then new else h s')
      else (SRCP_DEVICELOCKED, h)
  end.

(** * The interface *)

Class LockTable (K S : Type) `{EqDecision S} := {
  (** the states the operations work in, and the addresses they accept *)
  lt_ok : world -> Prop;
  lt_key : world -> K -> Prop;
  (** the device an address names, and the session that holds a device *)
  lt_slot : world -> K -> option S;
  lt_holder : world -> S -> Z;
  lt_lock : K -> Z -> Z -> prog world Z;
  lt_unlock : K -> Z -> prog world Z;
  lt_lock_spec w k duration sid : lt_ok w -> lt_key w k ->
    let a := set_holder (lt_slot w k) (lt_holder w) sid sid in
    exists w', lt_lock k duration sid w = Some (a.1, w') /\
      (forall s, lt_holder w' s = a.2 s) /\ lt_ok w' /\
      (forall k', (lt_key w k' -> lt_key w' k') /\ lt_slot w' k' = lt_slot w k');
  lt_unlock_spec w k sid : lt_ok w -> lt_key w k ->
    let a := set_holder (lt_slot w k) (lt_holder w) sid 0 in
    exists w', lt_unlock k sid w = Some (a.1, w') /\
      (forall s, lt_holder w' s = a.2 s) /\ lt_ok w' /\
      (forall k', (lt_key w k' -> lt_key w' k') /\ lt_slot w' k' = lt_slot w k');
}.

(** * Clients *)

(** A client's request: lock or unlock, on behalf of a session. *)
Inductive request (K : Type) :=
| Lock (k : K) (duration sid : Z)
| Unlock (k : K) (sid : Z).
Arguments Lock {K}.
Arguments Unlock {K}.

Definition req_key {K} (r : request K) : K := match r with Lock k _ _ | Unlock k _ => k end.
Definition req_sid {K} (r : request K) : Z := match r with Lock _ _ s | Unlock _ s => s end.

Section Clients.
Context {K D : Type} `{EqDecision D} {LT : LockTable K D}.

Definition serve (r : request K) : prog world Z :=
  match r with
  | Lock k duration sid => lt_lock k duration sid
  | Unlock k sid => lt_unlock k sid
  end.

(** A sequence of requests, in the order the bus lock serialises them. *)
Fixpoint serve_all (rs : list (request K)) : prog world (list Z) :=
  match rs with
  | [] => ret []
  | r :: rs => let* code := serve r in let* codes := serve_all rs in ret (code :: codes)
  end.

(** The same on the abstract table. *)
Definition spec_step (slot : K -> option D) (h : D -> Z) (r : request K) : Z * (D -> Z) :=
  match r with
  | Lock k _ sid => set_holder (slot k) h sid sid
  | Unlock k sid => set_holder (slot k) h sid 0
  end.

Fixpoint spec_all (slot : K -> option D) (h : D -> Z) (rs : list (request K))
    : list Z * (D -> Z) :=
  match rs with
  | [] => ([], h)
  | r :: rs =>
      let a := spec_step slot h r in
      let b := spec_all slot a.2 rs in
      (a.1 :: b.1, b.2)
  end.

Lemma serve_spec r w :
  lt_ok w -> lt_key w (req_key r) ->
  let a := spec_step (lt_slot w) (lt_holder w) r in
  exists w', serve r w = Some (a.1, w') /\ (forall s, lt_holder w' s = a.2 s) /\ lt_ok w' /\
    (forall k', (lt_key w k' -> lt_key w' k') /\ lt_slot w' k' = lt_slot w k').
Proof. destruct r; [apply lt_lock_spec | apply lt_unlock_spec]. Qed.

Lemma set_holder_ext o (h1 h2 : D -> Z) sid new :
  (forall s, h1 s = h2 s) ->
  (set_holder o h1 sid new).1 = (set_holder o h2 sid new).1 /\
  forall s, (set_holder o h1 sid new).2 s = (set_holder o h2 sid new).2 s.
Proof.
  intros E. unfold set_holder. destruct o as [d |]; [| done]. rewrite E.
  destruct (_ || _); [| done]. split; [done |]. intros s. cbn. by rewrite E.
Qed.

Lemma spec_all_ext slot1 slot2 rs : forall (h1 h2 : D -> Z),
  (forall k, slot1 k = slot2 k) -> (forall s, h1 s = h2 s) ->
  (spec_all slot1 h1 rs).1 = (spec_all slot2 h2 rs).1 /\
  forall s, (spec_all slot1 h1 rs).2 s = (spec_all slot2 h2 rs).2 s.
Proof.
  induction rs as [| r rs IH]; intros h1 h2 Es Eh; [done |]. cbn [spec_all fst snd].
  assert (H : (spec_step slot1 h1 r).1 = (spec_step slot2 h2 r).1 /\
    forall s, (spec_step slot1 h1 r).2 s = (spec_step slot2 h2 r).2 s).
  { destruct r; cbn; rewrite Es; by apply set_holder_ext. }
  destruct H as [E1 E2]. destruct (IH _ _ Es E2) as [E3 E4]. by rewrite E1, E3.
Qed.

(** A run of the implementation answers and ends as the abstract table does. *)
Lemma serve_all_refines rs : forall w,
  lt_ok w -> Forall (fun r => lt_key w (req_key r)) rs ->
  let a := spec_all (lt_slot w) (lt_holder w) rs in
  exists w', serve_all rs w = Some (a.1, w') /\ (forall s, lt_holder w' s = a.2 s) /\
    lt_ok w' /\ (forall k, lt_slot w' k = lt_slot w k).
Proof.
  induction rs as [| r rs IH]; intros w Hok Hk; cbn -[spec_step]; [eauto 6 |].
  apply Forall_cons in Hk as [Hr Hk].
  destruct (serve_spec r w Hok Hr) as (w1 & E1 & Hh & Hok1 & Hs).
  destruct (IH w1 Hok1) as (w2 & E2 & Hh2 & Hok2 & Hs2).
  { eapply Forall_impl; [exact Hk |]. intros r' H. by apply Hs. }
  destruct (spec_all_ext (lt_slot w1) (lt_slot w) rs (lt_holder w1)
    (spec_step (lt_slot w) (lt_holder w) r).2) as [Ec Ef]; [apply Hs | done |].
  exists w2. run. rewrite E1, E2, Ec. split; [done |]. split; [| split; [done |]].
  - intros s. by rewrite Hh2, Ef.
  - intros k. by rewrite Hs2, (proj2 (Hs k)).
Qed.

(** ** Mutual exclusion *)

Lemma set_holder_keeps o (h : D -> Z) sid new d :
  h d <> 0 -> sid <> h d ->
  (set_holder o h sid new).2 d = h d /\
  (o = Some d -> (set_holder o h sid new).1 = SRCP_DEVICELOCKED).
Proof.
  intros Hn Hs. unfold set_holder. destruct o as [d' |]; [| done].
  destruct (decide (d' = d)) as [-> | Hne].
  - destruct (Z.eqb_spec (h d) sid); [done |]. by destruct (Z.eqb_spec (h d) 0).
  - split; [| congruence]. destruct (_ || _); cbn; [| done]. by rewrite decide_False.
Qed.

Lemma spec_step_keeps slot (h : D -> Z) r d holder :
  h d = holder -> holder <> 0 -> req_sid r <> holder ->
  (spec_step slot h r).2 d = holder /\
  (slot (req_key r) = Some d -> (spec_step slot h r).1 = SRCP_DEVICELOCKED).
Proof. intros <- Hn Hs. destruct r; by apply set_holder_keeps. Qed.

Lemma spec_all_excludes slot rs : forall (h : D -> Z) d holder,
  h d = holder -> holder <> 0 -> Forall (fun r => req_sid r <> holder) rs ->
  (spec_all slot h rs).2 d = holder /\
  Forall2 (fun r code => slot (req_key r) = Some d -> code = SRCP_DEVICELOCKED)
    rs (spec_all slot h rs).1.
Proof.
  induction rs as [| r rs IH]; intros h d holder Hd Hn Hf; [by split |].
  apply Forall_cons in Hf as [Hr Hf].
  destruct (spec_step_keeps slot h r d holder Hd Hn Hr) as [H1 H2].
  destruct (IH _ d holder H1 Hn Hf) as [H3 H4]. cbn. split; [done |]. by constructor.
Qed.

(** While a session holds a device, whatever the other sessions ask, each of
    their requests for it is answered "device locked", whichever address they
    name it by, and the session still holds it afterwards. *)
Lemma lock_exclusive rs w d holder :
  lt_ok w -> lt_holder w d = holder -> holder <> 0 ->
  Forall (fun r => lt_key w (req_key r) /\ req_sid r <> holder) rs ->
  exists codes w', serve_all rs w = Some (codes, w') /\ lt_holder w' d = holder /\
    Forall2 (fun r code => lt_slot w (req_key r) = Some d -> code = SRCP_DEVICELOCKED) rs codes.
Proof.
  intros Hok Hd Hn Hf. apply Forall_and in Hf as [Hk Hs].
  destruct (serve_all_refines rs w Hok Hk) as (w' & E & Hh & _ & _).
  destruct (spec_all_excludes (lt_slot w) rs (lt_holder w) d holder Hd Hn Hs) as [H1 H2].
  eexists _, w'. split; [done |]. by rewrite Hh.
Qed.
End Clients.
