(* ===== verification/Accessory.v ===== *)
(** srcp-ga.c: the generic accessories.  Every function of the file that the
    SRCP commands, the drivers and the CAN gateway call, the lock operations,
    and the command queue, one ring per bus. *)

From S2P Require Import Prelude Ring World Messages Text Session Services Lock.

Module GA.

Definition QUEUELEN : Z := 50.

(** * The state *)

Definition get_number_ga (busnumber : Z) : prog world Z :=
  let* g := ga_get busnumber in ret g.(numberOfGa).

(** [ga[busnumber].gastate[addr]] *)
Definition gastate_get (busnumber addr : Z) : prog world ga_data_t :=
  let* g := ga_get busnumber in need (g.(gastate) !! addr).
Definition gastate_set (busnumber addr : Z) (d : ga_data_t) : prog world unit :=
  let* g := ga_get busnumber in
  do* need (g.(gastate) !! addr) in
  ga_set busnumber (g <| gastate ::= <[addr := d]> |>).
Definition gastate_update (busnumber addr : Z) (f : ga_data_t -> ga_data_t) : prog world unit :=
  let* d := gastate_get busnumber addr in gastate_set busnumber addr (f d).

(** * The queue *)

Definition queue_get (busnumber : Z) : prog world (Ring.t ga_data_t) :=
  fun w => need (w.(ga_queue) !! busnumber) w.
Definition queue_set (busnumber : Z) (q : Ring.t ga_data_t) : prog world unit :=
  modify (fun w => w <| ga_queue ::= <[busnumber := q]> |>).

Definition queue_GA_isempty (busnumber : Z) : prog world bool :=
  let* q := queue_get busnumber in ret (Ring.isempty q).
Definition queue_len (busnumber : Z) : prog world Z :=
  let* q := queue_get busnumber in ret (Ring.len QUEUELEN q).
Definition queue_isfull (busnumber : Z) : prog world bool :=
  let* q := queue_get busnumber in ret (Ring.isfull QUEUELEN q).

(** The accessory with its time stamp of [port]; the access is undefined for
    a port other than 0 and 1. *)
Definition set_tv (d : ga_data_t) (port : Z) (t : timeval) : prog world ga_data_t :=
  need (ga_set_tv d port t).

Definition enqueueGA (busnumber addr port action activetime : Z) : prog world Z :=
  let* number_ga := get_number_ga busnumber in
  if (0 <? addr) && (addr <=? number_ga) then
    let* full := queue_isfull busnumber in
    if full then ret SRCP_TEMPORARILYPROHIBITED
    else
      let* q := queue_get busnumber in
      let* d := gastate_get busnumber addr in
      let* t := gettimeofday in
      let* c := need (q.(Ring.queue) !! q.(Ring.in_)) in
      let* c := set_tv (c <| ga_protocol := d.(ga_protocol) |> <| ga_action := action |>
                          <| ga_port := port |> <| ga_activetime := activetime |>) port t in
      let* q := need (Ring.put QUEUELEN (c <| ga_id := addr |>) q) in
      do* queue_set busnumber q in
      do* resume_bus_thread busnumber in
      ret SRCP_OK
  else ret SRCP_WRONGVALUE.

(** The entry, or [None] for the result -1. *)
Definition dequeueNextGA (busnumber : Z) : prog world (option ga_data_t) :=
  let* q := queue_get busnumber in
  if Ring.isempty q then ret None
  else
    let* r := need (Ring.take QUEUELEN q) in
    do* queue_set busnumber r.2 in
    ret (Some r.1).

(** * SRCP commands *)

Definition getGA (busnumber addr : Z) : prog world (Z * option ga_data_t) :=
  let* number_ga := get_number_ga busnumber in
  if (0 <? addr) && (addr <=? number_ga) then
    let* d := gastate_get busnumber addr in ret (SRCP_OK, Some d)
  else ret (SRCP_NODATA, None).

Definition isInitializedGA (busnumber addr : Z) : prog world bool :=
  let* d := gastate_get busnumber addr in ret (negb (d.(ga_protocol) =? 0)).

Definition describeGA (busnumber addr : Z) : prog world (Z * string) :=
  let* number_ga := get_number_ga busnumber in
  if number_ga <=? 0 then ret (SRCP_UNSUPPORTEDDEVICEGROUP, ""%string)
  else if (0 <? addr) && (addr <=? number_ga) then
    let* d := gastate_get busnumber addr in
    if negb (d.(ga_protocol) =? 0) then
      ret (SRCP_INFO, fmt [stamp d.(ga_inittime); " 101 INFO "; dec busnumber; " GA ";
                           dec addr; " "; chr d.(ga_protocol); nl])
    else ret (SRCP_NODATA, ""%string)
  else ret (SRCP_NODATA, ""%string).

Definition nodata : prog world (Z * string) :=
  let* t := gettimeofday in ret (SRCP_NODATA, (srcp_fmt_msg SRCP_NODATA t).2).

Definition infoGA (busnumber addr port : Z) : prog world (Z * string) :=
  let* number_ga := get_number_ga busnumber in
  if (0 <? addr) && (addr <=? number_ga) && (0 <=? port) && (port <? MAXGAPORT) then
    let* d := gastate_get busnumber addr in
    let* t := need (ga_tv d port) in
    if 0 <? t.(tv_sec) then
      ret (SRCP_INFO, fmt [stamp t; " 100 INFO "; dec busnumber; " GA "; dec addr; " ";
                           dec port; " "; dec d.(ga_action); nl])
    else nodata
  else nodata.

(** The handler [init_ga_func] of the bus's driver. *)
Definition init_ga_LOOPBACK (d : ga_data_t) : Z :=
  if (d.(ga_protocol) =? ch "M") || (d.(ga_protocol) =? ch "N")
     || (d.(ga_protocol) =? ch "P") || (d.(ga_protocol) =? ch "S")
  then SRCP_OK else SRCP_UNSUPPORTEDDEVICEPROTOCOL.

Definition init_ga_DDL (d : ga_data_t) : Z :=
  if d.(ga_protocol) =? ch "M" then
    if d.(ga_id) <=? 324 then SRCP_OK else SRCP_WRONGVALUE
  else if d.(ga_protocol) =? ch "N" then
    if d.(ga_id) <=? 2044 then SRCP_OK else SRCP_WRONGVALUE
  else SRCP_UNSUPPORTEDDEVICEPROTOCOL.

Definition init_ga_func (drv : driver_t) : option (ga_data_t -> Z) :=
  match drv with
  | NoDriver => None
  | Loopback => Some init_ga_LOOPBACK
  | DDL => Some init_ga_DDL
  end.

Definition initGA (busnumber addr protocol : Z) : prog world Z :=
  let* number_ga := get_number_ga busnumber in
  if (0 <? addr) && (addr <=? number_ga) then
    let* rc := bus_supports_protocol busnumber protocol in
    if negb (rc =? SRCP_OK) then ret rc
    else
      let* t := gettimeofday in
      do* gastate_update busnumber addr (fun d =>
        d <| ga_protocol := protocol |> <| ga_id := addr |> <| ga_inittime := t |>
          <| ga_activetime := 0 |> <| ga_action := 0 |>
          <| ga_tv0 := timeval0 |> <| ga_tv1 := timeval0 |>) in
      let* b := bus_get busnumber in
      let* d := gastate_get busnumber addr in
      let rc := match init_ga_func b.(driver) with Some f => f d | None => rc end in
      if rc =? SRCP_OK then
        do* gastate_update busnumber addr (fun d => d <| ga_state := gasActive |>) in
        let* r := describeGA busnumber addr in
        do* enqueueInfoMessage r.2 in
        ret rc
      else ret rc
  else ret SRCP_UNSUPPORTEDDEVICE.

(** The acknowledge [setGA] sends over CAN. *)
Definition ga_minfo (a : ga_data_t) : list Z :=
  let at_ := i32 a.(ga_activetime) in
  if negb (at_ =? 0)
  then [4; u8 a.(ga_port); u8 a.(ga_action); u8 (Z.shiftr at_ 8); Z.land at_ 0xFF]
  else [2; u8 a.(ga_port); u8 a.(ga_action); 0; 0].

Definition setGA (busnumber addr : Z) (a : ga_data_t) : prog world Z :=
  let* number_ga := get_number_ga busnumber in
  if (0 <? addr) && (addr <=? number_ga) then
    let* init := isInitializedGA busnumber addr in
    do* (if negb init then do* initGA busnumber addr (ch "P") in ret tt else ret tt) in
    do* gastate_update busnumber addr (fun d =>
      d <| ga_id := a.(ga_id) |> <| ga_action := a.(ga_action) |> <| ga_port := a.(ga_port) |>) in
    let* t := gettimeofday in
    let* d := gastate_get busnumber addr in
    let* d := set_tv d d.(ga_port) t in
    do* gastate_set busnumber addr d in
    let* r := infoGA busnumber addr a.(ga_port) in
    do* enqueueInfoMessage r.2 in
    let* d := gastate_get busnumber addr in
    do* info_mcs busnumber 0x17
      (addr + (if d.(ga_protocol) =? ch "N" then 0x37FF else 0x2FFF)) (ga_minfo a) in
    ret SRCP_OK
  else ret SRCP_NODATA.

Definition termGA (busnumber addr : Z) : prog world Z :=
  let* init := isInitializedGA busnumber addr in
  if init then
    do* gastate_update busnumber addr (fun d => d <| ga_state := gasTerm |>) in
    let* t := gettimeofday in
    do* enqueueInfoMessage (snprintf 256
      (fmt [stamp t; " 102 INFO "; dec busnumber; " GA "; dec addr; nl])) in
    do* gastate_set busnumber addr ga_zero in
    ret SRCP_OK
  else ret SRCP_NODATA.

(** * Locks *)

(** [reply] is left alone when the address is out of range. *)
Definition describeLOCKGA (bus addr : Z) (reply : string) : prog world (Z * string) :=
  let* number_ga := get_number_ga bus in
  if (addr <=? 0) || (number_ga <? addr) then ret (SRCP_WRONGVALUE, reply)
  else
    let* d := gastate_get bus addr in
    ret (SRCP_OK, fmt [stamp d.(ga_locktime); " 100 INFO "; dec bus; " LOCK GA "; dec addr;
                       " "; dec d.(ga_lockduration); " "; dec d.(ga_locked_by); nl]).

Definition lockGA (busnumber addr duration sessionid : Z) : prog world Z :=
  let* number_ga := get_number_ga busnumber in
  if (addr <=? 0) || (number_ga <? addr) then ret SRCP_WRONGVALUE
  else
    let* d := gastate_get busnumber addr in
    if (d.(ga_locked_by) =? sessionid) || (d.(ga_locked_by) =? 0) then
      let* t := gettimeofday in
      do* gastate_update busnumber addr (fun d =>
        d <| ga_locked_by := sessionid |> <| ga_lockduration := duration |>
          <| ga_locktime := t |>) in
      let* r := describeLOCKGA busnumber addr "" in
      do* enqueueInfoMessage r.2 in
      ret SRCP_OK
    else ret SRCP_DEVICELOCKED.

Definition getlockGA (busnumber addr : Z) : prog world (Z * Z) :=
  let* number_ga := get_number_ga busnumber in
  if (addr <=? 0) || (number_ga <? addr) then ret (SRCP_WRONGVALUE, 0)
  else
    let* d := gastate_get busnumber addr in
    ret (SRCP_OK, d.(ga_locked_by)).

Definition unlockGA (busnumber addr sessionid : Z) : prog world Z :=
  let* number_ga := get_number_ga busnumber in
  if (addr <=? 0) || (number_ga <? addr) then ret SRCP_WRONGVALUE
  else
    let* d := gastate_get busnumber addr in
    if (d.(ga_locked_by) =? 0) || (d.(ga_locked_by) =? sessionid) then
      let* t := gettimeofday in
      do* gastate_update busnumber addr (fun d =>
        d <| ga_locked_by := 0 |> <| ga_locktime := t |>) in
      do* enqueueInfoMessage
        (fmt [stamp t; " 102 INFO "; dec busnumber; " LOCK GA "; dec addr; nl]) in
      ret SRCP_OK
    else ret SRCP_DEVICELOCKED.

(** The body of the loop over the accessories of bus [i]. *)
Definition unlock_bus_bysessionid (sessionid i j : Z) : prog world unit :=
  let* d := gastate_get i j in
  if d.(ga_locked_by) =? sessionid then do* unlockGA i j sessionid in ret tt
  else ret tt.

Definition unlock_ga_bysessionid (sessionid : Z) : prog world unit :=
  let* n := gets num_buses in
  for_each (range 1 n) (fun i =>
    let* number := get_number_ga i in
    for_each (range 1 number) (unlock_bus_bysessionid sessionid i)).

(** The duration is a [long], which is decremented whatever its value is. *)
Definition unlock_bus_bytime (i j : Z) : prog world unit :=
  let* d := gastate_get i j in
  do* guard (LONG_MIN <? d.(ga_lockduration)) in
  do* gastate_set i j (d <| ga_lockduration ::= fun n => n - 1 |>) in
  if d.(ga_lockduration) =? 1 then do* unlockGA i j d.(ga_locked_by) in ret tt
  else ret tt.

Definition unlock_ga_bytime : prog world unit :=
  let* n := gets num_buses in
  for_each (range 1 n) (fun i =>
    let* number := get_number_ga i in
    for_each (range 1 number) (unlock_bus_bytime i)).

(** * Start-up *)

Definition startup_GA : prog world unit :=
  for_each (range 0 (MAX_BUSES - 1)) (fun i =>
    let* q := queue_get i in
    do* queue_set i (Ring.mk q.(Ring.queue) 0 0) in
    ga_set i (mk_GA 0 ∅)).

(** [malloc] of [n] elements succeeds. *)
Definition init_GA (busnumber number : Z) : prog world Z :=
  if MAX_BUSES <=? busnumber then ret 1
  else
    do* (if 0 <? number then
           do* ga_get busnumber in
           ga_set busnumber (mk_GA number (array (number + 1) ga_zero))
         else ret tt) in
    ret 0.

Definition clean_GA (bus : Z) : prog world unit :=
  let* number := get_number_ga bus in
  for_each (range 1 number) (fun i => gastate_set bus i ga_zero).

(** * The interface of the CAN gateway *)

Definition handle_mcs_gacc (bus protocol addr port action activetime : Z) : prog world unit :=
  if negb (bus =? 0) then
    let* number_ga := get_number_ga bus in
    if (addr <=? 0) || (number_ga <? addr) then ret tt
    else
      let* d := gastate_get bus addr in
      let* go := (if negb (d.(ga_protocol) =? protocol) then
                    let* rc := initGA bus addr protocol in ret (rc =? SRCP_OK)
                  else ret true) in
      if go then do* enqueueGA bus addr port action activetime in ret tt else ret tt
  else ret tt.

(** * Well-formed states *)

Record wf_group (g : ga_group_t) : Prop := {
  wf_number : 0 <= g.(numberOfGa);
  wf_gastate : forall a, 0 < a <= g.(numberOfGa) -> is_Some (g.(gastate) !! a);
}.

Record wf (w : world) : Prop := {
  wf_sess : sess_ok w;
  wf_groups : forall b g, w.(ga) !! b = Some g -> wf_group g;
  wf_rings : forall b q, w.(ga_queue) !! b = Some q -> Ring.wf QUEUELEN q;
  wf_all_ga : is_array MAX_BUSES w.(ga);
  wf_all_queue : is_array MAX_BUSES w.(ga_queue);
  wf_all_bus : is_array MAX_BUSES w.(buses);
}.

(** The accessory with a valid address. *)
Definition ga_at (w : world) (b a : Z) : option ga_data_t :=
  match w.(ga) !! b with
  | Some g => if (0 <? a) && (a <=? g.(numberOfGa)) then g.(gastate) !! a else None
  | None => None
  end.

Definition ga_upd (b a : Z) (d : ga_data_t) (w : world) : world :=
  match w.(ga) !! b with
  | Some g => w <| ga ::= <[b := g <| gastate ::= <[a := d]> |>]> |>
  | None => w
  end.

Lemma ga_at_inv w b a d : ga_at w b a = Some d ->
  exists g, w.(ga) !! b = Some g /\ g.(gastate) !! a = Some d /\ 0 < a <= g.(numberOfGa).
Proof.
  unfold ga_at. destruct (w.(ga) !! b) as [g |]; [| done]. intros H. exists g.
  destruct (_ && _) eqn:E; [| done]. bool_hyps. auto.
Qed.

Lemma get_number_some w b g : w.(ga) !! b = Some g ->
  get_number_ga b w = Some (g.(numberOfGa), w).
Proof. intros H. unfold get_number_ga, ga_get. run. by rewrite H. Qed.

Lemma gastate_get_some w b a d : ga_at w b a = Some d -> gastate_get b a w = Some (d, w).
Proof.
  intros H. destruct (ga_at_inv _ _ _ _ H) as (g & Hg & Hd & _).
  unfold gastate_get, ga_get. run. rewrite Hg. cbn. by rewrite Hd.
Qed.

Lemma gastate_set_some w b a d d' : ga_at w b a = Some d ->
  gastate_set b a d' w = Some (tt, ga_upd b a d' w).
Proof.
  intros H. destruct (ga_at_inv _ _ _ _ H) as (g & Hg & Hd & _).
  unfold gastate_set, ga_get, ga_set, ga_upd. run. rewrite Hg. cbn. by rewrite Hd.
Qed.

Lemma gastate_update_some w b a d f : ga_at w b a = Some d ->
  gastate_update b a f w = Some (tt, ga_upd b a (f d) w).
Proof.
  intros H. unfold gastate_update. rewrite (bind_some _ _ _ _ _ (gastate_get_some _ _ _ _ H)).
  by apply gastate_set_some with d.
Qed.

Lemma ga_at_upd w b a d d' : ga_at w b a = Some d -> ga_at (ga_upd b a d' w) b a = Some d'.
Proof.
  intros H. destruct (ga_at_inv _ _ _ _ H) as (g & Hg & Hd & Ha).
  unfold ga_at, ga_upd. rewrite Hg. cbn. rewrite lookup_insert_eq. cbn.
  rewrite lookup_insert_eq. zbool.
Qed.

Lemma ga_at_upd_ne w b a d' b' a' : (b, a) <> (b', a') ->
  ga_at (ga_upd b a d' w) b' a' = ga_at w b' a'.
Proof.
  intros H. unfold ga_at, ga_upd. destruct (w.(ga) !! b) as [g |] eqn:Hg; [| done]. cbn.
  destruct (decide (b = b')) as [<- |]; [| by rewrite lookup_insert_ne].
  rewrite lookup_insert_eq, Hg. cbn. destruct (_ && _); [| done].
  apply lookup_insert_ne. congruence.
Qed.

Lemma ga_upd_wf w b a d : wf w -> wf (ga_upd b a d w).
Proof.
  intros [Hs Hg Hr Ha Hq Hb]. unfold ga_upd. destruct (w.(ga) !! b) as [g |] eqn:E; [| done].
  destruct (Hg _ _ E) as [Hn Hst]. split; cbn; try done.
  - intros b' g'. destruct (decide (b = b')) as [<- |].
    + rewrite lookup_insert_eq. intros [= <-]. split; cbn; [done |]. intros i Hi.
      destruct (decide (a = i)) as [<- |]; [rewrite lookup_insert_eq; eauto |].
      rewrite lookup_insert_ne by done. auto.
    + rewrite lookup_insert_ne by done. apply Hg.
  - apply is_array_insert; [done | exact (is_array_bound _ _ _ _ Ha E)].
Qed.

Lemma wf_announce msg w : wf w -> wf (announce msg w).
Proof. intros []. split; try done. by apply announce_ok. Qed.

Lemma wf_tick w : wf w -> wf (tick w).
Proof. by intros []. Qed.

(** A valid bus without the address answers as the source's range check. *)
Lemma ga_at_none w b a : wf w -> 0 <= b < MAX_BUSES -> ga_at w b a = None ->
  exists g, w.(ga) !! b = Some g /\ (0 <? a) && (a <=? g.(numberOfGa)) = false.
Proof.
  intros Hw Hb Hn. destruct (is_array_lookup _ _ b (wf_all_ga _ Hw) Hb) as [g Hg].
  exists g. split; [done |]. unfold ga_at in Hn. rewrite Hg in Hn.
  destruct (_ && _) eqn:E; [| done]. bool_hyps.
  destruct (wf_gastate _ (wf_groups _ Hw _ _ Hg) a) as [d Hd]; [done | congruence].
Qed.

Lemma range_in w b a d : ga_at w b a = Some d ->
  exists g, w.(ga) !! b = Some g /\ (0 <? a) && (a <=? g.(numberOfGa)) = true /\
    (a <=? 0) || (g.(numberOfGa) <? a) = false.
Proof.
  intros H. destruct (ga_at_inv _ _ _ _ H) as (g & Hg & Hd & Ha). exists g.
  split; [done |]. split; zbool.
Qed.

Ltac step H := rewrite (bind_some _ _ _ _ _ H).

(** * Locks: the functional behaviour, and the interface *)

Definition lock_line (b a duration sid : Z) (t : timeval) : string :=
  fmt [stamp t; " 100 INFO "; dec b; " LOCK GA "; dec a; " "; dec duration; " "; dec sid; nl].
Definition unlock_line (b a : Z) (t : timeval) : string :=
  fmt [stamp t; " 102 INFO "; dec b; " LOCK GA "; dec a; nl].

Lemma lockGA_granted w b a d duration sid :
  wf w -> ga_at w b a = Some d -> d.(ga_locked_by) = sid \/ d.(ga_locked_by) = 0 ->
  lockGA b a duration sid w = Some (SRCP_OK,
    announce (lock_line b a duration sid (now w))
      (ga_upd b a (d <| ga_locked_by := sid |> <| ga_lockduration := duration |>
                     <| ga_locktime := now w |>) (tick w))).
Proof.
  intros Hw Hd Hl. destruct (range_in _ _ _ _ Hd) as (g & Hg & _ & Hr).
  unfold lockGA. step (get_number_some _ _ _ Hg). rewrite Hr. step (gastate_get_some _ _ _ _ Hd).
  assert (E : (d.(ga_locked_by) =? sid) || (d.(ga_locked_by) =? 0) = true).
  { destruct Hl as [-> | ->]; rewrite Z.eqb_refl; by rewrite ?orb_true_r. }
  rewrite E. step (gettimeofday_spec w).
  assert (Hd' : ga_at (tick w) b a = Some d) by done.
  step (gastate_update_some _ _ _ _ (fun d => d <| ga_locked_by := sid |>
    <| ga_lockduration := duration |> <| ga_locktime := now w |>) Hd').
  unfold describeLOCKGA. destruct (range_in _ _ _ _ (ga_at_upd _ _ _ _ (d <| ga_locked_by := sid |>
    <| ga_lockduration := duration |> <| ga_locktime := now w |>) Hd')) as (g' & Hg' & _ & Hr').
  unfold bind at 1. step (get_number_some _ _ _ Hg'). rewrite Hr'.
  step (gastate_get_some _ _ _ _ (ga_at_upd _ _ _ _ (d <| ga_locked_by := sid |>
    <| ga_lockduration := duration |> <| ga_locktime := now w |>) Hd')).
  unfold ret. step (enqueueInfoMessage_spec (lock_line b a duration sid (now w))
    (ga_upd b a (d <| ga_locked_by := sid |> <| ga_lockduration := duration |>
                     <| ga_locktime := now w |>) (tick w))
    (wf_sess _ (ga_upd_wf _ _ _ _ (wf_tick _ Hw)))). done.
Qed.

Lemma ga_range_none w b a : wf w -> 0 <= b < MAX_BUSES -> ga_at w b a = None ->
  exists g, w.(ga) !! b = Some g /\ (0 <? a) && (a <=? g.(numberOfGa)) = false /\
    (a <=? 0) || (g.(numberOfGa) <? a) = true.
Proof.
  intros Hw Hb Hn. destruct (ga_at_none _ _ _ Hw Hb Hn) as (g & Hg & E). exists g.
  split; [done |]. split; [done |]. revert E. zbool.
Qed.

Lemma lockGA_none w b a duration sid :
  wf w -> 0 <= b < MAX_BUSES -> ga_at w b a = None ->
  lockGA b a duration sid w = Some (SRCP_WRONGVALUE, w).
Proof.
  intros Hw Hb Hn. destruct (ga_range_none _ _ _ Hw Hb Hn) as (g & Hg & _ & E).
  unfold lockGA. step (get_number_some _ _ _ Hg). by rewrite E.
Qed.

Lemma held_by d sid : d.(ga_locked_by) <> sid -> d.(ga_locked_by) <> 0 ->
  (d.(ga_locked_by) =? sid) || (d.(ga_locked_by) =? 0) = false.
Proof. zbool. Qed.

Lemma lockGA_refused w b a d duration sid :
  ga_at w b a = Some d -> d.(ga_locked_by) <> sid -> d.(ga_locked_by) <> 0 ->
  lockGA b a duration sid w = Some (SRCP_DEVICELOCKED, w).
Proof.
  intros Hd H1 H2. destruct (range_in _ _ _ _ Hd) as (g & Hg & _ & E).
  unfold lockGA. step (get_number_some _ _ _ Hg). rewrite E.
  step (gastate_get_some _ _ _ _ Hd). by rewrite (held_by _ _ H1 H2).
Qed.

Lemma unlockGA_granted w b a d sid :
  wf w -> ga_at w b a = Some d -> d.(ga_locked_by) = sid \/ d.(ga_locked_by) = 0 ->
  unlockGA b a sid w = Some (SRCP_OK,
    announce (unlock_line b a (now w))
      (ga_upd b a (d <| ga_locked_by := 0 |> <| ga_locktime := now w |>) (tick w))).
Proof.
  intros Hw Hd Hl. destruct (range_in _ _ _ _ Hd) as (g & Hg & _ & Hr).
  unfold unlockGA. step (get_number_some _ _ _ Hg). rewrite Hr. step (gastate_get_some _ _ _ _ Hd).
  assert (E : (d.(ga_locked_by) =? 0) || (d.(ga_locked_by) =? sid) = true).
  { destruct Hl as [-> | ->]; rewrite Z.eqb_refl; by rewrite ?orb_true_r. }
  rewrite E. step (gettimeofday_spec w).
  assert (Hd' : ga_at (tick w) b a = Some d) by done.
  step (gastate_update_some _ _ _ _ (fun d => d <| ga_locked_by := 0 |>
    <| ga_locktime := now w |>) Hd').
  by step (enqueueInfoMessage_spec (unlock_line b a (now w)) _
    (wf_sess _ (ga_upd_wf _ b a (d <| ga_locked_by := 0 |> <| ga_locktime := now w |>)
      (wf_tick _ Hw)))).
Qed.

Lemma unlockGA_none w b a sid :
  wf w -> 0 <= b < MAX_BUSES -> ga_at w b a = None ->
  unlockGA b a sid w = Some (SRCP_WRONGVALUE, w).
Proof.
  intros Hw Hb Hn. destruct (ga_range_none _ _ _ Hw Hb Hn) as (g & Hg & _ & E).
  unfold unlockGA. step (get_number_some _ _ _ Hg). by rewrite E.
Qed.

Lemma unlockGA_refused w b a d sid :
  ga_at w b a = Some d -> d.(ga_locked_by) <> sid -> d.(ga_locked_by) <> 0 ->
  unlockGA b a sid w = Some (SRCP_DEVICELOCKED, w).
Proof.
  intros Hd H1 H2. destruct (range_in _ _ _ _ Hd) as (g & Hg & _ & E).
  unfold unlockGA. step (get_number_some _ _ _ Hg). rewrite E.
  step (gastate_get_some _ _ _ _ Hd). by rewrite orb_comm, (held_by _ _ H1 H2).
Qed.

(** ** The lock table of the accessories *)

Definition slot (w : world) (k : Z * Z) : option (Z * Z) :=
  match ga_at w k.1 k.2 with Some _ => Some k | None => None end.
Definition holder (w : world) (k : Z * Z) : Z :=
  match ga_at w k.1 k.2 with Some d => d.(ga_locked_by) | None => 0 end.

Lemma slot_upd w b a d k : is_Some (ga_at w b a) -> slot (ga_upd b a d w) k = slot w k.
Proof.
  intros [d0 H]. unfold slot. destruct k as [b' a']. cbn.
  destruct (decide ((b, a) = (b', a'))) as [[= <- <-] | Hne].
  - by rewrite H, (ga_at_upd _ _ _ _ _ H).
  - by rewrite ga_at_upd_ne.
Qed.

Lemma holder_upd w b a d k : is_Some (ga_at w b a) ->
  holder (ga_upd b a d w) k = if decide (k = (b, a)) then d.(ga_locked_by) else holder w k.
Proof.
  intros [d0 H]. unfold holder. destruct k as [b' a']. cbn.
  destruct (decide (_ = _)) as [[= -> ->] | Hne].
  - by rewrite (ga_at_upd _ _ _ _ _ H).
  - rewrite ga_at_upd_ne; congruence.
Qed.

(** The common shape of the two operations. *)
Lemma lock_table_step (op : prog world Z) w b a sid new
    (f : ga_data_t -> timeval -> ga_data_t) line :
  wf w -> 0 <= b < MAX_BUSES -> (forall d t, (f d t).(ga_locked_by) = new) ->
  (forall d, ga_at w b a = Some d -> d.(ga_locked_by) = sid \/ d.(ga_locked_by) = 0 ->
    op w = Some (SRCP_OK, announce (line (now w)) (ga_upd b a (f d (now w)) (tick w)))) ->
  (forall d, ga_at w b a = Some d -> d.(ga_locked_by) <> sid -> d.(ga_locked_by) <> 0 ->
    op w = Some (SRCP_DEVICELOCKED, w)) ->
  (ga_at w b a = None -> op w = Some (SRCP_WRONGVALUE, w)) ->
  let r := set_holder (slot w (b, a)) (holder w) sid new in
  exists w', op w = Some (r.1, w') /\ (forall s, holder w' s = r.2 s) /\ wf w' /\
    (forall k : Z * Z, (0 <= k.1 < MAX_BUSES -> 0 <= k.1 < MAX_BUSES) /\ slot w' k = slot w k).
Proof.
  intros Hw Hb Hf Hg Hr Hn. cbv zeta. unfold set_holder, slot at 1 2. cbn.
  destruct (ga_at w b a) as [d |] eqn:Hd; [| exists w; by auto].
  assert (Eh : holder w (b, a) = d.(ga_locked_by)) by (unfold holder; cbn; by rewrite Hd).
  rewrite Eh. destruct (decide (d.(ga_locked_by) = sid \/ d.(ga_locked_by) = 0)) as [H | H].
  - rewrite (Hg d eq_refl H). eexists.
    assert (E : (d.(ga_locked_by) =? sid) || (d.(ga_locked_by) =? 0) = true).
    { destruct H as [-> | ->]; rewrite Z.eqb_refl; by rewrite ?orb_true_r. }
    rewrite E. split; [done |]. cbn. split; [| split].
    + intros s. change (holder (ga_upd b a (f d (now w)) (tick w)) s =
        if decide (s = (b, a)) then new else holder w s).
      rewrite holder_upd by (exists d; done). by rewrite Hf.
    + by apply wf_announce, ga_upd_wf, wf_tick.
    + intros k. split; [done |].
      change (slot (ga_upd b a (f d (now w)) (tick w)) k = slot (tick w) k).
      apply slot_upd. by exists d.
  - assert (E : (d.(ga_locked_by) =? sid) || (d.(ga_locked_by) =? 0) = false)
      by (apply held_by; tauto).
    rewrite E, (Hr d eq_refl); [| tauto | tauto]. exists w. by auto.
Qed.

#[export] Program Instance ga_lock_table : LockTable (Z * Z) (Z * Z) := {
  lt_ok := wf;
  lt_key w k := 0 <= k.1 < MAX_BUSES;
  lt_slot := slot;
  lt_holder := holder;
  lt_lock k duration sid := lockGA k.1 k.2 duration sid;
  lt_unlock k sid := unlockGA k.1 k.2 sid;
}.
Next Obligation.
  intros w [b a] duration sid Hw Hb. cbn in Hb.
  apply (lock_table_step _ w b a sid sid (fun d t => d <| ga_locked_by := sid |>
    <| ga_lockduration := duration |> <| ga_locktime := t |>) (lock_line b a duration sid));
    try done; cbn; intros.
  - by apply lockGA_granted.
  - by eapply lockGA_refused.
  - by apply lockGA_none.
Qed.
Next Obligation.
  intros w [b a] sid Hw Hb. cbn in Hb.
  apply (lock_table_step _ w b a sid 0 (fun d t => d <| ga_locked_by := 0 |>
    <| ga_locktime := t |>) (unlock_line b a)); try done; cbn; intros.
  - by apply unlockGA_granted.
  - by eapply unlockGA_refused.
  - by apply unlockGA_none.
Qed.


(** ** The end of a session *)

(** What the unlocking loops leave alone: everything but the holders. *)
Record same_shape (w w' : world) : Prop := {
  shape_wf : wf w';
  shape_buses : w'.(num_buses) = w.(num_buses);
  shape_number b : numberOfGa <$> w'.(ga) !! b = numberOfGa <$> w.(ga) !! b;
}.

Lemma same_shape_refl w : wf w -> same_shape w w.
Proof. by split. Qed.

Lemma same_shape_trans w1 w2 w3 : same_shape w1 w2 -> same_shape w2 w3 -> same_shape w1 w3.
Proof. intros [? ? H1] [? ? H2]. split; [done | congruence |]. intros b. by rewrite H2, H1. Qed.

Lemma same_shape_upd w b a d line : wf w ->
  same_shape w (announce line (ga_upd b a d (tick w))).
Proof.
  intros Hw. split; [by apply wf_announce, ga_upd_wf, wf_tick | |].
  - cbn. unfold ga_upd. cbn. by destruct (w.(ga) !! b).
  - intros b'. cbn. unfold ga_upd. cbn. destruct (w.(ga) !! b) as [g |] eqn:Hg; [| done].
    cbn. destruct (decide (b = b')) as [<- |]; [by rewrite lookup_insert_eq, Hg |].
    by rewrite lookup_insert_ne.
Qed.

Lemma ga_at_valid w b a g : wf w -> w.(ga) !! b = Some g -> 0 < a <= g.(numberOfGa) ->
  exists d, ga_at w b a = Some d.
Proof.
  intros Hw Hg Ha. destruct (wf_gastate _ (wf_groups _ Hw _ _ Hg) a Ha) as [d Hd].
  exists d. unfold ga_at. rewrite Hg. zbool.
Qed.

(** The holder of [k] once session [sid] lost the accessories [P] selects. *)
Definition freed (P : Z -> Z -> bool) (sid : Z) (w : world) (k : Z * Z) : Z :=
  if P k.1 k.2 && (holder w k =? sid) then 0 else holder w k.

Lemma unlock_bus_bysessionid_spec sid i j g w :
  wf w -> w.(ga) !! i = Some g -> 0 < j <= g.(numberOfGa) ->
  exists w', unlock_bus_bysessionid sid i j w = Some (tt, w') /\ same_shape w w' /\
    forall k, holder w' k = freed (fun b a => (b =? i) && (a =? j)) sid w k.
Proof.
  intros Hw Hg Hj. destruct (ga_at_valid _ _ _ _ Hw Hg Hj) as [d Hd].
  unfold unlock_bus_bysessionid. step (gastate_get_some _ _ _ _ Hd).
  assert (Eh : holder w (i, j) = d.(ga_locked_by)) by (unfold holder; cbn; by rewrite Hd).
  destruct (Z.eqb_spec d.(ga_locked_by) sid) as [E | E].
  - step (unlockGA_granted w i j d sid Hw Hd (or_introl E)).
    eexists. split; [done |]. split; [by apply same_shape_upd |]. intros [b a].
    set (d' := d <| ga_locked_by := 0 |> <| ga_locktime := now w |>).
    change (holder (ga_upd i j d' (tick w)) (b, a) =
      freed (fun b a => (b =? i) && (a =? j)) sid w (b, a)).
    rewrite holder_upd by (exists d; done). unfold freed. cbn.
    destruct (decide ((b, a) = (i, j))) as [[= -> ->] | Hne].
    + by rewrite Eh, E, !Z.eqb_refl.
    + destruct (Z.eqb_spec b i), (Z.eqb_spec a j); subst; done.
  - exists w. split; [done |]. split; [by apply same_shape_refl |]. intros [b a].
    unfold freed. cbn. destruct (Z.eqb_spec b i), (Z.eqb_spec a j); subst; try done.
    rewrite Eh. by apply Z.eqb_neq in E as ->.
Qed.

Lemma freed_freed P Q sid w w1 w2 :
  (forall k, holder w1 k = freed P sid w k) -> (forall k, holder w2 k = freed Q sid w1 k) ->
  forall k, holder w2 k = freed (fun b a => P b a || Q b a) sid w k.
Proof.
  intros H1 H2 k. rewrite H2. unfold freed. rewrite !H1. unfold freed.
  destruct (P _ _), (Q _ _), (holder w k =? sid) eqn:E; cbn; rewrite ?E; try done.
  by destruct sid.
Qed.

Lemma freed_ext P Q sid w : (forall b a, P b a = Q b a) ->
  forall k, freed P sid w k = freed Q sid w k.
Proof. intros H k. unfold freed. by rewrite H. Qed.

Definition upto (i x : Z) (b a : Z) : bool := (b =? i) && (1 <=? a) && (a <? x).

Lemma unlock_bus_spec sid i g w :
  wf w -> w.(ga) !! i = Some g ->
  exists w', for_each (range 1 g.(numberOfGa)) (unlock_bus_bysessionid sid i) w = Some (tt, w') /\
    same_shape w w' /\ forall k, holder w' k = freed (upto i (g.(numberOfGa) + 1)) sid w k.
Proof.
  intros Hw Hg.
  apply (for_each_range (fun x s => same_shape w s /\
      forall k, holder s k = freed (upto i x) sid w k)).
  - pose proof (wf_number _ (wf_groups _ Hw _ _ Hg)). lia.
  - split; [by apply same_shape_refl |]. intros k. unfold freed, upto. zbool.
  - intros x s0 Hx [Hs Hh]. assert (Hg0 := shape_number _ _ Hs i). rewrite Hg in Hg0.
    destruct (s0.(ga) !! i) as [g0 |] eqn:Eg; [| done]. injection Hg0 as Hg0.
    destruct (unlock_bus_bysessionid_spec sid i x g0 s0) as (s1 & E1 & Hs1 & Hh1);
      [apply Hs | done | lia |].
    exists s1. split; [done |]. split; [by eapply same_shape_trans |].
    intros k. rewrite (freed_freed _ _ _ _ _ _ Hh Hh1). apply freed_ext.
    intros b a. unfold upto. zbool.
Qed.

(** The accessory [a] of bus [b] exists and [b] is below [x]. *)
Definition below (w : world) (x : Z) (b a : Z) : bool :=
  (1 <=? b) && (b <? x) && (1 <=? a) &&
  match w.(ga) !! b with Some g => a <=? g.(numberOfGa) | None => false end.

Lemma unlock_ga_bysessionid_spec sid w :
  wf w -> 0 <= w.(num_buses) < MAX_BUSES ->
  exists w', unlock_ga_bysessionid sid w = Some (tt, w') /\ same_shape w w' /\
    forall k, holder w' k = freed (below w (w.(num_buses) + 1)) sid w k.
Proof.
  intros Hw Hn. unfold unlock_ga_bysessionid, gets, bind at 1.
  apply (for_each_range (fun x s => same_shape w s /\
      forall k, holder s k = freed (below w x) sid w k)); [lia | |].
  - split; [by apply same_shape_refl |]. intros k. unfold freed, below. zbool.
  - intros x s0 Hx [Hs Hh].
    destruct (is_array_lookup _ _ x (wf_all_ga _ Hw)) as [g Hg]; [lia |].
    assert (Hg0 := shape_number _ _ Hs x). rewrite Hg in Hg0.
    destruct (s0.(ga) !! x) as [g0 |] eqn:Eg; [| done]. injection Hg0 as Hg0.
    rewrite (bind_some _ _ _ _ _ (get_number_some _ _ _ Eg)).
    destruct (unlock_bus_spec sid x g0 s0) as (s1 & E1 & Hs1 & Hh1); [apply Hs | done |].
    exists s1. split; [done |]. split; [by eapply same_shape_trans |].
    intros k. rewrite (freed_freed _ _ _ _ _ _ Hh Hh1). apply freed_ext.
    intros b a. unfold upto, below. destruct (Z.eqb_spec b x) as [-> | Hne].
    + rewrite Hg, Hg0. zbool.
    + destruct (w.(ga) !! b); zbool; by rewrite ?andb_false_r.
Qed.

(** * The command queue *)

(** The commands pending on a bus, first come first. *)
Definition pending (w : world) (b : Z) : list ga_data_t :=
  match w.(ga_queue) !! b with Some q => Ring.contents QUEUELEN q | None => [] end.

(** The command a request puts in the queue: the fields it sets, the rest left
    over from the cell's last use [c]. *)
Definition command_of (c d : ga_data_t) (a port action activetime : Z) (t : timeval) : ga_data_t :=
  let c := c <| ga_protocol := d.(ga_protocol) |> <| ga_action := action |>
             <| ga_port := port |> <| ga_activetime := activetime |> in
  (if port =? 0 then c <| ga_tv0 := t |> else c <| ga_tv1 := t |>) <| ga_id := a |>.

Lemma queue_get_some w b q : w.(ga_queue) !! b = Some q -> queue_get b w = Some (q, w).
Proof. intros H. unfold queue_get, need. by rewrite H. Qed.

Lemma set_tv_some (d : ga_data_t) port t w :
  0 <= port < MAXGAPORT ->
  set_tv d port t w = Some (if port =? 0 then d <| ga_tv0 := t |> else d <| ga_tv1 := t |>, w).
Proof.
  intros H. unfold set_tv, ga_set_tv. unfold MAXGAPORT in H.
  destruct (Z.eqb_spec port 0); [done |]. by destruct (Z.eqb_spec port 1); [| lia].
Qed.

Lemma set_tv_none (d : ga_data_t) port t w :
  ~ (0 <= port < MAXGAPORT) -> set_tv d port t w = None.
Proof.
  intros H. unfold set_tv, ga_set_tv. unfold MAXGAPORT in H.
  destruct (Z.eqb_spec port 0); [lia |]. by destruct (Z.eqb_spec port 1); [lia |].
Qed.

Lemma enqueueGA_accepts w b a d q port action activetime :
  wf w -> ga_at w b a = Some d -> w.(ga_queue) !! b = Some q -> Ring.isfull QUEUELEN q = false ->
  0 <= port < MAXGAPORT ->
  exists c w', enqueueGA b a port action activetime w = Some (SRCP_OK, w') /\ wf w' /\
    w'.(ga) = w.(ga) /\
    pending w' b = pending w b ++ [command_of c d a port action activetime (now w)] /\
    w'.(cmd_akt_time) = w.(cmd_akt_time) /\ w'.(num_buses) = w.(num_buses) /\
    w'.(mcs) = w.(mcs).
Proof.
  intros Hw Hd Hq Hf Hp. destruct (range_in _ _ _ _ Hd) as (g & Hg & Hr & _).
  pose proof (wf_rings _ Hw _ _ Hq) as Hring.
  assert (Hb : 0 <= b < MAX_BUSES) by (eapply (is_array_bound _ _ _ _ (wf_all_ga _ Hw)); eauto).
  destruct (is_array_lookup _ _ b (wf_all_bus _ Hw) Hb) as [bd Hbd].
  unfold enqueueGA. step (get_number_some _ _ _ Hg). rewrite Hr. unfold queue_isfull.
  unfold bind at 1. step (queue_get_some _ _ _ Hq). unfold ret at 1. rewrite Hf.
  step (queue_get_some _ _ _ Hq). step (gastate_get_some _ _ _ _ Hd). step (gettimeofday_spec w).
  destruct (Ring.wf_cell QUEUELEN q q.(Ring.in_) Hring) as [c Hc].
  rewrite Z.mod_small in Hc by apply (Ring.wf_in _ _ Hring). exists c.
  unfold need at 1. rewrite Hc. unfold ret at 1, bind at 1. unfold bind at 1.
  rewrite set_tv_some by done.
  destruct (Ring.put_spec QUEUELEN q (command_of c d a port action activetime (now w)) Hring Hf)
    as (q' & Eq & Hq' & Hc').
  unfold command_of in Eq. rewrite Eq. cbn -[Ring.put command_of].
  unfold bind, queue_set, modify. cbn.
  unfold resume_bus_thread, bind. rewrite (bus_get_some _ bd) by done. cbn.
  eexists. split; [reflexivity |]. split; [| split; [done | split; [| by split]]].
  - destruct Hw as [W1 W2 W3 W4 W5 W6]. split; cbn; try done.
    + intros b' q0. destruct (decide (b = b')) as [<- |].
      * rewrite lookup_insert_eq. by intros [= <-].
      * rewrite lookup_insert_ne by done. apply W3.
    + by apply is_array_insert.
  - unfold pending. cbn. rewrite lookup_insert_eq, Hc', Hq. done.
Qed.

Lemma enqueueGA_full w b a d q port action activetime :
  ga_at w b a = Some d -> w.(ga_queue) !! b = Some q -> Ring.isfull QUEUELEN q = true ->
  enqueueGA b a port action activetime w = Some (SRCP_TEMPORARILYPROHIBITED, w).
Proof.
  intros Hd Hq Hf. destruct (range_in _ _ _ _ Hd) as (g & Hg & Hr & _).
  unfold enqueueGA. step (get_number_some _ _ _ Hg). rewrite Hr. unfold queue_isfull.
  unfold bind at 1. step (queue_get_some _ _ _ Hq). unfold ret at 1. by rewrite Hf.
Qed.

Lemma getlockGA_some w b a d : ga_at w b a = Some d ->
  getlockGA b a w = Some ((SRCP_OK, d.(ga_locked_by)), w).
Proof.
  intros Hd. destruct (range_in _ _ _ _ Hd) as (g & Hg & _ & Hr).
  unfold getlockGA. step (get_number_some _ _ _ Hg). rewrite Hr.
  by step (gastate_get_some _ _ _ _ Hd).
Qed.

Lemma dequeueNextGA_spec w b e l :
  wf w -> pending w b = e :: l ->
  exists w', dequeueNextGA b w = Some (Some e, w') /\ wf w' /\ w'.(ga) = w.(ga) /\
    pending w' b = l.
Proof.
  intros Hw Hp. unfold pending in Hp. destruct (w.(ga_queue) !! b) as [q |] eqn:Hq; [| done].
  pose proof (wf_rings _ Hw _ _ Hq) as Hr.
  destruct (Ring.take_spec QUEUELEN q e l Hr Hp) as (q' & Et & Hr' & Hc').
  assert (He : Ring.isempty q = false).
  { apply not_true_iff_false. rewrite (Ring.isempty_spec QUEUELEN) by done. by rewrite Hp. }
  unfold dequeueNextGA. step (queue_get_some _ _ _ Hq). rewrite He, Et.
  eexists. split; [reflexivity |]. split; [| split; [done |]].
  - destruct Hw as [W1 W2 W3 W4 W5 W6]. split; cbn; try done.
    + intros b' q0. destruct (decide (b = b')) as [<- |].
      * rewrite lookup_insert_eq. by intros [= <-].
      * rewrite lookup_insert_ne by done. apply W3.
    + apply is_array_insert; [done |]. exact (is_array_bound _ _ _ _ W5 Hq).
  - unfold pending. cbn. by rewrite lookup_insert_eq.
Qed.

(** * Switching an accessory *)

Definition info_line (b a port value : Z) (t : timeval) : string :=
  fmt [stamp t; " 100 INFO "; dec b; " GA "; dec a; " "; dec port; " "; dec value; nl].

(** The accessory [setGA] leaves behind. *)
Definition switched (d a : ga_data_t) (t : timeval) : ga_data_t :=
  let d := d <| ga_id := a.(ga_id) |> <| ga_action := a.(ga_action) |>
             <| ga_port := a.(ga_port) |> in
  if a.(ga_port) =? 0 then d <| ga_tv0 := t |> else d <| ga_tv1 := t |>.

(** The bytes of the acknowledge: port, action and, when there is one, the
    active time. *)
Definition ga_payload (a : ga_data_t) : list Z :=
  let at_ := i32 a.(ga_activetime) in
  [u8 a.(ga_port); u8 a.(ga_action)] ++
  if negb (at_ =? 0) then [u8 (Z.shiftr at_ 8); Z.land at_ 0xFF] else [].

Definition ga_item (b_protocol addr : Z) : Z :=
  addr + (if b_protocol =? ch "N" then 0x37FF else 0x2FFF).

Lemma infoGA_some w b a d port t :
  ga_at w b a = Some d -> ga_tv d port = Some t -> 0 < t.(tv_sec) -> 0 <= port < MAXGAPORT ->
  infoGA b a port w = Some ((SRCP_INFO, info_line b a port d.(ga_action) t), w).
Proof.
  intros Hd Ht Hs Hp. destruct (range_in _ _ _ _ Hd) as (g & Hg & Hr & _).
  unfold infoGA. step (get_number_some _ _ _ Hg). rewrite Hr.
  assert (E : (0 <=? port) && (port <? MAXGAPORT) = true) by zbool.
  rewrite andb_true_l, E. step (gastate_get_some _ _ _ _ Hd). rewrite Ht.
  apply Z.ltb_lt in Hs. cbn [need]. unfold bind, ret. by rewrite Hs.
Qed.

Lemma ga_minfo_payload a w b item :
  exists rc, info_mcs b 0x17 item (ga_minfo a) w = Some (rc, sync b 0x17 item (ga_payload a) w).
Proof.
  unfold ga_minfo, ga_payload. destruct (negb (i32 (ga_activetime a) =? 0)).
  - destruct (info_mcs_spec b 0x17 item [u8 a.(ga_port); u8 a.(ga_action);
      u8 (Z.shiftr (i32 a.(ga_activetime)) 8); Z.land (i32 a.(ga_activetime)) 0xFF] [] w) as (rc & E & _);
      [cbn; lia |]. exists rc. exact E.
  - destruct (info_mcs_spec b 0x17 item [u8 a.(ga_port); u8 a.(ga_action)] [0; 0] w)
      as (rc & E & _); [cbn; lia |]. exists rc. exact E.
Qed.

Lemma setGA_spec w b addr d a :
  wf w -> ga_at w b addr = Some d -> d.(ga_protocol) <> 0 -> 0 <= a.(ga_port) < MAXGAPORT ->
  0 < (now w).(tv_sec) ->
  setGA b addr a w = Some (SRCP_OK,
    sync b 0x17 (ga_item d.(ga_protocol) addr) (ga_payload a)
      (announce (info_line b addr a.(ga_port) a.(ga_action) (now w))
        (ga_upd b addr (switched d a (now w))
          (tick (ga_upd b addr (d <| ga_id := a.(ga_id) |> <| ga_action := a.(ga_action) |>
                                  <| ga_port := a.(ga_port) |>) w))))).
Proof.
  intros Hw Hd Hpr Hp Hs. destruct (range_in _ _ _ _ Hd) as (g & Hg & Hr & _).
  apply Z.eqb_neq in Hpr.
  unfold setGA. step (get_number_some _ _ _ Hg). rewrite Hr.
  unfold isInitializedGA. unfold bind at 1. step (gastate_get_some _ _ _ _ Hd).
  rewrite Hpr. unfold ret at 1. cbn [negb]. unfold ret at 1, bind at 1.
  step (gastate_update_some w b addr d (fun d => d <| ga_id := a.(ga_id) |>
    <| ga_action := a.(ga_action) |> <| ga_port := a.(ga_port) |>) Hd).
  set (d1 := d <| ga_id := a.(ga_id) |> <| ga_action := a.(ga_action) |>
               <| ga_port := a.(ga_port) |>).
  set (w1 := ga_upd b addr d1 w). step (gettimeofday_spec w1).
  assert (Hn : now w1 = now w) by (unfold w1, ga_upd; by rewrite Hg). rewrite Hn.
  assert (Hd1 : ga_at (tick w1) b addr = Some d1)
    by (change (ga_at (ga_upd b addr d1 w) b addr = Some d1); by eapply ga_at_upd).
  step (gastate_get_some _ _ _ _ Hd1).
  step (set_tv_some d1 a.(ga_port) (now w) (tick w1) Hp).
  change (if a.(ga_port) =? 0 then _ else _) with (switched d a (now w)).
  step (gastate_set_some _ _ _ _ (switched d a (now w)) Hd1).
  set (w2 := ga_upd b addr (switched d a (now w)) (tick w1)).
  assert (Hd2 : ga_at w2 b addr = Some (switched d a (now w))) by (by eapply ga_at_upd).
  assert (Htv : ga_tv (switched d a (now w)) a.(ga_port) = Some (now w)).
  { unfold ga_tv, switched. unfold MAXGAPORT in Hp. destruct (Z.eqb_spec a.(ga_port) 0); [done |].
    by destruct (Z.eqb_spec a.(ga_port) 1); [| lia]. }
  step (infoGA_some _ _ _ _ _ _ Hd2 Htv Hs Hp).
  assert (Hact : ga_action (switched d a (now w)) = a.(ga_action))
    by (unfold switched; cbv zeta; by destruct (ga_port a =? 0)).
  assert (Hprot : ga_protocol (switched d a (now w)) = d.(ga_protocol))
    by (unfold switched; cbv zeta; by destruct (ga_port a =? 0)).
  rewrite Hact. cbn [snd].
  step (enqueueInfoMessage_spec (info_line b addr a.(ga_port) a.(ga_action) (now w)) w2
    (wf_sess _ (ga_upd_wf _ _ _ _ (wf_tick _ (ga_upd_wf _ _ _ _ Hw))))).
  set (w3 := announce _ w2).
  assert (Hd3 : ga_at w3 b addr = Some (switched d a (now w))) by done.
  step (gastate_get_some _ _ _ _ Hd3). rewrite Hprot.
  destruct (ga_minfo_payload a w3 b (ga_item d.(ga_protocol) addr)) as [rc E].
  unfold ga_item in E |- *. by step E.
Qed.

Lemma enqueueGA_bad_port w b a d q port action activetime :
  wf w -> ga_at w b a = Some d -> w.(ga_queue) !! b = Some q -> Ring.isfull QUEUELEN q = false ->
  ~ (0 <= port < MAXGAPORT) ->
  enqueueGA b a port action activetime w = None.
Proof.
  intros Hw Hd Hq Hf Hp. destruct (range_in _ _ _ _ Hd) as (g & Hg & Hr & _).
  pose proof (wf_rings _ Hw _ _ Hq) as Hring.
  unfold enqueueGA. step (get_number_some _ _ _ Hg). rewrite Hr. unfold queue_isfull.
  unfold bind at 1. step (queue_get_some _ _ _ Hq). unfold ret at 1. rewrite Hf.
  step (queue_get_some _ _ _ Hq). step (gastate_get_some _ _ _ _ Hd). step (gettimeofday_spec w).
  destruct (Ring.wf_cell QUEUELEN q q.(Ring.in_) Hring) as [c Hc].
  rewrite Z.mod_small in Hc by apply (Ring.wf_in _ _ Hring).
  unfold need at 1. rewrite Hc. unfold ret at 1, bind at 1. unfold bind at 1.
  by rewrite set_tv_none.
Qed.

(** * An example: one bus with four NMRA accessories *)

Lemma wf_initial clock memory : wf (initial_world clock memory).
Proof.
  split; cbn; try apply is_array_array; [apply initial_sess_ok | |].
  - intros b g Hg. apply lookup_array_inv in Hg as [-> _]. split; cbn; lia.
  - intros b q Hq. apply lookup_array_inv in Hq as [-> _]. by apply Ring.make_wf.
Qed.

Lemma wf_with_group w b n d :
  wf w -> 0 <= b < MAX_BUSES -> 0 <= n ->
  wf (w <| ga ::= <[b := mk_GA n (array (n + 1) d)]> |>).
Proof.
  intros [W1 W2 W3 W4 W5 W6] Hb Hn. split; cbn; try done.
  - intros b' g. destruct (decide (b = b')) as [<- |].
    + rewrite lookup_insert_eq. intros [= <-]. split; cbn; [done |].
      intros a Ha. rewrite lookup_array_some by lia. eauto.
    + rewrite lookup_insert_ne by done. apply W2.
  - by apply is_array_insert.
Qed.

Definition example_clock (n : nat) : timeval := mk_timeval (1000 + Z.of_nat n) 250000.
Definition example_ga : ga_data_t :=
  ga_zero <| ga_protocol := ch "N" |> <| ga_locked_by := 7 |>.
Definition example : world :=
  (initial_world example_clock 100)
    <| num_buses := 1 |>
    <| ga ::= <[1 := mk_GA 4 (array 5 example_ga)]> |>.

Lemma example_wf : wf example.
Proof.
  apply (wf_with_group ((initial_world example_clock 100) <| num_buses := 1 |>) 1 4);
    [| done | done].
  destruct (wf_initial example_clock 100) as [W1 W2 W3 W4 W5 W6]. by split.
Qed.

(** * Properties *)

(** C15. Locks on accessories are exclusive: while a session holds an accessory,
    any sequence of lock and unlock requests of other sessions, for that and for
    other accessories, is served without changing the holder, and each request
    for that accessory is answered "device locked". *)
Theorem locks_exclusive rs w b a d :
  wf w -> ga_at w b a = Some d -> d.(ga_locked_by) <> 0 ->
  Forall (fun r => 0 <= (req_key r).1 < MAX_BUSES /\ req_sid r <> d.(ga_locked_by)) rs ->
  exists codes w', serve_all rs w = Some (codes, w') /\ holder w' (b, a) = d.(ga_locked_by) /\
    Forall2 (fun r code => req_key r = (b, a) -> code = SRCP_DEVICELOCKED) rs codes.
Proof.
  intros Hw Hd Hn Hf.
  assert (Eh : holder w (b, a) = d.(ga_locked_by)) by (unfold holder; cbn; by rewrite Hd).
  destruct (lock_exclusive (LT := ga_lock_table) rs w (b, a) _ Hw Eh Hn Hf) as (codes & w' & E & Hh & Hc).
  exists codes, w'. split; [done |]. split; [done |].
  eapply Forall2_impl; [exact Hc |]. intros r code H Hk. apply H. rewrite Hk.
  cbn. unfold slot. cbn. by rewrite Hd.
Qed.

Lemma locks_exclusive_witness :
  exists codes w', serve_all [Lock (1, 2) 60 8; Unlock (1, 2) 9] example = Some (codes, w') /\
    holder w' (1, 2) = example_ga.(ga_locked_by) /\
    Forall2 (fun r code => req_key r = (1, 2) -> code = SRCP_DEVICELOCKED)
      [Lock (1, 2) 60 8; Unlock (1, 2) 9] codes.
Proof.
  apply (locks_exclusive [Lock (1, 2) 60 8; Unlock (1, 2) 9] example 1 2
    example_ga).
  - exact example_wf.
  - vm_compute. reflexivity.
  - vm_compute. discriminate.
  - repeat constructor; vm_compute; congruence.
Defined.

(** When a session ends, [unlock_ga_bysessionid] frees the accessories it
    holds, on every bus, and leaves every other holder alone. *)
Theorem session_end_unlocks sid w :
  wf w -> 0 <= w.(num_buses) < MAX_BUSES ->
  exists w', unlock_ga_bysessionid sid w = Some (tt, w') /\ wf w' /\
    forall b a d, 1 <= b <= w.(num_buses) -> ga_at w b a = Some d ->
      holder w' (b, a) = if d.(ga_locked_by) =? sid then 0 else d.(ga_locked_by).
Proof.
  intros Hw Hn. destruct (unlock_ga_bysessionid_spec sid w Hw Hn) as (w' & E & [Hw' _ _] & Hh).
  exists w'. split; [done |]. split; [done |]. intros b a d Hb Hd.
  destruct (ga_at_inv _ _ _ _ Hd) as (g & Hg & _ & Ha).
  rewrite Hh. unfold freed, below, holder. cbn. rewrite Hg, Hd. zbool.
Qed.

Lemma session_end_unlocks_witness :
  exists w', unlock_ga_bysessionid 7 example = Some (tt, w') /\ wf w' /\
    forall b a d, 1 <= b <= 1 -> ga_at example b a = Some d ->
      holder w' (b, a) = if d.(ga_locked_by) =? 7 then 0 else d.(ga_locked_by).
Proof. apply (session_end_unlocks 7 example); [exact example_wf | split; [done | reflexivity]]. Defined.

(** C33. The command queue is a FIFO: an accepted command is appended to the
    commands pending on its bus, and the driver's [dequeueNextGA] then takes
    the pending commands from the front. *)
Theorem queue_is_fifo w b a d q port action activetime :
  wf w -> ga_at w b a = Some d -> w.(ga_queue) !! b = Some q -> Ring.isfull QUEUELEN q = false ->
  0 <= port < MAXGAPORT ->
  exists c w', enqueueGA b a port action activetime w = Some (SRCP_OK, w') /\
    pending w' b = pending w b ++ [command_of c d a port action activetime (now w)] /\
    forall e l, pending w' b = e :: l ->
      exists w'', dequeueNextGA b w' = Some (Some e, w'') /\ pending w'' b = l.
Proof.
  intros Hw Hd Hq Hf Hp.
  destruct (enqueueGA_accepts w b a d q port action activetime Hw Hd Hq Hf Hp)
    as (c & w' & E & Hw' & _ & El & _).
  exists c, w'. split; [done |]. split; [done |]. intros e l Hl.
  destruct (dequeueNextGA_spec w' b e l Hw' Hl) as (w'' & ? & _ & _ & ?). eauto.
Qed.

Lemma queue_is_fifo_witness :
  exists c w', enqueueGA 1 3 0 1 100 example = Some (SRCP_OK, w') /\
    pending w' 1 = pending example 1 ++
      [command_of c example_ga
         3 0 1 100 (now example)] /\
    forall e l, pending w' 1 = e :: l ->
      exists w'', dequeueNextGA 1 w' = Some (Some e, w'') /\ pending w'' 1 = l.
Proof.
  apply (queue_is_fifo example 1 3 _ (Ring.make 50 ga_zero));
    [exact example_wf | vm_compute; reflexivity | vm_compute; reflexivity | vm_compute; reflexivity
    | split; [done | reflexivity]].
Defined.

(** [enqueueGA] checks the address but not the port a client sends: on a
    valid address and a queue with room, a port other than 0 and 1 writes
    outside the array [tv]. *)
Theorem enqueue_port_unchecked w b a d q port action activetime :
  wf w -> ga_at w b a = Some d -> w.(ga_queue) !! b = Some q -> Ring.isfull QUEUELEN q = false ->
  enqueueGA b a port action activetime w = None <-> ~ (0 <= port < MAXGAPORT).
Proof.
  intros Hw Hd Hq Hf. split; [| by eapply enqueueGA_bad_port].
  intros E Hp. destruct (enqueueGA_accepts w b a d q port action activetime Hw Hd Hq Hf Hp)
    as (c & w' & E' & _). congruence.
Qed.

Lemma enqueue_port_unchecked_witness : enqueueGA 1 3 2 1 100 example = None.
Proof.
  apply (enqueue_port_unchecked example 1 3
    example_ga (Ring.make 50 ga_zero));
    [exact example_wf | vm_compute; reflexivity | vm_compute; reflexivity | vm_compute; reflexivity |].
  intros [_ H]. vm_compute in H. discriminate.
Defined.

(** Setting an initialised accessory stores the command and the time,
    sends every info session exactly the line that reports it, and, when the
    bus is the CAN gateway's, one acknowledge frame. *)
Theorem set_reports w b addr d a :
  wf w -> ga_at w b addr = Some d -> d.(ga_protocol) <> 0 -> 0 <= a.(ga_port) < MAXGAPORT ->
  0 < (now w).(tv_sec) ->
  exists w', setGA b addr a w = Some (SRCP_OK, w') /\
    ga_at w' b addr = Some (switched d a (now w)) /\
    (forall b' a', (b, addr) <> (b', a') -> ga_at w' b' a' = ga_at w b' a') /\
    w'.(sess) = Session.broadcast (info_line b addr a.(ga_port) a.(ga_action) (now w)) w.(sess) /\
    w'.(mcs).(can_out) = w.(mcs).(can_out) ++
      if b =? w.(mcs).(mcs_bus)
      then [mcs_frame w.(mcs) 0x17 (ga_item d.(ga_protocol) addr) (ga_payload a)] else [].
Proof.
  intros Hw Hd Hpr Hp Hs. rewrite (setGA_spec w b addr d a Hw Hd Hpr Hp Hs).
  eexists. split; [done |].
  destruct (ga_at_inv _ _ _ _ Hd) as (g & Hg & _ & _).
  set (d1 := d <| ga_id := _ |> <| ga_action := _ |> <| ga_port := _ |>).
  assert (H1 : ga_at (tick (ga_upd b addr d1 w)) b addr = Some d1)
    by (change (ga_at (ga_upd b addr d1 w) b addr = Some d1); by eapply ga_at_upd).
  set (w2 := ga_upd b addr (switched d a (now w)) (tick (ga_upd b addr d1 w))).
  set (line := info_line _ _ _ _ _).
  assert (Hsync : forall item p, ga (sync b 0x17 item p (announce line w2)) = ga w2 /\
    sess (sync b 0x17 item p (announce line w2)) = sess (announce line w2))
    by (intros; unfold sync; by destruct (_ =? _)).
  assert (Em : mcs w2 = mcs w /\ sess w2 = sess w).
  { unfold w2, ga_upd. cbn. rewrite Hg. cbn. by rewrite lookup_insert_eq. }
  destruct Em as [Em Es]. destruct (Hsync (ga_item d.(ga_protocol) addr) (ga_payload a)) as [Eg Ess].
  assert (Hat : forall b' a', ga_at (sync b 0x17 (ga_item d.(ga_protocol) addr) (ga_payload a)
    (announce line w2)) b' a' = ga_at w2 b' a') by (intros; unfold ga_at; by rewrite Eg).
  split; [| split; [| split]].
  - rewrite Hat. by eapply ga_at_upd.
  - intros b' a' Hne. rewrite Hat. unfold w2. rewrite ga_at_upd_ne by done.
    change (ga_at (ga_upd b addr d1 w) b' a' = ga_at w b' a'). by rewrite ga_at_upd_ne.
  - rewrite Ess. cbn. by rewrite Es.
  - unfold sync. change (mcs (announce line w2)) with (mcs w2). rewrite Em.
    destruct (b =? _); cbn; rewrite Em; [done | by rewrite app_nil_r].
Qed.

Definition example_switch : ga_data_t := ga_zero <| ga_id := 3 |> <| ga_action := 1 |>.

Lemma set_reports_witness :
  exists w', setGA 1 3 example_switch example = Some (SRCP_OK, w') /\
    ga_at w' 1 3 = Some (switched example_ga example_switch (now example)) /\
    (forall b' a', (1, 3) <> (b', a') -> ga_at w' b' a' = ga_at example b' a') /\
    w'.(sess) = Session.broadcast
      (info_line 1 3 example_switch.(ga_port) example_switch.(ga_action) (now example))
      example.(sess) /\
    w'.(mcs).(can_out) = example.(mcs).(can_out) ++
      if 1 =? example.(mcs).(mcs_bus)
      then [mcs_frame example.(mcs) 0x17 (ga_item example_ga.(ga_protocol) 3)
              (ga_payload example_switch)] else [].
Proof.
  apply (set_reports example 1 3 example_ga example_switch).
  - exact example_wf.
  - vm_compute. reflexivity.
  - vm_compute. discriminate.
  - split; [done | reflexivity].
  - reflexivity.
Defined.
End GA.
