(* ===== verification/Loco.v ===== *)
(** srcp-gl.c: the generic locomotives.  The table [glstate] of a bus holds the
    decoders in use; the directories of [gldir] lead from an address of each
    protocol to its entry.  A pointer to an entry is the entry's index, a
    pointer into a directory a [dirslot]. *)

From S2P Require Import Prelude Ring World Messages Text Session Services Lock.

Module GL.

Definition QUEUELEN : Z := 200.
Definition MCSADDRINDICATOR : Z := 0x10000.

(** * The state *)

Definition gl_at (bus i : Z) : prog world gl_data_t :=
  let* g := gl_get bus in need (g.(glstate) !! i).
Definition gl_put (bus i : Z) (d : gl_data_t) : prog world unit :=
  let* g := gl_get bus in
  do* need (g.(glstate) !! i) in
  gl_set bus (g <| glstate ::= <[i := d]> |>).
Definition gl_mod (bus i : Z) (f : gl_data_t -> gl_data_t) : prog world unit :=
  let* d := gl_at bus i in gl_put bus i (f d).

(** A [uint16_t *] into a directory. *)
Inductive dirslot := Mfx (id : Z) | Nmra (id : Z) | Mm (id : Z).

#[export] Instance dirslot_eq_dec : EqDecision dirslot.
Proof. solve_decision. Defined.

Definition the_dir (bus : Z) : prog world gl_dir_t :=
  let* g := gl_get bus in need g.(gldir).
Definition set_dir (bus : Z) (d : gl_dir_t) : prog world unit :=
  let* g := gl_get bus in gl_set bus (g <| gldir := Some d |>).

Definition slot_lookup (d : gl_dir_t) (s : dirslot) : option Z :=
  match s with
  | Mfx id => d.(mfxdir) !! id
  | Nmra id => d.(nmradir) !! id
  | Mm id => d.(mmdir) !! id
  end.
Definition slot_insert (s : dirslot) (v : Z) (d : gl_dir_t) : gl_dir_t :=
  match s with
  | Mfx id => d <| mfxdir ::= <[id := v]> |>
  | Nmra id => d <| nmradir ::= <[id := v]> |>
  | Mm id => d <| mmdir ::= <[id := v]> |>
  end.

Definition slot_get (bus : Z) (s : dirslot) : prog world Z :=
  let* d := the_dir bus in need (slot_lookup d s).
Definition slot_set (bus : Z) (s : dirslot) (v : Z) : prog world unit :=
  let* d := the_dir bus in
  do* need (slot_lookup d s) in
  set_dir bus (slot_insert s v d).

(** * Addresses *)

Definition getMaxAddrGL (busnumber : Z) : prog world Z :=
  let* n := gets num_buses in
  if busnumber <=? n then let* g := gl_get busnumber in ret g.(numberOfGl) else ret 0.

Definition calcspeed (vs vmax n_fs : Z) : Z :=
  if vmax =? 0 then vs
  else
    let vs := if vs <? 0 then 0 else vs in
    let vs := if vmax <? vs then vmax else vs in
    let rs := vs * n_fs in
    let rs := Z.shiftl rs 1 in
    let rs := rs + vmax in
    let rs := Z.quot rs vmax in
    let rs := Z.shiftr rs 1 in
    if (rs =? 0) && negb (vs =? 0) then 1 else rs.

Definition getglid (p : gl_data_t) : Z :=
  if p.(gl_protocol) =? ch "M" then p.(gl_id)
  else if p.(gl_protocol) =? ch "X" then p.(gl_id) + 0x4000
  else if p.(gl_protocol) =? ch "N" then p.(gl_id) + 0xC000
  else 0.

(** The last cases of [getGLIndex]. *)
Definition nmra_slot (id : Z) : option dirslot := if id <? MAXNMRAGL then Some (Nmra id) else None.
Definition mm_slot (id : Z) : option dirslot := if id <? MAXMMGL then Some (Mm id) else None.
Definition mfx_slot (id : Z) : option dirslot := if id <? MAXMFXGL then Some (Mfx id) else None.

(** The directory entry of an address, given the protocols SRCP registered for
    the short addresses. *)
Definition gl_index (protos : gmap Z Z) (locid prot : Z) : prog world (option dirslot) :=
  let id := Z.land locid 0x3FFF in
  if id =? 0 then ret None
  else
    match Z.shiftr locid 14 with
    | 0 =>
        let* short := (if locid <? MAXSRCPGL then need (protos !! locid) else ret 0) in
        if short =? ch "M" then ret (Some (Mm id))
        else if short =? ch "N" then ret (Some (Nmra id))
        else if short =? ch "X" then ret (Some (Mfx id))
        else if negb (prot =? 0) && negb (prot =? ch "N") then ret None
        else ret (nmra_slot id)
    | 3 | 7 => ret (nmra_slot id)
    | 4 => ret (mm_slot id)
    | 1 =>
        if negb (prot =? 0) && negb (prot =? ch "X") then ret None else ret (mfx_slot id)
    | 5 => ret (mfx_slot id)
    | _ => ret None
    end.

Definition getGLIndex (bus locid prot : Z) : prog world (option dirslot) :=
  let* n := gets num_buses in
  if bus <=? n then
    let* g := gl_get bus in
    match g.(gldir) with
    | None => ret None
    | Some _ =>
        do* (if (locid <? MAXSRCPGL) && negb (prot =? 0) then
               let* d := the_dir bus in set_dir bus (d <| proto ::= <[locid := prot]> |>)
             else ret tt) in
        let* d := the_dir bus in
        gl_index d.(proto) locid prot
    end
  else ret None.

(** The index a look-up with protocol 0 finds: [gli ? *gli : 0]. *)
Definition find_entry (bus locid : Z) : prog world Z :=
  let* gli := getGLIndex bus locid 0 in
  match gli with Some s => slot_get bus s | None => ret 0 end.

(** The search of [addGLEntry] from [entry]; each turn looks at the next one. *)
Fixpoint add_entry (fuel : nat) (bus number entry : Z) : prog world Z :=
  match fuel with
  | O => undefined
  | S fuel =>
      let entry := u16 (entry + 1) in
      if number <? entry then ret 0
      else
        let* d := gl_at bus entry in
        if decide (d.(gl_state) = glsNone) then ret entry
        else add_entry fuel bus number entry
  end.
Definition addGLEntry (bus : Z) : prog world Z :=
  let* g := gl_get bus in
  add_entry (S (Z.to_nat g.(numberOfGl))) bus g.(numberOfGl) 0.

Definition isInitializedGL (busnumber index : Z) : prog world Z :=
  let* n := gets num_buses in
  if busnumber <=? n then
    let* g := gl_get busnumber in
    if (0 <? g.(numberOfGl)) && (0 <? index) && (index <=? g.(numberOfGl)) then
      let* d := gl_at busnumber index in
      if decide (d.(gl_state) = glsNone) then ret 0
      else
        let i := d.(gl_id) in
        let* other := (if MAXSRCPGL <=? i then ret true
                       else let* dir := the_dir busnumber in
                            let* p := need (dir.(proto) !! i) in
                            ret (negb (p =? d.(gl_protocol)))) in
        ret (if other && (d.(gl_protocol) =? ch "X") then u16 (i + 0x4000) else i)
    else ret 0
  else ret 0.

(** * The queue *)

Definition queue_get (busnumber : Z) : prog world (Ring.t Z) :=
  fun w => need (w.(gl_queue) !! busnumber) w.
Definition queue_set (busnumber : Z) (q : Ring.t Z) : prog world unit :=
  modify (fun w => w <| gl_queue ::= <[busnumber := q]> |>).

Definition queue_GL_isempty (busnumber : Z) : prog world bool :=
  let* q := queue_get busnumber in ret (Ring.isempty q).
Definition queue_len (busnumber : Z) : prog world Z :=
  let* q := queue_get busnumber in ret (Ring.len QUEUELEN q).
Definition queue_isfull (busnumber : Z) : prog world bool :=
  let* q := queue_get busnumber in ret (Ring.isfull QUEUELEN q).

(** The entry, or [None] for a null pointer. *)
Definition dequeueNextGL (busnumber : Z) : prog world (option Z) :=
  let* q := queue_get busnumber in
  if Ring.isempty q then ret None
  else
    let* r := need (Ring.take QUEUELEN q) in
    do* queue_set busnumber r.2 in
    ret (Some r.1).

(** The scan for a double entry, from index [i] of the ring. *)
Fixpoint queued (fuel : nat) (q : Ring.t Z) (i p : Z) : option bool :=
  match fuel with
  | O => None
  | S fuel =>
      if i =? q.(Ring.in_) then Some false
      else
        match q.(Ring.queue) !! i with
        | None => None
        | Some x => if x =? p then Some true else queued fuel q (Ring.next QUEUELEN i) p
        end
  end.
Definition scan_fuel : nat := S (Z.to_nat QUEUELEN).

(** The end of [gl_enqueue]: queue the entry unless it is queued already, and
    wake the bus thread. *)
Definition enqueue_once (busnumber p : Z) : prog world unit :=
  let* full := queue_isfull busnumber in
  if full then ret tt
  else
    let* q := queue_get busnumber in
    let* double := need (queued scan_fuel q q.(Ring.out) p) in
    do* (if double then ret tt
         else let* q := need (Ring.put QUEUELEN p q) in queue_set busnumber q) in
    resume_bus_thread busnumber.

(** * Descriptions *)

Definition describe_gl_DDL (d : gl_data_t) : string :=
  if d.(gl_protocol) =? ch "X" then fmt [" "; dec d.(gl_decuid)] else "".

Definition describe_gl_func (drv : driver_t) : option (gl_data_t -> string) :=
  match drv with DDL => Some describe_gl_DDL | _ => None end.

Definition cacheDescribeGL (busnumber locid : Z) : prog world (Z * string) :=
  let* i := find_entry busnumber locid in
  if i =? 0 then ret (SRCP_NODATA, ""%string)
  else
    let* d := gl_at busnumber i in
    if gl_state_code d.(gl_state) <? gl_state_code glsInit then ret (SRCP_NODATA, ""%string)
    else
      let* b := bus_get busnumber in
      ret (SRCP_INFO,
        fmt [stamp d.(gl_inittime); " 101 INFO "; dec busnumber; " GL "; dec locid; " ";
             chr d.(gl_protocol); " "; dec d.(gl_protocolversion); " "; dec d.(gl_n_fs); " ";
             dec d.(gl_n_func);
             match describe_gl_func b.(driver) with Some f => f d | None => "" end; nl]).

(** The value of function [f]; a shift of 32 bits or more is undefined. *)
Definition func_bit (funcs f : Z) : prog world Z :=
  do* guard (f <? 32) in ret (if Z.testbit funcs f then 1 else 0).

(** The functions [f .. n - 1], each after a blank. *)
Fixpoint func_list (funcs : Z) (fs : list Z) : prog world string :=
  match fs with
  | [] => ret ""%string
  | f :: fs =>
      let* v := func_bit funcs f in
      let* rest := func_list funcs fs in
      ret (fmt [" "; dec v; rest])
  end.

(** The reply, or [None] where the caller's buffer stays as it was. *)
Definition cacheInfoGL (busnumber locid : Z) : prog world (Z * option string) :=
  let* i := find_entry busnumber locid in
  if i =? 0 then ret (SRCP_NODATA, None)
  else
    let* d := gl_at busnumber i in
    if decide (d.(gl_state) = glsActive) then
      let* fs := func_list d.(gl_funcs) (range 1 (d.(gl_n_func) - 1)) in
      ret (SRCP_INFO, Some
        (fmt [stamp d.(gl_updatime); " 100 INFO "; dec busnumber; " GL "; dec locid; " ";
              dec d.(gl_direction); " "; dec d.(gl_speed); " "; dec d.(gl_n_fs); " ";
              if Z.testbit d.(gl_funcs) 0 then "1" else "0"; fs; nl]))
    else ret (SRCP_NODATA, None).

(** * Initialisation *)

Definition init_gl_LOOPBACK (d : gl_data_t) (optData : option string) : option (Z * gl_data_t) :=
  let ok (b : bool) := Some (if b then SRCP_OK else SRCP_WRONGVALUE, d) in
  let fs := d.(gl_n_fs) in
  if (d.(gl_protocol) =? ch "L") || (d.(gl_protocol) =? ch "S") then ok (fs =? 31)
  else if d.(gl_protocol) =? ch "P" then ok true
  else if d.(gl_protocol) =? ch "M" then
    if d.(gl_protocolversion) =? 1 then ok (fs =? 14)
    else if d.(gl_protocolversion) =? 2 then ok ((fs =? 14) || (fs =? 27) || (fs =? 28))
    else ok false
  else if d.(gl_protocol) =? ch "N" then
    if (d.(gl_protocolversion) =? 1) || (d.(gl_protocolversion) =? 2)
    then ok ((fs =? 14) || (fs =? 28) || (fs =? 128))
    else ok false
  else Some (SRCP_UNSUPPORTEDDEVICEPROTOCOL, d).

(** The conversion ["%10u"] of [sscanf]: blanks, a sign, at most ten
    characters, sign included; [None] when no number is there. *)
Fixpoint scan_digits (width : nat) (acc : option Z) (s : string) : option Z :=
  match width, s with
  | S width, String a s =>
      match digit a with
      | Some v => scan_digits width (Some (10 * default 0 acc + v)) s
      | None => acc
      end
  | _, _ => acc
  end.
Definition scan_10u (s : string) : option Z :=
  match skip_blanks s with
  | String a s' =>
      if ch a =? ch "-" then (fun v => u32 (- v)) <$> scan_digits 9 None s'
      else if ch a =? ch "+" then u32 <$> scan_digits 9 None s'
      else u32 <$> scan_digits 10 None (String a s')
  | EmptyString => None
  end.

(** [None] where [sscanf] would read through a null pointer. *)
Definition init_gl_DDL (d : gl_data_t) (optData : option string) : option (Z * gl_data_t) :=
  let ok (b : bool) := Some (if b then SRCP_OK else SRCP_WRONGVALUE, d) in
  let fs := d.(gl_n_fs) in
  if d.(gl_protocol) =? ch "M" then
    if 5 <? d.(gl_n_func) then ok false
    else if d.(gl_protocolversion) =? 1 then ok (fs =? 14)
    else if d.(gl_protocolversion) =? 2 then ok ((fs =? 14) || (fs =? 27) || (fs =? 28))
    else ok false
  else if d.(gl_protocol) =? ch "N" then
    if 32 <? d.(gl_n_func) then ok false
    else if d.(gl_protocolversion) =? 1
    then ok ((d.(gl_id) <? 128) && ((fs =? 14) || (fs =? 28) || (fs =? 128)))
    else if d.(gl_protocolversion) =? 2 then ok ((fs =? 28) || (fs =? 128))
    else ok false
  else if d.(gl_protocol) =? ch "X" then
    if 32 <? d.(gl_n_func) then ok false
    else if 1 <? d.(gl_protocolversion) then ok false
    else match optData with
         | None => None
         | Some s =>
             Some (SRCP_OK, match scan_10u s with
                            | Some uid => d <| gl_decuid := uid |>
                            | None => d
                            end)
         end
  else Some (SRCP_UNSUPPORTEDDEVICEPROTOCOL, d).

Definition init_gl_func (drv : driver_t)
    : option (gl_data_t -> option string -> option (Z * gl_data_t)) :=
  match drv with
  | NoDriver => None
  | Loopback => Some init_gl_LOOPBACK
  | DDL => Some init_gl_DDL
  end.

(** The values [cacheInitGL] gives a new entry. *)
Definition init_data (locid protocol protoversion n_fs n_func : Z) (t : timeval)
    (d : gl_data_t) : gl_data_t :=
  d <| gl_inittime := t |> <| gl_updatime := t |>
    <| gl_n_fs := u8 (if n_fs =? 0 then 14 else n_fs) |> <| gl_n_func := u8 n_func |>
    <| gl_protocolversion := u8 protoversion |> <| gl_protocol := protocol |>
    <| gl_id := Z.land locid 0x3FFF |>.

(** [cacheInitGL]; [enqueue] is [gl_enqueue], which calls it in turn. *)
Definition cacheInitGL_with (enqueue : Z -> Z -> prog world unit)
    (busnumber locid protocol protoversion n_fs n_func : Z) (optData : option string)
    : prog world Z :=
  let* gli := getGLIndex busnumber locid protocol in
  match gli with
  | None => ret SRCP_WRONGVALUE
  | Some s =>
      let* e := slot_get busnumber s in
      do* (if e =? 0 then let* n := addGLEntry busnumber in slot_set busnumber s n
           else ret tt) in
      let* e := slot_get busnumber s in
      if e =? 0 then ret SRCP_WRONGVALUE
      else
        let* d := gl_at busnumber e in
        let report (rc : Z) : prog world Z :=
          let* d := gl_at busnumber e in
          let* r := cacheDescribeGL busnumber d.(gl_id) in
          do* (if r.1 =? SRCP_INFO then enqueueInfoMessage r.2 else ret tt) in
          ret rc in
        if decide (d.(gl_state) = glsNone) then
          let* rc := bus_supports_protocol busnumber protocol in
          if negb (rc =? SRCP_OK) then ret rc
          else
            let* t := gettimeofday in
            do* gl_mod busnumber e (init_data locid protocol protoversion n_fs n_func t) in
            let* b := bus_get busnumber in
            let* rc := match init_gl_func b.(driver) with
                       | None => ret rc
                       | Some f =>
                           let* d := gl_at busnumber e in
                           let* r := need (f d optData) in
                           do* gl_put busnumber e r.2 in
                           ret r.1
                       end in
            if rc =? SRCP_OK then
              do* gl_mod busnumber e (fun d => d <| gl_state := glsInit |>) in
              do* enqueue busnumber e in
              report rc
            else report rc
        else report SRCP_DEVICEREINITIALIZED
  end.

(** [gl_enqueue], unfolded as often as it may call itself through
    [cacheInitGL]. *)
Fixpoint gl_enqueue_n (fuel : nat) (busnumber p : Z) : prog world unit :=
  match fuel with
  | O => undefined
  | S fuel =>
      let* d := gl_at busnumber p in
      do* (if decide (d.(gl_state) = glsNone) then
             do* cacheInitGL_with (gl_enqueue_n fuel) busnumber d.(gl_id) (ch "P") 1 14 1 None in
             gl_mod busnumber p (fun d =>
               if decide (d.(gl_state) = glsInit) then d <| gl_state := glsActive |> else d)
           else ret tt) in
      enqueue_once busnumber p
  end.
Definition gl_enqueue : Z -> Z -> prog world unit := gl_enqueue_n 1.
Definition cacheInitGL := cacheInitGL_with gl_enqueue.

(** * State changes *)

Definition cacheGetGL (busnumber addr : Z) : prog world (Z * option gl_data_t) :=
  let* i := isInitializedGL busnumber addr in
  if negb (i =? 0) then let* d := gl_at busnumber addr in ret (SRCP_OK, Some d)
  else ret (SRCP_NODATA, None).

Definition proto_clear (bus addr : Z) : prog world unit :=
  let* d := the_dir bus in set_dir bus (d <| proto ::= <[addr := 0]> |>).

(** The driver reports what it sent: [l] is its copy of entry [glp]. *)
Definition cacheSetGL (busnumber glp : Z) (l : gl_data_t) : prog world unit :=
  let* d := gl_at busnumber glp in
  let* long := (if MAXSRCPGL <=? d.(gl_id) then ret true
                else let* dir := the_dir busnumber in
                     let* p := need (dir.(proto) !! d.(gl_id)) in ret (p =? 0)) in
  let addr := if long then getglid d else d.(gl_id) in
  do* gl_mod busnumber glp (fun d => d <| gl_cacheddirection := l.(gl_direction) |>
                                      <| gl_cachedspeed := l.(gl_speed) |>) in
  let* t := gettimeofday in
  do* gl_mod busnumber glp (fun d => d <| gl_updatime := t |>) in
  let* d := gl_at busnumber glp in
  if decide (d.(gl_state) = glsTerm) then
    let* gli := getGLIndex busnumber (Z.lor (getglid d) MCSADDRINDICATOR) 0 in
    let* s := need gli in
    do* slot_set busnumber s 0 in
    do* gl_put busnumber glp gl_zero in
    do* (if addr <? MAXSRCPGL then proto_clear busnumber addr else ret tt) in
    enqueueInfoMessage (snprintf 1000
      (fmt [stamp t; " 102 INFO "; dec busnumber; " GL "; dec addr; nl]))
  else
    let* r := cacheInfoGL busnumber addr in
    do* (if negb (d.(gl_speedchange) =? 0) then gl_enqueue busnumber glp else ret tt) in
    match r.2 with
    | Some msg => if r.1 =? SRCP_INFO then enqueueInfoMessage msg else ret tt
    | None => ret tt
    end.

(** * The interface of the CAN gateway, and SET *)

Definition mcs_defaults (locid : Z) (d : gl_data_t) : gl_data_t :=
  match Z.shiftr locid 14 with
  | 4 => d <| gl_protocol := ch "M" |> <| gl_protocolversion := 2 |>
           <| gl_n_fs := 14 |> <| gl_n_func := 5 |>
  | 5 => d <| gl_protocol := ch "X" |> <| gl_protocolversion := 1 |>
           <| gl_n_fs := 128 |> <| gl_n_func := 16 |>
  | 7 => d <| gl_protocol := ch "N" |>
           <| gl_protocolversion := if 127 <? d.(gl_id) then 2 else 1 |>
           <| gl_n_fs := 28 |> <| gl_n_func := 16 |>
  | _ => d
  end.

(** The entry of an address, made when there is none; [None] is a null pointer. *)
Definition get_gldata_ptr (bus locid : Z) : prog world (option Z) :=
  let* gli := getGLIndex bus locid 0 in
  match gli with
  | None => ret None
  | Some s =>
      let* e := slot_get bus s in
      do* (if e =? 0 then let* n := addGLEntry bus in slot_set bus s n else ret tt) in
      let* e := slot_get bus s in
      if e =? 0 then ret None
      else
        let* d := gl_at bus e in
        if decide (d.(gl_state) = glsNone) then
          do* gl_put bus e (mcs_defaults locid (gl_zero <| gl_id := Z.land locid 0x3FFF |>)) in
          let* t := gettimeofday in
          do* gl_mod bus e (fun d => d <| gl_inittime := t |> <| gl_updatime := t |>) in
          let* d := gl_at bus e in
          let* rc := bus_supports_protocol bus d.(gl_protocol) in
          do* (if rc =? SRCP_OK then
                 let* b := bus_get bus in
                 match init_gl_func b.(driver) with
                 | None => ret tt
                 | Some f =>
                     let* r := need (f d (Some ""%string)) in
                     do* gl_put bus e r.2 in
                     if r.1 =? SRCP_OK then
                       gl_mod bus e (fun d => d <| gl_cacheddirection := d.(gl_direction) |>
                                                <| gl_state := glsActive |>)
                     else ret tt
                 end
               else ret tt) in
          let* d := gl_at bus e in
          if decide (d.(gl_state) = glsNone) then ret None else ret (Some e)
        else ret (Some e)
  end.

Definition mcs_addr (locid : Z) : Z := Z.lor locid MCSADDRINDICATOR.

Definition set_protocol (version n_fs : Z) (d : gl_data_t) : gl_data_t :=
  d <| gl_protocolversion := version |> <| gl_n_fs := n_fs |>.

Definition handle_mcs_prot (bus locid val : Z) : prog world Z :=
  let* p := get_gldata_ptr bus (mcs_addr locid) in
  match p with
  | None => ret (-1)
  | Some p =>
      let* d := gl_at bus p in
      if d.(gl_protocol) =? ch "N" then
        match val with
        | 0 => do* gl_put bus p (set_protocol 1 28 d) in ret val
        | 1 => do* gl_put bus p (set_protocol 1 14 d) in ret val
        | 2 => do* gl_put bus p (set_protocol 1 126 d) in ret val
        | 3 => do* gl_put bus p (set_protocol 2 28 d) in ret val
        | 4 => do* gl_put bus p (set_protocol 2 126 d) in ret val
        | _ => ret (-2)
        end
      else ret (-2)
  end.

(** [(p->speed * 1000) / p->n_fs]; a division by 0 is undefined. *)
Definition speed_permille (d : gl_data_t) : prog world Z :=
  do* guard (negb (d.(gl_n_fs) =? 0)) in ret (Z.quot (d.(gl_speed) * 1000) d.(gl_n_fs)).

Definition handle_mcs_speed (bus locid val : Z) : prog world Z :=
  let* p := get_gldata_ptr bus (mcs_addr locid) in
  match p with
  | None => ret (-1)
  | Some p =>
      let* d := gl_at bus p in
      if 0 <=? val then
        let speed := u8 (calcspeed val 1000 d.(gl_n_fs)) in
        do* gl_put bus p (d <| gl_speed := speed |>) in
        do* (if negb (speed =? d.(gl_speed)) then
               do* gl_mod bus p (fun d => d <| gl_speedchange ::= Z.lor SCSPEED |>) in
               gl_enqueue bus p
             else ret tt) in
        ret val
      else speed_permille d
  end.

(** The direction a request leaves, and whether it stops the engine at once. *)
Definition turn (val : Z) (d : gl_data_t) : gl_data_t :=
  match val with
  | 1 => d <| gl_direction := 1 |>
  | 2 => d <| gl_direction := 0 |>
  | 3 => d <| gl_direction ::= fun x => i8 (Z.lxor x 1) |>
  | 4 => d <| gl_direction := 2 |> <| gl_speedchange ::= Z.lor SCEMERG |>
  | _ => d
  end.

Definition handle_mcs_dir (bus locid val : Z) : prog world Z :=
  let* p := get_gldata_ptr bus (mcs_addr locid) in
  match p with
  | None => ret (-1)
  | Some p =>
      do* (if 0 <=? val then
             do* gl_mod bus p (turn val) in
             do* gl_mod bus p (fun d =>
               if d.(gl_direction) =? d.(gl_cacheddirection) then d
               else d <| gl_speed := 0 |> <| gl_speedchange ::= Z.lor SCDIREC |>) in
             gl_enqueue bus p
           else ret tt) in
      let* d := gl_at bus p in
      ret (2 - d.(gl_direction))
  end.

Definition handle_mcs_func (bus locid funr val : Z) : prog world Z :=
  let* p := get_gldata_ptr bus (mcs_addr locid) in
  match p with
  | None => ret (-1)
  | Some p =>
      if 31 <? funr then ret (-1)
      else
        do* gl_mod bus p (fun d =>
          if d.(gl_n_func) <? funr + 1 then d <| gl_n_func := u8 (funr + 1) |> else d) in
        let* d := gl_at bus p in
        if 0 <=? val then
          let mask := Z.shiftl 1 funr in
          let oldval := if Z.testbit d.(gl_funcs) funr then 1 else 0 in
          do* gl_put bus p (d <| gl_funcs ::= fun f =>
            if negb (val =? 0) then Z.lor f mask else Z.ldiff f mask |>) in
          do* (if negb (val =? oldval) then
                 do* gl_mod bus p (fun d => d <| gl_funcschange ::= Z.lor mask |>) in
                 gl_enqueue bus p
               else ret tt) in
          ret val
        else func_bit d.(gl_funcs) funr
  end.

(** The frames for the functions that changed. *)
Definition sync_func (bus itemid oldfuncs f i : Z) : prog world unit :=
  do* guard (i <? 32) in
  if Z.testbit oldfuncs i then
    do* info_mcs bus 0x0D itemid [2; u8 i; if Z.testbit f i then 1 else 0] in ret tt
  else ret tt.

Definition enqueueGL (bus locid dir speed maxspeed f : Z) : prog world Z :=
  let* p := get_gldata_ptr bus locid in
  match p with
  | None => ret SRCP_WRONGVALUE
  | Some p =>
      do* gl_mod bus p (fun d =>
        if d.(gl_direction) =? dir then d
        else let d := d <| gl_direction := i8 dir |> <| gl_speedchange ::= Z.lor SCDIREC |> in
             if dir =? 2 then d <| gl_speedchange ::= Z.lor SCEMERG |> else d) in
      do* gl_mod bus p (fun d =>
        let s := u8 (calcspeed speed maxspeed d.(gl_n_fs)) in
        let d' := d <| gl_speed := s |> in
        if s =? d.(gl_speed) then d' else d' <| gl_speedchange ::= Z.lor SCSPEED |>) in
      let* d := gl_at bus p in
      let oldfuncs := u32 (Z.lxor d.(gl_funcs) (u32 f)) in
      do* gl_put bus p (d <| gl_funcs := u32 f |> <| gl_funcschange ::= Z.lor oldfuncs |>) in
      do* gl_mod bus p (fun d =>
        if decide (d.(gl_state) = glsInit)
        then d <| gl_cacheddirection := d.(gl_direction) |> <| gl_state := glsActive |>
        else d) in
      do* gl_enqueue bus p in
      let* d := gl_at bus p in
      let itemid := getglid d in
      let* rc := (if negb (Z.land d.(gl_speedchange) SCEMERG =? 0)
                  then info_mcs bus 0x01 itemid [1; 3]
                  else if negb (Z.land d.(gl_speedchange) SCDIREC =? 0)
                  then info_mcs bus 0x0B itemid [1; u8 (2 - d.(gl_direction))]
                  else ret 0) in
      if rc <? 0 then ret SRCP_OK
      else
        let* i := speed_permille d in
        let* rc := info_mcs bus 0x09 itemid [2; u8 (Z.shiftr i 8); Z.land i 0xFF] in
        if rc <? 0 then ret SRCP_OK
        else
          do* for_each (range 0 (d.(gl_n_func) - 1)) (sync_func bus itemid oldfuncs (u32 f)) in
          ret SRCP_OK
  end.

Definition cacheTermGL (busnumber locid : Z) : prog world Z :=
  let* i := find_entry busnumber locid in
  if i =? 0 then ret SRCP_NODATA
  else
    let* d := gl_at busnumber i in
    if gl_state_code d.(gl_state) <? gl_state_code glsInit then ret SRCP_NODATA
    else
      do* gl_put busnumber i (d <| gl_state := glsTerm |>) in
      do* (if d.(gl_protocol) =? ch "X" then enqueueGL busnumber locid (-1) 0 1 0
           else enqueueGL busnumber locid 2 0 1 0) in
      ret SRCP_OK.

Definition resetGL (busnumber addr : Z) : prog world Z :=
  let* i := isInitializedGL busnumber addr in
  if negb (i =? 0) then do* enqueueGL busnumber addr 0 0 1 0 in ret SRCP_OK
  else ret SRCP_NODATA.

(** * Locks *)

Definition describeLOCKGL (busnumber locid : Z) (reply : string) : prog world (Z * string) :=
  let* i := find_entry busnumber locid in
  if i =? 0 then ret (SRCP_WRONGVALUE, reply)
  else
    let* d := gl_at busnumber i in
    if decide (d.(gl_state) = glsNone) then ret (SRCP_WRONGVALUE, reply)
    else
      ret (SRCP_OK, fmt [stamp d.(gl_locktime); " 100 INFO "; dec busnumber; " LOCK GL ";
                         dec locid; " "; dec d.(gl_lockduration); " "; dec d.(gl_locked_by); nl]).

Definition cacheLockGL (busnumber locid duration sessionid : Z) : prog world Z :=
  let* i := find_entry busnumber locid in
  if i =? 0 then ret SRCP_WRONGVALUE
  else
    let* d := gl_at busnumber i in
    if decide (d.(gl_state) = glsNone) then ret SRCP_WRONGVALUE
    else if (d.(gl_locked_by) =? sessionid) || (d.(gl_locked_by) =? 0) then
      let* t := gettimeofday in
      do* gl_mod busnumber i (fun d => d <| gl_locked_by := sessionid |>
        <| gl_lockduration := duration |> <| gl_locktime := t |>) in
      let* r := describeLOCKGL busnumber locid "" in
      do* enqueueInfoMessage r.2 in
      ret SRCP_OK
    else ret SRCP_DEVICELOCKED.

(** The session is written only on success. *)
Definition cacheGetLockGL (busnumber locid : Z) : prog world (Z * option Z) :=
  let* i := find_entry busnumber locid in
  if i =? 0 then ret (SRCP_WRONGVALUE, None)
  else
    let* d := gl_at busnumber i in
    if gl_state_code d.(gl_state) <? gl_state_code glsInit then ret (SRCP_WRONGVALUE, None)
    else ret (SRCP_OK, Some d.(gl_locked_by)).

Definition cacheUnlockGL (busnumber locid sessionid : Z) : prog world Z :=
  let* i := find_entry busnumber locid in
  if i =? 0 then ret SRCP_WRONGVALUE
  else
    let* d := gl_at busnumber i in
    if decide (d.(gl_state) = glsNone) then ret SRCP_WRONGVALUE
    else if (d.(gl_locked_by) =? sessionid) || (d.(gl_locked_by) =? 0) then
      let* t := gettimeofday in
      do* gl_mod busnumber i (fun d => d <| gl_locked_by := 0 |> <| gl_locktime := t |>) in
      do* enqueueInfoMessage
        (fmt [stamp t; " 102 INFO "; dec busnumber; " LOCK GL "; dec locid; " ";
              dec sessionid; nl]) in
      ret SRCP_OK
    else ret SRCP_DEVICELOCKED.

Definition unlock_bus_bysessionid (sessionid bus j : Z) : prog world unit :=
  let* d := gl_at bus j in
  if d.(gl_locked_by) =? sessionid then
    let* i := isInitializedGL bus j in
    if 0 <? i then do* cacheUnlockGL bus i sessionid in ret tt else ret tt
  else ret tt.

Definition unlock_gl_bysessionid (sessionid : Z) : prog world unit :=
  let* n := gets num_buses in
  for_each (range 0 n) (fun bus =>
    let* number := getMaxAddrGL bus in
    for_each (range 1 number) (unlock_bus_bysessionid sessionid bus)).

Definition unlock_bus_bytime (bus j : Z) : prog world unit :=
  let* d := gl_at bus j in
  if 0 <? d.(gl_lockduration) then
    do* gl_put bus j (d <| gl_lockduration ::= fun n => n - 1 |>) in
    if d.(gl_lockduration) =? 1 then
      let* i := isInitializedGL bus j in
      if 0 <? i then do* cacheUnlockGL bus i d.(gl_locked_by) in ret tt else ret tt
    else ret tt
  else ret tt.

Definition unlock_gl_bytime : prog world unit :=
  let* n := gets num_buses in
  for_each (range 0 n) (fun bus =>
    let* number := getMaxAddrGL bus in
    for_each (range 1 number) (unlock_bus_bytime bus)).

(** * Start-up *)

Definition startup_GL : prog world unit :=
  for_each (range 0 (MAX_BUSES - 1)) (fun i =>
    let* q := queue_get i in
    do* queue_set i (Ring.mk q.(Ring.queue) 0 0) in
    gl_set i (mk_GL 0 ∅ None)).

Definition init_GL (busnumber count : Z) : prog world Z :=
  if MAX_BUSES <=? busnumber then ret 1
  else
    do* (if 0 <? count then
           do* gl_get busnumber in
           gl_set busnumber (mk_GL count (array (count + 1) gl_zero) (Some gl_dir_zero))
         else ret tt) in
    ret 0.

(** The part of [cacheCleanGL] that clears the tables; the driver's
    [init_func] runs after it. *)
Definition clean_tables (bus : Z) : prog world unit :=
  let* g := gl_get bus in
  do* for_each (range 1 g.(numberOfGl)) (fun i => gl_put bus i gl_zero) in
  match g.(gldir) with Some _ => set_dir bus gl_dir_zero | None => ret tt end.
End GL.
