(* ===== verification/LocoFacts.v ===== *)
(** Facts about srcp-gl.c: the well-formed states, look-up by address, the
    locks of locomotives as an instance of [LockTable], the queue without
    double entries, and speed arithmetic. *)

From S2P Require Import Prelude Ring World Messages Session Services Lock Loco.

Module GLFacts.
Import GL.

Ltac step H := rewrite (bind_some _ _ _ _ _ H).

(** * Well-formed states *)

Record dir_wf (number : Z) (d : gl_dir_t) : Prop := {
  dir_mfx : is_array MAXMFXGL d.(mfxdir);
  dir_nmra : is_array MAXNMRAGL d.(nmradir);
  dir_mm : is_array MAXMMGL d.(mmdir);
  dir_proto : is_array MAXSRCPGL d.(proto);
  dir_entries s e : slot_lookup d s = Some e -> 0 <= e <= number;
}.

Record group_wf (g : GL) : Prop := {
  group_number : 0 <= g.(numberOfGl) < 65535;
  group_state : forall i, 0 < i <= g.(numberOfGl) -> is_Some (g.(glstate) !! i);
  group_dir : forall d, g.(gldir) = Some d -> dir_wf g.(numberOfGl) d;
}.

Record gl_wf (w : world) : Prop := {
  glwf_sess : sess_ok w;
  glwf_groups : forall b g, w.(gl) !! b = Some g -> group_wf g;
  glwf_rings : forall b q, w.(gl_queue) !! b = Some q -> Ring.wf QUEUELEN q;
  glwf_gl : is_array MAX_BUSES w.(gl);
  glwf_queue : is_array MAX_BUSES w.(gl_queue);
  glwf_bus : is_array MAX_BUSES w.(buses);
}.

(** * Entries *)

Definition entry_at (w : world) (b i : Z) : option gl_data_t :=
  match w.(gl) !! b with
  | Some g => if (0 <? i) && (i <=? g.(numberOfGl)) then g.(glstate) !! i else None
  | None => None
  end.

Definition entry_upd (b i : Z) (d : gl_data_t) (w : world) : world :=
  match w.(gl) !! b with
  | Some g => w <| gl ::= <[b := g <| glstate ::= <[i := d]> |>]> |>
  | None => w
  end.

Lemma entry_at_inv w b i d : entry_at w b i = Some d ->
  exists g, w.(gl) !! b = Some g /\ g.(glstate) !! i = Some d /\ 0 < i <= g.(numberOfGl).
Proof.
  unfold entry_at. destruct (w.(gl) !! b) as [g |]; [| done]. intros H. exists g.
  destruct (_ && _) eqn:E; [| done]. bool_hyps. auto.
Qed.

Lemma gl_at_some w b i d : entry_at w b i = Some d -> gl_at b i w = Some (d, w).
Proof.
  intros H. destruct (entry_at_inv _ _ _ _ H) as (g & Hg & Hd & _).
  unfold gl_at, gl_get. run. rewrite Hg. cbn. by rewrite Hd.
Qed.

Lemma gl_put_some w b i d d' : entry_at w b i = Some d ->
  gl_put b i d' w = Some (tt, entry_upd b i d' w).
Proof.
  intros H. destruct (entry_at_inv _ _ _ _ H) as (g & Hg & Hd & _).
  unfold gl_put, gl_get, gl_set, entry_upd. run. rewrite Hg. cbn. by rewrite Hd.
Qed.

Lemma gl_mod_some w b i d f : entry_at w b i = Some d ->
  gl_mod b i f w = Some (tt, entry_upd b i (f d) w).
Proof. intros H. unfold gl_mod. step (gl_at_some _ _ _ _ H). by apply gl_put_some with d. Qed.

Lemma entry_at_upd w b i d d' : entry_at w b i = Some d ->
  entry_at (entry_upd b i d' w) b i = Some d'.
Proof.
  intros H. destruct (entry_at_inv _ _ _ _ H) as (g & Hg & Hd & Ha).
  unfold entry_at, entry_upd. rewrite Hg. cbn. rewrite lookup_insert_eq. cbn.
  rewrite lookup_insert_eq. zbool.
Qed.

Lemma entry_at_upd_ne w b i d' b' i' : (b, i) <> (b', i') ->
  entry_at (entry_upd b i d' w) b' i' = entry_at w b' i'.
Proof.
  intros H. unfold entry_at, entry_upd. destruct (w.(gl) !! b) as [g |] eqn:Hg; [| done]. cbn.
  destruct (decide (b = b')) as [<- |]; [| by rewrite lookup_insert_ne].
  rewrite lookup_insert_eq, Hg. cbn. destruct (_ && _); [| done].
  apply lookup_insert_ne. congruence.
Qed.

Lemma entry_upd_wf w b i d : gl_wf w -> gl_wf (entry_upd b i d w).
Proof.
  intros [Hs Hg Hr Ha Hq Hb]. unfold entry_upd.
  destruct (w.(gl) !! b) as [g |] eqn:E; [| done].
  destruct (Hg _ _ E) as [Hn Hst Hd]. split; cbn; try done.
  - intros b' g'. destruct (decide (b = b')) as [<- |].
    + rewrite lookup_insert_eq. intros [= <-]. split; cbn; [done | | done]. intros j Hj.
      destruct (decide (i = j)) as [<- |]; [rewrite lookup_insert_eq; eauto |].
      rewrite lookup_insert_ne by done. by apply Hst.
    + rewrite lookup_insert_ne by done. apply Hg.
  - apply is_array_insert; [done | exact (is_array_bound _ _ _ _ Ha E)].
Qed.

Lemma gl_wf_announce msg w : gl_wf w -> gl_wf (announce msg w).
Proof. intros []. split; try done. by apply announce_ok. Qed.

Lemma gl_wf_tick w : gl_wf w -> gl_wf (tick w).
Proof. by intros []. Qed.

(** * Look-up by address *)

(** The directory entry of an address as a function. *)
Definition index_of (protos : gmap Z Z) (locid prot : Z) : option dirslot :=
  let id := Z.land locid 0x3FFF in
  if id =? 0 then None
  else
    match Z.shiftr locid 14 with
    | 0 =>
        let short := if locid <? MAXSRCPGL then default 0 (protos !! locid) else 0 in
        if short =? ch "M" then Some (Mm id)
        else if short =? ch "N" then Some (Nmra id)
        else if short =? ch "X" then Some (Mfx id)
        else if negb (prot =? 0) && negb (prot =? ch "N") then None
        else nmra_slot id
    | 3 | 7 => nmra_slot id
    | 4 => mm_slot id
    | 1 => if negb (prot =? 0) && negb (prot =? ch "X") then None else mfx_slot id
    | 5 => mfx_slot id
    | _ => None
    end.

Lemma gl_index_spec protos locid prot w :
  is_array MAXSRCPGL protos -> 0 <= locid ->
  gl_index protos locid prot w = Some (index_of protos locid prot, w).
Proof.
  intros Hp Hl. unfold gl_index, index_of. destruct (Z.land locid 0x3FFF =? 0); [done |].
  destruct (Z.shiftr locid 14) as [| n | n] eqn:E; [| | done].
  - destruct (Z.ltb_spec locid MAXSRCPGL) as [Hlt | Hge].
    + destruct (is_array_lookup _ _ locid Hp) as [p Ep]; [lia |]. rewrite Ep.
      cbn [need default]. unfold bind, ret. cbn. by repeat case_match.
    + unfold bind, ret. cbn. by destruct (_ && _).
  - destruct n as [[[] | [] |] | [[] | [] |] |]; cbn; try done; by destruct (_ && _).
Qed.

Lemma shiftr14_mask locid : Z.shiftr locid 14 = 0 -> 0 <= locid -> Z.land locid 0x3FFF = locid.
Proof.
  intros H H0. change 0x3FFF with (Z.ones 14). rewrite Z.land_ones by lia.
  rewrite Z.shiftr_div_pow2 in H by lia. apply Z.mod_small. split; [done |].
  apply Z.div_small_iff in H; lia.
Qed.

Lemma land_mask_range locid : 0 <= Z.land locid 0x3FFF < 0x4000.
Proof. change 0x3FFF with (Z.ones 14). rewrite Z.land_ones by lia. apply Z.mod_pos_bound. lia. Qed.

(** A slot the look-up returns is a cell of its directory. *)
Definition slot_in_range (s : dirslot) : Prop :=
  match s with
  | Mfx id => 0 <= id < MAXMFXGL
  | Nmra id => 0 <= id < MAXNMRAGL
  | Mm id => 0 <= id < MAXMMGL
  end.

Lemma index_of_range protos locid prot s :
  0 <= locid -> index_of protos locid prot = Some s -> slot_in_range s.
Proof.
  intros Hl. pose proof (land_mask_range locid) as Hm. unfold index_of.
  destruct (Z.land locid 0x3FFF =? 0); [done |].
  assert (Hnmra : nmra_slot (Z.land locid 0x3FFF) = Some s -> slot_in_range s).
  { unfold nmra_slot. destruct (Z.ltb_spec (Z.land locid 0x3FFF) MAXNMRAGL); [| done].
    intros [= <-]. cbn. lia. }
  assert (Hmm : mm_slot (Z.land locid 0x3FFF) = Some s -> slot_in_range s).
  { unfold mm_slot. destruct (Z.ltb_spec (Z.land locid 0x3FFF) MAXMMGL); [| done].
    intros [= <-]. cbn. lia. }
  assert (Hmfx : mfx_slot (Z.land locid 0x3FFF) = Some s -> slot_in_range s).
  { unfold mfx_slot. destruct (Z.ltb_spec (Z.land locid 0x3FFF) MAXMFXGL); [| done].
    intros [= <-]. cbn. lia. }
  destruct (Z.shiftr locid 14) as [| n | n] eqn:E; [| | done].
  - pose proof (shiftr14_mask _ E Hl) as Em.
    destruct (Z.ltb_spec locid MAXSRCPGL) as [Hlt | Hge].
    + assert (locid < 256) by exact Hlt. rewrite Em in *.
      unfold MAXMFXGL, MAXNMRAGL, MAXMMGL in *.
      destruct (_ =? ch "M"); [intros [= <-]; cbn; unfold MAXMMGL; lia |].
      destruct (_ =? ch "N"); [intros [= <-]; cbn; unfold MAXNMRAGL; lia |].
      destruct (_ =? ch "X"); [intros [= <-]; cbn; unfold MAXMFXGL; lia |].
      by destruct (_ && _).
    + cbn. by destruct (_ && _).
  - destruct n as [[[] | [] |] | [[] | [] |] |]; cbn -[Z.land]; try done; by destruct (_ && _).
Qed.

(** ** The entry an address leads to *)

Definition entry_of (w : world) (b locid : Z) : Z :=
  if b <=? w.(num_buses) then
    match w.(gl) !! b with
    | Some g =>
        match g.(gldir) with
        | Some d =>
            match index_of d.(proto) locid 0 with
            | Some s => default 0 (slot_lookup d s)
            | None => 0
            end
        | None => 0
        end
    | None => 0
    end
  else 0.

Lemma slot_lookup_some number d s : dir_wf number d -> slot_in_range s ->
  exists e, slot_lookup d s = Some e.
Proof. intros [? ? ? ? _] Hs. destruct s; by eapply is_array_lookup. Qed.

Lemma find_entry_spec w b locid :
  gl_wf w -> 0 <= b < MAX_BUSES -> 0 <= locid ->
  find_entry b locid w = Some (entry_of w b locid, w).
Proof.
  intros Hw Hb Hl. destruct (is_array_lookup _ _ b (glwf_gl _ Hw) Hb) as [g Hg].
  pose proof (glwf_groups _ Hw _ _ Hg) as Hgw.
  unfold find_entry, getGLIndex, entry_of. unfold gets, bind at 1 2.
  destruct (b <=? num_buses w); [| done]. rewrite Hg. unfold gl_get, bind at 1. rewrite Hg.
  cbn [need]. unfold ret at 1. destruct (gldir g) as [d |] eqn:Hd; [| done].
  rewrite andb_false_r. unfold ret at 1, bind at 1. unfold the_dir, gl_get.
  unfold bind at 1 2. rewrite Hg. cbn [need]. unfold ret at 1. rewrite Hd. cbn [need].
  unfold ret at 1. rewrite (gl_index_spec _ _ _ _ (dir_proto _ _ (group_dir _ Hgw _ Hd)) Hl).
  destruct (index_of (proto d) locid 0) as [s |] eqn:Es; [| done].
  destruct (slot_lookup_some _ _ s (group_dir _ Hgw _ Hd)) as [e He].
  { eapply index_of_range; eauto. }
  unfold slot_get, the_dir, gl_get. unfold bind. rewrite Hg. cbn. rewrite Hd. cbn.
  by rewrite He.
Qed.

Lemma entry_of_range w b locid :
  gl_wf w -> entry_of w b locid <> 0 -> exists d, entry_at w b (entry_of w b locid) = Some d.
Proof.
  intros Hw. unfold entry_of, entry_at. destruct (_ <=? _); [| done].
  destruct (gl w !! b) as [g |] eqn:Hg; [| done].
  pose proof (glwf_groups _ Hw _ _ Hg) as Hgw.
  destruct (gldir g) as [d |] eqn:Hd; [| done].
  destruct (index_of _ _ _) as [s |] eqn:Es; [| done].
  destruct (slot_lookup d s) as [e |] eqn:He; cbn; [| done]. intros Hne.
  pose proof (dir_entries _ _ (group_dir _ Hgw _ Hd) _ _ He) as Hr.
  destruct (group_state _ Hgw e) as [x Hx]; [lia |]. exists x. rewrite Hx. zbool.
Qed.

Lemma entry_of_upd w b i d b' locid :
  entry_of (entry_upd b i d w) b' locid = entry_of w b' locid.
Proof.
  unfold entry_of, entry_upd. destruct (gl w !! b) as [g |] eqn:Hg; [| done]. cbn.
  destruct (_ <=? _); [| done].
  destruct (decide (b = b')) as [<- |]; [by rewrite lookup_insert_eq, Hg |].
  by rewrite lookup_insert_ne.
Qed.

(** * Locks *)

(** The device an address names: an entry in use. *)
Definition loco (w : world) (k : Z * Z) : option (Z * Z) :=
  match entry_at w k.1 (entry_of w k.1 k.2) with
  | Some d => if decide (d.(gl_state) = glsNone) then None else Some (k.1, entry_of w k.1 k.2)
  | None => None
  end.
Definition loco_holder (w : world) (s : Z * Z) : Z :=
  match entry_at w s.1 s.2 with Some d => d.(gl_locked_by) | None => 0 end.

(** How the look-up of [cacheLockGL] and [cacheUnlockGL] ends. *)
Lemma loco_cases w b locid : gl_wf w ->
  (loco w (b, locid) = None /\
    (entry_of w b locid = 0 \/
     exists d, entry_of w b locid <> 0 /\ entry_at w b (entry_of w b locid) = Some d /\
       d.(gl_state) = glsNone)) \/
  (exists d, loco w (b, locid) = Some (b, entry_of w b locid) /\ entry_of w b locid <> 0 /\
     entry_at w b (entry_of w b locid) = Some d /\ d.(gl_state) <> glsNone).
Proof.
  intros Hw. unfold loco. cbn. destruct (decide (entry_of w b locid = 0)) as [E | E].
  - left. split; [| by left]. rewrite E. unfold entry_at. by destruct (gl w !! b).
  - destruct (entry_of_range _ _ _ Hw E) as [d Hd]. rewrite Hd.
    destruct (decide (gl_state d = glsNone)); [left; split; [done | right; eauto] | right; eauto].
Qed.

Definition lock_line (b locid duration sid : Z) (t : timeval) : string :=
  fmt [stamp t; " 100 INFO "; dec b; " LOCK GL "; dec locid; " "; dec duration; " "; dec sid; nl].
Definition unlock_line (b locid sid : Z) (t : timeval) : string :=
  fmt [stamp t; " 102 INFO "; dec b; " LOCK GL "; dec locid; " "; dec sid; nl].

Definition locked (sid duration : Z) (t : timeval) (d : gl_data_t) : gl_data_t :=
  d <| gl_locked_by := sid |> <| gl_lockduration := duration |> <| gl_locktime := t |>.
Definition unlocked (t : timeval) (d : gl_data_t) : gl_data_t :=
  d <| gl_locked_by := 0 |> <| gl_locktime := t |>.

Lemma may_lock (h sid : Z) : h = sid \/ h = 0 -> (h =? sid) || (h =? 0) = true.
Proof. intros [-> | ->]; rewrite Z.eqb_refl; by rewrite ?orb_true_r. Qed.

Section Lock.
Context (w : world) (b locid : Z) (Hw : gl_wf w) (Hb : 0 <= b < MAX_BUSES) (Hl : 0 <= locid).
Let e := entry_of w b locid.

Lemma cacheLockGL_none duration sid : loco w (b, locid) = None ->
  cacheLockGL b locid duration sid w = Some (SRCP_WRONGVALUE, w).
Proof.
  intros Hn. unfold cacheLockGL. step (find_entry_spec _ _ _ Hw Hb Hl).
  destruct (loco_cases w b locid Hw) as [[_ [E | (d & E & Hd & Hs)]] | (d & H & _)]; [| | congruence].
  - by rewrite E.
  - apply Z.eqb_neq in E. rewrite E. step (gl_at_some _ _ _ _ Hd). by rewrite decide_True.
Qed.

Lemma cacheUnlockGL_none sid : loco w (b, locid) = None ->
  cacheUnlockGL b locid sid w = Some (SRCP_WRONGVALUE, w).
Proof.
  intros Hn. unfold cacheUnlockGL. step (find_entry_spec _ _ _ Hw Hb Hl).
  destruct (loco_cases w b locid Hw) as [[_ [E | (d & E & Hd & Hs)]] | (d & H & _)]; [| | congruence].
  - by rewrite E.
  - apply Z.eqb_neq in E. rewrite E. step (gl_at_some _ _ _ _ Hd). by rewrite decide_True.
Qed.

Context (d : gl_data_t) (He : e <> 0) (Hd : entry_at w b e = Some d)
  (Hs : d.(gl_state) <> glsNone).

Lemma cacheLockGL_refused duration sid : d.(gl_locked_by) <> sid -> d.(gl_locked_by) <> 0 ->
  cacheLockGL b locid duration sid w = Some (SRCP_DEVICELOCKED, w).
Proof.
  intros H1 H2. unfold cacheLockGL. step (find_entry_spec _ _ _ Hw Hb Hl). fold e.
  apply Z.eqb_neq in He. rewrite He. step (gl_at_some _ _ _ _ Hd). rewrite decide_False by done.
  apply Z.eqb_neq in H1, H2. by rewrite H1, H2.
Qed.

Lemma cacheUnlockGL_refused sid : d.(gl_locked_by) <> sid -> d.(gl_locked_by) <> 0 ->
  cacheUnlockGL b locid sid w = Some (SRCP_DEVICELOCKED, w).
Proof.
  intros H1 H2. unfold cacheUnlockGL. step (find_entry_spec _ _ _ Hw Hb Hl). fold e.
  apply Z.eqb_neq in He. rewrite He. step (gl_at_some _ _ _ _ Hd). rewrite decide_False by done.
  apply Z.eqb_neq in H1, H2. by rewrite H1, H2.
Qed.

Lemma cacheLockGL_granted duration sid : d.(gl_locked_by) = sid \/ d.(gl_locked_by) = 0 ->
  cacheLockGL b locid duration sid w = Some (SRCP_OK,
    announce (lock_line b locid duration sid (now w))
      (entry_upd b e (locked sid duration (now w) d) (tick w))).
Proof.
  intros H. unfold cacheLockGL. step (find_entry_spec _ _ _ Hw Hb Hl). fold e.
  pose proof He as He'. apply Z.eqb_neq in He'. rewrite He'. step (gl_at_some _ _ _ _ Hd).
  rewrite decide_False by done. rewrite (may_lock _ _ H). step (gettimeofday_spec w).
  assert (Hd' : entry_at (tick w) b e = Some d) by done.
  step (gl_mod_some _ _ _ _ (locked sid duration (now w)) Hd').
  set (w2 := entry_upd b e (locked sid duration (now w) d) (tick w)).
  assert (Hw2 : gl_wf w2) by (by apply entry_upd_wf, gl_wf_tick).
  assert (E2 : entry_of w2 b locid = e) by (unfold w2; by rewrite entry_of_upd).
  assert (Hd2 : entry_at w2 b e = Some (locked sid duration (now w) d))
    by (by eapply entry_at_upd).
  unfold describeLOCKGL. unfold bind at 1. step (find_entry_spec _ _ _ Hw2 Hb Hl).
  rewrite E2, He'. step (gl_at_some _ _ _ _ Hd2). rewrite decide_False by done. unfold ret at 1.
  by step (enqueueInfoMessage_spec (lock_line b locid duration sid (now w)) w2 (glwf_sess _ Hw2)).
Qed.

Lemma cacheUnlockGL_granted sid : d.(gl_locked_by) = sid \/ d.(gl_locked_by) = 0 ->
  cacheUnlockGL b locid sid w = Some (SRCP_OK,
    announce (unlock_line b locid sid (now w)) (entry_upd b e (unlocked (now w) d) (tick w))).
Proof.
  intros H. unfold cacheUnlockGL. step (find_entry_spec _ _ _ Hw Hb Hl). fold e.
  pose proof He as He'. apply Z.eqb_neq in He'. rewrite He'. step (gl_at_some _ _ _ _ Hd).
  rewrite decide_False by done. rewrite (may_lock _ _ H). step (gettimeofday_spec w).
  assert (Hd' : entry_at (tick w) b e = Some d) by done.
  step (gl_mod_some _ _ _ _ (unlocked (now w)) Hd').
  by step (enqueueInfoMessage_spec (unlock_line b locid sid (now w)) _
    (glwf_sess _ (entry_upd_wf _ b e (unlocked (now w) d) (gl_wf_tick _ Hw)))).
Qed.
End Lock.

Lemma loco_upd w b i d d' k : entry_at w b i = Some d -> d'.(gl_state) = d.(gl_state) ->
  loco (entry_upd b i d' w) k = loco w k.
Proof.
  intros Hd Hs. unfold loco. rewrite entry_of_upd. destruct k as [b' l]. cbn.
  destruct (decide ((b, i) = (b', entry_of w b' l))) as [[= <- E] | Hne].
  - rewrite <- E, Hd, (entry_at_upd _ _ _ _ _ Hd). by rewrite Hs.
  - by rewrite entry_at_upd_ne.
Qed.

Lemma loco_holder_upd w b i d d' s : entry_at w b i = Some d ->
  loco_holder (entry_upd b i d' w) s =
    if decide (s = (b, i)) then d'.(gl_locked_by) else loco_holder w s.
Proof.
  intros Hd. unfold loco_holder. destruct s as [b' i']. cbn.
  destruct (decide (_ = _)) as [[= -> ->] | Hne].
  - by rewrite (entry_at_upd _ _ _ _ _ Hd).
  - rewrite entry_at_upd_ne; congruence.
Qed.

(** The addresses the lock operations accept. *)
Definition loco_key (w : world) (k : Z * Z) : Prop := 0 <= k.1 < MAX_BUSES /\ 0 <= k.2.

Lemma loco_table_step (op : prog world Z) w b locid sid new
    (f : timeval -> gl_data_t -> gl_data_t) line :
  gl_wf w -> loco_key w (b, locid) ->
  (forall t d, (f t d).(gl_locked_by) = new /\ (f t d).(gl_state) = d.(gl_state)) ->
  (loco w (b, locid) = None -> op w = Some (SRCP_WRONGVALUE, w)) ->
  (forall d, entry_of w b locid <> 0 -> entry_at w b (entry_of w b locid) = Some d ->
    d.(gl_state) <> glsNone ->
    (d.(gl_locked_by) = sid \/ d.(gl_locked_by) = 0 ->
      op w = Some (SRCP_OK, announce line (entry_upd b (entry_of w b locid) (f (now w) d) (tick w)))) /\
    (d.(gl_locked_by) <> sid -> d.(gl_locked_by) <> 0 -> op w = Some (SRCP_DEVICELOCKED, w))) ->
  let r := set_holder (loco w (b, locid)) (loco_holder w) sid new in
  exists w', op w = Some (r.1, w') /\ (forall s, loco_holder w' s = r.2 s) /\ gl_wf w' /\
    (forall k, (loco_key w k -> loco_key w' k) /\ loco w' k = loco w k).
Proof.
  intros Hw Hk Hf Hn Hg. cbv zeta.
  destruct (loco_cases w b locid Hw) as [[E _] | (d & E & He & Hd & Hs)]; rewrite E; cbn.
  { exists w. auto. }
  assert (Eh : loco_holder w (b, entry_of w b locid) = d.(gl_locked_by))
    by (unfold loco_holder; cbn; by rewrite Hd).
  rewrite Eh. destruct (Hg d He Hd Hs) as [H1 H2].
  destruct (decide (d.(gl_locked_by) = sid \/ d.(gl_locked_by) = 0)) as [H | H].
  - rewrite (H1 H), (may_lock _ _ H). eexists. split; [done |]. cbn.
    destruct (Hf (now w) d) as [F1 F2]. split; [| split].
    + intros s. change (loco_holder (entry_upd b (entry_of w b locid) (f (now w) d) (tick w)) s =
        if decide (s = (b, entry_of w b locid)) then new else loco_holder w s).
      by rewrite (loco_holder_upd (tick w) _ _ d), F1.
    + by apply gl_wf_announce, entry_upd_wf, gl_wf_tick.
    + intros k. split; [done |].
      change (loco (entry_upd b (entry_of w b locid) (f (now w) d) (tick w)) k = loco (tick w) k).
      by eapply loco_upd.
  - assert (E1 : (d.(gl_locked_by) =? sid) = false) by (apply Z.eqb_neq; tauto).
    assert (E2 : (d.(gl_locked_by) =? 0) = false) by (apply Z.eqb_neq; tauto).
    rewrite E1, E2, H2; [| tauto | tauto]. exists w. auto.
Qed.

#[export] Program Instance gl_lock_table : LockTable (Z * Z) (Z * Z) := {
  lt_ok := gl_wf;
  lt_key := loco_key;
  lt_slot := loco;
  lt_holder := loco_holder;
  lt_lock k duration sid := cacheLockGL k.1 k.2 duration sid;
  lt_unlock k sid := cacheUnlockGL k.1 k.2 sid;
}.
Next Obligation.
  intros w [b l] duration sid Hw [Hb Hl]. cbn in Hb, Hl.
  apply (loco_table_step _ w b l sid sid (locked sid duration) (lock_line b l duration sid (now w)));
    try done; cbn; [by apply cacheLockGL_none |]. intros d He Hd Hs.
  split; [by apply cacheLockGL_granted | by eapply cacheLockGL_refused].
Qed.
Next Obligation.
  intros w [b l] sid Hw [Hb Hl]. cbn in Hb, Hl.
  apply (loco_table_step _ w b l sid 0 unlocked (unlock_line b l sid (now w)));
    try done; cbn; [by apply cacheUnlockGL_none |]. intros d He Hd Hs.
  split; [by apply cacheUnlockGL_granted | by eapply cacheUnlockGL_refused].
Qed.

(** * The queue *)

(** The entries that wait for the driver of a bus, first come first. *)
Definition waiting (w : world) (b : Z) : list Z :=
  match w.(gl_queue) !! b with Some q => Ring.contents QUEUELEN q | None => [] end.

Definition cells (q : Ring.t Z) (j n : Z) : list Z :=
  omap (fun k => q.(Ring.queue) !! ((q.(Ring.out) + k) mod QUEUELEN)) (seqZ j n).

(** The scan from the [j]-th waiting entry answers whether [p] is among the
    entries from there on, when its fuel covers them. *)
Lemma queued_spec q p : Ring.wf QUEUELEN q ->
  forall fuel j, 0 <= j <= Ring.len QUEUELEN q ->
  (Z.to_nat (Ring.len QUEUELEN q - j) < fuel)%nat ->
  queued fuel q ((q.(Ring.out) + j) mod QUEUELEN) p =
    Some (existsb (Z.eqb p) (cells q j (Ring.len QUEUELEN q - j))).
Proof.
  intros Hq. pose proof (Ring.len_range _ _ Hq) as HL. pose proof (Ring.len_mod _ _ Hq) as HM.
  pose proof (Ring.wf_in _ _ Hq) as Hi. pose proof (Ring.wf_out _ _ Hq) as Ho.
  induction fuel as [| fuel IH]; intros j Hj Hf; [lia |].
  cbn [queued].
  assert (Hend : ((q.(Ring.out) + Ring.len QUEUELEN q) mod QUEUELEN) = q.(Ring.in_)).
  { rewrite HM, Zplus_mod_idemp_r.
    replace (q.(Ring.out) + (q.(Ring.in_) - q.(Ring.out))) with q.(Ring.in_) by lia.
    by apply Z.mod_small. }
  destruct (decide (j = Ring.len QUEUELEN q)) as [-> | Hne].
  - rewrite Hend, Z.eqb_refl, Z.sub_diag. done.
  - assert (Hn : ((q.(Ring.out) + j) mod QUEUELEN =? q.(Ring.in_)) = false).
    { apply Z.eqb_neq. intros E. unfold Ring.len in *. revert E Hj Hne. unfold QUEUELEN in *.
      destruct (Z.leb_spec q.(Ring.out) q.(Ring.in_)); intros E Hj Hne;
        [| destruct (Z.ltb_spec (q.(Ring.out) + j) 200)];
        [rewrite Z.mod_small in E; lia | rewrite Z.mod_small in E; lia |].
      replace (q.(Ring.out) + j) with ((q.(Ring.out) + j - 200) + 1 * 200) in E by lia.
      rewrite Z.mod_add, Z.mod_small in E; lia. }
    rewrite Hn. unfold cells. rewrite seqZ_cons by lia. cbn [omap list_omap].
    destruct (Ring.wf_cell _ _ (q.(Ring.out) + j) Hq) as [x Hx]. rewrite Hx.
    cbn [existsb]. rewrite (Z.eqb_sym p x). destruct (x =? p) eqn:Ex; [done |].
    rewrite Ring.next_mod by (apply Z.mod_pos_bound; done).
    rewrite Zplus_mod_idemp_l. replace (q.(Ring.out) + j + 1) with (q.(Ring.out) + (j + 1)) by lia.
    rewrite IH by lia. cbn [orb]. unfold cells. f_equal. f_equal. f_equal. f_equal; lia.
Qed.

Lemma queued_contents q p : Ring.wf QUEUELEN q ->
  queued scan_fuel q q.(Ring.out) p = Some (existsb (Z.eqb p) (Ring.contents QUEUELEN q)).
Proof.
  intros Hq. pose proof (Ring.len_range _ _ Hq) as HL. pose proof (Ring.wf_out _ _ Hq) as Ho.
  pose proof (queued_spec q p Hq scan_fuel 0) as H.
  rewrite Z.add_0_r, Z.sub_0_r, Z.mod_small in H by done. apply H; [lia |].
  unfold scan_fuel. unfold QUEUELEN in *. lia.
Qed.

Lemma gl_queue_get_some w b q : w.(gl_queue) !! b = Some q -> queue_get b w = Some (q, w).
Proof. intros H. unfold queue_get, need. by rewrite H. Qed.

(** Replacing the queue of a bus and waking its thread. *)
Definition requeued (b : Z) (q : Ring.t Z) (w : world) : world :=
  w <| gl_queue ::= <[b := q]> |> <| woken ::= fun l => l ++ [b] |>.

Lemma requeued_wf b q w : gl_wf w -> 0 <= b < MAX_BUSES -> Ring.wf QUEUELEN q ->
  gl_wf (requeued b q w).
Proof.
  intros [W1 W2 W3 W4 W5 W6] Hb Hq. split; cbn; try done; [| by apply is_array_insert].
  intros b' q0. destruct (decide (b = b')) as [<- |].
  - rewrite lookup_insert_eq. by intros [= <-].
  - rewrite lookup_insert_ne by done. apply W3.
Qed.

Lemma enqueue_once_spec w b p :
  gl_wf w -> 0 <= b < MAX_BUSES ->
  exists w', enqueue_once b p w = Some (tt, w') /\ gl_wf w' /\ w'.(gl) = w.(gl) /\
    w'.(buses) = w.(buses) /\ w'.(num_buses) = w.(num_buses) /\ w'.(sess) = w.(sess) /\
    w'.(mcs) = w.(mcs) /\
    waiting w' b =
      (if QUEUELEN - 1 <=? Z.of_nat (length (waiting w b)) then waiting w b
       else if existsb (Z.eqb p) (waiting w b) then waiting w b else waiting w b ++ [p]).
Proof.
  intros Hw Hb. destruct (is_array_lookup _ _ b (glwf_queue _ Hw) Hb) as [q Hq].
  destruct (is_array_lookup _ _ b (glwf_bus _ Hw) Hb) as [bd Hbd].
  pose proof (glwf_rings _ Hw _ _ Hq) as Hr.
  assert (Ew : waiting w b = Ring.contents QUEUELEN q) by (unfold waiting; by rewrite Hq).
  unfold enqueue_once, queue_isfull. unfold bind at 1. step (gl_queue_get_some _ _ _ Hq).
  unfold ret at 1. rewrite Ew, (Ring.contents_length _ _ Hr). unfold Ring.isfull at 1.
  destruct (QUEUELEN - 1 <=? Ring.len QUEUELEN q) eqn:Hf.
  { exists w. do 7 (split; [done |]). exact Ew. }
  step (gl_queue_get_some _ _ _ Hq). rewrite (queued_contents _ p Hr).
  cbn [need]. unfold ret at 1, bind at 1.
  destruct (existsb (Z.eqb p) (Ring.contents QUEUELEN q)) eqn:Hd.
  - unfold ret at 1, bind at 1. rewrite (resume_spec _ _ _ Hbd). eexists. split; [done |].
    split; [by destruct Hw |]. do 5 (split; [done |]). exact Ew.
  - destruct (Ring.put_spec _ q p Hr Hf) as (q' & Eq & Hr' & Hc). rewrite Eq.
    unfold bind at 1 2. cbn [need]. unfold ret at 1, queue_set, modify.
    rewrite (resume_spec b bd) by done. eexists. split; [done |].
    split; [by apply (requeued_wf b q' w) |]. do 5 (split; [done |]).
    unfold waiting. cbn. by rewrite lookup_insert_eq.
Qed.

(** A wait list has no entry twice. *)
Lemma enqueue_once_nodup w b p w' :
  gl_wf w -> 0 <= b < MAX_BUSES -> enqueue_once b p w = Some (tt, w') ->
  NoDup (waiting w b) -> NoDup (waiting w' b).
Proof.
  intros Hw Hb E Hn. destruct (enqueue_once_spec w b p Hw Hb) as (w1 & E1 & _ & _ & _ & _ & _ & _ & Hq).
  rewrite E in E1. injection E1 as <-. rewrite Hq. destruct (_ <=? _); [done |].
  destruct (existsb _ _) eqn:Hd; [done |]. apply NoDup_app. split; [done |].
  split; [| apply NoDup_singleton]. intros x Hx ->%list_elem_of_singleton.
  apply not_true_iff_false in Hd. apply Hd. apply existsb_exists. exists p.
  split; [by apply list_elem_of_In | apply Z.eqb_refl].
Qed.

(** * The default initialisation inside [gl_enqueue] *)

Lemma index_of_P protos locid :
  0 <= locid < 0x4000 -> (locid < MAXSRCPGL -> protos !! locid = Some (ch "P")) ->
  index_of protos locid (ch "P") = None.
Proof.
  intros Hl Hp. unfold index_of. destruct (Z.land locid 0x3FFF =? 0); [done |].
  replace (Z.shiftr locid 14) with 0.
  - destruct (Z.ltb_spec locid MAXSRCPGL) as [H | H]; [by rewrite Hp | done].
  - rewrite Z.shiftr_div_pow2, Z.div_small by lia. done.
Qed.

Definition dir_upd (b : Z) (d : gl_dir_t) (w : world) : world :=
  match w.(gl) !! b with
  | Some g => w <| gl ::= <[b := g <| gldir := Some d |>]> |>
  | None => w
  end.

Definition dir_at (w : world) (b : Z) : option gl_dir_t :=
  match w.(gl) !! b with Some g => g.(gldir) | None => None end.

Lemma dir_at_inv w b d : dir_at w b = Some d ->
  exists g, w.(gl) !! b = Some g /\ g.(gldir) = Some d.
Proof. unfold dir_at. destruct (gl w !! b) as [g |]; [eauto | done]. Qed.

Lemma the_dir_some w b d : dir_at w b = Some d -> the_dir b w = Some (d, w).
Proof.
  intros H. destruct (dir_at_inv _ _ _ H) as (g & Hg & Hd).
  unfold the_dir, gl_get, bind. rewrite Hg. cbn. by rewrite Hd.
Qed.

Lemma set_dir_some w b d d' : dir_at w b = Some d -> set_dir b d' w = Some (tt, dir_upd b d' w).
Proof.
  intros H. destruct (dir_at_inv _ _ _ H) as (g & Hg & Hd).
  unfold set_dir, gl_get, gl_set, dir_upd, bind. by rewrite Hg.
Qed.

Lemma dir_at_upd w b d d' : dir_at w b = Some d -> dir_at (dir_upd b d' w) b = Some d'.
Proof.
  intros H. destruct (dir_at_inv _ _ _ H) as (g & Hg & Hd).
  unfold dir_at, dir_upd. rewrite Hg. cbn. by rewrite lookup_insert_eq.
Qed.

(** The protocol a short address is registered for. *)
Definition register (locid prot : Z) (d : gl_dir_t) : gl_dir_t :=
  if (locid <? MAXSRCPGL) && negb (prot =? 0) then d <| proto ::= <[locid := prot]> |> else d.

Lemma getGLIndex_spec w b locid prot d :
  gl_wf w -> b <= w.(num_buses) -> dir_at w b = Some d -> 0 <= locid ->
  getGLIndex b locid prot w = Some (index_of (register locid prot d).(proto) locid prot,
    if (locid <? MAXSRCPGL) && negb (prot =? 0) then dir_upd b (register locid prot d) w else w).
Proof.
  intros Hw Hb Hd Hl. destruct (dir_at_inv _ _ _ Hd) as (g & Hg & Hgd).
  pose proof (dir_proto _ _ (group_dir _ (glwf_groups _ Hw _ _ Hg) _ Hgd)) as Hp.
  apply Z.leb_le in Hb. unfold getGLIndex, gets, bind at 1. rewrite Hb.
  unfold gl_get, bind at 1. rewrite Hg. cbn [need]. unfold ret at 1. rewrite Hgd.
  unfold register. destruct ((locid <? MAXSRCPGL) && negb (prot =? 0)) eqn:E.
  - unfold bind at 1. step (the_dir_some _ _ _ Hd).
    rewrite (set_dir_some _ _ _ (d <| proto ::= <[locid := prot]> |>) Hd).
    step (the_dir_some _ _ _ (dir_at_upd _ _ _ (d <| proto ::= <[locid := prot]> |>) Hd)).
    bool_hyps. apply gl_index_spec; [by apply is_array_insert | done].
  - unfold ret at 1, bind at 1. step (the_dir_some _ _ _ Hd). by apply gl_index_spec.
Qed.

(** The protocol ['P'] has no directory, so the initialisation is refused
    before it could call [gl_enqueue] again. *)
Lemma cacheInit_P w b locid :
  gl_wf w -> 0 <= b < MAX_BUSES -> 0 <= locid < 0x4000 ->
  exists w1, forall enqueue,
    cacheInitGL_with enqueue b locid (ch "P") 1 14 1 None w = Some (SRCP_WRONGVALUE, w1).
Proof.
  intros Hw Hb Hl. destruct (is_array_lookup _ _ b (glwf_gl _ Hw) Hb) as [g Hg].
  unfold cacheInitGL_with. destruct (Z.leb_spec b w.(num_buses)) as [En | En].
  - destruct (gldir g) as [d |] eqn:Hd.
    + assert (Hdir : dir_at w b = Some d) by (unfold dir_at; by rewrite Hg).
      eexists. intros enqueue. unfold bind at 1.
      rewrite (getGLIndex_spec _ _ _ (ch "P") _ Hw En Hdir) by lia.
      rewrite index_of_P; [reflexivity | done |]. intros H. unfold register.
      apply Z.ltb_lt in H. rewrite H. cbn. apply lookup_insert_eq.
    + exists w. intros enqueue. unfold getGLIndex, gets, bind. apply Z.leb_le in En.
      rewrite En. unfold gl_get. rewrite Hg. cbn. by rewrite Hd.
  - exists w. intros enqueue. unfold getGLIndex, gets, bind. apply Z.leb_gt in En. by rewrite En.
Qed.

Lemma gl_enqueue_n_fuel n w b p d :
  gl_wf w -> 0 <= b < MAX_BUSES -> entry_at w b p = Some d -> 0 <= d.(gl_id) < 0x4000 ->
  gl_enqueue_n (S n) b p w = gl_enqueue b p w.
Proof.
  intros Hw Hb Hd Hid. unfold gl_enqueue. cbn [gl_enqueue_n].
  rewrite !(bind_some _ _ _ _ _ (gl_at_some _ _ _ _ Hd)).
  destruct (decide (gl_state d = glsNone)) as [Hs |]; [| done].
  destruct (cacheInit_P w b d.(gl_id) Hw Hb Hid) as [w1 H].
  assert (E : forall f g : Z -> Z -> prog world unit,
    (do* cacheInitGL_with f b d.(gl_id) (ch "P") 1 14 1 None in
     gl_mod b p (fun d => if decide (d.(gl_state) = glsInit)
                          then d <| gl_state := glsActive |> else d)) w =
    (do* cacheInitGL_with g b d.(gl_id) (ch "P") 1 14 1 None in
     gl_mod b p (fun d => if decide (d.(gl_state) = glsInit)
                          then d <| gl_state := glsActive |> else d)) w).
  { intros f g. unfold bind. by rewrite !H. }
  unfold bind at 1 3. by rewrite (E (gl_enqueue_n n) (gl_enqueue_n 0)).
Qed.

(** In use, an entry is queued as it is. *)
Lemma gl_enqueue_active w b p d :
  entry_at w b p = Some d -> d.(gl_state) <> glsNone ->
  gl_enqueue b p w = enqueue_once b p w.
Proof.
  intros Hd Hs. unfold gl_enqueue. cbn [gl_enqueue_n]. step (gl_at_some _ _ _ _ Hd).
  by rewrite decide_False.
Qed.

(** * Speed steps *)

(** [calcspeed] rounds [vs * n_fs / vmax] to the nearest step. *)
Lemma calcspeed_round vs vmax n_fs : 0 < vmax -> 0 <= n_fs ->
  calcspeed vs vmax n_fs =
    let v := Z.max 0 (Z.min vs vmax) in
    let rs := (2 * v * n_fs + vmax) / (2 * vmax) in
    if (rs =? 0) && negb (v =? 0) then 1 else rs.
Proof.
  intros Hv Hn. unfold calcspeed. destruct (Z.eqb_spec vmax 0); [lia |].
  assert (Ev : (let vs0 := if vs <? 0 then 0 else vs in if vmax <? vs0 then vmax else vs0) =
    Z.max 0 (Z.min vs vmax)) by (cbv zeta; destruct (Z.ltb_spec vs 0); zbool).
  cbv zeta in *. rewrite Ev. set (v := Z.max 0 (Z.min vs vmax)).
  assert (0 <= v) by (unfold v; lia).
  rewrite Z.shiftl_mul_pow2, Z.shiftr_div_pow2 by lia. change (2 ^ 1) with 2.
  rewrite Z.quot_div_nonneg by nia. rewrite Z.div_div by lia.
  replace (v * n_fs * 2 + vmax) with (2 * v * n_fs + vmax) by lia.
  by replace (vmax * 2) with (2 * vmax) by lia.
Qed.

Lemma calcspeed_bounds vs vmax n_fs : 0 < vmax -> 0 < n_fs ->
  0 <= calcspeed vs vmax n_fs <= n_fs /\
  (calcspeed vs vmax n_fs = 0 <-> vs <= 0) /\
  (vmax <= vs -> calcspeed vs vmax n_fs = n_fs).
Proof.
  intros Hv Hn. rewrite calcspeed_round by lia. cbv zeta.
  set (v := Z.max 0 (Z.min vs vmax)). assert (Hr : 0 <= v <= vmax) by (unfold v; lia).
  pose proof (Z.div_mod (2 * v * n_fs + vmax) (2 * vmax)) as D.
  pose proof (Z.mod_pos_bound (2 * v * n_fs + vmax) (2 * vmax)) as M.
  set (rs := (2 * v * n_fs + vmax) / (2 * vmax)) in *.
  assert (Hrs : 0 <= rs <= n_fs) by nia.
  assert (Hv0 : v = 0 -> rs = 0) by (intros ->; nia).
  assert (Hvm : v = vmax -> rs = n_fs) by (intros E; rewrite E in *; nia).
  destruct (Z.eqb_spec rs 0) as [E | E], (Z.eqb_spec v 0) as [F | F]; cbn [andb negb].
  all: split; [lia |]; split; [unfold v in *; lia |]; intros; unfold v in *; nia.
Qed.

Lemma calcspeed_mono vs1 vs2 vmax n_fs : 0 < vmax -> 0 < n_fs -> vs1 <= vs2 ->
  calcspeed vs1 vmax n_fs <= calcspeed vs2 vmax n_fs.
Proof.
  intros Hv Hn Hle. rewrite !calcspeed_round by lia. cbv zeta.
  set (v1 := Z.max 0 (Z.min vs1 vmax)). set (v2 := Z.max 0 (Z.min vs2 vmax)).
  assert (Hr : 0 <= v1 <= v2 /\ v2 <= vmax) by (unfold v1, v2; lia).
  assert (D : (2 * v1 * n_fs + vmax) / (2 * vmax) <= (2 * v2 * n_fs + vmax) / (2 * vmax))
    by (apply Z.div_le_mono; nia).
  assert (P : 0 <= (2 * v1 * n_fs + vmax) / (2 * vmax)) by (apply Z.div_pos; nia).
  destruct (Z.eqb_spec ((2 * v1 * n_fs + vmax) / (2 * vmax)) 0),
    (Z.eqb_spec ((2 * v2 * n_fs + vmax) / (2 * vmax)) 0),
    (Z.eqb_spec v1 0), (Z.eqb_spec v2 0); cbn [andb negb]; lia.
Qed.

(** The products of [calcspeed] stay within a C [int] for the vmax and the
    step counts in use. *)
Lemma calcspeed_fits vs vmax n_fs : 0 <= vs <= vmax -> vmax <= 2 ^ 22 -> 0 <= n_fs <= 255 ->
  0 <= 2 * (vs * n_fs) + vmax < 2 ^ 31.
Proof. nia. Qed.

Lemma permille_inverse s n : 0 <= s <= n -> 0 < n <= 255 ->
  calcspeed (Z.quot (s * 1000) n) 1000 n = s.
Proof.
  intros Hs Hn. rewrite Z.quot_div_nonneg by lia. rewrite calcspeed_round by lia. cbv zeta.
  pose proof (Z.div_mod (s * 1000) n) as D. pose proof (Z.mod_pos_bound (s * 1000) n) as M.
  set (v := s * 1000 / n) in *.
  assert (Hv : 0 <= v <= 1000) by nia.
  replace (Z.max 0 (Z.min v 1000)) with v by lia.
  assert (E : (2 * v * n + 1000) / (2 * 1000) = s).
  { symmetry. apply (Z.div_unique _ _ s (2 * v * n + 1000 - 2000 * s)); nia. }
  rewrite E. destruct (Z.eqb_spec s 0), (Z.eqb_spec v 0); cbn; nia.
Qed.

(** * Setting a locomotive *)

Lemma slot_get_some w b d s e : dir_at w b = Some d -> slot_lookup d s = Some e ->
  slot_get b s w = Some (e, w).
Proof. intros Hd Hs. unfold slot_get. step (the_dir_some _ _ _ Hd). by rewrite Hs. Qed.

(** Where a non-zero entry comes from. *)
Lemma entry_of_inv w b locid : entry_of w b locid <> 0 ->
  exists d s, b <= w.(num_buses) /\ dir_at w b = Some d /\
    index_of d.(proto) locid 0 = Some s /\ slot_lookup d s = Some (entry_of w b locid).
Proof.
  unfold entry_of, dir_at. destruct (Z.leb_spec b (num_buses w)); [| done].
  destruct (gl w !! b) as [g |]; [| done]. destruct (gldir g) as [d |]; [| done].
  destruct (index_of _ _ _) as [s |] eqn:Es; [| done]. intros Hn. exists d, s.
  destruct (slot_lookup d s) as [e |]; [auto | done].
Qed.

Lemma get_gldata_ptr_some w b locid d :
  gl_wf w -> 0 <= locid -> entry_of w b locid <> 0 ->
  entry_at w b (entry_of w b locid) = Some d -> d.(gl_state) <> glsNone ->
  get_gldata_ptr b locid w = Some (Some (entry_of w b locid), w).
Proof.
  intros Hw Hl He Hd Hs. destruct (entry_of_inv _ _ _ He) as (dir & s & Hb & Hdir & Hi & Hlk).
  unfold get_gldata_ptr. unfold bind at 1. rewrite (getGLIndex_spec _ _ _ 0 _ Hw Hb Hdir Hl).
  unfold register. rewrite andb_false_r, Hi. step (slot_get_some _ _ _ _ _ Hdir Hlk).
  pose proof He as He'. apply Z.eqb_neq in He'. rewrite He'. unfold ret at 1, bind at 1.
  step (slot_get_some _ _ _ _ _ Hdir Hlk). rewrite He'. step (gl_at_some _ _ _ _ Hd).
  by rewrite decide_False.
Qed.

(** What [enqueueGL] makes of an entry: the direction, the speed step, the
    functions, the flags that tell the driver what changed, and, on a first
    command, the state. *)
Definition with_dir (dir : Z) (d : gl_data_t) : gl_data_t :=
  if d.(gl_direction) =? dir then d
  else let d := d <| gl_direction := i8 dir |> <| gl_speedchange ::= Z.lor SCDIREC |> in
       if dir =? 2 then d <| gl_speedchange ::= Z.lor SCEMERG |> else d.
Definition with_speed (speed maxspeed : Z) (d : gl_data_t) : gl_data_t :=
  let s := u8 (calcspeed speed maxspeed d.(gl_n_fs)) in
  let d' := d <| gl_speed := s |> in
  if s =? d.(gl_speed) then d' else d' <| gl_speedchange ::= Z.lor SCSPEED |>.
Definition with_funcs (f : Z) (d : gl_data_t) : gl_data_t :=
  d <| gl_funcs := u32 f |>
    <| gl_funcschange ::= Z.lor (u32 (Z.lxor d.(gl_funcs) (u32 f))) |>.
Definition activated (d : gl_data_t) : gl_data_t :=
  if decide (d.(gl_state) = glsInit)
  then d <| gl_cacheddirection := d.(gl_direction) |> <| gl_state := glsActive |> else d.
Definition commanded (dir speed maxspeed f : Z) (d : gl_data_t) : gl_data_t :=
  activated (with_funcs f (with_speed speed maxspeed (with_dir dir d))).

Lemma with_dir_state dir d : (with_dir dir d).(gl_state) = d.(gl_state) /\
  (with_dir dir d).(gl_n_fs) = d.(gl_n_fs).
Proof. unfold with_dir. cbv zeta. by destruct (gl_direction d =? dir), (dir =? 2). Qed.

Lemma with_speed_state s m d : (with_speed s m d).(gl_state) = d.(gl_state) /\
  (with_speed s m d).(gl_n_fs) = d.(gl_n_fs).
Proof. unfold with_speed. cbv zeta. by destruct (_ =? gl_speed d). Qed.

Lemma commanded_state dir speed maxspeed f d : d.(gl_state) <> glsNone ->
  (commanded dir speed maxspeed f d).(gl_state) <> glsNone /\
  (commanded dir speed maxspeed f d).(gl_n_fs) = d.(gl_n_fs).
Proof.
  intros Hs. unfold commanded, activated.
  destruct (with_dir_state dir d) as [S1 N1].
  destruct (with_speed_state speed maxspeed (with_dir dir d)) as [S2 N2].
  case_decide as H; cbn in *; [by rewrite N2 | by rewrite S2, S1, N2].
Qed.

Lemma info_mcs_off bus id item info w : bus <> w.(mcs).(mcs_bus) ->
  info_mcs bus id item info w = Some (-1, w).
Proof. apply info_mcs_other. Qed.

Lemma entry_upd_rest b i d w : mcs (entry_upd b i d w) = mcs w /\
  sess (entry_upd b i d w) = sess w /\ gl_queue (entry_upd b i d w) = gl_queue w.
Proof. unfold entry_upd. by destruct (gl w !! b). Qed.

Lemma enqueueGL_spec w b locid d dir speed maxspeed f :
  gl_wf w -> 0 <= b < MAX_BUSES -> 0 <= locid -> entry_of w b locid <> 0 ->
  entry_at w b (entry_of w b locid) = Some d -> d.(gl_state) <> glsNone ->
  d.(gl_n_fs) <> 0 -> b <> w.(mcs).(mcs_bus) ->
  exists w', enqueueGL b locid dir speed maxspeed f w = Some (SRCP_OK, w') /\ gl_wf w' /\
    entry_at w' b (entry_of w b locid) = Some (commanded dir speed maxspeed f d) /\
    w'.(sess) = w.(sess) /\
    waiting w' b =
      (if QUEUELEN - 1 <=? Z.of_nat (length (waiting w b)) then waiting w b
       else if existsb (Z.eqb (entry_of w b locid)) (waiting w b) then waiting w b
       else waiting w b ++ [entry_of w b locid]).
Proof.
  intros Hw Hb Hl He Hd Hs Hn Hm. set (e := entry_of w b locid) in *.
  unfold enqueueGL. step (get_gldata_ptr_some w b locid d Hw Hl He Hd Hs). fold e.
  step (gl_mod_some w b e d (with_dir dir) Hd).
  set (d1 := with_dir dir d). set (w1 := entry_upd b e d1 w).
  assert (Hd1 : entry_at w1 b e = Some d1) by (by eapply entry_at_upd).
  step (gl_mod_some w1 b e d1 (with_speed speed maxspeed) Hd1).
  set (d2 := with_speed speed maxspeed d1). set (w2 := entry_upd b e d2 w1).
  assert (Hd2 : entry_at w2 b e = Some d2) by (by eapply entry_at_upd).
  step (gl_at_some _ _ _ _ Hd2). step (gl_put_some w2 b e d2 (with_funcs f d2) Hd2).
  set (w3 := entry_upd b e (with_funcs f d2) w2).
  assert (Hd3 : entry_at w3 b e = Some (with_funcs f d2)) by (by eapply entry_at_upd).
  step (gl_mod_some w3 b e _ activated Hd3).
  change (activated (with_funcs f d2)) with (commanded dir speed maxspeed f d).
  set (w4 := entry_upd b e (commanded dir speed maxspeed f d) w3).
  assert (Hd4 : entry_at w4 b e = Some (commanded dir speed maxspeed f d))
    by (by eapply entry_at_upd).
  destruct (commanded_state dir speed maxspeed f d Hs) as [Hs4 Hn4].
  assert (Hw4 : gl_wf w4) by (by repeat apply entry_upd_wf).
  assert (Hsame4 : mcs w4 = mcs w /\ sess w4 = sess w /\ gl_queue w4 = gl_queue w).
  { unfold w4, w3, w2, w1. by rewrite !(proj1 (entry_upd_rest _ _ _ _)),
      !(proj1 (proj2 (entry_upd_rest _ _ _ _))), !(proj2 (proj2 (entry_upd_rest _ _ _ _))). }
  destruct Hsame4 as (Em & Es & Eq).
  destruct (enqueue_once_spec w4 b e Hw4 Hb) as (w5 & E5 & Hw5 & Eg & _ & _ & Es5 & Em5 & Eq5).
  rewrite (bind_some _ _ _ _ _ (eq_trans (gl_enqueue_active _ _ _ _ Hd4 Hs4) E5)).
  assert (Hd5 : entry_at w5 b e = Some (commanded dir speed maxspeed f d))
    by (unfold entry_at; by rewrite Eg).
  step (gl_at_some _ _ _ _ Hd5).
  assert (Hm5 : b <> w5.(mcs).(mcs_bus)) by (by rewrite Em5, Em).
  assert (Hfin : entry_at w5 b e = Some (commanded dir speed maxspeed f d) /\ sess w5 = sess w /\
    waiting w5 b = (if QUEUELEN - 1 <=? Z.of_nat (length (waiting w b)) then waiting w b
       else if existsb (Z.eqb e) (waiting w b) then waiting w b else waiting w b ++ [e])).
  { split; [done |]. split; [by rewrite Es5 |]. rewrite Eq5. unfold waiting. by rewrite Eq. }
  exists w5. split; [| split; [done | exact Hfin]].
  set (d5 := commanded dir speed maxspeed f d).
  assert (Hp : speed_permille d5 w5 = Some (Z.quot (d5.(gl_speed) * 1000) d5.(gl_n_fs), w5)).
  { unfold speed_permille. fold d5 in Hn4. rewrite Hn4. apply Z.eqb_neq in Hn. by rewrite Hn. }
  destruct (negb (Z.land (gl_speedchange d5) SCEMERG =? 0));
    [| destruct (negb (Z.land (gl_speedchange d5) SCDIREC =? 0))].
  - by step (info_mcs_off b 0x01 (getglid d5) [1; 3] w5 Hm5).
  - by step (info_mcs_off b 0x0B (getglid d5) [1; u8 (2 - d5.(gl_direction))] w5 Hm5).
  - unfold ret at 1, bind at 1. cbn [Z.ltb Z.compare]. step Hp.
    by rewrite (bind_some _ _ _ _ _ (info_mcs_off b 0x09 _ _ w5 Hm5)).
Qed.

(** * Termination of a locomotive *)

(** The directory cell of an entry's own protocol and address. *)
Definition own_slot (d : gl_data_t) : option dirslot :=
  if d.(gl_protocol) =? ch "M" then mm_slot d.(gl_id)
  else if d.(gl_protocol) =? ch "X" then mfx_slot d.(gl_id)
  else if d.(gl_protocol) =? ch "N" then nmra_slot d.(gl_id)
  else None.

Lemma shiftr14_land x k : 0 <= x < 0x4000 -> 0 <= k ->
  Z.shiftr (x + k * 0x4000) 14 = k /\ Z.land (x + k * 0x4000) 0x3FFF = x.
Proof.
  intros Hx Hk. rewrite Z.shiftr_div_pow2 by lia. change 0x3FFF with (Z.ones 14).
  rewrite Z.land_ones by lia. change (2 ^ 14) with 0x4000.
  rewrite Z.div_add, Z.mod_add, Z.div_small, Z.mod_small; lia.
Qed.

Lemma index_of_own protos d : 0 < d.(gl_id) < 0x4000 ->
  own_slot d <> None -> index_of protos (Z.lor (getglid d) MCSADDRINDICATOR) 0 = own_slot d.
Proof.
  intros Hid Ho. unfold getglid, own_slot in *. unfold MCSADDRINDICATOR.
  change 0x10000 with (2 ^ 16).
  assert (E : forall x k, 0 <= x < 0x4000 -> 0 <= k <= 3 ->
    Z.lor (x + k * 0x4000) (2 ^ 16) = x + (k + 4) * 0x4000).
  { intros x k Hx Hk. rewrite lor_high by lia. lia. }
  assert (G : forall k, 0 <= k <= 3 ->
    Z.shiftr (Z.lor (d.(gl_id) + k * 0x4000) (2 ^ 16)) 14 = k + 4 /\
    Z.land (Z.lor (d.(gl_id) + k * 0x4000) (2 ^ 16)) 0x3FFF = d.(gl_id)).
  { intros k Hk. rewrite E by lia. apply shiftr14_land; lia. }
  assert (Hz : (d.(gl_id) =? 0) = false) by (apply Z.eqb_neq; lia).
  unfold index_of.
  destruct (gl_protocol d =? ch "M"); [| destruct (gl_protocol d =? ch "X");
    [| destruct (gl_protocol d =? ch "N"); [| done]]].
  - destruct (G 0) as [G1 G2]; [lia |]. rewrite Z.mul_0_l, Z.add_0_r in G1, G2.
    by rewrite G2, Hz, G1.
  - destruct (G 1) as [G1 G2]; [lia |]. change (1 * 0x4000) with 0x4000 in G1, G2.
    by rewrite G2, Hz, G1.
  - destruct (G 3) as [G1 G2]; [lia |]. change (3 * 0x4000) with 0xC000 in G1, G2.
    by rewrite G2, Hz, G1.
Qed.

Lemma slot_set_some w b d s e v : dir_at w b = Some d -> slot_lookup d s = Some e ->
  slot_set b s v w = Some (tt, dir_upd b (slot_insert s v d) w).
Proof.
  intros Hd Hs. unfold slot_set. step (the_dir_some _ _ _ Hd). rewrite Hs.
  by apply set_dir_some with d.
Qed.

Lemma slot_insert_lookup s v d : slot_lookup (slot_insert s v d) s = Some v.
Proof. destruct s; cbn; apply lookup_insert_eq. Qed.
Lemma slot_insert_lookup_ne s s' v d : s <> s' ->
  slot_lookup (slot_insert s v d) s' = slot_lookup d s'.
Proof. destruct s, s'; cbn; intros H; try done; apply lookup_insert_ne; congruence. Qed.

Lemma dir_upd_entry b d w b' i : entry_at (dir_upd b d w) b' i = entry_at w b' i.
Proof.
  unfold entry_at, dir_upd. destruct (gl w !! b) as [g |] eqn:Hg; [| done]. cbn.
  destruct (decide (b = b')) as [<- |]; [by rewrite lookup_insert_eq, Hg | by rewrite lookup_insert_ne].
Qed.

Lemma entry_upd_dir b i d w b' : dir_at (entry_upd b i d w) b' = dir_at w b'.
Proof.
  unfold dir_at, entry_upd. destruct (gl w !! b) as [g |] eqn:Hg; [| done]. cbn.
  destruct (decide (b = b')) as [<- |]; [by rewrite lookup_insert_eq, Hg | by rewrite lookup_insert_ne].
Qed.

(** The address in the line that reports an entry. *)
Definition report_addr (protos : gmap Z Z) (d : gl_data_t) : Z :=
  if (MAXSRCPGL <=? d.(gl_id)) || (default 0 (protos !! d.(gl_id)) =? 0)
  then getglid d else d.(gl_id).

Definition term_line (b addr : Z) (t : timeval) : string :=
  snprintf 1000 (fmt [stamp t; " 102 INFO "; dec b; " GL "; dec addr; nl]).

(** The end of a terminated locomotive: its entry and its cell are freed. *)
Definition free_entry (b e : Z) (d : gl_data_t) (addr : Z) (line : string) : prog world unit :=
  let* gli := getGLIndex b (Z.lor (getglid d) MCSADDRINDICATOR) 0 in
  let* s := need gli in
  do* slot_set b s 0 in
  do* gl_put b e gl_zero in
  do* (if addr <? MAXSRCPGL then proto_clear b addr else ret tt) in
  enqueueInfoMessage line.

(** What it leaves. *)
Record entry_freed (b e addr : Z) (line : string) (dir : gl_dir_t) (s : dirslot) (w w' : world)
    (dir' : gl_dir_t) : Prop := {
  ef_entry : entry_at w' b e = Some gl_zero;
  ef_dir : dir_at w' b = Some dir';
  ef_slot : slot_lookup dir' s = Some 0;
  ef_others : forall s', s <> s' -> slot_lookup dir' s' = slot_lookup dir s';
  ef_proto : addr < MAXSRCPGL -> dir'.(proto) !! addr = Some 0;
  ef_sess : w'.(sess) = Session.broadcast line w.(sess);
}.

Lemma proto_clear_if w b addr dir : dir_at w b = Some dir ->
  exists w', (if addr <? MAXSRCPGL then proto_clear b addr else ret tt) w = Some (tt, w') /\
    dir_at w' b = Some (if addr <? MAXSRCPGL then dir <| proto ::= <[addr := 0]> |> else dir) /\
    w'.(sess) = w.(sess) /\ forall i, entry_at w' b i = entry_at w b i.
Proof.
  intros Hdir. destruct (addr <? MAXSRCPGL); [| by exists w].
  unfold proto_clear. step (the_dir_some _ _ _ Hdir). eexists. split; [by apply set_dir_some with dir |].
  split; [by eapply dir_at_upd |]. split; [| intros i; apply dir_upd_entry].
  unfold dir_upd. by destruct (gl w !! b).
Qed.

Lemma free_entry_spec w b e d dir s x addr line :
  gl_wf w -> b <= w.(num_buses) -> dir_at w b = Some dir -> entry_at w b e = Some d ->
  own_slot d = Some s -> slot_lookup dir s = Some x -> 0 < d.(gl_id) < 0x4000 ->
  exists w' dir', free_entry b e d addr line w = Some (tt, w') /\
    entry_freed b e addr line dir s w w' dir'.
Proof.
  intros Hw Hb Hdir Hd Ho Hx Hid. unfold free_entry.
  assert (Hlid : 0 <= Z.lor (getglid d) MCSADDRINDICATOR).
  { apply Z.lor_nonneg. split; [| done]. unfold getglid. repeat case_match; lia. }
  unfold bind at 1. rewrite (getGLIndex_spec _ _ _ 0 _ Hw Hb Hdir Hlid).
  unfold register. rewrite andb_false_r, index_of_own, Ho by (done || by rewrite Ho).
  cbn [need]. unfold ret at 1, bind at 1. step (slot_set_some w b dir s x 0 Hdir Hx).
  set (dir3 := slot_insert s 0 dir). set (w3 := dir_upd b dir3 w).
  assert (Hd3 : entry_at w3 b e = Some d) by (unfold w3; by rewrite dir_upd_entry).
  step (gl_put_some w3 b e d gl_zero Hd3). set (w4 := entry_upd b e gl_zero w3).
  assert (Hdir4 : dir_at w4 b = Some dir3).
  { unfold w4. rewrite entry_upd_dir. by eapply dir_at_upd. }
  destruct (dir_at_inv _ _ _ Hdir) as (g & Hg & _).
  assert (Hsess4 : sess w4 = sess w).
  { unfold w4, w3, entry_upd, dir_upd. rewrite Hg. cbn. by rewrite lookup_insert_eq. }
  destruct (proto_clear_if w4 b addr dir3 Hdir4) as (w5 & E5 & Hdir5 & Hsess5 & He5).
  step E5. set (dir5 := if addr <? MAXSRCPGL then _ else dir3) in *.
  rewrite enqueueInfoMessage_spec by (unfold sess_ok; rewrite Hsess5, Hsess4; apply Hw).
  eexists _, dir5. split; [reflexivity |].
  assert (Hlk : forall s', slot_lookup dir5 s' = slot_lookup dir3 s')
    by (intros s'; unfold dir5; destruct (addr <? MAXSRCPGL); by destruct s').
  constructor.
  - change (entry_at w5 b e = Some gl_zero). rewrite He5. by eapply entry_at_upd.
  - exact Hdir5.
  - rewrite Hlk. apply slot_insert_lookup.
  - intros s' Hne. rewrite Hlk. by apply slot_insert_lookup_ne.
  - intros H. unfold dir5. apply Z.ltb_lt in H. rewrite H. apply lookup_insert_eq.
  - cbn. by rewrite Hsess5, Hsess4.
Qed.

Lemma cacheSetGL_term w b e d dir s x l :
  gl_wf w -> b <= w.(num_buses) -> dir_at w b = Some dir -> entry_at w b e = Some d ->
  d.(gl_state) = glsTerm -> own_slot d = Some s -> slot_lookup dir s = Some x ->
  0 < d.(gl_id) < 0x4000 ->
  let addr := report_addr dir.(proto) d in
  exists w' dir', cacheSetGL b e l w = Some (tt, w') /\
    entry_freed b e addr (term_line b addr (now w)) dir s w w' dir'.
Proof.
  intros Hw Hb Hdir Hd Hs Ho Hx Hid addr.
  destruct (dir_at_inv _ _ _ Hdir) as (g & Hg & Hgd).
  pose proof (dir_proto _ _ (group_dir _ (glwf_groups _ Hw _ _ Hg) _ Hgd)) as Hp.
  unfold cacheSetGL. step (gl_at_some _ _ _ _ Hd).
  assert (Hlong : (if MAXSRCPGL <=? gl_id d then ret true
    else let* dir := the_dir b in let* p := need (proto dir !! gl_id d) in ret (p =? 0)) w =
    Some ((MAXSRCPGL <=? d.(gl_id)) || (default 0 (dir.(proto) !! d.(gl_id)) =? 0), w)).
  { destruct (Z.leb_spec MAXSRCPGL (gl_id d)); [done |]. step (the_dir_some _ _ _ Hdir).
    destruct (is_array_lookup _ _ (gl_id d) Hp) as [p Hpd]; [lia |]. by rewrite Hpd. }
  step Hlong. change (if (MAXSRCPGL <=? gl_id d) || _ then getglid d else gl_id d) with addr.
  set (f1 := fun d : gl_data_t => d <| gl_cacheddirection := gl_direction l |>
                                    <| gl_cachedspeed := gl_speed l |>).
  step (gl_mod_some w b e d f1 Hd). set (w1 := entry_upd b e (f1 d) w).
  step (gettimeofday_spec w1).
  assert (Hnow : now w1 = now w) by (unfold w1, entry_upd; by rewrite Hg). rewrite Hnow.
  assert (Hd1 : entry_at (tick w1) b e = Some (f1 d))
    by (change (entry_at (entry_upd b e (f1 d) w) b e = Some (f1 d)); by eapply entry_at_upd).
  set (f2 := fun d : gl_data_t => d <| gl_updatime := now w |>).
  step (gl_mod_some (tick w1) b e (f1 d) f2 Hd1). set (d2 := f2 (f1 d)).
  set (w2 := entry_upd b e d2 (tick w1)).
  assert (Hd2 : entry_at w2 b e = Some d2) by (by eapply entry_at_upd).
  step (gl_at_some _ _ _ _ Hd2). rewrite decide_True by done.
  destruct (free_entry_spec w2 b e d2 dir s x addr (term_line b addr (now w))) as (w' & dir' & E & F).
  - by repeat first [apply entry_upd_wf | apply gl_wf_tick].
  - unfold w2, w1, entry_upd. rewrite Hg. cbn. by rewrite lookup_insert_eq.
  - unfold w2. rewrite entry_upd_dir. change (dir_at w1 b = Some dir). unfold w1.
    by rewrite entry_upd_dir.
  - exact Hd2.
  - exact Ho.
  - exact Hx.
  - exact Hid.
  - exists w', dir'. split; [exact E |]. destruct F as [F1 F2 F3 F4 F5 F6]. constructor; try done.
    rewrite F6. f_equal. unfold w2, w1, entry_upd. rewrite Hg. cbn. by rewrite lookup_insert_eq.
Qed.

(** * An example: a bus with three entries, one of them locomotive 3 *)

Lemma dir_zero_wf n : 0 <= n -> dir_wf n gl_dir_zero.
Proof.
  intros Hn. split; cbn; try apply is_array_array. intros s e H.
  destruct s; apply lookup_array_inv in H as [-> _]; lia.
Qed.

Lemma dir_wf_slot n d s v : dir_wf n d -> 0 <= v <= n -> slot_in_range s ->
  dir_wf n (slot_insert s v d).
Proof.
  intros [D1 D2 D3 D4 D5] Hv Hs.
  assert (Hent : forall s' e, slot_lookup (slot_insert s v d) s' = Some e -> 0 <= e <= n).
  { intros s' e. destruct (decide (s = s')) as [<- | Hne].
    - rewrite slot_insert_lookup. intros [= <-]. done.
    - rewrite slot_insert_lookup_ne by done. apply D5. }
  destruct s; cbn in Hs.
  - split; cbn; [by apply is_array_insert | exact D2 | exact D3 | exact D4 | exact Hent].
  - split; cbn; [exact D1 | by apply is_array_insert | exact D3 | exact D4 | exact Hent].
  - split; cbn; [exact D1 | exact D2 | by apply is_array_insert | exact D4 | exact Hent].
Qed.

Lemma dir_wf_proto n d locid p : dir_wf n d -> 0 <= locid < MAXSRCPGL ->
  dir_wf n (d <| proto ::= <[locid := p]> |>).
Proof.
  intros [D1 D2 D3 D4 D5] Hl.
  split; cbn; [exact D1 | exact D2 | exact D3 | by apply is_array_insert |].
  intros s e H. apply (D5 s e). by destruct s.
Qed.

Lemma gl_wf_initial clock memory : gl_wf (initial_world clock memory).
Proof.
  split; cbn; try apply is_array_array; [apply initial_sess_ok | |].
  - intros b g Hg. apply lookup_array_inv in Hg as [-> _]. split; cbn; [lia | lia | done].
  - intros b q Hq. apply lookup_array_inv in Hq as [-> _]. by apply Ring.make_wf.
Qed.

Lemma gl_wf_with_group w b n d dir i :
  gl_wf w -> 0 <= b < MAX_BUSES -> 0 <= n < 65535 -> dir_wf n dir ->
  gl_wf (w <| gl ::= <[b := mk_GL n (<[i := d]> (array (n + 1) gl_zero)) (Some dir)]> |>).
Proof.
  intros [W1 W2 W3 W4 W5 W6] Hb Hn Hdir. split; cbn; try done.
  - intros b' g. destruct (decide (b = b')) as [<- |].
    + rewrite lookup_insert_eq. intros [= <-]. split; cbn; [done | | by intros d' [= <-]].
      intros j Hj. destruct (decide (i = j)) as [<- |]; [rewrite lookup_insert_eq; eauto |].
      rewrite lookup_insert_ne, lookup_array_some by lia. eauto.
    + rewrite lookup_insert_ne by done. apply W2.
  - by apply is_array_insert.
Qed.

Definition example_loco : gl_data_t :=
  gl_zero <| gl_state := glsActive |> <| gl_protocol := ch "M" |> <| gl_protocolversion := 2 |>
    <| gl_n_fs := 14 |> <| gl_n_func := 5 |> <| gl_id := 3 |> <| gl_locked_by := 7 |>.
Definition example_dir : gl_dir_t :=
  slot_insert (Mm 3) 1 (gl_dir_zero <| proto ::= <[3 := ch "M"]> |>).
Definition loco_clock (n : nat) : timeval := mk_timeval (1000 + Z.of_nat n) 250000.

Definition ddl_bus : bus_data_t := bus_zero <| protocols := Some "MNX"%string |> <| driver := DDL |>.

(** The bus of a DDL driver with entry 1 as [d]. *)
Definition loco_world (d : gl_data_t) : world :=
  (initial_world loco_clock 100)
    <| num_buses := 1 |>
    <| buses ::= <[1 := ddl_bus]> |>
    <| gl ::= <[1 := mk_GL 3 (<[1 := d]> (array 4 gl_zero)) (Some example_dir)]> |>.

Lemma example_dir_wf : dir_wf 3 example_dir.
Proof.
  assert (H0 : dir_wf 3 gl_dir_zero) by (by apply dir_zero_wf).
  assert (H1 := dir_wf_proto 3 gl_dir_zero 3 (ch "M") H0 ltac:(done)).
  exact (dir_wf_slot 3 _ (Mm 3) 1 H1 ltac:(lia) ltac:(done)).
Qed.

Lemma loco_world_wf d : gl_wf (loco_world d).
Proof.
  assert (H : gl_wf ((initial_world loco_clock 100) <| num_buses := 1 |>
    <| buses ::= <[1 := ddl_bus]> |>)).
  { destruct (gl_wf_initial loco_clock 100) as [W1 W2 W3 W4 W5 W6]. split; try done.
    by apply is_array_insert. }
  exact (gl_wf_with_group _ 1 3 d example_dir 1 H ltac:(done) ltac:(done) example_dir_wf).
Qed.
End GLFacts.
