(* ===== verification/LocoSpec.v ===== *)
(** The properties of srcp-gl.c, each with a witness. *)

From S2P Require Import Prelude Ring World Messages Session Services Lock Loco LocoFacts.

Module GLSpec.
Import GL GLFacts.

(** C16. Locks on locomotives are exclusive: while a session holds a locomotive,
    any sequence of lock and unlock requests of other sessions is served
    without changing the holder, and each request for that locomotive, by
    whichever of its addresses (SRCP or CAN) it is named, is answered "device
    locked". *)
Theorem gl_locks_exclusive rs w s :
  gl_wf w -> loco_holder w s <> 0 ->
  Forall (fun r => loco_key w (req_key r) /\ req_sid r <> loco_holder w s) rs ->
  exists codes w', serve_all rs w = Some (codes, w') /\ loco_holder w' s = loco_holder w s /\
    Forall2 (fun r code => loco w (req_key r) = Some s -> code = SRCP_DEVICELOCKED) rs codes.
Proof.
  intros Hw Hn Hf. by apply (lock_exclusive (LT := gl_lock_table) rs w s _ Hw eq_refl Hn Hf).
Qed.

Definition locked_world : world := loco_world example_loco.

Lemma gl_locks_exclusive_witness :
  exists codes w', serve_all [Lock (1, 3) 60 8; Unlock (1, 0x10003) 9] locked_world = Some (codes, w') /\
    loco_holder w' (1, 1) = loco_holder locked_world (1, 1) /\
    Forall2 (fun r code => loco locked_world (req_key r) = Some (1, 1) -> code = SRCP_DEVICELOCKED)
      [Lock (1, 3) 60 8; Unlock (1, 0x10003) 9] codes.
Proof.
  apply (gl_locks_exclusive [Lock (1, 3) 60 8; Unlock (1, 0x10003) 9] locked_world (1, 1)).
  - exact (loco_world_wf _).
  - vm_compute. discriminate.
  - repeat constructor; vm_compute; congruence.
Defined.

(** The queue of locomotive commands holds an entry at most once: enqueuing
    an entry in use leaves a full queue and a queue that has the entry as they
    are, appends it otherwise, and keeps the queue free of double entries. *)
Theorem gl_queue_no_double w b p d :
  gl_wf w -> 0 <= b < MAX_BUSES -> entry_at w b p = Some d -> d.(gl_state) <> glsNone ->
  NoDup (waiting w b) ->
  exists w', gl_enqueue b p w = Some (tt, w') /\ NoDup (waiting w' b) /\
    waiting w' b =
      (if QUEUELEN - 1 <=? Z.of_nat (length (waiting w b)) then waiting w b
       else if existsb (Z.eqb p) (waiting w b) then waiting w b else waiting w b ++ [p]).
Proof.
  intros Hw Hb Hd Hs Hn. rewrite (gl_enqueue_active _ _ _ _ Hd Hs).
  destruct (enqueue_once_spec w b p Hw Hb) as (w' & E & _ & _ & _ & _ & _ & _ & Hq).
  exists w'. split; [done |]. split; [by apply (enqueue_once_nodup w b p) | done].
Qed.

Lemma gl_queue_no_double_witness :
  exists w', gl_enqueue 1 1 locked_world = Some (tt, w') /\ NoDup (waiting w' 1) /\
    waiting w' 1 =
      (if QUEUELEN - 1 <=? Z.of_nat (length (waiting locked_world 1)) then waiting locked_world 1
       else if existsb (Z.eqb 1) (waiting locked_world 1) then waiting locked_world 1
       else waiting locked_world 1 ++ [1]).
Proof.
  apply (gl_queue_no_double locked_world 1 1 example_loco).
  - exact (loco_world_wf _).
  - split; [done | reflexivity].
  - vm_compute. reflexivity.
  - vm_compute. discriminate.
  - vm_compute. constructor.
Defined.

(** [gl_enqueue] and [cacheInitGL] call each other, but the recursion ends
    at once: the default initialisation with protocol 'P' is refused before it
    would enqueue again, so any number of unfoldings gives the same result. *)
Theorem gl_enqueue_terminates n w b p d :
  gl_wf w -> 0 <= b < MAX_BUSES -> entry_at w b p = Some d -> 0 <= d.(gl_id) < 0x4000 ->
  gl_enqueue_n (S n) b p w = gl_enqueue b p w.
Proof. apply gl_enqueue_n_fuel. Qed.

Lemma gl_enqueue_terminates_witness :
  gl_enqueue_n 5 1 2 locked_world = gl_enqueue 1 2 locked_world.
Proof.
  apply (gl_enqueue_terminates 4 locked_world 1 2 gl_zero).
  - exact (loco_world_wf _).
  - split; [done | reflexivity].
  - vm_compute. reflexivity.
  - split; [done | reflexivity].
Defined.

(** [calcspeed] maps [0 .. vmax] onto the speed steps [0 .. n_fs] of the
    decoder: the result is in range, 0 exactly for a speed of 0 (or less), the
    highest step at [vmax] and above, and monotone. *)
Theorem calcspeed_steps vs vs' vmax n_fs :
  0 < vmax -> 0 < n_fs -> vs <= vs' ->
  0 <= calcspeed vs vmax n_fs <= n_fs /\
  (calcspeed vs vmax n_fs = 0 <-> vs <= 0) /\
  (vmax <= vs -> calcspeed vs vmax n_fs = n_fs) /\
  calcspeed vs vmax n_fs <= calcspeed vs' vmax n_fs.
Proof.
  intros Hv Hn Hle. destruct (calcspeed_bounds vs vmax n_fs Hv Hn) as (? & ? & ?).
  split; [done |]. split; [done |]. split; [done |]. by apply calcspeed_mono.
Qed.

Lemma calcspeed_steps_witness :
  0 <= calcspeed 3 100 28 <= 28 /\ (calcspeed 3 100 28 = 0 <-> 3 <= 0) /\
  (100 <= 3 -> calcspeed 3 100 28 = 28) /\ calcspeed 3 100 28 <= calcspeed 90 100 28.
Proof. apply (calcspeed_steps 3 90 100 28); lia. Defined.

(** The gateway's speed query and command are inverse: the per-mille value
    a speed query answers for a decoder sets, when it is sent back, the very
    speed step the decoder has. *)
Theorem speed_query_roundtrip w d :
  0 < d.(gl_n_fs) <= 255 -> 0 <= d.(gl_speed) <= d.(gl_n_fs) ->
  exists v, speed_permille d w = Some (v, w) /\ 0 <= v <= 1000 /\
    u8 (calcspeed v 1000 d.(gl_n_fs)) = d.(gl_speed).
Proof.
  intros Hn Hs. exists (Z.quot (d.(gl_speed) * 1000) d.(gl_n_fs)).
  unfold speed_permille. assert (E : (gl_n_fs d =? 0) = false) by (apply Z.eqb_neq; lia).
  rewrite E. split; [done |]. split.
  - rewrite Z.quot_div_nonneg by lia. split; [apply Z.div_pos; lia |].
    apply Z.div_le_upper_bound; nia.
  - rewrite permille_inverse by lia. apply wrap_small. lia.
Qed.

Definition running_loco : gl_data_t := example_loco <| gl_speed := 9 |>.
Lemma speed_query_roundtrip_witness :
  exists v, speed_permille running_loco locked_world = Some (v, locked_world) /\ 0 <= v <= 1000 /\
    u8 (calcspeed v 1000 running_loco.(gl_n_fs)) = running_loco.(gl_speed).
Proof. apply (speed_query_roundtrip locked_world running_loco); cbn; lia. Defined.

(** SET GL on a locomotive in use stores direction, speed step and
    functions, flags what changed for the driver, and queues the locomotive
    (unless the queue has it or is full), without touching the sessions. *)
Theorem set_loco w b locid d dir speed maxspeed f :
  gl_wf w -> 0 <= b < MAX_BUSES -> 0 <= locid -> entry_of w b locid <> 0 ->
  entry_at w b (entry_of w b locid) = Some d -> d.(gl_state) <> glsNone ->
  d.(gl_n_fs) <> 0 -> b <> w.(mcs).(mcs_bus) ->
  exists w', enqueueGL b locid dir speed maxspeed f w = Some (SRCP_OK, w') /\
    entry_at w' b (entry_of w b locid) = Some (commanded dir speed maxspeed f d) /\
    w'.(sess) = w.(sess) /\
    waiting w' b =
      (if QUEUELEN - 1 <=? Z.of_nat (length (waiting w b)) then waiting w b
       else if existsb (Z.eqb (entry_of w b locid)) (waiting w b) then waiting w b
       else waiting w b ++ [entry_of w b locid]).
Proof.
  intros Hw Hb Hl He Hd Hs Hn Hm.
  destruct (enqueueGL_spec w b locid d dir speed maxspeed f Hw Hb Hl He Hd Hs Hn Hm)
    as (w' & ? & _ & ? & ? & ?). by exists w'.
Qed.

Lemma set_loco_witness :
  exists w', enqueueGL 1 3 1 50 100 0x11 locked_world = Some (SRCP_OK, w') /\
    entry_at w' 1 (entry_of locked_world 1 3) = Some (commanded 1 50 100 0x11 example_loco) /\
    w'.(sess) = locked_world.(sess) /\
    waiting w' 1 =
      (if QUEUELEN - 1 <=? Z.of_nat (length (waiting locked_world 1)) then waiting locked_world 1
       else if existsb (Z.eqb (entry_of locked_world 1 3)) (waiting locked_world 1)
       then waiting locked_world 1
       else waiting locked_world 1 ++ [entry_of locked_world 1 3]).
Proof.
  apply (set_loco locked_world 1 3 example_loco 1 50 100 0x11).
  - exact (loco_world_wf _).
  - split; [done | reflexivity].
  - discriminate.
  - vm_compute. discriminate.
  - vm_compute. reflexivity.
  - vm_compute. discriminate.
  - vm_compute. discriminate.
  - vm_compute. discriminate.
Defined.

(** When the driver reports a locomotive that was terminated, its entry is
    cleared, the directory cell of its address is freed and no other one, its
    short address loses the registered protocol, and the info sessions get
    exactly the 102 line. *)
Theorem terminated_loco_freed w b e d dir s x l :
  gl_wf w -> b <= w.(num_buses) -> dir_at w b = Some dir -> entry_at w b e = Some d ->
  d.(gl_state) = glsTerm -> own_slot d = Some s -> slot_lookup dir s = Some x ->
  0 < d.(gl_id) < 0x4000 ->
  exists w' dir', cacheSetGL b e l w = Some (tt, w') /\
    entry_at w' b e = Some gl_zero /\ dir_at w' b = Some dir' /\
    slot_lookup dir' s = Some 0 /\
    (forall s', s <> s' -> slot_lookup dir' s' = slot_lookup dir s') /\
    (report_addr dir.(proto) d < MAXSRCPGL -> dir'.(proto) !! report_addr dir.(proto) d = Some 0) /\
    w'.(sess) = Session.broadcast (term_line b (report_addr dir.(proto) d) (now w)) w.(sess).
Proof.
  intros Hw Hb Hdir Hd Hs Ho Hx Hid.
  destruct (cacheSetGL_term w b e d dir s x l Hw Hb Hdir Hd Hs Ho Hx Hid) as (w' & dir' & E & []).
  by exists w', dir'.
Qed.

Definition ending_loco : gl_data_t := example_loco <| gl_state := glsTerm |>.
Lemma terminated_loco_freed_witness :
  exists w' dir', cacheSetGL 1 1 ending_loco (loco_world ending_loco) = Some (tt, w') /\
    entry_at w' 1 1 = Some gl_zero /\ dir_at w' 1 = Some dir' /\
    slot_lookup dir' (Mm 3) = Some 0 /\
    (forall s', Mm 3 <> s' -> slot_lookup dir' s' = slot_lookup example_dir s') /\
    (report_addr example_dir.(proto) ending_loco < MAXSRCPGL ->
      dir'.(proto) !! report_addr example_dir.(proto) ending_loco = Some 0) /\
    w'.(sess) = Session.broadcast
      (term_line 1 (report_addr example_dir.(proto) ending_loco) (now (loco_world ending_loco)))
      (loco_world ending_loco).(sess).
Proof.
  apply (terminated_loco_freed (loco_world ending_loco) 1 1 ending_loco example_dir (Mm 3) 1).
  - exact (loco_world_wf _).
  - vm_compute. discriminate.
  - reflexivity.
  - vm_compute. reflexivity.
  - reflexivity.
  - vm_compute. reflexivity.
  - vm_compute. reflexivity.
  - split; reflexivity.
Defined.

(** A refused INIT leaves the directory cell of its address pointing at a
    free entry: when locomotive 4 is then initialised on the same bus, both
    addresses lead to the same entry. *)
Theorem refused_init_shares_entry :
  exists w1 w2,
    cacheInitGL 1 5 (ch "N") 1 99 4 (Some ""%string) locked_world = Some (SRCP_WRONGVALUE, w1) /\
    cacheInitGL 1 4 (ch "N") 1 28 4 (Some ""%string) w1 = Some (SRCP_OK, w2) /\
    entry_of w2 1 4 = 2 /\ entry_of w2 1 5 = 2.
Proof.
  set (m1 := cacheInitGL 1 5 (ch "N") 1 99 4 (Some ""%string)).
  set (m2 := cacheInitGL 1 4 (ch "N") 1 28 4 (Some ""%string)).
  exists (final m1 locked_world), (final m2 (final m1 locked_world)).
  split; [apply final_run; vm_compute; reflexivity |].
  split; [apply final_run; vm_compute; reflexivity |].
  split; vm_compute; reflexivity.
Qed.
End GLSpec.
