(* ===== verification/Feedback.v ===== *)
(** srcp-fb.c: feedback contacts, with the delayed reset of a contact
    ([min_time]) and the queue of pending resets, one ring per bus. *)

From S2P Require Import Prelude Ring World Messages Session Services.

Module FB.

Definition QUEUELENGTH_FB : Z := 1000.

(** * The state *)

Definition get_number_fb (bus : Z) : prog world Z := let* f := fb_get bus in ret f.(numberOfFb).

(** [fb[bus].fbstate[port]] *)
Definition contact (bus port : Z) : prog world fb_state_t :=
  let* f := fb_get bus in need (f.(fbstate) !! port).
Definition set_contact (bus port : Z) (c : fb_state_t) : prog world unit :=
  let* f := fb_get bus in
  do* need (f.(fbstate) !! port) in
  fb_set bus (f <| fbstate ::= <[port := c]> |>).

Definition get_min_time (bus : Z) : prog world Z := fun w => need (w.(min_time) !! bus) w.

(** * The queue of resets *)

Definition queue_get (busnumber : Z) : prog world (Ring.t fb_reset_t) :=
  fun w => need (w.(fb_queue) !! busnumber) w.
Definition queue_set (busnumber : Z) (q : Ring.t fb_reset_t) : prog world unit :=
  modify (fun w => w <| fb_queue ::= <[busnumber := q]> |>).

Definition queueLengthFB (busnumber : Z) : prog world Z :=
  let* q := queue_get busnumber in ret (Ring.len QUEUELENGTH_FB q).
Definition queueIsFullFB (busnumber : Z) : prog world bool :=
  let* q := queue_get busnumber in ret (Ring.isfull QUEUELENGTH_FB q).
Definition queueIsEmptyFB (busnumber : Z) : prog world bool :=
  let* q := queue_get busnumber in ret (Ring.isempty q).

(** The next reset, or [None] for the result -1. *)
Definition getNextFB (busnumber : Z) : prog world (option fb_reset_t) :=
  let* q := queue_get busnumber in
  if Ring.isempty q then ret None
  else let* r := need (Ring.peek q) in ret (Some r).

Definition unqueueNextFB (busnumber : Z) : prog world unit :=
  let* q := queue_get busnumber in
  queue_set busnumber (q <| Ring.out ::= Ring.next QUEUELENGTH_FB |>).

(** The source waits while the queue is full; the model has no result then. *)
Definition queue_reset_fb (busnumber port : Z) (ctime : timeval) : prog world unit :=
  let* full := queueIsFullFB busnumber in
  do* guard (negb full) in
  let* q := queue_get busnumber in
  let* q := need (Ring.put QUEUELENGTH_FB (mk_fb_reset port ctime) q) in
  queue_set busnumber q.

(** * Queries *)

Definition getFB (bus port : Z) : prog world (Z * option (timeval * Z)) :=
  let port := port - 1 in
  let* n := get_number_fb bus in
  if (n <=? 0) || (port <? 0) || (n <=? port) then ret (SRCP_NODATA, None)
  else
    let* c := contact bus port in
    ret (SRCP_OK, Some (c.(fb_timestamp), c.(fb_state))).

Definition infoFB (bus port : Z) : prog world (Z * string) :=
  let* r := getFB bus port in
  match r with
  | (rc, Some (time, state)) =>
      if rc =? SRCP_OK then
        ret (SRCP_INFO, snprintf MAXSRCPLINELEN
          (fmt [stamp time; " 100 INFO "; dec bus; " FB "; dec port; " "; dec state; nl]))
      else ret (SRCP_NODATA, ""%string)
  | _ => ret (SRCP_NODATA, ""%string)
  end.

Definition enqueueInfoFB (busnumber port : Z) : prog world Z :=
  let* r := infoFB busnumber port in
  do* enqueueInfoMessage r.2 in
  ret SRCP_OK.

Definition describeFB (bus addr : Z) : prog world Z := ret SRCP_UNSUPPORTEDOPERATION.

(** * Updates *)

Definition updateFB (bus port value : Z) : prog world Z :=
  let* n := get_number_fb bus in
  if (n <? port) || (port <? 1) then ret SRCP_WRONGVALUE
  else
    let port_t := port - 1 in
    let* c := contact bus port_t in
    do* (if c.(fb_state) =? value then ret tt
         else
           let* akt_time := gettimeofday in
           if value =? 0 then
             let* mt := get_min_time bus in
             if mt =? 0 then
               do* set_contact bus port_t (mk_fb akt_time value 0) in
               do* enqueueInfoFB bus port in ret tt
             else
               do* set_contact bus port_t (c <| fb_change := -1 |>) in
               queue_reset_fb bus port_t akt_time
           else if c.(fb_change) <? 0 then
             set_contact bus port_t (c <| fb_change := 0 |>)
           else
             do* set_contact bus port_t (mk_fb akt_time (i16 value) 0) in
             do* enqueueInfoFB bus port in ret tt) in
    ret SRCP_OK.

Definition setFB (bus port value : Z) : prog world Z := updateFB bus port value.

(** How many contacts a module of the bus has, and whether contact 0 is the
    lowest bit of its value. *)
Definition module_ports (flags : Z) : Z :=
  if negb (Z.land flags FB_4_PORTS =? 0) then 4
  else if Z.land flags FB_16_PORTS =? FB_16_PORTS then 16 else 8.
Definition lsb_first (flags : Z) : bool := Z.land flags FB_ORDER_0 =? FB_ORDER_0.

(** The loop over the contacts of a module; [mask] selects the bit. *)
Fixpoint module_loop (n : nat) (bus fb_contact values mask : Z) (dir : bool) (rc : Z)
    : prog world Z :=
  match n with
  | O => ret rc
  | S n =>
      let* rc := updateFB bus fb_contact (if Z.land values mask =? 0 then 0 else 1) in
      module_loop n bus (fb_contact + 1) values
        (if dir then Z.shiftr mask 1 else Z.shiftl mask 1) dir rc
  end.

Definition setFBmodul (bus modul values : Z) : prog world Z :=
  let* b := bus_get bus in
  let ports := module_ports b.(flags) in
  let dir := negb (lsb_first b.(flags)) in
  let mask := if dir then Z.shiftl 1 (ports - 1) else 1 in
  let fb_contact := (modul - 1) * ports + 1 in
  module_loop (Z.to_nat ports) bus fb_contact values mask dir SRCP_OK.

(** * The delayed resets *)

(** One turn of the loop; [true] to go on. *)
Definition check_next (busnumber : Z) : prog world bool :=
  let* next := getNextFB busnumber in
  match next with
  | None => ret false
  | Some r =>
      let* c := contact busnumber r.(reset_port) in
      if c.(fb_change) =? 0 then do* unqueueNextFB busnumber in ret true
      else
        let* cmp_time := gettimeofday in
        let* mt := get_min_time busnumber in
        let sec := cmp_time.(tv_sec) - r.(reset_timestamp).(tv_sec) in
        let usec := cmp_time.(tv_usec) - r.(reset_timestamp).(tv_usec) + sec * 1000000 in
        if usec <? mt then ret false
        else
          do* unqueueNextFB busnumber in
          do* set_contact busnumber r.(reset_port) (mk_fb r.(reset_timestamp) 0 0) in
          do* enqueueInfoFB busnumber (r.(reset_port) + 1) in
          ret true
  end.

Fixpoint check_loop (fuel : nat) (busnumber : Z) : prog world unit :=
  match fuel with
  | O => undefined
  | S fuel =>
      let* go := check_next busnumber in
      if go then check_loop fuel busnumber else ret tt
  end.

(** Every turn that goes on takes an entry off the queue. *)
Definition check_reset_fb (busnumber : Z) : prog world unit :=
  let* n := queueLengthFB busnumber in
  check_loop (S (Z.to_nat n)) busnumber.

(** * Start-up *)

Definition startup_FB : prog world unit :=
  for_each (range 0 (MAX_BUSES - 1)) (fun i =>
    do* fb_set i (mk_FB 0 ∅) in
    let* q := queue_get i in
    do* queue_set i (Ring.mk q.(Ring.queue) 0 0) in
    modify (fun w => w <| min_time ::= <[i := 0]> |>)).

Definition set_min_time (busnumber mt : Z) : prog world unit :=
  if busnumber <? MAX_BUSES then
    modify (fun w => w <| min_time ::= <[busnumber := mt * 1000]> |>)
  else ret tt.

Definition init_FB (bus number : Z) : prog world Z :=
  if MAX_BUSES <=? bus then ret 1
  else
    do* (if 0 <? number then
           let* akt_time := gettimeofday in
           do* fb_get bus in
           fb_set bus (mk_FB number (array number (mk_fb akt_time 0 0)))
         else ret tt) in
    ret 0.

(** No driver modelled sets [init_fb_func]. *)
Definition initFB (busnumber adres protocol index : Z) : prog world Z := ret SRCP_OK.

(** * Well-formed states *)

Record group_wf (f : fb_t) : Prop := {
  fbg_number : 0 <= f.(numberOfFb);
  fbg_state : f.(numberOfFb) = 0 \/ is_array f.(numberOfFb) f.(fbstate);
}.

(** Each queued reset is for a contact of the bus. *)
Record fb_wf (w : world) : Prop := {
  fbwf_sess : sess_ok w;
  fbwf_groups : forall b f, w.(fb) !! b = Some f -> group_wf f;
  fbwf_rings : forall b q, w.(fb_queue) !! b = Some q -> Ring.wf QUEUELENGTH_FB q;
  fbwf_ports : forall b q f r, w.(fb_queue) !! b = Some q -> w.(fb) !! b = Some f ->
    r ∈ Ring.contents QUEUELENGTH_FB q -> 0 <= r.(reset_port) < f.(numberOfFb);
  fbwf_fb : is_array MAX_BUSES w.(fb);
  fbwf_queue : is_array MAX_BUSES w.(fb_queue);
  fbwf_min : is_array MAX_BUSES w.(min_time);
}.

Ltac step H := rewrite (bind_some _ _ _ _ _ H).

(** The contact with index [i] (one less than its port number). *)
Definition contact_at (w : world) (b i : Z) : option fb_state_t :=
  match w.(fb) !! b with
  | Some f => if (0 <=? i) && (i <? f.(numberOfFb)) then f.(fbstate) !! i else None
  | None => None
  end.

Definition contact_upd (b i : Z) (c : fb_state_t) (w : world) : world :=
  match w.(fb) !! b with
  | Some f => w <| fb ::= <[b := f <| fbstate ::= <[i := c]> |>]> |>
  | None => w
  end.

Definition resets (w : world) (b : Z) : list fb_reset_t :=
  match w.(fb_queue) !! b with Some q => Ring.contents QUEUELENGTH_FB q | None => [] end.

Definition requeue (b : Z) (q : Ring.t fb_reset_t) (w : world) : world :=
  w <| fb_queue ::= <[b := q]> |>.

Definition fb_line (b port state : Z) (t : timeval) : string :=
  snprintf MAXSRCPLINELEN
    (fmt [stamp t; " 100 INFO "; dec b; " FB "; dec port; " "; dec state; nl]).

Lemma contact_at_inv w b i c : contact_at w b i = Some c ->
  exists f, w.(fb) !! b = Some f /\ f.(fbstate) !! i = Some c /\ 0 <= i < f.(numberOfFb).
Proof.
  unfold contact_at. destruct (fb w !! b) as [f |]; [| done]. intros H. exists f.
  destruct (_ && _) eqn:E; [| done]. bool_hyps. auto.
Qed.

Lemma get_number_fb_some w b f : w.(fb) !! b = Some f ->
  get_number_fb b w = Some (f.(numberOfFb), w).
Proof. intros H. unfold get_number_fb, fb_get, bind. by rewrite H. Qed.

Lemma contact_some w b i c : contact_at w b i = Some c -> contact b i w = Some (c, w).
Proof.
  intros H. destruct (contact_at_inv _ _ _ _ H) as (f & Hf & Hc & _).
  unfold contact, fb_get, bind. rewrite Hf. cbn. by rewrite Hc.
Qed.

Lemma set_contact_some w b i c c' : contact_at w b i = Some c ->
  set_contact b i c' w = Some (tt, contact_upd b i c' w).
Proof.
  intros H. destruct (contact_at_inv _ _ _ _ H) as (f & Hf & Hc & _).
  unfold set_contact, fb_get, fb_set, contact_upd, bind. rewrite Hf. cbn. by rewrite Hc.
Qed.

Lemma contact_at_upd w b i c c' : contact_at w b i = Some c ->
  contact_at (contact_upd b i c' w) b i = Some c'.
Proof.
  intros H. destruct (contact_at_inv _ _ _ _ H) as (f & Hf & Hc & Hi).
  unfold contact_at, contact_upd. rewrite Hf. cbn. rewrite lookup_insert_eq. cbn.
  rewrite lookup_insert_eq. zbool.
Qed.

Lemma contact_at_upd_ne w b i c b' i' : (b, i) <> (b', i') ->
  contact_at (contact_upd b i c w) b' i' = contact_at w b' i'.
Proof.
  intros H. unfold contact_at, contact_upd. destruct (fb w !! b) as [f |] eqn:Hf; [| done]. cbn.
  destruct (decide (b = b')) as [<- |]; [| by rewrite lookup_insert_ne].
  rewrite lookup_insert_eq, Hf. cbn. destruct (_ && _); [| done].
  apply lookup_insert_ne. congruence.
Qed.

Lemma contact_upd_wf w b i c : fb_wf w -> is_Some (contact_at w b i) -> fb_wf (contact_upd b i c w).
Proof.
  intros [W1 W2 W3 W4 W5 W6 W7] [c0 H]. destruct (contact_at_inv _ _ _ _ H) as (f & Hf & Hc & Hi).
  unfold contact_upd. rewrite Hf. destruct (W2 _ _ Hf) as [Hn Ha]. split; cbn; try done.
  - intros b' f'. destruct (decide (b = b')) as [<- |].
    + rewrite lookup_insert_eq. intros [= <-]. split; cbn; [done |].
      right. destruct Ha as [Ha | Ha]; [lia |]. by apply is_array_insert.
    + rewrite lookup_insert_ne by done. apply W2.
  - intros b' q f' r Hq. destruct (decide (b = b')) as [<- |].
    + rewrite lookup_insert_eq. intros [= <-] Hr. cbn. by apply (W4 b q f r).
    + rewrite lookup_insert_ne by done. intros Hf' Hr. by apply (W4 b' q f' r).
  - apply is_array_insert; [done | exact (is_array_bound _ _ _ _ W5 Hf)].
Qed.

Lemma fb_wf_announce msg w : fb_wf w -> fb_wf (announce msg w).
Proof. intros []. split; try done. by apply announce_ok. Qed.

Lemma fb_wf_tick w : fb_wf w -> fb_wf (tick w).
Proof. by intros []. Qed.

Lemma fb_range w b i c : contact_at w b i = Some c ->
  exists f, w.(fb) !! b = Some f /\
    ((f.(numberOfFb) <? i + 1) || (i + 1 <? 1)) = false /\
    ((f.(numberOfFb) <=? 0) || (i <? 0) || (f.(numberOfFb) <=? i)) = false.
Proof.
  intros H. destruct (contact_at_inv _ _ _ _ H) as (f & Hf & _ & Hi). exists f.
  split; [done |]. split; zbool.
Qed.

Lemma enqueueInfoFB_some w b i c : fb_wf w -> contact_at w b i = Some c ->
  enqueueInfoFB b (i + 1) w =
    Some (SRCP_OK, announce (fb_line b (i + 1) c.(fb_state) c.(fb_timestamp)) w).
Proof.
  intros Hw Hc. destruct (fb_range _ _ _ _ Hc) as (f & Hf & _ & E).
  unfold enqueueInfoFB, infoFB, getFB. unfold bind at 1 2. step (get_number_fb_some _ _ _ Hf).
  replace (i + 1 - 1) with i by lia. rewrite E. step (contact_some _ _ _ _ Hc).
  unfold ret at 1. cbn [Z.eqb SRCP_OK Pos.eqb]. unfold ret at 1. cbn [snd].
  by step (enqueueInfoMessage_spec (fb_line b (i + 1) c.(fb_state) c.(fb_timestamp)) w
    (fbwf_sess _ Hw)).
Qed.

Lemma get_min_time_some w b mt : w.(min_time) !! b = Some mt -> get_min_time b w = Some (mt, w).
Proof. intros H. unfold get_min_time, need. by rewrite H. Qed.

Lemma fb_queue_some w b q : w.(fb_queue) !! b = Some q -> queue_get b w = Some (q, w).
Proof. intros H. unfold queue_get, need. by rewrite H. Qed.

(** ** One update of a contact *)

Lemma contact_upd_queue b i c w : fb_queue (contact_upd b i c w) = fb_queue w /\
  min_time (contact_upd b i c w) = min_time w /\ sess (contact_upd b i c w) = sess w.
Proof. unfold contact_upd. by destruct (fb w !! b). Qed.

(** The world after contact [i] took a value at once. *)
Definition taken (b i value : Z) (w : world) : world :=
  announce (fb_line b (i + 1) value (now w))
    (contact_upd b i (mk_fb (now w) value 0) (tick w)).

Lemma taken_wf b i value w c : fb_wf w -> contact_at w b i = Some c -> fb_wf (taken b i value w).
Proof. intros Hw Hc. apply fb_wf_announce, contact_upd_wf; [by apply fb_wf_tick | by exists c]. Qed.

Lemma take_run w b i value c :
  fb_wf w -> contact_at w b i = Some c ->
  (do* set_contact b i (mk_fb (now w) value 0) in
   do* enqueueInfoFB b (i + 1) in ret tt) (tick w) = Some (tt, taken b i value w).
Proof.
  intros Hw Hc. assert (Hc1 : contact_at (tick w) b i = Some c) by done.
  step (set_contact_some _ _ _ _ (mk_fb (now w) value 0) Hc1).
  assert (Hw2 : fb_wf (contact_upd b i (mk_fb (now w) value 0) (tick w)))
    by (apply contact_upd_wf; [by apply fb_wf_tick | by exists c]).
  by step (enqueueInfoFB_some _ _ _ _ Hw2 (contact_at_upd _ _ _ _ _ Hc1)).
Qed.

Section Update.
Context (w : world) (b i : Z) (c : fb_state_t) (Hw : fb_wf w) (Hc : contact_at w b i = Some c).

Lemma updateFB_same value : c.(fb_state) = value ->
  updateFB b (i + 1) value w = Some (SRCP_OK, w).
Proof.
  intros <-. destruct (fb_range _ _ _ _ Hc) as (f & Hf & E & _).
  unfold updateFB. step (get_number_fb_some _ _ _ Hf). rewrite E.
  replace (i + 1 - 1) with i by lia. step (contact_some _ _ _ _ Hc). by rewrite Z.eqb_refl.
Qed.

Lemma updateFB_taken value mt : c.(fb_state) <> value -> 0 <= value < 32768 ->
  w.(min_time) !! b = Some mt -> (value = 0 /\ mt = 0) \/ (value <> 0 /\ 0 <= c.(fb_change)) ->
  updateFB b (i + 1) value w = Some (SRCP_OK, taken b i value w).
Proof.
  intros Hne Hv Hmt Hcase. destruct (fb_range _ _ _ _ Hc) as (f & Hf & E & _).
  unfold updateFB. step (get_number_fb_some _ _ _ Hf). rewrite E.
  replace (i + 1 - 1) with i by lia. step (contact_some _ _ _ _ Hc).
  apply Z.eqb_neq in Hne. rewrite Hne. unfold bind at 1. step (gettimeofday_spec w).
  pose proof (take_run w b i value c Hw Hc) as Hrun.
  destruct Hcase as [[-> ->] | [Hv0 Hch]].
  - cbn [Z.eqb]. step (get_min_time_some (tick w) b 0 Hmt). cbn [Z.eqb]. by rewrite Hrun.
  - apply Z.eqb_neq in Hv0. rewrite Hv0. apply Z.ltb_ge in Hch. rewrite Hch.
    replace (i16 value) with value; [by rewrite Hrun |].
    symmetry. apply swrap_small; [lia |]. change (2 ^ (16 - 1)) with 32768. lia.
Qed.

Lemma updateFB_delayed mt q : c.(fb_state) <> 0 -> w.(min_time) !! b = Some mt -> mt <> 0 ->
  w.(fb_queue) !! b = Some q -> Ring.isfull QUEUELENGTH_FB q = false ->
  exists q', updateFB b (i + 1) 0 w = Some (SRCP_OK,
      requeue b q' (contact_upd b i (c <| fb_change := -1 |>) (tick w))) /\
    Ring.wf QUEUELENGTH_FB q' /\
    Ring.contents QUEUELENGTH_FB q' = Ring.contents QUEUELENGTH_FB q ++ [mk_fb_reset i (now w)].
Proof.
  intros Hne Hmt Hmt0 Hq Hf. destruct (fb_range _ _ _ _ Hc) as (f & Hff & E & _).
  destruct (Ring.put_spec _ q (mk_fb_reset i (now w)) (fbwf_rings _ Hw _ _ Hq) Hf)
    as (q' & Eq & Hr & Hcon). exists q'. split; [| done].
  unfold updateFB. step (get_number_fb_some _ _ _ Hff). rewrite E.
  replace (i + 1 - 1) with i by lia. step (contact_some _ _ _ _ Hc).
  apply Z.eqb_neq in Hne. rewrite Hne. unfold bind at 1. step (gettimeofday_spec w).
  cbn [Z.eqb]. step (get_min_time_some (tick w) b mt Hmt). apply Z.eqb_neq in Hmt0. rewrite Hmt0.
  assert (Hc1 : contact_at (tick w) b i = Some c) by done.
  step (set_contact_some _ _ _ _ (c <| fb_change := -1 |>) Hc1).
  set (w2 := contact_upd b i (c <| fb_change := -1 |>) (tick w)).
  assert (Hq2 : w2.(fb_queue) !! b = Some q)
    by (unfold w2; by rewrite (proj1 (contact_upd_queue _ _ _ _))).
  unfold queue_reset_fb, queueIsFullFB. unfold bind at 1. step (fb_queue_some _ _ _ Hq2).
  unfold ret at 1. rewrite Hf. cbn [negb guard]. unfold ret at 1.
  unfold bind at 1. step (fb_queue_some _ _ _ Hq2). by rewrite Eq.
Qed.
End Update.

(** ** The loop over the delayed resets *)

(** The age of a reset in microseconds, as the source computes it. *)
Definition age (w : world) (r : fb_reset_t) : Z :=
  (now w).(tv_usec) - r.(reset_timestamp).(tv_usec) +
  ((now w).(tv_sec) - r.(reset_timestamp).(tv_sec)) * 1000000.

Lemma dequeue_wf w b q :
  fb_wf w -> w.(fb_queue) !! b = Some q -> Ring.isempty q = false ->
  fb_wf (requeue b (q <| Ring.out ::= Ring.next QUEUELENGTH_FB |>) w).
Proof.
  intros [W1 W2 W3 W4 W5 W6 W7] Hq He.
  destruct (Ring.contents_step _ q (W3 _ _ Hq) He) as (r & _ & Hcs).
  split; cbn; try done.
  - intros b' q'. destruct (decide (b = b')) as [<- |].
    + rewrite lookup_insert_eq. intros [= <-]. destruct (W3 _ _ Hq).
      split; cbn; [done | done | by apply Ring.next_range].
    + rewrite lookup_insert_ne by done. apply W3.
  - intros b' q' f r'. destruct (decide (b = b')) as [<- |].
    + rewrite lookup_insert_eq. intros [= <-] Hf Hr. apply (W4 b q f); [done | done |].
      rewrite Hcs. by right.
    + rewrite lookup_insert_ne by done. apply W4.
  - apply is_array_insert; [done | exact (is_array_bound _ _ _ _ W6 Hq)].
Qed.

Lemma resets_head w b r l : fb_wf w -> resets w b = r :: l ->
  exists q c, w.(fb_queue) !! b = Some q /\ Ring.isempty q = false /\ Ring.peek q = Some r /\
    contact_at w b r.(reset_port) = Some c /\
    resets (requeue b (q <| Ring.out ::= Ring.next QUEUELENGTH_FB |>) w) b = l.
Proof.
  intros Hw Hr. unfold resets in Hr. destruct (w.(fb_queue) !! b) as [q |] eqn:Hq; [| done].
  pose proof (fbwf_rings _ Hw _ _ Hq) as Hring.
  assert (He : Ring.isempty q = false).
  { apply not_true_iff_false. rewrite (Ring.isempty_spec QUEUELENGTH_FB) by done. by rewrite Hr. }
  destruct (Ring.contents_step _ q Hring He) as (r' & Hp & Hcs). rewrite Hr in Hcs.
  injection Hcs as <- Hl.
  assert (Hb : 0 <= b < MAX_BUSES) by exact (is_array_bound _ _ _ _ (fbwf_queue _ Hw) Hq).
  destruct (is_array_lookup _ _ b (fbwf_fb _ Hw) Hb) as [f Hf].
  assert (Hport : 0 <= r.(reset_port) < f.(numberOfFb)).
  { apply (fbwf_ports _ Hw b q f r Hq Hf). rewrite Hr. by left. }
  destruct (fbg_state _ (fbwf_groups _ Hw _ _ Hf)) as [E | Ha]; [lia |].
  destruct (is_array_lookup _ _ _ Ha Hport) as [c Hc].
  exists q, c. do 3 (split; [done |]). split.
  - unfold contact_at. rewrite Hf. zbool.
  - unfold resets, requeue. cbn. by rewrite lookup_insert_eq.
Qed.

(** The world after the reset [r] at the head of the queue was carried out. *)
Definition fired (b : Z) (q : Ring.t fb_reset_t) (r : fb_reset_t) (w : world) : world :=
  announce (fb_line b (r.(reset_port) + 1) 0 r.(reset_timestamp))
    (contact_upd b r.(reset_port) (mk_fb r.(reset_timestamp) 0 0)
      (requeue b (q <| Ring.out ::= Ring.next QUEUELENGTH_FB |>) (tick w))).

Lemma check_next_fires w b q r c mt :
  fb_wf w -> w.(fb_queue) !! b = Some q -> Ring.isempty q = false -> Ring.peek q = Some r ->
  contact_at w b r.(reset_port) = Some c -> c.(fb_change) <> 0 ->
  w.(min_time) !! b = Some mt -> mt <= age w r ->
  check_next b w = Some (true, fired b q r w) /\ fb_wf (fired b q r w).
Proof.
  intros Hw Hq He Hp Hc Hch Hmt Hage.
  set (w2 := requeue b (q <| Ring.out ::= Ring.next QUEUELENGTH_FB |>) (tick w)).
  assert (Hw2 : fb_wf w2) by (by apply (dequeue_wf (tick w)); [apply fb_wf_tick | |]).
  assert (Hc2 : contact_at w2 b r.(reset_port) = Some c) by done.
  set (c3 := mk_fb r.(reset_timestamp) 0 0).
  assert (Hw3 : fb_wf (contact_upd b r.(reset_port) c3 w2))
    by (apply contact_upd_wf; [done | by exists c]).
  split; [| by apply fb_wf_announce].
  unfold check_next, getNextFB. unfold bind at 1. step (fb_queue_some _ _ _ Hq).
  rewrite He, Hp. cbn [need]. unfold ret at 1, bind at 1. unfold ret at 1.
  step (contact_some _ _ _ _ Hc). apply Z.eqb_neq in Hch. rewrite Hch.
  step (gettimeofday_spec w). step (get_min_time_some (tick w) b mt Hmt).
  change (tv_usec (now w) - _ + _) with (age w r). apply Z.ltb_ge in Hage. rewrite Hage.
  unfold unqueueNextFB. unfold bind at 1. step (fb_queue_some (tick w) _ _ Hq).
  unfold queue_set, modify.
  fold (requeue b (q <| Ring.out ::= Ring.next QUEUELENGTH_FB |>) (tick w)). fold w2.
  step (set_contact_some _ _ _ _ c3 Hc2).
  by step (enqueueInfoFB_some _ _ _ _ Hw3 (contact_at_upd _ _ _ _ c3 Hc2)).
Qed.

(** One turn: with no entry or one too young it stops; otherwise the head is
    taken off, and the contact is reset unless a change cancelled that. *)
Lemma check_next_spec w b : fb_wf w -> 0 <= b < MAX_BUSES ->
  exists go w', check_next b w = Some (go, w') /\ fb_wf w' /\
    resets w' b = (if go then tail (resets w b) else resets w b) /\
    (go = true -> resets w b <> []).
Proof.
  intros Hw Hb. destruct (is_array_lookup _ _ b (fbwf_queue _ Hw) Hb) as [q Hq].
  destruct (is_array_lookup _ _ b (fbwf_min _ Hw) Hb) as [mt Hmt].
  destruct (resets w b) as [| r l] eqn:Hr.
  { exists false, w. split; [| by rewrite Hr]. unfold check_next, getNextFB.
    unfold bind at 1. step (fb_queue_some _ _ _ Hq).
    assert (He : Ring.isempty q = true).
    { rewrite (Ring.isempty_spec QUEUELENGTH_FB) by (by apply (fbwf_rings _ Hw b)).
      unfold resets in Hr. by rewrite Hq in Hr. }
    by rewrite He. }
  destruct (resets_head w b r l Hw Hr) as (q' & c & Hq' & He & Hp & Hc & Hl).
  rewrite Hq in Hq'. injection Hq' as <-.
  destruct (Z.eqb_spec c.(fb_change) 0) as [Hch | Hch].
  { exists true, (requeue b (q <| Ring.out ::= Ring.next QUEUELENGTH_FB |>) w).
    split; [| by rewrite Hl; auto using dequeue_wf].
    unfold check_next, getNextFB. unfold bind at 1. step (fb_queue_some _ _ _ Hq).
    rewrite He, Hp. cbn [need]. unfold ret at 1, bind at 1. unfold ret at 1.
    step (contact_some _ _ _ _ Hc). rewrite Hch. cbn [Z.eqb]. unfold unqueueNextFB.
    unfold bind at 1. by step (fb_queue_some _ _ _ Hq). }
  destruct (Z.ltb_spec (age w r) mt) as [Ha | Ha].
  { exists false, (tick w). split; [| split; [by apply fb_wf_tick | split; [exact Hr | done]]].
    unfold check_next, getNextFB. unfold bind at 1. step (fb_queue_some _ _ _ Hq).
    rewrite He, Hp. cbn [need]. unfold ret at 1, bind at 1. unfold ret at 1.
    step (contact_some _ _ _ _ Hc). apply Z.eqb_neq in Hch. rewrite Hch.
    step (gettimeofday_spec w). step (get_min_time_some (tick w) b mt Hmt).
    change (tv_usec (now w) - _ + _) with (age w r). apply Z.ltb_lt in Ha. by rewrite Ha. }
  destruct (check_next_fires w b q r c mt Hw Hq He Hp Hc Hch Hmt Ha) as [E Hwf].
  exists true, (fired b q r w). do 2 (split; [done |]). split; [| done].
  unfold fired, resets, announce. cbn. rewrite (proj1 (contact_upd_queue _ _ _ _)). exact Hl.
Qed.

Lemma check_loop_spec fuel w b : fb_wf w -> 0 <= b < MAX_BUSES ->
  (length (resets w b) < fuel)%nat ->
  exists w', check_loop fuel b w = Some (tt, w') /\ fb_wf w' /\ suffix (resets w' b) (resets w b).
Proof.
  revert w. induction fuel as [| fuel IH]; intros w Hw Hb Hf; [lia |].
  destruct (check_next_spec w b Hw Hb) as (go & w1 & E & Hw1 & Hr & Hgo).
  cbn [check_loop]. step E. destruct go.
  - destruct (resets w b) as [| r l] eqn:Hres; [by destruct (Hgo eq_refl) |]. cbn [tail] in Hr.
    destruct (IH w1 Hw1 Hb) as (w2 & E2 & Hw2 & Hs); [rewrite Hr; cbn in Hf; lia |].
    exists w2. split; [done |]. split; [done |]. rewrite Hr in Hs. by apply suffix_cons_r.
  - exists w1. split; [done |]. split; [done |]. by rewrite Hr.
Qed.

Lemma check_reset_spec w b : fb_wf w -> 0 <= b < MAX_BUSES ->
  exists w', check_reset_fb b w = Some (tt, w') /\ fb_wf w' /\ suffix (resets w' b) (resets w b).
Proof.
  intros Hw Hb. destruct (is_array_lookup _ _ b (fbwf_queue _ Hw) Hb) as [q Hq].
  unfold check_reset_fb, queueLengthFB. unfold bind at 1. step (fb_queue_some _ _ _ Hq).
  unfold ret at 1. apply check_loop_spec; [done | done |]. unfold resets. rewrite Hq.
  pose proof (Ring.contents_length _ q (fbwf_rings _ Hw _ _ Hq)). lia.
Qed.

(** ** Modules of contacts *)

(** Contact [i] exists and no reset of it is pending. *)
Definition settled (w : world) (b i : Z) : Prop :=
  exists c, contact_at w b i = Some c /\ 0 <= c.(fb_change).

Definition state_of (w : world) (b i : Z) : option Z := fb_state <$> contact_at w b i.

Lemma updateFB_sets w b i value :
  fb_wf w -> settled w b i -> w.(min_time) !! b = Some 0 -> value = 0 \/ value = 1 ->
  exists w', updateFB b (i + 1) value w = Some (SRCP_OK, w') /\ fb_wf w' /\
    w'.(min_time) = w.(min_time) /\ settled w' b i /\ state_of w' b i = Some value /\
    forall j, j <> i -> contact_at w' b j = contact_at w b j.
Proof.
  intros Hw (c & Hc & Hch) Hmt Hv. destruct (decide (c.(fb_state) = value)) as [E | E].
  - exists w. split; [by apply (updateFB_same w b i c Hc) |]. split; [done |]. split; [done |].
    split; [by exists c |]. split; [| done]. unfold state_of. by rewrite Hc, <- E.
  - exists (taken b i value w). split.
    { apply (updateFB_taken w b i c Hw Hc value 0); [done | lia | done | lia]. }
    split; [by apply taken_wf with c |].
    split; [exact (proj1 (proj2 (contact_upd_queue b i (mk_fb (now w) value 0) (tick w)))) |].
    assert (Hc' : contact_at (taken b i value w) b i = Some (mk_fb (now w) value 0)).
    { change (contact_at (contact_upd b i (mk_fb (now w) value 0) (tick w)) b i = Some (mk_fb (now w) value 0)).
      by apply contact_at_upd with c. }
    split; [by eexists; split; [exact Hc' |] |]. split; [unfold state_of; by rewrite Hc' |].
    intros j Hj. change (contact_at (contact_upd b i (mk_fb (now w) value 0) (tick w)) b j =
      contact_at (tick w) b j). apply contact_at_upd_ne. congruence.
Qed.

Definition mask_at (dir : bool) (mask k : Z) : Z := if dir then Z.shiftr mask k else Z.shiftl mask k.

Lemma mask_at_succ dir mask k : 0 <= k ->
  mask_at dir (mask_at dir mask 1) k = mask_at dir mask (k + 1).
Proof.
  intros Hk. unfold mask_at. destruct dir.
  - rewrite Z.shiftr_shiftr by lia. f_equal. lia.
  - rewrite Z.shiftl_shiftl by lia. f_equal. lia.
Qed.

Definition bit_value (values mask : Z) : Z := if Z.land values mask =? 0 then 0 else 1.

Lemma module_loop_spec n : forall w b i values mask dir rc,
  fb_wf w -> w.(min_time) !! b = Some 0 ->
  (forall k, 0 <= k < Z.of_nat n -> settled w b (i + k)) ->
  exists rc' w', module_loop n b (i + 1) values mask dir rc w = Some (rc', w') /\ fb_wf w' /\
    (forall k, 0 <= k < Z.of_nat n ->
      state_of w' b (i + k) = Some (bit_value values (mask_at dir mask k))) /\
    (forall j, ~ (i <= j < i + Z.of_nat n) -> contact_at w' b j = contact_at w b j).
Proof.
  induction n as [| n IH]; intros w b i values mask dir rc Hw Hmt Hset.
  { exists rc, w. split; [done |]. split; [done |]. split; [lia | done]. }
  cbn [module_loop].
  assert (Hi : settled w b i) by (rewrite <- (Z.add_0_r i); apply Hset; lia).
  destruct (updateFB_sets w b i (bit_value values mask) Hw Hi Hmt) as
    (w1 & E1 & Hw1 & Hm1 & Hs1 & Hv1 & Ho1); [unfold bit_value; case_match; tauto |].
  step E1. change (if dir then Z.shiftr mask 1 else Z.shiftl mask 1) with (mask_at dir mask 1).
  destruct (IH w1 b (i + 1) values (mask_at dir mask 1) dir SRCP_OK Hw1) as
    (rc' & w2 & E2 & Hw2 & Hst & Hot); [by rewrite Hm1 | |].
  { intros k Hk. replace (i + 1 + k) with (i + (k + 1)) by lia.
    destruct (Hset (k + 1)) as (c & Hc & ?); [lia |]. exists c. split; [| done].
    rewrite Ho1 by lia. done. }
  exists rc', w2. split; [done |]. split; [done |]. split.
  - intros k Hk. destruct (decide (k = 0)) as [-> | Hk0].
    + unfold state_of. rewrite Hot, Z.add_0_r by lia. fold (state_of w1 b i). rewrite Hv1.
      f_equal. unfold mask_at. destruct dir; by rewrite ?Z.shiftr_0_r, ?Z.shiftl_0_r.
    + replace (i + k) with (i + 1 + (k - 1)) by lia. rewrite Hst by lia.
      rewrite mask_at_succ by lia. do 3 f_equal. lia.
  - intros j Hj. rewrite Hot by lia. apply Ho1. lia.
Qed.

Lemma bit_value_testbit values k : 0 <= k ->
  bit_value values (2 ^ k) = if Z.testbit values k then 1 else 0.
Proof.
  intros Hk. unfold bit_value. destruct (Z.eqb_spec (Z.land values (2 ^ k)) 0) as [E | E].
  - apply (f_equal (fun x => Z.testbit x k)) in E.
    rewrite Z.land_spec, Z.pow2_bits_true, Z.bits_0, andb_true_r in E by lia. by rewrite E.
  - destruct (Z.testbit values k) eqn:T; [done |]. exfalso. apply E. apply Z.bits_inj'.
    intros n Hn. rewrite Z.land_spec, Z.bits_0. destruct (decide (n = k)) as [-> | Hne].
    + by rewrite T.
    + by rewrite Z.pow2_bits_false, andb_false_r by lia.
Qed.

Lemma module_ports_range flags : 0 < module_ports flags <= 16.
Proof. unfold module_ports. repeat case_match; lia. Qed.

(** Which bit of a module's value its [k]-th contact shows. *)
Definition contact_bit (flags k : Z) : Z :=
  if lsb_first flags then k else module_ports flags - 1 - k.

Lemma setFBmodul_spec w b modul values bd :
  fb_wf w -> w.(buses) !! b = Some bd -> w.(min_time) !! b = Some 0 ->
  let ports := module_ports bd.(flags) in
  (forall k, 0 <= k < ports -> settled w b ((modul - 1) * ports + k)) ->
  exists rc w', setFBmodul b modul values w = Some (rc, w') /\
    (forall k, 0 <= k < ports -> state_of w' b ((modul - 1) * ports + k) =
      Some (if Z.testbit values (contact_bit bd.(flags) k) then 1 else 0)) /\
    (forall j, ~ ((modul - 1) * ports <= j < modul * ports) ->
      contact_at w' b j = contact_at w b j).
Proof.
  intros Hw Hbd Hmt ports Hset. pose proof (module_ports_range bd.(flags)) as Hp. fold ports in Hp.
  set (dir := negb (lsb_first bd.(flags))).
  set (mask := if dir then Z.shiftl 1 (ports - 1) else 1).
  destruct (module_loop_spec (Z.to_nat ports) w b ((modul - 1) * ports) values mask dir SRCP_OK Hw Hmt)
    as (rc & w' & E & _ & Hst & Hot); [intros k Hk; apply Hset; lia |].
  exists rc, w'. split; [| split].
  - unfold setFBmodul. step (bus_get_some _ _ _ Hbd). exact E.
  - intros k Hk. rewrite Hst by lia. f_equal. rewrite <- bit_value_testbit.
    + f_equal. unfold mask_at, mask, dir, contact_bit. fold ports.
      destruct (lsb_first (flags bd)); cbn [negb].
      * rewrite Z.shiftl_mul_pow2 by lia. lia.
      * rewrite Z.shiftl_mul_pow2, Z.shiftr_div_pow2, Z.mul_1_l by lia.
        rewrite <- Z.pow_sub_r by lia. done.
    + unfold contact_bit. fold ports. destruct (lsb_first (flags bd)); lia.
  - intros j Hj. apply Hot. lia.
Qed.
End FB.
