(* ===== verification/FeedbackSpec.v ===== *)
(** The properties of srcp-fb.c, each with a witness. *)

From S2P Require Import Prelude Ring World Messages Session Services Feedback.

Module FBSpec.
Import FB.

(** * A delayed reset, from the release of the contact to the info line *)

Lemma enqueue_wf w b i c q q' t :
  fb_wf w -> contact_at w b i = Some c -> w.(fb_queue) !! b = Some q ->
  Ring.wf QUEUELENGTH_FB q' ->
  Ring.contents QUEUELENGTH_FB q' = Ring.contents QUEUELENGTH_FB q ++ [mk_fb_reset i t] ->
  fb_wf (requeue b q' w).
Proof.
  intros [W1 W2 W3 W4 W5 W6 W7] Hc Hq Hq' Hcs.
  destruct (contact_at_inv _ _ _ _ Hc) as (f0 & Hf0 & _ & Hi). split; cbn; try done.
  - intros b' q1. destruct (decide (b = b')) as [<- |].
    + rewrite lookup_insert_eq. by intros [= <-].
    + rewrite lookup_insert_ne by done. apply W3.
  - intros b' q1 f r. destruct (decide (b = b')) as [<- |].
    + rewrite lookup_insert_eq. intros [= <-] Hf Hr. rewrite Hcs in Hr.
      apply elem_of_app in Hr as [Hr | Hr]; [by apply (W4 b q f) |].
      apply list_elem_of_singleton in Hr as ->. cbn. by replace f with f0 by congruence.
    + rewrite lookup_insert_ne by done. apply W4.
  - apply is_array_insert; [done | exact (is_array_bound _ _ _ _ W6 Hq)].
Qed.

(** The clock is read for the [n]-th time next. *)
Definition at_time (n : nat) (w : world) : world := w <| w_tick := n |>.

Lemma check_loop_empty fuel w b q : w.(fb_queue) !! b = Some q -> Ring.isempty q = true ->
  check_loop (S fuel) b w = Some (tt, w).
Proof.
  intros Hq He. cbn [check_loop]. unfold check_next, getNextFB. unfold bind at 1 2.
  step (fb_queue_some _ _ _ Hq). by rewrite He.
Qed.

Section Pending.
Context (w : world) (b : Z) (q : Ring.t fb_reset_t) (r : fb_reset_t) (c : fb_state_t) (mt : Z).
Context (Hw : fb_wf w) (Hq : w.(fb_queue) !! b = Some q)
  (Hcs : Ring.contents QUEUELENGTH_FB q = [r])
  (Hc : contact_at w b r.(reset_port) = Some c) (Hch : c.(fb_change) <> 0)
  (Hmt : w.(min_time) !! b = Some mt).

Lemma pending_head : Ring.isempty q = false /\ Ring.peek q = Some r /\
  Ring.isempty (q <| Ring.out ::= Ring.next QUEUELENGTH_FB |>) = true.
Proof.
  pose proof (fbwf_rings _ Hw _ _ Hq) as Hring.
  assert (He : Ring.isempty q = false).
  { apply not_true_iff_false. rewrite (Ring.isempty_spec QUEUELENGTH_FB) by done. by rewrite Hcs. }
  split; [done |]. destruct (Ring.contents_step _ q Hring He) as (r' & Hp & Hcs').
  rewrite Hcs in Hcs'. injection Hcs' as <- Hl. split; [done |].
  apply (Ring.isempty_spec QUEUELENGTH_FB); [| done].
  destruct Hring. split; cbn; [done | done | by apply Ring.next_range].
Qed.

(** Too early: the loop stops at the entry. *)
Lemma check_reset_early : age w r < mt -> check_reset_fb b w = Some (tt, tick w).
Proof.
  intros Ha. destruct pending_head as (He & Hp & _).
  unfold check_reset_fb, queueLengthFB. unfold bind at 1. step (fb_queue_some _ _ _ Hq).
  unfold ret at 1. cbn [check_loop]. unfold check_next, getNextFB. unfold bind at 1 2.
  step (fb_queue_some _ _ _ Hq).
  rewrite He, Hp. cbn [need]. unfold ret at 1, bind at 1. unfold ret at 1.
  step (contact_some _ _ _ _ Hc). apply Z.eqb_neq in Hch. rewrite Hch.
  step (gettimeofday_spec w). step (get_min_time_some (tick w) b mt Hmt).
  change (tv_usec (now w) - _ + _) with (age w r). apply Z.ltb_lt in Ha. by rewrite Ha.
Qed.

(** In time: the contact is reset and the queue is empty. *)
Lemma check_reset_due : mt <= age w r -> check_reset_fb b w = Some (tt, fired b q r w).
Proof.
  intros Ha. destruct pending_head as (He & Hp & He').
  destruct (check_next_fires w b q r c mt Hw Hq He Hp Hc Hch Hmt Ha) as [E _].
  unfold check_reset_fb, queueLengthFB. unfold bind at 1. step (fb_queue_some _ _ _ Hq).
  unfold ret at 1. cbn [check_loop]. step E.
  pose proof (Ring.contents_length _ q (fbwf_rings _ Hw _ _ Hq)) as Hl. rewrite Hcs in Hl.
  cbn in Hl. rewrite <- Hl. apply check_loop_empty with (q <| Ring.out ::= Ring.next QUEUELENGTH_FB |>);
    [| done].
  unfold fired, announce. cbn. rewrite (proj1 (contact_upd_queue _ _ _ _)). cbn.
  apply lookup_insert_eq.
Qed.
End Pending.

(** The world after the contact was released: a reset waits. *)
Lemma release_pending w b i c mt :
  fb_wf w -> contact_at w b i = Some c -> c.(fb_state) <> 0 -> w.(min_time) !! b = Some mt ->
  mt <> 0 -> resets w b = [] ->
  exists w1 q, updateFB b (i + 1) 0 w = Some (SRCP_OK, w1) /\ fb_wf w1 /\
    contact_at w1 b i = Some (c <| fb_change := -1 |>) /\ w1.(fb_queue) !! b = Some q /\
    Ring.contents QUEUELENGTH_FB q = [mk_fb_reset i (now w)] /\
    w1.(min_time) !! b = Some mt /\ w1.(sess) = w.(sess) /\ w1.(w_clock) = w.(w_clock).
Proof.
  intros Hw Hc Hst Hmt Hmt0 Hr. unfold resets in Hr.
  assert (Hb : 0 <= b < MAX_BUSES) by exact (is_array_bound _ _ _ _ (fbwf_min _ Hw) Hmt).
  destruct (is_array_lookup _ _ b (fbwf_queue _ Hw) Hb) as [q Hq]. rewrite Hq in Hr.
  assert (Hf : Ring.isfull QUEUELENGTH_FB q = false).
  { apply not_true_iff_false. rewrite (Ring.isfull_spec QUEUELENGTH_FB) by
      (exact (fbwf_rings _ Hw _ _ Hq)). rewrite Hr. unfold QUEUELENGTH_FB. cbn. lia. }
  destruct (updateFB_delayed w b i c Hw Hc mt q Hst Hmt Hmt0 Hq Hf) as (q' & E & Hwf & Hcs).
  destruct (contact_upd_queue b i (c <| fb_change := -1 |>) (tick w)) as (Q1 & Q2 & Q3).
  eexists _, q'. split; [exact E |].
  assert (Hc1 : contact_at (contact_upd b i (c <| fb_change := -1 |>) (tick w)) b i =
    Some (c <| fb_change := -1 |>)) by (by apply contact_at_upd with c).
  split.
  { eapply enqueue_wf with (q := q); [| exact Hc1 | by rewrite Q1 | exact Hwf | exact Hcs].
    apply contact_upd_wf; [by apply fb_wf_tick | by exists c]. }
  split; [exact Hc1 |]. split; [apply lookup_insert_eq |]. rewrite Hr in Hcs.
  split; [exact Hcs |].
  split; [exact (eq_trans (f_equal (fun m => m !! b) Q2) Hmt) |]. split; [exact Q3 |].
  unfold contact_upd. by destruct (fb (tick w) !! b).
Qed.

(** At least [mt] microseconds lie between two times. *)
Definition delay_over (mt : Z) (released checked : timeval) : bool :=
  mt <=? checked.(tv_usec) - released.(tv_usec) + (checked.(tv_sec) - released.(tv_sec)) * 1000000.

(** A contact that was released at [released] and is checked at [checked]. *)
Definition after_check (c : fb_state_t) (mt : Z) (released checked : timeval) : fb_state_t :=
  if delay_over mt released checked then mk_fb released 0 0 else c <| fb_change := -1 |>.

Lemma release_then_check w b i c mt n :
  fb_wf w -> contact_at w b i = Some c -> c.(fb_state) <> 0 -> w.(min_time) !! b = Some mt ->
  mt <> 0 -> resets w b = [] ->
  exists w1 w2, updateFB b (i + 1) 0 w = Some (SRCP_OK, w1) /\ w1.(sess) = w.(sess) /\
    contact_at w1 b i = Some (c <| fb_change := -1 |>) /\ fb_wf w1 /\
    check_reset_fb b (at_time n w1) = Some (tt, w2) /\
    contact_at w2 b i = Some (after_check c mt (now w) (w.(w_clock) n)) /\
    w2.(sess) = (if delay_over mt (now w) (w.(w_clock) n)
      then Session.broadcast (fb_line b (i + 1) 0 (now w)) w.(sess) else w.(sess)).
Proof.
  intros Hw Hc Hst Hmt Hmt0 Hr.
  destruct (release_pending w b i c mt Hw Hc Hst Hmt Hmt0 Hr) as
    (w1 & q & E & Hw1 & Hc1 & Hq1 & Hcs & Hmt1 & Hs1 & Hck).
  assert (Hw2 : fb_wf (at_time n w1)) by (by destruct Hw1).
  assert (Hage : age (at_time n w1) (mk_fb_reset i (now w)) =
    (w_clock w n).(tv_usec) - (now w).(tv_usec) + ((w_clock w n).(tv_sec) - (now w).(tv_sec)) * 1000000)
    by (unfold age, now at 1 3; cbn; by rewrite Hck).
  unfold after_check, delay_over. rewrite <- Hage.
  destruct (Z.leb_spec mt (age (at_time n w1) (mk_fb_reset i (now w)))) as [Ha | Ha]; cycle 1.
  - exists w1, (tick (at_time n w1)). split; [done |]. split; [done |]. split; [done |].
    split; [done |]. split; [by apply (check_reset_early (at_time n w1) b q _ _ mt Hw2 Hq1 Hcs Hc1) |].
    split; [exact Hc1 | done].
  - exists w1, (fired b q (mk_fb_reset i (now w)) (at_time n w1)).
    split; [done |]. split; [done |]. split; [done |]. split; [done |].
    split; [by apply (check_reset_due (at_time n w1) b q _ (c <| fb_change := -1 |>) mt Hw2 Hq1 Hcs Hc1) |].
    split.
    + change (contact_at (contact_upd b i (mk_fb (now w) 0 0)
        (requeue b (q <| Ring.out ::= Ring.next QUEUELENGTH_FB |>) (tick (at_time n w1)))) b i =
        Some (mk_fb (now w) 0 0)). by apply contact_at_upd with (c <| fb_change := -1 |>).
    + unfold fired, announce. cbn. rewrite (proj2 (proj2 (contact_upd_queue _ _ _ _))). cbn.
      by rewrite Hs1.
Qed.

(** * An example *)

Definition example_clock (n : nat) : timeval := mk_timeval 100 (20000 * Z.of_nat n).
Definition example_contact : fb_state_t := mk_fb timeval0 1 0.
Definition example_group : fb_t := mk_FB 8 (<[2 := example_contact]> (array 8 (mk_fb timeval0 0 0))).
Definition example_bus : bus_data_t := bus_zero <| flags := FB_ORDER_0 |>.
(** Bus 1 with eight contacts, the third one taken, and [mt] microseconds of
    delay. *)
Definition example_world (mt : Z) : world :=
  (initial_world example_clock 4) <| fb ::= <[1 := example_group]> |>
    <| min_time ::= <[1 := mt]> |> <| buses ::= <[1 := example_bus]> |>.

Lemma fb_example_wf mt : fb_wf (example_world mt).
Proof.
  split.
  - exact (initial_sess_ok example_clock 4).
  - intros b f. cbn. destruct (decide (1 = b)) as [<- |].
    + rewrite lookup_insert_eq. intros [= <-]. split; cbn; [lia |]. right.
      apply is_array_insert; [apply is_array_array | lia].
    + rewrite lookup_insert_ne by done. intros [-> _]%lookup_array_inv. split; cbn; [lia | by left].
  - intros b q [-> _]%lookup_array_inv. apply Ring.make_wf. done.
  - intros b q f r [-> _]%lookup_array_inv. rewrite Ring.make_contents. by intros _ ?%elem_of_nil.
  - apply is_array_insert; [apply is_array_array | done].
  - apply is_array_array.
  - apply is_array_insert; [apply is_array_array | done].
Qed.

(** * The properties *)

(** The release of a contact is delayed by the minimal time of its bus: it
    is not reported, and a check of the delayed resets at a later time leaves
    the contact as it was when the minimal time is not over, and otherwise
    clears it with the time stamp of the release and reports that to the info
    sessions. *)
Theorem release_delayed w b i c mt n :
  fb_wf w -> contact_at w b i = Some c -> c.(fb_state) <> 0 -> w.(min_time) !! b = Some mt ->
  mt <> 0 -> resets w b = [] ->
  exists w1 w2, updateFB b (i + 1) 0 w = Some (SRCP_OK, w1) /\ w1.(sess) = w.(sess) /\
    check_reset_fb b (at_time n w1) = Some (tt, w2) /\
    contact_at w2 b i = Some (after_check c mt (now w) (w.(w_clock) n)) /\
    w2.(sess) = (if delay_over mt (now w) (w.(w_clock) n)
      then Session.broadcast (fb_line b (i + 1) 0 (now w)) w.(sess) else w.(sess)).
Proof.
  intros Hw Hc Hst Hmt Hmt0 Hr.
  destruct (release_then_check w b i c mt n Hw Hc Hst Hmt Hmt0 Hr) as
    (w1 & w2 & E1 & E2 & _ & _ & E3). by exists w1, w2.
Qed.

Lemma release_delayed_witness :
  exists w1 w2, updateFB 1 (2 + 1) 0 (example_world 50000) = Some (SRCP_OK, w1) /\
    w1.(sess) = (example_world 50000).(sess) /\
    check_reset_fb 1 (at_time 3 w1) = Some (tt, w2) /\
    contact_at w2 1 2 = Some (after_check example_contact 50000 (now (example_world 50000))
      ((example_world 50000).(w_clock) 3)) /\
    w2.(sess) = (if delay_over 50000 (now (example_world 50000)) ((example_world 50000).(w_clock) 3)
      then Session.broadcast (fb_line 1 (2 + 1) 0 (now (example_world 50000)))
        (example_world 50000).(sess)
      else (example_world 50000).(sess)).
Proof.
  apply (release_delayed (example_world 50000) 1 2 example_contact 50000 3).
  - exact (fb_example_wf _).
  - vm_compute. reflexivity.
  - discriminate.
  - vm_compute. reflexivity.
  - discriminate.
  - vm_compute. reflexivity.
Defined.

(** A new impulse on a contact whose reset is pending changes nothing, so
    the reset is carried out when the minimal time is over and the contact
    reads 0 although it is occupied again. *)
Theorem new_impulse_lost w b i c mt n :
  fb_wf w -> contact_at w b i = Some c -> c.(fb_state) = 1 -> w.(min_time) !! b = Some mt ->
  0 < mt -> resets w b = [] ->
  let late := w.(w_clock) n in
  mt <= late.(tv_usec) - (now w).(tv_usec) + (late.(tv_sec) - (now w).(tv_sec)) * 1000000 ->
  exists w1 w2, updateFB b (i + 1) 0 w = Some (SRCP_OK, w1) /\
    updateFB b (i + 1) 1 w1 = Some (SRCP_OK, w1) /\
    check_reset_fb b (at_time n w1) = Some (tt, w2) /\ state_of w2 b i = Some 0.
Proof.
  intros Hw Hc Hst Hmt Hmt0 Hr late Hlate.
  destruct (release_then_check w b i c mt n Hw Hc) as (w1 & w2 & E1 & _ & Hc1 & Hw1 & E2 & Hc2 & _);
    [lia | done | lia | done |].
  exists w1, w2. split; [done |]. split; [by apply (updateFB_same w1 b i _ Hc1) |].
  split; [done |]. unfold state_of. rewrite Hc2. unfold after_check, delay_over. fold late.
  apply Z.leb_le in Hlate. by rewrite Hlate.
Qed.

Lemma new_impulse_lost_witness :
  exists w1 w2, updateFB 1 (2 + 1) 0 (example_world 50000) = Some (SRCP_OK, w1) /\
    updateFB 1 (2 + 1) 1 w1 = Some (SRCP_OK, w1) /\
    check_reset_fb 1 (at_time 3 w1) = Some (tt, w2) /\ state_of w2 1 2 = Some 0.
Proof.
  apply (new_impulse_lost (example_world 50000) 1 2 example_contact 50000 3).
  - exact (fb_example_wf _).
  - vm_compute. reflexivity.
  - reflexivity.
  - vm_compute. reflexivity.
  - lia.
  - vm_compute. reflexivity.
  - vm_compute. discriminate.
Defined.

(** The loop over the delayed resets ends in every well-formed state,
    without an access outside the contacts, and only takes entries off the
    head of the queue. *)
Theorem check_reset_ends w b : fb_wf w -> 0 <= b < MAX_BUSES ->
  exists w', check_reset_fb b w = Some (tt, w') /\ fb_wf w' /\ suffix (resets w' b) (resets w b).
Proof. apply check_reset_spec. Qed.

Lemma check_reset_ends_witness :
  exists w', check_reset_fb 1 (example_world 50000) = Some (tt, w') /\ fb_wf w' /\
    suffix (resets w' 1) (resets (example_world 50000) 1).
Proof. apply check_reset_ends; [exact (fb_example_wf _) | done]. Defined.

(** A module's value sets each of its contacts to the bit the bus's flags
    choose (lowest bit first or last, 4, 8 or 16 contacts), and no other
    contact. *)
Theorem module_sets_contacts w b modul values bd :
  fb_wf w -> w.(buses) !! b = Some bd -> w.(min_time) !! b = Some 0 ->
  (forall k, 0 <= k < module_ports bd.(flags) ->
    settled w b ((modul - 1) * module_ports bd.(flags) + k)) ->
  exists rc w', setFBmodul b modul values w = Some (rc, w') /\
    (forall k, 0 <= k < module_ports bd.(flags) ->
      state_of w' b ((modul - 1) * module_ports bd.(flags) + k) =
      Some (if Z.testbit values (contact_bit bd.(flags) k) then 1 else 0)) /\
    (forall j, ~ ((modul - 1) * module_ports bd.(flags) <= j < modul * module_ports bd.(flags)) ->
      contact_at w' b j = contact_at w b j).
Proof. apply setFBmodul_spec. Qed.

Lemma module_sets_contacts_witness :
  exists rc w', setFBmodul 1 1 0x35 (example_world 0) = Some (rc, w') /\
    (forall k, 0 <= k < module_ports example_bus.(flags) ->
      state_of w' 1 ((1 - 1) * module_ports example_bus.(flags) + k) =
      Some (if Z.testbit 0x35 (contact_bit example_bus.(flags) k) then 1 else 0)) /\
    (forall j, ~ ((1 - 1) * module_ports example_bus.(flags) <= j <
        1 * module_ports example_bus.(flags)) ->
      contact_at w' 1 j = contact_at (example_world 0) 1 j).
Proof.
  apply module_sets_contacts.
  - exact (fb_example_wf _).
  - vm_compute. reflexivity.
  - vm_compute. reflexivity.
  - intros k Hk. change (module_ports _) with 8 in *.
    assert (Hk' : k ∈ seqZ 0 8) by (apply elem_of_seqZ; lia).
    clear Hk. revert k Hk'. apply Forall_forall. repeat constructor;
      unfold settled; eexists; (split; [vm_compute; reflexivity | done]).
Defined.
End FBSpec.
