(* ===== verification/Clock.v ===== *)
(** srcp-time.c: the model clock, its distortion and its thread. *)

From S2P Require Import Prelude Ring World Messages Session Services.

Module TIME.

(** * Operations *)

Definition startup_TIME : prog world Z :=
  let* t := gettimeofday in
  do* modify (fun w => w <| distort ::= fun d => d <| distort_inittime := t |> |>) in
  ret 0.

Definition set_time (vt : vtime_t) : prog world unit := modify (fun w => w <| vtime := vt |>).

Definition getTIME : prog world (Z * vtime_t) := let* vt := gets vtime in ret (SRCP_OK, vt).

Definition get_distortion : prog world (Z * time_distort_t) :=
  let* td := gets distort in ret (SRCP_OK, td).

Definition time_is_available : prog world bool :=
  gets (fun w => (0 <? w.(distort).(ratio_x)) && (0 <? w.(distort).(ratio_y))).

Definition infoTIME : prog world (Z * string) :=
  let* available := time_is_available in
  if negb available then ret (SRCP_NODATA, ""%string)
  else
    let* '(result, vt) := getTIME in
    if negb (result =? SRCP_OK) then ret (result, ""%string)
    else
      let* akt_time := gettimeofday in
      ret (SRCP_INFO, fmt [stamp akt_time; " 100 INFO 0 TIME "; dec vt.(day); " ";
                           dec vt.(hour); " "; dec vt.(min); " "; dec vt.(sec); nl]).

Definition describeTIME : prog world (Z * string) :=
  let* '(result, td) := get_distortion in
  if negb (result =? SRCP_OK) then ret (result, ""%string)
  else ret (SRCP_INFO, fmt [stamp td.(distort_inittime); " 101 INFO 0 TIME ";
                            dec td.(ratio_x); " "; dec td.(ratio_y); nl]).

Definition setTIME (d h m s : Z) : prog world Z :=
  if (d <? 0) || (h <? 0) || (23 <? h) || (m <? 0) || (59 <? m) || (s <? 0) || (59 <? s)
  then ret SRCP_WRONGVALUE
  else
    do* set_time (mk_vtime d h m s) in
    let* '(_, msg) := infoTIME in
    do* enqueueInfoMessage msg in
    ret SRCP_OK.

Definition initTIME (fx fy : Z) : prog world Z :=
  if (fx <? 0) || (fy <=? 0) then ret SRCP_WRONGVALUE
  else
    let* t := gettimeofday in
    do* modify (fun w => w <| distort := mk_distort fx fy t |>) in
    let* '(_, msg) := describeTIME in
    do* enqueueInfoMessage msg in
    ret SRCP_OK.

Definition termTIME : prog world Z :=
  do* modify (fun w => w <| distort ::= fun d => d <| ratio_x := 0 |> <| ratio_y := 0 |> |>) in
  let* current_time := gettimeofday in
  do* enqueueInfoMessage (snprintf 100 (fmt [stamp current_time; " 102 INFO 0 TIME"; nl])) in
  ret SRCP_OK.

(** * The clock thread *)

Definition INT_MAX : Z := 2147483647.

(** [z++] on an [int]: an overflow is undefined. *)
Definition incr (z : Z) : option Z := if z <? INT_MAX then Some (z + 1) else None.

(** The time one second on, and whether the second wrapped. *)
Definition next_time (vt : vtime_t) : option (vtime_t * bool) :=
  match incr vt.(sec) with
  | None => None
  | Some sec =>
      let '(sec, min, sendinfo) :=
        if 60 <=? sec then (0, incr vt.(min), true) else (sec, Some vt.(min), false) in
      match min with
      | None => None
      | Some min =>
          let '(min, hour) := if 60 <=? min then (0, incr vt.(hour)) else (min, Some vt.(hour)) in
          match hour with
          | None => None
          | Some hour =>
              let '(hour, day) := if 24 <=? hour then (0, incr vt.(day)) else (hour, Some vt.(day)) in
              match day with
              | None => None
              | Some day => Some (mk_vtime day hour min sec, sendinfo)
              end
          end
      end
  end.

(** One turn of the thread.  [sleeping] is what the other threads do while it
    sleeps, [racing] what they do between its read of the time and its write,
    where it holds no mutex.  The result is the time slept, [None] when the
    clock is stopped and the thread waits. *)
Definition thr_clock_turn (sleeping racing : prog world unit) : prog world (option Z) :=
  let* d := gets distort in
  if (d.(ratio_x) =? 0) || (d.(ratio_y) =? 0) then ret None
  else
    do* guard (1000000 * d.(ratio_y) <=? INT_MAX) in
    let sleeptime := Z.quot (1000000 * d.(ratio_y)) d.(ratio_x) in
    do* sleeping in
    let* '(_, vt) := getTIME in
    let* '(vt, sendinfo) := need (next_time vt) in
    do* racing in
    do* set_time vt in
    do* (if (sendinfo : bool)
         then let* '(_, msg) := infoTIME in enqueueInfoMessage msg
         else ret tt) in
    ret (Some sleeptime).

(** [n] turns that no other thread disturbs. *)
Fixpoint turns (n : nat) : prog world unit :=
  match n with
  | O => ret tt
  | S n => do* thr_clock_turn (ret tt) (ret tt) in turns n
  end.

(** * Valid times *)

Record time_ok (vt : vtime_t) : Prop := {
  tok_day : 0 <= vt.(day);
  tok_hour : 0 <= vt.(hour) <= 23;
  tok_min : 0 <= vt.(min) <= 59;
  tok_sec : 0 <= vt.(sec) <= 59;
}.

(** The seconds since day 0. *)
Definition seconds (vt : vtime_t) : Z :=
  ((vt.(day) * 24 + vt.(hour)) * 60 + vt.(min)) * 60 + vt.(sec).

Ltac step H := rewrite (bind_some _ _ _ _ _ H).

Lemma next_time_spec vt : time_ok vt -> vt.(day) < INT_MAX ->
  exists vt', next_time vt = Some (vt', vt.(sec) =? 59) /\ time_ok vt' /\
    seconds vt' = seconds vt + 1 /\ vt'.(day) <= vt.(day) + 1.
Proof.
  intros [D H M T] Hd. unfold INT_MAX in *. unfold next_time, incr, INT_MAX, seconds.
  destruct vt as [d h m s]. cbn in *.
  destruct (Z.ltb_spec s 2147483647); [| lia].
  destruct (Z.leb_spec 60 (s + 1)); cycle 1.
  { destruct (Z.leb_spec 60 m); [lia |]. destruct (Z.leb_spec 24 h); [lia |].
    replace (s =? 59) with false by (symmetry; apply Z.eqb_neq; lia).
    eexists. split; [reflexivity |]. cbn. split; [split; cbn; lia | lia]. }
  replace (s =? 59) with true by (symmetry; apply Z.eqb_eq; lia).
  destruct (Z.ltb_spec m 2147483647); [| lia]. destruct (Z.leb_spec 60 (m + 1)); cycle 1.
  { destruct (Z.leb_spec 24 h); [lia |].
    eexists. split; [reflexivity |]. cbn. split; [split; cbn; lia | lia]. }
  destruct (Z.ltb_spec h 2147483647); [| lia]. destruct (Z.leb_spec 24 (h + 1)); cycle 1.
  { eexists. split; [reflexivity |]. cbn. split; [split; cbn; lia | lia]. }
  destruct (Z.ltb_spec d 2147483647); [| lia].
  eexists. split; [reflexivity |]. cbn. split; [split; cbn; lia | lia].
Qed.

(** The clock runs: the ratio is positive and the product fits an [int]. *)
Definition running (w : world) : Prop :=
  0 < w.(distort).(ratio_x) /\ 0 < w.(distort).(ratio_y) <= 2147.

Definition time_line (vt : vtime_t) (t : timeval) : string :=
  fmt [stamp t; " 100 INFO 0 TIME "; dec vt.(day); " "; dec vt.(hour); " "; dec vt.(min);
       " "; dec vt.(sec); nl].

Lemma infoTIME_running w : running w ->
  infoTIME w = Some ((SRCP_INFO, time_line w.(vtime) (now w)), tick w).
Proof.
  intros [Hx Hy]. unfold infoTIME, time_is_available. unfold bind at 1, gets.
  apply Z.ltb_lt in Hx. rewrite Hx. replace (0 <? ratio_y (distort w)) with true; [done |].
  symmetry. apply Z.ltb_lt. lia.
Qed.

(** The world after the thread stored [vt]: the info sessions hear of it at
    each full minute. *)
Definition clocked (vt : vtime_t) (sendinfo : bool) (w : world) : world :=
  let w := w <| vtime := vt |> in
  if sendinfo then announce (time_line vt (now w)) (tick w) else w.

(** A turn during which the others run [racing], which keeps the clock
    running: its effect is decided by the time read before the race. *)
Lemma turn_spec w racing w1 vt' :
  running w -> time_ok w.(vtime) -> next_time w.(vtime) = Some (vt', w.(vtime).(sec) =? 59) ->
  racing w = Some (tt, w1) -> running w1 -> sess_ok w1 ->
  thr_clock_turn (ret tt) racing w =
    Some (Some (Z.quot (1000000 * w.(distort).(ratio_y)) w.(distort).(ratio_x)),
      clocked vt' (w.(vtime).(sec) =? 59) w1).
Proof.
  intros [Hx Hy] Ht Hn Hr Hrun Hs. unfold thr_clock_turn. unfold bind at 1, gets.
  replace ((ratio_x (distort w) =? 0) || (ratio_y (distort w) =? 0)) with false by zbool.
  unfold bind at 1, guard.
  replace (1000000 * ratio_y (distort w) <=? INT_MAX) with true
    by (symmetry; apply Z.leb_le; unfold INT_MAX; lia).
  cbn [ret]. unfold ret at 1, bind at 1, ret at 1. unfold getTIME, gets.
  unfold bind at 1 2, ret at 1. rewrite Hn. cbn [need]. unfold bind at 1, ret at 1. step Hr.
  unfold bind at 1. unfold set_time, modify. set (w2 := w1 <| vtime := vt' |>).
  unfold clocked. fold w2. destruct (sec (vtime w) =? 59); [| done].
  unfold bind at 1. rewrite (bind_some infoTIME _ w2 _ _ (infoTIME_running w2 Hrun)).
  rewrite enqueueInfoMessage_spec by done. done.
Qed.

Lemma clocked_keeps vt b w : (clocked vt b w).(distort) = w.(distort) /\
  (clocked vt b w).(vtime) = vt /\ (sess_ok w -> sess_ok (clocked vt b w)).
Proof.
  unfold clocked. destruct b; [| done]. split; [done |]. split; [done |]. intros H.
  by apply announce_ok.
Qed.

Lemma turns_spec n : forall w, running w -> time_ok w.(vtime) -> sess_ok w ->
  w.(vtime).(day) + Z.of_nat n <= INT_MAX ->
  exists w', turns n w = Some (tt, w') /\ time_ok w'.(vtime) /\
    seconds w'.(vtime) = seconds w.(vtime) + Z.of_nat n /\ sess_ok w'.
Proof.
  induction n as [| n IH]; intros w Hr Ht Hs Hd.
  { exists w. split; [done |]. split; [done |]. split; [lia | done]. }
  destruct (next_time_spec w.(vtime) Ht) as (vt & Hn & Hok & Hsec & Hday); [lia |].
  pose proof (turn_spec w (ret tt) w vt Hr Ht Hn eq_refl Hr Hs) as E.
  destruct (clocked_keeps vt (w.(vtime).(sec) =? 59) w) as (K1 & K2 & K3).
  destruct (IH (clocked vt (w.(vtime).(sec) =? 59) w)) as (w' & E' & Hok' & Hsec' & Hs').
  - unfold running. by rewrite K1.
  - by rewrite K2.
  - by apply K3.
  - rewrite K2. lia.
  - exists w'. split; [cbn [turns]; by step E |]. split; [done |]. split; [| done].
    rewrite Hsec', K2, Hsec. lia.
Qed.

(** * Setting the time *)

Lemma setTIME_running w d h m s : running w -> sess_ok w -> time_ok (mk_vtime d h m s) ->
  setTIME d h m s w = Some (SRCP_OK,
    announce (time_line (mk_vtime d h m s) (now w)) (tick (w <| vtime := mk_vtime d h m s |>))).
Proof.
  intros Hr Hs [D H M T]. cbn in *. unfold setTIME.
  replace (_ || _) with false.
  2:{ symmetry. repeat (apply orb_false_iff; split); zbool. }
  unfold bind at 1, set_time, modify. set (w1 := w <| vtime := mk_vtime d h m s |>).
  rewrite (bind_some infoTIME _ w1 _ _ (infoTIME_running w1 Hr)).
  rewrite (bind_some _ _ _ _ _ (enqueueInfoMessage_spec (time_line (mk_vtime d h m s) (now w))
    (tick w1) Hs)). done.
Qed.

Lemma setTIME_wrong w d h m s : ~ time_ok (mk_vtime d h m s) ->
  setTIME d h m s w = Some (SRCP_WRONGVALUE, w).
Proof.
  intros Hn. unfold setTIME. destruct (_ || _) eqn:E; [done |]. exfalso. apply Hn.
  bool_hyps. split; cbn; lia.
Qed.

(** * An example *)

Definition example_world : world :=
  (initial_world (fun n => mk_timeval (Z.of_nat n) 0) 4)
    <| vtime := mk_vtime 3 23 59 59 |> <| distort := mk_distort 4 1 timeval0 |>.

Lemma example_ok : running example_world /\ time_ok example_world.(vtime) /\ sess_ok example_world.
Proof.
  split; [split; cbn; lia |]. split; [split; cbn; lia |].
  exact (initial_sess_ok (fun n => mk_timeval (Z.of_nat n) 0) 4).
Qed.

(** * The properties *)

(** The model clock counts: [n] turns of the clock thread advance the time
    by [n] seconds, over minutes, hours and days, and leave a valid time. *)
Theorem clock_counts n w : running w -> time_ok w.(vtime) -> sess_ok w ->
  w.(vtime).(day) + Z.of_nat n <= INT_MAX ->
  exists w', turns n w = Some (tt, w') /\ time_ok w'.(vtime) /\
    seconds w'.(vtime) = seconds w.(vtime) + Z.of_nat n.
Proof.
  intros Hr Ht Hs Hd. destruct (turns_spec n w Hr Ht Hs Hd) as (w' & E & H1 & H2 & _).
  by exists w'.
Qed.

Lemma clock_counts_witness :
  exists w', turns 100 example_world = Some (tt, w') /\ time_ok w'.(vtime) /\
    seconds w'.(vtime) = seconds example_world.(vtime) + Z.of_nat 100.
Proof.
  apply clock_counts; [apply example_ok | apply example_ok | apply example_ok |].
  vm_compute. discriminate.
Defined.

(** A SET of the time that falls between the clock thread's read and write
    is answered 200 and reported, and then lost: the time after the turn is
    one second after the old time. *)
Theorem racing_set_lost w d h m s :
  running w -> time_ok w.(vtime) -> w.(vtime).(day) < INT_MAX -> sess_ok w ->
  time_ok (mk_vtime d h m s) ->
  exists r w', thr_clock_turn (ret tt) (do* setTIME d h m s in ret tt) w = Some (r, w') /\
    seconds w'.(vtime) = seconds w.(vtime) + 1.
Proof.
  intros Hr Ht Hd Hs Hok. destruct (next_time_spec w.(vtime) Ht Hd) as (vt & Hn & _ & Hsec & _).
  set (w1 := announce (time_line (mk_vtime d h m s) (now w))
    (tick (w <| vtime := mk_vtime d h m s |>))).
  assert (E : (do* setTIME d h m s in ret tt) w = Some (tt, w1))
    by (by rewrite (bind_some _ _ _ _ _ (setTIME_running w d h m s Hr Hs Hok))).
  assert (Hs1 : sess_ok w1) by (by apply announce_ok).
  eexists _, _. split; [exact (turn_spec w _ w1 vt Hr Ht Hn E Hr Hs1) |].
  by rewrite (proj1 (proj2 (clocked_keeps _ _ _))).
Qed.

Lemma racing_set_lost_witness :
  exists r w', thr_clock_turn (ret tt) (do* setTIME 7 12 0 0 in ret tt) example_world = Some (r, w') /\
    seconds w'.(vtime) = seconds example_world.(vtime) + 1.
Proof.
  apply racing_set_lost; [apply example_ok | apply example_ok | reflexivity | apply example_ok |].
  split; cbn; lia.
Defined.
End TIME.
