(* ===== verification/Program.v ===== *)
(** srcp-sm.c: service mode.  A command waits in a queue of its bus until the
    bus thread carries it out and hands the result to the waiting session. *)

From S2P Require Import Prelude Ring World Messages Session Services.

Module SM.

Definition QUEUELEN : Z := 2.

Ltac step H := rewrite (bind_some _ _ _ _ _ H).

(** * The queue *)

Definition queue_get (busnumber : Z) : prog world (Ring.t sm_t) :=
  fun w => need (w.(sm_queue) !! busnumber) w.
Definition queue_set (busnumber : Z) (q : Ring.t sm_t) : prog world unit :=
  modify (fun w => w <| sm_queue ::= <[busnumber := q]> |>).

Definition queue_SM_isempty (busnumber : Z) : prog world bool :=
  let* q := queue_get busnumber in ret (Ring.isempty q).
Definition queue_len (busnumber : Z) : prog world Z :=
  let* q := queue_get busnumber in ret (Ring.len QUEUELEN q).
Definition queue_isfull (busnumber : Z) : prog world bool :=
  let* q := queue_get busnumber in ret (Ring.isfull QUEUELEN q).

Definition enqueueSM (busnumber : Z) (protocol : sm_protocol_t) (command : sm_command_t)
    (type : sm_type_t) (addr typeaddr bit_index value : Z) : prog world Z :=
  let* full := queue_isfull busnumber in
  if (full : bool) then ret SRCP_TEMPORARILYPROHIBITED
  else
    let* akt_time := gettimeofday in
    let* q := queue_get busnumber in
    let* q := need (Ring.put QUEUELEN
      (mk_sm protocol type command 1 addr typeaddr bit_index value akt_time) q) in
    do* queue_set busnumber q in
    ret SRCP_OK.

(** The next entry and its index, or [None] for the result -1. *)
Definition getNextSM (busnumber : Z) : prog world (option (Z * sm_t)) :=
  let* q := queue_get busnumber in
  if Ring.isempty q then ret None
  else let* l := need (Ring.peek q) in ret (Some (q.(Ring.out), l)).

Definition dequeueNextSM (busnumber : Z) : prog world (option (Z * sm_t)) :=
  let* q := queue_get busnumber in
  match Ring.take QUEUELEN q with
  | None => ret None
  | Some (l, q) => do* queue_set busnumber q in ret (Some (q.(Ring.out), l))
  end.

(** * infoSM *)

(** [snprintf] of a line that reports [fields] into the reply buffer. *)
Definition sm_line (now : timeval) (busnumber addr : Z) (fields : list string) : string :=
  snprintf MAXSRCPLINELEN
    (fmt ([stamp now; " 100 INFO "; dec busnumber; " SM "; dec addr; " "] ++ fields ++ [nl]))%string.

(** [minfo[6]] with its first bytes given, each stored as a [char]. *)
Definition minfo (l : list Z) : list Z := (u8 <$> l) ++ repeat 0 (6 - length l).

(** What the [switch] over the type does with the [result] of a command: the
    status, and the reply text when it writes one. *)
Definition report_type (now : timeval) (busnumber : Z) (command : sm_command_t)
    (type : sm_type_t) (addr typeaddr bit_index value result status : Z)
    : prog world (Z * option string) :=
  match type with
  | CV =>
      let line := sm_line now busnumber addr ["CV "; dec typeaddr; " "; dec result]%string in
      let addr := if addr <? 0 then - addr else addr in
      do* (if decide (command = SET) then
             info_mcs busnumber 0x11 (Z.lor addr 0xC000)
               (minfo [4; Z.shiftr typeaddr 8; Z.land typeaddr 0xFF; result; 0xC0])
           else
             info_mcs busnumber 0x0F (Z.lor addr 0xC000)
               (minfo [3; Z.shiftr typeaddr 8; Z.land typeaddr 0xFF; result])) in
      ret (status, Some line)
  | REGISTER =>
      ret (status, Some (sm_line now busnumber addr ["REG "; dec typeaddr; " "; dec result]%string))
  | PAGE =>
      ret (status, Some (sm_line now busnumber addr ["PAGE "; dec typeaddr; " "; dec result]%string))
  | CV_BIT =>
      ret (status, Some (sm_line now busnumber addr
        ["CVBIT "; dec typeaddr; " "; dec bit_index; " "; dec result]%string))
  | MM_REG | MM_REG_UB =>
      do* (if decide (command = SET) then
             info_mcs busnumber 0x11 addr (minfo [4; 0; Z.land typeaddr 0xFF; value; 0x80])
           else info_mcs busnumber 3 result (minfo [1; 33])) in
      ret (status, None)
  | BIND_MFX =>
      if addr =? 0 then
        let status := if bool_decide (command = VERIFY) && negb (value =? result)
                      then SRCP_WRONGVALUE else status in
        do* info_mcs busnumber 1 0 (minfo [3; 9; Z.shiftr result 8; Z.land result 0xFF]) in
        ret (status, Some (sm_line now busnumber addr ["BIND "; dec (u32 result)]%string))
      else if decide (command = SET) then
        do* info_mcs busnumber 5 value (minfo [2; Z.shiftr addr 8; Z.land addr 0xFF; 0; 0; 5]) in
        ret (status, Some (sm_line now busnumber addr ["BIND "; dec (u32 value)]%string))
      else if decide (command = GET) then ret (SRCP_NODATA, None)
      else ret (status, None)
  | CV_MFX =>
      if decide (command = SET) then
        do* info_mcs busnumber 0x11 (Z.lor addr 0x4000)
          (minfo [4; Z.lor (Z.shiftr typeaddr 8) (Z.shiftl bit_index 2); Z.land typeaddr 0xFF;
                  value; 0x80]) in
        ret (status, Some (sm_line now busnumber addr
          ["CVMFX "; dec typeaddr; " "; dec bit_index; " "; dec value]%string))
      else ret (status, None)
  | NO_TYPE => ret (status, None)
  end.

(** [if (info[0])] *)
Definition announce_reply (info : string) : prog world unit :=
  match info with
  | EmptyString => ret tt
  | String _ _ => enqueueInfoMessage info
  end.

(** [others] is what the other threads do while the session waits; [info] is
    the text the caller's buffer holds at the call. *)
Definition infoSM (others : prog world bool) (busnumber : Z) (protocol : sm_protocol_t)
    (command : sm_command_t) (type : sm_type_t) (addr typeaddr bit_index value : Z)
    (info : string) : prog world (Z * string) :=
  let* status := enqueueSM busnumber protocol command type addr typeaddr bit_index value in
  let* '(timedout, result) := session_condt_wait others busnumber in
  if (timedout : bool) then ret (SRCP_TIMEOUT, info)
  else
    let* now := gettimeofday in
    if result =? -2 then ret (SRCP_TEMPORARILYPROHIBITED, info)
    else if (result =? -1) ||
        (bool_decide (command = VERIFY) && negb (value =? result) && negb (bool_decide (type = BIND_MFX)))
    then ret (SRCP_WRONGVALUE, info)
    else
      let* '(status, line) :=
        report_type now busnumber command type addr typeaddr bit_index value result status in
      let info := default info line in
      do* announce_reply info in
      ret (status, info).

(** * Commands of the CAN gateway *)

(** [reply] is an uninitialised buffer; [garbage] is the text it holds. *)
Definition handle_mfx_bind_verify (others : prog world bool) (garbage : string)
    (bus : Z) (cmnd : sm_command_t) (val addr : Z) : prog world unit :=
  do* infoSM others bus PROTO_MFX cmnd BIND_MFX addr (-1) (-1) (i32 val) garbage in ret tt.

Definition handle_mcs_config (others : prog world bool) (garbage : string) (bus : Z)
    (command : sm_command_t) (uid cvaddr cvindex value ctrl : Z) : prog world unit :=
  let addr := Z.land uid 0x3fff in
  let run protocol type addr cvindex value :=
    do* infoSM others bus protocol command type addr cvaddr cvindex value garbage in ret tt in
  match Z.shiftr uid 14 with
  | 0 =>
      if decide (command = GET) then ret tt
      else run PROTO_MM (if negb (Z.land ctrl 0x10 =? 0) then MM_REG_UB else MM_REG) addr cvindex value
  | 1 => run PROTO_MFX CV_MFX addr cvindex value
  | 3 =>
      let addr' := if Z.land ctrl 0x80 =? 0 then - addr else addr in
      match Z.land ctrl 0x30 with
      | 0x00 => run PROTO_NMRA CV addr' cvindex value
      | 0x10 => run PROTO_NMRA REGISTER addr' cvindex value
      | 0x20 => run PROTO_NMRA CV_BIT addr' (Z.land value 7) (Z.land (Z.shiftr value 3) 1)
      | _ => ret tt
      end
  | _ => ret tt
  end.

Definition handle_mcs_discovery (others : prog world bool) (garbage : string)
    (bus proto uid : Z) : prog world unit :=
  match proto with
  | 33 | 34 =>
      do* infoSM others bus PROTO_MM GET MM_REG 0 (-1) proto (-1) garbage in ret tt
  | _ => ret tt
  end.

(** * Well-formed states *)

Record sm_wf (w : world) : Prop := {
  smwf_sess : sess_ok w;
  smwf_rings : forall b q, w.(sm_queue) !! b = Some q -> Ring.wf QUEUELEN q;
  smwf_queue : is_array MAX_BUSES w.(sm_queue);
  smwf_data : is_array MAX_BUSES w.(cb_data);
}.

(** The commands that wait on a bus. *)
Definition pending (w : world) (b : Z) : list sm_t :=
  match w.(sm_queue) !! b with Some q => Ring.contents QUEUELEN q | None => [] end.

Definition requeue (b : Z) (q : Ring.t sm_t) (w : world) : world :=
  w <| sm_queue ::= <[b := q]> |>.

(** The bus thread takes a command off the queue and answers [r]. *)
Definition answer (b r : Z) : prog world bool :=
  do* dequeueNextSM b in do* session_endwait b r in ret false.

(** What the operations of this file leave alone. *)
Definition quiet (w w' : world) : Prop :=
  w'.(sess) = w.(sess) /\ w'.(mcs) = w.(mcs) /\ w'.(w_clock) = w.(w_clock).

Lemma quiet_trans w1 w2 w3 : quiet w1 w2 -> quiet w2 w3 -> quiet w1 w3.
Proof. unfold quiet. intuition congruence. Qed.

Lemma sm_queue_some w b q : w.(sm_queue) !! b = Some q -> queue_get b w = Some (q, w).
Proof. intros H. unfold queue_get, need. by rewrite H. Qed.

Lemma requeue_wf w b q : sm_wf w -> 0 <= b < MAX_BUSES -> Ring.wf QUEUELEN q ->
  sm_wf (requeue b q w).
Proof.
  intros [W1 W2 W3 W4] Hb Hq. split; cbn; try done.
  - intros b' q'. destruct (decide (b = b')) as [<- |].
    + rewrite lookup_insert_eq. by intros [= <-].
    + rewrite lookup_insert_ne by done. apply W2.
  - by apply is_array_insert.
Qed.

Lemma pending_requeue w b q : pending (requeue b q w) b = Ring.contents QUEUELEN q.
Proof. unfold pending, requeue. cbn. by rewrite lookup_insert_eq. Qed.

Section Command.
Context (w : world) (b : Z) (Hw : sm_wf w) (Hb : 0 <= b < MAX_BUSES).
Context (protocol : sm_protocol_t) (command : sm_command_t) (type : sm_type_t).
Context (addr typeaddr bit_index value : Z).

Lemma isfull_pending q : w.(sm_queue) !! b = Some q ->
  Ring.isfull QUEUELEN q = negb (bool_decide (pending w b = [])).
Proof.
  intros Hq. pose proof (Ring.isfull_spec QUEUELEN q (smwf_rings _ Hw _ _ Hq)) as F.
  unfold pending. rewrite Hq. destruct (Ring.contents QUEUELEN q) as [| c l].
  - rewrite bool_decide_true by done. apply not_true_iff_false. rewrite F. cbn. unfold QUEUELEN. lia.
  - rewrite bool_decide_false by done. apply F. cbn [length]. unfold QUEUELEN. lia.
Qed.

(** A command is queued when none waits. *)
Lemma enqueueSM_free : pending w b = [] ->
  exists w', enqueueSM b protocol command type addr typeaddr bit_index value w =
    Some (SRCP_OK, w') /\ sm_wf w' /\ quiet w w' /\
    pending w' b = [mk_sm protocol type command 1 addr typeaddr bit_index value (now w)] /\
    w'.(buses) = w.(buses).
Proof.
  intros Hp. destruct (is_array_lookup _ _ b (smwf_queue _ Hw) Hb) as [q Hq].
  pose proof (isfull_pending q Hq) as F. rewrite bool_decide_true in F by done. cbn in F.
  set (c := mk_sm protocol type command 1 addr typeaddr bit_index value (now w)).
  destruct (Ring.put_spec _ q c (smwf_rings _ Hw _ _ Hq) F) as (q' & Eq & Hr & Hcon).
  exists (requeue b q' (tick w)).
  assert (Hw1 : sm_wf (tick w)) by (by destruct Hw).
  split; [| split; [by apply requeue_wf | split; [done |]]].
  - unfold enqueueSM, queue_isfull. unfold bind at 1. step (sm_queue_some _ _ _ Hq).
    unfold ret at 1. rewrite F. step (gettimeofday_spec w).
    step (sm_queue_some (tick w) _ _ Hq). fold c. by rewrite Eq.
  - split; [| done]. rewrite pending_requeue, Hcon. unfold pending in Hp. rewrite Hq in Hp.
    by rewrite Hp.
Qed.

(** A command is refused while another one waits. *)
Lemma enqueueSM_busy : pending w b <> [] ->
  enqueueSM b protocol command type addr typeaddr bit_index value w =
    Some (SRCP_TEMPORARILYPROHIBITED, w).
Proof.
  intros Hp. destruct (is_array_lookup _ _ b (smwf_queue _ Hw) Hb) as [q Hq].
  pose proof (isfull_pending q Hq) as F. rewrite bool_decide_false in F by done. cbn in F.
  unfold enqueueSM, queue_isfull. unfold bind at 1. step (sm_queue_some _ _ _ Hq).
  unfold ret at 1. by rewrite F.
Qed.

(** The bus thread takes the command off the queue. *)
Lemma dequeue_pending c l : pending w b = c :: l ->
  exists i q, dequeueNextSM b w = Some (Some (i, c), requeue b q w) /\ Ring.wf QUEUELEN q /\
    Ring.contents QUEUELEN q = l.
Proof.
  intros Hp. destruct (is_array_lookup _ _ b (smwf_queue _ Hw) Hb) as [q Hq].
  unfold pending in Hp. rewrite Hq in Hp.
  destruct (Ring.take_spec _ q c l (smwf_rings _ Hw _ _ Hq) Hp) as (q' & E & Hr & Hc).
  exists q'.(Ring.out), q'. split; [| done].
  unfold dequeueNextSM. step (sm_queue_some _ _ _ Hq). by rewrite E.
Qed.

Lemma endwait_spec r :
  session_endwait b r w = Some (r, w <| cb_data ::= <[b := r]> |>) /\
  sm_wf (w <| cb_data ::= <[b := r]> |>).
Proof.
  destruct (is_array_lookup _ _ b (smwf_data _ Hw) Hb) as [v Hv]. split.
  - unfold session_endwait, bind, get, need. by rewrite Hv.
  - destruct Hw. split; cbn; try done. by apply is_array_insert.
Qed.

(** The wait returns what the others left in the bus's cell. *)
Lemma wait_spec others timedout w1 r :
  others (tick w) = Some (timedout, w1) -> w1.(cb_data) !! b = Some r ->
  session_condt_wait others b w = Some ((timedout, r), w1).
Proof.
  intros E Hr. unfold session_condt_wait. step (gettimeofday_spec w). step E.
  unfold bind, get, need. by rewrite Hr.
Qed.
End Command.

(** The wait ends with the answer, and the command left the queue. *)
Lemma wait_answer w b r c l : sm_wf w -> 0 <= b < MAX_BUSES -> pending w b = c :: l ->
  exists w', session_condt_wait (answer b r) b w = Some ((false, r), w') /\ sm_wf w' /\
    quiet w w' /\ pending w' b = l.
Proof.
  intros Hw Hb Hp. assert (Hw0 : sm_wf (tick w)) by (by destruct Hw).
  destruct (dequeue_pending (tick w) b Hw0 Hb c l Hp) as (i & q & E & Hr & Hc).
  assert (Hw1 : sm_wf (requeue b q (tick w))) by (by apply requeue_wf).
  destruct (endwait_spec _ b Hw1 Hb r) as [E2 Hw2]. eexists.
  split; [| split; [exact Hw2 | split; [done |]]].
  - apply wait_spec; [| cbn; apply lookup_insert_eq]. unfold answer. step E. by step E2.
  - change (pending (requeue b q (tick w)) b = l). by rewrite pending_requeue.
Qed.

(** ** The lines *)

Lemma fmt_nonempty l : existsb (fun s => negb (String.eqb s "")) l = true -> fmt l <> ""%string.
Proof.
  induction l as [| s l IH]; [done |]. cbn. destruct s; cbn; [| done]. exact IH.
Qed.

Lemma sm_line_nonempty t b addr fields : sm_line t b addr fields <> ""%string.
Proof.
  unfold sm_line, snprintf. assert (H : fmt ([stamp t; " 100 INFO "; dec b; " SM "; dec addr; " "]%string
    ++ fields ++ [nl]) <> ""%string).
  { apply fmt_nonempty. cbn. by rewrite !orb_true_r. }
  destruct (fmt _) as [| a s]; [done |]. done.
Qed.

Lemma announce_reply_spec info w : info <> ""%string -> sess_ok w ->
  announce_reply info w = Some (tt, announce info w).
Proof. intros Hn Hs. destruct info; [done |]. by apply enqueueInfoMessage_spec. Qed.

Lemma info_mcs_minfo bus id item l w : (length l <= 4)%nat ->
  exists rc, info_mcs bus id item (minfo (Z.of_nat (length l) :: l)) w =
    Some (rc, sync bus id item (u8 <$> l) w).
Proof.
  intros Hl. unfold minfo. cbn [fmap list_fmap app].
  destruct (info_mcs_spec bus id item (u8 <$> l)
    (repeat 0 (6 - length (Z.of_nat (length l) :: l))) w) as (rc & E & _).
  { by rewrite length_fmap. }
  exists rc. rewrite length_fmap in E. rewrite <- E. f_equal. f_equal.
  apply wrap_small. change (2 ^ 8) with 256. lia.
Qed.

(** ** The outcome of a command for a decoder on the track *)

(** What the line for a type says of the result [r]. *)
Definition fields (type : sm_type_t) (typeaddr bit_index r : Z) : option (list string) :=
  match type with
  | CV => Some ["CV "; dec typeaddr; " "; dec r]
  | REGISTER => Some ["REG "; dec typeaddr; " "; dec r]
  | PAGE => Some ["PAGE "; dec typeaddr; " "; dec r]
  | CV_BIT => Some ["CVBIT "; dec typeaddr; " "; dec bit_index; " "; dec r]
  | _ => None
  end%string.

(** The world after the report: a CV is also reported on the CAN bus. *)
Definition reported (b : Z) (command : sm_command_t) (type : sm_type_t)
    (addr typeaddr r : Z) (line : string) (w : world) : world :=
  announce line
    (if decide (type = CV) then
       if decide (command = SET)
       then sync b 0x11 (Z.lor (Z.abs addr) 0xC000)
              (u8 <$> [Z.shiftr typeaddr 8; Z.land typeaddr 0xFF; r; 0xC0]) w
       else sync b 0x0F (Z.lor (Z.abs addr) 0xC000)
              (u8 <$> [Z.shiftr typeaddr 8; Z.land typeaddr 0xFF; r]) w
     else w).

Lemma report_type_track t b command type addr typeaddr bit_index value r status fs w :
  fields type typeaddr bit_index r = Some fs ->
  exists w', report_type t b command type addr typeaddr bit_index value r status w =
    Some ((status, Some (sm_line t b addr fs)), w') /\
    announce (sm_line t b addr fs) w' = reported b command type addr typeaddr r (sm_line t b addr fs) w /\
    (sess_ok w -> sess_ok w').
Proof.
  intros Hf. destruct type; cbn in Hf; try done; injection Hf as <-;
    try (exists w; split; [reflexivity |]; split; [done | done]).
  unfold report_type, reported. destruct (decide (CV = CV)); [| done].
  replace (if addr <? 0 then - addr else addr) with (Z.abs addr) by (destruct (Z.ltb_spec addr 0); lia).
  destruct (decide (command = SET)).
  - destruct (info_mcs_minfo b 0x11 (Z.lor (Z.abs addr) 0xC000)
      [Z.shiftr typeaddr 8; Z.land typeaddr 0xFF; r; 0xC0] w) as (rc & E); [cbn; lia |].
    eexists. unfold bind. cbn [length] in E. change (Z.of_nat 4) with 4 in E. rewrite E.
    split; [reflexivity |]. split; [done |]. unfold sync. by destruct (b =? _).
  - destruct (info_mcs_minfo b 0x0F (Z.lor (Z.abs addr) 0xC000)
      [Z.shiftr typeaddr 8; Z.land typeaddr 0xFF; r] w) as (rc & E); [cbn; lia |].
    eexists. unfold bind. cbn [length] in E. change (Z.of_nat 3) with 3 in E. rewrite E.
    split; [reflexivity |]. split; [done |]. unfold sync. by destruct (b =? _).
Qed.

(** A report changes the sessions and the CAN bus only. *)
Lemma reported_keeps b command type addr typeaddr r line w :
  let w' := reported b command type addr typeaddr r line w in
  w'.(sess) = Session.broadcast line w.(sess) /\ w'.(sm_queue) = w.(sm_queue) /\
  w'.(cb_data) = w.(cb_data) /\ (sess_ok w -> sess_ok w') /\ w'.(buses) = w.(buses).
Proof.
  unfold reported, sync. cbv zeta. destruct (decide (type = CV)), (decide (command = SET)), (b =? w.(mcs).(mcs_bus));
    (do 3 (split; [done |])); (split; [| done]); intros H; by apply announce_ok.
Qed.

(** The status of an answered command. *)
Definition outcome (command : sm_command_t) (value r status : Z) : Z :=
  if r =? -2 then SRCP_TEMPORARILYPROHIBITED
  else if (r =? -1) || (bool_decide (command = VERIFY) && negb (value =? r)) then SRCP_WRONGVALUE
  else status.

(** The code after the wait. *)
Definition answered (r : Z) (busnumber : Z) (command : sm_command_t) (type : sm_type_t)
    (addr typeaddr bit_index value status : Z) (info : string) : prog world (Z * string) :=
  let* now := gettimeofday in
  if r =? -2 then ret (SRCP_TEMPORARILYPROHIBITED, info)
  else if (r =? -1) ||
      (bool_decide (command = VERIFY) && negb (value =? r) && negb (bool_decide (type = BIND_MFX)))
  then ret (SRCP_WRONGVALUE, info)
  else
    let* '(status, line) :=
      report_type now busnumber command type addr typeaddr bit_index value r status in
    let info := default info line in
    do* announce_reply info in
    ret (status, info).

Lemma answered_track r b command type addr typeaddr bit_index value status info fs w :
  sess_ok w -> fields type typeaddr bit_index r = Some fs ->
  exists info', answered r b command type addr typeaddr bit_index value status info w =
    Some ((outcome command value r status, info'),
      if outcome command value r 0 =? 0
      then reported b command type addr typeaddr r (sm_line (now w) b addr fs) (tick w)
      else tick w) /\
    (outcome command value r 0 = 0 -> info' = sm_line (now w) b addr fs).
Proof.
  intros Hs Hf. unfold answered, outcome. step (gettimeofday_spec w).
  assert (Ht : bool_decide (type = BIND_MFX) = false) by (apply bool_decide_false; by intros ->).
  rewrite Ht, andb_true_r. destruct (Z.eqb_spec r (-2)); [by exists info |].
  destruct ((r =? -1) || _); [by exists info |].
  destruct (report_type_track (now w) b command type addr typeaddr bit_index value r status fs (tick w) Hf)
    as (w' & E & Hrep & Hok).
  step E. cbn [default from_option id]. exists (sm_line (now w) b addr fs). split; [| done].
  step (announce_reply_spec _ w' (sm_line_nonempty (now w) b addr fs) (Hok Hs)).
  by rewrite Hrep.
Qed.

Lemma infoSM_answered w others b r protocol command type addr typeaddr bit_index value info status w1 w2 :
  enqueueSM b protocol command type addr typeaddr bit_index value w = Some (status, w1) ->
  session_condt_wait others b w1 = Some ((false, r), w2) ->
  infoSM others b protocol command type addr typeaddr bit_index value info w =
    answered r b command type addr typeaddr bit_index value status info w2.
Proof. intros E1 E2. unfold infoSM. step E1. by step E2. Qed.

(** * An example *)

Definition cv_command : sm_t := mk_sm PROTO_NMRA CV GET 1 (-1) 29 (-1) (-1) timeval0.
(** The queue of bus 1 with the commands [l]. *)
Definition example_world (q : Ring.t sm_t) : world :=
  (initial_world (fun n => mk_timeval (Z.of_nat n) 0) 4) <| sm_queue ::= <[1 := q]> |>.
Definition empty_queue : Ring.t sm_t := Ring.make QUEUELEN sm_zero.
Definition full_queue : Ring.t sm_t :=
  Ring.mk (<[0 := cv_command]> (array QUEUELEN sm_zero)) 1 0.

Lemma sm_example_wf q : Ring.wf QUEUELEN q -> sm_wf (example_world q).
Proof.
  intros Hq. split.
  - exact (initial_sess_ok (fun n => mk_timeval (Z.of_nat n) 0) 4).
  - intros b q'. cbn. destruct (decide (1 = b)) as [<- |].
    + rewrite lookup_insert_eq. by intros [= <-].
    + rewrite lookup_insert_ne by done. intros [-> _]%lookup_array_inv. by apply Ring.make_wf.
  - apply is_array_insert; [apply is_array_array | done].
  - apply is_array_array.
Qed.

Lemma full_queue_wf : Ring.wf QUEUELEN full_queue.
Proof. split; [by apply is_array_insert; [apply is_array_array |] | done | done]. Qed.

(** * The properties *)

(** A command for a decoder on the track that is queued on an idle bus and
    answered by the bus thread is answered to the client by its result: -2 is
    "temporarily prohibited", -1 and a failed VERIFY are "wrong value", and
    nothing is reported then; any other result is "ok", fills the reply and
    goes to the info sessions, for a CV to the CAN bus too.  The queue is
    empty again. *)
Theorem sm_command_answered w b r protocol command type addr typeaddr bit_index value info fs :
  sm_wf w -> 0 <= b < MAX_BUSES -> pending w b = [] -> fields type typeaddr bit_index r = Some fs ->
  exists w1 info' w',
    infoSM (answer b r) b protocol command type addr typeaddr bit_index value info w =
      Some ((outcome command value r SRCP_OK, info'), w') /\
    quiet w w1 /\ pending w1 b = [] /\
    w' = (if outcome command value r 0 =? 0
          then reported b command type addr typeaddr r (sm_line (now w1) b addr fs) (tick w1)
          else tick w1) /\
    (outcome command value r 0 = 0 -> info' = sm_line (now w1) b addr fs).
Proof.
  intros Hw Hb Hp Hf.
  destruct (enqueueSM_free w b Hw Hb protocol command type addr typeaddr bit_index value Hp)
    as (w1 & E1 & Hw1 & Q1 & P1 & _).
  destruct (wait_answer w1 b r _ _ Hw1 Hb P1) as (w2 & E2 & Hw2 & Q2 & P2).
  destruct (answered_track r b command type addr typeaddr bit_index value SRCP_OK info fs w2
    (smwf_sess _ Hw2) Hf) as (info' & E3 & Hi).
  exists w2, info'. eexists. split; [by rewrite (infoSM_answered w _ b r _ _ _ _ _ _ _ _ _ _ _ E1 E2) |].
  split; [by apply quiet_trans with w1 | done].
Qed.

Lemma sm_command_answered_witness :
  exists w1 info' w',
    infoSM (answer 1 6) 1 PROTO_NMRA GET CV (-1) 29 (-1) (-1) ""%string (example_world empty_queue) =
      Some ((outcome GET (-1) 6 SRCP_OK, info'), w') /\
    quiet (example_world empty_queue) w1 /\ pending w1 1 = [] /\
    w' = (if outcome GET (-1) 6 0 =? 0
          then reported 1 GET CV (-1) 29 6 (sm_line (now w1) 1 (-1) ["CV "; dec 29; " "; dec 6]%string)
            (tick w1)
          else tick w1) /\
    (outcome GET (-1) 6 0 = 0 ->
      info' = sm_line (now w1) 1 (-1) ["CV "; dec 29; " "; dec 6]%string).
Proof.
  apply sm_command_answered.
  - apply sm_example_wf. by apply Ring.make_wf.
  - done.
  - vm_compute. reflexivity.
  - reflexivity.
Defined.

(** A command that finds the queue full is not queued, but the session
    waits all the same, for the result of the command before it: the reply is
    "temporarily prohibited", yet that other command's result is reported to
    the info sessions as the value this command asked for, and the command is
    never carried out. *)
Theorem full_queue_misreports w b r protocol type addr typeaddr bit_index value info fs other :
  sm_wf w -> 0 <= b < MAX_BUSES -> pending w b = [other] -> r <> -1 -> r <> -2 ->
  fields type typeaddr bit_index r = Some fs ->
  exists w1 line w', infoSM (answer b r) b protocol GET type addr typeaddr bit_index value info w =
      Some ((SRCP_TEMPORARILYPROHIBITED, line), w') /\
    quiet w w1 /\ pending w1 b = [] /\ line = sm_line (now w1) b addr fs /\
    w' = reported b GET type addr typeaddr r line (tick w1).
Proof.
  intros Hw Hb Hp H1 H2 Hf.
  assert (Hne : pending w b <> []) by (by rewrite Hp).
  pose proof (enqueueSM_busy w b Hw Hb protocol GET type addr typeaddr bit_index value Hne) as E1.
  destruct (wait_answer w b r _ _ Hw Hb Hp) as (w2 & E2 & Hw2 & Q2 & P2).
  destruct (answered_track r b GET type addr typeaddr bit_index value SRCP_TEMPORARILYPROHIBITED
    info fs w2 (smwf_sess _ Hw2) Hf) as (info' & E3 & Hi).
  assert (O : forall s, outcome GET value r s = s).
  { intros s. unfold outcome. apply Z.eqb_neq in H1, H2. rewrite H1, H2. done. }
  rewrite !O in E3. specialize (Hi (O 0)).
  exists w2, info'. eexists. split; [by rewrite (infoSM_answered w _ b r _ _ _ _ _ _ _ _ _ _ _ E1 E2) |].
  split; [done |]. split; [done |]. split; [done |]. by rewrite Hi.
Qed.

Lemma full_queue_misreports_witness :
  exists w1 line w', infoSM (answer 1 6) 1 PROTO_NMRA GET CV (-1) 8 (-1) (-1) ""%string
      (example_world full_queue) = Some ((SRCP_TEMPORARILYPROHIBITED, line), w') /\
    quiet (example_world full_queue) w1 /\ pending w1 1 = [] /\
    line = sm_line (now w1) 1 (-1) ["CV "; dec 8; " "; dec 6]%string /\
    w' = reported 1 GET CV (-1) 8 6 line (tick w1).
Proof.
  apply (full_queue_misreports _ _ _ _ _ _ _ _ _ _ _ cv_command).
  - apply sm_example_wf, full_queue_wf.
  - done.
  - vm_compute. reflexivity.
  - done.
  - done.
  - reflexivity.
Defined.
End SM.
