(* ===== verification/Loopback.v ===== *)
(** loopback.c: the driver without hardware.  Its thread carries out the
    commands of every device group at once. *)

From S2P Require Import Prelude Ring World Messages Session Services Accessory Loco Program.

Module LB.

Definition MAX_CV_NUMBER : Z := 255.

Ltac step H := rewrite (bind_some _ _ _ _ _ H).

(** [buses[bus].watchdog++] *)
Definition feed_watchdog (bus : Z) : prog world unit :=
  bus_mod bus (fun b => b <| watchdog ::= fun x => x + 1 |>).

Definition init_bus_LOOPBACK (i : Z) : prog world Z :=
  do* bus_mod i (fun b => b <| protocols := Some "LSPMN"%string |>) in ret 0.

(** * Power *)

Definition handle_power_command (bus : Z) : prog world unit :=
  do* bus_mod bus (fun b => b <| power_changed := 0 |>) in
  let* r := infoPower bus in
  do* enqueueInfoMessage r.2 in
  feed_watchdog bus.

(** * Service mode *)

Definition cv_ok (a : Z) : bool := (0 <=? a) && (a <=? MAX_CV_NUMBER).

(** The command [c] on the variables [cv]; the result is the value answered and
    the new variables.  [reg6] is 1 when a command starts. *)
Definition sm_get (cv : gmap Z Z) (c : sm_t) : option Z :=
  let a := c.(sm_cvaddr) in
  match c.(sm_type) with
  | REGISTER =>
      if (0 <? a) && (a <? 9) then
        if (a <? 5) || (6 <? a) then cv !! a
        else if a =? 5 then cv !! 29
        else Some 1
      else Some (-1)
  | PAGE | CV => if cv_ok a then cv !! a else Some (-1)
  | CV_BIT =>
      if (0 <=? a) && (0 <=? c.(sm_index)) && (c.(sm_index) <? 8) && (a <=? MAX_CV_NUMBER)
      then option_map (fun v => Z.land 1 (Z.shiftr v c.(sm_index))) (cv !! a)
      else Some (-1)
  | _ => Some (-1)
  end.

Definition sm_set (cv : gmap Z Z) (c : sm_t) : option (Z * gmap Z Z) :=
  let a := c.(sm_cvaddr) in
  let v := c.(sm_value) in
  let write i := match cv !! i with Some _ => Some (v, <[i := v]> cv) | None => None end in
  match c.(sm_type) with
  | REGISTER =>
      if (0 <? a) && (a <? 9) then
        if (a <? 5) || (6 <? a) then write a
        else if a =? 5 then write 29
        else Some (v, cv)
      else Some (-1, cv)
  | PAGE | CV => if cv_ok a then write a else Some (-1, cv)
  | CV_BIT =>
      if (0 <=? a) && (0 <=? c.(sm_index)) && (c.(sm_index) <? 8) && (0 <=? v) && (v <=? 1) &&
         (a <=? MAX_CV_NUMBER)
      then
        match cv !! a with
        | Some old =>
            let bit := Z.shiftl 1 c.(sm_index) in
            Some (v, <[a := if v =? 0 then Z.ldiff old bit else Z.lor old bit]> cv)
        | None => None
        end
      else Some (-1, cv)
  | _ => Some (v, cv)
  end.

Definition sm_verify (cv : gmap Z Z) (c : sm_t) : option Z :=
  let a := c.(sm_cvaddr) in
  let v := c.(sm_value) in
  let against o := option_map (fun x => if v =? x then v else -1) o in
  match c.(sm_type) with
  | REGISTER =>
      if (0 <? a) && (a <? 9) then
        if (a <? 5) || (6 <? a) then against (cv !! a)
        else if a =? 5 then against (cv !! 29)
        else against (Some 1)
      else Some (-1)
  | PAGE | CV => if cv_ok a then against (cv !! a) else Some (-1)
  | CV_BIT =>
      if (0 <=? a) && (0 <=? c.(sm_index)) && (c.(sm_index) <? 8) && (a <=? MAX_CV_NUMBER)
      then against (option_map (fun x => Z.land 1 (Z.shiftr x c.(sm_index))) (cv !! a))
      else Some (-1)
  | _ => Some v
  end.

Definition sm_execute (cv : gmap Z Z) (c : sm_t) : option (Z * gmap Z Z) :=
  let c := c <| sm_value ::= fun v => Z.land v 255 |> in
  match c.(sm_command) with
  | GET => option_map (fun v => (v, cv)) (sm_get cv c)
  | SET => sm_set cv c
  | VERIFY => option_map (fun v => (v, cv)) (sm_verify cv c)
  | _ => Some (c.(sm_value), cv)
  end.

(** The static [cv] after [memset]: the handler clears it before each command,
    so that nothing of it outlives a call. *)
Definition cv_cleared : gmap Z Z := array (MAX_CV_NUMBER + 1) 0.

Definition handle_sm_command (bus : Z) : prog world unit :=
  let* next := SM.dequeueNextSM bus in
  let* '(_, smtmp) := need next in
  let* '(value, _) := need (sm_execute cv_cleared smtmp) in
  do* session_endwait bus value in
  feed_watchdog bus.

(** * Locomotives *)

Definition handle_gl_command (bus : Z) : prog world unit :=
  let* glp := GL.dequeueNextGL bus in
  do* match glp with
      | Some glp =>
          let* d := GL.gl_at bus glp in
          let gltmp := if negb (Z.land d.(gl_speedchange) SCEMERG =? 0)
                       then d <| gl_speed := 0 |> else d in
          do* GL.gl_mod bus glp (fun d => d <| gl_speedchange := 0 |>) in
          GL.cacheSetGL bus glp gltmp
      | None => ret tt
      end in
  feed_watchdog bus.

(** * Accessories *)

(** The time an accessory switched at [t] is to be switched off again. *)
Definition off_time (t : timeval) (activetime : Z) : timeval :=
  let s := t.(tv_sec) + Z.quot activetime 1000 in
  let us := t.(tv_usec) + Z.rem activetime 1000 * 1000 in
  if 1000000 <? us then mk_timeval (s + 1) (us - 1000000) else mk_timeval s us.

(** The slot of [tga] that is free, the search going on at [i]. *)
Fixpoint free_slot (fuel : nat) (tga : gmap Z ga_data_t) (i : Z) : option (option Z) :=
  match fuel with
  | O => Some None
  | S fuel =>
      match tga !! i with
      | None => None
      | Some a => if a.(ga_id) =? 0 then Some (Some i) else free_slot fuel tga (i + 1)
      end
  end.

Definition handle_ga_command (busnumber : Z) : prog world unit :=
  let* next := GA.dequeueNextGA busnumber in
  let* gatmp := need next in
  let addr := gatmp.(ga_id) in
  let* akt_time := gettimeofday in
  let* gatmp := GA.set_tv gatmp gatmp.(ga_port) akt_time in
  do* GA.setGA busnumber addr gatmp in
  do* (if negb (gatmp.(ga_action) =? 0) && (0 <? gatmp.(ga_activetime)) then
         let* b := bus_get busnumber in
         let* slot := need (free_slot (Z.to_nat NTGA) b.(tga) 0) in
         match slot with
         | Some i =>
             bus_mod busnumber (fun b => b <| tga ::=
               <[i := gatmp <| ga_t := off_time akt_time gatmp.(ga_activetime) |>]> |>)
         | None => ret tt
         end
       else ret tt) in
  feed_watchdog busnumber.

(** The delayed switching of slot [ctr]. *)
Definition switch_off (busnumber : Z) (akt_time : timeval) (ctr : Z) : prog world unit :=
  let* b := bus_get busnumber in
  let* a := need (b.(tga) !! ctr) in
  if (0 <? a.(ga_id)) && cmpTime a.(ga_t) akt_time then
    let gatmp := a <| ga_action := 0 |> in
    do* GA.setGA busnumber gatmp.(ga_id) gatmp in
    bus_mod busnumber (fun b => b <| tga ::= alter (fun a => a <| ga_id := 0 |>) ctr |>)
  else ret tt.

(** * The thread *)

Definition start_LOOPBACK (bus : Z) : prog world unit :=
  for_each (range 0 (NTGA - 1)) (fun ctr =>
    bus_mod bus (fun b => b <| tga ::= alter (fun a => a <| ga_id := 0 |>) ctr |>)).

(** One turn of the thread's loop. *)
Definition thr_sendrec_LOOPBACK (bus : Z) : prog world unit :=
  do* bus_mod bus (fun b => b <| watchdog := 1 |>) in
  let* b := bus_get bus in
  do* (if b.(power_changed) =? 1 then handle_power_command bus else ret tt) in
  let* empty := SM.queue_SM_isempty bus in
  do* (if negb empty then handle_sm_command bus else ret tt) in
  let* b := bus_get bus in
  if b.(power_state) =? 0 then ret tt
  else
    let* empty := GL.queue_GL_isempty bus in
    do* (if negb empty then handle_gl_command bus else ret tt) in
    let* akt_time := gettimeofday in
    do* for_each (range 0 (NTGA - 1)) (switch_off bus akt_time) in
    let* empty := GA.queue_GA_isempty bus in
    do* (if negb empty then handle_ga_command bus else ret tt) in
    feed_watchdog bus.

(** * Service mode: nothing is stored *)

Import SM.

(** The thread of the bus serves a waiting command. *)
Definition serving (b : Z) : prog world bool := do* handle_sm_command b in ret false.

Lemma serve_wait w b c l v cv d : sm_wf w -> 0 <= b < MAX_BUSES -> pending w b = c :: l ->
  sm_execute cv_cleared c = Some (v, cv) -> w.(buses) !! b = Some d ->
  exists w', session_condt_wait (serving b) b w = Some ((false, v), w') /\ sm_wf w' /\
    quiet w w' /\ pending w' b = l /\ is_Some (w'.(buses) !! b).
Proof.
  intros Hw Hb Hp Hx Hd. assert (Hw0 : sm_wf (tick w)) by (by destruct Hw).
  destruct (dequeue_pending (tick w) b Hw0 Hb c l Hp) as (i & q & E & Hr & Hc).
  assert (Hw1 : sm_wf (requeue b q (tick w))) by (by apply requeue_wf).
  destruct (endwait_spec _ b Hw1 Hb v) as [E2 Hw2].
  set (w2 := (requeue b q (tick w)) <| cb_data ::= <[b := v]> |>) in *.
  assert (Hd2 : w2.(buses) !! b = Some d) by exact Hd.
  exists (w2 <| buses ::= <[b := d <| watchdog ::= fun x => x + 1 |>]> |>).
  split; [| split; [by destruct Hw2 | split; [done | split]]].
  - apply wait_spec; [| cbn; apply lookup_insert_eq].
    unfold serving, handle_sm_command. unfold bind at 1. step E. cbn [need].
    unfold ret at 1, bind at 1. rewrite Hx. cbn [need]. unfold ret at 1, bind at 1. step E2.
    unfold feed_watchdog. by rewrite (bus_mod_some _ _ _ _ Hd2).
  - change (pending (requeue b q (tick w)) b = l). by rewrite pending_requeue.
  - cbn. by rewrite lookup_insert_eq.
Qed.

Lemma cv_cleared_0 a : cv_ok a = true -> cv_cleared !! a = Some 0.
Proof.
  intros H. unfold cv_cleared. apply lookup_array_some. unfold cv_ok in H. bool_hyps. lia.
Qed.

(** A SM command of a session on an idle bus that loopback serves. *)
Lemma loopback_command w b protocol command a value info d v cv :
  sm_wf w -> 0 <= b < MAX_BUSES -> pending w b = [] -> w.(buses) !! b = Some d ->
  sm_execute cv_cleared (mk_sm protocol CV command 1 (-1) a (-1) value (now w)) = Some (v, cv) ->
  0 <= v -> command = SET \/ command = GET ->
  exists info' w1 w', infoSM (serving b) b protocol command CV (-1) a (-1) value info w =
      Some ((SRCP_OK, info'), w') /\ quiet w w1 /\
    info' = sm_line (now w1) b (-1) ["CV "; dec a; " "; dec v]%string /\
    w'.(sess) = Session.broadcast info' w.(sess) /\
    sm_wf w' /\ pending w' b = [] /\ is_Some (w'.(buses) !! b).
Proof.
  intros Hw Hb Hp Hd Hx Hv Hcmd.
  destruct (enqueueSM_free w b Hw Hb protocol command CV (-1) a (-1) value Hp)
    as (w1 & E1 & Hw1 & Q1 & P1 & B1).
  destruct (serve_wait w1 b _ _ v cv d Hw1 Hb P1 Hx) as (w2 & E2 & Hw2 & Q2 & P2 & Hd2);
    [by rewrite B1 |].
  assert (O : forall s, outcome command value v s = s).
  { intros s. unfold outcome. replace (v =? -2) with false by zbool.
    replace (v =? -1) with false by zbool. by destruct Hcmd as [-> | ->]. }
  destruct (answered_track v b command CV (-1) a (-1) value SRCP_OK info _ w2
    (smwf_sess _ Hw2) eq_refl) as (info' & E3 & Hi).
  rewrite !O in E3. specialize (Hi (O 0)). rewrite Z.eqb_refl in E3.
  exists info', w2. eexists.
  split; [rewrite (infoSM_answered w _ b v _ _ _ _ _ _ _ _ _ _ _ E1 E2); exact E3 |].
  split; [by apply quiet_trans with w1 |]. split; [done |].
  destruct (quiet_trans _ _ _ Q1 Q2) as (Qs & _ & _). rewrite Hi.
  destruct (reported_keeps b command CV (-1) a v
    (sm_line (now w2) b (-1) ["CV "; dec a; " "; dec v]%string) (tick w2)) as (K1 & K2 & K3 & K4 & K5).
  rewrite K1. split; [cbn; by rewrite Qs |].
  split; [| split; [unfold pending; rewrite K2; exact P2 | by rewrite K5]].
  destruct Hw2. split; rewrite ?K2, ?K3; try done. by apply K4.
Qed.

(** * An example *)

Definition example_world : world := SM.example_world empty_queue.

(** * The properties *)

(** The loopback driver stores no configuration variable: a SET of a
    variable is answered with the value written, and a GET of the same variable
    that follows is answered with 0. *)
Theorem loopback_forgets_cv w b protocol a value info info2 d :
  sm_wf w -> 0 <= b < MAX_BUSES -> pending w b = [] -> w.(buses) !! b = Some d ->
  0 <= a <= MAX_CV_NUMBER ->
  exists r1 w1 t r2 w2 t2,
    infoSM (serving b) b protocol SET CV (-1) a (-1) value info w = Some ((SRCP_OK, r1), w1) /\
    r1 = sm_line t b (-1) ["CV "; dec a; " "; dec (Z.land value 255)]%string /\
    infoSM (serving b) b protocol GET CV (-1) a (-1) (-1) info2 w1 = Some ((SRCP_OK, r2), w2) /\
    r2 = sm_line t2 b (-1) ["CV "; dec a; " "; dec 0]%string /\
    w2.(sess) = Session.broadcast r2 (Session.broadcast r1 w.(sess)).
Proof.
  intros Hw Hb Hp Hd Ha. assert (Hok : cv_ok a = true) by (unfold cv_ok; zbool).
  destruct (loopback_command w b protocol SET a value info d (Z.land value 255)
    (<[a := Z.land value 255]> cv_cleared) Hw Hb Hp Hd) as
    (r1 & t1 & w1 & E1 & _ & L1 & S1 & Hw1 & P1 & [d1 D1]).
  { unfold sm_execute, sm_set. cbn. by rewrite Hok, (cv_cleared_0 a Hok). }
  { apply Z.land_nonneg. lia. }
  { by left. }
  destruct (loopback_command w1 b protocol GET a (-1) info2 d1 0 cv_cleared Hw1 Hb P1 D1) as
    (r2 & t2 & w2 & E2 & _ & L2 & S2 & _).
  { unfold sm_execute, sm_get. cbn. by rewrite Hok, (cv_cleared_0 a Hok). }
  { lia. }
  { by right. }
  exists r1, w1, (now t1), r2, w2, (now t2). by rewrite S2, S1.
Qed.

Lemma loopback_forgets_cv_witness :
  exists r1 w1 t r2 w2 t2,
    infoSM (serving 1) 1 PROTO_NMRA SET CV (-1) 29 (-1) 6 ""%string example_world =
      Some ((SRCP_OK, r1), w1) /\
    r1 = sm_line t 1 (-1) ["CV "; dec 29; " "; dec (Z.land 6 255)]%string /\
    infoSM (serving 1) 1 PROTO_NMRA GET CV (-1) 29 (-1) (-1) ""%string w1 = Some ((SRCP_OK, r2), w2) /\
    r2 = sm_line t2 1 (-1) ["CV "; dec 29; " "; dec 0]%string /\
    w2.(sess) = Session.broadcast r2 (Session.broadcast r1 example_world.(sess)).
Proof.
  apply (loopback_forgets_cv example_world 1 PROTO_NMRA 29 6 ""%string ""%string bus_zero).
  - apply sm_example_wf. by apply Ring.make_wf.
  - done.
  - vm_compute. reflexivity.
  - vm_compute. reflexivity.
  - done.
Defined.
End LB.
