(* ===== verification/Spi.v ===== *)
(** The lower half of ddl.c: packets as the SPI interface shifts them out, and
    the pools of packets the refresh cycle repeats.

    The data line is driven by shifting bytes out of the SPI interface; a
    packet is turned into a byte stream whose ones and zeros are the line's
    levels.  The hardware is the list of transfers it was given. *)

From S2P Require Import Prelude World.

Module Spi.

(** * Constants of ddl.h and ddl.c *)

Definition PKTSIZE : Z := 80.
Definition MAX_MARKLIN_ADDRESS : Z := 256.
Definition MAX_NMRA_ADDRESS : Z := 10367.
Definition MAX_MFX_ADDRESS : Z := 512.

Definition SPI_BAUDRATE_MAERKLIN_LOCO_2 : Z := 2 * 38461.
Definition SPI_BAUDRATE_MAERKLIN_FUNC_2 : Z := 2 * SPI_BAUDRATE_MAERKLIN_LOCO_2.
Definition SPI_BAUDRATE_NMRA_2 : Z := 68966 * 2.
Definition SPI_BAUDRATE_MFX_2 : Z := 80000 * 2.

Inductive packet_type :=
| QM1LOCOPKT | QM2LOCOPKT | QM2FXPKT | QM1FUNCPKT | QM1SOLEPKT | QMSEARCH20 | QMSEARCH40
| QNBLOCOPKT | QNBACCPKT | QNPROGPKT
| QMFX0PKT | QMFX1PKTD | QMFX1PKTV | QMFX8PKT | QMFX16PKT | QMFX32PKT.
#[export] Instance packet_type_eq_dec : EqDecision packet_type.
Proof. solve_decision. Defined.

Definition packet_code (t : packet_type) : Z :=
  match t with
  | QM1LOCOPKT => 1 | QM2LOCOPKT => 2 | QM2FXPKT => 3 | QM1FUNCPKT => 4 | QM1SOLEPKT => 5
  | QMSEARCH20 => 6 | QMSEARCH40 => 7 | QNBLOCOPKT => 10 | QNBACCPKT => 11 | QNPROGPKT => 12
  | QMFX0PKT => 18 | QMFX1PKTD => 19 | QMFX1PKTV => 20 | QMFX8PKT => 21 | QMFX16PKT => 22
  | QMFX32PKT => 23
  end.

(** * NMRA streams *)

(** A half wave of the line is a byte: a one is two short half waves, a zero
    two long ones. *)
Definition nmra_bit (b : bool) : list Z :=
  if b then [0xFF; 0x00] else [0xFF; 0xFF; 0x00; 0x00].

(** The bits of a byte, the highest one first. *)
Definition bits_of (v : Z) : list bool := Z.testbit v <$> [7; 6; 5; 4; 3; 2; 1; 0].

(** Short packets: preamble length, number of bytes, the bytes. *)
Definition convNMRAPacketToSPIStream (packet : list Z) : option (list Z) :=
  match packet with
  | preamble :: n :: data =>
      if Z.of_nat (length data) <? n then None
      else Some (0x00 :: mjoin (replicate (Z.to_nat preamble) (nmra_bit true))
                 ++ mjoin ((fun v => nmra_bit false ++ mjoin (nmra_bit <$> bits_of v))
                             <$> take (Z.to_nat n) data)
                 ++ mjoin (replicate 3 (nmra_bit true)))
  | _ => None
  end.

(** Bit [i] of a packet whose first byte counts its bits. *)
Definition packet_bit (packet : list Z) (i : nat) : option bool :=
  match packet !! S (Nat.div i 8) with
  | Some byte => Some (Z.testbit byte (Z.of_nat (Nat.modulo i 8)))
  | None => None
  end.

Definition packet_bits (packet : list Z) : option (list bool) :=
  match packet with
  | n :: _ => mapM (packet_bit packet) (seq 0 (Z.to_nat n))
  | [] => None
  end.

Definition convertNMRAPacketToSPIStream (packet : list Z) : option (list Z) :=
  match packet !! 1%nat with
  | None => None
  | Some b =>
      if negb (b =? 0xFF) then convNMRAPacketToSPIStream packet
      else
        match packet_bits packet with
        | Some bits => Some (0x00 :: mjoin (nmra_bit <$> bits) ++ nmra_bit true)
        | None => None
        end
  end.

(** * Maerklin/Motorola streams *)

Definition mmcodetab : list Z :=
  [0x01; 0x02; 0x04; 0x08; 0x10; 0x20; 0x40; 0x80; 0x100; 0x200;
   0x10000; 0x1000000; 0x20000; 0x2000000; 0x40000; 0x4000000; 0x80000; 0x8000000].

(** [tMaerklinData]: the four bytes of a packet. *)
Record mdata_t := mk_mdata { md_addr : Z; md_func : Z; md_data : Z; md_xdat : Z }.
#[export] Instance eta_mdata : Settable mdata_t :=
  fun m => mk_mdata m.(md_addr) m.(md_func) m.(md_data) m.(md_xdat).

(** The packet read as a little-endian [uint32_t]. *)
Definition mm_word (m : mdata_t) : Z :=
  Z.lor m.(md_addr) (Z.lor (Z.shiftl m.(md_func) 8)
    (Z.lor (Z.shiftl m.(md_data) 16) (Z.shiftl m.(md_xdat) 24))).

Definition mm_bits (m : mdata_t) : list bool :=
  (fun mask => negb (Z.land (mm_word m) mask =? 0)) <$> mmcodetab.

Definition PAUSE_START : nat := 2.

Definition is_solenoid (t : packet_type) : bool :=
  bool_decide (t = QM1FUNCPKT) || bool_decide (t = QM1SOLEPKT).

(** The transfer: a pause, the packet, a pause, the packet again, a pause. *)
Definition mm_stream (t : packet_type) (m : mdata_t) (pause_btw pause_end : nat) : list Z :=
  let code := mjoin ((fun b : bool => if b then [0xFF; 0xFC]
                                      else [if is_solenoid t then 0xE0 else 0xC0; 0x00])
                       <$> mm_bits m) in
  replicate PAUSE_START 0x00 ++ code ++ replicate pause_btw 0x00 ++ code ++ replicate pause_end 0x00.

(** * MFX streams *)

Definition MFX_STARTSTOP_0_BYTES : nat := 8.
Definition MFX_SYNC_COUNT_RDS : nat := 11.
Definition MFX_RDS_SYNC_IMPULS_COUNT : nat := 23.
Definition BITS_PER_RDSSYNC_PER : Z := Z.quot (912 * SPI_BAUDRATE_MFX_2) 1000000 + 1.
Definition BITS_PER_RDSSYNC_IMP : Z := Z.quot (25 * SPI_BAUDRATE_MFX_2) 1000000.

(** The level the buffer ends with; it is never empty. *)
Definition level (buf : list Z) : bool := negb (default 0 (last buf) =? 0).
Definition byte_of (b : bool) : Z := if b then 0xFF else 0x00.

Fixpoint addMFXhSync (hsyncs : nat) (buf : list Z) : list Z :=
  match hsyncs with
  | O => buf
  | S hsyncs =>
      let x := byte_of (negb (level buf)) in
      let y := byte_of (level buf) in
      addMFXhSync hsyncs (buf ++ [x; x; y; x; x])
  end.

Definition addMFX (value : bool) (buf : list Z) : list Z :=
  let first := negb (level buf) in
  buf ++ [byte_of first; byte_of (if value then negb first else first)].

Definition addRDSSync (buf : list Z) : list Z :=
  let n := if level buf then (MFX_SYNC_COUNT_RDS * 2)%nat else S (MFX_SYNC_COUNT_RDS * 2) in
  addMFX true (addMFX true (addMFX false (addMFX false (addMFXhSync n buf)))).

(** The payload, with a zero stuffed in after eight ones; [count1] counts the
    ones in a row. *)
Fixpoint add_payload (bits : list bool) (count1 : nat) (buf : list Z) : list Z :=
  match bits with
  | [] => buf
  | true :: bits =>
      if (8 <=? S count1)%nat then add_payload bits 0 (addMFX false (addMFX true buf))
      else add_payload bits (S count1) (addMFX true buf)
  | false :: bits => add_payload bits 0 (addMFX false buf)
  end.

(** Pulses for the answer: [n] times a pause of [gap] bits and a pulse. *)
Definition pulses (n : nat) (gap : Z) : list bool :=
  mjoin (replicate n (replicate (Z.to_nat gap) false ++
                      replicate (Z.to_nat BITS_PER_RDSSYNC_IMP) true)).

(** Bits packed into bytes, the first bit highest, the last byte filled up. *)
Fixpoint pack_bits (fuel : nat) (bits : list bool) : list Z :=
  match fuel, bits with
  | S fuel, _ :: _ =>
      foldl (fun v b => 2 * v + Z.b2z b) 0 (take 8 bits ++ replicate (8 - length (take 8 bits)) false)
      :: pack_bits fuel (drop 8 bits)
  | _, _ => []
  end.

Definition rds_stream (rdsBitCount : nat) : list Z :=
  let bits := pulses MFX_RDS_SYNC_IMPULS_COUNT (BITS_PER_RDSSYNC_PER - BITS_PER_RDSSYNC_IMP)
    ++ pulses (rdsBitCount * 2) (Z.quot BITS_PER_RDSSYNC_PER 2 - BITS_PER_RDSSYNC_IMP) in
  pack_bits (length bits) bits.

(** A pause for an answer of one bit: the level changes and is held. *)
Definition add_pause (buf : list Z) : list Z :=
  buf ++ replicate (Z.to_nat (Z.quot (6400 * SPI_BAUDRATE_MFX_2) 8000000)) (byte_of (negb (level buf))).

Definition convertMFXPacketToSPIStream (packet : list Z) (mfxTyp : packet_type) : option (list Z) :=
  match packet_bits packet with
  | None => None
  | Some bits =>
      let buf := add_payload bits 0 (addMFXhSync 2 (replicate MFX_STARTSTOP_0_BYTES 0x00)) in
      Some match mfxTyp with
           | QMFX0PKT => addMFXhSync 5 buf ++ replicate MFX_STARTSTOP_0_BYTES 0x00
           | QMFX1PKTD | QMFX1PKTV =>
               addMFXhSync 4 (add_pause (addMFXhSync 2 (add_pause (addRDSSync buf))))
           | QMFX8PKT => addMFXhSync 2 (addRDSSync buf ++ rds_stream 23)
           | QMFX16PKT => addMFXhSync 2 (addRDSSync buf ++ rds_stream 31)
           | QMFX32PKT => addMFXhSync 2 (addRDSSync buf ++ rds_stream 47)
           | _ => buf
           end
  end.

(** * The state of the driver *)

(** The packets of a locomotive; [glptr] is its entry in the table. *)
Record tMaerklinPacket := mk_mm_packet
  { mm_glptr : Z; mm_packet : mdata_t; mm_f_packets : list mdata_t }.
Record tNMRAPacket := mk_nmra_packet { nmra_glptr : Z; nmra_packet : list Z; nmra_fx_packet : list Z }.
Record tMFXPacket := mk_mfx_packet { mfx_glptr : Z; mfx_packet : list Z }.

(** A pool: the packets by address ([None] for a null pointer), and the
    addresses in the order they became known. *)
Record pool (A : Type) := mk_pool {
  packets : gmap Z (option A);
  knownAddresses : gmap Z Z;
  NrOfKnownAddresses : Z;
}.
Arguments mk_pool {A}.
Arguments packets {A}.
Arguments knownAddresses {A}.
Arguments NrOfKnownAddresses {A}.
#[export] Instance eta_pool A : Settable (pool A) := fun p =>
  mk_pool p.(packets) p.(knownAddresses) p.(NrOfKnownAddresses).

(** The pool of addresses up to [n] after its initialisation. *)
Definition init_pool {A} (n : Z) : pool A := mk_pool (array (n + 1) None) (array (n + 1) 0) 0.

Record transfer := mk_transfer { speed_hz : Z; tx : list Z }.

(** The options of the bus (readconfig_DDL) and the UID of the station. *)
Record ddl_conf := mk_conf {
  CHECKSHORT : Z;
  SHORTCUTDELAY : Z;
  CHECKCLIENTS : Z;
  ENABLED_PROTOCOLS : Z;
  NMRA_GA_OFFSET : Z;
  PROGRAM_TRACK : Z;
  BOOSTER_COMM : Z;
  AUTO_MFX_SEARCH : Z;
  ddl_uid : Z;
}.
Definition EP_MAERKLIN : Z := 1.
Definition EP_NMRADCC : Z := 2.
Definition EP_MFX : Z := 4.
Definition default_conf : ddl_conf := mk_conf 0 0 0 (Z.lor EP_MAERKLIN EP_NMRADCC) 0 1 0 0 0.

Record tRefreshInfo := mk_refresh {
  last_refreshed_maerklin_loco : Z;
  last_refreshed_maerklin_fx : Z;
  last_refreshed_nmra_loco : Z;
  last_refreshed_mfx_loco : Z;
  protocol_refresh : Z;
}.
#[export] Instance eta_refresh : Settable tRefreshInfo := fun r =>
  mk_refresh r.(last_refreshed_maerklin_loco) r.(last_refreshed_maerklin_fx)
    r.(last_refreshed_nmra_loco) r.(last_refreshed_mfx_loco) r.(protocol_refresh).

(** What the feedback thread and the receivers share. *)
Record tFbData := mk_fbdata {
  pktcode : Z;
  fbbytnum : Z;
  fb_uid : Z;
  fbcollect : Z;
  canfbdata : list Z;
  canask : Z;
  serfbdata : list Z;
  serask : Z;
}.
#[export] Instance eta_fbdata : Settable tFbData := fun f =>
  mk_fbdata f.(pktcode) f.(fbbytnum) f.(fb_uid) f.(fbcollect) f.(canfbdata) f.(canask)
    f.(serfbdata) f.(serask).

(** [DDL_DATA] with the static variables of ddl.c; [resumeSM] is [None] for -1.
    The hardware is the transfers given to the SPI interface, the control line
    of the boosters and the bytes written to the feedback pipe. *)
Record ddl_t := mk_ddl {
  conf : ddl_conf;
  spiLastMM : Z;
  short_detected : Z;
  refreshInfo : tRefreshInfo;
  refreshInfoFast : tRefreshInfo;
  lastRefreshFast : bool;
  allowSM : bool;
  resumeSM : option sm_protocol_t;
  pgtrkonly : sm_protocol_t;
  MaerklinPacketPool : pool tMaerklinPacket;
  NMRAPacketPool : pool tNMRAPacket;
  MFXPacketPool : pool tMFXPacket;
  feedbackPipe : list Z;
  fbData : tFbData;
  waitread : Z;
  transfers : list transfer;
  rts_on : bool;
}.
#[export] Instance eta_ddl : Settable ddl_t := fun d =>
  mk_ddl d.(conf) d.(spiLastMM) d.(short_detected) d.(refreshInfo) d.(refreshInfoFast)
    d.(lastRefreshFast) d.(allowSM) d.(resumeSM) d.(pgtrkonly) d.(MaerklinPacketPool)
    d.(NMRAPacketPool) d.(MFXPacketPool) d.(feedbackPipe) d.(fbData) d.(waitread)
    d.(transfers) d.(rts_on).

Definition refresh_start : tRefreshInfo := mk_refresh 0 (-1) 0 0 1.

(** The state init_bus_DDL leaves, as far as it sets it: the pools are empty,
    the refresh cycle is at its start, no transfer has been made. *)
Definition start_ddl (c : ddl_conf) : ddl_t :=
  mk_ddl c 0 0 refresh_start refresh_start false false None PROTO_NONE
    (init_pool MAX_MARKLIN_ADDRESS) (init_pool MAX_NMRA_ADDRESS) (init_pool MAX_MFX_ADDRESS)
    [] (mk_fbdata 0 0 0 0 (replicate 6 0) 0 (replicate 6 0) 0) 0 [] false.

Definition initial_ddl : ddl_t := start_ddl default_conf.

(** * Packet pools *)

(** The search of an address in [knownAddresses], from index [i] on. *)
Fixpoint is_known (fuel : nat) (known : gmap Z Z) (i adr : Z) : option bool :=
  match fuel with
  | O => Some false
  | S fuel =>
      match known !! i with
      | None => None
      | Some a => if a =? adr then Some true else is_known fuel known (i + 1) adr
      end
  end.

Definition add_known {A} (found : bool) (adr : Z) (p : pool A) : option (pool A) :=
  if found then Some p
  else
    match p.(knownAddresses) !! p.(NrOfKnownAddresses) with
    | None => None
    | Some _ => Some (p <| knownAddresses ::= <[p.(NrOfKnownAddresses) := adr]> |>
                        <| NrOfKnownAddresses ::= Z.succ |>)
    end.

(** [memcpy(dst, src, n)]; a destination just allocated holds nothing. *)
Definition memcpy (dst src : list Z) (n : Z) : list Z := take (Z.to_nat n) src ++ drop (Z.to_nat n) dst.

Definition update_MaerklinPacketPool (glptr adr : Z) (sd_packet : mdata_t) (f : list mdata_t)
    : prog ddl_t unit :=
  let* d := get in
  let p := d.(MaerklinPacketPool) in
  let* found := need (is_known (Z.to_nat p.(NrOfKnownAddresses)) p.(knownAddresses) 0 adr) in
  do* need (p.(packets) !! adr) in
  let p := p <| packets ::= <[adr := Some (mk_mm_packet glptr sd_packet f)]> |> in
  let* p := need (add_known found adr p) in
  modify (fun d => d <| MaerklinPacketPool := p |>).

(** The search reads one element more than there are known addresses. *)
Definition update_NMRAPacketPool (glptr adr : Z) (packet : list Z) (packet_size : Z)
    (fx_packet : list Z) (fx_packet_size : Z) : prog ddl_t unit :=
  let* d := get in
  let p := d.(NMRAPacketPool) in
  let* found := need (is_known (S (Z.to_nat p.(NrOfKnownAddresses))) p.(knownAddresses) 0 adr) in
  let* old := need (p.(packets) !! adr) in
  let old := default (mk_nmra_packet 0 [] []) old in
  let p := p <| packets ::= <[adr := Some (mk_nmra_packet glptr
    (memcpy old.(nmra_packet) packet packet_size)
    (memcpy old.(nmra_fx_packet) fx_packet fx_packet_size))]> |> in
  let* p := need (add_known found adr p) in
  modify (fun d => d <| NMRAPacketPool := p |>).

Definition update_MFXPacketPool (glptr adr : Z) (packet : list Z) (packet_size : Z)
    : prog ddl_t unit :=
  let* d := get in
  let p := d.(MFXPacketPool) in
  let* found := need (is_known (S (Z.to_nat p.(NrOfKnownAddresses))) p.(knownAddresses) 0 adr) in
  let* old := need (p.(packets) !! adr) in
  let old := default (mk_mfx_packet 0 []) old in
  let p := p <| packets ::=
    <[adr := Some (mk_mfx_packet glptr (memcpy old.(mfx_packet) packet packet_size))]> |> in
  let* p := need (add_known found adr p) in
  modify (fun d => d <| MFXPacketPool := p |>).

(** * send_packet *)

(** What a packet is: the bytes of an NMRA or MFX packet, or the data of a
    Maerklin packet. *)
Inductive packet := Bytes (l : list Z) | MM (m : mdata_t).

Definition spi_transfer (speed : Z) (l : list Z) : prog ddl_t unit :=
  modify (fun d => d <| transfers ::= fun ts => ts ++ [mk_transfer speed l] |>).

(** The received bytes are never taken for an acknowledge. *)
Definition checkACK (rx : list Z) : bool := false.

(** [xmits] transfers; with [listen], each one is checked for an acknowledge in
    the bytes [rx] received meanwhile. *)
Fixpoint transmit (xmits : nat) (listen : bool) (rx : list Z) (speed : Z) (l : list Z)
    : prog ddl_t Z :=
  match xmits with
  | O => ret 0
  | S xmits =>
      do* spi_transfer speed l in
      let* acks := transmit xmits listen rx speed l in
      ret ((if listen && checkACK rx then 1 else 0) + acks)
  end.

Definition is_mm (t : packet_type) : bool := packet_code t <=? 7.
Definition is_nmra (t : packet_type) : bool := (10 <=? packet_code t) && (packet_code t <=? 12).

(** [rx] are the bytes the interface receives during a transfer, [receive] the
    delayed read of the feedback receiver; a transfer always succeeds. *)
Section Send.
Context (rx : list Z) (receive : prog ddl_t unit).

Definition send_mm (t : packet_type) (m : mdata_t) (xmits : Z) : prog ddl_t Z :=
  let fast := is_solenoid t || bool_decide (t = QMSEARCH40) in
  let pause_end := if fast then 59%nat else 42%nat in
  let speed := if fast then SPI_BAUDRATE_MAERKLIN_FUNC_2 else SPI_BAUDRATE_MAERKLIN_LOCO_2 in
  let* d := get in
  do* (if d.(spiLastMM) =? 0 then spi_transfer speed (replicate pause_end 0x00) else ret tt) in
  do* modify (fun d => d <| spiLastMM := 1 |>) in
  let listen := bool_decide (t = QMSEARCH20) || bool_decide (t = QMSEARCH40) in
  transmit (Z.to_nat xmits) listen rx speed (mm_stream t m 12 pause_end).

Definition send_nmra (t : packet_type) (l : list Z) (xmits : Z) : prog ddl_t Z :=
  do* modify (fun d => d <| spiLastMM := 0 |>) in
  let* stream := need (convertNMRAPacketToSPIStream l) in
  transmit (Z.to_nat xmits) (bool_decide (t = QNPROGPKT)) rx SPI_BAUDRATE_NMRA_2 stream.

(** A packet that asks for an answer tells the feedback thread its type. *)
Definition send_mfx (t : packet_type) (l : list Z) (xmits : Z) : prog ddl_t Z :=
  let asks := negb (bool_decide (t = QMFX0PKT)) in
  do* (if asks then modify (fun d => d <| feedbackPipe ::= fun q => q ++ [packet_code t] |>)
       else ret tt) in
  do* modify (fun d => d <| spiLastMM := 0 |>) in
  let* stream := need (convertMFXPacketToSPIStream l t) in
  do* guard (Z.of_nat (length stream) <=? 1600) in
  do* transmit (if asks then 1%nat else Z.to_nat xmits) false rx SPI_BAUDRATE_MFX_2 stream in
  do* (if asks then modify (fun d => d <| waitread := 2 |>) else ret tt) in
  ret 0.

Definition send_packet (p : packet) (t : packet_type) (xmits : Z) : prog ddl_t Z :=
  let* acks :=
    match p with
    | MM m => if is_mm t then send_mm t m xmits else undefined
    | Bytes l =>
        if is_mm t then undefined
        else if is_nmra t then send_nmra t l xmits else send_mfx t l xmits
    end in
  let* d := get in
  do* (if d.(waitread) =? 0 then ret tt
       else
         do* modify (fun d => d <| waitread ::= fun n => n - 1 |>) in
         if d.(waitread) =? 1 then receive else ret tt) in
  ret acks.
End Send.
(** * Transfers *)

(** The driver after [n] transfers of [s]. *)
Definition sent (n : nat) (speed : Z) (s : list Z) (st : ddl_t) : ddl_t :=
  st <| transfers ::= fun ts => ts ++ replicate n (mk_transfer speed s) |>.

(** No transfer is acknowledged, whatever is received. *)
Lemma transmit_spec rx n listen speed s st :
  transmit n listen rx speed s st = Some (0, sent n speed s st).
Proof.
  revert st. induction n as [| n IH]; intros st.
  { unfold sent. cbn. destruct st. cbn. by rewrite app_nil_r. }
  cbn [transmit]. unfold bind at 1, spi_transfer, modify. unfold bind. rewrite IH.
  unfold checkACK. rewrite andb_false_r. unfold ret, sent. cbn. f_equal. f_equal. f_equal.
  by rewrite <- app_assoc.
Qed.
End Spi.
