(* ===== verification/Dcc.v ===== *)
(** ddl_nmra.c: NMRA DCC packets.

    The source builds a packet as a C string of '0' and '1'; here it is a list
    of booleans, a byte a list of eight of them, the highest bit first. *)

From S2P Require Import Prelude World Spi.

Module Dcc.
Import Spi.

(** * Bit strings *)

Definition preamble : list bool := replicate 15 true.
Definition BUFFERSIZE : Z := 256.

(** [strcat] into a [char[BUFFERSIZE]] that held [a]. *)
Definition strcat (a b : list bool) : option (list bool) :=
  if Z.of_nat (length a + length b) <? BUFFERSIZE then Some (a ++ b) else None.

(** A bit of a byte, from the left, set to '1'. *)
Definition set_one (i : nat) (byte : list bool) : list bool := <[i := true]> byte.
Definition set_zero (i : nat) (byte : list bool) : list bool := <[i := false]> byte.

(** The packet of a bit string: its length and the bits, eight to a byte, the
    first one lowest; nothing for a string that is too long. *)
Fixpoint pack_stream (bits : list bool) (i : nat) (packet : list Z) : list Z :=
  match bits with
  | [] => packet
  | b :: bits =>
      pack_stream bits (S i)
        (if b then alter (fun x => Z.lor x (Z.shiftl 1 (Z.of_nat (i mod 8)))) (S (i / 8)) packet
         else packet)
  end.

Definition translateBitstream2Packetstream (bits : list bool) : option (Z * list Z) :=
  let bitLen := Z.of_nat (length bits) in
  if 255 <? bitLen then None
  else Some (Z.quot bitLen 8 + 2,
             pack_stream bits 0 (<[O := bitLen]> (replicate (Z.to_nat PKTSIZE) 0))).

Definition calc_single_byte (value : Z) : list bool := Z.testbit value <$> [7; 6; 5; 4; 3; 2; 1; 0].

Definition calc_14bit_address_byte (address : Z) : list bool * list bool :=
  (calc_single_byte (Z.lor 0xc0 (Z.shiftr address 8)), calc_single_byte address).

Definition calc_baseline_speed_byte (direction speed func : Z) : list bool :=
  let byte := calc_single_byte (Z.lor (Z.lor 0x40 (Z.shiftl direction 5)) speed) in
  if Z.testbit func 0 then set_one 3 byte else byte.

Definition calc_28spst_speed_byte (direction speed : Z) : list bool :=
  if 1 <? speed then
    let speed := speed + 2 in
    let byte := calc_single_byte (Z.lor (Z.lor 0x40 (Z.shiftl direction 5)) (Z.shiftr speed 1)) in
    if Z.testbit speed 0 then set_one 3 byte else byte
  else calc_single_byte (Z.lor (Z.lor 0x40 (Z.shiftl direction 5)) speed).

Definition calc_function_group_one_byte (func : Z) : list bool :=
  let func := Z.land func 0x1f in
  let byte := calc_single_byte (Z.lor 0x80 (Z.shiftr func 1)) in
  if Z.testbit func 0 then set_one 3 byte else byte.

Definition calc_function_group_two_byte (func : Z) (lower : bool) : list bool :=
  calc_single_byte
    (if lower then Z.lor (Z.land (Z.shiftr func 5) 0xf) 0xb0
     else Z.lor (Z.land (Z.shiftr func 9) 0xf) 0xa0).

Definition calc_128spst_adv_op_bytes (direction speed : Z) : list bool * list bool :=
  let byte2 := calc_single_byte speed in
  (calc_single_byte 0x3f, if direction =? 1 then set_one 0 byte2 else byte2).

Definition xor_two_bytes (byte1 byte2 : list bool) : list bool := zip_with xorb byte1 byte2.

(** The bits of a C string of the source. *)
Definition b0 : list bool := [false].
Definition b1 : list bool := [true].

(** [strcat]s one after the other. *)
Fixpoint strcats (a : list bool) (l : list (list bool)) : option (list bool) :=
  match l with
  | [] => Some a
  | b :: l => match strcat a b with Some a => strcats a l | None => None end
  end.

(** * Accessory decoders *)

(** The bytes for output [output] of accessory [nr]. *)
Definition accessory_bytes (nr output activate offset : Z) : list bool * list bool :=
  let address := Z.quot (nr - 1) 4 + offset in
  let pairnr := Z.rem (nr - 1) 4 in
  (calc_single_byte (Z.lor 0x80 (Z.land address 0x3f)),
   calc_single_byte (Z.lor (Z.lor (Z.lor (Z.lor 0x80 (Z.shiftr (Z.land (Z.lnot address) 0x1c0) 2))
     (Z.shiftl activate 3)) (Z.shiftl pairnr 1)) output)).

Definition accessory_stream (nr output activate offset : Z) : option (list bool) :=
  let '(byte1, byte2) := accessory_bytes nr output activate offset in
  strcats [] [preamble; b0; byte1; b0; byte2; b0; xor_two_bytes byte2 byte1; b1].

(** * Multi function decoders *)

Definition calc_address_stream (address mode : Z) : option (list bool * list bool) :=
  if mode =? 1 then
    let addrbyte := calc_single_byte (Z.land address 0x7f) in
    match strcats [] [preamble; b0; addrbyte; b0] with
    | Some addrstream => Some (addrstream, addrbyte)
    | None => None
    end
  else
    let '(addrbyte, addrbyte2) := calc_14bit_address_byte address in
    match strcats [] ([preamble; b0; addrbyte; b0] ++ if mode =? 2 then [addrbyte2; b0] else []) with
    | Some addrstream => Some (addrstream, xor_two_bytes addrbyte addrbyte2)
    | None => None
    end.

Definition wait : list bool := replicate 35 true.

(** The command bytes of a function group to the decoder at an address. *)
Definition group_stream (addrstream addrerrbyte : list bool) (bytes : list (list bool)) : list (list bool) :=
  [addrstream] ++ mjoin ((fun b => [b; b0]) <$> bytes) ++
  [foldl xor_two_bytes addrerrbyte bytes; b1].

(** The function commands, spread over the stream [bitstream] that begins with
    the speed command and a second one. *)
Definition calc_function_stream (bitstream addrerrbyte addrstream : list bool) (func nfuncs : Z)
    : option (list bool * list bool) :=
  let group := group_stream addrstream addrerrbyte in
  let funcbyte2 := calc_single_byte 0xde in
  let s1 :=
    (if 5 <? nfuncs then wait :: group [calc_function_group_two_byte func true] else []) ++
    (if 12 <? nfuncs then wait :: group [funcbyte2; calc_single_byte (Z.shiftr func 13)] else []) in
  let s2 :=
    group [calc_function_group_one_byte func] ++
    (if 8 <? nfuncs then wait :: group [calc_function_group_two_byte func false] else []) ++
    (if 20 <? nfuncs then wait :: group [set_one 7 funcbyte2; calc_single_byte (Z.shiftr func 21)] else []) in
  match strcats bitstream s1, strcats [] s2 with
  | Some bitstream, Some bitstream2 => Some (bitstream, bitstream2)
  | _, _ => None
  end.

(** The speed step a command sends, and the changes it leaves in the entry. *)
Definition nmra_speed (d : gl_data_t) : Z * Z :=
  if negb (Z.land d.(gl_speedchange) SCEMERG =? 0) then (1, d.(gl_cacheddirection))
  else (Z.min 127 (if d.(gl_speed) =? 0 then 0 else d.(gl_speed) + 1), d.(gl_direction)).

Definition handled (d : gl_data_t) : gl_data_t :=
  d <| gl_speedchange ::= fun c =>
    Z.ldiff (if negb (Z.land c SCEMERG =? 0) then Z.ldiff c SCEMERG else c) (Z.lor SCSPEED SCDIREC) |>.

(** The bytes of the speed command. *)
Definition speed_bytes (direction speed func nspeed : Z) : list (list bool) :=
  if (speed <? 2) || (nspeed <? 15) then [calc_baseline_speed_byte direction speed func]
  else if 29 <? nspeed then
    let '(b, b') := calc_128spst_adv_op_bytes direction speed in [b; b']
  else [calc_28spst_speed_byte direction speed].

(** The streams of a locomotive command: speed, and functions when the second
    one is there. *)
Definition multi_func_streams (address mode direction speed func nspeed nfuncs : Z)
    : option (list bool * option (list bool)) :=
  match calc_address_stream address mode with
  | None => None
  | Some (addrstream, addrerrbyte) =>
      match strcats [] (group_stream addrstream addrerrbyte
                          (speed_bytes direction speed func nspeed)) with
      | None => None
      | Some bitstream =>
          if negb (nfuncs =? 0) && (14 <? nspeed) then
            match calc_function_stream bitstream addrerrbyte addrstream func nfuncs with
            | Some (s1, s2) => Some (s1, Some s2)
            | None => None
            end
          else Some (bitstream, None)
      end
  end.

Definition multi_func_ok (address mode direction speed nspeed : Z) : bool :=
  (1 <=? address) && (address <=? 10239) && (0 <=? direction) && (direction <=? 1) &&
  (0 <=? speed) && (speed <=? nspeed + 1) && negb ((127 <? address) && (mode =? 1)).

(** * Programming on the main *)

Definition program_stream (addrerrbyte byte2 byte3 byte4 : list bool) : option (list bool) :=
  strcats [] [byte2; b0; byte3; b0; byte4; b0;
              xor_two_bytes (xor_two_bytes (xor_two_bytes addrerrbyte byte2) byte3) byte4; b1].

Definition calc_byte_program_stream (addrerrbyte : list bool) (cv value : Z) (verify : bool)
    : option (list bool) :=
  let byte2 := calc_single_byte (Z.lor 0xec (Z.shiftr cv 8)) in
  program_stream addrerrbyte (if verify then set_zero 4 byte2 else byte2) (calc_single_byte cv)
    (calc_single_byte value).

Definition calc_bit_program_stream (addrerrbyte : list bool) (cv bit value : Z) (verify : bool)
    : option (list bool) :=
  let byte4 := calc_single_byte (Z.lor (Z.lor 0xf0 (Z.shiftl value 3)) bit) in
  program_stream addrerrbyte (calc_single_byte (Z.lor 0xe8 (Z.shiftr cv 8))) (calc_single_byte cv)
    (if verify then set_zero 3 byte4 else byte4).

(** * Service mode packets *)

Definition NORM_PREA : Z := 18.
Definition LONG_PREA : Z := 30.
Definition idlepacket : list Z := [NORM_PREA; 3; 0xFF; 0x00; 0xFF].
Definition resetpacket : list Z := [LONG_PREA; 3; 0x00; 0x00; 0x00].

(** [progpacket] of an instruction of three bytes, stored as [char]s. *)
Definition progpacket (p2 p3 p4 : Z) : list Z :=
  let p2 := u8 p2 in
  let p3 := u8 p3 in
  let p4 := u8 p4 in
  [LONG_PREA; 4; p2; p3; p4; Z.lxor (Z.lxor p2 p3) p4].

Definition calc_page (cv : Z) : Z := Z.quot (cv - 1) 4 + 1.

(** * The operations: packets handed to the interface *)

Section Operations.
Context (rx : list Z) (receive : prog ddl_t unit).
Abbreviation send_packet := (send_packet rx receive).

(** The result: 0, or 1 for a command that is not valid. *)
Definition comp_nmra_accessory (nr output activate offset : Z) : prog ddl_t Z :=
  if (nr <? 1) || (2044 <? nr) || (output <? 0) || (1 <? output) || (activate <? 0) || (1 <? activate)
  then ret 1
  else
    let* bits := need (accessory_stream nr output activate offset) in
    match translateBitstream2Packetstream bits with
    | Some (_, packetstream) =>
        do* send_packet (Bytes packetstream) QNBACCPKT 2 in ret 0
    | None => ret 1
    end.

(** [glptr] is the entry, [d] its data; the result is the data after it. *)
Definition comp_nmra_multi_func (glptr : Z) (d : gl_data_t) : prog ddl_t gl_data_t :=
  let mode := d.(gl_protocolversion) in
  let '(speed, direction) := nmra_speed d in
  let nfuncs := d.(gl_n_func) in
  let nspeed := d.(gl_n_fs) in
  let d' := handled d in
  if negb (multi_func_ok d.(gl_id) mode direction speed nspeed) then ret d'
  else
    let* '(s1, s2) := need (multi_func_streams d.(gl_id) mode direction speed d.(gl_funcs) nspeed nfuncs) in
    match translateBitstream2Packetstream s1,
          translateBitstream2Packetstream (default s1 s2) with
    | Some (j, p1), Some (jj, p2) =>
        do* update_NMRAPacketPool glptr d.(gl_id) p1 j p2 jj in
        do* send_packet (Bytes p1) QNBLOCOPKT 2 in
        do* (if negb (nfuncs =? 0) && (14 <? nspeed)
             then do* send_packet (Bytes p1) QNBLOCOPKT 2 in ret tt else ret tt) in
        ret d'
    | _, _ => ret d'
    end.

Definition nmra_idle (nmbr : Z) : prog ddl_t unit :=
  do* send_packet (Bytes idlepacket) QNBLOCOPKT nmbr in ret tt.

(** The end of both PoM functions: the stream is sent three times. *)
Definition send_pom (address mode value : Z)
    (program : list bool -> option (list bool)) : prog ddl_t Z :=
  let* '(addrstream, addrerrbyte) := need (calc_address_stream address mode) in
  let* progstream := need (program addrerrbyte) in
  let* bits := need (strcat addrstream progstream) in
  match translateBitstream2Packetstream bits with
  | Some (_, packetstream) =>
      do* send_packet (Bytes packetstream) QNBLOCOPKT 3 in ret value
  | None => ret (-1)
  end.

Definition protocol_nmra_sm_write_cvbyte_pom (address cv value mode : Z) : prog ddl_t Z :=
  let cv := cv - 1 in
  if (address <? 1) || (10239 <? address) || (cv <? 1) || (1023 <? cv) || (value <? 0) ||
     (255 <? value) || ((127 <? address) && (mode =? 1))
  then ret (-1)
  else send_pom address mode value (fun e => calc_byte_program_stream e cv value false).

Definition protocol_nmra_sm_write_cvbit_pom (address cv bit value mode : Z) : prog ddl_t Z :=
  let cv := cv - 1 in
  if (address <? 1) || (10239 <? address) || (cv <? 1) || (1023 <? cv) || (bit <? 0) || (7 <? bit) ||
     (value <? 0) || (1 <? value) || ((127 <? address) && (mode =? 1))
  then ret (-1)
  else send_pom address mode value (fun e => calc_bit_program_stream e cv bit value false).

(** Register and paged mode are not carried out. *)
Definition protocol_nmra_sm_phregister (reg value : Z) (verify : bool) : prog ddl_t Z := ret (-1).
Definition protocol_nmra_sm_page (page reg value : Z) (verify : bool) : prog ddl_t Z := ret (-1).

Definition protocol_nmra_sm_write_phregister (reg value : Z) : prog ddl_t Z :=
  protocol_nmra_sm_phregister reg value false.
Definition protocol_nmra_sm_verify_phregister (reg value : Z) : prog ddl_t Z :=
  protocol_nmra_sm_phregister reg value true.

(** The search for the value that is acknowledged, from [i] on. *)
Fixpoint first_ack (fuel : nat) (ask : Z -> prog ddl_t Z) (i : Z) : prog ddl_t Z :=
  match fuel with
  | O => ret i
  | S fuel =>
      let* rc := ask i in
      if negb (rc =? 0) then ret i else first_ack fuel ask (i + 1)
  end.

Definition protocol_nmra_sm_get_phregister (reg : Z) : prog ddl_t Z :=
  first_ack 256 (fun i => protocol_nmra_sm_phregister reg i true) 0.

(** Resets, the instruction and resets again; more than one acknowledge is a
    yes. *)
Definition direct_access (packet : list Z) (xmits : Z) : prog ddl_t Z :=
  let* acks := send_packet (Bytes resetpacket) QNPROGPKT 10 in
  if 5 <? acks then ret (-2)
  else
    let* acks := send_packet (Bytes packet) QNPROGPKT xmits in
    do* send_packet (Bytes resetpacket) QNBLOCOPKT 2 in
    ret (if 1 <? acks then 1 else 0).

Definition protocol_nmra_sm_direct_cvbyte (cv value : Z) (verify : bool) : prog ddl_t Z :=
  let cv := cv - 1 in
  if (cv <? 0) || (1023 <? cv) || (value <? 0) || (255 <? value) then ret (-1)
  else
    direct_access (progpacket (Z.lor (if verify then 0x74 else 0x7c) (Z.shiftr cv 8)) cv value)
      (if verify then 6 else 10).

Definition protocol_nmra_sm_write_cvbyte (cv value : Z) : prog ddl_t Z :=
  protocol_nmra_sm_direct_cvbyte cv value false.
Definition protocol_nmra_sm_verify_cvbyte (cv value : Z) : prog ddl_t Z :=
  protocol_nmra_sm_direct_cvbyte cv value true.

Definition protocol_nmra_sm_direct_cvbit (cv bit value : Z) (verify : bool) : prog ddl_t Z :=
  let cv := cv - 1 in
  if (cv <? 0) || (1023 <? cv) || (bit <? 0) || (7 <? bit) || (value <? 0) || (1 <? value) then ret (-1)
  else
    direct_access (progpacket (Z.lor 0x78 (Z.shiftr cv 8)) cv
        (Z.lor (Z.lor (if verify then 0xe0 else 0xf0) (Z.shiftl value 3)) bit))
      (if verify then 6 else 10).

Definition protocol_nmra_sm_write_cvbit (cv bit value : Z) : prog ddl_t Z :=
  protocol_nmra_sm_direct_cvbit cv bit value false.
Definition protocol_nmra_sm_verify_cvbit (cv bit value : Z) : prog ddl_t Z :=
  protocol_nmra_sm_direct_cvbit cv bit value true.

(** The bits from [bit] down to 0, added to [rc]. *)
Fixpoint get_bits (bits : list Z) (cv rc : Z) : prog ddl_t Z :=
  match bits with
  | [] => ret rc
  | bit :: bits =>
      let* v := protocol_nmra_sm_direct_cvbit cv bit 1 true in
      get_bits bits cv (Z.shiftl rc 1 + v)
  end.

Definition protocol_nmra_sm_get_cvbyte (cv : Z) : prog ddl_t Z :=
  get_bits [7; 6; 5; 4; 3; 2; 1; 0] cv 0.

Definition protocol_nmra_sm_write_page (cv value : Z) : prog ddl_t Z :=
  protocol_nmra_sm_page (calc_page cv) (Z.land (cv - 1) 3) value false.
Definition protocol_nmra_sm_verify_page (cv value : Z) : prog ddl_t Z :=
  protocol_nmra_sm_page (calc_page cv) (Z.land (cv - 1) 3) value true.
Definition protocol_nmra_sm_get_page (cv : Z) : prog ddl_t Z :=
  first_ack 256 (fun i => protocol_nmra_sm_page (calc_page cv) (Z.land (cv - 1) 3) i true) 0.
End Operations.
End Dcc.
