(* ===== verification/DccSpec.v ===== *)
(** The properties of ddl_nmra.c and of the NMRA streams of ddl.c. *)

From S2P Require Import Prelude World Spi Dcc.

Module DccSpec.
Import Spi Dcc.

(** * Packets *)

Lemma set_bit_testbit x m j : 0 <= m -> 0 <= j ->
  Z.testbit (Z.lor x (Z.shiftl 1 m)) j = Z.testbit x j || (j =? m).
Proof.
  intros Hm Hj. rewrite Z.lor_spec. f_equal. rewrite Z.shiftl_1_l.
  destruct (Z.eqb_spec j m) as [-> | H]; [apply Z.pow2_bits_true; lia | by apply Z.pow2_bits_false].
Qed.

(** Bit [k] of the packet after packing [bits] from position [i] on. *)
Lemma pack_stream_bit bits : forall i p k v, packet_bit p k = Some v ->
  packet_bit (pack_stream bits i p) k =
    Some (v || ((i <=? k)%nat && default false (bits !! (k - i)%nat))).
Proof.
  induction bits as [| b bits IH]; intros i p k v Hv.
  { cbn. by rewrite andb_false_r, orb_false_r. }
  cbn [pack_stream].
  assert (Hv' : packet_bit (if b then alter (fun x => Z.lor x (Z.shiftl 1 (Z.of_nat (i mod 8))))
    (S (i / 8)) p else p) k = Some (v || (b && (i =? k)%nat))).
  { unfold packet_bit in *. destruct b; [| by rewrite Hv, andb_false_l, orb_false_r].
    destruct (p !! S (k / 8)) as [byte |] eqn:Hp; [| done]. injection Hv as <-.
    destruct (decide (i / 8 = k / 8)%nat) as [E | E].
    - rewrite E, list_lookup_alter_eq, Hp. cbn [fmap option_fmap option_map]. f_equal.
      rewrite set_bit_testbit by lia. f_equal.
      destruct (Nat.eqb_spec i k) as [-> |]; [apply Z.eqb_refl |].
      apply Z.eqb_neq. intros H. apply n, nat_div_mod_8; [done | lia].
    - rewrite list_lookup_alter_ne by congruence. rewrite Hp. f_equal.
      destruct (Nat.eqb_spec i k) as [-> |]; [done | cbn; by rewrite orb_false_r]. }
  rewrite (IH _ _ _ _ Hv'). f_equal. rewrite <- orb_assoc. f_equal.
  destruct (Nat.eqb_spec i k) as [-> | Hne].
  - rewrite Nat.sub_diag, andb_true_r, (proj2 (Nat.leb_le k k)) by lia.
    replace (S k <=? k)%nat with false by (symmetry; apply Nat.leb_gt; lia).
    change (default false ((b :: bits) !! 0%nat)) with b. by destruct b.
  - rewrite andb_false_r. cbn [orb]. destruct (Nat.leb_spec (S i) k).
    + rewrite (proj2 (Nat.leb_le i k)) by lia. replace (k - i)%nat with (S (k - S i)) by lia. done.
    + replace (i <=? k)%nat with false by (symmetry; apply Nat.leb_gt; lia). done.
Qed.

Definition is_byte (x : Z) : Prop := 0 <= x < 256.

Lemma set_bit_byte x m : is_byte x -> 0 <= m < 8 -> is_byte (Z.lor x (Z.shiftl 1 m)).
Proof.
  intros [H1 H2] Hm. assert (H0 : 0 <= Z.lor x (Z.shiftl 1 m)).
  { apply Z.lor_nonneg. split; [done |]. apply Z.shiftl_nonneg. lia. }
  split; [done |]. destruct (decide (Z.lor x (Z.shiftl 1 m) = 0)) as [-> | Hne]; [done |].
  change 256 with (2 ^ 8). apply Z.log2_lt_pow2; [lia |].
  rewrite Z.log2_lor by (try lia; apply Z.shiftl_nonneg; lia). apply Z.max_lub_lt.
  - destruct (decide (x = 0)) as [-> |]; [done |]. apply Z.log2_lt_pow2; lia.
  - rewrite Z.log2_shiftl by lia. cbn. lia.
Qed.

Lemma pack_stream_bytes bits i p : Forall is_byte p -> Forall is_byte (pack_stream bits i p).
Proof.
  revert i p. induction bits as [| b bits IH]; intros i p Hp; [done |]. cbn [pack_stream].
  apply IH. destruct b; [| done]. apply Forall_alter; [done |].
  intros x _ Hx. apply set_bit_byte; [done |]. pose proof (Nat.mod_upper_bound i 8). lia.
Qed.

Lemma byte_ones x : is_byte x -> (forall k, (k < 8)%nat -> Z.testbit x (Z.of_nat k) = true) -> x = 0xFF.
Proof.
  intros [H1 H2] H. apply Z.bits_inj'. intros n Hn. destruct (Z.ltb_spec n 8).
  - rewrite <- (Z2Nat.id n) by done. rewrite H by lia. change 0xFF with (Z.ones 8).
    symmetry. apply Z.ones_spec_low. lia.
  - change 0xFF with (Z.ones 8). rewrite Z.ones_spec_high by lia.
    destruct (decide (x = 0)) as [-> |]; [apply Z.testbit_0_l |].
    apply Z.bits_above_log2; [done |].
    assert (Z.log2 x < 8) by (apply Z.log2_lt_pow2; [lia | done]). lia.
Qed.

Lemma packet_bits_lookup n p bits : length bits = Z.to_nat n ->
  (forall k b, bits !! k = Some b -> packet_bit (n :: p) k = Some b) ->
  packet_bits (n :: p) = Some bits.
Proof.
  intros Hl H. unfold packet_bits. apply mapM_Some. apply Forall2_same_length_lookup.
  split; [by rewrite length_seq |].
  intros k j b Hj Hb. apply lookup_seq in Hj as [-> _]. by apply H.
Qed.

(** A packet holds the bits it was made of. *)
Lemma translate_bits bits : (length bits <= 255)%nat ->
  exists p, translateBitstream2Packetstream bits = Some (Z.quot (Z.of_nat (length bits)) 8 + 2, p) /\
    p !! 0%nat = Some (Z.of_nat (length bits)) /\ Forall is_byte p /\
    (forall k b, bits !! k = Some b -> packet_bit p k = Some b).
Proof.
  intros Hl. unfold translateBitstream2Packetstream.
  destruct (Z.ltb_spec 255 (Z.of_nat (length bits))); [lia |].
  set (n := Z.of_nat (length bits)). set (zeros := replicate 79 0).
  assert (E : pack_stream bits 0 (<[O := n]> (replicate (Z.to_nat PKTSIZE) 0)) =
    pack_stream bits 0 (n :: zeros)) by done.
  eexists. split; [reflexivity |]. rewrite E.
  assert (Hbit : forall k b, bits !! k = Some b ->
    packet_bit (pack_stream bits 0 (n :: zeros)) k = Some b).
  { intros k b Hk. assert (Hk' : (k < 255)%nat) by (apply lookup_lt_Some in Hk; lia).
    assert (H0 : packet_bit (n :: zeros) k = Some false).
    { unfold packet_bit. change ((n :: zeros) !! S (k / 8)%nat) with (zeros !! (k / 8)%nat).
      unfold zeros. rewrite lookup_replicate_2; [by rewrite Z.testbit_0_l |].
      apply Nat.Div0.div_lt_upper_bound. lia. }
    rewrite (pack_stream_bit bits 0 _ k false H0). cbn. by rewrite Nat.sub_0_r, Hk. }
  split; [| split; [| exact Hbit]]; cycle 1.
  { apply pack_stream_bytes. apply Forall_cons. split; [unfold is_byte, n; lia |].
    by apply Forall_replicate. }
  assert (Hh : exists q, pack_stream bits 0 (n :: zeros) = n :: q).
  { clear. generalize 0%nat as i. generalize zeros as q. clearbody n. induction bits as [| b bits IH]; intros q i.
    - by exists q.
    - cbn [pack_stream]. destruct b; [| apply IH]. cbn [alter list_alter]. apply IH. }
  destruct Hh as [q ->]. done.
Qed.

(** ** The line *)

(** The bits of half waves: the first bytes of a stream are its start level. *)
Fixpoint wave_bits (w : list Z) : option (list bool) :=
  match w with
  | [] => Some []
  | 0xFF :: 0x00 :: w => cons true <$> wave_bits w
  | 0xFF :: 0xFF :: 0x00 :: 0x00 :: w => cons false <$> wave_bits w
  | _ => None
  end.

Lemma wave_bits_app bits w : wave_bits (mjoin (nmra_bit <$> bits) ++ w) = app bits <$> wave_bits w.
Proof.
  induction bits as [| b bits IH]; [cbn; by destruct (wave_bits w) |].
  change (mjoin (nmra_bit <$> b :: bits)) with (nmra_bit b ++ mjoin (nmra_bit <$> bits)).
  rewrite <- app_assoc. destruct b; cbn [nmra_bit app wave_bits]; rewrite IH; by destruct (wave_bits w).
Qed.

Lemma wave_length bits : (length (mjoin (nmra_bit <$> bits)) <= 4 * length bits)%nat.
Proof.
  induction bits as [| b bits IH]; [done |].
  change (mjoin (nmra_bit <$> b :: bits)) with (nmra_bit b ++ mjoin (nmra_bit <$> bits)).
  rewrite length_app. destruct b; cbn [nmra_bit length]; lia.
Qed.

(** A packet of a bit string that starts with a preamble, on the line. *)
Lemma wave_of_packet bits p : (8 <= length bits)%nat -> take 8 bits = replicate 8 true ->
  p !! 0%nat = Some (Z.of_nat (length bits)) -> (forall x, p !! 1%nat = Some x -> is_byte x) ->
  (forall k b, bits !! k = Some b -> packet_bit p k = Some b) ->
  convertNMRAPacketToSPIStream p = Some (0x00 :: mjoin (nmra_bit <$> bits) ++ nmra_bit true).
Proof.
  intros H8 Hp H0 Hbytes Hbit.
  assert (Hones : forall k, (k < 8)%nat -> packet_bit p k = Some true).
  { intros k Hk. apply Hbit. rewrite <- (lookup_take_lt bits 8 k) by done.
    rewrite Hp. by apply lookup_replicate_2. }
  unfold convertNMRAPacketToSPIStream.
  destruct p as [| n [| x p]]; [done | by pose proof (Hones 0%nat ltac:(lia)) |]. injection H0 as ->.
  cbn [lookup list_lookup] in *.
  assert (Hx : forall k, (k < 8)%nat -> Z.testbit x (Z.of_nat k) = true).
  { intros k Hk. pose proof (Hones k Hk) as H. unfold packet_bit in H.
    rewrite Nat.div_small, Nat.mod_small in H by done. by injection H. }
  rewrite (byte_ones x (Hbytes x eq_refl) Hx) in *. rewrite Z.eqb_refl. cbn [negb].
  by rewrite (packet_bits_lookup _ _ bits) by (lia || done).
Qed.

(** Of a packet only the first [n] bytes are copied. *)
Lemma memcpy_lookup dst src n k : (k < Z.to_nat n)%nat -> is_Some (src !! k) -> memcpy dst src n !! k = src !! k.
Proof.
  intros Hk [x Hx]. unfold memcpy. pose proof (lookup_lt_Some _ _ _ Hx).
  rewrite lookup_app_l by (rewrite length_take; lia). by rewrite lookup_take_lt.
Qed.

Lemma packet_wave bits : (length bits <= 255)%nat -> (8 <= length bits)%nat ->
  take 8 bits = replicate 8 true ->
  exists n p, translateBitstream2Packetstream bits = Some (n, p) /\
    convertNMRAPacketToSPIStream p = Some (0x00 :: mjoin (nmra_bit <$> bits) ++ nmra_bit true) /\
    forall dst, convertNMRAPacketToSPIStream (memcpy dst p n) =
      Some (0x00 :: mjoin (nmra_bit <$> bits) ++ nmra_bit true).
Proof.
  intros Hl H8 Hp. destruct (translate_bits bits Hl) as (p & E & H0 & Hbytes & Hbit).
  assert (H1 : forall x, p !! 1%nat = Some x -> is_byte x) by (intros x Hx; by eapply Forall_lookup_1).
  eexists _, p. split; [exact E |]. split; [by apply wave_of_packet |]. intros dst.
  set (n := Z.quot _ 8 + 2). assert (Hn : Z.to_nat n = (length bits / 8 + 2)%nat).
  { unfold n. rewrite Z.quot_div_nonneg by lia. rewrite <- (Nat2Z.inj_div _ 8). lia. }
  assert (Hk : forall k b, bits !! k = Some b -> memcpy dst p n !! S (k / 8) = p !! S (k / 8)%nat).
  { intros k b Hb. apply memcpy_lookup.
    - rewrite Hn. apply lookup_lt_Some in Hb. pose proof (Nat.Div0.div_le_mono k (length bits) 8). lia.
    - pose proof (Hbit k b Hb) as Hpb. unfold packet_bit in Hpb. by destruct (p !! S (k / 8)%nat). }
  apply wave_of_packet; [done | done | | |].
  - rewrite memcpy_lookup; [done | lia | by rewrite H0].
  - intros x. destruct (lookup_lt_is_Some_2 bits 0) as [b Hb]; [lia |]. change 1%nat with (S (0 / 8)). rewrite (Hk 0%nat b Hb). apply H1.
  - intros k b Hb. rewrite <- (Hbit k b Hb). unfold packet_bit. by rewrite (Hk k b Hb).
Qed.

(** * A decoder of bit strings

    What a DCC decoder reads: a preamble of at least ten ones, then bytes, each
    after a zero, up to a one. *)

Fixpoint skip_ones (l : list bool) : nat * list bool :=
  match l with
  | true :: l => let '(n, r) := skip_ones l in (S n, r)
  | _ => (O, l)
  end.

Fixpoint read_bytes (fuel : nat) (l : list bool) : option (list (list bool) * list bool) :=
  match fuel with
  | O => None
  | S fuel =>
      match l with
      | x7 :: x6 :: x5 :: x4 :: x3 :: x2 :: x1 :: x0 :: last :: l =>
          let byte := [x7; x6; x5; x4; x3; x2; x1; x0] in
          if last then Some ([byte], l)
          else match read_bytes fuel l with
               | Some (bs, r) => Some (byte :: bs, r)
               | None => None
               end
      | _ => None
      end
  end.

Fixpoint dcc_decode (fuel : nat) (l : list bool) : option (list (list (list bool))) :=
  match fuel, l with
  | _, [] => Some []
  | O, _ => None
  | S fuel, _ =>
      match skip_ones l with
      | (n, false :: r) =>
          if (10 <=? n)%nat then
            match read_bytes (length r) r with
            | Some (bs, r) => cons bs <$> dcc_decode fuel r
            | None => None
            end
          else None
      | _ => None
      end
  end.

(** A packet on the line after [n] ones. *)
Definition frame (n : nat) (bytes : list (list bool)) : list bool :=
  replicate n true ++ mjoin (cons false <$> bytes) ++ [true].

Definition eight (b : list bool) : Prop := length b = 8%nat.

Lemma skip_ones_frame n l : skip_ones (replicate n true ++ false :: l) = (n, false :: l).
Proof. induction n as [| n IH]; [done |]. cbn. by rewrite IH. Qed.

Lemma read_bytes_frame b bs l fuel : Forall eight (b :: bs) -> (length bs < fuel)%nat ->
  read_bytes fuel (b ++ mjoin (cons false <$> bs) ++ true :: l) = Some (b :: bs, l).
Proof.
  revert b fuel. induction bs as [| c bs IH]; intros b [| fuel] H Hf; try (cbn in Hf; lia);
    apply Forall_cons in H as [Hb H];
    do 9 (destruct b as [| ? b]; try done).
  change (mjoin (cons false <$> c :: bs)) with (false :: c ++ mjoin (cons false <$> bs)).
  cbn [app read_bytes]. rewrite <- app_assoc. rewrite IH; [done | done | cbn in Hf; lia].
Qed.

Lemma frame_length n bytes : Forall eight bytes -> length (frame n bytes) = (n + 9 * length bytes + 1)%nat.
Proof.
  intros H. unfold frame. rewrite !length_app, length_replicate. cbn [length].
  enough (length (mjoin (cons false <$> bytes)) = (9 * length bytes)%nat) by lia.
  induction H as [| b bytes Hb _ IH]; [done |].
  change (mjoin (cons false <$> b :: bytes)) with (false :: b ++ mjoin (cons false <$> bytes)).
  cbn [length]. rewrite length_app, IH. unfold eight in Hb. lia.
Qed.

Definition frames (l : list (nat * list (list bool))) : list bool :=
  mjoin ((fun f => frame f.1 f.2) <$> l).

Definition frame_ok (f : nat * list (list bool)) : Prop :=
  (10 <= f.1)%nat /\ f.2 <> [] /\ Forall eight f.2.

(** The decoder reads the packets that were framed. *)
Lemma decode_frames l fuel : Forall frame_ok l -> (length l <= fuel)%nat ->
  dcc_decode fuel (frames l) = Some (snd <$> l).
Proof.
  intros H. revert fuel. induction H as [| [n bs] l (Hn & Hne & H8) _ IH]; intros fuel Hf.
  { by destruct fuel. }
  destruct fuel as [| fuel]; [cbn in Hf; lia |]. destruct bs as [| b bs]; [done |].
  assert (E : frames ((n, b :: bs) :: l) =
    replicate n true ++ false :: (b ++ mjoin (cons false <$> bs) ++ true :: frames l)).
  { unfold frames. cbn [fmap list_fmap mjoin list_join fst snd]. unfold frame.
    change (mjoin (cons false <$> b :: bs)) with (false :: b ++ mjoin (cons false <$> bs)).
    rewrite <- !app_assoc. cbn [app]. by rewrite <- !app_assoc. }
  rewrite E. set (r := b ++ _).
  assert (Hr : read_bytes (length r) r = Some (b :: bs, frames l)).
  { apply read_bytes_frame; [done |]. unfold r. rewrite !length_app.
    enough (length bs <= length (mjoin (cons false <$> bs)))%nat by (cbn [length]; lia).
    clear. induction bs as [| c bs IH]; [done |].
    change (mjoin (cons false <$> c :: bs)) with (false :: c ++ mjoin (cons false <$> bs)).
    cbn [length]. rewrite length_app. lia. }
  cbn [fst] in Hn. destruct n as [| n]; [lia |].
  change (replicate (S n) true ++ false :: r) with (true :: replicate n true ++ false :: r).
  cbn [dcc_decode]. change (true :: replicate n true ++ false :: r) with
    (replicate (S n) true ++ false :: r).
  rewrite skip_ones_frame. apply Nat.leb_le in Hn. rewrite Hn, Hr.
  rewrite IH by (cbn in Hf; lia). done.
Qed.

(** ** strcat and groups *)

Lemma strcats_some a l : Z.of_nat (length a + length (mjoin l)) < BUFFERSIZE ->
  strcats a l = Some (a ++ mjoin l).
Proof.
  revert a. induction l as [| b l IH]; intros a H; [by rewrite app_nil_r |].
  change (mjoin (b :: l)) with (b ++ mjoin l) in *. rewrite length_app in H.
  cbn [strcats]. unfold strcat.
  destruct (Z.ltb_spec (Z.of_nat (length a + length b)) BUFFERSIZE); [| lia].
  rewrite IH by (rewrite length_app; lia). by rewrite app_assoc.
Qed.

(** The address part of a command. *)
Definition addr_part (ab : list (list bool)) : list bool :=
  preamble ++ mjoin (cons false <$> ab) ++ [false].

Definition checksum (l : list (list bool)) : list bool := foldl xor_two_bytes (replicate 8 false) l.

(** The bytes of a command: address, instruction and error detection byte. *)
Definition command (ab bytes : list (list bool)) : list (list bool) :=
  ab ++ bytes ++ [checksum (ab ++ bytes)].

Lemma xor_eight a b : eight a -> eight b -> eight (xor_two_bytes a b).
Proof. unfold eight, xor_two_bytes. rewrite length_zip_with. lia. Qed.

Lemma foldl_eight e l : eight e -> Forall eight l -> eight (foldl xor_two_bytes e l).
Proof. intros He H. revert e He. induction H; intros e He; cbn; auto using xor_eight. Qed.

Lemma checksum_eight l : Forall eight l -> eight (checksum l).
Proof. by apply foldl_eight. Qed.

Lemma xor_self b : eight b -> xor_two_bytes b b = replicate 8 false.
Proof. unfold eight. intros H. do 9 (destruct b as [| [] b]; try done). Qed.

(** The bytes of a command add up to zero. *)
Lemma command_valid ab bytes : Forall eight ab -> Forall eight bytes ->
  checksum (command ab bytes) = replicate 8 false.
Proof.
  intros Ha Hb. unfold command. rewrite app_assoc. unfold checksum at 1. rewrite foldl_app. cbn.
  apply xor_self, checksum_eight. by apply Forall_app.
Qed.

Lemma zero_xor b : eight b -> xor_two_bytes (replicate 8 false) b = b.
Proof. unfold eight. intros H. do 9 (destruct b as [| [] b]; try done). Qed.

Lemma group_frame ab bytes : Forall eight ab -> Forall eight bytes -> ab <> [] ->
  mjoin (group_stream (addr_part ab) (checksum ab) bytes) = frame 15 (command ab bytes).
Proof.
  intros Ha Hb Hne. unfold group_stream, command, frame, addr_part.
  rewrite !fmap_app, !join_app. unfold checksum at 2. rewrite foldl_app.
  change (foldl xor_two_bytes (replicate 8 false) ab) with (checksum ab).
  set (e := foldl xor_two_bytes (checksum ab) bytes). clearbody e.
  assert (E : forall r, [false] ++ mjoin (mjoin ((fun b => [b; b0]) <$> bytes)) ++ r =
    mjoin (cons false <$> bytes) ++ [false] ++ r).
  { clear. induction bytes as [| b bytes IH]; intros r; [done |].
    change (mjoin (cons false <$> b :: bytes)) with (false :: b ++ mjoin (cons false <$> bytes)).
    change (mjoin (mjoin ((fun b => [b; b0]) <$> b :: bytes))) with
      (b ++ [false] ++ mjoin (mjoin ((fun b => [b; b0]) <$> bytes))).
    cbn [app]. f_equal. rewrite <- !app_assoc. f_equal. exact (IH r). }
  unfold preamble. cbn [mjoin list_join app]. rewrite <- !app_assoc. f_equal. f_equal.
  rewrite app_nil_l, E. cbn. by rewrite app_nil_r.
Qed.

(** * Locomotive commands *)

Definition address_bytes (address mode : Z) : list (list bool) :=
  if mode =? 1 then [calc_single_byte (Z.land address 0x7f)]
  else [(calc_14bit_address_byte address).1; (calc_14bit_address_byte address).2].

Lemma single_eight v : eight (calc_single_byte v).
Proof. done. Qed.

Lemma insert_eight i b x : eight b -> eight (<[i := x]> b).
Proof. unfold eight. intros H. by rewrite length_insert. Qed.

Lemma address_eight address mode : Forall eight (address_bytes address mode).
Proof. unfold address_bytes. destruct (mode =? 1); by repeat constructor. Qed.

Lemma address_stream_spec address mode : mode = 1 \/ mode = 2 ->
  calc_address_stream address mode =
    Some (addr_part (address_bytes address mode), checksum (address_bytes address mode)).
Proof.
  intros [-> | ->]; unfold calc_address_stream, address_bytes; cbn [Z.eqb Pos.eqb].
  - rewrite strcats_some by done. cbn [app]. unfold checksum. cbn [foldl].
    by rewrite zero_xor by apply single_eight.
  - cbn [calc_14bit_address_byte fst snd]. rewrite strcats_some by done.
    unfold checksum. cbn [foldl]. by rewrite zero_xor by apply single_eight.
Qed.

Lemma speed_bytes_eight direction speed func nspeed :
  Forall eight (speed_bytes direction speed func nspeed) /\
  (1 <= length (speed_bytes direction speed func nspeed) <= 2)%nat.
Proof.
  unfold speed_bytes, calc_128spst_adv_op_bytes, calc_28spst_speed_byte, calc_baseline_speed_byte,
    set_one. repeat case_match; simplify_eq; cbn [length];
    (split; [repeat constructor; auto using single_eight, insert_eight | lia]).
Qed.

Lemma group_one_eight func : eight (calc_function_group_one_byte func).
Proof.
  unfold calc_function_group_one_byte, set_one. cbv zeta. destruct (Z.testbit _ 0);
    auto using single_eight, insert_eight.
Qed.

Lemma group_two_eight func lower : eight (calc_function_group_two_byte func lower).
Proof. done. Qed.

(** The commands of the first stream and of the second one. *)
Definition first_commands (ab : list (list bool)) (direction speed func nspeed nfuncs : Z) :=
  [command ab (speed_bytes direction speed func nspeed)] ++
  (if 5 <? nfuncs then [command ab [calc_function_group_two_byte func true]] else []) ++
  (if 12 <? nfuncs then [command ab [calc_single_byte 0xde; calc_single_byte (Z.shiftr func 13)]]
   else []).

Definition second_commands (ab : list (list bool)) (func nfuncs : Z) :=
  [command ab [calc_function_group_one_byte func]] ++
  (if 8 <? nfuncs then [command ab [calc_function_group_two_byte func false]] else []) ++
  (if 20 <? nfuncs then [command ab [calc_single_byte 0xdf; calc_single_byte (Z.shiftr func 21)]]
   else []).

(** Commands on the line: the first one after a preamble, the others after a
    pause too. *)
Definition spaced (cs : list (list (list bool))) : list (nat * list (list bool)) :=
  match cs with
  | [] => []
  | c :: cs => (15%nat, c) :: (pair 50%nat <$> cs)
  end.

Lemma spaced_snd cs : snd <$> spaced cs = cs.
Proof. destruct cs as [| c cs]; [done |]. cbn. f_equal. induction cs; cbn; congruence. Qed.

(** A command of at most five bytes. *)
Definition short_command (c : list (list bool)) : Prop :=
  Forall eight c /\ (1 <= length c <= 5)%nat.

Lemma command_short ab bytes : Forall eight ab -> Forall eight bytes ->
  (length ab <= 2)%nat -> (length bytes <= 2)%nat -> short_command (command ab bytes).
Proof.
  intros Ha Hb La Lb. unfold short_command, command. rewrite !length_app. cbn [length].
  split; [| lia]. rewrite !Forall_app. split; [done |]. split; [done |].
  apply Forall_singleton, checksum_eight. by apply Forall_app.
Qed.

Lemma address_length address mode :
  (length (address_bytes address mode) <= 2)%nat /\ address_bytes address mode <> [].
Proof. unfold address_bytes. destruct (mode =? 1); cbn; split; try lia; done. Qed.

Lemma commands_short address mode direction speed func nspeed nfuncs :
  Forall short_command (first_commands (address_bytes address mode) direction speed func nspeed nfuncs) /\
  Forall short_command (second_commands (address_bytes address mode) func nfuncs).
Proof.
  pose proof (address_eight address mode) as Ha. destruct (address_length address mode) as [La _].
  destruct (speed_bytes_eight direction speed func nspeed) as [Hs Ls].
  unfold first_commands, second_commands. rewrite !Forall_app, !Forall_singleton.
  repeat split; try (case_match; [apply Forall_singleton | by apply Forall_nil_2]);
    apply command_short; cbn [length];
    repeat (apply Forall_cons_2 || apply Forall_nil_2); auto using single_eight, group_one_eight, group_two_eight; lia.
Qed.

Lemma spaced_ok cs : Forall short_command cs -> Forall frame_ok (spaced cs).
Proof.
  intros H. assert (A : forall n c, (10 <= n)%nat -> short_command c -> frame_ok (n, c)).
  { intros n c Hn [Hc Hl]. split; [done |]. split; [| done]. cbn. intros ->. cbn in Hl. lia. }
  destruct H as [| c cs Hc H]; constructor; [by apply A; [lia |] |].
  apply Forall_fmap. eapply Forall_impl; [exact H |]. intros c' Hc'. by apply A; [lia |].
Qed.

(** Three commands of five bytes fit a packet. *)
Lemma spaced_length cs : Forall short_command cs -> (length cs <= 3)%nat ->
  (length (frames (spaced cs)) <= 253)%nat.
Proof.
  intros H Hl. assert (F : forall n c, short_command c -> (length (frame n c) <= n + 46)%nat).
  { intros n c [Hc Hlc]. rewrite frame_length by done. lia. }
  unfold frames. destruct H as [| c1 cs H1 H]; [cbn; lia |]. cbn [spaced fmap list_fmap].
  pose proof (F 15%nat _ H1) as L1. destruct H as [| c2 cs H2 H]; cbn [fmap list_fmap];
    [cbn [mjoin list_join fst snd]; rewrite !length_app; cbn [length]; lia |].
  pose proof (F 50%nat _ H2) as L2. destruct H as [| c3 cs H3 H]; cbn [fmap list_fmap];
    [cbn [mjoin list_join fst snd]; rewrite !length_app; cbn [length]; lia |].
  pose proof (F 50%nat _ H3) as L3. destruct cs; [| cbn in Hl; lia].
  cbn [fmap list_fmap mjoin list_join fst snd]. rewrite !length_app. cbn [length]. lia.
Qed.

Lemma wait_frame c : wait ++ frame 15 c = frame 50 c.
Proof. unfold frame. by rewrite app_assoc. Qed.

Lemma group_join ab bytes : Forall eight ab -> Forall eight bytes -> ab <> [] ->
  mjoin (wait :: group_stream (addr_part ab) (checksum ab) bytes) = frame 50 (command ab bytes).
Proof.
  intros. change (mjoin (wait :: ?l)) with (wait ++ mjoin l). by rewrite group_frame, wait_frame.
Qed.

Lemma frames_cons n c l : frames ((n, c) :: l) = frame n c ++ frames l.
Proof. done. Qed.

Lemma frames_one n c : frames [(n, c)] = frame n c.
Proof. unfold frames. cbn. apply app_nil_r. Qed.

(** Whether the functions are sent, and how many. *)
Definition sent_funcs (nspeed nfuncs : Z) : Z :=
  if negb (nfuncs =? 0) && (14 <? nspeed) then nfuncs else 0.

Section Streams.
Context (address mode direction speed func nspeed nfuncs : Z) (Hmode : mode = 1 \/ mode = 2).
Let ab := address_bytes address mode.

Lemma function_streams :
  calc_function_stream (frame 15 (command ab (speed_bytes direction speed func nspeed)))
    (checksum ab) (addr_part ab) func nfuncs =
  Some (frames (spaced (first_commands ab direction speed func nspeed nfuncs)),
        frames (spaced (second_commands ab func nfuncs))).
Proof.
  destruct (commands_short address mode direction speed func nspeed nfuncs) as [C1 C2].
  pose proof (spaced_length _ C1) as L1. pose proof (spaced_length _ C2) as L2.
  pose proof (address_eight address mode) as Ha. destruct (address_length address mode) as [_ Hne].
  fold ab in C1, C2, L1, L2, Ha, Hne.
  assert (G : forall bytes, Forall eight bytes ->
    mjoin (wait :: group_stream (addr_part ab) (checksum ab) bytes) = frame 50 (command ab bytes))
    by (intros; by apply group_join).
  assert (E1 : Forall eight [calc_function_group_two_byte func true]) by by repeat constructor.
  assert (E2 : Forall eight [calc_function_group_two_byte func false]) by by repeat constructor.
  assert (E3 : Forall eight [calc_single_byte 0xde; calc_single_byte (Z.shiftr func 13)])
    by by repeat constructor.
  assert (E4 : Forall eight [calc_single_byte 0xdf; calc_single_byte (Z.shiftr func 21)])
    by by repeat constructor.
  assert (E5 : Forall eight [calc_function_group_one_byte func])
    by (apply Forall_singleton, group_one_eight).
  unfold calc_function_stream, first_commands, second_commands in *.
  change (set_one 7 (calc_single_byte 0xde)) with (calc_single_byte 0xdf).
  assert (B : forall a l r, a ++ mjoin l = r -> (length r <= 253)%nat -> strcats a l = Some r).
  { intros a l r <- Hl. apply strcats_some. rewrite length_app in Hl. unfold BUFFERSIZE. lia. }
  erewrite B; [erewrite B; [reflexivity | |] | |].
  - rewrite !join_app, group_frame by done.
    destruct (8 <? nfuncs), (20 <? nfuncs); rewrite ?G by done; cbn [app spaced fmap list_fmap];
      rewrite ?frames_cons; cbn [mjoin list_join]; rewrite ?app_nil_r; by rewrite ?app_nil_l.
  - apply L2. by destruct (8 <? nfuncs), (20 <? nfuncs); cbn; lia.
  - rewrite !join_app.
    destruct (5 <? nfuncs), (12 <? nfuncs); rewrite ?G by done; cbn [app spaced fmap list_fmap];
      rewrite ?frames_cons; cbn [mjoin list_join]; rewrite ?app_nil_r; by rewrite ?app_nil_l.
  - apply L1. by destruct (5 <? nfuncs), (12 <? nfuncs); cbn; lia.
Qed.

Lemma streams_spec :
  multi_func_streams address mode direction speed func nspeed nfuncs =
  Some (frames (spaced (first_commands ab direction speed func nspeed (sent_funcs nspeed nfuncs))),
        if negb (nfuncs =? 0) && (14 <? nspeed)
        then Some (frames (spaced (second_commands ab func nfuncs))) else None).
Proof.
  unfold multi_func_streams. rewrite address_stream_spec by done. fold ab.
  pose proof (address_eight address mode) as Ha. destruct (address_length address mode) as [_ Hne].
  fold ab in Ha, Hne. destruct (speed_bytes_eight direction speed func nspeed) as [Hs _].
  destruct (commands_short address mode direction speed func nspeed 0) as [C1 _].
  pose proof (spaced_length _ C1) as L1. fold ab in L1.
  assert (E0 : frames (spaced (first_commands ab direction speed func nspeed 0)) =
    frame 15 (command ab (speed_bytes direction speed func nspeed))) by apply frames_one.
  rewrite E0 in L1.
  rewrite (strcats_some []) by (rewrite group_frame by done; unfold BUFFERSIZE; cbn in *; lia).
  rewrite group_frame by done. rewrite app_nil_l. unfold sent_funcs.
  destruct (negb (nfuncs =? 0) && (14 <? nspeed)); [| by rewrite E0].
  by rewrite function_streams.
Qed.
End Streams.

(** * The packet pool *)

Definition addresses (p : pool tNMRAPacket) : list Z :=
  omap (fun i => p.(knownAddresses) !! i) (seqZ 0 p.(NrOfKnownAddresses)).

(** The pool of NMRA packets: its arrays, and the known addresses, each once,
    with the element after them still zero. *)
Record pool_wf (p : pool tNMRAPacket) : Prop := {
  pwf_packets : is_array (MAX_NMRA_ADDRESS + 1) p.(packets);
  pwf_known : is_array (MAX_NMRA_ADDRESS + 1) p.(knownAddresses);
  pwf_nr : 0 <= p.(NrOfKnownAddresses) <= MAX_NMRA_ADDRESS;
  pwf_range : forall i a, 0 <= i < p.(NrOfKnownAddresses) -> p.(knownAddresses) !! i = Some a ->
    1 <= a <= 10239;
  pwf_inj : forall i j a, 0 <= i < p.(NrOfKnownAddresses) -> 0 <= j < p.(NrOfKnownAddresses) ->
    p.(knownAddresses) !! i = Some a -> p.(knownAddresses) !! j = Some a -> i = j;
  pwf_next : forall i, p.(NrOfKnownAddresses) <= i <= MAX_NMRA_ADDRESS ->
    p.(knownAddresses) !! i = Some 0;
}.

Lemma is_known_spec known adr : forall fuel i,
  (forall j, i <= j < i + Z.of_nat fuel -> is_Some (known !! j)) ->
  exists b, is_known fuel known i adr = Some b /\
    (b = true <-> exists j, i <= j < i + Z.of_nat fuel /\ known !! j = Some adr).
Proof.
  induction fuel as [| fuel IH]; intros i H.
  { exists false. split; [done |]. split; [done |]. intros (j & Hj & _). lia. }
  cbn [is_known]. destruct (H i) as [a Ha]; [lia |]. rewrite Ha.
  destruct (Z.eqb_spec a adr) as [-> | Hne].
  - exists true. split; [done |]. split; [| done]. intros _. exists i. split; [lia | done].
  - destruct (IH (i + 1)) as (b & E & Hb); [intros; apply H; lia |].
    exists b. split; [done |]. rewrite Hb. split.
    + intros (j & Hj & Ej). exists j. split; [lia | done].
    + intros (j & Hj & Ej). exists j. split; [| done].
      destruct (decide (j = i)) as [-> |]; [congruence | lia].
Qed.

(** The known addresses are so few that a new one fits: they are different
    numbers from 1 to 10239. *)
Lemma pool_room p : pool_wf p -> p.(NrOfKnownAddresses) <= 10239.
Proof.
  intros [W1 W2 W3 W4 W5 W6]. set (n := Z.to_nat p.(NrOfKnownAddresses)).
  set (f := fun k : nat => default 0 (p.(knownAddresses) !! Z.of_nat k)).
  assert (Hf : forall k, (k < n)%nat -> p.(knownAddresses) !! Z.of_nat k = Some (f k)).
  { intros k Hk. unfold f. destruct (is_array_lookup _ _ (Z.of_nat k) W2) as [a Ha]; [lia |].
    by rewrite Ha. }
  assert (Hn : NoDup (f <$> seq 0 n)).
  { apply NoDup_fmap_2_strong; [| apply NoDup_seq].
    intros x y Hx Hy E. apply elem_of_seq in Hx, Hy.
    assert (H : Z.of_nat x = Z.of_nat y); [| lia].
    apply (W5 _ _ (f x)); [lia | lia | apply Hf; lia | rewrite E; apply Hf; lia]. }
  assert (Hs : f <$> seq 0 n ⊆ seqZ 1 10239).
  { intros a Ha. apply list_elem_of_fmap in Ha as (k & -> & Hk). apply elem_of_seq in Hk.
    apply elem_of_seqZ. pose proof (W4 (Z.of_nat k) (f k)) as H.
    specialize (H ltac:(lia) (Hf k ltac:(lia))). lia. }
  apply NoDup_submseteq in Hs; [| done]. apply submseteq_length in Hs.
  rewrite length_fmap, length_seq, length_seqZ in Hs. lia.
Qed.

Lemma update_pool_spec st glptr adr p1 j p2 jj : pool_wf st.(NMRAPacketPool) -> 1 <= adr <= 10239 ->
  exists pool', update_NMRAPacketPool glptr adr p1 j p2 jj st =
      Some (tt, st <| NMRAPacketPool := pool' |>) /\ pool_wf pool' /\
    (exists old fx, pool'.(packets) !! adr = Some (Some (mk_nmra_packet glptr (memcpy old p1 j) (memcpy fx p2 jj)))) /\
    (exists i, 0 <= i < pool'.(NrOfKnownAddresses) /\ pool'.(knownAddresses) !! i = Some adr).
Proof.
  intros Hw Ha. pose proof (pool_room _ Hw) as Hroom. pose proof Hw as [W1 W2 W3 W4 W5 W6].
  set (p := st.(NMRAPacketPool)) in *. set (n := p.(NrOfKnownAddresses)) in *.
  unfold MAX_NMRA_ADDRESS in *.
  destruct (is_known_spec p.(knownAddresses) adr (S (Z.to_nat n)) 0) as (b & Eb & Hb).
  { intros i Hi. apply W2. lia. }
  destruct (is_array_lookup _ _ adr W1) as [old Hold]; [lia |].
  set (pk := mk_nmra_packet glptr (memcpy (default (mk_nmra_packet 0 [] []) old).(nmra_packet) p1 j)
    (memcpy (default (mk_nmra_packet 0 [] []) old).(nmra_fx_packet) p2 jj)).
  unfold update_NMRAPacketPool. unfold bind at 1, get. fold p. fold n. unfold bind at 1, need at 1.
  rewrite Eb. unfold ret at 1, bind at 1, need at 1. rewrite Hold. unfold ret at 1.
  fold pk. destruct b.
  - exists (p <| packets ::= <[adr := Some pk]> |>). split; [done |].
    assert (Hk : exists i, 0 <= i < n /\ p.(knownAddresses) !! i = Some adr).
    { destruct (proj1 Hb eq_refl) as (i & Hi & Ei). exists i. split; [| done].
      destruct (decide (i = n)) as [-> |]; [| lia]. rewrite W6 in Ei by lia. injection Ei. lia. }
    split; [split; cbn; try done; apply is_array_insert; [done | unfold MAX_NMRA_ADDRESS; lia] |].
    split; [| done]. eexists _, _. cbn. by rewrite lookup_insert_eq.
  - assert (Hnew : forall i, 0 <= i < n -> p.(knownAddresses) !! i <> Some adr).
    { intros i Hi E. assert (false = true); [apply Hb; exists i; split; [lia | done] | done]. }
    exists (p <| packets ::= <[adr := Some pk]> |> <| knownAddresses ::= <[n := adr]> |>
      <| NrOfKnownAddresses ::= Z.succ |>).
    split.
    { unfold add_known. unfold bind, need. cbn. fold n. rewrite W6 by lia. done. }
    split; [split; cbn; fold n; unfold MAX_NMRA_ADDRESS |].
    + apply is_array_insert; [done | lia].
    + apply is_array_insert; [done | lia].
    + lia.
    + intros i a Hi. destruct (decide (n = i)) as [<- |].
      * rewrite lookup_insert_eq. intros [= <-]. lia.
      * rewrite lookup_insert_ne by done. apply W4. fold n. lia.
    + intros i k a Hi Hk. destruct (decide (n = i)) as [<- |], (decide (n = k)) as [<- |]; try done.
      * rewrite lookup_insert_eq, lookup_insert_ne by done. intros [= <-] E.
        by destruct (Hnew k ltac:(lia)).
      * rewrite lookup_insert_eq, lookup_insert_ne by done. intros E [= <-].
        by destruct (Hnew i ltac:(lia)).
      * rewrite !lookup_insert_ne by done. apply W5; fold n; lia.
    + intros i Hi. rewrite lookup_insert_ne by lia. apply W6. fold n. lia.
    + split; [eexists _, _; cbn; by rewrite lookup_insert_eq |].
      exists n. cbn. fold n. split; [lia |]. apply lookup_insert_eq.
Qed.

Lemma initial_pool_wf : pool_wf (init_pool MAX_NMRA_ADDRESS).
Proof.
  split; cbn [init_pool packets knownAddresses NrOfKnownAddresses]; try apply is_array_array;
    try (intros; lia).
  - done.
  - intros i Hi. apply lookup_array_some. unfold MAX_NMRA_ADDRESS in *. lia.
Qed.

(** * Sending *)

Section Sending.
Context (rx : list Z) (receive : prog ddl_t unit).

Lemma send_nmra_spec t p n s st : is_mm t = false -> is_nmra t = true ->
  convertNMRAPacketToSPIStream p = Some s -> st.(waitread) = 0 ->
  send_packet rx receive (Bytes p) t n st =
    Some (0, sent (Z.to_nat n) SPI_BAUDRATE_NMRA_2 s (st <| spiLastMM := 0 |>)).
Proof.
  intros Hm Hn Hs Hw. unfold send_packet, send_nmra. rewrite Hm, Hn, Hs.
  unfold modify, need. unfold bind at 1 2 3. unfold ret at 1. rewrite transmit_spec.
  unfold bind, get. cbn. rewrite Hw. done.
Qed.
End Sending.

(** * Service mode *)

Lemma direct_access_zero rx receive packet s n st :
  convertNMRAPacketToSPIStream packet = Some s -> st.(waitread) = 0 ->
  exists st', direct_access rx receive packet n st = Some (0, st') /\ st'.(waitread) = 0.
Proof.
  intros Hs Hw. destruct (convertNMRAPacketToSPIStream resetpacket) as [r |] eqn:Hr; [| done].
  unfold direct_access.
  rewrite (bind_some _ _ _ _ _ (send_nmra_spec rx receive QNPROGPKT resetpacket 10 r st
    eq_refl eq_refl Hr Hw)). cbn [Z.ltb Z.compare].
  set (st1 := sent _ _ r _). assert (W1 : st1.(waitread) = 0) by exact Hw.
  rewrite (bind_some _ _ _ _ _ (send_nmra_spec rx receive QNPROGPKT packet n s st1
    eq_refl eq_refl Hs W1)).
  set (st2 := sent _ _ s _). assert (W2 : st2.(waitread) = 0) by exact Hw.
  rewrite (bind_some _ _ _ _ _ (send_nmra_spec rx receive QNBLOCOPKT resetpacket 2 r st2
    eq_refl eq_refl Hr W2)). eexists. split; [reflexivity | exact Hw].
Qed.

Lemma cvbit_zero rx receive cv bit st : 1 <= cv <= 1024 -> 0 <= bit <= 7 -> st.(waitread) = 0 ->
  exists st', protocol_nmra_sm_direct_cvbit rx receive cv bit 1 true st = Some (0, st') /\
    st'.(waitread) = 0.
Proof.
  intros Hcv Hb Hw. unfold protocol_nmra_sm_direct_cvbit. replace (_ || _) with false.
  2:{ symmetry. repeat (apply orb_false_iff; split); zbool. }
  eapply direct_access_zero; [reflexivity | done].
Qed.

Lemma get_bits_zero rx receive cv bits st : 1 <= cv <= 1024 -> Forall (fun b => 0 <= b <= 7) bits ->
  st.(waitread) = 0 -> exists st', get_bits rx receive bits cv 0 st = Some (0, st').
Proof.
  intros Hcv H. revert st. induction H as [| b bits Hb _ IH]; intros st Hw; [by exists st |].
  destruct (cvbit_zero rx receive cv b st Hcv Hb Hw) as (st1 & E & W1).
  cbn [get_bits]. rewrite (bind_some _ _ _ _ _ E). by apply IH.
Qed.

(** * A locomotive command on the line *)

Definition speed_of (d : gl_data_t) : Z := (nmra_speed d).1.
Definition direction_of (d : gl_data_t) : Z := (nmra_speed d).2.

(** The entry is one the driver accepts a command for. *)
Definition valid (d : gl_data_t) : Prop :=
  (d.(gl_protocolversion) = 1 \/ d.(gl_protocolversion) = 2) /\
  multi_func_ok d.(gl_id) d.(gl_protocolversion) (direction_of d) (speed_of d) d.(gl_n_fs) = true.

(** The commands sent for an entry. *)
Definition commands_of (d : gl_data_t) : list (list (list bool)) :=
  first_commands (address_bytes d.(gl_id) d.(gl_protocolversion)) (direction_of d) (speed_of d)
    d.(gl_funcs) d.(gl_n_fs) (sent_funcs d.(gl_n_fs) d.(gl_n_func)).

(** The commands the second packet of the pool has for it: the other groups of
    functions where the decoder has functions, the same again where not. *)
Definition refreshed_of (d : gl_data_t) : list (list (list bool)) :=
  if negb (d.(gl_n_func) =? 0) && (14 <? d.(gl_n_fs))
  then second_commands (address_bytes d.(gl_id) d.(gl_protocolversion)) d.(gl_funcs) d.(gl_n_func)
  else commands_of d.

(** A packet that is sent says these commands to a decoder of DCC bit strings. *)
Definition line_says (cs : list (list (list bool))) (p : list Z) : Prop :=
  exists w bits, convertNMRAPacketToSPIStream p = Some (0x00 :: w) /\
    wave_bits w = Some (bits ++ [true]) /\ dcc_decode 3 bits = Some cs.

Definition times_sent (d : gl_data_t) : nat :=
  if negb (d.(gl_n_func) =? 0) && (14 <? d.(gl_n_fs)) then 4%nat else 2%nat.

Lemma spaced_nonempty cs : cs <> [] -> Forall short_command cs ->
  (8 <= length (frames (spaced cs)))%nat /\ take 8 (frames (spaced cs)) = replicate 8 true.
Proof. intros Hn H. destruct H as [| c cs _ _]; [done |]. split; [cbn; lia | done]. Qed.

Lemma spaced_packet cs : cs <> [] -> Forall short_command cs -> (length cs <= 3)%nat ->
  exists n p, translateBitstream2Packetstream (frames (spaced cs)) = Some (n, p) /\
    convertNMRAPacketToSPIStream p =
      Some (0x00 :: mjoin (nmra_bit <$> frames (spaced cs)) ++ nmra_bit true) /\
    forall dst, line_says cs (memcpy dst p n).
Proof.
  intros Hn Hs Hl. pose proof (spaced_length _ Hs Hl). destruct (spaced_nonempty _ Hn Hs) as [H8 Ht].
  destruct (packet_wave (frames (spaced cs))) as (n & p & E & Ec & Em); [lia | lia | done |].
  exists n, p. split_and!; [done.. |]. intros dst. eexists _, _. split; [apply Em |].
  split; [by rewrite wave_bits_app |]. rewrite decode_frames; [by rewrite spaced_snd | by apply spaced_ok |].
  rewrite <- (length_fmap snd), spaced_snd. exact Hl.
Qed.

Lemma commands_count d : (length (commands_of d) <= 3)%nat /\ commands_of d <> [] /\
  Forall short_command (commands_of d).
Proof.
  unfold commands_of, first_commands. split; [| split].
  - by destruct (5 <? _), (12 <? _); cbn; lia.
  - done.
  - exact (proj1 (commands_short _ _ _ _ _ _ _)).
Qed.

Lemma second_count ab func nf : (length (second_commands ab func nf) <= 3)%nat /\
  second_commands ab func nf <> [].
Proof. unfold second_commands. split; [by destruct (8 <? _), (20 <? _); cbn; lia | done]. Qed.

Lemma comp_multi_func_run rx receive glptr d st :
  valid d -> pool_wf st.(NMRAPacketPool) -> st.(waitread) = 0 ->
  let s := 0x00 :: mjoin (nmra_bit <$> frames (spaced (commands_of d))) ++ nmra_bit true in
  exists st', comp_nmra_multi_func rx receive glptr d st = Some (handled d, st') /\
    pool_wf st'.(NMRAPacketPool) /\ st'.(waitread) = 0 /\
    st'.(transfers) = st.(transfers) ++ replicate (times_sent d) (mk_transfer SPI_BAUDRATE_NMRA_2 s) /\
    (exists i, 0 <= i < st'.(NMRAPacketPool).(NrOfKnownAddresses) /\
      st'.(NMRAPacketPool).(knownAddresses) !! i = Some d.(gl_id)) /\
    exists pk, st'.(NMRAPacketPool).(packets) !! d.(gl_id) = Some (Some pk) /\ pk.(nmra_glptr) = glptr /\
      line_says (commands_of d) pk.(nmra_packet) /\ line_says (refreshed_of d) pk.(nmra_fx_packet).
Proof.
  intros [Hm Hok] Hw Hr s.
  assert (Hid : 1 <= d.(gl_id) <= 10239) by (unfold multi_func_ok in Hok; bool_hyps; lia).
  destruct (commands_count d) as (Hl & Hne & Hs).
  destruct (spaced_packet _ Hne Hs Hl) as (j & p1 & E1 & C1 & M1).
  assert (E2 : exists jj p2, translateBitstream2Packetstream (default (frames (spaced (commands_of d)))
    (if negb (d.(gl_n_func) =? 0) && (14 <? d.(gl_n_fs))
     then Some (frames (spaced (second_commands (address_bytes d.(gl_id) d.(gl_protocolversion))
       d.(gl_funcs) d.(gl_n_func)))) else None)) = Some (jj, p2) /\
    forall dst, line_says (refreshed_of d) (memcpy dst p2 jj)).
  { unfold refreshed_of. destruct (_ && _); [| by exists j, p1]. cbn [default from_option id].
    destruct (second_count (address_bytes d.(gl_id) d.(gl_protocolversion)) d.(gl_funcs) d.(gl_n_func))
      as [Hl2 Hn2].
    destruct (spaced_packet _ Hn2 (proj2 (commands_short _ _ 0 0 _ 0 _)) Hl2) as (jj & p2 & E & _ & M2).
    by exists jj, p2. }
  destruct E2 as (jj & p2 & E2 & M2).
  destruct (update_pool_spec st glptr d.(gl_id) p1 j p2 jj Hw Hid) as (pool' & Eu & Hp & (o1 & o2 & Hpk) & Hkn).
  assert (Hpool : exists pk, pool'.(packets) !! d.(gl_id) = Some (Some pk) /\ pk.(nmra_glptr) = glptr /\
    line_says (commands_of d) pk.(nmra_packet) /\ line_says (refreshed_of d) pk.(nmra_fx_packet))
    by (eexists; split_and!; [exact Hpk | done | apply M1 | apply M2]).
  set (st1 := st <| NMRAPacketPool := pool' |>) in *.
  set (st2 := sent 2 SPI_BAUDRATE_NMRA_2 s (st1 <| spiLastMM := 0 |>)).
  assert (S1 : send_packet rx receive (Bytes p1) QNBLOCOPKT 2 st1 = Some (0, st2))
    by (by apply send_nmra_spec).
  set (st3 := sent 2 SPI_BAUDRATE_NMRA_2 s (st2 <| spiLastMM := 0 |>)).
  assert (S2 : send_packet rx receive (Bytes p1) QNBLOCOPKT 2 st2 = Some (0, st3))
    by (by apply send_nmra_spec).
  exists (if negb (d.(gl_n_func) =? 0) && (14 <? d.(gl_n_fs)) then st3 else st2).
  split.
  - assert (En : nmra_speed d = (speed_of d, direction_of d)) by apply surjective_pairing.
    unfold comp_nmra_multi_func. rewrite En, Hok. cbn [negb].
    rewrite streams_spec by done. cbn [need]. unfold ret at 1, bind at 1.
    change (frames (spaced (first_commands _ _ _ _ _ _))) with (frames (spaced (commands_of d))).
    rewrite E1, E2. unfold bind at 1. rewrite Eu. unfold bind at 1. rewrite S1.
    destruct (_ && _); unfold bind, ret; [by rewrite S2 | done].
  - assert (T2 : st2.(transfers) = st.(transfers) ++ replicate 2 (mk_transfer SPI_BAUDRATE_NMRA_2 s)) by done.
    unfold times_sent. destruct (_ && _).
    + split; [exact Hp |]. split; [exact Hr |]. split; [| by split].
      unfold st3, sent. cbn. by rewrite <- app_assoc.
    + split; [exact Hp |]. split; [exact Hr |]. split; [exact T2 | by split].
Qed.

(** * What a decoder makes of the bytes *)

Definition byte_value (b : list bool) : Z := foldl (fun v x => 2 * v + Z.b2z x) 0 b.

(** The accessory, output and activation two bytes name: 10AAAAAA 1AAACDDO, the
    upper address bits inverted.  Output 1 of decoder 0 is accessory 1. *)
Definition accessory_fields (b1 b2 : list bool) : Z * Z * Z :=
  let v1 := byte_value b1 in
  let v2 := byte_value b2 in
  let address := Z.lor (Z.land v1 0x3f) (Z.shiftl (Z.land (Z.lnot v2) 0x70) 2) in
  (address * 4 + Z.land (Z.shiftr v2 1) 3 + 1, Z.land v2 1, Z.land (Z.shiftr v2 3) 1).

Definition accessory_fields_ok (nr output activate offset : Z) : bool :=
  let '(b1, b2) := accessory_bytes nr output activate offset in
  bool_decide (accessory_fields b1 b2 = (nr + 4 * offset, output, activate)).

Lemma accessory_fields_all :
  forallb (fun nr => forallb (fun o => forallb (fun a => forallb (accessory_fields_ok nr o a) [0; 1])
    [0; 1]) [0; 1]) (seqZ 1 2044) = true.
Proof. vm_compute. reflexivity. Qed.

Lemma bit_in x : 0 <= x <= 1 -> In x [0; 1].
Proof. intros H. destruct (decide (x = 0)); [by left | right; left; lia]. Qed.

Lemma accessory_fields_one nr output activate offset :
  1 <= nr <= 2044 -> 0 <= output <= 1 -> 0 <= activate <= 1 -> 0 <= offset <= 1 ->
  accessory_fields_ok nr output activate offset = true.
Proof.
  intros Hn Ho Ha Hf. assert (Hn' : 1 <= nr < 1 + 2044) by lia.
  pose proof (forallb_seqZ _ _ _ _ accessory_fields_all Hn') as H. cbv beta in H.
  generalize dependent (accessory_fields_ok nr). intros ok H.
  rewrite forallb_forall in H. specialize (H output (bit_in _ Ho)).
  rewrite forallb_forall in H. specialize (H activate (bit_in _ Ha)).
  rewrite forallb_forall in H. exact (H offset (bit_in _ Hf)).
Qed.

Lemma accessory_fields_spec nr output activate offset :
  1 <= nr <= 2044 -> 0 <= output <= 1 -> 0 <= activate <= 1 -> 0 <= offset <= 1 ->
  accessory_fields (accessory_bytes nr output activate offset).1
    (accessory_bytes nr output activate offset).2 = (nr + 4 * offset, output, activate).
Proof.
  intros Hn Ho Ha Hf. pose proof (accessory_fields_one _ _ _ _ Hn Ho Ha Hf) as H. revert H.
  unfold accessory_fields_ok. destruct (accessory_bytes _ _ _ _). apply bool_decide_eq_true.
Qed.

(** What a decoder reads off a speed command. *)
Inductive speed_cmd := Stop | EmergencyStop | Step (n : Z).
#[export] Instance speed_cmd_eq_dec : EqDecision speed_cmd.
Proof. solve_decision. Defined.

Definition step_of (v offset : Z) : speed_cmd := Step (v - offset).

(** 14 steps: 01DUSSSS; 28 steps: 01DCSSSS, C the lowest bit; 128 steps:
    00111111 DSSSSSSS. *)
Definition read_speed (nspeed : Z) (bytes : list (list bool)) : option (Z * speed_cmd) :=
  match byte_value <$> bytes with
  | [v] =>
      let d := Z.land (Z.shiftr v 5) 1 in
      let s := Z.land v 15 in
      if negb (Z.land v 0xc0 =? 0x40) then None
      else if nspeed =? 14 then
        Some (d, if s =? 0 then Stop else if s =? 1 then EmergencyStop else step_of s 1)
      else
        Some (d, if s =? 0 then Stop else if s =? 1 then EmergencyStop
                 else step_of (2 * s + Z.land (Z.shiftr v 4) 1) 3)
  | [0x3f; v] =>
      let d := Z.land (Z.shiftr v 7) 1 in
      let s := Z.land v 127 in
      if nspeed <=? 29 then None
      else Some (d, if s =? 0 then Stop else if s =? 1 then EmergencyStop else step_of s 1)
  | _ => None
  end.

Definition commanded (s : Z) : speed_cmd := if s =? 0 then Stop else Step s.

Definition speed_ok (nspeed direction func s : Z) : bool :=
  bool_decide (read_speed nspeed (speed_bytes direction (if s =? 0 then 0 else s + 1) func nspeed) =
    Some (direction, commanded s)) &&
  bool_decide (read_speed nspeed (speed_bytes direction 1 func nspeed) = Some (direction, EmergencyStop)).

Lemma speed_all : forallb (fun n => forallb (fun d => forallb (fun f => forallb (speed_ok n d f)
    (seqZ 0 (Z.min n 126 + 1))) [0; 1]) [0; 1]) [14; 28; 128] = true.
Proof. vm_compute. reflexivity. Qed.

Lemma speed_bytes_func direction speed func nspeed :
  speed_bytes direction speed func nspeed =
  speed_bytes direction speed (Z.b2z (Z.testbit func 0)) nspeed.
Proof.
  unfold speed_bytes, calc_baseline_speed_byte. by destruct (Z.testbit func 0).
Qed.

Lemma commands_valid d : Forall (fun c => checksum c = replicate 8 false) (commands_of d ++ refreshed_of d).
Proof.
  pose proof (address_eight d.(gl_id) d.(gl_protocolversion)) as Ha.
  assert (Forall (fun c => checksum c = replicate 8 false) (commands_of d)) as H1.
  { unfold commands_of, first_commands. rewrite !Forall_app, Forall_singleton.
    split; [by apply command_valid; [| apply speed_bytes_eight] |].
    split; case_match; try apply Forall_nil_2; apply Forall_singleton, command_valid; try done;
      repeat (apply Forall_cons_2 || apply Forall_nil_2); done. }
  apply Forall_app. split; [done |]. unfold refreshed_of. destruct (_ && _); [| done].
  unfold second_commands. rewrite !Forall_app, Forall_singleton.
  split; [apply command_valid; [done | apply Forall_singleton, group_one_eight] |].
  split; case_match; try apply Forall_nil_2; apply Forall_singleton, command_valid; try done;
    repeat (apply Forall_cons_2 || apply Forall_nil_2); done.
Qed.

(** * Examples *)

Definition example_rx : list Z := [].
Definition example_receive : prog ddl_t unit := ret tt.
(** A DCC locomotive with a long address, 128 steps and 28 functions. *)
Definition example_gl : gl_data_t :=
  gl_zero <| gl_state := glsActive |> <| gl_protocol := 78 |> <| gl_protocolversion := 2 |>
    <| gl_id := 1210 |> <| gl_n_fs := 128 |> <| gl_n_func := 28 |> <| gl_speed := 40 |>
    <| gl_direction := 1 |> <| gl_funcs := 0x1021 |>.

(** * The properties *)



(** The speed command of every format tells the decoder the direction and
    the commanded step, 0 as a stop, and step 1 of the format as the emergency
    stop, whatever the state of the light. *)
Theorem speed_reaches_decoder nspeed direction func s :
  nspeed = 14 \/ nspeed = 28 \/ nspeed = 128 -> 0 <= direction <= 1 -> 0 <= s <= Z.min nspeed 126 ->
  read_speed nspeed (speed_bytes direction (if s =? 0 then 0 else s + 1) func nspeed) =
    Some (direction, commanded s) /\
  read_speed nspeed (speed_bytes direction 1 func nspeed) = Some (direction, EmergencyStop).
Proof.
  intros Hn Hd Hs. rewrite !(speed_bytes_func direction _ func).
  pose proof speed_all as H. rewrite forallb_forall in H.
  assert (Hin : In nspeed [14; 28; 128]) by (cbn; intuition lia).
  specialize (H _ Hin). rewrite forallb_forall in H. specialize (H _ (bit_in _ Hd)).
  rewrite forallb_forall in H.
  assert (Hf : In (Z.b2z (Z.testbit func 0)) [0; 1]) by (apply bit_in; by destruct (Z.testbit func 0)).
  specialize (H _ Hf). rewrite forallb_forall in H. specialize (H s).
  rewrite <- list_elem_of_In, elem_of_seqZ in H. specialize (H ltac:(lia)).
  unfold speed_ok in H. bool_hyps. by rewrite !bool_decide_eq_true in *.
Qed.

Lemma speed_reaches_decoder_witness :
  read_speed 28 (speed_bytes 1 (if 17 =? 0 then 0 else 17 + 1) 1 28) = Some (1, commanded 17) /\
  read_speed 28 (speed_bytes 1 1 1 28) = Some (1, EmergencyStop).
Proof. apply (speed_reaches_decoder 28 1 1 17); lia. Defined.

(** A switching command on the line. *)
Lemma accessory_sent rx receive nr output activate offset st :
  1 <= nr <= 2044 -> 0 <= output <= 1 -> 0 <= activate <= 1 -> 0 <= offset <= 1 ->
  st.(waitread) = 0 ->
  exists w bits b1 b2, comp_nmra_accessory rx receive nr output activate offset st =
      Some (0, sent 2 SPI_BAUDRATE_NMRA_2 (0x00 :: w) (st <| spiLastMM := 0 |>)) /\
    wave_bits w = Some (bits ++ [true]) /\
    dcc_decode 1 bits = Some [[b1; b2; xor_two_bytes b2 b1]] /\
    accessory_fields b1 b2 = (nr + 4 * offset, output, activate).
Proof.
  intros Hn Ho Ha Hf Hr. pose proof (accessory_fields_spec nr output activate offset Hn Ho Ha Hf) as F.
  destruct (accessory_bytes nr output activate offset) as [b1 b2] eqn:Eb. cbn [fst snd] in F.
  assert (H8 : eight b1 /\ eight b2) by (unfold accessory_bytes in Eb; by injection Eb as <- <-).
  destruct H8 as [H1 H2]. pose proof (xor_eight b2 b1 H2 H1) as H3.
  set (bits := frames [(15%nat, [b1; b2; xor_two_bytes b2 b1])]).
  assert (H8 : Forall eight [b1; b2; xor_two_bytes b2 b1])
    by (repeat (apply Forall_cons_2 || apply Forall_nil_2); done).
  assert (Hlen : length bits = 43%nat)
    by (unfold bits; rewrite frames_one, frame_length; done).
  assert (Hs : accessory_stream nr output activate offset = Some bits).
  { unfold accessory_stream. rewrite Eb.
    assert (J : mjoin [preamble; b0; b1; b0; b2; b0; xor_two_bytes b2 b1; Dcc.b1] = bits).
    { unfold bits. rewrite frames_one. unfold frame. cbn -[xor_two_bytes app]. rewrite ?app_nil_r.
      by rewrite <- ?app_assoc. }
    rewrite strcats_some by (rewrite J, Hlen; done). by rewrite J. }
  destruct (packet_wave bits) as (n & p & E & Ec & _); [lia | lia | done |].
  set (w := mjoin (nmra_bit <$> bits) ++ nmra_bit true) in *.
  exists w, bits, b1, b2.
  split.
  { unfold comp_nmra_accessory. replace (_ || _) with false.
    2:{ symmetry. repeat (apply orb_false_iff; split); zbool. }
    rewrite Hs. cbn [need]. unfold ret at 1, bind at 1. rewrite E. unfold bind.
    by rewrite (send_nmra_spec rx receive QNBACCPKT p 2 _ st eq_refl eq_refl Ec Hr). }
  split; [unfold w; by rewrite wave_bits_app |]. split; [| done].
  unfold bits. rewrite decode_frames; [done | | done].
  apply Forall_singleton. split; [cbn; lia |]. by split.
Qed.

(** A switching command for an accessory reaches the track twice, and the
    decoder reads off it the accessory, the output and whether it is switched
    on: different commands are different packets. *)
Theorem accessory_on_line rx receive nr output activate offset st :
  1 <= nr <= 2044 -> 0 <= output <= 1 -> 0 <= activate <= 1 -> 0 <= offset <= 1 ->
  st.(waitread) = 0 ->
  exists st' w bits b1 b2, comp_nmra_accessory rx receive nr output activate offset st = Some (0, st') /\
    st'.(transfers) = st.(transfers) ++ replicate 2 (mk_transfer SPI_BAUDRATE_NMRA_2 (0x00 :: w)) /\
    wave_bits w = Some (bits ++ [true]) /\
    dcc_decode 1 bits = Some [[b1; b2; xor_two_bytes b2 b1]] /\
    accessory_fields b1 b2 = (nr + 4 * offset, output, activate).
Proof.
  intros Hn Ho Ha Hf Hr.
  destruct (accessory_sent rx receive nr output activate offset st) as (w & bits & b1 & b2 & E & W & B & F);
    [done.. |]. eexists. exists w, bits, b1, b2. by split; [exact E |].
Qed.

Lemma accessory_on_line_witness :
  exists st' w bits b1 b2, comp_nmra_accessory example_rx example_receive 1000 1 1 0 initial_ddl =
      Some (0, st') /\
    st'.(transfers) = initial_ddl.(transfers) ++
      replicate 2 (mk_transfer SPI_BAUDRATE_NMRA_2 (0x00 :: w)) /\
    wave_bits w = Some (bits ++ [true]) /\
    dcc_decode 1 bits = Some [[b1; b2; xor_two_bytes b2 b1]] /\
    accessory_fields b1 b2 = (1000 + 4 * 0, 1, 1).
Proof. apply (accessory_on_line example_rx example_receive 1000 1 1 0 initial_ddl); done. Defined.

(** Reading a configuration variable always gives 0, whatever the decoder
    answers: the check of an acknowledge is not written yet, so each bit's
    question is answered no. *)
Theorem cv_read_is_zero rx receive cv st : 1 <= cv <= 1024 -> st.(waitread) = 0 ->
  exists st', protocol_nmra_sm_get_cvbyte rx receive cv st = Some (0, st').
Proof. intros Hcv Hw. apply get_bits_zero; [done | | done]. repeat constructor; lia. Qed.

Lemma cv_read_is_zero_witness :
  exists st', protocol_nmra_sm_get_cvbyte [0xFF] example_receive 29 initial_ddl = Some (0, st').
Proof. apply (cv_read_is_zero [0xFF] example_receive 29 initial_ddl); done. Defined.
End DccSpec.
