(* ===== verification/Motorola.v ===== *)
(** ddl_maerklin.c: Maerklin/Motorola packets for locomotives, functions and
    solenoids, and register programming. *)

From S2P Require Import Prelude World Spi.

Module Motorola.
Import Spi.

(** The code of an address: four ternary digits of two bits each. *)
Definition mmadr_cod : list Z :=
  [85; 3; 1; 12; 15; 13; 4; 7; 5; 48; 51; 49; 60; 63; 61; 52;
   55; 53; 16; 19; 17; 28; 31; 29; 20; 23; 21; 192; 195; 193; 204; 207;
   205; 196; 199; 197; 240; 243; 241; 252; 255; 253; 244; 247; 245; 208; 211; 209;
   220; 223; 221; 212; 215; 213; 64; 67; 65; 76; 79; 77; 68; 71; 69; 112;
   115; 113; 124; 127; 125; 116; 119; 117; 80; 83; 81; 92; 95; 93; 84; 87;
   0; 2; 6; 233; 14; 18; 22; 26; 30; 34; 38; 42; 46; 50; 54; 58;
   62; 66; 70; 74; 78; 82; 86; 90; 94; 98; 102; 106; 110; 114; 118; 122;
   126; 130; 134; 138; 142; 146; 150; 154; 158; 162; 166; 249; 174; 178; 182; 186;
   190; 194; 198; 202; 206; 210; 214; 218; 222; 226; 230; 234; 238; 242; 246; 250;
   254; 8; 24; 40; 56; 72; 88; 104; 120; 136; 152; 168; 184; 200; 216; 232;
   248; 11; 27; 43; 59; 75; 91; 107; 123; 139; 155; 171; 187; 203; 219; 235;
   251; 9; 25; 41; 57; 73; 89; 105; 121; 137; 153; 169; 185; 201; 217; 10;
   170; 32; 96; 160; 224; 35; 99; 163; 227; 33; 97; 161; 225; 44; 108; 172;
   236; 47; 111; 175; 239; 45; 109; 173; 237; 36; 100; 164; 228; 39; 103; 167;
   231; 37; 101; 165; 229; 128; 131; 129; 140; 143; 141; 132; 135; 133; 176; 179;
   177; 188; 191; 189; 180; 183; 181; 144; 147; 145; 156; 159; 157; 148; 151; 149].

(** [mmadr_cod[i]] *)
Definition cod (i : Z) : option Z := if i <? 0 then None else mmadr_cod !! Z.to_nat i.

(** * Locomotives *)

(** What the fourth byte of an MM2 packet says besides the speed. *)
Inductive mm2_info := Direction (d : Z) | Function_ (f : Z) (on : bool).
#[export] Instance mm2_info_eq_dec : EqDecision mm2_info.
Proof. solve_decision. Defined.

Definition direction_xdat (data direction : Z) : Z :=
  if negb (Z.land data 8 =? 0) then (if negb (direction =? 0) then 2 else 5)
  else (if negb (direction =? 0) then 10 else 13).

(** The code of an information at speed [data]; a code equal to the speed would
    look like an MM1 packet and is replaced. *)
Definition mm2_xdat (data : Z) (i : mm2_info) : Z :=
  let xdat :=
    match i with
    | Direction d => direction_xdat data d
    | Function_ f on =>
        if f =? 1 then (if on then 11 else 3)
        else if f =? 2 then (if on then 12 else 4)
        else if f =? 3 then (if on then 14 else 6)
        else (if on then 15 else 7)
    end in
  if xdat =? data then (if negb (Z.land data 8 =? 0) then 10 else 5) else xdat.

Section Operations.
Context (rx : list Z) (receive : prog ddl_t unit).
Abbreviation send_packet := (send_packet rx receive).

Definition send (m : mdata_t) (t : packet_type) (xmits : Z) : prog ddl_t unit :=
  do* send_packet (MM m) t xmits in ret tt.

(** The first function that changed is sent at once. *)
Fixpoint send_changed (funcschange : Z) (l : list (Z * mdata_t)) : prog ddl_t unit :=
  match l with
  | [] => ret tt
  | (i, p) :: l =>
      if Z.testbit funcschange i then send p QM2FXPKT 1 else send_changed funcschange l
  end.

(** The end of an MM2 command: the five packets of [mdata] for the functions
    [funcs]. *)
Definition mm2_packet (mdata : mdata_t) (i : mm2_info) : mdata_t :=
  mdata <| md_xdat := mm2_xdat mdata.(md_data) i |>.

Definition send_mm2 (glptr : Z) (d : gl_data_t) (mdata : mdata_t) (direction : Z)
    : prog ddl_t unit :=
  let fx f := mm2_packet mdata (Function_ f (Z.testbit d.(gl_funcs) f)) in
  let p0 := mm2_packet mdata (Direction direction) in
  do* update_MaerklinPacketPool glptr d.(gl_id) p0 [fx 1; fx 2; fx 3; fx 4] in
  do* send p0 QM2LOCOPKT 2 in
  send_changed d.(gl_funcschange) [(1, fx 1); (2, fx 2); (3, fx 3); (4, fx 4)].

(** The speed values of a 27 step decoder: the first one, and the second one
    when there is one. *)
Definition steps27 (speed : Z) : Z * Z :=
  if 1 <? speed then
    let sFS2 := Z.quot speed 2 + 1 in
    (if Z.testbit speed 0 then sFS2 + 1 else if sFS2 - 1 =? 1 then 0 else sFS2 - 1, sFS2)
  else (speed, 0).

Definition comp_MM (glptr : Z) (d : gl_data_t) (direction speed : Z) : prog ddl_t unit :=
  let addr := u16 d.(gl_id) in
  if (255 <? addr) || (speed <? 0) || (d.(gl_n_fs) + 1 <? speed) then ret tt
  else
    let* code := need (cod addr) in
    let func := if Z.testbit d.(gl_funcs) 0 then 3 else 0 in
    if d.(gl_protocolversion) =? 1 then
      if 80 <? addr then ret tt
      else
        let mdata := mk_mdata code func (u8 speed) (u8 speed) in
        do* update_MaerklinPacketPool glptr d.(gl_id) mdata [mdata; mdata; mdata; mdata] in
        do* send mdata QM1LOCOPKT 2 in
        if 1 <? d.(gl_n_func) then
          let fs := Z.land (Z.shiftr d.(gl_funcs) 1) 0xF in
          send (mk_mdata code 3 fs fs) QM1FUNCPKT 2
        else ret tt
    else
      match d.(gl_n_fs) with
      | 14 => send_mm2 glptr d (mk_mdata code func (u8 speed) 0) direction
      | 27 =>
          let '(sFS1, sFS2) := steps27 speed in
          if sFS2 =? 0 then send_mm2 glptr d (mk_mdata code func (u8 sFS1) 0) direction
          else
            do* send (mk_mdata code func (u8 sFS1) (direction_xdat (u8 sFS1) direction)) QM2LOCOPKT 3 in
            send_mm2 glptr d (mk_mdata code func (u8 sFS2) 0) direction
      | 28 =>
          if 1 <? speed then
            send_mm2 glptr d (mk_mdata code (if Z.testbit speed 0 then Z.lxor func 2 else func)
              (u8 (Z.quot speed 2 + 1)) 0) direction
          else send_mm2 glptr d (mk_mdata code func (u8 speed) 0) direction
      | _ => ret tt
      end.

(** The entry after the command is the result. *)
Definition comp_maerklin_loco (glptr : Z) (d : gl_data_t) : prog ddl_t gl_data_t :=
  let change := d.(gl_speedchange) in
  let '(speed, direction, change) :=
    if negb (Z.land change SCEMERG =? 0) then (0, d.(gl_cacheddirection), Z.ldiff change SCEMERG)
    else if negb (Z.land change SCDIREC =? 0) then (1, d.(gl_direction), Z.ldiff change SCDIREC)
    else if negb (d.(gl_speed) =? 0) then (d.(gl_speed) + 1, d.(gl_direction), change)
    else (d.(gl_speed), d.(gl_direction), change) in
  do* comp_MM glptr (d <| gl_speedchange := change |>) direction speed in
  ret (d <| gl_speedchange := Z.ldiff change SCSPEED |> <| gl_funcschange := 0 |>).

(** * Solenoids *)

Definition ms_ok (address port action : Z) : bool :=
  negb ((address <? 1) || (324 <? address) || (action <? 0) || (1 <? action) || (port <? 0) || (1 <? port)).

Definition ms_packet (address port action : Z) : option mdata_t :=
  let id := Z.shiftr (address - 1) 2 in
  let id := if id =? 0 then 80 else id in
  let subid := Z.shiftl (Z.land (address - 1) 3) 1 + port in
  let data := subid + (if negb (action =? 0) then 8 else 0) in
  match cod id with
  | Some code => Some (mk_mdata code 0 data data)
  | None => None
  end.

Definition comp_maerklin_ms (address port action : Z) : prog ddl_t Z :=
  if negb (ms_ok address port action) then ret 1
  else
    let* mdata := need (ms_packet address port action) in
    do* send mdata QM1SOLEPKT 2 in
    ret 0.

(** * Programming *)

Definition progstep (addr npre nact npast : Z) : prog ddl_t unit :=
  let* code := need (cod addr) in
  do* (if negb (npre =? 0) then send (mk_mdata code 0 0 0) QM1LOCOPKT npre else ret tt) in
  do* send (mk_mdata code 0 1 1) QM1LOCOPKT nact in
  send (mk_mdata code 0 0 0) QM1LOCOPKT npast.

Definition mm_reg_prog (ubmode : bool) (addr regnr regval : Z) : prog ddl_t Z :=
  let addr := if addr <=? 0 then 80 else addr in
  if (255 <? addr) || (regnr <? 0) || (255 <? regnr) || (regval <? 0) || (255 <? regval) then ret 1
  else
    do* progstep addr 0 (if ubmode then 400 else 100) 20 in
    do* progstep regnr 10 60 50 in
    do* progstep regval 10 60 50 in
    ret 0.

(** The search is not carried out: it takes its time and names the protocol. *)
Definition mm_search_loco (proto : Z) : prog ddl_t Z := ret proto.
End Operations.

(** * The packets are codes *)

(** The bits of a packet, in the order they are sent: address, function, then
    the bits of the third and the fourth byte in turn. *)
Definition mm_fields (m : mdata_t) : list bool :=
  (Z.testbit m.(md_addr) <$> seqZ 0 8) ++ (Z.testbit m.(md_func) <$> seqZ 0 2) ++
  mjoin ((fun k => [Z.testbit m.(md_data) k; Z.testbit m.(md_xdat) k]) <$> seqZ 0 4).

Record mdata_ok (m : mdata_t) : Prop := {
  mok_addr : 0 <= m.(md_addr) < 2 ^ 8;
  mok_func : 0 <= m.(md_func) < 2 ^ 2;
  mok_data : 0 <= m.(md_data) < 2 ^ 4;
  mok_xdat : 0 <= m.(md_xdat) < 2 ^ 4;
}.

Lemma high_bit x n k : 0 <= x < 2 ^ n -> 0 <= n <= k -> Z.testbit x k = false.
Proof.
  intros Hx Hk. rewrite <- (Z.mod_small x (2 ^ n)) by lia. apply Z.mod_pow2_bits_high. lia.
Qed.

Lemma word_bit m k : mdata_ok m -> 0 <= k < 32 ->
  Z.testbit (mm_word m) k =
    Z.testbit (if k <? 8 then m.(md_addr) else if k <? 16 then m.(md_func)
               else if k <? 24 then m.(md_data) else m.(md_xdat)) (k mod 8).
Proof.
  intros [A F D X] Hk. unfold mm_word. rewrite !Z.lor_spec, !Z.shiftl_spec by lia.
  assert (N : forall x j, j < 0 -> Z.testbit x j = false) by (intros; by apply Z.testbit_neg_r).
  destruct (Z.ltb_spec k 8); [| destruct (Z.ltb_spec k 16); [| destruct (Z.ltb_spec k 24)]].
  - rewrite (Z.mod_small k 8), !(N _ (k - _)) by lia. by rewrite !orb_false_r.
  - rewrite (high_bit (md_addr m) 8 k), (N _ (k - 16)), (N _ (k - 24)) by lia.
    rewrite !orb_false_r. cbn [orb]. f_equal. apply (Z.mod_unique_pos _ _ 1); lia.
  - rewrite (high_bit (md_addr m) 8 k), (high_bit (md_func m) 2 (k - 8)), (N _ (k - 24)) by lia.
    rewrite !orb_false_r. cbn [orb]. f_equal. apply (Z.mod_unique_pos _ _ 2); lia.
  - rewrite (high_bit (md_addr m) 8 k), (high_bit (md_func m) 2 (k - 8)),
      (high_bit (md_data m) 4 (k - 16)) by lia.
    cbn [orb]. f_equal. apply (Z.mod_unique_pos _ _ 3); lia.
Qed.

Lemma mask_bit x k : 0 <= k -> negb (Z.land x (2 ^ k) =? 0) = Z.testbit x k.
Proof.
  intros Hk. rewrite Z.land_comm. destruct (Z.testbit x k) eqn:E.
  - apply negb_true_iff, Z.eqb_neq. intros H. apply (f_equal (fun z => Z.testbit z k)) in H.
    by rewrite Z.land_spec, Z.pow2_bits_true, E, Z.bits_0 in H by lia.
  - apply negb_false_iff, Z.eqb_eq. apply Z.bits_inj'. intros n Hn.
    rewrite Z.land_spec, Z.bits_0. destruct (decide (n = k)) as [-> |]; [by rewrite E, andb_false_r |].
    by rewrite Z.pow2_bits_false by done.
Qed.

Lemma mm_bits_fields m : mdata_ok m -> mm_bits m = mm_fields m.
Proof.
  intros H. unfold mm_bits.
  change mmcodetab with (Z.pow 2 <$> [0; 1; 2; 3; 4; 5; 6; 7; 8; 9; 16; 24; 17; 25; 18; 26; 19; 27]).
  rewrite <- list_fmap_compose. unfold compose.
  rewrite (list_fmap_ext _ (fun k => Z.testbit (mm_word m) k)) by
    (intros ? k Hk; apply list_elem_of_lookup_2 in Hk; apply mask_bit;
     rewrite !elem_of_cons, elem_of_nil in Hk; lia).
  cbn [fmap list_fmap]. rewrite !word_bit by (try done; lia). reflexivity.
Qed.

(** Equal bits, equal numbers. *)
Lemma bits_eq n x y : 0 <= n -> 0 <= x < 2 ^ n -> 0 <= y < 2 ^ n ->
  (forall k, 0 <= k < n -> Z.testbit x k = Z.testbit y k) -> x = y.
Proof.
  intros Hn Hx Hy H. apply Z.bits_inj'. intros k Hk. destruct (Z.ltb_spec k n); [by apply H; lia |].
  by rewrite !(high_bit _ n k) by lia.
Qed.

Lemma testbit_seq x y n : (Z.testbit x <$> seqZ 0 n) = (Z.testbit y <$> seqZ 0 n) ->
  forall k, 0 <= k < n -> Z.testbit x k = Z.testbit y k.
Proof.
  intros H k Hk. apply (f_equal (fun l => l !! Z.to_nat k)) in H.
  rewrite !list_lookup_fmap, !lookup_seqZ_lt in H by lia. cbn in H.
  rewrite !Z.add_0_l, Z2Nat.id in H by lia. by injection H.
Qed.

(** ** What a decoder makes of a packet *)

(** The ternary digits of an address code: 00 is 0, 11 is 1, 10 (in sending
    order) is 2; 01 is none. *)
Definition trit (v : Z) : option Z :=
  match v with 0 => Some 0 | 3 => Some 1 | 1 => Some 2 | _ => None end.

Definition mm_address (code : Z) : option Z :=
  match trit (Z.land code 3), trit (Z.land (Z.shiftr code 2) 3),
        trit (Z.land (Z.shiftr code 4) 3), trit (Z.land (Z.shiftr code 6) 3) with
  | Some a, Some b, Some c, Some d => Some (a + 3 * b + 9 * c + 27 * d)
  | _, _, _, _ => None
  end.

Definition address_ok (a : Z) : bool :=
  bool_decide (mm_address <$> cod a = Some (Some (if a =? 80 then 0 else a))).

Lemma addresses_all : forallb address_ok (seqZ 1 80) = true.
Proof. vm_compute. reflexivity. Qed.

(** What the fourth byte says at speed [data]. *)
Definition read_mm2 (data xdat : Z) : option mm2_info :=
  if xdat =? data then None
  else if 8 <=? data then
    match xdat with
    | 2 => Some (Direction 1) | 5 => Some (Direction 0)
    | 11 => Some (Function_ 1 true) | 3 => Some (Function_ 1 false)
    | 12 => Some (Function_ 2 true) | 4 => Some (Function_ 2 false)
    | 14 => Some (Function_ 3 true) | 6 => Some (Function_ 3 false)
    | 15 => Some (Function_ 4 true) | 7 => Some (Function_ 4 false)
    | 10 => (* the code that would equal the speed *)
        match data with
        | 11 => Some (Function_ 1 true) | 12 => Some (Function_ 2 true)
        | 14 => Some (Function_ 3 true) | 15 => Some (Function_ 4 true) | _ => None
        end
    | _ => None
    end
  else
    match xdat with
    | 10 => Some (Direction 1) | 13 => Some (Direction 0)
    | 11 => Some (Function_ 1 true) | 3 => Some (Function_ 1 false)
    | 12 => Some (Function_ 2 true) | 4 => Some (Function_ 2 false)
    | 14 => Some (Function_ 3 true) | 6 => Some (Function_ 3 false)
    | 15 => Some (Function_ 4 true) | 7 => Some (Function_ 4 false)
    | 5 =>
        match data with
        | 3 => Some (Function_ 1 false) | 4 => Some (Function_ 2 false)
        | 6 => Some (Function_ 3 false) | 7 => Some (Function_ 4 false) | _ => None
        end
    | _ => None
    end.

Definition mm2_infos : list mm2_info :=
  [Direction 0; Direction 1] ++
  (f ← [1; 2; 3; 4]; b ← [true; false]; [Function_ f b]).

Definition mm2_ok (data : Z) (i : mm2_info) : bool :=
  bool_decide (read_mm2 data (mm2_xdat data i) = Some i) &&
  (0 <=? mm2_xdat data i) && (mm2_xdat data i <? 16).

Lemma mm2_all : forallb (fun data => forallb (mm2_ok data) mm2_infos) (seqZ 0 16) = true.
Proof. vm_compute. reflexivity. Qed.

(** The solenoid a packet names: address, port and action. *)
Definition read_ms (m : mdata_t) : option (Z * Z * Z) :=
  match mm_address m.(md_addr) with
  | Some id =>
      Some (4 * id + Z.land (Z.shiftr m.(md_data) 1) 3 + 1, Z.land m.(md_data) 1,
            Z.shiftr m.(md_data) 3)
  | None => None
  end.

Definition solenoid_ok (address port action : Z) : bool :=
  match ms_packet address port action with
  | Some m =>
      bool_decide (read_ms m = Some (if address <=? 320 then address else address - 320, port, action)) &&
      bool_decide (m.(md_func) = 0 /\ m.(md_xdat) = m.(md_data))
  | None => false
  end.

Lemma solenoids_all :
  forallb (fun a => forallb (fun p => forallb (solenoid_ok a p) [0; 1]) [0; 1]) (seqZ 1 324) = true.
Proof. vm_compute. reflexivity. Qed.

(** The four parts of a solenoid packet are as wide as they are sent. *)
Definition narrow (address port action : Z) : bool :=
  match ms_packet address port action with
  | Some m => (0 <=? m.(md_addr)) && (m.(md_addr) <? 256) && (0 <=? m.(md_data)) && (m.(md_data) <? 16)
  | None => false
  end.
Lemma narrow_all : forallb (fun a => forallb (fun p => forallb (narrow a p) [0; 1]) [0; 1]) (seqZ 1 324) = true.
Proof. vm_compute. reflexivity. Qed.
(** What is checked for every solenoid command. *)
Lemma every_solenoid (f : Z -> Z -> Z -> bool) address port action :
  forallb (fun a => forallb (fun p => forallb (f a p) [0; 1]) [0; 1]) (seqZ 1 324) = true ->
  ms_ok address port action = true -> f address port action = true.
Proof.
  intros H Hok. unfold ms_ok in Hok. bool_hyps.
  assert (B : forall x, 0 <= x <= 1 -> In x [0; 1]).
  { intros x Hx. destruct (decide (x = 0)); [by left | right; left; lia]. }
  rewrite forallb_forall in H. specialize (H address). rewrite <- list_elem_of_In, elem_of_seqZ in H. specialize (H ltac:(lia)).
  rewrite forallb_forall in H. specialize (H port (B port ltac:(lia))).
  rewrite forallb_forall in H. exact (H action (B action ltac:(lia))).
Qed.
Lemma solenoid_packet address port action : ms_ok address port action = true ->
  exists m, ms_packet address port action = Some m /\ mdata_ok m /\ m.(md_func) = 0 /\ m.(md_xdat) = m.(md_data) /\
    read_ms m = Some (if address <=? 320 then address else address - 320, port, action).
Proof.
  intros Hok. pose proof (every_solenoid _ _ _ _ solenoids_all Hok) as S. pose proof (every_solenoid _ _ _ _ narrow_all Hok) as N.
  unfold solenoid_ok in S. unfold narrow in N. destruct (ms_packet address port action) as [m |]; [| done].
  exists m. bool_hyps. rewrite !bool_decide_eq_true in *. split; [done |]. split; [| tauto].
  constructor; lia.
Qed.

(** * The properties *)

(** The eighteen bits sent for a Maerklin packet determine its address
    code, function bits and both data nibbles. *)
Theorem mm_packet_determined m m' : mdata_ok m -> mdata_ok m' -> mm_bits m = mm_bits m' -> m = m'.
Proof.
  intros H H' E. rewrite !mm_bits_fields in E by done. destruct H as [A F D X], H' as [A' F' D' X'].
  destruct m as [a f d x], m' as [a' f' d' x']. cbn [md_addr md_func md_data md_xdat] in *.
  unfold mm_fields in E. cbn [md_addr md_func md_data md_xdat] in E.
  apply app_inj_1 in E as [Ea E]; [| done]. apply app_inj_1 in E as [Ef E]; [| done].
  assert (Edx : forall k, 0 <= k < 4 -> Z.testbit d k = Z.testbit d' k /\ Z.testbit x k = Z.testbit x' k).
  { cbn in E. injection E as ? ? ? ? ? ? ? ?. intros k Hk.
    assert (k = 0 \/ k = 1 \/ k = 2 \/ k = 3) as [-> | [-> | [-> | ->]]] by lia; done. }
  f_equal.
  - apply (bits_eq 8); [lia | done | done |]. by apply testbit_seq.
  - apply (bits_eq 2); [lia | done | done |]. by apply testbit_seq.
  - apply (bits_eq 4); [lia | done | done |]. intros k Hk. by apply Edx.
  - apply (bits_eq 4); [lia | done | done |]. intros k Hk. by apply Edx.
Qed.

Definition example_mdata : mdata_t := mk_mdata 12 3 9 2.
Lemma mm_packet_determined_witness :
  mm_bits example_mdata = mm_bits (mk_mdata (6 + 6) 3 (8 + 1) 2) /\
  example_mdata = mk_mdata (6 + 6) 3 (8 + 1) 2.
Proof.
  split; [vm_compute; reflexivity |].
  apply (mm_packet_determined example_mdata (mk_mdata (6 + 6) 3 (8 + 1) 2));
    [split; cbn; lia | split; cbn; lia | vm_compute; reflexivity].
Defined.

(** The code of a locomotive address from 1 to 80 is its number in ternary
    digits, 80 taking the code of 0. *)
Theorem mm_address_ternary a : 1 <= a <= 80 ->
  exists code, cod a = Some code /\ mm_address code = Some (if a =? 80 then 0 else a).
Proof.
  intros Ha. pose proof addresses_all as H. rewrite forallb_forall in H. specialize (H a).
  rewrite <- list_elem_of_In, elem_of_seqZ in H. specialize (H ltac:(lia)).
  apply bool_decide_eq_true in H. destruct (cod a) as [code |]; [| done].
  exists code. split; [done |]. by injection H.
Qed.

Lemma mm_address_ternary_witness :
  exists code, cod 78 = Some code /\ mm_address code = Some (if 78 =? 80 then 0 else 78).
Proof. apply mm_address_ternary. lia. Defined.

(** At every speed the fourth byte of an MM2 packet tells the decoder what
    it was made for, the direction or the state of one function, and is never
    equal to the speed, which would be an MM1 packet. *)
Theorem mm2_unambiguous data i : 0 <= data < 16 -> i ∈ mm2_infos ->
  read_mm2 data (mm2_xdat data i) = Some i /\ mm2_xdat data i <> data /\
  0 <= mm2_xdat data i < 16.
Proof.
  intros Hd Hi. pose proof mm2_all as H. rewrite forallb_forall in H. specialize (H data).
  rewrite <- list_elem_of_In, elem_of_seqZ in H. specialize (H ltac:(lia)).
  rewrite forallb_forall in H. specialize (H i). rewrite <- list_elem_of_In in H. specialize (H Hi).
  unfold mm2_ok in H. bool_hyps. rewrite bool_decide_eq_true in *. split; [done |].
  split; [| lia]. intros E. rewrite E in *. unfold read_mm2 in *. by rewrite Z.eqb_refl in *.
Qed.

Lemma mm2_unambiguous_witness :
  read_mm2 11 (mm2_xdat 11 (Function_ 1 true)) = Some (Function_ 1 true) /\
  mm2_xdat 11 (Function_ 1 true) <> 11 /\ 0 <= mm2_xdat 11 (Function_ 1 true) < 16.
Proof. apply mm2_unambiguous; [lia | vm_compute; right; right; left]. Defined.

(** A solenoid packet names its port and action and the solenoid itself for
    the addresses 1 to 320; for 321 to 324, which are accepted too, it is the
    packet of the solenoids 1 to 4. *)
Theorem solenoid_addresses address port action : ms_ok address port action = true ->
  exists m, ms_packet address port action = Some m /\ m.(md_func) = 0 /\ m.(md_xdat) = m.(md_data) /\
    read_ms m = Some (if address <=? 320 then address else address - 320, port, action).
Proof. intros Hok. destruct (solenoid_packet _ _ _ Hok) as (m & E & _ & F). by exists m. Qed.

Lemma solenoid_addresses_witness :
  exists m, ms_packet 322 1 1 = Some m /\ m.(md_func) = 0 /\ m.(md_xdat) = m.(md_data) /\
    read_ms m = Some (if 322 <=? 320 then 322 else 322 - 320, 1, 1).
Proof. apply (solenoid_addresses 322 1 1). reflexivity. Defined.
End Motorola.
