(* ===== verification/Mfx.v ===== *)
(** ddl_mfx.c: the packets of the mfx protocol and the dialogue with its
    decoders: the search for unregistered decoders, the assignment of track
    addresses, reading and writing configuration variables. *)

From S2P Require Import Prelude World Messages Session Services Loco Spi.

Module Mfx.
Import Spi.

(** * Bits of a packet *)

(** A packet under construction: the buffer of [PKTSIZE] bytes, zero at first,
    and the position of the next bit.  Byte 0 counts the bits. *)
Record packet_t := mk_packet { stream : list Z; pos : nat }.
#[export] Instance eta_packet : Settable packet_t := fun p => mk_packet p.(stream) p.(pos).
Definition empty_packet : packet_t := mk_packet (replicate (Z.to_nat PKTSIZE) 0) 0.

Definition addBit (b : bool) : prog packet_t unit :=
  let* p := get in
  let i := S (Nat.div p.(pos) 8) in
  do* guard (Z.of_nat i <? PKTSIZE) in
  put (mk_packet (if b then alter (Z.lor (2 ^ Z.of_nat (Nat.modulo p.(pos) 8))) i p.(stream)
                  else p.(stream)) (S p.(pos))).

(** The lowest [len] bits of [bits], the highest one first. *)
Fixpoint addBits (bits : Z) (len : nat) : prog packet_t unit :=
  match len with
  | O => ret tt
  | S len => do* addBit (Z.testbit bits (Z.of_nat len)) in addBits bits len
  end.

Definition addAdrBits (address : Z) : prog packet_t unit :=
  if address <? 128 then do* addBits 2 2 in addBits address 7
  else if address <? 512 then do* addBits 6 3 in addBits address 9
  else if address <? 2048 then do* addBits 14 4 in addBits address 11
  else do* addBits 15 4 in addBits address 14.

Definition CRC_LEN : nat := 8.

(** One step of the checksum register; it is 16 bits wide to keep the carry. *)
Definition crc_step (crc : Z) (b : bool) : Z :=
  let crc := u16 (Z.shiftl crc 1 + Z.b2z b) in
  if 0 <? Z.land crc 0x0100 then Z.lxor (Z.land crc 0x00FF) 0x07 else crc.

(** The first [n] bits of the stream. *)
Definition stream_bits (n : nat) (stream : list Z) : option (list bool) :=
  mapM (packet_bit stream) (seq 0 n).

(** The checksum runs over the packet and the eight zeros where it goes. *)
Definition addCRCBits : prog packet_t unit :=
  let* p := get in
  let* bits := need (stream_bits (p.(pos) + CRC_LEN) p.(stream)) in
  do* addBits (foldl crc_step 0x007F bits) CRC_LEN in
  modify (fun p => p <| stream ::= <[0%nat := u8 (Z.of_nat p.(pos))]> |>).

(** The buffer a program builds. *)
Definition build (m : prog packet_t unit) : option (list Z) :=
  match m empty_packet with Some (_, p) => Some p.(stream) | None => None end.

(** ** The packets *)

Definition fx_packet (address func : Z) (value : bool) : prog packet_t unit :=
  do* addAdrBits address in
  do* addBits 4 3 in
  do* addBits func 7 in
  do* addBits 0 1 in
  do* addBits (Z.b2z value) 1 in
  addCRCBits.

Definition MFX_FX_COUNT : nat := 16.

Definition loco_packet (address direction speed funcs nfuncs : Z) : prog packet_t unit :=
  do* addAdrBits address in
  do* (if Z.land speed 15 =? 0 then
         do* addBits 0 3 in
         do* addBits (Z.lnot direction) 1 in
         addBits (Z.shiftr speed 4) 3
       else
         do* addBits 1 3 in
         do* addBits (Z.lnot direction) 1 in
         addBits speed 7) in
  do* (if nfuncs <=? 4 then do* addBits 2 3 in addBits funcs 4
       else if nfuncs <=? 8 then do* addBits 6 4 in addBits funcs 8
       else do* addBits 7 4 in addBits funcs MFX_FX_COUNT) in
  addCRCBits.

Definition uid_packet (uid registrationCounter : Z) : prog packet_t unit :=
  do* addAdrBits 0 in
  do* addBits 61 6 in
  do* addBits uid 32 in
  do* addBits registrationCounter 16 in
  addCRCBits.

Definition exist_packet (adresse dekoderUID : Z) : prog packet_t unit :=
  do* addAdrBits adresse in
  do* addBits 60 6 in
  do* addBits dekoderUID 32 in
  addCRCBits.

Definition search_packet (dekoderUID countUIDBits : Z) : prog packet_t unit :=
  do* addAdrBits 0 in
  do* addBits 58 6 in
  do* addBits countUIDBits 6 in
  do* addBits dekoderUID 32 in
  addCRCBits.

Definition sid_packet (dekoderUID sid : Z) : prog packet_t unit :=
  do* addAdrBits 0 in
  do* addBits 59 6 in
  do* addBits sid 14 in
  do* addBits dekoderUID 32 in
  addCRCBits.

Definition read_packet (adresse cv index bytes : Z) : prog packet_t unit :=
  do* addAdrBits adresse in
  do* addBits 56 6 in
  do* addBits cv 10 in
  do* addBits index 6 in
  do* addBits (if bytes =? 1 then 0 else if bytes =? 2 then 1 else 2) 2 in
  addCRCBits.

Definition write_packet (address cv index value : Z) : prog packet_t unit :=
  do* addAdrBits address in
  do* addBits 57 6 in
  do* addBits cv 10 in
  do* addBits index 6 in
  do* addBits 0 2 in
  do* addBits value 8 in
  addCRCBits.

(** * Statics *)

Record tMFXRead := mk_mfxread {
  decuid : Z;
  mr_addr : Z;
  cvline : Z;
  cvindex : Z;
  cvnmbr : Z;
  repcount : Z;
}.
#[export] Instance eta_mfxread : Settable tMFXRead := fun m =>
  mk_mfxread m.(decuid) m.(mr_addr) m.(cvline) m.(cvindex) m.(cvnmbr) m.(repcount).

(** The static variables of ddl_mfx.c and the number the file of the
    registration counter holds, if there is one. *)
Record mfx_t := mk_mfx {
  decoderUId : Z;
  registrationCounter : Z;
  searchstep : Z;
  autosearch : Z;
  mfx_bus : Z;
  mfxread : tMFXRead;
  mfx_sm : bool;
  reg_file : option Z;
}.
#[export] Instance eta_mfx : Settable mfx_t := fun m =>
  mk_mfx m.(decoderUId) m.(registrationCounter) m.(searchstep) m.(autosearch) m.(mfx_bus)
    m.(mfxread) m.(mfx_sm) m.(reg_file).
Definition initial_mfx : mfx_t := mk_mfx 0 0 1 0 0 (mk_mfxread 0 0 0 0 0 0) false None.

(** What the threads of the DDL bus work on: the daemon's state, the driver's
    and the statics of ddl_mfx.c. *)
Record line_t := mk_line { l_world : world; l_ddl : ddl_t; l_mfx : mfx_t }.
#[export] Instance eta_line : Settable line_t :=
  fun l => mk_line l.(l_world) l.(l_ddl) l.(l_mfx).

Definition on_world {A} (m : prog world A) : prog line_t A := fun l =>
  match m l.(l_world) with Some (a, w) => Some (a, l <| l_world := w |>) | None => None end.
Definition on_ddl {A} (m : prog ddl_t A) : prog line_t A := fun l =>
  match m l.(l_ddl) with Some (a, d) => Some (a, l <| l_ddl := d |>) | None => None end.

Definition mod_mfx (f : mfx_t -> mfx_t) : prog line_t unit := modify (fun l => l <| l_mfx ::= f |>).
Definition mod_ddl (f : ddl_t -> ddl_t) : prog line_t unit := modify (fun l => l <| l_ddl ::= f |>).

Definition CV_SIZE : Z := 1024.
Definition CVINDEX_SIZE : Z := 64.
Definition MAX_RDS_TRIALS : Z := 3.

Definition loadRegistrationCounter (file : option Z) : Z := u16 (default 0 file).

Definition saveRegistrationCounter (regCounter : Z) : prog line_t unit :=
  mod_mfx (fun m => m <| reg_file := Some (u16 regCounter) |>).

Definition startMFXManagement (busnumber search : Z) : prog line_t Z :=
  let* m := gets l_mfx in
  if negb (m.(mfx_bus) =? 0) then ret 2
  else
    do* mod_mfx (fun m => m <| mfx_bus := busnumber |>
                            <| registrationCounter := loadRegistrationCounter m.(reg_file) |>
                            <| autosearch := search |>
                            <| searchstep := if search =? 0 then 1 else 0 |>) in
    ret 0.

Definition stopMFXSearch : prog line_t unit := mod_mfx (fun m => m <| searchstep := 1 |>).

Definition setMfxSM (smOn : bool) : prog line_t unit := mod_mfx (fun m => m <| mfx_sm := smOn |>).

(** * Answers *)

Definition checkMfxCRC_step (crcreg : Z) (byte : Z) : Z :=
  let r := u16 (Z.lxor crcreg (Z.lxor (Z.lxor (Z.shiftl crcreg 1) (Z.shiftl crcreg 2)) byte)) in
  let r := if Z.land r 0x0100 =? 0 then r else Z.lxor r 0x0107 in
  if Z.land r 0x0200 =? 0 then r else Z.lxor r 0x020E.

(** The checksum over the first [n] bytes must be byte [n]. *)
Definition checkMfxCRC (buff : list Z) (n : Z) : option bool :=
  match buff !! Z.to_nat n with
  | Some crc => Some (foldl checkMfxCRC_step 0xFF (take (Z.to_nat n) buff) =? crc)
  | None => None
  end.

(** The data bytes of an answer: two bytes of the receiver, a nibble each. *)
Fixpoint nibbles (buf : list Z) : list Z :=
  match buf with
  | h :: l :: buf => Z.lor (u8 (Z.shiftl h 4)) (Z.land l 0xF) :: nibbles buf
  | _ => []
  end.

(** [serialMFXresult(buf, len)] for the bytes [buf] read from the receiver. *)
Definition serialMFXresult (buf : list Z) : prog ddl_t unit :=
  let* ask := need (head buf) in
  do* modify (fun d => d <| fbData ::= fun f => f <| serask := ask |> |>) in
  let* f := gets fbData in
  let send event := modify (fun d => d <| feedbackPipe ::= fun q => q ++ [event] |>) in
  if negb (f.(fbbytnum) =? 0) then
    let n := Z.to_nat f.(fbbytnum) in
    let code := buf !! 1%nat in
    if (4 + 2 * f.(fbbytnum) <=? Z.of_nat (length buf)) && bool_decide (code = Some 0xA) then
      let data := nibbles (take (2 * S n) (drop 2 buf)) in
      do* modify (fun d => d <| fbData ::= fun f =>
        f <| serfbdata ::= fun old => data ++ drop (S n) old |> |>) in
      let* f := gets fbData in
      let* ok := need (checkMfxCRC f.(serfbdata) f.(fbbytnum)) in
      if (ok : bool) then send 0x42 else ret tt
    else ret tt
  else send 0x43.

(** The delayed read of the receiver: [received] is what has come in. *)
Definition receive (received : list Z) : prog ddl_t unit :=
  match received with [] => ret tt | _ :: _ => serialMFXresult received end.

(** * Sending

    [rx] are the bytes the SPI interface receives, [received] those the
    receiver has ready when it is read. *)
Section Operations.
Context (rx received : list Z).

Local Abbreviation send_packet := (send_packet rx (receive received)).

(** [sendMFXPaket] with the packet a program builds: the length of its buffer
    in bytes. *)
Definition sendMFXPaket (m : prog packet_t unit) (packetTyp : packet_type) (xmits : Z)
    : prog ddl_t (Z * list Z) :=
  let* l := need (build m) in
  let* n := need (head l) in
  do* send_packet (Bytes l) packetTyp xmits in
  ret (Z.quot (n + 7) 8 + 1, l).

Definition send_LocoFx16_32 (address func : Z) (value : bool) (xmits : Z) : prog ddl_t unit :=
  do* sendMFXPaket (fx_packet address func value) QMFX0PKT xmits in ret tt.

(** The speed on the track and the direction of a locomotive. *)
Definition mfx_speed (d : gl_data_t) : Z * Z :=
  let '(speed, direction) :=
    if negb (Z.land d.(gl_speedchange) SCEMERG =? 0) then (1, d.(gl_cacheddirection))
    else (if d.(gl_speed) =? 0 then 0 else d.(gl_speed) + 1, d.(gl_direction)) in
  (if 127 <? speed then 127 else speed, if direction =? -1 then 0 else direction).

(** The changes the command carries out, cleared; [funcschange] too when the
    locomotive has more than 16 functions. *)
Definition mfx_handled (d : gl_data_t) : gl_data_t :=
  let d := if negb (Z.land d.(gl_speedchange) SCEMERG =? 0)
           then d <| gl_speedchange := Z.land d.(gl_speedchange) (Z.lnot SCEMERG) |> else d in
  let d := d <| gl_speedchange := Z.land d.(gl_speedchange) (Z.lnot (Z.lor SCSPEED SCDIREC)) |> in
  if 16 <? d.(gl_n_func)
  then d <| gl_funcschange := Z.land d.(gl_funcschange) (Z.lnot (Z.land d.(gl_funcschange) 0xffff0000)) |>
  else d.

(** Returns the locomotive's data after the command. *)
Definition comp_mfx_loco (glptr : Z) (d : gl_data_t) : prog ddl_t gl_data_t :=
  let address := d.(gl_id) in
  let '(speed, direction) := mfx_speed d in
  let* '(sizeStream, l) :=
    sendMFXPaket (loco_packet address direction speed d.(gl_funcs) d.(gl_n_func)) QMFX0PKT 2 in
  do* update_MFXPacketPool glptr address l sizeStream in
  do* (if 16 <? d.(gl_n_func) then
         for_each (range 16 31) (fun i =>
           if Z.testbit d.(gl_funcschange) i
           then send_LocoFx16_32 address i (Z.testbit d.(gl_funcs) i) 2 else ret tt)
       else ret tt) in
  ret (mfx_handled d).

Definition sendUIDandRegCounter (uid registrationCounter : Z) : prog ddl_t unit :=
  do* sendMFXPaket (uid_packet uid registrationCounter) QMFX0PKT 1 in ret tt.

Definition sendDekoderExist (adresse dekoderUID : Z) (noverify : bool) : prog ddl_t unit :=
  do* sendMFXPaket (exist_packet adresse dekoderUID) (if noverify then QMFX0PKT else QMFX1PKTV) 1 in
  ret tt.

Definition sendDekoderTerm (sid : Z) : prog ddl_t unit := sendDekoderExist sid 0 true.

Definition sendSearchNewDecoder (dekoderUID countUIDBits : Z) : prog ddl_t unit :=
  do* sendMFXPaket (search_packet dekoderUID countUIDBits) QMFX1PKTD 1 in ret tt.

(** The automatic search starts again after an assignment. *)
Definition assignSID (dekoderUID sid : Z) : prog line_t unit :=
  do* on_ddl (sendMFXPaket (sid_packet dekoderUID sid) QMFX0PKT 2) in
  mod_mfx (fun m => if (m.(searchstep) =? 1) && negb (m.(autosearch) =? 0)
                    then m <| searchstep := 0 |> else m).

Definition readCV (adresse cv index bytes : Z) : prog ddl_t bool :=
  if (CV_SIZE <=? u16 cv) || (CVINDEX_SIZE <=? u16 index) then ret false
  else
    do* sendMFXPaket (read_packet adresse (u16 cv) (u16 index) bytes)
      (if bytes =? 1 then QMFX8PKT else if bytes =? 2 then QMFX16PKT else QMFX32PKT) 1 in
    ret true.

(** ** The search for decoders *)

Definition SEARCH_INTERVAL : Z := 300000.
Definition UID_INTERVAL : Z := 1000000.

(** [decoderUId |= 1 << (32 - bitnum)]; a shift by a negative number or by more
    than 31 is undefined. *)
Definition set_search_bit (bitnum : Z) (m : mfx_t) : option mfx_t :=
  if (0 <=? 32 - bitnum) && (32 - bitnum <? 32)
  then Some (m <| decoderUId ::= Z.lor (2 ^ (32 - bitnum)) |>) else None.

(** One call sends the station's identity when it is due and asks the decoders
    whose first [searchstep / 2] bits are those of [decoderUId] to answer; the
    result is the time to the next call in microseconds. *)
Definition mfxManagement : prog line_t Z :=
  let* m := gets l_mfx in
  let* d := gets l_ddl in
  do* (if (m.(searchstep) <? 2) || (m.(searchstep) =? 32)
       then on_ddl (sendUIDandRegCounter d.(conf).(ddl_uid) m.(registrationCounter)) else ret tt) in
  do* (if m.(searchstep) =? 1 then ret tt
       else
         let bitnum := Z.shiftr m.(searchstep) 1 in
         do* (if Z.odd m.(searchstep) then
                let* m := need (set_search_bit bitnum m) in mod_mfx (fun _ => m)
              else if m.(searchstep) =? 0 then mod_mfx (fun m => m <| decoderUId := 0 |>)
              else ret tt) in
         let* m := gets l_mfx in
         on_ddl (sendSearchNewDecoder m.(decoderUId) bitnum)) in
  ret (if m.(searchstep) <? 2 then UID_INTERVAL else SEARCH_INTERVAL).

Definition report (infoid item : Z) (info : list Z) : prog line_t unit :=
  let* m := gets l_mfx in
  do* on_world (info_mcs m.(mfx_bus) infoid (u32 item) (u8 <$> info)) in ret tt.

(** A line of the info sessions, with the time and the bus in front. *)
Definition sm_info (text : list string) : prog line_t unit :=
  let* m := gets l_mfx in
  let* now := on_world gettimeofday in
  on_world (enqueueInfoMessage
    (fmt ([stamp now; " 100 INFO "; dec m.(mfx_bus); " SM "]%string ++ text ++ [nl]))).

(** [true] when the search has found a decoder. *)
Definition discoveryReport (askval : Z) : prog line_t bool :=
  let* m := gets l_mfx in
  let bits := u8 (Z.shiftr m.(searchstep) 1) in
  do* report 3 m.(decoderUId) [2; bits; askval] in
  if (bits =? 32) && negb (askval =? 0) then
    do* report 3 m.(decoderUId) [1; bits; askval] in
    do* sm_info [dec m.(decoderUId); " MFXDISCOVERY"%string] in
    ret true
  else ret false.

Definition handleMFXacknowledge (askval : Z) : prog line_t unit :=
  let* f := gets (fun l => l.(l_ddl).(fbData)) in
  if f.(pktcode) =? packet_code QMFX1PKTD then
    let* found := discoveryReport askval in
    mod_mfx (fun m => m <| searchstep ::= fun step =>
      if (found : bool) then 1 else if Z.odd step then step + 1 else step + 2 |>)
  else if f.(pktcode) =? packet_code QMFX1PKTV then
    let* m := gets l_mfx in
    let addr := m.(mfxread).(mr_addr) in
    do* report 7 m.(mfxread).(decuid) [3; Z.shiftr addr 8; Z.land addr 0xFF; askval] in
    sm_info [dec addr; " BIND "%string; dec m.(mfxread).(decuid)]
  else ret tt.

Definition handleMFXtimeout : prog line_t unit :=
  let* f := gets (fun l => l.(l_ddl).(fbData)) in
  if f.(pktcode) =? packet_code QMFX1PKTD then
    let* m := gets l_mfx in
    do* (if m.(searchstep) =? 0 then ret tt else do* discoveryReport 0 in ret tt) in
    mod_mfx (fun m => m <| searchstep ::= fun step =>
      if Z.odd step then 0 else if step =? 0 then 0 else step + 1 |>)
  else if f.(pktcode) =? packet_code QMFX1PKTV then
    let* m := gets l_mfx in
    report 7 m.(mfxread).(decuid) [2; 0; 0]
  else
    do* mod_mfx (fun m => m <| mfxread ::= fun r => r <| repcount ::= Z.succ |> |>) in
    let* m := gets l_mfx in
    let r := m.(mfxread) in
    if r.(repcount) <? MAX_RDS_TRIALS then mod_ddl (fun d => d <| resumeSM := Some PROTO_MFX |>)
    else
      report 0x0F (Z.lor r.(mr_addr) 0x4000)
        [2; Z.lor (Z.shiftr r.(cvline) 8) (Z.shiftl r.(cvindex) 2); Z.land r.(cvline) 0xFF].

(** ** Configuration variables *)

Definition sendMFXreadCVresult (data : list Z) : prog line_t unit :=
  let* m := gets l_mfx in
  let* f := gets (fun l => l.(l_ddl).(fbData)) in
  let* now := on_world gettimeofday in
  let r := m.(mfxread) in
  let* bytes := need (mapM (fun i => data !! Z.to_nat i) (range 0 (f.(fbbytnum) - 1))) in
  do* for_each (zip (range 0 (f.(fbbytnum) - 1)) bytes) (fun '(i, v) =>
    report 0x0F (Z.lor r.(mr_addr) 0x4000)
      [3; Z.lor (Z.shiftr r.(cvline) 8) (Z.shiftl (r.(cvindex) + i) 2);
       Z.land r.(cvline) 0xFF; v]) in
  do* on_world (enqueueInfoMessage
    (fmt ([stamp now; " 100 INFO "; dec m.(mfx_bus); " SM "; dec r.(mr_addr); " CVMFX ";
           dec r.(cvline); " "; dec r.(cvindex)]%string ++
          mjoin ((fun v => [" "; dec v]%string) <$> bytes) ++ [nl]))) in
  do* mod_mfx (fun m => m <| mfxread ::= fun r => r <| cvnmbr ::= fun n => n - 4 |> |>) in
  if 0 <? r.(cvnmbr) - 4 then
    do* mod_mfx (fun m => m <| mfxread ::= fun r =>
      r <| cvindex ::= fun i => i + 4 |> <| repcount := 0 |> |>) in
    mod_ddl (fun d => d <| resumeSM := Some PROTO_MFX |>)
  else ret tt.

Definition resumeMfxGetCV : prog line_t unit :=
  let* m := gets l_mfx in
  let r := m.(mfxread) in
  do* on_ddl (readCV r.(mr_addr) r.(cvline) r.(cvindex) r.(cvnmbr)) in ret tt.

Definition powered : prog line_t bool :=
  let* m := gets l_mfx in
  let* b := on_world (bus_get m.(mfx_bus)) in
  ret (negb (b.(power_state) =? 0)).

Definition smMfxSetCV (address cv index value : Z) : prog line_t Z :=
  if (CV_SIZE <=? cv) || (CVINDEX_SIZE <=? index) then ret (-1)
  else
    let* on := powered in
    if negb on then ret (-2)
    else
      do* on_ddl (sendMFXPaket (write_packet address cv index value) QMFX0PKT 2) in
      ret 0.

Definition smMfxGetCV (address cv index nmbr : Z) : prog line_t Z :=
  let* on := powered in
  if negb on then ret (-2)
  else
    do* mod_mfx (fun m => m <| mfxread ::= fun r =>
      mk_mfxread r.(decuid) address cv index nmbr 0 |>) in
    let* ok := on_ddl (readCV address cv index nmbr) in
    ret (if (ok : bool) then 0 else -1).

(** The UID goes into the data of the locomotive at the address. *)
Definition note_uid (address uid : Z) : prog line_t unit :=
  let* m := gets l_mfx in
  let* p := on_world (GL.get_gldata_ptr m.(mfx_bus) (Z.lor address 0x4000)) in
  match p with
  | Some p => on_world (GL.gl_mod m.(mfx_bus) p (fun d => d <| gl_decuid := uid |>))
  | None => ret tt
  end.

(** Address 0 sets the registration counter instead. *)
Definition smMfxSetBind (address uid : Z) : prog line_t Z :=
  if address =? 0 then
    let* m := gets l_mfx in
    do* (if negb (m.(registrationCounter) =? uid) then saveRegistrationCounter uid else ret tt) in
    do* mod_mfx (fun m => m <| registrationCounter := u16 uid |>) in
    ret (u16 uid)
  else
    let* on := powered in
    if negb on then ret (-2)
    else do* assignSID uid address in do* note_uid address uid in ret 0.

Definition smMfxVerBind (address uid : Z) : prog line_t Z :=
  if address =? 0 then let* m := gets l_mfx in ret m.(registrationCounter)
  else
    let* on := powered in
    if negb on then ret (-2)
    else
      do* mod_mfx (fun m => m <| mfxread ::= fun r => r <| decuid := uid |> <| mr_addr := address |> |>) in
      do* on_ddl (sendDekoderExist address uid false) in
      do* note_uid address uid in
      ret 0.
End Operations.

(** * Running the parts *)

Lemma on_ddl_some {A} (m : prog ddl_t A) l a d :
  m l.(l_ddl) = Some (a, d) -> on_ddl m l = Some (a, l <| l_ddl := d |>).
Proof. unfold on_ddl. by intros ->. Qed.

Lemma on_world_some {A} (m : prog world A) l a w :
  m l.(l_world) = Some (a, w) -> on_world m l = Some (a, l <| l_world := w |>).
Proof. unfold on_world. by intros ->. Qed.

Lemma bind_on_world {A B} (m : prog world A) (k : A -> prog line_t B) l a w :
  m l.(l_world) = Some (a, w) -> bind (on_world m) k l = k a (l <| l_world := w |>).
Proof. intros H. apply bind_some, on_world_some, H. Qed.

Lemma bind_on_ddl {A B} (m : prog ddl_t A) (k : A -> prog line_t B) l a d :
  m l.(l_ddl) = Some (a, d) -> bind (on_ddl m) k l = k a (l <| l_ddl := d |>).
Proof. intros H. apply bind_some, on_ddl_some, H. Qed.
End Mfx.
