(* ===== verification/Ddl.v ===== *)
(** ddl.c: the threads of the DDL bus: the refresh of locomotives, the
    supervision of the track power, the feedback thread and the loop that
    carries out service mode, locomotive and accessory commands.

    A turn of a thread is one pass of its loop.  What the hardware reads, the
    bytes the serial receiver has ready and the level of the booster's feedback
    line are arguments. *)

From S2P Require Import Prelude World Messages Ring Session Services Accessory Loco Program.
From S2P Require Import Spi Dcc Motorola Mfx.

Module Ddl.
Import Spi Mfx.

Definition world_get {A} (f : world -> A) : prog line_t A := gets (fun l => f l.(l_world)).
Definition ddl_get {A} (f : ddl_t -> A) : prog line_t A := gets (fun l => f l.(l_ddl)).

(** * Pools of an earlier start *)

(** [free] of every known packet. *)
Definition reset_pool {A} (p : pool A) : option (pool A) :=
  match mapM (fun i => p.(knownAddresses) !! i) (range 0 (p.(NrOfKnownAddresses) - 1)) with
  | Some nrs => Some (p <| packets := foldl (fun m nr => <[nr := None]> m) p.(packets) nrs |>)
  | None => None
  end.

Definition reset_NMRAPacketPool : prog line_t unit :=
  let* d := gets l_ddl in
  let* p := need (reset_pool d.(NMRAPacketPool)) in
  mod_ddl (fun d => d <| NMRAPacketPool := p |>).

Definition reset_MFXPacketPool : prog line_t unit :=
  do* stopMFXSearch in
  let* d := gets l_ddl in
  let* p := need (reset_pool d.(MFXPacketPool)) in
  mod_ddl (fun d => d <| MFXPacketPool := p |>).

(** * Time *)

Definition timeSince (tv : timeval) : prog world Z :=
  let* now := gettimeofday in
  ret ((now.(tv_sec) - tv.(tv_sec)) * 1000000 + now.(tv_usec) - tv.(tv_usec)).

Definition FAST_REFRESH_TIMEOUT : Z := 10.

(** [time(NULL) - glp->updatime.tv_sec], the age of the last command of entry
    [glp]. *)
Definition age (bus glp : Z) : prog world Z :=
  let* now := gettimeofday in
  let* d := GL.gl_at bus glp in
  ret (now.(tv_sec) - d.(gl_updatime).(tv_sec)).

(** * Feedback *)

Definition send_seek_cmd (scmd sdat : Z) : prog world unit :=
  let* m := gets mcs in
  do* info_mcs m.(mcs_bus) 0 m.(ownuid)
    (if sdat =? 0 then [2; 0x30; scmd; 0] else [3; 0x30; scmd; sdat]) in
  ret tt.

Definition handle_seek (data : list Z) (uid : Z) : prog ddl_t unit :=
  let* d := get in
  if d.(conf).(BOOSTER_COMM) =? 0 then ret tt
  else
    let* code := need (data !! 0%nat) in
    let* d1 := need (data !! 1%nat) in
    let* d2 := need (data !! 2%nat) in
    let fbmod f := modify (fun d => d <| fbData ::= f |>) in
    let write := modify (fun d => d <| feedbackPipe ::= fun q => q ++ [code] |>) in
    if code =? 0x82 then
      if d1 <? 6 then
        do* fbmod (fun f => f <| canfbdata ::= <[Z.to_nat d1 := d2]> |>
                              <| fbcollect ::= fun c => Z.lor c (2 ^ d1) |>) in
        let* d := get in
        let f := d.(fbData) in
        if f.(fbcollect) =? Z.shiftl 2 f.(fbbytnum) - 1 then
          let* ok := need (checkMfxCRC f.(canfbdata) f.(fbbytnum)) in
          if (ok : bool) then do* fbmod (fun f => f <| fb_uid := uid |>) in write else ret tt
        else ret tt
      else ret tt
    else if code =? 0x83 then
      do* fbmod (fun f => f <| canask := d1 |> <| fb_uid := uid |>) in write
    else ret tt.

(** The first byte of the feedback pipe; a read of an empty pipe blocks. *)
Definition read_pipe : prog line_t (option Z) :=
  let* q := ddl_get feedbackPipe in
  match q with
  | [] => ret None
  | e :: q => do* mod_ddl (fun d => d <| feedbackPipe := q |>) in ret (Some e)
  end.

(** The number of bytes asked for and the time to wait in microseconds. *)
Definition answer_of (event : Z) : Z * Z :=
  if (event =? packet_code QMFX1PKTD) || (event =? packet_code QMFX1PKTV) then (0, 200000)
  else if event =? packet_code QMFX8PKT then (1, 200000)
  else if event =? packet_code QMFX16PKT then (2, 208000)
  else if event =? packet_code QMFX32PKT then (4, 220000)
  else (0, 0).

Definition when (b : bool) (m : prog line_t unit) : prog line_t unit := if b then m else ret tt.

(** The reaction to a byte that came within the time. *)
Definition feedback_event (event : Z) : prog line_t unit :=
  let* f := ddl_get fbData in
  if event =? 0x42 then sendMFXreadCVresult f.(serfbdata)
  else if event =? 0x43 then handleMFXacknowledge f.(serask)
  else if event =? 0x82 then sendMFXreadCVresult f.(canfbdata)
  else if event =? 0x83 then handleMFXacknowledge f.(canask)
  else ret tt.

(** One turn of the feedback thread; [others] is what the other threads do
    while it waits for the answer.  [false] when the thread has ended or is
    still waiting for a command. *)
Definition thr_feedbackThread_turn (others : prog line_t unit) : prog line_t bool :=
  do* mod_ddl (fun d => match d.(resumeSM) with None => d <| allowSM := true |> | _ => d end) in
  let* event := read_pipe in
  match event with
  | None => ret false
  | Some event =>
      do* mod_ddl (fun d => d <| allowSM := false |>
        <| fbData ::= fun f => f <| fbbytnum := 0 |> <| pktcode := event |> |>) in
      if event =? 0 then ret false
      else
        let* c := ddl_get conf in
        let boosters := negb (c.(BOOSTER_COMM) =? 0) in
        let '(n, usec) := answer_of event in
        do* when (boosters && ((event =? packet_code QMFX1PKTD) || (event =? packet_code QMFX1PKTV)))
          (on_world (send_seek_cmd 1 0)) in
        do* mod_ddl (fun d => d <| fbData ::= fun f => f <| fbbytnum := n |> <| fbcollect := 0 |> |>) in
        do* when (boosters && negb (n =? 0)) (on_world (send_seek_cmd 2 n)) in
        if usec =? 0 then ret true
        else
          do* others in
          let* event := read_pipe in
          do* when boosters (on_world (send_seek_cmd 0 0)) in
          do* match event with
              | None =>
                  let* f := ddl_get fbData in
                  when (packet_code QMFX0PKT <? f.(pktcode)) handleMFXtimeout
              | Some event => feedback_event event
              end in
          ret true
  end.

(** * Refresh

    Two refresh cycles take turns: the fast one over the locomotives with a
    command in the last [FAST_REFRESH_TIMEOUT] seconds, the normal one over the
    others. *)
Section Threads.
Context (rx received : list Z).
Variable bus : Z.

Local Abbreviation receive := (receive received).
Local Abbreviation send p t xmits := (do* on_ddl (send_packet rx receive p t xmits) in ret tt).

Definition get_refresh (fast : bool) : prog line_t tRefreshInfo :=
  ddl_get (if fast then refreshInfoFast else refreshInfo).
Definition mod_refresh (fast : bool) (f : tRefreshInfo -> tRefreshInfo) : prog line_t unit :=
  mod_ddl (fun d => if fast then d <| refreshInfoFast ::= f |> else d <| refreshInfo ::= f |>).

(** Whether entry [glp] belongs to the cycle. *)
Definition due (fast : bool) (glp : Z) : prog line_t bool :=
  let* a := on_world (age bus glp) in
  ret (negb (Bool.eqb fast (FAST_REFRESH_TIMEOUT <? a))).

(** The search for the next locomotive of the cycle after index [i] of the
    known addresses; [true] when the end was reached.  [glptr] finds the entry
    of an address. *)
Fixpoint next_due (fuel : nat) (fast : bool) (known : gmap Z Z) (count : Z)
    (glptr : Z -> option Z) (i : Z) : prog line_t (Z * bool) :=
  match fuel with
  | O => undefined
  | S fuel =>
      if count <=? i + 1 then ret (0, true)
      else
        let* adr := need (known !! (i + 1)) in
        let* glp := need (glptr adr) in
        let* a := on_world (age bus glp) in
        if negb (Bool.eqb fast (a <=? FAST_REFRESH_TIMEOUT))
        then next_due fuel fast known count glptr (i + 1)
        else ret (i + 1, false)
  end.

Definition advance (fast : bool) {A} (p : pool A) (glptr : A -> Z) (i : Z) : prog line_t (Z * bool) :=
  next_due (S (Z.to_nat p.(NrOfKnownAddresses))) fast p.(knownAddresses) p.(NrOfKnownAddresses)
    (fun adr => match p.(packets) !! adr with Some (Some x) => Some (glptr x) | _ => None end) i.

(** Each part returns whether it sent a packet and whether the cycle of its
    protocol is complete. *)
Definition refresh_maerklin (fast : bool) : prog line_t (bool * bool) :=
  let* p := ddl_get MaerklinPacketPool in
  let* r := get_refresh fast in
  let* adr := need (p.(knownAddresses) !! r.(last_refreshed_maerklin_loco)) in
  if 0 <? adr then
    let* o := need (p.(packets) !! adr) in
    let* tMp := need o in
    let* go := due fast tMp.(mm_glptr) in
    do* (if (go : bool) then
           do* send (MM tMp.(mm_packet)) QM2LOCOPKT 1 in
           let fx := r.(last_refreshed_maerklin_fx) in
           do* guard (0 <=? fx) in
           let* f := need (tMp.(mm_f_packets) !! Z.to_nat fx) in
           send (MM f) QM2FXPKT 1
         else ret tt) in
    let* '(i, complete) := advance fast p mm_glptr r.(last_refreshed_maerklin_loco) in
    do* mod_refresh fast (fun r => r <| last_refreshed_maerklin_loco := i |>) in
    do* (if (complete : bool) then
           mod_refresh fast (fun r => r <| last_refreshed_maerklin_fx ::= fun fx =>
             if 4 <=? fx + 1 then 0 else fx + 1 |>)
         else ret tt) in
    ret (go, complete)
  else ret (false, true).

(** [None] when the packet of a known address has been freed: the caller
    returns at once. *)
Definition refresh_nmra (fast : bool) : prog line_t (option (bool * bool)) :=
  let* p := ddl_get NMRAPacketPool in
  let* r := get_refresh fast in
  let* adr := need (p.(knownAddresses) !! r.(last_refreshed_nmra_loco)) in
  if 0 <? adr then
    let* o := need (p.(packets) !! adr) in
    match o with
    | None => ret None
    | Some tNp =>
        let* go := due fast tNp.(nmra_glptr) in
        do* (if (go : bool) then
               do* send (Bytes tNp.(nmra_packet)) QNBLOCOPKT 1 in
               send (Bytes tNp.(nmra_fx_packet)) QNBLOCOPKT 1
             else ret tt) in
        let* '(i, complete) := advance fast p nmra_glptr r.(last_refreshed_nmra_loco) in
        do* mod_refresh fast (fun r => r <| last_refreshed_nmra_loco := i |>) in
        ret (Some (go, complete))
    end
  else ret (Some (false, true)).

(** With an mfx packet goes the next of the functions from 16 on. *)
Definition next_func (d : gl_data_t) : Z :=
  let f := u8 (d.(gl_lastfunc) + 1) in
  if (f <? 16) || (d.(gl_n_func) <=? f) then 16 else f.

Definition refresh_mfx (fast : bool) : prog line_t (option (bool * bool)) :=
  let* p := ddl_get MFXPacketPool in
  let* r := get_refresh fast in
  let* adr := need (p.(knownAddresses) !! r.(last_refreshed_mfx_loco)) in
  if 0 <? adr then
    let* o := need (p.(packets) !! adr) in
    match o with
    | None => ret None
    | Some tMp =>
        let* go := due fast tMp.(mfx_glptr) in
        do* (if (go : bool) then
               do* send (Bytes tMp.(mfx_packet)) QMFX0PKT 1 in
               let* d := on_world (GL.gl_at bus tMp.(mfx_glptr)) in
               if 16 <? d.(gl_n_func) then
                 let f := next_func d in
                 do* on_world (GL.gl_mod bus tMp.(mfx_glptr) (fun d => d <| gl_lastfunc := f |>)) in
                 on_ddl (send_LocoFx16_32 rx received adr f (Z.testbit d.(gl_funcs) f) 1)
               else ret tt
             else ret tt) in
        let* '(i, complete) := advance fast p mfx_glptr r.(last_refreshed_mfx_loco) in
        do* mod_refresh fast (fun r => r <| last_refreshed_mfx_loco := i |>) in
        ret (Some (go, complete))
    end
  else ret (Some (false, true)).

(** The next enabled protocol, a bit of an [int]; [None] when the loop does not
    end because none is enabled. *)
Fixpoint next_protocol (fuel : nat) (enabled p : Z) : option Z :=
  match fuel with
  | O => None
  | S fuel =>
      let p := u32 (Z.shiftl p 1) in
      let p := if p =? 0 then 1 else p in
      if Z.land enabled p =? 0 then next_protocol fuel enabled p else Some p
  end.

Definition in_turn (protocol : Z) (r : tRefreshInfo) : bool := negb (Z.land r.(protocol_refresh) protocol =? 0).

Definition refresh_loco_one (fast : bool) : prog line_t bool :=
  let* r := get_refresh fast in
  let* '(sent, complete) :=
    (if in_turn EP_MAERKLIN r then refresh_maerklin fast else ret (false, false)) in
  let* r := get_refresh fast in
  let* n := (if in_turn EP_NMRADCC r then refresh_nmra fast else ret (Some (false, false))) in
  match n with
  | None => ret false
  | Some (sentn, completen) =>
      let* r := get_refresh fast in
      let* x := (if in_turn EP_MFX r then refresh_mfx fast else ret (Some (false, false))) in
      match x with
      | None => ret false
      | Some (sentx, completex) =>
          let* c := ddl_get conf in
          do* (if complete || completen || completex then
                 let* r := get_refresh fast in
                 let* q := need (next_protocol 33 c.(ENABLED_PROTOCOLS) r.(protocol_refresh)) in
                 mod_refresh fast (fun r => r <| protocol_refresh := q |>)
               else ret tt) in
          ret (sent || sentn || sentx)
      end
  end.

Definition refresh_loco : prog line_t bool :=
  let* last := ddl_get lastRefreshFast in
  if (last : bool) then
    do* mod_ddl (fun d => d <| lastRefreshFast := false |>) in refresh_loco_one false
  else
    let* sent := refresh_loco_one true in
    if (sent : bool) then do* mod_ddl (fun d => d <| lastRefreshFast := true |>) in ret true
    else refresh_loco_one false.

(** * Track power

    [cts_low] is the level of the booster's feedback line when it is read,
    [commandsessions] the number of command sessions. *)
Context (cts_low : bool) (commandsessions : Z).

Definition usec_of (t : timeval) : Z := t.(tv_sec) * 1000000 + t.(tv_usec).

Definition checkShortcut : prog line_t bool :=
  let* d := gets l_ddl in
  if Bool.eqb cts_low (d.(conf).(CHECKSHORT) =? 2) then
    do* (if d.(short_detected) =? 0 then
           let* t := on_world gettimeofday in
           mod_ddl (fun d => d <| short_detected := usec_of t |>)
         else ret tt) in
    let* t := on_world gettimeofday in
    let* d := gets l_ddl in
    ret (d.(conf).(SHORTCUTDELAY) <=? usec_of t - d.(short_detected))
  else
    do* mod_ddl (fun d => d <| short_detected := 0 |>) in ret false.

Definition set_RTS (on : bool) : prog line_t unit := mod_ddl (fun d => d <| rts_on := on |>).

Definition announce_power : prog line_t unit :=
  let* r := on_world (infoPower bus) in on_world (enqueueInfoMessage r.2).

(** The power goes off for a reason of the driver's own. *)
Definition power_lost (msg : string) : prog line_t unit :=
  let* c := ddl_get conf in
  do* on_world (bus_mod bus (fun b => b <| power_state := 0 |> <| power_changed := 2 |>)) in
  do* on_world (info_mcs bus 1 (u32 c.(ddl_uid)) [2; 0xA; 1]) in
  do* on_world (bus_mod bus (fun b => b <| power_msg := msg |>)) in
  announce_power.

Definition short_check : prog line_t unit :=
  let* c := ddl_get conf in
  let* b := on_world (bus_get bus) in
  if negb (c.(CHECKSHORT) =? 0) && negb (b.(power_state) =? 0) then
    let* short := checkShortcut in
    if (short : bool) then
      do* mod_ddl (fun d => d <| short_detected := 0 |>) in power_lost "SHORTCUT DETECTED"%string
    else ret tt
  else ret tt.

Definition client_check : prog line_t unit :=
  let* c := ddl_get conf in
  let* b := on_world (bus_get bus) in
  let* m := world_get World.mcs in
  if negb (c.(CHECKCLIENTS) =? 0) && (commandsessions =? 0) && (m.(pingactive) =? 0) &&
     negb (b.(power_state) =? 0)
  then power_lost "CONTROL LOST"%string else ret tt.

(** A change of the power goes to the boosters, to the CAN side and, unless
    that has been done, to the info sessions. *)
Definition follow_power : prog line_t unit :=
  let* b := on_world (bus_get bus) in
  if 0 <? b.(power_changed) then
    do* on_world (info_mcs bus 0 0 [1; u8 b.(power_state)]) in
    do* when (b.(power_state) =? 0) (set_RTS false) in
    do* when (b.(power_state) =? 1) (set_RTS true) in
    do* when (b.(power_changed) =? 1)
      (do* on_world (info_mcs bus 1 0 [1; u8 b.(power_state)]) in announce_power) in
    on_world (bus_mod bus (fun b => b <| power_changed := 0 |>))
  else ret tt.

Definition power_is_off : prog line_t bool :=
  do* short_check in
  do* client_check in
  do* follow_power in
  let* b := on_world (bus_get bus) in
  ret (b.(power_state) =? 0).

(** * Service mode *)

Definition is_none (p : sm_protocol_t) : bool := bool_decide (p = PROTO_NONE).

Definition use_pgtrack (use : sm_protocol_t) : prog line_t unit :=
  let* p := ddl_get pgtrkonly in
  do* when (negb (Bool.eqb (is_none p) (is_none use))) (on_ddl (Dcc.nmra_idle rx receive 10)) in
  mod_ddl (fun d => d <| pgtrkonly := use |>).

Definition sm_nmra_set (c : sm_t) : prog line_t Z :=
  let* conf := ddl_get conf in
  if (c.(sm_addr) <=? 0) && negb (conf.(PROGRAM_TRACK) =? 0) then
    do* use_pgtrack PROTO_NMRA in
    match c.(sm_type) with
    | REGISTER => on_ddl (Dcc.protocol_nmra_sm_write_phregister c.(sm_cvaddr) c.(sm_value))
    | CV => on_ddl (Dcc.protocol_nmra_sm_write_cvbyte rx receive c.(sm_cvaddr) c.(sm_value))
    | CV_BIT => on_ddl (Dcc.protocol_nmra_sm_write_cvbit rx receive c.(sm_cvaddr) c.(sm_index) c.(sm_value))
    | PAGE => on_ddl (Dcc.protocol_nmra_sm_write_page c.(sm_cvaddr) c.(sm_value))
    | _ => ret (-1)
    end
  else
    do* use_pgtrack PROTO_NONE in
    let mode := if 127 <? c.(sm_addr) then 2 else 1 in
    match c.(sm_type) with
    | CV => on_ddl (Dcc.protocol_nmra_sm_write_cvbyte_pom rx receive c.(sm_addr) c.(sm_cvaddr) c.(sm_value) mode)
    | CV_BIT =>
        on_ddl (Dcc.protocol_nmra_sm_write_cvbit_pom rx receive c.(sm_addr) c.(sm_cvaddr)
          c.(sm_index) c.(sm_value) mode)
    | _ => ret (-1)
    end.

Definition sm_nmra_get (c : sm_t) : prog line_t Z :=
  if c.(sm_addr) <=? 0 then
    do* use_pgtrack PROTO_NMRA in
    match c.(sm_type) with
    | REGISTER => on_ddl (Dcc.protocol_nmra_sm_get_phregister c.(sm_cvaddr))
    | CV => on_ddl (Dcc.protocol_nmra_sm_get_cvbyte rx receive c.(sm_cvaddr))
    | CV_BIT => on_ddl (Dcc.protocol_nmra_sm_verify_cvbit rx receive c.(sm_cvaddr) c.(sm_index) 1)
    | PAGE => on_ddl (Dcc.protocol_nmra_sm_get_page c.(sm_cvaddr))
    | _ => ret (-1)
    end
  else ret (-1).

Definition sm_nmra_verify (c : sm_t) : prog line_t Z :=
  if c.(sm_addr) <=? 0 then
    do* use_pgtrack PROTO_NMRA in
    let* my_rc :=
      match c.(sm_type) with
      | REGISTER => on_ddl (Dcc.protocol_nmra_sm_verify_phregister c.(sm_cvaddr) c.(sm_value))
      | CV => on_ddl (Dcc.protocol_nmra_sm_verify_cvbyte rx receive c.(sm_cvaddr) c.(sm_value))
      | CV_BIT => on_ddl (Dcc.protocol_nmra_sm_verify_cvbit rx receive c.(sm_cvaddr) c.(sm_index) c.(sm_value))
      | PAGE => on_ddl (Dcc.protocol_nmra_sm_verify_page c.(sm_cvaddr) c.(sm_value))
      | _ => ret 0
      end in
    ret (if my_rc =? 1 then c.(sm_value) else -1)
  else ret (-1).

Definition sm_mfx (c : sm_t) : prog line_t Z :=
  do* use_pgtrack PROTO_NONE in
  match c.(sm_command), c.(sm_type) with
  | SET, CV_MFX => smMfxSetCV rx received c.(sm_addr) c.(sm_cvaddr) c.(sm_index) c.(sm_value)
  | SET, BIND_MFX => smMfxSetBind rx received c.(sm_addr) (u32 c.(sm_value))
  | (GET | VERIFY), CV_MFX => smMfxGetCV rx received c.(sm_addr) c.(sm_cvaddr) c.(sm_index) c.(sm_value)
  | (GET | VERIFY), BIND_MFX => smMfxVerBind rx received c.(sm_addr) (u32 c.(sm_value))
  | TERM, _ => do* setMfxSM false in ret 0
  | INIT, _ => do* setMfxSM true in ret 0
  | _, _ => ret (-1)
  end.

(** What a service mode command answers. *)
Definition sm_execute (c : sm_t) : prog line_t Z :=
  match c.(sm_protocol), c.(sm_command) with
  | PROTO_NMRA, SET => sm_nmra_set c
  | PROTO_NMRA, GET => sm_nmra_get c
  | PROTO_NMRA, VERIFY => sm_nmra_verify c
  | PROTO_MM, SET =>
      do* use_pgtrack PROTO_MM in
      on_ddl (Motorola.mm_reg_prog rx receive (bool_decide (c.(sm_type) = MM_REG_UB)) c.(sm_addr)
        c.(sm_cvaddr) c.(sm_value))
  | PROTO_MM, (GET | VERIFY) =>
      do* use_pgtrack PROTO_MM in on_ddl (Motorola.mm_search_loco c.(sm_index))
  | (PROTO_NMRA | PROTO_MM), (INIT | TERM) => ret 0
  | PROTO_MFX, _ => sm_mfx c
  | PROTO_NONE, _ => ret (-1)
  end.

Definition handle_sm : prog line_t bool :=
  let* allowed := ddl_get allowSM in
  let* empty := on_world (SM.queue_SM_isempty bus) in
  if allowed && negb empty then
    let* next := on_world (SM.dequeueNextSM bus) in
    let* '(_, c) := need next in
    let* rc := sm_execute c in
    do* on_world (session_endwait bus rc) in
    ret true
  else ret false.

(** * The loop of the bus

    [thr_t] are the variables of the thread that live from turn to turn. *)
Record thr_t := mk_thr {
  gastep : Z;
  gatmp : ga_data_t;
  tv_ga : timeval;
  tv_mfx : timeval;
  nextmfxman : Z;
  progwin : Z;
}.
#[export] Instance eta_thr : Settable thr_t := fun t =>
  mk_thr t.(gastep) t.(gatmp) t.(tv_ga) t.(tv_mfx) t.(nextmfxman) t.(progwin).
Definition thr_start : thr_t := mk_thr 0 ga_zero timeval0 timeval0 0 0.

(** The next locomotive of the queue, or one of the refresh cycle, or an idle
    packet. *)
Definition handle_gl : prog line_t unit :=
  let* glp := on_world (GL.dequeueNextGL bus) in
  match glp with
  | Some glp =>
      let* d := on_world (GL.gl_at bus glp) in
      let p := d.(gl_protocol) in
      let* d' :=
        (if p =? ch "M" then on_ddl (Motorola.comp_maerklin_loco rx receive glp d)
         else if p =? ch "N" then on_ddl (Dcc.comp_nmra_multi_func rx receive glp d)
         else if p =? ch "X" then
           let* d' := on_ddl (comp_mfx_loco rx received glp d) in
           do* when (d'.(gl_direction) =? -1) (on_ddl (sendDekoderTerm rx received d'.(gl_id))) in
           ret d'
         else ret d) in
      do* on_world (GL.gl_put bus glp d') in
      on_world (GL.cacheSetGL bus glp d')
  | None =>
      let* sent := refresh_loco in
      if (sent : bool) then ret tt
      else
        do* on_ddl (Dcc.nmra_idle rx receive 1) in
        mod_ddl (fun d => d <| spiLastMM := 0 |>)
  end.

Definition manage_mfx (t : thr_t) : prog line_t thr_t :=
  let* c := ddl_get conf in
  let* allowed := ddl_get allowSM in
  if negb (Z.land c.(ENABLED_PROTOCOLS) EP_MFX =? 0) && allowed then
    let* is_due := (if t.(tv_mfx).(tv_sec) =? 0 then ret true
                    else let* us := on_world (timeSince t.(tv_mfx)) in ret (t.(nextmfxman) <=? us)) in
    if (is_due : bool) then
      let* next := mfxManagement rx received in
      let* now := on_world gettimeofday in
      ret (t <| nextmfxman := next |> <| tv_mfx := now |>)
    else ret t
  else ret t.

(** The packet of an accessory command. *)
Definition send_ga (a : ga_data_t) : prog line_t unit :=
  let* c := ddl_get conf in
  if a.(ga_protocol) =? ch "M" then
    do* on_ddl (Motorola.comp_maerklin_ms rx receive a.(ga_id) a.(ga_port) a.(ga_action)) in ret tt
  else if a.(ga_protocol) =? ch "N" then
    do* on_ddl (Dcc.comp_nmra_accessory rx receive a.(ga_id) a.(ga_port) a.(ga_action)
      c.(NMRA_GA_OFFSET)) in ret tt
  else ret tt.

(** Steps 0 and 1 send the activation, steps 2 and 3 the deactivation when its
    time has come. *)
Definition ga_activate (t : thr_t) : prog line_t thr_t :=
  do* send_ga t.(gatmp) in
  let t := t <| gastep ::= Z.succ |> in
  if t.(gastep) =? 2 then
    do* on_world (GA.setGA bus t.(gatmp).(ga_id) t.(gatmp)) in
    ret (if t.(gatmp).(ga_activetime) <=? 0 then t <| gastep := 0 |> else t)
  else ret t.

Definition ga_deactivate (t : thr_t) : prog line_t thr_t :=
  do* send_ga t.(gatmp) in
  let t := t <| gastep ::= Z.succ |> in
  if t.(gastep) =? 4 then
    do* on_world (GA.setGA bus t.(gatmp).(ga_id) t.(gatmp)) in
    ret (t <| gastep := 0 |>)
  else ret t.

Definition handle_ga (t : thr_t) : prog line_t thr_t :=
  match t.(gastep) with
  | 0 =>
      let* next := on_world (GA.dequeueNextGA bus) in
      match next with
      | None => ret t
      | Some a =>
          let* now := on_world gettimeofday in
          ga_activate (t <| gatmp := a |> <| tv_ga := now |>)
      end
  | 1 => ga_activate t
  | 2 =>
      let* us := on_world (timeSince t.(tv_ga)) in
      if us <? t.(gatmp).(ga_activetime) * 1000 then ret t
      else ga_deactivate (t <| gatmp ::= fun a => a <| ga_action := 0 |> |>)
  | 3 => ga_deactivate t
  | _ => ret t
  end.

(** The part of a turn on the powered track. *)
Definition drive (t : thr_t) : prog line_t thr_t :=
  let* r := ddl_get resumeSM in
  do* (if decide (r = Some PROTO_MFX) then
         do* mod_ddl (fun d => d <| resumeSM := None |>) in resumeMfxGetCV rx received
       else ret tt) in
  do* handle_gl in
  let* t := manage_mfx t in
  handle_ga t.

Definition thr_Manage_DDL_turn (t : thr_t) : prog line_t thr_t :=
  let* served := handle_sm in
  let t := if (served : bool) then t <| progwin := 200 |> else t in
  do* on_world (bus_mod bus (fun b => b <| watchdog := 4 |>)) in
  let* off := power_is_off in
  if (off : bool) then ret t
  else
    let* p := ddl_get pgtrkonly in
    if is_none p then drive t
    else
      do* on_ddl (Dcc.nmra_idle rx receive 1) in
      if negb (t.(progwin) =? 0) then ret (t <| progwin ::= Z.pred |>)
      else do* use_pgtrack PROTO_NONE in drive t.
End Threads.
End Ddl.
