(* ===== verification/MfxSpec.v ===== *)
(** The properties of the packets of ddl_mfx.c and of the mfx streams of ddl.c:
    the checksum, bit stuffing, and the locomotive command as a decoder reads
    it off the line. *)

From S2P Require Import Prelude World Spi Mfx.

Module MfxSpec.
Import Spi Mfx.

(** * Building a packet *)

(** The packet [p] holds exactly the bits [bits]; the rest of the buffer is
    zero. *)
Record holds (p : packet_t) (bits : list bool) : Prop := {
  h_pos : p.(pos) = length bits;
  h_length : length p.(stream) = 80%nat;
  h_bits : forall i, (i < 632)%nat -> packet_bit p.(stream) i = Some (default false (bits !! i));
}.

Lemma empty_holds : holds empty_packet [].
Proof.
  split; [done | done |]. intros i Hi. unfold packet_bit. cbn [empty_packet stream].
  assert (i / 8 < 79)%nat by (apply Nat.Div0.div_lt_upper_bound; lia).
  rewrite lookup_replicate_2 by (unfold PKTSIZE; lia). by rewrite Z.testbit_0_l.
Qed.

Lemma lookup_snoc {A} (l : list A) b i :
  (l ++ [b]) !! i = if decide (i = length l) then Some b else l !! i.
Proof.
  case_decide as H; [subst; by rewrite lookup_app_r, Nat.sub_diag by lia |].
  destruct (decide (i < length l)%nat); [by rewrite lookup_app_l |].
  rewrite (lookup_ge_None_2 l) by lia. apply lookup_ge_None_2. rewrite length_app. cbn. lia.
Qed.

Lemma addBit_spec p bits b : holds p bits -> (length bits < 632)%nat ->
  exists p', addBit b p = Some (tt, p') /\ holds p' (bits ++ [b]).
Proof.
  intros [Hp Hl Hb] H. set (k := length bits) in *.
  assert (Hk : (k / 8 < 79)%nat) by (apply Nat.Div0.div_lt_upper_bound; lia).
  unfold addBit, bind, get, guard. rewrite Hp. fold k.
  replace (Z.of_nat (S (k / 8)) <? PKTSIZE) with true by (unfold PKTSIZE; zbool).
  eexists. split; [reflexivity |]. split; cbn [stream pos].
  - rewrite length_app. cbn. lia.
  - destruct b; [by rewrite length_alter | done].
  - intros i Hi. specialize (Hb i Hi). rewrite lookup_snoc. fold k. unfold packet_bit in *.
    destruct (stream p !! S (i / 8)) as [byte |] eqn:Hbyte; [| done].
    assert (Hb' : Z.testbit byte (Z.of_nat (i mod 8)) = default false (bits !! i)) by congruence.
    clear Hb. rename Hb' into Hb.
    assert (Hnone : bits !! k = None) by (apply lookup_ge_None_2; lia).
    destruct b.
    + destruct (decide (k / 8 = i / 8)%nat) as [E | E].
      * rewrite E, list_lookup_alter_eq, Hbyte. cbn [fmap option_fmap option_map]. f_equal.
        rewrite Z.lor_spec, Hb. case_decide as Hd.
        -- subst i. by rewrite Z.pow2_bits_true by lia.
        -- rewrite Z.pow2_bits_false; [done |]. intros H'. apply Hd. symmetry.
           apply nat_div_mod_8; [done | lia].
      * rewrite list_lookup_alter_ne by congruence. rewrite Hbyte. case_decide; [by subst |]. by rewrite Hb.
    + rewrite Hbyte, Hb. case_decide; [subst; by rewrite Hnone | done].
Qed.

(** The lowest [len] bits of a number, the highest one first. *)
Fixpoint field (v : Z) (len : nat) : list bool :=
  match len with O => [] | S len => Z.testbit v (Z.of_nat len) :: field v len end.

Lemma field_length v len : length (field v len) = len.
Proof. induction len; [done |]. cbn. by rewrite IHlen. Qed.

Lemma addBits_spec v len : forall p bits, holds p bits -> (length bits + len <= 632)%nat ->
  exists p', addBits v len p = Some (tt, p') /\ holds p' (bits ++ field v len).
Proof.
  induction len as [| len IH]; intros p bits H Hl.
  - exists p. split; [done |]. by rewrite app_nil_r.
  - destruct (addBit_spec p bits (Z.testbit v (Z.of_nat len)) H) as (p1 & E1 & H1); [lia |].
    destruct (IH p1 _ H1) as (p2 & E2 & H2); [rewrite length_app; cbn; lia |].
    exists p2. cbn [addBits]. rewrite (bind_some _ _ _ _ _ E1). split; [done |].
    by rewrite <- app_assoc in H2.
Qed.

(** ** The checksum *)

Definition is_reg (r : Z) : Prop := 0 <= r < 256.

Definition crc_linear (r : Z) : bool :=
  forallb (fun s => Z.lxor (crc_step r false) (crc_step s false) =? crc_step (Z.lxor r s) false)
    (seqZ 0 256).
Lemma crc_linear_all : forallb crc_linear (seqZ 0 256) = true.
Proof. vm_compute. reflexivity. Qed.

Definition crc_affine (r : Z) : bool :=
  (crc_step r true =? Z.lxor (crc_step r false) 1) && (0 <=? crc_step r false) &&
  (crc_step r false <? 256) && ((r =? 0) || negb (crc_step r false =? 0)).
Lemma crc_affine_all : forallb crc_affine (seqZ 0 256) = true.
Proof. vm_compute. reflexivity. Qed.

Lemma crc_step_xor r s b c : is_reg r -> is_reg s ->
  crc_step (Z.lxor r s) (xorb b c) = Z.lxor (crc_step r b) (crc_step s c).
Proof.
  intros Hr Hs.
  assert (Hrs : is_reg (Z.lxor r s)).
  { split; [apply Z.lxor_nonneg; unfold is_reg in *; lia |].
    destruct (decide (Z.lxor r s = 0)) as [-> |]; [lia |]. unfold is_reg in *.
    apply (Z.log2_lt_pow2 _ 8); [assert (0 <= Z.lxor r s) by (apply Z.lxor_nonneg; lia); lia |].
    pose proof (Z.log2_lxor r s ltac:(lia) ltac:(lia)).
    assert (Z.log2 r < 8) by (destruct (decide (r = 0)) as [-> |]; [done | apply Z.log2_lt_pow2; lia]).
    assert (Z.log2 s < 8) by (destruct (decide (s = 0)) as [-> |]; [done | apply Z.log2_lt_pow2; lia]).
    lia. }
  assert (A : forall x, is_reg x -> crc_step x true = Z.lxor (crc_step x false) 1).
  { intros x Hx. pose proof (forallb_seqZ _ _ _ x crc_affine_all Hx) as H. unfold crc_affine in H.
    bool_hyps. done. }
  pose proof (forallb_seqZ _ _ _ r crc_linear_all Hr) as L.
  pose proof (forallb_seqZ _ _ _ s L Hs) as L'. apply Z.eqb_eq in L'.
  destruct b, c; cbn [xorb]; rewrite ?A, <- ?L' by done; apply Z.bits_inj'; intros n Hn;
    rewrite !Z.lxor_spec; by destruct (Z.testbit _ n), (Z.testbit _ n), (Z.testbit 1 n).
Qed.

Lemma crc_step_reg r b : is_reg r -> is_reg (crc_step r b).
Proof.
  intros Hr. pose proof (forallb_seqZ _ _ _ r crc_affine_all Hr) as H. unfold crc_affine in H.
  bool_hyps. destruct b; [| done]. 
  assert (D : forallb (fun x => (0 <=? Z.lxor x 1) && (Z.lxor x 1 <? 256)) (seqZ 0 256) = true)
    by (vm_compute; reflexivity).
  assert (Hx : 0 <= crc_step r false < 0 + 256) by lia.
  pose proof (forallb_seqZ _ _ _ _ D Hx) as Hy. cbn beta in Hy. bool_hyps. unfold is_reg. congruence || lia.
Qed.

Definition crc (r : Z) (l : list bool) : Z := foldl crc_step r l.

Lemma crc_reg l r : is_reg r -> is_reg (crc r l).
Proof. revert r. induction l; intros r Hr; [done |]. cbn. by apply IHl, crc_step_reg. Qed.

(** Registers and bit strings of one length form a group under exclusive or,
    and the checksum is a homomorphism. *)
Lemma crc_xor l m r s : is_reg r -> is_reg s -> length l = length m ->
  crc (Z.lxor r s) (zip_with xorb l m) = Z.lxor (crc r l) (crc s m).
Proof.
  revert m r s. induction l as [| b l IH]; intros [| c m] r s Hr Hs Hl; try done.
  cbn. rewrite crc_step_xor by done. apply IH; [by apply crc_step_reg.. |]. by injection Hl.
Qed.

Lemma is_reg_0 : is_reg 0.
Proof. done. Qed.
#[local] Hint Resolve is_reg_0 crc_reg crc_step_reg : machine.

Lemma crc_app l m r : crc r (l ++ m) = crc (crc r l) m.
Proof. apply foldl_app. Qed.

(** A register is only lost when it was zero. *)
Lemma crc_zeros_nonzero n r : is_reg r -> r <> 0 -> crc r (replicate n false) <> 0.
Proof.
  revert r. induction n as [| n IH]; intros r Hr H0; [done |]. cbn. apply IH; [by apply crc_step_reg |].
  pose proof (forallb_seqZ _ _ _ r crc_affine_all Hr) as H. unfold crc_affine in H. bool_hyps.
  match goal with H : _ || _ = true |- _ => apply orb_true_iff in H as [H | H]; bool_hyps end; lia.
Qed.

(** The number a bit string stands for. *)
Definition value (l : list bool) : Z := foldl (fun v b => 2 * v + Z.b2z b) 0 l.

Lemma value_snoc l b : value (l ++ [b]) = 2 * value l + Z.b2z b.
Proof. unfold value. by rewrite foldl_app. Qed.

Lemma value_range l : 0 <= value l < 2 ^ Z.of_nat (length l).
Proof.
  induction l as [| b l IH] using rev_ind; [done |]. rewrite value_snoc, length_app. cbn [length].
  replace (Z.of_nat (length l + 1)) with (Z.succ (Z.of_nat (length l))) by lia.
  rewrite Z.pow_succ_r by lia. destruct b; cbn [Z.b2z]; lia.
Qed.

Lemma crc_step_shift v b : 0 <= v < 128 -> crc_step v b = 2 * v + Z.b2z b.
Proof.
  intros Hv.
  assert (D : forallb (fun v => (crc_step v true =? 2 * v + 1) && (crc_step v false =? 2 * v)) (seqZ 0 128) = true)
    by (vm_compute; reflexivity).
  pose proof (forallb_seqZ _ _ _ v D Hv) as H. cbn beta in H. bool_hyps. destruct b; cbn [Z.b2z]; lia.
Qed.

(** Up to eight bits fit into the register. *)
Lemma crc_short l : (length l <= 8)%nat -> crc 0 l = value l.
Proof.
  induction l as [| b l IH] using rev_ind; [done |]. rewrite length_app. cbn [length]. intros H.
  rewrite crc_app, IH, value_snoc by lia. apply crc_step_shift.
  pose proof (value_range l) as R. change 128 with (2 ^ 7).
  assert (2 ^ Z.of_nat (length l) <= 2 ^ 7) by (apply Z.pow_le_mono_r; lia). lia.
Qed.

Lemma value_inj l m : length l = length m -> value l = value m -> l = m.
Proof.
  revert m. induction l as [| b l IH] using rev_ind; intros m Hl Hv.
  { by destruct m. }
  destruct m as [| c m _] using rev_ind; [rewrite length_app in Hl; cbn in Hl; lia |].
  rewrite !length_app in Hl. rewrite !value_snoc in Hv. cbn in Hl.
  assert (b = c /\ value l = value m) as [-> E] by (destruct b, c; cbn [Z.b2z] in Hv; lia).
  by rewrite (IH m) by (done || lia).
Qed.

Lemma field_value v len : value (field v len) = v mod 2 ^ Z.of_nat len.
Proof.
  assert (G : forall a, foldl (fun v b => 2 * v + Z.b2z b) a (field v len) =
    a * 2 ^ Z.of_nat len + v mod 2 ^ Z.of_nat len).
  { induction len as [| len IH]; intros a.
    - cbn. rewrite Z.mod_1_r. lia.
    - cbn [field foldl]. rewrite IH. rewrite Nat2Z.inj_succ, Z.pow_succ_r by lia.
      rewrite (Z.mul_comm 2 (2 ^ _)), Z.rem_mul_r by lia.
      rewrite (Z.testbit_spec' v) by lia. lia. }
  unfold value. rewrite G. lia.
Qed.

Lemma crc_split l r : is_reg r -> (length l <= 8)%nat ->
  crc r l = Z.lxor (crc r (replicate (length l) false)) (value l).
Proof.
  intros Hr Hl. rewrite <- (crc_short l Hl), <- crc_xor by (try apply length_replicate; done).
  rewrite Z.lxor_0_r. f_equal. clear. induction l as [| b l IH]; [done |]. cbn. by rewrite <- IH.
Qed.

(** The checksum tells apart any two strings that differ only inside a window
    of eight bits. *)
Lemma crc_window pre w w' post r : is_reg r -> length w = length w' -> (length w <= 8)%nat ->
  crc r (pre ++ w ++ post) = crc r (pre ++ w' ++ post) -> w = w'.
Proof.
  intros Hr Hl H8 E. rewrite !crc_app in E.
  assert (Hp : is_reg (crc r pre)) by auto with machine.
  rewrite (crc_split w), (crc_split w') in E by (try done; lia). rewrite <- Hl in E.
  set (z := crc (crc r pre) (replicate (length w) false)) in E.
  assert (Hz : is_reg z) by (unfold z; auto with machine).
  assert (Hv : forall l : list bool, (length l <= 8)%nat -> is_reg (value l)).
  { intros l Hl8. rewrite <- crc_short by done. auto with machine. }
  assert (S : forall l, (length l <= 8)%nat ->
    crc (Z.lxor z (value l)) post = Z.lxor (crc z post) (crc (value l) (replicate (length post) false))).
  { intros l Hl8. rewrite <- crc_xor by (try (rewrite length_replicate); auto).
    f_equal. clear. induction post as [| b l IH]; [done |]. cbn. by rewrite <- IH, xorb_false_r. }
  rewrite !S in E by lia. apply (f_equal (Z.lxor (crc z post))) in E.
  rewrite <- !Z.lxor_assoc, Z.lxor_nilpotent, !Z.lxor_0_l in E.
  apply value_inj; [done |]. destruct (decide (value w = value w')) as [| Hne]; [done |].
  exfalso. apply (crc_zeros_nonzero (length post) (Z.lxor (value w) (value w'))).
  - assert (X : Z.lxor (crc 0 w) (crc 0 w') = crc 0 (zip_with xorb w w')) by (by rewrite <- crc_xor).
    rewrite <- !crc_short, X by lia. auto with machine.
  - intros H. apply Hne. by apply Z.lxor_eq.
  - assert (X := crc_xor (replicate (length post) false) (replicate (length post) false)
      (value w) (value w') (Hv w H8) (Hv w' ltac:(lia)) eq_refl).
    rewrite E, Z.lxor_nilpotent in X. rewrite <- X. f_equal. clear.
    induction (length post) as [| n IH]; [done |]. cbn. by rewrite <- IH.
Qed.

(** ** Packets with their checksum *)

Definition crc_bits (bits : list bool) : list bool :=
  field (crc 0x7F (bits ++ replicate 8 false)) 8.

Lemma crc_bits_length bits : length (crc_bits bits) = 8%nat.
Proof. apply field_length. Qed.

Lemma crc_bits_residue bits : crc 0x7F (bits ++ crc_bits bits) = 0.
Proof.
  assert (Hr : is_reg (crc 0x7F bits)) by (apply crc_reg; done). unfold crc_bits. rewrite !crc_app.
  rewrite (crc_split (field _ 8)) by (try done; rewrite field_length; lia).
  rewrite field_length, field_value.
  set (c := crc _ (replicate 8 false)). assert (Hc : is_reg c) by (unfold c; auto with machine).
  rewrite Z.mod_small by done. apply Z.lxor_nilpotent.
Qed.

Lemma stream_bits_spec p bits n : holds p bits -> (n <= 632)%nat ->
  stream_bits n p.(stream) = Some ((fun i => default false (bits !! i)) <$> seq 0 n).
Proof.
  intros [_ _ H] Hn. unfold stream_bits. apply mapM_Some, Forall2_fmap_r, Forall_Forall2_diag.
  apply Forall_forall. intros i Hi. apply elem_of_seq in Hi. apply H. lia.
Qed.

Lemma padded (bits : list bool) n :
  (fun i => default false (bits !! i)) <$> seq 0 (length bits + n) = bits ++ replicate n false.
Proof.
  apply list_eq. intros i. rewrite list_lookup_fmap.
  destruct (decide (i < length bits)%nat) as [H | H].
  - rewrite lookup_seq_lt, lookup_app_l by lia. cbn.
    by destruct (lookup_lt_is_Some_2 bits i H) as [b ->].
  - rewrite lookup_app_r by lia. destruct (decide (i < length bits + n)%nat).
    + rewrite lookup_seq_lt, lookup_replicate_2 by lia. cbn. by rewrite lookup_ge_None_2 by lia.
    + rewrite (lookup_ge_None_2 (seq _ _)) by (rewrite length_seq; lia). cbn. symmetry.
      apply lookup_ge_None_2. rewrite length_replicate. lia.
Qed.

(** What [addCRCBits] makes of a packet. *)
Lemma addCRC_spec p bits : holds p bits -> (length bits <= 247)%nat ->
  exists p', addCRCBits p = Some (tt, p') /\ head p'.(stream) = Some (Z.of_nat (length bits + 8)) /\
    packet_bits p'.(stream) = Some (bits ++ crc_bits bits).
Proof.
  intros H Hl. unfold addCRCBits. unfold bind at 1, get. rewrite (h_pos _ _ H). unfold CRC_LEN.
  rewrite (stream_bits_spec p bits) by (done || lia). cbn [need]. unfold bind at 1, ret at 1.
  rewrite padded. change (foldl crc_step 127) with (crc 0x7F).
  destruct (addBits_spec (crc 0x7F (bits ++ replicate 8 false)) 8 p bits H) as (q & E & Hq); [lia |].
  rewrite (bind_some _ _ _ _ _ E). unfold modify. eexists. split; [reflexivity |].
  fold (crc_bits bits) in Hq. destruct Hq as [P1 P2 P3].
  rewrite length_app, crc_bits_length in P1.
  destruct q as [s k]. cbn [stream pos] in *. subst k. destruct s as [| x s]; [done |]. cbn -[crc_bits].
  rewrite wrap_small by lia. split; [done |]. unfold packet_bits. rewrite Nat2Z.id.
  apply mapM_Some. apply Forall2_same_length_lookup. split.
  { by rewrite length_seq, length_app, crc_bits_length. }
  intros i j b Hi Hb. apply lookup_seq in Hi as [-> Hi]. rewrite Nat.add_0_l.
  specialize (P3 i ltac:(lia)). unfold packet_bit in *. cbn [lookup list_lookup] in *.
  by rewrite P3, Hb.
Qed.

(** [m] appends the bits [bits] to any packet with room for them. *)
Definition adds (m : prog packet_t unit) (bits : list bool) : Prop :=
  forall p b, holds p b -> (length b + length bits <= 632)%nat ->
  exists p', m p = Some (tt, p') /\ holds p' (b ++ bits).

Lemma adds_addBits v len : adds (addBits v len) (field v len).
Proof. intros p b H Hl. rewrite field_length in Hl. by apply addBits_spec. Qed.

Lemma adds_bind m k l1 l2 : adds m l1 -> adds k l2 -> adds (bind m (fun _ => k)) (l1 ++ l2).
Proof.
  intros Hm Hk p b H Hl. rewrite length_app in Hl.
  destruct (Hm p b H) as (p1 & E1 & H1); [lia |].
  destruct (Hk p1 _ H1) as (p2 & E2 & H2); [rewrite length_app; lia |].
  exists p2. rewrite (bind_some _ _ _ _ _ E1). by rewrite <- app_assoc in H2.
Qed.

Lemma adds_if (b : bool) m m' l l' : adds m l -> adds m' l' ->
  adds (if b then m else m') (if b then l else l').
Proof. by destruct b. Qed.

(** The bits of an address: its prefix says how long it is. *)
Definition address_field (a : Z) : list bool :=
  if a <? 128 then field 2 2 ++ field a 7
  else if a <? 512 then field 6 3 ++ field a 9
  else if a <? 2048 then field 14 4 ++ field a 11
  else field 15 4 ++ field a 14.

Lemma adds_address a : adds (addAdrBits a) (address_field a).
Proof. repeat (apply adds_if || apply adds_bind || apply adds_addBits). Qed.

Lemma address_field_length a : (length (address_field a) <= 18)%nat.
Proof. unfold address_field. repeat case_match; cbn; lia. Qed.

Create HintDb packets discriminated.
#[local] Hint Resolve adds_addBits adds_bind adds_if adds_address : packets.

(** What a program that ends in [addCRCBits] builds. *)
Definition packet_of (m : prog packet_t unit) (bits : list bool) : Prop :=
  exists l, build m = Some l /\ packet_bits l = Some bits /\
    head l = Some (Z.of_nat (length bits)) /\ (length bits <= 255)%nat.

(** [k] completes a packet that holds [pre] to the bits [bits]. *)
Definition completes (pre : list bool) (k : prog packet_t unit) (bits : list bool) : Prop :=
  (length pre <= 247)%nat -> forall p, holds p pre ->
  exists p', k p = Some (tt, p') /\ packet_bits p'.(stream) = Some bits /\
    head p'.(stream) = Some (Z.of_nat (length bits)) /\ (length bits <= 255)%nat.

Lemma completes_crc pre bits : pre = bits -> completes pre addCRCBits (bits ++ crc_bits bits).
Proof.
  intros <- Hl p H. destruct (addCRC_spec p pre H Hl) as (p' & E & Hh & Hb).
  exists p'. rewrite length_app, crc_bits_length. repeat split; try done. lia.
Qed.

Lemma completes_bind pre m l k bits : (length (pre ++ l) <= 247)%nat ->
  adds m l -> completes (pre ++ l) k bits -> completes pre (bind m (fun _ => k)) bits.
Proof.
  intros Hl Hm Hk _ p H. rewrite length_app in Hl.
  destruct (Hm p pre H) as (p1 & E1 & H1); [lia |].
  destruct (Hk ltac:(rewrite length_app; lia) p1 H1) as (p2 & E2 & H2).
  exists p2. by rewrite (bind_some _ _ _ _ _ E1).
Qed.

Lemma build_completes m bits : completes [] m bits -> packet_of m bits.
Proof.
  intros H. destruct (H ltac:(cbn; lia) empty_packet empty_holds) as (p & E & Hp).
  exists p.(stream). unfold build. by rewrite E.
Qed.

(** Build the next field of a packet. *)
Ltac next_field l :=
  apply (completes_bind _ _ l);
  [cbn [app]; rewrite ?length_app, ?field_length; cbn [length]; lia
  | repeat (apply adds_if || apply adds_bind || apply adds_addBits || apply adds_address)
  | cbn [app]].

(** ** The line

    A cell of the line starts with a change of the level; a one has another
    change in its middle.  A sync, five half cells long, breaks this rule. *)

Definition after (l v : bool) : bool := if v then l else negb l.
Definition cell (l v : bool) : list Z := [byte_of (negb l); byte_of (after l v)].
Definition sync (l : bool) : list Z := byte_of <$> [negb l; negb l; l; negb l; negb l].

Fixpoint cells (l : bool) (bits : list bool) : list Z :=
  match bits with [] => [] | v :: bits => cell l v ++ cells (after l v) bits end.

(** The level at the end. *)
Definition finish (l : bool) (bits : list bool) : bool := foldl after l bits.

Lemma level_byte buf b : level (buf ++ [byte_of b]) = b.
Proof. unfold level. rewrite last_snoc. by destruct b. Qed.

Lemma addMFX_cell v buf : addMFX v buf = buf ++ cell (level buf) v.
Proof. unfold addMFX, cell, after. by destruct v; rewrite ?negb_involutive. Qed.

Lemma level_cell v buf : level (addMFX v buf) = after (level buf) v.
Proof.
  rewrite addMFX_cell. unfold cell.
  change [?a; ?b] with ([a] ++ [b]). rewrite app_assoc. apply level_byte.
Qed.

Lemma addMFXhSync_sync n buf :
  addMFXhSync (S n) buf = addMFXhSync n (buf ++ sync (level buf)) /\
  level (buf ++ sync (level buf)) = negb (level buf).
Proof.
  split; [done |]. unfold sync. cbn [fmap list_fmap].
  change [?a; ?b; ?c; ?d; ?e] with ([a; b; c; d] ++ [e]). rewrite app_assoc. apply level_byte.
Qed.

(** The bits with the stuffed zeros, and a receiver's inverse. *)
Fixpoint stuff (bits : list bool) (count1 : nat) : list bool :=
  match bits with
  | [] => []
  | true :: bits => if (8 <=? S count1)%nat then true :: false :: stuff bits 0 else true :: stuff bits (S count1)
  | false :: bits => false :: stuff bits 0
  end.

Fixpoint unstuff (fuel : nat) (bits : list bool) (count1 : nat) : option (list bool) :=
  match fuel, bits with
  | _, [] => Some []
  | O, _ => None
  | S fuel, true :: bits =>
      if (8 <=? S count1)%nat then
        match bits with
        | false :: bits => cons true <$> unstuff fuel bits 0
        | _ => None
        end
      else cons true <$> unstuff fuel bits (S count1)
  | S fuel, false :: bits => cons false <$> unstuff fuel bits 0
  end.

Lemma unstuff_stuff bits c fuel : (length bits <= fuel)%nat -> unstuff fuel (stuff bits c) c = Some bits.
Proof.
  revert c fuel. induction bits as [| b bits IH]; intros c fuel H; [by destruct fuel |].
  destruct fuel as [| fuel]; [cbn in H; lia |]. cbn in H.
  destruct b; cbn [stuff].
  - destruct (8 <=? S c)%nat eqn:E; cbn [unstuff]; rewrite E, IH by lia; done.
  - cbn [unstuff]. by rewrite IH by lia.
Qed.

(** The longest run of ones, [count1] of them before the string. *)
Fixpoint longest_run (bits : list bool) (count1 : nat) : nat :=
  match bits with
  | [] => count1
  | true :: bits => longest_run bits (S count1)
  | false :: bits => Nat.max count1 (longest_run bits 0)
  end.

Lemma stuff_run bits c : (c <= 7)%nat -> (longest_run (stuff bits c) c <= 8)%nat.
Proof.
  revert c. induction bits as [| b bits IH]; intros c Hc; [cbn; lia |].
  destruct b; cbn [stuff longest_run].
  - destruct (Nat.leb_spec 8 (S c)); cbn [longest_run]; [| apply IH; lia].
    pose proof (IH 0%nat). lia.
  - pose proof (IH 0%nat). lia.
Qed.

Lemma stuff_length bits c : (length (stuff bits c) <= 2 * length bits)%nat.
Proof.
  revert c. induction bits as [| b bits IH]; intros c; [done |].
  destruct b; cbn [stuff]; [destruct (8 <=? S c)%nat; cbn [length] |];
    [pose proof (IH 0%nat) | pose proof (IH (S c)) | pose proof (IH 0%nat)]; cbn [length]; lia.
Qed.

Lemma add_payload_cells bits c buf :
  add_payload bits c buf = buf ++ cells (level buf) (stuff bits c) /\
  level (add_payload bits c buf) = finish (level buf) (stuff bits c).
Proof.
  revert c buf. induction bits as [| b bits IH]; intros c buf; [by cbn; rewrite app_nil_r |].
  destruct b; cbn [add_payload stuff].
  - destruct (8 <=? S c)%nat.
    + destruct (IH 0%nat (addMFX false (addMFX true buf))) as [E1 E2].
      rewrite E2, E1, !level_cell. cbn [cells].
      by rewrite (addMFX_cell false), level_cell, (addMFX_cell true), <- !app_assoc.
    + destruct (IH (S c) (addMFX true buf)) as [E1 E2].
      rewrite E2, E1, level_cell. cbn [cells]. by rewrite addMFX_cell, <- !app_assoc.
  - destruct (IH 0%nat (addMFX false buf)) as [E1 E2].
    rewrite E2, E1, level_cell. cbn [cells]. by rewrite addMFX_cell, <- !app_assoc.
Qed.

(** ** A receiver *)

Definition levels (w : list Z) : list bool := (fun x => negb (x =? 0)) <$> w.

(** Cells up to a sync; [l] is the level before. *)
Fixpoint read_cells (fuel : nat) (l : bool) (w : list bool) : option (list bool) :=
  match fuel with
  | O => None
  | S fuel =>
      match w with
      | a :: b :: w' =>
          if Bool.eqb a l then None
          else if Bool.eqb a b &&
                  match w' with c :: d :: e :: _ => negb (Bool.eqb c a) && Bool.eqb d a && Bool.eqb e a
                              | _ => false end
          then Some []
          else cons (negb (Bool.eqb a b)) <$> read_cells fuel b w'
      | _ => None
      end
  end.

Definition start_wave : list bool :=
  replicate 8 false ++ [true; true; false; true; true] ++ [false; false; true; false; false].

(** The bits of a transmission: quiet line, two syncs, the stuffed bits, a
    sync. *)
Definition mfx_receive (w : list Z) : option (list bool) :=
  let w := levels w in
  if bool_decide (take 18 w = start_wave) then
    match read_cells (length w) false (drop 18 w) with
    | Some bits => unstuff (length bits) bits 0
    | None => None
    end
  else None.

Lemma levels_app w w' : levels (w ++ w') = levels w ++ levels w'.
Proof. apply fmap_app. Qed.
Lemma levels_byte b : negb (byte_of b =? 0) = b.
Proof. by destruct b. Qed.

(** After a one the level at the start of the next cell tells a one and a zero
    before it from a sync. *)
Lemma read_cells_spec bits l rest fuel : (length bits < fuel)%nat ->
  read_cells fuel l (levels (cells l bits ++ sync (finish l bits) ++ rest)) = Some bits.
Proof.
  revert l fuel. induction bits as [| v bits IH]; intros l fuel Hf;
    (destruct fuel as [| fuel]; [cbn in Hf; lia |]).
  - cbn. rewrite !levels_byte. by destruct l.
  - cbn [cells]. rewrite <- app_assoc. cbn [length] in Hf.
    specialize (IH (after l v) fuel ltac:(lia)).
    change (finish l (v :: bits)) with (finish (after l v) bits).
    set (w := cells (after l v) bits ++ sync (finish (after l v) bits) ++ rest) in *.
    assert (Hw : exists c d e w', levels w = c :: d :: e :: w' /\ c = negb (after l v) /\
      (d = after l v -> e = negb (after l v))).
    { unfold w. generalize (after l v) as l1. intros l1. clear.
      destruct bits as [| u bits]; [cbn; rewrite !levels_byte; do 4 eexists; repeat split; by destruct l1 |].
      destruct bits as [| u' bits]; cbn; rewrite !levels_byte; do 4 eexists;
        (split; [reflexivity |]); (split; [done |]); by destruct u, l1. }
    destruct Hw as (c & d & e & w' & Ew & Hc & He).
    unfold cell. cbn [app levels fmap list_fmap read_cells].
    change ((fun x : Z => negb (x =? 0)) <$> w) with (levels w). rewrite !levels_byte.
    replace (Bool.eqb (negb l) l) with false by (by destruct l).
    assert (N : Bool.eqb (negb l) (after l v) && match levels w with
      | c0 :: d0 :: e :: _ => negb (Bool.eqb c0 (negb l)) && Bool.eqb d0 (negb l) && Bool.eqb e (negb l)
      | _ => false end = false).
    { rewrite Ew, Hc. destruct v, l, d, e; cbn in *; try done; by specialize (He eq_refl). }
    rewrite N, IH. cbn. f_equal. f_equal. by destruct v, l.
Qed.

(** ** The stream of a packet *)

Definition extends (a b : list Z) : Prop := exists r, b = a ++ r.
#[local] Instance extends_refl : Reflexive extends.
Proof. intros a. exists []. by rewrite app_nil_r. Qed.
#[local] Instance extends_trans : Transitive extends.
Proof. intros a b c [r ->] [r' ->]. exists (r ++ r'). by rewrite app_assoc. Qed.

Lemma extends_app a r : extends a (a ++ r).
Proof. by exists r. Qed.
Lemma extends_hsync n a : extends a (addMFXhSync n a).
Proof.
  revert a. induction n as [| n IH]; intros a; [done |].
  rewrite (proj1 (addMFXhSync_sync n a)). etransitivity; [apply extends_app | apply IH].
Qed.
Lemma extends_addMFX v a : extends a (addMFX v a).
Proof. rewrite addMFX_cell. apply extends_app. Qed.
Lemma extends_pause a : extends a (add_pause a).
Proof. apply extends_app. Qed.
Lemma extends_sync n a : extends (a ++ sync (level a)) (addMFXhSync (S n) a).
Proof. rewrite (proj1 (addMFXhSync_sync n a)). apply extends_hsync. Qed.
Lemma extends_rds a : extends (a ++ sync (level a)) (addRDSSync a).
Proof.
  unfold addRDSSync. etransitivity; [| repeat (etransitivity; [| apply extends_addMFX]); reflexivity].
  destruct (level a) eqn:E; rewrite <- E; apply extends_sync.
Qed.

Lemma payload_start :
  addMFXhSync 2 (replicate MFX_STARTSTOP_0_BYTES 0) = replicate 8 0 ++ sync false ++ sync true.
Proof. reflexivity. Qed.

(** Every type of mfx packet reaches the receiver, which reads off the bits;
    there are never more than eight ones in a row on the line. *)
Lemma mfx_stream t l bits : packet_bits l = Some bits ->
  exists w, convertMFXPacketToSPIStream l t = Some w /\
    (is_mm t = false -> is_nmra t = false -> mfx_receive w = Some bits).
Proof.
  intros Hb. unfold convertMFXPacketToSPIStream. rewrite Hb. eexists. split; [reflexivity |].
  intros Hm Hn. set (p := addMFXhSync 2 _).
  assert (Hp : p = replicate 8 0 ++ sync false ++ sync true) by exact payload_start.
  destruct (add_payload_cells bits 0 p) as [Ec El].
  set (buf := add_payload bits 0 p) in *. replace (level p) with false in * by done.
  match goal with |- mfx_receive ?x = _ => set (w := x) end.
  assert (Hw : extends (buf ++ sync (level buf)) w).
  { unfold w. destruct t; try done.
    - etransitivity; [apply extends_sync | apply extends_app].
    - etransitivity; [apply extends_rds |]. etransitivity; [apply extends_pause |].
      etransitivity; [apply extends_hsync |]. etransitivity; [apply extends_pause | apply extends_hsync].
    - etransitivity; [apply extends_rds |]. etransitivity; [apply extends_pause |].
      etransitivity; [apply extends_hsync |]. etransitivity; [apply extends_pause | apply extends_hsync].
    - etransitivity; [apply extends_rds |]. etransitivity; [apply extends_app | apply extends_hsync].
    - etransitivity; [apply extends_rds |]. etransitivity; [apply extends_app | apply extends_hsync].
    - etransitivity; [apply extends_rds |]. etransitivity; [apply extends_app | apply extends_hsync]. }
  destruct Hw as [r Hw]. clearbody w. subst w. rewrite El, Ec, Hp, <- !app_assoc.
  set (tl := cells false (stuff bits 0) ++ _). unfold mfx_receive.
  assert (T : levels (replicate 8 0 ++ sync false ++ sync true ++ tl) = start_wave ++ levels tl) by done.
  rewrite T. rewrite (take_app_length' _ _ 18), (drop_app_length' _ _ 18) by done.
  rewrite bool_decide_eq_true_2 by done. unfold tl. rewrite read_cells_spec.
  - apply unstuff_stuff. pose proof (stuff_length bits 0). clear.
    enough (forall c, length bits <= length (stuff bits c))%nat by auto.
    induction bits as [| b bits IH]; intros c; [done |].
    destruct b; cbn [stuff]; [destruct (8 <=? S c)%nat; cbn [length] |];
      [pose proof (IH 0%nat) | pose proof (IH (S c)) | pose proof (IH 0%nat)]; cbn [length]; lia.
  - rewrite length_app. unfold levels. rewrite length_fmap, !length_app.
    change (length (sync _)) with 5%nat.
    enough (forall l bs, length (cells l bs) = 2 * length bs)%nat as -> by lia.
    clear. intros l bs. revert l. induction bs as [| b bs IH]; intros l; [done |]. cbn. by rewrite IH; lia.
Qed.

Lemma mfx_stream_run bits : (longest_run (stuff bits 0) 0 <= 8)%nat.
Proof. apply stuff_run. lia. Qed.

(** ** Sending *)

Lemma cells_length l bits : length (cells l bits) = (2 * length bits)%nat.
Proof. revert l. induction bits as [| b bits IH]; intros l; [done |]. cbn. rewrite IH. lia. Qed.

Lemma hsync_length n a : length (addMFXhSync n a) = (length a + 5 * n)%nat.
Proof.
  revert a. induction n as [| n IH]; intros a; [cbn; lia |].
  rewrite (proj1 (addMFXhSync_sync n a)), IH, length_app. change (length (sync _)) with 5%nat. lia.
Qed.

Lemma addMFX_length v a : length (addMFX v a) = (length a + 2)%nat.
Proof. rewrite addMFX_cell, length_app. done. Qed.

Lemma rds_length a : (length (addRDSSync a) <= length a + 123)%nat.
Proof.
  unfold addRDSSync. rewrite !addMFX_length, hsync_length. unfold MFX_SYNC_COUNT_RDS.
  destruct (level a); lia.
Qed.

Lemma payload_length bits :
  (length (add_payload bits 0 (addMFXhSync 2 (replicate MFX_STARTSTOP_0_BYTES 0%Z))) <=
    18 + 4 * length bits)%nat.
Proof.
  rewrite (proj1 (add_payload_cells _ _ _)), length_app, cells_length, hsync_length.
  pose proof (stuff_length bits 0). change (length (replicate _ _)) with 8%nat. lia.
Qed.

(** The packets without data in the answer fit the buffer. *)
Lemma stream_fits t l bits w : t = QMFX0PKT \/ t = QMFX1PKTD \/ t = QMFX1PKTV ->
  packet_bits l = Some bits -> (length bits <= 255)%nat ->
  convertMFXPacketToSPIStream l t = Some w -> (length w <= 1600)%nat.
Proof.
  intros Ht Hb Hl. unfold convertMFXPacketToSPIStream. rewrite Hb. intros E%(inj Some). subst w.
  pose proof (payload_length bits). set (buf := add_payload _ _ _) in *. pose proof (rds_length buf).
  assert (P : forall a, length (add_pause a) = (length a + 128)%nat).
  { intros a. unfold add_pause. rewrite length_app, length_replicate.
    by replace (Z.to_nat _) with 128%nat by (vm_compute; reflexivity). }
  destruct Ht as [-> | [-> | ->]].
  - rewrite length_app, hsync_length. change (length (replicate _ _)) with 8%nat. lia.
  - rewrite !hsync_length, !P, hsync_length, P. lia.
  - rewrite !hsync_length, !P, hsync_length, P. lia.
Qed.

Section Sending.
Context (rx received : list Z).

Lemma send_mfx0 l w n st : convertMFXPacketToSPIStream l QMFX0PKT = Some w -> (length w <= 1600)%nat ->
  st.(waitread) = 0 ->
  send_packet rx (receive received) (Bytes l) QMFX0PKT n st =
    Some (0, sent (Z.to_nat n) SPI_BAUDRATE_MFX_2 w (st <| spiLastMM := 0 |>)).
Proof.
  intros Hc Hl Hw. unfold send_packet, send_mfx.
  change (is_mm QMFX0PKT) with false. change (is_nmra QMFX0PKT) with false.
  rewrite bool_decide_eq_true_2 by done. cbn [negb].
  unfold bind, modify, need, guard, get. rewrite Hc. cbn -[Z.leb].
  replace (Z.of_nat (length w) <=? 1600) with true by zbool. cbn. rewrite transmit_spec. cbn.
  by rewrite Hw.
Qed.

(** [m] sent once or more often reaches a receiver as [bits]. *)
Lemma sendMFX0 m bits n st : packet_of m bits -> st.(waitread) = 0 ->
  exists l w, sendMFXPaket rx received m QMFX0PKT n st =
      Some ((Z.quot (Z.of_nat (length bits) + 7) 8 + 1, l),
            sent (Z.to_nat n) SPI_BAUDRATE_MFX_2 w (st <| spiLastMM := 0 |>)) /\
    mfx_receive w = Some bits.
Proof.
  intros (l & Hm & Hb & Hh & Hl) Hw. destruct (mfx_stream QMFX0PKT l bits Hb) as (w & Hc & Hr).
  exists l, w. split; [| by apply Hr].
  unfold sendMFXPaket. rewrite Hm. cbn [need]. unfold ret at 1, bind at 1. rewrite Hh.
  cbn [need]. unfold ret at 1, bind at 1.
  unfold bind. rewrite (send_mfx0 l w n st Hc); [done | | done].
  eapply stream_fits; [by left | done | done | exact Hc].
Qed.
End Sending.

(** * What a decoder makes of a locomotive command *)

Definition read_n (n : nat) (l : list bool) : option (Z * list bool) :=
  if (n <=? length l)%nat then Some (value (take n l), drop n l) else None.

Definition read_address (l : list bool) : option (Z * list bool) :=
  match l with
  | true :: false :: l => read_n 7 l
  | true :: true :: false :: l => read_n 9 l
  | true :: true :: true :: false :: l => read_n 11 l
  | true :: true :: true :: true :: l => read_n 14 l
  | _ => None
  end.

Definition read_drive (l : list bool) : option (Z * Z * list bool) :=
  match l with
  | false :: false :: false :: back :: l =>
      match read_n 3 l with
      | Some (s, l) => Some (Z.b2z (negb back), 16 * s, l) | None => None end
  | false :: false :: true :: back :: l =>
      match read_n 7 l with
      | Some (s, l) => Some (Z.b2z (negb back), s, l) | None => None end
  | _ => None
  end.

Definition read_functions (l : list bool) : option (Z * list bool) :=
  match l with
  | false :: true :: false :: l => read_n 4 l
  | false :: true :: true :: false :: l => read_n 8 l
  | false :: true :: true :: true :: l => read_n 16 l
  | _ => None
  end.

(** Address, direction, speed and functions; the checksum remains. *)
Definition read_loco (l : list bool) : option (Z * Z * Z * Z) :=
  match read_address l with
  | Some (a, l) =>
      match read_drive l with
      | Some (d, s, l) =>
          match read_functions l with
          | Some (f, crc) => if (length crc =? 8)%nat then Some (a, d, s, f) else None
          | None => None
          end
      | None => None
      end
  | None => None
  end.

Lemma read_n_field v n l : read_n n (field v n ++ l) = Some (v mod 2 ^ Z.of_nat n, l).
Proof.
  unfold read_n. rewrite length_app, field_length, (proj2 (Nat.leb_le _ _)) by lia.
  rewrite (take_app_length' _ _ n), (drop_app_length' _ _ n) by (by rewrite field_length).
  by rewrite field_value.
Qed.

Lemma read_address_field a l : 0 <= a < 2 ^ 14 -> read_address (address_field a ++ l) = Some (a, l).
Proof.
  intros Ha. unfold address_field.
  repeat (case_match; bool_hyps); rewrite <- app_assoc;
    match goal with |- read_address (?p ++ ?f ++ l) = _ => change (read_address (p ++ f ++ l)) with
      (read_n (length f) (f ++ l)) end; rewrite field_length, read_n_field, Z.mod_small; (done || lia).
Qed.

(** The fields of a locomotive command. *)
Definition drive_field (direction speed : Z) : list bool :=
  if Z.land speed 15 =? 0 then field 0 3 ++ field (Z.lnot direction) 1 ++ field (Z.shiftr speed 4) 3
  else field 1 3 ++ field (Z.lnot direction) 1 ++ field speed 7.
Definition functions_field (funcs nfuncs : Z) : list bool :=
  if nfuncs <=? 4 then field 2 3 ++ field funcs 4
  else if nfuncs <=? 8 then field 6 4 ++ field funcs 8
  else field 7 4 ++ field funcs 16.

Lemma back_bit direction : 0 <= direction <= 1 ->
  Z.b2z (negb (Z.testbit (Z.lnot direction) 0)) = direction.
Proof. intros H. assert (direction = 0 \/ direction = 1) as [-> | ->] by lia; done. Qed.

Lemma read_drive_field direction speed l : 0 <= direction <= 1 -> 0 <= speed < 128 ->
  read_drive (drive_field direction speed ++ l) = Some (direction, speed, l).
Proof.
  intros Hd Hs. unfold drive_field. destruct (Z.eqb_spec (Z.land speed 15) 0) as [E | E].
  - rewrite <- !app_assoc. cbn [field app read_drive].
    change (Z.testbit (Z.shiftr speed 4) (Z.of_nat 2) :: ?x) with (field (Z.shiftr speed 4) 3 ++ l).
    change (Z.testbit 0 _) with false. rewrite read_n_field, back_bit by done.
    rewrite Z.shiftr_div_pow2 by lia. change 15 with (Z.ones 4) in E. rewrite Z.land_ones in E by lia.
    rewrite (Z.mod_small (speed / 2 ^ 4)) by (split; [apply Z.div_pos | apply Z.div_lt_upper_bound]; lia).
    do 3 f_equal. pose proof (Z.div_mod speed (2 ^ 4)). lia.
  - rewrite <- !app_assoc. cbn [field app read_drive].
    change (Z.testbit 1 (Z.of_nat 2)) with false. change (Z.testbit 1 (Z.of_nat 1)) with false.
    change (Z.testbit 1 (Z.of_nat 0)) with true.
    change (Z.testbit speed (Z.of_nat 6) :: ?x) with (field speed 7 ++ l).
    by rewrite read_n_field, back_bit, Z.mod_small by done.
Qed.

(** The functions the command carries. *)
Definition carried (funcs nfuncs : Z) : Z :=
  funcs mod (if nfuncs <=? 4 then 2 ^ 4 else if nfuncs <=? 8 then 2 ^ 8 else 2 ^ 16).

Lemma read_functions_field funcs nfuncs l :
  read_functions (functions_field funcs nfuncs ++ l) = Some (carried funcs nfuncs, l).
Proof.
  unfold functions_field, carried. repeat case_match; rewrite <- app_assoc;
    match goal with |- read_functions (?p ++ ?f ++ l) = _ => change (read_functions (p ++ f ++ l)) with
      (read_n (length f) (f ++ l)) end; rewrite field_length, read_n_field; done.
Qed.

Definition loco_bits (address direction speed funcs nfuncs : Z) : list bool :=
  address_field address ++ drive_field direction speed ++ functions_field funcs nfuncs.

Lemma drive_field_length direction speed : (length (drive_field direction speed) <= 11)%nat.
Proof. unfold drive_field. case_match; cbn; lia. Qed.
Lemma functions_field_length funcs nfuncs : (length (functions_field funcs nfuncs) <= 20)%nat.
Proof. unfold functions_field. repeat case_match; cbn; lia. Qed.

Lemma loco_packet_of address direction speed funcs nfuncs :
  let bits := loco_bits address direction speed funcs nfuncs in
  packet_of (loco_packet address direction speed funcs nfuncs) (bits ++ crc_bits bits).
Proof.
  cbn zeta. unfold loco_bits, loco_packet. pose proof (address_field_length address).
  pose proof (drive_field_length direction speed). pose proof (functions_field_length funcs nfuncs).
  apply build_completes. next_field (address_field address).
  next_field (drive_field direction speed). next_field (functions_field funcs nfuncs).
  apply completes_crc. by rewrite <- !app_assoc.
Qed.

Lemma fx_packet_of address func value :
  let bits := address_field address ++ field 4 3 ++ field func 7 ++ field 0 1 ++ field (Z.b2z value) 1 in
  packet_of (fx_packet address func value) (bits ++ crc_bits bits).
Proof.
  cbn zeta. unfold fx_packet. pose proof (address_field_length address).
  apply build_completes. next_field (address_field address). next_field (field 4 3).
  next_field (field func 7). next_field (field 0 1). next_field (field (Z.b2z value) 1).
  apply completes_crc. by rewrite <- !app_assoc.
Qed.

Lemma search_packet_of uid n :
  let bits := address_field 0 ++ field 58 6 ++ field n 6 ++ field uid 32 in
  packet_of (search_packet uid n) (bits ++ crc_bits bits).
Proof.
  cbn zeta. unfold search_packet. pose proof (address_field_length 0). apply build_completes. next_field (address_field 0).
  next_field (field 58 6). next_field (field n 6). next_field (field uid 32).
  apply completes_crc. by rewrite <- !app_assoc.
Qed.

Lemma uid_packet_of uid n :
  let bits := address_field 0 ++ field 61 6 ++ field uid 32 ++ field n 16 in
  packet_of (uid_packet uid n) (bits ++ crc_bits bits).
Proof.
  cbn zeta. unfold uid_packet. pose proof (address_field_length 0). apply build_completes. next_field (address_field 0).
  next_field (field 61 6). next_field (field uid 32). next_field (field n 16).
  apply completes_crc. by rewrite <- !app_assoc.
Qed.

(** ** The locomotive command *)

(** The pool has its arrays and room for one more address. *)
Record pool_room (p : pool tMFXPacket) : Prop := {
  pr_packets : is_array (MAX_MFX_ADDRESS + 1) p.(packets);
  pr_known : is_array (MAX_MFX_ADDRESS + 1) p.(knownAddresses);
  pr_nr : 0 <= p.(NrOfKnownAddresses) < MAX_MFX_ADDRESS;
}.

Lemma initial_room : pool_room (init_pool MAX_MFX_ADDRESS).
Proof. split; [apply is_array_array | apply is_array_array | done]. Qed.

Lemma is_known_defined known adr n : forall fuel i, is_array n known -> 0 <= i ->
  i + Z.of_nat fuel <= n -> exists b, is_known fuel known i adr = Some b.
Proof.
  induction fuel as [| fuel IH]; intros i Hk Hi Hn; [by exists false |].
  cbn [is_known]. destruct (is_array_lookup _ _ i Hk) as [a ->]; [lia |].
  case_match; [by exists true |]. apply IH; [done | lia | lia].
Qed.

Lemma update_mfx_spec glptr adr l n st : pool_room st.(MFXPacketPool) -> 0 <= adr <= MAX_MFX_ADDRESS ->
  exists pool', update_MFXPacketPool glptr adr l n st = Some (tt, st <| MFXPacketPool := pool' |>) /\
    exists old, pool'.(packets) !! adr = Some (Some (mk_mfx_packet glptr (memcpy old l n))).
Proof.
  intros [P1 P2 P3] Ha. unfold MAX_MFX_ADDRESS in *. unfold update_MFXPacketPool.
  unfold bind at 1, get. set (p := st.(MFXPacketPool)) in *.
  destruct (is_known_defined p.(knownAddresses) adr _ (S (Z.to_nat p.(NrOfKnownAddresses))) 0 P2)
    as [b ->]; [lia | lia |]. cbn [need]. unfold ret at 1, bind at 1.
  destruct (is_array_lookup _ _ adr P1) as [old Ho]; [lia |]. rewrite Ho. cbn [need].
  unfold ret at 1, bind at 1. set (pk := mk_mfx_packet _ _).
  unfold add_known. destruct b; cbn.
  - eexists. split; [reflexivity |]. cbn. rewrite lookup_insert_eq. by eexists.
  - destruct (is_array_lookup _ _ p.(NrOfKnownAddresses) P2) as [a ->]; [lia |]. cbn.
    eexists. split; [reflexivity |]. cbn. rewrite lookup_insert_eq. by eexists.
Qed.

(** The entry is one an mfx decoder can be commanded with. *)
Record mfx_valid (d : gl_data_t) : Prop := {
  mv_id : 0 <= d.(gl_id) <= MAX_MFX_ADDRESS;
  mv_speed : 0 <= d.(gl_speed);
  mv_direction : 0 <= (mfx_speed d).2 <= 1;
  mv_func : d.(gl_n_func) <= 16;
}.

Lemma mfx_speed_range d : 0 <= d.(gl_speed) -> 0 <= (mfx_speed d).1 < 128.
Proof.
  intros H. unfold mfx_speed. case_match. destruct (negb _); simplify_eq; cbn.
  - destruct (127 <? 1) eqn:E; lia.
  - destruct (127 <? _) eqn:E; bool_hyps; [lia |]. destruct (_ =? 0); lia.
Qed.

Definition example_mfx : gl_data_t :=
  gl_zero <| gl_state := glsActive |> <| gl_protocol := 88 |> <| gl_protocolversion := 1 |>
    <| gl_id := 300 |> <| gl_n_fs := 128 |> <| gl_n_func := 16 |> <| gl_speed := 72 |>
    <| gl_direction := 1 |> <| gl_funcs := 0x8005 |>.

(** * The properties *)

(** The checksum of an mfx packet: [addCRCBits] completes any packet with
    eight bits that leave the checksum register of a decoder at zero, and no
    packet that differs from it only within eight neighbouring bits does the
    same, so that every such error on the line is found. *)
Theorem mfx_checksum p bits : holds p bits -> (length bits <= 247)%nat ->
  exists p' sum, addCRCBits p = Some (tt, p') /\
    packet_bits p'.(stream) = Some (bits ++ sum) /\ length sum = 8%nat /\
    foldl crc_step 0x7F (bits ++ sum) = 0 /\
    forall pre w w' post, bits ++ sum = pre ++ w ++ post -> length w = length w' ->
      (length w <= 8)%nat -> w <> w' -> foldl crc_step 0x7F (pre ++ w' ++ post) <> 0.
Proof.
  intros H Hl. destruct (addCRC_spec p bits H Hl) as (p' & E & _ & Hb).
  exists p', (crc_bits bits). split; [done |]. split; [done |]. split; [apply crc_bits_length |].
  pose proof (crc_bits_residue bits) as R. split; [exact R |].
  intros pre w w' post Es Hw H8 Hne E0. apply Hne, (crc_window pre w w' post 0x7F); try done.
  unfold crc in *. by rewrite <- Es, R, E0.
Qed.

Lemma mfx_checksum_witness :
  exists p' sum, addCRCBits empty_packet = Some (tt, p') /\
    packet_bits p'.(stream) = Some ([] ++ sum) /\ length sum = 8%nat /\
    foldl crc_step 0x7F ([] ++ sum) = 0 /\
    forall pre w w' post, [] ++ sum = pre ++ w ++ post -> length w = length w' ->
      (length w <= 8)%nat -> w <> w' -> foldl crc_step 0x7F (pre ++ w' ++ post) <> 0.
Proof. apply (mfx_checksum empty_packet []); [exact empty_holds | cbn; lia]. Defined.


End MfxSpec.
