(* ===== verification/MfxSearch.v ===== *)
(** The search for unregistered mfx decoders, over both threads that carry it
    out: the bus thread asks, decoders on the track answer, the feedback thread
    advances the search. *)

From S2P Require Import Prelude World Messages Session Services Spi Mfx Ddl MfxSpec.

Module MfxSearch.
Import Spi Mfx Ddl MfxSpec.

(** * The decoders *)

(** The identifier and the number of its leading bits a search packet asks for;
    a decoder reads it off the line and checks it. *)
Definition read_search (bits : list bool) : option (Z * Z) :=
  match read_address bits with
  | Some (0, l) =>
      if bool_decide (take 6 l = field 58 6) then
        match read_n 6 (drop 6 l) with
        | Some (n, l) =>
            match read_n 32 l with
            | Some (uid, sum) =>
                if (length sum =? 8)%nat && (foldl crc_step 0x7F bits =? 0) then Some (uid, n) else None
            | None => None
            end
        | None => None
        end
      else None
  | _ => None
  end.

(** What the line asked last. *)
Definition asked (l : line_t) : option (Z * Z) :=
  match last l.(l_ddl).(transfers) with
  | Some t => match mfx_receive t.(tx) with Some bits => read_search bits | None => None end
  | None => None
  end.

(** A decoder answers when its first [n] bits are those asked for. *)
Definition matches (uid n u : Z) : bool := Z.shiftr u (32 - n) =? Z.shiftr uid (32 - n).

Definition answered (decoders : list Z) (l : line_t) : bool :=
  match asked l with Some (uid, n) => existsb (matches uid n) decoders | None => false end.

(** One round: the bus thread asks; when a decoder answers, the booster that
    feels it reports to the CAN gateway, whose thread calls [handle_seek]; the
    feedback thread ends its wait. *)
Definition round (rx : list Z) (decoders : list Z) : prog line_t unit :=
  do* mfxManagement rx [] in
  let* l := get in
  do* thr_feedbackThread_turn
    (if answered decoders l then on_ddl (handle_seek [0x83; 1; 0] 0) else ret tt) in
  ret tt.

Fixpoint rounds (rx : list Z) (decoders : list Z) (n : nat) : prog line_t unit :=
  match n with O => ret tt | S n => do* round rx decoders in rounds rx decoders n end.

(** * Packets that ask for an answer *)

Section Round.
Context (rx : list Z).

(** The driver's state but for what a transfer changes. *)
Definition same_conf (d d' : ddl_t) : Prop :=
  d'.(conf) = d.(conf) /\ d'.(fbData) = d.(fbData) /\ d'.(resumeSM) = d.(resumeSM).

Lemma same_conf_trans d d' d'' : same_conf d d' -> same_conf d' d'' -> same_conf d d''.
Proof. unfold same_conf. intuition congruence. Qed.

(** A packet without an answer; the receiver has nothing to read. *)
Lemma send_quiet m bits st : packet_of m bits -> st.(waitread) = 0 \/ st.(waitread) = 1 ->
  exists r st', sendMFXPaket rx [] m QMFX0PKT 1 st = Some (r, st') /\ same_conf st st' /\
    st'.(waitread) = 0 /\ st'.(feedbackPipe) = st.(feedbackPipe).
Proof.
  intros (l & Hm & Hb & Hh & Hl) Hw. destruct (mfx_stream QMFX0PKT l bits Hb) as (w & Hc & _).
  assert (Hw' : (length w <= 1600)%nat) by (eapply stream_fits; [by left | done | done | exact Hc]).
  unfold sendMFXPaket. rewrite Hm. cbn [need]. unfold ret at 1, bind at 1. rewrite Hh.
  cbn [need]. unfold ret at 1, bind at 1. unfold send_packet, send_mfx.
  change (is_mm QMFX0PKT) with false. change (is_nmra QMFX0PKT) with false.
  rewrite bool_decide_eq_true_2 by done. cbn [negb].
  unfold bind, modify, need, guard, get. rewrite Hc. cbn -[Z.leb].
  replace (Z.of_nat (length w) <=? 1600) with true by zbool. cbn.
  destruct Hw as [Hw | Hw]; rewrite Hw; cbn; do 2 eexists; (split; [reflexivity |]); done.
Qed.

(** A packet that asks: the feedback thread is told, and the receiver is to be
    read after the next transfer. *)
Lemma send_asking m bits st : packet_of m bits ->
  exists r st' w, sendMFXPaket rx [] m QMFX1PKTD 1 st = Some (r, st') /\ same_conf st st' /\
    st'.(waitread) = 1 /\ st'.(feedbackPipe) = st.(feedbackPipe) ++ [packet_code QMFX1PKTD] /\
    st'.(transfers) = st.(transfers) ++ [mk_transfer SPI_BAUDRATE_MFX_2 w] /\
    mfx_receive w = Some bits.
Proof.
  intros (l & Hm & Hb & Hh & Hl). destruct (mfx_stream QMFX1PKTD l bits Hb) as (w & Hc & Hr).
  assert (Hw' : (length w <= 1600)%nat)
    by (eapply stream_fits; [right; by left | done | done | exact Hc]).
  unfold sendMFXPaket. rewrite Hm. cbn [need]. unfold ret at 1, bind at 1. rewrite Hh.
  cbn [need]. unfold ret at 1, bind at 1. unfold send_packet, send_mfx.
  change (is_mm QMFX1PKTD) with false. change (is_nmra QMFX1PKTD) with false.
  rewrite bool_decide_eq_false_2 by done. cbn [negb].
  unfold bind, modify, need, guard, get. rewrite Hc. cbn -[Z.leb].
  replace (Z.of_nat (length w) <=? 1600) with true by zbool. cbn.
  do 2 eexists. exists w. split; [reflexivity |]. repeat (split; [done |]). by apply Hr.
Qed.

Lemma read_search_fields uid n sum : 0 <= uid < 2 ^ 32 -> 0 <= n < 64 -> length sum = 8%nat ->
  foldl crc_step 0x7F (address_field 0 ++ field 58 6 ++ field n 6 ++ field uid 32 ++ sum) = 0 ->
  read_search (address_field 0 ++ field 58 6 ++ field n 6 ++ field uid 32 ++ sum) = Some (uid, n).
Proof.
  intros Hu Hn L R. unfold read_search. rewrite R, read_address_field by done.
  rewrite (take_app_length' _ _ 6), (drop_app_length' _ _ 6) by (by rewrite field_length).
  rewrite bool_decide_eq_true_2 by done. rewrite !read_n_field, L.
  rewrite (Z.mod_small n) by exact Hn. rewrite (Z.mod_small uid) by exact Hu. reflexivity.
Qed.

Lemma read_search_packet uid n : 0 <= uid < 2 ^ 32 -> 0 <= n < 64 ->
  let bits := address_field 0 ++ field 58 6 ++ field n 6 ++ field uid 32 in
  read_search (bits ++ crc_bits bits) = Some (uid, n).
Proof.
  intros Hu Hn bits. pose proof (crc_bits_residue bits) as R. pose proof (crc_bits_length bits) as L.
  revert R L. generalize (crc_bits bits). intros sum R L. unfold crc in R.
  assert (E : bits ++ sum = address_field 0 ++ field 58 6 ++ field n 6 ++ field uid 32 ++ sum)
    by (unfold bits; by rewrite <- !app_assoc).
  rewrite E in *. by apply read_search_fields.
Qed.

(** ** One round *)

(** Nothing is under way on the feedback side, and a booster listens. *)
Record ready (l : line_t) : Prop := {
  rd_pipe : l.(l_ddl).(feedbackPipe) = [];
  rd_wait : l.(l_ddl).(waitread) = 0 \/ l.(l_ddl).(waitread) = 1;
  rd_booster : l.(l_ddl).(conf).(BOOSTER_COMM) <> 0;
  rd_sess : sess_ok l.(l_world);
}.

Definition step_of (l : line_t) : Z := l.(l_mfx).(searchstep).
Definition uid_of (l : line_t) : Z := l.(l_mfx).(decoderUId).

(** The identifier a round asks for. *)
Definition next_uid (step uid : Z) : Z :=
  if Z.odd step then Z.lor (2 ^ (32 - Z.shiftr step 1)) uid else if step =? 0 then 0 else uid.

Lemma manage_asks l : ready l -> step_of l <> 1 -> 0 <= step_of l <= 65 ->
  0 <= next_uid (step_of l) (uid_of l) < 2 ^ 32 ->
  exists dt l', mfxManagement rx [] l = Some (dt, l') /\
    l'.(l_world) = l.(l_world) /\
    l'.(l_mfx) = l.(l_mfx) <| decoderUId := next_uid (step_of l) (uid_of l) |> /\
    same_conf l.(l_ddl) l'.(l_ddl) /\ l'.(l_ddl).(waitread) = 1 /\
    l'.(l_ddl).(feedbackPipe) = [packet_code QMFX1PKTD] /\
    asked l' = Some (next_uid (step_of l) (uid_of l), Z.shiftr (step_of l) 1).
Proof.
  intros [R1 R2 R3 R4] H1 Hs Hu. unfold step_of, uid_of in *. destruct l as [w d m].
  cbn [l_world l_ddl l_mfx] in *.
  set (step := m.(searchstep)) in *. set (uid := next_uid step m.(decoderUId)) in *.
  unfold mfxManagement. rewrite !bind_gets. cbn [l_mfx l_ddl]. fold step.
  assert (E1 : exists u d1, (if (step <? 2) || (step =? 32)
       then on_ddl (sendUIDandRegCounter rx [] d.(conf).(ddl_uid) m.(registrationCounter)) else ret tt)
       (mk_line w d m) = Some (u, mk_line w d1 m) /\ same_conf d d1 /\ d1.(feedbackPipe) = []).
  { destruct ((step <? 2) || (step =? 32)); [| by exists tt, d].
    destruct (send_quiet _ _ d (uid_packet_of d.(conf).(ddl_uid) m.(registrationCounter)) R2)
      as (r & d1 & E & Hc & Hw & Hp).
    exists tt, d1. split; [| split; [exact Hc | rewrite Hp; exact R1]].
    unfold on_ddl, sendUIDandRegCounter. cbn [l_ddl]. rewrite (bind_some _ _ _ _ _ E). reflexivity. }
  destruct E1 as (u & d1 & E1 & Hc1 & Hp1). rewrite (bind_some _ _ _ _ _ E1).
  replace (step =? 1) with false by zbool. cbv beta iota zeta. clear u E1.
  assert (E2 : (if Z.odd step then let* m := need (set_search_bit (Z.shiftr step 1) m) in mod_mfx (fun _ => m)
     else if step =? 0 then mod_mfx (fun m => m <| decoderUId := 0 |>) else ret tt) (mk_line w d1 m) =
     Some (tt, mk_line w d1 (m <| decoderUId := uid |>))).
  { unfold uid, next_uid. destruct (Z.odd step) eqn:Ho.
    - unfold set_search_bit. assert (1 <= Z.shiftr step 1 <= 32).
      { rewrite Z.shiftr_div_pow2 by lia. change (2 ^ 1) with 2.
        apply Z.odd_spec in Ho as [k Hk]. rewrite Hk. replace (2 * k + 1) with (1 + k * 2) by lia.
        rewrite Z.div_add by lia. change (1 / 2) with 0. clearbody step. lia. }
      replace ((0 <=? 32 - Z.shiftr step 1) && (32 - Z.shiftr step 1 <? 32)) with true by zbool. done.
    - destruct (step =? 0); [done |]. by destruct m. }
  rewrite !bind_assoc, (bind_some _ _ _ _ _ E2), bind_assoc, bind_gets. cbn [l_mfx decoderUId].
  destruct (send_asking _ _ d1 (search_packet_of uid (Z.shiftr step 1)))
    as (r & d2 & wv & E3 & Hc2 & Hw2 & Hp2 & Ht2 & Hr2).
  assert (E4 : on_ddl (sendSearchNewDecoder rx [] uid (Z.shiftr step 1))
    (mk_line w d1 (m <| decoderUId := uid |>)) = Some (tt, mk_line w d2 (m <| decoderUId := uid |>))).
  { unfold on_ddl, sendSearchNewDecoder. cbn [l_ddl]. by rewrite (bind_some _ _ _ _ _ E3). }
  rewrite (bind_some _ _ _ _ _ E4). do 2 eexists. split; [reflexivity |]. split; [done |]. split; [done |].
  split; [by apply same_conf_trans with d1 |]. split; [exact Hw2 |].
  split; [cbn; by rewrite Hp2, Hp1 |]. unfold asked. cbn [l_ddl]. rewrite Ht2, last_snoc. cbn [tx].
  rewrite Hr2. apply read_search_packet; [exact Hu |].
  rewrite Z.shiftr_div_pow2 by lia. change (2 ^ 1) with 2.
  split; [apply Z.div_pos; lia | apply Z.div_lt_upper_bound; lia].
Qed.

(** The world but for what the CAN side and the clock see. *)
Definition quiet (w w' : world) : Prop := w'.(sess) = w.(sess).

Lemma quiet_ok w w' : quiet w w' -> sess_ok w -> sess_ok w'.
Proof. unfold quiet, sess_ok. by intros ->. Qed.

Lemma send_seek_quiet scmd w : exists w', send_seek_cmd scmd 0 w = Some (tt, w') /\ quiet w w'.
Proof.
  unfold send_seek_cmd, info_mcs. unfold bind, gets. cbn -[Z.eqb].
  rewrite Z.eqb_refl. cbn. eexists. split; [reflexivity | done].
Qed.

(** A report to the CAN side of one or two bytes. *)
Lemma report_quiet id item n info l : n = 1 \/ n = 2 -> (Z.to_nat n <= length info)%nat ->
  exists w', report id item (n :: info) l = Some (tt, l <| l_world := w' |>) /\ quiet l.(l_world) w'.
Proof.
  intros Hn Hl. unfold report. rewrite bind_gets. unfold on_world, info_mcs, bind at 1 2, gets.
  destruct (negb _); [eexists; split; [reflexivity | done] |]. cbn [fmap list_fmap lookup list_lookup].
  assert (E : u8 n = n) by (destruct Hn as [-> | ->]; done). rewrite E.
  cbn [need]. unfold ret at 1, bind at 1, guard.
  replace (_ && _ && _) with true by (cbn [length]; rewrite length_fmap; zbool).
  cbn. eexists. split; [reflexivity | done].
Qed.

(** The line a found decoder is announced with. *)
Definition discovery_line (bus : Z) (t : timeval) (uid : Z) : string :=
  fmt ([stamp t; " 100 INFO "; dec bus; " SM "]%string ++ [dec uid; " MFXDISCOVERY"%string] ++ [nl]).

Definition with_world (w : world) (l : line_t) : line_t := l <| l_world := w |>.

Lemma discovery_report ask l : sess_ok l.(l_world) -> 0 <= step_of l <= 65 ->
  let found := (Z.shiftr (step_of l) 1 =? 32) && negb (ask =? 0) in
  exists w' t, discoveryReport ask l = Some (found, with_world w' l) /\
    w'.(sess) = (if found
                 then Session.broadcast (discovery_line l.(l_mfx).(mfx_bus) t (uid_of l)) l.(l_world).(sess)
                 else l.(l_world).(sess)).
Proof.
  intros Hs Hstep. cbn zeta. unfold discoveryReport, step_of, uid_of in *. rewrite bind_gets.
  assert (Hb : u8 (Z.shiftr l.(l_mfx).(searchstep) 1) = Z.shiftr l.(l_mfx).(searchstep) 1).
  { apply wrap_small. rewrite Z.shiftr_div_pow2 by lia. change (2 ^ 1) with 2. change (2 ^ 8) with 256.
    split; [apply Z.div_pos; lia | apply Z.div_lt_upper_bound; lia]. }
  rewrite Hb. set (bits := Z.shiftr _ 1) in *.
  destruct (report_quiet 3 l.(l_mfx).(decoderUId) 2 [bits; ask] l) as (w1 & E1 & Q1); [by right | done |].
  rewrite (bind_some _ _ _ _ _ E1). destruct ((bits =? 32) && negb (ask =? 0)).
  - destruct (report_quiet 3 l.(l_mfx).(decoderUId) 1 [bits; ask] (l <| l_world := w1 |>))
      as (w2 & E2 & Q2); [by left | cbn; lia |].
    rewrite (bind_some _ _ _ _ _ E2). unfold sm_info. rewrite bind_assoc, bind_gets, bind_assoc.
    rewrite (bind_on_world _ _ _ _ _ (gettimeofday_spec _)).
    erewrite bind_on_world; [| apply (enqueueInfoMessage_spec _ (tick w2)), (quiet_ok _ _ (eq_trans Q2 Q1) Hs)].
    do 2 eexists. split; [reflexivity |]. cbn. unfold quiet in *. cbn in Q2. rewrite Q2, Q1. reflexivity.
  - exists w1, timeval0. split; [reflexivity | exact Q1].
Qed.

(** How the step advances on an answer and without one. *)
Definition next_step (hit : bool) (step : Z) : Z :=
  if hit then if Z.shiftr step 1 =? 32 then 1 else if Z.odd step then step + 1 else step + 2
  else if Z.odd step then 0 else if step =? 0 then 0 else step + 1.

Definition complete (hit : bool) (step : Z) : bool := (Z.shiftr step 1 =? 32) && hit.

(** What the info sessions get in a round. *)
Definition told (hit : bool) (l l' : line_t) : Prop :=
  exists t, l'.(l_world).(sess) =
    if complete hit (step_of l)
    then Session.broadcast (discovery_line l.(l_mfx).(mfx_bus) t (uid_of l)) l.(l_world).(sess)
    else l.(l_world).(sess).

Definition advanced (hit : bool) (l : line_t) (w : world) : line_t :=
  mk_line w l.(l_ddl) (l.(l_mfx) <| searchstep := next_step hit (step_of l) |>).

Lemma acknowledged l : sess_ok l.(l_world) -> 0 <= step_of l <= 65 ->
  l.(l_ddl).(fbData).(pktcode) = packet_code QMFX1PKTD -> l.(l_ddl).(fbData).(canask) = 1 ->
  exists w, feedback_event 0x83 l = Some (tt, advanced true l w) /\ told true l (advanced true l w).
Proof.
  intros Hs Hb Hp Hc. unfold feedback_event. unfold ddl_get. rewrite bind_gets. cbn [Z.eqb Pos.eqb].
  rewrite Hc. unfold handleMFXacknowledge. rewrite bind_gets, Hp. rewrite Z.eqb_refl.
  destruct (discovery_report 1 l Hs Hb) as (w & t & E & T). rewrite (bind_some _ _ _ _ _ E).
  exists w. split; [| exists t].
  - unfold advanced, next_step, step_of. destruct l as [w0 d m]. destruct m. cbn [l_mfx searchstep].
    by destruct (Z.shiftr _ 1 =? 32).
  - unfold complete. cbn [Z.eqb negb] in T. by rewrite <- T.
Qed.

Lemma timed_out l : sess_ok l.(l_world) -> 0 <= step_of l <= 65 ->
  l.(l_ddl).(fbData).(pktcode) = packet_code QMFX1PKTD ->
  exists w, handleMFXtimeout l = Some (tt, advanced false l w) /\ told false l (advanced false l w).
Proof.
  intros Hs Hb Hp. unfold handleMFXtimeout. rewrite bind_gets, Hp, Z.eqb_refl, bind_gets.
  assert (E : exists w, (if l.(l_mfx).(searchstep) =? 0 then ret tt
      else do* discoveryReport 0 in ret tt) l = Some (tt, with_world w l) /\
      w.(sess) = l.(l_world).(sess)).
  { destruct (_ =? 0); [exists l.(l_world); split; [by destruct l | done] |].
    destruct (discovery_report 0 l Hs Hb) as (w & t & E & T). rewrite (bind_some _ _ _ _ _ E).
    exists w. split; [reflexivity |]. by rewrite andb_false_r in T. }
  destruct E as (w & E & T). rewrite (bind_some _ _ _ _ _ E). exists w. split; [by destruct l as [? ? []] |].
  exists timeval0. unfold complete. by rewrite andb_false_r.
Qed.

(** What the decoders do while the feedback thread waits. *)
Definition reaction (hit : bool) : prog line_t unit :=
  if hit then on_ddl (handle_seek [0x83; 1; 0] 0) else ret tt.

Lemma reaction_spec hit w d m : d.(conf).(BOOSTER_COMM) <> 0 -> d.(feedbackPipe) = [] ->
  exists d', reaction hit (mk_line w d m) = Some (tt, mk_line w d' m) /\ d'.(conf) = d.(conf) /\
    d'.(fbData).(pktcode) = d.(fbData).(pktcode) /\ d'.(waitread) = d.(waitread) /\
    d'.(feedbackPipe) = (if hit then [0x83] else []) /\ (hit = true -> d'.(fbData).(canask) = 1).
Proof.
  intros Hc Hp. unfold reaction. destruct hit; [| by exists d].
  unfold on_ddl, handle_seek. cbn [l_ddl]. rewrite bind_get.
  replace (d.(conf).(BOOSTER_COMM) =? 0) with false by zbool.
  cbn. eexists. split; [reflexivity |]. cbn. by rewrite Hp.
Qed.

(** The end of the wait. *)
Definition end_of_wait (boosters : bool) : prog line_t bool :=
  let* event := read_pipe in
  do* when boosters (on_world (send_seek_cmd 0 0)) in
  do* match event with
      | None =>
          let* f := ddl_get fbData in
          when (packet_code QMFX0PKT <? f.(pktcode)) handleMFXtimeout
      | Some event => feedback_event event
      end in
  ret true.

Lemma on_seek scmd w d m : exists w', on_world (send_seek_cmd scmd 0) (mk_line w d m) =
  Some (tt, mk_line w' d m) /\ quiet w w'.
Proof.
  destruct (send_seek_quiet scmd w) as (w' & E & Q). exists w'. split; [| exact Q].
  unfold on_world. cbn [l_world]. by rewrite E.
Qed.

(** Up to its wait the feedback thread notes what is asked. *)
Lemma asks_boosters others w d m : d.(conf).(BOOSTER_COMM) <> 0 ->
  d.(feedbackPipe) = [packet_code QMFX1PKTD] ->
  exists w' d', thr_feedbackThread_turn others (mk_line w d m) =
      bind others (fun _ => end_of_wait true) (mk_line w' d' m) /\ quiet w w' /\
    d'.(conf) = d.(conf) /\ d'.(fbData).(pktcode) = packet_code QMFX1PKTD /\
    d'.(waitread) = d.(waitread) /\ d'.(feedbackPipe) = [].
Proof.
  intros Hc Hp. unfold thr_feedbackThread_turn. unfold mod_ddl at 1. rewrite bind_modify.
  set (d1 := match d.(resumeSM) with None => d <| allowSM := true |> | _ => d end).
  assert (E1 : d1.(feedbackPipe) = [packet_code QMFX1PKTD] /\ d1.(conf) = d.(conf) /\ d1.(waitread) = d.(waitread))
    by (unfold d1; by destruct d.(resumeSM)).
  destruct E1 as (E1 & E2 & E3). rewrite <- E2, <- E3. rewrite <- E2 in Hc.
  change (_ <| l_ddl ::= _ |>) with (mk_line w d1 m). clearbody d1.
  unfold read_pipe at 1, ddl_get at 1. rewrite bind_assoc, bind_gets. cbn [l_ddl]. rewrite E1.
  unfold mod_ddl at 1. rewrite bind_assoc, bind_modify, bind_ret.
  unfold mod_ddl at 1. rewrite bind_modify. change (packet_code QMFX1PKTD =? 0) with false. cbv iota.
  unfold ddl_get at 1. rewrite bind_gets.
  set (l2 := over _ _ (over _ _ (mk_line _ _ _))).
  set (d2 := l2.(l_ddl)). change l2 with (mk_line w d2 m).
  assert (F : d2.(conf) = d1.(conf) /\ d2.(fbData).(pktcode) = packet_code QMFX1PKTD /\
    d2.(waitread) = d1.(waitread) /\ d2.(feedbackPipe) = []) by done.
  destruct F as (F1 & F2 & F3 & F4). clearbody d2. cbn [l_ddl]. rewrite F1.
  replace (d1.(conf).(BOOSTER_COMM) =? 0) with false by zbool.
  change (answer_of (packet_code QMFX1PKTD)) with (0, 200000). cbv beta iota.
  cbn [Z.eqb negb orb andb when]. rewrite Z.eqb_refl. cbn [orb when].
  destruct (on_seek 1 w d2 m) as (w1 & S1 & Q1). rewrite (bind_some _ _ _ _ _ S1).
  unfold mod_ddl at 1. rewrite bind_modify, bind_ret.
  do 2 eexists. split; [reflexivity | done].
Qed.

Lemma told_ok hit l l' : told hit l l' -> sess_ok l.(l_world) -> sess_ok l'.(l_world).
Proof.
  intros [t E] [ns H]. unfold sess_ok. rewrite E. exists ns.
  destruct (complete _ _); [by apply Session.broadcast_wf | done].
Qed.

(** What a round leaves when the step has advanced. *)
Lemma settled hit w w2 w3 d0 d m : sess_ok w -> quiet w w2 ->
  told hit (mk_line w2 d m) (advanced hit (mk_line w2 d m) w3) -> d.(waitread) = 1 ->
  d.(conf).(BOOSTER_COMM) <> 0 -> d.(feedbackPipe) = [] ->
  let l := mk_line w d0 m in let l' := advanced hit (mk_line w2 d m) w3 in
  ready l' /\ l'.(l_mfx) = l.(l_mfx) <| searchstep := next_step hit (step_of l) |> /\ told hit l l'.
Proof.
  intros Hs Q T Hw Hc Hp l l'. split; [| split; [done |]].
  - constructor; [done | by right | done |]. by apply (told_ok _ _ _ T), (quiet_ok w).
  - destruct T as [t T]. exists t. revert T. cbn. by rewrite Q.
Qed.

(** The feedback thread's turn after a question: [l'] differs from [l] by the
    step and by what was told. *)
Lemma feedback_advances hit l : sess_ok l.(l_world) -> 0 <= step_of l <= 65 ->
  l.(l_ddl).(conf).(BOOSTER_COMM) <> 0 -> l.(l_ddl).(feedbackPipe) = [packet_code QMFX1PKTD] ->
  l.(l_ddl).(waitread) = 1 ->
  exists l', thr_feedbackThread_turn (reaction hit) l = Some (true, l') /\ ready l' /\
    l'.(l_mfx) = l.(l_mfx) <| searchstep := next_step hit (step_of l) |> /\ told hit l l'.
Proof.
  intros Hs Hb Hc Hp Hw. destruct l as [w d m]. cbn [l_ddl l_world] in *.
  destruct (asks_boosters (reaction hit) w d m Hc Hp) as (w1 & d1 & -> & Q1 & C1 & P1 & W1 & F1).
  destruct (reaction_spec hit w1 d1 m) as (d2 & E2 & C2 & P2 & W2 & F2 & A2); [by rewrite C1 | done |].
  rewrite (bind_some _ _ _ _ _ E2). clear E2. unfold end_of_wait, read_pipe, ddl_get, mod_ddl.
  rewrite bind_assoc, bind_gets. cbn [l_ddl]. rewrite F2.
  destruct hit.
  - rewrite bind_assoc, bind_modify, bind_ret. cbn [when].
    set (d3 := d2 <| feedbackPipe := [] |>). change (_ <| l_ddl ::= _ |>) with (mk_line w1 d3 m).
    destruct (on_seek 0 w1 d3 m) as (w2 & S2 & Q2). rewrite (bind_some _ _ _ _ _ S2).
    assert (Q : quiet w w2) by (unfold quiet in *; congruence).
    destruct (acknowledged (mk_line w2 d3 m) (quiet_ok _ _ Q Hs) Hb) as (w3 & E3 & T3);
      [by cbn; rewrite P2 | by apply A2 |].
    rewrite (bind_some _ _ _ _ _ E3). eexists. split; [reflexivity |].
    by apply settled with (1 := Hs) (2 := Q) (3 := T3); cbn; congruence.
  - rewrite bind_ret. cbn [when].
    destruct (on_seek 0 w1 d2 m) as (w2 & S2 & Q2). rewrite (bind_some _ _ _ _ _ S2).
    assert (Q : quiet w w2) by (unfold quiet in *; congruence).
    destruct (timed_out (mk_line w2 d2 m) (quiet_ok _ _ Q Hs) Hb) as (w3 & E3 & T3); [by cbn; rewrite P2 |].
    rewrite bind_assoc, bind_gets. cbn [l_ddl]. rewrite P2, P1. cbn [when].
    rewrite (bind_some _ _ _ _ _ E3). eexists. split; [reflexivity |].
    by apply settled with (1 := Hs) (2 := Q) (3 := T3); cbn; congruence.
Qed.

(** A round asks for the identifier in turn and advances by the answer. *)
Lemma round_spec decoders l : ready l -> step_of l <> 1 -> 0 <= step_of l <= 65 ->
  let uid := next_uid (step_of l) (uid_of l) in 0 <= uid < 2 ^ 32 ->
  let hit := existsb (matches uid (Z.shiftr (step_of l) 1)) decoders in
  exists l' t, round rx decoders l = Some (tt, l') /\ ready l' /\
    l'.(l_mfx) = l.(l_mfx) <| decoderUId := uid |> <| searchstep := next_step hit (step_of l) |> /\
    l'.(l_world).(sess) =
      if complete hit (step_of l)
      then Session.broadcast (discovery_line l.(l_mfx).(mfx_bus) t uid) l.(l_world).(sess)
      else l.(l_world).(sess).
Proof.
  intros R H1 Hb uid Hu hit.
  destruct (manage_asks l R H1 Hb Hu) as (dt & l1 & E1 & W1 & M1 & C1 & V1 & P1 & A1).
  unfold round. rewrite (bind_some _ _ _ _ _ E1), bind_get. unfold answered. rewrite A1.
  assert (S1 : step_of l1 = step_of l) by (unfold step_of; by rewrite M1).
  destruct (feedback_advances hit l1) as (l2 & E2 & R2 & M2 & t & T2); try done.
  - rewrite W1. apply R.
  - by rewrite S1.
  - destruct C1 as [-> _]. apply R.
  - unfold reaction in E2. rewrite (bind_some _ _ _ _ _ E2). exists l2, t. split; [done |].
    split; [done |]. rewrite M2, M1, S1. split; [done |]. rewrite T2, S1, W1. unfold uid_of. by rewrite M1.
Qed.

(** ** The bits found so far *)

(** The bits of [m] from [j] on. *)
Definition top (j m : Z) : Z := Z.shiftl (Z.shiftr m j) j.

Lemma shiftr_top j m : 0 <= j -> Z.shiftr (top j m) j = Z.shiftr m j.
Proof. intros Hj. unfold top. by rewrite Z.shiftr_shiftl_l, Z.sub_diag, Z.shiftl_0_r by lia. Qed.

Lemma shiftr_succ j m : 0 <= j -> Z.shiftr m (j + 1) = Z.shiftr m j / 2.
Proof.
  intros Hj. rewrite <- Z.shiftr_shiftr by lia. by rewrite (Z.shiftr_div_pow2 _ 1) by lia.
Qed.

Lemma top_succ j m : 0 <= j -> top (j + 1) m = Z.shiftl (2 * (Z.shiftr m j / 2)) j.
Proof.
  intros Hj. unfold top. rewrite shiftr_succ by lia. rewrite !Z.shiftl_mul_pow2 by lia.
  rewrite Z.pow_add_r by lia. change (2 ^ 1) with 2. ring.
Qed.

Lemma top_even j m : 0 <= j -> Z.odd (Z.shiftr m j) = false -> top (j + 1) m = top j m.
Proof.
  intros Hj He. rewrite top_succ by lia. unfold top. f_equal.
  pose proof (Z.div_mod (Z.shiftr m j) 2) as D. rewrite Zmod_odd, He in D. lia.
Qed.

Lemma lor_one q : Z.lor 1 (2 * q) = 2 * q + 1.
Proof. by destruct q as [| [] | []]. Qed.

Lemma top_odd j m : 0 <= j -> Z.odd (Z.shiftr m j) = true -> Z.lor (2 ^ j) (top (j + 1) m) = top j m.
Proof.
  intros Hj Ho. rewrite top_succ by lia. unfold top.
  replace (2 ^ j) with (Z.shiftl 1 j) by (rewrite Z.shiftl_mul_pow2 by lia; ring).
  rewrite <- Z.shiftl_lor, lor_one. f_equal.
  pose proof (Z.div_mod (Z.shiftr m j) 2) as D. rewrite Zmod_odd, Ho in D. lia.
Qed.

Lemma top_bound j m : 0 <= j -> 0 <= m < 2 ^ 32 -> 0 <= top j m < 2 ^ 32.
Proof.
  intros Hj Hm. unfold top. rewrite Z.shiftl_mul_pow2, Z.shiftr_div_pow2 by lia.
  assert (0 < 2 ^ j) by (apply Z.pow_pos_nonneg; lia).
  pose proof (Z.mul_div_le m (2 ^ j)). pose proof (Z.div_pos m (2 ^ j)). nia.
Qed.

(** The decoder with the least identifier. *)
Definition least (m : Z) (decoders : list Z) : Prop :=
  m ∈ decoders /\ forall u, u ∈ decoders -> m <= u.

Lemma least_exists decoders : decoders <> [] -> exists m, least m decoders.
Proof.
  induction decoders as [| u l IH]; [done |]. intros _.
  destruct l as [| v l]; [exists u; split; [left | intros w ?%list_elem_of_singleton; lia] |].
  destruct IH as (m & Hm & Hle); [done |]. exists (Z.min u m). split.
  - destruct (Z.min_spec u m) as [[_ ->] | [_ ->]]; [left | by right].
  - intros w Hw. apply elem_of_cons in Hw as [-> | Hw]; [lia | specialize (Hle _ Hw); lia].
Qed.

(** With the next bit clear a decoder answers just when that bit of the least
    identifier is clear; with it set as found, it does. *)
Lemma clear_answered j m decoders : 0 <= j <= 31 -> least m decoders ->
  existsb (matches (top (j + 1) m) (32 - j)) decoders = negb (Z.odd (Z.shiftr m j)).
Proof.
  intros Hj [Hm Hle]. unfold matches. replace (32 - (32 - j)) with j by lia.
  destruct (Z.odd (Z.shiftr m j)) eqn:Ho.
  - apply not_true_iff_false. rewrite existsb_exists. intros (u & Hu & E). apply Z.eqb_eq in E.
    apply list_elem_of_In, Hle in Hu. rewrite top_succ, Z.shiftr_shiftl_l, Z.sub_diag, Z.shiftl_0_r in E by lia.
    pose proof (Z.div_mod (Z.shiftr m j) 2) as D. rewrite Zmod_odd, Ho in D.
    rewrite !Z.shiftr_div_pow2 in * by lia.
    assert (m / 2 ^ j <= u / 2 ^ j) by (apply Z.div_le_mono; [apply Z.pow_pos_nonneg |]; lia). lia.
  - apply existsb_exists. exists m. split; [by apply list_elem_of_In |].
    rewrite top_even by (lia || done). rewrite shiftr_top by lia. apply Z.eqb_refl.
Qed.

Lemma found_answered j m decoders : 0 <= j <= 32 -> m ∈ decoders ->
  existsb (matches (top j m) (32 - j)) decoders = true.
Proof.
  intros Hj Hm. apply existsb_exists. exists m. split; [by apply list_elem_of_In |].
  unfold matches. replace (32 - (32 - j)) with j by lia. rewrite shiftr_top by lia. apply Z.eqb_refl.
Qed.

(** ** The search *)

(** From [l] the search has gone on to the state [l'], where it is at [step]
    with the identifier [uid]; [tell] says that a decoder has been announced. *)
Definition goes (tell : bool) (step uid : Z) (l l' : line_t) : Prop :=
  ready l' /\ step_of l' = step /\ uid_of l' = uid /\ l'.(l_mfx).(mfx_bus) = l.(l_mfx).(mfx_bus) /\
  exists t, l'.(l_world).(sess) =
    if tell then Session.broadcast (discovery_line l.(l_mfx).(mfx_bus) t uid) l.(l_world).(sess)
    else l.(l_world).(sess).

Lemma goes_trans tell step uid step' uid' l l' l'' :
  goes false step uid l l' -> goes tell step' uid' l' l'' -> goes tell step' uid' l l''.
Proof.
  intros (_ & _ & _ & B & t & S) (R & P & U & B' & t' & S'). repeat (split; [congruence || done |]).
  exists t'. by rewrite S', S, B.
Qed.

(** [round_spec], in these words. *)
Lemma round_goes decoders l : ready l -> step_of l <> 1 -> 0 <= step_of l <= 65 ->
  let uid := next_uid (step_of l) (uid_of l) in 0 <= uid < 2 ^ 32 ->
  let hit := existsb (matches uid (Z.shiftr (step_of l) 1)) decoders in
  exists l', round rx decoders l = Some (tt, l') /\
    goes (complete hit (step_of l)) (next_step hit (step_of l)) uid l l'.
Proof.
  intros R H1 Hb uid Hu hit. destruct (round_spec decoders l R H1 Hb Hu) as (l' & t & E & R' & M & S).
  exists l'. split; [done |]. split; [done |]. unfold step_of, uid_of. rewrite M.
  repeat (split; [done |]). by exists t.
Qed.

Lemma rounds_S decoders n l l1 : round rx decoders l = Some (tt, l1) ->
  rounds rx decoders (S n) l = rounds rx decoders n l1.
Proof. intros E. cbn [rounds]. by rewrite (bind_some _ _ _ _ _ E). Qed.

Lemma rounds_add decoders n n' l l1 : rounds rx decoders n l = Some (tt, l1) ->
  rounds rx decoders (n + n') l = rounds rx decoders n' l1.
Proof.
  revert l. induction n as [| n IH]; intros l; [by intros [= <-] |]. cbn [rounds Nat.add].
  intros ([] & l2 & E & E')%bind_inv. rewrite (bind_some _ _ _ _ _ E). by apply IH.
Qed.

Lemma shiftr_step k : 0 <= k -> Z.shiftr (2 * k) 1 = k /\ Z.shiftr (2 * k + 1) 1 = k.
Proof.
  intros Hk. rewrite !Z.shiftr_div_pow2 by lia. change (2 ^ 1) with 2.
  split; [rewrite Z.mul_comm; apply Z.div_mul; lia |].
  rewrite Z.mul_comm, Z.add_comm, Z.div_add by lia. reflexivity.
Qed.

Lemma odd_step k : Z.odd (2 * k) = false /\ Z.odd (2 * k + 1) = true.
Proof.
  split; [| apply Z.odd_spec; by exists k].
  apply not_true_iff_false. intros [x Hx]%Z.odd_spec. lia.
Qed.

(** At most two rounds determine bit [j] of the least identifier. *)
Lemma bit_found decoders m j l : least m decoders -> 0 <= m < 2 ^ 32 -> 0 <= j <= 31 ->
  ready l -> step_of l = 2 * (32 - j) -> uid_of l = top (j + 1) m ->
  exists n l', (n <= 2)%nat /\ rounds rx decoders n l = Some (tt, l') /\
    goes (j =? 0) (if j =? 0 then 1 else 2 * (33 - j)) (top j m) l l'.
Proof.
  intros Hl Hm Hj R Hs Hu. pose proof (odd_step (32 - j)) as [O1 O2].
  pose proof (shiftr_step (32 - j)) as [S1 S2]; [lia.. |].
  pose proof (top_bound (j + 1) m ltac:(lia) Hm) as B.
  assert (N : next_uid (step_of l) (uid_of l) = top (j + 1) m)
    by (unfold next_uid; rewrite Hs, O1, Hu; by replace (2 * (32 - j) =? 0) with false by zbool).
  destruct (round_goes decoders l R) as (l1 & E1 & G1); [lia | lia | by rewrite N |].
  revert G1. rewrite N, Hs, S1, (clear_answered j m) by done.
  destruct (Z.odd (Z.shiftr m j)) eqn:Ho; cbn [negb]; intros G1.
  - replace (complete false (2 * (32 - j))) with false in G1 by (unfold complete; by rewrite andb_false_r).
    replace (next_step false (2 * (32 - j))) with (2 * (32 - j) + 1) in G1
      by (unfold next_step; rewrite O1; by replace (2 * (32 - j) =? 0) with false by zbool).
    destruct (G1) as (R1 & P1 & U1 & _).
    assert (N1 : next_uid (step_of l1) (uid_of l1) = top j m).
    { unfold next_uid. rewrite P1, O2, U1, S2. replace (32 - (32 - j)) with j by lia. apply top_odd; [lia | done]. }
    destruct (round_goes decoders l1 R1) as (l2 & E2 & G2);
      [lia | lia | rewrite N1; apply top_bound; [lia | done] |].
    revert G2. rewrite N1, P1, S2, (found_answered j m) by (lia || apply Hl). intros G2.
    exists 2%nat, l2. split; [lia |].
    split; [by rewrite (rounds_S _ _ _ _ E1), (rounds_S _ _ _ _ E2) |].
    eapply goes_trans; [exact G1 |]. revert G2. unfold complete, next_step. rewrite S2, O2, andb_true_r.
    replace (32 - j =? 32) with (j =? 0) by zbool. replace (2 * (32 - j) + 1 + 1) with (2 * (33 - j)) by lia.
    done.
  - exists 1%nat, l1. split; [lia |]. split; [by rewrite (rounds_S _ _ _ _ E1) |].
    revert G1. unfold complete, next_step. rewrite S1, O1, andb_true_r, top_even by (lia || done).
    replace (32 - j =? 32) with (j =? 0) by zbool. by replace (2 * (32 - j) + 2) with (2 * (33 - j)) by lia.
Qed.

(** The bits below [j] are found in two rounds each. *)
Lemma search_from decoders m (j : nat) l : least m decoders -> 0 <= m < 2 ^ 32 -> (j < 32)%nat ->
  ready l -> step_of l = 2 * (32 - Z.of_nat j) -> uid_of l = top (Z.of_nat j + 1) m ->
  exists n l', (n <= 2 * (j + 1))%nat /\ rounds rx decoders n l = Some (tt, l') /\ goes true 1 m l l'.
Proof.
  intros Hl Hm. revert l. induction j as [| j IH]; intros l Hj R Hs Hu.
  - destruct (bit_found decoders m 0 l Hl Hm) as (n & l' & Hn & E & G); try done.
    exists n, l'. split; [lia |]. split; [done |]. revert G. unfold top.
    by rewrite Z.shiftr_0_r, Z.shiftl_0_r.
  - destruct (bit_found decoders m (Z.of_nat (S j)) l Hl Hm) as (n & l1 & Hn & E & G); try done; [lia |].
    replace (Z.of_nat (S j) =? 0) with false in G by zbool. destruct (G) as (R1 & P1 & U1 & _).
    destruct (IH l1) as (n' & l' & Hn' & E' & G'); [lia | done | rewrite P1; lia | |].
    { rewrite U1. f_equal. lia. }
    exists (n + n')%nat, l'. split; [lia |]. split; [by rewrite (rounds_add _ _ _ _ _ E) |].
    by eapply goes_trans.
Qed.
End Round.

(** C9. The search for unregistered mfx decoders ends and finds one: when the
    automatic search stands at its beginning and there are decoders that have
    no address, the exchange of questions by the bus thread and answers seen by
    the feedback thread reaches in at most 65 rounds the state in which the
    search rests, [decoderUId] is the least identifier among the decoders, and
    the info sessions have been told exactly that identifier. *)
Theorem search_finds rx decoders l : ready l -> step_of l = 0 -> decoders <> [] ->
  Forall (fun u => 0 <= u < 2 ^ 32) decoders ->
  exists n l' m t, (n <= 65)%nat /\ rounds rx decoders n l = Some (tt, l') /\
    m ∈ decoders /\ Forall (Z.le m) decoders /\
    l'.(l_mfx).(searchstep) = 1 /\ l'.(l_mfx).(decoderUId) = m /\
    l'.(l_world).(sess) =
      Session.broadcast (discovery_line l.(l_mfx).(mfx_bus) t m) l.(l_world).(sess).
Proof.
  intros R Hs Hd HU. destruct (least_exists _ Hd) as (m & Hl). destruct (Hl) as [Hm Hle].
  pose proof (proj1 (Forall_forall _ _) HU m Hm) as Hr. cbv beta in Hr.
  assert (N : next_uid (step_of l) (uid_of l) = 0) by (unfold next_uid; by rewrite Hs).
  destruct (round_goes rx decoders l R) as (l1 & E1 & G1); [lia | lia | by rewrite N |].
  revert G1. rewrite N, Hs. replace (existsb _ _) with true.
  - intros G1. destruct (G1) as (R1 & P1 & U1 & _).
    destruct (search_from rx decoders m 31 l1 Hl Hr) as (n & l' & Hn & E & G); try done; [lia | |].
    { rewrite U1. symmetry. unfold top. rewrite Z.shiftr_div_pow2, Z.div_small by lia. by rewrite Z.shiftl_0_l. }
    destruct (goes_trans _ _ _ _ _ _ _ _ G1 G) as (_ & P & U & _ & t & T).
    exists (S n), l', m, t. split; [lia |]. split; [by rewrite (rounds_S _ _ _ _ _ E1) |].
    split; [done |]. split; [by apply Forall_forall |]. done.
  - symmetry. apply existsb_exists. exists m. split; [by apply list_elem_of_In |]. unfold matches.
    change (32 - Z.shiftr 0 1) with 32. rewrite Z.shiftr_div_pow2, Z.div_small by lia. done.
Qed.

(** A line with a booster that reports answers, the search just started. *)
Definition example_line : line_t :=
  mk_line (initial_world (fun n => mk_timeval (Z.of_nat n) 0) 8)
    (start_ddl (mk_conf 0 0 0 EP_MFX 0 1 1 1 0x47420001))
    (initial_mfx <| mfx_bus := 1 |> <| autosearch := 1 |> <| searchstep := 0 |>).

Lemma search_finds_witness :
  exists n l' m t, (n <= 65)%nat /\ rounds [] [0xF8015CA3; 0x9C000001] n example_line = Some (tt, l') /\
    m ∈ [0xF8015CA3; 0x9C000001] /\ Forall (Z.le m) [0xF8015CA3; 0x9C000001] /\
    l'.(l_mfx).(searchstep) = 1 /\ l'.(l_mfx).(decoderUId) = m /\
    l'.(l_world).(sess) =
      Session.broadcast (discovery_line example_line.(l_mfx).(mfx_bus) t m) example_line.(l_world).(sess).
Proof.
  apply (search_finds [] [0xF8015CA3; 0x9C000001] example_line).
  - constructor; [reflexivity | left; reflexivity | discriminate | apply initial_sess_ok].
  - reflexivity.
  - discriminate.
  - repeat constructor; lia.
Defined.
End MfxSearch.
