(* ===== verification/MfxAnswer.v ===== *)
(** The answers of mfx decoders: their bytewise checksum against the bitwise
    one of the packets, and the sequence of reads of a configuration
    variable. *)

From S2P Require Import Prelude World Messages Session Services Spi Mfx MfxSpec.

Module MfxAnswer.
Import Spi Mfx MfxSpec.

(** * The checksum *)

(** The step without the new byte. *)
Definition step_zero_ok (r : Z) : bool :=
  (checkMfxCRC_step r 0 =? crc r (replicate 8 false)) &&
  (Z.lxor r (Z.lxor (Z.shiftl r 1) (Z.shiftl r 2)) <? 1024).
Lemma step_zero_all : forallb step_zero_ok (seqZ 0 256) = true.
Proof. vm_compute. reflexivity. Qed.

Lemma byte_bit v n : 0 <= v < 256 -> 8 <= n -> Z.testbit v n = false.
Proof.
  intros Hv Hn. rewrite <- (Z.mod_small v (2 ^ 8)) by exact Hv. apply Z.mod_pow2_bits_high. lia.
Qed.

Lemma lxor_byte_land a v k : 0 <= v < 256 -> 8 <= k -> Z.land (Z.lxor a v) (2 ^ k) = Z.land a (2 ^ k).
Proof.
  intros Hv Hk. apply Z.bits_inj'. intros n Hn. rewrite !Z.land_spec, Z.lxor_spec.
  rewrite Z.pow2_bits_eqb by lia. destruct (Z.eqb_spec k n) as [<- |]; [| by rewrite !andb_false_r].
  by rewrite (byte_bit v), xorb_false_r by lia.
Qed.

Lemma lxor_small a v : 0 <= a < 1024 -> 0 <= v < 256 -> 0 <= Z.lxor a v < 2 ^ 16.
Proof.
  intros Ha Hv. split; [apply Z.lxor_nonneg; lia |].
  replace (Z.lxor a v) with (Z.lxor a v mod 2 ^ 16); [apply Z.mod_pos_bound; lia |].
  apply Z.bits_inj'. intros n Hn. destruct (decide (n < 16)); [by rewrite Z.mod_pow2_bits_low |].
  rewrite Z.mod_pow2_bits_high, Z.lxor_spec, (byte_bit v) by lia.
  rewrite <- (Z.mod_small a (2 ^ 10)) by exact Ha. by rewrite Z.mod_pow2_bits_high by lia.
Qed.

Lemma step_split r v : is_reg r -> 0 <= v < 256 ->
  checkMfxCRC_step r v = Z.lxor (checkMfxCRC_step r 0) v.
Proof.
  intros Hr Hv. pose proof (forallb_seqZ _ _ _ r step_zero_all Hr) as H. unfold step_zero_ok in H.
  bool_hyps. unfold checkMfxCRC_step. set (a := Z.lxor r (Z.lxor (Z.shiftl r 1) (Z.shiftl r 2))) in *.
  assert (Ha : 0 <= a < 1024).
  { split; [| done]. apply Z.lxor_nonneg. split; [intros _ | unfold is_reg in Hr; lia].
    apply Z.lxor_nonneg. rewrite !Z.shiftl_nonneg. unfold is_reg in Hr. lia. }
  assert (E : forall x, Z.lxor r (Z.lxor (Z.lxor (Z.shiftl r 1) (Z.shiftl r 2)) x) = Z.lxor a x)
    by (intros x; unfold a; by rewrite !Z.lxor_assoc).
  rewrite !E, Z.lxor_0_r. clear E H. clearbody a.
  rewrite (wrap_small 16 a) by lia. rewrite (wrap_small 16 (Z.lxor a v)) by (apply lxor_small; lia).
  change 0x0100 with (2 ^ 8). change 0x0200 with (2 ^ 9). rewrite (lxor_byte_land a v 8) by lia.
  assert (C : forall x y z, Z.lxor (Z.lxor x y) z = Z.lxor (Z.lxor x z) y)
    by (intros x y z; by rewrite !Z.lxor_assoc, (Z.lxor_comm y z)).
  destruct (Z.land a (2 ^ 8) =? 0); rewrite ?(C a v), !lxor_byte_land by lia;
    destruct (_ =? 0); by rewrite ?(C _ v).
Qed.

(** A byte of an answer does to the register what its eight bits do. *)
Lemma step_bits r v : is_reg r -> 0 <= v < 256 -> checkMfxCRC_step r v = crc r (field v 8).
Proof.
  intros Hr Hv. rewrite step_split by done. rewrite (crc_split (field v 8)) by (try done; rewrite field_length; lia).
  rewrite field_length, field_value, Z.mod_small by exact Hv. f_equal.
  pose proof (forallb_seqZ _ _ _ r step_zero_all Hr) as H. unfold step_zero_ok in H. by bool_hyps.
Qed.

(** The bits of an answer's data, as they come from the decoder. *)
Definition answer_bits (data : list Z) : list bool := mjoin ((fun v => field v 8) <$> data).

Lemma steps_bits data r : is_reg r -> Forall (fun v => 0 <= v < 256) data ->
  foldl checkMfxCRC_step r data = crc r (answer_bits data).
Proof.
  intros Hr Hd. revert r Hr. induction Hd as [| v data Hv Hd IH]; intros r Hr; [done |].
  cbn [foldl]. rewrite (step_bits r v) by done. rewrite IH by (by apply crc_reg).
  unfold answer_bits. cbn [fmap list_fmap mjoin list_join]. by rewrite crc_app.
Qed.

Lemma check_spec data c : Forall (fun v => 0 <= v < 256) data ->
  checkMfxCRC (data ++ [c]) (Z.of_nat (length data)) = Some (crc 0xFF (answer_bits data) =? c).
Proof.
  intros Hd. unfold checkMfxCRC. rewrite Nat2Z.id, list_lookup_middle by done.
  by rewrite take_app_length, steps_bits.
Qed.

(** The bytewise checksum by which an answer is checked is the bitwise one
    by which packets are protected: an answer is accepted just when the
    register after its data bits, one by one, is its last byte.  So of two
    answers with one last byte whose data differ inside eight consecutive bits
    at most one is accepted. *)
Theorem answer_checksum data c : Forall (fun v => 0 <= v < 256) data ->
  checkMfxCRC (data ++ [c]) (Z.of_nat (length data)) =
    Some (foldl crc_step 0xFF (answer_bits data) =? c) /\
  forall data' pre w w' post, Forall (fun v => 0 <= v < 256) data' ->
    answer_bits data = pre ++ w ++ post -> answer_bits data' = pre ++ w' ++ post ->
    length w = length w' -> (length w <= 8)%nat -> w <> w' ->
    checkMfxCRC (data ++ [c]) (Z.of_nat (length data)) = Some true ->
    checkMfxCRC (data' ++ [c]) (Z.of_nat (length data')) = Some false.
Proof.
  intros Hd. split; [by apply check_spec |]. intros data' pre w w' post Hd' E E' Hl H8 Hne.
  rewrite !check_spec, E, E' by done. intros [= H%Z.eqb_eq]. f_equal. apply Z.eqb_neq. intros H'.
  apply Hne, (crc_window pre w w' post 0xFF); [done.. | congruence].
Qed.

Lemma answer_checksum_witness :
  checkMfxCRC ([0x12; 0x34] ++ [0x9D]) 2 = Some (foldl crc_step 0xFF (answer_bits [0x12; 0x34]) =? 0x9D) /\
  (checkMfxCRC ([0x12; 0x34] ++ [0x9D]) 2 = Some true ->
   checkMfxCRC ([0x12; 0x35] ++ [0x9D]) 2 = Some false).
Proof.
  destruct (answer_checksum [0x12; 0x34] 0x9D) as [A B]; [repeat constructor; lia |].
  split; [exact A |]. intros H.
  apply (B [0x12; 0x35] (take 15 (answer_bits [0x12; 0x34])) [false] [true] []);
    try exact H; try reflexivity; [repeat constructor; lia | cbn; lia | discriminate].
Defined.
End MfxAnswer.
