(* ===== verification/DdlSpec.v ===== *)
(** The loop of the DDL bus: the track power, the cycle of an accessory command
    and the refresh of locomotives. *)

From S2P Require Import Prelude World Messages Ring Session Services Accessory Loco Program.
From S2P Require Import Spi Dcc DccSpec Motorola Mfx Ddl.

Module DdlSpec.
Import Spi Mfx Ddl.

Section Turn.
Context (rx received : list Z).
Variable bus : Z.

(** * Track power *)

(** The bus of the driver and its commands for service mode, none of which can
    be served. *)
Record at_rest (l : line_t) (d : bus_data_t) : Prop := {
  ar_bus : l.(l_world).(buses) !! bus = Some d;
  ar_sess : sess_ok l.(l_world);
  ar_sm : exists q, l.(l_world).(sm_queue) !! bus = Some q /\
    (l.(l_ddl).(allowSM) = false \/ Ring.isempty q = true);
}.

(** What a turn without power leaves alone: the line, the commands that wait,
    the devices. *)
Definition world_kept (w w' : world) : Prop :=
  w'.(gl_queue) = w.(gl_queue) /\ w'.(ga_queue) = w.(ga_queue) /\ w'.(sm_queue) = w.(sm_queue) /\
  w'.(gl) = w.(gl) /\ w'.(ga) = w.(ga) /\ w'.(fb) = w.(fb).
Record held (l l' : line_t) : Prop := {
  h_transfers : l'.(l_ddl).(transfers) = l.(l_ddl).(transfers);
  h_allow : l'.(l_ddl).(allowSM) = l.(l_ddl).(allowSM);
  h_conf : l'.(l_ddl).(conf) = l.(l_ddl).(conf);
  h_mfx : l'.(l_mfx) = l.(l_mfx);
  h_world : world_kept l.(l_world) l'.(l_world);
}.

Lemma held_refl l : held l l.
Proof. by constructor. Qed.

Lemma held_trans l l' l'' : held l l' -> held l' l'' -> held l l''.
Proof.
  intros [A1 A2 A3 A4 A5] [B1 B2 B3 B4 B5]. unfold world_kept in *.
  constructor; [congruence.. |]. unfold world_kept. intuition congruence.
Qed.

Lemma no_service l d : at_rest l d -> handle_sm rx received bus l = Some (false, l).
Proof.
  intros [_ _ (q & Hq & Hn)]. unfold handle_sm, ddl_get. rewrite bind_gets.
  assert (E : SM.queue_SM_isempty bus l.(l_world) = Some (Ring.isempty q, l.(l_world))).
  { unfold SM.queue_SM_isempty, SM.queue_get, bind, need. by rewrite Hq. }
  rewrite (bind_on_world _ _ _ _ _ E). revert Hn. destruct l as [w dd m]. cbn.
  intros [-> | ->]; [done |]. by rewrite andb_false_r.
Qed.

Lemma with_bus d l : l.(l_world).(buses) !! bus = Some d ->
  on_world (bus_get bus) l = Some (d, l).
Proof. intros H. rewrite (on_world_some _ _ _ _ (bus_get_some _ _ _ H)). by destruct l. Qed.
Lemma bind_bus {B} (k : bus_data_t -> prog line_t B) d l : l.(l_world).(buses) !! bus = Some d ->
  bind (on_world (bus_get bus)) k l = k d l.
Proof. intros H. apply bind_some, with_bus, H. Qed.

(** The line that announces the power. *)
Definition power_line (d : bus_data_t) : string :=
  fmt [stamp d.(power_change_time); " 100 INFO "; dec bus; " POWER ";
       if d.(power_state) =? 0 then "OFF" else "ON"; " "; d.(power_msg); nl].

Lemma announces d l : l.(l_world).(buses) !! bus = Some d -> sess_ok l.(l_world) ->
  announce_power bus l = Some (tt, l <| l_world ::= announce (power_line d) |>).
Proof.
  intros Hd Hs. unfold announce_power.
  assert (E : infoPower bus l.(l_world) = Some ((SRCP_INFO, power_line d), l.(l_world)))
    by (unfold infoPower; by rewrite (bind_some _ _ _ _ _ (bus_get_some _ _ _ Hd))).
  rewrite (bind_on_world _ _ _ _ _ E). destruct l as [w dd m].
  by apply on_world_some, (enqueueInfoMessage_spec (power_line d) w).
Qed.

(** A frame to the CAN side. *)
Lemma syncs id item payload l : (length payload <= 4)%nat ->
  exists rc l', on_world (info_mcs bus id item (Z.of_nat (length payload) :: payload)) l = Some (rc, l') /\
    held l l' /\ l'.(l_ddl) = l.(l_ddl) /\ l'.(l_world).(buses) = l.(l_world).(buses) /\
    l'.(l_world).(sess) = l.(l_world).(sess).
Proof.
  intros H. destruct (info_mcs_spec bus id item payload [] l.(l_world) H) as (rc & E & _).
  rewrite app_nil_r in E. exists rc. rewrite (on_world_some _ _ _ _ E). eexists. split; [reflexivity |].
  unfold sync. destruct l as [w dd m]. cbn [l_world l_ddl over]. by destruct (bus =? _).
Qed.

(** Without power, the change of the power is followed and nothing else. *)
Lemma follow_off d l : l.(l_world).(buses) !! bus = Some d -> sess_ok l.(l_world) ->
  d.(power_state) = 0 ->
  exists l', follow_power bus l = Some (tt, l') /\ held l l' /\ sess_ok l'.(l_world) /\
    l'.(l_world).(buses) !! bus = Some (if 0 <? d.(power_changed) then d <| power_changed := 0 |> else d) /\
    l'.(l_ddl).(rts_on) = (if 0 <? d.(power_changed) then false else l.(l_ddl).(rts_on)) /\
    (d.(power_changed) <> 1 -> l'.(l_world).(sess) = l.(l_world).(sess)).
Proof.
  intros Hd Hs Hp. unfold follow_power. rewrite (bind_bus _ d l Hd).
  destruct (0 <? d.(power_changed)); [| by exists l].
  rewrite Hp. change (u8 0) with 0. cbn [Z.eqb when].
  destruct (syncs 0 0 [0] l) as (rc & l0 & E & K1 & D1 & B1 & S1); [cbn; lia |].
  rewrite (bind_some _ _ _ _ _ E). clear E.
  unfold set_RTS, mod_ddl. rewrite bind_modify, bind_ret.
  set (l1 := over _ _ _).
  assert (H1 : held l l1 /\ sess_ok l1.(l_world) /\ l1.(l_world).(buses) !! bus = Some d /\
    l1.(l_ddl).(rts_on) = false /\ l1.(l_world).(sess) = l.(l_world).(sess)).
  { split; [apply (held_trans _ _ _ K1); by constructor |]. split; [unfold sess_ok; cbn; by rewrite S1 |].
    split; [cbn; by rewrite B1 | done]. }
  clearbody l1. destruct H1 as (H1 & Hs1 & Hd1 & R1 & Q1).
  assert (E : exists l2, when (d.(power_changed) =? 1)
      (do* on_world (info_mcs bus 1 0 [1; 0]) in announce_power bus) l1 = Some (tt, l2) /\
      held l1 l2 /\ sess_ok l2.(l_world) /\ l2.(l_world).(buses) !! bus = Some d /\
      l2.(l_ddl).(rts_on) = false /\
      (d.(power_changed) <> 1 -> l2.(l_world).(sess) = l1.(l_world).(sess))).
  { destruct (Z.eqb_spec d.(power_changed) 1); [| by exists l1]. cbn [when].
    destruct (syncs 1 0 [0] l1) as (rc' & l2 & E & K2 & D2 & B2 & S2); [cbn; lia |].
    rewrite (bind_some _ _ _ _ _ E), (announces d) by (rewrite B2 || unfold sess_ok; rewrite ?S2; done).
    eexists. split; [reflexivity |]. split; [apply (held_trans _ _ _ K2); by constructor |].
    split; [apply announce_ok; unfold sess_ok; by rewrite S2 |]. split; [cbn; by rewrite B2 |].
    split; [cbn; by rewrite D2 | done]. }
  destruct E as (l2 & E & H2 & Hs2 & Hd2 & R2 & Q2). rewrite (bind_some _ _ _ _ _ E).
  rewrite (on_world_some _ _ _ _ (bus_mod_some _ _ _ _ Hd2)). eexists. split; [reflexivity |].
  split; [apply (held_trans _ _ _ H1), (held_trans _ _ _ H2); by constructor |].
  split; [done |]. split; [cbn; by rewrite lookup_insert_eq |]. split; [done |].
  intros Hc. by rewrite <- Q1, <- (Q2 Hc).
Qed.

(** A turn without power. *)
Lemma turn_off cts_low sessions t d l : at_rest l d -> d.(power_state) = 0 ->
  exists l' d', thr_Manage_DDL_turn rx received bus cts_low sessions t l = Some (t, l') /\
    held l l' /\ at_rest l' d' /\ d'.(power_state) = 0 /\
    (0 < d.(power_changed) \/ l.(l_ddl).(rts_on) = false -> l'.(l_ddl).(rts_on) = false).
Proof.
  intros R Hp. unfold thr_Manage_DDL_turn. rewrite (bind_some _ _ _ _ _ (no_service _ _ R)).
  destruct R as [Rb Rs Rq].
  rewrite (bind_on_world _ _ _ _ _ (bus_mod_some _ _ _ _ Rb)).
  set (d1 := d <| watchdog := 4 |>). set (l1 := over l_world _ l).
  assert (Hd1 : l1.(l_world).(buses) !! bus = Some d1) by (cbn; by rewrite lookup_insert_eq).
  assert (Hp1 : d1.(power_state) = 0) by done.
  assert (H1 : held l l1) by by constructor.
  assert (Hs1 : sess_ok l1.(l_world)) by done.
  unfold power_is_off, short_check, ddl_get. rewrite !bind_assoc, bind_gets, bind_assoc.
  rewrite (bind_bus _ _ _ Hd1), Hp1, andb_false_r, bind_ret.
  unfold client_check, ddl_get, world_get. rewrite !bind_assoc, bind_gets, bind_assoc.
  rewrite (bind_bus _ _ _ Hd1), bind_assoc, bind_gets, Hp1, andb_false_r, bind_ret.
  destruct (follow_off d1 l1 Hd1 Hs1 Hp1) as (l2 & E & H2 & Hs2 & Hd2 & R2 & _).
  rewrite bind_assoc, (bind_some _ _ _ _ _ E), bind_assoc, (bind_bus _ _ _ Hd2), bind_ret.
  set (d2 := if 0 <? _ then _ else _) in *.
  assert (Hp2 : d2.(power_state) = 0) by (unfold d2; by destruct (0 <? _)).
  rewrite Hp2. exists l2, d2. split; [reflexivity |].
  pose proof (held_trans _ _ _ H1 H2) as H. split; [exact H |]. split; [| split].
  - constructor; [exact Hd2 | exact Hs2 |]. destruct Rq as (q & Hq & Hn). exists q.
    destruct H as [_ A _ _ (_ & _ & W & _)]. by rewrite A, W.
  - exact Hp2.
  - rewrite R2. change (power_changed d1) with (power_changed d).
    intros [Hc | Hr]; [by replace (0 <? d.(power_changed)) with true by zbool |].
    by destruct (0 <? _).
Qed.

(** Turns of the loop, each with the level of the feedback line and the number
    of command sessions it sees. *)
Fixpoint turns (seen : list (bool * Z)) (t : thr_t) : prog line_t thr_t :=
  match seen with
  | [] => ret t
  | (cts_low, sessions) :: seen =>
      let* t := thr_Manage_DDL_turn rx received bus cts_low sessions t in turns seen t
  end.

Lemma turns_off seen t d l : at_rest l d -> d.(power_state) = 0 ->
  (0 < d.(power_changed) /\ seen <> []) \/ l.(l_ddl).(rts_on) = false ->
  exists l' d', turns seen t l = Some (t, l') /\ held l l' /\ at_rest l' d' /\ d'.(power_state) = 0 /\
    l'.(l_ddl).(rts_on) = false.
Proof.
  revert d l. induction seen as [| [cts_low sessions] seen IH]; intros d l R Hp Hr.
  - exists l, d. destruct Hr as [[_ H] | Hr]; [done |]. split; [done |]. split; [apply held_refl |]. done.
  - destruct (turn_off cts_low sessions t d l R Hp) as (l1 & d1 & E & H1 & R1 & P1 & T1).
    destruct (IH d1 l1 R1 P1) as (l' & d' & E' & H' & R' & P' & T'); [right; apply T1; tauto |].
    exists l', d'. cbn [turns]. rewrite (bind_some _ _ _ _ _ E). split; [done |].
    split; [by apply held_trans with l1 | done].
Qed.

(** ** A shortcut *)

(** The power goes off for a reason of the driver's own. *)
Definition lost (msg : string) (d : bus_data_t) : bus_data_t :=
  d <| power_state := 0 |> <| power_changed := 2 |> <| power_msg := msg |>.

Lemma power_lost_spec msg d l : l.(l_world).(buses) !! bus = Some d -> sess_ok l.(l_world) ->
  exists l', power_lost bus msg l = Some (tt, l') /\ held l l' /\ sess_ok l'.(l_world) /\
    l'.(l_world).(buses) !! bus = Some (lost msg d) /\
    l'.(l_world).(sess) = Session.broadcast (power_line (lost msg d)) l.(l_world).(sess).
Proof.
  intros Hd Hs. unfold power_lost, ddl_get. rewrite bind_gets.
  rewrite (bind_on_world _ _ _ _ _ (bus_mod_some _ _ _ _ Hd)). set (l1 := over l_world _ l).
  assert (H1 : held l l1) by by constructor.
  destruct (syncs 1 (u32 l.(l_ddl).(conf).(ddl_uid)) [0xA; 1] l1) as (rc & l2 & E & K2 & D2 & B2 & S2); [cbn; lia |].
  rewrite (bind_some _ _ _ _ _ E). clear E.
  assert (Hd2 : l2.(l_world).(buses) !! bus = Some (d <| power_state := 0 |> <| power_changed := 2 |>))
    by (rewrite B2; cbn; by rewrite lookup_insert_eq).
  assert (Hs2 : sess_ok l2.(l_world)) by (unfold sess_ok; by rewrite S2).
  rewrite (bind_on_world _ _ _ _ _ (bus_mod_some _ _ _ _ Hd2)). set (l3 := over l_world _ l2).
  erewrite (announces (lost msg d)); [| cbn; by rewrite lookup_insert_eq | exact Hs2].
  eexists. split; [reflexivity |].
  split; [apply (held_trans _ _ _ H1), (held_trans _ _ _ K2); by constructor |].
  split; [by apply announce_ok |]. split; [cbn; by rewrite lookup_insert_eq |]. cbn. by rewrite S2.
Qed.

(** The feedback line of the booster says shortcut. *)
Definition says_short (c : ddl_conf) (cts_low : bool) : bool := Bool.eqb cts_low (c.(CHECKSHORT) =? 2).
Lemma short_cuts cts_low d l : l.(l_world).(buses) !! bus = Some d -> sess_ok l.(l_world) ->
  d.(power_state) <> 0 -> l.(l_ddl).(conf).(CHECKSHORT) <> 0 ->
  says_short l.(l_ddl).(conf) cts_low = true -> l.(l_ddl).(short_detected) <> 0 ->
  l.(l_ddl).(conf).(SHORTCUTDELAY) <= usec_of (now l.(l_world)) - l.(l_ddl).(short_detected) ->
  exists l', short_check bus cts_low l = Some (tt, l') /\ held l l' /\ sess_ok l'.(l_world) /\
    l'.(l_world).(buses) !! bus = Some (lost "SHORTCUT DETECTED" d) /\
    l'.(l_world).(sess) = Session.broadcast (power_line (lost "SHORTCUT DETECTED" d)) l.(l_world).(sess).
Proof.
  intros Hd Hs Hp Hc Hcts Hsd Hdelay. unfold short_check, ddl_get. rewrite bind_gets, (bind_bus _ _ _ Hd).
  apply Z.eqb_neq in Hp, Hc, Hsd. rewrite Hp, Hc. cbn [negb andb].
  unfold checkShortcut. rewrite bind_assoc, bind_gets. unfold says_short in Hcts. rewrite Hcts, Hsd.
  rewrite bind_assoc, bind_ret, bind_assoc, (bind_on_world _ _ _ _ _ (gettimeofday_spec _)), bind_assoc.
  set (l1 := over l_world _ l). rewrite bind_gets, bind_ret.
  assert (Hdl : (SHORTCUTDELAY (conf (l_ddl l1)) <=? usec_of (now (l_world l)) - short_detected (l_ddl l1)) = true)
    by (apply Z.leb_le; exact Hdelay).
  rewrite Hdl. unfold mod_ddl. rewrite bind_modify. set (l2 := over l_ddl _ l1).
  assert (H2 : held l l2) by by constructor.
  destruct (power_lost_spec "SHORTCUT DETECTED" d l2) as (l3 & E & H3 & Hs3 & Hd3 & S3); [done | done |].
  exists l3. split; [done |]. split; [exact (held_trans _ _ _ H2 H3) |]. done.
Qed.
End Turn.

(** A line with the bus 1, its power [state]; a shortcut has been seen at the
    fifth microsecond. *)
Definition example_bus (state : Z) : bus_data_t := bus_zero <| power_state := state |> <| power_changed := 1 |>.
Definition example_line (state : Z) : line_t :=
  mk_line ((initial_world (fun n => mk_timeval (10 + Z.of_nat n) 0) 8) <| buses ::= <[1 := example_bus state]> |>)
    ((start_ddl (mk_conf 1 1000 0 EP_NMRADCC 0 1 0 0 0)) <| short_detected := 5 |>) initial_mfx.

Lemma example_at_rest state : at_rest 1 (example_line state) (example_bus state).
Proof.
  constructor; [apply lookup_insert_eq | apply initial_sess_ok |].
  exists (Ring.make 2 sm_zero). split; [by apply lookup_array_some | by right].
Qed.

(** C23. Without power on the track, and while no service-mode command can be
    served (none waits, or the bus does not allow service mode: such a command is
    carried out, with its packets, before the turn looks at the power), the bus
    thread leaves the line and every device alone: whatever the feedback line and
    the sessions do and however many turns the loop makes, nothing is transmitted,
    no locomotive or accessory command leaves its queue, the power stays off and
    the boosters are switched off. *)
Theorem power_off_silent rx received bus seen t d l : at_rest bus l d -> d.(power_state) = 0 ->
  (0 < d.(power_changed) /\ seen <> []) \/ l.(l_ddl).(rts_on) = false ->
  exists l', turns rx received bus seen t l = Some (t, l') /\
    l'.(l_ddl).(transfers) = l.(l_ddl).(transfers) /\
    l'.(l_world).(gl_queue) = l.(l_world).(gl_queue) /\
    l'.(l_world).(ga_queue) = l.(l_world).(ga_queue) /\
    l'.(l_world).(gl) = l.(l_world).(gl) /\ l'.(l_world).(ga) = l.(l_world).(ga) /\
    getPower bus l'.(l_world) = Some (0, l'.(l_world)) /\ l'.(l_ddl).(rts_on) = false.
Proof.
  intros R Hp Hr. destruct (turns_off rx received bus seen t d l R Hp Hr) as (l' & d' & E & H & R' & P' & T').
  exists l'. destruct H as [A _ _ _ (W1 & W2 & W3 & W4 & W5 & W6)]. repeat (split; [done |]). split; [| done].
  unfold getPower. rewrite (bind_some _ _ _ _ _ (bus_get_some _ _ _ (ar_bus _ _ _ R'))), P'. done.
Qed.

Lemma power_off_silent_witness :
  exists l', turns [] [] 1 [(true, 0); (false, 2)] thr_start (example_line 0) = Some (thr_start, l') /\
    l'.(l_ddl).(transfers) = (example_line 0).(l_ddl).(transfers) /\
    l'.(l_world).(gl_queue) = (example_line 0).(l_world).(gl_queue) /\
    l'.(l_world).(ga_queue) = (example_line 0).(l_world).(ga_queue) /\
    l'.(l_world).(gl) = (example_line 0).(l_world).(gl) /\ l'.(l_world).(ga) = (example_line 0).(l_world).(ga) /\
    getPower 1 l'.(l_world) = Some (0, l'.(l_world)) /\ l'.(l_ddl).(rts_on) = false.
Proof.
  apply (power_off_silent [] [] 1 [(true, 0); (false, 2)] thr_start (example_bus 0) (example_line 0)).
  - apply example_at_rest.
  - reflexivity.
  - left. split; [reflexivity | discriminate].
Defined.

(** C24. A shortcut that lasts is followed by power off in the same turn: when
    the feedback line has said shortcut for [SHORTCUTDELAY] microseconds, the
    detection of shortcuts is switched on, and no
    service-mode command can be served (one that waits is carried out, with its
    packets, before the turn looks at the line), the turn switches the boosters
    off, notes the reason, tells the info sessions once and transmits nothing. *)
Theorem shortcut_cuts_power rx received bus cts_low sessions t d l : at_rest bus l d ->
  d.(power_state) <> 0 -> l.(l_ddl).(conf).(CHECKSHORT) <> 0 ->
  says_short l.(l_ddl).(conf) cts_low = true -> l.(l_ddl).(short_detected) <> 0 ->
  l.(l_ddl).(conf).(SHORTCUTDELAY) <= usec_of (now l.(l_world)) - l.(l_ddl).(short_detected) ->
  exists l' d', thr_Manage_DDL_turn rx received bus cts_low sessions t l = Some (t, l') /\
    l'.(l_world).(buses) !! bus = Some d' /\ d'.(power_state) = 0 /\ d'.(power_changed) = 0 /\
    d'.(power_msg) = "SHORTCUT DETECTED"%string /\ l'.(l_ddl).(rts_on) = false /\
    l'.(l_ddl).(transfers) = l.(l_ddl).(transfers) /\ world_kept l.(l_world) l'.(l_world) /\
    l'.(l_world).(sess) = Session.broadcast (power_line bus d') l.(l_world).(sess).
Proof.
  intros R Hp Hc Hcts Hsd Hdelay. unfold thr_Manage_DDL_turn.
  rewrite (bind_some _ _ _ _ _ (no_service rx received bus _ _ R)). destruct R as [Rb Rs _].
  rewrite (bind_on_world _ _ _ _ _ (bus_mod_some _ _ _ _ Rb)).
  set (d1 := d <| watchdog := 4 |>). set (l1 := over l_world _ l).
  assert (Hd1 : l1.(l_world).(buses) !! bus = Some d1) by (cbn; by rewrite lookup_insert_eq).
  assert (H1 : held l l1) by by constructor.
  destruct (short_cuts bus cts_low d1 l1 Hd1) as (l2 & E & H2 & Hs2 & Hd2 & S2); try done.
  unfold power_is_off. rewrite bind_assoc, (bind_some _ _ _ _ _ E). clear E.
  unfold client_check, ddl_get, world_get. rewrite !bind_assoc, bind_gets, bind_assoc.
  rewrite (bind_bus _ _ _ _ Hd2), bind_assoc, bind_gets, andb_false_r, bind_ret.
  destruct (follow_off bus (lost "SHORTCUT DETECTED" d1) l2 Hd2 Hs2 eq_refl)
    as (l3 & E & H3 & Hs3 & Hd3 & R3 & S3).
  rewrite bind_assoc, (bind_some _ _ _ _ _ E), bind_assoc, (bind_bus _ _ _ _ Hd3), bind_ret.
  destruct (held_trans _ _ _ H1 (held_trans _ _ _ H2 H3)) as [A _ _ _ W].
  do 2 eexists. split; [reflexivity |]. split; [exact Hd3 |]. do 4 (split; [done |]).
  split; [exact A |]. split; [exact W |]. rewrite S3 by done. exact S2.
Qed.

Lemma shortcut_cuts_power_witness :
  exists l' d', thr_Manage_DDL_turn [] [] 1 false 2 thr_start (example_line 1) = Some (thr_start, l') /\
    l'.(l_world).(buses) !! 1 = Some d' /\ d'.(power_state) = 0 /\ d'.(power_changed) = 0 /\
    d'.(power_msg) = "SHORTCUT DETECTED"%string /\ l'.(l_ddl).(rts_on) = false /\
    l'.(l_ddl).(transfers) = (example_line 1).(l_ddl).(transfers) /\
    world_kept (example_line 1).(l_world) l'.(l_world) /\
    l'.(l_world).(sess) = Session.broadcast (power_line 1 d') (example_line 1).(l_world).(sess).
Proof.
  apply (shortcut_cuts_power [] [] 1 false 2 thr_start (example_bus 1) (example_line 1)).
  - apply example_at_rest.
  - discriminate.
  - discriminate.
  - reflexivity.
  - discriminate.
  - vm_compute. discriminate.
Defined.
(** * Accessory commands *)

Import GA.

(** ** What a Motorola decoder reads *)

(** Two bytes of the line are a bit: a long pulse or a short one. *)
Definition pulse (x y : Z) : option bool :=
  if (x =? 0xFF) && (y =? 0xFC) then Some true else if (x =? 0xE0) && (y =? 0x00) then Some false else None.
Fixpoint mm_code (n : nat) (l : list Z) : option (list bool * list Z) :=
  match n with
  | O => Some ([], l)
  | S n =>
      match l with
      | x :: y :: l => b ← pulse x y; '(bs, l) ← mm_code n l; Some (b :: bs, l)
      | _ => None
      end
  end.
Definition silence (n : nat) (l : list Z) : option (list Z) :=
  if (n <=? length l)%nat && forallb (Z.eqb 0) (take n l) then Some (drop n l) else None.
(** A packet is taken when it comes twice, with pauses around it. *)
Definition mm_receive (l : list Z) : option (list bool) :=
  l ← silence 2 l; '(bs, l) ← mm_code 18 l; l ← silence 12 l; '(bs', l) ← mm_code 18 l; l ← silence 59 l;
  if decide (bs = bs') then match l with [] => Some bs | _ => None end else None.

Lemma silent n l : silence n (replicate n 0x00 ++ l) = Some l.
Proof.
  unfold silence. rewrite length_app, length_replicate, take_app_length', drop_app_length' by (symmetry; apply length_replicate).
  replace (_ <=? _)%nat with true by (symmetry; apply Nat.leb_le; lia). cbn [andb].
  replace (forallb _ _) with true; [done |]. symmetry. apply forallb_forall. by intros x ->%list_elem_of_In%elem_of_replicate_inv.
Qed.
Lemma code_read bs rest :
  mm_code (length bs) (mjoin ((fun b : bool => if b then [0xFF; 0xFC] else [0xE0; 0x00]) <$> bs) ++ rest) = Some (bs, rest).
Proof.
  induction bs as [| b bs IH]; [done |].
  destruct b; exact (f_equal (fun o => '(bs, l) ← o; Some (_ :: bs, l)) IH).
Qed.
Lemma solenoid_received m : mm_receive (mm_stream QM1SOLEPKT m 12 59) = Some (mm_bits m).
Proof.
  unfold mm_stream, mm_receive. change (is_solenoid QM1SOLEPKT) with true. cbv iota.
  change 18%nat with (length (mm_bits m)). change PAUSE_START with 2%nat.
  rewrite silent. cbn [mbind option_bind]. rewrite code_read. cbn [mbind option_bind]. rewrite silent. cbn [mbind option_bind].
  rewrite code_read. cbn [mbind option_bind]. rewrite <- (app_nil_r (replicate 59 _)), silent. cbn [mbind option_bind].
  by rewrite decide_True.
Qed.

(** ** The cycle *)

(** A switching command of one of the two protocols. *)
Record switching (a : ga_data_t) : Prop := {
  sw_protocol : a.(ga_protocol) = ch "N" /\ 1 <= a.(ga_id) <= 2044 \/ a.(ga_protocol) = ch "M" /\ 1 <= a.(ga_id) <= 324;
  sw_port : 0 <= a.(ga_port) <= 1;
  sw_action : 0 <= a.(ga_action) <= 1;
}.

Definition off (a : ga_data_t) : ga_data_t := a <| ga_action := 0 |>.
Lemma switching_off a : switching a -> switching (off a).
Proof. intros [A B C]. constructor; cbn; done || lia. Qed.

(** The packet of [a], twice on the line: what a decoder reads off it.  The
    solenoids 321 to 324 are sent as 1 to 4, see [Motorola.solenoid_addresses]. *)
Definition carries_mm (a : ga_data_t) (l l' : line_t) : Prop :=
  exists w m,
    l'.(l_ddl).(transfers) = l.(l_ddl).(transfers) ++
      (if l.(l_ddl).(spiLastMM) =? 0 then [mk_transfer SPI_BAUDRATE_MAERKLIN_FUNC_2 (replicate 59 0x00)] else []) ++
      replicate 2 (mk_transfer SPI_BAUDRATE_MAERKLIN_FUNC_2 w) /\
    mm_receive w = Some (Motorola.mm_fields m) /\ m.(md_func) = 0 /\ m.(md_xdat) = m.(md_data) /\
    Motorola.read_ms m = Some (if a.(ga_id) <=? 320 then a.(ga_id) else a.(ga_id) - 320, a.(ga_port), a.(ga_action)).
Definition carries_dcc (a : ga_data_t) (l l' : line_t) : Prop :=
  exists w bits b1 b2,
    l'.(l_ddl).(transfers) =
      l.(l_ddl).(transfers) ++ replicate 2 (mk_transfer SPI_BAUDRATE_NMRA_2 (0x00 :: w)) /\
    DccSpec.wave_bits w = Some (bits ++ [true]) /\
    DccSpec.dcc_decode 1 bits = Some [[b1; b2; Dcc.xor_two_bytes b2 b1]] /\
    DccSpec.accessory_fields b1 b2 =
      (a.(ga_id) + 4 * l.(l_ddl).(conf).(NMRA_GA_OFFSET), a.(ga_port), a.(ga_action)).
Definition carries (a : ga_data_t) (l l' : line_t) : Prop :=
  if a.(ga_protocol) =? ch "M" then carries_mm a l l' else carries_dcc a l l'.

Section Cycle.
Context (rx received : list Z).
Variable bus : Z.

(** What the cycle needs of the state at each of its turns; everything else
    the rest of the loop and the other threads may have changed. *)
Record usable (nr : Z) (l : line_t) : Prop := {
  us_wf : GA.wf l.(l_world);
  us_wait : l.(l_ddl).(waitread) = 0;
  us_offset : 0 <= l.(l_ddl).(conf).(NMRA_GA_OFFSET) <= 1;
  us_known : exists d, ga_at l.(l_world) bus nr = Some d /\ d.(ga_protocol) <> 0;
  us_clock : 0 < (now l.(l_world)).(tv_sec);
}.

(** A solenoid command is sent twice. *)
Lemma solenoid_sent nr port action st : 1 <= nr <= 324 -> 0 <= port <= 1 -> 0 <= action <= 1 -> st.(waitread) = 0 ->
  exists m, Motorola.comp_maerklin_ms rx (receive received) nr port action st = Some (0,
      st <| transfers ::= fun ts => ts ++
           (if st.(spiLastMM) =? 0 then [mk_transfer SPI_BAUDRATE_MAERKLIN_FUNC_2 (replicate 59 0x00)] else []) ++
           replicate 2 (mk_transfer SPI_BAUDRATE_MAERKLIN_FUNC_2 (mm_stream QM1SOLEPKT m 12 59)) |> <| spiLastMM := 1 |>) /\
    mm_bits m = Motorola.mm_fields m /\ m.(md_func) = 0 /\ m.(md_xdat) = m.(md_data) /\
    Motorola.read_ms m = Some (if nr <=? 320 then nr else nr - 320, port, action).
Proof.
  intros Hn Hp Ha Hw. assert (Motorola.ms_ok nr port action = true) as Hok.
  { unfold Motorola.ms_ok. apply negb_true_iff. repeat (apply orb_false_iff; split); zbool. }
  destruct (Motorola.solenoid_packet nr port action Hok) as (m & E & Em & F & X & R).
  exists m. split; [| split; [by apply Motorola.mm_bits_fields |]; done].
  unfold Motorola.comp_maerklin_ms. rewrite Hok. cbn [negb]. rewrite E. cbn [need]. unfold ret at 1, bind at 1.
  unfold Motorola.send, send_packet, send_mm. change (is_mm QM1SOLEPKT) with true. change (is_solenoid QM1SOLEPKT) with true.
  cbn [orb]. cbv iota zeta. generalize (mm_stream QM1SOLEPKT m 12 59), (replicate 59 0x00). intros w pause.
  destruct st. cbn in Hw |- *. subst. change (Z.to_nat 2) with 2%nat. unfold transmit, spi_transfer.
  unfold bind, get, ret, modify. cbn. destruct (spiLastMM0 =? 0); cbn; by rewrite <- ?app_assoc.
Qed.

Lemma sends a l : switching a -> l.(l_ddl).(waitread) = 0 ->
  0 <= l.(l_ddl).(conf).(NMRA_GA_OFFSET) <= 1 ->
  exists d', send_ga rx received a l = Some (tt, l <| l_ddl := d' |>) /\ carries a l (l <| l_ddl := d' |>).
Proof.
  intros [[[A B] | [A B]] C D] Hw Ho; unfold send_ga, ddl_get, carries; rewrite bind_gets, A.
  - change (ch "N" =? ch "M") with false. change (ch "N" =? ch "N") with true. cbv iota.
    destruct (DccSpec.accessory_sent rx (receive received) a.(ga_id) a.(ga_port) a.(ga_action)
      l.(l_ddl).(conf).(NMRA_GA_OFFSET) l.(l_ddl)) as (w & bits & b1 & b2 & E & W & T & F); [done.. |].
    eexists. split; [by rewrite (bind_on_ddl _ _ _ _ _ E) |]. by exists w, bits, b1, b2.
  - change (ch "M" =? ch "M") with true. cbv iota.
    destruct (solenoid_sent a.(ga_id) a.(ga_port) a.(ga_action) l.(l_ddl) B C D Hw) as (m & E & F & R).
    eexists. split; [by rewrite (bind_on_ddl _ _ _ _ _ E) |]. exists (mm_stream QM1SOLEPKT m 12 59), m.
    split; [done |]. by rewrite solenoid_received, F.
Qed.

(** What [setGA] of [a] does to the world: the accessory is as it was set, every
    info session gets the line that says so, and where the bus is the CAN
    gateway's an acknowledge goes out. *)
Definition set_by (a : ga_data_t) (l l' : line_t) : Prop :=
  exists d, ga_at l.(l_world) bus a.(ga_id) = Some d /\
    ga_at l'.(l_world) bus a.(ga_id) = Some (switched d a (now l.(l_world))) /\
    l'.(l_world).(sess) =
      Session.broadcast (info_line bus a.(ga_id) a.(ga_port) a.(ga_action) (now l.(l_world))) l.(l_world).(sess) /\
    l'.(l_world).(mcs).(can_out) = l.(l_world).(mcs).(can_out) ++
      if bus =? l.(l_world).(mcs).(mcs_bus)
      then [mcs_frame l.(l_world).(mcs) 0x17 (ga_item d.(ga_protocol) a.(ga_id)) (ga_payload a)] else [].

Lemma sets a l d' : switching a -> usable a.(ga_id) l ->
  exists w', on_world (setGA bus a.(ga_id) a) (l <| l_ddl := d' |>) =
      Some (SRCP_OK, mk_line w' d' l.(l_mfx)) /\ set_by a l (mk_line w' d' l.(l_mfx)).
Proof.
  intros [A C D] [U1 U2 U3 (d & Hd & Hpr) U5].
  assert (P : 0 <= a.(ga_port) < MAXGAPORT) by (unfold MAXGAPORT; lia).
  destruct (set_reports l.(l_world) bus a.(ga_id) d a U1 Hd Hpr P U5) as (w' & E & G & _ & S & M).
  exists w'. split; [| by exists d]. unfold on_world. cbn [l_world over]. by rewrite E.
Qed.

Lemma dequeue_now r w w' : dequeueNextGA bus w = Some (r, w') -> now w' = now w.
Proof.
  unfold dequeueNextGA. intros (q & w1 & E & H)%bind_inv.
  assert (w1 = w) as -> by (unfold queue_get, need in E; by destruct (_ !! bus); inversion E).
  destruct (Ring.isempty q); [by inversion H |]. destruct (Ring.take _ q) as [[e q'] |]; [| done].
  cbn in H. by inversion H.
Qed.

(** The four phases of a command. *)
Lemma starts t l a rest : t.(gastep) = 0 -> pending l.(l_world) bus = a :: rest -> switching a ->
  usable a.(ga_id) l ->
  exists t1 l1, handle_ga rx received bus t l = Some (t1, l1) /\ carries a l l1 /\
    pending l1.(l_world) bus = rest /\ t1.(gastep) = 1 /\ t1.(gatmp) = a /\
    l1.(l_world).(ga) = l.(l_world).(ga) /\ t1.(tv_ga) = now l.(l_world).
Proof.
  intros Ht Hp Hs [U1 U2 U3 _ _]. unfold handle_ga. rewrite Ht.
  destruct (dequeueNextGA_spec _ _ _ _ U1 Hp) as (w' & E & W' & G' & P').
  rewrite (bind_on_world _ _ _ _ _ E), (bind_on_world _ _ _ _ _ (gettimeofday_spec _)).
  set (l1 := over l_world _ (over l_world _ l)).
  destruct (sends a l1) as (d' & E2 & C2); [done.. |].
  unfold ga_activate. cbn [gatmp over]. change (gatmp (over _ _ (over _ _ t))) with a.
  rewrite (bind_some _ _ _ _ _ E2). cbn. rewrite Ht. cbn.
  do 2 eexists. split; [reflexivity |]. split; [exact C2 |]. repeat (split; [done |]).
  by apply dequeue_now in E.
Qed.
(** [x] sends [a] and then sets it. *)
Lemma sends_sets a l (k : prog line_t thr_t) : switching a -> usable a.(ga_id) l ->
  exists l', (do* send_ga rx received a in do* on_world (setGA bus a.(ga_id) a) in k) l = k l' /\
    carries a l l' /\ set_by a l l'.
Proof.
  intros Hs U. destruct (sends a l Hs (us_wait _ _ U) (us_offset _ _ U)) as (d' & E & C).
  destruct (sets a l d' Hs U) as (w' & E' & S). rewrite (bind_some _ _ _ _ _ E), (bind_some _ _ _ _ _ E').
  eexists. split; [reflexivity |]. by split.
Qed.

Lemma repeats t l a : t.(gastep) = 1 -> t.(gatmp) = a -> switching a -> usable a.(ga_id) l ->
  exists t' l', handle_ga rx received bus t l = Some (t', l') /\ carries a l l' /\ set_by a l l' /\
    t' = t <| gastep := if a.(ga_activetime) <=? 0 then 0 else 2 |>.
Proof.
  intros Ht <- Hs U. unfold handle_ga. rewrite Ht. unfold ga_activate.
  cbn [gastep over]. rewrite Ht. change (Z.succ 1 =? 2) with true. cbv iota.
  destruct (sends_sets t.(gatmp) l (ret (if t.(gatmp).(ga_activetime) <=? 0 then t <| gastep := 0 |>
    else t <| gastep := 2 |>)) Hs U) as (l' & E & C & S).
  exists (if t.(gatmp).(ga_activetime) <=? 0 then t <| gastep := 0 |> else t <| gastep := 2 |>), l'.
  split; [| split; [done |]; split; [done |]; by destruct (_ <=? 0)].
  etransitivity; [| exact E]. destruct t. cbn in *. subst. by destruct (_ <=? 0).
Qed.

(** The time since the activation, in microseconds. *)
Definition elapsed (t : thr_t) (l : line_t) : Z := usec_of (now l.(l_world)) - usec_of t.(tv_ga).

Lemma time_since t l : on_world (timeSince t.(tv_ga)) l = Some (elapsed t l, l <| l_world ::= tick |>).
Proof.
  unfold timeSince. erewrite on_world_some; [| rewrite (bind_some _ _ _ _ _ (gettimeofday_spec _)); reflexivity].
  unfold elapsed, usec_of. do 2 f_equal. lia.
Qed.

Lemma waits t l : t.(gastep) = 2 -> elapsed t l < t.(gatmp).(ga_activetime) * 1000 ->
  handle_ga rx received bus t l = Some (t, l <| l_world ::= tick |>).
Proof.
  intros Ht Hn. unfold handle_ga. rewrite Ht, (bind_some _ _ _ _ _ (time_since t l)).
  by replace (_ <? _) with true by zbool.
Qed.

Lemma releases t l a : t.(gastep) = 2 -> t.(gatmp) = a -> switching a -> usable a.(ga_id) l ->
  a.(ga_activetime) * 1000 <= elapsed t l ->
  exists t' l', handle_ga rx received bus t l = Some (t', l') /\ carries (off a) l l' /\
    l'.(l_world) = tick l.(l_world) /\ t' = t <| gastep := 3 |> <| gatmp := off a |>.
Proof.
  intros Ht <- Hs U Hn. unfold handle_ga. rewrite Ht, (bind_some _ _ _ _ _ (time_since t l)).
  replace (_ <? _) with false by zbool. set (l1 := over l_world tick l).
  destruct (sends (off t.(gatmp)) l1 (switching_off _ Hs) (us_wait _ _ U) (us_offset _ _ U)) as (d' & E & C).
  unfold ga_deactivate. cbn [gatmp over]. change (over ga_action _ (gatmp t)) with (off t.(gatmp)).
  rewrite (bind_some _ _ _ _ _ E). cbn [gastep over]. rewrite Ht. change (Z.succ 2 =? 4) with false.
  do 2 eexists. split; [reflexivity |]. split; [exact C |]. split; [done |]. destruct t. cbn in *. by subst.
Qed.

Lemma ends t l a : t.(gastep) = 3 -> t.(gatmp) = a -> switching a -> usable a.(ga_id) l ->
  exists l', handle_ga rx received bus t l = Some (t <| gastep := 0 |>, l') /\ carries a l l' /\ set_by a l l'.
Proof.
  intros Ht <- Hs U. unfold handle_ga. rewrite Ht. unfold ga_deactivate.
  cbn [gastep over]. rewrite Ht. change (Z.succ 3 =? 4) with true. cbv iota.
  destruct (sends_sets t.(gatmp) l (ret (t <| gastep := 0 |>)) Hs U) as (l' & E & C & S).
  exists l'. split; [| by split]. etransitivity; [| exact E]. destruct t. cbn in *. by subst.
Qed.
End Cycle.

(** C21. An accessory command, for DCC or Motorola, runs its course whatever the
    rest of the loop and the other threads do between the turns of the accessory
    part.  The command goes out in two turns, each time twice, as a packet a
    decoder reads it from; in the second turn every info session gets the line
    that reports it.  If it has no active time, that is all.  Otherwise nothing
    more is sent until the active time is over; then the same output is switched
    off in two turns in the same way, that is reported in the second of them too,
    and the thread is ready for the next command.  The command is one for output 0
    or 1 of an address the protocol has ([switching]); at each of its turns the
    accessory is initialised, the clock runs, and no answer of an mfx decoder is
    awaited, which would be read first ([usable]). *)
Theorem ga_cycle rx received bus t a rest l0 : t.(gastep) = 0 ->
  pending l0.(l_world) bus = a :: rest -> switching a -> usable bus a.(ga_id) l0 ->
  exists t1 l1, handle_ga rx received bus t l0 = Some (t1, l1) /\ carries a l0 l1 /\
    pending l1.(l_world) bus = rest /\
  forall l2, usable bus a.(ga_id) l2 -> exists t2 l3, handle_ga rx received bus t1 l2 = Some (t2, l3) /\
    carries a l2 l3 /\ set_by bus a l2 l3 /\ (a.(ga_activetime) <= 0 -> t2.(gastep) = 0) /\
  forall l4, 0 < a.(ga_activetime) -> usable bus a.(ga_id) l4 ->
    let since := usec_of (now l4.(l_world)) - usec_of (now l0.(l_world)) in
    (since < a.(ga_activetime) * 1000 ->
      handle_ga rx received bus t2 l4 = Some (t2, l4 <| l_world ::= tick |>)) /\
    (a.(ga_activetime) * 1000 <= since ->
      exists t3 l5, handle_ga rx received bus t2 l4 = Some (t3, l5) /\ carries (off a) l4 l5 /\
  forall l6, usable bus a.(ga_id) l6 -> exists t4 l7, handle_ga rx received bus t3 l6 = Some (t4, l7) /\
    carries (off a) l6 l7 /\ set_by bus (off a) l6 l7 /\ t4.(gastep) = 0).
Proof.
  intros Ht Hp Hs U.
  destruct (starts rx received bus t l0 a rest Ht Hp Hs U) as (t1 & l1 & E1 & C1 & P1 & S1 & G1 & _ & T1).
  exists t1, l1. repeat (split; [done |]). intros l2 U2.
  destruct (repeats rx received bus t1 l2 a S1 G1 Hs U2) as (t2 & l3 & E2 & C2 & R2 & T2).
  exists t2, l3. do 3 (split; [done |]). split; [intros Ha; rewrite T2; by replace (_ <=? 0) with true by zbool |].
  intros l4 Ha U4 since. replace (_ <=? 0) with false in T2 by zbool.
  assert (X : t2.(gastep) = 2 /\ t2.(gatmp) = a /\ t2.(tv_ga) = now l0.(l_world)) by by rewrite T2.
  destruct X as (S2 & G2 & V2). clear T2.
  assert (Es : elapsed t2 l4 = since) by (unfold elapsed; by rewrite V2). split.
  { intros Hn. apply waits; [done | by rewrite Es, G2]. }
  intros Hn. destruct (releases rx received bus t2 l4 a S2 G2 Hs U4) as (t3 & l5 & E3 & C3 & _ & T3); [by rewrite Es |].
  exists t3, l5. repeat (split; [done |]). intros l6 U6.
  destruct (ends rx received bus t3 l6 (off a)) as (l7 & E4 & C4 & R4);
    [by rewrite T3 | by rewrite T3 | by apply switching_off | exact U6 |].
  exists (t3 <| gastep := 0 |>), l7. done.
Qed.

(** Accessory 3 of [example], a command for it queued. *)
Definition queued : world := final (enqueueGA 1 3 0 1 100) example.
Definition queued_command : ga_data_t := default ga_zero (head (pending queued 1)).
Definition queued_line : line_t := mk_line queued initial_ddl initial_mfx.

Lemma queued_wf : GA.wf queued.
Proof.
  destruct (enqueueGA_accepts example 1 3 example_ga (Ring.make 50 ga_zero) 0 1 100)
    as (c & w' & E & W & _); [exact example_wf | vm_compute; reflexivity.. | split; [done | reflexivity] |].
  unfold queued, final. by rewrite E.
Qed.

Lemma ga_cycle_witness :
  exists t1 l1, handle_ga [] [] 1 thr_start queued_line = Some (t1, l1) /\
    carries queued_command queued_line l1 /\ pending l1.(l_world) 1 = [] /\
  forall l2, usable 1 queued_command.(ga_id) l2 -> exists t2 l3, handle_ga [] [] 1 t1 l2 = Some (t2, l3) /\
    carries queued_command l2 l3 /\ set_by 1 queued_command l2 l3.
Proof.
  destruct (ga_cycle [] [] 1 thr_start queued_command [] queued_line) as (t1 & l1 & E & C & P & N).
  - reflexivity.
  - vm_compute. reflexivity.
  - constructor; [left | |]; vm_compute; by repeat split.
  - constructor; [exact queued_wf | reflexivity | by split | | vm_compute; reflexivity].
    eexists. split; [vm_compute; reflexivity | discriminate].
  - exists t1, l1. repeat (split; [assumption |]). intros l2 U2.
    destruct (N l2 U2) as (t2 & l3 & E2 & C2 & S2 & _). exists t2, l3. split; [exact E2 |]. split; [exact C2 | exact S2].
Defined.
End DdlSpec.
