(* ===== verification/Server.v ===== *)
(** srcp-server.c, with the end of a session (srcp-session.c) and the reset of a
    bus's locomotives (srcp-gl.c): the operations that reach into several
    device groups. *)

From S2P Require Import Prelude World Messages Session Services Accessory Loco Loopback.

Module Server.

(** * Server state *)

Definition set_server_state (state : server_state_t) : prog world unit :=
  modify (fun w => w <| server_state := state |>).
Definition get_server_state : prog world server_state_t := gets server_state.

(** The reply is written only in a known state. *)
Definition infoSERVER (msg : string) : prog world (Z * string) :=
  let* akt_time := gettimeofday in
  let* state := get_server_state in
  let line text := fmt [stamp akt_time; " 100 INFO 0 SERVER "; text; nl] in
  ret match state with
      | ssResetting => (SRCP_OK, line "RESETTING"%string)
      | ssTerminating => (SRCP_OK, line "TERMINATING"%string)
      | ssRunning => (SRCP_OK, line "RUNNING"%string)
      | ssInitializing => (SRCP_UNKNOWNVALUE, msg)
      end.

Definition VERSION : string := "2508".

(** [serial] and [temp] are what [getPlatformData] reads. *)
Definition describeSERVER (serial temp bus addr : Z) : prog world (Z * string) :=
  if negb (bus =? 0) then ret (SRCP_UNSUPPORTEDOPERATION, ""%string)
  else
    let* tv := gettimeofday in
    ret (SRCP_INFO, fmt [stamp tv; " 101 INFO 0 SERVER BASRCPD "; VERSION; " SERIAL ";
                         dec (u64 serial); " TEMP "; dec (u64 temp / 100); nl]).

Definition init_bus_server (bus : Z) : prog world Z :=
  let* t := gettimeofday in
  do* bus_mod 0 (fun b => b <| power_change_time := t |>) in
  ret 0.

Definition server_shutdown : prog world unit :=
  do* set_server_state ssTerminating in
  let* r := infoSERVER "" in
  enqueueInfoMessage r.2.

(** * Reset *)

Section Reset.

(** What [init_bus_DDL] does to the daemon's state. *)
Context (init_bus_DDL : Z -> prog world Z).

(** [buses[bus].init_func] *)
Definition init_func (bus : Z) : prog world unit :=
  let* b := bus_get bus in
  match b.(driver) with
  | NoDriver => ret tt
  | Loopback => do* Loopback.LB.init_bus_LOOPBACK bus in ret tt
  | DDL => do* init_bus_DDL bus in ret tt
  end.

Definition cacheCleanGL (bus : Z) : prog world unit :=
  do* GL.clean_tables bus in init_func bus.

Definition server_reset : prog world unit :=
  do* set_server_state ssResetting in
  let* r := infoSERVER "" in
  do* enqueueInfoMessage r.2 in
  let* n := gets num_buses in
  do* for_each (range 1 n) (fun bus =>
    do* setPower bus 0 "SERVER RESET" in
    do* cacheCleanGL bus in
    GA.clean_GA bus) in
  do* set_server_state ssRunning in
  let* r := infoSERVER "" in
  enqueueInfoMessage r.2.
End Reset.

(** * The end of a session *)

Definition stop_session (sid : Z) : prog world Z :=
  let* akt_time := gettimeofday in
  do* GA.unlock_ga_bysessionid sid in
  do* GL.unlock_gl_bysessionid sid in
  do* enqueueInfoMessage (snprintf 1000 (fmt [stamp akt_time; " 102 INFO 0 SESSION "; dec sid; nl])) in
  ret SRCP_OK.
End Server.
