(* ===== verification/Command.v ===== *)
(** srcp-command.c: the interpreter of the clients' commands, from the text of a
    line to the calls of the device groups and back to the reply. *)

From S2P Require Import Prelude World Messages Text Session Services.
From S2P Require Import Accessory Loco Feedback Clock Program Server.

Module Command.

(** [bus_has_devicegroup(bus, dg) && strncasecmp(device, name, strlen(name)) == 0] *)
Definition addressed (bus : Z) (dg : devicegroup) (device name : string) : prog world bool :=
  let* has := bus_has_devicegroup bus dg in
  ret (has && starts device name).

Section Interpreter.

(** What the environment does: [others] while a service-mode command waits for
    its bus thread, [meanwhile k] during the [k]-th [usleep] of a WAIT;
    [init_bus_DDL], what the DDL driver's initialisation does to the daemon's
    state; [serial] and [temp], what [getPlatformData] reads; [patience], how
    many sleeps of WAIT TIME are looked at. *)
Context (others : prog world bool) (meanwhile : nat -> prog world unit).
Context (init_bus_DDL : Z -> prog world Z) (serial temp : Z) (patience : nat).

(** * SET and CHECK *)

(** The loop over the function bits: [func] and [shift] are 32 bits wide. *)
Fixpoint parse_funcs (pfuncs : string) (func shift : Z) : Z :=
  match pfuncs with
  | EmptyString => func
  | String c pfuncs =>
      let func' := if ch c =? ch "1" then Z.lor func shift else func in
      let shift' := if (ch c =? ch "1") || (ch c =? ch "0") then u32 (Z.shiftl shift 1)
                    else if ch c =? ch " " then shift else 0 in
      if shift' =? 0 then func' else parse_funcs pfuncs func' shift'
  end.

Definition sm_type (ctype : string) : option sm_type_t :=
  if strcasecmp ctype "REG" =? 0 then Some REGISTER
  else if strcasecmp ctype "CV" =? 0 then Some CV
  else if strcasecmp ctype "CVBIT" =? 0 then Some CV_BIT
  else if strcasecmp ctype "PAGE" =? 0 then Some PAGE
  else if strcasecmp ctype "MMREG" =? 0 then Some MM_REG
  else if strcasecmp ctype "CVMFX" =? 0 then Some CV_MFX
  else if strcasecmp ctype "BIND" =? 0 then Some BIND_MFX
  else None.

Definition set_GL (sessionid bus : Z) (parameter : string) (setorcheck : bool) : prog world Z :=
  let '(nparms, ps) := tokens parameter 5 in
  match ps with
  | [paddr; pdirection; pspeed; pmaxspeed; pfuncs] =>
      let func := parse_funcs pfuncs 0 1 in
      if 4 <=? nparms then
        let addr := atoi paddr in
        let direction := atoi pdirection in
        let* r := GL.cacheGetLockGL bus (u32 addr) in
        let lockid := default 0 r.2 in
        if (lockid =? 0) || (lockid =? sessionid) || (direction =? 2) then
          if setorcheck
          then GL.enqueueGL bus (u32 addr) direction (atoi pspeed) (atoi pmaxspeed) (i32 func)
          else ret SRCP_OK
        else ret SRCP_DEVICELOCKED
      else ret SRCP_LISTTOOSHORT
  | _ => undefined
  end.

Definition set_GA (sessionid bus : Z) (parameter : string) (setorcheck : bool) : prog world Z :=
  match sscanf parameter [Dld; Dld; Dld; Dld] with
  | [Num gaddr; Num port; Num aktion; Num delay] =>
      let* '(_, lockid) := GA.getlockGA bus (i32 gaddr) in
      if (lockid =? 0) || (lockid =? sessionid) then
        if setorcheck then GA.enqueueGA bus (i32 gaddr) (i32 port) (i32 aktion) (i32 delay)
        else ret SRCP_OK
      else ret SRCP_DEVICELOCKED
  | _ => ret SRCP_LISTTOOSHORT
  end.

Definition set_FB (bus : Z) (parameter : string) (setorcheck : bool) : prog world Z :=
  match sscanf parameter [Dld; Dld] with
  | [Num fbport; Num value] =>
      if setorcheck then FB.setFB bus (i32 fbport) (i32 value)
      else ret SRCP_UNSUPPORTEDDEVICEGROUP
  | _ => ret SRCP_UNSUPPORTEDDEVICEGROUP
  end.

Definition set_GM (parameter : string) : prog world Z :=
  let '(result, ps) := tokens parameter 3 in
  match ps with
  | [psend; preply; msg] =>
      match sscanf psend [Dlu], sscanf preply [Dlu] with
      | [Num sendto], [Num replyto] =>
          if result <? 3 then ret SRCP_LISTTOOSHORT else setGM sendto replyto msg
      | _, _ => ret SRCP_WRONGVALUE
      end
  | _ => undefined
  end.

(** The service-mode commands of SET and VERIFY; [mm] tells whether the type
    MMREG is known. *)
Definition set_SM (bus : Z) (command : sm_command_t) (mm : bool) (parameter : string)
    : prog world (Z * string) :=
  match sscanf parameter [Dld; Ds 10; Dlu; Dlu; Dlu] with
  | Num addr :: Str ctype :: Num value1 :: values =>
      let run protocol type typeaddr bit_index value :=
        Program.SM.infoSM others bus protocol command type (i32 addr) (i32 typeaddr)
          (i32 bit_index) (i32 value) "" in
      let short := ret (SRCP_LISTTOOSHORT, ""%string) in
      let wrong := ret (SRCP_WRONGVALUE, ""%string) in
      match sm_type ctype with
      | None => wrong
      | Some type =>
          match type, values with
          | CV_BIT, [Num value2; Num value3] => run PROTO_NMRA type value1 value2 value3
          | CV_BIT, _ => short
          | (REGISTER | CV | PAGE), Num value2 :: _ => run PROTO_NMRA type value1 (-1) value2
          | (REGISTER | CV | PAGE), _ => short
          | MM_REG, Num value2 :: _ => if mm then run PROTO_MM type value1 (-1) value2 else wrong
          | MM_REG, _ => if mm then short else wrong
          | CV_MFX, [Num value2; Num value3] => run PROTO_MFX type value1 value2 value3
          | CV_MFX, _ => short
          | BIND_MFX, _ => run PROTO_MFX type (-1) (-1) value1
          | _, _ => wrong
          end
      end
  | _ => ret (SRCP_LISTTOOSHORT, ""%string)
  end.

Definition set_TIME (parameter : string) (setorcheck : bool) : prog world Z :=
  match sscanf parameter [Dld; Dld; Dld; Dld] with
  | [Num d; Num h; Num m; Num s] =>
      if setorcheck then TIME.setTIME (i32 d) (i32 h) (i32 m) (i32 s) else ret SRCP_OK
  | _ => ret SRCP_LISTTOOSHORT
  end.

Definition set_LOCK (sessionid bus : Z) (parameter : string) (setorcheck : bool) : prog world Z :=
  match sscanf parameter [Ds 10; Dld; Dld] with
  | [Str devgrp; Num addr; Num duration] =>
      if starts devgrp "GL" then
        if setorcheck then GL.cacheLockGL bus (u32 addr) duration sessionid else ret SRCP_OK
      else if starts devgrp "GA" then
        if setorcheck then GA.lockGA bus (i32 addr) duration sessionid else ret SRCP_OK
      else ret SRCP_UNSUPPORTEDDEVICEGROUP
  | _ => ret SRCP_LISTTOOSHORT
  end.

Definition set_POWER (bus : Z) (parameter : string) (setorcheck : bool) : prog world Z :=
  let '(nelem, ps) := tokens parameter 2 in
  match ps with
  | [state; msg] =>
      if 1 <=? nelem then
        if starts state "OFF" then if setorcheck then setPower bus 0 msg else ret SRCP_OK
        else if starts state "ON" then if setorcheck then setPower bus 1 msg else ret SRCP_OK
        else ret SRCP_WRONGVALUE
      else ret SRCP_LISTTOOSHORT
  | _ => undefined
  end.

(** The reply is emptied at the end, so that the caller writes the code. *)
Definition handle_setcheck (sessionid bus : Z) (device parameter : string) (setorcheck : bool)
    : prog world Z :=
  let* gl := addressed bus DG_GL device "GL" in
  if (gl : bool) then set_GL sessionid bus parameter setorcheck else
  let* ga := addressed bus DG_GA device "GA" in
  if (ga : bool) then set_GA sessionid bus parameter setorcheck else
  let* fb := addressed bus DG_FB device "FB" in
  if (fb : bool) then set_FB bus parameter setorcheck else
  let* gm := addressed bus DG_GM device "GM" in
  if (gm : bool) then set_GM parameter else
  let* sm := addressed bus DG_SM device "SM" in
  if (sm : bool) then let* r := set_SM bus SET true parameter in ret r.1 else
  let* time := addressed bus DG_TIME device "TIME" in
  if (time : bool) then set_TIME parameter setorcheck else
  let* lock := addressed bus DG_LOCK device "LOCK" in
  if (lock : bool) then set_LOCK sessionid bus parameter setorcheck else
  let* power := addressed bus DG_POWER device "POWER" in
  if (power : bool) then set_POWER bus parameter setorcheck else
  ret SRCP_UNSUPPORTEDDEVICEGROUP.

Definition handleSET (sessionid bus : Z) (device parameter : string) : prog world Z :=
  handle_setcheck sessionid bus device parameter true.
Definition handleCHECK (sessionid bus : Z) (device parameter : string) : prog world Z :=
  handle_setcheck sessionid bus device parameter false.

(** * GET *)

(** The third value of [GET SM CVMFX] is read although it is optional. *)
Definition get_SM (bus : Z) (parameter : string) : prog world (Z * string) :=
  match sscanf parameter [Dld; Ds 10; Dld; Dld; Dld] with
  | Num addr :: Str ctype :: values =>
      let run protocol type typeaddr bit_index value :=
        Program.SM.infoSM others bus protocol GET type (i32 addr) (i32 typeaddr)
          (i32 bit_index) (i32 value) "" in
      let short := ret (SRCP_LISTTOOSHORT, ""%string) in
      let wrong := ret (SRCP_WRONGVALUE, ""%string) in
      match sm_type ctype with
      | None => wrong
      | Some type =>
          match type, values with
          | CV_BIT, Num value1 :: Num value2 :: _ => run PROTO_NMRA type value1 value2 (-1)
          | CV_BIT, _ => short
          | (REGISTER | CV | PAGE), Num value1 :: _ => run PROTO_NMRA type value1 (-1) (-1)
          | (REGISTER | CV | PAGE), _ => short
          | MM_REG, Num value1 :: _ => run PROTO_MM type value1 (-1) (-1)
          | MM_REG, _ => short
          | CV_MFX, [Num value1; Num value2; Num value3] => run PROTO_MFX type value1 value2 value3
          | CV_MFX, [Num value1; Num value2] => undefined
          | CV_MFX, _ => short
          | BIND_MFX, _ => run PROTO_MFX type (-1) (-1) (-1)
          | _, _ => wrong
          end
      end
  | _ => ret (SRCP_LISTTOOSHORT, ""%string)
  end.

(** Without an address the uninitialised [addr] is read. *)
Definition get_DESCRIPTION (bus : Z) (parameter : string) : prog world (Z * string) :=
  match sscanf parameter [Ds 10; Dld] with
  | Str devgrp :: rest =>
      let addr := match rest with [Num addr] => Some addr | _ => None end in
      let* described := bus_has_devicegroup bus DG_DESCRIPTION in
      if described then
        if starts devgrp "GL" then let* a := need addr in GL.cacheDescribeGL bus (u32 a)
        else if starts devgrp "GA" then let* a := need addr in GA.describeGA bus (i32 a)
        else if starts devgrp "FB" then
          let* rc := FB.describeFB bus (i32 (default 0 addr)) in ret (rc, ""%string)
        else if starts devgrp "SESSION" then
          let* rc := describeSESSION bus (u64 (default 0 addr)) in ret (rc, ""%string)
        else if starts devgrp "TIME" then TIME.describeTIME
        else if starts devgrp "SERVER" then
          Server.describeSERVER serial temp bus (i32 (default 0 addr))
        else ret (SRCP_UNSUPPORTEDDEVICEGROUP, ""%string)
      else ret (SRCP_UNSUPPORTEDDEVICEGROUP, ""%string)
  | _ => describeBus bus
  end.

Definition get_LOCK (bus : Z) (parameter : string) : prog world (Z * string) :=
  match sscanf parameter [Ds 10; Dld] with
  | [Str devgrp; Num addr] =>
      if starts devgrp "GL" then GL.describeLOCKGL bus (u32 addr) ""
      else if starts devgrp "GA" then GA.describeLOCKGA bus (i32 addr) ""
      else ret (SRCP_UNSUPPORTEDDEVICEGROUP, ""%string)
  | _ => ret (SRCP_LISTTOOSHORT, ""%string)
  end.

Definition handleGET (bus : Z) (device parameter : string) : prog world (Z * string) :=
  let short := ret (SRCP_LISTTOOSHORT, ""%string) in
  let* fb := addressed bus DG_FB device "FB" in
  if (fb : bool) then
    match sscanf parameter [Dld] with
    | [Num port] => FB.infoFB bus (i32 port)
    | _ => short
    end else
  let* gl := addressed bus DG_GL device "GL" in
  if (gl : bool) then
    match sscanf parameter [Dld] with
    | [Num addr] => let* r := GL.cacheInfoGL bus (u32 addr) in ret (r.1, default ""%string r.2)
    | _ => short
    end else
  let* ga := addressed bus DG_GA device "GA" in
  if (ga : bool) then
    match sscanf parameter [Dld; Dld] with
    | [Num addr; Num port] => GA.infoGA bus (i32 addr) (i32 port)
    | _ => short
    end else
  let* sm := addressed bus DG_SM device "SM" in
  if (sm : bool) then get_SM bus parameter else
  let* power := addressed bus DG_POWER device "POWER" in
  if (power : bool) then infoPower bus else
  let* server := addressed bus DG_SERVER device "SERVER" in
  if (server : bool) then Server.infoSERVER "" else
  let* time := addressed bus DG_TIME device "TIME" in
  if (time : bool) then
    let* r := TIME.infoTIME in
    ret (if r.1 =? SRCP_INFO then r else (SRCP_NODATA, r.2))
  else if starts device "DESCRIPTION" then get_DESCRIPTION bus parameter else
  let* lock := addressed bus DG_LOCK device "LOCK" in
  if (lock : bool) then get_LOCK bus parameter else
  ret (SRCP_UNSUPPORTEDDEVICEGROUP, ""%string).

(** * WAIT *)

Definition set_akt_time (t : timeval) : prog world unit :=
  modify (fun w => w <| cmd_akt_time := t |>).

(** [getFB(bus, port, &akt_time, &value)]: both are written on success only. *)
Definition read_contact (bus port : Z) (value : option Z) : prog world (Z * option Z) :=
  let* r := FB.getFB bus port in
  match r with
  | (rc, Some (time, state)) => do* set_akt_time time in ret (rc, Some state)
  | (rc, None) => ret (rc, value)
  end.

(** The polling loop: [n] more passes until [timeout], which has [n - 1] left,
    is below zero; [k] counts the sleeps.  The result tells whether the contact
    had the value in time.  An uninitialised [value] is not compared. *)
Fixpoint poll_contact (n k : nat) (bus port waitvalue : Z) (value : option Z) : prog world bool :=
  match n with
  | O => undefined
  | S n =>
      do* meanwhile k in
      let* '(_, value) := read_contact bus port value in
      match n with
      | O => ret false
      | S _ =>
          let* v := need value in
          if v =? waitvalue then ret true
          else poll_contact n (S k) bus port waitvalue value
      end
  end.

(** [timeout *= 20], when the product is a [long]. *)
Definition times20 (timeout : Z) : prog world Z :=
  do* guard ((LONG_MIN <=? timeout * 20) && (timeout * 20 <=? LONG_MAX)) in ret (timeout * 20).

Definition wait_FB (bus : Z) (parameter : string) : prog world (Z * string) :=
  match sscanf parameter [Dld; Dd; Dld] with
  | [Num port; Num waitvalue; Num timeout] =>
      let port := i32 port in
      let* '(rc, value) := read_contact bus port None in
      if (rc =? SRCP_OK) && bool_decide (value = Some waitvalue) then FB.infoFB bus port
      else
        let* timeout := times20 timeout in
        let* found := poll_contact (Z.to_nat timeout + 1) 0 bus port waitvalue value in
        if found then FB.infoFB bus port
        else
          let* t := gettimeofday in
          do* set_akt_time t in
          ret (SRCP_TIMEOUT, ""%string)
  | _ => ret (SRCP_LISTTOOSHORT, ""%string)
  end.

(** Signed arithmetic of [w] bits. *)
Definition checked (w z : Z) : option Z :=
  if (- 2 ^ (w - 1) <=? z) && (z <? 2 ^ (w - 1)) then Some z else None.
(** [((d * 24 + h) * 60 + m) * 60 + s] *)
Definition time_sum (w d h m s : Z) : option Z :=
  d24 ← checked w (d * 24); hh ← checked w (d24 + h);
  h60 ← checked w (hh * 60); mm ← checked w (h60 + m);
  m60 ← checked w (mm * 60); checked w (m60 + s).

Definition read_time : prog world Z :=
  let* '(_, vt) := TIME.getTIME in
  need (time_sum 32 vt.(day) vt.(hour) vt.(min) vt.(sec)).

Fixpoint poll_time (fuel k : nat) (target now : Z) : prog world unit :=
  if now <=? target then
    match fuel with
    | O => undefined
    | S fuel =>
        do* meanwhile k in
        let* now := read_time in
        poll_time fuel (S k) target now
    end
  else ret tt.

Definition wait_TIME (parameter : string) : prog world (Z * string) :=
  match sscanf parameter [Dld; Dld; Dld; Dld] with
  | [Num d; Num h; Num m; Num s] =>
      let* available := TIME.time_is_available in
      if (available : bool) then
        let* target := need (time_sum 64 d h m s) in
        let* now := read_time in
        do* poll_time patience 0 target now in
        TIME.infoTIME
      else ret (SRCP_NODATA, ""%string)
  | _ => ret (SRCP_LISTTOOSHORT, ""%string)
  end.

Definition handleWAIT (bus : Z) (device parameter : string) : prog world (Z * string) :=
  let* fb := addressed bus DG_FB device "FB" in
  if (fb : bool) then wait_FB bus parameter else
  let* time := addressed bus DG_TIME device "TIME" in
  if (time : bool) then wait_TIME parameter else
  ret (SRCP_UNSUPPORTEDDEVICEGROUP, ""%string).

(** * VERIFY *)

Definition handleVERIFY (bus : Z) (device parameter : string) : prog world (Z * string) :=
  let* sm := addressed bus DG_SM device "SM" in
  if (sm : bool) then set_SM bus VERIFY false parameter
  else ret (SRCP_UNSUPPORTEDOPERATION, ""%string).

(** * TERM *)

Definition term_GL (sessionid bus : Z) (parameter : string) : prog world Z :=
  match sscanf parameter [Dld] with
  | [Num addr] =>
      let* rc := GL.cacheUnlockGL bus (u32 addr) sessionid in
      if rc =? SRCP_OK then GL.cacheTermGL bus (u32 addr) else ret rc
  | _ => ret SRCP_UNSUPPORTEDDEVICEGROUP
  end.

Definition term_GA (sessionid bus : Z) (parameter : string) : prog world Z :=
  match sscanf parameter [Dld] with
  | [Num addr] =>
      let addr := i32 addr in
      let* '(_, lockid) := GA.getlockGA bus addr in
      if lockid =? 0 then GA.termGA bus addr
      else if lockid =? sessionid then
        let* rc := GA.unlockGA bus addr sessionid in
        if SRCP_OK =? rc then GA.termGA bus addr else ret SRCP_UNSUPPORTEDDEVICEGROUP
      else ret SRCP_DEVICELOCKED
  | _ => ret SRCP_UNSUPPORTEDDEVICEGROUP
  end.

Definition term_LOCK (sessionid bus : Z) (parameter : string) : prog world Z :=
  match sscanf parameter [Ds 10; Dld] with
  | [Str devgrp; Num addr] =>
      if starts devgrp "GL" then GL.cacheUnlockGL bus (u32 addr) sessionid
      else if starts devgrp "GA" then GA.unlockGA bus (i32 addr) sessionid
      else ret SRCP_UNSUPPORTEDDEVICE
  | _ => ret SRCP_LISTTOOSHORT
  end.

Definition term_SESSION (sessionid bus : Z) (parameter : string) : prog world Z :=
  let termsession := match sscanf parameter [Dlu] with [Num t] => t | _ => sessionid end in
  termSESSION bus sessionid termsession.

(** The bus-wide service-mode commands, INIT and TERM. *)
Definition bus_SM (bus : Z) (command : sm_command_t) (parameter : string)
    : prog world (Z * string) :=
  let run protocol :=
    Program.SM.infoSM others bus protocol command NO_TYPE (-1) (-1) (-1) (-1) "" in
  match tokens parameter 1 with
  | (n, [protocol]) =>
      if n <? 1 then ret (SRCP_LISTTOOSHORT, ""%string)
      else if starts protocol "NMRA" then run PROTO_NMRA
      else if starts protocol "MFX" then run PROTO_MFX
      else if starts protocol "MM" then run PROTO_MM
      else ret (SRCP_WRONGVALUE, ""%string)
  | _ => undefined
  end.

Definition handleTERM (sessionid bus : Z) (device parameter : string) : prog world (Z * string) :=
  let silent (m : prog world Z) : prog world (Z * string) := let* rc := m in ret (rc, ""%string) in
  let* gl := addressed bus DG_GL device "GL" in
  if (gl : bool) then silent (term_GL sessionid bus parameter) else
  let* ga := addressed bus DG_GA device "GA" in
  if (ga : bool) then silent (term_GA sessionid bus parameter) else
  let* lock := addressed bus DG_LOCK device "LOCK" in
  if (lock : bool) then silent (term_LOCK sessionid bus parameter) else
  let* power := addressed bus DG_POWER device "POWER" in
  if (power : bool) then silent (termPower bus) else
  let* server := addressed bus DG_SERVER device "SERVER" in
  if (server : bool) then do* Server.server_shutdown in ret (SRCP_OK, ""%string) else
  let* session := addressed bus DG_SESSION device "SESSION" in
  if (session : bool) then silent (term_SESSION sessionid bus parameter) else
  let* sm := addressed bus DG_SM device "SM" in
  if (sm : bool) then bus_SM bus TERM parameter else
  let* time := addressed bus DG_TIME device "TIME" in
  if (time : bool) then silent TIME.termTIME else
  ret (SRCP_UNSUPPORTEDDEVICEGROUP, ""%string).

(** * INIT *)

(** Without the optional data the uninitialised buffer is passed on: reading it
    is undefined, as reading through a null pointer is. *)
Definition init_GL (bus : Z) (parameter : string) : prog world Z :=
  match sscanf parameter [Dld; Dc; Dld; Dld; Dld; Dline 30] with
  | Num addr :: Num prot :: Num protversion :: Num n_fs :: Num n_func :: opt =>
      GL.cacheInitGL bus (u32 addr) prot (i32 protversion) (i32 n_fs) (i32 n_func)
        match opt with [Str optData] => Some optData | _ => None end
  | _ => ret SRCP_LISTTOOSHORT
  end.

Definition init_GA (bus : Z) (parameter : string) : prog world Z :=
  match sscanf parameter [Dld; Dc] with
  | [Num addr; Num prot] => GA.initGA bus (i32 addr) prot
  | _ => ret SRCP_LISTTOOSHORT
  end.

Definition init_FB (bus : Z) (parameter : string) : prog world Z :=
  match sscanf parameter [Dld; Dc; Dld] with
  | [Num addr; Num prot; Num index] => FB.initFB bus (i32 addr) prot (i32 index)
  | _ => ret SRCP_LISTTOOSHORT
  end.

Definition init_TIME (parameter : string) : prog world Z :=
  match sscanf parameter [Dld; Dld] with
  | [Num rx; Num ry] => TIME.initTIME (i32 rx) (i32 ry)
  | _ => ret SRCP_LISTTOOSHORT
  end.

Definition handleINIT (bus : Z) (device parameter : string) : prog world (Z * string) :=
  let silent (m : prog world Z) : prog world (Z * string) := let* rc := m in ret (rc, ""%string) in
  let* gl := addressed bus DG_GL device "GL" in
  if (gl : bool) then silent (init_GL bus parameter) else
  let* ga := addressed bus DG_GA device "GA" in
  if (ga : bool) then silent (init_GA bus parameter) else
  let* fb := addressed bus DG_FB device "FB" in
  if (fb : bool) then silent (init_FB bus parameter) else
  let* power := addressed bus DG_POWER device "POWER" in
  if (power : bool) then silent (initPower bus) else
  let* time := addressed bus DG_TIME device "TIME" in
  if (time : bool) then silent (init_TIME parameter) else
  let* sm := addressed bus DG_SM device "SM" in
  if (sm : bool) then bus_SM bus INIT parameter else
  ret (SRCP_UNSUPPORTEDDEVICEGROUP, ""%string).

(** * RESET *)

Definition handleRESET (bus : Z) (device parameter : string) : prog world (Z * string) :=
  let* server := addressed bus DG_SERVER device "SERVER" in
  if (server : bool) then do* Server.server_reset init_bus_DDL in ret (SRCP_OK, ""%string)
  else ret (SRCP_UNSUPPORTEDDEVICEGROUP, ""%string).

(** * A command line *)

(** The chain of comparisons of the command's first letters. *)
Definition dispatch (sessionid bus : Z) (command devicegroup parameter : string)
    : prog world (Z * string) :=
  let silent (m : prog world Z) : prog world (Z * string) := let* rc := m in ret (rc, ""%string) in
  if starts command "SET" then silent (handleSET sessionid bus devicegroup parameter)
  else if starts command "CHECK" then silent (handleCHECK sessionid bus devicegroup parameter)
  else if starts command "GET" then handleGET bus devicegroup parameter
  else if starts command "WAIT" then handleWAIT bus devicegroup parameter
  else if starts command "INIT" then handleINIT bus devicegroup parameter
  else if starts command "TERM" then
    let* '(rc, reply) := handleTERM sessionid bus devicegroup parameter in ret (Z.abs rc, reply)
  else if starts command "VERIFY" then handleVERIFY bus devicegroup parameter
  else if starts command "RESET" then handleRESET bus devicegroup parameter
  else ret (SRCP_UNKNOWNCOMMAND, ""%string).

(** Remove the line break that ends a line of more than one character. *)
Fixpoint chomp_last (s : string) : string :=
  match s with
  | EmptyString => EmptyString
  | String c EmptyString => if ch c =? 10 then EmptyString else s
  | String c s => String c (chomp_last s)
  end.
Definition chomp (line : string) : string :=
  if (1 <? String.length line)%nat then chomp_last line else line.

(** One pass of the loop of [doCmdClient]: the reply to a line. *)
Definition do_line (sessionid : Z) (line : string) : prog world string :=
  let '(nelem, ptrs) := tokens (chomp line) 4 in
  match ptrs with
  | [command; cbus; devicegroup; parameter] =>
      let bus := u64 (atoi cbus) in
      let* t := gettimeofday in
      do* set_akt_time t in
      let* n := gets num_buses in
      let* '(rc, reply) :=
        (if 3 <=? nelem then
           if bus <=? n then dispatch sessionid bus command devicegroup parameter
           else ret (SRCP_WRONGVALUE, ""%string)
         else ret (SRCP_LISTTOOSHORT, ""%string)) in
      let* t := gets cmd_akt_time in
      ret (if decide (reply = ""%string) then (srcp_fmt_msg rc t).2 else reply)
  | _ => undefined
  end.
End Interpreter.
End Command.
