(* ===== verification/Client.v ===== *)
(** clientservice.c, the info sessions of srcp-info.c and the line reader of
    io.c: what a client's thread does from the welcome line to its end. *)

From S2P Require Import Prelude World Messages Text Session Services.
From S2P Require Import Accessory Loco Feedback Clock Server Command.

Module Client.

(** * Reading a line *)

(** What a [read] of one byte gives: the byte, 0 at the end of the connection,
    or -1 with or without an interruption. *)
Inductive read_t := Byte (c : ascii) | Eof | Eintr | Error.

Definition isvalidchar (c : ascii) : bool :=
  ((0x20 <=? ch c) && (ch c <=? 127)) || (ch c =? 0x09) || (ch c =? 10).

(** The loop over the rest of the line, with [i] characters stored so far: the
    characters stored and the input left. *)
Fixpoint read_rest (input : list read_t) (i len : Z) : string * list read_t :=
  match input with
  | Byte c :: input =>
      let stored := isvalidchar c && (i <? len - 1) in
      let '(line, rest) :=
        (if ch c =? 10 then (EmptyString, input)
         else read_rest input (if stored then i + 1 else i) len) in
      (if stored then String c line else line, rest)
  | _ :: input => (EmptyString, input)
  | [] => (EmptyString, [])
  end.

(** The result -1, 0 or the number of characters, the line and the input left. *)
Fixpoint socket_readline (input : list read_t) (len : Z) : Z * string * list read_t :=
  match input with
  | [] => (0, EmptyString, [])
  | Eof :: input => (0, EmptyString, input)
  | Eintr :: input => socket_readline input len
  | Error :: input => (-1, EmptyString, input)
  | Byte c :: input =>
      let '(line, rest) := read_rest input (if isvalidchar c then 1 else 0) len in
      let line := if isvalidchar c then String c line else line in
      (Z.of_nat (String.length line), line, rest)
  end.

(** [writen]: the text goes out whole; failing writes are not modelled. *)
Definition sent (socket : Z) (texts : list string) (w : world) : world :=
  w <| sock_out ::= fun m => <[socket := default [] (m !! socket) ++ texts]> m |>.
Definition writen (socket : Z) (text : string) : prog world Z :=
  do* (if decide (text = ""%string) then ret tt else modify (sent socket [text])) in
  ret (Z.of_nat (String.length text)).

(** * The messages of an info session

    The pipe carries messages, each closed by a NUL; [read] takes what there
    is, at most the room in the buffer. *)

Definition PIPEBUFFER : nat := 2048.

Definition encode (msgs : list string) : list ascii :=
  concat ((fun m => String.list_ascii_of_string m ++ [NUL]) <$> msgs).
Fixpoint decode (bytes : list ascii) (acc : list ascii) : list string :=
  match bytes with
  | [] => []
  | c :: bytes =>
      if decide (c = NUL) then String.string_of_list_ascii (rev acc) :: decode bytes []
      else decode bytes (c :: acc)
  end.

(** The C string at the start of a buffer; [None] when it does not end in it. *)
Fixpoint cstring (buffer : list ascii) : option string :=
  match buffer with
  | [] => None
  | c :: buffer => if decide (c = NUL) then Some EmptyString else String c <$> cstring buffer
  end.

(** The search for the start of a truncated line, down from offset [n - 1]: the
    offset of the NUL before it. *)
Fixpoint last_nul (n : nat) (buffer : list ascii) : option nat :=
  match n with
  | O => None
  | S n => if decide (buffer !! n = Some NUL) then Some n else last_nul n buffer
  end.

(** The loop that writes the messages of the buffer, from offset [b]: the
    messages sent, whether the truncated line at [linestart] was reached, and
    the last result of [writen]. *)
Fixpoint send_lines (fuel : nat) (buffer : list ascii) (linestart : option nat)
    (rwresult total b : nat) : option (list string * bool * nat) :=
  match fuel with
  | O => None
  | S fuel =>
      m ← cstring (drop b buffer);
      let swritten := String.length m in
      let total := (total + swritten + 1)%nat in
      let b := (b + swritten + 1)%nat in
      let out := if decide (m = ""%string) then [] else [m] in
      if decide (Some b = linestart) then Some (out, true, swritten)
      else if bool_decide (total < rwresult)%nat && bool_decide (0 < swritten)%nat then
        '(more, moved, s) ← send_lines fuel buffer linestart rwresult total b;
        Some (out ++ more, moved, s)
      else Some (out, false, swritten)
  end.

(** How a visit of the pipe ends: back to [select], asleep in [read] with a
    truncated line, or with the end of the session. *)
Inductive visit_t := Served | Blocked | Ended.

(** The loop over the reads, with [linelen] bytes of a truncated line at the
    start of the buffer: the lines sent, the bytes left in the pipe and how the
    visit ends. *)
Fixpoint read_pipe (fuel : nat) (buffer pipe : list ascii) (linelen : nat)
    : option (list string * list ascii * visit_t) :=
  match fuel with
  | O => None
  | S fuel =>
      let bufferlen := (PIPEBUFFER - linelen)%nat in
      let rwresult := Nat.min bufferlen (length pipe) in
      if decide (rwresult = 0)%nat then Some ([], pipe, Blocked)
      else
        let buffer := take linelen buffer ++ take rwresult pipe ++ drop (linelen + rwresult) buffer in
        let pipe := drop rwresult pipe in
        let truncated := bool_decide (rwresult = bufferlen) &&
          negb (bool_decide (buffer !! (PIPEBUFFER - 1)%nat = Some NUL)) in
        '(linestart, linelen) ←
          (if truncated then
             z ← last_nul (PIPEBUFFER - 1) buffer;
             Some (Some (S z), (PIPEBUFFER - 1 - z)%nat)
           else Some (None, 0%nat));
        '(out, moved, swritten) ← send_lines (S rwresult) buffer linestart rwresult 0 0;
        let buffer := match linestart with
                      | Some s => if (moved : bool)
                                  then take linelen (drop s buffer) ++ drop linelen buffer
                                  else buffer
                      | None => buffer
                      end in
        if decide (swritten = 0)%nat then Some (out, pipe, Ended)
        else match linestart with
             | None => Some (out, pipe, Served)
             | Some _ =>
                 '(more, pipe, visit) ← read_pipe fuel buffer pipe linelen;
                 Some (out ++ more, pipe, visit)
             end
  end.

(** The buffer is not initialised; no byte of it is read before it is written. *)
Definition visit_pipe (pipe : list ascii) : option (list string * list ascii * visit_t) :=
  read_pipe (S (length pipe)) (replicate PIPEBUFFER NUL) pipe 0.

(** * The start of an info session *)

Definition node_at (sn : Z) : prog world session_node_t := on_sess (Session.node_at sn).
Definition node_mod (sn : Z) (f : session_node_t -> session_node_t) : prog world unit :=
  on_sess (let* n := Session.node_at sn in Session.set_node sn (f n)).

Section Dump.
Context (socket bus : Z).

Local Abbreviation write_reply text := (do* writen socket text in ret tt).

(** The body of the loop over the locomotives. *)
Definition dump_gl (n : Z) : prog world unit :=
  let* i := GL.isInitializedGL bus n in
  if 0 <? i then
    let* r := GL.cacheDescribeGL bus i in
    do* write_reply r.2 in
    let* r := GL.cacheInfoGL bus i in
    do* (if r.1 =? SRCP_INFO then write_reply (default ""%string r.2) else ret tt) in
    let* r := GL.cacheGetLockGL bus i in
    let* lockid := need r.2 in
    if negb (lockid =? 0) then
      let* r := GL.describeLOCKGL bus i "" in
      write_reply r.2
    else ret tt
  else ret tt.

(** The body of the loop over the accessories; [reply] keeps what [infoGA] wrote
    for a port that was never switched. *)
Definition dump_ga (i : Z) : prog world unit :=
  let* init := GA.isInitializedGA bus i in
  if (init : bool) then
    let* r := GA.describeGA bus i in
    do* write_reply r.2 in
    do* for_each (range 0 1) (fun port =>
      let* r := GA.infoGA bus i port in
      if r.1 =? SRCP_INFO then write_reply r.2 else ret tt) in
    let* '(_, lockid) := GA.getlockGA bus i in
    if negb (lockid =? 0) then
      let* r := GA.describeLOCKGA bus i "" in
      write_reply r.2
    else ret tt
  else ret tt.

Definition dump_fb (i : Z) : prog world unit :=
  let* r := FB.getFB bus i in
  match r with
  | (rc, Some (_, value)) =>
      if (rc =? SRCP_OK) && negb (value =? 0) then
        let* r := FB.infoFB bus i in write_reply r.2
      else ret tt
  | _ => ret tt
  end.

(** All data of a bus for a new client. *)
Definition dump_bus : prog world unit :=
  let* r := describeBus bus in
  do* write_reply r.2 in
  let description := r.2 in
  do* (if strstr description "POWER" then let* r := infoPower bus in write_reply r.2
       else ret tt) in
  do* (if strstr description "TIME" then
         let* r := TIME.describeTIME in
         do* write_reply r.2 in
         let* r := TIME.infoTIME in
         write_reply r.2
       else ret tt) in
  do* (if strstr description "GL" then
         let* number := GL.getMaxAddrGL bus in
         for_each (range 1 number) dump_gl
       else ret tt) in
  do* (if strstr description "GA" then
         let* number := GA.get_number_ga bus in
         for_each (range 1 number) dump_ga
       else ret tt) in
  if strstr description "FB" then
    let* number := FB.get_number_fb bus in
    for_each (range 1 number) dump_fb
  else ret tt.
End Dump.

(** The visit of the pipe when it has messages: the session goes on or ends.
    Every message is written at once, so no visit falls asleep with a part of
    one. *)
Definition info_visit (sn : Z) : prog world bool :=
  let* n := node_at sn in
  let* w := get in
  let msgs := default [] (w.(sess).(pipes) !! n.(sn_pipefd1)) in
  let* '(out, unread, visit) := need (visit_pipe (encode msgs)) in
  do* modify (sent n.(sn_socket) out) in
  do* modify (fun w => w <| sess ::= fun s =>
    s <| pipes ::= <[n.(sn_pipefd1) := decode unread []]> |> |>) in
  match visit with
  | Served => ret true
  | Ended => ret false
  | Blocked => undefined
  end.

(** The start of [doInfoClient], with the descriptors [pipe] gives. *)
Definition start_info (sn fd0 fd1 : Z) : prog world unit :=
  do* node_mod sn (fun n => n <| sn_pipefd0 := fd0 |> <| sn_pipefd1 := fd1 |>) in
  do* modify (fun w => w <| sess ::= fun s => s <| pipes ::= <[fd1 := []]> |> |>) in
  let* n := node_at sn in
  let* buses := gets num_buses in
  for_each (range 0 buses) (dump_bus n.(sn_socket)).

Definition has_messages (sn : Z) : prog world bool :=
  let* n := node_at sn in
  let* w := get in
  ret (negb (bool_decide (default [] (w.(sess).(pipes) !! n.(sn_pipefd1)) = []))).

(** * The client's thread *)

Definition getnbr_commandsessions : prog world Z := gets (fun w => i32 w.(commandsessions)).

(** [mode] and [sid] as the session ends; a session that never registered keeps
    its node. *)
Definition end_client_thread (sn : Z) : prog world unit :=
  let* n := node_at sn in
  let mode := n.(sn_mode) in
  do* node_mod sn (fun n => n <| sn_mode := smUndefined |>) in
  let sid := n.(sn_session) in
  do* (match mode with
       | smInfo => modify (fun w => w <| sess ::= fun s =>
           s <| pipes ::= delete n.(sn_pipefd1) |> |>)
       | smCommand => modify (fun w => w <| commandsessions ::= fun c => u32 (c - 1) |>)
       | smUndefined => ret tt
       end) in
  if negb (bool_decide (mode = smUndefined)) && negb (sid =? 0) then
    do* on_sess (Session.destroy_session sid) in
    do* Server.stop_session sid in
    ret tt
  else ret tt.

Section Thread.

(** What the command interpreter takes from the environment, and [blocked k],
    what the other threads do while this one waits for its [k]-th line. *)
Context (others : prog world bool) (meanwhile : nat -> prog world unit).
Context (init_bus_DDL : Z -> prog world Z) (serial temp : Z) (patience : nat).
Context (blocked : nat -> prog world unit).

Local Abbreviation do_line :=
  (Command.do_line others meanwhile init_bus_DDL serial temp patience).

(** [pthread_testcancel]: the thread was cancelled. *)
Definition testcancel (sn : Z) : prog world bool :=
  let* n := node_at sn in
  let* w := get in
  ret (bool_decide (n.(sn_thread) ∈ w.(sess).(cancelled))).

Definition linelen : Z := MAXSRCPLINELEN - 1.

(** The [select] loop of an info session, one element of the input per pass:
    text of the client is ignored, the end of the connection or an error ends
    the session, and [Eintr] stands for a pass without anything from the
    client. *)
Fixpoint info_loop (k : nat) (sn : Z) (input : list read_t) : prog world unit :=
  let* cancelled := testcancel sn in
  if cancelled then ret tt
  else
    do* blocked k in
    match input with
    | Byte _ :: input | Eintr :: input =>
        let* ready := has_messages sn in
        let* alive := (if (ready : bool) then info_visit sn else ret true) in
        if alive then info_loop (S k) sn input else ret tt
    | _ => ret tt
    end.

(** The loop of [doCmdClient], which ends with the input, a read error or the
    thread's cancellation; each pass takes some of the input. *)
Fixpoint doCmdClient (fuel k : nat) (sn : Z) (input : list read_t) : prog world unit :=
  match fuel with
  | O => undefined
  | S fuel =>
      let* cancelled := testcancel sn in
      if cancelled then ret tt
      else
        do* blocked k in
        let* n := node_at sn in
        let '(result, line, input) := socket_readline input linelen in
        if (result =? 0) || (result =? -1) then ret tt
        else
          let* reply := do_line n.(sn_session) line in
          do* writen n.(sn_socket) reply in
          doCmdClient fuel (S k) sn input
  end.

(** The answer to a line of the handshake other than GO. *)
Definition shake (sn : Z) (nelem : Z) (cmd setcmd parm : string) : prog world Z :=
  if 0 <? nelem then
    if starts cmd "SET" then
      let* rc :=
        (if (nelem =? 3) && starts setcmd "CONNECTIONMODE" then
           if starts parm "SRCP INFO" then
             do* node_mod sn (fun n => n <| sn_mode := smInfo |>) in ret SRCP_OK_CONNMODE
           else if starts parm "SRCP COMMAND" then
             do* node_mod sn (fun n => n <| sn_mode := smCommand |>) in ret SRCP_OK_CONNMODE
           else ret SRCP_HS_WRONGCONNMODE
         else ret SRCP_UNKNOWNCOMMAND) in
      if (nelem =? 3) && starts setcmd "PROTOCOL" then
        ret (if starts parm "SRCP 0.8" then SRCP_OK_PROTOCOL else SRCP_HS_WRONGPROTOCOL)
      else ret rc
    else ret SRCP_UNKNOWNCOMMAND
  else ret SRCP_HS_NODATA.

(** GO: the session gets its number and the thread turns to its mode's loop. *)
Definition go (fuel : nat) (sn fd0 fd1 : Z) (input : list read_t) : prog world unit :=
  do* on_sess (Session.register_session sn) in
  let* time := gettimeofday in
  let* n := node_at sn in
  do* writen n.(sn_socket)
    (snprintf MAXSRCPLINELEN (fmt [stamp time; " 200 OK GO "; dec n.(sn_session); nl])) in
  do* start_session sn in
  let* n := node_at sn in
  match n.(sn_mode) with
  | smCommand =>
      do* modify (fun w => w <| commandsessions ::= fun c => u32 (c + 1) |>) in
      doCmdClient fuel 0 sn input
  | smInfo => do* start_info sn fd0 fd1 in info_loop 0 sn input
  | smUndefined => ret tt
  end.

(** The handshake. *)
Fixpoint handshake (fuel k : nat) (sn fd0 fd1 : Z) (input : list read_t) : prog world unit :=
  match fuel with
  | O => undefined
  | S fuel =>
      let* cancelled := testcancel sn in
      if cancelled then ret tt
      else
        do* blocked k in
        let '(result, line, input) := socket_readline input linelen in
        if (result =? 0) || (result =? -1) then ret tt
        else
          match tokens (Command.chomp line) 3 with
          | (nelem, [cmd; setcmd; parm]) =>
              if (0 <? nelem) && starts cmd "GO" then go (S (length input)) sn fd0 fd1 input
              else
                let* rc := shake sn nelem cmd setcmd parm in
                let* time := gettimeofday in
                let* n := node_at sn in
                do* writen n.(sn_socket) (srcp_fmt_msg rc time).2 in
                handshake fuel (S k) sn fd0 fd1 input
          | _ => undefined
          end
  end.

Definition WELCOME_MSG : string :=
  fmt ["srcpd V"; Server.VERSION; "; SRCP 0.8.4; SRCPOTHER 0.8.3"; nl].

(** The whole thread: handshake, session and clean-up. *)
Definition thr_doClient (self sn fd0 fd1 : Z) (input : list read_t) : prog world unit :=
  do* node_mod sn (fun n => n <| sn_thread := self |>) in
  let* n := node_at sn in
  do* writen n.(sn_socket) WELCOME_MSG in
  do* handshake (S (length input)) 0 sn fd0 fd1 input in
  end_client_thread sn.
End Thread.
End Client.
