(* ===== verification/Gateway.v ===== *)
(** mcs-gateway.c: the thread between the CAN bus of a Maerklin central station
    and the daemon.  The gateway works for one DDL bus. *)

From S2P Require Import Prelude World Messages Services Accessory Loco Program.
From S2P Require Import Spi Mfx Ddl Server.

Import Spi Mfx Ddl.

Module Gateway.

(** * Frames *)

Definition be16 (u : list Z) : Z := Z.lor (Z.shiftl (nth 0 u 0) 8) (nth 1 u 0).
Definition be32 (u : list Z) : Z :=
  u32 (Z.lor (Z.lor (Z.lor (Z.shiftl (nth 0 u 0) 24) (Z.shiftl (nth 1 u 0) 16))
    (Z.shiftl (nth 2 u 0) 8)) (nth 3 u 0)).

(** Byte [i] of a frame; [can_data] holds all 8 bytes of the C structure. *)
Definition data_at (f : can_frame) (i : nat) : Z := nth i f.(can_data) 0.
Definition set_data (i : nat) (v : Z) (f : can_frame) : can_frame :=
  f <| can_data ::= <[i := u8 v]> |>.
Definition set_dlc (n : Z) (f : can_frame) : can_frame := f <| can_dlc := n |>.

Definition simumaster : list Z := [0; 0; 0; 0; 3; 8; 0xFF; 0xFF].
(** A string literal of 8 bytes. *)
Definition bytes (s : string) : list Z := ch <$> String.list_ascii_of_string s.
Definition gfpstkonf0 (serial : Z) : list (list Z) :=
  [[1; 0; 0; 0] ++ be_bytes (serial mod 1000000);
   bytes "60473" ++ [0; 0; 0]; bytes "basrcpd" ++ [0]; [0; 0; 0; 0; 0; 0; 0; 0]].
Definition gfpstkonf1 : list (list Z) :=
  [[0x01; 0xFF; 0x31; 0xF2; 0xC3; 0xC3; 0x00; 0x96];
   [0x01; 0xC2; 0x02; 0x58; 0x02; 0xBC; 0x02; 0xEE];
   bytes "TEMP" ++ [0] ++ bytes "15" ++ [0];
   bytes "75" ++ [0; 0xC2; 0xB0] ++ bytes "C" ++ [0; 0]].

(** What is sent: the first [can_dlc] bytes. *)
Definition send_frame (f : can_frame) : prog world unit :=
  write_can (f <| can_data ::= take (Z.to_nat f.(can_dlc)) |>).

Fixpoint send_blocks (info : list (list Z)) (pkts : Z) : prog world Z :=
  match info with
  | [] => ret pkts
  | block :: info =>
      let pkts := pkts + 1 in
      do* send_frame (mk_frame (Z.lor (0x003B0300 + pkts) CAN_EFF_FLAG) 8 block) in
      send_blocks info pkts
  end.
Definition send_datablock (info : list (list Z)) : prog world Z := send_blocks info 0.

Section Thread.

(** [others] as in [infoSM] and [garbage], what an uninitialised reply buffer
    holds; [init_bus_DDL], the initialisation of the bus; [serial] and [temp],
    what [getPlatformData] reads; the buses the accessories go to. *)
Context (others : prog world bool) (garbage : string).
Context (init_bus_DDL : Z -> prog line_t Z) (serial temp : Z).
Context (FWD_M_ACCESSORIES FWD_N_ACCESSORIES : Z).

(** * Handlers

    A handler returns the frame to reply with, or [None] for [continue]. *)

Definition mod_mcs (f : mcs_t -> mcs_t) : prog world unit := modify (fun w => w <| mcs ::= f |>).

(** A frame for this node or for all. *)
Definition for_us (m : mcs_t) (uid : Z) : bool := (uid =? 0) || (uid =? m.(ownuid)).
(** [memcmp(frame.data, softvers, 4) == 0] *)
Definition names_us (m : mcs_t) (f : can_frame) : bool :=
  bool_decide (take 4 f.(can_data) = take 4 m.(softvers)).

(** [cacheCleanGL] of the gateway's bus. *)
Definition cacheCleanGL (bus : Z) : prog line_t unit :=
  do* on_world (GL.clean_tables bus) in do* init_bus_DDL bus in ret tt.

(** System commands of at least 5 bytes. *)
Definition system_command (m : mcs_t) (uid : Z) (f : can_frame) : prog line_t (option can_frame) :=
  let bus := m.(mcs_bus) in
  match data_at f 4 with
  | 0x00 => do* (if for_us m uid then do* on_world (setPower bus 0 "BY MCS") in ret tt
                 else ret tt) in ret None
  | 0x01 => do* (if for_us m uid then do* on_world (setPower bus 1 "BY MCS") in ret tt
                 else ret tt) in ret None
  | 0x03 => do* on_world (GL.handle_mcs_dir bus uid 4) in ret (Some f)
  | 0x04 =>
      do* (if uid =? m.(ownuid) then cacheCleanGL bus
           else do* on_world (GL.cacheTermGL bus uid) in ret tt) in
      ret (Some f)
  | 0x05 =>
      let* r := on_world (GL.handle_mcs_prot bus uid (data_at f 5)) in
      ret (if r <? 0 then None else Some f)
  | 0x06 =>
      if for_us m uid then
        do* on_world (mod_mcs (fun m => m <| accactive := be16 (drop 5 f.(can_data)) |>)) in
        ret (Some f)
      else ret None
  | 0x08 => ret (Some f)
  | 0x09 =>
      do* on_world (Program.SM.handle_mfx_bind_verify others garbage bus SET
                      (be16 (drop 5 f.(can_data))) 0) in
      ret None
  | 0x0B =>
      if names_us m f then
        ret (Some (if data_at f 5 =? 1 then
                     let v := i32 (u64 temp / 100) in
                     set_dlc 8 (set_data 6 (Z.shiftr v 8) (set_data 7 (Z.land v 0xFF) f))
                   else f))
      else ret None
  | 0x30 => do* on_ddl (handle_seek (drop 5 f.(can_data)) uid) in ret None
  | _ => ret None
  end.

Definition query_system (m : mcs_t) (uid : Z) (f : can_frame) : prog line_t (option can_frame) :=
  if for_us m uid then
    let* p := on_world (getPower m.(mcs_bus)) in
    ret (Some (set_data 4 p
      (set_dlc 5 (f <| can_data ::= fun d => take 4 m.(softvers) ++ drop 4 d |>))))
  else ret None.

Definition bind_verify (m : mcs_t) (cmnd : sm_command_t) (uid : Z) (f : can_frame)
    : prog line_t (option can_frame) :=
  let sid := be16 (drop 4 f.(can_data)) in
  do* (if (sid <? 1) || (0x3fff <? sid) then ret tt
       else on_world (Program.SM.handle_mfx_bind_verify others garbage m.(mcs_bus) cmnd uid sid)) in
  ret None.

Definition loco_speed (m : mcs_t) (uid : Z) (f : can_frame) : prog line_t (option can_frame) :=
  let* v := on_world (GL.handle_mcs_speed m.(mcs_bus) uid
    (if f.(can_dlc) =? 6 then be16 (drop 4 f.(can_data)) else -1)) in
  ret (Some (if (f.(can_dlc) =? 4) && (0 <=? v)
             then set_dlc 6 (set_data 4 (Z.shiftr v 8) (set_data 5 (Z.land v 0xFF) f)) else f)).

Definition loco_direction (m : mcs_t) (uid : Z) (f : can_frame) : prog line_t (option can_frame) :=
  let* v := on_world (GL.handle_mcs_dir m.(mcs_bus) uid
    (if f.(can_dlc) =? 5 then data_at f 4 else -1)) in
  let f := set_data 4 v f in
  ret (Some (if 0 <=? v then set_dlc 5 f else f)).

Definition loco_function (m : mcs_t) (uid : Z) (f : can_frame) : prog line_t (option can_frame) :=
  let* v := on_world (GL.handle_mcs_func m.(mcs_bus) uid (data_at f 4)
    (if 5 <? f.(can_dlc) then data_at f 5 else -1)) in
  let f := set_data 5 v f in
  ret (Some (if 0 <=? v then set_dlc 6 f else f)).

Definition config (m : mcs_t) (command : sm_command_t) (uid value ctrl : Z) (f : can_frame)
    : prog line_t (option can_frame) :=
  do* on_world (Program.SM.handle_mcs_config others garbage m.(mcs_bus) command (i32 uid)
    (Z.land (be16 (drop 4 f.(can_data))) 0x3FF) (Z.shiftr (data_at f 4) 2) value ctrl) in
  ret None.

(** An accessory by the address range of its protocol; the active time comes in
    units of 10 ms. *)
Definition switch_accessory (m : mcs_t) (uid : Z) (f : can_frame) : prog line_t (option can_frame) :=
  if (uid <? 0x3000) || (0x3FFF <? uid) then ret None
  else
    let v := if data_at f 5 =? 0 then 0
             else 10 * (if f.(can_dlc) =? 8 then be16 (drop 6 f.(can_data)) else m.(accactive)) in
    let addr := Z.land uid 0x7FF + 1 in
    do* on_world
      (if negb (Z.land uid 0x800 =? 0)
       then GA.handle_mcs_gacc FWD_N_ACCESSORIES (ch "N") addr (data_at f 4) (data_at f 5) v
       else GA.handle_mcs_gacc FWD_M_ACCESSORIES (ch "M") addr (data_at f 4) (data_at f 5) v) in
    ret None.

Definition status_data (m : mcs_t) (f : can_frame) : prog line_t (option can_frame) :=
  if names_us m f then
    match data_at f 4 with
    | 0x00 => let* n := on_world (send_datablock (gfpstkonf0 serial)) in
              ret (Some (set_dlc 6 (set_data 5 n f)))
    | 0x01 => let* n := on_world (send_datablock gfpstkonf1) in
              ret (Some (set_dlc 6 (set_data 5 n f)))
    | _ => ret None
    end
  else ret None.

Definition handle_command (m : mcs_t) (uid : Z) (f : can_frame) : prog line_t (option can_frame) :=
  match Z.shiftr (Z.land f.(can_id) 0x01FF0000) 16 with
  | 0x00 => if f.(can_dlc) <? 5 then query_system m uid f else system_command m uid f
  | 0x02 =>
      do* match f.(can_dlc) with
          | 1 => on_world (Program.SM.handle_mcs_discovery others garbage m.(mcs_bus) (data_at f 0) 0)
          | 5 => on_world (Program.SM.handle_mcs_discovery others garbage m.(mcs_bus) (data_at f 4)
                             (i32 uid))
          | _ => ret tt
          end in
      ret None
  | 0x04 => bind_verify m SET uid f
  | 0x06 => bind_verify m VERIFY uid f
  | 0x08 => loco_speed m uid f
  | 0x0A => loco_direction m uid f
  | 0x0C => loco_function m uid f
  | 0x0E => config m GET uid (data_at f 6) 0 f
  | 0x10 => config m SET uid (data_at f 6) (data_at f 7) f
  | 0x16 => switch_accessory m uid f
  | 0x30 => ret (Some (set_dlc 8 (f <| can_data := m.(softvers) |>)))
  | 0x31 =>
      let v := Z.land (be16 (drop 6 f.(can_data))) 0xFFF0 in
      do* (if (v =? 0x0030) || (v =? 0xFFF0)
           then on_world (mod_mcs (fun m => m <| pingactive := 3 |>)) else ret tt) in
      ret None
  | 0x01 =>
      do* (if data_at f 4 =? 0x0A then do* on_world (setPower m.(mcs_bus) 0 "OVERLOAD") in ret tt
           else ret tt) in
      ret None
  | 0x36 =>
      do* (if data_at f 4 =? 0x11 then on_world (mod_mcs (fun m => m <| simma := 1 |>))
           else ret tt) in
      ret None
  | 0x3A => status_data m f
  | _ => ret None
  end.

(** * The thread's loop *)

(** The frame is one of the protocol's: not an error or remote frame, and with
    the hash bits set. *)
Definition accepted (f : can_frame) : bool :=
  Z.land f.(can_id) 0xFE000380 =? Z.lor CAN_EFF_FLAG 0x300.

Definition reply_id (m : mcs_t) (id : Z) : Z :=
  u32 (Z.lor (Z.lor (Z.ldiff id 0xffff) m.(ownhash)) 0x00010000).

(** A frame arrives. *)
Definition receive_frame (f : can_frame) : prog line_t unit :=
  if accepted f then
    let* m := world_get mcs in
    let* r := handle_command m (be32 f.(can_data)) f in
    match r with
    | None => ret tt
    | Some f =>
        let* m := world_get mcs in
        on_world (send_frame (f <| can_id ::= reply_id m |>))
    end
  else ret tt.

(** No frame for a second: a ping, and the answer to a new device. *)
Definition idle : prog world unit :=
  do* mod_mcs (fun m => m <| pingactive ::= fun p => if 0 <? p then p - 1 else p |>) in
  let* m := gets mcs in
  do* send_frame (mk_frame (Z.lor (Z.lor 0x00300000 m.(ownhash)) CAN_EFF_FLAG) 0 []) in
  if negb (m.(simma) =? 0) then
    do* send_frame (mk_frame (Z.lor 0x00314711 CAN_EFF_FLAG) 8 simumaster) in
    mod_mcs (fun m => m <| simma := 0 |>)
  else ret tt.

(** One pass: [None] when [select] times out. *)
Definition thr_handleCAN_turn (f : option can_frame) : prog line_t unit :=
  match f with
  | None => on_world idle
  | Some f => receive_frame f
  end.

Definition get_pingactive : prog world Z := gets (fun w => w.(mcs).(pingactive)).

(** * Start and end *)

(** The byte-swapped word [htonl] gives on a little-endian machine. *)
Definition htonl (w : Z) : Z :=
  match be_bytes w with
  | [a; b; c; d] => Z.lor (Z.lor (Z.lor (Z.shiftl d 24) (Z.shiftl c 16)) (Z.shiftl b 8)) a
  | _ => 0
  end.
Definition hash (uid : Z) : Z :=
  let ouid := htonl uid in
  Z.lor (Z.land (Z.lxor (Z.shiftr ouid 16) ouid) 0xff7f) 0x300.

Definition version : Z := 2508.

(** [opened] tells whether the CAN socket could be opened; it is open when
    [mcs_bus] is not 0.  The thread starts with its locals cleared. *)
Definition init_mcs_gateway (opened : bool) (busnumber : Z) : prog line_t unit :=
  let* uid := ddl_get (fun d => d.(conf).(ddl_uid)) in
  do* on_world (mod_mcs (fun m =>
    m <| ownuid := uid |> <| ownhash := hash uid |>
      <| softvers ::= fun l => be_bytes uid ++ [version / 100; version mod 100] ++ drop 6 l |>)) in
  on_world (mod_mcs (fun m =>
    if (m.(mcs_bus) =? 0) && opened
    then m <| mcs_bus := busnumber |> <| simma := 0 |> <| accactive := 0 |> else m)).

Definition term_mcs_gateway : prog world unit := mod_mcs (fun m => m <| mcs_bus := 0 |>).
End Thread.
End Gateway.
