(* ===== verification/DdlInit.v ===== *)
(** ddl.c: the start of a DDL bus, which a server reset and the CAN side repeat,
    and the end of its thread. *)

From S2P Require Import Prelude World Services Spi Mfx Ddl Gateway.

Module DdlInit.
Import Spi Mfx Ddl.

Definition clear_known {A} (n : Z) (p : pool A) : pool A :=
  p <| knownAddresses := array (n + 1) 0 |> <| NrOfKnownAddresses := 0 |>.

Definition init_MaerklinPacketPool : prog line_t unit :=
  mod_ddl (fun d => d <| MaerklinPacketPool ::= clear_known MAX_MARKLIN_ADDRESS |>).
Definition init_NMRAPacketPool : prog line_t unit :=
  mod_ddl (fun d => d <| NMRAPacketPool := init_pool MAX_NMRA_ADDRESS |>).
Definition init_MFXPacketPool (busnumber : Z) : prog line_t unit :=
  do* mod_ddl (fun d => d <| MFXPacketPool := init_pool MAX_MFX_ADDRESS |>) in
  let* c := ddl_get conf in
  do* startMFXManagement busnumber c.(AUTO_MFX_SEARCH) in
  ret tt.

(** The pools of a bus that was active. *)
Definition stop_active : prog line_t unit :=
  do* reset_NMRAPacketPool in
  reset_MFXPacketPool.

Definition reset_refresh : prog line_t unit :=
  mod_ddl (fun d => d <| short_detected := 0 |> <| refreshInfo := refresh_start |>
                      <| refreshInfoFast := refresh_start |> <| lastRefreshFast := false |>).

(** The letters of the enabled protocols, over what the static array held. *)
Definition protocol_letters (enabled : Z) : string :=
  (if negb (Z.land enabled EP_MAERKLIN =? 0) then "M" else "") +:+
  (if negb (Z.land enabled EP_NMRADCC =? 0) then "N" else "") +:+
  (if negb (Z.land enabled EP_MFX =? 0) then "X" else "").
Definition overwrite (s old : string) : string :=
  s +:+ String.substring (String.length s) (String.length old) old.

(** [active]: the device is open; [mcs_device]: a CAN device is configured and
    [opened]: its socket can be opened; [old]: the static [protocols]. *)
Definition init_bus_DDL (active mcs_device opened : bool) (old : string) (busnumber : Z)
    : prog line_t Z :=
  do* when active stop_active in
  do* reset_refresh in
  let* c := ddl_get conf in
  let enabled p := negb (Z.land c.(ENABLED_PROTOCOLS) p =? 0) in
  do* (if enabled EP_MAERKLIN then init_MaerklinPacketPool
       else mod_ddl (fun d => d <| MaerklinPacketPool ::= fun p => p <| NrOfKnownAddresses := 0 |> |>)) in
  do* when (enabled EP_NMRADCC) init_NMRAPacketPool in
  do* when (enabled EP_MFX) (init_MFXPacketPool busnumber) in
  do* when mcs_device (Gateway.Gateway.init_mcs_gateway opened busnumber) in
  do* mod_ddl (fun d => d <| feedbackPipe := [] |>) in
  do* on_world (bus_mod busnumber (fun b =>
    b <| protocols := Some (overwrite (protocol_letters c.(ENABLED_PROTOCOLS)) old) |>)) in
  ret 0.

Definition end_bus_thread (mcs_device : bool) : prog line_t unit :=
  do* set_RTS false in
  do* when mcs_device (on_world Gateway.Gateway.term_mcs_gateway) in
  let* c := ddl_get conf in
  do* when (negb (Z.land c.(ENABLED_PROTOCOLS) EP_NMRADCC =? 0)) reset_NMRAPacketPool in
  when (negb (Z.land c.(ENABLED_PROTOCOLS) EP_MFX =? 0)) reset_MFXPacketPool.
End DdlInit.
