(* ===== verification/CommandSpec.v ===== *)
(** What the command interpreter does with a line: from the words a client
    writes to the call of the device group and the reply. *)

From S2P Require Import Prelude Ring World Messages Text Session Services.
From S2P Require Import Accessory Loco LocoFacts Feedback Clock Program Server Command.

Module CommandSpec.
Import Command.

(** * Lines *)

(** ["<cmd> <bus> <device> <parameter>\n"] *)
Definition line (cmd : string) (bus : Z) (device parameter : string) : string :=
  cmd +:+ String " " (dec bus +:+ String " " (device +:+ String " " (parameter +:+ nl))).

(** A parameter: no NUL in it, and it does not start with a blank. *)
Definition is_parameter (s : string) : Prop :=
  no_nul s /\ exists a s', s = String a s' /\ is_sep a = false.

Lemma chomp_last_nl s : chomp_last (s +:+ nl) = s.
Proof.
  induction s as [| a s IH]; [done |].
  change (String a s +:+ nl) with (String a (s +:+ nl)).
  destruct (s +:+ nl) as [| b t] eqn:E; [by destruct s |].
  change (chomp_last (String a (String b t))) with (String a (chomp_last (String b t))).
  by rewrite IH.
Qed.

Lemma length_append (a b : string) :
  String.length (a +:+ b) = (String.length a + String.length b)%nat.
Proof. induction a as [| x a IH]; [done | exact (f_equal S IH)]. Qed.

Lemma chomp_nl s : (0 < String.length s)%nat -> chomp (s +:+ nl) = s.
Proof.
  intros Hs. unfold chomp. destruct s as [| a s]; [cbn in Hs; lia |].
  assert (H : (1 <? String.length (String a s +:+ nl))%nat = true).
  { apply Nat.ltb_lt. rewrite length_append. cbn. lia. }
  by rewrite H, chomp_last_nl.
Qed.

Lemma app_nl a b : a +:+ String " " (b +:+ nl) = (a +:+ String " " b) +:+ nl.
Proof. induction a as [| c a IH]; [done | exact (f_equal _ IH)]. Qed.

Lemma count_cons w l : w <> EmptyString -> count (w :: l) = S (count l).
Proof. by destruct w. Qed.

Lemma tokens_line cmd bus device parameter :
  is_word cmd -> is_word device -> is_parameter parameter ->
  tokens (chomp (line cmd bus device parameter)) 4 = (4, [cmd; dec bus; device; parameter]).
Proof.
  intros Hc Hd [Hn (a & p & -> & Ha)]. unfold line.
  rewrite !app_nl. rewrite chomp_nl.
  2: { rewrite length_append. cbn [String.length]. lia. }
  assert (Hb : is_word (dec bus)) by apply dec_word.
  assert (Hnul : no_nul (cmd +:+ String " " (dec bus +:+ String " " (device +:+ String " " (String a p))))).
  { apply word_no_nul; [done |]. split; [done |]. apply word_no_nul; [done |]. split; [done |].
    apply word_no_nul; [done |]. split; [done | exact Hn]. }
  rewrite tokens_spec by (done || lia).
  rewrite !split_word by done.
  assert (split (String a p) 1 = [String a p]) as -> by (cbn; by rewrite Ha).
  rewrite !count_cons by (apply Hc || apply Hb || apply Hd || done). done.
Qed.

(** * From a line to the device group *)

Definition stamped (w : world) : world := tick w <| cmd_akt_time := now w |>.

(** The reply to a command: its own text, or the line for its code. *)
Definition answered (m : prog world (Z * string)) : prog world string :=
  let* '(rc, reply) := m in
  let* t := gets cmd_akt_time in
  ret (if decide (reply = ""%string) then (srcp_fmt_msg rc t).2 else reply).

(** The line that reports a code. *)
Definition code_line (rc : Z) (t : timeval) : string := (srcp_fmt_msg rc t).2.


Section Lines.
Context (others : prog world bool) (meanwhile : nat -> prog world unit).
Context (init_bus_DDL : Z -> prog world Z) (serial temp : Z) (patience : nat).

Local Abbreviation do_line := (do_line others meanwhile init_bus_DDL serial temp patience).
Local Abbreviation dispatch := (dispatch others meanwhile init_bus_DDL serial temp patience).

Lemma do_line_dispatch sid cmd bus device parameter w :
  is_word cmd -> is_word device -> is_parameter parameter ->
  0 <= bus <= w.(num_buses) -> bus < 2 ^ 31 ->
  do_line sid (line cmd bus device parameter) w =
    answered (dispatch sid bus cmd device parameter) (stamped w).
Proof.
  intros Hc Hd Hp Hb Hi. unfold Command.do_line. rewrite tokens_line by done.
  assert (u64 (atoi (dec bus)) = bus) as ->.
  { rewrite (append_nil (dec bus)), atoi_dec by done. rewrite to_long_id by (unfold LONG_MIN, LONG_MAX; lia).
    rewrite swrap_small by lia. apply wrap_small. lia. }
  rewrite (bind_some _ _ _ _ _ (gettimeofday_spec w)).
  unfold set_akt_time. rewrite bind_modify, bind_gets.
  change (3 <=? 4) with true. cbv iota. cbn [num_buses over].
  change (num_buses (stamped w)) with (num_buses w).
  destruct (Z.leb_spec bus (num_buses (tick w))) as [_ | H]; [reflexivity | cbn in H; lia].
Qed.
End Lines.

(** * The device group a word names *)

Definition offers (w : world) (bus : Z) (dg : devicegroup) : Prop :=
  bus_has_devicegroup bus dg w = Some (true, w).

Lemma addressed_no b bus dg device name w : w.(buses) !! bus = Some b ->
  starts device name = false -> addressed bus dg device name w = Some (false, w).
Proof.
  intros H E. unfold addressed, bus_has_devicegroup. rewrite bind_assoc.
  rewrite (bind_some _ _ _ _ _ (bus_get_some _ _ _ H)), bind_ret, E. by rewrite andb_false_r.
Qed.
Lemma addressed_yes bus dg device name w : offers w bus dg -> starts device name = true ->
  addressed bus dg device name w = Some (true, w).
Proof. intros H E. unfold addressed. by rewrite (bind_some _ _ _ _ _ H), E. Qed.

Lemma offers_bus w bus dg : offers w bus dg -> exists b, w.(buses) !! bus = Some b.
Proof.
  unfold offers, bus_has_devicegroup, bind, bus_get, need.
  destruct (w.(buses) !! bus); [eauto | done].
Qed.
Lemma offers_stamped w bus dg : offers w bus dg -> offers (stamped w) bus dg.
Proof.
  unfold offers, bus_has_devicegroup, bind, bus_get, need. cbn.
  destruct (w.(buses) !! bus); [| done]. unfold ret. by intros [= ->].
Qed.

(** Skip the device groups a word does not name. *)
Ltac not_addressed H :=
  repeat match goal with
  | |- context [bind (addressed ?bus ?dg ?device ?name) _ ?w] =>
      rewrite (bind_some _ _ _ _ _ (addressed_no _ bus dg device name w H eq_refl)); cbv iota
  end.

(** * Setting an accessory *)

Definition ga_parameter (a p act dl : Z) : string :=
  dec a +:+ String " " (dec p +:+ String " " (dec act +:+ String " " (dec dl))).

Definition int (z : Z) : Prop := - 2 ^ 31 <= z < 2 ^ 31.

Lemma int_i32 z : int z -> i32 z = z.
Proof. intros H. apply swrap_small; unfold int in H; lia. Qed.
Lemma int_long z : int z -> to_long z = z.
Proof. intros H. apply to_long_id. unfold int, LONG_MIN, LONG_MAX in *. lia. Qed.

Lemma sscanf_ga a p act dl : int a -> int p -> int act -> int dl ->
  sscanf (ga_parameter a p act dl) [Dld; Dld; Dld; Dld] = [Num a; Num p; Num act; Num dl].
Proof.
  intros. unfold ga_parameter. rewrite (append_nil (dec dl)).
  rewrite !sscanf_dec, !sscanf_blank, !sscanf_dec, ?sscanf_blank, ?sscanf_dec, ?sscanf_blank, ?sscanf_dec by done.
  by rewrite !int_long.
Qed.

Lemma dec_parameter z s : no_nul s -> is_parameter (dec z +:+ s).
Proof.
  intros Hs. destruct (dec_word z) as [Hn Hw]. split; [by apply word_no_nul |].
  destruct (dec z) as [| a d] eqn:E; [done |]. exists a, (d +:+ s). split; [done |]. apply Hw. left.
Qed.
Lemma dec_no_nul z s : no_nul s -> no_nul (dec z +:+ s).
Proof. intros Hs. apply word_no_nul; [apply dec_word | done]. Qed.

Lemma ga_parameter_ok a p act dl : is_parameter (ga_parameter a p act dl).
Proof.
  unfold ga_parameter. rewrite (append_nil (dec dl)). apply dec_parameter.
  split; [done |]. apply dec_no_nul. split; [done |]. apply dec_no_nul. split; [done |].
  by apply dec_no_nul.
Qed.

Lemma word_SET : is_word "SET".
Proof. split; [done |]. intros a. cbn. rewrite !elem_of_cons, elem_of_nil. intuition (subst; done). Qed.
Lemma word_GA : is_word "GA".
Proof. split; [done |]. intros a. cbn. rewrite !elem_of_cons, elem_of_nil. intuition (subst; done). Qed.

Section Setting.
Context (others : prog world bool) (meanwhile : nat -> prog world unit).
Context (init_bus_DDL : Z -> prog world Z) (serial temp : Z) (patience : nat).

Local Abbreviation do_line := (do_line others meanwhile init_bus_DDL serial temp patience).
Local Abbreviation dispatch := (dispatch others meanwhile init_bus_DDL serial temp patience).

Lemma handle_setcheck_GA sid bus parameter setorcheck w : offers w bus DG_GA ->
  handle_setcheck others sid bus "GA" parameter setorcheck w = set_GA sid bus parameter setorcheck w.
Proof.
  intros H. destruct (offers_bus _ _ _ H) as [b Hb]. unfold handle_setcheck. not_addressed Hb.
  by rewrite (bind_some _ _ _ _ _ (addressed_yes _ _ "GA" "GA" _ H eq_refl)).
Qed.

(** C1. The line ["SET <bus> GA <addr> <port> <action> <delay>"] comes down to the
    accessory's queue: when the accessory is free or locked by the session that
    asks, exactly the command the client wrote is appended to the commands
    pending on the bus and the reply is 200, or nothing changes and the reply is
    413 when the queue is full; when another session holds the lock, nothing
    but the clock moves and the reply is 414. *)
Theorem set_ga_line sid b a p act dl w d q :
  GA.wf w -> 0 <= b <= w.(num_buses) -> offers w b DG_GA -> GA.ga_at w b a = Some d ->
  w.(ga_queue) !! b = Some q -> int a -> int act -> int dl -> 0 <= p < MAXGAPORT ->
  let l := line "SET" b "GA" (ga_parameter a p act dl) in
  if (d.(ga_locked_by) =? 0) || (d.(ga_locked_by) =? sid) then
    if Ring.isfull GA.QUEUELEN q then
      do_line sid l w = Some (code_line SRCP_TEMPORARILYPROHIBITED (now w), stamped w)
    else
      exists c w', do_line sid l w = Some (code_line SRCP_OK (now w), w') /\ w'.(ga) = w.(ga) /\
        GA.pending w' b =
          GA.pending w b ++ [GA.command_of c d a p act dl (now (stamped w))]
  else do_line sid l w = Some (code_line SRCP_DEVICELOCKED (now w), stamped w).
Proof.
  intros Hw Hb Ho Hd Hq Ha Hact Hdl Hp l.
  assert (Hb8 : 0 <= b < MAX_BUSES).
  { destruct (GA.ga_at_inv _ _ _ _ Hd) as (g & Hg & _). exact (is_array_bound _ _ _ _ (GA.wf_all_ga _ Hw) Hg). }
  assert (E : do_line sid l w =
    answered (let* rc := set_GA sid b (ga_parameter a p act dl) true in ret (rc, ""%string)) (stamped w)).
  { unfold l. rewrite do_line_dispatch;
      [| exact word_SET | exact word_GA | apply ga_parameter_ok | done | unfold MAX_BUSES in Hb8; lia].
    unfold answered, Command.dispatch. change (starts "SET" "SET") with true. cbv iota.
    rewrite !bind_assoc. unfold handleSET. unfold bind at 1. unfold bind at 4.
    by rewrite handle_setcheck_GA by by apply offers_stamped. }
  assert (Hs : set_GA sid b (ga_parameter a p act dl) true (stamped w) =
    (if (d.(ga_locked_by) =? 0) || (d.(ga_locked_by) =? sid)
     then GA.enqueueGA b a p act dl else ret SRCP_DEVICELOCKED) (stamped w)).
  { assert (int p) by (unfold int; unfold MAXGAPORT in Hp; lia).
    unfold set_GA. rewrite sscanf_ga by done. rewrite !int_i32 by done.
    by rewrite (bind_some _ _ _ _ _ (GA.getlockGA_some (stamped w) b a d Hd)). }
  assert (Hw' : GA.wf (stamped w)) by (destruct Hw; by split).
  rewrite E. unfold answered. rewrite bind_assoc, bind_run, Hs.
  destruct (_ || _); [| done].
  destruct (Ring.isfull GA.QUEUELEN q) eqn:Hf.
  - by rewrite (GA.enqueueGA_full (stamped w) b a d q p act dl Hd Hq Hf).
  - destruct (GA.enqueueGA_accepts (stamped w) b a d q p act dl Hw' Hd Hq Hf Hp)
      as (c & w' & E' & _ & Hga & Hpend & Ht & _).
    exists c, w'. rewrite E'. unfold bind, ret, gets. rewrite Ht. done.
Qed.
End Setting.

(** A command that leaves the state alone and whose answer satisfies [P]. *)
Definition dry {A} (P : A -> Prop) (m : prog world A) (w : world) : Prop :=
  exists a, m w = Some (a, w) /\ P a.

Lemma dry_ret {A} (P : A -> Prop) a w : P a -> dry P (ret a) w.
Proof. intros H. by exists a. Qed.
Lemma dry_bind {A B} (P : A -> Prop) (Q : B -> Prop) (m : prog world A) (k : A -> prog world B) w :
  dry P m w -> (forall a, P a -> dry Q (k a) w) -> dry Q (let* a := m in k a) w.
Proof. intros (a & E & H) Hk. destruct (Hk a H) as (b & Eb & Hb). exists b. by rewrite (bind_some _ _ _ _ _ E). Qed.
Lemma dry_if {A} (P : A -> Prop) (b : bool) (m1 m2 : prog world A) w :
  dry P m1 w -> dry P m2 w -> dry P (if b then m1 else m2) w.
Proof. by destruct b. Qed.

Lemma addressed_dry d bus dg device name w : w.(buses) !! bus = Some d ->
  dry (fun b : bool => b = true -> starts device name = true) (addressed bus dg device name) w.
Proof.
  intros H. unfold addressed. apply dry_bind with (P := fun _ => True).
  - unfold bus_has_devicegroup. apply dry_bind with (P := fun _ => True).
    + exists d. split; [by apply bus_get_some | done].
    + intros a _. by apply dry_ret.
  - intros has _. apply dry_ret. by destruct has.
Qed.

(** The answers CHECK gives. *)
Definition check_codes : list Z :=
  [SRCP_OK; SRCP_WRONGVALUE; SRCP_DEVICELOCKED; SRCP_LISTTOOSHORT; SRCP_UNSUPPORTEDDEVICEGROUP].
Ltac code := apply dry_ret; unfold check_codes; rewrite !elem_of_cons; by auto 10.

Lemma getlockGA_dry w b a : GA.wf w -> 0 <= b < MAX_BUSES ->
  dry (fun _ => True) (GA.getlockGA b a) w.
Proof.
  intros Hw Hb. destruct (GA.ga_at w b a) as [d |] eqn:E.
  - exists (SRCP_OK, d.(ga_locked_by)). split; [by apply GA.getlockGA_some | done].
  - destruct (GA.ga_range_none _ _ _ Hw Hb E) as (g & Hg & _ & R).
    exists (SRCP_WRONGVALUE, 0). split; [| done]. unfold GA.getlockGA.
    rewrite (bind_some _ _ _ _ _ (GA.get_number_some _ _ _ Hg)). by rewrite R.
Qed.

Lemma cacheGetLockGL_dry w b locid : GLFacts.gl_wf w -> 0 <= b < MAX_BUSES -> 0 <= locid ->
  dry (fun _ => True) (GL.cacheGetLockGL b locid) w.
Proof.
  intros Hw Hb Hl. unfold GL.cacheGetLockGL.
  apply dry_bind with (P := fun i => i = GLFacts.entry_of w b locid).
  { eexists. split; [by apply GLFacts.find_entry_spec | done]. }
  intros i ->. destruct (Z.eqb_spec (GLFacts.entry_of w b locid) 0) as [E | E]; [by apply dry_ret |].
  destruct (GLFacts.entry_of_range _ _ _ Hw E) as [d Hd].
  apply dry_bind with (P := fun _ => True).
  { eexists. split; [by apply GLFacts.gl_at_some, Hd | done]. }
  intros d' _. apply dry_if; by apply dry_ret.
Qed.

Section Check.
Context (others : prog world bool).
Context (w : world) (sid bus : Z) (Hga : GA.wf w) (Hgl : GLFacts.gl_wf w) (Hb : 0 <= bus < MAX_BUSES).

Lemma check_GL_dry parameter : no_nul parameter ->
  dry (fun rc => rc ∈ check_codes) (set_GL sid bus parameter false) w.
Proof using Hga Hgl Hb.
  intros Hn. unfold set_GL. pose proof (tokens_length parameter 5 Hn) as Hl.
  destruct (tokens parameter 5) as [n ps]. cbn in Hl.
  destruct ps as [| a [| b [| c [| d [| e [|]]]]]]; try (exfalso; cbn in Hl; lia).
  apply dry_if; [| code].
  eapply dry_bind; [apply cacheGetLockGL_dry; [done | done | by apply wrap_range] |].
  intros r _. apply dry_if; code.
Qed.

Lemma check_GA_dry parameter :
  dry (fun rc => rc ∈ check_codes) (set_GA sid bus parameter false) w.
Proof using Hga Hgl Hb.
  unfold set_GA.
  destruct (sscanf parameter _) as [| [a |] [| [p |] [| [x |] [| [y |] [|]]]]]; try code.
  eapply dry_bind; [by apply getlockGA_dry |]. intros [rc h] _. apply dry_if; code.
Qed.

(** C17. CHECK looks and touches nothing: for every device group but GM and SM,
    whatever the parameters are, it is answered with OK, wrong value, device
    locked, list too short or unsupported device group, and the daemon's state
    is afterwards what it was. *)
Theorem check_is_dry device parameter : no_nul parameter ->
  starts device "GM" = false -> starts device "SM" = false ->
  exists rc, handleCHECK others sid bus device parameter w = Some (rc, w) /\ rc ∈ check_codes.
Proof using Hga Hgl Hb.
  intros Hn HGM HSM.
  destruct (is_array_lookup _ _ bus (GA.wf_all_bus _ Hga) Hb) as [d Hd].
  unfold handleCHECK, handle_setcheck.
  assert (A : forall dg name (k1 k2 : prog world Z),
    (starts device name = true -> dry (fun rc => rc ∈ check_codes) k1 w) ->
    dry (fun rc => rc ∈ check_codes) k2 w ->
    dry (fun rc => rc ∈ check_codes) (let* b := addressed bus dg device name in if b then k1 else k2) w).
  { intros dg name k1 k2 H1 H2. eapply dry_bind; [by apply addressed_dry with d |].
    intros [] Hs; [by apply H1, Hs | done]. }
  repeat apply A; try (intros Hs; congruence).
  - intros _. by apply check_GL_dry.
  - intros _. apply check_GA_dry.
  - intros _. unfold set_FB. destruct (sscanf parameter _) as [| [a |] [| [p |] [|]]]; code.
  - intros _. unfold set_TIME.
    destruct (sscanf parameter _) as [| [a |] [| [p |] [| [x |] [| [y |] [|]]]]]; code.
  - intros _. unfold set_LOCK.
    destruct (sscanf parameter _) as [| [a | g] [| [p |] [| [x |] [|]]]]; try code.
    repeat apply dry_if; code.
  - intros _. unfold set_POWER. pose proof (tokens_length parameter 2 Hn) as Hl.
    destruct (tokens parameter 2) as [n ps]. cbn in Hl.
    destruct ps as [| a [| b [|]]]; try (exfalso; cbn in Hl; lia). repeat apply dry_if; code.
  - code.
Qed.
End Check.

(** * Waiting for a contact *)

Lemma getFB_some w b i c : FB.contact_at w b i = Some c ->
  FB.getFB b (i + 1) w = Some ((SRCP_OK, Some (c.(fb_timestamp), c.(fb_state))), w).
Proof.
  intros Hc. destruct (FB.fb_range _ _ _ _ Hc) as (f & Hf & _ & E).
  unfold FB.getFB. rewrite (bind_some _ _ _ _ _ (FB.get_number_fb_some _ _ _ Hf)).
  replace (i + 1 - 1) with i by lia. rewrite E.
  by rewrite (bind_some _ _ _ _ _ (FB.contact_some _ _ _ _ Hc)).
Qed.
Lemma infoFB_some w b i c : FB.contact_at w b i = Some c ->
  FB.infoFB b (i + 1) w = Some ((SRCP_INFO, FB.fb_line b (i + 1) c.(fb_state) c.(fb_timestamp)), w).
Proof. intros Hc. unfold FB.infoFB. by rewrite (bind_some _ _ _ _ _ (getFB_some _ _ _ _ Hc)). Qed.

Lemma read_contact_some w b i c value : FB.contact_at w b i = Some c ->
  read_contact b (i + 1) value w =
    Some ((SRCP_OK, Some c.(fb_state)), w <| cmd_akt_time := c.(fb_timestamp) |>).
Proof.
  intros Hc. unfold read_contact. by rewrite (bind_some _ _ _ _ _ (getFB_some _ _ _ _ Hc)).
Qed.

Definition fb_parameter (port v timeout : Z) : string :=
  dec port +:+ String " " (dec v +:+ String " " (dec timeout)).

Lemma sscanf_fb port v timeout : int port -> int v -> LONG_MIN <= timeout <= LONG_MAX ->
  sscanf (fb_parameter port v timeout) [Dld; Dd; Dld] = [Num port; Num v; Num timeout].
Proof.
  intros Hp Hv Ht. unfold fb_parameter. rewrite (append_nil (dec timeout)).
  rewrite sscanf_dec by done. rewrite sscanf_blank, int_long by done. f_equal.
  cbn [sscanf]. unfold convert at 1. rewrite number_dec by done. cbn [fmap option_fmap option_map].
  rewrite int_long, int_i32 by done. f_equal.
  unfold convert at 1. change (skip_blanks (String " " (dec timeout +:+ "")))
    with (skip_blanks (dec timeout +:+ "")).
  rewrite number_dec by done. cbn [fmap option_fmap option_map]. by rewrite to_long_id.
Qed.

Section Wait.
Context (meanwhile : nat -> prog world unit) (bus i : Z).

Definition present (w : world) : Prop := is_Some (FB.contact_at w bus i).
Definition state_at (w : world) : option Z := fb_state <$> FB.contact_at w bus i.

(** Reading the contact notes its time. *)
Definition read_at (w : world) : world :=
  match FB.contact_at w bus i with Some c => w <| cmd_akt_time := c.(fb_timestamp) |> | None => w end.
(** The state after [n] polls: before each one WAIT sleeps a twentieth of a
    second, in which the other threads run. *)
Fixpoint polled (n : nat) (w : world) : option world :=
  match n with
  | O => Some (read_at w)
  | S n =>
      w1 ← polled n w;
      '(_, w2) ← meanwhile n w1;
      Some (read_at w2)
  end.

(** The contact has the value for the first time after [n] polls. *)
Definition first_seen (v : Z) (w : world) (n : nat) : Prop :=
  (exists w', polled n w = Some w' /\ state_at w' = Some v) /\
  forall m w', (m < n)%nat -> polled m w = Some w' -> state_at w' <> Some v.
Definition never_seen (v : Z) (w : world) (n : nat) : Prop :=
  forall m w', (m <= n)%nat -> polled m w = Some w' -> state_at w' <> Some v.

(** Whatever the other threads do while WAIT sleeps, the contact stays. *)
Hypothesis meanwhile_ok : forall k w, present w -> exists w', meanwhile k w = Some (tt, w') /\ present w'.

Lemma present_read w : present w -> present (read_at w).
Proof. unfold present, read_at. intros [c Hc]. rewrite Hc. by exists c. Qed.
Lemma polled_present n w : present w -> exists w', polled n w = Some w' /\ present w'.
Proof using meanwhile_ok.
  intros Hw. induction n as [| n (w1 & E1 & H1)]; [exists (read_at w); split; [done | by apply present_read] |].
  destruct (meanwhile_ok n w1 H1) as (w2 & E2 & H2). exists (read_at w2). cbn [polled]. rewrite E1. cbn [mbind option_bind].
  rewrite E2. split; [done | by apply present_read].
Qed.
Lemma first_or_never v w n : present w -> (exists m, (m <= n)%nat /\ first_seen v w m) \/ never_seen v w n.
Proof using meanwhile_ok.
  intros Hw. induction n as [| n [(m & Hm & Hf) | IH]].
  2: { left. exists m. split; [lia | done]. }
  all: match goal with |- (exists m, (m <= ?n)%nat /\ _) \/ _ => destruct (polled_present n w Hw) as (w' & E & _) end.
  all: destruct (decide (state_at w' = Some v)) as [Hv | Hv].
  - left. exists O. split; [done |]. split; [by exists w' | intros; lia].
  - right. intros m w1 Hm E1. replace m with O in E1 by lia. congruence.
  - left. exists (S n). split; [done |]. split; [by exists w' |]. intros m w1 Hm. apply IH. lia.
  - right. intros m w1 Hm E1. destruct (decide (m = S n)) as [-> |]; [congruence |]. apply (IH m); [lia | done].
Qed.
Lemma read_present w value : present w ->
  exists c, FB.contact_at w bus i = Some c /\ FB.contact_at (read_at w) bus i = Some c /\
    read_contact bus (i + 1) value w = Some ((SRCP_OK, Some c.(fb_state)), read_at w).
Proof.
  intros [c Hc]. exists c. split; [done |]. rewrite (read_contact_some _ _ _ _ value Hc). unfold read_at. by rewrite Hc.
Qed.

(** Of [S left] more polls after [k], the last one is for nothing. *)
Lemma poll_run v w left k value wk : present w -> polled k w = Some wk ->
  (forall n, first_seen v w n -> (k < n <= k + left)%nat -> exists w', polled n w = Some w' /\
    poll_contact meanwhile (S left) k bus (i + 1) v value wk = Some (true, w')) /\
  (never_seen v w (k + left) -> exists w', polled (k + left + 1) w = Some w' /\
    poll_contact meanwhile (S left) k bus (i + 1) v value wk = Some (false, w')).
Proof using meanwhile_ok.
  intros Hw. revert k value wk. induction left as [| left IH]; intros k value wk Hk.
  all: destruct (polled_present k w Hw) as (wk' & E & Hp); rewrite Hk in E; injection E as <-.
  all: destruct (meanwhile_ok k wk Hp) as (w1 & E1 & H1); destruct (read_present w1 value H1) as (c & Hc & Hc' & Er).
  all: assert (polled (S k) w = Some (read_at w1)) as Hk1 by (cbn [polled]; rewrite Hk; cbn [mbind option_bind]; by rewrite E1).
  all: cbn [poll_contact]; rewrite !(bind_some _ _ _ _ _ E1), !(bind_some _ _ _ _ _ Er).
  - split; [intros; lia |]. intros _. exists (read_at w1). by replace (k + 0 + 1)%nat with (S k) by lia.
  - cbn [need]. rewrite bind_ret. assert (state_at (read_at w1) = Some c.(fb_state)) as Hs by (unfold state_at; by rewrite Hc').
    destruct (IH (S k) (Some c.(fb_state)) _ Hk1) as [I1 I2].
    destruct (Z.eqb_spec c.(fb_state) v) as [Ev | Ev].
    + split.
      * intros n [_ Hn] Hr. exists (read_at w1). split; [| done].
        destruct (decide (n = S k)) as [-> |]; [done |]. exfalso. apply (Hn (S k) (read_at w1)); [lia | done | by rewrite Hs, Ev].
      * intros Hn. exfalso. apply (Hn (S k) (read_at w1)); [lia | done | by rewrite Hs, Ev].
    + split.
      * intros n Hf Hr. apply I1; [done |]. destruct (decide (n = S k)) as [-> |]; [| lia].
        destruct Hf as [(w' & E & Hv) _]. rewrite Hk1 in E. injection E as <-. congruence.
      * intros Hn. replace (k + S left)%nat with (S k + left)%nat in * by lia. by apply I2.
Qed.

(** C31. WAIT for a contact comes to an end, and it is said exactly when.  It looks
    at once and then after every sleep of a twentieth of a second.  If the
    contact has the value for the first time at the start or at poll [n], and no
    later than at poll [20 * timeout], the answer is its info line, and nothing
    but the polls has happened; if it has it at none of them, there is one poll
    more and the answer is 417.  One of the two is the case, and every poll is
    defined as long as the other threads leave the contact there. *)
Theorem wait_fb_ends v timeout w : int (i + 1) -> int v -> 0 <= timeout -> timeout * 20 <= LONG_MAX ->
  present w ->
  let last := Z.to_nat (timeout * 20) in
  (forall n, (n <= last)%nat -> first_seen v w n -> exists w' c, polled n w = Some w' /\
    FB.contact_at w' bus i = Some c /\ wait_FB meanwhile bus (fb_parameter (i + 1) v timeout) w =
      Some ((SRCP_INFO, FB.fb_line bus (i + 1) v c.(fb_timestamp)), w')) /\
  (never_seen v w last -> exists w', polled (S last) w = Some w' /\
    wait_FB meanwhile bus (fb_parameter (i + 1) v timeout) w =
      Some ((SRCP_TIMEOUT, ""%string), tick w' <| cmd_akt_time := now w' |>)) /\
  ((exists n, (n <= last)%nat /\ first_seen v w n) \/ never_seen v w last).
Proof using meanwhile_ok.
  intros Hi Hv H0 HT Hw last. assert (polled 0 w = Some (read_at w)) as P0 by done.
  destruct (read_present w None Hw) as (c & Hc & Hc' & Er).
  assert (state_at (read_at w) = Some c.(fb_state)) as Hs by (unfold state_at; by rewrite Hc').
  assert (forall w', state_at w' = Some v -> exists c', FB.contact_at w' bus i = Some c' /\
    FB.infoFB bus (i + 1) w' = Some ((SRCP_INFO, FB.fb_line bus (i + 1) v c'.(fb_timestamp)), w')) as Hinfo.
  { intros w'. unfold state_at. destruct (FB.contact_at w' bus i) as [c' |] eqn:E; [| done]. intros [= <-].
    exists c'. split; [done |]. by apply infoFB_some. }
  assert (wait_FB meanwhile bus (fb_parameter (i + 1) v timeout) w =
    (if decide (c.(fb_state) = v) then FB.infoFB bus (i + 1) else
       let* found := poll_contact meanwhile (S last) 0 bus (i + 1) v (Some c.(fb_state)) in
       if found then FB.infoFB bus (i + 1)
       else let* t := gettimeofday in do* set_akt_time t in ret (SRCP_TIMEOUT, ""%string)) (read_at w)) as ->.
  { unfold wait_FB. rewrite sscanf_fb by (done || unfold LONG_MIN, LONG_MAX in *; lia). rewrite int_i32 by done.
    rewrite (bind_some _ _ _ _ _ Er), Z.eqb_refl. cbn [andb]. case_bool_decide as E; case_decide; try congruence.
    unfold times20. replace ((LONG_MIN <=? timeout * 20) && _) with true by (unfold LONG_MIN in *; symmetry; zbool).
    cbn [guard]. rewrite bind_assoc, !bind_ret. by replace (Z.to_nat (timeout * 20) + 1)%nat with (S last) by lia. }
  split_and!; [| | by apply first_or_never]; case_decide as E.
  - intros n Hn [(w' & En & Hv') Hm]. destruct n as [| n]; [| exfalso; apply (Hm O (read_at w)); [lia | done | congruence]].
    injection En as <-. destruct (Hinfo _ Hv') as (c' & Hc1 & Hi1). by exists (read_at w), c'.
  - intros n Hn Hf. destruct (poll_run v w last 0 (Some c.(fb_state)) _ Hw P0) as [R _].
    destruct n as [| n]; [destruct Hf as [(w' & [= <-] & Hv') _]; congruence |].
    destruct (R (S n) Hf ltac:(lia)) as (w' & En & Ep). pose proof Hf as [(w1 & E1 & Hv') _]. rewrite En in E1. injection E1 as <-.
    destruct (Hinfo _ Hv') as (c' & Hc1 & Hi1). exists w', c'. by rewrite (bind_some _ _ _ _ _ Ep).
  - intros Hn. exfalso. apply (Hn O (read_at w)); [lia | done | congruence].
  - intros Hn. destruct (poll_run v w last 0 (Some c.(fb_state)) _ Hw P0) as [_ R].
    destruct (R Hn) as (w' & En & Ep). exists w'. rewrite (bind_some _ _ _ _ _ Ep).
    by replace (S last) with (0 + last + 1)%nat by lia.
Qed.
End Wait.

(** * Examples *)

Definition example_bus : bus_data_t := bus_zero <| description := "GA FB LOCK POWER" |>.
(** Bus 1 with four accessories that session 7 has locked. *)
Definition example : world := GA.example <| buses ::= <[1 := example_bus]> |>.

Lemma example_ga_wf : GA.wf example.
Proof.
  destruct GA.example_wf as [W1 W2 W3 W4 W5 W6]. split; try done.
  by apply is_array_insert.
Qed.
Lemma example_gl_wf : GLFacts.gl_wf example.
Proof.
  destruct (GLFacts.gl_wf_initial GA.example_clock 100) as [W1 W2 W3 W4 W5 W6]. split; try done.
  by apply is_array_insert.
Qed.

Lemma example_offers : offers example 1 DG_GA.
Proof.
  unfold offers, bus_has_devicegroup.
  rewrite (bind_some _ _ _ _ _ (bus_get_some 1 example_bus example (lookup_insert_eq _ _ _))).
  unfold ret. f_equal.
Qed.

Lemma set_ga_line_witness :
  exists c w', do_line (ret true) (fun _ => ret tt) (fun _ => ret 0) 0 0 0 7
      ("SET 1 GA 3 0 1 100" +:+ nl) example = Some (code_line SRCP_OK (now example), w') /\
    w'.(ga) = example.(ga) /\
    GA.pending w' 1 = GA.pending example 1 ++
      [GA.command_of c GA.example_ga 3 0 1 100 (now (stamped example))].
Proof.
  apply (set_ga_line (ret true) (fun _ => ret tt) (fun _ => ret 0) 0 0 0 7 1 3 0 1 100 example
    GA.example_ga (Ring.make 50 ga_zero)).
  - exact example_ga_wf.
  - split; [done | reflexivity].
  - exact example_offers.
  - vm_compute. reflexivity.
  - vm_compute. reflexivity.
  - split; [done | reflexivity].
  - split; [done | reflexivity].
  - split; [done | reflexivity].
  - split; [done | reflexivity].
Defined.

Lemma check_is_dry_witness :
  exists rc, handleCHECK (ret true) 8 1 "GA" "3 0 1 100" example = Some (rc, example) /\
    rc ∈ check_codes.
Proof.
  apply (check_is_dry (ret true) example 8 1 example_ga_wf example_gl_wf).
  - split; [done | reflexivity].
  - cbn. repeat split; discriminate.
  - reflexivity.
  - reflexivity.
Defined.

(** Eight contacts, all free. *)
Definition example_fb : world := example <| fb ::= <[1 := mk_FB 8 (array 8 (mk_fb timeval0 0 0))]> |>.

(** The contact goes on during the third sleep. *)
Definition becomes_occupied (k : nat) : prog world unit :=
  if (k =? 2)%nat then modify (FB.contact_upd 1 2 (mk_fb timeval0 1 0)) else ret tt.
Lemma wait_fb_ends_witness :
  (forall n, (n <= 40)%nat -> first_seen becomes_occupied 1 2 1 example_fb n -> exists w' c, polled becomes_occupied 1 2 n example_fb = Some w' /\
    FB.contact_at w' 1 2 = Some c /\ wait_FB becomes_occupied 1 "3 1 2" example_fb =
      Some ((SRCP_INFO, FB.fb_line 1 3 1 c.(fb_timestamp)), w')) /\
  (never_seen becomes_occupied 1 2 1 example_fb 40 -> exists w', polled becomes_occupied 1 2 41 example_fb = Some w' /\
    wait_FB becomes_occupied 1 "3 1 2" example_fb =
      Some ((SRCP_TIMEOUT, ""%string), tick w' <| cmd_akt_time := now w' |>)) /\
  ((exists n, (n <= 40)%nat /\ first_seen becomes_occupied 1 2 1 example_fb n) \/ never_seen becomes_occupied 1 2 1 example_fb 40).
Proof.
  apply (wait_fb_ends becomes_occupied 1 2) with (v := 1) (timeout := 2).
  - intros k w H. unfold becomes_occupied. destruct (k =? 2)%nat; [| by exists w].
    eexists. split; [reflexivity |]. destruct H as [c H]. exists (mk_fb timeval0 1 0). by apply FB.contact_at_upd with c.
  - split; [done | reflexivity].
  - split; [done | reflexivity].
  - done.
  - done.
  - exists (mk_fb timeval0 0 0). vm_compute. reflexivity.
Defined.
(** It is seen at the third poll. *)
Lemma seen_third : wait_FB becomes_occupied 1 "3 1 2" example_fb =
  (w' ← polled becomes_occupied 1 2 3 example_fb; Some ((SRCP_INFO, FB.fb_line 1 3 1 timeval0), w')).
Proof. vm_compute. reflexivity. Qed.
End CommandSpec.
