(* ===== verification/ClientSpec.v ===== *)
(** What a client can rely on: the delivery of info lines to its socket, what
    ends an info session, and the count of the command sessions. *)

From S2P Require Import Prelude World Messages Text Session Services.
From S2P Require Import Clock Spi Mfx Ddl Server Command Client.

Module ClientSpec.
Import Client.

(** * The pipe of an info session *)

(** A message that is not empty and has no NUL in it. *)
Definition is_message (m : string) : Prop :=
  m <> EmptyString /\ NUL ∉ String.list_ascii_of_string m.

Lemma length_bytes m : length (String.list_ascii_of_string m) = String.length m.
Proof. induction m as [| a m IH]; cbn; [done | by rewrite IH]. Qed.

Lemma cstring_bytes m rest : NUL ∉ String.list_ascii_of_string m ->
  cstring (String.list_ascii_of_string m ++ NUL :: rest) = Some m.
Proof.
  induction m as [| a m IH]; intros H; [done |]. cbn in *. apply not_elem_of_cons in H as [H1 H2].
  rewrite decide_False by done. by rewrite IH.
Qed.

Lemma encode_cons m msgs : encode (m :: msgs) = String.list_ascii_of_string m ++ NUL :: encode msgs.
Proof. unfold encode. cbn. by rewrite <- (assoc app). Qed.

Lemma cstring_message m rest tail : NUL ∉ String.list_ascii_of_string m ->
  cstring ((String.list_ascii_of_string m ++ NUL :: rest) ++ tail) = Some m.
Proof. intros H. rewrite <- (assoc app). by apply cstring_bytes. Qed.

(** One pass over messages that fill the buffer from offset [b] on. *)
Lemma send_lines_all m msgs pre tail b total rwresult fuel :
  Forall is_message (m :: msgs) -> b = length pre ->
  (total + length (encode (m :: msgs)))%nat = rwresult -> (length (m :: msgs) <= fuel)%nat ->
  exists k, (0 < k)%nat /\
    send_lines fuel (pre ++ encode (m :: msgs) ++ tail) None rwresult total b = Some (m :: msgs, false, k).
Proof.
  revert m pre b total fuel. induction msgs as [| m' msgs IH]; intros m pre b total fuel Hm -> Ht Hf;
    destruct fuel as [| fuel]; [cbn in Hf; lia | | cbn in Hf; lia |];
    apply Forall_cons in Hm as [[Hm0 Hm1] Hms]; rewrite (encode_cons m) in Ht |- *;
    cbn [send_lines]; rewrite drop_app_length;
    rewrite cstring_message by done; cbn [mbind option_bind];
    rewrite (decide_False (P := m = _)) by done; rewrite decide_False by done;
    rewrite length_app, length_bytes in Ht; cbn [length] in Ht;
    (assert (0 < String.length m)%nat by (destruct m; [done | cbn; lia])).
  - cbn in Ht. rewrite bool_decide_false by lia. cbn. eauto.
  - rewrite !bool_decide_true by (rewrite encode_cons, length_app in Ht; cbn in Ht; lia). cbn [andb].
    destruct (IH m' (pre ++ String.list_ascii_of_string m ++ [NUL]) (length pre + String.length m + 1)%nat
      (total + String.length m + 1)%nat fuel) as (k & Hk & E); [done | | lia | cbn in *; lia |].
    { rewrite !length_app, length_bytes. cbn. lia. }
    exists k. split; [done |].
    assert (pre ++ (String.list_ascii_of_string m ++ NUL :: encode (m' :: msgs)) ++ tail =
      (pre ++ String.list_ascii_of_string m ++ [NUL]) ++ encode (m' :: msgs) ++ tail) as ->
      by by rewrite <- !(assoc app).
    by rewrite E.
Qed.

Lemma encode_last msgs : msgs <> [] ->
  encode msgs !! (length (encode msgs) - 1)%nat = Some NUL.
Proof.
  intros H. destruct (exists_last H) as (l & m & ->). unfold encode.
  rewrite fmap_app, concat_app. cbn [fmap list_fmap concat]. rewrite app_nil_r, (assoc app).
  rewrite length_app. cbn [length]. rewrite lookup_app_r by lia.
  by replace (_ - _)%nat with 0%nat by lia.
Qed.

Lemma encode_length msgs : msgs <> [] -> (length msgs <= length (encode msgs))%nat.
Proof.
  intros _. induction msgs as [| m msgs IH]; [cbn; lia |]. rewrite encode_cons, length_app. cbn. lia.
Qed.

(** Messages that fit the buffer are all sent, in order, and the pipe is empty. *)
Lemma visit_all msgs : msgs <> [] -> Forall is_message msgs ->
  (length (encode msgs) <= PIPEBUFFER)%nat -> visit_pipe (encode msgs) = Some (msgs, [], Served).
Proof.
  intros Hne Hm Hl. unfold visit_pipe. cbn [read_pipe].
  pose proof (encode_length msgs Hne) as Hn. pose proof (encode_last msgs Hne) as Hlast.
  destruct msgs as [| m msgs]; [done |]. cbn [length] in Hn.
  rewrite Nat.sub_0_r, (Nat.min_r PIPEBUFFER) by done. rewrite decide_False by lia.
  rewrite (take_ge (encode _)) by done. rewrite drop_all, take_0. cbn [app Nat.add].
  set (tail := drop _ (replicate _ _)).
  assert (Ht : bool_decide (length (encode (m :: msgs)) = PIPEBUFFER) &&
    negb (bool_decide ((encode (m :: msgs) ++ tail) !! (PIPEBUFFER - 1)%nat = Some NUL)) = false).
  { case_bool_decide as E; [| done]. cbn [andb]. rewrite <- E.
    rewrite lookup_app_l by lia. by rewrite Hlast, bool_decide_true. }
  rewrite Ht. cbn [mbind option_bind].
  destruct (send_lines_all m msgs [] tail 0 0 (length (encode (m :: msgs)))
    (S (length (encode (m :: msgs))))) as (k & Hk & E); [done | done | lia | cbn [length]; lia |].
  cbn [app] in E. rewrite E. cbn [mbind option_bind]. by rewrite decide_False by lia.
Qed.

(** * Whole visits *)

(** [sn] is an info session with the messages [msgs] in its pipe. *)
Record info_session (sn : Z) (n : session_node_t) (msgs : list string) (w : world) : Prop := {
  is_node : w.(sess).(heap) !! sn = Some n;
  is_pipe : w.(sess).(pipes) !! n.(sn_pipefd1) = Some msgs;
}.

Lemma client_node_some sn n w : w.(sess).(heap) !! sn = Some n -> node_at sn w = Some (n, w).
Proof. intros H. unfold node_at, on_sess. rewrite (Session.node_at_some _ _ _ H). by destruct w. Qed.

(** The world after the messages went to the socket. *)
Definition visited (n : session_node_t) (out : list string) (w : world) : world :=
  sent n.(sn_socket) out w <| sess ::= fun s => s <| pipes ::= <[n.(sn_pipefd1) := []]> |> |>.

Lemma info_visit_run sn n msgs w out visit : info_session sn n msgs w ->
  visit_pipe (encode msgs) = Some (out, [], visit) -> visit <> Blocked ->
  info_visit sn w = Some (match visit with Ended => false | _ => true end, visited n out w).
Proof.
  intros [Hn Hp] E Hb. unfold info_visit. rewrite (bind_some _ _ _ _ _ (client_node_some _ _ _ Hn)).
  rewrite bind_get, Hp. cbn [default from_option]. unfold id. rewrite E.
  unfold bind, need, ret, modify, get. by destruct visit.
Qed.

(** C19. What an info session reads from its pipe goes to its client whole and
    in order: as long as the messages waiting fit the buffer of 2048 bytes, one
    visit writes exactly these lines to the client's socket, empties the pipe
    and the session goes on. *)
Theorem info_lines_delivered sn n msgs w : info_session sn n msgs w -> msgs <> [] ->
  Forall is_message msgs -> (length (encode msgs) <= PIPEBUFFER)%nat ->
  exists w', info_visit sn w = Some (true, w') /\
    w'.(sock_out) !! n.(sn_socket) = Some (default [] (w.(sock_out) !! n.(sn_socket)) ++ msgs) /\
    (forall s, s <> n.(sn_socket) -> w'.(sock_out) !! s = w.(sock_out) !! s) /\
    info_session sn n [] w'.
Proof.
  intros I Hne Hm Hl. exists (visited n msgs w). split_and!.
  - by apply (info_visit_run _ _ _ _ _ _ I (visit_all _ Hne Hm Hl)).
  - cbn. by rewrite lookup_insert_eq.
  - intros s Hs. cbn. by rewrite lookup_insert_ne.
  - destruct I as [Hn Hp]. split; [exact Hn |]. cbn. by rewrite lookup_insert_eq.
Qed.

(** ** An example *)

Definition example_node : session_node_t := mk_node 7 3 5 smInfo 10 11 NULL.
Definition example_clock (n : nat) : timeval := mk_timeval (1000 + Z.of_nat n) 250000.
(** One session, for info lines, with [msgs] in its pipe. *)
Definition example (msgs : list string) : world :=
  (initial_world example_clock 4) <| num_buses := 1 |>
    <| sess := mk_sessions {[ 1 := example_node ]} 2 5 1 7 1 {[ 11 := msgs ]} [] |>.

Lemma example_session msgs : info_session 1 example_node msgs (example msgs).
Proof. split; reflexivity. Qed.

Lemma info_lines_delivered_witness :
  exists w', info_visit 1 (example ["one"; "two"]%string) = Some (true, w') /\
    w'.(sock_out) !! 5 = Some (default [] ((example ["one"; "two"]%string).(sock_out) !! 5) ++ ["one"; "two"]%string) /\
    (forall s, s <> 5 -> w'.(sock_out) !! s = (example ["one"; "two"]%string).(sock_out) !! s) /\
    info_session 1 example_node [] w'.
Proof.
  apply (info_lines_delivered 1 example_node ["one"; "two"]%string).
  - apply example_session.
  - discriminate.
  - repeat constructor; try discriminate; cbn; rewrite !not_elem_of_cons; repeat split;
      try discriminate; apply not_elem_of_nil.
  - apply Nat.leb_le. vm_compute. reflexivity.
Defined.

(** * Lines that are lost *)

(** A line of [n] characters. *)
Fixpoint letters (n : nat) : string :=
  match n with O => EmptyString | S n => String "x" (letters n) end.

(** Three lines of 990 characters and a short one: the third does not fit the
    buffer, and the loop over what the second read brought stops at the number
    of bytes read, without those kept from the first. *)
Definition lost_lines : list string := [letters 990; letters 990; letters 990; "lost"%string].

(** Info lines get lost: of three long lines and a short one, all of them
    shorter than the 1001 characters a line may have, the client gets the long
    ones; the short one is taken from the pipe and never written, and the
    session goes on as if nothing were. *)
Theorem long_lines_lose_next sn n w : info_session sn n lost_lines w ->
  Forall is_message lost_lines /\
  exists w', info_visit sn w = Some (true, w') /\
    w'.(sock_out) !! n.(sn_socket) =
      Some (default [] (w.(sock_out) !! n.(sn_socket)) ++ take 3 lost_lines) /\
    info_session sn n [] w'.
Proof.
  intros I. split.
  { assert (L : forall k, is_message (letters (S k))).
    { intros k. split; [done |]. generalize (S k). intros j. induction j as [| j IH]; cbn.
      - apply not_elem_of_nil.
      - apply not_elem_of_cons. by split. }
    repeat constructor; try apply L; try done. cbn. rewrite !not_elem_of_cons. repeat split; try done.
    apply not_elem_of_nil. }
  assert (E : visit_pipe (encode lost_lines) = Some (take 3 lost_lines, [], Served)) by (vm_compute; reflexivity).
  exists (visited n (take 3 lost_lines) w). split_and!.
  - by apply (info_visit_run _ _ _ _ _ _ I E).
  - cbn [sock_out visited sent over]. by rewrite lookup_insert_eq.
  - destruct I as [Hn Hp]. split; [exact Hn |]. cbn. by rewrite lookup_insert_eq.
Qed.

Lemma long_lines_lose_next_witness :
  Forall is_message lost_lines /\
  exists w', info_visit 1 (example lost_lines) = Some (true, w') /\
    w'.(sock_out) !! 5 = Some (default [] ((example lost_lines).(sock_out) !! 5) ++ take 3 lost_lines) /\
    info_session 1 example_node [] w'.
Proof. apply (long_lines_lose_next 1 example_node). apply example_session. Defined.

(** * The empty line *)

(** Setting the model clock before it was started ends every info session:
    the call is answered OK, but the line it sends is empty, and the session
    that takes an empty line from its pipe takes the write of no bytes for the
    end of the connection. *)
Theorem early_set_time_ends_sessions d h m s w l sn n :
  Session.wf w.(sess) l -> NoDup (map (fun x => x.2.(sn_pipefd1))
    (List.filter (fun x => Session.wants_info x.2) l)) ->
  0 <= d -> 0 <= h <= 23 -> 0 <= m <= 59 -> 0 <= s <= 59 -> w.(distort).(ratio_y) = 0 ->
  (sn, Session.strip n) ∈ l -> Session.wants_info n = true -> info_session sn n [] w ->
  exists w1 w2, TIME.setTIME d h m s w = Some (SRCP_OK, w1) /\ info_session sn n [""%string] w1 /\
    info_visit sn w1 = Some (false, w2) /\
    w2.(sock_out) !! n.(sn_socket) = Some (default [] (w.(sock_out) !! n.(sn_socket))).
Proof.
  intros Hwf Hnd Hd Hh Hm Hs Hr Hin Hi [Hn Hp].
  set (w0 := w <| vtime := mk_vtime d h m s |>). set (w1 := announce "" w0).
  assert (E : TIME.setTIME d h m s w = Some (SRCP_OK, w1)).
  { unfold TIME.setTIME.
    assert ((d <? 0) || (h <? 0) || (23 <? h) || (m <? 0) || (59 <? m) || (s <? 0) || (59 <? s) = false)
      as -> by zbool.
    unfold TIME.set_time. rewrite bind_modify. fold w0.
    unfold TIME.infoTIME, TIME.time_is_available. rewrite bind_assoc, bind_gets.
    assert ((0 <? ratio_x (distort w0)) && (0 <? ratio_y (distort w0)) = false) as ->.
    { cbn. rewrite Hr. by rewrite andb_false_r. }
    cbn [negb]. rewrite bind_ret.
    rewrite (bind_some _ _ _ _ _ (enqueueInfoMessage_spec "" w0 ltac:(by exists l))). done. }
  assert (I : info_session sn n [""%string] w1).
  { split; [exact Hn |]. unfold w1, announce. cbn -[Session.session_nodes].
    rewrite (Session.session_nodes_wf _ _ Hwf), Session.deliver_lookup by done.
    replace (existsb _ l) with true; [by rewrite Hp |]. symmetry. apply existsb_exists.
    exists (sn, Session.strip n). split; [by apply list_elem_of_In |].
    cbn. change (Session.wants_info (Session.strip n)) with (Session.wants_info n).
    by rewrite Hi, Z.eqb_refl. }
  exists w1, (visited n [] w1). split_and!; [done | done | |].
  - apply (info_visit_run sn n [""%string] w1 [] Ended I); [vm_compute; reflexivity | done].
  - cbn. by rewrite lookup_insert_eq, app_nil_r.
Qed.

Lemma early_set_time_ends_sessions_witness :
  exists w1 w2, TIME.setTIME 1 12 0 0 (example []) = Some (SRCP_OK, w1) /\
    info_session 1 example_node [""%string] w1 /\ info_visit 1 w1 = Some (false, w2) /\
    w2.(sock_out) !! 5 = Some (default [] ((example []).(sock_out) !! 5)).
Proof.
  apply (early_set_time_ends_sessions 1 12 0 0 (example []) [(1, example_node)] 1 example_node).
  - split; cbn.
    + apply (Session.chain_cons _ 1 example_node); [discriminate | reflexivity | constructor].
    + apply NoDup_singleton.
    + lia.
    + intros p [n Hp]. destruct (decide (1 = p)) as [<- | Hne]; [split; reflexivity |].
      by rewrite lookup_singleton_ne in Hp.
  - apply NoDup_singleton.
  - lia.
  - lia.
  - lia.
  - lia.
  - reflexivity.
  - apply list_elem_of_here.
  - reflexivity.
  - apply example_session.
Defined.

(** * The count of command sessions *)

Definition typed (s : string) : list read_t := Byte <$> String.list_ascii_of_string s.

Lemma node_mod_some sn f n w : w.(sess).(heap) !! sn = Some n ->
  node_mod sn f w = Some (tt, w <| sess ::= fun s => s <| heap ::= <[sn := f n]> |> |>).
Proof.
  intros H. unfold node_mod, on_sess.
  by rewrite (bind_some _ _ _ _ _ (Session.node_at_some _ _ _ H)).
Qed.

Lemma testcancel_no sn n w : w.(sess).(heap) !! sn = Some n -> n.(sn_thread) ∉ w.(sess).(cancelled) ->
  testcancel sn w = Some (false, w).
Proof.
  intros H Hc. unfold testcancel. rewrite (bind_some _ _ _ _ _ (client_node_some _ _ _ H)), bind_get.
  by rewrite bool_decide_false.
Qed.

Lemma writen_some socket text w : text <> ""%string ->
  writen socket text w = Some (Z.of_nat (String.length text), sent socket [text] w).
Proof. intros H. unfold writen. by rewrite decide_False. Qed.

Definition COMMAND_MODE : string := "SET CONNECTIONMODE SRCP COMMAND" +:+ nl.

Lemma read_command_mode rest : socket_readline (typed COMMAND_MODE ++ rest) linelen =
  (32, COMMAND_MODE, rest).
Proof. vm_compute. reflexivity. Qed.

Section Early.
Context (others : prog world bool) (meanwhile : nat -> prog world unit).
Context (init_bus_DDL : Z -> prog world Z) (serial temp : Z) (patience : nat).

Local Abbreviation handshake :=
  (handshake others meanwhile init_bus_DDL serial temp patience (fun _ => ret tt)).

Lemma handshake_line fuel k sn fd0 fd1 input result line rest nelem cmd setcmd parm n w :
  w.(sess).(heap) !! sn = Some n -> n.(sn_thread) ∉ w.(sess).(cancelled) ->
  socket_readline input linelen = (result, line, rest) -> (result =? 0) || (result =? -1) = false ->
  tokens (Command.chomp line) 3 = (nelem, [cmd; setcmd; parm]) ->
  (0 <? nelem) && starts cmd "GO" = false ->
  handshake (S fuel) k sn fd0 fd1 input w =
    (let* rc := shake sn nelem cmd setcmd parm in
     let* time := gettimeofday in
     let* n := node_at sn in
     do* writen n.(sn_socket) (srcp_fmt_msg rc time).2 in
     handshake fuel (S k) sn fd0 fd1 rest) w.
Proof.
  intros Hn Hc Hr Hne Ht Hgo. cbn [Client.handshake].
  rewrite (bind_some _ _ _ _ _ (testcancel_no sn n w Hn Hc)), bind_ret.
  by rewrite Hr, Hne, Ht, Hgo.
Qed.

Lemma handshake_end fuel k sn fd0 fd1 n w :
  w.(sess).(heap) !! sn = Some n -> n.(sn_thread) ∉ w.(sess).(cancelled) ->
  handshake (S fuel) k sn fd0 fd1 [] w = Some (tt, w).
Proof.
  intros Hn Hc. cbn [Client.handshake].
  by rewrite (bind_some _ _ _ _ _ (testcancel_no sn n w Hn Hc)), bind_ret.
Qed.

Lemma shake_command sn n w : w.(sess).(heap) !! sn = Some n ->
  shake sn 3 "SET" "CONNECTIONMODE" "SRCP COMMAND" w =
    Some (SRCP_OK_CONNMODE,
      w <| sess ::= fun s => s <| heap ::= <[sn := n <| sn_mode := smCommand |>]> |> |>).
Proof.
  intros Hn. unfold shake. cbv [Z.ltb Z.compare]. change (starts "SET" "SET") with true.
  change (starts "CONNECTIONMODE" "CONNECTIONMODE") with true.
  change (starts "SRCP COMMAND" "SRCP INFO") with false.
  change (starts "SRCP COMMAND" "SRCP COMMAND") with true.
  change (starts "CONNECTIONMODE" "PROTOCOL") with false. cbn [andb Z.eqb Pos.eqb].
  rewrite bind_assoc. by rewrite (bind_some _ _ _ _ _ (node_mod_some sn _ n w Hn)).
Qed.

(** As long as the count of sessions is not 0, the bus thread keeps the power on. *)
Lemma unwatched bus k l d : k <> 0 -> l.(Mfx.l_world).(buses) !! bus = Some d ->
  Ddl.client_check bus k l = Some (tt, l).
Proof.
  intros Hk Hd. unfold Ddl.client_check, Ddl.ddl_get, Ddl.world_get. rewrite bind_gets.
  rewrite (bind_some _ _ _ _ _ (Mfx.on_world_some _ _ _ _ (bus_get_some _ _ _ Hd))).
  rewrite bind_gets. apply Z.eqb_neq in Hk. rewrite Hk, andb_false_r. cbn [andb]. by destruct l.
Qed.

(** A client that asks for command mode and goes away before GO takes one
    off the count of command sessions that it never added: the count wraps
    around to 2^32 - 1.  Its node stays in the list, and from then on a bus that
    is configured to switch the power off when no command client is left never
    does so. *)
Theorem early_disconnect_uncounted self sn fd0 fd1 w n :
  w.(sess).(heap) !! sn = Some n -> n.(sn_session) = 0 -> self ∉ w.(sess).(cancelled) ->
  w.(commandsessions) = 0 ->
  exists w', thr_doClient others meanwhile init_bus_DDL serial temp patience (fun _ => ret tt)
      self sn fd0 fd1 (typed COMMAND_MODE) w = Some (tt, w') /\
    w'.(commandsessions) = 2 ^ 32 - 1 /\ is_Some (w'.(sess).(heap) !! sn) /\
    forall bus l d, l.(Mfx.l_world).(buses) !! bus = Some d ->
      exists k, getnbr_commandsessions w' = Some (k, w') /\ Ddl.client_check bus k l = Some (tt, l).
Proof.
  intros Hn H0 Hc Hcs. unfold thr_doClient. rewrite (bind_some _ _ _ _ _ (node_mod_some _ _ _ _ Hn)).
  set (n1 := n <| sn_thread := self |>).
  set (w1 := w <| sess ::= fun s => s <| heap ::= <[sn := n1]> |> |>).
  assert (Hn1 : w1.(sess).(heap) !! sn = Some n1) by apply lookup_insert_eq.
  rewrite (bind_some _ _ _ _ _ (client_node_some _ _ _ Hn1)).
  rewrite (bind_some _ _ _ _ _ (writen_some _ WELCOME_MSG _ ltac:(discriminate))).
  set (w2 := sent n1.(sn_socket) [WELCOME_MSG] w1).
  rewrite bind_run. change (S (length (typed COMMAND_MODE))) with 33%nat.
  rewrite (handshake_line 32 0 sn fd0 fd1 (typed COMMAND_MODE) 32 COMMAND_MODE [] 3 "SET" "CONNECTIONMODE"
    "SRCP COMMAND" n1 w2 Hn1 Hc eq_refl eq_refl eq_refl eq_refl).
  set (n2 := n1 <| sn_mode := smCommand |>).
  set (w3 := w2 <| sess ::= fun s => s <| heap ::= <[sn := n2]> |> |>).
  pose proof (shake_command sn n1 w2 Hn1) as E3. fold n2 in E3. fold w3 in E3.
  rewrite (bind_some _ _ _ _ _ E3), (bind_some _ _ _ _ _ (gettimeofday_spec w3)).
  assert (Hn3 : (tick w3).(sess).(heap) !! sn = Some n2) by apply lookup_insert_eq.
  rewrite (bind_some _ _ _ _ _ (client_node_some sn n2 (tick w3) Hn3)).
  rewrite (bind_some _ _ _ _ _ (writen_some _ _ _ (srcp_fmt_msg_neq SRCP_OK_CONNMODE (now w3)))).
  set (w4 := sent _ _ (tick w3)).
  assert (Hn4 : w4.(sess).(heap) !! sn = Some n2) by exact Hn3.
  rewrite (handshake_end 31 1 sn fd0 fd1 n2 w4 Hn4 Hc).
  unfold end_client_thread. rewrite (bind_some _ _ _ _ _ (client_node_some sn n2 w4 Hn4)).
  rewrite (bind_some _ _ _ _ _ (node_mod_some sn _ n2 w4 Hn4)).
  change (sn_mode n2) with smCommand. cbv iota. rewrite bind_modify.
  change (sn_session n2) with (sn_session n). rewrite H0. cbn [Z.eqb negb andb].
  rewrite andb_false_r. eexists. split; [reflexivity |].
  assert (Ec : w4.(commandsessions) = 0) by exact Hcs.
  split; [| split].
  - cbn [commandsessions over]. rewrite Ec. reflexivity.
  - cbn [sess over heap]. rewrite lookup_insert_eq. eauto.
  - intros bus l d Hd. exists (-1). split.
    + unfold getnbr_commandsessions, gets. cbn [commandsessions over]. by rewrite Ec.
    + by apply (unwatched bus (-1) l d).
Qed.
End Early.

Lemma early_disconnect_uncounted_witness :
  exists w', thr_doClient (ret true) (fun _ => ret tt) (fun _ => ret 0) 0 0 0 (fun _ => ret tt)
      4 1 20 21 (typed COMMAND_MODE)
      ((example []) <| sess ::= fun s => s <| heap := {[ 1 := mk_node 0 0 5 smUndefined (-1) (-1) NULL ]} |> |>)
      = Some (tt, w') /\
    w'.(commandsessions) = 2 ^ 32 - 1 /\ is_Some (w'.(sess).(heap) !! 1) /\
    forall bus l d, l.(Mfx.l_world).(buses) !! bus = Some d ->
      exists k, getnbr_commandsessions w' = Some (k, w') /\ Ddl.client_check bus k l = Some (tt, l).
Proof.
  apply (early_disconnect_uncounted (ret true) (fun _ => ret tt) (fun _ => ret 0) 0 0 0 4 1 20 21
    _ (mk_node 0 0 5 smUndefined (-1) (-1) NULL)).
  - reflexivity.
  - reflexivity.
  - apply not_elem_of_nil.
  - reflexivity.
Defined.
End ClientSpec.
