(* ===== verification/AccessorySpec.v ===== *)
(** Accessories as a whole: every call the clients, the drivers and the CAN side
    make is defined in every well-formed state and leaves a well-formed one, as
    long as ports are 0 or 1. *)

From S2P Require Import Prelude Ring World Messages Text Session Services Lock Accessory.

Module GASpec.
Import GA.

(** * The commands a call is made of *)

Section Calls.

(** No lock lasts less than its bound in [floor], by bus and address. *)
Definition lasting (floor : Z -> Z -> Z) (w : world) : Prop :=
  forall b a d, ga_at w b a = Some d -> floor b a <= d.(ga_lockduration).

(** A change of an accessory that respects the bound of its lock. *)
Definition keeps_lock (m : Z) (f : ga_data_t -> ga_data_t) : Prop :=
  forall d, m <= d.(ga_lockduration) -> m <= (f d).(ga_lockduration).

(** The states reached keep the shape of [w0], that is the buses and how many
    accessories each has, and the bounds of the locks. *)
Definition kept (w0 : world) (floor : Z -> Z -> Z) (w : world) : Prop := same_shape w0 w /\ lasting floor w.

Lemma ga_at_same w w' b a : w'.(ga) = w.(ga) -> ga_at w' b a = ga_at w b a.
Proof. unfold ga_at. by intros ->. Qed.

Context (w0 : world) (floor : Z -> Z -> Z) (Hfloor : forall b a, floor b a <= 0).
Abbreviation Inv := (kept w0 floor).

Definition has (b n : Z) : Prop := numberOfGa <$> w0.(ga) !! b = Some n.

Lemma inv_number b n w : has b n -> Inv w -> exists g, w.(ga) !! b = Some g /\ g.(numberOfGa) = n.
Proof.
  intros Hn [[_ _ H] _]. specialize (H b). rewrite Hn in H.
  destruct (w.(ga) !! b) as [g |]; [| done]. injection H as H. by exists g.
Qed.
Lemma inv_wf w : Inv w -> wf w.
Proof. by intros [[] _]. Qed.
Lemma inv_same w w' : Inv w -> wf w' -> w'.(num_buses) = w.(num_buses) -> w'.(ga) = w.(ga) -> Inv w'.
Proof.
  intros [I L] Hw Hb Hg. split.
  - apply same_shape_trans with w; [done |]. split; [done.. |]. by rewrite Hg.
  - intros b a d. rewrite (ga_at_same w w') by done. apply L.
Qed.
Lemma inv_upd b a d w : floor b a <= d.(ga_lockduration) -> Inv w -> Inv (ga_upd b a d w).
Proof.
  intros Hd [I L]. split.
  - apply same_shape_trans with w; [done |]. split; [by apply ga_upd_wf, I | |]; unfold ga_upd;
      destruct (w.(ga) !! b) as [g |] eqn:E; try done.
    intros b'. cbn. destruct (decide (b = b')) as [<- |]; [by rewrite lookup_insert_eq, E |].
    by rewrite lookup_insert_ne.
  - intros b' a' d' Hd'. destruct (decide ((b, a) = (b', a'))) as [[= <- <-] | Hne].
    + destruct (ga_at w b a) as [d0 |] eqn:E0.
      * rewrite (ga_at_upd _ _ _ _ _ E0) in Hd'. by injection Hd' as <-.
      * exfalso. revert Hd' E0. unfold ga_at, ga_upd. destruct (w.(ga) !! b) as [g |] eqn:E; cbn; [| by rewrite E].
        rewrite lookup_insert_eq. cbn. destruct (_ && _) eqn:R; [| done]. intros _ E0.
        destruct (wf_gastate g (wf_groups _ (shape_wf _ _ I) b g E) a) as [x Hx]; [bool_hyps; lia | congruence].
    + rewrite ga_at_upd_ne in Hd' by done. by eapply L.
Qed.
Lemma inv_queue b q w : Inv w -> 0 <= b < MAX_BUSES -> Ring.wf QUEUELEN q ->
  Inv (w <| ga_queue ::= <[b := q]> |>).
Proof.
  intros I Hb Hq. apply inv_same with w; try done. destruct (inv_wf _ I) as [W1 W2 W3 W4 W5 W6].
  split; cbn; try done; [| by apply is_array_insert].
  intros b' q'. destruct (decide (b = b')) as [<- |].
  - rewrite lookup_insert_eq. by intros [= <-].
  - rewrite lookup_insert_ne by done. apply W3.
Qed.

Lemma has_bus b n : has b n -> wf w0 -> 0 <= b < MAX_BUSES.
Proof.
  unfold has. destruct (w0.(ga) !! b) as [g |] eqn:E; [| done]. intros _ Hw.
  exact (is_array_bound _ _ _ _ (wf_all_ga _ Hw) E).
Qed.

Context (Hw0 : wf w0).

Lemma keep_number b n : has b n -> keeps Inv (fun m => m = n) (get_number_ga b).
Proof.
  intros Hn w I. destruct (inv_number _ _ _ Hn I) as (g & Hg & E).
  exists n, w. by rewrite (get_number_some _ _ _ Hg), E.
Qed.
Lemma valid_at b n a w : has b n -> 1 <= a <= n -> Inv w -> exists d, ga_at w b a = Some d.
Proof.
  intros Hn Ha I. destruct (inv_number _ _ _ Hn I) as (g & Hg & E).
  apply (ga_at_valid w b a g); [by apply inv_wf | done | lia].
Qed.
Lemma keep_get b n a : has b n -> 1 <= a <= n ->
  keeps Inv (fun d => floor b a <= d.(ga_lockduration)) (gastate_get b a).
Proof.
  intros Hn Ha w I. destruct (valid_at b n a w) as [d Hd]; [done.. |].
  exists d, w. rewrite (gastate_get_some _ _ _ _ Hd). split_and!; [done.. |]. by apply I.
Qed.
Lemma keep_set b n a d : has b n -> 1 <= a <= n -> floor b a <= d.(ga_lockduration) ->
  keeps Inv (fun _ => True) (gastate_set b a d).
Proof.
  intros Hn Ha Hd0 w I. destruct (valid_at b n a w) as [d' Hd]; [done.. |].
  eexists tt, _. split; [by apply gastate_set_some with d' | split; [by apply inv_upd | done]].
Qed.
Lemma keep_update b n a f : has b n -> 1 <= a <= n ->
  keeps_lock (floor b a) f ->
  keeps Inv (fun _ => True) (gastate_update b a f).
Proof.
  intros Hn Ha Hf w I. destruct (valid_at b n a w) as [d Hd]; [done.. |].
  eexists tt, _. split; [by apply gastate_update_some | split; [| done]].
  apply inv_upd; [| done]. apply Hf. by apply I.
Qed.
Lemma keep_time : keeps Inv (fun _ => True) gettimeofday.
Proof.
  intros w I. exists (now w), (tick w). split; [done | split; [| done]].
  apply inv_same with w; try done. by apply wf_tick, inv_wf.
Qed.
Lemma keep_info msg : keeps Inv (fun _ => True) (enqueueInfoMessage msg).
Proof.
  intros w I. exists tt, (announce msg w). pose proof (inv_wf _ I) as Hw.
  split; [by apply enqueueInfoMessage_spec, Hw | split; [| done]].
  apply inv_same with w; try done. by apply wf_announce.
Qed.
Lemma keep_bus b : 0 <= b < MAX_BUSES -> keeps Inv (fun _ => True) (bus_get b).
Proof.
  intros Hb w I. destruct (is_array_lookup _ _ b (wf_all_bus _ (inv_wf _ I)) Hb) as [d Hd].
  exists d, w. by rewrite (bus_get_some _ _ _ Hd).
Qed.
Lemma keep_queue b : 0 <= b < MAX_BUSES -> keeps Inv (Ring.wf QUEUELEN) (queue_get b).
Proof.
  intros Hb w I. pose proof (inv_wf _ I) as Hw.
  destruct (is_array_lookup _ _ b (wf_all_queue _ Hw) Hb) as [q Hq].
  exists q, w. rewrite (queue_get_some _ _ _ Hq). split_and!; [done.. |]. by apply (wf_rings _ Hw b).
Qed.
Lemma keep_put b q : 0 <= b < MAX_BUSES -> Ring.wf QUEUELEN q -> keeps Inv (fun _ => True) (queue_set b q).
Proof. intros Hb Hq w I. eexists tt, _. split; [done | split; [by apply inv_queue | done]]. Qed.
Lemma keep_wake b : 0 <= b < MAX_BUSES -> keeps Inv (fun _ => True) (resume_bus_thread b).
Proof.
  intros Hb w I. destruct (is_array_lookup _ _ b (wf_all_bus _ (inv_wf _ I)) Hb) as [d Hd].
  eexists tt, _. split; [by apply resume_spec with d | split; [| done]].
  apply inv_same with w; try done. destruct (inv_wf _ I). by split.
Qed.
Lemma keep_mcs b id item payload pad : (length payload <= 4)%nat ->
  keeps Inv (fun _ => True) (info_mcs b id item (Z.of_nat (length payload) :: payload ++ pad)).
Proof.
  intros Hl w I. destruct (info_mcs_spec b id item payload pad w Hl) as (rc & E & _).
  exists rc, (sync b id item payload w). split; [done | split; [| done]].
  unfold sync. destruct (b =? w.(mcs).(mcs_bus)); [| done].
  apply inv_same with w; try done; destruct (inv_wf _ I); by split.
Qed.

(** * The calls for one bus *)

Section Bus.
Context (b n : Z) (Hn : has b n).

Lemma keep_supports p : keeps Inv (fun _ => True) (bus_supports_protocol b p).
Proof using Hfloor Hn Hw0.
  unfold bus_supports_protocol. eapply keeps_bind; [eapply keep_bus, has_bus; eauto |].
  intros. by apply keeps_ret.
Qed.

(** Cell [i] of the ring is there. *)
Lemma keep_cell (q : Ring.t ga_data_t) : Ring.wf QUEUELEN q -> keeps Inv (fun _ => True) (need (q.(Ring.queue) !! q.(Ring.in_))).
Proof.
  intros Hq. destruct (Ring.wf_cell QUEUELEN q q.(Ring.in_) Hq) as [c Hc].
  rewrite Z.mod_small in Hc by apply (Ring.wf_in _ _ Hq). by eapply keeps_need.
Qed.

Lemma keep_tv d port t : 0 <= port < MAXGAPORT ->
  keeps Inv (fun d' => d'.(ga_lockduration) = d.(ga_lockduration)) (set_tv d port t).
Proof. intros Hp w I. rewrite set_tv_some by done. eexists _, w. split_and!; [done.. |]. by destruct (_ =? _). Qed.
Lemma keep_ga_tv d port : 0 <= port < MAXGAPORT -> keeps Inv (fun _ => True) (need (ga_tv d port)).
Proof.
  unfold MAXGAPORT, ga_tv. intros Hp. destruct (Z.eqb_spec port 0); [by apply keeps_ret |].
  destruct (Z.eqb_spec port 1); [by apply keeps_ret | lia].
Qed.

#[local] Hint Resolve keep_number keep_get keep_set keep_update keep_time keep_info keep_supports
  keep_queue keep_put keep_wake keep_cell keep_tv keep_ga_tv has_bus keep_bus : keeps.

#[local] Hint Extern 1 (_ <= _ <= _) => bool_hyps; lia : keeps.
#[local] Hint Extern 1 (_ <= _ < _) => bool_hyps; lia : keeps.
#[local] Hint Extern 1 (floor _ _ <= _) => first [done | apply Hfloor | cbn; congruence] : keeps.
#[local] Hint Extern 1 (keeps_lock _ _) => intros ?d ?Hd; first [exact Hd | assumption | apply Hfloor] : keeps.

Ltac calls := repeat (keep_step || (apply keeps_ret; exact Logic.I)).

Lemma keep_enqueue a p act dl : 0 <= p < MAXGAPORT ->
  keeps Inv (fun _ => True) (enqueueGA b a p act dl).
Proof using Hfloor Hn Hw0.
  intros Hp w I. pose proof (inv_wf _ I) as Hw. pose proof (has_bus b n Hn Hw0) as Hb.
  destruct (is_array_lookup _ _ b (wf_all_queue _ Hw) Hb) as [q Hq].
  destruct (ga_at w b a) as [d |] eqn:Hd.
  - destruct (Ring.isfull QUEUELEN q) eqn:Hf.
    + eexists _, w. split; [by apply enqueueGA_full with d q | done].
    + destruct (enqueueGA_accepts w b a d q p act dl Hw Hd Hq Hf Hp)
        as (c & w' & E & Hw' & Hga & _ & _ & Hnb & _).
      eexists _, w'. split; [exact E | split; [| done]]. by apply inv_same with w.
  - destruct (ga_range_none _ _ _ Hw Hb Hd) as (g & Hg & R & _).
    eexists _, w. split; [| done]. unfold enqueueGA. step (get_number_some _ _ _ Hg). by rewrite R.
Qed.

Lemma keep_dequeue : keeps Inv (fun _ => True) (dequeueNextGA b).
Proof using Hfloor Hn Hw0.
  unfold dequeueNextGA. eapply keeps_bind; [apply keep_queue; eauto with keeps |].
  intros q Hq. apply keeps_if; intros He; [by apply keeps_ret |].
  destruct (Ring.contents_step QUEUELEN q Hq He) as (c & l & Hc).
  destruct (Ring.take_spec QUEUELEN q _ _ Hq Hc) as (q' & E & Hq' & _).
  eapply keeps_bind; [exact (keeps_need _ (fun r => Ring.wf QUEUELEN r.2) _ _ E Hq') |].
  intros r Hr. calls.
Qed.

Lemma keep_describe a : keeps Inv (fun _ => True) (describeGA b a).
Proof using Hfloor Hn Hw0. unfold describeGA. calls. Qed.
Lemma keep_infoGA a p : keeps Inv (fun _ => True) (infoGA b a p).
Proof using Hfloor Hn Hw0. unfold infoGA, nodata. calls. Qed.
Lemma keep_describeLOCK a r : keeps Inv (fun _ => True) (describeLOCKGA b a r).
Proof using Hfloor Hn Hw0. unfold describeLOCKGA. calls. Qed.
#[local] Hint Resolve keep_describe keep_infoGA keep_describeLOCK : keeps.

Lemma keep_init a p : keeps Inv (fun _ => True) (initGA b a p).
Proof using Hfloor Hn Hw0. unfold initGA. calls. Qed.
#[local] Hint Resolve keep_init : keeps.

Lemma keep_lock a dur sid : floor b a <= dur -> keeps Inv (fun _ => True) (lockGA b a dur sid).
Proof using Hfloor Hn Hw0. intros Hd. unfold lockGA. calls. Qed.
Lemma keep_unlock a sid : keeps Inv (fun _ => True) (unlockGA b a sid).
Proof using Hfloor Hn Hw0. unfold unlockGA. calls. Qed.
#[local] Hint Resolve keep_lock keep_unlock : keeps.

Lemma keep_term a : 1 <= a <= n -> keeps Inv (fun _ => True) (termGA b a).
Proof using Hfloor Hn Hw0. intros Ha. unfold termGA, isInitializedGA. calls. Qed.
(** [setGA] stores the port and then reads it back. *)
Lemma keep_store {A} (Q : A -> Prop) a (c : ga_data_t) (k : ga_data_t -> prog world A) :
  1 <= a <= n -> 0 <= c.(ga_port) < MAXGAPORT -> (forall d, floor b a <= d.(ga_lockduration) -> keeps Inv Q (k d)) ->
  keeps Inv Q
    (do* gastate_update b a (fun d => d <| ga_id := c.(ga_id) |> <| ga_action := c.(ga_action) |>
                                        <| ga_port := c.(ga_port) |>) in
     let* t := gettimeofday in
     let* d := gastate_get b a in
     let* d := set_tv d d.(ga_port) t in
     k d).
Proof using Hfloor Hn Hw0.
  intros Ha Hp Hk w I. destruct (valid_at b n a w) as [d Hd]; [done.. |].
  step (gastate_update_some _ _ _ _ (fun d => d <| ga_id := c.(ga_id) |>
    <| ga_action := c.(ga_action) |> <| ga_port := c.(ga_port) |>) Hd).
  set (d1 := d <| ga_id := _ |> <| ga_action := _ |> <| ga_port := _ |>).
  step (gettimeofday_spec (ga_upd b a d1 w)).
  assert (Hd1 : ga_at (tick (ga_upd b a d1 w)) b a = Some d1) by exact (ga_at_upd _ _ _ _ _ Hd).
  step (gastate_get_some _ _ _ _ Hd1). unfold bind at 1.
  assert (Hd0 : floor b a <= d.(ga_lockduration)) by (by apply I).
  rewrite set_tv_some by exact Hp. apply Hk; [by destruct (_ =? _) |].
  apply inv_same with (ga_upd b a d1 w); [by apply inv_upd | | done | done].
  by apply wf_tick, ga_upd_wf, inv_wf.
Qed.

Lemma keep_minfo id item a : keeps Inv (fun _ => True) (info_mcs b id item (ga_minfo a)).
Proof.
  unfold ga_minfo. destruct (negb _).
  - exact (keep_mcs b id item [_; _; _; _] [] ltac:(cbn; lia)).
  - exact (keep_mcs b id item [_; _] [0; 0] ltac:(cbn; lia)).
Qed.
#[local] Hint Resolve keep_minfo : keeps.

Lemma keep_setGA a (c : ga_data_t) : 0 <= c.(ga_port) < MAXGAPORT ->
  keeps Inv (fun _ => True) (setGA b a c).
Proof using Hfloor Hn Hw0.
  intros Hp. unfold setGA, isInitializedGA. keep_step. keep_step; [| calls].
  keep_step. keep_step. keep_step. keep_step. keep_step.
  - keep_step. keep_step. apply keep_store; [bool_hyps; lia | done |]. intros d Hd. calls.
  - keep_step. apply keep_store; [bool_hyps; lia | done |]. intros d Hd. calls.
Qed.

Lemma keep_clean : keeps Inv (fun _ => True) (clean_GA b).
Proof using Hfloor Hn Hw0.
  unfold clean_GA. keep_step. subst. apply keeps_for_each; [done |].
  intros i Hi%elem_of_range. by eapply keep_set.
Qed.

Lemma keep_unlock_session sid i : 1 <= i <= n ->
  keeps Inv (fun _ => True) (unlock_bus_bysessionid sid b i).
Proof using Hfloor Hn Hw0. intros Hi. unfold unlock_bus_bysessionid. calls. Qed.

Lemma keep_gacc p a port act dl : 0 <= port < MAXGAPORT ->
  keeps Inv (fun _ => True) (handle_mcs_gacc b p a port act dl).
Proof using Hfloor Hn Hw0.
  intros Hp. pose proof (keep_enqueue a port act dl Hp) as He. unfold handle_mcs_gacc. calls.
Qed.
End Bus.

(** * The calls for all buses *)

Lemma has_number i : wf w0 -> 0 <= i < MAX_BUSES -> exists n, has i n.
Proof.
  intros Hw Hi. destruct (is_array_lookup _ _ i (wf_all_ga _ Hw) Hi) as [g Hg].
  exists g.(numberOfGa). unfold has. by rewrite Hg.
Qed.

Lemma keep_all (body : Z -> Z -> prog world unit) : w0.(num_buses) < MAX_BUSES ->
  (forall i n j, has i n -> 1 <= j <= n -> keeps Inv (fun _ => True) (body i j)) ->
  keeps Inv (fun _ => True)
    (let* n := gets num_buses in
     for_each (range 1 n) (fun i => let* number := get_number_ga i in for_each (range 1 number) (body i))).
Proof using Hw0.
  intros Hb H. eapply keeps_bind with (P := fun nb => nb = w0.(num_buses)).
  - intros w I. exists w.(num_buses), w. split; [done | split; [done |]]. apply I.
  - intros nb ->. apply keeps_for_each; [done |]. intros i Hi%elem_of_range.
    destruct (has_number i Hw0) as [n Hn]; [lia |].
    eapply keeps_bind; [by apply keep_number with (n := n) |]. intros ? ->.
    apply keeps_for_each; [done |]. intros j Hj%elem_of_range. by eapply H.
Qed.
End Calls.

(** * A second passes

    Every duration is taken down by one: accessory after accessory the bound of
    a lock falls from [m] to [m - 1]. *)

Lemma kept_mono w0 fl fl' w : (forall b a, 1 <= a -> fl' b a <= fl b a) -> kept w0 fl w -> kept w0 fl' w.
Proof.
  intros H [I L]. split; [done |]. intros b a d Hd. pose proof (L b a d Hd).
  assert (1 <= a) as Ha.
  { unfold ga_at in Hd. destruct (w.(ga) !! b); [| done]. destruct (_ && _) eqn:R; [| done]. bool_hyps. lia. }
  specialize (H b a Ha). lia.
Qed.

Definition bounds (m : Z) (todo : Z -> Z -> bool) : Z -> Z -> Z := fun b a => if todo b a then m else m - 1.
(** The accessories from [j] of bus [i] on. *)
Definition from (i j b a : Z) : bool := (i <? b) || ((b =? i) && (j <=? a)).

Lemma from_spec i j b a : from i j b a = true <-> i < b \/ b = i /\ j <= a.
Proof. unfold from. rewrite orb_true_iff, andb_true_iff, Z.ltb_lt, Z.eqb_eq, Z.leb_le. done. Qed.
Lemma from_next i j b a : from i (j + 1) b a = true -> from i j b a = true /\ (b, a) <> (i, j).
Proof. rewrite !from_spec. intros H. split; [lia | intros [= -> ->]; lia]. Qed.

Section Second.
Context (w0 : world) (m : Z) (Hw0 : wf w0) (Hm : LONG_MIN < m <= 0).

Lemma bounds_nonpos todo b a : bounds m todo b a <= 0.
Proof using Hm. unfold bounds. destruct (todo b a); lia. Qed.

Lemma time_one i n j w : has w0 i n -> 1 <= j <= n -> kept w0 (bounds m (from i j)) w ->
  exists w', unlock_bus_bytime i j w = Some (tt, w') /\ kept w0 (bounds m (from i (j + 1))) w'.
Proof using Hw0 Hm.
  intros Hn Hj K. destruct (valid_at w0 _ i n j w Hn Hj K) as [d Hd].
  assert (m <= d.(ga_lockduration)) as Hl.
  { destruct K as [_ L]. specialize (L i j d Hd). unfold bounds in L.
    by replace (from i j i j) with true in L by (symmetry; apply from_spec; lia). }
  assert (kept w0 (bounds m (from i (j + 1))) w) as K1.
  { eapply kept_mono; [| exact K]. intros b a _. unfold bounds. destruct (from i (j + 1) b a) eqn:F.
    - by rewrite (proj1 (from_next _ _ _ _ F)).
    - destruct (from i j b a); lia. }
  unfold unlock_bus_bytime. step (gastate_get_some _ _ _ _ Hd).
  replace (LONG_MIN <? d.(ga_lockduration)) with true by zbool.
  cbn [guard]. rewrite bind_ret.
  set (d1 := d <| ga_lockduration ::= fun n => n - 1 |>).
  assert (bounds m (from i (j + 1)) i j <= d1.(ga_lockduration)) as Hl1.
  { unfold bounds. destruct (from i (j + 1) i j) eqn:F; [| unfold d1; cbn; lia].
    by destruct (from_next _ _ _ _ F) as [_ []]. }
  destruct (keep_set w0 _ i n j d1 Hn Hj Hl1 w K1) as ([] & w1 & E1 & K2 & _). step E1.
  destruct (_ =? 1); [| by exists w1].
  destruct (keep_unlock w0 _ (bounds_nonpos _) Hw0 i n Hn j d.(ga_locked_by) w1 K2) as (rc & w2 & E2 & K3 & _).
  step E2. by exists w2.
Qed.

Lemma time_bus i n w : has w0 i n -> 0 <= n -> kept w0 (bounds m (fun b _ => i <=? b)) w ->
  exists w', for_each (range 1 n) (unlock_bus_bytime i) w = Some (tt, w') /\
    kept w0 (bounds m (fun b _ => i + 1 <=? b)) w'.
Proof using Hw0 Hm.
  intros Hn H0 K.
  destruct (for_each_range (fun j => kept w0 (bounds m (from i j))) (unlock_bus_bytime i) 1 n w) as (w' & E & K').
  - lia.
  - eapply kept_mono; [| exact K]. intros b a Ha. unfold bounds.
    destruct (Z.leb_spec i b) as [F | F]; [by destruct (from i 1 b a); lia |].
    replace (from i 1 b a) with false; [done |]. symmetry. apply not_true_iff_false. rewrite from_spec. lia.
  - intros j w1 Hj K1. by apply time_one with n.
  - exists w'. split; [done |]. eapply kept_mono; [| exact K']. intros b a Ha. unfold bounds.
    destruct (Z.leb_spec (i + 1) b) as [F | F]; [| by destruct (from i (n + 1) b a); lia].
    by replace (from i (n + 1) b a) with true by (symmetry; apply from_spec; lia).
Qed.
End Second.

Lemma keep_second w0 m w : wf w0 -> w0.(num_buses) < MAX_BUSES -> LONG_MIN < m <= 0 -> kept w0 (fun _ _ => m) w ->
  exists w', unlock_ga_bytime w = Some (tt, w') /\ kept w0 (fun _ _ => m - 1) w'.
Proof.
  intros Hw Hb Hm K. unfold unlock_ga_bytime. rewrite bind_gets.
  replace w.(num_buses) with w0.(num_buses) by (symmetry; apply K).
  destruct (decide (w0.(num_buses) < 1)) as [Hz | Hz].
  { assert (range 1 w0.(num_buses) = []) as -> by (unfold range; by rewrite seqZ_nil by lia). exists w. split; [done |].
    eapply kept_mono; [| exact K]. intros. cbn. lia. }
  match goal with |- context [for_each _ ?body] =>
    destruct (for_each_range (fun i => kept w0 (bounds m (fun b _ => i <=? b))) body 1 w0.(num_buses) w)
      as (w' & E & K') end.
  - lia.
  - eapply kept_mono; [| exact K]. intros b a _. unfold bounds. destruct (_ <=? _); lia.
  - intros i w1 Hi K1. destruct (has_number w0 i Hw) as [n Hn]; [lia |].
    destruct (inv_number w0 _ i n w1 Hn K1) as (g & Hg & En).
    assert (0 <= n) as H0 by (rewrite <- En; apply (wf_number g), (wf_groups _ (inv_wf _ _ _ K1) i g Hg)).
    rewrite (bind_some _ _ _ _ _ (get_number_some _ _ _ Hg)), En. by apply time_bus.
  - exists w'. split; [exact E |]. eapply kept_mono; [| exact K']. intros b a _. unfold bounds. destruct (_ <=? _); lia.
Qed.

(** * Any sequence of calls *)

(** What clients, drivers and the CAN side call. *)
Inductive call :=
| Enqueue (b a port action delay : Z)
| Dequeue (b : Z)
| Set_ (b a : Z) (d : ga_data_t)
| Init (b a protocol : Z)
| Term (b a : Z)
| Info (b a port : Z)
| Lock (b a duration sid : Z)
| Unlock (b a sid : Z)
| Session_end (sid : Z)
| Second
| Clean (b : Z)
| Can (b protocol a port action delay : Z).

Definition ignore {A} (m : prog world A) : prog world unit := do* m in ret tt.
Definition perform (c : call) : prog world unit :=
  match c with
  | Enqueue b a port action delay => ignore (enqueueGA b a port action delay)
  | Dequeue b => ignore (dequeueNextGA b)
  | Set_ b a d => ignore (setGA b a d)
  | Init b a protocol => ignore (initGA b a protocol)
  | Term b a => ignore (termGA b a)
  | Info b a port => ignore (infoGA b a port)
  | Lock b a duration sid => ignore (lockGA b a duration sid)
  | Unlock b a sid => ignore (unlockGA b a sid)
  | Session_end sid => unlock_ga_bysessionid sid
  | Second => unlock_ga_bytime
  | Clean b => clean_GA b
  | Can b protocol a port action delay => handle_mcs_gacc b protocol a port action delay
  end.

(** How many of the calls are the one of every second. *)
Definition seconds (cs : list call) : Z :=
  Z.of_nat (length (List.filter (fun c => match c with Second => true | _ => false end) cs)).

(** What the code does not check: the bus is one of the daemon, a port is 0 or 1;
    TERM needs an address of the bus; the duration of a lock can be counted down
    for [n] seconds without leaving [long]. *)
Definition port_ok (p : Z) : Prop := 0 <= p < MAXGAPORT.
Definition typed (w : world) (n : Z) (c : call) : Prop :=
  match c with
  | Enqueue b _ port _ _ | Can b _ _ port _ _ => 0 <= b < MAX_BUSES /\ port_ok port
  | Set_ b _ d => 0 <= b < MAX_BUSES /\ port_ok d.(ga_port)
  | Term b a => exists k, numberOfGa <$> w.(ga) !! b = Some k /\ 1 <= a <= k
  | Lock b _ duration _ => 0 <= b < MAX_BUSES /\ LONG_MIN + n <= duration
  | Dequeue b | Init b _ _ | Info b _ _ | Unlock b _ _ | Clean b => 0 <= b < MAX_BUSES
  | Session_end _ | Second => True
  end.

Lemma keep_ignore {A} w0 fl (m : prog world A) :
  keeps (kept w0 fl) (fun _ => True) m -> keeps (kept w0 fl) (fun _ => True) (ignore m).
Proof. intros H. eapply keeps_bind; [exact H |]. intros. by apply keeps_ret. Qed.

Lemma perform_keeps w0 n m c : wf w0 -> w0.(num_buses) < MAX_BUSES -> typed w0 n c -> m <= LONG_MIN + n -> m <= 0 ->
  c <> Second -> keeps (kept w0 (fun _ _ => m)) (fun _ => True) (perform c).
Proof.
  intros Hw Hb Ht Hm H0 Hc. destruct c; cbn [perform typed] in *;
    try (destruct (has_number w0 b Hw ltac:(tauto)) as [k Hk]); try apply keep_ignore.
  - eapply keep_enqueue; [done.. | by apply Ht].
  - by eapply keep_dequeue.
  - eapply keep_setGA; [done.. | by apply Ht].
  - by eapply keep_init.
  - destruct Ht as (k & Hk & Ha). by eapply keep_term.
  - by eapply keep_infoGA.
  - eapply keep_lock; [done.. |]. lia.
  - by eapply keep_unlock.
  - apply keep_all; [done.. |]. intros. by eapply keep_unlock_session.
  - done.
  - by eapply keep_clean.
  - eapply keep_gacc; [done.. | by apply Ht].
Qed.

Lemma seconds_nil : seconds [] = 0.
Proof. done. Qed.
Lemma seconds_second cs : seconds (Second :: cs) = seconds cs + 1.
Proof. unfold seconds. cbn [List.filter length]. lia. Qed.
Lemma seconds_nonneg cs : 0 <= seconds cs.
Proof. unfold seconds. lia. Qed.
Lemma perform_all w0 n cs : wf w0 -> w0.(num_buses) < MAX_BUSES -> Forall (typed w0 n) cs -> forall m w,
  LONG_MIN + seconds cs <= m -> m <= LONG_MIN + n -> m <= 0 -> kept w0 (fun _ _ => m) w ->
  exists w', for_each cs perform w = Some (tt, w') /\ kept w0 (fun _ _ => m - seconds cs) w'.
Proof.
  intros Hw Hb. induction 1 as [| c cs Hc _ IH]; intros m w Hs Hn H0 K.
  - exists w. split; [done |]. eapply kept_mono; [| exact K]. intros. cbn. rewrite seconds_nil. lia.
  - pose proof (seconds_nonneg cs). assert (c = Second \/ c <> Second) as [-> | Hne] by (destruct c; (by left) || by right).
    + rewrite seconds_second in *. destruct (keep_second w0 m w Hw Hb) as (w1 & E1 & K1); [lia | done |].
      destruct (IH (m - 1) w1) as (w2 & E2 & K2); [lia.. | done |]. exists w2. cbn [for_each perform]. rewrite (bind_some _ _ _ _ _ E1).
      split; [done |]. eapply kept_mono; [| exact K2]. intros. cbn. lia.
    + destruct (perform_keeps w0 n m c Hw Hb Hc Hn H0 Hne w K) as ([] & w1 & E1 & K1 & _).
      assert (seconds (c :: cs) = seconds cs) as Es by (by destruct c). rewrite Es in *.
      destruct (IH m w1) as (w2 & E2 & K2); [done.. |]. exists w2. cbn [for_each]. by rewrite (bind_some _ _ _ _ _ E1).
Qed.

(** Well-formed states: the invariant of GA and a number of buses that fits the
    arrays. *)
Record ga_wf (w : world) : Prop := {
  gawf : wf w;
  gawf_buses : w.(num_buses) < MAX_BUSES;
}.

(** C12. Accessories never get stuck: from every well-formed state, whatever
    calls the clients, the drivers and the CAN side make and in whatever order,
    each of them is defined, and the state stays well formed, with as many
    accessories on every bus as before.  The calls need what the code does not
    check: a bus of the daemon, port 0 or 1, an address of the bus for TERM, and
    locks whose duration can be counted down for as many seconds as pass, for the
    code takes it below zero and on, whether the accessory is locked or not. *)
Theorem ga_calls_safe w cs : ga_wf w -> Forall (typed w (seconds cs)) cs ->
  lasting (fun _ _ => LONG_MIN + seconds cs) w -> LONG_MIN + seconds cs <= 0 ->
  exists w', for_each cs perform w = Some (tt, w') /\ ga_wf w' /\
    forall b, numberOfGa <$> w'.(ga) !! b = numberOfGa <$> w.(ga) !! b.
Proof.
  intros [Hw Hb] Hc Hl H0.
  destruct (perform_all w _ cs Hw Hb Hc (LONG_MIN + seconds cs) w) as (w' & E & [[Hw' Hb' Hn] _]); [lia.. | |].
  - split; [by apply same_shape_refl | done].
  - exists w'. split; [done |]. split; [split; [done | by rewrite Hb'] | done].
Qed.

Lemma example_lasting b a d : ga_at example b a = Some d -> 0 <= d.(ga_lockduration).
Proof.
  unfold ga_at, example. cbn. destruct (decide (b = 1)) as [-> | Hb].
  - rewrite lookup_insert_eq. cbn. destruct (_ && _) eqn:R; [| done]. bool_hyps.
    rewrite lookup_array_some by lia. by intros [= <-].
  - rewrite lookup_insert_ne by done. rewrite lookup_array. case_decide; [| done]. cbn. destruct (_ && _) eqn:R; [| done]. bool_hyps. lia.
Qed.
Lemma ga_calls_safe_witness :
  exists w', for_each [Init 1 3 (ch "N"); Enqueue 1 3 1 1 100; Lock 1 3 5 7; Second; Session_end 7; Term 1 3] perform
      example = Some (tt, w') /\ ga_wf w' /\
    forall b, numberOfGa <$> w'.(ga) !! b = numberOfGa <$> example.(ga) !! b.
Proof.
  apply ga_calls_safe.
  - split; [exact example_wf | reflexivity].
  - repeat constructor; try discriminate. exists 4. split; [reflexivity | split; discriminate].
  - intros b a d Hd. apply example_lasting in Hd. cbn. unfold LONG_MIN, seconds. cbn. lia.
  - unfold LONG_MIN, seconds. cbn. lia.
Defined.

(** The duration of a lock is not checked: one of [LONG_MIN] seconds makes the
    next second undefined. *)
Theorem shortest_lock_overflows w i j d : ga_at w i j = Some d -> d.(ga_lockduration) = LONG_MIN ->
  unlock_bus_bytime i j w = None.
Proof. intros Hd E. unfold unlock_bus_bytime. by rewrite (bind_some _ _ _ _ _ (gastate_get_some _ _ _ _ Hd)), E. Qed.
End GASpec.
