(* ===== verification/GatewaySpec.v ===== *)
(** What the CAN side can do to the daemon: stop the track, switch an accessory
    and ask who is there. *)

From S2P Require Import Prelude Ring World Messages Session Services Accessory Program.
From S2P Require Import Spi Mfx Ddl DdlSpec Gateway.

Module GatewaySpec.
Import Spi Mfx Ddl Gateway.

(** * Frames *)

(** The command of a frame the thread accepts. *)
Definition command (f : can_frame) : Z := Z.shiftr (Z.land f.(can_id) 0x01FF0000) 16.
Record is_command (c : Z) (f : can_frame) : Prop := {
  ic_accepted : accepted f = true;
  ic_command : command f = c;
}.

Lemma be32_bytes z rest : 0 <= z < 2 ^ 32 -> be32 (be_bytes z ++ rest) = z.
Proof.
  intros Hz. unfold be32, be_bytes. cbn [nth app].
  transitivity (u32 z); [f_equal | by apply wrap_small].
  apply Z.bits_inj'. intros i Hi. rewrite !Z.lor_spec, !Z.shiftl_spec by lia.
  assert (B : forall k j, 0 <= k -> Z.testbit (Z.land (Z.shiftr z k) 255) j =
    ((0 <=? j) && (j <? 8)) && Z.testbit z (j + k)).
  { intros k j Hk. rewrite Z.land_spec. change 255 with (Z.ones 8).
    destruct (Z.leb_spec 0 j) as [Hj | Hj].
    - rewrite Z.shiftr_spec, Z.testbit_ones_nonneg by lia. cbn [andb]. apply andb_comm.
    - rewrite (Z.testbit_neg_r (Z.ones 8)) by done. by rewrite andb_false_r. }
  pose proof (B 0) as B0. rewrite Z.shiftr_0_r in B0. rewrite !B, B0 by lia. rewrite !Z.add_0_r.
  replace (i - 24 + 24) with i by lia. replace (i - 16 + 16) with i by lia.
  replace (i - 8 + 8) with i by lia.
  destruct (Z.testbit z i) eqn:E; rewrite ?andb_true_r, ?andb_false_r; [| done].
  assert (i < 32).
  { destruct (Z.lt_ge_cases i 32); [done |]. exfalso.
    revert E. rewrite <- (wrap_small 32 z Hz), wrap_testbit by lia.
    by replace (i <? 32) with false by zbool. }
  zbool.
Qed.

Section Frames.
Context (others : prog world bool) (garbage : string).
Context (init_bus_DDL : Z -> prog line_t Z) (serial temp FWD_M FWD_N : Z).

Local Abbreviation turn := (thr_handleCAN_turn others garbage init_bus_DDL serial temp FWD_M FWD_N).
Local Abbreviation handle := (handle_command others garbage init_bus_DDL serial temp FWD_M FWD_N).

(** A frame that is handled without a reply. *)
Lemma turn_silent f l l' c : is_command c f ->
  handle l.(l_world).(mcs) (be32 f.(can_data)) f l = Some (None, l') -> turn (Some f) l = Some (tt, l').
Proof.
  intros [Ha _] E. unfold thr_handleCAN_turn, receive_frame. rewrite Ha. unfold world_get.
  by rewrite bind_gets, (bind_some _ _ _ _ _ E).
Qed.

Lemma turn_reply f l l' g c : is_command c f ->
  handle l.(l_world).(mcs) (be32 f.(can_data)) f l = Some (Some g, l') ->
  turn (Some f) l = on_world (send_frame (g <| can_id ::= reply_id l'.(l_world).(mcs) |>)) l'.
Proof.
  intros [Ha _] E. unfold thr_handleCAN_turn, receive_frame. rewrite Ha. unfold world_get.
  by rewrite bind_gets, (bind_some _ _ _ _ _ E), bind_gets.
Qed.

Lemma setPower_some b d state msg w : w.(buses) !! b = Some d -> (String.length msg < 100)%nat ->
  0 <= state ->
  exists w', setPower b state msg w = Some (SRCP_OK, w') /\
    w'.(buses) !! b = Some (d <| power_change_time := now w |> <| power_state := state |>
      <| power_msg := msg |> <| power_changed := 1 |>) /\
    w'.(sess) = w.(sess) /\ w'.(sm_queue) = w.(sm_queue) /\ w'.(mcs) = w.(mcs) /\
    w'.(ga_queue) = w.(ga_queue) /\ w'.(gl_queue) = w.(gl_queue).
Proof.
  intros Hd Hm Hs. unfold setPower. rewrite (bind_some _ _ _ _ _ (gettimeofday_spec w)).
  rewrite (bind_some _ _ _ _ _ (bus_get_some b d (tick w) Hd)).
  assert (E : strcpy_guard 100 msg (tick w) = Some (tt, tick w)).
  { unfold strcpy_guard, guard. by replace (_ <? 100) with true by (symmetry; apply Z.ltb_lt; lia). }
  rewrite (bind_some _ _ _ _ _ E). unfold bus_set. rewrite bind_modify.
  replace (state =? -1) with false by zbool.
  set (w1 := over buses _ _).
  assert (H1 : exists d1, w1.(buses) !! b = Some d1) by (eexists; apply lookup_insert_eq).
  destruct H1 as [d1 H1]. rewrite (bind_some _ _ _ _ _ (resume_spec b d1 w1 H1)).
  eexists. split; [reflexivity |]. split; [apply lookup_insert_eq | done].
Qed.

(** C22. A stop on the CAN bus for everybody, or for this node, silences the
    track: handling the frame sends no reply, and from then on, as long as no
    service-mode command can be served (none waits, or the bus does not allow
    service mode: such a command is carried out, with its packets, before the turn
    looks at the power), whatever the feedback line and the sessions do and
    however many turns the thread of the bus makes, nothing is transmitted and no
    locomotive or accessory command leaves its queue; the power is off and so are
    the boosters. *)
Theorem can_stop_silences rx received seen t f l d :
  let m := l.(l_world).(mcs) in
  is_command 0x00 f -> 5 <= f.(can_dlc) -> data_at f 4 = 0 -> for_us m (be32 f.(can_data)) = true ->
  DdlSpec.DdlSpec.at_rest m.(mcs_bus) l d -> seen <> [] ->
  exists l1 l2, turn (Some f) l = Some (tt, l1) /\
    l1.(l_world).(mcs) = m /\
    DdlSpec.DdlSpec.turns rx received m.(mcs_bus) seen t l1 = Some (t, l2) /\
    l2.(l_ddl).(transfers) = l.(l_ddl).(transfers) /\
    l2.(l_world).(gl_queue) = l.(l_world).(gl_queue) /\
    l2.(l_world).(ga_queue) = l.(l_world).(ga_queue) /\
    getPower m.(mcs_bus) l2.(l_world) = Some (0, l2.(l_world)) /\ l2.(l_ddl).(rts_on) = false.
Proof.
  intros m Hf Hdlc H4 Hu R Hseen. destruct l as [w dd mm].
  destruct (setPower_some m.(mcs_bus) d 0 "BY MCS" w (DdlSpec.DdlSpec.ar_bus _ _ _ R)) as
    (w' & E & Hd' & Hs & Hsm & Hm & Hga & Hgl); [cbn; lia | done |].
  set (l1 := mk_line w' dd mm).
  assert (E1 : turn (Some f) (mk_line w dd mm) = Some (tt, l1)).
  { apply turn_silent with (c := 0x00); [done |]. destruct Hf as [_ Hc]. unfold handle_command.
    unfold command in Hc. rewrite Hc. replace (f.(can_dlc) <? 5) with false by zbool.
    unfold system_command. rewrite H4. change (mcs (l_world (mk_line w dd mm))) with m. rewrite Hu.
    rewrite !bind_assoc. by rewrite (Mfx.bind_on_world _ _ (mk_line w dd mm) _ _ E), !bind_ret. }
  assert (R1 : DdlSpec.DdlSpec.at_rest m.(mcs_bus) l1 (d <| power_change_time := now w |>
    <| power_state := 0 |> <| power_msg := "BY MCS" |> <| power_changed := 1 |>)).
  { destruct R as [_ Rs (q & Hq & Hn)]. split; [exact Hd' | |].
    - unfold sess_ok in *. change (l_world l1) with w'. by rewrite Hs.
    - exists q. split; [| done]. change (l_world l1) with w'. by rewrite Hsm. }
  destruct (DdlSpec.DdlSpec.turns_off rx received m.(mcs_bus) seen t _ l1 R1) as
    (l2 & d2 & E2 & K & R2 & P2 & T2); [done | left; split; [done | exact Hseen] |].
  exists l1, l2. destruct K as [K1 _ _ _ (K2 & K3 & _)].
  split; [exact E1 |]. split; [exact Hm |]. split; [exact E2 |]. split; [exact K1 |].
  split; [by rewrite K2 |]. split; [by rewrite K3 |]. split; [| exact T2].
  unfold getPower. by rewrite (bind_some _ _ _ _ _ (bus_get_some _ _ _ (DdlSpec.DdlSpec.ar_bus _ _ _ R2))), P2.
Qed.

(** * Switching accessories *)

(** The bytes of an accessory command: the address, the output, its state, the
    time in units of 10 ms. *)
Definition accessory_data (uid port action time : Z) : list Z :=
  be_bytes uid ++ [port; action; Z.shiftr time 8; Z.land time 0xFF].

Lemma be16_bytes time : 0 <= time < 2 ^ 16 -> be16 [Z.shiftr time 8; Z.land time 0xFF] = time.
Proof.
  intros H. unfold be16. cbn [nth]. apply Z.bits_inj'. intros i Hi.
  rewrite Z.lor_spec, Z.shiftl_spec, Z.land_spec by lia. change 255 with (Z.ones 8).
  rewrite Z.testbit_ones_nonneg by lia. destruct (Z.ltb_spec i 8).
  - rewrite Z.testbit_neg_r by lia. cbn. apply andb_true_r.
  - rewrite Z.shiftr_spec, andb_false_r, orb_false_r by lia. f_equal. lia.
Qed.

(** The time an output is switched for, in milliseconds. *)
Definition switch_time (m : mcs_t) (dlc action time : Z) : Z :=
  if action =? 0 then 0 else 10 * (if dlc =? 8 then time else m.(accactive)).

Lemma accessory_uid a : 1 <= a <= 2048 ->
  Z.land (0x37FF + a) 0x7FF + 1 = a /\ Z.land (0x37FF + a) 0x800 = 0x800.
Proof.
  intros Ha. replace (0x37FF + a) with (a - 1 + 7 * 2 ^ 11) by lia. split.
  - change 0x7FF with (Z.ones 11). rewrite Z.land_ones by lia.
    rewrite Z_mod_plus_full, Z.mod_small by lia. lia.
  - change 0x800 with (2 ^ 11) at 1. apply Z.bits_inj'. intros i Hi.
    rewrite Z.land_spec, Z.pow2_bits_eqb by lia. destruct (Z.eqb_spec 11 i) as [<- | Hne].
    + rewrite andb_true_r, Z.testbit_odd, Z.shiftr_div_pow2, Z_div_plus_full by lia.
      rewrite (Z.div_small (a - 1)) by lia. reflexivity.
    + rewrite andb_false_r. change 2048 with (2 ^ 11). by rewrite Z.pow2_bits_false.
Qed.

(** An accessory frame of the CAN bus for the NMRA DCC accessory [a] has the
    same effect on the bus the gateway forwards to as an accepted SET GA: exactly
    the command for its output is appended to the commands that wait there.
    No frame is sent and, unlike for SET GA, no lock is asked for. *)
Theorem can_accessory f l a d q port action time :
  let w := l.(l_world) in
  is_command 0x16 f -> 1 <= a <= 2048 -> 0 <= port < MAXGAPORT -> 0 <= time < 2 ^ 16 ->
  f.(can_data) = accessory_data (0x37FF + a) port action time ->
  FWD_N <> 0 -> GA.wf w -> GA.ga_at w FWD_N a = Some d -> d.(ga_protocol) = ch "N" ->
  w.(ga_queue) !! FWD_N = Some q -> Ring.isfull GA.QUEUELEN q = false ->
  exists c w', turn (Some f) l = Some (tt, l <| l_world := w' |>) /\
    w'.(ga) = w.(ga) /\ w'.(mcs) = w.(mcs) /\
    GA.pending w' FWD_N = GA.pending w FWD_N ++
      [GA.command_of c d a port action (switch_time w.(mcs) f.(can_dlc) action time) (now w)].
Proof.
  intros w Hf Ha Hp Ht Hdata HN Hw Hd Hprot Hq Hfull.
  set (v := switch_time w.(mcs) f.(can_dlc) action time).
  destruct (GA.enqueueGA_accepts w FWD_N a d q port action v Hw Hd Hq Hfull Hp)
    as (c & w' & E & _ & Hga & Hpend & _ & _ & Hm).
  assert (G : GA.handle_mcs_gacc FWD_N (ch "N") a port action v w = Some (tt, w')).
  { destruct (GA.range_in _ _ _ _ Hd) as (g & Hg & _ & R). unfold GA.handle_mcs_gacc.
    apply Z.eqb_neq in HN. rewrite HN. cbn [negb].
    rewrite (bind_some _ _ _ _ _ (GA.get_number_some _ _ _ Hg)).
    rewrite R, (bind_some _ _ _ _ _ (GA.gastate_get_some _ _ _ _ Hd)), Hprot, Z.eqb_refl.
    cbn [negb]. rewrite bind_ret. by rewrite (bind_some _ _ _ _ _ E). }
  exists c, w'. split; [| done]. apply turn_silent with (c := 0x16); [done |].
  destruct Hf as [_ Hc]. unfold command in Hc. unfold handle_command. rewrite Hc.
  destruct (accessory_uid a Ha) as [U1 U2].
  assert (be32 f.(can_data) = 0x37FF + a) as ->.
  { rewrite Hdata. apply be32_bytes. lia. }
  unfold switch_accessory, data_at. rewrite Hdata.
  replace ((0x37FF + a <? 0x3000) || (0x3FFF <? 0x37FF + a)) with false by zbool. rewrite U1, U2.
  change (negb (2048 =? 0)) with true. cbv iota.
  unfold accessory_data, be_bytes. cbn [nth drop app]. rewrite be16_bytes by done.
  change (mcs (l_world l)) with w.(mcs). fold (switch_time w.(mcs) f.(can_dlc) action time). fold v.
  destruct l as [w0 dd mm]. by rewrite (Mfx.bind_on_world _ _ (mk_line w0 dd mm) _ _ G).
Qed.
End Frames.

(** * Examples *)

(** The gateway works for bus 1. *)
Definition example_stop : can_frame := mk_frame 0x80000300 5 (replicate 8 0).
Definition example_line : line_t :=
  (DdlSpec.DdlSpec.example_line 1) <| l_world ::= fun w => w <| mcs ::= fun m => m <| mcs_bus := 1 |> |> |>.

Lemma can_stop_silences_witness :
  let m := example_line.(l_world).(mcs) in
  exists l1 l2,
    thr_handleCAN_turn (ret true) "" (fun _ => ret 0) 0 0 1 1 (Some example_stop) example_line =
      Some (tt, l1) /\
    l1.(l_world).(mcs) = m /\
    DdlSpec.DdlSpec.turns [] [] m.(mcs_bus) [(true, 0); (false, 2)] thr_start l1 = Some (thr_start, l2) /\
    l2.(l_ddl).(transfers) = example_line.(l_ddl).(transfers) /\
    l2.(l_world).(gl_queue) = example_line.(l_world).(gl_queue) /\
    l2.(l_world).(ga_queue) = example_line.(l_world).(ga_queue) /\
    getPower m.(mcs_bus) l2.(l_world) = Some (0, l2.(l_world)) /\ l2.(l_ddl).(rts_on) = false.
Proof.
  apply (can_stop_silences (ret true) "" (fun _ => ret 0) 0 0 1 1 [] [] _ _ example_stop example_line
    (DdlSpec.DdlSpec.example_bus 1)).
  - split; reflexivity.
  - done.
  - reflexivity.
  - reflexivity.
  - destruct (DdlSpec.DdlSpec.example_at_rest 1) as [A B C]. constructor; [exact A | exact B | exact C].
  - done.
Defined.

(** Output 1 of accessory 3 is switched on for 200 ms. *)
Definition example_switch : can_frame := mk_frame 0x80160300 8 [0; 0; 0x38; 0x02; 1; 1; 0; 20].
Definition example_accessories : line_t := example_line <| l_world := GA.example |>.

Lemma can_accessory_witness :
  exists c w',
    thr_handleCAN_turn (ret true) "" (fun _ => ret 0) 0 0 1 1 (Some example_switch) example_accessories =
      Some (tt, example_accessories <| l_world := w' |>) /\
    w'.(ga) = GA.example.(ga) /\ w'.(mcs) = GA.example.(mcs) /\
    GA.pending w' 1 = GA.pending GA.example 1 ++
      [GA.command_of c GA.example_ga 3 1 1 200 (now GA.example)].
Proof.
  apply (can_accessory (ret true) "" (fun _ => ret 0) 0 0 1 1 example_switch example_accessories 3
    GA.example_ga (Ring.make 50 ga_zero) 1 1 20).
  - split; reflexivity.
  - done.
  - by vm_compute.
  - done.
  - reflexivity.
  - done.
  - exact GA.example_wf.
  - vm_compute. reflexivity.
  - reflexivity.
  - vm_compute. reflexivity.
  - reflexivity.
Defined.
End GatewaySpec.
