(* ===== verification/Lan.v ===== *)
(** can2lan: the part of gio.c and crc-ccitt.c (src/can2udp/src) the gateway
    between a CAN bus and the network is made of: CAN frames in network packets,
    the pace on the CAN bus, and the transfer of configuration files in both
    directions.

    [None] also stands for the end of the process where the source calls [exit]
    or an assertion fails. *)

From S2P Require Import Prelude World Messages Text.

Module Lan.

(** * Constants *)

Definition MAXLINE : Z := 1024.
Definition MAX_TCP_CONN : Z := 64.
Definition CAN_ENCAP_SIZE : Z := 13.
Definition MAXDG : Z := CAN_ENCAP_SIZE * 512.
Definition MAX_PACKETS : Z := 10.
Definition MAX_TRACK_PAGE : Z := 64.
Definition CRC : Z := 1.
Definition COMPRESSED : Z := 2.
Definition BCCHANGE : Z := 4.
Definition TIME_WAIT_US : Z := 10 * 1000.
Definition TIME_WAIT_US_SH : Z := 2 * 1000.
Definition CHUNK : Z := 0x8000.
Definition CAN_EFF_FLAG : Z := 0x80000000.
Definition CAN_EFF_MASK : Z := 0x1FFFFFFF.

Definition Z_STREAM_END : Z := 1.
Definition Z_STREAM_ERROR : Z := -2.

Definition GETCONFIG : list Z := [0x00; 0x40; 0xaf; 0x7e; 0x08].
Definition GETCONFIG_DATA : list Z := [0x00; 0x42; 0x03; 0x00; 0x08].
Definition GETCONFIG_RESPONSE : list Z := [0x00; 0x42; 0x03; 0x00; 0x06].
Definition GETCONFIG_RESPONSE_II : list Z := [0x00; 0x42; 0x03; 0x00; 0x07].

(** [cs2_configs] up to its closing pair of null pointers. *)
Definition cs2_configs : list (string * string) :=
  [("loks", "lokomotive.cs2"); ("mags", "magnetartikel.cs2"); ("fs", "fahrstrassen.cs2");
   ("gbs", "gleisbild.cs2"); ("lokstat", "lokomotive.sr2"); ("magstat", "magnetartikel.sr2");
   ("gbsstat", "gleisbild.sr2"); ("fsstat", "fahrstrassen.sr2")]%string.

(** * State *)

Inductive cs2_copy_state :=
  CS2_STATE_INACTIVE | CS2_STATE_NORMAL_CONFIG | CS2_STATE_TRACK_SUM | CS2_STATE_GET_TRACKS
| CS2_STATE_BROADCAST_UPDATE.
#[export] Instance copy_state_eq_dec : EqDecision cs2_copy_state.
Proof. solve_decision. Defined.

(** [struct filter_t] *)
Record filter_t := mk_filter { mask : Z; id : Z; use : Z }.

(** [struct cs2_config_data_t]; [dir] is the array [config_dir]; a page table
    is named by a number, [None] is the null pointer. *)
Record cs2_t := mk_cs2 {
  deflated_stream_size : Z;
  deflated_size : Z;
  deflated_size_counter : Z;
  inflated_size : Z;
  crc : Z;
  name : option string;
  next : Z;
  track_index : Z;
  copy_state : cs2_copy_state;
  start : bool;
  stream : bool;
  cs2_tcp_socket : Z;
  cs2_config_copy : Z;
  ddi : Z;
  deflated_data : option (list Z);
  inflated_data : option (list Z);
  cs2_page_name : option Z;
}.
#[export] Instance eta_cs2 : Settable cs2_t := fun c =>
  mk_cs2 c.(deflated_stream_size) c.(deflated_size) c.(deflated_size_counter) c.(inflated_size)
    c.(crc) c.(name) c.(next) c.(track_index) c.(copy_state) c.(start) c.(stream)
    c.(cs2_tcp_socket) c.(cs2_config_copy) c.(ddi) c.(deflated_data) c.(inflated_data)
    c.(cs2_page_name).

(** What the process does to the outside: a pause in nanoseconds, a frame on
    the CAN bus, bytes to a socket, the end of a connection. *)
Inductive event :=
| Sleep (nsec : Z)
| To_can (f : can_frame)
| To_net (socket : Z) (bytes : list Z)
| Shut (socket : Z)
| Close (socket : Z).

Record lan_t := mk_lan {
  l_clock : nat -> timeval;
  l_tick : nat;
  last_sent : timeval;
  filter : filter_t * filter_t;
  ms1_workaround : bool;
  cs2fake_ping : bool;
  config_dir : string;
  page_tables : gmap Z (gmap Z (option string));
  page_name : option Z;
  cs2 : cs2_t;
  netframe : list Z;
  tcp_client : gmap Z Z;
  tcp_client2 : gmap Z Z;
  max_tcp_i : Z;
  tcp_connections : Z;
  cs2ping_timer : Z;
  loco_data : list (string * option string);
  files : gmap string (list Z);
  events : list event;
}.
#[export] Instance eta_lan : Settable lan_t := fun l =>
  mk_lan l.(l_clock) l.(l_tick) l.(last_sent) l.(filter) l.(ms1_workaround) l.(cs2fake_ping)
    l.(config_dir) l.(page_tables) l.(page_name) l.(cs2) l.(netframe) l.(tcp_client)
    l.(tcp_client2) l.(max_tcp_i) l.(tcp_connections) l.(cs2ping_timer) l.(loco_data) l.(files)
    l.(events).

Definition emit (e : event) : prog lan_t unit := modify (fun l => l <| events ::= fun es => es ++ [e] |>).
Definition mod_cs2 (f : cs2_t -> cs2_t) : prog lan_t unit := modify (fun l => l <| cs2 ::= f |>).
Definition get_cs2 {A} (f : cs2_t -> A) : prog lan_t A := gets (fun l => f l.(cs2)).
Definition gettimeofday : prog lan_t timeval := fun l =>
  Some (l.(l_clock) l.(l_tick), l <| l_tick ::= S |>).
Definition exit_process {A} : prog lan_t A := undefined.

(** * Bytes *)

(** Big-endian numbers, as [htonl] and [htons] arrange them. *)
Definition to_be32 (v : Z) : list Z :=
  [Z.shiftr v 24 mod 256; Z.shiftr v 16 mod 256; Z.shiftr v 8 mod 256; v mod 256].
Definition to_be16 (v : Z) : list Z := [Z.shiftr v 8 mod 256; v mod 256].
Definition of_be (p : list Z) : Z := fold_left (fun v b => v * 256 + b) p 0.

(** [memcpy] into a buffer: bytes at an offset. *)
Definition blit (off : nat) (bytes buffer : list Z) : list Z :=
  take off buffer ++ bytes ++ drop (off + length bytes) buffer.
(** The [n] bytes at an offset. *)
Definition at_off (off n : nat) (buffer : list Z) : list Z := take n (drop off buffer).

Definition str_bytes (s : string) : list Z := ch <$> String.list_ascii_of_string s.
Definition char_of (b : Z) : ascii := ascii_of_N (Z.to_N b).
(** The C string that starts a buffer. *)
Fixpoint cstr (p : list Z) : string :=
  match p with
  | b :: p => if b =? 0 then EmptyString else String (char_of b) (cstr p)
  | [] => EmptyString
  end.

(** * The checksum (crc-ccitt.c) *)

Definition crc_table : list Z := [
    0x0000; 0x1021; 0x2042; 0x3063; 0x4084; 0x50a5; 0x60c6; 0x70e7;
    0x8108; 0x9129; 0xa14a; 0xb16b; 0xc18c; 0xd1ad; 0xe1ce; 0xf1ef;
    0x1231; 0x0210; 0x3273; 0x2252; 0x52b5; 0x4294; 0x72f7; 0x62d6;
    0x9339; 0x8318; 0xb37b; 0xa35a; 0xd3bd; 0xc39c; 0xf3ff; 0xe3de;
    0x2462; 0x3443; 0x0420; 0x1401; 0x64e6; 0x74c7; 0x44a4; 0x5485;
    0xa56a; 0xb54b; 0x8528; 0x9509; 0xe5ee; 0xf5cf; 0xc5ac; 0xd58d;
    0x3653; 0x2672; 0x1611; 0x0630; 0x76d7; 0x66f6; 0x5695; 0x46b4;
    0xb75b; 0xa77a; 0x9719; 0x8738; 0xf7df; 0xe7fe; 0xd79d; 0xc7bc;
    0x48c4; 0x58e5; 0x6886; 0x78a7; 0x0840; 0x1861; 0x2802; 0x3823;
    0xc9cc; 0xd9ed; 0xe98e; 0xf9af; 0x8948; 0x9969; 0xa90a; 0xb92b;
    0x5af5; 0x4ad4; 0x7ab7; 0x6a96; 0x1a71; 0x0a50; 0x3a33; 0x2a12;
    0xdbfd; 0xcbdc; 0xfbbf; 0xeb9e; 0x9b79; 0x8b58; 0xbb3b; 0xab1a;
    0x6ca6; 0x7c87; 0x4ce4; 0x5cc5; 0x2c22; 0x3c03; 0x0c60; 0x1c41;
    0xedae; 0xfd8f; 0xcdec; 0xddcd; 0xad2a; 0xbd0b; 0x8d68; 0x9d49;
    0x7e97; 0x6eb6; 0x5ed5; 0x4ef4; 0x3e13; 0x2e32; 0x1e51; 0x0e70;
    0xff9f; 0xefbe; 0xdfdd; 0xcffc; 0xbf1b; 0xaf3a; 0x9f59; 0x8f78;
    0x9188; 0x81a9; 0xb1ca; 0xa1eb; 0xd10c; 0xc12d; 0xf14e; 0xe16f;
    0x1080; 0x00a1; 0x30c2; 0x20e3; 0x5004; 0x4025; 0x7046; 0x6067;
    0x83b9; 0x9398; 0xa3fb; 0xb3da; 0xc33d; 0xd31c; 0xe37f; 0xf35e;
    0x02b1; 0x1290; 0x22f3; 0x32d2; 0x4235; 0x5214; 0x6277; 0x7256;
    0xb5ea; 0xa5cb; 0x95a8; 0x8589; 0xf56e; 0xe54f; 0xd52c; 0xc50d;
    0x34e2; 0x24c3; 0x14a0; 0x0481; 0x7466; 0x6447; 0x5424; 0x4405;
    0xa7db; 0xb7fa; 0x8799; 0x97b8; 0xe75f; 0xf77e; 0xc71d; 0xd73c;
    0x26d3; 0x36f2; 0x0691; 0x16b0; 0x6657; 0x7676; 0x4615; 0x5634;
    0xd94c; 0xc96d; 0xf90e; 0xe92f; 0x99c8; 0x89e9; 0xb98a; 0xa9ab;
    0x5844; 0x4865; 0x7806; 0x6827; 0x18c0; 0x08e1; 0x3882; 0x28a3;
    0xcb7d; 0xdb5c; 0xeb3f; 0xfb1e; 0x8bf9; 0x9bd8; 0xabbb; 0xbb9a;
    0x4a75; 0x5a54; 0x6a37; 0x7a16; 0x0af1; 0x1ad0; 0x2ab3; 0x3a92;
    0xfd2e; 0xed0f; 0xdd6c; 0xcd4d; 0xbdaa; 0xad8b; 0x9de8; 0x8dc9;
    0x7c26; 0x6c07; 0x5c64; 0x4c45; 0x3ca2; 0x2c83; 0x1ce0; 0x0cc1;
    0xef1f; 0xff3e; 0xcf5d; 0xdf7c; 0xaf9b; 0xbfba; 0x8fd9; 0x9ff8;
    0x6e17; 0x7e36; 0x4e55; 0x5e74; 0x2e93; 0x3eb2; 0x0ed1; 0x1ef0].

Definition crc_byte (crc b : Z) : Z :=
  let temp := Z.land (Z.lxor b (Z.shiftr crc 8)) 0xff in
  u16 (Z.lxor (nth (Z.to_nat temp) crc_table 0) (Z.shiftl crc 8)).
Definition CRCCCITT (data : list Z) (seed : Z) : Z := fold_left crc_byte data (u16 seed).

(** * Frames *)

(** [sendto]; sending succeeds. *)
Definition net_to_net (socket : Z) (bytes : list Z) : prog lan_t Z :=
  do* emit (To_net socket bytes) in ret 0.

Definition filtered (fl : filter_t) (f : can_frame) : bool :=
  negb (fl.(use) =? 0) && (Z.land f.(can_id) fl.(mask) =? fl.(id)).

(** A frame as its packet.  The frame the caller holds loses its flags, unless
    a filter holds it back. *)
Definition frame_to_net (socket : Z) (f : can_frame) : prog lan_t can_frame :=
  let* fl := gets filter in
  if filtered fl.1 f then ret f
  else if filtered fl.2 f then ret f
  else
    let f := f <| can_id ::= fun i => Z.land i CAN_EFF_MASK |> in
    do* guard (f.(can_dlc) <=? 8) in
    let packet := blit 5 (take (Z.to_nat f.(can_dlc)) f.(can_data))
      (to_be32 f.(can_id) ++ [f.(can_dlc)] ++ replicate 8 0) in
    do* modify (fun l => l <| netframe ::= blit 0 packet |>) in
    do* emit (To_net socket packet) in
    ret f.

(** The frame in a packet. *)
Definition packet_frame (p : list Z) : can_frame :=
  mk_frame (Z.lor (Z.land (of_be (at_off 0 4 p)) CAN_EFF_MASK) CAN_EFF_FLAG) (nth 4 p 0) (at_off 5 8 p).

(** The pause the frame needs after the one before, in microseconds. *)
Definition wait_usec (f : can_frame) : Z :=
  let c := Z.land f.(can_id) 0x00FE0000 in
  if (c =? 0x00360000) || (c =? 0x00420000) || (c =? 0x00800000) then TIME_WAIT_US_SH else TIME_WAIT_US.

Definition usec_between (a b : timeval) : Z :=
  (b.(tv_sec) - a.(tv_sec)) * 1000000 + (b.(tv_usec) - a.(tv_usec)).

Definition frame_to_can (p : list Z) : prog lan_t Z :=
  let f := packet_frame p in
  let* actual_time := gettimeofday in
  let* last := gets last_sent in
  let usec := usec_between last actual_time in
  do* (if usec <? wait_usec f then emit (Sleep ((wait_usec f - usec) * 1000)) else ret tt) in
  do* emit (To_can f) in
  let* t := gettimeofday in
  do* modify (fun l => l <| last_sent := t |>) in
  ret 0.

(** The hash of a device; [hash << 3] is an [int]. *)
Definition generateHash (uid : Z) : Z :=
  let h := u16 (Z.lxor (Z.shiftr uid 16) (Z.land uid 0xFFFF)) in
  u16 (Z.lor (Z.lor (Z.land (Z.shiftl h 3) 0xFF00) 0x0300) (Z.land h 0x7F)).

(** * The track pages *)

(** [strtoul] with base 0. *)
Definition hex_digit (a : ascii) : option Z :=
  let c := ch a in
  if (48 <=? c) && (c <=? 57) then Some (c - 48)
  else if (65 <=? c) && (c <=? 70) then Some (c - 55)
  else if (97 <=? c) && (c <=? 102) then Some (c - 87)
  else None.
Fixpoint digits_base (base acc : Z) (s : string) : Z :=
  match s with
  | String a s' =>
      match hex_digit a with
      | Some d => if d <? base then digits_base base (acc * base + d) s' else acc
      | None => acc
      end
  | EmptyString => acc
  end.
Definition unsigned_base0 (s : string) : Z :=
  match s with
  | String "0" (String x (String d s')) =>
      if ((ch x =? ch "x") || (ch x =? ch "X")) && bool_decide (is_Some (hex_digit d))
      then digits_base 16 0 (String d s') else digits_base 8 0 s
  | String "0" _ => digits_base 8 0 s
  | _ => digits_base 10 0 s
  end.
Definition strtoul0 (s : string) : Z :=
  match skip_blanks s with
  | String "-" s' => to_ulong (- unsigned_base0 s')
  | String "+" s' => to_ulong (unsigned_base0 s')
  | s' => to_ulong (unsigned_base0 s')
  end.

(** [fgets] of at most [room] bytes. *)
Fixpoint next_line (room : nat) (file : list Z) : list Z * list Z :=
  match room, file with
  | S room, b :: file =>
      if b =? 10 then ([b], file)
      else let '(line, rest) := next_line room file in (b :: line, rest)
  | _, _ => ([], file)
  end.
Fixpoint lines_of (fuel : nat) (file : list Z) : list string :=
  match fuel, file with
  | S fuel, _ :: _ =>
      let '(line, rest) := next_line (Z.to_nat (MAXLINE - 1)) file in cstr line :: lines_of fuel rest
  | _, _ => []
  end.

(** Without the line ends at its end. *)
Fixpoint rmcrlf (s : string) : string :=
  match s with
  | EmptyString => EmptyString
  | String a s' =>
      let r := rmcrlf s' in
      if bool_decide (r = EmptyString) && ((ch a =? 13) || (ch a =? 10)) then EmptyString
      else String a r
  end.
Fixpoint skip_chars (n : nat) (s : string) : string :=
  match n, s with S n, String _ s => skip_chars n s | _, _ => s end.

Definition set_page (table : option Z) (i : Z) (s : string) : prog lan_t unit :=
  let* t := need table in
  let* tables := gets page_tables in
  let* pages := need (tables !! t) in
  do* guard (bool_decide (is_Some (pages !! i))) in
  modify (fun l => l <| page_tables ::= <[t := <[i := Some s]> pages]> |>).

(** The lines of the file; [id] and [page] are the source's variables. *)
Fixpoint read_track_lines (table : option Z) (id : Z) (page : bool) (ls : list string) : prog lan_t unit :=
  match ls with
  | [] => ret tt
  | line :: ls =>
      if String.prefix "seite" line then read_track_lines table id true ls
      else if String.prefix " .id=" line then
        read_track_lines table (i32 (strtoul0 (skip_chars 5 line))) page ls
      else if String.prefix " .name=" line then
        do* (if page then set_page table id (skip_chars 7 (rmcrlf line) +:+ ".cs2") else ret tt) in
        read_track_lines table id page ls
      else read_track_lines table id page ls
  end.

(** The table it was given, or [None] when there is no such file. *)
Definition read_track_file (filename : string) (table : option Z) : prog lan_t (option Z) :=
  let* fs := gets files in
  match fs !! filename with
  | Some file => do* read_track_lines table 0 false (lines_of (length file) file) in ret table
  | None => ret None
  end.

(** [page_name[i]] *)
Definition page_at (table : option Z) (i : Z) : prog lan_t (option string) :=
  let* t := need table in
  let* tables := gets page_tables in
  let* pages := need (tables !! t) in
  need (pages !! i).

(** * Configuration files *)

(** A path in a buffer of [MAXLINE] characters. *)
Definition path (dir file : string) : prog lan_t string :=
  do* guard (Z.of_nat (String.length (dir +:+ file)) <? MAXLINE) in ret (dir +:+ file).

(** [strstr] with the text cut off there. *)
Fixpoint cut_at (sub s : string) : string :=
  if String.prefix sub s then EmptyString
  else match s with EmptyString => EmptyString | String a s => String a (cut_at sub s) end.

(** A GETCONFIG request in a packet of zeros. *)
Definition request (what : string) : list Z :=
  blit 5 (str_bytes what) (blit 0 GETCONFIG (replicate 13 0)).

(** [deflate input room] and [inflate input room] are the library's functions:
    the status and the bytes written.  [writable] tells which files [fopen]
    opens for writing, [junk] what fresh memory holds. *)
Section Zlib.
Context (deflate inflate : list Z -> Z -> Z * list Z) (writable : string -> bool) (junk : nat -> Z).

(** [realloc] of a buffer.  A negative size becomes one no memory has; the size
    zero frees the buffer and gives the null pointer.  The source then exits. *)
Definition realloc (old : option (list Z)) (size : Z) : prog lan_t (list Z) :=
  if (size <? 0) || ((size =? 0) && bool_decide (is_Some old)) then exit_process
  else ret (map (fun i => default (junk i) (default [] old !! i)) (seq 0 (Z.to_nat size))).

(** [inflate_data]: the status; the output goes over what the buffer holds. *)
Definition inflate_data : prog lan_t unit :=
  let* c := gets cs2 in
  let* data := need c.(deflated_data) in
  let* old := need c.(inflated_data) in
  let '(status, output) := inflate (at_off 4 (Z.to_nat c.(deflated_size)) data) c.(inflated_size) in
  if status =? Z_STREAM_ERROR then exit_process
  else mod_cs2 (fun c => c <| inflated_data := Some (blit 0 output old) |>).

(** The file is written whatever the checksum says. *)
Definition config_write : prog lan_t Z :=
  let* c := gets cs2 in
  match c.(name) with
  | None => ret 0
  | Some name =>
      let* dir := gets config_dir in
      let* filename := path dir name in
      if negb (writable filename) then ret 0
      else
        do* inflate_data in
        let* out := get_cs2 inflated_data in
        let* data := need out in
        do* modify (fun l => l <| files ::= <[filename := take (Z.to_nat c.(inflated_size)) data]> |>) in
        do* mod_cs2 (fun c => c <| deflated_data := None |> <| inflated_data := None |>) in
        ret 1
  end.

(** ** The copy of a control centre's files

    After each file the next request goes out: first the files of
    [cs2_configs], then the track pages. *)

Definition get_tracks : prog lan_t unit :=
  let* c := gets cs2 in
  let* page := page_at c.(cs2_page_name) c.(track_index) in
  match page with
  | Some file =>
      do* mod_cs2 (fun c => c <| name := Some file |>) in
      let what := "gbs-" +:+ dec c.(track_index) in
      do* guard (String.length what <? 8)%nat in
      do* net_to_net c.(cs2_tcp_socket) (request what) in
      mod_cs2 (fun c => c <| track_index ::= Z.succ |>)
  | None =>
      do* modify (fun l => l <| config_dir ::= cut_at "gleisbilder/" |>) in
      mod_cs2 (fun c => c <| copy_state := CS2_STATE_INACTIVE |>)
  end.

Definition track_sum : prog lan_t unit :=
  let* dir := gets config_dir in
  let* filename := path dir "gleisbild.cs2" in
  let* c := gets cs2 in
  let* pages := read_track_file filename c.(cs2_page_name) in
  do* mod_cs2 (fun c => c <| cs2_page_name := pages |>) in
  match pages with
  | None => mod_cs2 (fun c => c <| copy_state := CS2_STATE_INACTIVE |>)
  | Some _ =>
      let* pages' := read_track_file filename pages in
      do* modify (fun l => l <| page_name := pages' |>) in
      let* dir := path dir "gleisbilder/" in
      do* modify (fun l => l <| config_dir := dir |>) in
      do* mod_cs2 (fun c => c <| track_index := 0 |> <| copy_state := CS2_STATE_GET_TRACKS |>) in
      get_tracks
  end.

Definition normal_config : prog lan_t unit :=
  let* c := gets cs2 in
  if c.(next) =? Z.of_nat (length cs2_configs) then
    do* mod_cs2 (fun c => c <| copy_state := CS2_STATE_TRACK_SUM |>) in track_sum
  else
    let* '(what, file) := need (if 0 <=? c.(next) then cs2_configs !! Z.to_nat c.(next) else None) in
    do* mod_cs2 (fun c => c <| name := Some file |>) in
    do* net_to_net c.(cs2_tcp_socket) (request what) in
    mod_cs2 (fun c => c <| next ::= Z.succ |>).

Definition file_complete : prog lan_t unit :=
  let* s := get_cs2 copy_state in
  match s with
  | CS2_STATE_INACTIVE => ret tt
  | CS2_STATE_NORMAL_CONFIG => normal_config
  | CS2_STATE_TRACK_SUM => track_sum
  | CS2_STATE_GET_TRACKS => get_tracks
  | CS2_STATE_BROADCAST_UPDATE => mod_cs2 (fun c => c <| copy_state := CS2_STATE_INACTIVE |>)
  end.

(** ** Receiving *)

(** [memcpy] of the 8 data bytes to [deflated_data] at [i]. *)
Definition store (i : Z) (data : list Z) : prog lan_t unit :=
  let* b := get_cs2 deflated_data in
  let* buffer := need b in
  do* guard (i + 8 <=? Z.of_nat (length buffer)) in
  mod_cs2 (fun c => c <| deflated_data := Some (blit (Z.to_nat i) data buffer) |>).

(** The first packet announces size and checksum. *)
Definition announcement (p : list Z) : prog lan_t unit :=
  let size := i32 (of_be (at_off 5 4 p)) in
  do* mod_cs2 (fun c => c <| deflated_size := size |> <| deflated_size_counter := size |>
    <| crc := of_be (at_off 9 2 p) |> <| start := true |>) in
  do* guard (size + 16 <? 2 ^ 31) in
  let* old := get_cs2 deflated_data in
  let* buffer := realloc old (size + 16) in
  mod_cs2 (fun c => c <| deflated_data := Some buffer |> <| ddi := 0 |>).

(** The first packet of the stream starts with the size of the file. *)
Definition first_data (p : list Z) : prog lan_t unit :=
  let size := i32 (of_be (at_off 5 4 p)) in
  let* old := get_cs2 inflated_data in
  let* buffer := realloc old size in
  do* mod_cs2 (fun c => c <| inflated_size := size |> <| inflated_data := Some buffer |>
    <| start := false |> <| stream := true |>) in
  do* store 0 (at_off 5 8 p) in
  mod_cs2 (fun c => c <| ddi := 8 |> <| deflated_size_counter ::= fun n => i32 (n - 8) |>).

Definition more_data (p : list Z) : prog lan_t unit :=
  let* c := gets cs2 in
  do* store c.(ddi) (at_off 5 8 p) in
  do* mod_cs2 (fun c => c <| ddi ::= fun d => u32 (d + 8) |>) in
  if c.(deflated_size_counter) <=? 8 then
    do* mod_cs2 (fun c => c <| stream := false |> <| deflated_stream_size := i32 c.(ddi) |>) in
    do* config_write in
    file_complete
  else mod_cs2 (fun c => c <| deflated_size_counter ::= fun n => n - 8 |>).

Definition head_is (p head : list Z) : bool := bool_decide (at_off 0 5 p = head).

Definition reassemble_data (p : list Z) : prog lan_t unit :=
  if head_is p GETCONFIG_RESPONSE || head_is p GETCONFIG_RESPONSE_II then announcement p
  else if head_is p GETCONFIG_DATA then
    let* c := gets cs2 in
    if c.(start) then first_data p
    else if c.(stream) then more_data p
    else ret tt
  else ret tt.

(** ** Sending *)

Definition read_config_file (filename : string) : prog lan_t (option (list Z)) :=
  let* dir := gets config_dir in
  let* name := path dir filename in
  gets (fun l => l.(files) !! name).

(** The inner loop: up to [MAX_PACKETS] packets; [src_i] is where it stops. *)
Fixpoint fill_packets (fuel : nat) (canid_be out : list Z) (src_i padded n_packets : Z) : list Z * Z :=
  let bytes := canid_be ++ [8] ++ at_off (Z.to_nat src_i) 8 out in
  let src_i := src_i + 8 in
  let n_packets := n_packets + 1 in
  match fuel with
  | O => (bytes, src_i)
  | S fuel =>
      if (src_i <? padded) && (n_packets <? MAX_PACKETS) then
        let '(rest, src_i) := fill_packets fuel canid_be out src_i padded n_packets in
        (bytes ++ rest, src_i)
      else (bytes, src_i)
  end.

(** The outer loop: the stream in portions of up to ten packets. *)
Fixpoint send_stream (fuel : nat) (socket : Z) (canid_be out : list Z) (src_i padded : Z) : prog lan_t unit :=
  match fuel with
  | O => undefined
  | S fuel =>
      let '(bytes, src_i) := fill_packets (Z.to_nat MAX_PACKETS) canid_be out src_i padded 0 in
      do* net_to_net socket bytes in
      do* emit (Sleep (1000 * 1000)) in
      if src_i <? padded then send_stream fuel socket canid_be out src_i padded else ret tt
  end.

(** The packet that announces a stream. *)
Definition announce_packet (canid_be : list Z) (size crc flags fill : Z) : list Z :=
  if negb (Z.land flags BCCHANGE =? 0)
  then canid_be ++ [7] ++ to_be32 size ++ to_be16 crc ++ [fill; 0]
  else canid_be ++ [6] ++ to_be32 size ++ to_be16 crc ++ [0; 0].

(** The stream of a file: its size, the compressed file, zeros up to a multiple
    of 8. *)
Definition padded (n : Z) : Z := if n mod 8 =? 0 then n else n + (8 - n mod 8).
Definition stream_of (nbytes : Z) (z : list Z) : list Z :=
  let size := Z.of_nat (length z) + 4 in
  to_be32 nbytes ++ z ++ replicate (Z.to_nat (padded size - size)) 0.

Definition send_tcp_config_data (filename : string) (canid : Z) (sockets : list Z) (flags fill : Z)
    : prog lan_t Z :=
  let* config := read_config_file filename in
  match config with
  | None => ret (-1)
  | Some config =>
      if negb (Z.land flags COMPRESSED =? 0) then
        let '(status, z) := deflate config CHUNK in
        if negb (status =? Z_STREAM_END) then ret (-1)
        else
          let out := stream_of (Z.of_nat (length config)) z in
          let size := Z.of_nat (length z) + 4 in
          let crc := CRCCCITT out 0xffff in
          let canid_be := to_be32 (Z.lor (Z.land canid 0xFFFEFFFF) 0x00020000) in
          do* for_each sockets (fun socket =>
            if socket <? 0 then ret tt
            else
              do* net_to_net socket (announce_packet canid_be size crc flags fill) in
              send_stream (length out) socket canid_be out 0 (padded size)) in
          ret 0
      else ret 0
  end.
End Zlib.
End Lan.
