(* ===== verification/LanServer.v ===== *)
(** can2lan: can2lan.c and ascii-frame.c (src/can2udp/src), the gateway's main
    loop with its table of connections and what it does with the packets of UDP
    and TCP clients. *)

From S2P Require Import Prelude World Messages Text Lan.

Module LanServer.
Import Lan.

Definition PING_TIME : Z := 12.
Definition BROADCAST_C0NFIG_UPDATE : string := "broadcast_update.cs2".

Definition M_GLEISBOX_MAGIC_START_SEQUENCE : list Z :=
  [0x00; 0x36; 0x03; 0x01; 0x05; 0x00; 0x00; 0x00; 0x00; 0x11; 0x00; 0x00; 0x00].
Definition M_GLEISBOX_ALL_PROTO_ENABLE : list Z :=
  [0x00; 0x00; 0x03; 0x01; 0x06; 0x00; 0x00; 0x00; 0x00; 0x08; 0x07; 0x00; 0x00].
Definition M_CAN_PING : list Z :=
  [0x00; 0x30; 0x47; 0x11; 0x00; 0x00; 0x00; 0x00; 0x00; 0x00; 0x00; 0x00; 0x00].
Definition M_CAN_PING_CS2_1 : list Z :=
  [0x00; 0x31; 0x63; 0x4A; 0x08; 0x00; 0x00; 0x00; 0x00; 0x04; 0x02; 0xFF; 0xF0].
Definition M_CAN_PING_CS2_2 : list Z :=
  [0x00; 0x31; 0x63; 0x4B; 0x08; 0x00; 0x00; 0x00; 0x00; 0x03; 0x44; 0x00; 0x00].
Definition M_CAN_PING_CS2_3 : list Z :=
  [0x00; 0x31; 0x03; 0x00; 0x08; 0x00; 0x00; 0x00; 0x00; 0x04; 0x02; 0xFF; 0xFF].
Definition M_CAN_PING_CS2 : list Z :=
  [0x00; 0x30; 0x47; 0x11; 0x08; 0x00; 0x00; 0x00; 0x00; 0x03; 0x08; 0xff; 0xff].
Definition M_PING_RESPONSE : list Z := [0x00; 0x30; 0x00; 0x00; 0x00].

(** What a read of a TCP socket gives: bytes (none at the end of the
    connection) or an error. *)
Inductive read_t := Bytes (b : list Z) | Error.

(** What [pselect] found ready in one round of the loop. *)
Record ready_t := mk_ready {
  r_can : option can_frame;
  r_udp : option (list Z);
  r_accept : option Z;
  r_accept2 : option Z;
  r_data : list (Z * read_t);
}.

Section Server.
Context (deflate inflate : list Z -> Z -> Z * list Z) (writable : string -> bool) (junk : nat -> Z).

(** The UDP socket the gateway broadcasts with. *)
Context (sb : Z).

Local Abbreviation send_config := (send_tcp_config_data deflate).
Local Abbreviation reassemble := (reassemble_data inflate writable junk).

(** * Start *)

Definition send_start_60113_frames : prog lan_t Z :=
  do* frame_to_can M_GLEISBOX_MAGIC_START_SEQUENCE in
  do* frame_to_can M_GLEISBOX_ALL_PROTO_ENABLE in
  ret 0.

Definition send_can_ping : prog lan_t Z := do* frame_to_can M_CAN_PING in ret 0.

(** * The copy of a control centre's configuration *)

Definition copy_cs2_config : prog lan_t unit :=
  let* c := gets cs2 in
  if negb (c.(cs2_tcp_socket) =? 0) then
    do* modify (fun l => l <| config_dir ::= cut_at "gleisbilder/" |>) in
    do* mod_cs2 (fun c => c <| name := Some "lokomotive.cs2" |> <| next := 1 |>) in
    do* net_to_net c.(cs2_tcp_socket) (request "loks") in
    mod_cs2 (fun c => c <| cs2_config_copy := 0 |> <| copy_state := CS2_STATE_NORMAL_CONFIG |>)
  else ret tt.

(** * Packets

    A handler gets the packet, 13 bytes of the buffer, and returns it as it
    leaves it there. *)

(** The name in a request: at most 8 characters. *)
Definition config_name (p : list Z) : string := cstr (at_off 5 8 p).

(** A change of the configuration is told to the clients. *)
Definition emit_change_broadcast (f : can_frame) (sockets : list Z) : prog lan_t unit :=
  do* send_config (cstr (take 8 f.(can_data))) f.(can_id) sockets (Z.lor (Z.lor CRC COMPRESSED) BCCHANGE)
    (Z.land f.(can_id) 0xFF) in
  ret tt.

Definition canid_of (p : list Z) : Z := of_be (at_off 0 4 p).
Definition class_of (p : list Z) : Z := Z.land (canid_of p) 0xFFFF0000.

Definition check_data_udp (p : list Z) : prog lan_t (list Z) :=
  let* fake := gets cs2fake_ping in
  let canid := canid_of p in
  match class_of p with
  | 0x00300000 =>
      if fake then do* net_to_net sb M_CAN_PING_CS2 in ret M_CAN_PING_CS2 else ret p
  | 0x00310000 =>
      let* p := (if (nth 11 p 0 =? 0xEE) && (nth 12 p 0 =? 0xEE) then
                   let p := blit 0 M_PING_RESPONSE p in
                   do* net_to_net sb p in
                   let* copy := get_cs2 cs2_config_copy in
                   do* (if negb (copy =? 0) then copy_cs2_config else ret tt) in
                   ret p
                 else ret p) in
      if fake then
        do* net_to_net sb M_CAN_PING_CS2_1 in
        do* net_to_net sb M_CAN_PING_CS2_2 in
        ret M_CAN_PING_CS2_2
      else ret p
  | 0x00400000 =>
      if canid =? 0x0040af7e then
        do* mod_cs2 (fun c => c <| cs2_config_copy := 1 |>) in
        do* copy_cs2_config in
        ret p
      else ret p
  | _ => ret p
  end.

(** The file a request names, as [check_data] maps names to files. *)
Definition served_files : list (string * string) :=
  [("loks", "lokomotive.cs2"); ("mags", "magnetartikel.cs2")]%string.
Definition served_files' : list (string * string) :=
  [("gbs", "gleisbild.cs2"); ("fs", "fahrstrassen.cs2"); ("lokstat", "lokomotive.sr2");
   ("magstat", "magnetartikel.sr2"); ("gbsstat", "gleisbild.sr2"); ("fsstat", "fahrstrassen.sr2")]%string.
Fixpoint assoc (s : string) (l : list (string * string)) : option string :=
  match l with
  | [] => None
  | (k, v) :: l => if bool_decide (s = k) then Some v else assoc s l
  end.

Definition serve (socket canid : Z) (file : string) : prog lan_t unit :=
  do* send_config file canid [socket] (Z.lor CRC COMPRESSED) 0 in ret tt.

(** A track page is served by its number. *)
Definition serve_page (socket canid : Z) (what : string) : prog lan_t unit :=
  let page_number := atoi (skip_chars 4 what) in
  if page_number <=? MAX_TRACK_PAGE then
    let* table := gets page_name in
    let* page := page_at table page_number in
    match page with
    | Some file =>
        let* gbs_name := path "gleisbilder/" file in
        serve socket canid gbs_name
    | None => ret tt
    end
  else ret tt.

(** A request for a file: whether it is answered here. *)
Definition config_request (socket canid : Z) (what : string) : prog lan_t Z :=
  match assoc what served_files with
  | Some file => do* serve socket canid file in ret 1
  | None =>
      if String.prefix "gbs-" what then do* serve_page socket canid what in ret 1
      else
        match assoc what served_files' with
        | Some file => do* serve socket canid file in ret 1
        | None => ret 0
        end
  end.

(** The result tells whether the packet is done with; 0 sends it on. *)
Definition check_data (socket : Z) (p : list Z) : prog lan_t (Z * list Z) :=
  let canid := canid_of p in
  match class_of p with
  | 0x00300000 =>
      let* fake := gets cs2fake_ping in
      if fake then do* net_to_net socket M_CAN_PING_CS2_3 in ret (0, M_CAN_PING_CS2_3) else ret (0, p)
  | 0x00310000 =>
      do* (if (nth 11 p 0 =? 0xFF) && (nth 12 p 0 =? 0xFF) then
             do* mod_cs2 (fun c => c <| cs2_tcp_socket := socket |>) in
             let* copy := get_cs2 cs2_config_copy in
             if negb (copy =? 0) then copy_cs2_config else ret tt
           else ret tt) in
      ret (0, p)
  | 0x00400000 =>
      let p' := <[1%nat := Z.lor (nth 1 p 0) 1]> p in
      if canid =? 0x0040af7e then
        let p := blit 5 (str_bytes "copy" ++ [0]) (<[4%nat := 4]> p') in
        do* net_to_net socket p in
        do* mod_cs2 (fun c => c <| cs2_config_copy := 1 |>) in
        ret (1, p)
      else
        do* net_to_net socket p' in
        let* r := config_request socket canid (config_name p) in
        ret (r, p')
  | 0x00420000 =>
      do* (if nth 4 p 0 =? 7 then
             mod_cs2 (fun c => c <| name := Some BROADCAST_C0NFIG_UPDATE |>
               <| copy_state := CS2_STATE_BROADCAST_UPDATE |>)
           else ret tt) in
      do* reassemble p in
      ret (if negb (Z.land canid 0x0000fcff =? 0) then 0 else 1, p)
  | 0x0C000000 =>
      let* w := gets ms1_workaround in
      ret (0, if (w : bool) then <[5%nat := 0x03]> p else p)
  | _ => ret (0, p)
  end.

(** * Text commands on the second port (ascii-frame.c) *)

Definition ASCII_BUFFER : Z := 4096.
(** [strcat] to the text buffer. *)
Definition strcat_ascii (s t : string) : prog lan_t string :=
  do* guard (Z.of_nat (String.length (s +:+ t)) <? ASCII_BUFFER) in ret (s +:+ t).

Fixpoint set_loco_list (s : string) (locos : list (string * option string)) : prog lan_t string :=
  match locos with
  | [] => strcat_ascii s nl
  | (n, _) :: locos =>
      let* s := strcat_ascii s n in
      let* s := strcat_ascii s ";" in
      set_loco_list s locos
  end.

Fixpoint find_loco (n : string) (locos : list (string * option string)) : option (option string) :=
  match locos with
  | [] => None
  | (m, icon) :: locos => if bool_decide (m = n) then Some icon else find_loco n locos
  end.
Definition set_loco_icon (s loco_name : string) (locos : list (string * option string)) : prog lan_t string :=
  match find_loco loco_name locos with
  | Some icon =>
      let* icon := need icon in
      let* s := strcat_ascii s icon in
      let* s := strcat_ascii s ";" in
      strcat_ascii s nl
  | None => strcat_ascii s nl
  end.

(** [strtok] with the delimiter ";" from an offset: where the token starts and
    ends, and the buffer with the NUL it writes. *)
Fixpoint skip_semi (p : list Z) (i : nat) : nat :=
  match p with b :: p => if b =? ch ";" then skip_semi p (S i) else i | [] => i end.
Fixpoint token_end (p : list Z) (i : nat) : nat :=
  match p with b :: p => if (b =? 0) || (b =? ch ";") then i else token_end p (S i) | [] => i end.
Definition strtok (buffer : list Z) (i : nat) : option (nat * nat * list Z) :=
  let b := skip_semi (drop i buffer) i in
  if nth b buffer 0 =? 0 then None
  else
    let e := token_end (drop b buffer) b in
    if nth e buffer 0 =? 0 then Some (b, e, buffer) else Some (b, S e, <[e := 0]> buffer).

Definition GET_LOCO_LIST : string := "get loco list;".
Definition GET_LOCO_ICON : string := "get loco icon name;".
(** [memcmp] with the start of the buffer. *)
Definition frame_starts (s : string) (n : nat) (buffer : list Z) : bool :=
  bool_decide (take n buffer = take n (str_bytes s)).

Definition decode_ascii_frame (socket : Z) (length_ : Z) : prog lan_t unit :=
  let* buffer := gets netframe in
  let* locos := gets loco_data in
  do* guard ((1 <=? length_) && (length_ - 1 <=? ASCII_BUFFER)) in
  let ascii_buffer := cstr (take (Z.to_nat (length_ - 1)) buffer) in
  let* s := strcat_ascii ascii_buffer "ok;" in
  let* s := (if frame_starts GET_LOCO_LIST 14 buffer then
               let* s := set_loco_list s locos in
               do* emit (To_net socket (str_bytes s)) in ret s
             else ret s) in
  if frame_starts GET_LOCO_ICON 18 buffer then
    let* '(_, e, buffer) := need (strtok buffer 0) in
    let* '(b, e, buffer) := need (strtok buffer e) in
    do* guard (e <=? length buffer)%nat in
    do* modify (fun l => l <| netframe := buffer |>) in
    let* s := set_loco_icon s (cstr (drop b buffer)) locos in
    emit (To_net socket (str_bytes s))
  else ret tt.

(** * The loop *)

(** The first [n] places of a table. *)
Definition clients (table : gmap Z Z) (n : Z) : option (list Z) :=
  mapM (fun i => table !! i) (seqZ 0 n).

(** Each connected client up to [max_tcp_i]. *)
Definition for_clients (body : Z -> prog lan_t unit) (bad : Z -> bool) : prog lan_t unit :=
  let* m := gets max_tcp_i in
  for_each (range 0 m) (fun i =>
    let* t := gets tcp_client in
    let* s := need (t !! i) in
    if bad s then ret tt else body s).

(** Nothing for a second: every twelfth time a ping. *)
Definition idle : prog lan_t unit :=
  do* modify (fun l => if l.(cs2fake_ping) then l <| cs2ping_timer ::= Z.succ |> else l) in
  let* t := gets cs2ping_timer in
  if PING_TIME <=? t then
    do* modify (fun l => l <| cs2ping_timer := 0 |>) in
    do* frame_to_can M_CAN_PING in
    for_clients (fun s => do* net_to_net s M_CAN_PING in ret tt) (fun s => s <=? 0)
  else ret tt.

(** The clients of the table get the frame one after the other; it keeps the
    flags it lost. *)
Fixpoint frame_to_clients (places : list Z) (f : can_frame) : prog lan_t unit :=
  match places with
  | [] => ret tt
  | i :: places =>
      let* t := gets tcp_client in
      let* s := need (t !! i) in
      if s <? 0 then frame_to_clients places f
      else let* f := frame_to_net s f in frame_to_clients places f
  end.

Definition can_received (f : can_frame) : prog lan_t unit :=
  if negb (Z.land f.(can_id) CAN_EFF_FLAG =? 0) then
    let* m := gets max_tcp_i in
    if (Z.land f.(can_id) 0x1FFFF00 =? 0x0434700) && (f.(can_dlc) =? 8) then
      let* t := gets tcp_client in
      let* sockets := need (clients t (m + 1)) in
      emit_change_broadcast f sockets
    else
      let* f := frame_to_net sb f in
      frame_to_clients (range 0 m) f
  else ret tt.

(** Bytes read into the buffer. *)
Definition read_into (bytes : list Z) : prog lan_t unit :=
  do* guard (Z.of_nat (length bytes) <=? MAXDG) in
  modify (fun l => l <| netframe ::= blit 0 bytes |>).

Definition udp_received (bytes : list Z) : prog lan_t unit :=
  do* read_into bytes in
  if Z.of_nat (length bytes) =? CAN_ENCAP_SIZE then
    if Z.land (canid_of bytes) 0x00230000 =? 0x00230000 then
      do* for_clients (fun s => do* net_to_net s bytes in ret tt) (fun s => s <? 0) in
      do* net_to_net sb bytes in
      ret tt
    else
      do* frame_to_can bytes in
      let* p := check_data_udp bytes in
      modify (fun l => l <| netframe ::= blit 0 p |>)
  else ret tt.

(** The first free place of a table of [MAX_TCP_CONN], or its size. *)
Fixpoint free_slot (fuel : nat) (table : gmap Z Z) (i : Z) : prog lan_t Z :=
  match fuel with
  | O => ret i
  | S fuel =>
      let* s := need (table !! i) in
      if s <? 0 then ret i else free_slot fuel table (i + 1)
  end.
Definition put_slot (i fd : Z) (table : gmap Z Z) : gmap Z Z :=
  if i <? MAX_TCP_CONN then <[i := fd]> table else table.

(** A connection to one of the two ports. *)
Definition accepted (second : bool) (fd : Z) : prog lan_t unit :=
  do* guard (0 <=? fd) in
  let* n := gets tcp_connections in
  if n =? MAX_TCP_CONN then emit (Shut fd)
  else
    do* modify (fun l => l <| tcp_connections ::= fun n => u32 (n + 1) |>) in
    let* t := gets (if second then tcp_client2 else tcp_client) in
    let* i := free_slot (Z.to_nat MAX_TCP_CONN) t 0 in
    do* modify (fun l => (if second then l <| tcp_client2 ::= put_slot i fd |>
                          else l <| tcp_client ::= put_slot i fd |>)
                         <| max_tcp_i ::= Z.max i |>) in
    if second then ret tt
    else
      do* modify (fun l => l <| netframe ::= blit 0 M_CAN_PING |>) in
      do* net_to_net fd M_CAN_PING in
      ret tt.

(** The packets of a TCP segment, one after the other; [j] is the offset. *)
Fixpoint tcp_packets (fuel : nat) (socket : Z) (j n : Z) : prog lan_t unit :=
  if j <? n then
    match fuel with
    | O => undefined
    | S fuel =>
        let* buffer := gets netframe in
        let* '(r, p) := check_data socket (at_off (Z.to_nat j) 13 buffer) in
        do* modify (fun l => l <| netframe ::= blit (Z.to_nat j) p |>) in
        do* (if r =? 0 then
               do* frame_to_can p in
               do* net_to_net sb p in
               ret tt
             else ret tt) in
        tcp_packets fuel socket (j + CAN_ENCAP_SIZE) n
    end
  else ret tt.

Definition closed (second : bool) (i socket : Z) : prog lan_t unit :=
  do* emit (Close socket) in
  modify (fun l => (if second then l <| tcp_client2 ::= <[i := -1]> |> else l <| tcp_client ::= <[i := -1]> |>)
                   <| tcp_connections ::= fun n => u32 (n - 1) |>).

(** Data from the client in place [i]. *)
Definition tcp_received (i socket : Z) (r : read_t) : prog lan_t unit :=
  match r with
  | Error => ret tt
  | Bytes bytes =>
      do* read_into bytes in
      let n := Z.of_nat (length bytes) in
      if n =? 0 then closed false i socket
      else if negb (n mod 13 =? 0) then ret tt
      else tcp_packets (length bytes) socket 0 n
  end.
Definition tcp2_received (i socket : Z) (r : read_t) : prog lan_t unit :=
  match r with
  | Error => decode_ascii_frame socket (-1)
  | Bytes bytes =>
      do* read_into bytes in
      let n := Z.of_nat (length bytes) in
      if n =? 0 then closed true i socket else decode_ascii_frame socket n
  end.

Fixpoint ready_read (fd : Z) (l : list (Z * read_t)) : option read_t :=
  match l with
  | [] => None
  | (f, r) :: l => if f =? fd then Some r else ready_read fd l
  end.

(** The places of a table, until all that was ready is dealt with; the result
    is the number of descriptors still to go. *)
Fixpoint poll_clients (second : bool) (places : list Z) (data : list (Z * read_t)) (nready : Z) : prog lan_t Z :=
  match places with
  | [] => ret nready
  | i :: places =>
      let* t := gets (if second then tcp_client2 else tcp_client) in
      let* s := need (t !! i) in
      if s <? 0 then poll_clients second places data nready
      else
        match ready_read s data with
        | Some r =>
            do* (if second then tcp2_received i s r else tcp_received i s r) in
            if nready - 1 <=? 0 then ret (nready - 1) else poll_clients second places data (nready - 1)
        | None => poll_clients second places data nready
        end
  end.

Definition opt_count {A} (o : option A) : Z := match o with Some _ => 1 | None => 0 end.
Definition nready_of (r : ready_t) : Z :=
  opt_count r.(r_can) + opt_count r.(r_udp) + opt_count r.(r_accept) + opt_count r.(r_accept2) +
  Z.of_nat (length r.(r_data)).

Definition on_ready {A} (o : option A) (f : A -> prog lan_t unit) : prog lan_t unit :=
  match o with Some a => f a | None => ret tt end.

(** One round of the loop.  CAN and UDP do not count down what is ready. *)
Definition turn (r : ready_t) : prog lan_t unit :=
  let nready := nready_of r in
  if nready =? 0 then idle
  else
    do* on_ready r.(r_can) can_received in
    do* on_ready r.(r_udp) udp_received in
    do* on_ready r.(r_accept) (accepted false) in
    let nready := nready - opt_count r.(r_accept) in
    if bool_decide (is_Some r.(r_accept)) && (nready <=? 0) then ret tt
    else
      do* on_ready r.(r_accept2) (accepted true) in
      let nready := nready - opt_count r.(r_accept2) in
      if bool_decide (is_Some r.(r_accept2)) && (nready <=? 0) then ret tt
      else
        let* m := gets max_tcp_i in
        let* nready := poll_clients false (range 0 m) r.(r_data) nready in
        do* poll_clients true (range 0 m) r.(r_data) nready in
        ret tt.
End Server.
End LanServer.
