(* ===== verification/LanBytes.v ===== *)
(** The bytes of can2lan's packets: big-endian numbers, buffers written and read
    at an offset. *)

From S2P Require Import Prelude World Lan.

Module LanBytes.
Import Lan.

(** * Numbers *)

Definition is_byte (b : Z) : Prop := 0 <= b < 256.
#[export] Instance is_byte_dec b : Decision (is_byte b).
Proof. unfold is_byte. apply _. Defined.

(** The digits of a number, by division. *)
Ltac be_digits :=
  rewrite ?Z.shiftr_div_pow2 by lia;
  change (2 ^ 8) with 256 in *; change (2 ^ 16) with 65536 in *; change (2 ^ 24) with 16777216 in *;
  change (2 ^ 32) with 4294967296 in *; Z.to_euclidean_division_equations; lia.

Lemma of_to_be32 v : 0 <= v < 2 ^ 32 -> of_be (to_be32 v) = v.
Proof. intros H. unfold of_be, to_be32. cbn [fold_left]. be_digits. Qed.
Lemma of_to_be16 v : 0 <= v < 2 ^ 16 -> of_be (to_be16 v) = v.
Proof. intros H. unfold of_be, to_be16. cbn [fold_left]. be_digits. Qed.

Lemma to_of_be32 a b c d : is_byte a -> is_byte b -> is_byte c -> is_byte d ->
  to_be32 (of_be [a; b; c; d]) = [a; b; c; d].
Proof.
  unfold is_byte, of_be, to_be32. intros. cbn [fold_left].
  repeat f_equal; be_digits.
Qed.
Lemma of_be32_range a b c d : is_byte a -> is_byte b -> is_byte c -> is_byte d ->
  0 <= of_be [a; b; c; d] < 2 ^ 32.
Proof. unfold is_byte, of_be. intros. cbn [fold_left]. be_digits. Qed.
Lemma length_to_be32 v : length (to_be32 v) = 4%nat.
Proof. done. Qed.

(** * Buffers *)

Lemma length_blit off bytes (b : list Z) : (off + length bytes <= length b)%nat ->
  length (blit off bytes b) = length b.
Proof. intros H. unfold blit. rewrite !length_app, length_take, length_drop. lia. Qed.
Lemma at_blit off bytes (b : list Z) : (off <= length b)%nat ->
  at_off off (length bytes) (blit off bytes b) = bytes.
Proof.
  intros H. unfold at_off, blit. rewrite drop_app_length' by (rewrite length_take; lia).
  by apply take_app_length.
Qed.
Lemma take_blit n off bytes (b : list Z) : (n <= off)%nat -> (n <= length b)%nat ->
  take n (blit off bytes b) = take n b.
Proof.
  intros H Hl. unfold blit. rewrite take_app_le by (rewrite length_take; lia).
  rewrite take_take. f_equal. lia.
Qed.
(** Bytes written next to bytes already there. *)
Lemma take_blit_end off bytes (b : list Z) : (off <= length b)%nat ->
  take (off + length bytes) (blit off bytes b) = take off b ++ bytes.
Proof.
  intros H. unfold blit. rewrite app_assoc. apply take_app_length'.
  rewrite length_app, length_take. lia.
Qed.
Lemma blit_same off n (b : list Z) : blit off (at_off off n b) b = b.
Proof.
  unfold blit, at_off. rewrite length_take, length_drop.
  destruct (decide (off <= length b)%nat) as [H |].
  - replace (drop (off + n `min` (length b - off)) b) with (drop n (drop off b)).
    + by rewrite take_drop, take_drop.
    + rewrite drop_drop. destruct (decide (n <= length b - off)%nat).
      * f_equal. lia.
      * rewrite !drop_ge by lia. done.
  - rewrite (drop_ge b) by lia. rewrite take_nil, app_nil_l.
    rewrite drop_ge by (cbn; lia). rewrite app_nil_r. apply take_ge. lia.
Qed.
Lemma at_off_all (b : list Z) n : length b = n -> at_off 0 n b = b.
Proof. intros <-. unfold at_off. rewrite drop_0. apply firstn_all. Qed.
Lemma length_at_off off n (b : list Z) : (off + n <= length b)%nat -> length (at_off off n b) = n.
Proof. intros H. unfold at_off. rewrite length_take, length_drop. lia. Qed.
Lemma at_off_app_l off n (a b : list Z) : (off + n <= length a)%nat ->
  at_off off n (a ++ b) = at_off off n a.
Proof.
  intros H. unfold at_off. rewrite drop_app_le by lia. rewrite take_app_le; [done |].
  rewrite length_drop. lia.
Qed.
Lemma at_off_app_r off n (a b : list Z) : (length a <= off)%nat ->
  at_off off n (a ++ b) = at_off (off - length a) n b.
Proof. intros H. unfold at_off. by rewrite drop_app_ge. Qed.
Lemma blit_all (bytes b : list Z) : length bytes = length b -> blit 0 bytes b = bytes.
Proof. intros H. unfold blit. rewrite take_0, drop_ge by lia. by rewrite app_nil_r. Qed.
End LanBytes.
