(* ===== verification/LanFrame.v ===== *)
(** What the transfer of configuration files leaves alone: the operations of
    [Lan] change nothing a view of the state shows that does not look at the
    outside world, the transfer's own data and the files. *)

From S2P Require Import Prelude World Messages Text Lan.

Module LanFrame.
Import Lan.

(** A view of the state the operations of [Lan] do not touch. *)
Class Untouched {A} (view : lan_t -> A) := {
  untouched_events f l : view (l <| events ::= f |>) = view l;
  untouched_cs2 f l : view (l <| cs2 ::= f |>) = view l;
  untouched_tick f l : view (l <| l_tick ::= f |>) = view l;
  untouched_files f l : view (l <| files ::= f |>) = view l;
  untouched_tables f l : view (l <| page_tables ::= f |>) = view l;
  untouched_page_name f l : view (l <| page_name ::= f |>) = view l;
  untouched_dir f l : view (l <| config_dir ::= f |>) = view l;
  untouched_sent f l : view (l <| last_sent ::= f |>) = view l;
}.

Section Same.
Context {A} (view : lan_t -> A).

Definition same (l l' : lan_t) : Prop := view l' = view l.
#[export] Instance same_preorder : PreOrder same.
Proof. split; [done |]. intros a b c H1 H2. unfold same in *. congruence. Qed.

Lemma keep_modify f : (forall l, view (f l) = view l) -> preserves same (modify f).
Proof. intros H. apply preserves_modify. exact H. Qed.
End Same.
#[export] Hint Extern 2 (preserves (same _) (modify _)) =>
  (apply keep_modify; intros; repeat case_match;
   first [done | apply untouched_files | apply untouched_tables | apply untouched_page_name
         | apply untouched_dir | apply untouched_sent]) : preserves.

Section Frame.
Context {A} (view : lan_t -> A) `{!Untouched view}.

Lemma keep_emit e : preserves (same view) (emit e).
Proof. apply keep_modify. intros l. apply untouched_events. Qed.
Lemma keep_mod_cs2 f : preserves (same view) (mod_cs2 f).
Proof. apply keep_modify. intros l. apply untouched_cs2. Qed.
Lemma keep_get_cs2 {B} (f : cs2_t -> B) : preserves (same view) (get_cs2 f).
Proof. apply preserves_gets, _. Qed.
Lemma keep_clock : preserves (same view) gettimeofday.
Proof using Untouched0. intros l t l' [= _ <-]. apply untouched_tick. Qed.
#[local] Hint Resolve keep_emit keep_mod_cs2 keep_get_cs2 keep_clock : preserves.

Lemma keep_net s b : preserves (same view) (net_to_net s b).
Proof. unfold net_to_net. preserve. Qed.
#[local] Hint Resolve keep_net : preserves.
Lemma keep_frame_to_can p : preserves (same view) (frame_to_can p).
Proof. unfold frame_to_can. preserve. Qed.
Lemma keep_page_at t i : preserves (same view) (page_at t i).
Proof. unfold page_at. preserve. Qed.
Lemma keep_path d f : preserves (same view) (path d f).
Proof. unfold path. preserve. Qed.
Lemma keep_set_page t i s : preserves (same view) (set_page t i s).
Proof. unfold set_page. preserve. Qed.
#[local] Hint Resolve keep_frame_to_can keep_page_at keep_path keep_set_page : preserves.

Lemma keep_track_lines t id page ls : preserves (same view) (read_track_lines t id page ls).
Proof.
  revert id page. induction ls as [| line ls IH]; intros id page; cbn [read_track_lines]; preserve.
Qed.
#[local] Hint Resolve keep_track_lines : preserves.
Lemma keep_track_file f t : preserves (same view) (read_track_file f t).
Proof. unfold read_track_file. preserve. Qed.
#[local] Hint Resolve keep_track_file : preserves.

Context (deflate inflate : list Z -> Z -> Z * list Z) (writable : string -> bool) (junk : nat -> Z).

Lemma keep_realloc old n : preserves (same view) (realloc junk old n).
Proof. unfold realloc, exit_process. preserve. Qed.
Lemma keep_inflate : preserves (same view) (inflate_data inflate).
Proof. unfold inflate_data, exit_process. preserve. Qed.
#[local] Hint Resolve keep_realloc keep_inflate : preserves.
Lemma keep_config_write : preserves (same view) (config_write inflate writable).
Proof. unfold config_write. preserve. Qed.
Lemma keep_get_tracks : preserves (same view) get_tracks.
Proof. unfold get_tracks. preserve. Qed.
#[local] Hint Resolve keep_config_write keep_get_tracks : preserves.
Lemma keep_track_sum : preserves (same view) track_sum.
Proof. unfold track_sum. preserve. Qed.
#[local] Hint Resolve keep_track_sum : preserves.
Lemma keep_normal_config : preserves (same view) normal_config.
Proof. unfold normal_config. preserve. Qed.
#[local] Hint Resolve keep_normal_config : preserves.
Lemma keep_file_complete : preserves (same view) file_complete.
Proof. unfold file_complete. preserve. Qed.
Lemma keep_stored i d : preserves (same view) (store i d).
Proof. unfold store. preserve. Qed.
#[local] Hint Resolve keep_file_complete keep_stored : preserves.
Lemma keep_reassemble p : preserves (same view) (reassemble_data inflate writable junk p).
Proof. unfold reassemble_data, announcement, first_data, more_data. preserve. Qed.
Lemma keep_read_config f : preserves (same view) (read_config_file f).
Proof. unfold read_config_file. preserve. Qed.
Lemma keep_send_stream n s c o i p : preserves (same view) (send_stream n s c o i p).
Proof. revert i. induction n as [| n IH]; intros i; cbn [send_stream]; preserve. Qed.
#[local] Hint Resolve keep_reassemble keep_read_config keep_send_stream : preserves.
Lemma keep_send_config f c ss fl x : preserves (same view) (send_tcp_config_data deflate f c ss fl x).
Proof. unfold send_tcp_config_data. preserve. Qed.

End Frame.
#[export] Hint Extern 0 (Untouched _) => exact _ : preserves.
#[export] Hint Resolve keep_emit keep_mod_cs2 keep_get_cs2 keep_clock keep_net keep_frame_to_can keep_page_at
  keep_path keep_set_page keep_track_lines keep_track_file keep_realloc keep_inflate
  keep_config_write keep_get_tracks keep_track_sum keep_normal_config keep_file_complete
  keep_stored keep_reassemble keep_read_config keep_send_stream keep_send_config : preserves.
End LanFrame.
