(* ===== verification/LanCrc.v ===== *)
(** The checksum of can2lan's configuration files: the table-driven CRC-CCITT
    against polynomial division bit by bit. *)

From S2P Require Import Prelude World Lan.

Module LanCrc.
Import Lan.

(** * The reference: division by x^16 + x^12 + x^5 + 1, a bit at a time *)

Definition crc_bit (c : Z) : Z :=
  let s := Z.shiftl c 1 in u16 (if Z.testbit c 15 then Z.lxor s 0x1021 else s).
Definition crc_steps (n : nat) (c : Z) : Z := Nat.iter n crc_bit c.
Definition crc_byte_ref (c b : Z) : Z := crc_steps 8 (Z.lxor c (Z.shiftl b 8)).
Definition crc_ref (data : list Z) (seed : Z) : Z := fold_left crc_byte_ref data seed.

Definition word16 (c : Z) : Prop := 0 <= c < 2 ^ 16.
Definition byte (b : Z) : Prop := 0 <= b < 2 ^ 8.

(** * Linearity *)

(** Equalities of sums modulo 2, bit by bit. *)
Ltac xor_bits :=
  apply Z.bits_inj'; let i := fresh in intros i _; rewrite ?Z.lxor_spec;
  repeat match goal with |- context [Z.testbit ?z i] => destruct (Z.testbit z i) end; done.

Lemma wrap_lxor w a b : 0 <= w -> wrap w (Z.lxor a b) = Z.lxor (wrap w a) (wrap w b).
Proof.
  intros Hw. apply Z.bits_inj'. intros i Hi.
  rewrite Z.lxor_spec, !wrap_testbit, Z.lxor_spec by done. by destruct (i <? w).
Qed.

Lemma xor_cancel a b d : Z.lxor (Z.lxor a d) (Z.lxor b d) = Z.lxor a b.
Proof. xor_bits. Qed.
Lemma xor_cancel_l a b d : Z.lxor (Z.lxor d a) (Z.lxor d b) = Z.lxor a b.
Proof. xor_bits. Qed.

Lemma crc_bit_xor a b : crc_bit (Z.lxor a b) = Z.lxor (crc_bit a) (crc_bit b).
Proof.
  unfold crc_bit. rewrite <- wrap_lxor by lia. f_equal.
  rewrite Z.lxor_spec, Z.shiftl_lxor. destruct (Z.testbit a 15), (Z.testbit b 15); cbn [xorb]; xor_bits.
Qed.
Lemma crc_steps_xor n a b : crc_steps n (Z.lxor a b) = Z.lxor (crc_steps n a) (crc_steps n b).
Proof.
  induction n as [| n IH]; [done |]. cbn [crc_steps Nat.iter nat_rect]. unfold crc_steps in IH.
  change (crc_bit (Nat.iter n crc_bit (Z.lxor a b)) =
    Z.lxor (crc_bit (Nat.iter n crc_bit a)) (crc_bit (Nat.iter n crc_bit b))).
  by rewrite IH, crc_bit_xor.
Qed.

(** * The table *)

Definition table_ok (t : Z) : bool :=
  (crc_steps 8 (Z.shiftl t 8) =? nth (Z.to_nat t) crc_table 0) && (crc_steps 8 t =? Z.shiftl t 8).
Lemma table_all : forallb table_ok (seqZ 0 256) = true.
Proof. vm_compute. reflexivity. Qed.
Lemma table_ok_byte t : byte t -> table_ok t = true.
Proof. intros Ht. apply (forallb_seqZ _ _ _ _ table_all). unfold byte in Ht. lia. Qed.
Lemma table_ok_spec t : table_ok t = true ->
  crc_steps 8 (Z.shiftl t 8) = nth (Z.to_nat t) crc_table 0 /\ crc_steps 8 t = Z.shiftl t 8.
Proof.
  unfold table_ok. intros [A B]%andb_prop. apply Z.eqb_eq in A, B. split; [exact A | exact B].
Qed.
Lemma table_spec t : byte t ->
  crc_steps 8 (Z.shiftl t 8) = nth (Z.to_nat t) crc_table 0 /\ crc_steps 8 t = Z.shiftl t 8.
Proof. intros Ht. exact (table_ok_spec t (table_ok_byte t Ht)). Qed.

Lemma steps_word n c : (0 < n)%nat -> word16 (crc_steps n c).
Proof.
  destruct n as [| n]; [lia |]. intros _. cbn. unfold crc_bit at 1. apply wrap_range. lia.
Qed.
Lemma crc_steps_S n c : crc_steps (S n) c = crc_bit (crc_steps n c).
Proof. reflexivity. Qed.

(** From here on the table is known by [table_spec] only. *)
#[local] Opaque crc_steps crc_table.

(** * Bytes of a word *)

Lemma hi_byte c : word16 c -> byte (Z.shiftr c 8).
Proof.
  intros Hc. unfold byte, word16 in *. rewrite Z.shiftr_div_pow2 by lia.
  split; [apply Z.div_pos; lia | apply Z.div_lt_upper_bound; lia].
Qed.
Lemma byte_xor a b : byte a -> byte b -> byte (Z.lxor a b).
Proof.
  intros Ha Hb. unfold byte in *. rewrite <- (wrap_small 8 a), <- (wrap_small 8 b), <- wrap_lxor by lia.
  apply wrap_range. lia.
Qed.
Lemma split_bytes c : word16 c -> c = Z.lxor (Z.shiftl (Z.shiftr c 8) 8) (wrap 8 c).
Proof.
  intros Hc. apply Z.bits_inj'. intros i Hi. rewrite Z.lxor_spec, wrap_testbit, Z.shiftl_spec by lia.
  destruct (Z.ltb_spec i 8).
  - by rewrite (Z.testbit_neg_r _ (i - 8)) by lia.
  - rewrite Z.shiftr_spec by lia. cbn [andb]. rewrite xorb_false_r. f_equal. lia.
Qed.
Lemma shifted c : u16 (Z.shiftl c 8) = Z.shiftl (wrap 8 c) 8.
Proof.
  apply Z.bits_inj'. intros i Hi. rewrite wrap_testbit, !Z.shiftl_spec by lia.
  destruct (Z.ltb_spec i 8); [rewrite !(Z.testbit_neg_r _ (i - 8)) by lia; apply andb_false_r |].
  rewrite wrap_testbit by lia. f_equal. zbool.
Qed.

Lemma table_step t c : byte t -> word16 c ->
  u16 (Z.lxor (nth (Z.to_nat t) crc_table 0) (Z.shiftl c 8)) =
    crc_steps 8 (Z.lxor (Z.shiftl t 8) (wrap 8 c)).
Proof.
  intros Ht Hc. rewrite crc_steps_xor. destruct (table_spec t Ht) as [E _]. rewrite <- E.
  assert (byte (wrap 8 c)) as Hl by (apply wrap_range; lia).
  destruct (table_spec _ Hl) as [_ E']. rewrite E', wrap_lxor, shifted by lia. f_equal.
  apply wrap_small, steps_word. lia.
Qed.

Lemma crc_byte_spec c b : word16 c -> byte b -> crc_byte c b = crc_byte_ref c b.
Proof.
  intros Hc Hb. unfold crc_byte, crc_byte_ref. cbv zeta.
  pose proof (byte_xor _ _ Hb (hi_byte _ Hc)) as Ht.
  assert (E : Z.lxor c (Z.shiftl b 8) = Z.lxor (Z.shiftl (Z.lxor b (Z.shiftr c 8)) 8) (wrap 8 c)).
  { rewrite (split_bytes c Hc) at 1. rewrite Z.shiftl_lxor. xor_bits. }
  assert (L : Z.land (Z.lxor b (Z.shiftr c 8)) 255 = Z.lxor b (Z.shiftr c 8)).
  { change 255 with (Z.ones 8). rewrite Z.land_ones by lia. exact (wrap_small 8 _ Ht). }
  rewrite E, <- (table_step _ c Ht Hc), L. reflexivity.
Qed.

Lemma fold_left_cons (f : Z -> Z -> Z) b data c : fold_left f (b :: data) c = fold_left f data (f c b).
Proof. reflexivity. Qed.

(** Two step functions that agree under an invariant. *)
Lemma fold_left_agree (f g : Z -> Z -> Z) (P Q : Z -> Prop) :
  (forall c b, P c -> Q b -> f c b = g c b /\ P (g c b)) ->
  forall data seed, P seed -> Forall Q data ->
    fold_left f data seed = fold_left g data seed /\ P (fold_left g data seed).
Proof.
  intros H data. induction data as [| b data IH]; intros seed Hs Hd; [done |].
  apply Forall_cons in Hd as [Hb Hd]. destruct (H seed b Hs Hb) as [E W]. cbn [fold_left].
  rewrite E. by apply IH.
Qed.

Lemma crc_spec data seed : word16 seed -> Forall byte data ->
  fold_left crc_byte data seed = crc_ref data seed /\ word16 (crc_ref data seed).
Proof.
  apply fold_left_agree. intros c b Hc Hb. split; [exact (crc_byte_spec c b Hc Hb) |].
  apply (steps_word 8). lia.
Qed.

(** * Residue and detection *)

Lemma crc_bit_zero c : word16 c -> crc_bit c = 0 -> c = 0.
Proof.
  intros Hc H. unfold crc_bit in H. destruct (Z.testbit c 15) eqn:T.
  - exfalso. assert (E : Z.testbit (u16 (Z.lxor (Z.shiftl c 1) 4129)) 0 = false)
      by (rewrite H; apply Z.bits_0).
    revert E. rewrite wrap_testbit, Z.lxor_spec, Z.shiftl_spec, Z.testbit_neg_r by lia. done.
  - apply Z.bits_inj'. intros i Hi. rewrite Z.bits_0.
    assert (E : Z.testbit (u16 (Z.shiftl c 1)) (i + 1) = false) by (rewrite H; apply Z.bits_0).
    revert E. rewrite wrap_testbit, Z.shiftl_spec by lia. replace (i + 1 - 1) with i by lia.
    destruct (Z.ltb_spec (i + 1) 16) as [| Hge]; [done |]. intros _.
    destruct (decide (i = 15)) as [-> |]; [done |]. rewrite <- (wrap_small 16 c Hc), wrap_testbit by lia.
    by replace (i <? 16) with false by zbool.
Qed.
Lemma crc_steps_zero n c : word16 c -> crc_steps n c = 0 -> c = 0.
Proof.
  intros Hc. induction n as [| n IH]; [by intros H |]. intros H. apply IH.
  rewrite crc_steps_S in H. apply crc_bit_zero; [| done].
  destruct n; [done | apply steps_word; lia].
Qed.

Lemma crc_ref_cons b data c : crc_ref (b :: data) c = crc_ref data (crc_byte_ref c b).
Proof. exact (fold_left_cons crc_byte_ref b data c). Qed.
Lemma crc_ref_nil c : crc_ref [] c = c.
Proof. reflexivity. Qed.
Lemma crc_byte_ref_eq c b : crc_byte_ref c b = crc_steps 8 (Z.lxor c (Z.shiftl b 8)).
Proof. reflexivity. Qed.
Lemma crc_byte_word c b : word16 (crc_byte_ref c b).
Proof. apply (steps_word 8). lia. Qed.
#[local] Opaque crc_byte_ref crc_ref.

Lemma crc_ref_app a b seed : crc_ref (a ++ b) seed = crc_ref b (crc_ref a seed).
Proof.
  revert seed. induction a as [| x a IH]; intros seed; [by rewrite crc_ref_nil |].
  cbn [app]. by rewrite !crc_ref_cons, IH.
Qed.

Lemma word_xor a b : word16 a -> word16 b -> word16 (Z.lxor a b).
Proof.
  intros Ha Hb. unfold word16 in *. rewrite <- (wrap_small 16 a), <- (wrap_small 16 b), <- wrap_lxor by lia.
  apply wrap_range. lia.
Qed.

(** What goes in is known by what comes out. *)
Lemma crc_byte_ref_inj c c' b : word16 c -> word16 c' -> crc_byte_ref c b = crc_byte_ref c' b -> c = c'.
Proof.
  intros Hc Hc' H. rewrite !crc_byte_ref_eq in H. apply Z.lxor_eq_0_iff in H.
  rewrite <- crc_steps_xor, xor_cancel in H. apply Z.lxor_eq_0_iff.
  apply crc_steps_zero with 8%nat; [by apply word_xor | exact H].
Qed.
Lemma crc_ref_inj data c c' : word16 c -> word16 c' -> crc_ref data c = crc_ref data c' -> c = c'.
Proof.
  revert c c'. induction data as [| b data IH]; intros c c' Hc Hc'.
  - rewrite !crc_ref_nil. trivial.
  - rewrite !crc_ref_cons. intros H. apply IH in H; [| apply crc_byte_word..].
    by apply crc_byte_ref_inj in H.
Qed.
Lemma crc_byte_inj c b b' : byte b -> byte b' -> crc_byte_ref c b = crc_byte_ref c b' -> b = b'.
Proof.
  intros Hb Hb' H. rewrite !crc_byte_ref_eq in H. apply Z.lxor_eq_0_iff in H.
  rewrite <- crc_steps_xor, xor_cancel_l, <- Z.shiftl_lxor in H. apply Z.lxor_eq_0_iff.
  pose proof (byte_xor _ _ Hb Hb') as Hx. apply crc_steps_zero in H.
  - rewrite Z.shiftl_mul_pow2 in H by lia. lia.
  - unfold word16, byte in *. rewrite Z.shiftl_mul_pow2 by lia. lia.
Qed.

Lemma crc_closes c : word16 c -> crc_ref (to_be16 c) c = 0.
Proof.
  intros Hc. unfold to_be16. pose proof (hi_byte c Hc) as Hh.
  rewrite (Z.mod_small (Z.shiftr c 8)) by exact Hh. change (c mod 256) with (wrap 8 c).
  assert (Hl : byte (wrap 8 c)) by (apply wrap_range; lia). rewrite !crc_ref_cons, crc_ref_nil.
  assert (E : crc_byte_ref c (Z.shiftr c 8) = Z.shiftl (wrap 8 c) 8).
  { rewrite crc_byte_ref_eq, (split_bytes c Hc) at 1.
    rewrite (Z.lxor_comm (Z.shiftl _ 8)), Z.lxor_assoc, Z.lxor_nilpotent, Z.lxor_0_r.
    apply (table_spec _ Hl). }
  rewrite E, crc_byte_ref_eq, Z.lxor_nilpotent. apply (table_spec 0). split; done.
Qed.

(** C29. The table-driven [CRCCCITT] is the remainder of the division by
    x^16 + x^12 + x^5 + 1, computed bit by bit; a stream followed by its own
    checksum has checksum 0; and two streams that differ in one byte have
    different checksums. *)
Theorem crc_ccitt_divides data seed : Forall byte data -> word16 seed ->
  CRCCCITT data seed = crc_ref data seed /\
  CRCCCITT (data ++ to_be16 (CRCCCITT data seed)) seed = 0 /\
  forall a b b' z, data = a ++ b :: z -> byte b' -> b <> b' ->
    CRCCCITT (a ++ b' :: z) seed <> CRCCCITT data seed.
Proof.
  intros Hd Hs. unfold CRCCCITT. rewrite (wrap_small 16 seed) by exact Hs.
  destruct (crc_spec data seed Hs Hd) as [E W]. rewrite E. split; [done |]. split.
  - rewrite fold_left_app, E.
    destruct (crc_spec (to_be16 (crc_ref data seed)) (crc_ref data seed) W) as [-> _].
    + repeat constructor; apply (wrap_range 8); lia.
    + by apply crc_closes.
  - intros a b b' z -> Hb' Hne. rewrite <- E. apply Forall_app in Hd as [Ha Hbz].
    apply Forall_cons in Hbz as [Hb Hz].
    destruct (crc_spec (a ++ b' :: z) seed Hs) as [E' _]; [by apply Forall_app; split; [| constructor] |].
    rewrite E, E', !crc_ref_app. destruct (crc_spec a seed Hs Ha) as [_ Wa]. rewrite !crc_ref_cons.
    intros H. apply crc_ref_inj in H; [| apply crc_byte_word..]. by apply crc_byte_inj in H.
Qed.

Lemma crc_ccitt_divides_witness :
  CRCCCITT [49; 50; 51] 0xffff = crc_ref [49; 50; 51] 0xffff /\
  CRCCCITT ([49; 50; 51] ++ to_be16 (CRCCCITT [49; 50; 51] 0xffff)) 0xffff = 0 /\
  forall a b b' z, [49; 50; 51] = a ++ b :: z -> byte b' -> b <> b' ->
    CRCCCITT (a ++ b' :: z) 0xffff <> CRCCCITT [49; 50; 51] 0xffff.
Proof.
  apply (crc_ccitt_divides [49; 50; 51] 0xffff).
  - repeat constructor; discriminate.
  - split; [discriminate | reflexivity].
Defined.
End LanCrc.
