(* ===== verification/LanConn.v ===== *)
(** can2lan's table of connections: what every round of the main loop keeps. *)

From S2P Require Import Prelude World Messages Text Lan LanServer LanFrame.

Module LanConn.
Import Lan LanServer LanFrame.

(** * What leaves the connections alone *)

Definition conns (l : lan_t) := (l.(tcp_client), l.(tcp_client2), l.(max_tcp_i), l.(tcp_connections)).
Abbreviation same_conns := (same conns).
#[local] Instance conns_untouched : Untouched conns.
Proof. by split. Qed.

Lemma keep_frame_to_net s f : preserves same_conns (frame_to_net s f).
Proof. unfold frame_to_net. preserve. Qed.
#[local] Hint Resolve keep_frame_to_net : preserves.

Section Calls.
Context (deflate inflate : list Z -> Z -> Z * list Z) (writable : string -> bool) (junk : nat -> Z) (sb : Z).

Lemma keep_copy : preserves same_conns copy_cs2_config.
Proof. unfold copy_cs2_config. preserve. Qed.
#[local] Hint Resolve keep_copy : preserves.
Lemma keep_check_udp p : preserves same_conns (check_data_udp sb p).
Proof. unfold check_data_udp. preserve. Qed.
Lemma keep_serve s c f : preserves same_conns (serve deflate s c f).
Proof. unfold serve. preserve. Qed.
#[local] Hint Resolve keep_serve : preserves.
Lemma keep_request s c w : preserves same_conns (config_request deflate s c w).
Proof. unfold config_request, serve_page. preserve. Qed.
#[local] Hint Resolve keep_check_udp keep_request : preserves.
Lemma keep_check s p : preserves same_conns (check_data deflate inflate writable junk s p).
Proof. unfold check_data. preserve. Qed.
#[local] Hint Resolve keep_check : preserves.

Lemma keep_strcat s t : preserves same_conns (strcat_ascii s t).
Proof. unfold strcat_ascii. preserve. Qed.
#[local] Hint Resolve keep_strcat : preserves.
Lemma keep_loco_list s l : preserves same_conns (set_loco_list s l).
Proof. revert s. induction l as [| x l IH]; intros s; cbn [set_loco_list]; preserve. Qed.
Lemma keep_loco_icon s n l : preserves same_conns (set_loco_icon s n l).
Proof. unfold set_loco_icon. preserve. Qed.
#[local] Hint Resolve keep_loco_list keep_loco_icon : preserves.
Lemma keep_ascii s n : preserves same_conns (decode_ascii_frame s n).
Proof. unfold decode_ascii_frame. preserve. Qed.
Lemma keep_for_clients body bad : (forall s, preserves same_conns (body s)) ->
  preserves same_conns (for_clients body bad).
Proof. intros H. unfold for_clients. preserve. Qed.
#[local] Hint Resolve keep_ascii keep_for_clients : preserves.
Lemma keep_read_into b : preserves same_conns (read_into b).
Proof. unfold read_into. preserve. Qed.
#[local] Hint Resolve keep_read_into : preserves.
Lemma keep_idle : preserves same_conns idle.
Proof.
  unfold idle. preserve. apply keep_for_clients. intros s. preserve.
Qed.
Lemma keep_clients ps f : preserves same_conns (frame_to_clients ps f).
Proof. revert f. induction ps as [| p ps IH]; intros f; cbn [frame_to_clients]; preserve. Qed.
#[local] Hint Resolve keep_idle keep_clients : preserves.
Lemma keep_can f : preserves same_conns (can_received deflate sb f).
Proof. unfold can_received, emit_change_broadcast. preserve. Qed.
Lemma keep_udp b : preserves same_conns (udp_received sb b).
Proof. unfold udp_received. preserve. apply keep_for_clients. intros s. preserve. Qed.
Lemma keep_packets n s j m : preserves same_conns (tcp_packets deflate inflate writable junk sb n s j m).
Proof.
  revert j. induction n as [| n IH]; intros j; cbn [tcp_packets]; preserve.
Qed.
#[local] Hint Resolve keep_can keep_udp keep_packets : preserves.
End Calls.

(** * The table of connections *)

Definition busy (t : gmap Z Z) (i : Z) : bool :=
  match t !! i with Some s => 0 <=? s | None => false end.
Definition used (t : gmap Z Z) : Z := Z.of_nat (length (List.filter (busy t) (seqZ 0 MAX_TCP_CONN))).

(** The table a port has. *)
Definition table (second : bool) (l : lan_t) : gmap Z Z :=
  if second then l.(tcp_client2) else l.(tcp_client).

Record conns_ok (l : lan_t) : Prop := {
  co_table : forall second, is_array MAX_TCP_CONN (table second l);
  co_count : l.(tcp_connections) = used l.(tcp_client) + used l.(tcp_client2);
  co_limit : l.(tcp_connections) <= MAX_TCP_CONN;
  co_max : -1 <= l.(max_tcp_i) < MAX_TCP_CONN;
  co_above : forall second i, busy (table second l) i = true -> i <= l.(max_tcp_i);
}.

Lemma used_range t : 0 <= used t <= MAX_TCP_CONN.
Proof.
  unfold used. split; [lia |]. change MAX_TCP_CONN with (Z.of_nat (length (seqZ 0 MAX_TCP_CONN))) at 2.
  apply inj_le, List.filter_length_le.
Qed.

Lemma filter_same (f g : Z -> bool) (l : list Z) : (forall j, j ∈ l -> g j = f j) ->
  List.filter g l = List.filter f l.
Proof.
  intros H. induction l as [| x l IH]; [done |]. cbn. rewrite (H x) by left.
  rewrite IH; [done |]. intros j Hj. apply H. by right.
Qed.
Lemma filter_more (f g : Z -> bool) (l : list Z) i : NoDup l -> i ∈ l -> f i = false -> g i = true ->
  (forall j, j <> i -> g j = f j) -> length (List.filter g l) = S (length (List.filter f l)).
Proof.
  intros Hl Hi Hf Hg H. induction Hl as [| x l Hx Hl IH]; [by apply elem_of_nil in Hi |]. cbn.
  apply elem_of_cons in Hi as [<- | Hi].
  - rewrite Hf, Hg. cbn. f_equal. f_equal. apply filter_same. intros j Hj. apply H. by intros ->.
  - rewrite (H x) by (by intros ->). destruct (f x); cbn; by rewrite IH.
Qed.

Lemma busy_insert t i s j : busy (<[i := s]> t) j = if j =? i then 0 <=? s else busy t j.
Proof.
  unfold busy. destruct (Z.eqb_spec j i) as [-> | Hne]; [by rewrite lookup_insert_eq |].
  by rewrite lookup_insert_ne.
Qed.
Lemma used_insert t i s : 0 <= i < MAX_TCP_CONN -> busy t i = false -> 0 <= s ->
  used (<[i := s]> t) = used t + 1.
Proof.
  intros Hi Hb Hs. unfold used.
  rewrite (filter_more (busy t) (busy (<[i := s]> t)) _ i); [lia | apply NoDup_seqZ | by apply elem_of_seqZ | done | |].
  - rewrite busy_insert, Z.eqb_refl. by apply Z.leb_le.
  - intros j Hj. rewrite busy_insert. by apply Z.eqb_neq in Hj as ->.
Qed.
Lemma used_delete t i : 0 <= i < MAX_TCP_CONN -> busy t i = true -> used (<[i := -1]> t) = used t - 1.
Proof.
  intros Hi Hb. unfold used.
  rewrite (filter_more (busy (<[i := -1]> t)) (busy t) _ i); [lia | apply NoDup_seqZ | by apply elem_of_seqZ | | done |].
  - by rewrite busy_insert, Z.eqb_refl.
  - intros j Hj. rewrite busy_insert. by apply Z.eqb_neq in Hj as ->.
Qed.

(** A table with room has a free place; [free_slot] finds the first. *)
Lemma free_slot_spec n t i l : is_array MAX_TCP_CONN t -> 0 <= i -> i + Z.of_nat n = MAX_TCP_CONN ->
  exists k, free_slot n t i l = Some (k, l) /\ i <= k <= MAX_TCP_CONN /\
    (forall j, i <= j < k -> busy t j = true) /\ (k < MAX_TCP_CONN -> busy t k = false).
Proof.
  intros Ht. revert i. induction n as [| n IH]; intros i Hi Hn.
  - exists i. split; [done |]. split; [lia |]. split; lia.
  - destruct (is_array_lookup _ _ i Ht) as [s Hs]; [lia |]. cbn [free_slot].
    rewrite Hs. change (bind (need (Some s)) ?k l) with (k s l). cbv beta.
    assert (Hb : busy t i = (0 <=? s)) by (unfold busy; by rewrite Hs).
    destruct (Z.ltb_spec s 0) as [Hneg | Hpos].
    + exists i. split; [done |]. split; [lia |]. split; [lia |]. intros _. rewrite Hb. by apply Z.leb_gt.
    + destruct (IH (i + 1)) as (k & E & Hk & Ha & Hf); [lia.. |]. exists k.
      split; [done |]. split; [lia |]. split; [| done]. intros j Hj.
      destruct (decide (j = i)) as [-> |]; [rewrite Hb; by apply Z.leb_le | apply Ha; lia].
Qed.
Lemma all_busy t : (forall j, 0 <= j < MAX_TCP_CONN -> busy t j = true) -> used t = MAX_TCP_CONN.
Proof.
  intros H. unfold used. rewrite (filter_same (fun _ => true)).
  - rewrite List.forallb_filter_id by (by apply forallb_forall). by rewrite length_seqZ.
  - intros j Hj%elem_of_seqZ. apply H. lia.
Qed.
Lemma room t l : is_array MAX_TCP_CONN t -> used t < MAX_TCP_CONN ->
  exists k, free_slot (Z.to_nat MAX_TCP_CONN) t 0 l = Some (k, l) /\ 0 <= k < MAX_TCP_CONN /\ busy t k = false.
Proof.
  intros Ht Hu. destruct (free_slot_spec (Z.to_nat MAX_TCP_CONN) t 0 l Ht) as (k & E & Hk & Ha & Hf); [done | done |].
  exists k. split; [done |]. destruct (decide (k = MAX_TCP_CONN)) as [-> |].
  - rewrite all_busy in Hu; [lia |]. intros j Hj. apply Ha. lia.
  - split; [lia | apply Hf; lia].
Qed.

(** * The rounds *)

Definition keeps_ok (l l' : lan_t) : Prop := conns_ok l -> conns_ok l'.
#[local] Instance keeps_ok_preorder : PreOrder keeps_ok.
Proof. split; unfold keeps_ok; [by intros l | by intros a b c H1 H2 H; apply H2, H1]. Qed.

Lemma same_keeps l l' : same_conns l l' -> keeps_ok l l'.
Proof.
  intros E [A B C D F]. unfold same_conns, conns in E. injection E as E1 E2 E3 E4.
  split; rewrite ?E1, ?E2, ?E3, ?E4; try done.
  - intros []; [specialize (A true) | specialize (A false)]; cbn in *; by rewrite ?E1, ?E2.
  - intros [] i; [specialize (F true i) | specialize (F false i)]; cbn in *; by rewrite ?E1, ?E2.
Qed.
Lemma unchanged {A} (m : prog lan_t A) : preserves same_conns m -> preserves keeps_ok m.
Proof. intros H l a l' E. by apply same_keeps, (H l a). Qed.

(** A new connection: 64 are open and it is refused, or it gets a free place of
    its port's table. *)
Definition placed (second : bool) (fd : Z) (l l' : lan_t) : Prop :=
  exists k, 0 <= k < MAX_TCP_CONN /\ busy (table second l) k = false /\
    table second l' = <[k := fd]> (table second l) /\
    table (negb second) l' = table (negb second) l /\
    l'.(tcp_connections) = l.(tcp_connections) + 1 /\ l'.(max_tcp_i) = Z.max k l.(max_tcp_i).

Lemma accepted_spec second fd l : conns_ok l -> 0 <= fd ->
  exists l', accepted second fd l = Some (tt, l') /\
    if l.(tcp_connections) =? MAX_TCP_CONN
    then l' = l <| events ::= fun es => es ++ [Shut fd] |> else placed second fd l l'.
Proof.
  intros Hok Hfd. unfold accepted. replace (0 <=? fd) with true by zbool. cbn [guard]. rewrite bind_ret, bind_gets.
  destruct (Z.eqb_spec l.(tcp_connections) MAX_TCP_CONN) as [Hfull | Hroom]; [by eexists |].
  rewrite bind_modify, bind_gets. set (l1 := over _ _ l).
  assert (Ht : (if second then tcp_client2 l1 else tcp_client l1) = table second l) by done.
  assert (Hu : used (table second l) < MAX_TCP_CONN).
  { pose proof (co_count _ Hok). pose proof (co_limit _ Hok).
    pose proof (used_range l.(tcp_client)). pose proof (used_range l.(tcp_client2)).
    destruct second; cbn; lia. }
  destruct (room (table second l) l1 (co_table _ Hok second) Hu) as (k & E & Hk & Hb).
  destruct second; cbn [table] in *; rewrite (bind_some _ _ _ _ _ E), bind_modify.
  all: assert (Hp : forall t, put_slot k fd t = <[k := fd]> t)
    by (intros t; unfold put_slot; by replace (k <? MAX_TCP_CONN) with true by zbool).
  all: assert (Hc : u32 (l.(tcp_connections) + 1) = l.(tcp_connections) + 1)
    by (apply wrap_small; pose proof (co_limit _ Hok); pose proof (co_count _ Hok);
        pose proof (used_range l.(tcp_client)); pose proof (used_range l.(tcp_client2));
        unfold MAX_TCP_CONN in *; lia).
  all: eexists; split; [reflexivity |]; exists k; cbn -[put_slot]; rewrite ?Hp, ?Hc;
    split_and!; done || lia.
Qed.

Lemma placed_ok second fd l l' : conns_ok l -> l.(tcp_connections) <> MAX_TCP_CONN -> 0 <= fd ->
  placed second fd l l' -> conns_ok l'.
Proof.
  intros [A B C D F] Hn Hfd (k & Hk & Hb & E1 & E2 & E3 & E4).
  assert (Hu : used (table second l') = used (table second l) + 1) by (rewrite E1; by apply used_insert).
  assert (Hsum : used l'.(tcp_client) + used l'.(tcp_client2) = used l.(tcp_client) + used l.(tcp_client2) + 1)
    by (destruct second; cbn in *; rewrite E2; lia).
  split; [| rewrite E3; lia | rewrite E3; lia | rewrite E4; lia |].
  - intros s. destruct (decide (s = second)) as [-> |]; [rewrite E1; by apply is_array_insert |].
    replace s with (negb second) by (by destruct s, second). rewrite E2. apply A.
  - intros s i. rewrite E4. destruct (decide (s = second)) as [-> |].
    + rewrite E1, busy_insert. destruct (Z.eqb_spec i k); [lia |]. intros H. specialize (F _ _ H). lia.
    + replace s with (negb second) by (by destruct s, second). rewrite E2. intros H. specialize (F _ _ H). lia.
Qed.

Lemma accepted_keeps second fd : preserves keeps_ok (accepted second fd).
Proof.
  intros l a l' E Hok. destruct (Z.ltb_spec fd 0) as [Hneg | Hfd].
  { exfalso. revert E. unfold accepted. by replace (0 <=? fd) with false by zbool. }
  destruct (accepted_spec second fd l Hok Hfd) as (l1 & E1 & H). rewrite E1 in E. injection E as _ <-.
  destruct (Z.eqb_spec l.(tcp_connections) MAX_TCP_CONN).
  - by apply (same_keeps l); [subst l1 |].
  - by apply (placed_ok second fd l).
Qed.

Lemma closed_ok second i s l l' : table second l !! i = Some s -> 0 <= s ->
  closed second i s l = Some (tt, l') -> keeps_ok l l'.
Proof.
  intros Hi Hs E [A B C D F]. unfold closed, emit in E. rewrite !bind_modify in E. injection E as <-.
  assert (Hb : busy (table second l) i = true) by (unfold busy; rewrite Hi; by apply Z.leb_le).
  assert (Hr : 0 <= i < MAX_TCP_CONN) by (apply (A second); eauto).
  pose proof (used_delete _ _ Hr Hb) as Hu. pose proof (used_range (table second l)) as R.
  pose proof (used_range l.(tcp_client)). pose proof (used_range l.(tcp_client2)).
  assert (Hc : u32 (l.(tcp_connections) - 1) = l.(tcp_connections) - 1).
  { apply wrap_small. pose proof (used_range (<[i := -1]> (table second l))).
    unfold MAX_TCP_CONN in *. destruct second; cbn in *; lia. }
  destruct second; cbn in *; split; cbn; rewrite ?Hc; try lia.
  all: try (intros []; cbn;
    [apply (A true) || (apply is_array_insert; [apply (A true) | lia])
    | apply (A false) || (apply is_array_insert; [apply (A false) | lia])]).
  all: intros [] j; cbn; rewrite ?busy_insert; try (apply (F true)); try (apply (F false)).
  all: destruct (Z.eqb_spec j i); [intros H'; discriminate H' |]; (apply (F true) || apply (F false)).
Qed.

Section Rounds.
Context (deflate inflate : list Z -> Z -> Z * list Z) (writable : string -> bool) (junk : nat -> Z) (sb : Z).

Lemma read_into_table b second l a l' : read_into b l = Some (a, l') -> table second l' = table second l.
Proof.
  intros E. pose proof (keep_read_into b l a l' E) as H. unfold same_conns, conns in H.
  injection H as H1 H2 _ _. by destruct second.
Qed.

(** The end of a connection gives its place back. *)
Lemma received_ok (second : bool) i s r l l' (rest : Z -> prog lan_t unit) :
  table second l !! i = Some s -> 0 <= s -> (forall n, preserves keeps_ok (rest n)) ->
  (let bytes := r in
   do* read_into bytes in
   let n := Z.of_nat (length bytes) in
   if n =? 0 then closed second i s else rest n) l = Some (tt, l') -> keeps_ok l l'.
Proof.
  intros Hi Hs Hrest E. cbv zeta in E. unfold bind in E.
  destruct (read_into r l) as [[u l1] |] eqn:E1; [| done].
  transitivity l1; [exact (unchanged _ (keep_read_into r) l u l1 E1) |].
  destruct (_ =? 0); [| exact (Hrest _ _ _ _ E)].
  apply (closed_ok second i s); [| done | done]. by rewrite (read_into_table r second l u l1).
Qed.

Lemma tcp_received_ok i s r l l' : l.(tcp_client) !! i = Some s -> 0 <= s ->
  tcp_received deflate inflate writable junk sb i s r l = Some (tt, l') -> keeps_ok l l'.
Proof.
  intros Hi Hs. destruct r as [b |]; [| by intros [= <-]].
  apply (received_ok false i s b l l' (fun n =>
    if negb (n mod 13 =? 0) then ret tt
    else tcp_packets deflate inflate writable junk sb (length b) s 0 n)); [done | done |].
  intros n. apply unchanged. destruct (negb _); [apply preserves_ret, _ | apply keep_packets].
Qed.
Lemma tcp2_received_ok i s r l l' : l.(tcp_client2) !! i = Some s -> 0 <= s ->
  tcp2_received i s r l = Some (tt, l') -> keeps_ok l l'.
Proof.
  intros Hi Hs. destruct r as [b |].
  - apply (received_ok true i s b l l' (decode_ascii_frame s)); [done | done |].
    intros n. apply unchanged, keep_ascii.
  - intros E. exact (unchanged _ (keep_ascii s (-1)) l tt l' E).
Qed.

Lemma poll_keeps second places data n :
  preserves keeps_ok (poll_clients deflate inflate writable junk sb second places data n).
Proof.
  revert n. induction places as [| i places IH]; intros n l a l' E; [exact (preserves_ret keeps_ok n l a l' E) |].
  cbn [poll_clients] in E. rewrite bind_gets in E.
  replace ((if second then tcp_client2 else tcp_client) l) with (table second l) in E by (by destruct second).
  destruct (table second l !! i) as [s |] eqn:Hi; [| discriminate E]. cbn [need] in E. rewrite bind_ret in E.
  destruct (Z.ltb_spec s 0) as [| Hs]; [by apply IH in E |].
  destruct (ready_read s data) as [r |]; [| by apply IH in E]. unfold bind in E.
  destruct ((if second then tcp2_received i s r else _) l) as [[[] l1] |] eqn:E1; [| done].
  transitivity l1.
  - destruct second; [by apply (tcp2_received_ok i s r) | by apply (tcp_received_ok i s r)].
  - destruct (n - 1 <=? 0); [exact (preserves_ret keeps_ok (n - 1) l1 a l' E) | by apply IH in E].
Qed.

Lemma ready_keeps {A} (o : option A) f : (forall a, preserves keeps_ok (f a)) ->
  preserves keeps_ok (on_ready o f).
Proof. intros H. destruct o; [apply H | apply preserves_ret, _]. Qed.

#[local] Hint Resolve accepted_keeps poll_keeps : preserves.

Lemma turn_keeps r : preserves keeps_ok (turn deflate inflate writable junk sb r).
Proof.
  unfold turn. cbv zeta. destruct (_ =? 0); [apply unchanged, keep_idle |].
  apply preserves_bind; [exact _ | |]; [apply ready_keeps; intros; apply unchanged, keep_can | intros _].
  apply preserves_bind; [exact _ | |]; [apply ready_keeps; intros; apply unchanged, keep_udp | intros _].
  apply preserves_bind; [exact _ | |]; [apply ready_keeps; intros; apply accepted_keeps | intros _].
  destruct (_ && _); [apply preserves_ret, _ |].
  apply preserves_bind; [exact _ | |]; [apply ready_keeps; intros; apply accepted_keeps | intros _].
  destruct (_ && _); preserve.
Qed.

(** Rounds of the main loop. *)
Fixpoint rounds (rs : list ready_t) : prog lan_t unit :=
  match rs with
  | [] => ret tt
  | r :: rs => do* turn deflate inflate writable junk sb r in rounds rs
  end.

(** C11. The table of connections stays sound through any rounds of the main
    loop, whatever clients, CAN bus and UDP peers send and in whatever order:
    [tcp_connections] counts the places taken on both ports, never above 64,
    and no place above [max_tcp_i] is taken, so the loops over the clients miss
    nobody.  In such a state a new connection is never written outside its
    table: it is turned away when 64 are open and otherwise gets a free place
    of its port and nobody else's. *)
Theorem connections_counted rs l l' : conns_ok l -> rounds rs l = Some (tt, l') ->
  conns_ok l' /\
  forall second fd, 0 <= fd -> exists l'', accepted second fd l' = Some (tt, l'') /\
    if l'.(tcp_connections) =? MAX_TCP_CONN
    then l'' = l' <| events ::= fun es => es ++ [Shut fd] |> else placed second fd l' l''.
Proof.
  intros Hl E. assert (H : preserves keeps_ok (rounds rs)).
  { clear. induction rs as [| r rs IH]; cbn [rounds]; [apply preserves_ret, _ |].
    apply preserves_bind; [exact _ | apply turn_keeps | done]. }
  assert (Hl' : conns_ok l') by exact (H l tt l' E Hl). split; [done |].
  intros second fd Hfd. by apply accepted_spec.
Qed.
End Rounds.

(** * An example *)

Definition no_filter : filter_t := mk_filter 0 0 0.
Definition idle_copy : cs2_t :=
  mk_cs2 0 0 0 0 0 None 0 MAX_TRACK_PAGE CS2_STATE_INACTIVE false false 0 0 0 None None (Some 1).
(** The state [main] enters the loop with. *)
Definition start_lan (dir : string) (fs : gmap string (list Z)) : lan_t :=
  mk_lan (fun n => mk_timeval (Z.of_nat n) 0) 0 timeval0 (no_filter, no_filter) false false dir
    (<[1 := array MAX_TRACK_PAGE None]> {[0 := array MAX_TRACK_PAGE None]}) (Some 0) idle_copy
    (replicate (Z.to_nat MAXDG) 0) (array MAX_TCP_CONN (-1)) (array MAX_TCP_CONN (-1)) (-1) 0 0 [] fs [].

Lemma start_conns_ok dir fs : conns_ok (start_lan dir fs).
Proof.
  split; cbn; [| reflexivity | done | done |].
  - intros []; apply is_array_array.
  - intros second i H. exfalso. revert H. unfold busy, table.
    destruct second; cbn; rewrite lookup_array; by destruct (decide _).
Qed.

(** A client connects to each port and the first one goes away again. *)
Definition example_rounds : list ready_t :=
  [mk_ready None None (Some 7) None []; mk_ready None None None (Some 8) [];
   mk_ready None None None None [(7, Bytes [])]].
Definition no_deflate (input : list Z) (size : Z) : Z * list Z := (Z_STREAM_ERROR, []).

Lemma connections_counted_witness :
  exists l', rounds no_deflate no_deflate (fun _ => true) (fun _ => 0) 3 example_rounds (start_lan "" ∅) =
      Some (tt, l') /\ conns_ok l' /\
    forall second fd, 0 <= fd -> exists l'', accepted second fd l' = Some (tt, l'') /\
      if l'.(tcp_connections) =? MAX_TCP_CONN
      then l'' = l' <| events ::= fun es => es ++ [Shut fd] |> else placed second fd l' l''.
Proof.
  assert (H : is_Some (rounds no_deflate no_deflate (fun _ => true) (fun _ => 0) 3 example_rounds
    (start_lan "" ∅))).
  { destruct (rounds _ _ _ _ _ _ _) eqn:E; [eauto |]. vm_compute in E. discriminate E. }
  destruct H as [[[] l'] E]. exists l'. split; [exact E |].
  exact (connections_counted no_deflate no_deflate (fun _ => true) (fun _ => 0) 3 example_rounds
    (start_lan "" ∅) l' (start_conns_ok "" ∅) E).
Defined.
End LanConn.
