(* ===== verification/LanSpec.v ===== *)
(** What can2lan does with a CAN frame: the packet it becomes, the frame a packet
    becomes, and who gets the packet. *)

From S2P Require Import Prelude World Messages Text Lan LanServer LanBytes LanFrame LanConn.

Module LanSpec.
Import Lan LanServer LanBytes LanFrame LanConn.

(** * A frame and its packet *)

Definition frame_ok (f : can_frame) : Prop :=
  0 <= f.(can_id) < 2 ^ 32 /\ 0 <= f.(can_dlc) <= 8 /\ length f.(can_data) = 8%nat /\
  Forall is_byte f.(can_data).

(** An extended frame that is neither a remote request nor an error message. *)
Definition extended (f : can_frame) : Prop :=
  frame_ok f /\ f.(can_id) = Z.lor (Z.land f.(can_id) CAN_EFF_MASK) CAN_EFF_FLAG.

(** The bytes past the length are no data. *)
Definition data_only (f : can_frame) : list Z :=
  take (Z.to_nat f.(can_dlc)) f.(can_data) ++ replicate (8 - Z.to_nat f.(can_dlc)) 0.
Definition bare (f : can_frame) : can_frame := f <| can_id ::= fun i => Z.land i CAN_EFF_MASK |>.
Definition packet_of (f : can_frame) : list Z :=
  to_be32 (Z.land f.(can_id) CAN_EFF_MASK) ++ [f.(can_dlc)] ++ data_only f.

(** A packet both ends agree about: 29 bits of identifier, zeros past the data. *)
Definition packet_ok (p : list Z) : Prop :=
  length p = 13%nat /\ Forall is_byte p /\ of_be (at_off 0 4 p) < 2 ^ 29 /\ nth 4 p 0 <= 8 /\
  drop (5 + Z.to_nat (nth 4 p 0)) p = replicate (8 - Z.to_nat (nth 4 p 0)) 0.

Definition held (l : lan_t) (f : can_frame) : bool := filtered l.(filter).1 f || filtered l.(filter).2 f.

(** The pause before a frame: what is left of the gap since the last one. *)
Definition pause (l : lan_t) (p : list Z) : list event :=
  let usec := usec_between l.(last_sent) (l.(l_clock) l.(l_tick)) in
  let gap := wait_usec (packet_frame p) in
  if usec <? gap then [Sleep ((gap - usec) * 1000)] else [].

Lemma length_data_only f : frame_ok f -> length (data_only f) = 8%nat.
Proof.
  intros (_ & Hd & Hl & _). unfold data_only. rewrite length_app, length_take, length_replicate. lia.
Qed.
Lemma length_packet f : frame_ok f -> length (packet_of f) = 13%nat.
Proof. intros H. unfold packet_of. rewrite !length_app, length_data_only by done. done. Qed.

Lemma frame_to_net_run s f l : frame_ok f ->
  frame_to_net s f l =
    if held l f then Some (f, l)
    else Some (bare f, l <| netframe ::= blit 0 (packet_of f) |>
                         <| events ::= fun es => es ++ [To_net s (packet_of f)] |>).
Proof.
  intros (Hi & Hd & Hl & _). unfold frame_to_net, held. rewrite bind_gets.
  destruct (filtered l.(filter).1 f); [done |]. destruct (filtered l.(filter).2 f); [done |]. cbn [orb].
  change (can_dlc (over _ _ f)) with f.(can_dlc). change (can_data (over _ _ f)) with f.(can_data).
  change (can_id (over _ _ f)) with (Z.land f.(can_id) CAN_EFF_MASK).
  replace (f.(can_dlc) <=? 8) with true by zbool. cbn [guard]. rewrite bind_ret.
  assert (E : blit 5 (take (Z.to_nat f.(can_dlc)) f.(can_data))
      (to_be32 (Z.land f.(can_id) CAN_EFF_MASK) ++ [f.(can_dlc)] ++ replicate 8 0) = packet_of f).
  { unfold blit, packet_of, data_only. rewrite length_take, Hl. cbn [take app to_be32 drop].
    rewrite Nat.min_l by lia. change (5 + ?n)%nat with (S (S (S (S (S n))))). cbn [drop].
    by rewrite drop_replicate. }
  rewrite E. reflexivity.
Qed.

Lemma frame_to_can_run p l : exists l', frame_to_can p l = Some (0, l') /\
  l'.(events) = l.(events) ++ pause l p ++ [To_can (packet_frame p)].
Proof.
  unfold frame_to_can, gettimeofday, pause. cbv zeta. unfold bind at 1. rewrite bind_gets.
  cbn [last_sent over]. change (last_sent (over _ _ l)) with l.(last_sent).
  destruct (_ <? _); eexists; (split; [reflexivity |]); cbn; [by rewrite <- app_assoc | done].
Qed.

(** * There and back *)

Lemma eff_mask z : Z.land z CAN_EFF_MASK = z mod 2 ^ 29.
Proof. apply (Z.land_ones z 29). lia. Qed.
Lemma eff_mask_lor v : 0 <= v < 2 ^ 29 -> Z.land (Z.lor v CAN_EFF_FLAG) CAN_EFF_MASK = v.
Proof.
  intros H. rewrite Z.land_lor_distr_l, eff_mask. change (Z.land CAN_EFF_FLAG CAN_EFF_MASK) with 0.
  rewrite Z.lor_0_r. by apply Z.mod_small.
Qed.

Lemma packet_frame_of f : frame_ok f -> packet_frame (packet_of f) =
  mk_frame (Z.lor (Z.land f.(can_id) CAN_EFF_MASK) CAN_EFF_FLAG) f.(can_dlc) (data_only f).
Proof.
  intros H. unfold packet_frame, packet_of.
  rewrite at_off_app_l by done. rewrite (at_off_all _ 4) by done.
  set (v := Z.land _ _). change (nth 4 _ 0) with f.(can_dlc).
  change (at_off 5 8 _) with (take 8 (data_only f)).
  rewrite take_ge by (rewrite length_data_only; done). subst v.
  rewrite of_to_be32, <- Z.land_assoc, Z.land_diag; [done |].
  rewrite eff_mask. pose proof (Z.mod_pos_bound f.(can_id) (2 ^ 29)). lia.
Qed.

Lemma packet_13 p : length p = 13%nat -> Forall is_byte p ->
  exists a b c d n data, p = [a; b; c; d; n] ++ data /\ length data = 8%nat /\
    is_byte a /\ is_byte b /\ is_byte c /\ is_byte d /\ is_byte n /\ Forall is_byte data.
Proof.
  intros Hl H. destruct p as [| a [| b [| c [| d [| n data]]]]]; try discriminate Hl.
  repeat (apply Forall_cons in H as [? H]). exists a, b, c, d, n, data. split_and!; try done. cbn in Hl. lia.
Qed.
Lemma packet_frame_ok p : packet_ok p -> frame_ok (packet_frame p) /\ packet_of (packet_frame p) = p.
Proof.
  intros (Hl & Hb & Hid & Hn & Hz).
  destruct (packet_13 p Hl Hb) as (a & b & c & d & n & data & -> & Hd & ? & ? & ? & ? & Hbn & Hbd).
  rewrite at_off_app_l in Hid by (cbn; lia). change (at_off 0 4 [a; b; c; d; n]) with [a; b; c; d] in Hid.
  pose proof (of_be32_range a b c d) as R. set (v := of_be [a; b; c; d]) in *.
  cbn [app nth] in Hn, Hz. unfold packet_frame. cbn [app nth].
  change (at_off 0 4 (a :: b :: c :: d :: n :: data)) with [a; b; c; d]. fold v.
  change (at_off 5 8 (a :: b :: c :: d :: n :: data)) with (take 8 data).
  rewrite take_ge by lia. rewrite (eff_mask v), Z.mod_small by (split; [apply R |]; done).
  unfold is_byte in Hbn. assert (0 <= v < 2 ^ 29) as Hv by (split; [apply R |]; done). split.
  - clearbody v. unfold frame_ok. cbn [can_id can_dlc can_data].
    change CAN_EFF_FLAG with (2 ^ 31). rewrite lor_high by lia. split_and!; done || lia.
  - unfold packet_of, data_only. cbn [can_id can_dlc can_data]. rewrite eff_mask_lor by done.
    unfold v. rewrite to_of_be32 by done.
    change (drop (5 + Z.to_nat n) (a :: b :: c :: d :: n :: data)) with (drop (Z.to_nat n) data) in Hz.
    rewrite <- Hz, take_drop. done.
Qed.

(** C25. Frames cross the network unchanged.  An extended frame that no filter
    holds back leaves as one packet of 13 bytes, and another gateway that gets
    the packet puts, after the pause the bus needs, the same frame on its bus,
    with zeros past its data.  The other way round a well-formed packet becomes
    a frame that leaves the next gateway as the same packet. *)
Theorem frames_cross_network :
  (forall f s la lb, extended f -> held la f = false -> exists la' lb' p,
    frame_to_net s f la = Some (bare f, la') /\ la'.(events) = la.(events) ++ [To_net s p] /\
    length p = 13%nat /\ frame_to_can p lb = Some (0, lb') /\
    lb'.(events) = lb.(events) ++ pause lb p ++ [To_can (f <| can_data := data_only f |>)]) /\
  (forall p la s lb, packet_ok p -> exists f la',
    frame_to_can p la = Some (0, la') /\ la'.(events) = la.(events) ++ pause la p ++ [To_can f] /\
    (held lb f = false -> exists lb', frame_to_net s f lb = Some (bare f, lb') /\
      lb'.(events) = lb.(events) ++ [To_net s p])).
Proof.
  split.
  - intros f s la lb [Hf Hi] Hh. destruct (frame_to_can_run (packet_of f) lb) as (lb' & E & Ev).
    eexists _, lb', (packet_of f). rewrite frame_to_net_run, Hh by done.
    split_and!; [reflexivity | done | by apply length_packet | exact E |].
    rewrite Ev, packet_frame_of, <- Hi by done. by destruct f.
  - intros p la s lb Hp. destruct (frame_to_can_run p la) as (la' & E & Ev).
    destruct (packet_frame_ok p Hp) as [Hf Ep].
    exists (packet_frame p), la'. split_and!; [exact E | exact Ev |]. intros Hh.
    rewrite frame_to_net_run, Hh by done. eexists. split; [reflexivity |]. by rewrite Ep.
Qed.

Definition example_packet : list Z := [0x00; 0x16; 0x03; 0x01; 6; 0; 0; 0x40; 1; 1; 1; 0; 0].
Definition example_frame : can_frame := mk_frame 0x80160301 6 [0; 0; 0x40; 1; 1; 1; 7; 7].
Lemma example_frame_extended : extended example_frame.
Proof. split; [split_and!; [done.. | vm_compute; done | done | repeat constructor; done] | done]. Qed.
Lemma example_packet_ok : packet_ok example_packet.
Proof. split_and!; [done | repeat constructor; done | done..]. Qed.

Lemma frames_cross_network_witness :
  (exists p lb', frame_to_can p (start_lan "" ∅) = Some (0, lb') /\
    lb'.(events) = pause (start_lan "" ∅) p ++ [To_can (mk_frame 0x80160301 6 [0; 0; 0x40; 1; 1; 1; 0; 0])]) /\
  exists f lb', held (start_lan "" ∅) f = false /\ frame_to_net 4 f (start_lan "" ∅) = Some (bare f, lb') /\
    lb'.(events) = [To_net 4 example_packet].
Proof.
  destruct frames_cross_network as [A B]. split.
  - destruct (A example_frame 4 (start_lan "" ∅) (start_lan "" ∅) example_frame_extended eq_refl)
      as (la' & lb' & p & _ & _ & _ & E & Ev).
    exists p, lb'. split; [exact E | exact Ev].
  - destruct (B example_packet (start_lan "" ∅) 4 (start_lan "" ∅) example_packet_ok) as (f & la' & E & Ev & H).
    destruct (H eq_refl) as (lb' & En & Evn). exists f, lb'. split_and!; [done | exact En | exact Evn].
Defined.

(** * Who gets a frame *)

(** The clients that are connected, in the order of their places. *)
Definition client_at (t : gmap Z Z) (i : Z) : option Z :=
  match t !! i with Some s => if s <? 0 then None else Some s | None => None end.
Definition connected (l : lan_t) : list Z := omap (client_at l.(tcp_client)) (range 0 l.(max_tcp_i)).

Definition send_all (p : list Z) (ss : list Z) : list event := map (fun s => To_net s p) ss.

Lemma bare_ok f : frame_ok f -> frame_ok (bare f).
Proof.
  intros (Hi & H). split; [| done]. cbn. rewrite eff_mask.
  pose proof (Z.mod_pos_bound f.(can_id) (2 ^ 29)). lia.
Qed.
Lemma bare_bare f : bare (bare f) = bare f.
Proof. destruct f. unfold bare. cbn. by rewrite <- Z.land_assoc, Z.land_diag. Qed.
Lemma packet_of_bare f : packet_of (bare f) = packet_of f.
Proof. unfold packet_of, bare. cbn. by rewrite <- Z.land_assoc, Z.land_diag. Qed.

Lemma frame_to_clients_run f l places : frame_ok f ->
  (forall i, i ∈ places -> is_Some (l.(tcp_client) !! i)) -> bare f = f \/ held l f = true ->
  exists l', frame_to_clients places f l = Some (tt, l') /\ conns l' = conns l /\ l'.(filter) = l.(filter) /\
    l'.(events) = l.(events) ++ (if held l f then [] else
      send_all (packet_of f) (omap (client_at l.(tcp_client)) places)).
Proof.
  intros Hf. revert l. induction places as [| i places IH]; intros l Hp Hb.
  { exists l. cbn. destruct (held l f); by rewrite app_nil_r. }
  destruct (Hp i) as [s Hs]; [by left |]. cbn [frame_to_clients]. rewrite bind_gets, Hs.
  change (bind (need (Some s)) ?k l) with (k s l). cbv beta.
  assert (Hp' : forall j, j ∈ places -> is_Some (l.(tcp_client) !! j)) by (intros j Hj; apply Hp; by right).
  cbn [omap list_omap]. unfold client_at at 1. rewrite Hs. destruct (s <? 0); [by apply IH |].
  unfold bind at 1. rewrite frame_to_net_run by done. destruct (held l f) eqn:Hh.
  - destruct (IH l Hp' (or_intror Hh)) as (l' & E & H). rewrite Hh in H. by exists l'.
  - destruct Hb as [Hb | ]; [| done]. rewrite Hb.
    set (l1 := over _ _ (over _ _ l)).
    destruct (IH l1 Hp') as (l' & E & Hc & Hfl & Ev); [by left |].
    exists l'. split_and!; [exact E | done | done |]. rewrite Ev.
    change (held l1 f) with (held l f). rewrite Hh. cbn. by rewrite <- app_assoc.
Qed.

(** The frame that tells of a changed configuration. *)
Definition is_change (f : can_frame) : bool :=
  (Z.land f.(can_id) 0x1FFFF00 =? 0x0434700) && (f.(can_dlc) =? 8).

(** The filters see the frame as it came for the broadcast, without its flags
    for the clients. *)
Definition sent_out (sb : Z) (f : can_frame) (l : lan_t) : list event :=
  if (Z.land f.(can_id) CAN_EFF_FLAG =? 0) || held l f then []
  else To_net sb (packet_of f) :: if held l (bare f) then [] else send_all (packet_of f) (connected l).

(** C20. Where a CAN frame goes that is not the one that tells of a changed
    configuration.  A standard frame is ignored.  An extended frame that a filter
    holds back goes to nobody.  Any other extended frame is broadcast once over
    UDP and then sent once to each connected client in the order of their places,
    all with the same 13 bytes; but the broadcast takes the flag off the frame,
    and a filter that holds the frame back without its flag (the flag is in its
    mask and not in its identifier) then stops what goes to the clients, and the
    broadcast has gone out.  No connection changes. *)
Theorem can_frame_to_all deflate sb f l : conns_ok l -> frame_ok f -> is_change f = false ->
  exists l', can_received deflate sb f l = Some (tt, l') /\ conns l' = conns l /\
    l'.(events) = l.(events) ++ sent_out sb f l.
Proof.
  intros Hl Hf Hc. unfold can_received, sent_out.
  destruct (Z.land f.(can_id) CAN_EFF_FLAG =? 0); cbn [negb orb]; [exists l; by rewrite app_nil_r |].
  rewrite bind_gets. unfold is_change in Hc. rewrite Hc. unfold bind. rewrite frame_to_net_run by done.
  assert (Hp : forall i, i ∈ range 0 l.(max_tcp_i) -> is_Some (l.(tcp_client) !! i)).
  { intros i Hi%elem_of_range. apply (co_table _ Hl false). pose proof (co_max _ Hl). lia. }
  destruct (held l f) eqn:Hh.
  - destruct (frame_to_clients_run f l _ Hf Hp) as (l' & E & Hcs & _ & Ev); [by right |].
    rewrite Hh in Ev. by exists l'.
  - set (l1 := over _ _ (over _ _ l)).
    destruct (frame_to_clients_run (bare f) l1 (range 0 l.(max_tcp_i)) (bare_ok f Hf)) as (l' & E & Hcs & _ & Ev);
      [exact Hp | left; apply bare_bare |].
    exists l'. split_and!; [exact E | by rewrite Hcs |]. rewrite Ev, packet_of_bare.
    change (held l1 (bare f)) with (held l (bare f)). subst l1. cbn. by rewrite <- app_assoc.
Qed.

(** Two clients, on places 0 and 2. *)
Definition example_clients : lan_t :=
  (start_lan "" ∅) <| tcp_client := <[2 := 9]> (<[0 := 7]> (array MAX_TCP_CONN (-1))) |> <| max_tcp_i := 2 |>
    <| tcp_connections := 2 |>.
Lemma example_clients_ok : conns_ok example_clients.
Proof.
  split; [| vm_compute; reflexivity | done | done |].
  - intros []; cbn; auto with machine.
    repeat apply is_array_insert; [apply is_array_array | done..].
  - intros second i. unfold busy, table. destruct second; cbn; [rewrite lookup_array; by destruct (decide _) |].
    destruct (decide (i <= 2)) as [|]; [done |]. rewrite !lookup_insert_ne, lookup_array by lia.
    by destruct (decide _).
Qed.

Lemma can_frame_to_all_witness : exists l',
  can_received no_deflate 4 example_frame example_clients = Some (tt, l') /\
  l'.(events) = [To_net 4 example_packet; To_net 7 example_packet; To_net 9 example_packet].
Proof.
  destruct (can_frame_to_all no_deflate 4 example_frame example_clients example_clients_ok
    (proj1 example_frame_extended) eq_refl) as (l' & E & _ & Ev).
  exists l'. split; [exact E |]. rewrite Ev. vm_compute. reflexivity.
Defined.
End LanSpec.
