(* ===== verification/LanTransfer.v ===== *)
(** The transfer of a configuration file between can2lan and a client: the
    packets a file is sent in, and the file the packets are put together to. *)

From S2P Require Import Prelude World Messages Text Lan LanServer LanBytes LanFrame LanConn.

Module LanTransfer.
Import Lan LanServer LanBytes LanFrame LanConn.

(** * Sending *)

Definition said (es : list event) (l : lan_t) : lan_t := l <| events ::= fun e => e ++ es |>.
Lemma said_said a b l : said b (said a l) = said (a ++ b) l.
Proof. destruct l. unfold said. cbn. by rewrite app_assoc. Qed.

(** The [k]th packet of a stream, and those from the [k]th up to the [m]th. *)
Definition packet_n (canid_be out : list Z) (k : nat) : list Z := canid_be ++ [8] ++ at_off (8 * k) 8 out.
Definition packets (canid_be out : list Z) (k m : nat) : list (list Z) :=
  map (packet_n canid_be out) (seq k (m - k)).

Lemma packets_split canid_be out k m n : (k <= m <= n)%nat ->
  packets canid_be out k n = packets canid_be out k m ++ packets canid_be out m n.
Proof.
  intros H. unfold packets. replace (n - k)%nat with ((m - k) + (n - m))%nat by lia.
  rewrite seq_app, map_app. by replace (k + (m - k))%nat with m by lia.
Qed.
Lemma packets_cons canid_be out k m : (k < m)%nat ->
  packets canid_be out k m = packet_n canid_be out k :: packets canid_be out (S k) m.
Proof. intros H. unfold packets. by replace (m - k)%nat with (S (m - S k)) by lia. Qed.
Lemma packets_nil canid_be out k : packets canid_be out k k = [].
Proof. unfold packets. by rewrite Nat.sub_diag. Qed.

Lemma fill_packets_run fuel canid_be out k n c : (k < n)%nat -> 0 <= c < 10 ->
  exists m, (k < m <= n)%nat /\ Z.of_nat (m - k) <= 10 - c /\
    fill_packets fuel canid_be out (Z.of_nat (8 * k)) (Z.of_nat (8 * n)) c =
      (concat (packets canid_be out k m), Z.of_nat (8 * m)).
Proof.
  revert k c. induction fuel as [| fuel IH]; intros k c Hk Hc; cbn [fill_packets]; rewrite Nat2Z.id.
  all: replace (Z.of_nat (8 * k) + 8) with (Z.of_nat (8 * S k)) by lia.
  - exists (S k). rewrite packets_cons, packets_nil by lia. cbn [concat]. rewrite app_nil_r. split_and!; done || lia.
  - destruct ((Z.of_nat (8 * S k) <? Z.of_nat (8 * n)) && (c + 1 <? MAX_PACKETS)) eqn:E.
    + unfold MAX_PACKETS in E. bool_hyps. destruct (IH (S k) (c + 1)) as (m & Hm & Hc' & Ef); [lia.. |].
      rewrite Ef. exists m. rewrite (packets_cons _ _ k m) by lia. split_and!; [lia.. | done].
    + exists (S k). rewrite packets_cons, packets_nil by lia. cbn [concat]. rewrite app_nil_r. split_and!; done || lia.
Qed.

(** A segment is one to ten whole packets. *)
Definition is_segment (seg : list Z) : Prop := (0 < length seg <= 130)%nat /\ (length seg mod 13 = 0)%nat.

Lemma length_packet_n canid_be out k n : length canid_be = 4%nat -> length out = (8 * n)%nat -> (k < n)%nat ->
  length (packet_n canid_be out k) = 13%nat.
Proof.
  intros Hc Ho Hk. unfold packet_n. rewrite !length_app, length_at_off by lia. cbn. lia.
Qed.
Lemma length_packets canid_be out k m n : length canid_be = 4%nat -> length out = (8 * n)%nat -> (m <= n)%nat ->
  Forall (fun p => length p = 13%nat) (packets canid_be out k m).
Proof.
  intros Hc Ho Hm. apply Forall_map, Forall_forall. intros j Hj%elem_of_seq.
  apply (length_packet_n _ _ _ n); [done | done | lia].
Qed.
Lemma length_concat_13 (ps : list (list Z)) : Forall (fun p => length p = 13%nat) ps ->
  length (concat ps) = (13 * length ps)%nat.
Proof. induction 1 as [| p ps Hp _ IH]; [done |]. cbn [concat]. rewrite length_app, Hp, IH. cbn. lia. Qed.

Definition sends (s : Z) (segs : list (list Z)) : list event :=
  concat (map (fun seg => [To_net s seg; Sleep (1000 * 1000)]) segs).

Lemma send_stream_run fuel s canid_be out k n l :
  length canid_be = 4%nat -> length out = (8 * n)%nat -> (k < n <= k + fuel)%nat ->
  exists segs, send_stream fuel s canid_be out (Z.of_nat (8 * k)) (Z.of_nat (8 * n)) l =
      Some (tt, said (sends s segs) l) /\
    concat segs = concat (packets canid_be out k n) /\ Forall is_segment segs.
Proof.
  intros Hc Ho. revert k l. induction fuel as [| fuel IH]; intros k l Hk; [lia |]. cbn [send_stream].
  destruct (fill_packets_run (Z.to_nat MAX_PACKETS) canid_be out k n 0) as (m & Hm & Hlen & Ef); [lia.. |].
  rewrite Ef. unfold net_to_net. rewrite bind_assoc. unfold emit. rewrite !bind_modify, bind_ret, bind_modify.
  change (over _ _ (over _ _ l)) with (said [Sleep (1000 * 1000)] (said [To_net s (concat (packets canid_be out k m))] l)).
  rewrite said_said. cbn [app]. assert (Hseg : is_segment (concat (packets canid_be out k m))).
  { unfold is_segment. rewrite length_concat_13 by (apply (length_packets _ _ _ _ n); done || lia).
    unfold packets. rewrite length_map, length_seq. split; [lia |]. rewrite Nat.mul_comm. apply Nat.Div0.mod_mul. }
  destruct (Z.ltb_spec (Z.of_nat (8 * m)) (Z.of_nat (8 * n))).
  - match goal with |- context [said ?es l] => destruct (IH m (said es l)) as (segs & E & Ec & Hs); [lia |] end.
    exists (concat (packets canid_be out k m) :: segs). rewrite E, said_said. split; [done |].
    split; [| by constructor]. cbn [concat]. rewrite Ec, <- concat_app. f_equal. symmetry. apply packets_split. lia.
  - exists [concat (packets canid_be out k m)]. split; [done |]. cbn [concat]. rewrite app_nil_r.
    replace m with n by lia. split; [done |]. constructor; [| done]. by replace n with m by lia.
Qed.

(** The library: what [deflate] finished [inflate] undoes, whatever follows in
    the buffer; the output keeps to the room it has, and is longer than its
    header of two bytes and its checksum of four. *)
Record zlib_ok (deflate inflate : list Z -> Z -> Z * list Z) : Prop := {
  deflate_room c room st z : 0 <= room -> deflate c room = (st, z) -> Z.of_nat (length z) <= room;
  deflate_header c room z : deflate c room = (Z_STREAM_END, z) -> (6 <= length z)%nat;
  inflate_deflate c room z tail : deflate c room = (Z_STREAM_END, z) -> exists st, st <> Z_STREAM_ERROR /\
    inflate (z ++ tail) (Z.of_nat (length c)) = (st, c);
}.

(** The length of a stream, in packets. *)
Definition count (size : Z) : nat := Z.to_nat ((size + 7) / 8).
Lemma padded_count size : 0 <= size -> padded size = Z.of_nat (8 * count size).
Proof.
  intros H. unfold padded, count. rewrite Nat2Z.inj_mul, Z2Nat.id by (apply Z.div_pos; lia).
  destruct (Z.eqb_spec (size mod 8) 0); Z.to_euclidean_division_equations; lia.
Qed.
Lemma count_bounds size : 0 <= size -> size <= Z.of_nat (8 * count size) < size + 8.
Proof.
  intros H. rewrite <- padded_count by done. unfold padded.
  destruct (Z.eqb_spec (size mod 8) 0); Z.to_euclidean_division_equations; lia.
Qed.

Lemma length_stream_of nbytes z : length (stream_of nbytes z) = (8 * count (Z.of_nat (length z) + 4))%nat.
Proof.
  unfold stream_of. set (size := Z.of_nat (length z) + 4). pose proof (count_bounds size).
  rewrite !length_app, length_replicate, padded_count by lia. cbn [to_be32 length]. lia.
Qed.

(** The identifier of a stream the control centre's clients take. *)
Definition DATA_ID : Z := 0x00420300.
Definition data_packets (out : list Z) : list (list Z) := packets (to_be32 DATA_ID) out 0 (length out / 8).

Lemma send_config_run deflate s filename config canid z l :
  Z.lor (Z.land canid 0xFFFEFFFF) 0x00020000 = DATA_ID -> 0 <= s ->
  Z.of_nat (String.length (l.(config_dir) +:+ filename)) < MAXLINE ->
  l.(files) !! (l.(config_dir) +:+ filename) = Some config ->
  deflate config CHUNK = (Z_STREAM_END, z) ->
  let out := stream_of (Z.of_nat (length config)) z in
  exists segs, send_tcp_config_data deflate filename canid [s] (Z.lor CRC COMPRESSED) 0 l =
      Some (0, said (To_net s (announce_packet (to_be32 DATA_ID) (Z.of_nat (length z) + 4)
        (CRCCCITT out 0xffff) (Z.lor CRC COMPRESSED) 0) :: sends s segs) l) /\
    concat segs = concat (data_packets out) /\ Forall is_segment segs.
Proof.
  intros Hid Hs Hlen Hf Hz out. unfold send_tcp_config_data, read_config_file, path.
  rewrite bind_assoc, bind_gets. replace (_ <? MAXLINE) with true by zbool. cbn [guard].
  rewrite bind_assoc, bind_assoc, bind_ret, bind_ret, bind_gets. rewrite Hf.
  change (negb (Z.land (Z.lor CRC COMPRESSED) COMPRESSED =? 0)) with true. cbv iota. rewrite Hz. cbn [Z_STREAM_END Z.eqb Pos.eqb negb]. cbv zeta.
  rewrite Hid. fold out. cbn [for_each]. replace (s <? 0) with false by zbool.
  unfold net_to_net, emit. rewrite !bind_assoc, bind_modify, !bind_ret.
  rewrite padded_count by lia.
  destruct (send_stream_run (length out) s (to_be32 DATA_ID) out 0 (count (Z.of_nat (length z) + 4))
    (said [To_net s (announce_packet (to_be32 DATA_ID) (Z.of_nat (length z) + 4) (CRCCCITT out 0xffff)
       (Z.lor CRC COMPRESSED) 0)] l)) as (segs & E & Ec & Hseg); [done | by apply length_stream_of | |].
  { unfold out. rewrite length_stream_of. pose proof (count_bounds (Z.of_nat (length z) + 4)). lia. }
  exists segs. split; [| split; [| done]].
  - rewrite said_said in E. exact (bind_some _ _ _ _ _ E).
  - rewrite Ec. unfold data_packets. replace (length out / 8)%nat with (count (Z.of_nat (length z) + 4)); [done |].
    unfold out. by rewrite length_stream_of, Nat.mul_comm, Nat.div_mul.
Qed.

(** * Receiving *)

(** The state without the transfer's own data and the packet buffer. *)
Definition no_transfer (c : cs2_t) : cs2_t :=
  c <| deflated_stream_size := 0 |> <| deflated_size := 0 |> <| deflated_size_counter := 0 |>
    <| inflated_size := 0 |> <| crc := 0 |> <| start := false |> <| stream := false |> <| ddi := 0 |>
    <| deflated_data := None |> <| inflated_data := None |>.
Definition rest (l : lan_t) : lan_t := l <| cs2 ::= no_transfer |> <| netframe := [] |>.

#[local] Instance netframe_untouched : Untouched netframe.
Proof. by split. Qed.

Section Receive.
Context (deflate inflate : list Z -> Z -> Z * list Z) (writable : string -> bool) (junk : nat -> Z) (sb : Z).
Local Abbreviation reassemble := (reassemble_data inflate writable junk).

Lemma realloc_run old n l : 0 <= n -> (n = 0 -> old = None) ->
  exists b, realloc junk old n l = Some (b, l) /\ length b = Z.to_nat n.
Proof.
  intros Hn H0. unfold realloc. replace (n <? 0) with false by zbool. cbn [orb].
  destruct (Z.eqb_spec n 0) as [E |]; [rewrite H0 by done |]; cbn [andb bool_decide].
  all: eexists; split; [reflexivity |]; by rewrite length_map, length_seq.
Qed.

(** The stream of a file, and the state after [k] of its packets. *)
Context (nbytes size : Z) (out : list Z) (r : lan_t).

Definition fresh (l : lan_t) : Prop :=
  rest l = rest r /\ l.(cs2).(inflated_data) = r.(cs2).(inflated_data).

Record announced (l : lan_t) : Prop := {
  an_rest : rest l = rest r;
  an_start : l.(cs2).(start) = true;
  an_size : l.(cs2).(deflated_size) = size;
  an_counter : l.(cs2).(deflated_size_counter) = size;
  an_room : exists b, l.(cs2).(deflated_data) = Some b /\ Z.of_nat (length b) = size + 16;
  an_inflated : l.(cs2).(inflated_data) = r.(cs2).(inflated_data);
}.

Record receiving (k : nat) (l : lan_t) : Prop := {
  re_rest : rest l = rest r;
  re_start : l.(cs2).(start) = false;
  re_stream : l.(cs2).(stream) = true;
  re_size : l.(cs2).(deflated_size) = size;
  re_counter : l.(cs2).(deflated_size_counter) = size - Z.of_nat (8 * k);
  re_index : l.(cs2).(ddi) = Z.of_nat (8 * k);
  re_data : exists b, l.(cs2).(deflated_data) = Some b /\ Z.of_nat (length b) = size + 16 /\
    take (8 * k) b = take (8 * k) out;
  re_inflated : l.(cs2).(inflated_size) = nbytes /\
    exists b, l.(cs2).(inflated_data) = Some b /\ Z.of_nat (length b) = nbytes;
}.

Context (Hsize : 8 < size < 2 ^ 31 - 16) (Hnbytes : 0 <= nbytes < 2 ^ 31).
Context (Hout : length out = (8 * count size)%nat) (Hhead : take 4 out = to_be32 nbytes).
Context (Hempty : nbytes = 0 -> r.(cs2).(inflated_data) = None).

Lemma announcement_run crc l0 : fresh l0 -> exists l,
  reassemble (announce_packet (to_be32 DATA_ID) size crc (Z.lor CRC COMPRESSED) 0) l0 = Some (tt, l) /\ announced l.
Proof.
  intros [Hr Hi].
  unfold reassemble_data. change (head_is _ GETCONFIG_RESPONSE || _) with true. cbv iota.
  unfold announcement. change (at_off 5 4 _) with (to_be32 size).
  rewrite of_to_be32 by lia. rewrite swrap_small by lia.
  unfold mod_cs2, get_cs2. rewrite bind_modify. replace (size + 16 <? 2 ^ 31) with true by zbool. cbn [guard].
  rewrite bind_ret, bind_gets.
  match goal with |- context [realloc junk ?old (size + 16)] =>
    match goal with |- context [bind _ _ ?l1] => destruct (realloc_run old (size + 16) l1) as (b & E & Hb); [lia.. |] end end.
  rewrite (bind_some _ _ _ _ _ E). eexists. split; [reflexivity |]. split; cbn; try done.
  exists b. split; [done |]. lia.
Qed.

Local Abbreviation packet := (packet_n (to_be32 DATA_ID) out).

Lemma packet_head k : head_is (packet k) GETCONFIG_RESPONSE || head_is (packet k) GETCONFIG_RESPONSE_II = false /\
  head_is (packet k) GETCONFIG_DATA = true.
Proof. done. Qed.
Lemma packet_data k : (k < count size)%nat -> at_off 5 8 (packet k) = at_off (8 * k) 8 out.
Proof.
  intros Hk. change (at_off 5 8 (packet k)) with (take 8 (at_off (8 * k) 8 out)).
  apply take_ge. rewrite length_at_off; lia.
Qed.
Lemma first_size : at_off 5 4 (packet 0) = to_be32 nbytes.
Proof.
  change (at_off 5 4 (packet 0)) with (take 4 (take 8 out)). by rewrite take_take.
Qed.
Lemma packet_run k l : reassemble (packet k) l =
  if l.(cs2).(start) then first_data junk (packet k) l
  else if l.(cs2).(stream) then more_data inflate writable (packet k) l else Some (tt, l).
Proof.
  unfold reassemble_data. destruct (packet_head k) as [-> ->]. rewrite bind_gets.
  by destruct l.(cs2).(start), l.(cs2).(stream).
Qed.

Lemma store_run i data b l : l.(cs2).(deflated_data) = Some b -> i + 8 <= Z.of_nat (length b) ->
  store i data l = Some (tt, l <| cs2 ::= fun c => c <| deflated_data := Some (blit (Z.to_nat i) data b) |> |>).
Proof.
  intros Hb Hi. unfold store, get_cs2. rewrite bind_gets, Hb. cbn [need]. rewrite bind_ret.
  by replace (i + 8 <=? _) with true by zbool.
Qed.

Lemma take_data k b : (8 * k <= length b)%nat -> (8 * k + 8 <= length out)%nat ->
  take (8 * k) b = take (8 * k) out ->
  take (8 * S k) (blit (8 * k) (at_off (8 * k) 8 out) b) = take (8 * S k) out.
Proof.
  intros Hb Ho E. replace (8 * S k)%nat with (8 * k + length (at_off (8 * k) 8 out))%nat
    by (rewrite length_at_off; lia).
  rewrite take_blit_end by lia. rewrite E, length_at_off by lia.
  unfold at_off. by rewrite take_take_drop.
Qed.

Lemma first_run l : announced l -> exists l', reassemble (packet 0) l = Some (tt, l') /\ receiving 1 l'.
Proof.
  intros [Hr Hst Hsz Hct (b & Hb & Hlb) Hi]. rewrite packet_run, Hst. unfold first_data.
  rewrite first_size, of_to_be32, swrap_small by lia. unfold get_cs2, mod_cs2. rewrite bind_gets.
  destruct (realloc_run l.(cs2).(inflated_data) nbytes l) as (ib & E & Hib); [lia | by rewrite Hi |].
  rewrite (bind_some _ _ _ _ _ E), bind_modify. pose proof (count_bounds size) as Hc.
  match goal with |- context [bind (store 0 _) _ ?l1] =>
    rewrite (bind_some _ _ _ _ _ (store_run 0 (at_off 5 8 (packet 0)) b l1 Hb ltac:(lia))) end.
  eexists. split; [reflexivity |]. rewrite packet_data by lia. split; cbn -[Nat.mul at_off blit]; try done.
  - rewrite Hct. apply swrap_small; lia.
  - eexists. split; [reflexivity |]. rewrite length_blit by (rewrite length_at_off; lia). split; [done |].
    apply (take_data 0); [lia.. | done].
  - split; [done |]. exists ib. split; [done |]. lia.
Qed.

(** A packet written behind those before. *)
Definition stored (k : nat) (b : list Z) (c : cs2_t) : cs2_t :=
  c <| deflated_data := Some (blit (8 * k) (at_off (8 * k) 8 out) b) |> <| ddi := Z.of_nat (8 * S k) |>.

Lemma more_run k l : (k < count size)%nat -> receiving k l -> exists b,
  l.(cs2).(deflated_data) = Some b /\ Z.of_nat (length b) = size + 16 /\ take (8 * k) b = take (8 * k) out /\
  more_data inflate writable (packet k) l =
    (if size - Z.of_nat (8 * k) <=? 8 then
       do* mod_cs2 (fun c => c <| stream := false |> <| deflated_stream_size := i32 c.(ddi) |>) in
       do* config_write inflate writable in
       file_complete
     else mod_cs2 (fun c => c <| deflated_size_counter ::= fun n => n - 8 |>))
    (l <| cs2 ::= stored k b |>).
Proof.
  intros Hk [Hr Hs1 Hs2 Hsz Hct Hdd (b & Hb & Hlb & Ht) _]. exists b. split_and!; try done.
  unfold more_data. rewrite bind_gets, Hdd, packet_data, Hct by done. pose proof (count_bounds size).
  rewrite (bind_some _ _ _ _ _ (store_run (Z.of_nat (8 * k)) (at_off (8 * k) 8 out) b l Hb ltac:(lia))).
  unfold mod_cs2 at 1. rewrite bind_modify, Nat2Z.id.
  replace (over _ _ (over _ _ l)) with (l <| cs2 ::= stored k b |>); [done |].
  destruct l as [????????? c ?????????]. destruct c. unfold stored. cbn in Hdd |- *.
  rewrite Hdd. rewrite wrap_small by lia. repeat f_equal. lia.
Qed.

Lemma next_run k l : (0 < k)%nat -> (S k < count size)%nat -> receiving k l ->
  exists l', reassemble (packet k) l = Some (tt, l') /\ receiving (S k) l'.
Proof.
  intros H0 Hk H. destruct (more_run k l) as (b & Hb & Hlb & Ht & E); [lia | done |].
  destruct H as [Hr Hs1 Hs2 Hsz Hct Hdd _ Hi]. rewrite packet_run, Hs1, Hs2, E.
  pose proof (count_bounds size). replace (_ <=? 8) with false by zbool.
  eexists. split; [reflexivity |]. split; cbn -[Nat.mul at_off blit]; try done; [lia |].
  eexists. split; [reflexivity |]. rewrite length_blit by (rewrite length_at_off; lia). split; [done |].
  apply take_data; lia || done.
Qed.

Context (config z : list Z) (fname : string).
Context (Hname : r.(cs2).(name) = Some fname).
Context (Hpath : Z.of_nat (String.length (r.(config_dir) +:+ fname)) < MAXLINE).
Context (Hwritable : writable (r.(config_dir) +:+ fname) = true).
Context (Hz : size = Z.of_nat (length z) + 4) (Hcfg : nbytes = Z.of_nat (length config)).
Context (Hstream : take (4 + length z) out = to_be32 nbytes ++ z).
Context (Hinflate : forall tail, exists st, st <> Z_STREAM_ERROR /\ inflate (z ++ tail) nbytes = (st, config)).

(** The file in its place, nothing else changed, and ready for another one. *)
Definition written (l : lan_t) : Prop :=
  rest l = rest (r <| files ::= <[r.(config_dir) +:+ fname := config]> |>) /\
  l.(cs2).(inflated_data) = None /\ Z.of_nat (length l.(netframe)) = MAXDG.

Lemma data_read b : Z.of_nat (length b) = size + 16 -> take (8 * count size) b = out ->
  exists tail, at_off 4 (Z.to_nat size) b = z ++ tail.
Proof.
  intros Hlb Hb. pose proof (count_bounds size). exists (at_off (4 + length z) 4 b).
  assert (E : take (4 + length z) b = to_be32 nbytes ++ z).
  { rewrite <- Hstream, <- Hb, take_take. f_equal. lia. }
  assert (Ed : drop 4 b = z ++ drop (4 + length z) b).
  { rewrite <- (take_drop (4 + length z) b), E at 1. done. }
  unfold at_off. rewrite Ed, take_app_ge by lia. do 2 f_equal. lia.
Qed.

Lemma last_run k l : (0 < k)%nat -> S k = count size -> receiving k l -> Z.of_nat (length l.(netframe)) = MAXDG ->
  exists l1, reassemble (packet k) l = file_complete l1 /\ written l1.
Proof.
  intros H0 Hk H Hnet. destruct (more_run k l) as (b & Hb & Hlb & Ht & E); [lia | done |].
  destruct H as [Hr Hs1 Hs2 Hsz Hct Hdd _ (His & ib & Hib & Hlib)]. rewrite packet_run, Hs1, Hs2, E.
  pose proof (count_bounds size). replace (_ <=? 8) with true by zbool.
  unfold mod_cs2. rewrite bind_modify. set (l2 := over _ _ _).
  assert (Hn : l2.(cs2).(name) = Some fname) by (rewrite <- Hname; exact (f_equal (fun l => l.(cs2).(name)) Hr)).
  assert (Hd : l2.(config_dir) = r.(config_dir)) by exact (f_equal config_dir Hr).
  destruct (data_read (blit (8 * k) (at_off (8 * k) 8 out) b)) as [tail Etail].
  { rewrite length_blit; [done |]. rewrite length_at_off; lia. }
  { rewrite <- Hk, take_data by (lia || done). apply take_ge. lia. }
  destruct (Hinflate tail) as (st & Hst & Einf).
  assert (Ew : exists l1, config_write inflate writable l2 = Some (1, l1) /\ written l1).
  { unfold config_write. rewrite bind_gets, Hn, bind_gets. unfold path at 1. rewrite Hd.
    replace (_ <? MAXLINE) with true by zbool. cbn [guard]. rewrite bind_assoc, !bind_ret.
    rewrite Hwritable. cbn [negb]. unfold inflate_data. rewrite bind_assoc, bind_gets.
    change (deflated_data (cs2 l2)) with (Some (blit (8 * k) (at_off (8 * k) 8 out) b)).
    change (inflated_data (cs2 l2)) with (inflated_data (cs2 l)). rewrite Hib. cbn [need].
    change (deflated_size (cs2 l2)) with (deflated_size (cs2 l)).
    change (inflated_size (cs2 l2)) with (inflated_size (cs2 l)). rewrite Hsz, His.
    rewrite bind_assoc, bind_ret, bind_assoc, bind_ret. rewrite Etail, Einf.
    replace (st =? Z_STREAM_ERROR) with false by (symmetry; by apply Z.eqb_neq).
    rewrite blit_all by lia. unfold mod_cs2, get_cs2. rewrite bind_modify, bind_gets.
    cbn [inflated_data cs2 over]. eexists. split; [reflexivity |].
    unfold written. rewrite Hcfg, Nat2Z.id, firstn_all. split; [| done].
    transitivity ((rest l) <| files ::= <[r.(config_dir) +:+ fname := config]> |>); [reflexivity |].
    by rewrite Hr. }
  destruct Ew as (l1 & Ew & Hw). exists l1. split; [| done]. by rewrite (bind_some _ _ _ _ _ Ew).
Qed.

(** ** The packets one after the other *)

Context (checksum : Z).
Local Abbreviation announcement_packet :=
  (announce_packet (to_be32 DATA_ID) size checksum (Z.lor CRC COMPRESSED) 0).
Local Abbreviation data k := (packets (to_be32 DATA_ID) out k (count size)).

(** The packets that are to come, and a state that waits for them. *)
Inductive waiting : list (list Z) -> lan_t -> Prop :=
| waiting_all l : fresh l -> waiting (announcement_packet :: data 0) l
| waiting_first l : announced l -> waiting (data 0) l
| waiting_more k l : (0 < k < count size)%nat -> receiving k l -> waiting (data k) l.

Lemma count_2 : (2 <= count size)%nat.
Proof. pose proof (count_bounds size). lia. Qed.

Lemma waiting_step p ps l : waiting (p :: ps) l -> Z.of_nat (length l.(netframe)) = MAXDG ->
  if decide (ps = []) then exists l1, reassemble p l = file_complete l1 /\ written l1
  else exists l', reassemble p l = Some (tt, l') /\ waiting ps l'.
Proof.
  pose proof count_2 as H2. intros H Hnet. inversion H as [l0 Hf E | l0 Ha E | k l0 Hk Hr E]; subst.
  - rewrite decide_False by (rewrite packets_cons by lia; done).
    destruct (announcement_run checksum l Hf) as (l' & E' & Ha). exists l'. split; [exact E' | by constructor].
  - rewrite packets_cons in E by lia. injection E as <- <-.
    rewrite decide_False by (rewrite packets_cons by lia; done).
    destruct (first_run l Ha) as (l' & E' & Hr). exists l'. split; [exact E' |]. constructor; [lia | exact Hr].
  - rewrite packets_cons in E by lia. injection E as <- <-.
    destruct (decide (S k = count size)) as [Ek | Hne].
    + rewrite Ek, packets_nil. rewrite decide_True by done. apply (last_run k); [lia | done..].
    + rewrite decide_False by (rewrite packets_cons by lia; done).
      destruct (next_run k l) as (l' & E' & Hr'); [lia.. | done |]. exists l'. split; [exact E' |].
      constructor; [lia | exact Hr'].
Qed.

Lemma waiting_run ps1 ps2 l : waiting (ps1 ++ ps2) l -> ps1 <> [] -> Z.of_nat (length l.(netframe)) = MAXDG ->
  if decide (ps2 = []) then exists l1, for_each ps1 reassemble l = file_complete l1 /\ written l1
  else exists l', for_each ps1 reassemble l = Some (tt, l') /\ waiting ps2 l'.
Proof.
  revert l. induction ps1 as [| p ps1 IH]; intros l Hw Hne Hnet; [done |]. cbn [app for_each] in *.
  apply waiting_step in Hw; [| done]. destruct ps1 as [| p' ps1].
  - cbn [app] in Hw. destruct (decide (ps2 = [])).
    + destruct Hw as (l1 & E & H1). exists l1. split; [| exact H1]. unfold bind. cbn [for_each]. rewrite E.
      by destruct (file_complete l1) as [[[] ?] |].
    + destruct Hw as (l' & E & H1). exists l'. split; [| exact H1]. by rewrite (bind_some _ _ _ _ _ E).
  - rewrite decide_False in Hw by done. destruct Hw as (l' & E & H1).
    rewrite (bind_some _ _ _ _ _ E). apply IH; [done.. |].
    by rewrite (keep_reassemble netframe inflate writable junk p l tt l' E).
Qed.

Lemma waiting_buffer ps l f : waiting ps l -> waiting ps (l <| netframe ::= f |>).
Proof.
  intros [l0 [? ?] | l0 [] | k l0 Hk []]; constructor; try done; by split.
Qed.
End Receive.

(** * Segments

    TCP may cut the packets anew, as long as each read gives whole packets. *)

Definition stream_packet (p : list Z) : Prop :=
  length p = 13%nat /\ class_of p = 0x00420000 /\ nth 4 p 0 <> 7 /\ Z.land (canid_of p) 0x0000fcff = 0.
Definition whole (seg : list Z) : Prop :=
  seg <> [] /\ (length seg mod 13 = 0)%nat /\ Z.of_nat (length seg) <= MAXDG.

Section Segments.
Context (deflate inflate : list Z -> Z -> Z * list Z) (writable : string -> bool) (junk : nat -> Z) (sb : Z).
Local Abbreviation reassemble := (reassemble_data inflate writable junk).

Lemma check_stream_packet s p l : stream_packet p ->
  check_data deflate inflate writable junk s p l = (do* reassemble p in ret (1, p)) l.
Proof.
  intros (_ & Hc & Hn & Hm). unfold check_data. rewrite Hc.
  replace (nth 4 p 0 =? 7) with false by (symmetry; by apply Z.eqb_neq). rewrite bind_ret, Hm. reflexivity.
Qed.

Lemma tcp_packets_stream s ps fuel j l : Forall stream_packet ps -> (length ps <= fuel)%nat ->
  at_off j (13 * length ps) l.(netframe) = concat ps -> (j + 13 * length ps <= length l.(netframe))%nat ->
  tcp_packets deflate inflate writable junk sb fuel s (Z.of_nat j) (Z.of_nat (j + 13 * length ps)) l =
    for_each ps reassemble l.
Proof.
  revert fuel j l. induction ps as [| p ps IH]; intros fuel j l Hps Hfuel Hat Hlen.
  { destruct fuel; cbn [tcp_packets]; by replace (_ <? _) with false by (symmetry; apply Z.ltb_ge; cbn; lia). }
  cbn [length] in *. destruct fuel as [| fuel]; [lia |]. apply Forall_cons in Hps as [Hp Hps].
  cbn [tcp_packets for_each]. replace (_ <? _) with true by zbool. rewrite bind_gets, Nat2Z.id.
  assert (Hlp : length p = 13%nat) by apply Hp.
  assert (H1 : at_off j 13 l.(netframe) = p).
  { transitivity (take 13 (at_off j (13 * S (length ps)) l.(netframe))).
    - unfold at_off. rewrite take_take. f_equal. lia.
    - rewrite Hat. cbn [concat]. by rewrite take_app_length'. }
  assert (H2 : at_off (j + 13) (13 * length ps) l.(netframe) = concat ps).
  { transitivity (drop 13 (at_off j (13 * S (length ps)) l.(netframe))).
    - unfold at_off. rewrite <- drop_drop, skipn_firstn_comm. f_equal. lia.
    - rewrite Hat. cbn [concat]. by rewrite drop_app_length'. }
  rewrite H1, bind_run, check_stream_packet, !(bind_run (reassemble p)) by done.
  destruct (reassemble p l) as [[[] l1] |] eqn:E; [| reflexivity]. unfold ret at 1. rewrite bind_modify.
  assert (Hn : l1.(netframe) = l.(netframe)) by exact (keep_reassemble netframe inflate writable junk p l tt l1 E).
  replace (l1 <| netframe ::= blit j p |>) with l1.
  - change (1 =? 0) with false. cbv iota. rewrite bind_ret.
    replace (Z.of_nat j + CAN_ENCAP_SIZE) with (Z.of_nat (j + 13)) by (unfold CAN_ENCAP_SIZE; lia).
    replace (j + 13 * S (length ps))%nat with (j + 13 + 13 * length ps)%nat by lia.
    apply IH; rewrite ?Hn; [done | lia | done | lia].
  - rewrite <- Hn in H1. destruct l1. cbn in *. f_equal. rewrite <- H1. symmetry. apply blit_same.
Qed.

Lemma tcp_received_stream i s ps l : Forall stream_packet ps -> ps <> [] ->
  Z.of_nat (13 * length ps) <= MAXDG -> Z.of_nat (length l.(netframe)) = MAXDG ->
  tcp_received deflate inflate writable junk sb i s (Bytes (concat ps)) l =
    for_each ps reassemble (l <| netframe ::= blit 0 (concat ps) |>).
Proof.
  intros Hps Hne Hm Hl. assert (Hc : length (concat ps) = (13 * length ps)%nat).
  { apply length_concat_13. eapply Forall_impl; [exact Hps |]. by intros p []. }
  unfold tcp_received, read_into. rewrite Hc. replace (_ <=? MAXDG) with true by zbool. cbn [guard].
  rewrite bind_assoc, bind_ret, bind_modify. destruct ps as [| p ps]; [done |]. cbv zeta.
  replace (_ =? 0) with false by (symmetry; apply Z.eqb_neq; cbn [length]; lia).
  replace (_ mod 13 =? 0) with true by (symmetry; apply Z.eqb_eq; Z.to_euclidean_division_equations; lia).
  apply (tcp_packets_stream s (p :: ps) _ 0); [done | lia | |].
  - cbn [netframe over]. rewrite <- Hc. apply at_blit. lia.
  - change (length (netframe _)) with (length (blit 0 (concat (p :: ps)) l.(netframe))).
    rewrite length_blit; lia.
Qed.
End Segments.

Lemma data_stream_packets out k n m : length out = (8 * n)%nat -> (m <= n)%nat ->
  Forall stream_packet (packets (to_be32 DATA_ID) out k m).
Proof.
  intros Ho Hm. apply Forall_map, Forall_forall. intros j Hj%elem_of_seq.
  split; [by apply (length_packet_n _ _ _ n); [| | lia] | by split_and!].
Qed.
Lemma announcement_stream_packet size crc : stream_packet (announce_packet (to_be32 DATA_ID) size crc (Z.lor CRC COMPRESSED) 0).
Proof. by split_and!. Qed.

(** A segment is the first packets of those it was cut from. *)
Lemma cut_segment seg segs (ps : list (list Z)) : Forall (fun p => length p = 13%nat) ps -> whole seg ->
  concat (seg :: segs) = concat ps ->
  exists ps1 ps2, ps = ps1 ++ ps2 /\ ps1 <> [] /\ seg = concat ps1 /\ concat segs = concat ps2.
Proof.
  intros Hps (Hne & Hmod & _) E. cbn [concat] in E. set (m := (length seg / 13)%nat).
  assert (Hm : length seg = (13 * m)%nat) by (unfold m; pose proof (Nat.div_mod_eq (length seg) 13); lia).
  assert (Hle : (m <= length ps)%nat).
  { apply (f_equal length) in E. rewrite length_app, (length_concat_13 ps Hps) in E. lia. }
  exists (take m ps), (drop m ps). rewrite take_drop.
  assert (Hpos : (0 < length seg)%nat) by (destruct seg; [done | cbn; lia]).
  clearbody m. assert (H0 : (0 < m)%nat) by lia.
  rewrite <- (take_drop m ps), concat_app in E. apply app_inj_1 in E as [E1 E2].
  - split_and!; [done | | done..]. destruct m; [lia |]. by destruct ps.
  - rewrite length_concat_13, length_take by (by apply Forall_take). lia.
Qed.

Section Feed.
Context (deflate inflate : list Z -> Z -> Z * list Z) (writable : string -> bool) (junk : nat -> Z) (sb : Z).
Context (wait : list (list Z) -> lan_t -> Prop) (final : lan_t -> Prop).
Local Abbreviation reassemble := (reassemble_data inflate writable junk).

(** What is known of the packets one by one holds for the segments. *)
Lemma feed i s ps l segs :
  (forall ps1 ps2 l, wait (ps1 ++ ps2) l -> ps1 <> [] -> Z.of_nat (length l.(netframe)) = MAXDG ->
    if decide (ps2 = []) then exists l1, for_each ps1 reassemble l = file_complete l1 /\ final l1
    else exists l', for_each ps1 reassemble l = Some (tt, l') /\ wait ps2 l') ->
  (forall ps l f, wait ps l -> wait ps (l <| netframe ::= f |>)) ->
  wait ps l -> ps <> [] -> Forall stream_packet ps -> Z.of_nat (length l.(netframe)) = MAXDG ->
  Forall whole segs -> concat segs = concat ps -> exists l1,
    for_each segs (fun seg => tcp_received deflate inflate writable junk sb i s (Bytes seg)) l = file_complete l1 /\
    final l1.
Proof.
  intros Hrun Hbuf. revert ps l. induction segs as [| seg segs IH]; intros ps l Hw Hne Hps Hl Hsegs E.
  { exfalso. destruct ps as [| p ps]; [done |]. apply Forall_cons in Hps as [(Hp & _) _].
    cbn [concat] in E. by destruct p. }
  assert (H13 : Forall (fun p => length p = 13%nat) ps) by (eapply Forall_impl; [exact Hps |]; by intros p []).
  apply Forall_cons in Hsegs as [Hseg Hsegs].
  destruct (cut_segment seg segs ps H13 Hseg E) as (ps1 & ps2 & -> & Hne1 & -> & E2).
  apply Forall_app in Hps as [Hps1 Hps2]. apply Forall_app in H13 as [H1 _].
  destruct Hseg as (_ & _ & Hm). cbn [for_each]. rewrite bind_run, tcp_received_stream; [| done.. | | done].
  2: by rewrite <- length_concat_13. set (l0 := over _ _ l).
  assert (Hl0 : Z.of_nat (length l0.(netframe)) = MAXDG).
  { change (length l0.(netframe)) with (length (blit 0 (concat ps1) l.(netframe))). rewrite length_blit; lia. }
  pose proof (Hrun ps1 ps2 l0 (Hbuf _ _ _ Hw) Hne1 Hl0) as H. destruct (decide (ps2 = [])) as [-> | Hne2].
  - destruct H as (l1 & El & Hf). exists l1. rewrite El. split; [| done].
    assert (segs = []) as -> by (destruct segs as [| [] segs]; [done | by inversion Hsegs as [| ? ? []] |];
      by inversion Hsegs; cbn in E2).
    cbn [for_each]. by destruct (file_complete l1) as [[[] l2] |].
  - destruct H as (l' & El & Hw'). rewrite El. apply (IH ps2); try done.
    enough (l'.(netframe) = l0.(netframe)) as -> by done.
    apply (preserves_for_each (same netframe) ps1 reassemble (keep_reassemble netframe inflate writable junk) l0 tt l' El).
Qed.
End Feed.

(** The bytes sent to a socket. *)
Definition to_socket (s : Z) (es : list event) : list Z :=
  concat (map (fun e => match e with To_net s' b => if s' =? s then b else [] | _ => [] end) es).

Lemma to_socket_cons s b es : to_socket s (To_net s b :: es) = b ++ to_socket s es.
Proof. unfold to_socket. cbn. by rewrite Z.eqb_refl. Qed.
Lemma to_socket_sends s segs : to_socket s (sends s segs) = concat segs.
Proof.
  induction segs as [| seg segs IH]; [done |]. unfold sends in *. cbn [map concat app].
  rewrite to_socket_cons. unfold to_socket in *. cbn [map concat app]. by rewrite IH.
Qed.
Lemma stream_of_start nb z : take (4 + length z) (stream_of nb z) = to_be32 nb ++ z.
Proof. unfold stream_of. rewrite app_assoc. apply take_app_length'. by rewrite length_app. Qed.

(** The bytes of a file in any segments; [config_file_crosses] says what this is. *)
Lemma file_crosses deflate inflate writable junk sb filename fname canid s i s' config la r :
  zlib_ok deflate inflate ->
  Z.lor (Z.land canid 0xFFFEFFFF) 0x00020000 = DATA_ID -> 0 <= s ->
  Z.of_nat (String.length (la.(config_dir) +:+ filename)) < MAXLINE ->
  la.(files) !! (la.(config_dir) +:+ filename) = Some config ->
  (deflate config CHUNK).1 = Z_STREAM_END -> Z.of_nat (length config) < 2 ^ 31 ->
  r.(cs2).(name) = Some fname -> Z.of_nat (String.length (r.(config_dir) +:+ fname)) < MAXLINE ->
  writable (r.(config_dir) +:+ fname) = true -> Z.of_nat (length r.(netframe)) = MAXDG ->
  (config = [] -> r.(cs2).(inflated_data) = None) ->
  exists es la', send_tcp_config_data deflate filename canid [s] (Z.lor CRC COMPRESSED) 0 la = Some (0, la') /\
    la'.(events) = la.(events) ++ es /\
    forall segs, Forall whole segs -> concat segs = to_socket s es -> exists l1,
      for_each segs (fun seg => tcp_received deflate inflate writable junk sb i s' (Bytes seg)) r = file_complete l1 /\
      written r config fname l1.
Proof.
  intros Hzl Hid Hs Hpath Hfile Hend Hlen Hname Hrpath Hw Hnet Hempty.
  destruct (deflate config CHUNK) as [st z] eqn:Ez. cbn [fst] in Hend. subst st.
  pose proof (deflate_room _ _ Hzl config CHUNK _ z ltac:(done) Ez) as Hroom.
  pose proof (deflate_header _ _ Hzl _ _ _ Ez) as Hhead. unfold CHUNK in Hroom.
  set (size := Z.of_nat (length z) + 4). set (nb := Z.of_nat (length config)).
  destruct (send_config_run deflate s filename config canid z la Hid Hs Hpath Hfile Ez) as (segs & E & Ec & _).
  set (out := stream_of nb z) in *. set (crc := CRCCCITT out 0xffff) in *.
  assert (Hout : length out = (8 * count size)%nat) by apply length_stream_of.
  eexists _, _. split; [exact E |]. split; [done |]. intros segs' Hwhole Esegs.
  apply (feed deflate inflate writable junk sb
    (waiting nb size out r crc) (written r config fname) i s'
    (announce_packet (to_be32 DATA_ID) size crc (Z.lor CRC COMPRESSED) 0 ::
       packets (to_be32 DATA_ID) out 0 (count size))); try done.
  - assert (8 < size < 2 ^ 31 - 16) by (unfold size; lia).
    assert (Hhd : take 4 out = to_be32 nb) by done.
    assert (Hst : take (4 + length z) out = to_be32 nb ++ z) by apply stream_of_start.
    intros ps1 ps2 l. apply (waiting_run inflate writable junk nb size out r) with (z := z); try done; [lia | |].
    + intros H0. apply Hempty. destruct config; [done |]. cbn in nb. lia.
    + intros tail. by apply (inflate_deflate _ _ Hzl config CHUNK).
  - intros ps l f. apply waiting_buffer.
  - constructor. by split.
  - constructor; [apply announcement_stream_packet | by apply (data_stream_packets _ _ (count size))].
  - rewrite Esegs. cbn [concat]. rewrite to_socket_cons, to_socket_sends, Ec.
    change (stream_of _ z) with out. unfold data_packets. by rewrite Hout, Nat.mul_comm, Nat.div_mul.
Qed.

(** The segments of a file as can2lan sends it. *)
Definition sent_as (deflate : list Z -> Z -> Z * list Z) (segs : list (list Z)) (config : list Z) : Prop :=
  Forall whole segs /\ exists filename canid s la es la',
    Z.lor (Z.land canid 0xFFFEFFFF) 0x00020000 = DATA_ID /\ 0 <= s /\
    Z.of_nat (String.length (la.(config_dir) +:+ filename)) < MAXLINE /\
    la.(files) !! (la.(config_dir) +:+ filename) = Some config /\
    (deflate config CHUNK).1 = Z_STREAM_END /\ Z.of_nat (length config) < 2 ^ 31 /\
    send_tcp_config_data deflate filename canid [s] (Z.lor CRC COMPRESSED) 0 la = Some (0, la') /\
    la'.(events) = la.(events) ++ es /\ concat segs = to_socket s es.
Lemma segments_arrive deflate inflate writable junk sb fname i s' segs config r :
  zlib_ok deflate inflate -> sent_as deflate segs config -> r.(cs2).(name) = Some fname ->
  Z.of_nat (String.length (r.(config_dir) +:+ fname)) < MAXLINE ->
  writable (r.(config_dir) +:+ fname) = true -> Z.of_nat (length r.(netframe)) = MAXDG ->
  r.(cs2).(inflated_data) = None -> exists l1,
    for_each segs (fun seg => tcp_received deflate inflate writable junk sb i s' (Bytes seg)) r = file_complete l1 /\
    written r config fname l1.
Proof.
  intros Hz (Hw & f & c & s & la & es & la' & H1 & H2 & H3 & H4 & H5 & H6 & E & Ev & Ec) Hn Hp Hwr Hf Hi.
  destruct (file_crosses deflate inflate writable junk sb f fname c s i s' config la r) as (es' & la2 & E' & Ev' & H); [done.. |].
  rewrite E in E'. injection E' as <-. rewrite Ev in Ev'. apply app_inv_head in Ev' as <-. by apply H.
Qed.

(** C8. A configuration file crosses the network unchanged.  The bytes the
    sender of a file writes to its client in answer to a request whose identifier
    becomes that of the data ([DATA_ID], 0x00420300), read in any segments of
    whole packets, end with the file in the receiver's directory under the name it
    waits for, byte for byte, whatever state an earlier transfer left it in; only
    for an empty file no buffer may be left of a transfer that was broken off, for
    then realloc frees it, gives the null pointer, and the receiver ends.  The
    paths have to fit, the file has to be writable, and zlib has to keep its
    promises ([zlib_ok]).  Then,
    and only then, the receiver goes on as after a complete file.  Nothing but the
    file, the transfer's own data and the buffer of packets changes, and the
    receiver is ready for the next file. *)
Theorem config_file_crosses deflate inflate writable junk sb filename fname canid s i s' config la r :
  zlib_ok deflate inflate ->
  Z.lor (Z.land canid 0xFFFEFFFF) 0x00020000 = DATA_ID -> 0 <= s ->
  Z.of_nat (String.length (la.(config_dir) +:+ filename)) < MAXLINE ->
  la.(files) !! (la.(config_dir) +:+ filename) = Some config ->
  (deflate config CHUNK).1 = Z_STREAM_END -> Z.of_nat (length config) < 2 ^ 31 ->
  r.(cs2).(name) = Some fname -> Z.of_nat (String.length (r.(config_dir) +:+ fname)) < MAXLINE ->
  writable (r.(config_dir) +:+ fname) = true -> Z.of_nat (length r.(netframe)) = MAXDG ->
  (config = [] -> r.(cs2).(inflated_data) = None) ->
  exists es la', send_tcp_config_data deflate filename canid [s] (Z.lor CRC COMPRESSED) 0 la = Some (0, la') /\
    la'.(events) = la.(events) ++ es /\
    forall segs, Forall whole segs -> concat segs = to_socket s es -> exists l1,
      for_each segs (fun seg => tcp_received deflate inflate writable junk sb i s' (Bytes seg)) r = file_complete l1 /\
      written r config fname l1.
Proof. apply file_crosses. Qed.

(** A library that stores what it is given behind a header of 8 bytes. *)
Definition store_deflate (c : list Z) (room : Z) : Z * list Z :=
  if (Z.of_nat (length c) + 8 <=? room) && (Z.of_nat (length c) <? 2 ^ 32)
  then (Z_STREAM_END, to_be32 (Z.of_nat (length c)) ++ replicate 4 0 ++ c) else (0, []).
Definition store_inflate (input : list Z) (room : Z) : Z * list Z :=
  (Z_STREAM_END, take (Z.to_nat (of_be (at_off 0 4 input))) (drop 8 input)).

Lemma store_zlib_ok : zlib_ok store_deflate store_inflate.
Proof.
  split; unfold store_deflate.
  - intros c room st z Hr. destruct (_ && _) eqn:E; [| by intros [= <- <-]].
    bool_hyps. intros [= <- <-]. cbn. lia.
  - intros c room z. destruct (_ && _) eqn:E; [| done]. intros [= <-]. cbn. lia.
  - intros c room z tail. destruct (_ && _) eqn:E; [| done]. bool_hyps. intros [= <-].
    eexists. split; [| unfold store_inflate]; [| f_equal]; [done |].
    change (at_off 0 4 _) with (to_be32 (Z.of_nat (length c))). rewrite of_to_be32, Nat2Z.id by lia.
    change (drop 8 _) with (c ++ tail). by apply take_app_length.
Qed.

Definition example_config : list Z := str_bytes "[lokomotive]".
Definition example_sender : lan_t := start_lan "a/" {["a/lokomotive.cs2" := example_config]}.
Definition example_receiver : lan_t :=
  (start_lan "b/" ∅) <| cs2 ::= fun c => c <| name := Some "lokomotive.cs2" |> |>.

Lemma config_file_crosses_witness : exists es la',
  send_tcp_config_data store_deflate "lokomotive.cs2" 0x00410300 [7] (Z.lor CRC COMPRESSED) 0 example_sender =
    Some (0, la') /\ la'.(events) = es /\
  forall segs, Forall whole segs -> concat segs = to_socket 7 es -> exists l1,
    for_each segs (fun seg => tcp_received store_deflate store_inflate (fun _ => true) (fun _ => 0) 4 0 9 (Bytes seg))
      example_receiver = file_complete l1 /\
    written example_receiver example_config "lokomotive.cs2" l1.
Proof.
  apply (config_file_crosses store_deflate store_inflate (fun _ => true) (fun _ => 0) 4 "lokomotive.cs2"
    "lokomotive.cs2" 0x00410300 7 0 9 example_config example_sender example_receiver);
    [exact store_zlib_ok | done | done | vm_compute; done | vm_compute; done | vm_compute; done | vm_compute; done
    | done | vm_compute; done | done | vm_compute; done | done].
Defined.
End LanTransfer.
