(* ===== verification/LanCopy.v ===== *)
(** The copy of a control centre's configuration by can2lan: which files it asks
    for, in which order, and that it ends. *)

From S2P Require Import Prelude World Messages Text Lan LanServer LanBytes LanFrame LanConn LanTransfer.

Module LanCopy.
Import Lan LanServer LanBytes LanFrame LanConn LanTransfer.

(** * The pages a track file names *)

(** The entries the lines of a track file make, in order. *)
Fixpoint entries (id : Z) (page : bool) (ls : list string) : list (Z * string) :=
  match ls with
  | [] => []
  | line :: ls =>
      if String.prefix "seite" line then entries id true ls
      else if String.prefix " .id=" line then entries (i32 (strtoul0 (skip_chars 5 line))) page ls
      else if String.prefix " .name=" line then
        if page then (id, skip_chars 7 (rmcrlf line) +:+ ".cs2") :: entries id page ls else entries id page ls
      else entries id page ls
  end.
Definition entered (es : list (Z * string)) (t : gmap Z (option string)) : gmap Z (option string) :=
  fold_left (fun t e => <[e.1 := Some e.2]> t) es t.

Lemma entered_array es n t : is_array n t -> Forall (fun e => 0 <= e.1 < n) es -> is_array n (entered es t).
Proof.
  intros Ht H. revert t Ht. induction H as [| e es He _ IH]; intros t Ht; [done |].
  apply IH. by apply is_array_insert.
Qed.
Lemma entered_other es t i : Forall (fun e => e.1 <> i) es -> entered es t !! i = t !! i.
Proof.
  intros H. revert t. induction H as [| e es He _ IH]; intros t; [done |].
  cbn. change (entered es (<[e.1 := Some e.2]> t) !! i = t !! i). by rewrite IH, lookup_insert_ne.
Qed.
Lemma entered_same es t t' i : ~ Forall (fun e => e.1 <> i) es -> entered es t !! i = entered es t' !! i.
Proof.
  revert t t'. induction es as [| e es IH]; intros t t' H; [by destruct H |].
  cbn. change (entered es (<[e.1 := Some e.2]> t) !! i = entered es (<[e.1 := Some e.2]> t') !! i).
  destruct (decide (Forall (fun e => e.1 <> i) es)) as [Hf |]; [| by apply IH].
  destruct (decide (e.1 = i)) as [<- |]; [| destruct H; by constructor].
  by rewrite !entered_other, !lookup_insert_eq.
Qed.
(** The file read again changes nothing. *)
Lemma entered_twice es t : entered es (entered es t) = entered es t.
Proof.
  apply map_eq. intros i. destruct (decide (Forall (fun e => e.1 <> i) es)) as [H | H].
  - by apply entered_other.
  - by apply entered_same.
Qed.

Lemma read_track_lines_run t id page ls pages l :
  l.(page_tables) !! t = Some pages -> is_array MAX_TRACK_PAGE pages ->
  Forall (fun e => 0 <= e.1 < MAX_TRACK_PAGE) (entries id page ls) ->
  read_track_lines (Some t) id page ls l =
    Some (tt, l <| page_tables ::= <[t := entered (entries id page ls) pages]> |>).
Proof.
  revert id page pages l. induction ls as [| line ls IH]; intros id page pages l Ht Ha H; cbn [read_track_lines entries].
  { cbn. unfold ret. do 2 f_equal. destruct l. cbn in *. f_equal. symmetry. by apply insert_id. }
  destruct (String.prefix "seite" line) eqn:E1; [cbn [entries] in H; rewrite E1 in H; by apply IH |].
  destruct (String.prefix " .id=" line) eqn:E2; [cbn [entries] in H; rewrite E1, E2 in H; by apply IH |].
  destruct (String.prefix " .name=" line) eqn:E3; cbn [entries] in H; rewrite E1, E2, E3 in H; [| by apply IH].
  destruct page; [| rewrite bind_ret; by apply IH].
  apply Forall_cons in H as [Hid H]. cbn [fst] in Hid. unfold set_page. cbn [need].
  rewrite bind_assoc, bind_ret, bind_assoc, bind_gets, Ht. cbn [need]. rewrite bind_assoc, bind_ret.
  replace (bool_decide _) with true by (symmetry; apply bool_decide_eq_true; by apply Ha). cbn [guard].
  rewrite bind_assoc, bind_ret, bind_modify.
  rewrite (IH _ _ (<[id := Some (skip_chars 7 (rmcrlf line) +:+ ".cs2")]> pages)).
  - do 2 f_equal. destruct l. cbn. f_equal. by rewrite insert_insert_eq.
  - cbn. by rewrite lookup_insert_eq.
  - by apply is_array_insert.
  - done.
Qed.

(** * The directory of the pages *)

Definition PAGES : string := "gleisbilder/".

Lemma append_cons a s t : String a s +:+ t = String a (s +:+ t).
Proof. reflexivity. Qed.
Lemma prefix_cons a b p s : String.prefix (String a p) (String b s) = if ascii_dec a b then String.prefix p s else false.
Proof. reflexivity. Qed.
Lemma prefix_longer p s t : (String.length p <= String.length s)%nat ->
  String.prefix p (s +:+ t) = String.prefix p s.
Proof.
  revert s. induction p as [| a p IH]; intros s H; [by destruct s, t |].
  destruct s as [| b s]; [cbn in H; lia |]. rewrite append_cons, !prefix_cons.
  destruct (ascii_dec a b); [apply IH; cbn in H; lia | done].
Qed.
Lemma prefix_cut p s : String.prefix p (cut_at PAGES s) = true -> String.prefix p s = true.
Proof.
  revert p. induction s as [| a s IH]; intros [| b p] H; try done; cbn [cut_at] in H.
  all: destruct (String.prefix PAGES _); try done.
  rewrite prefix_cons in H |- *. destruct (ascii_dec b a); [by apply IH | done].
Qed.
(** No beginning of the name is also an end of it. *)
Lemma no_overlap a s : (String.length s < 11)%nat -> String.prefix PAGES (String a (s +:+ PAGES)) = false.
Proof.
  intros H. unfold PAGES. rewrite prefix_cons. destruct (ascii_dec "g" a) as [_ |]; [| done].
  do 11 (destruct s as [| ? s]; [vm_compute; reflexivity | rewrite append_cons, prefix_cons;
    destruct (ascii_dec _ _) as [<- |]; [| done]]).
  cbn in H. lia.
Qed.

(** The directory of the pages appended is what is cut off again. *)
Lemma cut_appended s : cut_at PAGES (cut_at PAGES s +:+ PAGES) = cut_at PAGES s.
Proof.
  induction s as [| a s IH]; [vm_compute; reflexivity |]. cbn [cut_at].
  destruct (String.prefix PAGES (String a s)) eqn:E; [vm_compute; reflexivity |].
  change (String a (cut_at PAGES s) +:+ PAGES) with (String a (cut_at PAGES s +:+ PAGES)). cbn [cut_at].
  destruct (String.prefix PAGES (String a (cut_at PAGES s +:+ PAGES))) eqn:E2; [exfalso | by rewrite IH].
  destruct (decide (String.length (cut_at PAGES s) < 11)%nat) as [Hl | Hl].
  - by rewrite no_overlap in E2.
  - change (String a (cut_at PAGES s +:+ PAGES)) with (String a (cut_at PAGES s) +:+ PAGES) in E2.
    rewrite prefix_longer in E2 by (cbn; lia).
    assert (String.prefix PAGES (String a s) = true) as H; [| by rewrite H in E].
    unfold PAGES in E2 |- *. rewrite prefix_cons in E2 |- *.
    destruct (ascii_dec "g" a); [by apply (prefix_cut "leisbilder/") | done].
Qed.

(** * The copy *)

(** Files arrive one after the other: the segments of each, read from the
    connection to the control centre. *)
Section Arrival.
Context (deflate inflate : list Z -> Z -> Z * list Z) (writable : string -> bool) (junk : nat -> Z) (sb i s : Z).
Definition arrived (segs : list (list Z)) : prog lan_t unit :=
  for_each segs (fun seg => tcp_received deflate inflate writable junk sb i s (Bytes seg)).
Definition copied (files : list (list (list Z))) : prog lan_t unit := for_each files arrived.
End Arrival.

Definition whats : list string := map fst cs2_configs.
Definition names : list string := map snd cs2_configs.
Definition asked (s : Z) (what : string) : event := To_net s (request what).
Definition page_names (k : nat) : list string := map (fun i => "gbs-" +:+ dec (Z.of_nat i)) (seq 0 k).

(** Files put in a directory one after the other. *)
Fixpoint put_files (dir : string) (ns : list string) (cs : list (list Z)) (fs : gmap string (list Z)) :=
  match ns, cs with
  | n :: ns, c :: cs => put_files dir ns cs (<[dir +:+ n := c]> fs)
  | _, _ => fs
  end.

(** What the copy leaves alone. *)
Definition base (l : lan_t) : lan_t :=
  (rest l) <| config_dir := "" |> <| files := ∅ |> <| events := [] |> <| page_tables := ∅ |> <| page_name := None |>
    <| cs2 ::= fun c => c <| name := None |> <| next := 0 |> <| track_index := 0 |>
       <| copy_state := CS2_STATE_INACTIVE |> <| cs2_config_copy := 0 |> |>.

Lemma gbs_short i : 0 <= i < 64 -> (String.length ("gbs-" +:+ dec i) < 8)%nat.
Proof.
  intros H. assert (A : forallb (fun i => Nat.ltb (String.length ("gbs-" +:+ dec i)) 8) (seqZ 0 64) = true)
    by (vm_compute; reflexivity).
  apply Nat.ltb_lt. apply (forallb_seqZ _ 0 64 i A). lia.
Qed.

(** A file that can be written. *)
Definition takes_file (writable : string -> bool) (f : string) : Prop :=
  Z.of_nat (String.length f) < MAXLINE /\ writable f = true.
(** No transfer is under way. *)
Definition idle (l : lan_t) : Prop := l.(cs2).(inflated_data) = None /\ Z.of_nat (length l.(netframe)) = MAXDG.

Section Copy.
Context (deflate inflate : list Z -> Z -> Z * list Z) (writable : string -> bool) (junk : nat -> Z) (sb i_conn s_conn : Z).
Context (Hzl : zlib_ok deflate inflate).
Local Abbreviation arrives := (arrived deflate inflate writable junk sb i_conn s_conn).
Local Abbreviation copies := (copied deflate inflate writable junk sb i_conn s_conn).

(** The state the copy starts in, the control centre's socket, the directory
    and the table of the pages. *)
Context (l0 : lan_t) (s : Z) (d : string) (t : Z) (pages0 pages : gmap Z (option string)) (pn : nat -> string) (k : nat).
Context (Hsocket : l0.(cs2).(cs2_tcp_socket) = s) (Htable : l0.(cs2).(cs2_page_name) = Some t).
Context (Hdir : cut_at PAGES (d +:+ PAGES) = d).
Context (Hpages0 : is_array MAX_TRACK_PAGE pages0) (Hk : (k < 64)%nat).
Context (Hnames : Forall (fun n => takes_file writable (d +:+ n)) names).
Context (Hpagefile : forall i, (i < k)%nat -> takes_file writable ((d +:+ PAGES) +:+ pn i)).
Context (Hpn : forall i, (i < k)%nat -> pages !! Z.of_nat i = Some (Some (pn i))).
Context (Hend : pages !! Z.of_nat k = Some None).

Record at_config (i : nat) (fs : gmap string (list Z)) (es : list event) (l : lan_t) : Prop := {
  ac_base : base l = base l0;
  ac_idle : idle l;
  ac_dir : l.(config_dir) = d;
  ac_state : l.(cs2).(copy_state) = CS2_STATE_NORMAL_CONFIG;
  ac_next : l.(cs2).(next) = Z.of_nat i;
  ac_name : l.(cs2).(name) = names !! (i - 1)%nat;
  ac_files : l.(files) = fs;
  ac_events : l.(events) = es;
  ac_pages : l.(page_tables) !! t = Some pages0;
}.

Record at_page (i : nat) (fs : gmap string (list Z)) (es : list event) (l : lan_t) : Prop := {
  ap_base : base l = base l0;
  ap_idle : idle l;
  ap_dir : l.(config_dir) = d +:+ PAGES;
  ap_state : l.(cs2).(copy_state) = CS2_STATE_GET_TRACKS;
  ap_next : l.(cs2).(track_index) = Z.of_nat i;
  ap_name : (0 < i)%nat -> l.(cs2).(name) = Some (pn (i - 1));
  ap_files : l.(files) = fs;
  ap_events : l.(events) = es;
  ap_table : l.(page_name) = Some t;
  ap_pages : l.(page_tables) !! t = Some pages;
}.

Record at_end (fs : gmap string (list Z)) (es : list event) (l : lan_t) : Prop := {
  ae_base : base l = base l0;
  ae_dir : l.(config_dir) = d;
  ae_state : l.(cs2).(copy_state) = CS2_STATE_INACTIVE;
  ae_files : l.(files) = fs;
  ae_events : l.(events) = es;
  ae_table : l.(page_name) = Some t;
  ae_pages : l.(page_tables) !! t = Some pages;
}.

Lemma base_socket l : base l = base l0 -> l.(cs2).(cs2_tcp_socket) = s.
Proof using Hsocket. intros E. rewrite <- Hsocket. exact (f_equal (fun l => l.(cs2).(cs2_tcp_socket)) E). Qed.
Lemma base_table l : base l = base l0 -> l.(cs2).(cs2_page_name) = Some t.
Proof using Htable. intros E. rewrite <- Htable. exact (f_equal (fun l => l.(cs2).(cs2_page_name)) E). Qed.

(** What is the same once a file is written. *)
Lemma written_same {A} (f : lan_t -> A) c l fname l1 : (forall l, f (rest l) = f l) -> (forall l fs, f (l <| files ::= fs |>) = f l) ->
  written l c fname l1 -> f l1 = f l.
Proof. intros Hf Hg [E _]. by rewrite <- Hf, E, Hf, Hg. Qed.
Lemma written_files c l fname l1 : written l c fname l1 -> l1.(files) = <[l.(config_dir) +:+ fname := c]> l.(files).
Proof. intros [E _]. exact (f_equal files E). Qed.
Lemma written_base c l fname l1 : written l c fname l1 -> base l1 = base l.
Proof. intros [E _]. unfold base. by rewrite E. Qed.
Lemma arrived_run segs c l f : sent_as deflate segs c -> l.(cs2).(name) = Some f -> takes_file writable (l.(config_dir) +:+ f) -> idle l ->
  exists l1, arrives segs l = file_complete l1 /\ written l c f l1.
Proof using Hzl. intros Hs Hn [Hp Hw] [Hi Hnet]. by apply segments_arrive. Qed.
Lemma config_written i c fs es l f l1 : at_config i fs es l -> written l c f l1 -> at_config i (<[d +:+ f := c]> fs) es l1.
Proof.
  intros [Hb _ Hd Hs Hn Hname Hf He Hp] Hw. pose proof Hw as [E Hidle]. split.
  - by rewrite (written_base _ _ _ _ Hw).
  - exact Hidle.
  - rewrite <- Hd. exact (f_equal config_dir E).
  - rewrite <- Hs. exact (f_equal (fun l => l.(cs2).(copy_state)) E).
  - rewrite <- Hn. exact (f_equal (fun l => l.(cs2).(next)) E).
  - rewrite <- Hname. exact (f_equal (fun l => l.(cs2).(name)) E).
  - by rewrite (written_files _ _ _ _ Hw), Hf, Hd.
  - rewrite <- He. exact (f_equal events E).
  - rewrite <- Hp. exact (f_equal (fun l => l.(page_tables) !! t) E).
Qed.
Lemma page_written i c fs es l f l1 : at_page i fs es l -> written l c f l1 -> at_page i (<[(d +:+ PAGES) +:+ f := c]> fs) es l1.
Proof.
  intros [Hb _ Hd Hs Hn Hname Hf He Ht Hp] Hw. pose proof Hw as [E Hidle]. split.
  - by rewrite (written_base _ _ _ _ Hw).
  - exact Hidle.
  - rewrite <- Hd. exact (f_equal config_dir E).
  - rewrite <- Hs. exact (f_equal (fun l => l.(cs2).(copy_state)) E).
  - rewrite <- Hn. exact (f_equal (fun l => l.(cs2).(track_index)) E).
  - intros Hi. rewrite <- (Hname Hi). exact (f_equal (fun l => l.(cs2).(name)) E).
  - by rewrite (written_files _ _ _ _ Hw), Hf, Hd.
  - rewrite <- He. exact (f_equal events E).
  - rewrite <- Ht. exact (f_equal page_name E).
  - rewrite <- Hp. exact (f_equal (fun l => l.(page_tables) !! t) E).
Qed.

Lemma config_step i segs c fs es l : (1 <= i < 8)%nat -> sent_as deflate segs c -> at_config i fs es l ->
  exists n n' w, names !! (i - 1)%nat = Some n /\ cs2_configs !! i = Some (w, n') /\
  exists l', arrives segs l = Some (tt, l') /\ at_config (S i) (<[d +:+ n := c]> fs) (es ++ [asked s w]) l'.
Proof using Hsocket Hzl Hnames Hk.
  intros Hi Hsent H. pose proof H as [_ Hidle Hd _ _ Hname _ _ _].
  destruct (lookup_lt_is_Some_2 names (i - 1)) as [n En]; [cbn; lia |].
  destruct (lookup_lt_is_Some_2 cs2_configs i) as [[w n'] Ew]; [cbn; lia |].
  exists n, n', w. split; [done |]. split; [done |]. rewrite En in Hname.
  destruct (arrived_run segs c l n Hsent Hname) as (l1 & E1 & Hw); [| done |].
  { rewrite Hd. apply (proj1 (Forall_forall _ _) Hnames). by eapply list_elem_of_lookup_2. }
  pose proof (config_written _ _ _ _ _ _ _ H Hw) as [Hb1 Hidle1 Hd1 Hs1 Hn1 _ Hf1 He1 Hp1].
  rewrite E1. unfold file_complete, get_cs2. rewrite bind_gets, Hs1. unfold normal_config. rewrite bind_gets.
  rewrite Hn1. replace (Z.of_nat i =? _) with false by (symmetry; apply Z.eqb_neq; cbn; lia).
  replace (0 <=? Z.of_nat i) with true by zbool. rewrite Nat2Z.id, Ew. cbn [need]. rewrite bind_ret.
  unfold mod_cs2 at 1. rewrite bind_modify, (base_socket l1 Hb1).
  unfold net_to_net, emit. rewrite bind_assoc, bind_modify, bind_ret. eexists. split; [reflexivity |].
  split; cbn -[names]; try done; [lia | | by rewrite He1].
  change names with (snd <$> cs2_configs). by rewrite list_lookup_fmap, Nat.sub_0_r, Ew.
Qed.

Lemma config_run segss cs i fs es l : (1 <= i)%nat -> (i + length cs = 8)%nat -> Forall2 (sent_as deflate) segss cs -> at_config i fs es l ->
  exists l', copies segss l = Some (tt, l') /\
    at_config 8 (put_files d (drop (i - 1) names) cs fs) (es ++ map (asked s) (drop i whats)) l'.
Proof using Hsocket Hzl Hnames Hk.
  intros H1 Hi Hsent. revert i fs es l H1 Hi. induction Hsent as [| segs c segss cs Hc _ IH]; intros i fs es l H1 Hi H; cbn [length] in Hi.
  { exists l. split; [done |]. replace i with 8%nat in * by lia. by rewrite app_nil_r. }
  destruct (config_step i segs c fs es l) as (n & n' & w & En & Ew & l1 & E1 & H'); [lia | done.. |].
  destruct (IH (S i) _ _ _ ltac:(lia) ltac:(lia) H') as (l2 & E2 & H2). exists l2. split.
  { unfold copied. cbn [for_each]. by rewrite (bind_some _ _ _ _ _ E1). }
  rewrite (drop_S names n (i - 1)) by done. replace (S (i - 1)) with (S i - 1)%nat by lia.
  assert (Eww : whats !! i = Some w).
  { change whats with (fst <$> cs2_configs). by rewrite list_lookup_fmap, Ew. }
  rewrite (drop_S whats w i Eww). cbn [put_files map]. by rewrite <- app_assoc in H2.
Qed.

Lemma get_tracks_run i fs es l : (i <= k)%nat -> at_page i fs es l -> exists l', get_tracks l = Some (tt, l') /\
  if decide (i = k) then at_end fs es l'
  else at_page (S i) fs (es ++ [asked s ("gbs-" +:+ dec (Z.of_nat i))]) l'.
Proof.
  intros Hi [Hb Hidle Hd Hs Hn Hname Hf He Ht Hp]. unfold get_tracks, page_at.
  rewrite bind_gets, (base_table l Hb). cbn [need]. rewrite bind_assoc, bind_ret, bind_assoc, bind_gets, Hp.
  cbn [need]. rewrite bind_assoc, bind_ret, Hn. destruct (decide (i = k)) as [-> | Hne].
  - rewrite Hend. cbn [need]. rewrite bind_ret, bind_modify. eexists. split; [reflexivity |].
    split; cbn; try done. rewrite Hd. exact Hdir.
  - rewrite Hpn by lia. cbn [need]. rewrite bind_ret. unfold mod_cs2 at 1. rewrite bind_modify. cbv zeta.
    replace (_ <? _)%nat with true by (symmetry; apply Nat.ltb_lt, gbs_short; lia). cbn [guard].
    rewrite bind_ret, (base_socket l Hb). unfold net_to_net, emit. rewrite bind_assoc, bind_modify, bind_ret.
    eexists. split; [reflexivity |]. split; cbn; try done; [by rewrite Hn; lia | | by rewrite He].
    intros _. by rewrite Nat.sub_0_r.
Qed.

Lemma page_step i segs c fs es l : (1 <= i <= k)%nat -> sent_as deflate segs c -> at_page i fs es l ->
  let fs' := <[(d +:+ PAGES) +:+ pn (i - 1) := c]> fs in
  exists l', arrives segs l = Some (tt, l') /\
    if decide (i = k) then at_end fs' es l'
    else at_page (S i) fs' (es ++ [asked s ("gbs-" +:+ dec (Z.of_nat i))]) l'.
Proof using Hsocket Htable Hdir Hk Hpn Hend Hzl Hpagefile.
  intros Hi Hsent H fs'. pose proof (ap_name _ _ _ _ H ltac:(lia)) as Hname.
  destruct (arrived_run segs c l _ Hsent Hname) as (l1 & E1 & Hw).
  { rewrite (ap_dir _ _ _ _ H). apply Hpagefile. lia. }
  { apply (ap_idle _ _ _ _ H). }
  pose proof (page_written _ _ _ _ _ _ _ H Hw) as H1. fold fs' in H1. rewrite E1.
  unfold file_complete, get_cs2. rewrite bind_gets, (ap_state _ _ _ _ H1). apply (get_tracks_run i); [lia | done].
Qed.

Lemma page_run segss cs i fs es l : (1 <= i)%nat -> (i + length cs = S k)%nat -> cs <> [] -> Forall2 (sent_as deflate) segss cs ->
  at_page i fs es l ->
  exists l', copies segss l = Some (tt, l') /\
    at_end (put_files (d +:+ PAGES) (map pn (seq (i - 1) (length cs))) cs fs)
      (es ++ map (asked s) (map (fun i => "gbs-" +:+ dec (Z.of_nat i)) (seq i (k - i)))) l'.
Proof using Hsocket Htable Hdir Hk Hpn Hend Hzl Hpagefile.
  intros H1 Hi Hne Hsent. revert i fs es l H1 Hi Hne.
  induction Hsent as [| segs c segss cs Hc Hcs IH]; intros i fs es l H1 Hi Hne H; [done |]. cbn [length] in Hi.
  destruct (page_step i segs c fs es l) as (l1 & E1 & H'); [lia | done.. |].
  unfold copied. cbn [for_each length seq map put_files]. rewrite (bind_some _ _ _ _ _ E1).
  destruct (decide (i = k)) as [-> | Hne'].
  - destruct cs; [| cbn in Hi; lia]. apply Forall2_nil_inv_r in Hcs as ->. exists l1. rewrite Nat.sub_diag. cbn [seq map]. by rewrite app_nil_r.
  - destruct (IH (S i) _ _ _ ltac:(lia) ltac:(lia) ltac:(destruct cs; [cbn in Hi; lia | done]) H') as (l2 & E2 & H2).
    exists l2. split; [exact E2 |]. replace (S (i - 1)) with (S i - 1)%nat by lia.
    replace (k - i)%nat with (S (k - S i)) by lia. cbn [seq map]. by rewrite <- app_assoc in H2.
Qed.

Context (tracks : list Z).
Local Abbreviation track_entries := (entries 0 false (lines_of (length tracks) tracks)).
Context (Hpages : pages = entered track_entries pages0).
Context (Hrange : Forall (fun e => 0 <= e.1 < MAX_TRACK_PAGE) track_entries).
Context (Hpath : Z.of_nat (String.length (d +:+ "gleisbild.cs2")) < MAXLINE).
Context (Hpath' : Z.of_nat (String.length (d +:+ PAGES)) < MAXLINE).

Lemma read_tracks_run pages1 l : l.(files) !! (d +:+ "gleisbild.cs2") = Some tracks ->
  l.(page_tables) !! t = Some pages1 -> is_array MAX_TRACK_PAGE pages1 ->
  read_track_file (d +:+ "gleisbild.cs2") (Some t) l =
    Some (Some t, l <| page_tables ::= <[t := entered track_entries pages1]> |>).
Proof.
  intros Hf Ht Ha. unfold read_track_file. rewrite bind_gets, Hf.
  by rewrite (bind_some _ _ _ _ _ (read_track_lines_run t 0 false _ pages1 l Ht Ha Hrange)).
Qed.

Lemma path_run a b (l : lan_t) : Z.of_nat (String.length (a +:+ b)) < MAXLINE -> path a b l = Some (a +:+ b, l).
Proof. intros H. unfold path. by replace (_ <? MAXLINE) with true by zbool. Qed.

Lemma sum_step segs c fs es l : sent_as deflate segs c -> at_config 8 fs es l ->
  let fs' := <[d +:+ "fahrstrassen.sr2" := c]> fs in fs' !! (d +:+ "gleisbild.cs2") = Some tracks ->
  exists l', arrives segs l = Some (tt, l') /\
    if decide (0%nat = k) then at_end fs' es l' else at_page 1 fs' (es ++ [asked s "gbs-0"]) l'.
Proof.
  intros Hsent H0 fs' Ht. pose proof H0 as [_ Hidle0 Hd0 _ _ Hname _ _ _].
  destruct (arrived_run segs c l "fahrstrassen.sr2" Hsent Hname) as (l1 & E0 & Hw); [| done |].
  { rewrite Hd0. apply (proj1 (Forall_forall _ _) Hnames). by do 7 right; left. }
  pose proof (config_written _ _ _ _ _ _ _ H0 Hw) as [Hb Hidle Hd Hs Hn _ Hf He Hp]. fold fs' in Hf.
  rewrite E0. unfold file_complete, get_cs2. rewrite bind_gets, Hs. unfold normal_config.
  rewrite bind_gets, Hn. cbn [Z.of_nat]. change (_ =? _) with true. cbv iota.
  unfold mod_cs2 at 1. rewrite bind_modify. set (l2 := over _ _ l1). unfold track_sum.
  rewrite bind_gets. change (config_dir l2) with (config_dir l1). rewrite Hd.
  rewrite (bind_some _ _ _ _ _ (path_run _ _ _ Hpath)), bind_gets.
  change (cs2_page_name (cs2 l2)) with (cs2_page_name (cs2 l1)). rewrite (base_table l1 Hb).
  assert (Hf2 : l2.(files) !! (d +:+ "gleisbild.cs2") = Some tracks) by (rewrite <- Ht, <- Hf; done).
  rewrite (bind_some _ _ _ _ _ (read_tracks_run pages0 l2 Hf2 Hp Hpages0)). rewrite <- Hpages.
  unfold mod_cs2 at 1. rewrite bind_modify. set (l3 := over _ _ _).
  assert (Hp3 : l3.(page_tables) !! t = Some pages) by (cbn; by rewrite lookup_insert_eq).
  assert (Ha : is_array MAX_TRACK_PAGE pages) by (rewrite Hpages; by apply entered_array).
  rewrite (bind_some _ _ _ _ _ (read_tracks_run pages l3 Hf2 Hp3 Ha)), bind_modify.
  rewrite (bind_some _ _ _ _ _ (path_run _ _ _ Hpath')), bind_modify.
  unfold mod_cs2 at 1. rewrite bind_modify. set (l4 := over _ _ _).
  apply (get_tracks_run 0); [lia |]. split; try done.
  - transitivity (base l1); [| done]. unfold l4, l3, l2. by rewrite <- (base_table l1 Hb).
  - lia.
  - cbn. rewrite lookup_insert_eq, Hpages. by rewrite entered_twice.
Qed.
End Copy.

Lemma copy_start l : l.(cs2).(cs2_tcp_socket) <> 0 -> idle l -> exists l', copy_cs2_config l = Some (tt, l') /\
  forall t pages0, l.(page_tables) !! t = Some pages0 ->
  at_config l (cut_at PAGES l.(config_dir)) t pages0 1 l.(files)
    (l.(events) ++ [asked l.(cs2).(cs2_tcp_socket) "loks"]) l'.
Proof.
  intros Hs Hidle. unfold copy_cs2_config. rewrite bind_gets.
  replace (_ =? 0) with false by (symmetry; by apply Z.eqb_neq). cbn [negb].
  unfold net_to_net, emit, mod_cs2. rewrite bind_modify, bind_modify, bind_assoc, bind_modify, bind_ret.
  eexists. split; [reflexivity |]. intros t pages0 Ht. by split.
Qed.

Lemma put_files_other d n ns cs fs : ~ n ∈ ns -> put_files d ns cs fs !! (d +:+ n) = fs !! (d +:+ n).
Proof.
  revert cs fs. induction ns as [| n' ns IH]; intros [| c cs] fs H; try done. cbn [put_files].
  apply not_elem_of_cons in H as [Hn H]. rewrite IH by done. apply lookup_insert_ne.
  intros E. apply Hn. by apply (inj (String.append d)) in E.
Qed.
Lemma put_files_at d ns cs fs i n c : NoDup ns -> ns !! i = Some n -> cs !! i = Some c ->
  put_files d ns cs fs !! (d +:+ n) = Some c.
Proof.
  intros H. revert cs fs i. induction H as [| n' ns Hn _ IH]; intros [| c' cs] fs [| i] Ei Ec; try done.
  - injection Ei as ->. injection Ec as ->. cbn [put_files]. rewrite put_files_other by done. apply lookup_insert_eq.
  - by apply (IH _ _ i).
Qed.
Lemma put_files_last d ns n cs c fs : length cs = length ns ->
  put_files d (ns ++ [n]) (cs ++ [c]) fs = <[d +:+ n := c]> (put_files d ns cs fs).
Proof.
  revert cs fs. induction ns as [| n' ns IH]; intros [| c' cs] fs H; try done. cbn [put_files app].
  apply IH. cbn in H. lia.
Qed.
Lemma names_nodup : NoDup names.
Proof. apply (bool_decide_unpack _). vm_compute. done. Qed.

(** C14. The copy of a control centre's configuration is complete and ends.  Once
    started it asks for the eight files of the list in their order and then for
    the track pages from page 0 up to the first number the table of the pages has
    no name for (the pages behind a gap in the numbers are never asked for), each
    request when the file before has arrived, and stops.  Each file arrives as
    the segments of a file that can2lan sends, and is then in its place byte for
    byte, the pages in their directory; the gateway serves the new pages, and the
    configuration directory is the one it started from.  The files have to be
    such that they can be written, and no transfer may be under way. *)
Theorem copy_fetches_everything deflate inflate writable junk sb i_conn s_conn l t pages0 sent cs tracks pages pn k sent_pages ps :
  let s := l.(cs2).(cs2_tcp_socket) in
  let d := cut_at PAGES l.(config_dir) in
  let es := entries 0 false (lines_of (length tracks) tracks) in
  zlib_ok deflate inflate -> idle l ->
  Forall (fun n => takes_file writable (d +:+ n)) names ->
  (forall i, (i < k)%nat -> takes_file writable ((d +:+ PAGES) +:+ pn i)) ->
  s <> 0 -> l.(cs2).(cs2_page_name) = Some t -> l.(page_tables) !! t = Some pages0 ->
  is_array MAX_TRACK_PAGE pages0 -> length cs = 8%nat -> cs !! 3%nat = Some tracks ->
  Forall (fun e => 0 <= e.1 < MAX_TRACK_PAGE) es -> pages = entered es pages0 ->
  (forall i, (i < k)%nat -> pages !! Z.of_nat i = Some (Some (pn i))) -> pages !! Z.of_nat k = Some None ->
  length ps = k -> Forall2 (sent_as deflate) (sent ++ sent_pages) (cs ++ ps) ->
  Z.of_nat (String.length (d +:+ PAGES)) < MAXLINE ->
  exists l', (do* copy_cs2_config in copied deflate inflate writable junk sb i_conn s_conn (sent ++ sent_pages)) l = Some (tt, l') /\
    l'.(events) = l.(events) ++ map (asked s) (whats ++ page_names k) /\
    l'.(files) = put_files (d +:+ PAGES) (map pn (seq 0 k)) ps (put_files d names cs l.(files)) /\
    l'.(cs2).(copy_state) = CS2_STATE_INACTIVE /\ l'.(config_dir) = d /\
    l'.(page_name) = Some t /\ l'.(page_tables) !! t = Some pages /\ base l' = base l.
Proof.
  intros s d es Hzl Hidle Hnames Hpagefile Hs Htab Ht Ha Hcs Htr Hrange Hpages Hpn Hend Hps Hsent Hp2.
  assert (Hp1 : Z.of_nat (String.length (d +:+ "gleisbild.cs2")) < MAXLINE).
  { apply (proj1 (Forall_forall _ _) Hnames). by do 3 right; left. }
  assert (Hk : (k < 64)%nat).
  { assert (is_array MAX_TRACK_PAGE pages) as H by (rewrite Hpages; by apply entered_array).
    pose proof (is_array_bound _ _ _ _ H Hend) as B. unfold MAX_TRACK_PAGE in B. lia. }
  destruct (copy_start l Hs Hidle) as (l1 & E1 & H1). specialize (H1 t pages0 Ht). fold s d in H1.
  rewrite (bind_some _ _ _ _ _ E1).
  destruct (exists_last (l := cs)) as (cs7 & c7 & ->); [by intros -> |].
  rewrite length_app in Hcs. cbn [length] in Hcs. rewrite <- app_assoc in Hsent. cbn [app] in Hsent.
  set (all := sent ++ sent_pages) in *. clearbody all.
  apply Forall2_app_inv_r in Hsent as (sent7 & restsent & Hsent7 & Hrest & ->).
  apply Forall2_cons_inv_r in Hrest as (segs7 & sentp & Hs7 & Hsp & ->).
  unfold copied. rewrite for_each_app.
  destruct (config_run _ _ writable junk sb i_conn s_conn Hzl l s d t pages0 k eq_refl Hk Hnames sent7 cs7 1 _ _ l1 ltac:(lia) ltac:(lia) Hsent7 H1) as (l2 & E2 & H2).
  rewrite (bind_some _ _ _ _ _ E2). cbn [for_each].
  change (drop (1 - 1) names) with names in H2.
  assert (Hf : <[d +:+ "fahrstrassen.sr2" := c7]> (put_files d names cs7 l.(files)) = put_files d names (cs7 ++ [c7]) l.(files)).
  { change names with (take 7 names ++ ["fahrstrassen.sr2"]%string) at 2.
    rewrite put_files_last by (cbn; lia). f_equal.
    do 8 (destruct cs7 as [| ? cs7]; [try (cbn in Hcs; lia); reflexivity |]). cbn in Hcs. lia. }
  destruct (sum_step _ _ writable junk sb i_conn s_conn Hzl l s d t pages0 pages pn k eq_refl Htab (cut_appended _) Ha Hk Hnames Hpn Hend tracks Hpages Hrange Hp1 Hp2
    segs7 c7 _ _ l2 Hs7 H2) as (l3 & E3 & H3).
  { rewrite Hf. by apply (put_files_at _ _ _ _ 3); [apply names_nodup | |]. }
  rewrite (bind_some _ _ _ _ _ E3). rewrite Hf in H3.
  destruct (decide (0%nat = k)) as [<- | Hk0].
  - destruct ps; [| done]. apply Forall2_nil_inv_r in Hsp as ->. exists l3. split; [done |]. destruct H3. split_and!; try done.
    by rewrite ae_events0, <- app_assoc.
  - destruct (page_run _ _ writable junk sb i_conn s_conn Hzl l s d t pages pn k eq_refl Htab (cut_appended _) Hk Hpagefile Hpn Hend sentp ps 1 _ _ l3
      ltac:(lia) ltac:(lia) ltac:(by intros ->) Hsp H3) as (l4 & E4 & H4).
    exists l4. split; [exact E4 |]. destruct H4. split_and!; try done.
    + rewrite ae_events0, <- !app_assoc. f_equal. rewrite map_app. cbn [app map]. f_equal.
      unfold page_names. destruct k; [done |]. cbn [seq map]. replace (S k - 1)%nat with k by lia. done.
    + by rewrite ae_files0, Hps.
Qed.

(** A control centre on socket 7 with one page of track. *)
Definition example_tracks : list Z :=
  str_bytes "[gleisbild]" ++ [10] ++ str_bytes "seite" ++ [13; 10] ++ str_bytes " .name=Hof" ++ [13; 10].
Definition example_copy : lan_t := (start_lan "cfg/gleisbilder/" ∅) <| cs2 ::= fun c => c <| cs2_tcp_socket := 7 |> |>.
Definition example_files : list (list Z) := [[1]; [2]; [3]; example_tracks; [5]; [6]; [7]; [8]].

Definition example_all : list (list Z) := example_files ++ [[9]].
(** The writes of a sender of the file. *)
Definition example_sender (c : list Z) : lan_t := start_lan "a/" {["a/x"%string := c]}.
Definition example_result (c : list Z) : option (Z * lan_t) :=
  send_tcp_config_data store_deflate "x" 0x00410300 [7] (Z.lor CRC COMPRESSED) 0 (example_sender c).
Definition example_events (c : list Z) : list event := from_option (fun r => r.2.(events)) [] (example_result c).
Definition example_segments (c : list Z) : list (list Z) :=
  omap (fun e => match e with To_net _ b => Some b | _ => None end) (example_events c).
Definition wholeb (seg : list Z) : bool :=
  negb (length seg =? 0)%nat && (length seg mod 13 =? 0)%nat && (Z.of_nat (length seg) <=? MAXDG).
Definition sentb (c : list Z) : bool :=
  forallb wholeb (example_segments c) && (if example_result c is Some (0, _) then true else false) &&
  bool_decide ((store_deflate c CHUNK).1 = Z_STREAM_END) && (Z.of_nat (length c) <? 2 ^ 31) &&
  bool_decide ((example_sender c).(files) !! "a/x"%string = Some c) &&
  bool_decide (concat (example_segments c) = to_socket 7 (example_events c)).
Lemma wholeb_whole seg : wholeb seg = true -> whole seg.
Proof.
  unfold wholeb. rewrite !andb_true_iff, negb_true_iff, Nat.eqb_neq, Nat.eqb_eq, Z.leb_le. intros [[H0 Hm] Hl].
  split; [by intros -> |]. by split.
Qed.
Lemma example_sent c : sentb c = true -> sent_as store_deflate (example_segments c) c.
Proof.
  unfold sentb. intros H. rewrite !andb_true_iff, !bool_decide_eq_true in H.
  destruct H as (((((Hs & Hr) & Hd) & Hl) & Hf) & Hc). split.
  - apply List.Forall_forall. intros seg Hin. apply wholeb_whole. by eapply List.forallb_forall.
  - destruct (example_result c) as [[r la'] |] eqn:E; [| done]. destruct r; [| done..].
    exists "x"%string, 0x00410300, 7, (example_sender c), (example_events c), la'. split_and!; try done.
    + by apply Z.ltb_lt.
    + unfold example_events. rewrite E. done.
Qed.
Lemma example_sent_all : Forall2 (sent_as store_deflate) (map example_segments example_all) example_all.
Proof.
  apply Forall2_fmap_l, Forall_Forall2_diag, List.Forall_forall. intros c Hc. apply example_sent.
  assert (forallb sentb example_all = true) as H by (vm_compute; reflexivity). by eapply List.forallb_forall in H.
Qed.

Lemma copy_fetches_everything_witness : exists l',
  (do* copy_cs2_config in
   copied store_deflate store_inflate (fun _ => true) (fun _ => 0) 4 0 9 (map example_segments example_all)) example_copy = Some (tt, l') /\
  l'.(events) = map (asked 7) ["loks"; "mags"; "fs"; "gbs"; "lokstat"; "magstat"; "gbsstat"; "fsstat"; "gbs-0"]%string /\
  l'.(files) !! "cfg/gleisbilder/Hof.cs2"%string = Some [9] /\ l'.(cs2).(copy_state) = CS2_STATE_INACTIVE.
Proof.
  destruct (copy_fetches_everything store_deflate store_inflate (fun _ => true) (fun _ => 0) 4 0 9
    example_copy 1 (array MAX_TRACK_PAGE None) (map example_segments example_files) example_files example_tracks
    (entered [(0, "Hof.cs2"%string)] (array MAX_TRACK_PAGE None)) (fun _ => "Hof.cs2"%string) 1 [example_segments [9]] [[9]])
    as (l' & E & Ev & Ef & Es & _).
  - exact store_zlib_ok.
  - split; vm_compute; reflexivity.
  - vm_compute. repeat constructor; done.
  - intros i Hi. split; vm_compute; reflexivity.
  - discriminate.
  - reflexivity.
  - vm_compute. reflexivity.
  - apply is_array_array.
  - reflexivity.
  - reflexivity.
  - vm_compute. repeat constructor; done.
  - vm_compute. reflexivity.
  - intros i Hi. replace i with 0%nat by lia. reflexivity.
  - vm_compute. reflexivity.
  - reflexivity.
  - exact example_sent_all.
  - vm_compute. reflexivity.
  - exists l'. change (map example_segments example_all) with (map example_segments example_files ++ [example_segments [9]]).
    rewrite E, Ev, Ef, Es. split_and!; vm_compute; reflexivity.
Defined.
End LanCopy.
