(* ===== verification/Avl.v ===== *)
(** The balanced trees of mrsystem (src/mrsystem/src/basic_libs/datastore: avl,
    map) on the heap they live in: Knuth's insertion with the cached
    comparisons, deletion with its stack, and the maps built on them. *)

From S2P Require Import Prelude.

Module Avl.

(** * Data *)

(** [struct avl_knoten].  Keys, data and nodes are pointers, 0 is NULL.  A side
    of a node, 0 or 1 in the code, is [false] or [true]. *)
Record node := mk_node {
  Key : Z;
  Daten : Z;
  Bal : Z;
  cache : bool;
  Link0 : Z;
  Link1 : Z;
}.
#[export] Instance eta_node : Settable node := fun n =>
  mk_node n.(Key) n.(Daten) n.(Bal) n.(cache) n.(Link0) n.(Link1).

Definition Link (side : bool) (n : node) : Z := if side then n.(Link1) else n.(Link0).
Definition with_link (side : bool) (p : Z) (n : node) : node :=
  if side then n <| Link1 := p |> else n <| Link0 := p |>.
(** [side * 2 - 1] *)
Definition sign (side : bool) : Z := if side then 1 else -1.

(** What the call-backs of the tree were given. *)
Inductive destroyed := Destroyed_key (p : Z) | Destroyed_data (p : Z).

(** A tree ([AvlBaum]) with the nodes in memory.  A call-back that is set is
    [true]. *)
Record avl_t := mk_avl {
  nodes : gmap Z node;
  root : Z;
  Compare : option (Z -> Z -> Z);
  DestroyKey : bool;
  DestroyDaten : bool;
  calls : list destroyed;
}.
#[export] Instance eta_avl : Settable avl_t := fun t =>
  mk_avl t.(nodes) t.(root) t.(Compare) t.(DestroyKey) t.(DestroyDaten) t.(calls).

Definition node_at (p : Z) : prog avl_t node := let* h := gets nodes in need (h !! p).
Definition set_node (p : Z) (f : node -> node) : prog avl_t unit :=
  let* n := node_at p in modify (fun t => t <| nodes ::= <[p := f n]> |>).
Definition set_link (p : Z) (side : bool) (q : Z) : prog avl_t unit := set_node p (with_link side q).
Definition set_bal (p : Z) (b : Z) : prog avl_t unit := set_node p (fun n => n <| Bal := b |>).
Definition get_link (p : Z) (side : bool) : prog avl_t Z := let* n := node_at p in ret (Link side n).
Definition set_root (p : Z) : prog avl_t unit := modify (fun t => t <| root := p |>).
Definition compare (a b : Z) : prog avl_t Z :=
  let* f := gets Compare in let* f := need f in ret (f a b).

(** * Trees *)

(** A tree with the memory there is. *)
Definition AvlCreate (h : gmap Z node) : avl_t := mk_avl h 0 None false false [].
Definition AvlInit (cmp : Z -> Z -> Z) (key data : bool) : prog avl_t unit :=
  modify (fun t => t <| Compare := Some cmp |> <| DestroyKey := key |> <| DestroyDaten := data |>).

Section Operations.
(** [malloc] of a node with the memory in use; [None] is its NULL. *)
Context (malloc : gmap Z node -> option Z).

(** ** Insertion *)

(** Steps A2 to A4; [q] is not set at first.  The result is [t], [s] and [q]. *)
Fixpoint insert_search (fuel : nat) (key this t s p : Z) (q : option Z) : prog avl_t (Z * Z * Z) :=
  match fuel with
  | O => undefined
  | S fuel =>
      let* n := node_at p in
      let next (q : Z) : prog avl_t (Z * Z * Z) :=
        let* nq := node_at q in
        if negb (nq.(Bal) =? 0) then insert_search fuel key this p q q (Some q)
        else insert_search fuel key this t s q (Some q) in
      let go (side : bool) : prog avl_t (Z * Z * Z) :=
        do* set_node p (fun n => n <| cache := side |>) in
        if Link side n =? 0 then
          do* set_link p side this in ret (t, s, this)
        else next (Link side n) in
      let* c := compare key n.(Key) in
      if c <? 0 then go false
      else if 0 <? c then go true
      else let* q := need q in next q
  end.

(** Step A6: the nodes from [p] down to [q] lean to the side of the new one. *)
Fixpoint lean_down (fuel : nat) (p q : Z) : prog avl_t unit :=
  if p =? q then ret tt
  else
    match fuel with
    | O => undefined
    | S fuel =>
        let* n := node_at p in
        do* set_bal p (sign n.(cache)) in
        lean_down fuel (Link n.(cache) n) q
    end.

(** Steps A8 and A9 for the side the tree has grown on: the new root of the part
    of the tree. *)
Definition rotate_insert (a : bool) (s r : Z) : prog avl_t Z :=
  let* nr := node_at r in
  if nr.(Bal) =? sign a then
    do* set_link s a (Link (negb a) nr) in
    do* set_link r (negb a) s in
    do* set_bal r 0 in
    do* set_bal s 0 in
    ret r
  else
    let p := Link (negb a) nr in
    let* np := node_at p in
    do* set_link r (negb a) (Link a np) in
    do* set_link p a r in
    do* set_link s a (Link (negb a) np) in
    do* set_link p (negb a) s in
    do* (if np.(Bal) =? sign a then do* set_bal s (- sign a) in set_bal r 0
         else if np.(Bal) =? 0 then do* set_bal r 0 in set_bal s 0
         else do* set_bal s 0 in set_bal r (sign a)) in
    do* set_bal p 0 in
    ret p.

(** Step A10. *)
Definition relink (t s p : Z) : prog avl_t unit :=
  let* nt := node_at t in
  if s =? nt.(Link1) then set_link t true p
  else if s =? nt.(Link0) then set_link t false p
  else set_root p.

Definition AvlInsert (key data : Z) : prog avl_t bool :=
  let* h := gets nodes in
  match malloc h with
  | None => ret false
  | Some this =>
      do* modify (fun t => t <| nodes ::= <[this := mk_node key data 0 false 0 0]> |>) in
      let* r := gets root in
      if r =? 0 then do* set_root this in ret true
      else
        let* '(t, s, q) := insert_search (S (size h)) key this r r r None in
        do* set_link this false 0 in
        do* set_link this true 0 in
        let* ns := node_at s in
        let a := ns.(cache) in
        let r := Link a ns in
        do* lean_down (S (size h)) r q in
        let* ns := node_at s in
        let a := ns.(cache) in
        if ns.(Bal) =? 0 then do* set_bal s (sign a) in ret true
        else if ns.(Bal) =? - sign a then do* set_bal s 0 in ret true
        else
          let* p := rotate_insert a s r in
          do* relink t s p in
          ret true
  end.

(** ** Search *)

Fixpoint find (fuel : nat) (key p : Z) : prog avl_t Z :=
  match fuel with
  | O => undefined
  | S fuel =>
      if p =? 0 then ret 0
      else
        let* n := node_at p in
        let* e := compare n.(Key) key in
        if e =? 0 then ret p
        else
          let* c := compare key n.(Key) in
          if c <? 0 then find fuel key n.(Link0)
          else if 0 <? c then find fuel key n.(Link1)
          else find fuel key p
  end.
Definition AvlFinde (key : Z) : prog avl_t Z :=
  let* h := gets nodes in let* r := gets root in find (S (size h)) key r.

(** ** Deletion *)

Definition AVL_MAX_HEIGHT : Z := 32.

(** The stack P: nodes, sides and the next free entry. *)
Record stack_t := mk_stack { pa : gmap Z Z; sides : gmap Z bool; top : Z }.
Definition entry (st : stack_t) (k : Z) : prog avl_t (Z * bool) :=
  let* p := need (st.(pa) !! k) in let* a := need (st.(sides) !! k) in ret (p, a).
Definition put (k p : Z) (a : bool) (st : stack_t) : prog avl_t stack_t :=
  do* guard ((0 <=? k) && (k <? AVL_MAX_HEIGHT)) in
  ret (mk_stack (<[k := p]> st.(pa)) (<[k := a]> st.(sides)) st.(top)).
Definition push (p : Z) (a : bool) (st : stack_t) : prog avl_t stack_t :=
  let* st := put st.(top) p a st in ret (mk_stack st.(pa) st.(sides) (st.(top) + 1)).
Definition skip (st : stack_t) : stack_t := mk_stack st.(pa) st.(sides) (st.(top) + 1).

(** Steps D2 to D4: the node with the key, [None] when there is none. *)
Fixpoint delete_search (fuel : nat) (key p : Z) (st : stack_t) : prog avl_t (option (Z * stack_t)) :=
  match fuel with
  | O => undefined
  | S fuel =>
      if p =? 0 then ret None
      else
        let* n := node_at p in
        let* c := compare key n.(Key) in
        if c =? 0 then ret (Some (p, st))
        else
          let a := negb (c <? 0) in
          let* st := push p a st in
          delete_search fuel key (Link a n) st
  end.

(** Step D8: the last node with a left child and its left child. *)
Fixpoint leftmost (fuel : nat) (r s : Z) (st : stack_t) : prog avl_t (Z * Z * stack_t) :=
  match fuel with
  | O => undefined
  | S fuel =>
      let* l := get_link s false in
      if l =? 0 then ret (r, s, st)
      else let* st := push s false st in leftmost fuel s l st
  end.

(** Steps D5 to D9: the node is taken out; [q] is the link that leads to it. *)
Definition take_out (fuel : nat) (p : Z) (q : Z * bool) (st : stack_t) : prog avl_t stack_t :=
  let* np := node_at p in
  let r := np.(Link1) in
  if r =? 0 then
    do* set_link q.1 q.2 np.(Link0) in
    do* (if np.(Link0) =? 0 then ret tt else set_bal np.(Link0) 0) in
    ret st
  else
    let* nr := node_at r in
    if nr.(Link0) =? 0 then
      do* set_link r false np.(Link0) in
      do* set_link q.1 q.2 r in
      do* set_bal r np.(Bal) in
      push r true st
    else
      let l := st.(top) in
      let* st := push r false (skip st) in
      let* '(r, s, st) := leftmost fuel r nr.(Link0) st in
      let* st := put l s true st in
      do* set_link s false np.(Link0) in
      let* right := get_link s true in
      do* set_link r false right in
      let* right := get_link p true in
      do* set_link s true right in
      do* set_bal s np.(Bal) in
      do* set_link q.1 q.2 s in
      ret st.

(** The new root [p] of the part under [s] takes its place. *)
Definition replace (st : stack_t) (k s p : Z) : prog avl_t unit :=
  let* '(parent, a) := entry st (k - 1) in
  do* set_link parent a p in
  let* r := gets root in
  if r =? s then set_root p else ret tt.

(** Steps D11 to D13 for a node [s] whose side [a] has become too low; the
    result tells whether the part has become lower too. *)
Definition rotate_delete (st : stack_t) (k s : Z) (a : bool) : prog avl_t bool :=
  let* ns := node_at s in
  let r := Link (negb a) ns in
  let* nr := node_at r in
  if nr.(Bal) =? 0 then
    do* set_link s (negb a) (Link a nr) in
    do* set_link r a s in
    do* set_bal r (sign a) in
    do* replace st k s r in
    ret false
  else if nr.(Bal) =? - sign a then
    do* set_link s (negb a) (Link a nr) in
    do* set_link r a s in
    do* set_bal r 0 in
    do* set_bal s 0 in
    do* replace st k s r in
    ret true
  else if negb a || (nr.(Bal) =? sign a) then
    let p := Link a nr in
    let* np := node_at p in
    do* set_link r a (Link (negb a) np) in
    do* set_link p (negb a) r in
    do* set_link s (negb a) (Link a np) in
    do* set_link p a s in
    do* (if np.(Bal) =? - sign a then do* set_bal s (sign a) in set_bal r 0
         else if np.(Bal) =? 0 then do* set_bal r 0 in set_bal s 0
         else do* set_bal s 0 in set_bal r (- sign a)) in
    do* set_bal p 0 in
    do* replace st k s p in
    ret true
  else ret true.

(** Step D10, up the stack. *)
Fixpoint go_up (k : nat) (st : stack_t) : prog avl_t unit :=
  match k with
  | O => ret tt
  | S k' =>
      let* '(s, a) := entry st (Z.of_nat k) in
      let* ns := node_at s in
      if ns.(Bal) =? sign a then do* set_bal s 0 in go_up k' st
      else if ns.(Bal) =? 0 then set_bal s (- sign a)
      else
        let* lower := rotate_delete st (Z.of_nat k) s a in
        if lower then go_up k' st else ret tt
  end.

Definition destroy (p : Z) : prog avl_t unit :=
  let* n := node_at p in
  let* t := get in
  do* (if t.(DestroyKey) && negb (n.(Key) =? 0)
       then modify (fun t => t <| calls ::= fun c => c ++ [Destroyed_key n.(Key)] |>) else ret tt) in
  do* (if t.(DestroyDaten) && negb (n.(Daten) =? 0)
       then modify (fun t => t <| calls ::= fun c => c ++ [Destroyed_data n.(Daten)] |>) else ret tt) in
  modify (fun t => t <| nodes ::= delete p |>).

(** [dummy] is the address of the local variable [Dummy], its first entry. *)
Definition AvlDelete (dummy key : Z) : prog avl_t unit :=
  let* h := gets nodes in
  let* r := gets root in
  do* modify (fun t => t <| nodes ::= <[dummy := mk_node 0 0 0 false 0 0]> |>) in
  let* found := delete_search (S (size h)) key r (mk_stack {[0 := dummy]} {[0 := false]} 1) in
  match found with
  | None => modify (fun t => t <| nodes ::= delete dummy |>)
  | Some (p, st) =>
      let* q := entry st (st.(top) - 1) in
      let* st := take_out (S (size h)) p q st in
      do* (if p =? r then let* r := get_link q.1 q.2 in set_root r else ret tt) in
      do* go_up (Z.to_nat (st.(top) - 1)) st in
      do* destroy p in
      modify (fun t => t <| nodes ::= delete dummy |>)
  end.

(** ** Walks *)

(** The nodes in the order a walk visits them; the call-back sees each node in
    turn and is not modelled further. *)
Fixpoint walk_ascend (fuel : nat) (p : Z) : prog avl_t (list Z) :=
  if p =? 0 then ret []
  else
    match fuel with
    | O => undefined
    | S fuel =>
        let* l := get_link p false in
        let* before := walk_ascend fuel l in
        let* r := get_link p true in
        let* after := walk_ascend fuel r in
        ret (before ++ p :: after)
    end.
Fixpoint walk_descend (fuel : nat) (p : Z) : prog avl_t (list Z) :=
  if p =? 0 then ret []
  else
    match fuel with
    | O => undefined
    | S fuel =>
        let* r := get_link p true in
        let* before := walk_descend fuel r in
        let* l := get_link p false in
        let* after := walk_descend fuel l in
        ret (before ++ p :: after)
    end.
(** [WalkPostorder] with [DeleteKnoten]. *)
Fixpoint delete_postorder (fuel : nat) (p : Z) : prog avl_t unit :=
  if p =? 0 then ret tt
  else
    match fuel with
    | O => undefined
    | S fuel =>
        let* l := get_link p false in
        do* delete_postorder fuel l in
        let* r := get_link p true in
        do* delete_postorder fuel r in
        destroy p
    end.

Definition AvlWalkAscend : prog avl_t (list Z) :=
  let* h := gets nodes in let* r := gets root in walk_ascend (size h) r.
Definition AvlWalkDescend : prog avl_t (list Z) :=
  let* h := gets nodes in let* r := gets root in walk_descend (size h) r.
(** The root keeps pointing at the freed node. *)
Definition AvlPurge : prog avl_t unit :=
  let* h := gets nodes in let* r := gets root in delete_postorder (size h) r.
(** The memory that is left when the tree itself is freed too. *)
Definition AvlDestroy : prog avl_t (gmap Z node) := do* AvlPurge in gets nodes.

(** * Maps (map) *)

(** A map is a tree; setting a key takes the entry it has out first. *)
Definition MapSet (dummy key data : Z) : prog avl_t bool :=
  do* AvlDelete dummy key in AvlInsert key data.
Definition MapDel (dummy key : Z) : prog avl_t unit := AvlDelete dummy key.
Definition MapGet (key : Z) : prog avl_t Z :=
  let* p := AvlFinde key in
  if p =? 0 then ret 0 else let* n := node_at p in ret n.(Daten).
(** The keys and data in the order of the walk. *)
Definition MapWalkAscend : prog avl_t (list (Z * Z)) :=
  let* ps := AvlWalkAscend in
  let* h := gets nodes in
  ret (omap (fun p => (fun n => (n.(Key), n.(Daten))) <$> h !! p) ps).
Definition MapPurge : prog avl_t unit := AvlPurge.
Definition MapDestroy : prog avl_t (gmap Z node) := AvlDestroy.
(** The map's own copies of the call-backs are never called. *)
Definition MapCreate (h : gmap Z node) : avl_t := AvlCreate h.
Definition MapInit (cmp : Z -> Z -> Z) (key data : bool) : prog avl_t unit := AvlInit cmp key data.
End Operations.
End Avl.
