(* ===== verification/AvlTree.v ===== *)
(** Balanced trees without a heap: what Knuth's insertion and deletion make of a
    tree, and that it stays balanced and in order. *)

From Stdlib Require Import Sorting.Sorted.
From S2P Require Import Prelude Avl.

Module AvlTree.
Import Avl.

(** * Trees *)

(** A tree whose nodes know where they are: address, key, data, balance, side of
    the last comparison. *)
Inductive tree := E | T (a k d b : Z) (c : bool) (l r : tree).
#[export] Instance tree_eq_dec : EqDecision tree.
Proof. solve_decision. Defined.

Fixpoint height (t : tree) : Z :=
  match t with E => 0 | T _ _ _ _ _ l r => 1 + Z.max (height l) (height r) end.
Fixpoint elems (t : tree) : list (Z * Z) :=
  match t with E => [] | T _ k d _ _ l r => elems l ++ (k, d) :: elems r end.
Fixpoint addrs (t : tree) : list Z :=
  match t with E => [] | T a _ _ _ _ l r => a :: addrs l ++ addrs r end.
Definition ptr (t : tree) : Z := match t with E => 0 | T a _ _ _ _ _ _ => a end.
Definition bal (t : tree) : Z := match t with E => 0 | T _ _ _ b _ _ _ => b end.

(** The balance of each node is the difference of the heights, at most 1. *)
Fixpoint balanced (t : tree) : Prop :=
  match t with
  | E => True
  | T _ _ _ b _ l r => b = height r - height l /\ -1 <= b <= 1 /\ balanced l /\ balanced r
  end.

(** The child on a side and the other one. *)
Definition child (s : bool) (t : tree) : tree :=
  match t with E => E | T _ _ _ _ _ l r => if s then r else l end.
Definition mk (s : bool) (a k d b : Z) (c : bool) (x y : tree) : tree :=
  if s then T a k d b c y x else T a k d b c x y.

Lemma mk_eq s a k d b c l r : T a k d b c l r =
  mk s a k d b c (child s (T a k d b c l r)) (child (negb s) (T a k d b c l r)).
Proof. by destruct s. Qed.
Lemma height_mk s a k d b c x y : height (mk s a k d b c x y) = 1 + Z.max (height x) (height y).
Proof. destruct s; cbn; lia. Qed.
Lemma balanced_mk s a k d b c x y : balanced (mk s a k d b c x y) <->
  b = sign s * (height x - height y) /\ -1 <= b <= 1 /\ balanced x /\ balanced y.
Proof. destruct s; cbn; intuition lia. Qed.
Lemma height_pos t : 0 <= height t.
Proof. induction t; cbn; lia. Qed.
Lemma height_0 t : height t = 0 -> t = E.
Proof. destruct t; [done |]. cbn. pose proof (height_pos t1). lia. Qed.
Lemma sign_sq s : sign s * sign s = 1.
Proof. by destruct s. Qed.
Lemma sign_cases s : sign s = 1 \/ sign s = -1.
Proof. destruct s; auto. Qed.
Lemma child_mk s a k d b c x y : child s (mk s a k d b c x y) = x.
Proof. by destruct s. Qed.
Lemma child_other s a k d b c x y : child (negb s) (mk s a k d b c x y) = y.
Proof. by destruct s. Qed.

(** What stands before and behind on a side. *)
Definition beside {A} (s : bool) (x m y : list A) : list A := if s then y ++ m ++ x else x ++ m ++ y.
Lemma elems_mk s a k d b c x y : elems (mk s a k d b c x y) = beside s (elems x) [(k, d)] (elems y).
Proof. by destruct s. Qed.

(** * Rotations *)

(** The single rotation: the child [r] on the side [s] comes up. *)
Definition single (s : bool) (na nk nd nb : Z) (nc : bool) (ra rk rd rb : Z) (rc : bool) (ri ro y : tree) : tree :=
  mk s ra rk rd rb rc ri (mk s na nk nd nb nc ro y).
(** The double rotation: the inner grandchild comes up. *)
Definition double (s : bool) (na nk nd nb : Z) (nc : bool) (ra rk rd rb : Z) (rc : bool)
    (pa pk pd : Z) (pc : bool) (ri pi po y : tree) : tree :=
  mk s pa pk pd 0 pc (mk s ra rk rd rb rc ri pi) (mk s na nk nd nb nc po y).

(** The balances after a double rotation, of the old root and of its child. *)
Definition double_bal (s : bool) (pb : Z) : Z * Z :=
  if pb =? sign s then (- sign s, 0) else if pb =? 0 then (0, 0) else (0, sign s).

Lemma elems_single s na nk nd nb nc ra rk rd rb rc ri ro y na' nk' nb' nc' rb' :
  elems (single s na nk nd nb nc ra rk rd rb rc ri ro y) =
  elems (mk s na' nk nd nb' nc' (mk s nk' rk rd rb' rc ri ro) y).
Proof. destruct s; cbn; by rewrite <- ?app_assoc. Qed.
Lemma elems_double s na nk nd nb nc ra rk rd rb rc pa pk pd pc ri pi po y nb' nc' rb' pb' :
  elems (double s na nk nd nb nc ra rk rd rb rc pa pk pd pc ri pi po y) =
  elems (mk s na nk nd nb' nc' (mk s ra rk rd rb' rc ri (mk s pa pk pd pb' pc pi po)) y).
Proof. destruct s; cbn; repeat (rewrite <- ?app_assoc; cbn); done. Qed.

(** The side [s] has become too high by two. *)
Definition rotate (s : bool) (a k d : Z) (c : bool) (x y : tree) : tree :=
  match x with
  | E => E
  | T ra rk rd rb rc _ _ =>
      let ri := child s x in
      let ro := child (negb s) x in
      if rb =? sign s then single s a k d 0 c ra rk rd 0 rc ri ro y
      else
        match ro with
        | E => E
        | T pa pk pd pb pc _ _ =>
            let '(nb, rb) := double_bal s pb in
            double s a k d nb c ra rk rd rb rc pa pk pd pc ri (child s ro) (child (negb s) ro) y
        end
  end.

Lemma rotate_ok s a k d c x y : balanced x -> balanced y -> height x = height y + 2 -> bal x <> 0 ->
  balanced (rotate s a k d c x y) /\ height (rotate s a k d c x y) = height x.
Proof.
  intros Hx Hy Hh Hb. destruct x as [| ra rk rd rb rc l r]; [pose proof (height_pos y); cbn in Hh; lia |].
  cbn [bal] in Hb. unfold rotate. set (x := T ra rk rd rb rc l r) in *.
  assert (Ex : x = mk s ra rk rd rb rc (child s x) (child (negb s) x)) by apply mk_eq.
  set (ri := child s x) in *. set (ro := child (negb s) x) in *. clearbody x ri ro. subst x.
  apply balanced_mk in Hx as (Erb & Hrb & Hri & Hro). rewrite height_mk in *.
  destruct (Z.eqb_spec rb (sign s)) as [E1 | Hne].
  - unfold single. rewrite !balanced_mk, !height_mk. destruct (sign_cases s) as [S | S]; rewrite S in *; split_and!; lia || done.
  - assert (Hro1 : height ro = height ri + 1) by (destruct (sign_cases s) as [S | S]; rewrite S in *; lia).
    destruct ro as [| pa pk pd pb pc pl pr]; [cbn in Hro1; pose proof (height_pos ri); lia |].
    set (p := T pa pk pd pb pc pl pr) in *.
    assert (Ep : p = mk s pa pk pd pb pc (child s p) (child (negb s) p)) by apply mk_eq.
    set (pi := child s p) in *. set (po := child (negb s) p) in *. clearbody p pi po. subst p.
    apply balanced_mk in Hro as (Epb & Hpb & Hpi & Hpo). rewrite height_mk in *.
    unfold double_bal. destruct (Z.eqb_spec pb (sign s)); [| destruct (Z.eqb_spec pb 0)].
    all: unfold double; rewrite !balanced_mk, !height_mk; destruct (sign_cases s) as [S | S]; rewrite S in *.
    all: split_and!; lia || done.
Qed.

(** * Order *)

(** What a comparison promises: a total preorder. *)
Record cmp_ok (cmp : Z -> Z -> Z) : Prop := {
  cmp_refl a : cmp a a = 0;
  cmp_sym a b : cmp a b < 0 <-> 0 < cmp b a;
  cmp_trans a b c : cmp a b <= 0 -> cmp b c <= 0 -> cmp a c <= 0;
}.

Section Ordered.
Context (cmp : Z -> Z -> Z) (Hcmp : cmp_ok cmp).

Lemma cmp_eq a b : cmp a b = 0 <-> cmp b a = 0.
Proof.
  pose proof (cmp_sym _ Hcmp a b). pose proof (cmp_sym _ Hcmp b a). lia.
Qed.
Lemma cmp_lt_trans a b c : cmp a b < 0 -> cmp b c <= 0 -> cmp a c < 0.
Proof.
  intros H1 H2. pose proof (cmp_trans _ Hcmp a b c). pose proof (cmp_trans _ Hcmp b c a).
  pose proof (cmp_sym _ Hcmp a b). pose proof (cmp_sym _ Hcmp a c). pose proof (cmp_sym _ Hcmp c a).
  pose proof (cmp_sym _ Hcmp b a). lia.
Qed.
Lemma cmp_le_lt_trans a b c : cmp a b <= 0 -> cmp b c < 0 -> cmp a c < 0.
Proof.
  intros H1 H2. pose proof (cmp_trans _ Hcmp a b c). pose proof (cmp_trans _ Hcmp c a b).
  pose proof (cmp_sym _ Hcmp b c). pose proof (cmp_sym _ Hcmp a c). pose proof (cmp_sym _ Hcmp c a).
  pose proof (cmp_sym _ Hcmp c b). lia.
Qed.

(** Entries in ascending order, and the operations of a map on them. *)
Definition before (e f : Z * Z) : Prop := cmp e.1 f.1 < 0.
Definition ordered (es : list (Z * Z)) : Prop := StronglySorted before es.
Definition below (key : Z) (es : list (Z * Z)) : list (Z * Z) := List.filter (fun e => cmp e.1 key <? 0) es.
Definition above (key : Z) (es : list (Z * Z)) : list (Z * Z) := List.filter (fun e => 0 <? cmp e.1 key) es.
Definition put_entry (key data : Z) (es : list (Z * Z)) : list (Z * Z) := below key es ++ (key, data) :: above key es.
Definition del_entry (key : Z) (es : list (Z * Z)) : list (Z * Z) := below key es ++ above key es.
Definition get_entry (key : Z) (es : list (Z * Z)) : option Z :=
  snd <$> List.find (fun e => cmp e.1 key =? 0) es.
Definition absent (key : Z) (es : list (Z * Z)) : Prop := Forall (fun e => cmp e.1 key <> 0) es.

Definition all_below (key : Z) (es : list (Z * Z)) : Prop := Forall (fun e => cmp e.1 key < 0) es.
Definition all_above (key : Z) (es : list (Z * Z)) : Prop := Forall (fun e => 0 < cmp e.1 key) es.

Lemma filter_all {A} (f : A -> bool) l : Forall (fun x => f x = true) l -> List.filter f l = l.
Proof. induction 1 as [| x l H _ IH]; [done |]. cbn. by rewrite H, IH. Qed.
Lemma filter_none {A} (f : A -> bool) l : Forall (fun x => f x = false) l -> List.filter f l = [].
Proof. induction 1 as [| x l H _ IH]; [done |]. cbn. by rewrite H, IH. Qed.

Lemma below_of_below key es : all_below key es -> below key es = es /\ above key es = [].
Proof.
  intros H. split; [apply filter_all | apply filter_none]; (eapply Forall_impl; [exact H |]); intros e He; cbn in *;
    [apply Z.ltb_lt | apply Z.ltb_ge]; lia.
Qed.
Lemma below_of_above key es : all_above key es -> below key es = [] /\ above key es = es.
Proof.
  intros H. split; [apply filter_none | apply filter_all]; (eapply Forall_impl; [exact H |]); intros e He; cbn in *;
    [apply Z.ltb_ge | apply Z.ltb_lt]; lia.
Qed.
Lemma below_app key l1 l2 : below key (l1 ++ l2) = below key l1 ++ below key l2.
Proof. apply List.filter_app. Qed.
Lemma above_app key l1 l2 : above key (l1 ++ l2) = above key l1 ++ above key l2.
Proof. apply List.filter_app. Qed.

(** A change on one side of what is all above or below the key. *)
Lemma put_left key data l r : all_above key r -> put_entry key data (l ++ r) = put_entry key data l ++ r.
Proof.
  intros H. destruct (below_of_above key r H) as [E1 E2]. unfold put_entry.
  by rewrite below_app, above_app, E1, E2, app_nil_r, <- app_assoc.
Qed.
Lemma put_right key data l r : all_below key l -> put_entry key data (l ++ r) = l ++ put_entry key data r.
Proof.
  intros H. destruct (below_of_below key l H) as [E1 E2]. unfold put_entry.
  by rewrite below_app, above_app, E1, E2, <- app_assoc.
Qed.

Lemma ordered_app l r : ordered (l ++ r) <-> ordered l /\ ordered r /\ Forall (fun e => Forall (before e) r) l.
Proof.
  unfold ordered. induction l as [| x l IH]; cbn.
  - split; [intros H; split_and!; [constructor | done | constructor] | by intros (_ & H & _)].
  - split.
    + intros H. inversion H as [| ? ? Hl Hx]; subst. apply IH in Hl as (H1 & H2 & H3).
      apply Forall_app in Hx as [Hx1 Hx2]. split_and!; [by constructor | done | by constructor].
    + intros (H1 & H2 & H3). inversion H1 as [| ? ? Hl Hx]; subst. apply Forall_cons in H3 as [Hx2 H3].
      constructor; [apply IH; by split_and! | apply Forall_app; by split].
Qed.

Lemma below_key_l key k d l : cmp key k > 0 -> Forall (fun e => before e (k, d)) l -> all_below key l.
Proof.
  intros H Hl. eapply Forall_impl; [exact Hl |]. intros e He. unfold before in He. cbn in *.
  apply (cmp_lt_trans _ k); [done |]. pose proof (cmp_sym _ Hcmp k key). lia.
Qed.
Lemma above_key_r key k d r : cmp key k < 0 -> Forall (before (k, d)) r -> all_above key r.
Proof.
  intros H Hr. eapply Forall_impl; [exact Hr |]. intros e He. unfold before in He. cbn in *.
  apply (cmp_sym _ Hcmp). by apply (cmp_lt_trans _ k); [| lia].
Qed.

(** * Insertion *)

Section Insert.
Context (this key data : Z).

(** The side of the key, and the tree the search leaves: the comparisons cached
    on the way, the new node at its end. *)
Definition side (k : Z) : bool := negb (cmp key k <? 0).
Definition new : tree := T this key data 0 false E E.

Fixpoint attach (t : tree) : tree :=
  match t with
  | E => new
  | T a k d b c l r =>
      if side k then T a k d b true l (attach r) else T a k d b false (attach l) r
  end.
(** The same with the balances set on the way. *)
Fixpoint grow (t : tree) : tree :=
  match t with
  | E => new
  | T a k d b c l r =>
      if side k then T a k d 1 true l (grow r) else T a k d (-1) false (grow l) r
  end.
(** Some node on the way is out of balance. *)
Fixpoint leaning (t : tree) : bool :=
  match t with
  | E => false
  | T _ k _ b _ l r => negb (b =? 0) || if side k then leaning r else leaning l
  end.

(** A part of the tree that has grown on the side [s]. *)
Definition settle (s : bool) (a k d b : Z) (x y : tree) : tree :=
  if b =? 0 then mk s a k d (sign s) s x y
  else if b =? - sign s then mk s a k d 0 s x y
  else rotate s a k d s x y.

Fixpoint ins (t : tree) : tree :=
  match t with
  | E => new
  | T a k d b c l r =>
      if side k then
        if leaning r then T a k d b true l (ins r) else settle true a k d b (grow r) l
      else
        if leaning l then T a k d b false (ins l) r else settle false a k d b (grow l) r
  end.

Lemma grow_ok t : balanced t -> leaning t = false ->
  balanced (grow t) /\ height (grow t) = height t + 1 /\ (t <> E -> bal (grow t) <> 0).
Proof.
  induction t as [| a k d b c l IHl r IHr]; [done |]. cbn [leaning balanced grow].
  intros (Hb & Hb' & Hl & Hr) Hu. apply orb_false_iff in Hu as [Hb0 Hu].
  apply negb_false_iff, Z.eqb_eq in Hb0. destruct (side k).
  - destruct (IHr Hr Hu) as (H1 & H2 & _). cbn. split_and!; done || lia.
  - destruct (IHl Hl Hu) as (H1 & H2 & _). cbn. split_and!; done || lia.
Qed.

Lemma settle_ok s a k d b x y x0 : balanced (mk s a k d b s x0 y) -> balanced x ->
  height x = height x0 + 1 -> (x0 <> E -> bal x <> 0) ->
  balanced (settle s a k d b x y) /\
  height (settle s a k d b x y) = height (mk s a k d b s x0 y) + (if b =? 0 then 1 else 0).
Proof.
  rewrite balanced_mk, height_mk. intros (Eb & Hb & Hx0 & Hy) Hx Hh Hbal. unfold settle.
  pose proof (height_pos y). destruct (Z.eqb_spec b 0) as [-> | Hb0]; [| destruct (Z.eqb_spec b (- sign s)) as [E1 |]].
  - rewrite balanced_mk, height_mk. destruct (sign_cases s) as [S | S]; rewrite S in *; split_and!; done || lia.
  - rewrite balanced_mk, height_mk. destruct (sign_cases s) as [S | S]; rewrite S in *; split_and!; done || lia.
  - destruct (rotate_ok s a k d s x y) as [H1 H2]; [done | done | | |].
    + destruct (sign_cases s) as [S | S]; rewrite S in *; lia.
    + apply Hbal. intros ->. cbn in *. destruct (sign_cases s) as [S | S]; rewrite S in *; lia.
    + split; [done |]. rewrite H2. destruct (sign_cases s) as [S | S]; rewrite S in *; lia.
Qed.

(** The tree stays balanced; it grows when nothing on the way leaned. *)
Lemma ins_ok t : t <> E -> balanced t ->
  balanced (ins t) /\ height (ins t) = height t + (if leaning t then 0 else 1).
Proof.
  induction t as [| a k d b c l IHl r IHr]; [done |]. intros _ Hb. pose proof Hb as (E1 & E2 & Hl & Hr).
  cbn [ins leaning]. destruct (side k) eqn:Es.
  - destruct (leaning r) eqn:El.
    + destruct IHr as [H1 H2]; [by intros -> | done |]. rewrite orb_true_r.
      cbn. rewrite H2. split_and!; done || lia.
    + destruct (grow_ok r Hr El) as (H1 & H2 & H3).
      destruct (settle_ok true a k d b (grow r) l r) as [H4 H5]; [done.. |].
      split; [done |]. rewrite H5, orb_false_r. cbn. by destruct (b =? 0).
  - destruct (leaning l) eqn:El.
    + destruct IHl as [H1 H2]; [by intros -> | done |]. rewrite orb_true_r.
      cbn. rewrite H2. split_and!; done || lia.
    + destruct (grow_ok l Hl El) as (H1 & H2 & H3).
      destruct (settle_ok false a k d b (grow l) r l) as [H4 H5]; [done.. |].
      split; [done |]. rewrite H5, orb_false_r. cbn. by destruct (b =? 0).
Qed.

Lemma elems_rotate s a k d c x y na : balanced x -> bal x <> 0 -> height x = height y + 2 ->
  elems (rotate s a k d c x y) = elems (mk s a k d na c x y).
Proof.
  intros Hx Hb Hh. destruct x as [| ra rk rd rb rc l r]; [done |]. cbn [bal] in Hb. unfold rotate.
  set (x := T ra rk rd rb rc l r) in *.
  assert (Ex : x = mk s ra rk rd rb rc (child s x) (child (negb s) x)) by apply mk_eq.
  set (ri := child s x) in *. set (ro := child (negb s) x) in *. clearbody x ri ro. subst x.
  destruct (Z.eqb_spec rb (sign s)); [by apply elems_single |].
  apply balanced_mk in Hx as (Erb & Hrb & Hri & Hro). destruct ro as [| pa pk pd pb pc pl pr].
  - pose proof (height_pos ri). cbn in Erb. destruct (sign_cases s) as [S | S]; rewrite S in *; lia.
  - destruct (double_bal s pb) as [nb rb']. rewrite (mk_eq s pa pk pd pb pc pl pr) at 3. by apply elems_double.
Qed.

Lemma elems_settle s a k d b x y x0 : balanced (mk s a k d b s x0 y) -> balanced x ->
  height x = height x0 + 1 -> (x0 <> E -> bal x <> 0) ->
  elems (settle s a k d b x y) = elems (mk s a k d b s x y).
Proof.
  rewrite balanced_mk. intros (Eb & Hb & Hx0 & Hy) Hx Hh Hbal. unfold settle. pose proof (height_pos y).
  destruct (Z.eqb_spec b 0); [by rewrite !elems_mk |]. destruct (Z.eqb_spec b (- sign s)); [by rewrite !elems_mk |].
  apply elems_rotate; [done | |].
  - apply Hbal. intros ->. cbn in *. destruct (sign_cases s) as [S | S]; rewrite S in *; lia.
  - destruct (sign_cases s) as [S | S]; rewrite S in *; lia.
Qed.

(** In an ordered tree the key's side decides about all of the other side. *)
Lemma side_split k d l r : ordered (l ++ (k, d) :: r) -> absent key (l ++ (k, d) :: r) ->
  (ordered l /\ absent key l) /\ (ordered r /\ absent key r) /\
  if side k then all_below key (l ++ [(k, d)]) else all_above key ((k, d) :: r).
Proof.
  intros (Hl & Hr & Hlr)%ordered_app (Al & Ar)%Forall_app. inversion Hr as [| ? ? Hr' Hkr]; subst.
  apply Forall_cons in Ar as [Ak Ar]. cbn in Ak. pose proof (cmp_eq key k). split_and!; try done.
  unfold side. destruct (Z.ltb_spec (cmp key k) 0) as [Hk | Hk]; cbn [negb].
  - constructor; [by apply (cmp_sym _ Hcmp) | by apply (above_key_r key k d)].
  - assert (Hk' : cmp key k > 0) by lia. apply Forall_app. split.
    + apply (below_key_l key k d); [done |]. eapply Forall_impl; [exact Hlr |]. intros e He.
      by apply Forall_cons in He as [? _].
    + constructor; [| done]. cbn. apply (cmp_sym _ Hcmp). lia.
Qed.

Lemma put_beside k d l r : ordered (l ++ (k, d) :: r) -> absent key (l ++ (k, d) :: r) ->
  put_entry key data (l ++ (k, d) :: r) =
  if side k then l ++ (k, d) :: put_entry key data r else put_entry key data l ++ (k, d) :: r.
Proof.
  intros Ho Ha. destruct (side_split k d l r Ho Ha) as (_ & _ & H). destruct (side k).
  - rewrite cons_middle, app_assoc, put_right by done. by rewrite <- app_assoc.
  - by rewrite put_left.
Qed.

Lemma elems_grow t : ordered (elems t) -> absent key (elems t) -> elems (grow t) = put_entry key data (elems t).
Proof.
  induction t as [| a k d b c l IHl r IHr]; [done |]. cbn [elems grow]. intros Ho Ha.
  rewrite put_beside by done. destruct (side_split k d _ _ Ho Ha) as ((Hl & Al) & (Hr & Ar) & _).
  destruct (side k); cbn [elems]; [by rewrite IHr | by rewrite IHl].
Qed.

Lemma elems_ins t : balanced t -> ordered (elems t) -> absent key (elems t) ->
  elems (ins t) = put_entry key data (elems t).
Proof.
  induction t as [| a k d b c l IHl r IHr]; [done |]. intros Hbal Ho Ha. pose proof Hbal as (_ & _ & Hbl & Hbr).
  cbn [elems ins] in *. rewrite put_beside by done. destruct (side_split k d _ _ Ho Ha) as ((Hl & Al) & (Hr & Ar) & _).
  destruct (side k).
  - destruct (leaning r) eqn:El; [cbn [elems]; by rewrite IHr |].
    destruct (grow_ok r Hbr El) as (H1 & H2 & H3).
    rewrite (elems_settle true a k d b (grow r) l r) by done. cbn. by rewrite elems_grow.
  - destruct (leaning l) eqn:El; [cbn [elems]; by rewrite IHl |].
    destruct (grow_ok l Hbl El) as (H1 & H2 & H3).
    rewrite (elems_settle false a k d b (grow l) r l) by done. cbn. by rewrite elems_grow.
Qed.
End Insert.
End Ordered.
End AvlTree.
