(* ===== verification/AvlTake.v ===== *)
(** Balanced trees without a heap: what deletion makes of a tree, with the nodes
    on the way as a context around the place of the change. *)

From S2P Require Import Prelude Avl AvlTree.

Module AvlTake.
Import Avl AvlTree.

(** * Contexts *)

(** A node of which one child is the place, the side of that child first; a
    context lists them from the place up to the root. *)
Inductive frame := Fr (s : bool) (a k d b : Z) (c : bool) (sib : tree).

Definition plug1 (x : tree) (f : frame) : tree :=
  match f with Fr s a k d b c sib => mk s a k d b c x sib end.
Definition plug (fs : list frame) (x : tree) : tree := fold_left plug1 fs x.

Lemma plug_app fs gs x : plug (fs ++ gs) x = plug gs (plug fs x).
Proof. apply fold_left_app. Qed.

(** What stands around the place. *)
Fixpoint left_of (fs : list frame) : list (Z * Z) :=
  match fs with
  | [] => []
  | Fr s a k d b c sib :: fs => left_of fs ++ if s then elems sib ++ [(k, d)] else []
  end.
Fixpoint right_of (fs : list frame) : list (Z * Z) :=
  match fs with
  | [] => []
  | Fr s a k d b c sib :: fs => (if s then [] else (k, d) :: elems sib) ++ right_of fs
  end.
Lemma elems_plug fs x : elems (plug fs x) = left_of fs ++ elems x ++ right_of fs.
Proof.
  revert x. induction fs as [| [s a k d b c sib] fs IH]; intros x; [by rewrite app_nil_r |].
  change (plug _ x) with (plug fs (mk s a k d b c x sib)). rewrite IH, elems_mk.
  destruct s; cbn; by rewrite <- ?app_assoc.
Qed.

Lemma height_plug fs x y : height x = height y -> height (plug fs x) = height (plug fs y).
Proof.
  revert x y. induction fs as [| [s a k d b c sib] fs IH]; intros x y H; [done |].
  cbn. apply IH. by rewrite !height_mk, H.
Qed.
Lemma height_plug_ge fs x : Z.of_nat (length fs) + height x <= height (plug fs x).
Proof.
  revert x. induction fs as [| [s a k d b c sib] fs IH]; intros x; [cbn; lia |].
  change (plug _ x) with (plug fs (mk s a k d b c x sib)). specialize (IH (mk s a k d b c x sib)).
  rewrite height_mk in IH. cbn [length]. lia.
Qed.
Lemma balanced_plug_inv fs x : balanced (plug fs x) -> balanced x.
Proof.
  revert x. induction fs as [| [s a k d b c sib] fs IH]; intros x H; [done |].
  apply IH in H. by apply balanced_mk in H as (_ & _ & H & _).
Qed.
(** Another part of the same height fits. *)
Lemma balanced_plug fs x y : balanced (plug fs x) -> balanced y -> height y = height x -> balanced (plug fs y).
Proof.
  revert x y. induction fs as [| [s a k d b c sib] fs IH]; intros x y H Hy Hh; [done |].
  change (plug _ y) with (plug fs (mk s a k d b c y sib)).
  apply (IH (mk s a k d b c x sib)); [done | | by rewrite !height_mk, Hh].
  apply (balanced_plug_inv fs (mk s a k d b c x sib)) in H.
  apply balanced_mk in H as (H1 & H2 & H3 & H4). apply balanced_mk. by rewrite Hh.
Qed.

(** * A side that has become too low *)

(** Steps D11 to D13; the result tells whether the part has become lower. *)
Definition rot_low (s : bool) (a k d b : Z) (c : bool) (x sib : tree) : tree * bool :=
  match sib with
  | E => (E, true)
  | T ra rk rd rb rc _ _ =>
      let ri := child (negb s) sib in
      let ro := child s sib in
      if rb =? 0 then (single (negb s) a k d b c ra rk rd (sign s) rc ri ro x, false)
      else if rb =? - sign s then (single (negb s) a k d 0 c ra rk rd 0 rc ri ro x, true)
      else
        match ro with
        | E => (E, true)
        | T pa pk pd pb pc _ _ =>
            let '(nb, rb) := double_bal (negb s) pb in
            (double (negb s) a k d nb c ra rk rd rb rc pa pk pd pc ri (child (negb s) ro) (child s ro) x, true)
        end
  end.

Definition fix_low (s : bool) (a k d b : Z) (c : bool) (x sib : tree) : tree * bool :=
  if b =? sign s then (mk s a k d 0 c x sib, true)
  else if b =? 0 then (mk s a k d (- sign s) c x sib, false)
  else rot_low s a k d b c x sib.

Lemma mk_negb s a k d b c x y : mk s a k d b c x y = mk (negb s) a k d b c y x.
Proof. by destruct s. Qed.

Lemma sign_negb s : sign (negb s) = - sign s.
Proof. by destruct s. Qed.

(** It is a rotation of the other side, but for the sibling that is level. *)
Lemma rot_low_rotate s a k d b c x sib : bal sib <> 0 ->
  rot_low s a k d b c x sib = (rotate (negb s) a k d c sib x, true).
Proof.
  intros Hne. destruct sib as [| ra rk rd rb rc l r]; [done |]. cbn [bal] in Hne. unfold rot_low, rotate.
  replace (rb =? 0) with false by (symmetry; by apply Z.eqb_neq). rewrite sign_negb, negb_involutive.
  destruct (rb =? - sign s); [done |]. destruct (child s (T ra rk rd rb rc l r)); [done |].
  by destruct (double_bal _ _).
Qed.
Lemma rot_low_flat s a k d b c x ra rk rd rc ri ro :
  rot_low s a k d b c x (mk (negb s) ra rk rd 0 rc ri ro) =
    (single (negb s) a k d b c ra rk rd (sign s) rc ri ro x, false).
Proof. by destruct s. Qed.

Lemma rot_low_ok s a k d b c x sib : balanced x -> balanced sib -> height sib = height x + 2 -> b = - sign s ->
  balanced (rot_low s a k d b c x sib).1 /\
  height (rot_low s a k d b c x sib).1 = height sib + (if (rot_low s a k d b c x sib).2 then 0 else 1) /\
  elems (rot_low s a k d b c x sib).1 = elems (mk s a k d b c x sib).
Proof.
  intros Hx Hsib Hh Hb. rewrite mk_negb. destruct (decide (bal sib = 0)) as [H0 | Hne].
  - destruct sib as [| ra rk rd rb rc l r]; [pose proof (height_pos x); cbn in Hh; lia |].
    cbn [bal] in H0. subst rb. unfold rot_low. change (0 =? 0) with true. cbn [fst snd].
    set (sib := T ra rk rd 0 rc l r) in *.
    assert (Es : sib = mk (negb s) ra rk rd 0 rc (child (negb s) sib) (child s sib))
      by (rewrite <- (negb_involutive s) at 3; apply mk_eq).
    set (ri := child (negb s) sib) in *. set (ro := child s sib) in *. clearbody sib ri ro. subst sib.
    apply balanced_mk in Hsib as (E1 & _ & Hri & Hro). rewrite height_mk in *.
    split_and!; [| | by apply elems_single].
    + unfold single. rewrite !balanced_mk, !height_mk, sign_negb in *.
      destruct (sign_cases s) as [S | S]; rewrite S in *; split_and!; done || lia.
    + unfold single. rewrite !height_mk, sign_negb in *. destruct (sign_cases s) as [S | S]; rewrite S in *; lia.
  - rewrite rot_low_rotate by done. cbn [fst snd]. destruct (rotate_ok (negb s) a k d c sib x) as [H1 H2]; [done.. |].
    split_and!; [done | lia | by apply elems_rotate].
Qed.

Lemma fix_low_ok s a k d b c x x0 sib : balanced (mk s a k d b c x0 sib) -> balanced x -> height x = height x0 - 1 ->
  balanced (fix_low s a k d b c x sib).1 /\
  height (fix_low s a k d b c x sib).1 = height (mk s a k d b c x0 sib) - (if (fix_low s a k d b c x sib).2 then 1 else 0) /\
  elems (fix_low s a k d b c x sib).1 = elems (mk s a k d b c x sib).
Proof.
  rewrite balanced_mk, height_mk. intros (Eb & Hb & Hx0 & Hs) Hx Hh. unfold fix_low.
  destruct (Z.eqb_spec b (sign s)) as [E1 | N1]; [| destruct (Z.eqb_spec b 0) as [E2 | N2]]; cbn [fst snd].
  - rewrite balanced_mk, height_mk, !elems_mk. destruct (sign_cases s) as [S | S]; rewrite S in *; split_and!; done || lia.
  - rewrite balanced_mk, height_mk, !elems_mk. destruct (sign_cases s) as [S | S]; rewrite S in *; split_and!; done || lia.
  - assert (b = - sign s) by (destruct (sign_cases s) as [S | S]; rewrite S in *; lia).
    destruct (rot_low_ok s a k d b c x sib) as (H1 & H2 & H3); [done | done | | done |].
    + destruct (sign_cases s) as [S | S]; rewrite S in *; lia.
    + split_and!; [done | | done]. rewrite H2.
      destruct (rot_low s a k d b c x sib).2, (sign_cases s) as [S | S]; rewrite S in *; lia.
Qed.

(** Step D10, up the context. *)
Fixpoint up (fs : list frame) (x : tree) : tree :=
  match fs with
  | [] => x
  | Fr s a k d b c sib :: fs =>
      let '(t, lower) := fix_low s a k d b c x sib in if lower then up fs t else plug fs t
  end.

Lemma up_ok fs x x0 : balanced (plug fs x0) -> balanced x -> height x = height x0 - 1 ->
  balanced (up fs x) /\ elems (up fs x) = elems (plug fs x).
Proof.
  revert x x0. induction fs as [| [s a k d b c sib] fs IH]; intros x x0 H Hx Hh; [done |].
  change (plug _ x0) with (plug fs (mk s a k d b c x0 sib)) in H.
  change (plug _ x) with (plug fs (mk s a k d b c x sib)).
  destruct (fix_low_ok s a k d b c x x0 sib (balanced_plug_inv _ _ H) Hx Hh) as (H1 & H2 & H3).
  cbn [up]. destruct (fix_low s a k d b c x sib) as [t lower]. cbn [fst snd] in *.
  rewrite (elems_plug fs (mk _ _ _ _ _ _ _ _)), <- H3, <- elems_plug. destruct lower.
  - by apply (IH _ (mk s a k d b c x0 sib)).
  - split; [| done]. apply (balanced_plug fs (mk s a k d b c x0 sib)); [done | done | lia].
Qed.

(** * Taking a node out *)

(** The way down to the leftmost node, that node and what hangs on its right. *)
Fixpoint min_split (a k d b : Z) (c : bool) (l r : tree) : list frame * (Z * Z * Z * bool) * tree :=
  match l with
  | E => ([], (a, k, d, c), r)
  | T al kl dl bl cl ll rl =>
      let '(fs, m, x) := min_split al kl dl bl cl ll rl in (fs ++ [Fr false a k d b c r], m, x)
  end.

Lemma left_of_app fs gs : left_of (fs ++ gs) = left_of gs ++ left_of fs.
Proof.
  induction fs as [| [s a k d b c sib] fs IH]; [by rewrite app_nil_r |]. cbn. by rewrite IH, app_assoc.
Qed.
Lemma min_split_spec a k d b c l r :
  let '(fs, (ma, mk_, md, mc), x) := min_split a k d b c l r in
  left_of fs = [] /\ exists mb, T a k d b c l r = plug fs (T ma mk_ md mb mc E x).
Proof.
  revert a k d b c r. induction l as [| al kl dl bl cl ll IH rl _]; intros a k d b c r; cbn [min_split].
  - split; [done | by exists b].
  - specialize (IH al kl dl bl cl rl). destruct (min_split al kl dl bl cl ll rl) as [[fs [[[ma mk_] md] mc]] x].
    destruct IH as [Hl [mb IH]]. split; [by rewrite left_of_app, Hl | exists mb; by rewrite plug_app, <- IH].
Qed.

Definition flat (t : tree) : tree := match t with E => E | T a k d _ c l r => T a k d 0 c l r end.

(** Steps D5 to D9: the context and the place after the node is gone. *)
Definition taken (fs : list frame) (b : Z) (l r : tree) : list frame * tree :=
  match r with
  | E => (fs, flat l)
  | T ar kr dr br cr lr rr =>
      let '(gs, (ma, mk_, md, mc), x) := min_split ar kr dr br cr lr rr in
      (gs ++ Fr true ma mk_ md b mc l :: fs, x)
  end.

Lemma taken_suffix fs b l r : exists gs, (taken fs b l r).1 = gs ++ fs.
Proof.
  destruct r as [| ar kr dr br cr lr rr]; [by exists [] |]. unfold taken.
  destruct (min_split ar kr dr br cr lr rr) as [[gs [[[ma mk_] md] mc]] x].
  exists (gs ++ [Fr true ma mk_ md b mc l]). cbn. by rewrite <- app_assoc.
Qed.

Lemma taken_ok fs a k d b c l r : balanced (plug fs (T a k d b c l r)) ->
  let '(gs, x) := taken fs b l r in
  (exists x0, balanced (plug gs x0) /\ balanced x /\ height x = height x0 - 1) /\
  elems (plug gs x) = left_of fs ++ (elems l ++ elems r) ++ right_of fs.
Proof.
  intros Hb. pose proof (balanced_plug_inv _ _ Hb) as (E1 & E2 & Hl & Hr). unfold taken.
  destruct r as [| ar kr dr br cr lr rr].
  - cbn in E1. split; [| rewrite elems_plug; cbn; rewrite app_nil_r; by destruct l].
    exists (T a k d b c l E). split; [done |]. cbn [height]. destruct l as [| al kl dl bl cl ll rl]; [done |].
    destruct Hl as (F1 & F2 & F3 & F4). pose proof (height_pos ll). pose proof (height_pos rl).
    cbn in E1 |- *. split_and!; done || lia.
  - pose proof (min_split_spec ar kr dr br cr lr rr) as Hm.
    destruct (min_split ar kr dr br cr lr rr) as [[gs [[[ma mk_] md] mc]] x]. destruct Hm as [Hgs [mb Hm]].
    set (r := T ar kr dr br cr lr rr) in *. clearbody r. subst r.
    pose proof (balanced_plug_inv _ _ Hr) as (F1 & F2 & _ & Hx). cbn in F1. pose proof (height_pos x). split.
    + exists (T ma mk_ md mb mc E x). split_and!; [| done | cbn; lia].
      rewrite plug_app. change (plug (_ :: fs) ?t) with (plug fs (mk true ma mk_ md b mc t l)).
      apply (balanced_plug fs (T a k d b c l (plug gs (T ma mk_ md mb mc E x)))); [done | | done].
      exact (conj E1 (conj E2 (conj Hl Hr))).
    + rewrite plug_app, elems_plug. cbn [left_of right_of]. rewrite !elems_plug, Hgs. cbn [elems app].
      by repeat (rewrite <- ?app_assoc; cbn [app]).
Qed.

Section Find.
Context (cmp : Z -> Z -> Z) (Hcmp : cmp_ok cmp) (key : Z).

(** The way down to the node with the key. *)
Fixpoint find_path (fs : list frame) (t : tree) : option (list frame * tree) :=
  match t with
  | E => None
  | T a k d b c l r =>
      if cmp key k =? 0 then Some (fs, t)
      else if side cmp key k then find_path (Fr true a k d b c l :: fs) r
      else find_path (Fr false a k d b c r :: fs) l
  end.

Lemma find_path_spec fs t : match find_path fs t with
  | Some (gs, p) => plug gs p = plug fs t /\ exists a k d b c l r, p = T a k d b c l r /\ cmp key k = 0
  | None => True
  end.
Proof.
  revert fs. induction t as [| a k d b c l IHl r IHr]; intros fs; [done |]. cbn [find_path].
  destruct (Z.eqb_spec (cmp key k) 0); [split; [done |]; by exists a, k, d, b, c, l, r |].
  destruct (side cmp key k); [apply (IHr (Fr true a k d b c l :: fs)) | apply (IHl (Fr false a k d b c r :: fs))].
Qed.

Lemma ordered_sides l k d r : ordered cmp (l ++ (k, d) :: r) ->
  ordered cmp l /\ ordered cmp r /\ Forall (fun e => before cmp e (k, d)) l /\ Forall (before cmp (k, d)) r.
Proof.
  intros (Hl & Hr & Hlr)%ordered_app. inversion Hr as [| ? ? Hr' Hkr]; subst. split_and!; try done.
  eapply Forall_impl; [exact Hlr |]. intros e He. by apply Forall_cons in He as [? _].
Qed.

Lemma find_path_none fs t : ordered cmp (elems t) -> find_path fs t = None -> absent cmp key (elems t).
Proof.
  revert fs. induction t as [| a k d b c l IHl r IHr]; intros fs Ho; [constructor |]. cbn [find_path elems].
  destruct (Z.eqb_spec (cmp key k) 0) as [| Hk]; [done |]. cbn [elems] in Ho.
  destruct (ordered_sides _ _ _ _ Ho) as (Hl & Hr & Hkl & Hkr).
  pose proof (cmp_sym _ Hcmp key k). pose proof (cmp_sym _ Hcmp k key).
  unfold side. destruct (Z.ltb_spec (cmp key k) 0) as [Hlt | Hge]; cbn [negb]; intros Hf; apply Forall_app; split.
  - by apply (IHl _ Hl Hf).
  - constructor; [cbn; lia |]. eapply Forall_impl; [exact (above_key_r cmp Hcmp key k d _ Hlt Hkr) |]. intros e He. cbn in He. lia.
  - eapply Forall_impl; [apply (below_key_l cmp Hcmp key k d); [lia | exact Hkl] |]. intros e He. cbn in He. lia.
  - constructor; [cbn; lia | by apply (IHr _ Hr Hf)].
Qed.

Lemma del_entry_absent es : ordered cmp es -> absent cmp key es -> del_entry cmp key es = es.
Proof.
  unfold del_entry. induction es as [| e es IH]; intros Ho Ha; [done |].
  inversion Ho as [| ? ? Ho' He]; subst. apply Forall_cons in Ha as [Hke Ha]. cbn [below above List.filter].
  fold (below cmp key es) (above cmp key es). destruct (Z.ltb_spec (cmp e.1 key) 0).
  - replace (0 <? cmp e.1 key) with false by zbool. cbn. by rewrite IH.
  - replace (0 <? cmp e.1 key) with true by zbool.
    assert (H1 : all_above cmp key (e :: es)).
    { constructor; [lia |]. destruct e as [k d]. apply (above_key_r cmp Hcmp key k d); [| done].
      cbn in *. apply (cmp_sym _ Hcmp). lia. }
    apply Forall_cons in H1 as [_ H1]. destruct (below_of_above cmp key es H1) as [-> ->]. done.
Qed.

(** An entry between those below and above it is the one that goes. *)
Lemma del_entry_at l k d r : cmp key k = 0 -> ordered cmp (l ++ (k, d) :: r) ->
  del_entry cmp key (l ++ (k, d) :: r) = l ++ r.
Proof.
  intros Hk Ho. destruct (ordered_sides _ _ _ _ Ho) as (Hl & Hr & Hkl & Hkr).
  pose proof (proj1 (cmp_eq cmp Hcmp key k) Hk) as Hk'.
  assert (Hbl : all_below cmp key l).
  { eapply Forall_impl; [exact Hkl |]. intros e He. apply (cmp_lt_trans cmp Hcmp _ k); [exact He | lia]. }
  assert (Har : all_above cmp key r).
  { eapply Forall_impl; [exact Hkr |]. intros e He. apply (cmp_sym _ Hcmp).
    apply (cmp_le_lt_trans cmp Hcmp _ k); [lia | exact He]. }
  unfold del_entry. rewrite below_app, above_app. cbn [below above List.filter fst]. rewrite Hk'.
  fold (below cmp key r) (above cmp key r). change (0 <? 0) with false. cbn [below above].
  destruct (below_of_below cmp key l Hbl) as [-> ->]. destruct (below_of_above cmp key r Har) as [-> ->].
  by rewrite app_nil_r.
Qed.

Definition del (t : tree) : tree :=
  match find_path [] t with
  | Some (fs, T _ _ _ b _ l r) => let '(gs, x) := taken fs b l r in up gs x
  | _ => t
  end.

Lemma del_ok t : balanced t -> ordered cmp (elems t) ->
  balanced (del t) /\ elems (del t) = del_entry cmp key (elems t).
Proof.
  intros Hb Ho. unfold del. pose proof (find_path_spec [] t) as Hf. pose proof (find_path_none [] t Ho) as Hn.
  destruct (find_path [] t) as [[fs p] |].
  - destruct Hf as (Ep & a & k & d & b & c & l & r & -> & Hk). cbn [plug fold_left] in Ep. subst t.
    pose proof (taken_ok fs a k d b c l r Hb) as Ht. destruct (taken fs b l r) as [gs x].
    destruct Ht as ((x0 & H0 & Hx & Hh) & Ee). destruct (up_ok gs x x0 H0 Hx Hh) as [H1 H2].
    split; [done |]. rewrite H2, Ee. rewrite elems_plug in Ho |- *. cbn [elems] in *.
    assert (E : left_of fs ++ (elems l ++ (k, d) :: elems r) ++ right_of fs =
      (left_of fs ++ elems l) ++ (k, d) :: elems r ++ right_of fs) by (by rewrite <- !app_assoc).
    rewrite E in Ho |- *. rewrite (del_entry_at _ k d) by done. by rewrite <- !app_assoc.
  - split; [done |]. rewrite del_entry_absent by auto. done.
Qed.
End Find.
End AvlTake.
