(* ===== verification/AvlHeap.v ===== *)
(** Balanced trees on the heap: when the memory holds a tree, and how the single
    assignments of the code change that. *)

From S2P Require Import Prelude Avl AvlTree AvlTake.

Module AvlHeap.
Import Avl AvlTree AvlTake.

(** * Memory that holds a tree *)

(** A node with the link on a side and the one on the other. *)
Definition nd (s : bool) (k d b : Z) (c : bool) (p q : Z) : node :=
  mk_node k d b c (if s then q else p) (if s then p else q).

Fixpoint holds (h : gmap Z node) (t : tree) : Prop :=
  match t with
  | E => True
  | T a k d b c l r => a <> 0 /\ h !! a = Some (mk_node k d b c (ptr l) (ptr r)) /\ holds h l /\ holds h r
  end.

(** The same for what is around a place whose tree starts at [p]. *)
Fixpoint holds_ctx (h : gmap Z node) (p : Z) (fs : list frame) : Prop :=
  match fs with
  | [] => True
  | Fr s a k d b c sib :: fs =>
      a <> 0 /\ h !! a = Some (nd s k d b c p (ptr sib)) /\ holds h sib /\ holds_ctx h a fs
  end.
Fixpoint addrs_ctx (fs : list frame) : list Z :=
  match fs with [] => [] | Fr s a k d b c sib :: fs => a :: addrs sib ++ addrs_ctx fs end.

Lemma holds_mk h s a k d b c x y : holds h (mk s a k d b c x y) <->
  a <> 0 /\ h !! a = Some (nd s k d b c (ptr x) (ptr y)) /\ holds h x /\ holds h y.
Proof. destruct s; cbn; intuition. Qed.
Lemma addrs_mk s a k d b c x y : addrs (mk s a k d b c x y) ≡ₚ a :: addrs x ++ addrs y.
Proof. destruct s; cbn; [by rewrite (Permutation_app_comm (addrs y)) | done]. Qed.
Lemma ptr_mk s a k d b c x y : ptr (mk s a k d b c x y) = a.
Proof. by destruct s. Qed.

Lemma holds_agree h h' t : (forall a, a ∈ addrs t -> h' !! a = h !! a) -> holds h t -> holds h' t.
Proof.
  induction t as [| a k d b c l IHl r IHr]; [done |]. cbn [holds addrs]. intros H (Ha & E & Hl & Hr).
  split_and!; [done | rewrite H by left; done | apply IHl; [| done] | apply IHr; [| done]].
  all: intros a' Ha'; apply H; right; apply elem_of_app; auto.
Qed.
Lemma holds_insert h a n t : a ∉ addrs t -> holds h t -> holds (<[a := n]> h) t.
Proof. intros Ha. apply holds_agree. intros a' Ha'. apply lookup_insert_ne. by intros ->. Qed.
Lemma holds_ctx_agree h h' p fs : (forall a, a ∈ addrs_ctx fs -> h' !! a = h !! a) ->
  holds_ctx h p fs -> holds_ctx h' p fs.
Proof.
  revert p. induction fs as [| [s a k d b c sib] fs IH]; intros p; [done |]. cbn [holds_ctx addrs_ctx].
  intros H (Ha & E & Hs & Hfs). split_and!; [done | rewrite H by left; done | | ].
  - apply (holds_agree h); [| done]. intros a' Ha'. apply H. right. apply elem_of_app. by left.
  - apply IH; [| done]. intros a' Ha'. apply H. right. apply elem_of_app. by right.
Qed.

Lemma holds_plug h fs x : holds h (plug fs x) <-> holds h x /\ holds_ctx h (ptr x) fs.
Proof.
  revert x. induction fs as [| [s a k d b c sib] fs IH]; intros x; [by cbn; intuition |].
  change (plug _ x) with (plug fs (mk s a k d b c x sib)). rewrite IH, holds_mk, ptr_mk. cbn. intuition.
Qed.
Lemma addrs_plug fs x : addrs (plug fs x) ≡ₚ addrs x ++ addrs_ctx fs.
Proof.
  revert x. induction fs as [| [s a k d b c sib] fs IH]; intros x; [by rewrite app_nil_r |].
  change (plug _ x) with (plug fs (mk s a k d b c x sib)). rewrite IH, addrs_mk. cbn. rewrite <- app_assoc.
  apply Permutation_middle.
Qed.
Lemma ptr_0 h t : holds h t -> ptr t = 0 -> t = E.
Proof. destruct t; [done |]. cbn. by intros [? _] ?. Qed.
Lemma ptr_addrs t : t <> E -> ptr t ∈ addrs t.
Proof. destruct t; [done |]. intros _. left. Qed.

(** ** What is written elsewhere *)

(** Only the nodes of [A] differ. *)
Definition agree (A : list Z) (h h' : gmap Z node) : Prop := forall a, a ∉ A -> h' !! a = h !! a.
Lemma agree_refl A h : agree A h h.
Proof. done. Qed.
Lemma agree_trans A h1 h2 h3 : agree A h1 h2 -> agree A h2 h3 -> agree A h1 h3.
Proof. intros H1 H2 a Ha. by rewrite H2, H1. Qed.
Lemma agree_insert A h h' a n : a ∈ A -> agree A h h' -> agree A h (<[a := n]> h').
Proof. intros Ha H a' Ha'. rewrite lookup_insert_ne by (by intros ->). by apply H. Qed.
Lemma agree_weaken A B h h' : A ⊆ B -> agree A h h' -> agree B h h'.
Proof. intros HA H a Ha. apply H. set_solver. Qed.
Lemma holds_outside A h h' t : agree A h h' -> A ## addrs t -> holds h t -> holds h' t.
Proof. intros H Hd. apply holds_agree. intros a Ha. apply H. set_solver. Qed.
Lemma holds_ctx_outside A h h' p fs : agree A h h' -> A ## addrs_ctx fs -> holds_ctx h p fs -> holds_ctx h' p fs.
Proof. intros H Hd. apply holds_ctx_agree. intros a Ha. apply H. set_solver. Qed.

Lemma nodup_perm {A} (l k : list A) : l ≡ₚ k -> NoDup l -> NoDup k.
Proof. by intros ->. Qed.

Lemma holds_lookup h t a : holds h t -> a ∈ addrs t -> a <> 0 /\ is_Some (h !! a).
Proof.
  induction t as [| a' k d b c l IHl r IHr]; cbn [holds addrs]; [intros _ H; by apply not_elem_of_nil in H |].
  intros (H0 & E & Hl & Hr) [-> | [H | H]%elem_of_app]%elem_of_cons; [by rewrite E | auto | auto].
Qed.
Lemma holds_ctx_lookup h p fs a : holds_ctx h p fs -> a ∈ addrs_ctx fs -> a <> 0 /\ is_Some (h !! a).
Proof.
  revert p. induction fs as [| [s a' k d b c sib] fs IH]; intros p; cbn [holds_ctx addrs_ctx];
    [intros _ H; by apply not_elem_of_nil in H |].
  intros (H0 & E & Hs & Hfs) [-> | [H | H]%elem_of_app]%elem_of_cons; [by rewrite E | | by eapply IH].
  by apply (holds_lookup h sib).
Qed.
Lemma addrs_size h t : holds h t -> NoDup (addrs t) -> (length (addrs t) <= size h)%nat.
Proof.
  intros H Hn. rewrite <- (size_list_to_set (C := gset Z)), <- size_dom by done. apply subseteq_size.
  intros a Ha%elem_of_list_to_set. apply elem_of_dom. by apply (holds_lookup h t).
Qed.

(** * Assignments *)

Definition with_nodes (h : gmap Z node) (st : avl_t) : avl_t :=
  mk_avl h st.(root) st.(Compare) st.(DestroyKey) st.(DestroyDaten) st.(calls).
Definition with_root (p : Z) (st : avl_t) : avl_t :=
  mk_avl st.(nodes) p st.(Compare) st.(DestroyKey) st.(DestroyDaten) st.(calls).

Lemma node_at_run p n st : st.(nodes) !! p = Some n -> node_at p st = Some (n, st).
Proof. intros H. unfold node_at. by rewrite bind_gets, H. Qed.
Lemma set_node_run p f n st : st.(nodes) !! p = Some n ->
  set_node p f st = Some (tt, with_nodes (<[p := f n]> st.(nodes)) st).
Proof. intros H. unfold set_node. by rewrite (bind_some _ _ _ _ _ (node_at_run p n st H)). Qed.
Lemma get_link_run p s n st : st.(nodes) !! p = Some n -> get_link p s st = Some (Link s n, st).
Proof. intros H. unfold get_link. by rewrite (bind_some _ _ _ _ _ (node_at_run p n st H)). Qed.
Lemma compare_run cmp a b st : st.(Compare) = Some cmp -> compare a b st = Some (cmp a b, st).
Proof. intros H. unfold compare. by rewrite bind_gets, H. Qed.

Lemma link_nd s k d b c p q : Link s (nd s k d b c p q) = p.
Proof. by destruct s. Qed.
Lemma link_other s k d b c p q : Link (negb s) (nd s k d b c p q) = q.
Proof. by destruct s. Qed.
Lemma with_link_nd s k d b c p q v : with_link s v (nd s k d b c p q) = nd s k d b c v q.
Proof. by destruct s. Qed.
Lemma with_link_other s k d b c p q v : with_link (negb s) v (nd s k d b c p q) = nd s k d b c p v.
Proof. by destruct s. Qed.
Lemma with_bal_nd s k d b c p q v : (nd s k d b c p q) <| Bal := v |> = nd s k d v c p q.
Proof. done. Qed.
Lemma with_cache_nd s k d b c p q v : (nd s k d b c p q) <| cache := v |> = nd s k d b v p q.
Proof. done. Qed.
Lemma nd_negb s k d b c p q : nd (negb s) k d b c q p = nd s k d b c p q.
Proof. by destruct s. Qed.
Lemma mk_node_nd s k d b c l r : mk_node k d b c l r = nd s k d b c (if s then r else l) (if s then l else r).
Proof. by destruct s. Qed.

Lemma bal_of_nd s k d b c p q : Bal (nd s k d b c p q) = b.
Proof. done. Qed.
Lemma key_of_nd s k d b c p q : Key (nd s k d b c p q) = k.
Proof. done. Qed.
Lemma cache_of_nd s k d b c p q : cache (nd s k d b c p q) = c.
Proof. done. Qed.

(** The node in a heap that has been written several times. *)
Ltac look := cbn [nodes with_nodes with_root root Compare]; rewrite ?lookup_insert_ne by congruence;
  first [apply lookup_insert_eq | eassumption].
(** One assignment or read. *)
Ltac heap_step :=
  first
    [ erewrite (bind_some (node_at _)); [| apply node_at_run; look]
    | erewrite (bind_some (get_link _ _)); [| apply get_link_run; look]
    | unfold set_link at 1; erewrite (bind_some (set_node _ _)); [| apply set_node_run; look]
    | unfold set_bal at 1; erewrite (bind_some (set_node _ _)); [| apply set_node_run; look]
    | erewrite (bind_some (set_node _ _)); [| apply set_node_run; look] ].
Ltac node_simpl := cbv beta; rewrite ?negb_involutive, ?bal_of_nd, ?key_of_nd, ?cache_of_nd, ?link_nd, ?link_other, ?with_link_nd,
  ?with_link_other, ?with_bal_nd, ?with_cache_nd.
(** A sequence of them. *)
Ltac heap_run := repeat (heap_step; node_simpl).
Ltac heap_agree := cbn [nodes with_nodes with_root]; repeat (apply agree_insert; [set_solver |]); first [apply agree_refl | done].
(** ** Whether an address is in a list *)

Lemma split_l {A} (l1 l2 : list A) (P : A -> Prop) :
  (forall x, x ∈ l1 ++ l2 -> P x) -> (forall x, x ∈ l1 -> P x) /\ (forall x, x ∈ l2 -> P x).
Proof. intros H. split; intros x Hx; apply H, elem_of_app; auto. Qed.
Lemma split_r {A} (l k1 k2 : list A) :
  (forall x, x ∈ l -> x ∉ k1 ++ k2) -> (forall x, x ∈ l -> x ∉ k1) /\ (forall x, x ∈ l -> x ∉ k2).
Proof. intros H. split; intros x Hx Hx'; apply (H x Hx), elem_of_app; auto. Qed.
Lemma split_cons_l {A} (a : A) (l : list A) (P : A -> Prop) :
  (forall x, x ∈ a :: l -> P x) -> P a /\ (forall x, x ∈ l -> P x).
Proof. intros H. split; [apply H; left | intros x Hx; apply H; by right]. Qed.
Lemma split_cons_r {A} (a : A) (l k : list A) :
  (forall x, x ∈ l -> x ∉ a :: k) -> a ∉ l /\ (forall x, x ∈ l -> x ∉ k).
Proof. intros H. split; [intros Ha; apply (H a Ha); left | intros x Hx Hx'; apply (H x Hx); by right]. Qed.
Ltac members :=
  repeat match goal with
  | |- forall _, _ => intro
  | |- not _ => intro
  | |- _ ## _ => intros ? ? ?
  | |- _ ⊆ _ => intros ? ?
  | |- _ /\ _ => split
  | H : _ /\ _ |- _ => destruct H
  | H : _ \/ _ |- _ => destruct H
  | H : _ ∉ _ :: _ |- _ => apply not_elem_of_cons in H
  | H : _ ∉ _ ++ _ |- _ => apply not_elem_of_app in H
  | H : _ ∈ _ :: _ |- _ => apply elem_of_cons in H
  | H : _ ∈ _ ++ _ |- _ => apply elem_of_app in H
  | H : _ ∈ [] |- _ => by apply not_elem_of_nil in H
  | H : forall x, x ∈ _ ++ _ -> _ |- _ => apply split_l in H
  | H : forall x, x ∈ _ -> x ∉ _ ++ _ |- _ => apply split_r in H
  | H : forall x, x ∈ _ :: _ -> _ |- _ => apply split_cons_l in H
  | H : forall x, x ∈ _ -> x ∉ _ :: _ |- _ => apply split_cons_r in H
  | H : ?x = _ |- _ => is_var x; subst x
  | H : _ = ?x |- _ => is_var x; subst x
  end; rewrite ?elem_of_cons, ?elem_of_app;
  first [ congruence | tauto | match goal with
  | H : forall x, x ∈ ?l -> x ∉ ?k, H1 : ?v ∈ ?l, H2 : ?w ∈ ?k |- _ =>
      exfalso; apply (H v H1); replace v with w by congruence; exact H2 end ].
End AvlHeap.
