(* ===== verification/AvlPut.v ===== *)
(** Insertion into a balanced tree on the heap. *)

From S2P Require Import Prelude Avl AvlTree AvlTake AvlHeap.

Module AvlPut.
Import Avl AvlTree AvlTake AvlHeap.

(** * The rotations *)

Lemma addrs_single s na nk nd nb nc ra rk rd rb rc ri ro y :
  addrs (single s na nk nd nb nc ra rk rd rb rc ri ro y) ≡ₚ na :: ra :: addrs ri ++ addrs ro ++ addrs y.
Proof. unfold single. rewrite addrs_mk, addrs_mk. rewrite <- Permutation_middle. apply perm_swap. Qed.
Lemma addrs_double s na nk nd nb nc ra rk rd rb rc pa pk pd pc ri pi po y :
  addrs (double s na nk nd nb nc ra rk rd rb rc pa pk pd pc ri pi po y) ≡ₚ
    na :: ra :: pa :: addrs ri ++ addrs pi ++ addrs po ++ addrs y.
Proof. unfold double. rewrite !addrs_mk. cbn. solve_Permutation. Qed.

(** Both children of a node that is not empty. *)
Lemma tree_mk s t : t <> E -> exists a k d b c, t = mk s a k d b c (child s t) (child (negb s) t).
Proof. destruct t as [| a k d b c l r]; [done |]. intros _. exists a, k, d, b, c. apply mk_eq. Qed.
Lemma tree_cases s t : t <> E -> exists a k d b c x y, t = mk s a k d b c x y.
Proof. intros H. destruct (tree_mk s t H) as (a & k & d & b & c & Ex). eauto 8. Qed.
Lemma bal_mk s a k d b c x y : bal (mk s a k d b c x y) = b.
Proof. by destruct s. Qed.

(** [rotate] by the kind of rotation. *)
Lemma rotate_single s a k d c y ra rk rd rb rc ri ro : rb = sign s ->
  rotate s a k d c (mk s ra rk rd rb rc ri ro) y = single s a k d 0 c ra rk rd 0 rc ri ro y.
Proof. intros ->. unfold rotate. destruct s; cbn; done. Qed.
Lemma rotate_double s a k d c y ra rk rd rb rc ri pa pk pd pb pc pi po : rb <> sign s ->
  rotate s a k d c (mk s ra rk rd rb rc ri (mk s pa pk pd pb pc pi po)) y =
    double s a k d (double_bal s pb).1 c ra rk rd (double_bal s pb).2 rc pa pk pd pc ri pi po y.
Proof.
  intros H%Z.eqb_neq. unfold rotate. destruct s; cbn [mk child negb]; rewrite H; by destruct (double_bal _ _).
Qed.

(** ** On the heap *)

Lemma holds_single h h' s na nk nd_ nb nb' nc ra rk rd rb rb' rc ri ro y :
  holds h (mk s na nk nd_ nb nc (mk s ra rk rd rb rc ri ro) y) ->
  NoDup (addrs (mk s na nk nd_ nb nc (mk s ra rk rd rb rc ri ro) y)) ->
  h' !! na = Some (nd s nk nd_ nb' nc (ptr ro) (ptr y)) ->
  h' !! ra = Some (nd s rk rd rb' rc (ptr ri) na) -> agree [na; ra] h h' ->
  holds h' (single s na nk nd_ nb' nc ra rk rd rb' rc ri ro y).
Proof.
  rewrite !addrs_mk, !holds_mk. intros (Hn & _ & (Hr & _ & Hri & Hro) & Hy) Hd En Er Ha.
  cbn [app] in Hd. rewrite !NoDup_cons in Hd. destruct Hd as (H1 & H2 & _).
  unfold single. rewrite !holds_mk, ptr_mk. split_and!; try done; eapply holds_outside; try done; members.
Qed.

Lemma holds_double h h' s na nk nd_ nb nb' nc ra rk rd rb rb' rc pa pk pd pb pc ri pi po y :
  holds h (mk s na nk nd_ nb nc (mk s ra rk rd rb rc ri (mk s pa pk pd pb pc pi po)) y) ->
  NoDup (addrs (mk s na nk nd_ nb nc (mk s ra rk rd rb rc ri (mk s pa pk pd pb pc pi po)) y)) ->
  h' !! na = Some (nd s nk nd_ nb' nc (ptr po) (ptr y)) ->
  h' !! ra = Some (nd s rk rd rb' rc (ptr ri) (ptr pi)) ->
  h' !! pa = Some (nd s pk pd 0 pc ra na) -> agree [na; ra; pa] h h' ->
  holds h' (double s na nk nd_ nb' nc ra rk rd rb' rc pa pk pd pc ri pi po y).
Proof.
  rewrite !addrs_mk, !holds_mk. intros (Hn & _ & (Hr & _ & Hri & (Hp & _ & Hpi & Hpo)) & Hy) Hd En Er Ep Ha.
  assert (Hd' : NoDup (na :: ra :: pa :: addrs ri ++ addrs pi ++ addrs po ++ addrs y))
    by (eapply nodup_perm; [| exact Hd]; cbn; solve_Permutation).
  rewrite !NoDup_cons in Hd'. destruct Hd' as (H1 & H2 & H3 & _).
  unfold double. rewrite !holds_mk, !ptr_mk. split_and!; try done; eapply holds_outside; try done; members.
Qed.

Definition rotatable (s : bool) (x : tree) : Prop :=
  x <> E /\ (bal x <> sign s -> child (negb s) x <> E).


Lemma rotate_insert_single s na nk nd_ nb nc ra rk rd rc ri ro y st : na <> ra ->
  st.(nodes) !! na = Some (nd s nk nd_ nb nc ra y) -> st.(nodes) !! ra = Some (nd s rk rd (sign s) rc ri ro) ->
  exists h', rotate_insert s na ra st = Some (ra, with_nodes h' st) /\
    h' !! na = Some (nd s nk nd_ 0 nc ro y) /\ h' !! ra = Some (nd s rk rd 0 rc ri na) /\ agree [na; ra] st.(nodes) h'.
Proof.
  intros Hne En Er. unfold rotate_insert. heap_step. node_simpl. rewrite Z.eqb_refl. heap_run.
  eexists. split; [reflexivity |]. split_and!; [look | look | heap_agree].
Qed.

Lemma rotate_insert_double s na nk nd_ nb nc ra rk rd rb rc pa pk pd pb pc ri pi po y st :
  na <> ra -> na <> pa -> ra <> pa -> rb <> sign s ->
  st.(nodes) !! na = Some (nd s nk nd_ nb nc ra y) -> st.(nodes) !! ra = Some (nd s rk rd rb rc ri pa) ->
  st.(nodes) !! pa = Some (nd s pk pd pb pc pi po) ->
  exists h', rotate_insert s na ra st = Some (pa, with_nodes h' st) /\
    h' !! na = Some (nd s nk nd_ (double_bal s pb).1 nc po y) /\
    h' !! ra = Some (nd s rk rd (double_bal s pb).2 rc ri pi) /\
    h' !! pa = Some (nd s pk pd 0 pc ra na) /\ agree [na; ra; pa] st.(nodes) h'.
Proof.
  intros H1 H2 H3 Hb%Z.eqb_neq En Er Ep. unfold rotate_insert. heap_step. node_simpl. rewrite Hb. heap_run.
  unfold double_bal. destruct (pb =? sign s); [| destruct (pb =? 0)]; rewrite bind_assoc; heap_run.
  all: eexists; split; [reflexivity |]; split_and!; [look | look | look | heap_agree].
Qed.

(** Both rotations of an insertion; deletion uses them from the other side. *)
Lemma rotate_insert_run s na nk nd_ nb nc x y st :
  rotatable s x -> holds st.(nodes) (mk s na nk nd_ nb nc x y) -> NoDup (addrs (mk s na nk nd_ nb nc x y)) ->
  exists h', rotate_insert s na (ptr x) st = Some (ptr (rotate s na nk nd_ nc x y), with_nodes h' st) /\
    holds h' (rotate s na nk nd_ nc x y) /\ agree (addrs (mk s na nk nd_ nb nc x y)) st.(nodes) h' /\
    addrs (rotate s na nk nd_ nc x y) ≡ₚ addrs (mk s na nk nd_ nb nc x y).
Proof.
  intros [Hx Hx'] Hh Hd. destruct (tree_mk s x Hx) as (ra & rk & rd & rb & rc & Ex).
  set (ri := child s x) in *. set (ro := child (negb s) x) in *. clearbody ri ro. subst x.
  rewrite bal_mk in Hx'. pose proof Hh as (Hn & En & (Hr & Er & Hri & Hro)%holds_mk & Hy)%holds_mk.
  rewrite ptr_mk in *.
  assert (Hnr : na <> ra) by (rewrite !addrs_mk, NoDup_cons in Hd; set_solver).
  destruct (Z.eqb_spec rb (sign s)) as [E1 | E1].
  - rewrite rotate_single by done. subst rb.
    destruct (rotate_insert_single s na nk nd_ nb nc ra rk rd rc _ _ _ st Hnr En Er) as (h' & R & Ln & Lr & Ha).
    exists h'. unfold single at 1. rewrite ptr_mk. split_and!; [done | by eapply holds_single | |].
    + eapply agree_weaken; [| exact Ha]. rewrite !addrs_mk. set_solver.
    + rewrite addrs_single, !addrs_mk. cbn. solve_Permutation.
  - destruct (tree_mk s ro (Hx' E1)) as (pa & pk & pd & pb & pc & Ep).
    set (pi := child s ro) in *. set (po := child (negb s) ro) in *. clearbody pi po. subst ro.
    rewrite rotate_double, ptr_mk in * by done. apply holds_mk in Hro as (Hp & Ep & _).
    assert (na <> pa /\ ra <> pa) as [H2 H3] by (rewrite !addrs_mk, !NoDup_cons, NoDup_app, NoDup_cons in Hd; set_solver).
    destruct (rotate_insert_double s na nk nd_ nb nc ra rk rd rb rc pa pk pd pb pc _ _ _ _ st Hnr H2 H3 E1 En Er Ep)
      as (h' & R & Ln & Lr & Lp & Ha).
    exists h'. unfold double at 1. rewrite ptr_mk. split_and!; [done | by eapply holds_double | |].
    + eapply agree_weaken; [| exact Ha]. rewrite !addrs_mk. set_solver.
    + rewrite addrs_double, !addrs_mk. cbn. solve_Permutation.
Qed.
(** * The way down *)

Section Insert.
Context (cmp : Z -> Z -> Z) (Hok : cmp_ok cmp) (this key data : Z).
Abbreviation side := (side cmp key).
Abbreviation attach := (attach cmp this key data).
Abbreviation grow := (grow cmp this key data).
Abbreviation leaning := (leaning cmp key).
Abbreviation ins := (ins cmp this key data).
Abbreviation new := (new this key data).

(** The trees by the side the key is on. *)
Lemma attach_mk a k d b c x y : attach (mk (side k) a k d b c x y) = mk (side k) a k d b (side k) (attach x) y.
Proof. destruct (side k) eqn:E; cbn; by rewrite E. Qed.
Lemma grow_mk a k d b c x y : grow (mk (side k) a k d b c x y) = mk (side k) a k d (sign (side k)) (side k) (grow x) y.
Proof. destruct (side k) eqn:E; cbn; by rewrite E. Qed.
Lemma leaning_mk a k d b c x y : leaning (mk (side k) a k d b c x y) = negb (b =? 0) || leaning x.
Proof. destruct (side k) eqn:E; cbn; by rewrite E. Qed.
Lemma ins_mk a k d b c x y : ins (mk (side k) a k d b c x y) =
  if leaning x then mk (side k) a k d b (side k) (ins x) y else settle (side k) a k d b (grow x) y.
Proof. destruct (side k) eqn:E; cbn; by rewrite E. Qed.

(** Trees from the side of the key. *)
Lemma tree_side (P : tree -> Prop) : P E ->
  (forall a k d b c x y, P x -> P (mk (side k) a k d b c x y)) -> forall t, P t.
Proof.
  intros HE HT t. induction t as [| a k d b c l IHl r IHr]; [done |]. rewrite (mk_eq (side k)). apply HT.
  by destruct (side k).
Qed.

(** What the search takes for [t] and [s]. *)
Fixpoint crit (t0 s0 : Z) (t : tree) : Z * Z :=
  match t with
  | E => (t0, s0)
  | T a k d b c l r =>
      if side k then (if bal r =? 0 then crit t0 s0 r else crit a (ptr r) r)
      else if bal l =? 0 then crit t0 s0 l else crit a (ptr l) l
  end.
Lemma crit_mk t0 s0 a k d b c x y :
  crit t0 s0 (mk (side k) a k d b c x y) = if bal x =? 0 then crit t0 s0 x else crit a (ptr x) x.
Proof. destruct (side k) eqn:E; cbn; by rewrite E. Qed.

Lemma absent_mk s a k d b c x y :
  absent cmp key (elems (mk s a k d b c x y)) -> cmp k key <> 0 /\ absent cmp key (elems x).
Proof.
  rewrite elems_mk. unfold absent, beside. destruct s; rewrite !Forall_app, Forall_singleton; cbn; tauto.
Qed.

Lemma insert_search_step fuel t0 s0 p q n st : cmp key n.(Key) <> 0 -> st.(Compare) = Some cmp ->
  st.(nodes) !! p = Some n ->
  insert_search (S fuel) key this t0 s0 p q st =
    (do* set_node p (fun m => m <| cache := side n.(Key) |>) in
     if Link (side n.(Key)) n =? 0 then do* set_link p (side n.(Key)) this in ret (t0, s0, this)
     else
       let* nq := node_at (Link (side n.(Key)) n) in
       if negb (nq.(Bal) =? 0)
       then insert_search fuel key this p (Link (side n.(Key)) n) (Link (side n.(Key)) n) (Some (Link (side n.(Key)) n))
       else insert_search fuel key this t0 s0 (Link (side n.(Key)) n) (Some (Link (side n.(Key)) n))) st.
Proof.
  intros Hc Hcmp Hn. cbn [insert_search]. heap_step. rewrite (bind_some _ _ _ _ _ (compare_run _ _ _ _ Hcmp)).
  cbv zeta. unfold AvlTree.side. destruct (Z.ltb_spec (cmp key n.(Key)) 0) as [H | H]; cbn [negb].
  - by rewrite !(bind_some _ _ _ _ _ (set_node_run _ _ _ _ Hn)).
  - replace (0 <? cmp key n.(Key)) with true by (symmetry; apply Z.ltb_lt; lia).
    by rewrite !(bind_some _ _ _ _ _ (set_node_run _ _ _ _ Hn)).
Qed.

Lemma ptr_attach x : x <> E -> ptr (attach x) = ptr x.
Proof. destruct x; [done |]. intros _. cbn. by destruct (side _). Qed.
Lemma ptr_grow x : ptr (grow x) = ptr (attach x).
Proof. destruct x; [done |]. cbn. by destruct (side _). Qed.
Lemma addrs_attach x : addrs (attach x) ≡ₚ this :: addrs x.
Proof.
  revert x. apply tree_side; [done |]. intros a k d b c x y IH. rewrite attach_mk, !addrs_mk, IH. cbn. apply perm_swap.
Qed.
Lemma addrs_grow x : addrs (grow x) ≡ₚ this :: addrs x.
Proof.
  revert x. apply tree_side; [done |]. intros a k d b c x y IH. rewrite grow_mk, !addrs_mk, IH. cbn. apply perm_swap.
Qed.

Definition unused (st : avl_t) (t : tree) : Prop :=
  this <> 0 /\ this ∉ addrs t /\ st.(nodes) !! this = Some (mk_node key data 0 false 0 0).

Lemma insert_search_run t fuel t0 s0 q st : t <> E -> (length (addrs t) <= fuel)%nat -> st.(Compare) = Some cmp ->
  holds st.(nodes) t -> NoDup (addrs t) -> unused st t -> absent cmp key (elems t) ->
  exists h', insert_search fuel key this t0 s0 (ptr t) q st = Some ((crit t0 s0 t).1, (crit t0 s0 t).2, this, with_nodes h' st) /\
    holds h' (attach t) /\ agree (addrs t) st.(nodes) h'.
Proof.
  revert fuel t0 s0 q st. induction t as [| a k d b c x y IH] using tree_side; intros fuel t0 s0 q st Ht Hf Hcmp Hh Hd Hfr Ha;
    [done |]. clear Ht.
  destruct (absent_mk _ _ _ _ _ _ _ _ Ha) as [Hk Hax]. pose proof Hfr as (Ht0 & Htn & Hthis).
  rewrite addrs_mk in Hf, Hd, Htn. apply NoDup_cons in Hd as [Had (Hxy & Hdis & _)%NoDup_app].
  destruct fuel as [| fuel]; [cbn in Hf; lia |]. cbn in Hf. rewrite length_app in Hf.
  pose proof Hh as (Ha0 & En & Hx & Hy)%holds_mk. rewrite ptr_mk, attach_mk, crit_mk.
  rewrite (insert_search_step fuel t0 s0 a q (nd (side k) k d b c (ptr x) (ptr y)) st);
    [| by rewrite key_of_nd, (cmp_eq cmp Hok) | done | done].
  node_simpl. heap_step.
  assert (Hne : a <> this) by set_solver. set (st1 := with_nodes _ st).
  assert (Ht1 : st1.(nodes) !! this = Some (mk_node key data 0 false 0 0)) by (unfold st1; look).
  assert (H1 : agree [a] st.(nodes) st1.(nodes)) by (unfold st1; heap_agree).
  assert (Hy1 : holds st1.(nodes) y) by (eapply holds_outside; [exact H1 | set_solver | done]).
  assert (Hx1 : holds st1.(nodes) x) by (eapply holds_outside; [exact H1 | set_solver | done]).
  assert (Ha1 : st1.(nodes) !! a = Some (nd (side k) k d b (side k) (ptr x) (ptr y))) by (unfold st1; look).
  assert (Hw : forall h', with_nodes h' st1 = with_nodes h' st) by done.
  assert (Hcmp1 : st1.(Compare) = Some cmp) by done. clearbody st1. destruct (decide (x = E)) as [-> | Hxe].
  - cbn [ptr Z.eqb bal crit] in *. heap_step. node_simpl. cbn [fst snd]. rewrite Hw.
    eexists. split; [reflexivity |]. split.
    2: { apply agree_insert; [rewrite addrs_mk; left | eapply agree_weaken; [| exact H1]; rewrite addrs_mk; set_solver]. }
    apply holds_mk. split_and!; [done | look | cbn | ].
    + split_and!; [done | rewrite lookup_insert_ne by set_solver; done | done..].
    + apply holds_insert; [set_solver | done].
  - destruct (tree_mk (side k) x Hxe) as (xa & xk & xd & xb & xc & Ex). pose proof Hx1 as Hx2. rewrite Ex in Hx2.
    apply holds_mk in Hx2 as (Hxa & Exn & _). 
    assert (Hp : ptr x = xa) by (rewrite Ex; apply ptr_mk). rewrite <- Hp in Hxa, Exn.
    assert (Hb : bal x = xb) by (rewrite Ex; apply bal_mk).
    rewrite (proj2 (Z.eqb_neq _ _) Hxa). heap_step. node_simpl. rewrite <- Hb.
    assert (Hfx : unused st1 x) by (split_and!; [done | set_solver | done]).
    assert (G : forall t1 s1 q1, exists h',
      insert_search fuel key this t1 s1 (ptr x) q1 st1 = Some ((crit t1 s1 x).1, (crit t1 s1 x).2, this, with_nodes h' st) /\
      holds h' (mk (side k) a k d b (side k) (attach x) y) /\ agree (addrs (mk (side k) a k d b c x y)) st.(nodes) h').
    { intros t1 s1 q1. destruct (IH fuel t1 s1 q1 st1) as (h' & R & Hh' & Hag); [done | lia | done.. |].
      exists h'. rewrite Hw in R. split_and!; [exact R | |].
      - apply holds_mk. rewrite ptr_attach by done. split_and!; [done | rewrite Hag by set_solver; done | done |].
        eapply holds_outside; [exact Hag | set_solver | done].
      - eapply agree_trans; [eapply agree_weaken; [| exact H1] | eapply agree_weaken; [| exact Hag]]; rewrite addrs_mk; set_solver. }
    destruct (bal x =? 0); apply G.
Qed.
End Insert.
End AvlPut.
