(* ===== verification/AvlGrow.v ===== *)
(** Insertion into a balanced tree on the heap: the balances on the way, the
    critical node and its part of the tree, the whole of [AvlInsert]. *)

From S2P Require Import Prelude Avl AvlTree AvlTake AvlHeap AvlPut.

Module AvlGrow.
Import Avl AvlTree AvlTake AvlHeap AvlPut.

Lemma rotatable_ok s x : balanced x -> bal x <> 0 -> rotatable s x.
Proof.
  intros Hb H0. assert (Hx : x <> E) by (by intros ->). split; [done |]. intros Hs Hc.
  destruct (tree_cases s x Hx) as (a & k & d & b & c & x' & y' & ->). rewrite child_other, bal_mk in *. subst y'.
  apply balanced_mk in Hb as (Eb & Hb & _). pose proof (height_pos x'). cbn [height] in Eb.
  destruct (sign_cases s) as [S | S]; rewrite S in *; lia.
Qed.

(** What a tree in memory is. *)
Record stores (cmp : Z -> Z -> Z) (st : avl_t) (t : tree) : Prop := {
  stores_holds : holds st.(nodes) t;
  stores_nodup : NoDup (addrs t);
  stores_root : st.(root) = ptr t;
  stores_cmp : st.(Compare) = Some cmp;
}.

Lemma ptr_plug fs x y : fs <> [] -> ptr (plug fs x) = ptr (plug fs y).
Proof.
  revert x y. induction fs as [| [s a k d b c sib] fs IH]; intros x y H; [done |].
  change (ptr (plug fs (mk s a k d b c x sib)) = ptr (plug fs (mk s a k d b c y sib))).
  destruct fs as [| f fs]; [cbn; by rewrite !ptr_mk | by apply IH].
Qed.

(** * A context whose place changes *)

Definition up_ptr (r : Z) (fs : list frame) : Z := match fs with [] => r | Fr _ a _ _ _ _ _ :: _ => a end.

Lemma relink_run r s p fs st : holds_ctx st.(nodes) s fs -> s <> 0 -> s ∉ addrs_ctx fs -> NoDup (addrs_ctx fs) ->
  (fs = [] -> exists n, st.(nodes) !! r = Some n /\ n.(Link0) <> s /\ n.(Link1) <> s) ->
  exists h', relink (up_ptr r fs) s p st = Some (tt, if decide (fs = []) then with_root p st else with_nodes h' st) /\
    (fs = [] -> h' = st.(nodes)) /\ holds_ctx h' p fs /\ agree (addrs_ctx fs) st.(nodes) h'.
Proof.
  intros Hc Hs Hns Hd Hr. destruct fs as [| [sd a k d b c sib] fs]; cbn [up_ptr].
  - destruct (Hr eq_refl) as (n & En & H0%not_eq_sym%Z.eqb_neq & H1%not_eq_sym%Z.eqb_neq). exists st.(nodes).
    unfold relink. heap_step. by rewrite H0, H1.
  - clear Hr. cbn [holds_ctx addrs_ctx] in *. destruct Hc as (Ha & En & Hsib & Hfs).
    apply NoDup_cons in Hd as [Hna Hd]. apply NoDup_app in Hd as (_ & Hdis & _).
    assert (Hne : s <> ptr sib).
    { intros ->. destruct (decide (sib = E)) as [-> | He]; [done |]. pose proof (ptr_addrs sib He). set_solver. }
    exists (<[a := nd sd k d b c p (ptr sib)]> st.(nodes)). split; [| split; [done | split]].
    + unfold relink. heap_step. destruct (decide _) as [| _]; [done |].
      rewrite <- (with_link_nd sd k d b c s (ptr sib) p). unfold nd at 1 2. cbn [Link0 Link1].
      destruct sd; [rewrite Z.eqb_refl | rewrite (proj2 (Z.eqb_neq _ _) Hne), Z.eqb_refl].
      all: unfold set_link; by erewrite set_node_run.
    + split_and!; [done | apply lookup_insert_eq | |].
      * apply holds_insert; [set_solver | done].
      * eapply holds_ctx_outside; [| | exact Hfs]; [apply (agree_insert [a]); [left | apply agree_refl] | set_solver].
    + apply agree_insert; [left | apply agree_refl].
Qed.

(** No node links to itself. *)
Lemma ptr_neq x a : a <> 0 -> a ∉ addrs x -> ptr x <> a.
Proof. intros Ha Hn. destruct x; [by apply not_eq_sym |]. cbn in *. set_solver. Qed.
Lemma no_self h t a : holds h t -> NoDup (addrs t) -> a ∈ addrs t ->
  exists n, h !! a = Some n /\ n.(Link0) <> a /\ n.(Link1) <> a.
Proof.
  induction t as [| a' k d b c l IHl r IHr]; [intros _ _ H; by apply not_elem_of_nil in H |].
  intros (Ha & En & Hl & Hr) Hd. cbn [addrs] in *. apply NoDup_cons in Hd as [Hn (Hdl & _ & Hdr)%NoDup_app].
  intros [-> | [H | H]%elem_of_app]%elem_of_cons; [| by apply IHl | by apply IHr].
  rewrite elem_of_app in Hn. eexists. split; [exact En |]. cbn. split; apply ptr_neq; tauto.
Qed.

Lemma nodup_plug fs x : NoDup (addrs (plug fs x)) <->
  NoDup (addrs x) /\ (forall a, a ∈ addrs x -> a ∉ addrs_ctx fs) /\ NoDup (addrs_ctx fs).
Proof. by rewrite addrs_plug, NoDup_app. Qed.

Lemma ptr_plug_eq fs x y : ptr x = ptr y -> ptr (plug fs x) = ptr (plug fs y).
Proof. intros H. destruct (decide (fs = [])) as [-> |]; [done | by apply ptr_plug]. Qed.

Lemma with_root_id st : with_root st.(root) st = st.
Proof. by destruct st. Qed.

(** The balance of a node changes. *)
Lemma set_bal_run fs s a k d b v c x y st : let n v := mk s a k d v c x y in
  holds st.(nodes) (plug fs (n b)) -> NoDup (addrs (plug fs (n b))) ->
  exists h', set_bal a v st = Some (tt, with_nodes h' st) /\ holds h' (plug fs (n v)) /\
    agree (addrs (plug fs (n b))) st.(nodes) h' /\ addrs (plug fs (n v)) ≡ₚ addrs (plug fs (n b)).
Proof.
  intros n Hh Hd. pose proof Hh as [Hn Hc]%holds_plug. pose proof Hd as (Hdn & Hdis & _)%nodup_plug.
  pose proof Hn as (Ha & En & Hx & Hy)%holds_mk. unfold n in Hdn. rewrite addrs_mk in Hdn. apply NoDup_cons in Hdn as [Hna _].
  assert (Hin : a ∈ addrs (n b)) by (unfold n; rewrite addrs_mk; left).
  eexists. split; [unfold set_bal; by rewrite (set_node_run _ _ _ _ En) |]. split_and!.
  - apply holds_plug. unfold n in *. rewrite ptr_mk in *. split.
    + apply holds_mk. split_and!; [done | apply lookup_insert_eq | |]; (apply holds_insert; [set_solver | done]).
    + eapply holds_ctx_outside; [apply (agree_insert [a]); [left | apply agree_refl] | set_solver | done].
  - apply agree_insert; [| apply agree_refl]. rewrite addrs_plug. set_solver.
  - rewrite !addrs_plug. unfold n. by rewrite !addrs_mk.
Qed.

(** The part of the tree under the critical node is put in order. *)
Definition settle_at (a : bool) (b t s r : Z) : prog avl_t bool :=
  if b =? 0 then do* set_bal s (sign a) in ret true
  else if b =? - sign a then do* set_bal s 0 in ret true
  else let* p := rotate_insert a s r in do* relink t s p in ret true.

Lemma settle_run sd a k d b x y fs st :
  holds st.(nodes) (plug fs (mk sd a k d b sd x y)) -> NoDup (addrs (plug fs (mk sd a k d b sd x y))) ->
  st.(root) = ptr (plug fs (mk sd a k d b sd x y)) -> (b <> 0 -> b <> - sign sd -> rotatable sd x) ->
  exists h', settle_at sd b (up_ptr st.(root) fs) a (ptr x) st =
      Some (true, with_root (ptr (plug fs (settle sd a k d b x y))) (with_nodes h' st)) /\
    holds h' (plug fs (settle sd a k d b x y)) /\
    agree (addrs (plug fs (mk sd a k d b sd x y))) st.(nodes) h' /\
    addrs (plug fs (settle sd a k d b x y)) ≡ₚ addrs (plug fs (mk sd a k d b sd x y)).
Proof.
  intros Hh Hd Hr Hrot. set (n := mk sd a k d b sd x y) in *.
  pose proof Hh as [Hn Hc]%holds_plug. pose proof Hd as (Hdn & Hdis & Hdc)%nodup_plug.
  assert (Hin : a ∈ addrs n) by (unfold n; rewrite addrs_mk; left).
  (* Only the balance changes. *)
  assert (Hset : forall v, let n' := mk sd a k d v sd x y in exists h',
    (do* set_bal a v in ret true) st = Some (true, with_root (ptr (plug fs n')) (with_nodes h' st)) /\
    holds h' (plug fs n') /\ agree (addrs (plug fs n)) st.(nodes) h' /\ addrs (plug fs n') ≡ₚ addrs (plug fs n)).
  { intros v. cbv zeta. destruct (set_bal_run fs sd a k d b v sd x y st Hh Hd) as (h' & R & H1 & H2 & H3).
    exists h'. rewrite (bind_some _ _ _ _ _ R). split_and!; [| done..].
    replace (ptr _) with st.(root) by (rewrite Hr; apply ptr_plug_eq; unfold n; by rewrite !ptr_mk). done. }
  unfold settle_at, settle. destruct (Z.eqb_spec b 0) as [| H0]; [apply Hset |].
  destruct (Z.eqb_spec b (- sign sd)) as [| H1]; [apply Hset |]. clear Hset.
  destruct (rotate_insert_run sd a k d b sd x y st (Hrot H0 H1) Hn Hdn) as (h1 & R1 & Hh1 & Hag1 & Hp1).
  set (n' := rotate sd a k d sd x y) in *. rewrite (bind_some _ _ _ _ _ R1). fold n in Hag1, Hp1.
  assert (Ea : ptr n = a) by apply ptr_mk. rewrite Ea in Hc.
  assert (Hin' : a ∈ addrs n') by (by rewrite Hp1). assert (Hd1 : NoDup (addrs n')) by (by rewrite Hp1).
  destruct (relink_run st.(root) a (ptr n') fs (with_nodes h1 st)) as (h2 & R2 & Hf & Hh2 & Hag2).
  { eapply holds_ctx_outside; [exact Hag1 | set_solver | done]. }
  { by apply (holds_lookup _ n a Hn). }
  { by apply Hdis. }
  { done. }
  { intros ->. rewrite Hr. cbn [plug fold_left]. rewrite Ea. by apply (no_self h1 n' a). }
  rewrite (bind_some _ _ _ _ _ R2). cbn [nodes with_nodes] in *. exists h2. split_and!.
  - destruct (decide (fs = [])) as [-> | Hne]; [by rewrite Hf |].
    rewrite (ptr_plug fs n' n) by done. by rewrite <- Hr.
  - apply holds_plug. split; [| done]. eapply holds_outside; [exact Hag2 | | done].
    intros v Hv. rewrite Hp1. intros Hv'. by apply (Hdis v).
  - eapply agree_trans; [eapply agree_weaken; [| exact Hag1] | eapply agree_weaken; [| exact Hag2]]; rewrite addrs_plug; set_solver.
  - by rewrite !addrs_plug, Hp1.
Qed.

Section Insert.
Context (cmp : Z -> Z -> Z) (Hok : cmp_ok cmp) (this key data : Z).
Abbreviation side := (side cmp key).
Abbreviation attach := (attach cmp this key data).
Abbreviation grow := (grow cmp this key data).
Abbreviation leaning := (leaning cmp key).
Abbreviation ins := (ins cmp this key data).
Abbreviation new := (new this key data).
Abbreviation crit := (crit cmp key).

(** * The balances on the way *)

Lemma lean_down_run x fuel st : (length (addrs x) <= fuel)%nat -> holds st.(nodes) (attach x) -> NoDup (addrs (attach x)) ->
  exists h', lean_down fuel (ptr (attach x)) this st = Some (tt, with_nodes h' st) /\
    holds h' (grow x) /\ agree (addrs x) st.(nodes) h'.
Proof.
  revert fuel st. induction x as [| a k d b c x y IH] using (tree_side cmp key); intros fuel st Hf Hh Hd.
  - exists st.(nodes). split_and!; [| done | done]. destruct fuel; cbn; rewrite Z.eqb_refl; by destruct st.
  - rewrite addrs_mk in Hf. destruct fuel as [| fuel]; [cbn in Hf; lia |]. cbn in Hf. rewrite length_app in Hf.
    rewrite attach_mk in Hh, Hd |- *. rewrite addrs_mk in Hd. rewrite ptr_mk, grow_mk.
    apply NoDup_cons in Hd as [Hna (Hdx & Hdis & _)%NoDup_app]. pose proof Hh as (Ha & En & Hx & Hy)%holds_mk.
    assert (Hin : this ∈ addrs (attach x)) by (rewrite addrs_attach; left).
    assert (Hne : a <> this) by set_solver. cbn [lean_down]. rewrite (proj2 (Z.eqb_neq _ _) Hne). heap_run.
    set (st1 := with_nodes _ st). assert (H1 : agree [a] st.(nodes) st1.(nodes)) by (unfold st1; heap_agree).
    destruct (IH fuel st1) as (h' & R & Hh' & Hag); [lia | | done |].
    { eapply holds_outside; [exact H1 | set_solver | done]. }
    assert (Hsub : addrs x ⊆ addrs (attach x)) by (intros v Hv; rewrite addrs_attach; by right).
    exists h'. split_and!; [exact R | |].
    + apply holds_mk. rewrite ptr_grow. split_and!; [done | | done |].
      * rewrite Hag by set_solver. unfold st1. look.
      * eapply holds_outside; [exact Hag | set_solver |]. eapply holds_outside; [exact H1 | set_solver | done].
    + eapply agree_trans; [eapply agree_weaken; [| exact H1] | eapply agree_weaken; [| exact Hag]]; rewrite addrs_mk; set_solver.
Qed.

(** * The critical node *)

Fixpoint locate (fs : list frame) (t : tree) : list frame * tree :=
  match t with
  | E => (fs, t)
  | T a k d b c l r =>
      if side k then if leaning r then locate (Fr true a k d b true l :: fs) r else (fs, t)
      else if leaning l then locate (Fr false a k d b false r :: fs) l else (fs, t)
  end.
Lemma locate_mk fs a k d b c x y : locate fs (mk (side k) a k d b c x y) =
  if leaning x then locate (Fr (side k) a k d b (side k) y :: fs) x else (fs, mk (side k) a k d b c x y).
Proof. destruct (side k) eqn:E; cbn; by rewrite E. Qed.

(** Something below leans. *)
Definition leans_below (t : tree) : bool :=
  match t with E => false | T _ k _ _ _ l r => if side k then leaning r else leaning l end.
Lemma leans_below_mk a k d b c x y : leans_below (mk (side k) a k d b c x y) = leaning x.
Proof. destruct (side k) eqn:E; cbn; by rewrite E. Qed.
Lemma leaning_below t : leaning t = negb (bal t =? 0) || leans_below t.
Proof. by destruct t as [| a k d b c l r]; [| cbn; destruct (side k)]. Qed.

Lemma crit_flat t t0 s0 : leaning t = false -> crit t0 s0 t = (t0, s0).
Proof.
  induction t as [| a k d b c x y IH] using (tree_side cmp key); [done |]. rewrite leaning_mk, crit_mk.
  intros [_ H]%orb_false_iff. specialize (IH H). rewrite leaning_below in H. apply orb_false_iff in H as [Hb%negb_false_iff _].
  by rewrite Hb.
Qed.

Lemma locate_spec t fs : t <> E -> exists a k d b c x y,
  (locate fs t).2 = mk (side k) a k d b c x y /\ leaning x = false /\
  plug fs (attach t) = plug (locate fs t).1 (attach (locate fs t).2) /\
  plug fs (ins t) = plug (locate fs t).1 (ins (locate fs t).2) /\
  (balanced t -> balanced (mk (side k) a k d b c x y)).
Proof.
  revert fs. induction t as [| a k d b c x y IH] using (tree_side cmp key); intros fs Ht; [done |]. clear Ht.
  rewrite locate_mk. destruct (leaning x) eqn:El; cbn [fst snd]; [| by exists a, k, d, b, c, x, y].
  destruct (IH (Fr (side k) a k d b (side k) y :: fs)) as (a' & k' & d' & b' & c' & x' & y' & E1 & E2 & E3 & E4 & E5); [by intros -> |].
  exists a', k', d', b', c', x', y'. split_and!; [done | done | | |].
  - by rewrite <- E3, attach_mk.
  - by rewrite <- E4, ins_mk, El.
  - intros (_ & _ & Hx & _)%balanced_mk. by apply E5.
Qed.

Lemma locate_crit r t fs t0 s0 : t <> E -> leans_below t = true \/ (t0 = up_ptr r fs /\ s0 = ptr t) ->
  crit t0 s0 t = (up_ptr r (locate fs t).1, ptr (locate fs t).2).
Proof.
  revert fs t0 s0. induction t as [| a k d b c x y IH] using (tree_side cmp key); intros fs t0 s0 Ht H; [done |]. clear Ht.
  rewrite locate_mk, crit_mk. rewrite leans_below_mk, ptr_mk in H. destruct (leaning x) eqn:El.
  - assert (Hx : x <> E) by (by intros ->). rewrite leaning_below in El. destruct (bal x =? 0).
    + apply IH; [done | by left].
    + apply IH; [done | by right].
  - destruct H as [| [-> ->]]; [done |]. cbn [fst snd]. rewrite ptr_mk. pose proof El as Hb. rewrite leaning_below in Hb.
    apply orb_false_iff in Hb as [Hb%negb_false_iff _]. rewrite Hb. by apply crit_flat.
Qed.

(** * The whole insertion *)

Lemma set_link_same p sd v n st : st.(nodes) !! p = Some n -> Link sd n = v -> set_link p sd v st = Some (tt, st).
Proof.
  intros Hn Hv. unfold set_link. rewrite (set_node_run _ _ _ _ Hn).
  assert (E : with_link sd v n = n) by (subst v; by destruct n, sd). rewrite E, insert_id by done. by destruct st.
Qed.

Lemma grow_rotatable b a k d c x y : balanced (mk (side k) a k d b c x y) -> leaning x = false ->
  b <> 0 -> b <> - sign (side k) -> rotatable (side k) (grow x).
Proof.
  intros (Eb & Hb & Hx & Hy)%balanced_mk Hl H0 H1. destruct (grow_ok cmp this key data x Hx Hl) as (H2 & _ & H3).
  apply rotatable_ok; [done |]. apply H3. intros ->. pose proof (height_pos y). cbn [height] in Eb.
  destruct (sign_cases (side k)) as [S | S]; rewrite S in *; lia.
Qed.

(** What follows the search. *)
Definition after_search (fuel : nat) (t s q : Z) : prog avl_t bool :=
  do* set_link this false 0 in
  do* set_link this true 0 in
  let* ns := node_at s in
  do* lean_down fuel (Link ns.(cache) ns) q in
  let* ns' := node_at s in
  settle_at ns'.(cache) ns'.(Bal) t s (Link ns.(cache) ns).

Lemma after_search_run fuel fs a k d b x y st : let n := mk (side k) a k d b (side k) (attach x) y in
  holds st.(nodes) (plug fs n) -> NoDup (addrs (plug fs n)) -> st.(root) = ptr (plug fs n) ->
  st.(nodes) !! this = Some (mk_node key data 0 false 0 0) -> (length (addrs x) <= fuel)%nat ->
  (b <> 0 -> b <> - sign (side k) -> rotatable (side k) (grow x)) ->
  let t' := plug fs (settle (side k) a k d b (grow x) y) in
  exists h', after_search fuel (up_ptr st.(root) fs) a this st = Some (true, with_root (ptr t') (with_nodes h' st)) /\
    holds h' t' /\ agree (addrs (plug fs n)) st.(nodes) h' /\ addrs t' ≡ₚ addrs (plug fs n).
Proof.
  intros n Hh Hd Hr Hthis Hf Hrot t'. unfold after_search.
  rewrite (bind_some _ _ _ _ _ (set_link_same this false 0 _ st Hthis eq_refl)).
  rewrite (bind_some _ _ _ _ _ (set_link_same this true 0 _ st Hthis eq_refl)).
  pose proof Hh as [Hn Hc]%holds_plug. pose proof Hd as (Hdn & Hdis & Hdc)%nodup_plug.
  pose proof Hn as (Ha & En & Hx & Hy)%holds_mk. unfold n in Hdn. rewrite addrs_mk in Hdn.
  apply NoDup_cons in Hdn as [Hna (Hdx & Hxy & _)%NoDup_app]. heap_step. node_simpl.
  assert (Hin : forall v, v ∈ addrs n <-> v = a \/ v ∈ addrs (attach x) \/ v ∈ addrs y)
    by (intros v; unfold n; by rewrite addrs_mk, elem_of_cons, elem_of_app).
  assert (Hsub : addrs x ⊆ addrs (attach x)) by (intros v Hv; rewrite addrs_attach; by right).
  destruct (lean_down_run x fuel st Hf Hx Hdx) as (h1 & R1 & Hx1 & Hag1). rewrite (bind_some _ _ _ _ _ R1).
  assert (En1 : (with_nodes h1 st).(nodes) !! a = Some (nd (side k) k d b (side k) (ptr (attach x)) (ptr y)))
    by (cbn; by rewrite Hag1 by set_solver).
  rewrite (bind_some _ _ _ _ _ (node_at_run a _ _ En1)). node_simpl.
  set (n' := mk (side k) a k d b (side k) (grow x) y).
  assert (Hp : addrs (plug fs n') ≡ₚ addrs (plug fs n))
    by (rewrite !addrs_plug; unfold n', n; by rewrite !addrs_mk, addrs_grow, addrs_attach).
  destruct (settle_run (side k) a k d b (grow x) y fs (with_nodes h1 st)) as (h2 & R2 & Hh2 & Hag2 & Hp2).
  { apply holds_plug. cbn [nodes with_nodes]. split.
    - apply holds_mk. rewrite ptr_grow. split_and!; [done | rewrite Hag1 by set_solver; done | done |].
      eapply holds_outside; [exact Hag1 | set_solver | done].
    - eapply holds_ctx_outside; [exact Hag1 | | unfold n in Hc; rewrite ptr_mk in *; exact Hc].
      intros v Hv. apply Hdis, Hin. right. left. by apply Hsub. }
  { fold n'. by rewrite Hp. }
  { cbn [root with_nodes]. rewrite Hr. apply ptr_plug_eq. unfold n. by rewrite !ptr_mk. }
  { done. }
  rewrite ptr_grow in R2. exists h2. split_and!; [exact R2 | done | | exact (Permutation_trans Hp2 Hp)].
  eapply agree_trans; [eapply agree_weaken; [| exact Hag1] | eapply agree_weaken; [| exact Hag2]].
  - intros v Hv. rewrite addrs_plug, elem_of_app, Hin. left. right. left. by apply Hsub.
  - intros v. fold n'. by rewrite Hp.
Qed.

Lemma AvlInsert_run malloc t st : stores cmp st t -> balanced t -> absent cmp key (elems t) ->
  malloc st.(nodes) = Some this -> this <> 0 -> st.(nodes) !! this = None ->
  exists h', let st' := with_root (ptr (ins t)) (with_nodes h' st) in
    AvlInsert malloc key data st = Some (true, st') /\ stores cmp st' (ins t) /\
    addrs (ins t) ≡ₚ this :: addrs t /\ agree (this :: addrs t) st.(nodes) h'.
Proof.
  intros [Hh Hd Hr Hcmp] Hb Ha Hm Ht0 Hfresh.
  assert (Htn : this ∉ addrs t). { intros H. apply (holds_lookup _ _ _ Hh) in H as [_ [n Hn]]. congruence. }
  unfold AvlInsert. rewrite bind_gets, Hm, bind_modify, bind_gets.
  set (st0 := _ : avl_t). assert (Hw : forall h', with_nodes h' st0 = with_nodes h' st) by done.
  assert (H0 : agree [this] st.(nodes) st0.(nodes)) by (apply agree_insert; [left | apply agree_refl]).
  assert (Hthis : st0.(nodes) !! this = Some (mk_node key data 0 false 0 0)) by apply lookup_insert_eq.
  assert (Hh0 : holds st0.(nodes) t) by (eapply holds_outside; [exact H0 | set_solver | done]).
  change (root st0) with st.(root). rewrite Hr. assert (Hcmp0 : st0.(Compare) = Some cmp) by done.
  assert (Hr0 : st0.(root) = ptr t) by done. clearbody st0.
  destruct (decide (t = E)) as [-> | Hte].
  - exists st0.(nodes). cbn [ptr Z.eqb ins AvlTree.ins]. rewrite (bind_some (set_root this) _ _ tt (with_root this st0)) by done.
    split_and!; [by rewrite <- Hw | | done | done].
    split; [by cbn; split_and! | apply NoDup_singleton | done | done].
  - assert (Hp0 : ptr t <> 0) by (destruct t; [done | by destruct Hh0]). rewrite (proj2 (Z.eqb_neq _ _) Hp0).
    pose proof (addrs_size _ _ Hh Hd) as Hsz.
    destruct (insert_search_run cmp Hok this key data t (S (size st.(nodes))) (ptr t) (ptr t) None st0)
      as (h1 & R1 & Hh1 & Hag1); [done | lia | done.. |].
    rewrite (locate_crit (ptr t) t []) in R1 by auto. rewrite (bind_some _ _ _ _ _ R1). cbn [fst snd].
    destruct (locate_spec t [] Hte) as (a & k & d & b & c & x & y & E1 & El & E2 & E3 & Hbn).
    cbn [plug fold_left] in E2, E3. destruct (locate [] t) as [fs n]. cbn [fst snd] in *. subst n.
    rewrite E2 in Hh1. rewrite attach_mk in *. rewrite ptr_mk.
    set (n := mk (side k) a k d b (side k) (attach x) y) in *.
    assert (Hp : addrs (plug fs n) ≡ₚ this :: addrs t) by (rewrite <- E2; apply addrs_attach).
    assert (Hlen : (length (addrs x) <= S (size st.(nodes)))%nat).
    { pose proof Hp as Hl. unfold n in Hl. rewrite addrs_plug, addrs_mk, addrs_attach in Hl.
      apply Permutation_length in Hl. cbn in Hl. rewrite !length_app in Hl. lia. }
    assert (Hrt : st0.(root) = ptr (plug fs n)) by (rewrite Hr0, <- E2; symmetry; by apply ptr_attach).
    destruct (after_search_run (S (size st.(nodes))) fs a k d b x y (with_nodes h1 st0)) as (h2 & R2 & Hh2 & Hag2 & Hp2).
    { done. }
    { fold n. by rewrite Hp, NoDup_cons. }
    { done. }
    { cbn [nodes with_nodes]. by rewrite Hag1. }
    { done. }
    { eapply grow_rotatable; [by apply Hbn | done]. }
    fold n in R2, Hag2, Hp2. rewrite ins_mk, El in E3. rewrite <- E3 in *. cbn [root with_nodes nodes] in *. rewrite Hr0 in R2.
    change (with_nodes h2 (with_nodes h1 st0)) with (with_nodes h2 st0) in R2. rewrite !Hw in R2. rewrite Hw.
    exists h2. split_and!; [exact R2 | | by rewrite Hp2 |].
    + split; [done | | done | done]. by rewrite Hp2, Hp, NoDup_cons.
    + eapply agree_trans; [eapply agree_weaken; [| exact H0] | eapply agree_trans; [eapply agree_weaken; [| exact Hag1] |
        eapply agree_weaken; [| exact Hag2]]]; rewrite ?Hp; set_solver.
Qed.
End Insert.
End AvlGrow.
