(* ===== verification/AvlRebal.v ===== *)
(** Deletion from a balanced tree on the heap: the stack, and the way back up
    it with its rotations. *)

From S2P Require Import Prelude Avl AvlTree AvlTake AvlHeap AvlPut AvlGrow.

Module AvlRebal.
Import Avl AvlTree AvlTake AvlHeap AvlPut AvlGrow.

(** * The stack *)

(** The entries above [base] are the nodes of a context, the root's first. *)
Fixpoint seg (sk : stack_t) (base : Z) (fs : list frame) : Prop :=
  match fs with
  | [] => True
  | Fr s a _ _ _ _ _ :: fs =>
      sk.(pa) !! (base + Z.of_nat (S (length fs))) = Some a /\
      sk.(sides) !! (base + Z.of_nat (S (length fs))) = Some s /\ seg sk base fs
  end.
Definition stacked (dummy : Z) (sk : stack_t) (fs : list frame) : Prop :=
  sk.(pa) !! 0 = Some dummy /\ sk.(sides) !! 0 = Some false /\ seg sk 0 fs.

Lemma seg_app sk base fs gs : seg sk base (fs ++ gs) <-> seg sk (base + Z.of_nat (length gs)) fs /\ seg sk base gs.
Proof.
  induction fs as [| [s a k d b c sib] fs IH]; [by cbn; intuition |]. cbn [app seg]. rewrite IH, length_app.
  replace (base + Z.of_nat (length gs) + Z.of_nat (S (length fs))) with (base + Z.of_nat (S (length fs + length gs))) by lia.
  tauto.
Qed.
(** The entries up to the last one decide. *)
Lemma seg_agree sk sk' base fs : (forall k, base < k <= base + Z.of_nat (length fs) ->
    sk'.(pa) !! k = sk.(pa) !! k /\ sk'.(sides) !! k = sk.(sides) !! k) -> seg sk base fs -> seg sk' base fs.
Proof.
  induction fs as [| [s a k d b c sib] fs IH]; [done |]. cbn [seg length]. intros H (H1 & H2 & H3).
  destruct (H (base + Z.of_nat (S (length fs)))) as [-> ->]; [lia |]. split_and!; try done.
  apply IH; [| done]. intros k' Hk. apply H. lia.
Qed.
Lemma stacked_agree dummy sk sk' fs : (forall k, 0 <= k <= Z.of_nat (length fs) ->
    sk'.(pa) !! k = sk.(pa) !! k /\ sk'.(sides) !! k = sk.(sides) !! k) -> stacked dummy sk fs -> stacked dummy sk' fs.
Proof.
  intros H (H1 & H2 & H3). destruct (H 0) as [E1 E2]; [lia |]. split_and!; [congruence.. |].
  eapply seg_agree; [| exact H3]. intros k Hk. apply H. lia.
Qed.

(** The link that leads to the place. *)
Definition up_side (fs : list frame) : bool := match fs with [] => false | Fr s _ _ _ _ _ _ :: _ => s end.
Lemma entry_run dummy sk fs st : stacked dummy sk fs ->
  entry sk (Z.of_nat (length fs)) st = Some ((up_ptr dummy fs, up_side fs), st).
Proof.
  intros (H1 & H2 & H3). unfold entry. destruct fs as [| [s a k d b c sib] fs]; cbn [length up_ptr up_side] in *.
  - change (Z.of_nat 0) with 0. by rewrite H1, H2.
  - destruct H3 as (E1 & E2 & _). by rewrite !Z.add_0_l in E1, E2; rewrite E1, E2.
Qed.
Lemma put_run k p a sk st : 0 <= k < 32 ->
  put k p a sk st = Some (mk_stack (<[k := p]> sk.(pa)) (<[k := a]> sk.(sides)) sk.(top), st).
Proof.
  intros H. unfold put, guard, AVL_MAX_HEIGHT. rewrite (proj2 (Z.leb_le _ _)), (proj2 (Z.ltb_lt _ _)) by lia. done.
Qed.
Lemma push_run p a sk st : 0 <= sk.(top) < 32 ->
  push p a sk st = Some (mk_stack (<[sk.(top) := p]> sk.(pa)) (<[sk.(top) := a]> sk.(sides)) (sk.(top) + 1), st).
Proof.
  intros H. unfold push. by rewrite (bind_some _ _ _ _ _ (put_run _ p a sk st H)).
Qed.

(** * The place *)

(** The root of a tree by the place in it. *)
Fixpoint root_of (p : Z) (fs : list frame) : Z :=
  match fs with [] => p | Fr _ a _ _ _ _ _ :: fs => root_of a fs end.
Lemma ptr_plug_root fs x : ptr (plug fs x) = root_of (ptr x) fs.
Proof.
  revert x. induction fs as [| [s a k d b c sib] fs IH]; intros x; [done |].
  change (ptr (plug fs (mk s a k d b c x sib)) = root_of a fs). by rewrite IH, ptr_mk.
Qed.
Lemma root_of_app p fs gs : root_of p (fs ++ gs) = root_of (root_of p fs) gs.
Proof. revert p. induction fs as [| [s a k d b c sib] fs IH]; intros p; [done | apply IH]. Qed.
Lemma root_of_in p fs : fs <> [] -> root_of p fs ∈ addrs_ctx fs.
Proof.
  revert p. induction fs as [| [s a k d b c sib] fs IH]; intros p H; [done |]. cbn [root_of addrs_ctx].
  destruct (decide (fs = [])) as [-> | Hf]; [left | right; apply elem_of_app; right; by apply IH].
Qed.
Lemma root_of_up p q fs : fs <> [] -> root_of p fs = root_of q fs.
Proof. by destruct fs as [| [s a k d b c sib] fs]. Qed.
Lemma holds_ctx_app h p fs gs : holds_ctx h p (fs ++ gs) <-> holds_ctx h p fs /\ holds_ctx h (root_of p fs) gs.
Proof.
  revert p. induction fs as [| [s a k d b c sib] fs IH]; intros p; [by cbn; intuition |]. cbn [app holds_ctx root_of].
  rewrite IH. tauto.
Qed.
Lemma addrs_ctx_app fs gs : addrs_ctx (fs ++ gs) = addrs_ctx fs ++ addrs_ctx gs.
Proof.
  induction fs as [| [s a k d b c sib] fs IH]; [done |]. cbn [app addrs_ctx]. by rewrite IH, app_assoc.
Qed.

(** Only the link to the place is set. *)
Definition relinked (h' : gmap Z node) (v : Z) (fs : list frame) : Prop :=
  match fs with [] => True | Fr s a k d b c sib :: _ => h' !! a = Some (nd s k d b c v (ptr sib)) end.
Lemma holds_relinked r h h' p v fs : holds_ctx h p fs -> NoDup (addrs_ctx fs) -> relinked h' v fs ->
  (forall a, a ∈ addrs_ctx fs -> a <> up_ptr r fs -> h' !! a = h !! a) -> holds_ctx h' v fs.
Proof.
  destruct fs as [| [s a k d b c sib] fs]; [done |]. cbn [holds_ctx addrs_ctx relinked up_ptr].
  intros (Ha & _ & Hs & Hc) [Hn (_ & Hd & _)%NoDup_app]%NoDup_cons En H. split_and!; [done | done | |].
  - apply (holds_agree h); [| done]. intros a' Ha'. apply H; set_solver.
  - apply (holds_ctx_agree h); [| done]. intros a' Ha'. apply H; set_solver.
Qed.

(** The node the link is in. *)
Lemma up_node r h p fs n0 : holds_ctx h p fs -> h !! r = Some n0 -> exists n, h !! up_ptr r fs = Some n /\
  forall h' v, h' !! up_ptr r fs = Some (with_link (up_side fs) v n) -> relinked h' v fs.
Proof.
  intros H H0. destruct fs as [| [s a k d b c sib] fs]; cbn [up_ptr up_side]; [by exists n0 |].
  destruct H as (_ & En & _). eexists. split; [exact En |]. intros h' v E. cbn. by rewrite E, with_link_nd.
Qed.
Lemma up_ptr_in r fs : up_ptr r fs ∈ r :: addrs_ctx fs.
Proof. destruct fs as [| [s a k d b c sib] fs]; [left | right; left]. Qed.

Lemma up_ptr_in_ctx r fs : fs <> [] -> up_ptr r fs ∈ addrs_ctx fs.
Proof. destruct fs as [| [s a k d b c sib] fs]; [done | left]. Qed.

Lemma replace_run dummy sk fs s p st : stacked dummy sk fs -> holds_ctx st.(nodes) s fs -> NoDup (addrs_ctx fs) ->
  s ∉ addrs_ctx fs -> dummy ∉ addrs_ctx fs -> is_Some (st.(nodes) !! dummy) -> st.(root) = root_of s fs ->
  exists h', replace sk (Z.of_nat (S (length fs))) s p st = Some (tt, with_root (root_of p fs) (with_nodes h' st)) /\
    holds_ctx h' p fs /\ agree (dummy :: addrs_ctx fs) st.(nodes) h' /\ (is_Some (h' !! dummy)).
Proof.
  intros Hsk Hc Hd Hs Hdm [nd0 Hd0] Hr. destruct (up_node dummy _ _ _ _ Hc Hd0) as (n & En & Hrel).
  exists (<[up_ptr dummy fs := with_link (up_side fs) p n]> st.(nodes)). split_and!.
  - unfold replace. replace (Z.of_nat (S (length fs)) - 1) with (Z.of_nat (length fs)) by lia.
    rewrite (bind_some _ _ _ _ _ (entry_run dummy sk fs st Hsk)). heap_step. rewrite bind_gets. cbn [root with_nodes].
    rewrite Hr. destruct (decide (fs = [])) as [-> | Hf]; [cbn; by rewrite Z.eqb_refl |].
    pose proof (root_of_in s fs Hf). replace (root_of s fs =? s) with false by (symmetry; apply Z.eqb_neq; intros E; congruence).
    by rewrite (root_of_up p s fs Hf), <- Hr.
  - eapply (holds_relinked dummy); [exact Hc | done | apply Hrel, lookup_insert_eq |].
    intros a Ha Hne. by apply lookup_insert_ne.
  - apply agree_insert; [apply up_ptr_in | apply agree_refl].
  - destruct (decide (up_ptr dummy fs = dummy)) as [-> |]; [by rewrite lookup_insert_eq | by rewrite lookup_insert_ne, Hd0].
Qed.

(** * The rotations of a deletion *)

(** The side [negb u] is too low, [u] the other one. *)
Lemma rotate_delete_flat u na nk nd_ nb nc ra rk rd rc ri ro y sk k st : na <> ra ->
  st.(nodes) !! na = Some (nd u nk nd_ nb nc ra y) -> st.(nodes) !! ra = Some (nd u rk rd 0 rc ri ro) ->
  exists h', rotate_delete sk k na (negb u) st = (do* replace sk k na ra in ret false) (with_nodes h' st) /\
    h' !! na = Some (nd u nk nd_ nb nc ro y) /\ h' !! ra = Some (nd u rk rd (sign (negb u)) rc ri na) /\
    agree [na; ra] st.(nodes) h'.
Proof.
  intros Hne En Er. unfold rotate_delete. heap_run. change (0 =? 0) with true. heap_run.
  eexists. split; [reflexivity |]. split_and!; [look | look | heap_agree].
Qed.

(** Otherwise the rotation is the one of an insertion. *)
Lemma rotate_delete_lean u na nk nd_ nb nc ra n y sk k st : n.(Bal) = 1 \/ n.(Bal) = -1 ->
  st.(nodes) !! na = Some (nd u nk nd_ nb nc ra y) -> st.(nodes) !! ra = Some n ->
  rotate_delete sk k na (negb u) st = (let* p := rotate_insert u na ra in do* replace sk k na p in ret true) st.
Proof.
  intros Hb En Er. unfold rotate_delete. heap_step. node_simpl. heap_step. unfold rotate_insert. rewrite bind_assoc. heap_step.
  replace (Bal n =? 0) with false by (symmetry; apply Z.eqb_neq; lia). rewrite sign_negb, Z.opp_involutive.
  assert (Hg : Bal n =? sign u = false -> u || (Bal n =? - sign u) = true).
  { intros H%Z.eqb_neq. apply orb_true_iff. right. apply Z.eqb_eq. destruct (sign_cases u) as [S | S]; rewrite S in *; lia. }
  destruct (Bal n =? sign u); [| rewrite Hg by done].
  all: unfold bind; repeat (case_match; simplify_eq; try done).
Qed.

(** * Back up the stack *)

(** A tree with a place in it, and the stack that leads there. *)
Record placed (dummy : Z) (sk : stack_t) (st : avl_t) (fs : list frame) (x : tree) : Prop := {
  placed_holds : holds st.(nodes) (plug fs x);
  placed_nodup : NoDup (dummy :: addrs (plug fs x));
  placed_dummy : is_Some (st.(nodes) !! dummy);
  placed_root : st.(root) = root_of (ptr x) fs;
  placed_stack : stacked dummy sk fs;
}.

(** Step D10 for one entry; the result tells whether the part has become lower. *)
Definition fix_at (sk : stack_t) (k s : Z) (a : bool) : prog avl_t bool :=
  let* ns := node_at s in
  if ns.(Bal) =? sign a then do* set_bal s 0 in ret true
  else if ns.(Bal) =? 0 then do* set_bal s (- sign a) in ret false
  else rotate_delete sk k s a.

(** A part that was changed in place. *)
Lemma placed_set_bal dummy sk fs s a k d b v c x y st : let n v := mk s a k d v c x y in
  placed dummy sk st fs (n b) ->
  exists h', set_bal a v st = Some (tt, with_root (root_of (ptr (n v)) fs) (with_nodes h' st)) /\
    placed dummy sk (with_root (root_of (ptr (n v)) fs) (with_nodes h' st)) fs (n v) /\
    agree (addrs (plug fs (n b))) st.(nodes) h' /\ addrs (plug fs (n v)) ≡ₚ addrs (plug fs (n b)).
Proof.
  intros n [Hh Hd Hdm Hr Hsk]. pose proof Hd as [Hnd Hd']%NoDup_cons.
  destruct (set_bal_run fs s a k d b v c x y st Hh Hd') as (h' & R & H1 & H2 & H3). fold (n b) (n v) in H1, H2, H3.
  exists h'. assert (Er : root_of (ptr (n v)) fs = st.(root)) by (rewrite Hr; unfold n; by rewrite !ptr_mk).
  rewrite Er. split_and!; [exact R | | done..].
  split; [done | by rewrite H3 | | by rewrite Er | done]. cbn. by rewrite H2.
Qed.

Lemma fix_rotate dummy sk fs s a k d b c x sib st : let n := mk s a k d b c x sib in
  placed dummy sk st fs n -> sib <> E -> (bal sib <> 0 -> rotatable (negb s) sib /\ (bal sib = 1 \/ bal sib = -1)) ->
  let r := rot_low s a k d b c x sib in
  exists h' st', rotate_delete sk (Z.of_nat (S (length fs))) a s st = (do* replace sk (Z.of_nat (S (length fs))) a (ptr r.1) in ret r.2) st' /\
    st' = with_nodes h' st /\ holds h' r.1 /\ agree (addrs n) st.(nodes) h' /\ addrs r.1 ≡ₚ addrs n.
Proof.
  intros n [Hh Hd Hdm Hr Hsk] He Hrot r. apply NoDup_cons in Hd as [Hnd (Hdn & _)%nodup_plug]. apply holds_plug in Hh as [Hn _].
  unfold n in *. rewrite mk_negb in *. destruct (decide (bal sib = 0)) as [H0 | H0].
  - destruct (tree_cases (negb s) sib He) as (ra & rk & rd & rb & rc & ri & ro & ->). rewrite bal_mk in H0. subst rb.
    unfold r. rewrite rot_low_flat. cbn [fst snd].
    pose proof Hn as (_ & En & (_ & Er & _)%holds_mk & _)%holds_mk. rewrite ptr_mk in En.
    assert (Hne : a <> ra) by (rewrite !addrs_mk, NoDup_cons in Hdn; set_solver).
    destruct (rotate_delete_flat _ _ _ _ _ _ _ _ _ _ _ _ _ sk (Z.of_nat (S (length fs))) st Hne En Er) as (h' & R & L1 & L2 & Hag).
    rewrite negb_involutive in *. exists h', (with_nodes h' st). unfold single at 1. rewrite ptr_mk.
    split_and!; [exact R | done | by eapply holds_single | |].
    + eapply agree_weaken; [| exact Hag]. rewrite !addrs_mk. set_solver.
    + rewrite addrs_single, !addrs_mk. cbn. solve_Permutation.
  - destruct (Hrot H0) as [Hrt Hb]. unfold r. rewrite rot_low_rotate by done. cbn [fst snd].
    destruct (rotate_insert_run (negb s) a k d b c sib x st Hrt Hn Hdn) as (h' & R & Hh' & Hag & Hp).
    exists h', (with_nodes h' st). split_and!; try done.
    pose proof Hn as (_ & En & Hs & _)%holds_mk. destruct (tree_cases s sib He) as (ra & rk & rd & rb & rc & ri & ro & ->).
    rewrite bal_mk, ptr_mk in *. apply holds_mk in Hs as (_ & Er & _).
    rewrite <- (negb_involutive s) at 1. erewrite rotate_delete_lean; [| | exact En | exact Er]; [| done].
    by rewrite (bind_some _ _ _ _ _ R).
Qed.

(** The part after [rot_low] takes the place of the one before. *)
Lemma placed_replace dummy sk fs n t st h1 : placed dummy sk st fs n -> n <> E -> holds h1 t ->
  agree (addrs n) st.(nodes) h1 -> addrs t ≡ₚ addrs n ->
  exists h', let st' := with_root (root_of (ptr t) fs) (with_nodes h' st) in
    replace sk (Z.of_nat (S (length fs))) (ptr n) (ptr t) (with_nodes h1 st) = Some (tt, st') /\
    placed dummy sk st' fs t /\ agree (dummy :: addrs (plug fs n)) st.(nodes) h'.
Proof.
  intros [Hh Hd Hdm Hr Hsk] He Ht Hag Hp. apply NoDup_cons in Hd as [Hnd Hd]. pose proof Hd as (Hdn & Hdis & Hdc)%nodup_plug.
  apply holds_plug in Hh as [Hn Hc]. rewrite addrs_plug in Hnd.
  assert (Hpn : ptr n ∈ addrs n) by (by apply ptr_addrs).
  destruct (replace_run dummy sk fs (ptr n) (ptr t) (with_nodes h1 st)) as (h2 & R & Hc2 & Hag2 & Hdm2);
    cbn [nodes root with_nodes] in *; try done.
  { eapply holds_ctx_outside; [exact Hag | set_solver | done]. }
  { by apply Hdis. }
  { set_solver. }
  { rewrite Hag by set_solver. done. }
  exists h2. split_and!; [exact R | split | ].
  - apply holds_plug. split; [| done]. eapply holds_outside; [exact Hag2 | | done]. intros v Hv. rewrite Hp. set_solver.
  - apply NoDup_cons. split; [by rewrite addrs_plug, Hp | by rewrite addrs_plug, Hp, <- addrs_plug].
  - done.
  - done.
  - done.
  - eapply agree_trans; [eapply agree_weaken; [| exact Hag] | eapply agree_weaken; [| exact Hag2]]; rewrite addrs_plug; set_solver.
Qed.

Lemma fix_run dummy sk fs s a k d b c x x0 sib st : let n := mk s a k d b c x sib in
  placed dummy sk st fs n -> balanced (mk s a k d b c x0 sib) -> height x = height x0 - 1 ->
  let r := fix_low s a k d b c x sib in
  exists h', let st' := with_root (root_of (ptr r.1) fs) (with_nodes h' st) in
    fix_at sk (Z.of_nat (S (length fs))) a s st = Some (r.2, st') /\ placed dummy sk st' fs r.1 /\
    agree (dummy :: addrs (plug fs n)) st.(nodes) h' /\ addrs (plug fs r.1) ≡ₚ addrs (plug fs n).
Proof.
  intros n Hpl Hb Hh r. pose proof (placed_holds _ _ _ _ _ Hpl) as [Hn _]%holds_plug.
  pose proof Hn as (Ha & En & _)%holds_mk. unfold fix_at. heap_step. node_simpl. unfold r, fix_low.
  assert (Hset : forall v (low : bool), let n' := mk s a k d v c x sib in exists h',
    let st' := with_root (root_of (ptr n') fs) (with_nodes h' st) in
    (do* set_bal a v in ret low) st = Some (low, st') /\ placed dummy sk st' fs n' /\
    agree (dummy :: addrs (plug fs n)) st.(nodes) h' /\ addrs (plug fs n') ≡ₚ addrs (plug fs n)).
  { intros v low. destruct (placed_set_bal dummy sk fs s a k d b v c x sib st Hpl) as (h' & R & H1 & H2 & H3).
    exists h'. rewrite (bind_some _ _ _ _ _ R). split_and!; [done | done | | done].
    eapply agree_weaken; [| exact H2]. set_solver. }
  apply balanced_mk in Hb as (Eb & Hb & _ & Hs).
  destruct (Z.eqb_spec b (sign s)) as [| N1]; [apply Hset |]. destruct (Z.eqb_spec b 0) as [| N2]; [apply Hset |].
  assert (Hsib : sib <> E).
  { intros ->. cbn [height] in Eb. pose proof (height_pos x). destruct (sign_cases s) as [S | S]; rewrite S in *; lia. }
  destruct (fix_rotate dummy sk fs s a k d b c x sib st Hpl Hsib) as (h1 & st1 & R & -> & Ht & Hag & Hp).
  { intros H0. split; [by apply rotatable_ok |]. destruct (tree_cases s sib Hsib) as (? & ? & ? & ? & ? & ? & ? & ->).
    rewrite bal_mk in *. apply balanced_mk in Hs as (_ & Hs & _). lia. }
  rewrite R. set (t := rot_low s a k d b c x sib) in *.
  destruct (placed_replace dummy sk fs n t.1 st h1 Hpl) as (h2 & R2 & Hpl2 & Hag2); [unfold n; by destruct s | done.. |].
  assert (Ea : ptr n = a) by apply ptr_mk. rewrite Ea in R2. exists h2. rewrite (bind_some _ _ _ _ _ R2).
  split_and!; [done.. |]. fold n in Hp. by rewrite !addrs_plug, Hp.
Qed.

(** The whole way up. *)
Lemma go_up_run dummy sk fs x x0 st : placed dummy sk st fs x -> balanced (plug fs x0) -> balanced x ->
  height x = height x0 - 1 ->
  exists h', go_up (length fs) sk st = Some (tt, with_root (ptr (up fs x)) (with_nodes h' st)) /\
    holds h' (up fs x) /\ agree (dummy :: addrs (plug fs x)) st.(nodes) h' /\ addrs (up fs x) ≡ₚ addrs (plug fs x).
Proof.
  revert x x0 st. induction fs as [| [s a k d b c sib] fs IH]; intros x x0 st Hpl Hb Hx Hh.
  - exists st.(nodes). destruct Hpl as [Hpl _ _ Hr _]. cbn [root_of up] in *. rewrite <- Hr. split_and!; [by destruct st | done..].
  - change (plug _ x0) with (plug fs (mk s a k d b c x0 sib)) in Hb.
    assert (Hpl' : placed dummy sk st fs (mk s a k d b c x sib)).
    { destruct Hpl as [H1 H2 H3 H4 (H5 & H6 & _ & _ & H7)]. split; try done. by rewrite ptr_mk. }
    pose proof (balanced_plug_inv _ _ Hb) as Hb0.
    destruct (fix_run dummy sk fs s a k d b c x x0 sib st Hpl' Hb0 Hh) as (h1 & R & Hpl1 & Hag1 & Hp1).
    destruct (fix_low_ok s a k d b c x x0 sib Hb0 Hx Hh) as (B1 & B2 & _).
    assert (Hstep : go_up (S (length fs)) sk st =
      (let* lower := fix_at sk (Z.of_nat (S (length fs))) a s in if lower then go_up (length fs) sk else ret tt) st).
    { cbn [go_up]. rewrite (bind_some _ _ _ _ _ (entry_run dummy sk (Fr s a k d b c sib :: fs) st (placed_stack _ _ _ _ _ Hpl))).
      cbn [up_ptr up_side]. unfold fix_at, bind, ret. repeat (case_match; simplify_eq; try done). all: by destruct u. }
    cbn [length]. rewrite Hstep, (bind_some _ _ _ _ _ R). cbn [up].
    destruct (fix_low s a k d b c x sib) as [t [|]]; cbn [fst snd] in *.
    + destruct (IH t (mk s a k d b c x0 sib) _ Hpl1 Hb B1 B2) as (h2 & R2 & Hh2 & Hag2 & Hp2).
      exists h2. split_and!; [exact R2 | done | | by rewrite Hp2].
      eapply agree_trans; [exact Hag1 | eapply agree_weaken; [| exact Hag2]]. intros v. rewrite !elem_of_cons. by rewrite Hp1.
    + exists h1. rewrite ptr_plug_root. split_and!; [done | apply Hpl1 | done..].
Qed.
End AvlRebal.
