(* ===== verification/AvlRemove.v ===== *)
(** Deletion from a balanced tree on the heap: the search with its stack, taking
    the node out, the whole of [AvlDelete]. *)

From S2P Require Import Prelude Avl AvlTree AvlTake AvlHeap AvlPut AvlGrow AvlRebal.

Module AvlRemove.
Import Avl AvlTree AvlTake AvlHeap AvlPut AvlGrow AvlRebal.

(** * The stack on the way down *)

Lemma stacked_push dummy sk fs s a k d b c sib : stacked dummy sk fs -> sk.(top) = Z.of_nat (S (length fs)) ->
  stacked dummy (mk_stack (<[sk.(top) := a]> sk.(pa)) (<[sk.(top) := s]> sk.(sides)) (sk.(top) + 1))
    (Fr s a k d b c sib :: fs).
Proof.
  intros H E. destruct (stacked_agree dummy sk
    (mk_stack (<[sk.(top) := a]> sk.(pa)) (<[sk.(top) := s]> sk.(sides)) (sk.(top) + 1)) fs) as (H1 & H2 & H3); [| done |].
  { intros i Hi. cbn. rewrite !lookup_insert_ne by lia. done. }
  split_and!; [done | done |]. cbn [seg pa sides]. rewrite Z.add_0_l, E, !lookup_insert_eq. rewrite E in H3. by split_and!.
Qed.

Section Search.
Context (cmp : Z -> Z -> Z) (key : Z).

Lemma delete_search_run dummy t fuel fs sk st : (length (addrs t) < fuel)%nat -> st.(Compare) = Some cmp ->
  holds st.(nodes) t -> stacked dummy sk fs -> sk.(top) = Z.of_nat (S (length fs)) ->
  Z.of_nat (length fs) + height t <= 31 ->
  match find_path cmp key fs t with
  | None => delete_search fuel key (ptr t) sk st = Some (None, st)
  | Some (gs, p) => exists sk', delete_search fuel key (ptr t) sk st = Some (Some (ptr p, sk'), st) /\
      stacked dummy sk' gs /\ sk'.(top) = Z.of_nat (S (length gs))
  end.
Proof.
  revert fuel fs sk. induction t as [| a k d b c l IHl r IHr]; intros fuel fs sk Hf Hcmp Hh Hsk Ht Hn;
    (destruct fuel as [| fuel]; [lia |]); [done |]. cbn [addrs length] in Hf. rewrite length_app in Hf.
  cbn [find_path ptr delete_search]. destruct Hh as (Ha & En & Hl & Hr). rewrite (proj2 (Z.eqb_neq _ _) Ha). heap_step.
  rewrite (bind_some _ _ _ _ _ (compare_run _ _ _ _ Hcmp)). cbn [Key].
  destruct (cmp key k =? 0); [by exists sk |]. cbn [height] in Hn. pose proof (height_pos l). pose proof (height_pos r).
  cbv zeta. fold (side cmp key k). rewrite (bind_some _ _ _ _ _ (push_run _ _ sk st ltac:(lia))). unfold Link. cbn [Link0 Link1].
  destruct (side cmp key k).
  - apply IHr; [lia | done | done | by apply stacked_push | cbn; lia | cbn; lia].
  - apply IHl; [lia | done | done | by apply stacked_push | cbn; lia | cbn; lia].
Qed.
End Search.

(** * The leftmost node *)

Lemma leftmost_run a k d b c l r0 fuel r sk st : (length (addrs l) < fuel)%nat -> holds st.(nodes) (T a k d b c l r0) ->
  0 <= sk.(top) -> sk.(top) + height (T a k d b c l r0) <= 33 ->
  let '(fs, (ma, _, _, _), x) := min_split a k d b c l r0 in
  exists sk', leftmost fuel r a sk st = Some ((up_ptr r fs, ma, sk'), st) /\ seg sk' (sk.(top) - 1) fs /\
    sk'.(top) = sk.(top) + Z.of_nat (length fs) /\
    forall i, i < sk.(top) -> sk'.(pa) !! i = sk.(pa) !! i /\ sk'.(sides) !! i = sk.(sides) !! i.
Proof.
  revert a k d b c r0 fuel r sk. induction l as [| al kl dl bl cl ll IH rl _]; intros a k d b c r0 fuel r sk Hf Hh H0 Hn.
  all: destruct fuel as [| fuel]; [lia |]; cbn [min_split leftmost]; unfold get_link.
  all: destruct Hh as (Ha & En & Hl & Hr); rewrite bind_assoc; heap_step; rewrite bind_ret; cbn [Link Link0 ptr].
  - change (0 =? 0) with true. exists sk. split_and!; [done | done | cbn; lia | done].
  - rewrite (proj2 (Z.eqb_neq _ _) (proj1 Hl)). cbn [addrs length] in Hf. rewrite length_app in Hf.
    pose proof (height_pos ll). pose proof (height_pos rl). pose proof (height_pos r0). cbn [height] in Hn.
    rewrite (bind_some _ _ _ _ _ (push_run _ _ sk st ltac:(lia))).
    set (sk1 := mk_stack _ _ _). specialize (IH al kl dl bl cl rl fuel a sk1).
    destruct (min_split al kl dl bl cl ll rl) as [[fs [[[ma mk_] md] mc]] x].
    destruct IH as (sk' & R & Hs & Ht & Hag); [lia | done | cbn; lia | cbn [height top sk1]; unfold sk1; cbn [top]; lia |].
    exists sk'. change (top sk1) with (top sk + 1) in *. rewrite length_app. cbn [length]. split_and!.
    + rewrite R. by destruct fs as [| [? ? ? ? ? ? ?] ?].
    + apply seg_app. cbn [length seg]. replace (top sk - 1 + Z.of_nat 1) with (top sk + 1 - 1) by lia. split; [done |].
      replace (top sk + 1 - 1) with (top sk) by lia. destruct (Hag (top sk)) as [-> ->]; [lia |].
      cbn. by rewrite !lookup_insert_eq.
    + lia.
    + intros i Hi. destruct (Hag i) as [-> ->]; [lia |]. cbn. by rewrite !lookup_insert_ne by lia.
Qed.

(** * Taking the node out *)

Lemma min_split_side a k d b c l r : up_side (min_split a k d b c l r).1.1 = false.
Proof.
  revert a k d b c r. induction l as [| al kl dl bl cl ll IH rl _]; intros a k d b c r; [done |]. cbn [min_split].
  specialize (IH al kl dl bl cl rl). destruct (min_split al kl dl bl cl ll rl) as [[fs [[[? ?] ?] ?]] ?].
  cbn [fst] in *. by destruct fs as [| [? ? ? ? ? ? ?] ?].
Qed.

(** The memory after the successor [ma] took the node's place. *)
Lemma successor_heap dummy h h' fs a k d b c l gs ma mk_ md mb mc x :
  let t := plug fs (T a k d b c l (plug gs (T ma mk_ md mb mc E x))) in
  let t' := plug (gs ++ Fr true ma mk_ md b mc l :: fs) x in
  holds h t -> NoDup (dummy :: addrs t) ->
  h' !! ma = Some (nd true mk_ md b mc (ptr (plug gs x)) (ptr l)) -> relinked h' (ptr x) gs -> relinked h' ma fs ->
  agree [ma; up_ptr ma gs; up_ptr dummy fs] h h' ->
  holds h' t' /\ a :: addrs t' ≡ₚ addrs t /\ a ∉ [ma; up_ptr ma gs; up_ptr dummy fs].
Proof.
  intros t t' Hh Hd Em Hg Hf Hag.
  assert (Hp : addrs t ≡ₚ a :: ma :: (addrs l ++ addrs x) ++ addrs_ctx gs ++ addrs_ctx fs).
  { unfold t. rewrite addrs_plug. cbn [addrs]. rewrite addrs_plug. cbn [addrs app]. solve_Permutation. }
  assert (Hp' : addrs t' ≡ₚ ma :: (addrs l ++ addrs x) ++ addrs_ctx gs ++ addrs_ctx fs).
  { unfold t'. rewrite addrs_plug, addrs_ctx_app. cbn [addrs_ctx]. solve_Permutation. }
  pose proof (up_ptr_in ma gs) as U1. pose proof (up_ptr_in dummy fs) as U2. rewrite Hp in Hd. rewrite !NoDup_cons in Hd.
  destruct Hd as (D1 & D2 & D3 & (_ & D4 & (Hgs & D5 & Hfs)%NoDup_app)%NoDup_app).
  split_and!; [| by rewrite Hp', Hp | members].
  apply holds_plug in Hh as [(_ & _ & Hl & (Hm & Hcg)%holds_plug) Hcf]. cbn [ptr] in *. destruct Hm as (Hma & _ & _ & Hx).
  apply holds_plug. split.
  { eapply holds_outside; [exact Hag | | exact Hx]. intros v Hv Hv'. members. }
  apply holds_ctx_app. split; [| cbn [holds_ctx]; rewrite <- ptr_plug_root; split_and!].
  - eapply (holds_relinked ma); [exact Hcg | done | done |]. intros v Hv Hne. apply Hag. members.
  - done.
  - done.
  - eapply holds_outside; [exact Hag | | exact Hl]. intros v Hv Hv'. members.
  - eapply (holds_relinked dummy); [exact Hcf | done | done |]. intros v Hv Hne. apply Hag. members.
Qed.

(** What taking out leaves. *)
Record taken_out (dummy : Z) (st : avl_t) (fs : list frame) (n : tree) (gs : list frame) (x : tree) (sk : stack_t)
    (h : gmap Z node) : Prop := {
  taken_holds : holds h (plug gs x);
  taken_addrs : ptr n :: addrs (plug gs x) ≡ₚ addrs (plug fs n);
  taken_stack : stacked dummy sk gs;
  taken_top : sk.(top) = Z.of_nat (S (length gs));
  taken_node : h !! ptr n = st.(nodes) !! ptr n;
  taken_agree : agree (dummy :: addrs (plug fs n)) st.(nodes) h;
  taken_dummy : is_Some (h !! dummy);
  taken_link : exists nq, h !! up_ptr dummy fs = Some nq /\ (fs = [] -> nq.(Link0) = ptr (plug gs x));
}.

Section TakeOut.
Context (dummy : Z) (st : avl_t) (fs : list frame) (sk : stack_t) (a k d b : Z) (c : bool) (l : tree) (fuel : nat).
Context (Hdm : is_Some (st.(nodes) !! dummy)) (Hsk : stacked dummy sk fs) (Htop : sk.(top) = Z.of_nat (S (length fs))).
Abbreviation q := (up_ptr dummy fs, up_side fs).

(** The local node stays in memory. *)
Lemma still_there (h h' : gmap Z node) (v u : Z) n : is_Some (h !! v) -> h' !! u = Some n -> (v <> u -> h' !! v = h !! v) ->
  is_Some (h' !! v).
Proof. intros Hv Hu H. destruct (decide (v = u)) as [-> |]; [by rewrite Hu | by rewrite H]. Qed.

Lemma take_out_leaf : holds st.(nodes) (plug fs (T a k d b c l E)) -> NoDup (dummy :: addrs (plug fs (T a k d b c l E))) ->
  exists sk' h', take_out fuel a q sk st = Some (sk', with_nodes h' st) /\
    taken_out dummy st fs (T a k d b c l E) fs (flat l) sk' h'.
Proof.
  intros Hh Hd. pose proof Hh as [(Ha & En & Hl & _) Hc]%holds_plug. destruct Hdm as [n0 H0].
  destruct (up_node dummy _ _ _ _ Hc H0) as (nq & Eq & Hrel). pose proof (up_ptr_in dummy fs) as U.
  assert (Hp : addrs (plug fs (T a k d b c l E)) ≡ₚ a :: addrs l ++ addrs_ctx fs)
    by (rewrite addrs_plug; cbn; by rewrite app_nil_r).
  assert (Hfl : addrs (flat l) = addrs l) by (by destruct l).
  rewrite Hp, !NoDup_cons in Hd. destruct Hd as (D1 & D2 & (Hdl & D3 & Hdf)%NoDup_app).
  assert (Hfin : forall h', (forall v, v <> up_ptr dummy fs -> v ∉ addrs l -> h' !! v = st.(nodes) !! v) ->
    h' !! up_ptr dummy fs = Some (with_link (up_side fs) (ptr l) nq) -> holds h' (flat l) ->
    taken_out dummy st fs (T a k d b c l E) fs (flat l) sk h').
  { intros h' Hag Hq Hl'. assert (Hpe : ptr (flat l) = ptr l) by (by destruct l). split; try done.
    - apply holds_plug. split; [done |]. rewrite Hpe. eapply (holds_relinked dummy); [exact Hc | done | by apply Hrel |].
      intros v Hv Hne. apply Hag; [done | members].
    - cbn [ptr]. by rewrite Hp, addrs_plug, Hfl.
    - cbn [ptr]. apply Hag; members.
    - intros v Hv. rewrite Hp in Hv. apply Hag; members.
    - apply (still_there st.(nodes) h' _ _ _ Hdm Hq). intros Hne. apply Hag; [done | members].
    - eexists. split; [exact Hq |]. intros ->. by rewrite ptr_plug_root, Hpe. }
  unfold take_out. heap_step. cbn [Link0 Link1 ptr]. change (0 =? 0) with true. heap_run.
  set (h1 := <[_ := _]> _). assert (H1 : h1 !! up_ptr dummy fs = Some (with_link (up_side fs) (ptr l) nq)) by apply lookup_insert_eq.
  assert (Hag1 : forall v, v <> up_ptr dummy fs -> h1 !! v = st.(nodes) !! v) by (intros v Hv; by apply lookup_insert_ne).
  destruct l as [| al kl dl bl cl ll rl].
  - exists sk, h1. split; [done |]. apply Hfin; [auto | done | done].
  - destruct Hl as (Hal & El & Hll & Hrl). cbn [ptr addrs] in *. rewrite (proj2 (Z.eqb_neq _ _) Hal).
    apply NoDup_cons in Hdl as [Hal' _].
    assert (Hne : al <> up_ptr dummy fs) by members. 
    assert (El1 : (with_nodes h1 st).(nodes) !! al = Some (mk_node kl dl bl cl (ptr ll) (ptr rl))) by (cbn; by rewrite Hag1).
    unfold set_bal. rewrite (bind_some _ _ _ _ _ (set_node_run al _ _ _ El1)).
    eexists sk, _. split; [reflexivity |]. apply Hfin; cbn [nodes with_nodes].
    + intros v Hv Hv'. rewrite lookup_insert_ne by members. auto.
    + by rewrite lookup_insert_ne.
    + assert (Hin : forall v, v ∈ addrs ll ++ addrs rl -> <[al := mk_node kl dl 0 cl (ptr ll) (ptr rl)]> h1 !! v = st.(nodes) !! v).
      { intros v Hv. rewrite lookup_insert_ne by members. apply Hag1. members. }
      cbn [flat holds]. rewrite lookup_insert_eq. split_and!; [done | done | |].
      all: eapply holds_agree; [| eassumption]; intros v Hv; apply Hin; members.
Qed.

(** The right child has no left child: it is the successor. *)
Lemma take_out_direct ar kr dr br cr rr : let n := T a k d b c l (T ar kr dr br cr E rr) in
  holds st.(nodes) (plug fs n) -> NoDup (dummy :: addrs (plug fs n)) -> Z.of_nat (length fs) < 31 ->
  exists sk' h', take_out fuel a q sk st = Some (sk', with_nodes h' st) /\
    taken_out dummy st fs n (Fr true ar kr dr b cr l :: fs) rr sk' h'.
Proof.
  intros n Hh Hd Hlen. pose proof Hh as [(Ha & En & Hl & (Har & Er & _ & Hrr)) Hc]%holds_plug. destruct Hdm as [n0 H0].
  destruct (up_node dummy _ _ _ _ Hc H0) as (nq & Eq & Hrel). pose proof (up_ptr_in dummy fs) as U.
  assert (Hp : addrs (plug fs n) ≡ₚ a :: ar :: addrs l ++ addrs rr ++ addrs_ctx fs).
  { unfold n. rewrite addrs_plug. cbn. solve_Permutation. }
  pose proof Hd as Hd'. rewrite Hp, !NoDup_cons in Hd'. destruct Hd' as (D1 & D2 & D3 & _).
  assert (Hne : ar <> up_ptr dummy fs) by members. assert (Hne' : a <> ar) by members. cbn [ptr] in *.
  unfold take_out. heap_step. cbn [Link0 Link1]. rewrite (proj2 (Z.eqb_neq _ _) Har). heap_step. cbn [Link0].
  change (0 =? 0) with true. cbn [fst snd]. heap_run. cbn [Bal]. rewrite push_run by lia.
  eexists _, _. split; [reflexivity |]. cbn [with_link].
  set (h' := <[ar := _]> _).
  assert (Hag : agree [ar; up_ptr dummy fs] st.(nodes) h').
  { unfold h'. repeat (apply agree_insert; [set_solver |]). apply agree_refl. }
  destruct (successor_heap dummy st.(nodes) h' fs a k d b c l [] ar kr dr br cr rr) as (S1 & S2 & S3); try done.
  { unfold h'. rewrite lookup_insert_eq. done. }
  { apply Hrel. unfold h'. rewrite lookup_insert_ne by done. apply lookup_insert_eq. }
  { eapply agree_weaken; [| exact Hag]. set_solver. }
  split; try done.
  - by apply stacked_push.
  - cbn. lia.
  - apply Hag. cbn [ptr n]. set_solver.
  - eapply agree_weaken; [| exact Hag]. rewrite Hp. intros v. rewrite !elem_of_cons, elem_of_nil. members.
  - eapply (still_there st.(nodes)); [done | unfold h'; rewrite lookup_insert_ne by done; apply lookup_insert_eq |].
    intros Hne2. apply Hag. rewrite !not_elem_of_cons, elem_of_nil. members.
  - eexists. split; [unfold h'; rewrite lookup_insert_ne by done; apply lookup_insert_eq |]. intros ->. done.
Qed.

(** The stack when the successor is further down: its own entry is filled in last. *)
Lemma far_stack ar sk2 gs1 f g ma : let sk1 := mk_stack (<[sk.(top) + 1 := ar]> sk.(pa)) (<[sk.(top) + 1 := false]> sk.(sides)) (sk.(top) + 1 + 1) in
  seg sk2 (sk1.(top) - 1) gs1 ->
  (forall i, i < sk1.(top) -> sk2.(pa) !! i = sk1.(pa) !! i /\ sk2.(sides) !! i = sk1.(sides) !! i) ->
  seg (mk_stack {[1 := ar]} {[1 := false]} 0) 0 [f] -> seg (mk_stack {[1 := ma]} {[1 := true]} 0) 0 [g] ->
  stacked dummy (mk_stack (<[sk.(top) := ma]> sk2.(pa)) (<[sk.(top) := true]> sk2.(sides)) sk2.(top)) ((gs1 ++ [f]) ++ g :: fs).
Proof.
  intros sk1 Hs Hag Hf Hg. cbn [sk1 top pa sides] in *. set (sk3 := mk_stack (<[_ := ma]> _) _ _).
  assert (Hout : forall i, i <> sk.(top) -> sk3.(pa) !! i = sk2.(pa) !! i /\ sk3.(sides) !! i = sk2.(sides) !! i)
    by (intros i Hi; cbn; by rewrite !lookup_insert_ne by done).
  assert (Hpa : sk3.(pa) !! sk.(top) = Some ma) by apply lookup_insert_eq.
  assert (Hsi : sk3.(sides) !! sk.(top) = Some true) by apply lookup_insert_eq. clearbody sk3.
  assert (Hlow : stacked dummy sk3 fs).
  { apply (stacked_agree dummy sk); [| done]. intros i Hi. destruct (Hout i) as [-> ->]; [lia |].
    destruct (Hag i) as [-> ->]; [lia |]. by rewrite !lookup_insert_ne by lia. }
  destruct f as [s1 a1 ? ? ? ? ?], g as [s2 a2 ? ? ? ? ?]. cbn [seg length pa sides] in Hf, Hg.
  change (0 + Z.of_nat 1) with 1 in Hf, Hg. rewrite !lookup_singleton_eq in Hf, Hg.
  destruct Hf as ([= <-] & [= <-] & _), Hg as ([= <-] & [= <-] & _), Hlow as (L1 & L2 & L3). split; [done | split; [done |]].
  rewrite <- app_assoc, !seg_app. cbn [length seg app]. split_and!.
  - eapply seg_agree; [| replace (0 + Z.of_nat (S (S (length fs)))) with (sk.(top) + 1 + 1 - 1) by lia; exact Hs].
    intros i Hi. apply Hout. lia.
  - replace (0 + Z.of_nat (S (length fs)) + Z.of_nat 1) with (sk.(top) + 1) by lia. destruct (Hout (sk.(top) + 1)) as [-> _]; [lia |].
    destruct (Hag (sk.(top) + 1)) as [-> _]; [lia |]. apply lookup_insert_eq.
  - replace (0 + Z.of_nat (S (length fs)) + Z.of_nat 1) with (sk.(top) + 1) by lia. destruct (Hout (sk.(top) + 1)) as [_ ->]; [lia |].
    destruct (Hag (sk.(top) + 1)) as [_ ->]; [lia |]. apply lookup_insert_eq.
  - done.
  - rewrite <- Hpa. f_equal. lia.
  - rewrite <- Hsi. f_equal. lia.
  - done.
Qed.

(** The assignments when the successor [ma] is further down: [g] has the link to
    it, [u] the one to the node. *)
Definition far_heap (ar lp xp ma mk_ md mb : Z) (mc : bool) (g : Z) (ng : node) (u : Z) (s : bool) (nq : node) : gmap Z node :=
  <[u := with_link s ma nq]> (<[ma := mk_node mk_ md b mc lp ar]> (<[ma := mk_node mk_ md mb mc lp ar]>
    (<[g := with_link false xp ng]> (<[ma := nd false mk_ md mb mc lp xp]> st.(nodes))))).
Lemma far_exec ar nr lp xp ma mk_ md mb mc g ng u s nq sk2 :
  let sk1 := mk_stack (<[sk.(top) + 1 := ar]> sk.(pa)) (<[sk.(top) + 1 := false]> sk.(sides)) (sk.(top) + 1 + 1) in
  sk.(top) + 1 < 32 -> st.(nodes) !! a = Some (mk_node k d b c lp ar) -> ar <> 0 -> st.(nodes) !! ar = Some nr ->
  nr.(Link0) <> 0 -> st.(nodes) !! ma = Some (mk_node mk_ md mb mc 0 xp) -> st.(nodes) !! g = Some ng ->
  st.(nodes) !! u = Some nq -> a <> ma -> a <> g -> a <> u -> ma <> g -> ma <> u -> g <> u ->
  leftmost fuel ar nr.(Link0) sk1 st = Some ((g, ma, sk2), st) ->
  take_out fuel a (u, s) sk st = Some (mk_stack (<[sk.(top) := ma]> sk2.(pa)) (<[sk.(top) := true]> sk2.(sides)) sk2.(top),
    with_nodes (far_heap ar lp xp ma mk_ md mb mc g ng u s nq) st).
Proof.
  intros sk1 Ht En Har Er Hal Em Eg Eq H1 H2 H3 H4 H5 H6 R. unfold take_out. heap_step. cbn [Link0 Link1].
  rewrite (proj2 (Z.eqb_neq _ _) Har). heap_step. rewrite (proj2 (Z.eqb_neq _ _) Hal).
  rewrite (bind_some _ _ _ _ _ (push_run ar false (skip sk) st ltac:(cbn [top skip]; lia))).
  erewrite (bind_some (leftmost _ _ _ _)); [| exact R]. cbv beta iota. rewrite (bind_some _ _ _ _ _ (put_run sk.(top) ma true sk2 st ltac:(lia))).
  heap_run. cbn [fst snd Bal with_link]. heap_run. reflexivity.
Qed.

(** The successor is further down. *)
Lemma take_out_far ar kr dr br cr al kl dl bl cl ll rl rr :
  let lr := T al kl dl bl cl ll rl in let r := T ar kr dr br cr lr rr in let n := T a k d b c l r in
  holds st.(nodes) (plug fs n) -> NoDup (dummy :: addrs (plug fs n)) -> Z.of_nat (length fs) + height r <= 31 ->
  (length (addrs r) < fuel)%nat ->
  exists sk' h', take_out fuel a q sk st = Some (sk', with_nodes h' st) /\
    taken_out dummy st fs n (taken fs b l r).1 (taken fs b l r).2 sk' h'.
Proof.
  intros lr r n Hh Hd Hlen Hfuel. pose proof Hh as [(Ha & En & Hl & Hr) Hc]%holds_plug. destruct Hdm as [n0 H0].
  destruct (up_node dummy _ _ _ _ Hc H0) as (nq & Eq & Hrel). pose proof (up_ptr_in dummy fs) as U.
  pose proof Hr as (Har & Er & Hlr & Hrr). assert (Epr : ptr r = ar) by done. pose proof Hlr as (Hal & _ & Hll & _).
  pose proof (height_pos ll). pose proof (height_pos rl). pose proof (height_pos rr).
  assert (Hlen' : Z.of_nat (length fs) + 2 <= 31 /\ Z.of_nat (length fs) + 1 + height lr <= 31)
    by (unfold r, lr in *; cbn [height] in *; lia).
  assert (Hfuel' : (length (addrs ll) < fuel)%nat).
  { unfold r, lr in Hfuel. cbn [addrs length] in Hfuel. rewrite length_app in Hfuel. cbn [length] in Hfuel. rewrite length_app in Hfuel. lia. }
  set (sk1 := mk_stack (<[sk.(top) + 1 := ar]> sk.(pa)) (<[sk.(top) + 1 := false]> sk.(sides)) (sk.(top) + 1 + 1)).
  pose proof (leftmost_run al kl dl bl cl ll rl fuel ar sk1 st Hfuel' Hlr ltac:(cbn; lia) ltac:(cbn [top sk1]; fold lr; lia)) as Hlm.
  pose proof (min_split_spec ar kr dr br cr lr rr) as Hm. pose proof (min_split_side ar kr dr br cr lr rr) as Hsd.
  assert (Etk : taken fs b l r = let '(gs1, (ma, mk_, md, mc), x) := min_split al kl dl bl cl ll rl in
    ((gs1 ++ [Fr false ar kr dr br cr rr]) ++ Fr true ma mk_ md b mc l :: fs, x)).
  { cbn. by destruct (min_split al kl dl bl cl ll rl) as [[? [[[? ?] ?] ?]] ?]. }
  rewrite Etk. clear Etk. unfold lr in Hm, Hsd. cbn [min_split] in *.
  destruct (min_split al kl dl bl cl ll rl) as [[gs1 [[[ma mk_] md] mc]] x]. set (gs := gs1 ++ [Fr false ar kr dr br cr rr]) in *.
  cbn [fst snd] in *. destruct Hlm as (sk2 & R & Hs2 & Ht2 & Hag2). destruct Hm as [_ [mb Hm]]. fold lr r in Hm.
  assert (Hgs : gs <> []) by (unfold gs; by destruct gs1). clearbody r.
  assert (Eug : up_ptr ar gs1 = up_ptr ma gs) by (unfold gs; by destruct gs1 as [| [? ? ? ? ? ? ?] ?]).
  rewrite Hm in Hr. apply holds_plug in Hr as [(Hma & Em & _ & Hx) Hcg]. cbn [ptr] in *.
  destruct (up_node ma _ _ _ _ Hcg Em) as (ng & Eg & Hrelg). rewrite Hsd in Hrelg. pose proof (up_ptr_in_ctx ma gs Hgs) as Ug.
  assert (Hp : addrs (plug fs n) ≡ₚ a :: ma :: (addrs l ++ addrs x) ++ addrs_ctx gs ++ addrs_ctx fs).
  { unfold n. rewrite addrs_plug, Hm. cbn [addrs]. rewrite addrs_plug. cbn [addrs app]. solve_Permutation. }
  pose proof Hd as Hd'. rewrite Hp, !NoDup_cons in Hd'. destruct Hd' as (D1 & D2 & D3 & (_ & _ & (_ & D4 & _)%NoDup_app)%NoDup_app).
  assert (Hne1 : a <> ma) by members. assert (Hne2 : a <> up_ptr ma gs) by members. assert (Hne3 : a <> up_ptr dummy fs) by members.
  assert (Hne4 : ma <> up_ptr ma gs) by members. assert (Hne5 : ma <> up_ptr dummy fs) by members.
  assert (Hne6 : up_ptr ma gs <> up_ptr dummy fs) by members.
  rewrite Epr in En. rewrite Eug in R.
  pose proof (far_exec ar _ _ _ ma _ _ _ _ (up_ptr ma gs) ng (up_ptr dummy fs) (up_side fs) nq sk2 ltac:(lia) En Har Er Hal Em Eg Eq
    Hne1 Hne2 Hne3 Hne4 Hne5 Hne6 R) as Rt.
  set (h' := far_heap _ _ _ _ _ _ _ _ _ _ _ _ _) in Rt. eexists _, h'. split; [exact Rt |].
  assert (Hag : agree [ma; up_ptr ma gs; up_ptr dummy fs] st.(nodes) h').
  { unfold h', far_heap. repeat (apply agree_insert; [rewrite !elem_of_cons; tauto |]). apply agree_refl. }
  destruct (successor_heap dummy st.(nodes) h' fs a k d b c l gs ma mk_ md mb mc x) as (S1 & S2 & S3); try (rewrite <- ?Hm; done).
  { unfold h', far_heap. rewrite lookup_insert_ne by done. rewrite (ptr_plug gs x (T ma mk_ md mb mc E x) Hgs), <- Hm, Epr. apply lookup_insert_eq. }
  { apply Hrelg. unfold h', far_heap. rewrite !lookup_insert_ne by done. apply lookup_insert_eq. }
  { apply Hrel. unfold h', far_heap. apply lookup_insert_eq. }
  rewrite <- Hm in S2. change (top sk1) with (sk.(top) + 1 + 1) in *. split.
  - done.
  - done.
  - apply (far_stack ar); [done | done | by cbn | by cbn].
  - unfold gs. cbn [top]. rewrite !length_app. cbn [length]. lia.
  - apply Hag. done.
  - eapply agree_weaken; [| exact Hag]. rewrite Hp. intros v. rewrite !elem_of_cons, elem_of_nil. members.
  - eapply (still_there st.(nodes)); [done | unfold h', far_heap; apply lookup_insert_eq |].
    intros Hne7. apply Hag. rewrite !not_elem_of_cons, elem_of_nil. members.
  - eexists. split; [unfold h', far_heap; apply lookup_insert_eq |]. intros ->. cbn [up_side with_link]. cbn.
    rewrite ptr_plug_root, root_of_app. done.
Qed.

Lemma take_out_run r : let n := T a k d b c l r in
  holds st.(nodes) (plug fs n) -> NoDup (dummy :: addrs (plug fs n)) -> Z.of_nat (length fs) + height n <= 31 ->
  (length (addrs r) < fuel)%nat ->
  exists sk' h', take_out fuel a q sk st = Some (sk', with_nodes h' st) /\
    taken_out dummy st fs n (taken fs b l r).1 (taken fs b l r).2 sk' h'.
Proof.
  intros n Hh Hd Hlen Hf. assert (Hn : 1 + height r <= height n) by (cbn; lia).
  destruct r as [| ar kr dr br cr [| al kl dl bl cl ll rl] rr].
  - by apply take_out_leaf.
  - apply take_out_direct; [done | done |]. pose proof (height_pos (T ar kr dr br cr E rr)). cbn [height] in *.
    pose proof (height_pos rr). lia.
  - apply take_out_far; [done | done | lia | done].
Qed.
End TakeOut.

(** * The whole deletion *)

(** What the call-backs of a tree get for a node. *)
Definition released (st : avl_t) (key data : Z) : list destroyed :=
  (if st.(DestroyKey) && negb (key =? 0) then [Destroyed_key key] else []) ++
  (if st.(DestroyDaten) && negb (data =? 0) then [Destroyed_data data] else []).
Lemma destroy_run p n st : st.(nodes) !! p = Some n ->
  destroy p st = Some (tt, mk_avl (delete p st.(nodes)) st.(root) st.(Compare) st.(DestroyKey) st.(DestroyDaten)
    (st.(calls) ++ released st n.(Key) n.(Daten))).
Proof.
  intros H. unfold destroy. rewrite (bind_some _ _ _ _ _ (node_at_run p n st H)), bind_get. unfold released.
  destruct st as [h rt cmp dk dd cs]. cbn [DestroyKey DestroyDaten].
  destruct (dk && negb (n.(Key) =? 0)), (dd && negb (n.(Daten) =? 0)); cbn; by rewrite <- ?app_assoc, ?app_nil_r.
Qed.

(** What follows three commands that have run. *)
Lemma seq_run {A B C} (m : prog avl_t A) (f : A -> prog avl_t B) (g : A -> prog avl_t unit) (K : unit -> prog avl_t C) s s' :
  bind m (fun x => bind (f x) (fun _ => g x)) s = Some (tt, s') ->
  bind m (fun x => bind (f x) (fun _ => bind (g x) K)) s = K tt s'.
Proof.
  unfold bind. destruct (m s) as [[x s1] |]; [| done]. destruct (f x s1) as [[y s2] |]; [| done]. by intros ->.
Qed.

Section Delete.
Context (cmp : Z -> Z -> Z) (key dummy : Z).

(** After the node is taken out, the root has its new place and the way back up
    is done. *)
Lemma settle_taken fs a k d b c l r gs x sk st : let n := T a k d b c l r in
  taken fs b l r = (gs, x) -> balanced (plug fs n) -> holds st.(nodes) (plug fs n) -> NoDup (dummy :: addrs (plug fs n)) ->
  st.(root) = ptr (plug fs n) -> is_Some (st.(nodes) !! dummy) -> stacked dummy sk fs -> sk.(top) = Z.of_nat (S (length fs)) ->
  Z.of_nat (length fs) + height n <= 31 -> forall fuel, (length (addrs r) < fuel)%nat ->
  exists h', (let* st' := take_out fuel a (up_ptr dummy fs, up_side fs) sk in
      do* (if a =? ptr (plug fs n) then let* r := get_link (up_ptr dummy fs) (up_side fs) in set_root r else ret tt) in
      go_up (Z.to_nat (st'.(top) - 1)) st') st = Some (tt, with_root (ptr (up gs x)) (with_nodes h' st)) /\
    holds h' (up gs x) /\ a :: addrs (up gs x) ≡ₚ addrs (plug fs n) /\ h' !! a = st.(nodes) !! a /\
    agree (dummy :: addrs (plug fs n)) st.(nodes) h'.
Proof.
  intros n Etk Hb Hh Hd Hr Hdm Hsk Htop Hlen fuel Hf.
  destruct (take_out_run dummy st fs sk a k d b c l fuel Hdm Hsk Htop r Hh Hd Hlen Hf) as (sk1 & h1 & R1 & [T1 T2 T3 T4 T5 T6 T6' T7]).
  rewrite (bind_some _ _ _ _ _ R1). rewrite Etk in *. cbn [fst snd ptr] in *. fold n in T2, T6.
  assert (Hroot : (if a =? ptr (plug fs n) then let* r := get_link (up_ptr dummy fs) (up_side fs) in set_root r else ret tt)
    (with_nodes h1 st) = Some (tt, with_root (root_of (ptr x) gs) (with_nodes h1 st))).
  { rewrite ptr_plug_root. destruct T7 as (nq & Eq & Hq). destruct (decide (fs = [])) as [-> | Hfs].
    - cbn [root_of ptr n]. rewrite Z.eqb_refl. cbn [up_side up_ptr] in *. heap_step. cbn [Link]. rewrite Hq, ptr_plug_root by done. done.
    - pose proof (root_of_in (ptr n) fs Hfs) as Hin. apply NoDup_cons in Hd as [_ (_ & Hdis & _)%nodup_plug].
      assert (Hne : a <> root_of (ptr n) fs) by (intros E; apply (Hdis a); [left | by rewrite E]).
      rewrite (proj2 (Z.eqb_neq _ _) Hne). destruct (taken_suffix fs b l r) as [g Hg]. rewrite Etk in Hg. cbn [fst] in Hg.
      rewrite Hg, root_of_app, (root_of_up _ (ptr n) fs Hfs), <- ptr_plug_root. fold n. rewrite <- Hr. done. }
  rewrite (bind_some _ _ _ _ _ Hroot).
  pose proof (taken_ok fs a k d b c l r Hb) as Hok. rewrite Etk in Hok. destruct Hok as [(x0 & B1 & B2 & B3) _].
  pose proof Hd as Hd'. rewrite <- T2 in Hd'. apply NoDup_cons in Hd' as [N1 [N2 N3]%NoDup_cons].
  destruct (go_up_run dummy sk1 gs x x0 (with_root (root_of (ptr x) gs) (with_nodes h1 st))) as (h2 & R2 & U1 & U2 & U3); try done.
  { split; [done | | done | done | done]. apply NoDup_cons. split; [members | done]. }
  exists h2. replace (Z.to_nat (top sk1 - 1)) with (length gs) by lia. split_and!; [exact R2 | done | by rewrite U3 | |].
  - rewrite U2 by members. exact T5.
  - eapply agree_trans; [exact T6 | eapply agree_weaken; [| exact U2]]. intros v. rewrite <- T2. members.
Qed.

(** The tree without the key, and the memory without its node. *)
Lemma AvlDelete_run t st : stores cmp st t -> balanced t -> height t <= 31 -> st.(nodes) !! dummy = None ->
  match find_path cmp key [] t with
  | None => AvlDelete dummy key st = Some (tt, st)
  | Some (_, n) => exists a k d b c l r h', n = T a k d b c l r /\
      let st' := mk_avl h' (ptr (del cmp key t)) st.(Compare) st.(DestroyKey) st.(DestroyDaten) (st.(calls) ++ released st k d) in
      AvlDelete dummy key st = Some (tt, st') /\ stores cmp st' (del cmp key t) /\
      a :: addrs (del cmp key t) ≡ₚ addrs t /\ agree (addrs t) st.(nodes) h' /\ h' !! a = None
  end.
Proof.
  intros [Hh Hd Hr Hcmp] Hb Hht Hfresh.
  assert (Hdn : dummy ∉ addrs t). { intros H. apply (holds_lookup _ _ _ Hh) in H as [_ [n Hn]]. congruence. }
  unfold AvlDelete. rewrite bind_gets, bind_gets, bind_modify.
  set (st0 := st <| nodes ::= <[dummy := mk_node 0 0 0 false 0 0]> |>). assert (H0 : agree [dummy] st.(nodes) st0.(nodes)) by (apply agree_insert; [left | apply agree_refl]).
  assert (Hh0 : holds st0.(nodes) t) by (eapply holds_outside; [exact H0 | intros v ->%list_elem_of_singleton; done | done]).
  assert (Hdm : is_Some (st0.(nodes) !! dummy)) by (cbn; by rewrite lookup_insert_eq).
  set (sk := mk_stack {[0 := dummy]} {[0 := false]} 1). pose proof (addrs_size _ _ Hh Hd) as Hsz.
  assert (Hsk : stacked dummy sk []) by (split_and!; [apply lookup_singleton_eq | apply lookup_singleton_eq | done]).
  pose proof (delete_search_run cmp key dummy t (S (size st.(nodes))) [] sk st0) as Hs. rewrite Hr.
  specialize (Hs ltac:(lia) Hcmp Hh0 Hsk eq_refl ltac:(change (Z.of_nat (length [])) with 0; lia)).
  pose proof (find_path_spec cmp key [] t) as Hf. unfold del. destruct (find_path cmp key [] t) as [[fs n] |].
  - destruct Hs as (sk' & R & Hsk' & Htop).
    rewrite (bind_some _ _ _ _ _ R). destruct Hf as (Ep & a & k & d & b & c & l & r & -> & _). cbn [plug fold_left] in Ep.
    replace (sk'.(top) - 1) with (Z.of_nat (length fs)) by lia. rewrite (bind_some _ _ _ _ _ (entry_run _ _ _ _ Hsk')). cbn [fst snd].
    destruct (taken fs b l r) as [gs x] eqn:Etk. subst t. set (n := T a k d b c l r) in *.
    assert (Hd0 : NoDup (dummy :: addrs (plug fs n))) by (by apply NoDup_cons).
    pose proof (height_plug_ge fs n) as Hge.
    assert (Hfuel : (length (addrs r) < S (size st.(nodes)))%nat).
    { rewrite (Permutation_length (addrs_plug fs n)) in Hsz. unfold n in Hsz. cbn [addrs] in Hsz. rewrite !length_app in Hsz.
      cbn [length] in Hsz. rewrite length_app in Hsz. lia. }
    destruct (settle_taken fs a k d b c l r gs x sk' st0 Etk Hb Hh0 Hd0 Hr Hdm Hsk' Htop (Z.le_trans _ _ _ Hge Hht) _ Hfuel) as (h1 & R1 & U1 & U2 & U3 & U4).
    fold n in R1, U2, U4. rewrite (seq_run _ _ _ _ _ _ R1). pose proof Hh as [(_ & En & _) _]%holds_plug.
    assert (Hane : a <> dummy) by (intros <-; apply Hdn; rewrite addrs_plug; left).
    assert (En1 : (with_root (ptr (up gs x)) (with_nodes h1 st0)).(nodes) !! a = Some (mk_node k d b c (ptr l) (ptr r)))
      by (cbn [nodes with_root with_nodes]; rewrite U3, H0 by (by rewrite list_elem_of_singleton); done).
    rewrite (bind_some _ _ _ _ _ (destroy_run a _ _ En1)).
    exists a, k, d, b, c, l, r, (delete dummy (delete a h1)). split; [done |]. cbv zeta.
    assert (Hnew : forall v, v ∈ addrs (up gs x) -> v <> a /\ v <> dummy).
    { rewrite <- U2 in Hd, Hdn. apply NoDup_cons in Hd as [Hna _]. intros v Hv. split; intros ->; members. }
    split_and!; [by destruct st | | done | | ].
    + split; [| | done | done].
      * eapply holds_agree; [| exact U1]. intros v Hv. destruct (Hnew v Hv). cbn [nodes]. by rewrite !lookup_delete_ne by done.
      * rewrite <- U2 in Hd. by apply NoDup_cons in Hd as [_ Hd].
    + intros v Hv. destruct (decide (v = dummy)) as [-> | Hvd]; [by rewrite lookup_delete_eq |].
      rewrite lookup_delete_ne by done. destruct (decide (v = a)) as [-> |]; [exfalso; apply Hv; rewrite addrs_plug; left |].
      rewrite lookup_delete_ne, U4, H0 by (rewrite ?not_elem_of_cons, ?elem_of_cons, ?elem_of_nil; naive_solver). done.
    + rewrite lookup_delete_ne by done. apply lookup_delete_eq.
  - rewrite (bind_some _ _ _ _ _ Hs). unfold modify. cbn.
    do 2 f_equal. destruct st as [h rt cm dk dd cs]. cbn in *. unfold st0. cbn. by rewrite delete_insert_id.
Qed.
End Delete.
End AvlRemove.
