(* ===== verification/AvlRead.v ===== *)
(** Search, walks and the end of a balanced tree on the heap, and how high a
    balanced tree can be. *)

From S2P Require Import Prelude Avl AvlTree AvlTake AvlHeap AvlPut AvlGrow AvlRemove.

Module AvlRead.
Import Avl AvlTree AvlTake AvlHeap AvlPut AvlGrow AvlRemove.

(** * The least number of nodes of a balanced tree of a height *)

Fixpoint least (h : nat) : Z * Z :=
  match h with O => (0, 0) | S O => (0, 1) | S h => let '(m, n) := least h in (n, m + n + 1) end.
Lemma least_step h : least (S (S h)) = ((least (S h)).2, (least (S h)).1 + (least (S h)).2 + 1).
Proof. change (least (S (S h))) with (let '(m, n) := least (S h) in (n, m + n + 1)). by destruct (least (S h)). Qed.
Lemma least_pred h : (least (S h)).1 = (least h).2.
Proof. destruct h as [| h]; [done |]. by rewrite least_step. Qed.
Lemma least_mono h : 0 <= (least h).2 <= (least (S h)).2.
Proof.
  induction h as [| h IH]; [cbn; lia |]. rewrite (least_step h). cbn [snd]. rewrite least_pred. lia.
Qed.
Lemma least_le g h : (g <= h)%nat -> (least g).2 <= (least h).2.
Proof. induction 1 as [| h _ IH]; [lia |]. pose proof (least_mono h). lia. Qed.

Lemma balanced_size t : balanced t -> (least (Z.to_nat (height t))).2 <= Z.of_nat (length (addrs t)).
Proof.
  induction t as [| a k d b c l IHl r IHr]; [done |]. intros (Eb & Hb & Hl & Hr). specialize (IHl Hl). specialize (IHr Hr).
  cbn [addrs height]. pose proof (height_pos l). pose proof (height_pos r). cbn [length]. rewrite length_app.
  set (m := Z.to_nat (Z.max (height l) (height r))).
  replace (Z.to_nat (1 + Z.max (height l) (height r))) with (S m) by lia.
  assert (H2 : (least (S m)).2 <= 1 + (least (Z.to_nat (height l))).2 + (least (Z.to_nat (height r))).2); [| lia].
  destruct m as [| m'] eqn:Em; [pose proof (least_mono (Z.to_nat (height l))); pose proof (least_mono (Z.to_nat (height r))); cbn; lia |].
  rewrite least_step, least_pred. cbn [snd].
  destruct (Z.max_spec (height l) (height r)) as [[Hlt E] | [Hge E]].
  - replace (Z.to_nat (height r)) with (S m') by lia. pose proof (least_le m' (Z.to_nat (height l)) ltac:(lia)). lia.
  - replace (Z.to_nat (height l)) with (S m') by lia. pose proof (least_le m' (Z.to_nat (height r)) ltac:(lia)). lia.
Qed.

(** The stack of a deletion is large enough for all but very large trees. *)
Definition AVL_MAX_NODES : Z := 5702887.
Lemma height_bound t : balanced t -> Z.of_nat (length (addrs t)) < AVL_MAX_NODES - 1 -> height t <= 31.
Proof.
  intros Hb Hn. destruct (Z.le_gt_cases (height t) 31) as [| Hgt]; [done |]. exfalso.
  pose proof (balanced_size t Hb). pose proof (least_le 32 (Z.to_nat (height t)) ltac:(lia)).
  assert (E : (least 32).2 = AVL_MAX_NODES - 1) by (vm_compute; reflexivity). lia.
Qed.
Lemma length_elems t : length (elems t) = length (addrs t).
Proof. induction t as [| a k d b c l IHl r IHr]; [done |]. cbn. rewrite !length_app. cbn. lia. Qed.

Lemma height_addrs t : height t <= Z.of_nat (length (addrs t)).
Proof. induction t as [| a k d b c l IHl r IHr]; [done |]. cbn [height addrs length]. rewrite length_app. lia. Qed.

(** * Search *)

Section Find.
Context (cmp : Z -> Z -> Z) (Hok : cmp_ok cmp).

Lemma get_absent key l r : absent cmp key l -> get_entry cmp key (l ++ r) = get_entry cmp key r.
Proof.
  unfold get_entry. induction 1 as [| e l He _ IH]; [done |]. cbn [app List.find].
  by rewrite (proj2 (Z.eqb_neq _ _) He).
Qed.
Lemma get_before key l r : absent cmp key r -> get_entry cmp key (l ++ r) = get_entry cmp key l.
Proof.
  intros Hr. unfold get_entry. induction l as [| e l IH]; cbn [app List.find].
  - pose proof (get_absent key r [] Hr) as H. by rewrite app_nil_r in H.
  - destruct (cmp e.1 key =? 0); [done | exact IH].
Qed.
Lemma below_absent key es : all_below cmp key es -> absent cmp key es.
Proof. intros H. eapply Forall_impl; [exact H |]. cbn. lia. Qed.
Lemma above_absent key es : all_above cmp key es -> absent cmp key es.
Proof. intros H. eapply Forall_impl; [exact H |]. cbn. lia. Qed.

Lemma find_run key t fuel st : height t < Z.of_nat fuel -> st.(Compare) = Some cmp -> holds st.(nodes) t ->
  ordered cmp (elems t) ->
  exists p, find fuel key (ptr t) st = Some (p, st) /\
    match get_entry cmp key (elems t) with
    | None => p = 0
    | Some d => p <> 0 /\ exists n, st.(nodes) !! p = Some n /\ n.(Daten) = d
    end.
Proof.
  revert fuel. induction t as [| a k d b c l IHl r IHr]; intros fuel Hf Hcmp Hh Ho;
    (destruct fuel as [| fuel]; [match type of Hf with height ?t < _ => pose proof (height_pos t) end; lia |]); [by exists 0 |].
  cbn [height] in Hf. destruct Hh as (Ha & En & Hl & Hr). cbn [elems] in *.
  destruct (ordered_sides cmp _ _ _ _ Ho) as (Hol & Hor & Hkl & Hkr).
  cbn [find ptr]. rewrite (proj2 (Z.eqb_neq _ _) Ha). heap_step. rewrite (bind_some _ _ _ _ _ (compare_run _ _ _ _ Hcmp)).
  cbn [Key Link0 Link1]. pose proof (cmp_sym _ Hok key k). pose proof (cmp_sym _ Hok k key). pose proof (cmp_eq cmp Hok k key).
  destruct (Z.eqb_spec (cmp k key) 0) as [E | E].
  - exists a. split; [done |]. assert (Hb : all_below cmp key (elems l)).
    { eapply Forall_impl; [exact Hkl |]. intros e He. apply (cmp_lt_trans cmp Hok _ k); [exact He | lia]. }
    rewrite (get_absent key _ _ (below_absent key _ Hb)). cbn. rewrite E. cbn. split; [done |]. by eexists.
  - rewrite (bind_some _ _ _ _ _ (compare_run _ _ _ _ Hcmp)). destruct (Z.ltb_spec (cmp key k) 0) as [Hlt | Hge].
    + assert (Hab : absent cmp key ((k, d) :: elems r)).
      { constructor; [done | apply above_absent, (above_key_r cmp Hok key k d); done]. }
      rewrite (get_before key _ _ Hab). apply IHl; [lia | done..].
    + replace (0 <? cmp key k) with true by (symmetry; apply Z.ltb_lt; lia).
      assert (Hbe : absent cmp key (elems l)) by (apply below_absent, (below_key_l cmp Hok key k d); [lia | done]).
      rewrite (get_absent key _ _ Hbe). change ((k, d) :: elems r) with ([(k, d)] ++ elems r).
      rewrite (get_absent key [(k, d)]) by (by apply Forall_singleton).
      apply IHr; [lia | done..].
Qed.

Lemma MapGet_run key t st : stores cmp st t -> ordered cmp (elems t) ->
  MapGet key st = Some (default 0 (get_entry cmp key (elems t)), st).
Proof.
  intros [Hh Hd Hr Hcmp] Ho. pose proof (addrs_size _ _ Hh Hd) as Hsz. pose proof (height_addrs t).
  destruct (find_run key t (S (size st.(nodes))) st) as (p & R & Hp); [lia | done.. |].
  unfold MapGet, AvlFinde. rewrite bind_assoc, bind_gets, bind_assoc, bind_gets, Hr, (bind_some _ _ _ _ _ R).
  destruct (get_entry cmp key (elems t)) as [d |].
  - destruct Hp as (Hp & n & En & <-). rewrite (proj2 (Z.eqb_neq _ _) Hp). by heap_step.
  - subst p. done.
Qed.
End Find.

(** * Walks *)

Fixpoint inorder (t : tree) : list Z :=
  match t with E => [] | T a _ _ _ _ l r => inorder l ++ a :: inorder r end.
Fixpoint outorder (t : tree) : list Z :=
  match t with E => [] | T a _ _ _ _ l r => outorder r ++ a :: outorder l end.

Lemma walk_ascend_run t fuel st : (length (addrs t) <= fuel)%nat -> holds st.(nodes) t ->
  walk_ascend fuel (ptr t) st = Some (inorder t, st).
Proof.
  revert fuel. induction t as [| a k d b c l IHl r IHr]; intros fuel Hf Hh; [by destruct fuel |].
  cbn [addrs length] in Hf. rewrite length_app in Hf. destruct fuel as [| fuel]; [lia |]. destruct Hh as (Ha & En & Hl & Hr).
  cbn [walk_ascend ptr]. rewrite (proj2 (Z.eqb_neq _ _) Ha). heap_step. cbn [Link Link0].
  rewrite (bind_some _ _ _ _ _ (IHl fuel ltac:(lia) Hl)). heap_step. cbn [Link Link1].
  by rewrite (bind_some _ _ _ _ _ (IHr fuel ltac:(lia) Hr)).
Qed.
Lemma walk_descend_run t fuel st : (length (addrs t) <= fuel)%nat -> holds st.(nodes) t ->
  walk_descend fuel (ptr t) st = Some (outorder t, st).
Proof.
  revert fuel. induction t as [| a k d b c l IHl r IHr]; intros fuel Hf Hh; [by destruct fuel |].
  cbn [addrs length] in Hf. rewrite length_app in Hf. destruct fuel as [| fuel]; [lia |]. destruct Hh as (Ha & En & Hl & Hr).
  cbn [walk_descend ptr]. rewrite (proj2 (Z.eqb_neq _ _) Ha). heap_step. cbn [Link Link1].
  rewrite (bind_some _ _ _ _ _ (IHr fuel ltac:(lia) Hr)). heap_step. cbn [Link Link0].
  by rewrite (bind_some _ _ _ _ _ (IHl fuel ltac:(lia) Hl)).
Qed.
Lemma outorder_rev t : outorder t = rev (inorder t).
Proof.
  induction t as [| a k d b c l IHl r IHr]; [done |]. cbn. rewrite rev_app_distr, IHl, IHr. cbn. by rewrite <- app_assoc.
Qed.
Lemma inorder_elems h t : holds h t ->
  omap (fun p => (fun n => (n.(Key), n.(Daten))) <$> h !! p) (inorder t) = elems t.
Proof.
  induction t as [| a k d b c l IHl r IHr]; [done |]. intros (_ & En & Hl & Hr). cbn [inorder elems].
  rewrite omap_app, IHl by done. cbn [omap list_omap]. rewrite En. cbn. by rewrite <- IHr.
Qed.
Lemma MapWalkAscend_run cmp t st : stores cmp st t -> MapWalkAscend st = Some (elems t, st).
Proof.
  intros [Hh Hd Hr _]. unfold MapWalkAscend, AvlWalkAscend. rewrite bind_assoc, bind_gets, bind_assoc, bind_gets, Hr.
  rewrite (bind_some _ _ _ _ _ (walk_ascend_run t _ st (addrs_size _ _ Hh Hd) Hh)), bind_gets.
  unfold ret. by rewrite inorder_elems.
Qed.

(** * The end of a tree *)

Fixpoint postorder (t : tree) : list (Z * Z) :=
  match t with E => [] | T _ k d _ _ l r => postorder l ++ postorder r ++ [(k, d)] end.
Lemma postorder_elems t : postorder t ≡ₚ elems t.
Proof.
  induction t as [| a k d b c l IHl r IHr]; [done |]. cbn. rewrite IHl, IHr. f_equiv. symmetry. apply Permutation_cons_append.
Qed.
Lemma delete_postorder_run t fuel st : (length (addrs t) <= fuel)%nat -> holds st.(nodes) t -> NoDup (addrs t) ->
  exists h', delete_postorder fuel (ptr t) st = Some (tt, mk_avl h' st.(root) st.(Compare) st.(DestroyKey) st.(DestroyDaten)
      (st.(calls) ++ flat_map (fun e => released st e.1 e.2) (postorder t))) /\
    forall a, h' !! a = if decide (a ∈ addrs t) then None else st.(nodes) !! a.
Proof.
  revert fuel st. induction t as [| a k d b c l IHl r IHr]; intros fuel st Hf Hh Hd.
  { exists st.(nodes). cbn [postorder flat_map]. rewrite app_nil_r. split; [by destruct st, fuel | done]. }
  cbn [addrs length] in Hf. rewrite length_app in Hf. destruct fuel as [| fuel]; [lia |]. destruct Hh as (Ha & En & Hl & Hr).
  cbn [addrs] in Hd. apply NoDup_cons in Hd as [Hna (Hdl & Hdis & Hdr)%NoDup_app].
  cbn [delete_postorder ptr]. rewrite (proj2 (Z.eqb_neq _ _) Ha). heap_step. cbn [Link Link0].
  destruct (IHl fuel st ltac:(lia) Hl Hdl) as (h1 & R1 & H1). rewrite (bind_some _ _ _ _ _ R1). set (st1 := mk_avl _ _ _ _ _ _).
  assert (En1 : st1.(nodes) !! a = Some (mk_node k d b c (ptr l) (ptr r))) by (cbn; rewrite H1, decide_False by members; done).
  rewrite (bind_some _ _ _ _ _ (get_link_run a true _ st1 En1)). cbn [Link Link1].
  destruct (IHr fuel st1) as (h2 & R2 & H2); [lia | | done |].
  { eapply holds_agree; [| exact Hr]. intros v Hv. cbn. rewrite H1, decide_False; [done |]. intros Hv'. by apply (Hdis v). }
  rewrite (bind_some _ _ _ _ _ R2). set (st2 := mk_avl _ _ _ _ _ _).
  assert (En2 : st2.(nodes) !! a = Some (mk_node k d b c (ptr l) (ptr r))) by (cbn; rewrite H2, decide_False by members; done).
  exists (delete a h2). split.
  - rewrite (destroy_run a _ st2 En2). cbn. do 3 f_equal. rewrite !flat_map_app. cbn. by rewrite app_nil_r, !app_assoc.
  - intros v. destruct (decide (v = a)) as [-> | Hne]; [rewrite lookup_delete_eq, decide_True by left; done |].
    rewrite lookup_delete_ne, H2 by done. cbn [nodes st1]. unfold st1. cbn [nodes]. rewrite H1.
    change (addrs (T a k d b c l r)) with (a :: addrs l ++ addrs r). destruct (decide (v ∈ addrs r)), (decide (v ∈ addrs l)), (decide (v ∈ a :: addrs l ++ addrs r)); try done; exfalso; members.
Qed.
End AvlRead.
