(* ===== verification/AvlSpec.v ===== *)
(** What the maps of mrsystem promise: they are tables in key order, kept in
    trees that stay balanced. *)

From Stdlib Require Import Sorting.Sorted.
From S2P Require Import Prelude Avl AvlTree AvlTake AvlHeap AvlPut AvlGrow AvlRemove AvlRead.

Module AvlSpec.
Import Avl AvlTree AvlTake AvlHeap AvlPut AvlGrow AvlRemove AvlRead.

(** * Tables *)

Section Table.
Context (cmp : Z -> Z -> Z) (Hok : cmp_ok cmp).

Lemma filter_idem {A} (f : A -> bool) l : List.filter f (List.filter f l) = List.filter f l.
Proof. apply filter_all, Forall_forall. intros x Hx. apply list_elem_of_In, List.filter_In in Hx. tauto. Qed.
Lemma filter_disjoint {A} (f g : A -> bool) l : (forall x, f x = true -> g x = false) -> List.filter f (List.filter g l) = [].
Proof.
  intros H. apply filter_none, Forall_forall. intros x Hx. apply list_elem_of_In, List.filter_In in Hx as [_ Hg].
  destruct (f x) eqn:E; [| done]. rewrite (H x E) in Hg. discriminate.
Qed.

Lemma below_del key es : below cmp key (del_entry cmp key es) = below cmp key es.
Proof.
  unfold del_entry. rewrite below_app. unfold below at 1, above, below. rewrite filter_idem, filter_disjoint, app_nil_r; [done |].
  intros e He%Z.ltb_lt. apply Z.ltb_ge. lia.
Qed.
Lemma above_del key es : above cmp key (del_entry cmp key es) = above cmp key es.
Proof.
  unfold del_entry. rewrite above_app. unfold above, below. rewrite filter_idem, filter_disjoint; [done |].
  intros e He%Z.ltb_lt. apply Z.ltb_ge. lia.
Qed.
Lemma put_del key data es : put_entry cmp key data (del_entry cmp key es) = put_entry cmp key data es.
Proof. unfold put_entry. by rewrite below_del, above_del. Qed.

Lemma below_all key es : all_below cmp key (below cmp key es).
Proof. apply Forall_forall. intros e He. apply list_elem_of_In, List.filter_In in He as [_ He]. lia. Qed.
Lemma above_all key es : all_above cmp key (above cmp key es).
Proof. apply Forall_forall. intros e He. apply list_elem_of_In, List.filter_In in He as [_ He]. lia. Qed.
Lemma absent_del key es : absent cmp key (del_entry cmp key es).
Proof. apply Forall_app. split; [apply below_absent, below_all | apply above_absent, above_all]. Qed.

Lemma ordered_filter f es : ordered cmp es -> ordered cmp (List.filter f es).
Proof.
  induction es as [| e es IH]; [done |]. intros H. inversion H as [| ? ? Ho He]; subst. cbn. destruct (f e); [| by apply IH].
  constructor; [by apply IH |]. apply Forall_forall. intros x Hx. apply list_elem_of_In, List.filter_In in Hx as [Hx _].
  rewrite Forall_forall in He. by apply He, list_elem_of_In.
Qed.
Lemma ordered_put key data es : ordered cmp es -> ordered cmp (put_entry cmp key data es).
Proof.
  intros Ho. apply (ordered_app cmp). split_and!; [by apply ordered_filter | |].
  - constructor; [by apply ordered_filter |]. eapply Forall_impl; [apply above_all |]. intros e He. by apply (cmp_sym _ Hok).
  - eapply Forall_impl; [apply below_all |]. intros e He. constructor; [done |].
    eapply Forall_impl; [apply above_all |]. intros f Hf. apply (cmp_lt_trans cmp Hok _ key); [done |].
    pose proof (cmp_sym _ Hok key f.1). pose proof (cmp_sym _ Hok f.1 key). cbn in Hf. lia.
Qed.
Lemma ordered_del key es : ordered cmp es -> ordered cmp (del_entry cmp key es).
Proof.
  intros Ho. apply (ordered_put key 0), (ordered_app cmp) in Ho as (H1 & H2 & H3). inversion H2 as [| ? ? H2' _]; subst.
  apply (ordered_app cmp). split_and!; [done | done |]. eapply Forall_impl; [exact H3 |]. intros e He. by apply Forall_cons in He as [_ He].
Qed.

Lemma length_filter_le {A} (f : A -> bool) l : (length (List.filter f l) <= length l)%nat.
Proof. induction l as [| x l IH]; cbn; [lia |]. destruct (f x); cbn; lia. Qed.
Lemma length_del key es : (length (del_entry cmp key es) <= length es)%nat.
Proof.
  unfold del_entry. rewrite length_app. induction es as [| e es IH]; cbn [below above List.filter length]; [lia |].
  fold (below cmp key es) (above cmp key es). destruct (Z.ltb_spec (cmp e.1 key) 0), (Z.ltb_spec 0 (cmp e.1 key)); cbn [length]; lia.
Qed.
Lemma length_put key data es : (length (put_entry cmp key data es) <= S (length es))%nat.
Proof. pose proof (length_del key es). unfold put_entry, del_entry in *. rewrite length_app in *. cbn. lia. Qed.

(** * Maps as tables *)

Section Maps.
Context (malloc : gmap Z node -> option Z) (dummy : Z).

(** What [malloc] returns is not in use; [dummy] is the address of a local
    variable. *)
Definition allocator : Prop := forall h p, malloc h = Some p -> p <> 0 /\ p <> dummy /\ h !! p = None.
Context (Halloc : allocator).

(** A tree in memory that is balanced, in order and holds the entries. *)
Definition represents (st : avl_t) (es : list (Z * Z)) : Prop :=
  exists t, stores cmp st t /\ balanced t /\ elems t = es /\ ordered cmp es /\ st.(nodes) !! dummy = None.

Definition small (es : list (Z * Z)) : Prop := Z.of_nat (length es) < AVL_MAX_NODES - 1.
Lemma small_height t : balanced t -> small (elems t) -> height t <= 31.
Proof. intros Hb H. apply height_bound; [done |]. by rewrite <- length_elems. Qed.

Lemma delete_represents key st es : represents st es -> small es ->
  exists st', AvlDelete dummy key st = Some (tt, st') /\ represents st' (del_entry cmp key es).
Proof.
  intros (t & Hst & Hb & <- & Ho & Hdm) Hs. destruct (del_ok cmp Hok key t Hb Ho) as [Hb' He'].
  pose proof (AvlDelete_run cmp key dummy t st Hst Hb (small_height t Hb Hs) Hdm) as R.
  destruct (find_path cmp key [] t) as [[fs n] |] eqn:Ef.
  - destruct R as (a & k & d & b & c & l & r & h' & -> & R & Hst' & Hp & Hag & Ha). eexists. split; [exact R |].
    exists (del cmp key t). split_and!; [done | done | done | by apply ordered_del |]. cbn [nodes].
    rewrite Hag; [done |]. intros Hin. destruct Hst as [Hh _ _ _]. apply (holds_lookup _ _ _ Hh) in Hin as [_ [? ?]]. congruence.
  - exists st. split; [done |]. exists t. pose proof (find_path_none cmp Hok key [] t Ho Ef) as Hn.
    rewrite (del_entry_absent cmp Hok key _ Ho Hn). by split_and!.
Qed.

Lemma insert_represents key data st es : represents st es -> absent cmp key es ->
  match malloc st.(nodes) with
  | None => AvlInsert malloc key data st = Some (false, st)
  | Some _ => exists st', AvlInsert malloc key data st = Some (true, st') /\ represents st' (put_entry cmp key data es)
  end.
Proof.
  intros (t & Hst & Hb & <- & Ho & Hdm) Ha. destruct (malloc st.(nodes)) as [this |] eqn:Em.
  - destruct (Halloc _ _ Em) as (H0 & Hne & Hfresh).
    destruct (AvlInsert_run cmp Hok this key data malloc t st Hst Hb Ha Em H0 Hfresh) as (h' & R & Hst' & Hp & Hag).
    eexists. split; [exact R |]. exists (ins cmp this key data t). split_and!; [done | | by apply elems_ins | by apply ordered_put |].
    + destruct (decide (t = E)) as [-> | Hte]; [by cbn | by apply ins_ok].
    + cbn. rewrite Hag; [done |]. intros [-> | Hin]%elem_of_cons; [done |].
      destruct Hst as [Hh _ _ _]. apply (holds_lookup _ _ _ Hh) in Hin as [_ [? ?]]. congruence.
  - unfold AvlInsert. by rewrite bind_gets, Em.
Qed.

(** A new map is an empty table. *)
Lemma created_represents h key data : h !! dummy = None ->
  exists st, MapInit cmp key data (MapCreate h) = Some (tt, st) /\ represents st [].
Proof.
  intros Hh. eexists. split; [reflexivity |]. exists E. split_and!; [by split; [| constructor | |] | done | done | constructor | done].
Qed.

(** ** Sequences of calls *)

Inductive op := Set_entry (key data : Z) | Del_entry (key : Z) | Get_entry (key : Z) | Walk.
Inductive answer := Deleted | Stored (ok : bool) | Data (d : Z) | Entries (es : list (Z * Z)).

Definition do_op (o : op) : prog avl_t answer :=
  match o with
  | Set_entry key data => let* ok := MapSet malloc dummy key data in ret (Stored ok)
  | Del_entry key => do* MapDel dummy key in ret Deleted
  | Get_entry key => let* d := MapGet key in ret (Data d)
  | Walk => let* es := MapWalkAscend in ret (Entries es)
  end.
Fixpoint do_ops (os : list op) : prog avl_t (list answer) :=
  match os with
  | [] => ret []
  | o :: os => let* a := do_op o in let* r := do_ops os in ret (a :: r)
  end.

(** The same for a table. *)
Inductive on_table : op -> list (Z * Z) -> answer -> list (Z * Z) -> Prop :=
  | Table_set key data es : on_table (Set_entry key data) es (Stored true) (put_entry cmp key data es)
  | Table_full key data es : on_table (Set_entry key data) es (Stored false) (del_entry cmp key es)
  | Table_del key es : on_table (Del_entry key) es Deleted (del_entry cmp key es)
  | Table_get key es : on_table (Get_entry key) es (Data (default 0 (get_entry cmp key es))) es
  | Table_walk es : on_table Walk es (Entries es) es.
Inductive on_table_all : list op -> list (Z * Z) -> list answer -> list (Z * Z) -> Prop :=
  | Table_none es : on_table_all [] es [] es
  | Table_next o os es a es1 r es2 : on_table o es a es1 -> on_table_all os es1 r es2 ->
      on_table_all (o :: os) es (a :: r) es2.

Lemma on_table_length o es a es' : on_table o es a es' -> (length es' <= S (length es))%nat.
Proof.
  destruct 1; [apply length_put | | | lia | lia]; pose proof (length_del key es); lia.
Qed.

Lemma do_op_represents o st es : represents st es -> small es ->
  exists a st' es', do_op o st = Some (a, st') /\ on_table o es a es' /\ represents st' es' /\
    ((forall h, is_Some (malloc h)) -> a <> Stored false).
Proof.
  intros Hr Hs. destruct o as [key data | key | key |]; cbn [do_op].
  - destruct (delete_represents key st es Hr Hs) as (st1 & R1 & Hr1).
    pose proof (insert_represents key data st1 _ Hr1 (absent_del key es)) as H. unfold MapSet. rewrite bind_assoc, (bind_some _ _ _ _ _ R1).
    destruct (malloc st1.(nodes)) as [this |] eqn:Em.
    + destruct H as (st2 & R2 & Hr2). rewrite put_del in Hr2. rewrite (bind_some _ _ _ _ _ R2).
      exists (Stored true), st2, (put_entry cmp key data es). split_and!; [done | constructor | done | done].
    + rewrite (bind_some _ _ _ _ _ H). exists (Stored false), st1, (del_entry cmp key es).
      split_and!; [done | constructor | done |]. intros Hm. destruct (Hm st1.(nodes)) as [? ?]. congruence.
  - destruct (delete_represents key st es Hr Hs) as (st1 & R1 & Hr1). unfold MapDel. rewrite (bind_some _ _ _ _ _ R1).
    exists Deleted, st1, (del_entry cmp key es). split_and!; [done | constructor | done | done].
  - destruct Hr as (t & Hst & Hb & <- & Ho & Hdm). rewrite (bind_some _ _ _ _ _ (MapGet_run cmp Hok key t st Hst Ho)).
    exists (Data (default 0 (get_entry cmp key (elems t)))), st, (elems t). split_and!; [done | constructor | by exists t | done].
  - destruct Hr as (t & Hst & Hb & <- & Ho & Hdm). rewrite (bind_some _ _ _ _ _ (MapWalkAscend_run cmp t st Hst)).
    exists (Entries (elems t)), st, (elems t). split_and!; [done | constructor | by exists t | done].
Qed.

(** C5. A map of mrsystem refines a table in key order: whatever sequence of
    calls sets, deletes, looks up and walks, the calls on the tree in memory
    return, answer as the table does, and leave a balanced tree that holds the
    table's entries.  A call to set fails only when there is no memory. *)
Theorem maps_are_tables os st es : represents st es ->
  Z.of_nat (length es) + Z.of_nat (length os) < AVL_MAX_NODES - 1 ->
  exists r st' es', do_ops os st = Some (r, st') /\ on_table_all os es r es' /\ represents st' es' /\
    ((forall h, is_Some (malloc h)) -> Forall (fun a => a <> Stored false) r).
Proof.
  revert st es. induction os as [| o os IH]; intros st es Hr Hn.
  - exists [], st, es. split_and!; [done | constructor | done | constructor].
  - cbn [length] in Hn. destruct (do_op_represents o st es Hr) as (a & st1 & es1 & R1 & T1 & Hr1 & M1); [unfold small; lia |].
    pose proof (on_table_length o es a es1 T1). destruct (IH st1 es1 Hr1 ltac:(lia)) as (r & st2 & es2 & R2 & T2 & Hr2 & M2).
    exists (a :: r), st2, es2. split_and!.
    + cbn [do_ops]. rewrite (bind_some _ _ _ _ _ R1), (bind_some _ _ _ _ _ R2). done.
    + by econstructor.
    + done.
    + intros Hm. constructor; [by apply M1 | by apply M2].
Qed.

(** C34. A lookup in a map of fewer than 5702886 entries is over after at most 31
    nodes, and so is the way down of a deletion: its stack of 32 entries is
    large enough. *)
Theorem search_is_short key st es : represents st es -> small es ->
  (exists t, stores cmp st t /\ elems t = es /\ height t <= AVL_MAX_HEIGHT - 1) /\
  exists p, find 32 key st.(root) st = Some (p, st) /\
    match get_entry cmp key es with
    | None => p = 0
    | Some d => exists n, st.(nodes) !! p = Some n /\ n.(Daten) = d
    end.
Proof.
  intros (t & Hst & Hb & <- & Ho & _) Hs. pose proof (small_height t Hb Hs) as Hh. split; [by exists t |].
  destruct Hst as [Hm _ -> Hcmp]. destruct (find_run cmp Hok key t 32 st ltac:(lia) Hcmp Hm Ho) as (p & R & Hp).
  exists p. split; [done |]. destruct (get_entry cmp key (elems t)); [by destruct Hp | done].
Qed.

(** C35. At its end a map frees each of its nodes once and nothing else, and hands
    each key and each datum that is set to its call-back once. *)
Theorem destroy_frees_once st es : represents st es ->
  exists ps cs h' st', AvlDestroy st = Some (h', st') /\ NoDup ps /\ length ps = length es /\
    (forall a, a ∈ ps -> is_Some (st.(nodes) !! a)) /\
    (forall a, h' !! a = if decide (a ∈ ps) then None else st.(nodes) !! a) /\
    cs ≡ₚ es /\ st'.(calls) = st.(calls) ++ flat_map (fun e => released st e.1 e.2) cs /\
    st'.(root) = st.(root) /\ (es <> [] -> st'.(root) ∈ ps).
Proof.
  intros (t & [Hh Hd Hr Hcmp] & Hb & <- & Ho & _). unfold AvlDestroy, AvlPurge. rewrite bind_assoc, bind_gets, bind_assoc, bind_gets, Hr.
  destruct (delete_postorder_run t (size st.(nodes)) st (addrs_size _ _ Hh Hd) Hh Hd) as (h' & R & Hl).
  rewrite (bind_some _ _ _ _ _ R). exists (addrs t), (postorder t), h'. eexists. split_and!; [done | done | | | done | | done | done |].
  - symmetry. apply length_elems.
  - intros a Ha. by apply (holds_lookup _ _ _ Hh).
  - apply postorder_elems.
  - intros He. cbn. rewrite Hr. apply ptr_addrs. intros ->. done.
Qed.

(** ** A key that is there *)

(** At a node with the key the search stays where it is. *)
Lemma stuck_at fuel key this t0 s0 p q n st : st.(Compare) = Some cmp -> st.(nodes) !! p = Some n -> cmp key n.(Key) = 0 ->
  q = None \/ q = Some p -> insert_search fuel key this t0 s0 p q st = None.
Proof.
  intros Hcmp En Hk. revert t0 s0 q. induction fuel as [| fuel IH]; intros t0 s0 q Hq; [done |]. cbn [insert_search].
  heap_step. rewrite (bind_some _ _ _ _ _ (compare_run _ _ _ _ Hcmp)), Hk. change (0 <? 0) with false. cbv zeta.
  destruct Hq as [-> | ->]; [done |]. cbn [need]. rewrite bind_ret. heap_step. destruct (negb _); apply IH; by right.
Qed.
Lemma search_stuck fuel key this t t0 s0 q st : st.(Compare) = Some cmp -> holds st.(nodes) t -> NoDup (addrs t) ->
  ordered cmp (elems t) -> ~ absent cmp key (elems t) -> q = None \/ q = Some (ptr t) ->
  insert_search fuel key this t0 s0 (ptr t) q st = None.
Proof.
  revert fuel t0 s0 q st. induction t as [| a k d b c x y IH] using (tree_side cmp key); intros fuel t0 s0 q st Hcmp Hh Hd Ho Ha Hq;
    [by destruct Ha; constructor |].
  rewrite ptr_mk in *. pose proof Hh as (Ha0 & En & Hx & Hy)%holds_mk.
  destruct (decide (cmp key k = 0)) as [Hk | Hk]; [by eapply stuck_at; [done | exact En | done | done] |].
  destruct fuel as [| fuel]; [done |].
  rewrite (insert_search_step cmp this key fuel t0 s0 a q (nd (side cmp key k) k d b c (ptr x) (ptr y)) st) by done.
  node_simpl. heap_step. rewrite addrs_mk in Hd. apply NoDup_cons in Hd as [Hna (Hdx & _)%NoDup_app].
  assert (Hpart : ordered cmp (elems x) /\ ~ absent cmp key (elems x)).
  { assert (Hk' : cmp k key <> 0) by (by rewrite (cmp_eq cmp Hok)). pose proof (cmp_sym _ Hok key k).
    rewrite elems_mk in *. unfold beside in *. unfold side in *. destruct (Z.ltb_spec (cmp key k) 0) as [Hlt | Hge]; cbn [negb app] in *;
      destruct (ordered_sides cmp _ _ _ _ Ho) as (Hl & Hr & Hkl & Hkr); (split; [done |]); intros Hab; apply Ha, Forall_app; split.
    - done.
    - constructor; [done | by apply above_absent, (above_key_r cmp Hok key k d)].
    - apply below_absent, (below_key_l cmp Hok key k d); [lia | done].
    - by constructor. }
  destruct Hpart as [Hox Hax]. assert (Hxe : x <> E) by (intros ->; apply Hax; constructor).
  destruct (tree_cases (side cmp key k) x Hxe) as (xa & xk & xd & xb & xc & xx & xy & Ex).
  assert (Hx1 : holds (<[a := nd (side cmp key k) k d b (side cmp key k) (ptr x) (ptr y)]> st.(nodes)) x)
    by (apply holds_insert; [members | done]).
  pose proof Hx as Hx2. rewrite Ex in Hx2. apply holds_mk in Hx2 as (Hxa & Exn & _).
  assert (Hp : ptr x = xa) by (rewrite Ex; apply ptr_mk). rewrite <- Hp in Hxa, Exn.
  pose proof (ptr_addrs x Hxe). assert (Hne : a <> ptr x) by members.
  rewrite (proj2 (Z.eqb_neq _ _) Hxa). heap_step. destruct (negb _); apply IH; auto.
Qed.

(** Inserting a key that the tree holds already never returns: the search
    stays at the node with the key, in every number of turns. *)
Theorem insert_present_never_returns key data this st es : represents st es -> ~ absent cmp key es ->
  malloc st.(nodes) = Some this ->
  AvlInsert malloc key data st = None /\
  let st1 := with_nodes (<[this := mk_node key data 0 false 0 0]> st.(nodes)) st in
  forall fuel, insert_search fuel key this st.(root) st.(root) st.(root) None st1 = None.
Proof.
  intros (t & [Hh Hd Hr Hcmp] & Hb & <- & Ho & _) Ha Hm. set (st1 := with_nodes _ st).
  assert (Hs : forall fuel, insert_search fuel key this st.(root) st.(root) st.(root) None st1 = None).
  { intros fuel. rewrite Hr. apply search_stuck; try done; [| by left].
    apply holds_insert; [| done]. destruct (Halloc _ _ Hm) as (_ & _ & Hf). intros Hin.
    apply (holds_lookup _ _ _ Hh) in Hin as [_ [? ?]]. congruence. }
  split; [| exact Hs]. unfold AvlInsert. rewrite bind_gets, Hm, bind_modify, bind_gets. change (root (_ <| nodes ::= _ |>)) with st.(root).
  assert (Hp : ptr t <> 0) by (destruct t; [by destruct Ha; constructor | by destruct Hh]). rewrite Hr, (proj2 (Z.eqb_neq _ _) Hp), <- Hr.
  unfold bind at 1. change (st <| nodes ::= _ |>) with st1. by rewrite Hs.
Qed.
End Maps.
End Table.

(** * Concrete maps *)

Definition by_number (a b : Z) : Z := a - b.
Lemma by_number_ok : cmp_ok by_number.
Proof. split; unfold by_number; lia. Qed.
Definition a_dummy : Z := -1.
Definition a_malloc (h : gmap Z node) : option Z := Some (fresh ({[0; a_dummy]} ∪ dom h : gset Z)).
Lemma a_malloc_ok : allocator a_malloc a_dummy.
Proof.
  intros h p [= <-]. pose proof (is_fresh ({[0; a_dummy]} ∪ dom h : gset Z)) as H.
  rewrite !not_elem_of_union, !not_elem_of_singleton, not_elem_of_dom in H. tauto.
Qed.
(** Two entries in memory. *)
Definition two : avl_t :=
  mk_avl {[100 := mk_node 5 50 1 false 0 200; 200 := mk_node 8 0 0 false 0 0]} 100 (Some by_number) true true [].
Lemma two_represents : represents by_number a_dummy two [(5, 50); (8, 0)].
Proof.
  exists (T 100 5 50 1 false E (T 200 8 0 0 false E E)). split_and!; [split | | done | | done].
  - by cbn.
  - cbn. repeat constructor; set_solver.
  - done.
  - done.
  - cbn. lia.
  - repeat constructor.
Qed.

Lemma maps_are_tables_witness : exists r st' es',
  do_ops a_malloc a_dummy [Set_entry 5 51; Get_entry 8; Del_entry 8; Walk] two = Some (r, st') /\
  on_table_all by_number [Set_entry 5 51; Get_entry 8; Del_entry 8; Walk] [(5, 50); (8, 0)] r es' /\
  represents by_number a_dummy st' es' /\
  ((forall h, is_Some (a_malloc h)) -> Forall (fun a => a <> Stored false) r).
Proof. apply (maps_are_tables by_number by_number_ok a_malloc a_dummy a_malloc_ok); [exact two_represents | vm_compute; reflexivity]. Defined.

Lemma search_is_short_witness :
  (exists t, stores by_number two t /\ elems t = [(5, 50); (8, 0)] /\ height t <= AVL_MAX_HEIGHT - 1) /\
  exists p, find 32 8 two.(root) two = Some (p, two) /\ exists n, two.(nodes) !! p = Some n /\ n.(Daten) = 0.
Proof. apply (search_is_short by_number by_number_ok a_dummy 8 two [(5, 50); (8, 0)] two_represents). vm_compute. reflexivity. Defined.

Lemma destroy_frees_once_witness : exists ps cs h' st', AvlDestroy two = Some (h', st') /\ NoDup ps /\ length ps = 2%nat /\
  (forall a, a ∈ ps -> is_Some (two.(nodes) !! a)) /\
  (forall a, h' !! a = if decide (a ∈ ps) then None else two.(nodes) !! a) /\
  cs ≡ₚ [(5, 50); (8, 0)] /\ st'.(calls) = two.(calls) ++ flat_map (fun e => released two e.1 e.2) cs /\
  st'.(root) = two.(root) /\ ([(5, 50); (8, 0)] <> [] -> st'.(root) ∈ ps).
Proof. exact (destroy_frees_once by_number a_dummy two [(5, 50); (8, 0)] two_represents). Defined.

Lemma insert_present_never_returns_witness : AvlInsert a_malloc 8 80 two = None /\
  let this := fresh ({[0; a_dummy]} ∪ dom two.(nodes) : gset Z) in
  let st1 := with_nodes (<[this := mk_node 8 80 0 false 0 0]> two.(nodes)) two in
  forall fuel, insert_search fuel 8 this two.(root) two.(root) two.(root) None st1 = None.
Proof.
  apply (insert_present_never_returns by_number by_number_ok a_malloc a_dummy a_malloc_ok 8 80 _ two _ two_represents); [| done].
  intros H. apply Forall_cons in H as [_ [H _]%Forall_cons]. by apply H.
Defined.
End AvlSpec.
