(* ===== verification/MrCs2.v ===== *)
(** mrsystem's CAN messages: the bytes of a message (basic_libs/bytestream), the
    encoders and decoders of its data and its identifier (libs/cs2), and the
    frames of CAN and Ethernet (libs/mr_cs2ms2).

    The bytes of an array are their bit patterns, 0 to 255, whatever the element
    type; a [char] becomes a number as the platform's [char] does, [CharSign].
    A pointer into an array is the array from there on where it is read, the
    array with an offset where it is written. *)

From S2P Require Import Prelude World.

Module MrCs2.

(** * Bytes (bytestream) *)

(** Whether [char] is signed: the compiler's choice. *)
Class CharSign := char_signed : bool.
Definition unsigned_char : CharSign := false.
Definition signed_char : CharSign := true.
Definition char_value `{CharSign} (b : Z) : Z := if char_signed then i8 b else b.

Definition GetIntFromByteArray `{CharSign} (Data : list Z) : Z :=
  Z.lor (u32 (Z.shiftl (u32 (char_value (nth 0 Data 0))) 8))
    (u32 (Z.shiftl (u32 (char_value (nth 1 Data 0))) 0)).
Definition GetLongFromByteArray `{CharSign} (Data : list Z) : Z :=
  Z.lor (Z.lor (Z.lor (u64 (Z.shiftl (u64 (char_value (nth 0 Data 0))) 24))
    (u64 (Z.shiftl (u64 (char_value (nth 1 Data 0))) 16)))
    (u64 (Z.shiftl (u64 (char_value (nth 2 Data 0))) 8)))
    (u64 (Z.shiftl (u64 (char_value (nth 3 Data 0))) 0)).
Definition SetIntToByteArray (Data : list Z) (at_ : nat) (Value : Z) : list Z :=
  let Data := <[at_ := Z.land (Z.shiftr Value 8) 0xff]> Data in
  <[S at_ := Z.land (Z.shiftr Value 0) 0xff]> Data.
Definition SetLongToByteArray (Data : list Z) (at_ : nat) (Value : Z) : list Z :=
  let Data := <[at_ := Z.land (Z.shiftr Value 24) 0xff]> Data in
  let Data := <[S at_ := Z.land (Z.shiftr Value 16) 0xff]> Data in
  let Data := <[S (S at_) := Z.land (Z.shiftr Value 8) 0xff]> Data in
  <[S (S (S at_)) := Z.land (Z.shiftr Value 0) 0xff]> Data.

(** The loops that copy [n] bytes. *)
Definition copy_bytes (n : nat) (from to : list Z) : list Z :=
  foldl (fun d i => <[i := nth i from 0]> d) to (seq 0 n).
Definition read_bytes (n : nat) (from : list Z) : list Z := map (fun i => nth i from 0) (seq 0 n).
(** [strlen]; [None] when the array has no NUL. *)
Fixpoint strlen (s : list Z) : option nat :=
  match s with
  | [] => None
  | b :: s => if b =? 0 then Some 0%nat else S <$> strlen s
  end.
(** The eight bytes cleared, then the characters of a string stored without a
    test of its length. *)
Definition store_string (CanData s : list Z) : option (list Z) :=
  let CanData := copy_bytes 8 (replicate 8 0) CanData in
  match strlen s with
  | Some n => if decide (n <= length CanData)%nat then Some (copy_bytes n s CanData) else None
  | None => None
  end.

(** * The identifier *)

Definition BIT_MASK (a b : Z) : Z :=
  Z.land (Z.shiftr (u32 (-1)) (31 - b)) (u32 (Z.lnot (u32 (Z.shiftl 1 a - 1)))).
Definition CS2_SHIFT_HASH : Z := 0.
Definition CS2_SHIFT_RESP : Z := 16.
Definition CS2_SHIFT_COMMAND : Z := 17.
Definition CS2_SHIFT_PRIO : Z := 25.
Definition CS2_MASK_HASH : Z := BIT_MASK 0 15.
Definition CS2_MASK_RESP : Z := BIT_MASK 16 16.
Definition CS2_MASK_COMMAND : Z := BIT_MASK 17 24.
Definition CS2_MASK_PRIO : Z := BIT_MASK 25 29.
Definition CS2_SHIFT_HASH_MSB : Z := 3.
Definition CS2_MASK_HASH_MAGIC : Z := BIT_MASK 7 9.
Definition CS2_HASH_MAGIC : Z := BIT_MASK 8 9.
Definition CS2_FOLGENUMMER_LOW : Z := BIT_MASK 0 6.
Definition CS2_FOLGENUMMER_HIGH : Z := BIT_MASK 10 15.

Definition CS2_CMD_SYSTEM : Z := 0x00.
Definition CS2_CMD_DISCOVERY : Z := 0x01.
Definition CS2_CMD_BIND : Z := 0x02.
Definition CS2_CMD_MFX_VERIFY : Z := 0x03.
Definition CS2_CMD_SPEED : Z := 0x04.
Definition CS2_CMD_DIRECTION : Z := 0x05.
Definition CS2_CMD_FUNCTION : Z := 0x06.
Definition CS2_CMD_READ_CONFIG : Z := 0x07.
Definition CS2_CMD_WRITE_CONFIG : Z := 0x08.
Definition CS2_CMD_ACC_SWITCH : Z := 0x0B.
Definition CS2_CMD_ACC_CONF : Z := 0x0C.
Definition CS2_CMD_S88_POLL : Z := 0x10.
Definition CS2_CMD_S88_EVENT : Z := 0x11.
Definition CS2_CMD_SX1_EVENT : Z := 0x12.
Definition CS2_CMD_PING : Z := 0x18.
Definition CS2_CMD_OFFER_UPDATE : Z := 0x19.
Definition CS2_CMD_READ_CFG_DATA : Z := 0x1A.
Definition CS2_CMD_BOOTLDR_CAN : Z := 0x1B.
Definition CS2_CMD_BOOTLDR_TRACK : Z := 0x1C.
Definition CS2_CMD_STATUS : Z := 0x1D.
Definition CS2_CMD_CONFIG_QUERY : Z := 0x20.
Definition CS2_CMD_CFGDAT_STREAM : Z := 0x21.
Definition CS2_CMD_CONNECT_6021 : Z := 0x22.
Definition CS2_CMD_AUTOMATIC : Z := 0x30.

Definition CS2_SUBCMD_SYSTEM_STOP : Z := 0x00.
Definition CS2_SUBCMD_SYSTEM_GO : Z := 0x01.
Definition CS2_SUBCMD_SYSTEM_HALT : Z := 0x02.
Definition CS2_SUBCMD_SYSTEM_EMERGENCY_HALT : Z := 0x03.
Definition CS2_SUBCMD_SYSTEM_CYCLE_END : Z := 0x04.
Definition CS2_SUBCMD_SYSTEM_DATA_PROTOCOLL : Z := 0x05.
Definition CS2_SUBCMD_SYSTEM_DECODER_TIMEING : Z := 0x06.
Definition CS2_SUBCMD_SYSTEM_MFX_FAST_READ : Z := 0x07.
Definition CS2_SUBCMD_SYSTEM_TRACK_PROTOCOLL : Z := 0x08.
Definition CS2_SUBCMD_SYSTEM_RESET_MFX_COUNTER : Z := 0x09.
Definition CS2_SUBCMD_SYSTEM_OVERLOAD : Z := 0x0A.
Definition CS2_SUBCMD_SYSTEM_STATUS : Z := 0x0B.
Definition CS2_SUBCMD_SYSTEM_SYSTEM_ID : Z := 0x0C.
Definition CS2_SUBCMD_SYSTEM_MFX_SEEK : Z := 0x30.
Definition CS2_SUBCMD_SYSTEM_SYSTEM_RESET : Z := 0x80.
Definition CS2_UID_BROADCAST : Z := 0.
Definition CS2_DEVID_MS2_1 : Z := 0x0030.
Definition CS2_DEVID_MS2_2 : Z := 0x0032.
Definition CFG_HDR_ZLIB_RESERVED : Z := 0x7B.

(** [htons] and [ntohs] exchange the two bytes, [htonl] and [ntohl] the four. *)
Definition htons (v : Z) : Z := Z.lor (Z.shiftl (Z.land v 0xff) 8) (Z.land (Z.shiftr v 8) 0xff).
Definition htonl (v : Z) : Z :=
  Z.lor (Z.shiftl (htons (Z.land v 0xffff)) 16) (htons (Z.land (Z.shiftr v 16) 0xffff)).

Definition Cs2EncodeId (Hash Response Command Prio : Z) : Z :=
  Z.lor (Z.lor (Z.lor (Z.shiftl (u16 Hash) CS2_SHIFT_HASH) (Z.shiftl Response CS2_SHIFT_RESP))
    (Z.shiftl Command CS2_SHIFT_COMMAND)) (Z.shiftl Prio CS2_SHIFT_PRIO).
Definition Cs2DecodeId (CanId : Z) : Z * Z * Z * Z :=
  let Hash := Z.shiftr (Z.land CanId CS2_MASK_HASH) CS2_SHIFT_HASH in
  let Response := Z.shiftr (Z.land CanId CS2_MASK_RESP) CS2_SHIFT_RESP in
  let Command := Z.shiftr (Z.land CanId CS2_MASK_COMMAND) CS2_SHIFT_COMMAND in
  let Prio := Z.shiftr (Z.land CanId CS2_MASK_PRIO) CS2_SHIFT_PRIO in
  (Hash, Response, Command, Prio).
Definition Cs2IsCs2Msg (Hash Command : Z) : bool :=
  (Z.land Hash CS2_MASK_HASH_MAGIC =? CS2_HASH_MAGIC) ||
  ((Hash =? 0) && (Command =? CS2_CMD_CFGDAT_STREAM)).
(** Clearing and setting the bits that mark the hash. *)
Definition clear_magic (Hash : Z) : Z := Z.land Hash (u32 (Z.lnot CS2_MASK_HASH_MAGIC)).
Definition set_magic (Hash : Z) : Z := Z.lor (clear_magic Hash) CS2_HASH_MAGIC.
Definition Cs2CalcHash (Uid : Z) : Z :=
  let CanHash := u16 (Z.lxor (Z.land Uid 0x0000ffff) (Z.shiftr Uid 16)) in
  let CanHash := htons CanHash in
  u16 (set_magic CanHash).
Definition Cs2CalcHashFromFolgenummer (Folgenummer : Z) : Z :=
  let CanHash := u16 (Z.lor
    (u32 (Z.shiftl (Z.land Folgenummer CS2_FOLGENUMMER_HIGH) CS2_SHIFT_HASH_MSB))
    (Z.land Folgenummer CS2_FOLGENUMMER_LOW)) in
  u16 (set_magic CanHash).

(** * The data: encoders (cane*.c) *)

Definition Cs2EncSysStop (CanData : list Z) (Uid : Z) : list Z :=
  SetLongToByteArray CanData 0 Uid.
Definition Cs2EncSysGo (CanData : list Z) (Uid : Z) : list Z :=
  SetLongToByteArray CanData 0 Uid.
Definition Cs2EncSysHalt (CanData : list Z) (Uid : Z) : list Z :=
  SetLongToByteArray CanData 0 Uid.
Definition Cs2EncSysEmergencyHalt (CanData : list Z) (Uid : Z) : list Z :=
  SetLongToByteArray CanData 0 Uid.
Definition Cs2EncSysCycleEnd (CanData : list Z) (Uid : Z) : list Z :=
  SetLongToByteArray CanData 0 Uid.
Definition Cs2EncSysDataProtocoll (CanData : list Z) (Uid Proto : Z) : list Z :=
  SetLongToByteArray CanData 0 Uid.
Definition Cs2EncSysDecoderTimeing (CanData : list Z) (Uid Time : Z) : list Z :=
  SetLongToByteArray CanData 0 Uid.
Definition Cs2EncSysMfxFastRead (CanData : list Z) (Uid MfxSid : Z) : list Z :=
  let CanData := SetLongToByteArray CanData 0 Uid in
  <[5%nat := u8 MfxSid]> CanData.
Definition Cs2EncSysTrackProtocoll (CanData : list Z) (Uid Proto : Z) : list Z :=
  let CanData := SetLongToByteArray CanData 0 Uid in
  <[5%nat := u8 Proto]> CanData.
Definition Cs2EncSysResetMfxCounter (CanData : list Z) (Uid Counter : Z) : list Z :=
  let CanData := SetLongToByteArray CanData 0 Uid in
  SetIntToByteArray CanData 5 Counter.
Definition Cs2EncSysOverload (CanData : list Z) (Uid Channel : Z) : list Z :=
  let CanData := SetLongToByteArray CanData 0 Uid in
  <[5%nat := u8 Channel]> CanData.
Definition Cs2EncSysStatus6 (CanData : list Z) (Uid Channel : Z) : list Z :=
  let CanData := SetLongToByteArray CanData 0 Uid in
  <[5%nat := u8 Channel]> CanData.
Definition Cs2EncSysStatus7 (CanData : list Z) (Uid Channel Set_ : Z) : list Z :=
  let CanData := SetLongToByteArray CanData 0 Uid in
  let CanData := <[5%nat := u8 Channel]> CanData in
  <[6%nat := u8 Set_]> CanData.
Definition Cs2EncSysStatus8 (CanData : list Z) (Uid Channel Value : Z) : list Z :=
  let CanData := SetLongToByteArray CanData 0 Uid in
  let CanData := <[5%nat := u8 Channel]> CanData in
  SetIntToByteArray CanData 6 Value.
Definition Cs2EncSysSystemId5 (CanData : list Z) (Uid : Z) : list Z :=
  SetLongToByteArray CanData 0 Uid.
Definition Cs2EncSysSystemId7 (CanData : list Z) (Uid Id : Z) : list Z :=
  let CanData := SetLongToByteArray CanData 0 Uid in
  SetIntToByteArray CanData 5 Id.
Definition Cs2EncSysSystemReset (CanData : list Z) (Uid ResetTarget : Z) : list Z :=
  let CanData := SetLongToByteArray CanData 0 Uid in
  <[5%nat := u8 ResetTarget]> CanData.
Definition Cs2EncDiscovery0 (CanData : list Z) : list Z := CanData.
Definition Cs2EncDiscovery1 (CanData : list Z) (Proto : Z) : list Z :=
  <[0%nat := u8 Proto]> CanData.
Definition Cs2EncDiscovery5 (CanData : list Z) (Uid Range : Z) : list Z :=
  let CanData := SetLongToByteArray CanData 0 Uid in
  <[4%nat := u8 Range]> CanData.
Definition Cs2EncDiscovery6 (CanData : list Z) (Uid Range Ask : Z) : list Z :=
  let CanData := SetLongToByteArray CanData 0 Uid in
  let CanData := <[4%nat := u8 Range]> CanData in
  <[5%nat := u8 Ask]> CanData.
Definition Cs2EncBind (CanData : list Z) (Uid Sid : Z) : list Z :=
  let CanData := SetLongToByteArray CanData 0 Uid in
  SetIntToByteArray CanData 4 Sid.
Definition Cs2EncMfxVerify6 (CanData : list Z) (Uid Sid : Z) : list Z :=
  let CanData := SetLongToByteArray CanData 0 Uid in
  SetIntToByteArray CanData 4 Sid.
Definition Cs2EncMfxVerify7 (CanData : list Z) (Uid Sid Ask : Z) : list Z :=
  let CanData := SetLongToByteArray CanData 0 Uid in
  let CanData := SetIntToByteArray CanData 4 Sid in
  <[6%nat := u8 Ask]> CanData.
Definition Cs2EncSpeed4 (CanData : list Z) (LocId : Z) : list Z :=
  SetLongToByteArray CanData 0 LocId.
Definition Cs2EncSpeed6 (CanData : list Z) (LocId Speed : Z) : list Z :=
  let CanData := SetLongToByteArray CanData 0 LocId in
  SetIntToByteArray CanData 4 Speed.
Definition Cs2EncDirection4 (CanData : list Z) (LocId : Z) : list Z :=
  SetLongToByteArray CanData 0 LocId.
Definition Cs2EncDirection5 (CanData : list Z) (LocId Direction : Z) : list Z :=
  let CanData := SetLongToByteArray CanData 0 LocId in
  <[4%nat := u8 Direction]> CanData.
Definition Cs2EncFunction5 (CanData : list Z) (LocId Function : Z) : list Z :=
  let CanData := SetLongToByteArray CanData 0 LocId in
  <[4%nat := u8 Function]> CanData.
Definition Cs2EncFunction6 (CanData : list Z) (LocId Function Value : Z) : list Z :=
  let CanData := SetLongToByteArray CanData 0 LocId in
  let CanData := <[4%nat := u8 Function]> CanData in
  <[5%nat := u8 Value]> CanData.
Definition Cs2EncFunction8 (CanData : list Z) (LocId Function Value FktVal : Z) : list Z :=
  let CanData := SetLongToByteArray CanData 0 LocId in
  let CanData := <[4%nat := u8 Function]> CanData in
  let CanData := <[5%nat := u8 Value]> CanData in
  SetIntToByteArray CanData 6 FktVal.
Definition Cs2EncReadConfig6 (CanData : list Z) (LocId CvIndex : Z) : list Z :=
  let CanData := SetLongToByteArray CanData 0 LocId in
  SetIntToByteArray CanData 4 CvIndex.
Definition Cs2EncReadConfig7 (CanData : list Z) (LocId CvIndex Param : Z) : list Z :=
  let CanData := SetLongToByteArray CanData 0 LocId in
  SetIntToByteArray CanData 4 CvIndex.
Definition Cs2EncWriteConfig (CanData : list Z) (LocId CvIndex Value CtrlRslt : Z) : list Z :=
  let CanData := SetLongToByteArray CanData 0 LocId in
  let CanData := SetIntToByteArray CanData 4 CvIndex in
  let CanData := <[6%nat := u8 Value]> CanData in
  <[7%nat := u8 CtrlRslt]> CanData.
Definition Cs2EncAccSwitch6 (CanData : list Z) (LocId Position Current : Z) : list Z :=
  let CanData := SetLongToByteArray CanData 0 LocId in
  let CanData := <[4%nat := u8 Position]> CanData in
  <[5%nat := u8 Current]> CanData.
Definition Cs2EncAccSwitch8 (CanData : list Z) (LocId Position Current TimeFkt : Z) : list Z :=
  let CanData := SetLongToByteArray CanData 0 LocId in
  let CanData := <[4%nat := u8 Position]> CanData in
  let CanData := <[5%nat := u8 Current]> CanData in
  SetIntToByteArray CanData 6 TimeFkt.
Definition Cs2EncS88Poll5 (CanData : list Z) (Uid NumModuls : Z) : list Z :=
  let CanData := SetLongToByteArray CanData 0 Uid in
  <[4%nat := u8 NumModuls]> CanData.
Definition Cs2EncS88Poll7 (CanData : list Z) (Uid Modul State : Z) : list Z :=
  let CanData := SetLongToByteArray CanData 0 Uid in
  let CanData := <[4%nat := u8 Modul]> CanData in
  SetIntToByteArray CanData 5 State.
Definition Cs2EncS88Event4 (CanData : list Z) (Device Contact : Z) : list Z :=
  let CanData := SetIntToByteArray CanData 0 Device in
  SetIntToByteArray CanData 2 Contact.
Definition Cs2EncS88Event5 (CanData : list Z) (Device Contact Param : Z) : list Z :=
  let CanData := SetIntToByteArray CanData 0 Device in
  let CanData := SetIntToByteArray CanData 2 Contact in
  <[4%nat := u8 Param]> CanData.
Definition Cs2EncS88Event8 (CanData : list Z) (Device Contact StateOld StateNew Time : Z) :
    list Z :=
  let CanData := SetIntToByteArray CanData 0 Device in
  let CanData := SetIntToByteArray CanData 2 Contact in
  let CanData := <[4%nat := u8 StateOld]> CanData in
  let CanData := <[5%nat := u8 StateNew]> CanData in
  SetIntToByteArray CanData 6 Time.
Definition Cs2EncPing0 (CanData : list Z) : list Z := CanData.
Definition Cs2EncPing8 (CanData : list Z) (Uid SwVersion DeviceId : Z) : list Z :=
  let CanData := SetLongToByteArray CanData 0 Uid in
  let CanData := SetIntToByteArray CanData 4 SwVersion in
  SetIntToByteArray CanData 6 DeviceId.
Definition Cs2EncCanBootldr (CanData Bytes : list Z) : list Z := copy_bytes 8 Bytes CanData.
Definition Cs2EncStatus5 (CanData : list Z) (Uid Index : Z) : list Z :=
  let CanData := SetLongToByteArray CanData 0 Uid in
  <[4%nat := u8 Index]> CanData.
Definition Cs2EncStatus6 (CanData : list Z) (Uid Index NumPackets : Z) : list Z :=
  let CanData := SetLongToByteArray CanData 0 Uid in
  let CanData := <[4%nat := u8 Index]> CanData in
  <[5%nat := u8 NumPackets]> CanData.
Definition Cs2EncStatus8 (CanData Bytes : list Z) : list Z := copy_bytes 8 Bytes CanData.
Definition Cs2EncConfigQuery0 (CanData : list Z) : list Z := CanData.
Definition Cs2EncConfigQuery (CanData FileName : list Z) : option (list Z) :=
  store_string CanData FileName.
Definition Cs2EncCfgdatStream6 (CanData : list Z) (Length Crc : Z) : list Z :=
  let CanData := SetLongToByteArray CanData 0 Length in
  SetIntToByteArray CanData 4 Crc.
Definition Cs2EncCfgdatStream7 (CanData : list Z) (Length Crc : Z) : list Z :=
  let CanData := SetLongToByteArray CanData 0 Length in
  let CanData := SetIntToByteArray CanData 4 Crc in
  <[6%nat := u8 CFG_HDR_ZLIB_RESERVED]> CanData.
Definition Cs2EncCfgdatStream8 (CanData Bytes : list Z) : list Z := copy_bytes 8 Bytes CanData.
Definition Cs2EncAutomatic6 (CanData : list Z) (DeviceId Func Status Param : Z) : list Z :=
  let CanData := SetIntToByteArray CanData 0 DeviceId in
  let CanData := SetIntToByteArray CanData 2 Func in
  let CanData := <[4%nat := u8 Status]> CanData in
  <[5%nat := u8 Param]> CanData.
Definition Cs2EncAutomatic8 (CanData : list Z) (DeviceId Func LocId : Z) : list Z :=
  let CanData := SetIntToByteArray CanData 0 DeviceId in
  let CanData := SetIntToByteArray CanData 2 Func in
  SetLongToByteArray CanData 4 LocId.
Definition Cs2EncDebugMessage (CanData Message : list Z) : option (list Z) :=
  store_string CanData Message.

(** * The data: decoders (cand*.c)

    What they store through their pointers, in the order of the parameters. *)

Section Decoders.
Context {char : CharSign}.
Definition Cs2DecSysStop (CanData : list Z) : Z := GetLongFromByteArray CanData.
Definition Cs2DecSysGo (CanData : list Z) : Z := GetLongFromByteArray CanData.
Definition Cs2DecSysHalt (CanData : list Z) : Z := GetLongFromByteArray CanData.
Definition Cs2DecSysEmergencyHalt (CanData : list Z) : Z := GetLongFromByteArray CanData.
Definition Cs2DecSysCycleEnd (CanData : list Z) : Z := GetLongFromByteArray CanData.
Definition Cs2DecSysDataProtocoll (CanData : list Z) : Z * Z :=
  let Uid := GetLongFromByteArray CanData in
  let Proto := nth 5 CanData 0 in
  (Uid, Proto).
Definition Cs2DecSysDecoderTimeing (CanData : list Z) : Z * Z :=
  let Uid := GetLongFromByteArray CanData in
  let Time := i32 (GetIntFromByteArray (drop 5 CanData)) in
  (Uid, Time).
Definition Cs2DecSysMfxFastRead (CanData : list Z) : Z * Z :=
  let Uid := GetLongFromByteArray CanData in
  let MfxSid := i32 (GetIntFromByteArray (drop 5 CanData)) in
  (Uid, MfxSid).
Definition Cs2DecSysTrackProtocoll (CanData : list Z) : Z * Z :=
  let Uid := GetLongFromByteArray CanData in
  let Proto := nth 5 CanData 0 in
  (Uid, Proto).
Definition Cs2DecSysResetMfxCounter (CanData : list Z) : Z * Z :=
  let Uid := GetLongFromByteArray CanData in
  let Counter := i32 (GetIntFromByteArray (drop 5 CanData)) in
  (Uid, Counter).
Definition Cs2DecSysOverload (CanData : list Z) : Z * Z :=
  let Uid := GetLongFromByteArray CanData in
  let Channel := nth 5 CanData 0 in
  (Uid, Channel).
Definition Cs2DecSysStatus6 (CanData : list Z) : Z * Z :=
  let Uid := GetLongFromByteArray CanData in
  let Channel := nth 5 CanData 0 in
  (Uid, Channel).
Definition Cs2DecSysStatus7 (CanData : list Z) : Z * Z * Z :=
  let Uid := GetLongFromByteArray CanData in
  let Channel := nth 5 CanData 0 in
  let Set_ := nth 6 CanData 0 in
  (Uid, Channel, Set_).
Definition Cs2DecSysStatus8 (CanData : list Z) : Z * Z * Z :=
  let Uid := GetLongFromByteArray CanData in
  let Channel := nth 5 CanData 0 in
  let Value := i32 (GetIntFromByteArray (drop 6 CanData)) in
  (Uid, Channel, Value).
Definition Cs2DecSysSystemId5 (CanData : list Z) : Z := GetLongFromByteArray CanData.
Definition Cs2DecSysSystemId7 (CanData : list Z) : Z * Z :=
  let Uid := GetLongFromByteArray CanData in
  let Id := i32 (GetIntFromByteArray (drop 5 CanData)) in
  (Uid, Id).
Definition Cs2DecSysSystemReset (CanData : list Z) : Z * Z :=
  let Uid := GetLongFromByteArray CanData in
  let ResetTarget := nth 5 CanData 0 in
  (Uid, ResetTarget).
Definition Cs2DecDiscovery0 (CanData : list Z) : unit := tt.
Definition Cs2DecDiscovery1 (CanData : list Z) : Z := nth 0 CanData 0.
Definition Cs2DecDiscovery5 (CanData : list Z) : Z * Z :=
  let Uid := GetLongFromByteArray CanData in
  let Range := nth 4 CanData 0 in
  (Uid, Range).
Definition Cs2DecDiscovery6 (CanData : list Z) : Z * Z * Z :=
  let Uid := GetLongFromByteArray CanData in
  let Range := nth 4 CanData 0 in
  let Ask := nth 5 CanData 0 in
  (Uid, Range, Ask).
Definition Cs2DecBind (CanData : list Z) : Z * Z :=
  let Uid := GetLongFromByteArray CanData in
  let Sid := GetIntFromByteArray (drop 4 CanData) in
  (Uid, Sid).
Definition Cs2DecMfxVerify6 (CanData : list Z) : Z * Z :=
  let Uid := GetLongFromByteArray CanData in
  let Sid := GetIntFromByteArray (drop 4 CanData) in
  (Uid, Sid).
Definition Cs2DecMfxVerify7 (CanData : list Z) : Z * Z * Z :=
  let Uid := GetLongFromByteArray CanData in
  let Sid := GetIntFromByteArray (drop 4 CanData) in
  let Ask := nth 6 CanData 0 in
  (Uid, Sid, Ask).
Definition Cs2DecSpeed4 (CanData : list Z) : Z := GetLongFromByteArray CanData.
Definition Cs2DecSpeed6 (CanData : list Z) : Z * Z :=
  let LocId := GetLongFromByteArray CanData in
  let Speed := i32 (GetIntFromByteArray (drop 4 CanData)) in
  (LocId, Speed).
Definition Cs2DecDirection4 (CanData : list Z) : Z := GetLongFromByteArray CanData.
Definition Cs2DecDirection5 (CanData : list Z) : Z * Z :=
  let LocId := GetLongFromByteArray CanData in
  let Direction := nth 4 CanData 0 in
  (LocId, Direction).
Definition Cs2DecFunction5 (CanData : list Z) : Z * Z :=
  let LocId := GetLongFromByteArray CanData in
  let Function := nth 4 CanData 0 in
  (LocId, Function).
Definition Cs2DecFunction6 (CanData : list Z) : Z * Z * Z :=
  let LocId := GetLongFromByteArray CanData in
  let Function := nth 4 CanData 0 in
  let Value := nth 5 CanData 0 in
  (LocId, Function, Value).
Definition Cs2DecFunction8 (CanData : list Z) : Z * Z * Z * Z :=
  let LocId := GetLongFromByteArray CanData in
  let Function := nth 4 CanData 0 in
  let Value := nth 5 CanData 0 in
  let FktVal := i32 (GetIntFromByteArray (drop 6 CanData)) in
  (LocId, Function, Value, FktVal).
Definition Cs2DecReadConfig6 (CanData : list Z) : Z * Z :=
  let LocId := GetLongFromByteArray CanData in
  let CvIndex := i32 (GetIntFromByteArray (drop 4 CanData)) in
  (LocId, CvIndex).
Definition Cs2DecReadConfig7 (CanData : list Z) : Z * Z * Z :=
  let LocId := GetLongFromByteArray CanData in
  let CvIndex := i32 (GetIntFromByteArray (drop 4 CanData)) in
  let Param := nth 6 CanData 0 in
  (LocId, CvIndex, Param).
Definition Cs2DecWriteConfig (CanData : list Z) : Z * Z * Z * Z :=
  let LocId := GetLongFromByteArray CanData in
  let CvIndex := i32 (GetIntFromByteArray (drop 4 CanData)) in
  let Value := nth 6 CanData 0 in
  let CtrlRslt := nth 7 CanData 0 in
  (LocId, CvIndex, Value, CtrlRslt).
Definition Cs2DecAccSwitch6 (CanData : list Z) : Z * Z * Z :=
  let LocId := GetLongFromByteArray CanData in
  let Position := nth 4 CanData 0 in
  let Current := nth 5 CanData 0 in
  (LocId, Position, Current).
Definition Cs2DecAccSwitch8 (CanData : list Z) : Z * Z * Z * Z :=
  let LocId := GetLongFromByteArray CanData in
  let Position := nth 4 CanData 0 in
  let Current := nth 5 CanData 0 in
  let TimeFkt := i32 (GetIntFromByteArray (drop 6 CanData)) in
  (LocId, Position, Current, TimeFkt).
Definition Cs2DecS88Poll5 (CanData : list Z) : Z * Z :=
  let Uid := GetLongFromByteArray CanData in
  let NumModuls := nth 4 CanData 0 in
  (Uid, NumModuls).
Definition Cs2DecS88Poll7 (CanData : list Z) : Z * Z * Z :=
  let Uid := GetLongFromByteArray CanData in
  let Modul := nth 4 CanData 0 in
  let State := i32 (GetIntFromByteArray (drop 5 CanData)) in
  (Uid, Modul, State).
Definition Cs2DecS88Event4 (CanData : list Z) : Z * Z :=
  let Device := i32 (GetIntFromByteArray CanData) in
  let Contact := i32 (GetIntFromByteArray (drop 2 CanData)) in
  (Device, Contact).
Definition Cs2DecS88Event5 (CanData : list Z) : Z * Z * Z :=
  let Device := i32 (GetIntFromByteArray CanData) in
  let Contact := i32 (GetIntFromByteArray (drop 2 CanData)) in
  let Param := nth 4 CanData 0 in
  (Device, Contact, Param).
Definition Cs2DecS88Event8 (CanData : list Z) : Z * Z * Z * Z * Z :=
  let Device := i32 (GetIntFromByteArray CanData) in
  let Contact := i32 (GetIntFromByteArray (drop 2 CanData)) in
  let StateOld := nth 4 CanData 0 in
  let StateNew := nth 5 CanData 0 in
  let Time := i32 (GetIntFromByteArray (drop 6 CanData)) in
  (Device, Contact, StateOld, StateNew, Time).
Definition Cs2DecPing0 (CanData : list Z) : unit := tt.
Definition Cs2DecPing8 (CanData : list Z) : Z * Z * Z :=
  let Uid := GetLongFromByteArray CanData in
  let SwVersion := i32 (GetIntFromByteArray (drop 4 CanData)) in
  let DeviceId := i32 (GetIntFromByteArray (drop 6 CanData)) in
  (Uid, SwVersion, DeviceId).
Definition Cs2DecCanBootldr (CanData : list Z) : list Z :=
  read_bytes 8 CanData.
Definition Cs2DecStatus5 (CanData : list Z) : Z * Z :=
  let Uid := GetLongFromByteArray CanData in
  let Index := nth 4 CanData 0 in
  (Uid, Index).
Definition Cs2DecStatus6 (CanData : list Z) : Z * Z * Z :=
  let Uid := GetLongFromByteArray CanData in
  let Index := nth 4 CanData 0 in
  let NumPackets := nth 5 CanData 0 in
  (Uid, Index, NumPackets).
Definition Cs2DecStatus8 (CanData : list Z) : list Z :=
  read_bytes 8 CanData.
Definition Cs2DecConfigQuery (CanData : list Z) : list Z :=
  read_bytes 8 CanData ++ [0].
Definition Cs2DecCfgdatStream6 (CanData : list Z) : Z * Z :=
  let Length := GetLongFromByteArray CanData in
  let Crc := i32 (GetIntFromByteArray (drop 4 CanData)) in
  (Length, Crc).
Definition Cs2DecCfgdatStream7 (CanData : list Z) : Z * Z :=
  let Length := GetLongFromByteArray CanData in
  let Crc := i32 (GetIntFromByteArray (drop 4 CanData)) in
  (Length, Crc).
Definition Cs2DecCfgdatStream8 (CanData : list Z) : list Z :=
  read_bytes 8 CanData.
Definition Cs2DecAutomatic6 (CanData : list Z) : Z * Z * Z * Z :=
  let DeviceId := i32 (GetIntFromByteArray CanData) in
  let Func := i32 (GetIntFromByteArray (drop 2 CanData)) in
  let Status := nth 4 CanData 0 in
  let Param := nth 5 CanData 0 in
  (DeviceId, Func, Status, Param).
Definition Cs2DecAutomatic8 (CanData : list Z) : Z * Z * Z :=
  let DeviceId := i32 (GetIntFromByteArray CanData) in
  let Func := i32 (GetIntFromByteArray (drop 2 CanData)) in
  let LocId := GetLongFromByteArray (drop 4 CanData) in
  (DeviceId, Func, LocId).
Definition Cs2DecDebugMessage (CanData : list Z) : list Z :=
  read_bytes 8 CanData ++ [0].
End Decoders.

(** * Frames (mr_cs2ms2) *)

Definition MR_CS2_UDP_LENGTH : Z := 13.
Definition CAN_EFF_FLAG : Z := 0x80000000.
Definition CAN_EFF_MASK : Z := 0x1FFFFFFF.

Record MrCs2CanDataType := mk_msg {
  Id : Z; Dlc : Z; Data : list Z; IsCs2 : bool;
  Hash : Z; Response : Z; Command : Z; Prio : Z }.
#[export] Instance eta_msg : Settable MrCs2CanDataType := fun m =>
  mk_msg m.(Id) m.(Dlc) m.(Data) m.(IsCs2) m.(Hash) m.(Response) m.(Command) m.(Prio).
Definition MrCs2GetSystemSubcmd (m : MrCs2CanDataType) : Z := nth 4 m.(Data) 0.
Definition MrCs2SetSystemSubcmd (m : MrCs2CanDataType) (s : Z) : MrCs2CanDataType :=
  m <| Data ::= <[4%nat := s]> |>.

(** The fields a message gets from its identifier. *)
Definition decode_fields (m : MrCs2CanDataType) : MrCs2CanDataType :=
  let '(CanHash, Response_, Command_, Prio_) := Cs2DecodeId m.(Id) in
  m <| Hash := clear_magic CanHash |> <| Response := Response_ |> <| Command := Command_ |>
    <| Prio := Prio_ |> <| IsCs2 := Cs2IsCs2Msg CanHash Command_ |>.
(** The identifier a message gets from its fields. *)
Definition encode_fields (m : MrCs2CanDataType) : MrCs2CanDataType :=
  let CanHash := set_magic m.(Hash) in
  m <| Id := Cs2EncodeId CanHash m.(Response) m.(Command) m.(Prio) |>.

Definition MrCs2Decode (CanMsg : MrCs2CanDataType) (CanFrame : can_frame) : MrCs2CanDataType :=
  let CanMsg := CanMsg <| Id := CanFrame.(can_id) |> <| Dlc := CanFrame.(can_dlc) |>
    <| Data := take 8 CanFrame.(can_data) |> in
  decode_fields CanMsg.
(** The message, whose identifier is set, and the frame. *)
Definition MrCs2Encode (CanMsg : MrCs2CanDataType) : MrCs2CanDataType * can_frame :=
  let CanMsg := encode_fields CanMsg in
  (CanMsg, mk_frame (Z.lor (Z.land (u32 CanMsg.(Id)) CAN_EFF_MASK) CAN_EFF_FLAG) CanMsg.(Dlc)
    (take 8 CanMsg.(Data))).

Section Ethernet.
Context {char : CharSign}.
Definition MrEthCs2Decode (CanMsg : MrCs2CanDataType) (UdpFrame : list Z) : MrCs2CanDataType :=
  let CanMsg := CanMsg <| Id := GetLongFromByteArray UdpFrame |> <| Dlc := nth 4 UdpFrame 0 |>
    <| Data := take 8 (drop 5 UdpFrame) |> in
  decode_fields CanMsg.
End Ethernet.
Definition MrEthCs2Encode (UdpFrame : list Z) (CanMsg : MrCs2CanDataType) :
    list Z * MrCs2CanDataType :=
  let CanMsg := encode_fields CanMsg in
  let UdpFrame := SetLongToByteArray UdpFrame 0 CanMsg.(Id) in
  let UdpFrame := <[4%nat := CanMsg.(Dlc)]> UdpFrame in
  (take 5 UdpFrame ++ take 8 CanMsg.(Data) ++ drop 13 UdpFrame, CanMsg).
End MrCs2.
