(* ===== verification/MrIpc.v ===== *)
(** The messages mrsystem's programs exchange (libs/mr_ipc): their fields, the
    setters and getters of each command, and the translation from and to CAN
    messages (encode_can.c, decode_can.c).

    The union of the parameters is the bytes it occupies, so that a field read
    after the other member was written is what the code reads; the machine is
    little-endian and LP64. *)

From S2P Require Import Prelude World Lan MrCs2.

Module MrIpc.
Import MrCs2.

(** * Memory of the union *)

Definition le_bytes (n : nat) (v : Z) : list Z :=
  map (fun i => Z.land (Z.shiftr v (8 * Z.of_nat i)) 0xff) (seq 0 n).
Fixpoint le_value (p : list Z) : Z :=
  match p with [] => 0 | b :: p => Z.lor b (Z.shiftl (le_value p) 8) end.

(** * Commands *)

Definition MR_IPC_RCV_ERROR : Z := -1.
Definition MR_IPC_RCV_CLOSED : Z := 0.
Definition MR_IPC_RCV_OK : Z := 1.
Definition MR_IPC_SOCKET_ALL : Z := -1.
Definition Off : Z := 0.
Definition On : Z := 1.

Definition MrIpcCmdNull : Z := 0.
Definition MrIpcCmdRun : Z := 1.
Definition MrIpcCmdTrackProto : Z := 2.
Definition MrIpcCmdLocomotiveSpeed : Z := 3.
Definition MrIpcCmdLocomotiveDirection : Z := 4.
Definition MrIpcCmdLocomotiveFunction : Z := 5.
Definition MrIpcCmdAccSwitch : Z := 6.
Definition MrIpcCmdRequestMember : Z := 7.
Definition MrIpcCmdMember : Z := 8.
Definition MrIpcCmdRequestLocName : Z := 9.
Definition MrIpcCmdRequestLocInfo : Z := 10.
Definition MrIpcCmdRequestFile : Z := 11.
Definition MrIpcCmdCfgHeader : Z := 12.
Definition MrIpcCmdCfgZHeader : Z := 13.
Definition MrIpcCmdCfgData : Z := 14.
Definition MrIpcCmdCanBootldrGeb : Z := 15.
Definition MrIpcCmdStatusRequest : Z := 16.
Definition MrIpcCmdStatusSize : Z := 17.
Definition MrIpcCmdStatusData : Z := 18.
Definition MrIpcCmdStatusResponse : Z := 19.
Definition MrIpcCmdRequestMesswert : Z := 20.
Definition MrIpcCmdSetConfig : Z := 21.
Definition MrIpcCmdConfigResponse : Z := 22.
Definition MrIpcCmdMesswertResponse : Z := 23.
Definition MrIpcCmdRequestLokListe : Z := 24.
Definition MrIpcCmdIntern : Z := 25.

(** [MrIpcCmdType]; its field Command is [IpcCommand] here. *)
Record MrIpcCmdType := mk_cmd {
  IpcCommand : Z; SenderSocket : Z; ReceiverSocket : Z;
  CanResponse : Z; CanHash : Z; CanCommand : Z; CanPrio : Z;
  Parms : list Z }.
#[export] Instance eta_cmd : Settable MrIpcCmdType := fun c =>
  mk_cmd c.(IpcCommand) c.(SenderSocket) c.(ReceiverSocket) c.(CanResponse) c.(CanHash)
    c.(CanCommand) c.(CanPrio) c.(Parms).

(** ** Fields, which are stored in network order *)

Definition MrIpcSetCommand (v : Z) (c : MrIpcCmdType) := c <| IpcCommand := htons v |>.
Definition MrIpcSetSenderSocket (v : Z) (c : MrIpcCmdType) := c <| SenderSocket := v |>.
Definition MrIpcSetReceiverSocket (v : Z) (c : MrIpcCmdType) := c <| ReceiverSocket := v |>.
Definition MrIpcSetCanResponse (v : Z) (c : MrIpcCmdType) := c <| CanResponse := htons v |>.
Definition MrIpcSetCanHash (v : Z) (c : MrIpcCmdType) := c <| CanHash := htons v |>.
Definition MrIpcSetCanCommand (v : Z) (c : MrIpcCmdType) := c <| CanCommand := htons v |>.
Definition MrIpcSetCanPrio (v : Z) (c : MrIpcCmdType) := c <| CanPrio := htons v |>.
Definition MrIpcSetIntLp1 (v : Z) (c : MrIpcCmdType) :=
  c <| Parms ::= Lan.blit 0 (le_bytes 8 (htonl v)) |>.
Definition MrIpcSetIntIp1 (v : Z) (c : MrIpcCmdType) :=
  c <| Parms ::= Lan.blit 8 (le_bytes 4 (htons v)) |>.
Definition MrIpcSetIntIp2 (v : Z) (c : MrIpcCmdType) :=
  c <| Parms ::= Lan.blit 12 (le_bytes 4 (htons v)) |>.
Definition MrIpcSetRawDlc (v : Z) (c : MrIpcCmdType) := c <| Parms ::= <[0%nat := u8 v]> |>.
(** [memcpy] to the raw data. *)
Definition copy_raw (bytes : list Z) (c : MrIpcCmdType) := c <| Parms ::= Lan.blit 1 bytes |>.

Definition MrIpcGetCommand (c : MrIpcCmdType) : Z := htons c.(IpcCommand).
Definition MrIpcGetReceiverSocket (c : MrIpcCmdType) : Z := c.(ReceiverSocket).
Definition MrIpcGetCanResponse (c : MrIpcCmdType) : Z := htons c.(CanResponse).
Definition MrIpcGetCanHash (c : MrIpcCmdType) : Z := htons c.(CanHash).
Definition MrIpcGetCanCommand (c : MrIpcCmdType) : Z := htons c.(CanCommand).
Definition MrIpcGetCanPrio (c : MrIpcCmdType) : Z := htons c.(CanPrio).
Definition MrIpcGetIntLp1 (c : MrIpcCmdType) : Z := htonl (le_value (Lan.at_off 0 8 c.(Parms))).
Definition MrIpcGetIntIp1 (c : MrIpcCmdType) : Z := htons (le_value (Lan.at_off 8 4 c.(Parms))).
Definition MrIpcGetIntIp2 (c : MrIpcCmdType) : Z := htons (le_value (Lan.at_off 12 4 c.(Parms))).
Definition MrIpcGetRawDlc (c : MrIpcCmdType) : Z := nth 0 c.(Parms) 0.
Definition MrIpcGetRawDataI (c : MrIpcCmdType) (i : nat) : Z := nth (S i) c.(Parms) 0.
(** The eight bytes a [memcpy] takes from the raw data. *)
Definition raw_data (c : MrIpcCmdType) : list Z := Lan.at_off 1 8 c.(Parms).

Definition MrIpcInit (c : MrIpcCmdType) : MrIpcCmdType := MrIpcSetCommand MrIpcCmdNull c.

(** ** Setters (cmd_set_*.c) *)

(** The common shapes: a number of 32 bits and up to two of 16. *)
Definition set_l (cmd Lp1 : Z) (c : MrIpcCmdType) := MrIpcSetIntLp1 Lp1 (MrIpcSetCommand cmd c).
Definition set_li (cmd Lp1 Ip1 : Z) (c : MrIpcCmdType) := MrIpcSetIntIp1 Ip1 (set_l cmd Lp1 c).
Definition set_lii (cmd Lp1 Ip1 Ip2 : Z) (c : MrIpcCmdType) :=
  MrIpcSetIntIp2 Ip2 (set_li cmd Lp1 Ip1 c).

Definition MrIpcCmdSetNull (c : MrIpcCmdType) (Dlc : Z) (CanData : list Z) : MrIpcCmdType :=
  copy_raw (take 8 CanData) (MrIpcSetRawDlc Dlc (MrIpcSetCommand MrIpcCmdNull c)).
Definition MrIpcCmdSetRun (c : MrIpcCmdType) (Switch : Z) : MrIpcCmdType :=
  MrIpcSetIntIp1 Switch (MrIpcSetCommand MrIpcCmdRun c).
Definition MrIpcCmdSetTrackProto (c : MrIpcCmdType) (Protokoll : Z) : MrIpcCmdType :=
  MrIpcSetIntIp1 Protokoll (MrIpcSetCommand MrIpcCmdTrackProto c).
Definition MrIpcCmdSetLocomotiveSpeed (c : MrIpcCmdType) (Addr Speed : Z) : MrIpcCmdType :=
  set_li MrIpcCmdLocomotiveSpeed Addr Speed c.
Definition MrIpcCmdSetLocomotiveDir (c : MrIpcCmdType) (Addr Direction : Z) : MrIpcCmdType :=
  set_li MrIpcCmdLocomotiveDirection Addr Direction c.
Definition MrIpcCmdSetLocomotiveFkt (c : MrIpcCmdType) (Addr Function_ Switch : Z) :
    MrIpcCmdType :=
  set_lii MrIpcCmdLocomotiveFunction Addr Function_ Switch c.
Definition MrIpcCmdSetAccPos (c : MrIpcCmdType) (Addr Position Current : Z) : MrIpcCmdType :=
  set_lii MrIpcCmdAccSwitch Addr Position Current c.
Definition MrIpcCmdSetRequestMember (c : MrIpcCmdType) : MrIpcCmdType :=
  set_lii MrIpcCmdRequestMember 0 0 0 c.
Definition MrIpcCmdSetMember (c : MrIpcCmdType) (Addr Version Type_ : Z) : MrIpcCmdType :=
  set_lii MrIpcCmdMember Addr Version Type_ c.
Definition MrIpcCmdSetReqestLocname (c : MrIpcCmdType) (StartIdx EndIdx : Z) : MrIpcCmdType :=
  MrIpcSetIntIp2 EndIdx (MrIpcSetIntIp1 StartIdx (MrIpcSetCommand MrIpcCmdRequestLocName c)).
(** [strcpy] into the 17 bytes of the raw data, without a test of the length. *)
Definition MrIpcCmdSetReqestLocinfo (c : MrIpcCmdType) (Locname : list Z) :
    option MrIpcCmdType :=
  match strlen Locname with
  | Some n => if decide (n < 17)%nat
              then Some (copy_raw (take (S n) Locname) (MrIpcSetCommand MrIpcCmdRequestLocInfo c))
              else None
  | None => None
  end.
Definition MrIpcCmdSetReqestLoclist (c : MrIpcCmdType) : MrIpcCmdType :=
  MrIpcSetCommand MrIpcCmdRequestLokListe c.
Definition MrIpcCmdSetQuery (c : MrIpcCmdType) (Dlc : Z) (Name : list Z) : MrIpcCmdType :=
  copy_raw (read_bytes 8 Name) (MrIpcSetRawDlc Dlc (MrIpcSetCommand MrIpcCmdRequestFile c)).
Definition MrIpcCmdSetCfgHeader (c : MrIpcCmdType) (Length Crc : Z) : MrIpcCmdType :=
  set_li MrIpcCmdCfgHeader Length Crc c.
Definition MrIpcCmdSetCfgZHeader (c : MrIpcCmdType) (Length Crc : Z) : MrIpcCmdType :=
  set_li MrIpcCmdCfgZHeader Length Crc c.
Definition MrIpcCmdSetCfgData (c : MrIpcCmdType) (Buf : list Z) : MrIpcCmdType :=
  copy_raw (take 8 Buf) (MrIpcSetCommand MrIpcCmdCfgData c).
Definition MrIpcCmdSetCanBootldr (c : MrIpcCmdType) (Dlc : Z) (CanData : list Z) :
    MrIpcCmdType :=
  copy_raw (take 8 CanData) (MrIpcSetRawDlc Dlc (MrIpcSetCommand MrIpcCmdCanBootldrGeb c)).
Definition MrIpcCmdSetStatusRequest (c : MrIpcCmdType) (Addr Index : Z) : MrIpcCmdType :=
  set_li MrIpcCmdStatusRequest Addr Index c.
Definition MrIpcCmdSetStatusPos (c : MrIpcCmdType) (Addr Index NumPackets : Z) : MrIpcCmdType :=
  set_lii MrIpcCmdStatusSize Addr Index NumPackets c.
Definition MrIpcCmdSetStatusData (c : MrIpcCmdType) (Buf : list Z) : MrIpcCmdType :=
  copy_raw (take 8 Buf) (MrIpcSetCommand MrIpcCmdStatusData c).
Definition MrIpcCmdSetStatusResponse (c : MrIpcCmdType) (Addr Index : Z) : MrIpcCmdType :=
  set_li MrIpcCmdStatusResponse Addr Index c.
Definition MrIpcCmdSetMesswertRequest (c : MrIpcCmdType) (Addr Kanalnummer : Z) : MrIpcCmdType :=
  set_li MrIpcCmdRequestMesswert Addr Kanalnummer c.
Definition MrIpcCmdSetSetConfig (c : MrIpcCmdType) (Addr Kanalnummer Value : Z) : MrIpcCmdType :=
  set_lii MrIpcCmdSetConfig Addr Kanalnummer Value c.
Definition MrIpcCmdSetConfigResponse (c : MrIpcCmdType) (Addr Kanalnummer Response : Z) :
    MrIpcCmdType :=
  set_lii MrIpcCmdConfigResponse Addr Kanalnummer Response c.
Definition MrIpcCmdSetMesswertResponse (c : MrIpcCmdType) (Addr Kanalnummer Response : Z) :
    MrIpcCmdType :=
  set_lii MrIpcCmdMesswertResponse Addr Kanalnummer Response c.

(** ** Getters (cmd_get_*.c) *)

Definition MrIpcCmdGetNull (c : MrIpcCmdType) : Z * list Z := (MrIpcGetRawDlc c, raw_data c).
Definition MrIpcCmdGetRun (c : MrIpcCmdType) : Z := MrIpcGetIntIp1 c.
Definition MrIpcCmdGetTrackProto (c : MrIpcCmdType) : Z := MrIpcGetIntIp1 c.
Definition MrIpcCmdGetLocomotiveDir (c : MrIpcCmdType) : Z * Z :=
  (MrIpcGetIntLp1 c, MrIpcGetIntIp1 c).
Definition MrIpcCmdGetLocomotiveSpeed (c : MrIpcCmdType) : Z * Z :=
  (MrIpcGetIntLp1 c, MrIpcGetIntIp1 c).
Definition MrIpcCmdGetCfgHeader (c : MrIpcCmdType) : Z * Z :=
  (MrIpcGetIntLp1 c, MrIpcGetIntIp1 c).
Definition MrIpcCmdGetCfgZHeader (c : MrIpcCmdType) : Z * Z :=
  (MrIpcGetIntLp1 c, MrIpcGetIntIp1 c).
Definition MrIpcCmdGetStatusRequest (c : MrIpcCmdType) : Z * Z :=
  (MrIpcGetIntLp1 c, MrIpcGetIntIp1 c).
Definition MrIpcCmdGetMesswertRequest (c : MrIpcCmdType) : Z * Z :=
  (MrIpcGetIntLp1 c, MrIpcGetIntIp1 c).
Definition MrIpcCmdGetLocomotiveFkt (c : MrIpcCmdType) : Z * Z * Z :=
  (MrIpcGetIntLp1 c, MrIpcGetIntIp1 c, MrIpcGetIntIp2 c).
Definition MrIpcCmdGetAccPos (c : MrIpcCmdType) : Z * Z * Z :=
  (MrIpcGetIntLp1 c, MrIpcGetIntIp1 c, MrIpcGetIntIp2 c).
Definition MrIpcCmdGetMember (c : MrIpcCmdType) : Z * Z * Z :=
  (MrIpcGetIntLp1 c, MrIpcGetIntIp1 c, MrIpcGetIntIp2 c).
Definition MrIpcCmdGetStatusPos (c : MrIpcCmdType) : Z * Z * Z :=
  (MrIpcGetIntLp1 c, MrIpcGetIntIp1 c, MrIpcGetIntIp2 c).
Definition MrIpcCmdGetSetConfig (c : MrIpcCmdType) : Z * Z * Z :=
  (MrIpcGetIntLp1 c, MrIpcGetIntIp1 c, MrIpcGetIntIp2 c).
Definition MrIpcCmdGetConfigResponse (c : MrIpcCmdType) : Z * Z * Z :=
  (MrIpcGetIntLp1 c, MrIpcGetIntIp1 c, MrIpcGetIntIp2 c).
Definition MrIpcCmdGetReqestLocname (c : MrIpcCmdType) : Z * Z :=
  (MrIpcGetIntIp1 c, MrIpcGetIntIp2 c).
(** [strcpy] of the 17 bytes: the string with its NUL. *)
Definition MrIpcCmdGetReqestLocinfo (c : MrIpcCmdType) : option (list Z) :=
  let raw := Lan.at_off 1 17 c.(Parms) in
  match strlen raw with Some n => Some (take (S n) raw) | None => None end.
Definition MrIpcCmdGetQuery (c : MrIpcCmdType) : list Z :=
  map (MrIpcGetRawDataI c) (seq 0 8) ++ [0].
Definition MrIpcCmdGetCfgData (c : MrIpcCmdType) : list Z := raw_data c.
Definition MrIpcCmdGetCanBootldr (c : MrIpcCmdType) : Z * list Z :=
  (MrIpcGetRawDlc c, raw_data c).
Definition MrIpcCmdGetStatusData (c : MrIpcCmdType) : list Z := raw_data c.

(** * From CAN (encode_can.c) *)

(** [switch] on a number; each case ends with [break]. *)
Fixpoint switch {A} (v : Z) (cases : list (Z * A)) (default : A) : A :=
  match cases with
  | [] => default
  | (k, body) :: cases => if v =? k then body else switch v cases default
  end.

Section FromCan.
Context {char : CharSign}.

(** Calls of a decoder whose results are not used are left out. *)
Definition MrIpcEncodeFromCan (c : MrIpcCmdType) (CanMsg : MrCs2CanDataType) : MrIpcCmdType :=
  let c := MrIpcSetCanResponse CanMsg.(Response) c in
  let c := MrIpcSetCanHash CanMsg.(Hash) c in
  let c := MrIpcSetCanCommand CanMsg.(Command) c in
  let c := MrIpcSetCanPrio CanMsg.(Prio) c in
  let d := CanMsg.(Data) in
  let null := MrIpcCmdSetNull c CanMsg.(Dlc) d in
  let dlc cases := switch CanMsg.(Dlc) cases null in
  switch CanMsg.(Command) [
    (CS2_CMD_SYSTEM,
      switch (MrCs2GetSystemSubcmd CanMsg) [
        (CS2_SUBCMD_SYSTEM_STOP, MrIpcCmdSetRun c Off);
        (CS2_SUBCMD_SYSTEM_GO, MrIpcCmdSetRun c On);
        (CS2_SUBCMD_SYSTEM_HALT, null);
        (CS2_SUBCMD_SYSTEM_EMERGENCY_HALT, null);
        (CS2_SUBCMD_SYSTEM_CYCLE_END, null);
        (CS2_SUBCMD_SYSTEM_DATA_PROTOCOLL, null);
        (CS2_SUBCMD_SYSTEM_DECODER_TIMEING, null);
        (CS2_SUBCMD_SYSTEM_MFX_FAST_READ, null);
        (CS2_SUBCMD_SYSTEM_TRACK_PROTOCOLL,
          let '(Uid, p1) := Cs2DecSysTrackProtocoll d in MrIpcCmdSetTrackProto c p1);
        (CS2_SUBCMD_SYSTEM_RESET_MFX_COUNTER, null);
        (CS2_SUBCMD_SYSTEM_OVERLOAD, null);
        (CS2_SUBCMD_SYSTEM_STATUS, dlc [
          (6, let '(Uid, p1) := Cs2DecSysStatus6 d in MrIpcCmdSetMesswertRequest c Uid p1);
          (7, let '(Uid, p1, p2) := Cs2DecSysStatus7 d in MrIpcCmdSetConfigResponse c Uid p1 p2);
          (8, let '(Uid, p1, p2) := Cs2DecSysStatus8 d in
              if negb (CanMsg.(Response) =? 0) then MrIpcCmdSetMesswertResponse c Uid p1 p2
              else MrIpcCmdSetSetConfig c Uid p1 p2)]);
        (CS2_SUBCMD_SYSTEM_SYSTEM_ID, dlc [(5, null); (7, null)]);
        (CS2_SUBCMD_SYSTEM_MFX_SEEK, null);
        (CS2_SUBCMD_SYSTEM_SYSTEM_RESET, null)] null);
    (CS2_CMD_DISCOVERY, dlc [(0, null); (1, null); (5, null); (6, null)]);
    (CS2_CMD_BIND, null);
    (CS2_CMD_MFX_VERIFY, dlc [(6, null); (7, null)]);
    (CS2_CMD_SPEED, dlc [
      (4, null);
      (6, let '(LocId, p1) := Cs2DecSpeed6 d in MrIpcCmdSetLocomotiveSpeed c LocId p1)]);
    (CS2_CMD_DIRECTION, dlc [
      (4, null);
      (5, let '(LocId, p1) := Cs2DecDirection5 d in MrIpcCmdSetLocomotiveDir c LocId p1)]);
    (CS2_CMD_FUNCTION, dlc [
      (5, let '(LocId, p1) := Cs2DecFunction5 d in MrIpcCmdSetLocomotiveFkt c LocId p1 Off);
      (6, let '(LocId, p1, p2) := Cs2DecFunction6 d in MrIpcCmdSetLocomotiveFkt c LocId p1 p2);
      (8, let '(LocId, p1, p2, p3) := Cs2DecFunction8 d in
          MrIpcCmdSetLocomotiveFkt c LocId p1 p2)]);
    (CS2_CMD_READ_CONFIG, dlc [(6, null); (7, null)]);
    (CS2_CMD_WRITE_CONFIG, null);
    (CS2_CMD_ACC_SWITCH, dlc [
      (6, let '(LocId, p1, p2) := Cs2DecAccSwitch6 d in MrIpcCmdSetAccPos c LocId p1 p2);
      (8, let '(LocId, p1, p2, p3) := Cs2DecAccSwitch8 d in
          MrIpcCmdSetNull (MrIpcCmdSetAccPos c LocId p1 p2) CanMsg.(Dlc) d)]);
    (CS2_CMD_ACC_CONF, null);
    (CS2_CMD_S88_POLL, dlc [(5, null); (7, null)]);
    (CS2_CMD_S88_EVENT, dlc [(4, null); (5, null); (8, null)]);
    (CS2_CMD_SX1_EVENT, null);
    (CS2_CMD_PING, dlc [
      (0, MrIpcCmdSetRequestMember c);
      (8, let '(Uid, p1, p2) := Cs2DecPing8 d in MrIpcCmdSetMember c Uid p1 p2)]);
    (CS2_CMD_OFFER_UPDATE, null);
    (CS2_CMD_READ_CFG_DATA, null);
    (CS2_CMD_BOOTLDR_CAN, null);
    (CS2_CMD_BOOTLDR_TRACK, MrIpcCmdSetCanBootldr c CanMsg.(Dlc) (Cs2DecCanBootldr d));
    (CS2_CMD_STATUS, dlc [
      (5, let '(Uid, p1) := Cs2DecStatus5 d in
          if negb (CanMsg.(Response) =? 0) then MrIpcCmdSetStatusResponse c Uid p1
          else MrIpcCmdSetStatusRequest c Uid p1);
      (6, let '(Uid, p1, p2) := Cs2DecStatus6 d in MrIpcCmdSetStatusPos c Uid p1 p2);
      (8, MrIpcCmdSetStatusData c d)]);
    (CS2_CMD_CONFIG_QUERY, MrIpcCmdSetQuery c CanMsg.(Dlc) (Cs2DecConfigQuery d));
    (CS2_CMD_CFGDAT_STREAM, dlc [
      (6, let '(Length, p1) := Cs2DecCfgdatStream6 d in MrIpcCmdSetCfgHeader c Length p1);
      (7, let '(Length, p1) := Cs2DecCfgdatStream7 d in MrIpcCmdSetCfgZHeader c Length p1);
      (8, MrIpcCmdSetCfgData c (Cs2DecCfgdatStream8 d))]);
    (CS2_CMD_CONNECT_6021, null);
    (CS2_CMD_AUTOMATIC, dlc [(6, null); (8, null)])] null.
End FromCan.

(** * To CAN (decode_can.c) *)

(** Command, length and data of an outgoing message. *)
Definition put_data (m : MrCs2CanDataType) (command dlc : Z) (data : list Z) : MrCs2CanDataType :=
  m <| Command := command |> <| Dlc := dlc |> <| Data := data |>.
(** The same for a subcommand of the system command, which is stored first. *)
Definition put_system (m : MrCs2CanDataType) (sub dlc : Z) (enc : list Z -> list Z) :
    MrCs2CanDataType :=
  let m := MrCs2SetSystemSubcmd (m <| Command := CS2_CMD_SYSTEM |>) sub in
  m <| Dlc := dlc |> <| Data ::= enc |>.

(** The message before its command is looked at. *)
Definition start_message (c : MrIpcCmdType) (CanMsg : MrCs2CanDataType) : MrCs2CanDataType :=
  let m := CanMsg <| Data := replicate 8 0 |> <| IsCs2 := true |> in
  let m := m <| Response := MrIpcGetCanResponse c |> <| Hash := MrIpcGetCanHash c |>
    <| Command := MrIpcGetCanCommand c |> <| Prio := MrIpcGetCanPrio c |> in
  m <| Id := Cs2EncodeId (set_magic m.(Hash)) m.(Response) m.(Command) m.(Prio) |>.
(** [None]: a name too long for the data. *)
Definition decode_command (c : MrIpcCmdType) (m : MrCs2CanDataType) : option MrCs2CanDataType :=
  let d := m.(Data) in
  switch (MrIpcGetCommand c) [
    (MrIpcCmdNull, let '(dlc, data) := MrIpcCmdGetNull c in
      Some (m <| Dlc := dlc |> <| Data := data |>));
    (MrIpcCmdRun,
      let Switch := MrIpcCmdGetRun c in
      let m := m <| Command := CS2_CMD_SYSTEM |> in
      if Switch =? Off
      then Some (put_system m CS2_SUBCMD_SYSTEM_STOP 5
        (fun d => Cs2EncSysStop d CS2_UID_BROADCAST))
      else if Switch =? On
      then Some (put_system m CS2_SUBCMD_SYSTEM_GO 5
        (fun d => Cs2EncSysGo d CS2_UID_BROADCAST))
      else Some m);
    (MrIpcCmdTrackProto, let p1 := MrIpcCmdGetTrackProto c in
      Some (put_system m CS2_SUBCMD_SYSTEM_TRACK_PROTOCOLL 6
        (fun d => Cs2EncSysTrackProtocoll d CS2_UID_BROADCAST p1)));
    (MrIpcCmdLocomotiveSpeed, let '(Addr, p1) := MrIpcCmdGetLocomotiveSpeed c in
      Some (put_data m CS2_CMD_SPEED 6 (Cs2EncSpeed6 d Addr p1)));
    (MrIpcCmdLocomotiveDirection, let '(Addr, Direction) := MrIpcCmdGetLocomotiveDir c in
      Some (put_data m CS2_CMD_DIRECTION 5 (Cs2EncDirection5 d Addr Direction)));
    (MrIpcCmdAccSwitch, let '(Addr, Position, p2) := MrIpcCmdGetAccPos c in
      Some (put_data m CS2_CMD_ACC_SWITCH 6 (Cs2EncAccSwitch6 d Addr Position p2)));
    (MrIpcCmdLocomotiveFunction, let '(Addr, p1, Switch) := MrIpcCmdGetLocomotiveFkt c in
      Some (put_data m CS2_CMD_FUNCTION 6 (Cs2EncFunction6 d Addr p1 Switch)));
    (MrIpcCmdRequestMember, Some (put_data m CS2_CMD_PING 0 (Cs2EncPing0 d)));
    (MrIpcCmdMember, let '(Addr, p1, p2) := MrIpcCmdGetMember c in
      Some (put_data m CS2_CMD_PING 8 (Cs2EncPing8 d Addr p1 p2)));
    (MrIpcCmdRequestFile,
      let Buf := MrIpcCmdGetQuery c in
      if MrIpcGetRawDlc c =? 0
      then Some (put_data m CS2_CMD_CONFIG_QUERY 0 (Cs2EncConfigQuery0 d))
      else put_data m CS2_CMD_CONFIG_QUERY 8 <$> Cs2EncConfigQuery d Buf);
    (MrIpcCmdCfgHeader, let '(Length, p1) := MrIpcCmdGetCfgHeader c in
      Some (put_data m CS2_CMD_CFGDAT_STREAM 6 (Cs2EncCfgdatStream6 d Length p1)));
    (MrIpcCmdCfgZHeader, let '(Length, p1) := MrIpcCmdGetCfgZHeader c in
      Some (put_data m CS2_CMD_CFGDAT_STREAM 7 (Cs2EncCfgdatStream7 d Length p1)));
    (MrIpcCmdCfgData, let Buf := MrIpcCmdGetCfgData c in
      Some (put_data m CS2_CMD_CFGDAT_STREAM 8 (Cs2EncCfgdatStream8 d Buf)));
    (MrIpcCmdCanBootldrGeb, let '(p1, Buf) := MrIpcCmdGetCanBootldr c in
      Some (put_data m CS2_CMD_BOOTLDR_CAN (u8 p1) (Cs2EncCanBootldr d Buf)));
    (MrIpcCmdStatusRequest, let '(Addr, p1) := MrIpcCmdGetStatusRequest c in
      Some (put_data m CS2_CMD_STATUS 5 (Cs2EncStatus5 d Addr p1)));
    (MrIpcCmdStatusSize, let '(Addr, p1, p2) := MrIpcCmdGetStatusPos c in
      Some (put_data m CS2_CMD_STATUS 6 (Cs2EncStatus6 d Addr p1 p2)));
    (MrIpcCmdStatusData, let Buf := MrIpcCmdGetStatusData c in
      Some (put_data m CS2_CMD_STATUS 8 (Cs2EncStatus8 d Buf)));
    (MrIpcCmdStatusResponse, let '(Addr, p1) := MrIpcCmdGetStatusRequest c in
      Some (put_data m CS2_CMD_STATUS 5 (Cs2EncStatus5 d Addr p1)));
    (MrIpcCmdRequestMesswert, let '(Addr, p1) := MrIpcCmdGetMesswertRequest c in
      Some (put_system m CS2_SUBCMD_SYSTEM_STATUS 6 (fun d => Cs2EncSysStatus6 d Addr p1)));
    (MrIpcCmdSetConfig, let '(Addr, p1, p2) := MrIpcCmdGetSetConfig c in
      Some (put_system m CS2_SUBCMD_SYSTEM_STATUS 8 (fun d => Cs2EncSysStatus8 d Addr p1 p2)));
    (MrIpcCmdConfigResponse, let '(Addr, p1, p2) := MrIpcCmdGetConfigResponse c in
      Some (put_system m CS2_SUBCMD_SYSTEM_STATUS 7 (fun d => Cs2EncSysStatus7 d Addr p1 p2)));
    (MrIpcCmdMesswertResponse, let '(Addr, p1, p2) := MrIpcCmdGetConfigResponse c in
      Some (put_system m CS2_SUBCMD_SYSTEM_STATUS 8 (fun d => Cs2EncSysStatus8 d Addr p1 p2)))]
  (Some m).
Definition MrIpcDecodeToCan (c : MrIpcCmdType) (CanMsg : MrCs2CanDataType) :
    option MrCs2CanDataType :=
  decode_command c (start_message c CanMsg).
End MrIpc.
