(* ===== verification/MrFacts.v ===== *)
(** Numbers in mrsystem's messages: network order, the union's memory, and the
    numbers among the data bytes where [char] is unsigned. *)

From S2P Require Import Prelude World Lan LanBytes MrCs2 MrIpc.

Module MrFacts.
Import Lan LanBytes MrCs2 MrIpc.

(** Masks and shifts by whole bytes as division. *)
Ltac byte_arith :=
  unfold wrap in *; rewrite ?Z.shiftr_div_pow2, ?Z.shiftl_mul_pow2 by lia;
  change 0xff with (Z.ones 8) in *; change 0xffff with (Z.ones 16) in *;
  rewrite ?Z.land_ones by lia;
  change (2 ^ 0) with 1 in *; change (2 ^ 8) with 256 in *; change (2 ^ 16) with 65536 in *;
  change (2 ^ 24) with 16777216 in *; change (2 ^ 32) with 4294967296 in *.
Ltac euclid := byte_arith; Z.to_euclidean_division_equations; lia.

(** Numbers that share no bits are added. *)
Lemma lor_shift a b k : 0 <= b < 2 ^ k -> 0 <= k -> Z.lor (Z.shiftl a k) b = a * 2 ^ k + b.
Proof.
  intros Hb Hk. rewrite <- Z.shiftl_mul_pow2 by done.
  assert (E : Z.land (Z.shiftl a k) b = 0).
  { apply Z.bits_inj'. intros i Hi. rewrite Z.land_spec, Z.bits_0, Z.shiftl_spec by done.
    destruct (Z.ltb_spec i k); [by rewrite Z.testbit_neg_r by lia |].
    rewrite <- (Z.mod_small b (2 ^ k)) by done. by rewrite Z.mod_pow2_bits_high, andb_false_r by lia. }
  by rewrite Z.add_nocarry_lxor, Z.lxor_lor.
Qed.

(** * Network order *)

Lemma htons_eq v : htons v = v mod 256 * 256 + v / 256 mod 256.
Proof.
  unfold htons. rewrite lor_shift; byte_arith; [done | | done].
  apply Z.mod_pos_bound. done.
Qed.
Lemma htons_range v : 0 <= htons v < 2 ^ 16.
Proof. rewrite htons_eq. euclid. Qed.
Lemma htons_twice v : htons (htons v) = u16 v.
Proof. rewrite !htons_eq. euclid. Qed.

Lemma htonl_eq v : htonl v = htons v * 65536 + htons (v / 65536).
Proof.
  assert (L : forall x, htons (Z.land x 0xffff) = htons x).
  { intros x. rewrite !htons_eq. euclid. }
  unfold htonl. rewrite !L, lor_shift; [byte_arith; done | apply htons_range | done].
Qed.
Lemma htonl_range v : 0 <= htonl v < 2 ^ 32.
Proof. rewrite htonl_eq. pose proof (htons_range v). pose proof (htons_range (v / 65536)). lia. Qed.
Lemma htonl_twice v : htonl (htonl v) = u32 v.
Proof.
  rewrite (htonl_eq (htonl v)), htonl_eq.
  pose proof (htons_range v) as A. pose proof (htons_range (v / 65536)) as B.
  rewrite (Z.div_add_l _ 65536), (Z.div_small (htons (v / 65536)) 65536), Z.add_0_r by (byte_arith; lia).
  assert (E : htons (htons v * 65536 + htons (v / 65536)) = u16 (v / 65536)).
  { rewrite <- htons_twice, !(htons_eq (_ + _)), (htons_eq (htons (v / 65536))). euclid. }
  rewrite E, htons_twice. euclid.
Qed.

(** * Numbers in memory *)

Lemma le_bytes_S n v : le_bytes (S n) v = Z.land v 0xff :: le_bytes n (Z.shiftr v 8).
Proof.
  unfold le_bytes. cbn [seq map]. rewrite Z.mul_0_r, Z.shiftr_0_r. f_equal.
  rewrite <- seq_shift, map_map. apply map_ext. intros i. rewrite Z.shiftr_shiftr by lia.
  do 2 f_equal. lia.
Qed.
Lemma length_le_bytes n v : length (le_bytes n v) = n.
Proof. unfold le_bytes. by rewrite length_map, length_seq. Qed.
Lemma le_value_bytes n v : 0 <= v < 2 ^ (8 * Z.of_nat n) -> le_value (le_bytes n v) = v.
Proof.
  revert v. induction n as [| n IH]; intros v Hv; [cbn in Hv |- *; lia |].
  rewrite le_bytes_S. cbn [le_value]. rewrite IH.
  - rewrite Z.lor_comm. rewrite lor_shift; [euclid | | done]. euclid.
  - replace (8 * Z.of_nat (S n)) with (8 + 8 * Z.of_nat n) in Hv by lia.
    rewrite Z.pow_add_r in Hv by lia. byte_arith.
    split; [apply Z.div_pos | apply Z.div_lt_upper_bound]; lia.
Qed.

Lemma at_blit_below off n off' bytes p : (off + n <= off')%nat -> (off' <= length p)%nat ->
  at_off off n (blit off' bytes p) = at_off off n p.
Proof.
  intros H Hl. unfold at_off, blit. rewrite drop_app_le by (rewrite length_take; lia).
  rewrite take_app_le by (rewrite length_drop, length_take; lia).
  rewrite skipn_firstn_comm, take_take. f_equal. lia.
Qed.
Lemma at_blit_above off n off' bytes p : (off' + length bytes <= off)%nat -> (off' <= length p)%nat ->
  at_off off n (blit off' bytes p) = at_off off n p.
Proof.
  intros H Hl. unfold at_off, blit. rewrite app_assoc, drop_app_ge; rewrite length_app, length_take; [| lia].
  rewrite drop_drop. do 2 f_equal. lia.
Qed.

(** * Setters and getters *)

(** A message has the 24 bytes of the union. *)
Definition ipc_ok (c : MrIpcCmdType) : Prop := length c.(Parms) = 24%nat.

Section Get_set.
Context (c : MrIpcCmdType) (Hc : ipc_ok c).

Lemma get_set_li cmd l i : let c' := set_li cmd l i c in
  MrIpcGetIntLp1 c' = u32 l /\ MrIpcGetIntIp1 c' = u16 i.
Proof using Hc.
  unfold ipc_ok in Hc. cbv zeta. unfold MrIpcGetIntLp1, MrIpcGetIntIp1. cbn [over Parms set_li set_l
    MrIpcSetIntIp1 MrIpcSetIntLp1 MrIpcSetCommand].
  rewrite at_blit_below by (rewrite ?length_blit; rewrite ?length_le_bytes; lia).
  pose proof (at_blit 0 (le_bytes 8 (htonl l)) (Parms c)) as A. rewrite length_le_bytes in A.
  pose proof (at_blit 8 (le_bytes 4 (htons i)) (blit 0 (le_bytes 8 (htonl l)) (Parms c))) as B.
  rewrite length_le_bytes, length_blit in B by (rewrite length_le_bytes; lia).
  rewrite A, B by lia. pose proof (htonl_range l). pose proof (htons_range i).
  rewrite !le_value_bytes by (cbn; lia). by rewrite htonl_twice, htons_twice.
Qed.
Lemma length_set_li cmd l i : length (set_li cmd l i c).(Parms) = 24%nat.
Proof using Hc.
  unfold ipc_ok in Hc. cbn [over Parms set_li set_l MrIpcSetIntIp1 MrIpcSetIntLp1 MrIpcSetCommand].
  rewrite !length_blit; rewrite ?length_blit, ?length_le_bytes; rewrite ?length_le_bytes; lia.
Qed.
Lemma get_set_lii cmd l i j : let c' := set_lii cmd l i j c in
  MrIpcGetIntLp1 c' = u32 l /\ MrIpcGetIntIp1 c' = u16 i /\ MrIpcGetIntIp2 c' = u16 j.
Proof using Hc.
  pose proof (get_set_li cmd l i) as [A B]. pose proof (length_set_li cmd l i) as L. cbv zeta in *.
  unfold set_lii. unfold MrIpcGetIntLp1, MrIpcGetIntIp1, MrIpcGetIntIp2 in *. cbn [over Parms MrIpcSetIntIp2].
  rewrite !at_blit_below by lia. rewrite A, B. split; [done |]. split; [done |].
  pose proof (at_blit 12 (le_bytes 4 (htons j)) (Parms (set_li cmd l i c))) as D.
  rewrite length_le_bytes in D. rewrite D by lia. pose proof (htons_range j).
  rewrite le_value_bytes by (cbn; lia). apply htons_twice.
Qed.
Lemma get_set_i cmd i : MrIpcGetIntIp1 (MrIpcSetIntIp1 i (MrIpcSetCommand cmd c)) = u16 i.
Proof using Hc.
  unfold ipc_ok in Hc. unfold MrIpcGetIntIp1. cbn [over Parms MrIpcSetIntIp1 MrIpcSetCommand].
  pose proof (at_blit 8 (le_bytes 4 (htons i)) (Parms c)) as B.
  rewrite length_le_bytes in B. rewrite B by lia. pose proof (htons_range i).
  rewrite le_value_bytes by (cbn; lia). apply htons_twice.
Qed.
Lemma lp1_li cmd l i : MrIpcGetIntLp1 (set_li cmd l i c) = u32 l.
Proof using Hc. exact (proj1 (get_set_li cmd l i)). Qed.
Lemma ip1_li cmd l i : MrIpcGetIntIp1 (set_li cmd l i c) = u16 i.
Proof using Hc. exact (proj2 (get_set_li cmd l i)). Qed.
Lemma lp1_lii cmd l i j : MrIpcGetIntLp1 (set_lii cmd l i j c) = u32 l.
Proof using Hc. exact (proj1 (get_set_lii cmd l i j)). Qed.
Lemma ip1_lii cmd l i j : MrIpcGetIntIp1 (set_lii cmd l i j c) = u16 i.
Proof using Hc. exact (proj1 (proj2 (get_set_lii cmd l i j))). Qed.
Lemma ip2_lii cmd l i j : MrIpcGetIntIp2 (set_lii cmd l i j c) = u16 j.
Proof using Hc. exact (proj2 (proj2 (get_set_lii cmd l i j))). Qed.
Lemma raw_copy d : length d = 8%nat -> raw_data (copy_raw d c) = d.
Proof using Hc.
  unfold ipc_ok in Hc. intros Hd. unfold raw_data. cbn [over Parms copy_raw].
  pose proof (at_blit 1 d (Parms c)) as A. rewrite Hd in A. apply A. lia.
Qed.
Lemma dlc_copy d : length d = 8%nat -> MrIpcGetRawDlc (copy_raw d c) = MrIpcGetRawDlc c.
Proof using Hc.
  unfold ipc_ok in Hc. intros Hd. unfold MrIpcGetRawDlc. cbn [over Parms copy_raw].
  destruct (Parms c); [done |]. done.
Qed.
Lemma dlc_set n : MrIpcGetRawDlc (MrIpcSetRawDlc n c) = u8 n.
Proof using Hc.
  unfold ipc_ok in Hc. unfold MrIpcGetRawDlc. cbn [over Parms MrIpcSetRawDlc].
  destruct (Parms c); done.
Qed.
End Get_set.

Lemma ipc_ok_dlc c n : ipc_ok c -> ipc_ok (MrIpcSetRawDlc n c).
Proof. unfold ipc_ok. intros H. cbn [over Parms MrIpcSetRawDlc]. by rewrite length_insert. Qed.
Lemma ipc_ok_lii c cmd l i j : ipc_ok c -> ipc_ok (set_lii cmd l i j c).
Proof.
  unfold ipc_ok. intros H. unfold set_lii. cbn [over Parms MrIpcSetIntIp2].
  rewrite length_blit; [by apply length_set_li |]. rewrite length_set_li, length_le_bytes by done. lia.
Qed.

(** * The data bytes *)

(** The platforms where [char] is unsigned. *)
#[local] Existing Instance unsigned_char.

Lemma char_byte b : is_byte b -> char_value b = b.
Proof. done. Qed.
Lemma wrap_shift w b k : is_byte b -> 0 <= k -> 8 + k <= w -> wrap w (Z.shiftl (wrap w (char_value b)) k) = Z.shiftl b k.
Proof.
  unfold is_byte. intros Hb Hk Hw. assert (0 < 2 ^ k) by lia.
  assert (2 ^ (8 + k) <= 2 ^ w) by (apply Z.pow_le_mono_r; lia). rewrite Z.pow_add_r in * by lia.
  rewrite char_byte by done. assert (Hs : 0 <= b < 2 ^ w) by (change (2 ^ 8) with 256 in *; nia).
  rewrite (wrap_small w b Hs). apply wrap_small. rewrite Z.shiftl_mul_pow2 by done.
  change (2 ^ 8) with 256 in *. nia.
Qed.

Lemma long_value a b c d r : is_byte a -> is_byte b -> is_byte c -> is_byte d ->
  GetLongFromByteArray (a :: b :: c :: d :: r) = of_be [a; b; c; d].
Proof.
  intros. unfold GetLongFromByteArray. cbn [nth]. rewrite !wrap_shift by (done || lia).
  unfold is_byte in *. rewrite Z.shiftl_0_r, <- !Z.lor_assoc.
  rewrite (lor_shift c d), (lor_shift b), (lor_shift a); try lia; unfold of_be; cbn [fold_left]; byte_arith; lia.
Qed.
Lemma int_value a b r : is_byte a -> is_byte b -> GetIntFromByteArray (a :: b :: r) = of_be [a; b].
Proof.
  intros. unfold GetIntFromByteArray. cbn [nth]. rewrite !wrap_shift by (done || lia).
  unfold is_byte in *. rewrite Z.shiftl_0_r, lor_shift by lia. unfold of_be. cbn [fold_left]. byte_arith. lia.
Qed.
Lemma of_be16_range a b : is_byte a -> is_byte b -> 0 <= of_be [a; b] < 2 ^ 16.
Proof. unfold is_byte, of_be. intros. cbn [fold_left]. byte_arith. lia. Qed.

(** A number read at one place and stored at another moves its bytes. *)
Lemma move_long a b c d r l o : is_byte a -> is_byte b -> is_byte c -> is_byte d ->
  SetLongToByteArray l o (u32 (GetLongFromByteArray (a :: b :: c :: d :: r))) =
    <[S (S (S o)) := d]> (<[S (S o) := c]> (<[S o := b]> (<[o := a]> l))).
Proof.
  intros Ha Hb Hc Hd. rewrite long_value by done.
  pose proof (of_be32_range a b c d Ha Hb Hc Hd). rewrite wrap_small by done.
  unfold SetLongToByteArray. unfold is_byte, of_be in *. cbn [fold_left] in *.
  do 4 (f_equal; try euclid).
Qed.
Lemma move_int a b r l o : is_byte a -> is_byte b ->
  SetIntToByteArray l o (u16 (i32 (GetIntFromByteArray (a :: b :: r)))) = <[S o := b]> (<[o := a]> l).
Proof.
  intros Ha Hb. rewrite int_value by done. pose proof (of_be16_range a b Ha Hb).
  rewrite swrap_small, wrap_small by lia.
  unfold SetIntToByteArray. unfold is_byte, of_be in *. cbn [fold_left] in *.
  do 2 (f_equal; try euclid).
Qed.
Lemma move_byte b : is_byte b -> u8 (u16 b) = b.
Proof. intros. unfold is_byte in *. rewrite (wrap_small 16), (wrap_small 8) by lia. done. Qed.

(** * Where [char] is signed *)

Lemma signed_small b : 0 <= b < 128 -> @char_value signed_char b = b.
Proof. intros. change (i8 b = b). apply swrap_small; lia. Qed.
Lemma signed_long a b c d r : 0 <= a < 128 -> 0 <= b < 128 -> 0 <= c < 128 -> 0 <= d < 128 ->
  @GetLongFromByteArray signed_char (a :: b :: c :: d :: r) = GetLongFromByteArray (a :: b :: c :: d :: r).
Proof. intros. unfold GetLongFromByteArray. cbn [nth]. by rewrite !signed_small. Qed.
(** The sign of the low byte covers the high one. *)
Lemma signed_int a b r : 0 <= a < 128 -> 128 <= b < 256 ->
  @GetIntFromByteArray signed_char (a :: b :: r) = 0xffffff00 + b.
Proof.
  intros Ha Hb. unfold GetIntFromByteArray. cbn [nth]. rewrite signed_small by done.
  assert (E : u32 (Z.shiftl (u32 (@char_value signed_char b)) 0) = Z.lor (Z.shiftl (Z.ones 24) 8) b).
  { rewrite Z.shiftl_0_r, lor_shift by lia. change (@char_value signed_char b) with (i8 b).
    unfold swrap. byte_arith. change (2 ^ (8 - 1)) with 128. change (Z.ones 24) with 16777215.
    Z.to_euclidean_division_equations. lia. }
  rewrite E, !(wrap_small 32) by (rewrite ?wrap_small, ?Z.shiftl_mul_pow2 by lia; lia).
  rewrite Z.lor_assoc, <- Z.shiftl_lor, Z.lor_ones_low, lor_shift; [done | lia.. |].
  destruct (decide (a = 0)) as [-> | Ha0]; [done |]. apply Z.log2_lt_pow2; lia.
Qed.
End MrFacts.
