(* ===== verification/MrFrames.v ===== *)
(** The CAN frames and Ethernet packets of mrsystem: a frame and the message it is
    read as say the same, and the packet of a message is can2lan's packet. *)

From S2P Require Import Prelude World Lan LanBytes LanSpec MrCs2 MrIpc MrFacts.

Module MrFrames.
Import Lan LanBytes LanSpec MrCs2 MrFacts.

(** The fields of a message as a CAN frame can have them. *)
Definition message_ok (m : MrCs2CanDataType) : Prop :=
  0 <= m.(Dlc) <= 8 /\ length m.(Data) = 8%nat /\ Forall is_byte m.(Data) /\
  0 <= m.(Hash) < 2 ^ 16 /\ 0 <= m.(Response) < 2 /\ 0 <= m.(Command) < 2 ^ 8 /\
  0 <= m.(Prio) < 2 ^ 5.
(** What a message is on the bus: its identifier, its length and as many bytes. *)
Definition on_bus (f : can_frame) : can_frame :=
  mk_frame f.(can_id) f.(can_dlc) (take (Z.to_nat f.(can_dlc)) f.(can_data)).
Definition wire (m : MrCs2CanDataType) : can_frame := on_bus (MrCs2Encode m).2.
(** A frame of the track format: an extended one whose hash has the mark. *)
Definition cs2_frame (f : can_frame) : Prop :=
  extended f /\ Z.land f.(can_id) CS2_MASK_HASH_MAGIC = CS2_HASH_MAGIC.

(** * The identifier *)

Lemma mask_field x w s : 0 <= w -> 0 <= s ->
  Z.shiftr (Z.land x (Z.shiftl (Z.ones w) s)) s = x / 2 ^ s mod 2 ^ w.
Proof.
  intros Hw Hs. rewrite Z.shiftr_land, Z.shiftr_shiftl_l, Z.sub_diag, Z.shiftl_0_r by done.
  by rewrite Z.land_ones, Z.shiftr_div_pow2 by done.
Qed.
Lemma decode_id id : Cs2DecodeId id =
  (id mod 2 ^ 16, id / 2 ^ 16 mod 2 ^ 1, id / 2 ^ 17 mod 2 ^ 8, id / 2 ^ 25 mod 2 ^ 5).
Proof.
  unfold Cs2DecodeId.
  change CS2_MASK_HASH with (Z.shiftl (Z.ones 16) CS2_SHIFT_HASH).
  change CS2_MASK_RESP with (Z.shiftl (Z.ones 1) CS2_SHIFT_RESP).
  change CS2_MASK_COMMAND with (Z.shiftl (Z.ones 8) CS2_SHIFT_COMMAND).
  change CS2_MASK_PRIO with (Z.shiftl (Z.ones 5) CS2_SHIFT_PRIO).
  rewrite !mask_field by done. change (2 ^ CS2_SHIFT_HASH) with 1. by rewrite Z.div_1_r.
Qed.
Lemma encode_id h r c p : 0 <= h < 2 ^ 16 -> 0 <= r < 2 -> 0 <= c < 2 ^ 8 ->
  Cs2EncodeId h r c p = p * 2 ^ 25 + (c * 2 ^ 17 + (r * 2 ^ 16 + h)).
Proof.
  intros Hh Hr Hc. unfold Cs2EncodeId. change CS2_SHIFT_HASH with 0.
  rewrite Z.shiftl_0_r, (wrap_small 16) by done.
  rewrite (Z.lor_comm h), lor_shift by done.
  rewrite (Z.lor_comm (_ + _)), lor_shift by (change CS2_SHIFT_RESP with 16; change CS2_SHIFT_COMMAND with 17; lia).
  rewrite (Z.lor_comm (_ + _)), lor_shift
    by (change CS2_SHIFT_RESP with 16; change CS2_SHIFT_COMMAND with 17; change CS2_SHIFT_PRIO with 25; lia).
  done.
Qed.

(** ** The mark of the hash *)

Lemma set_clear h : set_magic (clear_magic h) = set_magic h.
Proof. unfold set_magic, clear_magic. by rewrite <- Z.land_assoc. Qed.
Lemma marked_again h : 0 <= h < 2 ^ 32 -> Z.land h CS2_MASK_HASH_MAGIC = CS2_HASH_MAGIC -> set_magic h = h.
Proof.
  intros Hh Hm. unfold set_magic, clear_magic. rewrite <- Hm, <- Z.land_lor_distr_r.
  change (Z.lor _ _) with (Z.ones 32). rewrite Z.land_ones by done. by apply Z.mod_small.
Qed.
Lemma small_hash h : 0 <= h < 2 ^ 16 -> h = Z.land h (Z.ones 16).
Proof. intros H. by rewrite Z.land_ones, Z.mod_small by done. Qed.
Lemma set_magic_range h : 0 <= h < 2 ^ 16 -> 0 <= set_magic h < 2 ^ 16.
Proof.
  intros H. assert (E : set_magic h = Z.land (set_magic h) (Z.ones 16)).
  { unfold set_magic, clear_magic. rewrite (small_hash h H) at 2. rewrite (small_hash h H) at 1.
    rewrite Z.land_lor_distr_l, <- !Z.land_assoc. f_equal. }
  rewrite E, Z.land_ones by done. by apply Z.mod_pos_bound.
Qed.
Lemma clear_magic_range h : 0 <= h < 2 ^ 16 -> 0 <= clear_magic h < 2 ^ 16.
Proof.
  intros H. assert (E : clear_magic h = Z.land (clear_magic h) (Z.ones 16)).
  { unfold clear_magic. rewrite (small_hash h H) at 2. rewrite (small_hash h H) at 1.
    rewrite <- !Z.land_assoc. f_equal. }
  rewrite E, Z.land_ones by done. by apply Z.mod_pos_bound.
Qed.

(** * Frames *)

(** The identifier a message is sent with. *)
Lemma wire_id m : message_ok m -> (wire m).(can_id) =
  (m.(Prio) mod 2 ^ 4) * 2 ^ 25 + (m.(Command) * 2 ^ 17 + (m.(Response) * 2 ^ 16 + set_magic m.(Hash))) + 2 ^ 31.
Proof.
  intros (_ & _ & _ & Hh & Hr & Hc & Hp). pose proof (set_magic_range _ Hh) as Hs.
  destruct m as [i n d s h r c p]. cbn [Hash Response Command Prio] in *.
  cbn [wire on_bus MrCs2Encode encode_fields over snd can_id Id Hash Response Command Prio].
  rewrite encode_id by done. change MrCs2.CAN_EFF_FLAG with (2 ^ 31).
  change MrCs2.CAN_EFF_MASK with (Z.ones 29). set (l := set_magic h) in *. clearbody l.
  rewrite Z.land_ones by done. rewrite lor_high; [| | done];
    unfold wrap; Z.to_euclidean_division_equations; lia.
Qed.
Lemma wire_header m m' : m.(Hash) = m'.(Hash) -> m.(Response) = m'.(Response) ->
  m.(Command) = m'.(Command) -> m.(Prio) = m'.(Prio) -> m.(Dlc) = m'.(Dlc) ->
  take (Z.to_nat m.(Dlc)) (take 8 m.(Data)) = take (Z.to_nat m.(Dlc)) (take 8 m'.(Data)) -> wire m = wire m'.
Proof.
  destruct m as [i n d s h r c p], m' as [i' n' d' s' h' r' c' p'].
  cbn [Id Dlc Data IsCs2 Hash Response Command Prio].
  intros -> -> -> -> -> E. unfold wire, on_bus, MrCs2Encode, encode_fields.
  cbn [snd over Id Dlc Data IsCs2 Hash Response Command Prio can_id can_dlc can_data]. by rewrite E.
Qed.
Lemma wire_same m m' : message_ok m -> message_ok m' -> wire m = wire m' ->
  m.(Command) = m'.(Command) /\ m.(Dlc) = m'.(Dlc) /\
  take (Z.to_nat m.(Dlc)) m.(Data) = take (Z.to_nat m.(Dlc)) m'.(Data).
Proof.
  intros Hm Hm' E. pose proof (f_equal can_id E) as Ei. rewrite !wire_id in Ei by done.
  pose proof (f_equal can_dlc E) as Ed. pose proof (f_equal can_data E) as Eb.
  change (m.(Dlc) = m'.(Dlc)) in Ed. rewrite <- Ed.
  change (take (Z.to_nat m.(Dlc)) (take 8 m.(Data)) = take (Z.to_nat m'.(Dlc)) (take 8 m'.(Data))) in Eb.
  destruct Hm as (_ & Hl & _ & Hh & Hr & Hc & _), Hm' as (_ & Hl' & _ & Hh' & Hr' & Hc' & _).
  rewrite <- Ed, !(take_ge _ 8) in Eb by lia. split; [| by split].
  pose proof (set_magic_range _ Hh). pose proof (set_magic_range _ Hh'). lia.
Qed.

Lemma extended_id f : extended f -> exists v, 0 <= v < 2 ^ 29 /\ f.(can_id) = v + 2 ^ 31.
Proof.
  intros [_ E]. exists (Z.land f.(can_id) Lan.CAN_EFF_MASK). rewrite eff_mask in *.
  pose proof (Z.mod_pos_bound f.(can_id) (2 ^ 29)) as B. split; [lia |].
  rewrite E at 1. change Lan.CAN_EFF_FLAG with (2 ^ 31). apply lor_high; lia.
Qed.
(** The fields of a frame's message. *)
Lemma decoded_fields m0 f : let m := MrCs2Decode m0 f in
  m.(Hash) = clear_magic (f.(can_id) mod 2 ^ 16) /\ m.(Response) = f.(can_id) / 2 ^ 16 mod 2 ^ 1 /\
  m.(Command) = f.(can_id) / 2 ^ 17 mod 2 ^ 8 /\ m.(Prio) = f.(can_id) / 2 ^ 25 mod 2 ^ 5 /\
  m.(Dlc) = f.(can_dlc) /\ m.(Data) = take 8 f.(can_data) /\ m.(Id) = f.(can_id).
Proof.
  unfold MrCs2Decode, decode_fields. cbv zeta.
  change (Id (over _ _ (over _ _ _))) with f.(can_id). rewrite decode_id. destruct m0. split_and!; reflexivity.
Qed.
Lemma decoded_ok m0 f : cs2_frame f -> message_ok (MrCs2Decode m0 f).
Proof.
  intros [((_ & Hd & Hl & Hb) & _) _].
  destruct (decoded_fields m0 f) as (Eh & Er & Ec & Ep & En & Ed & _). unfold message_ok.
  rewrite Eh, Er, Ec, Ep, En, Ed, take_ge by lia.
  refine (conj Hd (conj Hl (conj Hb (conj (clear_magic_range _ _) (conj _ (conj _ _))))));
    by apply Z.mod_pos_bound.
Qed.
Lemma decoded_id m0 f : cs2_frame f -> (encode_fields (MrCs2Decode m0 f)).(Id) = f.(can_id) mod 2 ^ 30.
Proof.
  intros [He Hm]. destruct (extended_id f He) as (v & Hv & Ev).
  destruct (decoded_fields m0 f) as (Eh & Er & Ec & Ep & _). unfold encode_fields.
  change (Id (over _ _ ?m)) with (Cs2EncodeId (set_magic m.(Hash)) m.(Response) m.(Command) m.(Prio)).
  rewrite Eh, Er, Ec, Ep, set_clear, marked_again; [| | ].
  - rewrite encode_id by (apply Z.mod_pos_bound; done). rewrite Ev. clear. Z.to_euclidean_division_equations. lia.
  - pose proof (Z.mod_pos_bound (can_id f) (2 ^ 16)). lia.
  - rewrite <- Z.land_ones, <- Z.land_assoc by done. exact Hm.
Qed.
Lemma decode_encode m0 f : cs2_frame f -> (MrCs2Encode (MrCs2Decode m0 f)).2 = f.
Proof.
  intros Hf. pose proof (decoded_id m0 f Hf) as Ei. destruct Hf as [He Hm].
  destruct (extended_id f He) as (v & Hv & Ev). destruct He as [(_ & Hd & Hl & Hb) _].
  destruct (decoded_fields m0 f) as (_ & _ & _ & _ & En & Ed & _).
  unfold MrCs2Encode. cbv zeta. rewrite Ei. cbn [snd].
  change (Dlc (encode_fields ?m)) with m.(Dlc). change (Data (encode_fields ?m)) with m.(Data).
  rewrite En, Ed, take_take, take_ge by lia. destruct f as [i n d]. cbn [can_id can_dlc can_data] in *. f_equal.
  change MrCs2.CAN_EFF_FLAG with (2 ^ 31). change MrCs2.CAN_EFF_MASK with (Z.ones 29).
  rewrite Z.land_ones, lor_high; [rewrite Ev | | |]; try done; unfold wrap; clear - Hv; Z.to_euclidean_division_equations; lia.
Qed.
Lemma wire_decoded m0 f : cs2_frame f -> wire (MrCs2Decode m0 f) = on_bus f.
Proof. intros Hf. unfold wire. by rewrite decode_encode. Qed.

(** * Packets *)

(** A message becomes the packet can2lan makes of its frame. *)
Lemma eth_packet m0 f buffer : cs2_frame f -> length buffer = 13%nat ->
  drop (Z.to_nat f.(can_dlc)) f.(can_data) = replicate (8 - Z.to_nat f.(can_dlc)) 0 ->
  (MrEthCs2Encode buffer (MrCs2Decode m0 f)).1 = packet_of f.
Proof.
  intros Hf Hb Hz. pose proof (decoded_id m0 f Hf) as Ei. destruct Hf as [He Hm].
  destruct (extended_id f He) as (v & Hv & Ev). destruct He as [(_ & Hd & Hl & _) _].
  destruct (decoded_fields m0 f) as (_ & _ & _ & _ & En & Ed & _).
  unfold MrEthCs2Encode. cbv zeta. rewrite Ei. cbn [fst].
  change (Dlc (encode_fields ?m)) with m.(Dlc). change (Data (encode_fields ?m)) with m.(Data).
  rewrite En, Ed. assert (Ed' : data_only f = f.(can_data)) by (unfold data_only; rewrite <- Hz; apply take_drop).
  do 13 (destruct buffer as [| ? buffer]; [done |]). destruct buffer; [| done].
  unfold packet_of. rewrite Ed'. cbn [drop app SetLongToByteArray insert list_insert take].
  rewrite take_take, take_ge by lia. rewrite app_nil_r.
  unfold to_be32. cbn [app]. rewrite eff_mask, Ev. repeat f_equal; clear - Hv; byte_arith;
    Z.to_euclidean_division_equations; lia.
Qed.

#[local] Existing Instance unsigned_char.
(** The packet is read as the message the frame is. *)
Lemma eth_decoded m0 m1 f : cs2_frame f -> wire (MrEthCs2Decode m0 (packet_of f)) = wire (MrCs2Decode m1 f) /\
  message_ok (MrEthCs2Decode m0 (packet_of f)).
Proof.
  intros Hf. set (g := f <| can_data := data_only f |> <| can_id := Z.land f.(can_id) Lan.CAN_EFF_MASK |>).
  assert (E : MrEthCs2Decode m0 (packet_of f) = MrCs2Decode m0 g).
  { unfold MrEthCs2Decode, MrCs2Decode. f_equal.
    assert (Eg : GetLongFromByteArray (packet_of f) = can_id g); [| by rewrite Eg].
    unfold packet_of, to_be32. cbn [app].
    rewrite long_value by (apply Z.mod_pos_bound; done).
    change (of_be (to_be32 (can_id g)) = can_id g). apply of_to_be32.
    change (can_id g) with (Z.land f.(can_id) Lan.CAN_EFF_MASK). rewrite eff_mask.
    pose proof (Z.mod_pos_bound f.(can_id) (2 ^ 29)). lia. }
  rewrite E. destruct (extended_id f (proj1 Hf)) as (v & Hv & Ev).
  destruct Hf as [[Hf _] _]. pose proof (length_data_only f Hf) as Ld. destruct Hf as (_ & Hd & Hl & Hb).
  destruct (decoded_fields m0 g) as (Eh & Er & Ec & Ep & En & Ed & _).
  destruct (decoded_fields m1 f) as (Eh' & Er' & Ec' & Ep' & En' & Ed' & _).
  assert (Eg : can_id g = v).
  { change (can_id g) with (Z.land f.(can_id) Lan.CAN_EFF_MASK). rewrite eff_mask, Ev.
    clear - Hv. Z.to_euclidean_division_equations. lia. }
  rewrite Eg in *. rewrite Ev in *. change (can_dlc g) with f.(can_dlc) in *.
  change (can_data g) with (data_only f) in *. split.
  - apply wire_header; rewrite ?Eh, ?Eh', ?Er, ?Er', ?Ec, ?Ec', ?Ep, ?Ep';
      [f_equal | .. | by rewrite En, En' |]; try (clear - Hv; Z.to_euclidean_division_equations; lia).
    rewrite En, Ed, Ed', !take_take. unfold data_only. rewrite take_app_le, take_take; [f_equal; lia |].
    rewrite length_take. lia.
  - unfold message_ok. rewrite Eh, Er, Ec, Ep, En, Ed, take_ge by lia.
    refine (conj Hd (conj Ld (conj _ (conj (clear_magic_range _ _) (conj _ (conj _ _)))))); try by apply Z.mod_pos_bound.
    apply Forall_app; split; [by apply Forall_take | by apply Forall_replicate].
Qed.

(** C26. Frames and packets say the same, for a frame of the track format whose
    bytes behind its length are zero (MrEthCs2Encode copies all 8 bytes, can2lan
    fills with zeros, so that otherwise their packets differ).  Read as a message
    it is sent again as itself; the Ethernet packet of the message is the packet
    can2lan makes of the frame; and where [char] is unsigned, the
    message read from that packet is the frame again. *)
Theorem frames_and_packets m0 m1 buffer f : cs2_frame f -> length buffer = 13%nat ->
  drop (Z.to_nat f.(can_dlc)) f.(can_data) = replicate (8 - Z.to_nat f.(can_dlc)) 0 ->
  let m := MrCs2Decode m0 f in
  (MrCs2Encode m).2 = f /\ (MrEthCs2Encode buffer m).1 = packet_of f /\
  message_ok (MrEthCs2Decode m1 (packet_of f)) /\ wire (MrEthCs2Decode m1 (packet_of f)) = on_bus f.
Proof.
  intros Hf Hb Hz m. destruct (eth_decoded m1 m0 f Hf) as [Hw Hm]. split; [by apply decode_encode |].
  split; [by apply eth_packet |]. split; [done |]. rewrite Hw. by apply wire_decoded.
Qed.
(** Function 3 of locomotive 0x4007 switched on by a CS2. *)
Definition function_frame : can_frame :=
  mk_frame (Z.lor 0x000C4711 Lan.CAN_EFF_FLAG) 6 [0; 0; 0x40; 7; 3; 1; 0; 0].
Definition empty_message : MrCs2CanDataType := mk_msg 0 0 (replicate 8 0) false 0 0 0 0.
Lemma function_frame_ok : cs2_frame function_frame.
Proof. split; [split; [split_and!; [done.. | by repeat constructor] | reflexivity] | reflexivity]. Qed.
Lemma frames_and_packets_witness :
  (MrEthCs2Encode (replicate 13 0) (MrCs2Decode empty_message function_frame)).1 =
    [0; 0x0C; 0x47; 0x11; 6; 0; 0; 0x40; 7; 3; 1; 0; 0].
Proof.
  destruct (frames_and_packets empty_message empty_message (replicate 13 0) function_frame)
    as (_ & E & _); [apply function_frame_ok | done.. |]. rewrite E. reflexivity.
Defined.
End MrFrames.
