(* ===== verification/MrRelay.v ===== *)
(** What becomes of a CAN message on its way through mrsystem: translated into a
    message between programs and back. *)

From S2P Require Import Prelude World Lan LanBytes LanSpec MrCs2 MrIpc MrFacts MrFrames.

Module MrRelay.
Import Lan LanBytes MrCs2 MrIpc MrFacts MrFrames.

(** A message with the header of another. *)
Definition with_header (m : MrCs2CanDataType) (command dlc : Z) (data : list Z) : MrCs2CanDataType :=
  mk_msg (Cs2EncodeId (set_magic m.(Hash)) m.(Response) m.(Command) m.(Prio)) dlc data true
    m.(Hash) m.(Response) command m.(Prio).
Definition zeros : list Z := replicate 8 0.

(** The first [n] bytes, the others zero. *)
Definition first (n : nat) (d : list Z) : list Z := take n d ++ replicate (8 - n) 0.
(** The characters of a name up to its NUL, the others zero. *)
Fixpoint name_of (d : list Z) : list Z :=
  match d with
  | [] => []
  | b :: d => if b =? 0 then replicate (S (length d)) 0 else b :: name_of d
  end.

(** What is left of a message: of the commands mrsystem has a message for, the
    parameters of that message; of the others, everything. *)
Definition normal (m : MrCs2CanDataType) : MrCs2CanDataType :=
  let d := m.(Data) in
  let b i := nth i d 0 in
  let as_is := with_header m m.(Command) m.(Dlc) d in
  let kept := with_header m m.(Command) m.(Dlc) (first (Z.to_nat m.(Dlc)) d) in
  let put dlc data := with_header m m.(Command) dlc data in
  let dlc cases := switch m.(Dlc) cases as_is in
  switch m.(Command) [
    (CS2_CMD_SYSTEM, switch (b 4%nat) [
      (CS2_SUBCMD_SYSTEM_STOP, put 5 zeros);
      (CS2_SUBCMD_SYSTEM_GO, put 5 [0; 0; 0; 0; 1; 0; 0; 0]);
      (CS2_SUBCMD_SYSTEM_TRACK_PROTOCOLL, put 6 [0; 0; 0; 0; 8; b 5%nat; 0; 0]);
      (CS2_SUBCMD_SYSTEM_STATUS, dlc [(6, kept); (7, kept)])] as_is);
    (CS2_CMD_SPEED, dlc [(6, kept)]);
    (CS2_CMD_DIRECTION, dlc [(5, kept)]);
    (CS2_CMD_FUNCTION, dlc [(5, put 6 (first 5 d)); (6, kept); (8, put 6 (first 6 d))]);
    (CS2_CMD_ACC_SWITCH, dlc [(6, kept)]);
    (CS2_CMD_PING, dlc [(0, kept)]);
    (CS2_CMD_BOOTLDR_TRACK, with_header m CS2_CMD_BOOTLDR_CAN m.(Dlc) d);
    (CS2_CMD_STATUS, dlc [(5, kept); (6, kept)]);
    (CS2_CMD_CONFIG_QUERY, if m.(Dlc) =? 0 then kept else put 8 (name_of d));
    (CS2_CMD_CFGDAT_STREAM,
      dlc [(6, kept); (7, put 7 (<[6%nat := CFG_HDR_ZLIB_RESERVED]> (first 6 d)))])] as_is.

(** The messages that keep all they say. *)
Definition lossless (m : MrCs2CanDataType) : bool :=
  let d := m.(Data) in
  let broadcast := bool_decide (take 4 d = [0; 0; 0; 0]) in
  switch m.(Command) [
    (CS2_CMD_SYSTEM, switch (nth 4 d 0) [
      (CS2_SUBCMD_SYSTEM_STOP, broadcast && (m.(Dlc) =? 5));
      (CS2_SUBCMD_SYSTEM_GO, broadcast && (m.(Dlc) =? 5));
      (CS2_SUBCMD_SYSTEM_TRACK_PROTOCOLL, broadcast && (m.(Dlc) =? 6))] true);
    (CS2_CMD_FUNCTION, switch m.(Dlc) [(5, false); (8, false)] true);
    (CS2_CMD_BOOTLDR_TRACK, false);
    (CS2_CMD_CONFIG_QUERY,
      (m.(Dlc) =? 0) || ((m.(Dlc) =? 8) && bool_decide (name_of d = d)));
    (CS2_CMD_CFGDAT_STREAM, switch m.(Dlc) [(7, nth 6 d 0 =? CFG_HDR_ZLIB_RESERVED)] true)] true.

(** * The message between the programs carries the header *)

Definition has_header (c : MrIpcCmdType) (m : MrCs2CanDataType) : Prop :=
  MrIpcGetCanResponse c = m.(Response) /\ MrIpcGetCanHash c = m.(Hash) /\
  MrIpcGetCanCommand c = m.(Command) /\ MrIpcGetCanPrio c = m.(Prio).

Definition header (m : MrCs2CanDataType) (c : MrIpcCmdType) : MrIpcCmdType :=
  MrIpcSetCanPrio m.(Prio) (MrIpcSetCanCommand m.(Command)
    (MrIpcSetCanHash m.(Hash) (MrIpcSetCanResponse m.(Response) c))).
Lemma header_carried m c : message_ok m -> has_header (header m c) m.
Proof.
  intros (Hdlc & Hlen & Hbytes & Hh & Hr & Hcmd & Hp).
  unfold has_header, header, MrIpcGetCanResponse, MrIpcGetCanHash, MrIpcGetCanCommand, MrIpcGetCanPrio.
  cbn [over CanResponse CanHash CanCommand CanPrio MrIpcSetCanPrio MrIpcSetCanCommand MrIpcSetCanHash
    MrIpcSetCanResponse].
  rewrite !htons_twice, !(wrap_small 16) by lia. done.
Qed.
Lemma start_carried c m m0 : has_header c m ->
  start_message c m0 = with_header m m.(Command) m0.(Dlc) zeros.
Proof. intros (Hr & Hh & Hc & Hp). unfold start_message. cbn. by rewrite Hr, Hh, Hc, Hp. Qed.

Section Commands.
Context (c : MrIpcCmdType) (m m0 : MrCs2CanDataType) (Hok : ipc_ok c) (Hh : has_header c m).

(** The branch of the command [k]. *)
Ltac branch k :=
  unfold MrIpcDecodeToCan;
  match goal with |- decode_command ?c' _ = _ =>
    rewrite (start_carried c' m) by exact Hh;
    unfold decode_command; replace (MrIpcGetCommand c') with k by reflexivity
  end;
  lazy beta iota zeta delta [switch Z.eqb Pos.eqb MrIpcCmdNull MrIpcCmdRun MrIpcCmdTrackProto
    MrIpcCmdLocomotiveSpeed MrIpcCmdLocomotiveDirection MrIpcCmdLocomotiveFunction
    MrIpcCmdAccSwitch MrIpcCmdRequestMember MrIpcCmdMember MrIpcCmdRequestFile MrIpcCmdCfgHeader
    MrIpcCmdCfgZHeader MrIpcCmdCfgData MrIpcCmdCanBootldrGeb MrIpcCmdStatusRequest
    MrIpcCmdStatusSize MrIpcCmdStatusData MrIpcCmdStatusResponse MrIpcCmdRequestMesswert
    MrIpcCmdSetConfig MrIpcCmdConfigResponse MrIpcCmdMesswertResponse].
(** A branch whose message has an address and one or two numbers. *)
Ltac numbers k get set :=
  branch k; unfold get, set;
  rewrite ?lp1_li, ?ip1_li, ?lp1_lii, ?ip1_lii, ?ip2_lii, ?get_set_i by exact Hok; reflexivity.

Lemma null_back dlc d : 0 <= dlc <= 8 -> length d = 8%nat ->
  MrIpcDecodeToCan (MrIpcCmdSetNull c dlc d) m0 = Some (with_header m m.(Command) dlc d).
Proof using Hok Hh.
  intros Hdlc Hd. branch 0. unfold MrIpcCmdGetNull, MrIpcCmdSetNull.
  rewrite raw_copy, dlc_copy, dlc_set, take_ge, (wrap_small 8)
    by (try apply ipc_ok_dlc; rewrite ?length_take; try done; lia). done.
Qed.
Lemma run_back v : MrIpcDecodeToCan (MrIpcCmdSetRun c v) m0 =
  let m' := with_header m CS2_CMD_SYSTEM m0.(Dlc) zeros in
  if u16 v =? 0 then Some (put_system m' 0 5 (fun d => Cs2EncSysStop d CS2_UID_BROADCAST)) else
  if u16 v =? 1 then Some (put_system m' 1 5 (fun d => Cs2EncSysGo d CS2_UID_BROADCAST)) else Some m'.
Proof using Hok Hh.
  numbers 1 MrIpcCmdGetRun MrIpcCmdSetRun.
Qed.
Lemma track_back v : MrIpcDecodeToCan (MrIpcCmdSetTrackProto c v) m0 =
  Some (put_system (with_header m CS2_CMD_SYSTEM m0.(Dlc) zeros) 8 6 (fun d => Cs2EncSysTrackProtocoll d CS2_UID_BROADCAST (u16 v))).
Proof using Hok Hh. numbers 2 MrIpcCmdGetTrackProto MrIpcCmdSetTrackProto. Qed.
Lemma speed_back l i : MrIpcDecodeToCan (MrIpcCmdSetLocomotiveSpeed c l i) m0 =
  Some (with_header m CS2_CMD_SPEED 6 (Cs2EncSpeed6 zeros (u32 l) (u16 i))).
Proof using Hok Hh. numbers 3 MrIpcCmdGetLocomotiveSpeed MrIpcCmdSetLocomotiveSpeed. Qed.
Lemma direction_back l i : MrIpcDecodeToCan (MrIpcCmdSetLocomotiveDir c l i) m0 =
  Some (with_header m CS2_CMD_DIRECTION 5 (Cs2EncDirection5 zeros (u32 l) (u16 i))).
Proof using Hok Hh. numbers 4 MrIpcCmdGetLocomotiveDir MrIpcCmdSetLocomotiveDir. Qed.
Lemma function_back l i j : MrIpcDecodeToCan (MrIpcCmdSetLocomotiveFkt c l i j) m0 =
  Some (with_header m CS2_CMD_FUNCTION 6 (Cs2EncFunction6 zeros (u32 l) (u16 i) (u16 j))).
Proof using Hok Hh. numbers 5 MrIpcCmdGetLocomotiveFkt MrIpcCmdSetLocomotiveFkt. Qed.
Lemma accessory_back l i j : MrIpcDecodeToCan (MrIpcCmdSetAccPos c l i j) m0 =
  Some (with_header m CS2_CMD_ACC_SWITCH 6 (Cs2EncAccSwitch6 zeros (u32 l) (u16 i) (u16 j))).
Proof using Hok Hh. numbers 6 MrIpcCmdGetAccPos MrIpcCmdSetAccPos. Qed.
Lemma member_back l i j : MrIpcDecodeToCan (MrIpcCmdSetMember c l i j) m0 =
  Some (with_header m CS2_CMD_PING 8 (Cs2EncPing8 zeros (u32 l) (u16 i) (u16 j))).
Proof using Hok Hh. numbers 8 MrIpcCmdGetMember MrIpcCmdSetMember. Qed.
Lemma cfg_header_back l i : MrIpcDecodeToCan (MrIpcCmdSetCfgHeader c l i) m0 =
  Some (with_header m CS2_CMD_CFGDAT_STREAM 6 (Cs2EncCfgdatStream6 zeros (u32 l) (u16 i))).
Proof using Hok Hh. numbers 12 MrIpcCmdGetCfgHeader MrIpcCmdSetCfgHeader. Qed.
Lemma cfg_zheader_back l i : MrIpcDecodeToCan (MrIpcCmdSetCfgZHeader c l i) m0 =
  Some (with_header m CS2_CMD_CFGDAT_STREAM 7 (Cs2EncCfgdatStream7 zeros (u32 l) (u16 i))).
Proof using Hok Hh. numbers 13 MrIpcCmdGetCfgZHeader MrIpcCmdSetCfgZHeader. Qed.
Lemma status_request_back l i : MrIpcDecodeToCan (MrIpcCmdSetStatusRequest c l i) m0 =
  Some (with_header m CS2_CMD_STATUS 5 (Cs2EncStatus5 zeros (u32 l) (u16 i))).
Proof using Hok Hh. numbers 16 MrIpcCmdGetStatusRequest MrIpcCmdSetStatusRequest. Qed.
Lemma status_size_back l i j : MrIpcDecodeToCan (MrIpcCmdSetStatusPos c l i j) m0 =
  Some (with_header m CS2_CMD_STATUS 6 (Cs2EncStatus6 zeros (u32 l) (u16 i) (u16 j))).
Proof using Hok Hh. numbers 17 MrIpcCmdGetStatusPos MrIpcCmdSetStatusPos. Qed.
Lemma status_response_back l i : MrIpcDecodeToCan (MrIpcCmdSetStatusResponse c l i) m0 =
  Some (with_header m CS2_CMD_STATUS 5 (Cs2EncStatus5 zeros (u32 l) (u16 i))).
Proof using Hok Hh. numbers 19 MrIpcCmdGetStatusRequest MrIpcCmdSetStatusResponse. Qed.
Lemma measure_request_back l i : MrIpcDecodeToCan (MrIpcCmdSetMesswertRequest c l i) m0 =
  Some (put_system (with_header m CS2_CMD_SYSTEM m0.(Dlc) zeros) 11 6 (fun d => Cs2EncSysStatus6 d (u32 l) (u16 i))).
Proof using Hok Hh. numbers 20 MrIpcCmdGetMesswertRequest MrIpcCmdSetMesswertRequest. Qed.
Lemma set_config_back l i j : MrIpcDecodeToCan (MrIpcCmdSetSetConfig c l i j) m0 =
  Some (put_system (with_header m CS2_CMD_SYSTEM m0.(Dlc) zeros) 11 8 (fun d => Cs2EncSysStatus8 d (u32 l) (u16 i) (u16 j))).
Proof using Hok Hh. numbers 21 MrIpcCmdGetSetConfig MrIpcCmdSetSetConfig. Qed.
Lemma config_response_back l i j : MrIpcDecodeToCan (MrIpcCmdSetConfigResponse c l i j) m0 =
  Some (put_system (with_header m CS2_CMD_SYSTEM m0.(Dlc) zeros) 11 7 (fun d => Cs2EncSysStatus7 d (u32 l) (u16 i) (u16 j))).
Proof using Hok Hh. numbers 22 MrIpcCmdGetConfigResponse MrIpcCmdSetConfigResponse. Qed.
Lemma measure_response_back l i j : MrIpcDecodeToCan (MrIpcCmdSetMesswertResponse c l i j) m0 =
  Some (put_system (with_header m CS2_CMD_SYSTEM m0.(Dlc) zeros) 11 8 (fun d => Cs2EncSysStatus8 d (u32 l) (u16 i) (u16 j))).
Proof using Hok Hh. numbers 23 MrIpcCmdGetConfigResponse MrIpcCmdSetMesswertResponse. Qed.
Lemma request_member_back : MrIpcDecodeToCan (MrIpcCmdSetRequestMember c) m0 =
  Some (with_header m CS2_CMD_PING 0 zeros).
Proof using Hok Hh. branch 7. reflexivity. Qed.
(** The messages with eight bytes. *)
Lemma cfg_data_back d : length d = 8%nat -> MrIpcDecodeToCan (MrIpcCmdSetCfgData c d) m0 =
  Some (with_header m CS2_CMD_CFGDAT_STREAM 8 (Cs2EncCfgdatStream8 zeros d)).
Proof using Hok Hh.
  intros Hd. branch 14. unfold MrIpcCmdGetCfgData, MrIpcCmdSetCfgData.
  rewrite raw_copy, take_ge by (rewrite ?length_take; try done; lia). done.
Qed.
Lemma status_data_back d : length d = 8%nat -> MrIpcDecodeToCan (MrIpcCmdSetStatusData c d) m0 =
  Some (with_header m CS2_CMD_STATUS 8 (Cs2EncStatus8 zeros d)).
Proof using Hok Hh.
  intros Hd. branch 18. unfold MrIpcCmdGetStatusData, MrIpcCmdSetStatusData.
  rewrite raw_copy, take_ge by (rewrite ?length_take; try done; lia). done.
Qed.
Lemma bootldr_back dlc d : 0 <= dlc <= 8 -> length d = 8%nat ->
  MrIpcDecodeToCan (MrIpcCmdSetCanBootldr c dlc d) m0 =
  Some (with_header m CS2_CMD_BOOTLDR_CAN dlc (Cs2EncCanBootldr zeros d)).
Proof using Hok Hh.
  intros Hdlc Hd. branch 15. unfold MrIpcCmdGetCanBootldr, MrIpcCmdSetCanBootldr.
  rewrite raw_copy, dlc_copy, dlc_set, take_ge, !(wrap_small 8)
    by (try apply ipc_ok_dlc; rewrite ?length_take, ?wrap_small; try done; lia). done.
Qed.

(** The name of a file. *)
Lemma name_stored d : length d = 8%nat -> store_string zeros (d ++ [0]) = Some (name_of d).
Proof.
  intros Hd. do 8 (destruct d as [| ? d]; [done |]). destruct d; [| done].
  unfold store_string. cbn [app strlen name_of]. change (0 =? 0) with true. cbv iota.
  repeat match goal with |- context [?b =? 0] => destruct (b =? 0); [reflexivity |] end. reflexivity.
Qed.
Lemma raw_bytes p : (9 <= length p)%nat -> map (fun i => nth (S i) p 0) (seq 0 8) = at_off 1 8 p.
Proof. intros Hp. do 9 (destruct p as [| ? p]; [cbn in Hp; lia |]). reflexivity. Qed.
Lemma query_back dlc d : 0 <= dlc <= 8 -> length d = 8%nat ->
  MrIpcDecodeToCan (MrIpcCmdSetQuery c dlc (Cs2DecConfigQuery d)) m0 =
  Some (if dlc =? 0 then with_header m CS2_CMD_CONFIG_QUERY 0 zeros
        else with_header m CS2_CMD_CONFIG_QUERY 8 (name_of d)).
Proof using Hok Hh.
  intros Hdlc Hd. branch 11. unfold MrIpcCmdGetQuery, MrIpcCmdSetQuery.
  assert (E : read_bytes 8 (Cs2DecConfigQuery d) = d).
  { do 8 (destruct d as [| ? d]; [done |]). by destruct d. }
  rewrite E. set (c' := copy_raw d _).
  assert (R : map (MrIpcGetRawDataI c') (seq 0 8) = d).
  { transitivity (raw_data c').
    - apply (raw_bytes (Parms c')). subst c'. cbn [over Parms copy_raw].
      rewrite length_blit; rewrite (ipc_ok_dlc (MrIpcSetCommand MrIpcCmdRequestFile c) dlc Hok); lia.
    - by apply raw_copy; [apply ipc_ok_dlc |]. }
  rewrite R. subst c'. rewrite dlc_copy, dlc_set, (wrap_small 8) by (try apply ipc_ok_dlc; done || lia).
  change (match dlc with 0 => true | _ => false end) with (dlc =? 0).
  destruct (dlc =? 0); [reflexivity |]. unfold Cs2EncConfigQuery.
  change (Data (with_header m (Command m) (Dlc m0) zeros)) with zeros. by rewrite name_stored.
Qed.
End Commands.

(** * There and back *)

#[local] Existing Instance unsigned_char.

(** The bytes of a message, named. *)
Ltac eight_bytes d Hlen Hbytes :=
  do 8 (destruct d as [| ? d]; [discriminate Hlen |]); destruct d; [| discriminate Hlen];
  repeat (apply Forall_cons in Hbytes as [? Hbytes]).

(** The tests of both sides, decided together. *)
Ltac decide_tests :=
  repeat match goal with |- context [?x =? ?k] =>
    let r := eval vm_compute in (x =? k) in
    lazymatch r with
    | true => change (x =? k) with true; cbv iota
    | false => change (x =? k) with false; cbv iota
    | _ => let E := fresh in destruct (x =? k) eqn:E; cbv iota; cbn [negb];
        [apply Z.eqb_eq in E; subst x | idtac]
    end
  end.
Ltac decided := repeat match goal with E : (?x =? ?k) = false |- context [?x =? ?k] => rewrite E end.
(** The bytes a message's numbers were read from are stored again. *)
Ltac same_bytes :=
  unfold Cs2EncSpeed6, Cs2EncDirection5, Cs2EncFunction6, Cs2EncAccSwitch6, Cs2EncPing8,
    Cs2EncCfgdatStream6, Cs2EncCfgdatStream7, Cs2EncStatus5, Cs2EncStatus6, Cs2EncSysStatus6,
    Cs2EncSysStatus7, Cs2EncSysStatus8, Cs2EncSysTrackProtocoll, put_system;
  cbv zeta; unfold MrCs2SetSystemSubcmd, with_header;
  cbn [over Id Dlc Data IsCs2 Hash Response Command Prio];
  rewrite ?move_long, ?move_int by assumption;
  repeat match goal with H : is_byte ?b |- _ => rewrite (move_byte b H) end; reflexivity.
Ltac there_and_back :=
  cbv beta iota zeta delta [Cs2DecSysTrackProtocoll Cs2DecSysStatus6 Cs2DecSysStatus7
    Cs2DecSysStatus8 Cs2DecSpeed6 Cs2DecDirection5 Cs2DecFunction5 Cs2DecFunction6 Cs2DecFunction8
    Cs2DecAccSwitch6 Cs2DecAccSwitch8 Cs2DecPing8 Cs2DecStatus5 Cs2DecStatus6 Cs2DecCfgdatStream6
    Cs2DecCfgdatStream7 drop nth];
  match goal with Hok : ipc_ok ?h, Hh : has_header ?h ?m |- _ =>
  first
  [ rewrite (null_back h m _ Hok Hh) by (assumption || done || lia); reflexivity
  | rewrite (run_back h m _ Hok Hh); same_bytes
  | rewrite (track_back h m _ Hok Hh); same_bytes
  | rewrite (speed_back h m _ Hok Hh); same_bytes
  | rewrite (direction_back h m _ Hok Hh); same_bytes
  | rewrite (function_back h m _ Hok Hh); same_bytes
  | rewrite (accessory_back h m _ Hok Hh); same_bytes
  | rewrite (member_back h m _ Hok Hh); same_bytes
  | rewrite (cfg_header_back h m _ Hok Hh); same_bytes
  | rewrite (cfg_zheader_back h m _ Hok Hh); same_bytes
  | rewrite (status_request_back h m _ Hok Hh); same_bytes
  | rewrite (status_size_back h m _ Hok Hh); same_bytes
  | rewrite (status_response_back h m _ Hok Hh); same_bytes
  | rewrite (measure_request_back h m _ Hok Hh); same_bytes
  | rewrite (set_config_back h m _ Hok Hh); same_bytes
  | rewrite (config_response_back h m _ Hok Hh); same_bytes
  | rewrite (measure_response_back h m _ Hok Hh); same_bytes
  | rewrite (request_member_back h m _ Hok Hh); same_bytes
  | rewrite (cfg_data_back h m _ Hok Hh) by done; reflexivity
  | rewrite (status_data_back h m _ Hok Hh) by done; reflexivity
  | rewrite (bootldr_back h m _ Hok Hh) by (done || lia); reflexivity
  | rewrite (query_back h m _ Hok Hh) by (done || lia);
    decided; reflexivity
  | match goal with |- context [MrIpcCmdSetNull ?h' _ _] =>
      rewrite (null_back h' m _ (ipc_ok_lii _ _ _ _ _ Hok) Hh) by (done || lia) end; reflexivity ]
  end.

Lemma relay_normal m c m0 : message_ok m -> ipc_ok c ->
  MrIpcDecodeToCan (MrIpcEncodeFromCan c m) m0 = Some (normal m).
Proof.
  intros Hm Hok. pose proof (header_carried m c Hm) as Hh.
  destruct Hm as (Hdlc & Hlen & Hbytes & _).
  assert (Hok' : ipc_ok (header m c)) by exact Hok. unfold MrIpcEncodeFromCan. cbv zeta.
  change (MrIpcSetCanPrio _ _) with (header m c). set (h := header m c) in *. clearbody h.
  destruct m as [id dlc d is_cs2 hash resp cmd prio]. cbn [Dlc Data Hash Response Command Prio] in *.
  unfold MrCs2GetSystemSubcmd. cbn [Data]. eight_bytes d Hlen Hbytes. cbn [nth].
  unfold normal. cbn [Dlc Data Hash Response Command Prio nth]. cbv zeta.
  lazy beta iota delta [switch]. decide_tests; there_and_back.
Qed.

(** * What is lost *)

Lemma lossless_wire m : message_ok m -> lossless m = true -> wire (normal m) = wire m.
Proof.
  intros (Hdlc & Hlen & Hbytes & _).
  destruct m as [id dlc d is_cs2 hash resp cmd prio]. cbn [Dlc Data] in *.
  eight_bytes d Hlen Hbytes. unfold lossless, normal.
  cbn [Dlc Data Hash Response Command Prio nth]. cbv zeta. lazy beta iota delta [switch].
  decide_tests; try done; intros E; apply wire_header; try reflexivity.
  all: first [by rewrite andb_false_r in E | rewrite ?andb_true_r in E; apply bool_decide_eq_true in E].
  all: first [by rewrite E | by injection E as -> -> -> ->].
Qed.

Lemma length_name_of d : length (name_of d) = length d.
Proof.
  induction d as [| b d IH]; [done |]. cbn [name_of]. destruct (b =? 0); cbn [length]; [| by rewrite IH].
  by rewrite length_replicate.
Qed.
Lemma byte_name_of d : Forall is_byte d -> Forall is_byte (name_of d).
Proof.
  induction 1 as [| b d Hb Hd IH]; [constructor |]. cbn [name_of]. destruct (b =? 0); [| by constructor].
  by apply Forall_replicate.
Qed.
Lemma name_of_zeros n : name_of (replicate n 0) = replicate n 0.
Proof. destruct n; [done |]. cbn [replicate name_of]. change (0 =? 0) with true. cbn. by rewrite length_replicate. Qed.
Lemma name_of_twice d : name_of (name_of d) = name_of d.
Proof.
  induction d as [| b d IH]; [done |]. cbn [name_of]. destruct (b =? 0) eqn:E.
  - apply (name_of_zeros (S (length d))).
  - cbn [name_of]. by rewrite E, IH.
Qed.

(** What is left of a message is a message that loses nothing. *)
Lemma normal_shape m : message_ok m -> exists command dlc data,
  normal m = with_header m command dlc data /\ 0 <= command < 2 ^ 8 /\ 0 <= dlc <= 8 /\
  length data = 8%nat /\ Forall is_byte data /\ lossless (with_header m command dlc data) = true.
Proof.
  intros (Hdlc & Hlen & Hbytes & _ & _ & Hc & _).
  pose proof (length_name_of (Data m)) as Ln. pose proof (byte_name_of _ Hbytes) as Hn.
  pose proof (name_of_twice (Data m)) as Tn. rewrite Hlen in Ln.
  destruct m as [id dlc d is_cs2 hash resp cmd prio]. cbn [Dlc Data Command] in *.
  eight_bytes d Hlen Hbytes. unfold normal. cbn [Dlc Data Hash Response Command Prio nth]. cbv zeta.
  lazy beta iota delta [switch].
  decide_tests; eexists _, _, _; (split; [reflexivity |]);
    (split; [first [assumption | by vm_compute] |]); (split; [first [assumption | by vm_compute] |]);
    (split; [first [exact Ln | reflexivity] |]);
    (split; [first [exact Hn
      | repeat (apply Forall_cons_2; [first [assumption | by vm_compute] |]); by apply Forall_nil_2] |]).
  all: unfold lossless, with_header; cbn [Dlc Data Command]; lazy beta iota delta [switch].
  all: try reflexivity; cbn [nth]; rewrite ?Tn, ?bool_decide_eq_true_2 by exact Tn; decided;
    decide_tests; first [reflexivity | congruence | by apply bool_decide_eq_true_2].
Qed.
Lemma normal_ok m : message_ok m -> message_ok (normal m).
Proof.
  intros Hm. destruct (normal_shape m Hm) as (command & dlc & data & -> & Hc & Hd & Hl & Hb & _).
  destruct Hm as (_ & _ & _ & Hh & Hr & _ & Hp).
  exact (conj Hd (conj Hl (conj Hb (conj Hh (conj Hr (conj Hc Hp)))))). 
Qed.
(** A second trip takes nothing more away. *)
Lemma normal_stable m : message_ok m -> wire (normal (normal m)) = wire (normal m).
Proof.
  intros Hm. apply lossless_wire; [by apply normal_ok |].
  by destruct (normal_shape m Hm) as (command & dlc & data & -> & _ & _ & _ & _ & H).
Qed.
(** What is said to be lost is lost. *)
Lemma lossless_exact m : message_ok m -> wire (normal m) = wire m -> lossless m = true.
Proof.
  intros Hm E. destruct (wire_same _ _ (normal_ok m Hm) Hm E) as (Ec & Ed & Eb). clear E.
  destruct Hm as (Hdlc & Hlen & Hbytes & _).
  destruct m as [id dlc d is_cs2 hash resp cmd prio]. cbn [Dlc Data Command] in *.
  eight_bytes d Hlen Hbytes. revert Ec Ed Eb. unfold lossless, normal.
  cbn [Dlc Data Hash Response Command Prio nth]. cbv zeta. lazy beta iota delta [switch].
  decide_tests; try done; cbn [with_header Dlc Data Command]; intros Ec Ed Eb; subst; try done.
  1-3: cbn in Eb; by injection Eb as <- <- <- <-.
  - change (Z.to_nat 8) with 8%nat in Eb. rewrite !take_ge in Eb by (rewrite ?length_name_of; done).
    by apply bool_decide_eq_true_2.
  - cbn in Eb. injection Eb as <-. discriminate.
Qed.

(** C13. What mrsystem makes of a CAN frame.  Where [char] is unsigned, a frame of
    the track format that one client translates for the others is translated
    back to a message with the same header: the parameters of the commands
    mrsystem has a message for, everything of the others ([normal]).  The frame
    that message is sent as is the frame that came exactly for the messages
    [lossless] names, and the next client that relays it changes nothing. *)
Theorem frame_relayed c m0 m1 f : cs2_frame f -> ipc_ok c ->
  let m := MrCs2Decode m0 f in
  MrIpcDecodeToCan (MrIpcEncodeFromCan c m) m1 = Some (normal m) /\ message_ok (normal m) /\
  (wire (normal m) = on_bus f <-> lossless m = true) /\
  forall c' m2, ipc_ok c' -> exists m',
    MrIpcDecodeToCan (MrIpcEncodeFromCan c' (normal m)) m2 = Some m' /\ wire m' = wire (normal m).
Proof.
  intros Hf Hc m. pose proof (decoded_ok m0 f Hf) as Hm. fold m in Hm.
  rewrite <- (wire_decoded m0 f Hf). fold m. pose proof (normal_ok m Hm) as Hn.
  split; [by apply relay_normal |]. split; [done |]. split.
  - split; [by apply lossless_exact | by apply lossless_wire].
  - intros c' m2 Hc'. exists (normal (normal m)). split; [by apply relay_normal | by apply normal_stable].
Qed.
Definition empty_cmd : MrIpcCmdType := mk_cmd 0 0 0 0 0 0 0 (replicate 24 0).
Lemma frame_relayed_witness : exists m,
  MrIpcDecodeToCan (MrIpcEncodeFromCan empty_cmd (MrCs2Decode empty_message function_frame)) empty_message = Some m /\
  wire m = on_bus function_frame.
Proof.
  destruct (frame_relayed empty_cmd empty_message empty_message function_frame) as (E & _ & (_ & L) & _).
  - apply function_frame_ok.
  - reflexivity.
  - eexists. split; [exact E |]. apply L. vm_compute. reflexivity.
Defined.

(** Where [char] is signed, a speed whose low byte is above 127 comes back
    with 255 in its high byte: the sign of the low byte covers the high one
    when the number is read, and 200 of 1000 becomes 65480. *)
Theorem signed_char_corrupts c m m0 a0 a1 a2 a3 hi lo x y : ipc_ok c -> message_ok m ->
  m.(Command) = CS2_CMD_SPEED -> m.(Dlc) = 6 -> m.(Data) = [a0; a1; a2; a3; hi; lo; x; y] ->
  a0 < 128 -> a1 < 128 -> a2 < 128 -> a3 < 128 -> hi < 128 -> 128 <= lo ->
  exists m', MrIpcDecodeToCan (@MrIpcEncodeFromCan signed_char c m) m0 = Some m' /\
    m'.(Command) = CS2_CMD_SPEED /\ m'.(Dlc) = 6 /\ m'.(Data) = [a0; a1; a2; a3; 255; lo; 0; 0].
Proof.
  intros Hc Hm Ec Ed Eb H0 H1 H2 H3 Hh Hl. pose proof (header_carried m c Hm) as Hd.
  destruct Hm as (_ & _ & Hb & _). rewrite Eb in Hb. repeat (apply Forall_cons in Hb as [? Hb]).
  unfold is_byte in *. assert (Hc' : ipc_ok (header m c)) by exact Hc.
  assert (E : @MrIpcEncodeFromCan signed_char c m =
    let '(l, i) := @Cs2DecSpeed6 signed_char m.(Data) in MrIpcCmdSetLocomotiveSpeed (header m c) l i).
  { unfold MrIpcEncodeFromCan. cbv zeta. change (MrIpcSetCanPrio _ _) with (header m c).
    generalize (header m c). intros h. rewrite Ec, Ed. reflexivity. }
  rewrite E, Eb. unfold Cs2DecSpeed6. cbv beta iota zeta. cbn [drop].
  rewrite signed_long, signed_int by lia. eexists. split; [by apply (speed_back _ m) |].
  split; [done |]. split; [done |]. cbn [with_header Data]. unfold Cs2EncSpeed6.
  rewrite move_long by (unfold is_byte; lia).
  assert (Ei : u16 (i32 (0xffffff00 + lo)) = 65280 + lo).
  { unfold swrap. byte_arith. change (2 ^ (32 - 1)) with 2147483648. Z.to_euclidean_division_equations. lia. }
  rewrite Ei. unfold SetIntToByteArray. cbn [zeros replicate insert list_insert].
  clear - H8 Hl. do 6 (f_equal; try (byte_arith; change (Z.ones 8) with 255; Z.to_euclidean_division_equations; lia)).
Qed.
Definition speed_message : MrCs2CanDataType := mk_msg 0 6 [0; 0; 0x40; 7; 0; 200; 0; 0] true 0x4711 0 4 0.
Lemma signed_char_corrupts_witness : exists m,
  MrIpcDecodeToCan (@MrIpcEncodeFromCan signed_char empty_cmd speed_message) empty_message = Some m /\
  m.(Data) = [0; 0; 0x40; 7; 255; 200; 0; 0].
Proof.
  destruct (signed_char_corrupts empty_cmd speed_message empty_message 0 0 0x40 7 0 200 0 0)
    as (m & E & _ & _ & D); [done | split_and!; try done; by repeat constructor | try done.. |].
  by exists m.
Defined.
End MrRelay.
