(* ===== verification/MrDliste.v ===== *)
(** The doubly linked lists of mrsystem (src/mrsystem/src/basic_libs/datastore:
    dliste) on the heap they live in, and the queues and sets built on them
    (queue, menge). *)

From S2P Require Import Prelude Avl.

Module Dliste.
Import Avl(destroyed, Destroyed_key, Destroyed_data).

(** * Data *)

(** [struct dliste_element].  Keys, data and elements are pointers, 0 is NULL. *)
Record element := mk_element { Key : Z; Data : Z; Prev : Z; Next : Z }.
#[export] Instance eta_element : Settable element := fun e =>
  mk_element e.(Key) e.(Data) e.(Prev) e.(Next).

(** A list ([Dliste]) with the elements in memory.  A call-back that is set is
    [true]; [calls] is what the call-backs were given. *)
Record dliste_t := mk_dliste {
  elements : gmap Z element;
  DatenAnfang : Z;
  DatenEnde : Z;
  Compare : option (Z -> Z -> Z);
  DestroyKey : bool;
  DestroyDaten : bool;
  calls : list destroyed }.
#[export] Instance eta_dliste : Settable dliste_t := fun l =>
  mk_dliste l.(elements) l.(DatenAnfang) l.(DatenEnde) l.(Compare) l.(DestroyKey) l.(DestroyDaten) l.(calls).

Definition element_at (p : Z) : prog dliste_t element := let* h := gets elements in need (h !! p).
Definition set_element (p : Z) (f : element -> element) : prog dliste_t unit :=
  do* element_at p in modify (fun l => l <| elements ::= alter f p |>).
Definition set_prev (p q : Z) : prog dliste_t unit := set_element p (fun e => e <| Prev := q |>).
Definition set_next (p q : Z) : prog dliste_t unit := set_element p (fun e => e <| Next := q |>).
Definition get_next (p : Z) : prog dliste_t Z := let* e := element_at p in ret e.(Next).
Definition get_key (p : Z) : prog dliste_t Z := let* e := element_at p in ret e.(Key).
Definition get_data (p : Z) : prog dliste_t Z := let* e := element_at p in ret e.(Data).
Definition set_anfang (p : Z) : prog dliste_t unit := modify (fun l => l <| DatenAnfang := p |>).
Definition set_ende (p : Z) : prog dliste_t unit := modify (fun l => l <| DatenEnde := p |>).
Definition compare (a b : Z) : prog dliste_t Z :=
  let* f := gets Compare in let* f := need f in ret (f a b).
Definition call (set : bool) (p : Z) (d : destroyed) : prog dliste_t unit :=
  if set && negb (p =? 0) then modify (fun l => l <| calls ::= fun c => c ++ [d] |>) else ret tt.
Definition free (p : Z) : prog dliste_t unit :=
  do* element_at p in modify (fun l => l <| elements ::= delete p |>).

(** * Lists *)

(** A list with the memory there is. *)
Definition DlisteCreate (h : gmap Z element) : dliste_t := mk_dliste h 0 0 None false false [].
Definition DlisteInit (cmp : option (Z -> Z -> Z)) (key data : bool) : prog dliste_t unit :=
  modify (fun l => l <| Compare := cmp |> <| DestroyKey := key |> <| DestroyDaten := data |>).
Definition DlisteIsEmpty : prog dliste_t bool := let* a := gets DatenAnfang in ret (a =? 0).

(** ** Insertion *)

Section Insertion.
(** [malloc] of an element with the memory in use; [None] is its NULL. *)
Context (malloc : gmap Z element -> option Z).

Definition new_element (key data : Z) : prog dliste_t (option Z) :=
  let* h := gets elements in
  match malloc h with
  | None => ret None
  | Some this =>
      do* modify (fun l => l <| elements ::= <[this := mk_element key data 0 0]> |>) in ret (Some this)
  end.

Definition DlisteAhead (key data : Z) : prog dliste_t bool :=
  let* new := new_element key data in
  match new with
  | None => ret false
  | Some this =>
      let* anfang := gets DatenAnfang in
      do* set_next this anfang in
      let* ende := gets DatenEnde in
      do* (if ende =? 0 then set_ende this else set_prev anfang this) in
      do* set_anfang this in
      do* set_prev this 0 in
      ret true
  end.

Definition DlisteAppend (key data : Z) : prog dliste_t bool :=
  let* new := new_element key data in
  match new with
  | None => ret false
  | Some this =>
      let* ende := gets DatenEnde in
      if ende =? 0 then
        do* set_next this 0 in
        do* set_prev this 0 in
        do* set_anfang this in
        do* set_ende this in
        ret true
      else
        do* set_next this 0 in
        do* set_prev this ende in
        do* set_next ende this in
        do* set_ende this in
        ret true
  end.

(** The loop from [work] on, which links the new element [this] in where the
    next key is greater, or after the last one. *)
Fixpoint insert_after (fuel : nat) (this work : Z) : prog dliste_t unit :=
  match fuel with
  | O => undefined
  | S fuel =>
      let* next := get_next work in
      if next =? 0 then
        do* set_prev this work in
        do* set_next this 0 in
        do* set_next work this in
        set_ende this
      else
        let* kn := get_key next in
        let* k := get_key this in
        let* c := compare kn k in
        if 0 <? c then
          do* set_next this next in
          do* set_prev next this in
          do* set_prev this work in
          set_next work this
        else insert_after fuel this next
  end.

Definition DlisteInsert (key data : Z) : prog dliste_t bool :=
  let* new := new_element key data in
  match new with
  | None => ret false
  | Some this =>
      let* anfang := gets DatenAnfang in
      if anfang =? 0 then
        do* set_prev this 0 in
        do* set_next this 0 in
        do* set_anfang this in
        do* set_ende this in
        ret true
      else
        let* k := get_key this in
        let* first := get_key anfang in
        let* c := compare k first in
        if (c <? 0) || (c =? 0) then
          do* set_prev anfang this in
          do* set_prev this 0 in
          do* set_next this anfang in
          do* set_anfang this in
          ret true
        else
          let* h := gets elements in
          do* insert_after (size h) this anfang in
          ret true
  end.
End Insertion.

(** ** Deletion *)

(** The call-backs for an element. *)
Definition destroy_entry (p : Z) : prog dliste_t unit :=
  let* e := element_at p in
  let* l := get in
  do* call l.(DestroyKey) e.(Key) (Destroyed_key e.(Key)) in
  call l.(DestroyDaten) e.(Data) (Destroyed_data e.(Data)).

Definition DlisteDelAkt (p : Z) : prog dliste_t unit :=
  let* e := element_at p in
  do* (if e.(Prev) =? 0 then set_anfang e.(Next) else set_next e.(Prev) e.(Next)) in
  let* e := element_at p in
  do* (if e.(Next) =? 0 then set_ende e.(Prev) else set_prev e.(Next) e.(Prev)) in
  do* destroy_entry p in
  free p.

Definition DlisteDelFirst : prog dliste_t unit :=
  let* a := gets DatenAnfang in if a =? 0 then ret tt else DlisteDelAkt a.
Definition DlisteDelLast : prog dliste_t unit :=
  let* e := gets DatenEnde in if e =? 0 then ret tt else DlisteDelAkt e.

(** The first element from [p] on that [same] accepts, 0 when there is none. *)
Fixpoint search (fuel : nat) (same : element -> prog dliste_t bool) (p : Z) : prog dliste_t Z :=
  match fuel with
  | O => undefined
  | S fuel =>
      if p =? 0 then ret 0
      else
        let* e := element_at p in
        let* found := same e in
        if found then ret p else search fuel same e.(Next)
  end.
Definition same_key (key : Z) (e : element) : prog dliste_t bool :=
  let* c := compare e.(Key) key in ret (c =? 0).
Definition DlisteFinde (key : Z) : prog dliste_t Z :=
  let* h := gets elements in let* a := gets DatenAnfang in search (S (size h)) (same_key key) a.
Definition DlisteDelete (key : Z) : prog dliste_t unit :=
  let* p := DlisteFinde key in if p =? 0 then ret tt else DlisteDelAkt p.

(** The elements from [p] on; the list itself is freed by the caller. *)
Fixpoint destroy_from (fuel : nat) (p : Z) : prog dliste_t unit :=
  match fuel with
  | O => undefined
  | S fuel =>
      if p =? 0 then ret tt
      else
        let* next := get_next p in
        do* destroy_entry p in
        do* free p in
        destroy_from fuel next
  end.
Definition DlisteDestroy : prog dliste_t unit :=
  let* h := gets elements in let* a := gets DatenAnfang in destroy_from (S (size h)) a.

(** ** Iterators: the element they stand at *)

Definition DlisteFirst : prog dliste_t Z := gets DatenAnfang.
Definition DlisteLast : prog dliste_t Z := gets DatenEnde.
Definition DlisteNext (it : Z) : prog dliste_t Z := if it =? 0 then ret 0 else get_next it.
Definition DlistePrev (it : Z) : prog dliste_t Z :=
  if it =? 0 then ret 0 else let* e := element_at it in ret e.(Prev).
Definition DlisteRemove (it : Z) : prog dliste_t Z :=
  if it =? 0 then ret 0 else let* next := get_next it in do* DlisteDelAkt it in ret next.

(** * Queues (queue) *)

Section Queues.
Context (malloc : gmap Z element -> option Z).
Definition QueueInit (data : bool) : prog dliste_t unit := DlisteInit None false data.
Definition QueueAdd (data : Z) : prog dliste_t bool := DlisteAhead malloc 0 data.
Definition QueueGet : prog dliste_t Z :=
  let* last := DlisteLast in
  if last =? 0 then ret 0
  else
    let* data := get_data last in
    do* set_element last (fun e => e <| Data := 0 |>) in
    do* DlisteDelAkt last in
    ret data.
Definition QueueIsEmpty : prog dliste_t bool := DlisteIsEmpty.
End Queues.

(** * Sets (menge) *)

(** [Menge]: the list of the data and the comparison of two of them. *)
Record menge_t := mk_menge { MengeDaten : dliste_t; MengeCompare : option (Z -> Z -> Z) }.
#[export] Instance eta_menge : Settable menge_t := fun m => mk_menge m.(MengeDaten) m.(MengeCompare).
Definition on_daten {A} (m : prog dliste_t A) : prog menge_t A := fun s =>
  match m s.(MengeDaten) with Some (a, l) => Some (a, s <| MengeDaten := l |>) | None => None end.

(** The set with its log of call-backs read. *)
Definition calls_read (m : menge_t) : menge_t := m <| MengeDaten ::= fun l => l <| calls := [] |> |>.

Definition MengeCreate (h : gmap Z element) : menge_t := mk_menge (DlisteCreate h) None.
Definition MengeInit (cmp : Z -> Z -> Z) (data : bool) : prog menge_t unit :=
  do* on_daten (DlisteInit None false data) in
  modify (fun m => m <| MengeCompare := Some cmp |>).
Definition MengeDestroy : prog menge_t unit := on_daten DlisteDestroy.

Definition MengeAdd (malloc : gmap Z element -> option Z) (data : Z) : prog menge_t bool :=
  on_daten (DlisteAhead malloc 0 data).
(** An iterator moved to an element: where it stands and the data there, 0 at
    the end. *)
Definition data_there (move : prog dliste_t Z) : prog menge_t (Z * Z) :=
  on_daten (let* it := move in if it =? 0 then ret (it, 0) else let* d := get_data it in ret (it, d)).
Definition MengeFirst : prog menge_t (Z * Z) := data_there DlisteFirst.
Definition MengeNext (it : Z) : prog menge_t (Z * Z) := data_there (DlisteNext it).
Definition MengeIterRemove (it : Z) : prog menge_t (Z * Z) := data_there (DlisteRemove it).

Definition MengeRemove (data : Z) : prog menge_t unit :=
  let* m := get in
  on_daten (
    let* h := gets elements in
    let* a := DlisteFirst in
    let* p := search (S (size h))
      (fun e => let* f := need m.(MengeCompare) in ret (f e.(Data) data =? 0)) a in
    if p =? 0 then ret tt else DlisteDelAkt p).
End Dliste.
