(* ===== verification/MrDlisteSpec.v ===== *)
(** The doubly linked lists of mrsystem as sequences: when the memory holds a
    list, what each operation makes of it, and how the queues and sets behave. *)

From S2P Require Import Prelude Avl MrDliste.

Module DlisteSpec.
Import Avl(destroyed, Destroyed_key, Destroyed_data) Dliste.

(** * Memory that holds a list *)

(** An element of the list: where it is, its key and its data. *)
Record item := mk_item { at_ : Z; key_of : Z; data_of : Z }.
Definition head_or (next : Z) (ns : list item) : Z := match ns with [] => next | n :: _ => n.(at_) end.
Definition last_or (prev : Z) (ns : list item) : Z := foldl (fun _ n => n.(at_)) prev ns.

(** A part of a list between the elements [prev] and [next]. *)
Fixpoint segment (h : gmap Z element) (prev : Z) (ns : list item) (next : Z) : Prop :=
  match ns with
  | [] => True
  | n :: ns =>
      n.(at_) <> 0 /\
      h !! n.(at_) = Some (mk_element n.(key_of) n.(data_of) prev (head_or next ns)) /\
      segment h n.(at_) ns next
  end.
Notation places ns := (map at_ ns).

Record holds (l : dliste_t) (ns : list item) : Prop := mk_holds {
  holds_segment : segment l.(elements) 0 ns 0;
  holds_places : NoDup (places ns);
  holds_anfang : l.(DatenAnfang) = head_or 0 ns;
  holds_ende : l.(DatenEnde) = last_or 0 ns }.

Lemma last_or_app prev xs ys : last_or prev (xs ++ ys) = last_or (last_or prev xs) ys.
Proof. apply foldl_app. Qed.
Lemma head_or_app next xs ys : head_or next (xs ++ ys) = head_or (head_or next ys) xs.
Proof. by destruct xs. Qed.

Lemma segment_app h prev xs ys next : segment h prev (xs ++ ys) next <->
  segment h prev xs (head_or next ys) /\ segment h (last_or prev xs) ys next.
Proof.
  revert prev. induction xs as [| x xs IH]; intros prev; [cbn; intuition |].
  cbn [app segment]. rewrite IH, head_or_app. cbn. intuition.
Qed.
Lemma segment_agree h h' prev ns next : (forall p, p ∈ places ns -> h' !! p = h !! p) ->
  segment h prev ns next -> segment h' prev ns next.
Proof.
  revert prev. induction ns as [| n ns IH]; intros prev; [done |]. cbn [segment map].
  intros H (H0 & E & Hs). split_and!; [done | by rewrite H by left |].
  apply IH; [| done]. intros p Hp. apply H. by right.
Qed.
Lemma segment_not_null h prev ns next : segment h prev ns next -> 0 ∉ places ns.
Proof.
  revert prev. induction ns as [| n ns IH]; intros prev; cbn [segment map]; [intros _ []%elem_of_nil |].
  intros (H0 & _ & Hs) [E | Hin]%elem_of_cons; [done | by apply (IH _ Hs)].
Qed.
Lemma segment_in h prev ns next p : segment h prev ns next -> p ∈ places ns -> is_Some (h !! p).
Proof.
  revert prev. induction ns as [| n ns IH]; intros prev; cbn [segment map]; [intros _ []%elem_of_nil |].
  intros (H0 & E & Hs) [-> | Hin]%elem_of_cons; [by rewrite E | by apply (IH _ Hs)].
Qed.
Lemma length_segment h prev ns next : segment h prev ns next -> NoDup (places ns) -> (length ns <= size h)%nat.
Proof.
  intros Hs Hn. rewrite <- (length_map at_ ns), <- size_dom. rewrite <- (size_list_to_set (C := gset Z) _ Hn).
  apply subseteq_size. intros p Hp%elem_of_list_to_set. apply elem_of_dom. by apply (segment_in _ _ _ _ _ Hs).
Qed.

Lemma last_or_snoc prev xs n : last_or prev (xs ++ [n]) = n.(at_).
Proof. by rewrite last_or_app. Qed.

(** ** The ends of a part get other neighbours *)

Definition with_prev (q : Z) (ns : list item) (h : gmap Z element) : gmap Z element :=
  match ns with [] => h | n :: _ => alter (fun e => e <| Prev := q |>) n.(at_) h end.
Definition with_next (q : Z) (ns : list item) (h : gmap Z element) : gmap Z element :=
  match ns with [] => h | _ => alter (fun e => e <| Next := q |>) (last_or 0 ns) h end.

Lemma with_prev_other q ns h p : p ∉ places ns -> with_prev q ns h !! p = h !! p.
Proof. destruct ns as [| n ns]; [done |]. cbn. intros Hp. apply lookup_alter_ne. intros <-. apply Hp. by left. Qed.
Lemma with_next_snoc q xs n h : with_next q (xs ++ [n]) h = alter (fun e => e <| Next := q |>) n.(at_) h.
Proof. unfold with_next. rewrite last_or_snoc. by destruct xs. Qed.
Lemma with_next_other q ns h p : p ∉ places ns -> with_next q ns h !! p = h !! p.
Proof.
  destruct (decide (ns = [])) as [-> | Hne]; [done |]. destruct (exists_last Hne) as (xs & n & ->).
  rewrite with_next_snoc, map_app. intros Hp. apply lookup_alter_ne. intros <-. apply Hp.
  apply elem_of_app. right. by left.
Qed.
Lemma segment_with_prev h prev q ns next : NoDup (places ns) -> segment h prev ns next ->
  segment (with_prev q ns h) q ns next.
Proof.
  destruct ns as [| n ns]; [done |]. intros [Hn _]%NoDup_cons (H0 & E & Hs). cbn [segment with_prev].
  split_and!; [done | by rewrite lookup_alter_eq, E |].
  apply (segment_agree h); [| done]. intros p Hp. apply lookup_alter_ne. by intros <-.
Qed.
Lemma segment_with_next h prev q ns next : NoDup (places ns) -> segment h prev ns next ->
  segment (with_next q ns h) prev ns q.
Proof.
  destruct (decide (ns = [])) as [-> | Hne]; [done |]. destruct (exists_last Hne) as (xs & n & ->).
  rewrite with_next_snoc, map_app, !segment_app. intros (_ & Hn & _)%NoDup_app [Hx (H0 & E & _)]. cbn [head_or]. split.
  - apply (segment_agree h); [| done]. intros p Hp. apply lookup_alter_ne. intros <-.
    apply (Hn _ Hp). by left.
  - cbn [segment]. by rewrite lookup_alter_eq, E.
Qed.

(** * The runs of the operations *)

Lemma element_at_run p l e : l.(elements) !! p = Some e -> element_at p l = Some (e, l).
Proof. intros E. unfold element_at. rewrite bind_gets, E. done. Qed.
Lemma set_element_run p f l : is_Some (l.(elements) !! p) ->
  set_element p f l = Some (tt, l <| elements ::= alter f p |>).
Proof. intros [e E]. unfold set_element. by rewrite (bind_some _ _ _ _ _ (element_at_run _ _ _ E)). Qed.
Lemma set_element_then {B} p f (k : unit -> prog dliste_t B) l : is_Some (l.(elements) !! p) ->
  bind (set_element p f) k l = k tt (l <| elements ::= alter f p |>).
Proof. intros E. by rewrite (bind_some _ _ _ _ _ (set_element_run p f l E)). Qed.

(** What the call-backs get when an item goes. *)
Definition freed (l : dliste_t) (n : item) : list destroyed :=
  (if l.(DestroyKey) && negb (n.(key_of) =? 0) then [Destroyed_key n.(key_of)] else []) ++
  (if l.(DestroyDaten) && negb (n.(data_of) =? 0) then [Destroyed_data n.(data_of)] else []).
(** Lists with the same comparison and call-backs. *)
Definition same_kind (l l' : dliste_t) : Prop :=
  l'.(Compare) = l.(Compare) /\ l'.(DestroyKey) = l.(DestroyKey) /\ l'.(DestroyDaten) = l.(DestroyDaten).
(** Memory that is not the list's stays as it is. *)
Definition outside (ns : list item) (l l' : dliste_t) : Prop :=
  forall p, p ∉ places ns -> l'.(elements) !! p = l.(elements) !! p.

Lemma last_or_any p q ns : ns <> [] -> last_or p ns = last_or q ns.
Proof. by destruct ns. Qed.
Lemma head_or_any p q ns : ns <> [] -> head_or p ns = head_or q ns.
Proof. by destruct ns. Qed.
Lemma last_or_null h prev ns next : segment h prev ns next -> (last_or 0 ns =? 0) = bool_decide (ns = []).
Proof.
  destruct (decide (ns = [])) as [-> | Hne]; [done |]. intros Hs. rewrite bool_decide_eq_false_2 by done.
  destruct (exists_last Hne) as (xs & n & ->). rewrite last_or_snoc.
  apply segment_app in Hs as [_ (H0 & _)]. zbool.
Qed.
Lemma head_or_null h prev ns next : segment h prev ns next -> (head_or 0 ns =? 0) = bool_decide (ns = []).
Proof. destruct ns as [| n ns]; [done |]. intros (H0 & _). cbn. zbool. Qed.

(** The list's end, or the first element of a part, learns what is before it. *)
Lemma tie_front prev ys next q l : segment l.(elements) prev ys next ->
  (ys <> [] -> l.(DatenEnde) = last_or 0 ys) ->
  (if head_or 0 ys =? 0 then set_ende q else set_prev (head_or 0 ys) q) l =
    Some (tt, l <| elements ::= with_prev q ys |> <| DatenEnde := last_or q ys |>).
Proof.
  intros Hs He. rewrite (head_or_null _ _ _ _ Hs). destruct ys as [| n ys].
  - destruct l. reflexivity.
  - cbn [bool_decide]. rewrite bool_decide_eq_false_2 by done. cbn [head_or]. destruct Hs as (H0 & E & _).
    unfold set_prev. rewrite set_element_run by (by rewrite E).
    rewrite (last_or_any q 0), <- He by done. destruct l. reflexivity.
Qed.
(** The list's start, or the last element of a part, learns what is behind it. *)
Lemma tie_back prev xs next q l : segment l.(elements) prev xs next ->
  (xs <> [] -> l.(DatenAnfang) = head_or 0 xs) ->
  (if last_or 0 xs =? 0 then set_anfang q else set_next (last_or 0 xs) q) l =
    Some (tt, l <| elements ::= with_next q xs |> <| DatenAnfang := head_or q xs |>).
Proof.
  intros Hs Ha. rewrite (last_or_null _ _ _ _ Hs). destruct (decide (xs = [])) as [-> | Hne].
  - destruct l. reflexivity.
  - rewrite bool_decide_eq_false_2 by done. unfold set_next.
    assert (Hin : is_Some (l.(elements) !! last_or 0 xs)).
    { destruct (exists_last Hne) as (zs & n & ->). rewrite last_or_snoc.
      apply segment_app in Hs as [_ (_ & E & _)]. by rewrite E. }
    rewrite set_element_run by done. rewrite (head_or_any q 0), <- Ha by done.
    destruct xs as [| x xs]; [done |]. destruct l. reflexivity.
Qed.

Lemma free_run p l : is_Some (l.(elements) !! p) -> free p l = Some (tt, l <| elements ::= delete p |>).
Proof. intros [e E]. unfold free. by rewrite (bind_some _ _ _ _ _ (element_at_run _ _ _ E)). Qed.
Lemma destroy_entry_run p e l : l.(elements) !! p = Some e ->
  destroy_entry p l = Some (tt, l <| calls ::= fun c => c ++ freed l (mk_item p e.(Key) e.(Data)) |>).
Proof.
  intros E. unfold destroy_entry. rewrite (bind_some _ _ _ _ _ (element_at_run _ _ _ E)), bind_get.
  unfold freed, call. cbn [key_of data_of].
  destruct (DestroyKey l && _), (DestroyDaten l && _); destruct l; cbn; unfold modify; cbn; rewrite ?app_nil_r, <- ?app_assoc; done.
Qed.

(** What an operation makes of a list that held [ns]. *)
Record becomes (l : dliste_t) (ns : list item) (l' : dliste_t) (ns' : list item) (cs : list destroyed) : Prop :=
  mk_becomes {
  becomes_holds : holds l' ns';
  becomes_calls : l'.(calls) = l.(calls) ++ cs;
  becomes_kind : same_kind l l';
  becomes_outside : forall p, p ∉ places ns -> p ∉ places ns' -> l'.(elements) !! p = l.(elements) !! p }.

(** ** Deletion *)

(** An item cut out of a part. *)
Lemma cut_out h prev xs n ys next : NoDup (places (xs ++ n :: ys)) -> segment h prev (xs ++ n :: ys) next ->
  let h' := delete n.(at_) (with_prev (last_or prev xs) ys (with_next (head_or next ys) xs h)) in
  segment h' prev (xs ++ ys) next /\ forall p, p ∉ places (xs ++ n :: ys) -> h' !! p = h !! p.
Proof.
  intros Hn [Hx (H0 & E & Hy)]%segment_app h'. rewrite map_app in Hn |- *. cbn [map head_or] in *.
  apply NoDup_app in Hn as (Nx & Nxy & [Nn Ny]%NoDup_cons).
  assert (Nnx : n.(at_) ∉ places xs) by (intros Hin; apply (Nxy _ Hin); left).
  assert (Nxy' : forall p, p ∈ places xs -> p ∉ places ys) by (intros p Hp Hin; apply (Nxy _ Hp); by right).
  split; [apply segment_app; split |].
  - apply (segment_agree (with_next (head_or next ys) xs h)); [| by apply (segment_with_next _ _ _ _ n.(at_))].
    intros p Hp. unfold h'. rewrite lookup_delete_ne by (by intros <-). apply with_prev_other. by apply Nxy'.
  - apply (segment_agree (with_prev (last_or prev xs) ys (with_next (head_or next ys) xs h))).
    + intros p Hp. apply lookup_delete_ne. by intros <-.
    + apply (segment_with_prev _ n.(at_)); [done |]. apply (segment_agree h); [| done].
      intros p Hp. apply with_next_other. intros Hin. by apply (Nxy' _ Hin).
  - intros p [Hpx [Hpn Hpy]%not_elem_of_cons]%not_elem_of_app.
    unfold h'. by rewrite lookup_delete_ne, with_prev_other, with_next_other.
Qed.
Lemma holds_split l xs n ys : holds l (xs ++ n :: ys) ->
  l.(elements) !! n.(at_) = Some (mk_element n.(key_of) n.(data_of) (last_or 0 xs) (head_or 0 ys)) /\
  segment l.(elements) 0 xs n.(at_) /\ segment l.(elements) n.(at_) ys 0 /\
  n.(at_) ∉ places xs /\ n.(at_) ∉ places ys /\ (forall p, p ∈ places xs -> p ∉ places ys) /\
  (xs <> [] -> l.(DatenAnfang) = head_or 0 xs) /\ (ys <> [] -> l.(DatenEnde) = last_or 0 ys).
Proof.
  intros [Hs Hn Ha He]. apply segment_app in Hs as [Hx (H0 & E & Hy)].
  rewrite map_app in Hn. apply NoDup_app in Hn as (Nx & Nxy & [Nn Ny]%NoDup_cons).
  rewrite head_or_app in Ha. rewrite last_or_app in He. cbn [head_or] in *. split_and!; try done.
  - intros Hin. apply (Nxy _ Hin). by left.
  - intros p Hp Hin. apply (Nxy _ Hp). by right.
  - intros Hne. rewrite Ha. by apply head_or_any.
  - intros Hne. rewrite He. exact (last_or_any n.(at_) 0 ys Hne).
Qed.

Lemma DlisteDelAkt_run l xs n ys : holds l (xs ++ n :: ys) -> exists l',
  DlisteDelAkt n.(at_) l = Some (tt, l') /\ becomes l (xs ++ n :: ys) l' (xs ++ ys) (freed l n).
Proof.
  intros Hl. destruct (holds_split l xs n ys Hl) as (E & Hx & Hy & Nnx & Nny & Nxy & Ha & He).
  unfold DlisteDelAkt. rewrite (bind_some _ _ _ _ _ (element_at_run _ _ _ E)). cbn [Prev Next].
  rewrite (bind_some _ _ _ _ _ (tie_back _ _ _ (head_or 0 ys) _ Hx Ha)).
  set (l1 := _ <| DatenAnfang := _ |>).
  assert (E1 : l1.(elements) !! n.(at_) = Some (mk_element n.(key_of) n.(data_of) (last_or 0 xs) (head_or 0 ys)))
    by (unfold l1; cbn [over elements]; by rewrite with_next_other).
  rewrite (bind_some _ _ _ _ _ (element_at_run _ _ _ E1)). cbn [Prev Next].
  assert (Hy1 : segment l1.(elements) n.(at_) ys 0).
  { apply (segment_agree l.(elements)); [| done]. intros p Hp. apply with_next_other. intros Hin.
    by apply (Nxy _ Hin). }
  rewrite (bind_some _ _ _ _ _ (tie_front _ _ _ (last_or 0 xs) _ Hy1 He)).
  set (l2 := _ <| DatenEnde := _ |>).
  assert (E2 : l2.(elements) !! n.(at_) = Some (mk_element n.(key_of) n.(data_of) (last_or 0 xs) (head_or 0 ys)))
    by (unfold l2; cbn [over elements]; by rewrite with_prev_other).
  rewrite (bind_some _ _ _ _ _ (destroy_entry_run _ _ _ E2)).
  rewrite free_run by (eexists; exact E2). eexists. split; [reflexivity |]. destruct Hl as [Hs Hn _ _].
  destruct (cut_out _ _ _ _ _ _ Hn Hs) as [Hc Ho]. constructor.
  - constructor; [exact Hc | | cbn; by rewrite head_or_app | cbn; by rewrite last_or_app].
    rewrite map_app in Hn |- *. apply NoDup_app in Hn as (Nx & _ & [_ Ny]%NoDup_cons). by apply NoDup_app.
  - reflexivity.
  - by split_and!.
  - intros p Hp _. by apply Ho.
Qed.

(** ** Insertion *)

(** An item put between two parts. *)
Lemma put_between h h' prev xs n ys next : NoDup (places (xs ++ n :: ys)) -> n.(at_) <> 0 ->
  segment h prev (xs ++ ys) next ->
  h' !! n.(at_) = Some (mk_element n.(key_of) n.(data_of) (last_or prev xs) (head_or next ys)) ->
  (forall p, p <> n.(at_) -> h' !! p = with_prev n.(at_) ys (with_next n.(at_) xs h) !! p) ->
  segment h' prev (xs ++ n :: ys) next /\ forall p, p ∉ places (xs ++ n :: ys) -> h' !! p = h !! p.
Proof.
  intros Hn H0 [Hx Hy]%segment_app E Ho. rewrite map_app in Hn |- *. cbn [map] in *.
  apply NoDup_app in Hn as (Nx & Nxy & [Nn Ny]%NoDup_cons).
  assert (Nnx : n.(at_) ∉ places xs) by (intros Hin; apply (Nxy _ Hin); left).
  assert (Nxy' : forall p, p ∈ places xs -> p ∉ places ys) by (intros p Hp Hin; apply (Nxy _ Hp); by right).
  split; [apply segment_app; cbn [segment head_or]; split_and!; [| done | done |] |].
  - apply (segment_agree (with_next n.(at_) xs h)); [| by apply (segment_with_next _ _ _ _ (head_or next ys))].
    intros p Hp. rewrite Ho by (by intros ->). apply with_prev_other. by apply Nxy'.
  - apply (segment_agree (with_prev n.(at_) ys (with_next n.(at_) xs h))).
    + intros p Hp. apply Ho. by intros ->.
    + apply (segment_with_prev _ (last_or prev xs)); [done |]. apply (segment_agree h); [| done].
      intros p Hp. apply with_next_other. intros Hin. by apply (Nxy' _ Hin).
  - intros p [Hpx [Hpn Hpy]%not_elem_of_cons]%not_elem_of_app.
    by rewrite Ho, with_prev_other, with_next_other.
Qed.

Section Insertion.
Context (malloc : gmap Z element -> option Z).
(** What [malloc] returns is not in use. *)
Definition allocator : Prop := forall h p, malloc h = Some p -> p <> 0 /\ h !! p = None.
Context (Halloc : allocator).

(** The outcome of putting a new item in, where there is memory. *)
Definition puts (op : prog dliste_t bool) (l : dliste_t) (xs : list item) (key data : Z) (ys : list item) : Prop :=
  match malloc l.(elements) with
  | None => op l = Some (false, l)
  | Some this => exists l', op l = Some (true, l') /\
      becomes l (xs ++ ys) l' (xs ++ mk_item this key data :: ys) []
  end.

Lemma new_place l xs ys this key data : holds l (xs ++ ys) -> malloc l.(elements) = Some this ->
  this <> 0 /\ l.(elements) !! this = None /\ this ∉ places xs /\ this ∉ places ys /\
  NoDup (places (xs ++ mk_item this key data :: ys)).
Proof using Halloc.
  intros [Hs Hn _ _] Em. destruct (Halloc _ _ Em) as [H0 Hf].
  assert (Hin : this ∉ places (xs ++ ys)).
  { intros Hin. destruct (segment_in _ _ _ _ _ Hs Hin) as [e E]. congruence. }
  rewrite map_app in *. pose proof (proj1 (not_elem_of_app _ _ _) Hin) as [Hx Hy]. split_and!; try done.
  cbn [map at_]. rewrite <- Permutation_middle. by apply NoDup_cons.
Qed.
Lemma new_run key data l this : malloc l.(elements) = Some this ->
  new_element malloc key data l = Some (Some this, l <| elements ::= <[this := mk_element key data 0 0]> |>).
Proof. intros E. unfold new_element. by rewrite bind_gets, E. Qed.
Lemma no_memory {A} key data l (k : option Z -> prog dliste_t A) : malloc l.(elements) = None ->
  bind (new_element malloc key data) k l = k None l.
Proof. intros E. unfold new_element. rewrite bind_assoc, bind_gets, E. reflexivity. Qed.

(** The outcome from what the memory is in the end. *)
Lemma puts_outcome l xs this key data ys l' : holds l (xs ++ ys) -> malloc l.(elements) = Some this ->
  l'.(elements) !! this = Some (mk_element key data (last_or 0 xs) (head_or 0 ys)) ->
  (forall p, p <> this -> l'.(elements) !! p = with_prev this ys (with_next this xs l.(elements)) !! p) ->
  l'.(DatenAnfang) = head_or this xs -> l'.(DatenEnde) = last_or this ys ->
  l'.(calls) = l.(calls) -> same_kind l l' ->
  becomes l (xs ++ ys) l' (xs ++ mk_item this key data :: ys) [].
Proof using Halloc.
  intros Hl Em E Ho Ha He Hc Hk. destruct (new_place l xs ys this key data Hl Em) as (H0 & Hf & Nx & Ny & Hn).
  destruct Hl as [Hs _ _ _]. destruct (put_between _ _ _ _ (mk_item this key data) _ _ Hn H0 Hs E Ho) as [Hs' Ho'].
  constructor; [constructor; [done | done | |] | by rewrite app_nil_r | done | intros p _ Hp; by apply Ho'].
  - by rewrite head_or_app.
  - by rewrite last_or_app.
Qed.

Lemma alter_cong (f : element -> element) a (h1 h2 : gmap Z element) p : h1 !! p = h2 !! p ->
  alter f a h1 !! p = alter f a h2 !! p.
Proof.
  intros E. destruct (decide (a = p)) as [<- | Hne]; [by rewrite !lookup_alter_eq, E |].
  by rewrite !lookup_alter_ne.
Qed.
Lemma alter_swap (f g : element -> element) a b (h : gmap Z element) : a <> b ->
  alter f a (alter g b h) = alter g b (alter f a h).
Proof.
  intros Hne. apply map_eq. intros p. destruct (decide (p = a)) as [-> | Ha].
  - by rewrite lookup_alter_eq, !lookup_alter_ne, lookup_alter_eq by done.
  - destruct (decide (p = b)) as [-> | Hb]; [| by rewrite !lookup_alter_ne by done].
    by rewrite lookup_alter_eq, lookup_alter_ne, lookup_alter_eq, lookup_alter_ne by done.
Qed.
Lemma with_prev_cong q ns (h1 h2 : gmap Z element) p : h1 !! p = h2 !! p -> with_prev q ns h1 !! p = with_prev q ns h2 !! p.
Proof. intros E. destruct ns as [| n ns]; [done |]. by apply alter_cong. Qed.
Lemma with_next_cong q ns (h1 h2 : gmap Z element) p : h1 !! p = h2 !! p -> with_next q ns h1 !! p = with_next q ns h2 !! p.
Proof. intros E. destruct ns as [| n ns]; [done |]. by apply alter_cong. Qed.
Lemma ende_null l ns : holds l ns -> (l.(DatenEnde) =? 0) = (head_or 0 ns =? 0).
Proof. intros [Hs _ _ ->]. by rewrite (last_or_null _ _ _ _ Hs), (head_or_null _ _ _ _ Hs). Qed.

Lemma DlisteAhead_puts key data l ns : holds l ns -> puts (DlisteAhead malloc key data) l [] key data ns.
Proof using Halloc.
  intros Hl. unfold puts, DlisteAhead. destruct (malloc l.(elements)) as [this |] eqn:Em; [| by apply no_memory].
  destruct (new_place l [] ns this key data Hl Em) as (H0 & Hf & _ & Hnot & _).
  rewrite (bind_some _ _ _ _ _ (new_run key data l this Em)). cbv beta iota. rewrite bind_gets.
  change (DatenAnfang (over _ _ l)) with l.(DatenAnfang).
  unfold set_next, set_prev. rewrite set_element_then by (cbn; by rewrite lookup_insert_eq).
  rewrite bind_gets. change (DatenEnde (over _ _ (over _ _ l))) with l.(DatenEnde).
  rewrite (ende_null l ns Hl), (holds_anfang _ _ Hl).
  set (l2 := over _ _ (over _ _ l)).
  assert (Hs : segment l2.(elements) 0 ns 0).
  { apply (segment_agree l.(elements)); [| apply Hl]. intros p Hp. unfold l2. cbn.
    by rewrite lookup_alter_ne, lookup_insert_ne by (by intros <-). }
  rewrite (bind_some _ _ _ _ _ (tie_front 0 ns 0 this l2 Hs ltac:(intros _; apply Hl))).
  unfold set_anfang. rewrite bind_modify, set_element_then.
  - eexists. split; [reflexivity |]. apply (puts_outcome l [] this key data ns); [done | done | | | done.. | by split_and!].
    + cbn. by rewrite lookup_alter_eq, with_prev_other, lookup_alter_eq, lookup_insert_eq.
    + intros p Hp. cbn. rewrite lookup_alter_ne by done. apply with_prev_cong. cbn.
      by rewrite lookup_alter_ne, lookup_insert_ne.
  - cbn. by rewrite with_prev_other, lookup_alter_eq, lookup_insert_eq.
Qed.

Lemma DlisteAppend_puts key data l ns : holds l ns -> puts (DlisteAppend malloc key data) l ns key data [].
Proof using Halloc.
  intros Hl. assert (Hl' : holds l (ns ++ [])) by by rewrite app_nil_r.
  unfold puts, DlisteAppend. destruct (malloc l.(elements)) as [this |] eqn:Em; [| by apply no_memory].
  destruct (new_place l ns [] this key data Hl' Em) as (H0 & Hf & Hnot & _).
  rewrite (bind_some _ _ _ _ _ (new_run key data l this Em)). cbv beta iota. rewrite bind_gets.
  change (DatenEnde (over _ _ l)) with l.(DatenEnde). unfold set_next, set_prev.
  rewrite (holds_ende _ _ Hl), (last_or_null _ _ _ _ (holds_segment _ _ Hl)).
  destruct (decide (ns = [])) as [-> | Hne].
  - rewrite bool_decide_eq_true_2 by done. rewrite set_element_then by (cbn; by rewrite lookup_insert_eq).
    rewrite set_element_then by (cbn; by rewrite lookup_alter_eq, lookup_insert_eq).
    eexists. split; [reflexivity |]. apply (puts_outcome l [] this key data []); [done | done | | | done.. | by split_and!].
    + cbn. by rewrite !lookup_alter_eq, lookup_insert_eq.
    + intros p Hp. cbn. by rewrite !lookup_alter_ne, lookup_insert_ne.
  - rewrite bool_decide_eq_false_2 by done.
    assert (Hlast : last_or 0 ns ∈ places ns).
    { destruct (exists_last Hne) as (xs & n & ->). rewrite last_or_snoc, map_app. apply elem_of_app. right. by left. }
    destruct (segment_in _ _ _ _ _ (holds_segment _ _ Hl) Hlast) as [e Ee].
    assert (Hd : last_or 0 ns <> this) by (by intros <-).
    rewrite set_element_then by (cbn; by rewrite lookup_insert_eq).
    rewrite set_element_then by (cbn; by rewrite lookup_alter_eq, lookup_insert_eq).
    rewrite set_element_then by (cbn; by rewrite !lookup_alter_ne, lookup_insert_ne, Ee).
    eexists. split; [reflexivity |]. apply (puts_outcome l ns this key data []); [done | done | | | | done.. | by split_and!].
    + cbn. by rewrite lookup_alter_ne, !lookup_alter_eq, lookup_insert_eq.
    + intros p Hp. cbn [with_prev]. destruct ns as [| n ns]; [done |]. unfold with_next. cbn [over elements].
      apply alter_cong. by rewrite !lookup_alter_ne, lookup_insert_ne.
    + cbn. rewrite (holds_anfang _ _ Hl). by apply head_or_any.
Qed.

(** ** Insertion in order *)

Section Order.
Context (cmp : Z -> Z -> Z) (key data : Z).

(** What is before and behind the first of the items whose key is greater. *)
Fixpoint split_after (ns : list item) : list item * list item :=
  match ns with
  | [] => ([], [])
  | n :: ns => if 0 <? cmp n.(key_of) key then ([], n :: ns)
               else let '(xs, ys) := split_after ns in (n :: xs, ys)
  end.
(** Where a new key goes: before the first one it is not greater than, or
    behind the keys that are not greater than it. *)
Definition split_at (ns : list item) : list item * list item :=
  match ns with
  | [] => ([], [])
  | n :: ms => if cmp key n.(key_of) <=? 0 then ([], ns)
               else let '(xs, ys) := split_after ms in (n :: xs, ys)
  end.
Lemma split_after_app ns : (split_after ns).1 ++ (split_after ns).2 = ns.
Proof. induction ns as [| n ns IH]; [done |]. cbn. destruct (0 <? _); [done |]. destruct (split_after ns). cbn in *. by rewrite IH. Qed.
Lemma split_at_app ns : (split_at ns).1 ++ (split_at ns).2 = ns.
Proof.
  destruct ns as [| n ns]; [done |]. cbn. destruct (_ <=? 0); [done |]. pose proof (split_after_app ns).
  destruct (split_after ns). cbn in *. by rewrite H.
Qed.

Lemma insert_after_run this ms fuel l xs w e :
  segment l.(elements) 0 (xs ++ w :: ms) 0 -> NoDup (places (xs ++ w :: ms)) -> this ∉ places (xs ++ w :: ms) ->
  l.(elements) !! this = Some e -> e.(Key) = key -> e.(Data) = data -> l.(Compare) = Some cmp ->
  l.(DatenEnde) = last_or 0 (w :: ms) -> (length ms < fuel)%nat ->
  let '(a, b) := split_after ms in exists l',
    insert_after fuel this w.(at_) l = Some (tt, l') /\
    l'.(elements) !! this = Some (mk_element key data (last_or 0 (xs ++ w :: a)) (head_or 0 b)) /\
    (forall p, p <> this -> l'.(elements) !! p = with_prev this b (with_next this (xs ++ w :: a) l.(elements)) !! p) /\
    l'.(DatenAnfang) = l.(DatenAnfang) /\ l'.(DatenEnde) = last_or this b /\ l'.(calls) = l.(calls) /\ same_kind l l'.
Proof.
  revert fuel xs w. induction ms as [| m ms IH]; intros [| fuel] xs w Hs Hnd Hn E Ek Ed Ec He Hf; cbn [length] in Hf; try lia.
  all: apply segment_app in Hs as [Hx (Hw0 & Ew & Hy)]; cbn [insert_after head_or] in *; unfold get_next.
  all: rewrite bind_assoc, (bind_some _ _ _ _ _ (element_at_run _ _ _ Ew)), bind_ret; cbn [Next].
  all: assert (Hw : w.(at_) <> this) by (intros <-; apply Hn; rewrite map_app; apply elem_of_app; right; by left).
  all: unfold set_prev, set_next.
  - cbn [split_after]. change (0 =? 0) with true. cbv iota.
    rewrite set_element_then by (by rewrite E). rewrite set_element_then by (cbn; by rewrite lookup_alter_eq, E).
    rewrite set_element_then by (cbn; by rewrite !lookup_alter_ne, Ew).
    eexists. split; [reflexivity |]. split; [| split; [| by split_and!]].
    + cbn. rewrite lookup_alter_ne, !lookup_alter_eq, E by done. destruct e. cbn in *. subst.
      by rewrite last_or_snoc.
    + intros p Hp. cbn [with_prev]. rewrite with_next_snoc. apply alter_cong. cbn. by rewrite !lookup_alter_ne.
  - pose proof Hy as (Hm0 & Em & _). replace (m.(at_) =? 0) with false by zbool. unfold get_key.
    rewrite bind_assoc, (bind_some _ _ _ _ _ (element_at_run _ _ _ Em)), bind_ret.
    rewrite bind_assoc, (bind_some _ _ _ _ _ (element_at_run _ _ _ E)), bind_ret, Ek.
    unfold compare. rewrite bind_assoc, bind_gets, Ec, bind_assoc. change (need (Some cmp)) with (@ret dliste_t _ cmp).
    rewrite !bind_ret. cbn [Key split_after]. destruct (0 <? cmp m.(key_of) key).
    + assert (Hm : m.(at_) <> this).
      { intros <-. apply Hn. rewrite map_app. apply elem_of_app. right. right. by left. }
      assert (Hwm : w.(at_) <> m.(at_)).
      { rewrite map_app in Hnd. apply NoDup_app in Hnd as (_ & _ & [Hnd _]%NoDup_cons). intros Ewm. apply Hnd.
        rewrite Ewm. by left. }
      rewrite set_element_then by (by rewrite E). rewrite set_element_then by (cbn; by rewrite lookup_alter_ne, Em).
      rewrite set_element_then by (cbn; by rewrite lookup_alter_ne, lookup_alter_eq, E).
      rewrite set_element_run by (cbn; by rewrite !lookup_alter_ne, Ew).
      eexists. split; [reflexivity |]. split; [| split; [| by split_and!]].
      * cbn. rewrite lookup_alter_ne, lookup_alter_eq, lookup_alter_ne, lookup_alter_eq, E by done.
        destruct e. cbn in *. subst. by rewrite last_or_snoc.
      * intros p Hp. cbn [with_prev]. rewrite with_next_snoc. cbn. rewrite (alter_swap _ _ m.(at_) w.(at_)) by done.
        apply alter_cong. rewrite lookup_alter_ne by done. apply alter_cong. by rewrite lookup_alter_ne.
    + specialize (IH fuel (xs ++ [w]) m). destruct (split_after ms) as [a b].
      rewrite <- !(app_assoc xs) in IH. cbn [app] in IH. apply IH; try done; [| lia].
      apply segment_app. by split.
Qed.

(** The new key's place in a list. *)
Lemma DlisteInsert_puts l ns : holds l ns -> l.(Compare) = Some cmp ->
  puts (DlisteInsert malloc key data) l (split_at ns).1 key data (split_at ns).2.
Proof using Halloc.
  intros Hl Ec. pose proof (split_at_app ns) as Es.
  unfold puts, DlisteInsert. destruct (malloc l.(elements)) as [this |] eqn:Em; [| by apply no_memory].
  assert (Hl' : holds l ((split_at ns).1 ++ (split_at ns).2)) by by rewrite Es.
  destruct (new_place l _ _ this key data Hl' Em) as (H0 & Hf & Hx & Hy & Hnd).
  rewrite (bind_some _ _ _ _ _ (new_run key data l this Em)). cbv beta iota. rewrite bind_gets.
  change (DatenAnfang (over _ _ l)) with l.(DatenAnfang).
  rewrite (holds_anfang _ _ Hl), (head_or_null _ _ _ _ (holds_segment _ _ Hl)). unfold set_prev, set_next.
  destruct ns as [| n ms].
  - rewrite bool_decide_eq_true_2 by done. rewrite set_element_then by (cbn; by rewrite lookup_insert_eq).
    rewrite set_element_then by (cbn; by rewrite lookup_alter_eq, lookup_insert_eq).
    eexists. split; [reflexivity |]. apply (puts_outcome l [] this key data []); [done | done | | | done.. | by split_and!].
    + cbn. by rewrite !lookup_alter_eq, lookup_insert_eq.
    + intros p Hp. cbn. by rewrite !lookup_alter_ne, lookup_insert_ne.
  - rewrite bool_decide_eq_false_2 by done. unfold get_key. cbn [head_or].
    destruct (holds_segment _ _ Hl) as (Hn0 & En & _).
    assert (Hin : this ∉ places (n :: ms)) by (rewrite <- Es, map_app; by apply not_elem_of_app).
    assert (Hne : n.(at_) <> this) by (intros <-; apply Hin; by left).
    set (l1 := over _ _ l).
    assert (E1 : l1.(elements) !! this = Some (mk_element key data 0 0)) by (cbn; by rewrite lookup_insert_eq).
    assert (En1 : l1.(elements) !! n.(at_) = l.(elements) !! n.(at_)) by (cbn; by rewrite lookup_insert_ne).
    rewrite En in En1.
    rewrite bind_assoc, (bind_some _ _ _ _ _ (element_at_run _ _ _ E1)), bind_ret.
    rewrite bind_assoc, (bind_some _ _ _ _ _ (element_at_run _ _ _ En1)), bind_ret. cbn [Key].
    unfold compare. rewrite bind_assoc, bind_gets. change (Compare l1) with l.(Compare). rewrite Ec, bind_assoc.
    change (need (Some cmp)) with (@ret dliste_t _ cmp). rewrite !bind_ret.
    replace ((_ <? 0) || _) with (cmp key n.(key_of) <=? 0) by (destruct (Z.leb_spec (cmp key n.(key_of)) 0); zbool).
    revert Hl' Hx Hy. cbn [split_at]. destruct (cmp key n.(key_of) <=? 0).
    + intros Hl' Hx Hy. rewrite set_element_then by (by rewrite En1).
      rewrite set_element_then by (cbn; by rewrite lookup_alter_ne, lookup_insert_eq).
      rewrite set_element_then by (cbn; by rewrite lookup_alter_eq, lookup_alter_ne, lookup_insert_eq).
      eexists. split; [reflexivity |].
      apply (puts_outcome l [] this key data (n :: ms)); [done | done | | | done | | done | by split_and!].
      * cbn. by rewrite !lookup_alter_eq, lookup_alter_ne, lookup_insert_eq.
      * intros p Hp. cbn. rewrite !lookup_alter_ne by done. apply alter_cong. by rewrite lookup_insert_ne.
      * cbn. apply Hl.
    + assert (Hs1 : segment l1.(elements) 0 ([] ++ n :: ms) 0).
      { apply (segment_agree l.(elements)); [| apply Hl]. intros p Hp. cbn.
        apply lookup_insert_ne. by intros <-. }
      assert (Hz : (length ms < size l1.(elements))%nat) by apply (length_segment _ _ _ _ Hs1 (holds_places _ _ Hl)).
      pose proof (insert_after_run this ms (size l1.(elements)) l1 [] n _ Hs1 (holds_places _ _ Hl) Hin E1
        eq_refl eq_refl Ec (holds_ende _ _ Hl) Hz) as R.
      destruct (split_after ms) as [a b]. cbn [fst snd app] in *. destruct R as (l' & R & E' & Ho & Ha & He & Hc & Hk).
      intros Hl' Hx Hy. rewrite bind_gets, (bind_some _ _ _ _ _ R). eexists. split; [reflexivity |].
      apply (puts_outcome l (n :: a) this key data b); try done.
      * intros p Hp. rewrite Ho by done. apply with_prev_cong, with_next_cong. cbn. by apply lookup_insert_ne.
      * rewrite Ha. apply (holds_anfang _ _ Hl).
Qed.
End Order.
End Insertion.
End DlisteSpec.
