(* ===== verification/MrMenge.v ===== *)
(** Searching, deleting and walking through mrsystem's lists, and what that makes
    of its sets (menge) and queues (queue). *)

From Stdlib Require Import Sorted.
From S2P Require Import Prelude Avl MrDliste MrDlisteSpec.

Module MengeSpec.
Import Avl(destroyed, Destroyed_key, Destroyed_data) Dliste DlisteSpec.

(** * Walking and searching *)

Lemma iter_next_run l xs n ys : holds l (xs ++ n :: ys) -> DlisteNext n.(at_) l = Some (head_or 0 ys, l).
Proof.
  intros Hl. destruct (holds_split l xs n ys Hl) as (E & _).
  assert (H0 : n.(at_) <> 0).
  { intros H0. apply (segment_not_null _ _ _ _ (holds_segment _ _ Hl)). rewrite <- H0, map_app.
    apply elem_of_app. right. by left. }
  unfold DlisteNext, get_next. replace (n.(at_) =? 0) with false by zbool.
  by rewrite (bind_some _ _ _ _ _ (element_at_run _ _ _ E)).
Qed.

Definition first_place (ok : item -> bool) (ns : list item) : Z :=
  match List.find ok ns with Some n => n.(at_) | None => 0 end.
Fixpoint remove_first (ok : item -> bool) (ns : list item) : list item :=
  match ns with [] => [] | n :: ns => if ok n then ns else n :: remove_first ok ns end.

Lemma find_split ok ns :
  match List.find ok ns with
  | Some n => ok n = true /\ exists xs ys, ns = xs ++ n :: ys /\ remove_first ok ns = xs ++ ys /\ forall x, x ∈ xs -> ok x = false
  | None => remove_first ok ns = ns /\ forall x, x ∈ ns -> ok x = false
  end.
Proof.
  induction ns as [| n ns IH]; [by split; [| intros x []%elem_of_nil] |]. cbn. destruct (ok n) eqn:E.
  - split; [done |]. exists [], ns. split_and!; [done | done |]. intros x []%elem_of_nil.
  - destruct (List.find ok ns) as [m |].
    + destruct IH as (Em & xs & ys & -> & -> & Hx). split; [done |]. exists (n :: xs), ys.
      split_and!; [done | done |]. intros x [-> | Hin]%elem_of_cons; [done | by apply Hx].
    + destruct IH as [-> Hx]. split; [done |]. intros x [-> | Hin]%elem_of_cons; [done | by apply Hx].
Qed.

Lemma search_run ok same l ns prev fuel : segment l.(elements) prev ns 0 ->
  (forall n p q, n ∈ ns -> same (mk_element n.(key_of) n.(data_of) p q) l = Some (ok n, l)) ->
  (length ns < fuel)%nat -> search fuel same (head_or 0 ns) l = Some (first_place ok ns, l).
Proof.
  revert prev fuel. induction ns as [| n ns IH]; intros prev [| fuel] Hs Hok Hf; cbn [length] in Hf; try lia; [done |].
  destruct Hs as (H0 & E & Hs). cbn [search head_or]. replace (n.(at_) =? 0) with false by zbool.
  rewrite (bind_some _ _ _ _ _ (element_at_run _ _ _ E)), (bind_some _ _ _ _ _ (Hok n _ _ ltac:(left))).
  unfold first_place. cbn [List.find]. destruct (ok n); [done |]. cbn [Next].
  apply (IH n.(at_)); [done | | lia]. intros m p q Hm. apply Hok. by right.
Qed.

(** The first accepted element deleted, if there is one. *)
Lemma delete_first_run ok l ns : holds l ns -> exists l',
  (if first_place ok ns =? 0 then ret tt else DlisteDelAkt (first_place ok ns)) l = Some (tt, l') /\
  becomes l ns l' (remove_first ok ns) (match List.find ok ns with Some n => freed l n | None => [] end).
Proof.
  intros Hl. pose proof (find_split ok ns) as F. unfold first_place. destruct (List.find ok ns) as [n |].
  - destruct F as (_ & xs & ys & -> & -> & _). destruct (DlisteDelAkt_run l xs n ys Hl) as (l' & R & B).
    exists l'. split; [| done]. replace (n.(at_) =? 0) with false; [done |]. symmetry. apply Z.eqb_neq. intros H0.
    apply (segment_not_null _ _ _ _ (holds_segment _ _ Hl)). rewrite <- H0, map_app. apply elem_of_app. right. by left.
  - destruct F as [-> _]. exists l. split; [done |]. constructor; [done | by rewrite app_nil_r | by split_and! | done].
Qed.

Section Keys.
Context (cmp : Z -> Z -> Z).
Definition key_is (key : Z) (n : item) : bool := cmp n.(key_of) key =? 0.

Lemma DlisteFinde_run key l ns : holds l ns -> l.(Compare) = Some cmp ->
  DlisteFinde key l = Some (first_place (key_is key) ns, l).
Proof.
  intros Hl Ec. unfold DlisteFinde. rewrite !bind_gets, (holds_anfang _ _ Hl).
  apply (search_run _ _ _ _ 0); [apply Hl | |].
  - intros n p q _. unfold same_key, compare. by rewrite bind_assoc, bind_gets, Ec.
  - pose proof (length_segment _ _ _ _ (holds_segment _ _ Hl) (holds_places _ _ Hl)). lia.
Qed.
Lemma DlisteDelete_run key l ns : holds l ns -> l.(Compare) = Some cmp -> exists l',
  DlisteDelete key l = Some (tt, l') /\
  becomes l ns l' (remove_first (key_is key) ns) (match List.find (key_is key) ns with Some n => freed l n | None => [] end).
Proof.
  intros Hl Ec. unfold DlisteDelete. rewrite (bind_some _ _ _ _ _ (DlisteFinde_run key l ns Hl Ec)).
  by apply delete_first_run.
Qed.
End Keys.

(** * The end of a list *)

Lemma destroy_from_run ns : forall prev fuel l, segment l.(elements) prev ns 0 -> NoDup (places ns) ->
  (length ns < fuel)%nat -> exists l', destroy_from fuel (head_or 0 ns) l = Some (tt, l') /\
    l'.(calls) = l.(calls) ++ flat_map (freed l) ns /\
    forall p, l'.(elements) !! p = if decide (p ∈ places ns) then None else l.(elements) !! p.
Proof.
  induction ns as [| n ns IH]; intros prev [| fuel] l Hs Hnd Hf; cbn [length] in Hf; try lia.
  - exists l. split; [done |]. split; [by rewrite app_nil_r |]. intros p. rewrite decide_False; [done |]. apply not_elem_of_nil.
  - destruct Hs as (H0 & E & Hs). apply NoDup_cons in Hnd as [Hn Hnd]. cbn [destroy_from head_or].
    replace (n.(at_) =? 0) with false by zbool. unfold get_next.
    rewrite bind_assoc, (bind_some _ _ _ _ _ (element_at_run _ _ _ E)), bind_ret.
    rewrite (bind_some _ _ _ _ _ (destroy_entry_run _ _ _ E)). cbn [Key Data Next].
    unfold free. rewrite bind_assoc. erewrite bind_some by (apply element_at_run; exact E).
    rewrite bind_modify.
    set (l1 := over _ _ (over _ _ l)).
    destruct (IH n.(at_) fuel l1) as (l' & R & Hc & Hl'); [| done | lia |].
    { apply (segment_agree l.(elements)); [| done]. intros p Hp. cbn. apply lookup_delete_ne. by intros <-. }
    exists l'. split; [exact R |]. split.
    + rewrite Hc. cbn [flat_map]. rewrite app_assoc. by destruct n.
    + intros p. rewrite Hl'. cbn. destruct (decide (p = n.(at_))) as [-> | Hp].
      * rewrite (decide_False (P := n.(at_) ∈ places ns)), decide_True by (done || by left). apply lookup_delete_eq.
      * rewrite lookup_delete_ne by done. destruct (decide (p ∈ places ns)).
        -- by rewrite decide_True by by right.
        -- rewrite decide_False; [done |]. by intros [? | ?]%elem_of_cons.
Qed.

Lemma DlisteDestroy_run l ns : holds l ns -> exists l', DlisteDestroy l = Some (tt, l') /\
  l'.(calls) = l.(calls) ++ flat_map (freed l) ns /\
  forall p, l'.(elements) !! p = if decide (p ∈ places ns) then None else l.(elements) !! p.
Proof.
  intros Hl. unfold DlisteDestroy. rewrite !bind_gets, (holds_anfang _ _ Hl).
  apply (destroy_from_run ns 0); [apply Hl | apply Hl |].
  pose proof (length_segment _ _ _ _ (holds_segment _ _ Hl) (holds_places _ _ Hl)). lia.
Qed.

(** C18. The doubly linked lists are sequences.  In memory that holds a list, with
    whatever else, [DlisteAhead] and [DlisteAppend] put a new item at the front
    and at the end, or leave the list alone where there is no memory;
    [DlisteFinde] finds the first item with an equal key, and [DlisteDelete]
    takes it out, gives its key and data to the call-backs and frees it (dliste.txt
    says that it returns the element and that the caller frees it with its key and
    data); what is not the list's stays as it is.  [DlisteDestroy] gives every item to the call-backs
    once, in order, and leaves none of the list's memory behind. *)
Theorem dliste_is_a_sequence malloc cmp l ns key data :
  allocator malloc -> holds l ns -> l.(Compare) = Some cmp ->
  puts malloc (DlisteAhead malloc key data) l [] key data ns /\
  puts malloc (DlisteAppend malloc key data) l ns key data [] /\
  DlisteFinde key l = Some (first_place (key_is cmp key) ns, l) /\
  (exists l', DlisteDelete key l = Some (tt, l') /\
    becomes l ns l' (remove_first (key_is cmp key) ns)
      (match List.find (key_is cmp key) ns with Some n => freed l n | None => [] end)) /\
  (exists l', DlisteDestroy l = Some (tt, l') /\
    l'.(calls) = l.(calls) ++ flat_map (freed l) ns /\
    forall p, l'.(elements) !! p = if decide (p ∈ places ns) then None else l.(elements) !! p).
Proof.
  intros Ha Hl Hc. split; [by apply DlisteAhead_puts |]. split; [by apply DlisteAppend_puts |].
  split; [by apply DlisteFinde_run |]. split; [by apply DlisteDelete_run | by apply DlisteDestroy_run].
Qed.
(** An allocator for examples and a list of two items in memory. *)
Definition an_malloc (h : gmap Z element) : option Z := Some (fresh ({[0]} ∪ dom h : gset Z)).
Lemma an_malloc_ok : allocator an_malloc.
Proof.
  intros h p [= <-]. pose proof (is_fresh ({[0]} ∪ dom h : gset Z)) as F.
  split; [set_solver | apply not_elem_of_dom; set_solver].
Qed.
Definition one_item := mk_item 10 1 100.
Definition three_item := mk_item 30 3 300.
Definition two_items : dliste_t :=
  mk_dliste {[10 := mk_element 1 100 0 30; 30 := mk_element 3 300 10 0]} 10 30 (Some Z.sub) false true [].
Lemma two_items_held : holds two_items [one_item; three_item].
Proof.
  constructor; [split_and!; done | | done | done].
  apply NoDup_cons. split; [by intros ?%list_elem_of_singleton | apply NoDup_singleton].
Qed.
Lemma dliste_is_a_sequence_witness : DlisteFinde 3 two_items = Some (30, two_items).
Proof.
  destruct (dliste_is_a_sequence an_malloc Z.sub two_items [one_item; three_item] 3 0) as (_ & _ & E & _);
    [exact an_malloc_ok | exact two_items_held | reflexivity | exact E].
Defined.

(** * Lists in order *)

Section Sorted.
Context (cmp : Z -> Z -> Z).
(** What a comparison must be: of two keys one is not greater, and what is not
    greater than a smaller one is not greater. *)
Definition comparison : Prop :=
  (forall a b, 0 < cmp a b -> cmp b a <= 0) /\ (forall a b c, cmp a b <= 0 -> cmp b c <= 0 -> cmp a c <= 0).
Context (Hcmp : comparison).
Definition le_key (m n : item) : Prop := cmp m.(key_of) n.(key_of) <= 0.
Definition ordered (ns : list item) : Prop := StronglySorted le_key ns.

Lemma split_after_keys key ns : ordered ns ->
  Forall (fun n => cmp n.(key_of) key <= 0) (split_after cmp key ns).1 /\
  Forall (fun n => cmp key n.(key_of) <= 0) (split_after cmp key ns).2.
Proof using Hcmp.
  destruct Hcmp as [Htot Htr]. induction 1 as [| n ns Hs IH Hn]; [by split |]. cbn [split_after].
  destruct (Z.ltb_spec 0 (cmp n.(key_of) key)) as [H | H].
  - split; [done |]. pose proof (Htot _ _ H) as Hk. constructor; [done |].
    eapply Forall_impl; [exact Hn |]. intros m Hm. by apply (Htr _ n.(key_of)).
  - destruct (split_after cmp key ns) as [a b]. destruct IH. split; [by constructor | done].
Qed.
Lemma split_at_keys key ns : ordered ns ->
  Forall (fun n => cmp n.(key_of) key <= 0) (split_at cmp key ns).1 /\
  Forall (fun n => cmp key n.(key_of) <= 0) (split_at cmp key ns).2.
Proof using Hcmp.
  destruct Hcmp as [Htot Htr]. intros [| n ms Hs Hn]; [by split |]. cbn [split_at].
  destruct (Z.leb_spec (cmp key n.(key_of)) 0) as [H | H].
  - split; [done |]. constructor; [done |]. eapply Forall_impl; [exact Hn |]. intros m Hm. by apply (Htr _ n.(key_of)).
  - pose proof (split_after_keys key ms Hs) as K. destruct (split_after cmp key ms) as [a b]. destruct K.
    split; [constructor; [by apply Htot | done] | done].
Qed.
Lemma ordered_parts xs ys : ordered (xs ++ ys) <-> ordered xs /\ ordered ys /\ Forall (fun x => Forall (le_key x) ys) xs.
Proof.
  induction xs as [| x xs IH]; cbn.
  - split; [intros H; split_and!; [constructor | done | done] | by intros (_ & H & _)].
  - split.
    + intros [H Hx]%StronglySorted_inv. apply IH in H as (H1 & H2 & H3). apply Forall_app in Hx as [Hx1 Hx2].
      split; [by constructor |]. split; [done | by constructor].
    + intros ([H1 Hx]%StronglySorted_inv & H2 & [Hx2 H3]%Forall_cons).
      constructor; [by apply IH | by apply Forall_app].
Qed.

(** C28. [DlisteInsert] keeps a list in order.  Where the keys are in order and the
    comparison is one, a list that gets a new item holds its old items and the
    new one, in order; where there is no memory nothing changes. *)
Theorem insert_keeps_order malloc l ns key data :
  allocator malloc -> holds l ns -> l.(Compare) = Some cmp -> ordered ns ->
  match malloc l.(elements) with
  | None => DlisteInsert malloc key data l = Some (false, l)
  | Some this => exists l' ns', DlisteInsert malloc key data l = Some (true, l') /\ holds l' ns' /\
      ordered ns' /\ ns' ≡ₚ mk_item this key data :: ns /\ l'.(calls) = l.(calls)
  end.
Proof using Hcmp.
  intros Ha Hl Hc Ho. pose proof (DlisteInsert_puts malloc Ha cmp key data l ns Hl Hc) as P. unfold puts in P.
  destruct (malloc l.(elements)) as [this |]; [| done]. destruct P as (l' & R & [Hl' Hk _ _]).
  pose proof (split_at_keys key ns Ho) as [K1 K2]. pose proof (split_at_app cmp key ns) as Es.
  destruct (split_at cmp key ns) as [a b]. cbn [fst snd] in *. subst ns.
  apply ordered_parts in Ho as (Oa & Ob & Oab). exists l', (a ++ mk_item this key data :: b).
  split; [done |]. split; [done |]. split; [| split; [by rewrite Permutation_middle | by rewrite app_nil_r in Hk]].
  apply ordered_parts. split; [done |]. split; [by constructor |].
  apply Forall_forall. intros x Hx. rewrite Forall_forall in K1, Oab. constructor; [by apply K1 | by apply Oab].
Qed.
End Sorted.
Lemma insert_keeps_order_witness : exists l' ns',
  DlisteInsert an_malloc 2 200 two_items = Some (true, l') /\ holds l' ns' /\ ordered Z.sub ns'.
Proof.
  pose proof (insert_keeps_order Z.sub ltac:(split; lia) an_malloc two_items [one_item; three_item] 2 200
    an_malloc_ok two_items_held eq_refl) as H.
  assert (Ho : ordered Z.sub [one_item; three_item]) by (repeat constructor; done).
  specialize (H Ho). cbn [an_malloc] in H. destruct H as (l' & ns' & R & Hl & Hs & _). by exists l', ns'.
Defined.

(** * Sets *)

Notation datas ns := (map data_of ns).

Lemma data_there_run move m xs ys : holds m.(MengeDaten) (xs ++ ys) ->
  move m.(MengeDaten) = Some (head_or 0 ys, m.(MengeDaten)) ->
  data_there move m = Some ((head_or 0 ys, hd 0 (datas ys)), m).
Proof.
  intros Hl Hm. unfold data_there, on_daten. rewrite (bind_some _ _ _ _ _ Hm).
  pose proof (holds_segment _ _ Hl) as [_ Hs]%segment_app. rewrite (head_or_null _ _ _ _ Hs). destruct ys as [| n ys].
  - rewrite bool_decide_eq_true_2 by done. by destruct m.
  - rewrite bool_decide_eq_false_2 by done. destruct Hs as (_ & E & _). cbn [head_or]. unfold get_data.
    rewrite bind_assoc, (bind_some _ _ _ _ _ (element_at_run _ _ _ E)), bind_ret. by destruct m.
Qed.
Lemma MengeFirst_run m ns : holds m.(MengeDaten) ns -> MengeFirst m = Some ((head_or 0 ns, hd 0 (datas ns)), m).
Proof. intros Hl. apply (data_there_run _ m [] ns Hl). unfold DlisteFirst, gets. by rewrite (holds_anfang _ _ Hl). Qed.
Lemma MengeNext_run m xs n ys : holds m.(MengeDaten) (xs ++ n :: ys) ->
  MengeNext n.(at_) m = Some ((head_or 0 ys, hd 0 (datas ys)), m).
Proof.
  intros Hl. apply (data_there_run _ m (xs ++ [n]) ys); [by rewrite <- app_assoc |]. by apply (iter_next_run _ xs n ys).
Qed.
Lemma MengeAdd_run malloc m ns data : allocator malloc -> holds m.(MengeDaten) ns ->
  match malloc m.(MengeDaten).(elements) with
  | None => MengeAdd malloc data m = Some (false, m)
  | Some this => exists l', MengeAdd malloc data m = Some (true, mk_menge l' m.(MengeCompare)) /\
      becomes m.(MengeDaten) ns l' (mk_item this 0 data :: ns) []
  end.
Proof.
  intros Ha Hl. pose proof (DlisteAhead_puts malloc Ha 0 data _ ns Hl) as P. unfold puts in P. unfold MengeAdd, on_daten.
  destruct (malloc _) as [this |]; [destruct P as (l' & R & B); exists l' | rename P into R]; rewrite R; by destruct m.
Qed.
Lemma MengeRemove_run m f ns data : holds m.(MengeDaten) ns -> m.(MengeCompare) = Some f ->
  let ok n := f n.(data_of) data =? 0 in
  exists l', MengeRemove data m = Some (tt, mk_menge l' m.(MengeCompare)) /\
    becomes m.(MengeDaten) ns l' (remove_first ok ns)
      (match List.find ok ns with Some n => freed m.(MengeDaten) n | None => [] end).
Proof.
  intros Hl Hf ok. destruct (delete_first_run ok _ ns Hl) as (l' & R & B). exists l'. split; [| done].
  unfold MengeRemove. rewrite bind_get, Hf. unfold on_daten, DlisteFirst. rewrite !bind_gets, (holds_anfang _ _ Hl).
  rewrite (bind_some _ _ _ (first_place ok ns) (MengeDaten m)); [rewrite R, <- Hf; by destruct m |].
  apply (search_run _ _ _ _ 0); [apply Hl | by intros n p q _ |].
  pose proof (length_segment _ _ _ _ (holds_segment _ _ Hl) (holds_places _ _ Hl)). lia.
Qed.

(** * Queues *)

(** A list that is the queue [q], the oldest first. *)
Definition queue_of (l : dliste_t) (q : list Z) : Prop :=
  exists ns, holds l ns /\ rev (map data_of ns) = q /\ Forall (fun n => n.(key_of) = 0) ns.

(** The data of an item changed. *)
Lemma holds_data l xs n ys d : holds l (xs ++ n :: ys) ->
  holds (l <| elements ::= alter (fun e => e <| Data := d |>) n.(at_) |>) (xs ++ mk_item n.(at_) n.(key_of) d :: ys).
Proof.
  intros Hl. destruct (holds_split l xs n ys Hl) as (E & _ & _ & Nx & Ny & _). destruct Hl as [Hs Hn Ha He].
  apply segment_app in Hs as [Hx (H0 & _ & Hy)]. constructor.
  - apply segment_app. cbn [segment at_ key_of data_of head_or over elements]. split; [| split; [done | split]].
    + apply (segment_agree l.(elements)); [| done]. intros p Hp. apply lookup_alter_ne. by intros <-.
    + by rewrite lookup_alter_eq, E.
    + apply (segment_agree l.(elements)); [| done]. intros p Hp. apply lookup_alter_ne. by intros <-.
  - by rewrite map_app in Hn |- *.
  - cbn. rewrite Ha, !head_or_app. done.
  - cbn. rewrite He, !last_or_app. done.
Qed.

Lemma QueueGet_run l d q : queue_of l (d :: q) -> exists l',
  QueueGet l = Some (d, l') /\ queue_of l' q /\ l'.(calls) = l.(calls) /\ same_kind l l'.
Proof.
  intros (ns & Hl & Hq & Hk). destruct (exists_last (l := ns)) as (xs & n & ->); [by intros -> |].
  rewrite map_app, rev_app_distr in Hq. injection Hq as Hd Hq. apply Forall_app in Hk as [Hkx [Hkn _]%Forall_cons].
  destruct (holds_split l xs n [] Hl) as (E & _).
  assert (H0 : n.(at_) <> 0) by (pose proof (holds_segment _ _ Hl) as [_ [? _]]%segment_app; done).
  unfold QueueGet, DlisteLast. rewrite bind_gets, (holds_ende _ _ Hl), last_or_snoc.
  replace (n.(at_) =? 0) with false by zbool. unfold get_data.
  rewrite bind_assoc, (bind_some _ _ _ _ _ (element_at_run _ _ _ E)), bind_ret, set_element_then by (by rewrite E).
  cbn [Data]. destruct (DlisteDelAkt_run _ xs _ [] (holds_data l xs n [] 0 Hl)) as (l' & R & [Hl' Hc Hsk _]).
  cbn [at_] in R. rewrite (bind_some _ _ _ _ _ R). exists l'. rewrite Hd. split; [done |].
  rewrite app_nil_r in Hl'. split; [by exists xs |]. split; [| exact Hsk]. rewrite Hc. unfold freed. cbn [key_of data_of].
  rewrite Hkn. change (negb (0 =? 0)) with false. by rewrite !andb_false_r, app_nil_r.
Qed.
Lemma QueueAdd_run malloc l q d : allocator malloc -> queue_of l q ->
  match malloc l.(elements) with
  | None => QueueAdd malloc d l = Some (false, l)
  | Some _ => exists l', QueueAdd malloc d l = Some (true, l') /\ queue_of l' (q ++ [d]) /\ l'.(calls) = l.(calls) /\ same_kind l l'
  end.
Proof.
  intros Ha (ns & Hl & <- & Hk). pose proof (DlisteAhead_puts malloc Ha 0 d l ns Hl) as P. unfold puts in P.
  unfold QueueAdd. destruct (malloc l.(elements)) as [this |]; [| done].
  destruct P as (l' & R & [Hl' Hc Hsk _]). exists l'. split; [done |]. rewrite app_nil_r in Hc. split; [| by split].
  exists (mk_item this 0 d :: ns). split; [done |]. split; [done | by constructor].
Qed.

(** What a queue is asked to do. *)
Inductive queue_op := Add (d : Z) | Get.
Definition do_queue (malloc : gmap Z element -> option Z) (o : queue_op) : prog dliste_t (option Z) :=
  match o with
  | Add d => do* QueueAdd malloc d in ret None
  | Get => let* d := QueueGet in ret (Some d)
  end.
Fixpoint do_queues (malloc : gmap Z element -> option Z) (os : list queue_op) : prog dliste_t (list Z) :=
  match os with
  | [] => ret []
  | o :: os =>
      let* d := do_queue malloc o in
      let* ds := do_queues malloc os in
      ret (match d with Some d => d :: ds | None => ds end)
  end.
(** The answers of a queue that holds [q], and what it holds in the end. *)
Fixpoint queue_answers (os : list queue_op) (q : list Z) : list Z * list Z :=
  match os with
  | [] => ([], q)
  | Add d :: os => queue_answers os (q ++ [d])
  | Get :: os => let '(ds, q') := queue_answers os (tl q) in (hd 0 q :: ds, q')
  end.

(** C27. A queue gives back what it was given, in order.  Whatever is added to a
    queue and taken from it, where there is memory: every answer is the oldest
    datum that is left, NULL when there is none, and none of the data goes to
    the call-back that destroys them. *)
Theorem queue_keeps_order malloc os l q : allocator malloc -> (forall h, is_Some (malloc h)) -> queue_of l q ->
  exists l', do_queues malloc os l = Some ((queue_answers os q).1, l') /\
    queue_of l' (queue_answers os q).2 /\ l'.(calls) = l.(calls).
Proof.
  intros Ha Hm. revert l q. induction os as [| [d |] os IH]; intros l q Hl; [by exists l | |]; cbn [do_queues do_queue queue_answers].
  - pose proof (QueueAdd_run malloc l q d Ha Hl) as P. destruct (Hm l.(elements)) as [this E]. rewrite E in P.
    destruct P as (l1 & R & Hl1 & Hc & _). destruct (IH l1 _ Hl1) as (l' & R' & Hl' & Hc').
    exists l'. rewrite bind_assoc, (bind_some _ _ _ _ _ R), bind_ret, (bind_some _ _ _ _ _ R'). split; [done |].
    split; [done | by rewrite Hc'].
  - assert (exists l1, QueueGet l = Some (hd 0 q, l1) /\ queue_of l1 (tl q) /\ l1.(calls) = l.(calls)) as (l1 & R & Hl1 & Hc).
    { destruct q as [| d q]; [| destruct (QueueGet_run l d q Hl) as (l1 & ? & ? & ? & _); by exists l1].
      exists l. split; [| by split]. destruct Hl as (ns & Hl & Hq & _).
      assert (ns = []) as -> by (destruct ns as [| n ns]; [done |]; cbn in Hq; by apply app_nil in Hq as [_ ?]).
      unfold QueueGet, DlisteLast. by rewrite bind_gets, (holds_ende _ _ Hl). }
    destruct (IH l1 _ Hl1) as (l' & R' & Hl' & Hc'). destruct (queue_answers os (tl q)) as [ds q'].
    exists l'. rewrite bind_assoc, (bind_some _ _ _ _ _ R), bind_ret, (bind_some _ _ _ _ _ R'). split; [done |].
    split; [done | by rewrite Hc'].
Qed.
Definition an_empty_queue : dliste_t := mk_dliste ∅ 0 0 None false true [].
Lemma queue_keeps_order_witness : exists l',
  do_queues an_malloc [Get; Add 7; Add 8; Get; Get; Get] an_empty_queue = Some ([0; 7; 8; 0], l') /\ l'.(calls) = [].
Proof.
  destruct (queue_keeps_order an_malloc [Get; Add 7; Add 8; Get; Get; Get] an_empty_queue [] an_malloc_ok) as (l' & R & _ & C).
  - intros h. by eexists.
  - exists []. split; [| by split]. by constructor; [| constructor | |].
  - exists l'. split; [exact R | exact C].
Defined.
End MengeSpec.
