(* ===== verification/MrListe.v ===== *)
(** The singly linked lists of mrsystem (src/mrsystem/src/basic_libs/datastore:
    liste) on the heap they live in, and the stacks built on them (stack). *)

From S2P Require Import Prelude Avl.

Module Liste.
Import Avl(destroyed, Destroyed_key, Destroyed_data).

(** * Data *)

(** [struct liste_element].  Keys, data and elements are pointers, 0 is NULL. *)
Record element := mk_element { Key : Z; Data : Z; Next : Z }.
#[export] Instance eta_element : Settable element := fun e => mk_element e.(Key) e.(Data) e.(Next).

(** A list ([Liste]) with the elements in memory.  A call-back that is set is
    [true]; [calls] is what the call-backs were given. *)
Record liste_t := mk_liste {
  elements : gmap Z element;
  Daten : Z;
  Aktuell : Z;
  Compare : option (Z -> Z -> Z);
  DestroyKey : bool;
  DestroyDaten : bool;
  calls : list destroyed }.
#[export] Instance eta_liste : Settable liste_t := fun l =>
  mk_liste l.(elements) l.(Daten) l.(Aktuell) l.(Compare) l.(DestroyKey) l.(DestroyDaten) l.(calls).

Definition element_at (p : Z) : prog liste_t element := let* h := gets elements in need (h !! p).
Definition set_element (p : Z) (f : element -> element) : prog liste_t unit :=
  do* element_at p in modify (fun l => l <| elements ::= alter f p |>).
Definition set_next (p q : Z) : prog liste_t unit := set_element p (fun e => e <| Next := q |>).
Definition get_next (p : Z) : prog liste_t Z := let* e := element_at p in ret e.(Next).
Definition get_key (p : Z) : prog liste_t Z := let* e := element_at p in ret e.(Key).
Definition set_daten (p : Z) : prog liste_t unit := modify (fun l => l <| Daten := p |>).
Definition set_aktuell (p : Z) : prog liste_t unit := modify (fun l => l <| Aktuell := p |>).
Definition compare (a b : Z) : prog liste_t Z :=
  let* f := gets Compare in let* f := need f in ret (f a b).
Definition call (set : bool) (d : destroyed) : prog liste_t unit :=
  if set then modify (fun l => l <| calls ::= fun c => c ++ [d] |>) else ret tt.
Definition free (p : Z) : prog liste_t unit :=
  do* element_at p in modify (fun l => l <| elements ::= delete p |>).

(** * Lists *)

(** A list with the memory there is. *)
Definition ListeCreate (h : gmap Z element) : liste_t := mk_liste h 0 0 None false false [].
Definition ListeInit (cmp : option (Z -> Z -> Z)) (key data : bool) : prog liste_t unit :=
  modify (fun l => l <| Compare := cmp |> <| DestroyKey := key |> <| DestroyDaten := data |>).
Definition ListeIsEmpty : prog liste_t bool := let* d := gets Daten in ret (d =? 0).

Section Insertion.
(** [malloc] of an element with the memory in use; [None] is its NULL. *)
Context (malloc : gmap Z element -> option Z).

Definition new_element (key data : Z) : prog liste_t (option Z) :=
  let* h := gets elements in
  match malloc h with
  | None => ret None
  | Some this =>
      do* modify (fun l => l <| elements ::= <[this := mk_element key data 0]> |>) in ret (Some this)
  end.
Definition ListeAhead (key data : Z) : prog liste_t bool :=
  let* new := new_element key data in
  match new with
  | None => ret false
  | Some this =>
      let* first := gets Daten in
      do* set_next this first in
      do* set_daten this in
      ret true
  end.

(** The last element from [work] on. *)
Fixpoint last_from (fuel : nat) (work : Z) : prog liste_t Z :=
  match fuel with
  | O => undefined
  | S fuel => let* next := get_next work in if next =? 0 then ret work else last_from fuel next
  end.
Definition ListeAppend (key data : Z) : prog liste_t bool :=
  let* new := new_element key data in
  match new with
  | None => ret false
  | Some this =>
      let* first := gets Daten in
      if first =? 0 then
        do* set_next this 0 in
        do* set_daten this in
        ret true
      else
        let* h := gets elements in
        let* work := last_from (size h) first in
        do* set_next this 0 in
        do* set_next work this in
        ret true
  end.

(** The loop from [work] on: whether the new element was linked in, and the
    element the loop stands at. *)
Fixpoint insert_after (fuel : nat) (this work : Z) : prog liste_t (bool * Z) :=
  match fuel with
  | O => undefined
  | S fuel =>
      let* next := get_next work in
      if next =? 0 then ret (false, work)
      else
        let* kn := get_key next in
        let* k := get_key this in
        let* c := compare kn k in
        if 0 <? c then
          do* set_next this next in
          do* set_next work this in
          ret (true, work)
        else insert_after fuel this next
  end.
Definition ListeInsert (key data : Z) : prog liste_t bool :=
  let* new := new_element key data in
  match new with
  | None => ret false
  | Some this =>
      let* first := gets Daten in
      if first =? 0 then
        do* set_next this 0 in
        do* set_daten this in
        ret true
      else
        let* k := get_key this in
        let* kf := get_key first in
        let* c := compare k kf in
        if c <=? 0 then
          do* set_next this first in
          do* set_daten this in
          ret true
        else
          let* h := gets elements in
          let* '(fertig, work) := insert_after (size h) this first in
          do* (if fertig then do* set_next this 0 in set_next work this else ret tt) in
          ret true
  end.
End Insertion.

(** [ListeDelFirst] leaves NULL to the call-backs out, [ListeDelete] and
    [ListeDestroy] do not. *)
Definition ListeDelFirst : prog liste_t unit :=
  let* first := gets Daten in
  if first =? 0 then ret tt
  else
    let* next := get_next first in
    do* set_daten next in
    let* e := element_at first in
    let* l := get in
    do* call (l.(DestroyKey) && negb (e.(Key) =? 0)) (Destroyed_key e.(Key)) in
    do* call (l.(DestroyDaten) && negb (e.(Data) =? 0)) (Destroyed_data e.(Data)) in
    free first.

(** The element with the key that is behind [work], taken out; 0 for none. *)
Fixpoint unlink_after (fuel : nat) (key work : Z) : prog liste_t Z :=
  match fuel with
  | O => undefined
  | S fuel =>
      let* next := get_next work in
      if next =? 0 then ret 0
      else
        let* kn := get_key next in
        let* c := compare kn key in
        if c =? 0 then
          let* behind := get_next next in
          do* set_next work behind in
          ret next
        else unlink_after fuel key next
  end.
Definition destroy (p : Z) : prog liste_t unit :=
  let* e := element_at p in
  let* l := get in
  do* call l.(DestroyKey) (Destroyed_key e.(Key)) in
  do* call l.(DestroyDaten) (Destroyed_data e.(Data)) in
  free p.
Definition ListeDelete (key : Z) : prog liste_t unit :=
  let* first := gets Daten in
  if first =? 0 then ret tt
  else
    let* kf := get_key first in
    let* c := compare kf key in
    let* h := gets elements in
    let* found := (if c =? 0 then
                     let* next := get_next first in do* set_daten next in ret first
                   else unlink_after (size h) key first) in
    if found =? 0 then ret tt else destroy found.

Fixpoint destroy_from (fuel : nat) (p : Z) : prog liste_t unit :=
  match fuel with
  | O => undefined
  | S fuel =>
      if p =? 0 then ret tt
      else let* next := get_next p in do* destroy p in destroy_from fuel next
  end.
(** Whether the list itself is freed too. *)
Definition ListeDestroy : prog liste_t bool :=
  let* first := gets Daten in
  if first =? 0 then ret false
  else let* h := gets elements in do* destroy_from (S (size h)) first in ret true.

Fixpoint search (fuel : nat) (key p : Z) : prog liste_t Z :=
  match fuel with
  | O => undefined
  | S fuel =>
      if p =? 0 then ret 0
      else
        let* e := element_at p in
        let* c := compare e.(Key) key in
        if c =? 0 then ret p else search fuel key e.(Next)
  end.
Definition ListeFinde (key : Z) : prog liste_t Z :=
  let* first := gets Daten in
  if first =? 0 then ret 0
  else
    let* h := gets elements in
    let* p := search (S (size h)) key first in
    do* set_aktuell p in
    ret p.

Definition ListeFirst : prog liste_t Z :=
  let* first := gets Daten in do* set_aktuell first in ret first.
Definition ListeNext : prog liste_t Z :=
  let* a := gets Aktuell in
  if a =? 0 then ret 0
  else let* next := get_next a in do* set_aktuell next in ret next.

(** * Stacks (stack) *)

Definition StackInit (data : bool) : prog liste_t unit := ListeInit None false data.
Definition StackIsEmpty : prog liste_t bool := ListeIsEmpty.
Definition StackPush (malloc : gmap Z element -> option Z) (data : Z) : prog liste_t bool :=
  ListeAhead malloc 0 data.
Definition StackPop : prog liste_t Z :=
  let* first := ListeFirst in
  if first =? 0 then ret 0
  else
    let* e := element_at first in
    do* set_element first (fun e => e <| Data := 0 |>) in
    do* ListeDelFirst in
    ret e.(Data).
End Liste.
