(* ===== verification/MrListeSpec.v ===== *)
(** The singly linked lists of mrsystem as sequences: stacks hold what was pushed
    last on top, and what [ListeInsert] makes of a list. *)

From S2P Require Import Prelude Avl MrDlisteSpec MrListe.

Module ListeSpec.
Import Avl(destroyed, Destroyed_key, Destroyed_data) Liste.
Import DlisteSpec(item, mk_item, at_, key_of, data_of, split_after, split_after_app).

Definition head (ns : list item) : Z := match ns with [] => 0 | n :: _ => n.(at_) end.
Notation places ns := (map at_ ns).

(** Memory that holds a list from an element on; what is behind it is [next]. *)
Fixpoint chain (h : gmap Z element) (ns : list item) (next : Z) : Prop :=
  match ns with
  | [] => True
  | n :: ns => n.(at_) <> 0 /\
      h !! n.(at_) = Some (mk_element n.(key_of) n.(data_of) (match ns with [] => next | m :: _ => m.(at_) end)) /\
      chain h ns next
  end.
Record holds (l : liste_t) (ns : list item) : Prop := mk_holds {
  holds_chain : chain l.(elements) ns 0;
  holds_places : NoDup (places ns);
  holds_daten : l.(Daten) = head ns }.

Lemma chain_agree h h' ns next : (forall p, p ∈ places ns -> h' !! p = h !! p) -> chain h ns next -> chain h' ns next.
Proof.
  induction ns as [| n ns IH]; [done |]. cbn [chain map]. intros H (H0 & E & Hs).
  split_and!; [done | by rewrite H by left |]. apply IH; [| done]. intros p Hp. apply H. by right.
Qed.
Lemma chain_in h ns next p : chain h ns next -> p ∈ places ns -> is_Some (h !! p) /\ p <> 0.
Proof.
  induction ns as [| n ns IH]; cbn [chain map]; [intros _ []%elem_of_nil |].
  intros (H0 & E & Hs) [-> | Hin]%elem_of_cons; [by rewrite E | by apply IH].
Qed.
Lemma chain_app h xs ys next : chain h (xs ++ ys) next <->
  chain h xs (match ys with [] => next | y :: _ => y.(at_) end) /\ chain h ys next.
Proof.
  induction xs as [| x xs IH]; [cbn; intuition |]. cbn [app chain]. rewrite IH.
  destruct xs as [| x' xs]; cbn; [destruct ys; cbn; intuition | intuition].
Qed.
Lemma length_chain h ns next : chain h ns next -> NoDup (places ns) -> (length ns <= size h)%nat.
Proof.
  intros Hs Hn. rewrite <- (length_map at_ ns), <- size_dom. rewrite <- (size_list_to_set (C := gset Z) _ Hn).
  apply subseteq_size. intros p Hp%elem_of_list_to_set. apply elem_of_dom. by apply (chain_in _ _ _ _ Hs).
Qed.
Lemma head_null ns h next : chain h ns next -> (head ns =? 0) = bool_decide (ns = []).
Proof. destruct ns as [| n ns]; [done |]. intros (H0 & _). cbn. zbool. Qed.

Lemma liste_at_run p l e : l.(elements) !! p = Some e -> element_at p l = Some (e, l).
Proof. intros E. unfold element_at. rewrite bind_gets, E. done. Qed.
Lemma liste_set_then {B} p f (k : unit -> prog liste_t B) l : is_Some (l.(elements) !! p) ->
  bind (set_element p f) k l = k tt (l <| elements ::= alter f p |>).
Proof. intros [e E]. unfold set_element. by rewrite bind_assoc, (bind_some _ _ _ _ _ (liste_at_run _ _ _ E)). Qed.

(** Lists with the same comparison and call-backs. *)
Definition same_kind (l l' : liste_t) : Prop :=
  l'.(Compare) = l.(Compare) /\ l'.(DestroyKey) = l.(DestroyKey) /\ l'.(DestroyDaten) = l.(DestroyDaten).

(** * Stacks *)

Section Push.
Context (malloc : gmap Z element -> option Z).
(** What [malloc] returns is not in use. *)
Definition allocator : Prop := forall h p, malloc h = Some p -> p <> 0 /\ h !! p = None.
Context (Halloc : allocator).

Lemma liste_new_run key data l this : malloc l.(elements) = Some this ->
  new_element malloc key data l = Some (Some this, l <| elements ::= <[this := mk_element key data 0]> |>).
Proof. intros E. unfold new_element. by rewrite bind_gets, E. Qed.
Lemma liste_no_memory {A} key data l (k : option Z -> prog liste_t A) : malloc l.(elements) = None ->
  bind (new_element malloc key data) k l = k None l.
Proof. intros E. unfold new_element. rewrite bind_assoc, bind_gets, E. reflexivity. Qed.
Lemma liste_place l ns this : holds l ns -> malloc l.(elements) = Some this ->
  this <> 0 /\ l.(elements) !! this = None /\ this ∉ places ns.
Proof using Halloc.
  intros [Hs Hn _] Em. destruct (Halloc _ _ Em) as [H0 Hf]. split_and!; [done | done |].
  intros Hin. destruct (chain_in _ _ _ _ Hs Hin) as [[e E] _]. congruence.
Qed.

Lemma ListeAhead_run key data l ns : holds l ns ->
  match malloc l.(elements) with
  | None => ListeAhead malloc key data l = Some (false, l)
  | Some this => exists l', ListeAhead malloc key data l = Some (true, l') /\
      holds l' (mk_item this key data :: ns) /\ l'.(calls) = l.(calls) /\ same_kind l l'
  end.
Proof using Halloc.
  intros Hl. unfold ListeAhead. destruct (malloc l.(elements)) as [this |] eqn:Em; [| by apply liste_no_memory].
  destruct (liste_place l ns this Hl Em) as (H0 & Hf & Hnot). destruct Hl as [Hs Hn Hd].
  rewrite (bind_some _ _ _ _ _ (liste_new_run key data l this Em)). cbv beta iota. rewrite bind_gets.
  change (Daten (over _ _ l)) with l.(Daten). unfold set_next.
  rewrite liste_set_then by (cbn; by rewrite lookup_insert_eq).
  eexists. split; [reflexivity |]. split; [| by split_and!]. constructor.
  - cbn [chain elements over set_daten]. split_and!; [done | |].
    + cbn. rewrite lookup_alter_eq, lookup_insert_eq, Hd. by destruct ns.
    + apply (chain_agree l.(elements)); [| done]. intros p Hp. cbn.
      by rewrite lookup_alter_ne, lookup_insert_ne by (by intros <-).
  - by apply NoDup_cons.
  - done.
Qed.
End Push.

(** What the call-backs get when the first item goes. *)
Definition freed (l : liste_t) (n : item) : list destroyed :=
  (if l.(DestroyKey) && negb (n.(key_of) =? 0) then [Destroyed_key n.(key_of)] else []) ++
  (if l.(DestroyDaten) && negb (n.(data_of) =? 0) then [Destroyed_data n.(data_of)] else []).

Lemma drop_run p k d a b l e : l.(elements) !! p = Some e ->
  bind (call a k) (fun _ => bind (call b d) (fun _ => free p)) l =
  Some (tt, l <| calls ::= fun c => c ++ (if a : bool then [k] else []) ++ (if b : bool then [d] else []) |>
             <| elements ::= delete p |>).
Proof.
  intros E. unfold call, free, element_at.
  assert (D : forall l1 : liste_t, l1.(elements) = l.(elements) ->
    bind (bind (gets elements) (fun h => need (h !! p))) (fun _ => modify (fun l => l <| elements ::= delete p |>)) l1 =
    Some (tt, l1 <| elements ::= delete p |>)).
  { intros l1 E1. rewrite bind_assoc, bind_gets, E1, E. reflexivity. }
  destruct a, b; rewrite ?bind_modify, ?bind_ret, ?bind_modify, D by done;
    destruct l; cbn; rewrite ?app_nil_r, <- ?app_assoc; done.
Qed.
Lemma ListeDelFirst_run l n ns : holds l (n :: ns) -> exists l',
  ListeDelFirst l = Some (tt, l') /\ holds l' ns /\ l'.(calls) = l.(calls) ++ freed l n /\ same_kind l l'.
Proof.
  intros [(H0 & E & Hs) [Hn Hnd]%NoDup_cons Hd]. unfold ListeDelFirst. rewrite bind_gets, Hd. cbn [head].
  replace (n.(at_) =? 0) with false by zbool. unfold get_next.
  rewrite bind_assoc, (bind_some _ _ _ _ _ (liste_at_run _ _ _ E)), bind_ret. cbn [Next].
  unfold set_daten. rewrite bind_modify. set (l1 := over _ _ l).
  rewrite (bind_some _ _ _ _ _ (liste_at_run _ l1 _ E)), bind_get. cbn [Key Data].
  rewrite (drop_run _ _ _ _ _ l1 _ E). eexists. split; [reflexivity |]. split; [| by split_and!]. constructor; [| done |].
  - apply (chain_agree l.(elements)); [| done]. intros p Hp. cbn. apply lookup_delete_ne. by intros <-.
  - cbn. by destruct ns.
Qed.

Lemma StackPop_run l n ns : holds l (n :: ns) -> n.(key_of) = 0 -> exists l',
  StackPop l = Some (n.(data_of), l') /\ holds l' ns /\ l'.(calls) = l.(calls) /\ same_kind l l'.
Proof.
  intros [(H0 & E & Hs) Hnd Hd] Hk. pose proof (proj1 (NoDup_cons _ _) Hnd) as [Hn _].
  unfold StackPop, ListeFirst, set_aktuell. rewrite bind_assoc, bind_gets, bind_assoc, bind_modify, bind_ret, Hd. cbn [head].
  replace (n.(at_) =? 0) with false by zbool. set (l1 := over _ _ l).
  rewrite (bind_some _ _ _ _ _ (liste_at_run _ l1 _ E)), liste_set_then by (by exists (mk_element n.(key_of) n.(data_of) (head ns))).
  set (l2 := over _ _ l1).
  assert (Hl2 : holds l2 (mk_item n.(at_) n.(key_of) 0 :: ns)).
  { constructor; [| done | exact Hd]. cbn [chain at_ key_of data_of]. split_and!; [done | |].
    - unfold l2. cbn. by rewrite lookup_alter_eq, E.
    - apply (chain_agree l.(elements)); [| done]. intros p Hp. unfold l2. cbn. apply lookup_alter_ne. by intros <-. }
  destruct (ListeDelFirst_run l2 _ ns Hl2) as (l' & R & Hl' & Hc & Hk').
  rewrite (bind_some _ _ _ _ _ R). exists l'. split; [done |]. split; [done |]. split; [| exact Hk'].
  rewrite Hc. unfold freed. cbn [key_of data_of]. rewrite Hk. change (negb (0 =? 0)) with false.
  by rewrite !andb_false_r, app_nil_r.
Qed.
Lemma StackIsEmpty_run l ns : holds l ns -> StackIsEmpty l = Some (bool_decide (ns = []), l).
Proof. intros [Hs _ Hd]. unfold StackIsEmpty, ListeIsEmpty. by rewrite bind_gets, Hd, (head_null _ _ _ Hs). Qed.

(** * Insertion in order *)

Section Order.
Context (malloc : gmap Z element -> option Z) (Halloc : allocator malloc).
Context (cmp : Z -> Z -> Z) (key data : Z).

(** What [ListeInsert] makes of a list: where a greater key follows, the new
    item becomes the last one, and where none does, it is left out. *)
Definition inserted (new : item) (ns : list item) : list item :=
  match ns with
  | [] => [new]
  | n :: ms =>
      if cmp key n.(key_of) <=? 0 then new :: ns
      else match split_after cmp key ms with
           | (a, []) => n :: a
           | (a, _ :: _) => n :: a ++ [new]
           end
  end.

Definition last_place (ns : list item) : Z := foldl (fun _ n => n.(at_)) 0 ns.
Lemma last_place_snoc xs n : last_place (xs ++ [n]) = n.(at_).
Proof. unfold last_place. by rewrite foldl_app. Qed.
Lemma liste_after_run this l : l.(Compare) = Some cmp ->
  forall ms fuel w e, chain l.(elements) (w :: ms) 0 -> l.(elements) !! this = Some e -> e.(Key) = key ->
  this ∉ places (w :: ms) -> (length ms < fuel)%nat ->
  let '(a, b) := split_after cmp key ms in
  insert_after fuel this w.(at_) l =
    Some ((negb (bool_decide (b = [])), last_place (w :: a)),
          match b with
          | [] => l
          | m :: _ => l <| elements ::= fun h =>
              alter (fun e => e <| Next := this |>) (last_place (w :: a)) (alter (fun e => e <| Next := m.(at_) |>) this h) |>
          end).
Proof.
  intros Ec. induction ms as [| m ms IH]; intros [| fuel] w e Hs E Ek Hn Hf; cbn [length] in Hf; try lia.
  all: destruct Hs as (H0 & Ew & Hs); cbn [insert_after split_after]; unfold get_next, get_key.
  all: rewrite bind_assoc, (bind_some _ _ _ _ _ (liste_at_run _ _ _ Ew)), bind_ret; cbn [Next].
  1: done.
  pose proof Hs as (Hm0 & Em & _). replace (m.(at_) =? 0) with false by zbool.
  rewrite bind_assoc, (bind_some _ _ _ _ _ (liste_at_run _ _ _ Em)), bind_ret.
  rewrite bind_assoc, (bind_some _ _ _ _ _ (liste_at_run _ _ _ E)), bind_ret, Ek. cbn [Key].
  unfold compare. rewrite bind_assoc, bind_gets, Ec, bind_assoc. change (need (Some cmp)) with (@ret liste_t _ cmp).
  rewrite !bind_ret. destruct (0 <? cmp m.(key_of) key).
  - assert (Hw : this <> w.(at_)) by (intros ->; apply Hn; by left).
    unfold set_next. rewrite liste_set_then by (by rewrite E).
    rewrite liste_set_then by (cbn; by rewrite lookup_alter_ne, Ew). by destruct l.
  - specialize (IH fuel m e Hs E Ek). destruct (split_after cmp key ms) as [a b]. apply IH; [| lia].
    intros Hin. apply Hn. by right.
Qed.

(** A chain whose last element points somewhere else. *)
Lemma chain_redirect h h' xs x next q : chain h (xs ++ [x]) next -> NoDup (places (xs ++ [x])) ->
  (forall p, p ∈ places xs -> h' !! p = h !! p) -> h' !! x.(at_) = Some (mk_element x.(key_of) x.(data_of) q) ->
  chain h' (xs ++ [x]) q.
Proof.
  intros [Hx (H0 & E & _)]%chain_app Hnd Ho E'. apply chain_app. split; [| by split_and!].
  by apply (chain_agree h).
Qed.

(** The new element made the last one, after its first links. *)
Lemma link_last l xs x next q this : chain l.(elements) (xs ++ [x]) next -> NoDup (places (xs ++ [x])) ->
  this ∉ places (xs ++ [x]) -> this <> 0 -> l.(elements) !! this = Some (mk_element key data 0) ->
  exists l', (do* set_next this 0 in set_next x.(at_) this)
      (l <| elements ::= fun h => alter (fun e => e <| Next := this |>) x.(at_) (alter (fun e => e <| Next := q |>) this h) |>) =
      Some (tt, l') /\
    chain l'.(elements) ((xs ++ [x]) ++ [mk_item this key data]) 0 /\
    NoDup (places ((xs ++ [x]) ++ [mk_item this key data])) /\ l'.(Daten) = l.(Daten).
Proof.
  intros Hx Hnd Hnot H0 E.
  assert (Ne : x.(at_) <> this) by (intros <-; apply Hnot; rewrite map_app; apply elem_of_app; right; by left).
  pose proof Hx as [_ (Hx0 & Ex & _)]%chain_app. unfold set_next.
  rewrite liste_set_then by (cbn [over elements]; by rewrite lookup_alter_ne, lookup_alter_eq, E).
  unfold set_element. erewrite bind_some by (apply liste_at_run; cbn [over elements];
    rewrite lookup_alter_ne, lookup_alter_eq, lookup_alter_ne, Ex by done; reflexivity).
  eexists. split; [reflexivity |]. split; [| split; [| done]].
  - apply chain_app. cbn [at_ chain key_of data_of over elements]. split; [| split; [done | split; [| done]]].
    + apply (chain_redirect l.(elements) _ _ _ next); [done | done | |].
      * intros p Hp. assert (p <> x.(at_)).
        { intros ->. rewrite map_app in Hnd. apply NoDup_app in Hnd as (_ & Hnd & _). apply (Hnd _ Hp). by left. }
        assert (p <> this) by (intros ->; apply Hnot; rewrite map_app; apply elem_of_app; by left).
        by rewrite !lookup_alter_ne.
      * by rewrite lookup_alter_eq, lookup_alter_ne, lookup_alter_eq, lookup_alter_ne, Ex.
    + by rewrite lookup_alter_ne, lookup_alter_eq, lookup_alter_ne, lookup_alter_eq, E.
  - rewrite map_app. apply NoDup_app. split; [done |]. split; [| apply NoDup_singleton].
    intros p Hp Hin%list_elem_of_singleton. by subst p.
Qed.

Lemma ListeInsert_run l ns this : holds l ns -> l.(Compare) = Some cmp -> malloc l.(elements) = Some this ->
  exists l', ListeInsert malloc key data l = Some (true, l') /\ holds l' (inserted (mk_item this key data) ns).
Proof using Halloc.
  intros Hl Ec Em. destruct (liste_place malloc Halloc l ns this Hl Em) as (H0 & Hf & Hnot).
  destruct Hl as [Hs Hnd Hd]. unfold ListeInsert. rewrite (bind_some _ _ _ _ _ (liste_new_run malloc key data l this Em)).
  cbv beta iota. rewrite bind_gets. change (Daten (over _ _ l)) with l.(Daten). rewrite Hd, (head_null _ _ _ Hs).
  set (l1 := over _ _ l). assert (E1 : l1.(elements) !! this = Some (mk_element key data 0)) by (cbn; by rewrite lookup_insert_eq).
  assert (Ho : forall p, p <> this -> l1.(elements) !! p = l.(elements) !! p) by (intros p Hp; cbn; by rewrite lookup_insert_ne).
  assert (Hs1 : chain l1.(elements) ns 0).
  { apply (chain_agree l.(elements)); [| done]. intros p Hp. apply Ho. by intros ->. }
  destruct ns as [| n ms].
  - rewrite bool_decide_eq_true_2 by done. unfold set_next. rewrite liste_set_then by (by rewrite E1).
    eexists. split; [reflexivity |]. constructor; [| apply NoDup_singleton | done].
    cbn [inserted chain at_ key_of data_of]. split_and!; [done | | done].
    cbn [set_daten over elements]. by rewrite lookup_alter_eq, E1.
  - rewrite bool_decide_eq_false_2 by done. cbn [head inserted]. pose proof Hs1 as (Hn0 & En & _).
    unfold get_key. rewrite bind_assoc, (bind_some _ _ _ _ _ (liste_at_run _ _ _ E1)), bind_ret.
    rewrite bind_assoc, (bind_some _ _ _ _ _ (liste_at_run _ _ _ En)), bind_ret. cbn [Key].
    unfold compare. rewrite bind_assoc, bind_gets. change (Compare l1) with l.(Compare). rewrite Ec, bind_assoc.
    change (need (Some cmp)) with (@ret liste_t _ cmp). rewrite !bind_ret. destruct (cmp key n.(key_of) <=? 0).
    + unfold set_next. rewrite liste_set_then by (by rewrite E1). eexists. split; [reflexivity |].
      constructor; [| by apply NoDup_cons | done]. cbn [chain at_ key_of data_of]. split; [done | split].
      * cbn [set_daten over elements]. by rewrite lookup_alter_eq, E1.
      * apply (chain_agree l1.(elements) _ (n :: ms)); [| done]. intros p Hp. apply lookup_alter_ne. by intros ->.
    + rewrite bind_gets.
      assert (Hz : (length ms < size l1.(elements))%nat) by apply (length_chain _ _ _ Hs1 Hnd).
      pose proof (liste_after_run this l1 Ec ms _ n _ Hs1 E1 eq_refl Hnot Hz) as R.
      pose proof (split_after_app cmp key ms) as Es. destruct (split_after cmp key ms) as [a b]. cbn [fst snd] in Es.
      rewrite (bind_some _ _ _ _ _ R). destruct b as [| m b].
      * rewrite app_nil_r in Es. subst a. eexists. split; [reflexivity |]. by constructor.
      * rewrite bool_decide_eq_false_2 by done. cbn [negb].
        destruct (exists_last (l := n :: a)) as (xs & x & Ex); [done |]. rewrite Ex, last_place_snoc.
        assert (Ens : n :: ms = (xs ++ [x]) ++ m :: b) by (rewrite <- Ex, <- Es; done).
        change (n :: a ++ [?new]) with ((n :: a) ++ [new]). rewrite Ex. rewrite Ens in Hs1, Hnd, Hnot.
        apply chain_app in Hs1 as [Hx _]. rewrite map_app in Hnd, Hnot.
        apply NoDup_app in Hnd as [Hnd _]. apply not_elem_of_app in Hnot as [Hnot _].
        destruct (link_last l1 xs x _ (m.(at_)) this Hx Hnd Hnot H0 E1) as (l' & R' & Hs' & Hnd' & Hd').
        exists l'. rewrite (bind_some _ _ _ _ _ R'). split; [done |].
        constructor; [done | done |]. rewrite Hd'. change (Daten l1) with l.(Daten). rewrite Hd.
        change (n.(at_) = head ((xs ++ [x]) ++ [mk_item this key data])). by rewrite <- Ex.
Qed.

(** C40. [ListeInsert] loses items.  Into a list whose first key is smaller, a new
    item goes behind the keys that are not greater; the code then makes it the
    last one, so that every item with a greater key is lost, and where no key is
    greater it is the new item that is left out.  The answer is TRUE in both
    cases, and the list always holds fewer items than it should. *)
Theorem liste_insert_loses_items l n ms this : holds l (n :: ms) -> l.(Compare) = Some cmp ->
  malloc l.(elements) = Some this -> 0 < cmp key n.(key_of) ->
  exists l' ns', ListeInsert malloc key data l = Some (true, l') /\ holds l' ns' /\
    ns' = (match split_after cmp key ms with
           | (a, []) => n :: a
           | (a, _ :: _) => n :: a ++ [mk_item this key data]
           end) /\
    (length ns' < S (length (n :: ms)))%nat.
Proof using Halloc.
  intros Hl Ec Em Hk. destruct (ListeInsert_run l (n :: ms) this Hl Ec Em) as (l' & R & Hl').
  exists l', (inserted (mk_item this key data) (n :: ms)). split; [done |]. split; [done |].
  cbn [inserted]. replace (cmp key n.(key_of) <=? 0) with false by zbool. split; [done |].
  pose proof (f_equal length (split_after_app cmp key ms)) as Hlen. rewrite length_app in Hlen.
  destruct (split_after cmp key ms) as [a [| m b]]; cbn [fst snd length] in *; rewrite ?length_app; cbn [length]; lia.
Qed.
End Order.

Definition liste_malloc (h : gmap Z element) : option Z := Some (fresh ({[0]} ∪ dom h : gset Z)).
Lemma liste_malloc_ok : allocator liste_malloc.
Proof.
  intros h p [= <-]. pose proof (is_fresh ({[0]} ∪ dom h : gset Z)) as F.
  split; [set_solver | apply not_elem_of_dom; set_solver].
Qed.
(** The keys 1 and 3, to which 2 is added: 3 is lost. *)
Definition two_items : liste_t :=
  mk_liste {[10 := mk_element 1 100 30; 30 := mk_element 3 300 0]} 10 0 (Some Z.sub) false false [].
Lemma liste_insert_loses_items_witness : exists l' ns',
  ListeInsert liste_malloc 2 200 two_items = Some (true, l') /\ holds l' ns' /\ map key_of ns' = [1; 2].
Proof.
  assert (Hl : holds two_items [mk_item 10 1 100; mk_item 30 3 300]).
  { constructor; [split_and!; done | | done].
    apply NoDup_cons. split; [by intros ?%list_elem_of_singleton | apply NoDup_singleton]. }
  destruct (liste_insert_loses_items liste_malloc liste_malloc_ok Z.sub 2 200 two_items _ _
    (fresh ({[0]} ∪ dom two_items.(elements) : gset Z)) Hl eq_refl eq_refl ltac:(done)) as (l' & ns' & R & Hl' & E & _).
  exists l', ns'. split; [exact R |]. split; [exact Hl' |]. rewrite E. reflexivity.
Defined.
End ListeSpec.
