(* ===== verification/MrHub.v ===== *)
(** The hub of mrsystem (src/mrsystem/src/drehscheibe): its clients in a set, a
    turn of its main loop with whatever the kernel answers, and the end. *)

From S2P Require Import Prelude Avl MrCs2 MrIpc MrDliste MrListe.

Module Hub.
Import MrIpc.
Import Dliste(menge_t, mk_menge, MengeDaten, MengeCompare, MengeCreate, MengeInit, MengeAdd, MengeRemove,
  MengeFirst, MengeNext, calls_read).
Import Liste(liste_t, StackInit, StackPush, StackPop, StackIsEmpty, ListeCreate).

(** What the hub does outside itself. *)
Inductive event :=
| Send (socket : Z) (c : MrIpcCmdType)
| Close (socket : Z).

(** [DrehscheibeStruct]; [socks] is the memory of the clients
    ([DrehscheibeClientStruct], whose only field is the socket). *)
Record hub_t := mk_hub {
  ServerSock : Z;
  SocketClients : menge_t;
  RemoveClients : liste_t;
  socks : gmap Z Z;
  events : list event }.
#[export] Instance eta_hub : Settable hub_t := fun h =>
  mk_hub h.(ServerSock) h.(SocketClients) h.(RemoveClients) h.(socks) h.(events).

(** What the kernel answers during a turn: [select] and [errno], the sockets
    with something to read, the socket [accept] gives, memory for a client, and
    what [recv] returns and leaves in the message. *)
Record kernel := mk_kernel {
  select_ : Z;
  interrupted : bool;
  ready : Z -> bool;
  accept_ : Z;
  malloc_client : gmap Z Z -> option Z;
  recv : Z -> Z * MrIpcCmdType }.

Definition emit (e : event) : prog hub_t unit := modify (fun h => h <| events ::= fun es => es ++ [e] |>).
Definition on_clients {A} (m : prog menge_t A) : prog hub_t A := fun h =>
  match m h.(SocketClients) with Some (a, c) => Some (a, h <| SocketClients := c |>) | None => None end.
Definition on_stack {A} (m : prog liste_t A) : prog hub_t A := fun h =>
  match m h.(RemoveClients) with Some (a, c) => Some (a, h <| RemoveClients := c |>) | None => None end.
(** [DrehclientGetSock] *)
Definition sock_of (client : Z) : prog hub_t Z := let* m := gets socks in need (m !! client).

(** The call-back of the set is [free]: the clients it was given are no memory
    any more. *)
Definition free_destroyed : prog hub_t unit := modify (fun h =>
  let gone := h.(SocketClients).(MengeDaten).(Dliste.calls) in
  h <| socks ::= fun m => foldl (fun m d => match d with Avl.Destroyed_data p => delete p m | _ => m end) m gone |>
    <| SocketClients ::= calls_read |>).

(** A difference of pointers cut to an [int]. *)
Definition SocketClientsCompare (d1 d2 : Z) : Z := i32 (d1 - d2).

Definition FD_SETSIZE : Z := 1024.
Definition fd_ok (fd : Z) : bool := (0 <=? fd) && (fd <? FD_SETSIZE).

(** [MrIpcRecv] *)
Definition MrIpcRecv (k : kernel) (socket : Z) : Z * MrIpcCmdType :=
  let '(n, c) := k.(recv) socket in
  (if n <? 0 then MR_IPC_RCV_ERROR else if n =? 0 then MR_IPC_RCV_CLOSED else MR_IPC_RCV_OK, c).

(** The loop over the clients, from the entry [e] of the iterator on. *)
Fixpoint walk (fuel : nat) (e : Z * Z) (body : Z -> prog hub_t unit) : prog hub_t unit :=
  match fuel with
  | O => undefined
  | S fuel =>
      if e.2 =? 0 then ret tt
      else
        do* body e.2 in
        let* e := on_clients (MengeNext e.1) in
        walk fuel e body
  end.
Definition each_client (body : Z -> prog hub_t unit) : prog hub_t unit :=
  let* h := get in
  let* e := on_clients MengeFirst in
  walk (S (size h.(SocketClients).(MengeDaten).(Dliste.elements))) e body.

Section Turn.
Context (malloc_entry : gmap Z Dliste.element -> option Z) (malloc_stack : gmap Z Liste.element -> option Z).
Context (k : kernel).

Definition AddNewClient : prog hub_t unit :=
  let NewClientSock := k.(accept_) in
  let* m := gets socks in
  match k.(malloc_client) m with
  | Some SocketEntry =>
      do* modify (fun h => h <| socks ::= <[SocketEntry := NewClientSock]> |>) in
      do* on_clients (MengeAdd malloc_entry SocketEntry) in
      ret tt
  | None => emit (Close NewClientSock)
  end.

Definition ProcessSystemData (CmdFrame : MrIpcCmdType) (ClientEntry : Z) : prog hub_t unit :=
  each_client (fun RcvClientEntry =>
    let* s := sock_of ClientEntry in
    let* r := sock_of RcvClientEntry in
    if negb (s =? r) then emit (Send r CmdFrame) else ret tt).

(** Whether the client has gone. *)
Definition HandleSystemData (ClientEntry : Z) : prog hub_t bool :=
  let* s := sock_of ClientEntry in
  let '(RcvReturnValue, CmdFrame) := MrIpcRecv k s in
  if RcvReturnValue =? MR_IPC_RCV_ERROR then ret false
  else if RcvReturnValue =? MR_IPC_RCV_CLOSED then do* emit (Close s) in ret true
  else do* ProcessSystemData CmdFrame ClientEntry in ret false.

Definition handle_client (ClientEntry : Z) : prog hub_t unit :=
  let* gone := HandleSystemData ClientEntry in
  if gone then do* on_stack (StackPush malloc_stack ClientEntry) in ret tt else ret tt.

(** The clients on the stack taken out of the set. *)
Fixpoint remove_closed (fuel : nat) : prog hub_t unit :=
  match fuel with
  | O => undefined
  | S fuel =>
      let* empty := on_stack StackIsEmpty in
      if empty then ret tt
      else
        let* ClientEntry := on_stack StackPop in
        do* on_clients (MengeRemove ClientEntry) in
        do* free_destroyed in
        remove_closed fuel
  end.
Definition remove_all_closed : prog hub_t unit :=
  let* h := get in remove_closed (S (size h.(RemoveClients).(Liste.elements))).

(** The sockets [select] gets, and the highest one. *)
Definition fill_fds : prog hub_t unit :=
  let* s := gets ServerSock in
  do* guard (fd_ok s) in
  each_client (fun ClientEntry => let* s := sock_of ClientEntry in guard (fd_ok s)).

(** A turn of the loop in [DrehscheibeRun]. *)
Definition DrehscheibeTurn : prog hub_t unit :=
  do* fill_fds in
  if ((k.(select_) =? -1) && k.(interrupted)) || (k.(select_) =? 0) then ret tt
  else if k.(select_) <? 0 then
    do* each_client handle_client in
    remove_all_closed
  else
    let* s := gets ServerSock in
    do* (if k.(ready) s then AddNewClient else ret tt) in
    do* each_client (fun ClientEntry =>
      let* s := sock_of ClientEntry in
      do* guard (fd_ok s) in
      if k.(ready) s then handle_client ClientEntry else ret tt) in
    remove_all_closed.
End Turn.

(** The end: every client and the server are closed. *)
Definition DrehscheibeStop : prog hub_t unit :=
  do* each_client (fun ClientEntry =>
    let* s := sock_of ClientEntry in
    do* emit (Close s) in
    modify (fun h => h <| socks ::= <[ClientEntry := -1]> |>)) in
  let* s := gets ServerSock in
  if 0 <=? s then emit (Close s) else ret tt.

(** The loop runs until a signal; [ks] are the turns it makes. *)
Definition DrehscheibeRun malloc_entry malloc_stack (ks : list kernel) : prog hub_t unit :=
  do* for_each ks (DrehscheibeTurn malloc_entry malloc_stack) in DrehscheibeStop.

(** The hub after [DrehscheibeCreate], [DrehscheibeInit] and [Start], with the
    socket it listens on. *)
Definition DrehscheibeStart (server : Z) : hub_t :=
  let clients := match MengeInit SocketClientsCompare true (MengeCreate ∅) with Some (_, m) => m | None => MengeCreate ∅ end in
  let stack := match StackInit true (ListeCreate ∅) with Some (_, l) => l | None => ListeCreate ∅ end in
  mk_hub server clients stack ∅ [].
End Hub.
