(* ===== verification/MrHubSpec.v ===== *)
(** What the hub of mrsystem does with its clients' messages. *)

From S2P Require Import Prelude Avl MrCs2 MrIpc MrDliste MrDlisteSpec MrMenge MrListe MrListeSpec MrHub.

Module HubSpec.
Import MrIpc Hub.
Import DlisteSpec(item, mk_item, at_, key_of, data_of, head_or, holds_split).
Import Dliste(menge_t, mk_menge, MengeDaten, MengeCompare, MengeNext, MengeFirst).

Notation datas ns := (map data_of ns).

(** * Loops over the clients *)

Definition same_clients (h h' : hub_t) : Prop := h'.(SocketClients) = h.(SocketClients).
#[local] Instance same_clients_preorder : PreOrder same_clients.
Proof. split; [done |]. intros a b c Hab Hbc. unfold same_clients in *. congruence. Qed.

Lemma on_clients_run {A} (m : prog menge_t A) a h c : m h.(SocketClients) = Some (a, c) ->
  on_clients m h = Some (a, h <| SocketClients := c |>).
Proof. intros E. unfold on_clients. by rewrite E. Qed.
Lemma on_clients_same {A} (m : prog menge_t A) a h : m h.(SocketClients) = Some (a, h.(SocketClients)) ->
  on_clients m h = Some (a, h).
Proof. intros E. rewrite (on_clients_run _ _ _ _ E). by destruct h. Qed.

Lemma walk_run body ys : (forall p, preserves same_clients (body p)) ->
  forall fuel xs h, DlisteSpec.holds h.(SocketClients).(MengeDaten) (xs ++ ys) -> Forall (fun n => n.(data_of) <> 0) ys ->
  (length ys < fuel)%nat ->
  walk fuel (head_or 0 ys, hd 0 (datas ys)) body h = for_each (datas ys) body h.
Proof.
  intros Hb. induction ys as [| n ys IH]; intros [| fuel] xs h Hl H0 Hf; cbn [length] in Hf; try lia; [done |].
  apply Forall_cons in H0 as [Hn H0]. cbn [walk map hd snd fst head_or for_each].
  replace (n.(data_of) =? 0) with false by zbool. rewrite !bind_run.
  destruct (body n.(data_of) h) as [[[] h1] |] eqn:E; [| done]. pose proof (Hb _ _ _ _ E) as Hs.
  unfold same_clients in Hs. rewrite <- Hs in Hl.
  rewrite (bind_some _ _ _ _ _ (on_clients_same _ _ h1 (MengeSpec.MengeNext_run _ xs n ys Hl))).
  apply (IH fuel (xs ++ [n])); [by rewrite <- app_assoc | done | lia].
Qed.
Lemma each_client_run body ns h : (forall p, preserves same_clients (body p)) ->
  DlisteSpec.holds h.(SocketClients).(MengeDaten) ns -> Forall (fun n => n.(data_of) <> 0) ns ->
  each_client body h = for_each (datas ns) body h.
Proof.
  intros Hb Hl H0. unfold each_client. rewrite bind_get.
  rewrite (bind_some _ _ _ _ _ (on_clients_same _ _ h (MengeSpec.MengeFirst_run _ ns Hl))).
  apply (walk_run body ns Hb _ [] h Hl H0).
  pose proof (DlisteSpec.length_segment _ _ _ _ (DlisteSpec.holds_segment _ _ Hl) (DlisteSpec.holds_places _ _ Hl)). lia.
Qed.

(** * The hub and its clients *)

(** The hub whose clients are [cs], pointers with their sockets, the one that
    came last first; [gone] is on the stack.  The pointers are near enough for
    their difference to be an [int]. *)
Record hub_with (h : hub_t) (cs : list (Z * Z)) (gone : list Z) : Prop := mk_hub_with {
  with_items : exists ns, DlisteSpec.holds h.(SocketClients).(MengeDaten) ns /\ datas ns = cs.*1 /\
    Forall (fun n => n.(key_of) = 0) ns;
  with_compare : h.(SocketClients).(MengeCompare) = Some SocketClientsCompare;
  with_free : h.(SocketClients).(MengeDaten).(Dliste.DestroyDaten) = true;
  with_calls : h.(SocketClients).(MengeDaten).(Dliste.calls) = [];
  with_socks : forall p s, (p, s) ∈ cs -> h.(socks) !! p = Some s;
  with_places : NoDup cs.*1;
  with_null : 0 ∉ cs.*1;
  with_near : forall p q, p ∈ cs.*1 -> q ∈ cs.*1 -> - 2 ^ 31 <= p - q < 2 ^ 31;
  with_stack : exists ss, ListeSpec.holds h.(RemoveClients) ss /\ datas ss = gone /\
    Forall (fun n => n.(key_of) = 0) ss }.
Definition hub_ok (h : hub_t) (cs : list (Z * Z)) : Prop := hub_with h cs [].

(** The hub with more events. *)
Definition and_then (h : hub_t) (es : list event) : hub_t := h <| events ::= fun old => old ++ es |>.
Lemma and_then_nil h : and_then h [] = h.
Proof. destruct h. unfold and_then. cbn. by rewrite app_nil_r. Qed.
Lemma and_then_app h es es' : and_then (and_then h es) es' = and_then h (es ++ es').
Proof. unfold and_then. cbn. by rewrite app_assoc. Qed.
Lemma with_and_then h cs gone es : hub_with h cs gone -> hub_with (and_then h es) cs gone.
Proof. by intros []. Qed.

(** A loop over the clients visits each of them once. *)
Lemma each_client_of body h cs gone : hub_with h cs gone -> (forall p, preserves same_clients (body p)) ->
  each_client body h = for_each cs.*1 body h.
Proof.
  intros Hh Hb. destruct (with_items _ _ _ Hh) as (ns & Hl & Hd & _). rewrite <- Hd. apply each_client_run; [done | done |].
  apply Forall_forall. intros n Hn H0. apply (with_null _ _ _ Hh). rewrite <- Hd, <- H0. by apply list_elem_of_fmap_2.
Qed.
Lemma sock_of_run h cs gone p s : hub_with h cs gone -> (p, s) ∈ cs -> sock_of p h = Some (s, h).
Proof. intros Hh Hp. unfold sock_of. by rewrite bind_gets, (with_socks _ _ _ Hh p s Hp). Qed.

(** A message for every other client. *)
Definition sends (c : MrIpcCmdType) (s : Z) (cs : list (Z * Z)) : list event :=
  map (fun r => Send r c) (filter (fun r => r <> s) cs.*2).

Lemma keep_sock p : preserves same_clients (sock_of p).
Proof. unfold sock_of. preserve. Qed.
Lemma keep_event e : preserves same_clients (emit e).
Proof. by apply preserves_modify. Qed.
#[local] Hint Resolve keep_sock keep_event : preserves.

(** Walking does not change the set. *)
Lemma reads_there move m a m' : (forall l q l', move l = Some (q, l') -> l' = l) ->
  Dliste.data_there move m = Some (a, m') -> m' = m.
Proof.
  intros Hm. unfold Dliste.data_there, Dliste.on_daten. rewrite bind_run.
  destruct (move (MengeDaten m)) as [[q l'] |] eqn:E; [| done]. rewrite (Hm _ _ _ E). clear E.
  destruct (q =? 0); [by intros [= _ <-]; destruct m |].
  unfold Dliste.get_data, Dliste.element_at. rewrite bind_assoc, bind_assoc, bind_gets.
  destruct (_ !! q); [| done]. intros [= _ <-]. by destruct m.
Qed.
Lemma keep_on_clients {A} (m : prog menge_t A) : (forall s a s', m s = Some (a, s') -> s' = s) ->
  preserves same_clients (on_clients m).
Proof.
  intros H h a h'. unfold on_clients. destruct (m (SocketClients h)) as [[x c] |] eqn:E; [| done].
  intros [= _ <-]. rewrite (H _ _ _ E). done.
Qed.
Lemma keep_first : preserves same_clients (on_clients MengeFirst).
Proof. apply keep_on_clients. intros m a m'. apply reads_there. by intros l q l' [= _ <-]. Qed.
Lemma keep_next it : preserves same_clients (on_clients (MengeNext it)).
Proof.
  apply keep_on_clients. intros m a m'. apply reads_there. intros l q l'.
  unfold Dliste.DlisteNext, Dliste.get_next, Dliste.element_at. destruct (it =? 0); [by intros [= _ <-] |].
  rewrite bind_assoc, bind_gets. destruct (_ !! it); [| done]. by intros [= _ <-].
Qed.
#[local] Hint Resolve keep_first keep_next : preserves.
Lemma keep_each body : (forall p, preserves same_clients (body p)) -> preserves same_clients (each_client body).
Proof.
  intros Hb. unfold each_client. apply preserves_bind; [exact _ | by intros h a h' [= _ <-] | intros h].
  apply preserves_bind; [exact _ | apply keep_first | intros e]. generalize (S (size (Dliste.elements (MengeDaten (SocketClients h))))).
  intros fuel. revert e. induction fuel as [| fuel IH]; intros e; cbn [walk]; [apply preserves_undefined |].
  destruct (e.2 =? 0); [apply preserves_ret; exact _ |]. apply preserves_bind; [exact _ | apply Hb | intros []].
  apply preserves_bind; [exact _ | apply keep_next | done].
Qed.

Lemma send_run h cs gone p s c : hub_with h cs gone -> (p, s) ∈ cs ->
  ProcessSystemData c p h = Some (tt, and_then h (sends c s cs)).
Proof.
  intros Hh Hp. unfold ProcessSystemData. rewrite (each_client_of _ h cs gone Hh) by (intros q; preserve).
  assert (Hds : forall q r, (q, r) ∈ cs -> (q, r) ∈ cs) by done. revert h Hh Hds. generalize cs at 2 4 5.
  intros ds. induction ds as [| [q r] ds IH]; intros h Hh Hds; [by rewrite and_then_nil |].
  cbn [fmap list_fmap fst for_each]. rewrite bind_assoc, (bind_some _ _ _ _ _ (sock_of_run _ _ _ _ _ Hh Hp)), bind_assoc.
  rewrite (bind_some _ _ _ _ _ (sock_of_run _ _ _ _ _ Hh (Hds q r ltac:(left)))).
  unfold sends. cbn [fmap list_fmap snd]. rewrite filter_cons.
  destruct (Z.eqb_spec s r) as [<- | Hne]; cbn [negb].
  - rewrite bind_ret, decide_False by (intros H; by apply H). apply IH; [done |]. intros q' r' Hin. apply Hds. by right.
  - unfold emit. rewrite bind_modify. fold (and_then h [Send r c]).
    rewrite IH; [| by apply with_and_then | intros q' r' Hin; apply Hds; by right].
    rewrite and_then_app, decide_True by done. done.
Qed.

Section Turn.
Context (malloc_entry : gmap Z Dliste.element -> option Z) (malloc_stack : gmap Z Liste.element -> option Z).
Context (Hentry : DlisteSpec.allocator malloc_entry) (Hstack : ListeSpec.allocator malloc_stack).
Context (Hroom : forall h, is_Some (malloc_stack h)).
Context (k : kernel).

Lemma keep_handle p : preserves same_clients (handle_client malloc_stack k p).
Proof using.
  assert (Hs : forall A (m : prog Liste.liste_t A), preserves same_clients (on_stack m)).
  { intros A m h a h'. unfold on_stack. destruct (m _) as [[x c] |]; [| done]. by intros [= _ <-]. }
  unfold handle_client, HandleSystemData, ProcessSystemData.
  apply preserves_bind; [exact _ | | intros []; [apply preserves_bind; [exact _ | apply Hs | intros ?] |]; preserve].
  apply preserves_bind; [exact _ | apply keep_sock | intros s]. destruct (MrIpcRecv k s) as [n c].
  apply preserves_if; [preserve |]. apply preserves_if; [preserve |]. apply preserves_bind; [exact _ | | preserve].
  apply keep_each. intros q. preserve.
Qed.
(** What a client whose socket has something to read makes the hub do, and
    whether it has gone. *)
Definition has_gone (s : Z) : bool := (k.(recv) s).1 =? 0.
Definition answer (s : Z) (cs : list (Z * Z)) : list event :=
  let '(n, c) := k.(recv) s in
  if n <? 0 then [] else if n =? 0 then [Close s] else sends c s cs.

Lemma handle_run h cs gone p s : hub_with h cs gone -> (p, s) ∈ cs -> exists h',
  handle_client malloc_stack k p h = Some (tt, h') /\
  hub_with h' cs (if has_gone s then p :: gone else gone) /\ same_clients h h' /\ h'.(ServerSock) = h.(ServerSock) /\
  h'.(events) = h.(events) ++ answer s cs.
Proof using Hstack Hroom.
  intros Hh Hp. unfold handle_client, HandleSystemData, MrIpcRecv, has_gone, answer.
  rewrite bind_assoc, (bind_some _ _ _ _ _ (sock_of_run _ _ _ _ _ Hh Hp)). destruct (k.(recv) s) as [n c]. cbn [fst].
  destruct (Z.ltb_spec n 0) as [Hn | Hn]; [| destruct (Z.eqb_spec n 0) as [-> | Hn0]].
  - change (MR_IPC_RCV_ERROR =? MR_IPC_RCV_ERROR) with true. cbv iota. rewrite bind_ret.
    replace (n =? 0) with false by zbool. exists h. by rewrite app_nil_r.
  - change (MR_IPC_RCV_CLOSED =? MR_IPC_RCV_ERROR) with false. change (MR_IPC_RCV_CLOSED =? MR_IPC_RCV_CLOSED) with true.
    cbv iota. unfold emit. rewrite bind_assoc, bind_modify, bind_ret. fold (and_then h [Close s]).
    pose proof (with_and_then h cs gone [Close s] Hh) as Hh1.
    destruct (with_stack _ _ _ Hh1) as (ss & Hss & Hd & Hk). destruct (Hroom (Liste.elements (RemoveClients (and_then h [Close s])))) as [this Em].
    pose proof (ListeSpec.ListeAhead_run malloc_stack Hstack 0 p _ ss Hss) as P. rewrite Em in P.
    destruct P as (l' & R & Hl' & _). unfold on_stack, Liste.StackPush. rewrite bind_run, R.
    eexists. split; [reflexivity |]. split; [| by split_and!]. destruct Hh1 as [H1 H2 H3 H4 H5 H6 H7 H8 _]. constructor; try done.
    exists (mk_item this 0 p :: ss). split; [done |]. split; [by rewrite <- Hd | by constructor].
  - change (MR_IPC_RCV_OK =? MR_IPC_RCV_ERROR) with false. change (MR_IPC_RCV_OK =? MR_IPC_RCV_CLOSED) with false.
    cbv iota. rewrite bind_assoc, (bind_some _ _ _ _ _ (send_run h cs gone p s c Hh Hp)), bind_ret.
    eexists. split; [reflexivity |]. split; [by apply with_and_then | by split_and!].
Qed.

(** The loop over the clients with something to read. *)
Lemma handle_all body (sel : Z -> bool) cs : (forall h gone p s, hub_with h cs gone -> (p, s) ∈ cs ->
    body p h = if sel s then handle_client malloc_stack k p h else Some (tt, h)) ->
  forall ds h gone, hub_with h cs gone -> (forall c, c ∈ ds -> c ∈ cs) -> exists h',
  for_each ds.*1 body h = Some (tt, h') /\
  hub_with h' cs (rev (filter (fun c => sel c.2 && has_gone c.2) ds).*1 ++ gone) /\ h'.(ServerSock) = h.(ServerSock) /\
  h'.(events) = h.(events) ++ flat_map (fun c => if sel c.2 then answer c.2 cs else []) ds.
Proof using Hstack Hroom.
  intros Hb. induction ds as [| [p s] ds IH]; intros h gone Hh Hds.
  - exists h. by rewrite app_nil_r.
  - cbn [fmap list_fmap fst for_each flat_map snd]. rewrite bind_run, (Hb _ _ _ _ Hh (Hds _ ltac:(left))), filter_cons. cbn [snd].
    assert (Hds' : forall c, c ∈ ds -> c ∈ cs) by (intros c Hc; apply Hds; by right). destruct (sel s); cbn [andb].
    + destruct (handle_run h cs gone p s Hh (Hds _ ltac:(left))) as (h1 & R & Hh1 & _ & Hs1 & He1). rewrite R.
      destruct (IH h1 _ Hh1 Hds') as (h' & R' & Hh' & Hs' & He'). exists h'. split; [done |].
      rewrite Hs', Hs1, He', He1, <- app_assoc. split; [| done]. destruct (has_gone s).
      * rewrite decide_True by done. cbn [fmap list_fmap fst rev]. by rewrite <- app_assoc.
      * by rewrite decide_False by (by intros []).
    + destruct (IH h gone Hh Hds') as (h' & R' & Hh' & Hs' & He'). exists h'.
      rewrite decide_False by (by intros []). done.
Qed.
End Turn.

(** * Clients that have gone *)

Lemma compare_near (cs : list Z) p q : (forall p q, p ∈ cs -> q ∈ cs -> - 2 ^ 31 <= p - q < 2 ^ 31) -> p ∈ cs -> q ∈ cs ->
  (SocketClientsCompare p q =? 0) = (p =? q).
Proof. intros H Hp Hq. unfold SocketClientsCompare. rewrite swrap_small by (try apply H; done). destruct (Z.eqb_spec p q); zbool. Qed.

Lemma remove_first_datas f p ns : (forall n, n ∈ ns -> f n = (n.(data_of) =? p)) -> NoDup (datas ns) ->
  datas (MengeSpec.remove_first f ns) = filter (fun q => q <> p) (datas ns).
Proof.
  intros Hf. induction ns as [| n ns IH]; [done |]. cbn [map MengeSpec.remove_first]. intros [Hn Hnd]%NoDup_cons.
  rewrite Hf by left. rewrite filter_cons. destruct (Z.eqb_spec n.(data_of) p) as [<- | Hne].
  - rewrite decide_False by (intros H; by apply H). clear - Hn. induction ns as [| m ns IH]; [done |].
    cbn [map] in Hn |- *. apply not_elem_of_cons in Hn as [H1 H2]. rewrite filter_cons, decide_True by done. by rewrite <- IH.
  - rewrite decide_True by done. cbn [map]. rewrite IH; [done | | done]. intros m Hm. apply Hf. by right.
Qed.
Lemma remove_first_keys f ns : Forall (fun n => n.(key_of) = 0) ns -> Forall (fun n => n.(key_of) = 0) (MengeSpec.remove_first f ns).
Proof. induction 1 as [| n ns Hn Hns IH]; [done |]. cbn. destruct (f n); [done | by constructor]. Qed.
Lemma filter_firsts p (cs : list (Z * Z)) : (filter (fun c => c.1 <> p) cs).*1 = filter (fun q => q <> p) cs.*1.
Proof.
  induction cs as [| [q s] cs IH]; [done |]. cbn [fmap list_fmap fst]. rewrite !filter_cons. cbn [fst].
  destruct (decide (q <> p)); cbn [fmap list_fmap fst]; by rewrite IH.
Qed.

Lemma pop_run h cs p gone : hub_with h cs (p :: gone) -> exists h',
  on_stack Liste.StackPop h = Some (p, h') /\ hub_with h' cs gone /\ h'.(events) = h.(events) /\ h'.(ServerSock) = h.(ServerSock).
Proof.
  intros [H1 H2 H3 H4 H5 H6 H7 H8 (ss & Hs & Hd & Hk)]. destruct ss as [| n ss]; [done |]. injection Hd as Hn Hd.
  apply Forall_cons in Hk as [Hkn Hk]. destruct (ListeSpec.StackPop_run _ n ss Hs Hkn) as (l' & R & Hl' & _).
  unfold on_stack. rewrite R, Hn. eexists. split; [reflexivity |]. split; [| by split]. constructor; try done. by exists ss.
Qed.
Lemma remove_one h cs p s gone : hub_with h cs gone -> (p, s) ∈ cs -> exists h',
  (do* on_clients (Dliste.MengeRemove p) in free_destroyed) h = Some (tt, h') /\
  hub_with h' (filter (fun c => c.1 <> p) cs) gone /\ h'.(events) = h.(events) /\ h'.(ServerSock) = h.(ServerSock).
Proof.
  intros [(ns & Hl & Hd & Hk) Hc Hf Hcalls Hsocks Hpl H0 Hn Hst] Hp.
  assert (Hin : p ∈ cs.*1) by (apply list_elem_of_fmap; by exists (p, s)).
  destruct (MengeSpec.MengeRemove_run _ SocketClientsCompare ns p Hl Hc) as (l' & R & [Hl' Hcalls' (Ek1 & Ek2 & Ek3) _]).
  set (ok := fun n : item => SocketClientsCompare n.(data_of) p =? 0) in *.
  assert (Hok : forall n, n ∈ ns -> ok n = (n.(data_of) =? p)).
  { intros n Hn'. apply (compare_near cs.*1); [done | | done]. rewrite <- Hd. by apply list_elem_of_fmap_2. }
  assert (Hdp : datas (MengeSpec.remove_first ok ns) = filter (fun q => q <> p) cs.*1).
  { rewrite <- Hd. apply remove_first_datas; [done |]. by rewrite Hd. }
  pose proof (MengeSpec.find_split ok ns) as F. destruct (List.find ok ns) as [n |].
  2: { destruct F as [_ F]. rewrite <- Hd in Hin. apply list_elem_of_fmap in Hin as (n & -> & Hn').
       pose proof (F n Hn') as E. rewrite Hok in E by done. rewrite Z.eqb_refl in E. done. }
  destruct F as (Eok & xs & ys & Ens & _ & _). assert (Hn' : n ∈ ns) by (rewrite Ens; apply elem_of_app; right; by left).
  rewrite (Hok n Hn') in Eok. apply Z.eqb_eq in Eok.
  rewrite (bind_some _ _ _ _ _ (on_clients_run _ _ _ _ R)). unfold free_destroyed, modify. cbn [SocketClients over MengeDaten].
  assert (Efreed : DlisteSpec.freed (MengeDaten (SocketClients h)) n = [Avl.Destroyed_data p]).
  { unfold DlisteSpec.freed. rewrite Forall_forall in Hk. rewrite (Hk n Hn'), Hf, Eok. rewrite andb_false_r.
    replace (p =? 0) with false; [done |]. symmetry. apply Z.eqb_neq. by intros ->. }
  rewrite Hcalls', Hcalls, Efreed. cbn [app foldl].
  eexists. split; [reflexivity |]. split; [| by split]. constructor; cbn.
  - exists (MengeSpec.remove_first ok ns). split; [destruct Hl'; by constructor |]. rewrite filter_firsts.
    split; [done | by apply remove_first_keys].
  - done.
  - congruence.
  - done.
  - intros q r [Hq Hin']%list_elem_of_filter. rewrite lookup_delete_ne by done. by apply Hsocks.
  - rewrite filter_firsts. by apply NoDup_filter.
  - rewrite filter_firsts. by intros [_ ?]%list_elem_of_filter.
  - rewrite filter_firsts. intros q r [_ Hq]%list_elem_of_filter [_ Hr]%list_elem_of_filter. by apply Hn.
  - done.
Qed.

Lemma remove_closed_run gone : forall fuel h cs, hub_with h cs gone -> NoDup gone -> (forall p, p ∈ gone -> p ∈ cs.*1) ->
  (length gone < fuel)%nat -> exists h', remove_closed fuel h = Some (tt, h') /\
    hub_ok h' (filter (fun c => c.1 ∉ gone) cs) /\ h'.(events) = h.(events) /\ h'.(ServerSock) = h.(ServerSock).
Proof.
  induction gone as [| p gone IH]; intros [| fuel] h cs Hh Hnd Hin Hf; cbn [length] in Hf; try lia.
  - exists h. destruct (with_stack _ _ _ Hh) as (ss & Hs & Hd & _). cbn [remove_closed].
    unfold on_stack. rewrite bind_run, (ListeSpec.StackIsEmpty_run _ ss Hs). destruct ss; [| done].
    rewrite bool_decide_eq_true_2 by done. split; [by destruct h |]. split; [| done].
    replace (filter _ cs) with cs; [done |]. symmetry. clear. induction cs as [| c cs IH]; [done |].
    rewrite filter_cons, decide_True by apply not_elem_of_nil. by rewrite IH.
  - destruct (with_stack _ _ _ Hh) as (ss & Hs & Hd & _). cbn [remove_closed].
    rewrite bind_run. unfold on_stack at 1. rewrite (ListeSpec.StackIsEmpty_run _ ss Hs). destruct ss; [done |].
    rewrite bool_decide_eq_false_2 by done. replace (h <| RemoveClients := _ |>) with h by by destruct h.
    destruct (pop_run h cs p gone Hh) as (h1 & R1 & Hh1 & He1 & Hs1). rewrite (bind_some _ _ _ _ _ R1).
    assert (exists s, (p, s) ∈ cs) as [s Hp].
    { specialize (Hin p ltac:(left)). apply list_elem_of_fmap in Hin as ([q s] & -> & Hin). by exists s. }
    destruct (remove_one h1 cs p s gone Hh1 Hp) as (h2 & R2 & Hh2 & He2 & Hs2).
    apply NoDup_cons in Hnd as [Hnp Hnd].
    destruct (IH fuel h2 _ Hh2 Hnd) as (h' & R' & Hh' & He' & Hs'); [| lia |].
    { intros q Hq. rewrite filter_firsts. apply list_elem_of_filter. split; [by intros -> | apply Hin; by right]. }
    exists h'. rewrite <- bind_assoc, (bind_some _ _ _ _ _ R2). split; [done |].
    rewrite He', He2, He1, Hs', Hs2, Hs1. split; [| done].
    rewrite list_filter_filter in Hh'. erewrite list_filter_iff; [exact Hh' |]. intros c. cbn. rewrite not_elem_of_cons. naive_solver.
Qed.

(** * A turn of the main loop *)

Section Turns.
Context (malloc_entry : gmap Z Dliste.element -> option Z) (malloc_stack : gmap Z Liste.element -> option Z).
Context (Hentry : DlisteSpec.allocator malloc_entry) (Hstack : ListeSpec.allocator malloc_stack).
Context (Hroom_entry : forall h, is_Some (malloc_entry h)) (Hroom : forall h, is_Some (malloc_stack h)).
Context (k : kernel).

(** Whether [select] has ended without an event. *)
Definition waited : bool := ((k.(select_) =? -1) && k.(interrupted)) || (k.(select_) =? 0).
(** Whether the hub looks at a socket: one that is ready, or after an error any. *)
Definition looks_at (s : Z) : bool := negb waited && ((k.(select_) <? 0) || k.(ready) s).
(** Whether somebody wants to join, the new client, and the answer when there is
    no memory for it. *)
Definition knocks (h : hub_t) : bool := negb waited && negb (k.(select_) <? 0) && k.(ready) h.(ServerSock).
Definition joined (h : hub_t) : list (Z * Z) :=
  if knocks h then match k.(malloc_client) h.(socks) with Some p => [(p, k.(accept_))] | None => [] end else [].
Definition refused (h : hub_t) : list event :=
  if knocks h then match k.(malloc_client) h.(socks) with Some p => [] | None => [Close k.(accept_)] end else [].
(** Memory for a client is not in use, and near the clients there are. *)
Definition client_memory (h : hub_t) (cs : list (Z * Z)) : Prop :=
  forall p, k.(malloc_client) h.(socks) = Some p ->
    p <> 0 /\ h.(socks) !! p = None /\ forall q, q ∈ cs.*1 -> - 2 ^ 31 < p - q < 2 ^ 31.

Lemma add_run h cs : hub_ok h cs -> client_memory h cs -> exists h',
  AddNewClient malloc_entry k h = Some (tt, h') /\
  hub_ok h' (match k.(malloc_client) h.(socks) with Some p => [(p, k.(accept_))] | None => [] end ++ cs) /\
  h'.(events) = h.(events) ++ (match k.(malloc_client) h.(socks) with Some p => [] | None => [Close k.(accept_)] end) /\
  h'.(ServerSock) = h.(ServerSock).
Proof using Hentry Hroom_entry.
  intros Hh Hm. unfold AddNewClient. rewrite bind_gets. unfold client_memory in Hm.
  destruct (malloc_client k (socks h)) as [p |]; [| exists (and_then h [Close (accept_ k)]); by split; [| split; [apply with_and_then |]]].
  destruct (Hm p eq_refl) as (H0 & Hf & Hnear). rewrite bind_modify.
  destruct Hh as [(ns & Hl & Hd & Hk) Hc Hfree Hcalls Hsocks Hpl Hnull Hn Hst].
  pose proof (MengeSpec.MengeAdd_run malloc_entry (SocketClients h) ns p Hentry Hl) as P.
  destruct (Hroom_entry (Dliste.elements (MengeDaten (SocketClients h)))) as [this Em]. rewrite Em in P.
  destruct P as (l' & R & [Hl' Hcalls' (Ek1 & Ek2 & Ek3) _]). set (h1 := over _ _ h).
  rewrite bind_run. unfold on_clients. change (SocketClients h1) with (SocketClients h). rewrite R.
  assert (Hp : p ∉ cs.*1).
  { intros ([q s] & -> & Hin)%list_elem_of_fmap. cbn in Hf. by rewrite (Hsocks _ _ Hin) in Hf. }
  eexists. split; [reflexivity |]. split; [| by rewrite app_nil_r]. constructor; cbn.
  - exists (mk_item this 0 p :: ns). split; [done |]. split; [cbn; by rewrite Hd | by constructor].
  - done.
  - congruence.
  - by rewrite Hcalls', Hcalls.
  - intros q s [[= -> ->] | Hin]%elem_of_cons; [apply lookup_insert_eq |].
    rewrite lookup_insert_ne; [by apply Hsocks |]. intros ->. apply Hp. apply list_elem_of_fmap. by exists (q, s).
  - by apply NoDup_cons.
  - by intros [? | ?]%elem_of_cons.
  - intros q r [-> | Hq]%elem_of_cons [-> | Hr]%elem_of_cons; [lia | | | by apply Hn].
    + specialize (Hnear _ Hr). lia.
    + specialize (Hnear _ Hq). lia.
  - done.
Qed.

Lemma filter_ext_in {A} (P Q : A -> Prop) `{!forall a, Decision (P a)} `{!forall a, Decision (Q a)} (l : list A) :
  (forall a, a ∈ l -> P a <-> Q a) -> filter P l = filter Q l.
Proof.
  induction l as [| a l IH]; [done |]. intros HPQ. rewrite !filter_cons, IH by (intros b Hb; apply HPQ; by right).
  specialize (HPQ a ltac:(left)). destruct (decide (P a)), (decide (Q a)); tauto || done.
Qed.

(** The clients served and those that have gone removed. *)
Lemma serve_run body sel h cs : hub_ok h cs -> (forall p, preserves same_clients (body p)) ->
  (forall h gone p s, hub_with h cs gone -> (p, s) ∈ cs ->
    body p h = if sel s : bool then handle_client malloc_stack k p h else Some (tt, h)) ->
  exists h', (do* each_client body in remove_all_closed) h = Some (tt, h') /\
    hub_ok h' (filter (fun c => sel c.2 && has_gone k c.2 = false) cs) /\
    h'.(events) = h.(events) ++ flat_map (fun c => if sel c.2 then answer k c.2 cs else []) cs /\
    h'.(ServerSock) = h.(ServerSock).
Proof using Hstack Hroom.
  intros Hh Hp Hb. rewrite bind_run, (each_client_of body h cs [] Hh Hp).
  destruct (handle_all malloc_stack Hstack Hroom k body sel cs Hb cs h [] Hh ltac:(done)) as (h1 & R & Hh1 & Hs1 & He1).
  rewrite R, app_nil_r in *. set (gone := rev _) in *.
  assert (Hg : forall p, p ∈ gone <-> exists s, (p, s) ∈ cs /\ sel s && has_gone k s).
  { intros p. unfold gone. rewrite <- Permutation_rev, list_elem_of_fmap. split.
    - intros ([q s] & -> & [Hc Hin]%list_elem_of_filter). by exists s.
    - intros (s & Hin & Hc). exists (p, s). split; [done |]. by apply list_elem_of_filter. }
  destruct (with_items _ _ _ Hh1) as (ns & Hl & _).
  unfold remove_all_closed. rewrite bind_get.
  destruct (remove_closed_run gone (S (size (Liste.elements (RemoveClients h1)))) h1 cs Hh1) as (h' & R' & Hh' & He' & Hs').
  - unfold gone. rewrite <- Permutation_rev. apply (sublist_NoDup _ cs.*1); [apply (with_places _ _ _ Hh1) |].
    apply fmap_sublist, sublist_filter.
  - intros p (s & Hin & _)%Hg. apply list_elem_of_fmap. by exists (p, s).
  - destruct (with_stack _ _ _ Hh1) as (ss & Hss & Hd & _).
    pose proof (ListeSpec.length_chain _ _ _ (ListeSpec.holds_chain _ _ Hss) (ListeSpec.holds_places _ _ Hss)) as L.
    rewrite <- Hd, length_map. lia.
  - exists h'. split; [done |]. rewrite He', Hs', He1, Hs1. split; [| done].
    erewrite filter_ext_in; [exact Hh' |]. intros [p s] Hin. cbn [fst snd]. rewrite Hg. split.
    + intros E (s' & Hin' & E'). assert (s' = s) as ->; [| by rewrite E in E'].
      pose proof (with_socks _ _ _ Hh _ _ Hin). pose proof (with_socks _ _ _ Hh _ _ Hin'). congruence.
    + intros Hn. apply not_true_is_false. intros E. apply Hn. exists s. by rewrite E.
Qed.

Definition fds_ok (h : hub_t) (cs : list (Z * Z)) : Prop :=
  fd_ok h.(ServerSock) = true /\ forall p s, (p, s) ∈ cs -> fd_ok s = true.

Lemma quiet_loop body h cs : hub_ok h cs -> (forall p, preserves same_clients (body p)) ->
  (forall p s, (p, s) ∈ cs -> body p h = Some (tt, h)) -> each_client body h = Some (tt, h).
Proof.
  intros Hh Hp Hb. rewrite (each_client_of body h cs [] Hh Hp). clear Hh. induction cs as [| [p s] cs IH]; [done |].
  cbn [fmap list_fmap fst for_each]. rewrite (bind_some _ _ _ _ _ (Hb p s ltac:(left))). apply IH.
  intros q r Hin. apply (Hb q r). by right.
Qed.
Lemma fill_fds_run h cs : hub_ok h cs -> fds_ok h cs -> fill_fds h = Some (tt, h).
Proof.
  intros Hh [Hs Hf]. unfold fill_fds. rewrite bind_gets, Hs. cbn [guard]. rewrite bind_ret.
  apply (quiet_loop _ h cs Hh); [intros p; preserve |]. intros p s Hin.
  rewrite (bind_some _ _ _ _ _ (sock_of_run h cs [] p s Hh Hin)), (Hf p s Hin). done.
Qed.

(** What a turn does: the clients after it and the events. *)
Definition clients_after (h : hub_t) (cs : list (Z * Z)) : list (Z * Z) :=
  filter (fun c => looks_at c.2 && has_gone k c.2 = false) (joined h ++ cs).
Definition events_of (h : hub_t) (cs : list (Z * Z)) : list event :=
  refused h ++ flat_map (fun c => if looks_at c.2 then answer k c.2 (joined h ++ cs) else []) (joined h ++ cs).

Lemma turn_run h cs : hub_ok h cs -> fds_ok h (joined h ++ cs) -> client_memory h cs ->
  exists h', DrehscheibeTurn malloc_entry malloc_stack k h = Some (tt, h') /\
    hub_ok h' (clients_after h cs) /\ h'.(events) = h.(events) ++ events_of h cs /\ h'.(ServerSock) = h.(ServerSock).
Proof using Hentry Hstack Hroom_entry Hroom.
  intros Hh Hf Hm. unfold DrehscheibeTurn.
  assert (Hf0 : fds_ok h cs).
  { destruct Hf as [Hs Hf]. split; [done |]. intros p s Hin. apply (Hf p s). apply elem_of_app. by right. }
  rewrite (bind_some _ _ _ _ _ (fill_fds_run h cs Hh Hf0)). fold waited.
  unfold clients_after, events_of, joined, refused, knocks, looks_at in *. destruct waited; cbn [negb andb] in *.
  { exists h. rewrite !app_nil_l. replace (filter _ cs) with cs
      by (clear; induction cs as [| c cs IH]; [done |]; rewrite filter_cons, decide_True by done; by rewrite <- IH).
    replace (flat_map _ cs) with (@nil event) by (clear; by induction cs). by rewrite app_nil_r. }
  destruct (select_ k <? 0); cbn [negb andb orb].
  - destruct (serve_run (handle_client malloc_stack k) (fun _ => true) h cs Hh) as (h' & R & Hh' & He & Hs);
      [intros p; apply keep_handle | done |]. by exists h'.
  - rewrite bind_gets in *. set (new := if ready k (ServerSock h) then _ else @nil (Z * Z)).
    set (ref := if ready k (ServerSock h) then _ else @nil event).
    assert (exists h1, (if ready k (ServerSock h) then AddNewClient malloc_entry k else ret tt) h = Some (tt, h1) /\
      hub_ok h1 (new ++ cs) /\ h1.(events) = h.(events) ++ ref /\ h1.(ServerSock) = h.(ServerSock)) as (h1 & R1 & Hh1 & He1 & Hs1).
    { unfold new, ref. destruct (ready k (ServerSock h)); [by apply add_run |]. exists h. by rewrite app_nil_r. }
    rewrite (bind_some _ _ _ _ _ R1).
    pose proof (proj2 Hf : forall p s, (p, s) ∈ new ++ cs -> fd_ok s = true) as Hf1.
    destruct (serve_run (fun ClientEntry => let* s := sock_of ClientEntry in do* guard (fd_ok s) in
      if ready k s then handle_client malloc_stack k ClientEntry else ret tt) (ready k) h1 (new ++ cs) Hh1) as (h' & R & Hh' & He & Hs).
    + intros p. apply preserves_bind; [exact _ | apply keep_sock | intros s].
      apply preserves_bind; [exact _ | apply preserves_guard; exact _ | intros _]. apply preserves_if; [apply keep_handle | preserve].
    + intros h2 gone p s Hh2 Hin. rewrite (bind_some _ _ _ _ _ (sock_of_run h2 _ gone p s Hh2 Hin)), (Hf1 p s Hin).
      cbn [guard]. rewrite bind_ret. by destruct (ready k s).
    + exists h'. split; [done |]. split; [done |]. rewrite He, He1, Hs, Hs1, <- app_assoc. done.
Qed.

(** C10. A turn of the hub.  From a hub whose clients are in its set: a client that
    wants to join is in the set after the turn, before the others, or turned
    away where there is no memory for it; every client whose socket is ready,
    the new one included, is read once, in order; a message goes to every other
    client once and to nobody else, the one that sent it not included; a client
    whose connection has ended is closed and taken out, and its memory freed;
    a timeout changes nothing, and after an error of [select] every client is
    read.  The hub is in a proper state again. *)
Theorem hub_turn h cs : hub_ok h cs -> fds_ok h (joined h ++ cs) -> client_memory h cs ->
  NoDup (joined h ++ cs).*2 ->
  exists h', DrehscheibeTurn malloc_entry malloc_stack k h = Some (tt, h') /\
    hub_ok h' (clients_after h cs) /\ h'.(events) = h.(events) ++ events_of h cs /\
    forall s, 0 < (k.(recv) s).1 -> exists rs,
      answer k s (joined h ++ cs) = map (fun r => Send r (k.(recv) s).2) rs /\ NoDup rs /\
      forall r, r ∈ rs <-> r ∈ (joined h ++ cs).*2 /\ r <> s.
Proof using Hentry Hstack Hroom_entry Hroom.
  intros Hh Hf Hm Hnd. destruct (turn_run h cs Hh Hf Hm) as (h' & R & Hh' & He & _).
  exists h'. split; [done |]. split; [done |]. split; [done |]. intros s Hn.
  exists (filter (fun r => r <> s) (joined h ++ cs).*2). unfold answer. destruct (k.(recv) s) as [n c]. cbn [fst snd] in *.
  replace (n <? 0) with false by zbool. replace (n =? 0) with false by zbool. split; [done |].
  split; [by apply NoDup_filter |]. intros r. rewrite list_elem_of_filter. tauto.
Qed.

(** A connection that cannot be accepted stops the hub.  When [accept] fails,
    its -1 becomes the socket of a client all the same, and the loop that
    follows looks for it among the ready sockets: for a negative descriptor
    FD_ISSET has no defined result. *)
Theorem failed_accept_stops_hub h cs p : hub_ok h cs -> fds_ok h cs -> client_memory h cs ->
  0 < k.(select_) -> k.(ready) h.(ServerSock) = true -> k.(accept_) = -1 -> k.(malloc_client) h.(socks) = Some p ->
  DrehscheibeTurn malloc_entry malloc_stack k h = None.
Proof using Hentry Hroom_entry.
  intros Hh Hf Hm Hsel Hr Ha Hp. unfold DrehscheibeTurn. rewrite (bind_some _ _ _ _ _ (fill_fds_run h cs Hh Hf)).
  replace (((select_ k =? -1) && interrupted k) || (select_ k =? 0)) with false by zbool.
  replace (select_ k <? 0) with false by zbool. rewrite bind_gets, Hr.
  destruct (add_run h cs Hh Hm) as (h1 & R1 & Hh1 & _). rewrite Hp, Ha in Hh1. cbn [app] in Hh1.
  rewrite (bind_some _ _ _ _ _ R1). set (body := fun e => _). rewrite bind_run.
  rewrite (each_client_of body h1 _ [] Hh1).
  - cbn [fmap list_fmap fst for_each]. unfold body at 1.
    rewrite bind_run, bind_run, (sock_of_run h1 _ [] p (-1) Hh1) by left. reflexivity.
  - intros q. unfold body. apply preserves_bind; [exact _ | apply keep_sock | intros s].
    apply preserves_bind; [exact _ | apply preserves_guard; exact _ | intros _]. apply preserves_if; [apply keep_handle | preserve].
Qed.
End Turns.

(** The hub starts without clients. *)
Lemma hub_start s : hub_ok (DrehscheibeStart s) [].
Proof.
  constructor; try done.
  - exists []. split; [by constructor; [| constructor | |] | done].
  - by intros p r ?%elem_of_nil.
  - apply NoDup_nil_2.
  - apply not_elem_of_nil.
  - by intros p q ?%elem_of_nil.
  - exists []. split; [by constructor; [| constructor |] | done].
Qed.

(** A hub with two clients, one of which sends a message. *)
Definition two_clients : list (Z * Z) := [(101, 6); (100, 5)].
Definition a_hub : hub_t :=
  mk_hub 3
    (mk_menge (Dliste.mk_dliste {[1 := Dliste.mk_element 0 101 0 2; 2 := Dliste.mk_element 0 100 1 0]} 1 2 None false true [])
      (Some SocketClientsCompare))
    (Liste.mk_liste ∅ 0 0 None false true []) {[100 := 5; 101 := 6]} [].
Lemma a_hub_ok : hub_ok a_hub two_clients.
Proof.
  constructor; try done.
  - exists [mk_item 1 0 101; mk_item 2 0 100]. split; [constructor; [split_and!; done | | done | done] | split; [done | by repeat constructor]].
    apply NoDup_cons. split; [by intros ?%list_elem_of_singleton | apply NoDup_singleton].
  - by intros p s [[= -> ->] | [= -> ->]%list_elem_of_singleton]%elem_of_cons.
  - apply NoDup_cons. split; [by intros ?%list_elem_of_singleton | apply NoDup_singleton].
  - by intros [? | ?%list_elem_of_singleton]%elem_of_cons.
  - intros p q [-> | ->%list_elem_of_singleton]%elem_of_cons [-> | ->%list_elem_of_singleton]%elem_of_cons; done.
  - exists []. split; [by constructor; [| constructor |] | done].
Qed.
Definition a_cmd : MrIpcCmdType := MrIpcInit (mk_cmd 0 0 0 0 0 0 0 (replicate 24 0)).
Definition a_turn (accepted : Z) (server : bool) : kernel :=
  mk_kernel 1 false (fun s => if s =? 3 then server else s =? 5) accepted (fun _ => Some 102) (fun _ => (40, a_cmd)).
Lemma all_fds cs h : fd_ok h.(ServerSock) = true -> Forall (fun c => fd_ok c.2 = true) cs -> fds_ok h cs.
Proof. intros Hs F. split; [done |]. rewrite Forall_forall in F. intros p s Hin. apply (F _ Hin). Qed.
Lemma a_turn_memory accepted server : client_memory (a_turn accepted server) a_hub two_clients.
Proof.
  intros p [= <-]. split; [done |]. split; [done |].
  intros q [-> | ->%list_elem_of_singleton]%elem_of_cons; cbn; lia.
Qed.
Lemma hub_turn_witness : exists h', DrehscheibeTurn MengeSpec.an_malloc ListeSpec.liste_malloc (a_turn 7 true) a_hub = Some (tt, h') /\
  h'.(events) = [Send 7 a_cmd; Send 6 a_cmd] /\ hub_ok h' [(102, 7); (101, 6); (100, 5)].
Proof.
  destruct (hub_turn MengeSpec.an_malloc ListeSpec.liste_malloc MengeSpec.an_malloc_ok ListeSpec.liste_malloc_ok
    ltac:(by eexists) ltac:(by eexists) (a_turn 7 true) a_hub two_clients a_hub_ok) as (h' & R & Hh' & He & _).
  - apply (all_fds [(102, 7); (101, 6); (100, 5)]); [done | by repeat constructor].
  - apply a_turn_memory.
  - by apply (bool_decide_unpack (NoDup [7; 6; 5])).
  - exists h'. split; [exact R |]. split; [rewrite He; reflexivity | exact Hh'].
Defined.
Lemma failed_accept_stops_hub_witness : DrehscheibeTurn MengeSpec.an_malloc ListeSpec.liste_malloc (a_turn (-1) true) a_hub = None.
Proof.
  apply (failed_accept_stops_hub MengeSpec.an_malloc ListeSpec.liste_malloc MengeSpec.an_malloc_ok ltac:(by eexists)
    (a_turn (-1) true) a_hub two_clients 102 a_hub_ok); try done.
  - apply all_fds; [done | by repeat constructor].
  - apply a_turn_memory.
Defined.
End HubSpec.
