(* ===== verification/MrBridge.v ===== *)
(** The programs of mrsystem that carry messages between the hub and a CAN bus or
    network (src/mrsystem/src/common/cs2eth.c, client_cs2sl/cs2sl.c): what each
    makes of a message from the hub and of one from outside, and a turn of its
    main loop. *)

From S2P Require Import Prelude World MrCs2 MrIpc.

Module Bridge.
Import MrCs2 MrIpc.

(** [MrIpcSend] to the hub, and [Write] of the bridge's functions for the
    outside with the receiver. *)
Inductive event :=
| To_system (c : MrIpcCmdType)
| To_outside (receiver : Z) (m : MrCs2CanDataType).

(** The part of [Cs2ethStruct] and [Cs2slStruct] the loop uses, and [Loop]. *)
Record bridge_t := mk_bridge { ClientSock : Z; HideMs2 : bool; Loop : bool; events : list event }.
#[export] Instance eta_bridge : Settable bridge_t := fun b =>
  mk_bridge b.(ClientSock) b.(HideMs2) b.(Loop) b.(events).
Definition emit (e : event) : prog bridge_t unit := modify (fun b => b <| events ::= fun es => es ++ [e] |>).

(** What is outside during a turn: [select] and [errno], the sockets with
    something to read, what the hub's socket gives, the outside sockets and the
    messages each has. *)
Record world := mk_world {
  select_ : Z;
  interrupted : bool;
  ready : Z -> bool;
  recv : Z * MrIpcCmdType;
  fds : list Z;
  read_ : Z -> list MrCs2CanDataType }.

Section Bridge.
Context {char : CharSign}.
(** The local variables [Cmd] and [CanMsg] before they are set. *)
Context (cmd0 : MrIpcCmdType) (msg0 : MrCs2CanDataType).

(** The message for the hub, in both programs. *)
Definition outside_command (CanMsg : MrCs2CanDataType) (SenderSocket : Z) : MrIpcCmdType :=
  let Cmd := MrIpcEncodeFromCan (MrIpcInit cmd0) CanMsg in
  let Cmd := MrIpcSetSenderSocket SenderSocket Cmd in
  let Cmd := MrIpcSetReceiverSocket MR_IPC_SOCKET_ALL Cmd in
  if MrIpcGetCanHash Cmd =? 0 then MrIpcSetCanHash (Cs2CalcHash (MrIpcGetCanHash Cmd)) Cmd else Cmd.
Definition ProcessOutsideData (CanMsg : MrCs2CanDataType) (SenderSocket : Z) : prog bridge_t unit :=
  emit (To_system (outside_command CanMsg SenderSocket)).

Definition write (CmdFrame : MrIpcCmdType) : prog bridge_t unit :=
  let* CanMsg := need (MrIpcDecodeToCan CmdFrame msg0) in
  emit (To_outside (MrIpcGetReceiverSocket CmdFrame) CanMsg).

(** [ProcessSystemData] of cs2eth.c *)
Definition Cs2ethProcessSystemData (CmdFrame : MrIpcCmdType) : prog bridge_t unit :=
  let* hide := gets HideMs2 in
  switch (MrIpcGetCommand CmdFrame) [
    (MrIpcCmdIntern, ret tt);
    (MrIpcCmdRequestLocName, ret tt);
    (MrIpcCmdRequestLocInfo, ret tt);
    (MrIpcCmdRequestLokListe, ret tt);
    (MrIpcCmdMember,
      let '(Addr, Version, Type_) := MrIpcCmdGetMember CmdFrame in
      if negb hide || (negb (Type_ =? CS2_DEVID_MS2_1) && negb (Type_ =? CS2_DEVID_MS2_2))
      then write CmdFrame else ret tt)]
  (write CmdFrame).
(** [ProcessSystemData] of cs2sl.c *)
Definition Cs2slProcessSystemData (CmdFrame : MrIpcCmdType) : prog bridge_t unit :=
  if negb (MrIpcGetCommand CmdFrame =? MrIpcCmdNull) then
    switch (MrIpcGetCommand CmdFrame) [
      (MrIpcCmdRequestLocName, ret tt);
      (MrIpcCmdRequestLocInfo, ret tt)]
    (write CmdFrame)
  else ret tt.

(** The loops, the same in both programs but for [ProcessSystemData]. *)
Section Loop.
Context (ProcessSystemData : MrIpcCmdType -> prog bridge_t unit) (w : world).

Definition HandleSystemData : prog bridge_t unit :=
  let '(n, CmdFrame) := w.(recv) in
  if n <? 0 then ret tt
  else if n =? 0 then modify (fun b => b <| Loop := false |>)
  else ProcessSystemData CmdFrame.
Definition HandleOutsideData (Fd : Z) : prog bridge_t unit :=
  for_each (w.(read_) Fd) (fun CanMsg => ProcessOutsideData CanMsg Fd).

Definition BridgeTurn : prog bridge_t unit :=
  let* sock := gets ClientSock in
  if ((w.(select_) =? -1) && w.(interrupted)) || (w.(select_) =? 0) then ret tt
  else if w.(select_) <? 0 then modify (fun b => b <| Loop := false |>)
  else
    do* (if w.(ready) sock then HandleSystemData else ret tt) in
    for_each w.(fds) (fun IoFd => if w.(ready) IoFd then HandleOutsideData IoFd else ret tt).
End Loop.
(** The turns until the loop ends. *)
Fixpoint BridgeRun ProcessSystemData (ws : list world) : prog bridge_t unit :=
  match ws with
  | [] => ret tt
  | w :: ws =>
      let* go := gets Loop in
      if go then do* BridgeTurn ProcessSystemData w in BridgeRun ProcessSystemData ws else ret tt
  end.
End Bridge.
End Bridge.
