(* ===== verification/MrBridgeSpec.v ===== *)
(** What the bridges of mrsystem make of a message: which command carries it to
    the hub, and what a bridge writes that gets it from there. *)

From S2P Require Import Prelude World Lan LanBytes LanSpec MrCs2 MrIpc MrFacts MrFrames MrRelay MrBridge.

Module BridgeSpec.
Import Lan LanBytes LanSpec MrCs2 MrIpc MrFacts MrFrames MrRelay Bridge.

#[local] Existing Instance unsigned_char.

(** The message between programs a CAN message becomes; [MrIpcCmdNull] carries
    the messages mrsystem has none of its own for. *)
Definition command_of (m : MrCs2CanDataType) : Z :=
  let dlc cases := switch m.(Dlc) cases MrIpcCmdNull in
  switch m.(Command) [
    (CS2_CMD_SYSTEM, switch (nth 4 m.(Data) 0) [
      (CS2_SUBCMD_SYSTEM_STOP, MrIpcCmdRun);
      (CS2_SUBCMD_SYSTEM_GO, MrIpcCmdRun);
      (CS2_SUBCMD_SYSTEM_TRACK_PROTOCOLL, MrIpcCmdTrackProto);
      (CS2_SUBCMD_SYSTEM_STATUS, dlc [
        (6, MrIpcCmdRequestMesswert);
        (7, MrIpcCmdConfigResponse);
        (8, if m.(Response) =? 0 then MrIpcCmdSetConfig else MrIpcCmdMesswertResponse)])] MrIpcCmdNull);
    (CS2_CMD_SPEED, dlc [(6, MrIpcCmdLocomotiveSpeed)]);
    (CS2_CMD_DIRECTION, dlc [(5, MrIpcCmdLocomotiveDirection)]);
    (CS2_CMD_FUNCTION, dlc [(5, MrIpcCmdLocomotiveFunction); (6, MrIpcCmdLocomotiveFunction); (8, MrIpcCmdLocomotiveFunction)]);
    (CS2_CMD_ACC_SWITCH, dlc [(6, MrIpcCmdAccSwitch)]);
    (CS2_CMD_PING, dlc [(0, MrIpcCmdRequestMember); (8, MrIpcCmdMember)]);
    (CS2_CMD_BOOTLDR_TRACK, MrIpcCmdCanBootldrGeb);
    (CS2_CMD_STATUS, dlc [
      (5, if m.(Response) =? 0 then MrIpcCmdStatusRequest else MrIpcCmdStatusResponse);
      (6, MrIpcCmdStatusSize); (8, MrIpcCmdStatusData)]);
    (CS2_CMD_CONFIG_QUERY, MrIpcCmdRequestFile);
    (CS2_CMD_CFGDAT_STREAM, dlc [(6, MrIpcCmdCfgHeader); (7, MrIpcCmdCfgZHeader); (8, MrIpcCmdCfgData)])] MrIpcCmdNull.
(** The answer to a ping, and the one of a Mobile Station 2. *)
Definition member (m : MrCs2CanDataType) : bool := (m.(Command) =? CS2_CMD_PING) && (m.(Dlc) =? 8).
Definition from_ms2 (m : MrCs2CanDataType) : bool :=
  let t := of_be [nth 6 m.(Data) 0; nth 7 m.(Data) 0] in
  member m && ((t =? CS2_DEVID_MS2_1) || (t =? CS2_DEVID_MS2_2)).

(** Every branch of the translation. *)
Ltac branches :=
  repeat match goal with |- context [?x =? ?k] =>
    let r := eval vm_compute in (x =? k) in
    lazymatch r with
    | true => change (x =? k) with true; cbv iota
    | false => change (x =? k) with false; cbv iota
    | _ => let E := fresh in destruct (x =? k) eqn:E; cbv iota; cbn [negb orb andb];
        [try (apply Z.eqb_eq in E; first [subst x | idtac]) | idtac]
    end
  end.

(** The numbers a decoder gives, whatever they are. *)
Ltac read_numbers := repeat match goal with |- context [match ?p with (_, _) => _ end] => destruct p end.

Lemma encode_hash c m h : MrIpcSetCanHash h (MrIpcEncodeFromCan c m) = MrIpcEncodeFromCan c (m <| Hash := h |>).
Proof.
  unfold MrIpcEncodeFromCan. cbv zeta. change (MrIpcSetCanPrio m.(Prio) _) with (header m c).
  change (MrIpcSetCanPrio _ (MrIpcSetCanCommand _ _)) with (MrIpcSetCanHash h (header m c)).
  generalize (header m c). intros x. destruct m as [id dlc d is_cs2 hash resp cmd prio]. unfold MrCs2GetSystemSubcmd.
  cbn [over Id Dlc Data IsCs2 Hash Response Command Prio]. lazy beta iota delta [switch].
  generalize (nth 4 d 0). intros sub. branches; read_numbers; reflexivity.
Qed.

Lemma encode_command c m : MrIpcGetCommand (MrIpcEncodeFromCan c m) = command_of m.
Proof.
  unfold MrIpcEncodeFromCan, command_of. cbv zeta. change (MrIpcSetCanPrio m.(Prio) _) with (header m c).
  generalize (header m c). intros x. destruct m as [id dlc d is_cs2 hash resp cmd prio]. unfold MrCs2GetSystemSubcmd.
  cbn [Id Dlc Data IsCs2 Hash Response Command Prio]. lazy beta iota delta [switch].
  generalize (nth 4 d 0). intros sub. branches; read_numbers; reflexivity.
Qed.
Lemma command_kinds m : (command_of m =? MrIpcCmdMember) = member m /\
  (command_of m =? MrIpcCmdIntern) = false /\ (command_of m =? MrIpcCmdRequestLocName) = false /\
  (command_of m =? MrIpcCmdRequestLocInfo) = false /\ (command_of m =? MrIpcCmdRequestLokListe) = false.
Proof.
  assert (R : 0 <= command_of m < 24 /\ command_of m <> 9 /\ command_of m <> 10 /\ (command_of m = 8 <-> member m = true)).
  { unfold command_of, member. destruct m as [id dlc d is_cs2 hash resp cmd prio].
    cbn [Dlc Data Response Command]. cbv zeta. lazy beta iota delta [switch]. generalize (nth 4 d 0). intros sub.
    branches; done. }
  destruct R as (R & H9 & H10 & Hm). split; [| split_and!; apply Z.eqb_neq;
    unfold MrIpcCmdIntern, MrIpcCmdRequestLocName, MrIpcCmdRequestLocInfo, MrIpcCmdRequestLokListe; lia].
  destruct (Z.eqb_spec (command_of m) MrIpcCmdMember) as [E | E]; symmetry; [by apply Hm |].
  apply not_true_is_false. rewrite <- Hm. exact E.
Qed.

(** The sockets a message carries do not matter to its translation. *)
Lemma decode_sockets c s r m0 : MrIpcDecodeToCan (MrIpcSetReceiverSocket r (MrIpcSetSenderSocket s c)) m0 = MrIpcDecodeToCan c m0.
Proof. by destruct c. Qed.
Lemma command_sockets c s r : MrIpcGetCommand (MrIpcSetReceiverSocket r (MrIpcSetSenderSocket s c)) = MrIpcGetCommand c.
Proof. reflexivity. Qed.
Lemma member_sockets c s r : MrIpcCmdGetMember (MrIpcSetReceiverSocket r (MrIpcSetSenderSocket s c)) = MrIpcCmdGetMember c.
Proof. reflexivity. Qed.
Lemma hash_sockets c s r : MrIpcGetCanHash (MrIpcSetReceiverSocket r (MrIpcSetSenderSocket s c)) = MrIpcGetCanHash c.
Proof. reflexivity. Qed.
Lemma set_hash_sockets c s r h : MrIpcSetCanHash h (MrIpcSetReceiverSocket r (MrIpcSetSenderSocket s c)) =
  MrIpcSetReceiverSocket r (MrIpcSetSenderSocket s (MrIpcSetCanHash h c)).
Proof. reflexivity. Qed.
Lemma normal_hash m : exists command dlc data, forall h,
  normal (m <| Hash := h |>) = with_header (m <| Hash := h |>) command dlc data.
Proof.
  unfold normal. cbv zeta. destruct m as [id dlc d is_cs2 hash resp cmd prio].
  cbn [over Id Dlc Data IsCs2 Hash Response Command Prio]. lazy beta iota delta [switch].
  generalize (nth 4 d 0). intros sub. branches; eexists _, _, _; intros h; reflexivity.
Qed.
Lemma encode_has_hash c m : 0 <= m.(Hash) < 2 ^ 16 -> MrIpcGetCanHash (MrIpcEncodeFromCan c m) = m.(Hash).
Proof.
  intros Hh. assert (E : m <| Hash := m.(Hash) |> = m) by by destruct m. rewrite <- E at 1. rewrite <- encode_hash.
  unfold MrIpcGetCanHash, MrIpcSetCanHash. cbn [over CanHash]. rewrite htons_twice. by apply wrap_small.
Qed.

(** The type in an answer to a ping. *)
Lemma encode_member c m : message_ok m -> ipc_ok c -> member m = true ->
  (MrIpcCmdGetMember (MrIpcEncodeFromCan c m)).2 = of_be [nth 6 m.(Data) 0; nth 7 m.(Data) 0].
Proof.
  intros (_ & Hlen & Hbytes & _) Hc [Ec Ed]%andb_prop. apply Z.eqb_eq in Ec, Ed.
  assert (E : MrIpcEncodeFromCan c m = let '(Uid, p1, p2) := Cs2DecPing8 m.(Data) in MrIpcCmdSetMember (header m c) Uid p1 p2).
  { unfold MrIpcEncodeFromCan. cbv zeta. change (MrIpcSetCanPrio _ _) with (header m c).
    generalize (header m c). intros h. rewrite Ec, Ed. reflexivity. }
  rewrite E. unfold Cs2DecPing8, MrIpcCmdGetMember. cbv zeta. cbn [snd]. unfold MrIpcCmdSetMember.
  rewrite ip2_lii by exact Hc. destruct m as [id dlc d is_cs2 hash resp cmd prio]. cbn [Data] in *.
  eight_bytes d Hlen Hbytes. cbn [drop nth]. rewrite int_value by done.
  match goal with |- _ = of_be [?a; ?b] => pose proof (of_be16_range a b ltac:(done) ltac:(done)) end.
  rewrite swrap_small, wrap_small by lia. done.
Qed.
(** The message for the hub is one that says what [normal] says, also where the
    message came without a hash. *)
Lemma outside_decoded cmd0 m sender : message_ok m -> ipc_ok cmd0 ->
  let c := outside_command cmd0 m sender in
  MrIpcGetCommand c = command_of m /\ MrIpcGetReceiverSocket c = MR_IPC_SOCKET_ALL /\
  (member m = true -> (MrIpcCmdGetMember c).2 = of_be [nth 6 m.(Data) 0; nth 7 m.(Data) 0]) /\
  exists m', (forall m1, MrIpcDecodeToCan c m1 = Some m') /\ message_ok m' /\ wire m' = wire (normal m).
Proof.
  intros Hm Hc c. pose proof Hm as (Hdlc & Hlen & Hbytes & Hh & Hrest).
  assert (Ec : exists h, 0 <= h < 2 ^ 16 /\ set_magic h = set_magic m.(Hash) /\ c =
    MrIpcSetReceiverSocket MR_IPC_SOCKET_ALL (MrIpcSetSenderSocket sender (MrIpcEncodeFromCan (MrIpcInit cmd0) (m <| Hash := h |>)))).
  { unfold c, outside_command. cbv zeta.
    rewrite hash_sockets, encode_has_hash by done. destruct (Z.eqb_spec m.(Hash) 0) as [E | E].
    - exists (Cs2CalcHash 0). split; [by vm_compute |]. rewrite E. split; [reflexivity |]. by rewrite set_hash_sockets, encode_hash.
    - exists m.(Hash). by destruct m. }
  destruct Ec as (h & Hh' & Emagic & ->). set (m2 := m <| Hash := h |>).
  assert (Hm2 : message_ok m2) by exact (conj Hdlc (conj Hlen (conj Hbytes (conj Hh' Hrest)))).
  rewrite command_sockets, member_sockets, encode_command. split; [by destruct m |]. split; [done |]. split.
  - intros Hmem. by rewrite (encode_member _ m2); destruct m.
  - exists (normal m2). split; [intros m1; rewrite decode_sockets; by apply relay_normal |]. split; [by apply normal_ok |].
    destruct (normal_hash m) as (command & dlc & data & E). pose proof (E m.(Hash)) as E0.
    replace (m <| Hash := m.(Hash) |>) with m in E0 by by destruct m. rewrite E0. unfold m2. rewrite E.
    unfold wire, on_bus, MrCs2Encode, encode_fields, with_header.
    cbn [snd over Id Dlc Data IsCs2 Hash Response Command Prio can_id can_dlc can_data]. by rewrite Emagic.
Qed.

(** What a bridge to a CAN bus does with the message. *)
Definition hears (b : bridge_t) (m : MrCs2CanDataType) : bool := negb (b.(HideMs2) && from_ms2 m).
Lemma cs2eth_run cmd0 msg0 m sender b : message_ok m -> ipc_ok cmd0 ->
  let c := outside_command cmd0 m sender in exists m', message_ok m' /\ wire m' = wire (normal m) /\
  (forall m1, MrIpcDecodeToCan c m1 = Some m') /\
  Cs2ethProcessSystemData msg0 c b =
    Some (tt, if hears b m then b <| events ::= fun es => es ++ [To_outside MR_IPC_SOCKET_ALL m'] |> else b).
Proof.
  intros Hm Hc c. destruct (outside_decoded cmd0 m sender Hm Hc) as (Ek & Er & Et & m' & Ed & Hm' & Hw). fold c in Ek, Er, Et, Ed.
  exists m'. split; [done |]. split; [done |]. split; [done |].
  assert (W : write msg0 c b = Some (tt, b <| events ::= fun es => es ++ [To_outside MR_IPC_SOCKET_ALL m'] |>)).
  { unfold write. rewrite Ed, Er. reflexivity. }
  unfold Cs2ethProcessSystemData. rewrite bind_gets, Ek. cbn [switch].
  destruct (command_kinds m) as (Km & K1 & K2 & K3 & K4). rewrite Km, K1, K2, K3, K4. unfold hears, from_ms2.
  destruct (member m); [| by rewrite andb_false_r]. rewrite <- (Et eq_refl). cbn [andb].
  destruct (MrIpcCmdGetMember c) as [[addr version] t]. cbn [snd].
  destruct (HideMs2 b), (t =? CS2_DEVID_MS2_1), (t =? CS2_DEVID_MS2_2); done.
Qed.
Lemma cs2sl_run cmd0 msg0 m sender b : message_ok m -> ipc_ok cmd0 ->
  let c := outside_command cmd0 m sender in exists m', (forall m1, MrIpcDecodeToCan c m1 = Some m') /\
  Cs2slProcessSystemData msg0 c b =
    Some (tt, if command_of m =? MrIpcCmdNull then b else b <| events ::= fun es => es ++ [To_outside MR_IPC_SOCKET_ALL m'] |>).
Proof.
  intros Hm Hc c. destruct (outside_decoded cmd0 m sender Hm Hc) as (Ek & Er & _ & m' & Ed & _). fold c in Ek, Er, Ed.
  exists m'. split; [done |]. unfold Cs2slProcessSystemData. rewrite Ek. cbn [switch].
  destruct (command_kinds m) as (_ & _ & K2 & K3 & _). rewrite K2, K3. destruct (command_of m =? MrIpcCmdNull); [done |].
  cbn [negb]. unfold write. rewrite Ed, Er. reflexivity.
Qed.
End BridgeSpec.
