(* ===== verification/MrSystem.v ===== *)
(** mrsystem as a whole: a frame from one bus reaches every other bus. *)

From S2P Require Import Prelude World Avl Lan LanBytes LanSpec MrCs2 MrIpc MrFacts MrFrames MrRelay.
From S2P Require Import MrDliste MrDlisteSpec MrMenge MrListe MrListeSpec MrHub MrHubSpec MrBridge MrBridgeSpec.

Module System.
Import MrCs2 MrIpc MrFacts MrFrames MrRelay BridgeSpec.
Import HubSpec(hub_ok, fds_ok, client_memory, joined, looks_at, answer, sends, events_of, turn_run).

#[local] Existing Instance unsigned_char.

(** A client's message is among the events for every other client. *)
Lemma send_among k h cs p s r : (p, s) ∈ joined k h ++ cs -> looks_at k s = true -> 0 < (k.(Hub.recv) s).1 ->
  r ∈ (joined k h ++ cs).*2 -> r <> s -> Hub.Send r (k.(Hub.recv) s).2 ∈ events_of k h cs.
Proof.
  intros Hp Hl Hn Hr Hne. unfold events_of. apply elem_of_app. right. apply list_elem_of_In, in_flat_map.
  exists (p, s). split; [by apply list_elem_of_In |]. cbn [snd]. rewrite Hl. unfold answer.
  destruct (k.(Hub.recv) s) as [n c]. cbn [fst snd] in *. replace (n <? 0) with false by zbool.
  replace (n =? 0) with false by zbool. apply list_elem_of_In. unfold sends. apply (list_elem_of_fmap_2 (fun r => Hub.Send r c)).
  by apply list_elem_of_filter.
Qed.
Lemma bridge_turn_run cmd0 process w b c : 0 < w.(Bridge.select_) -> w.(Bridge.ready) b.(Bridge.ClientSock) = true ->
  0 < w.(Bridge.recv).1 -> w.(Bridge.recv).2 = c -> (forall fd, fd ∈ w.(Bridge.fds) -> w.(Bridge.ready) fd = false) ->
  Bridge.BridgeTurn cmd0 process w b = process c b.
Proof.
  intros Hs Hr Hn Hc Hf. unfold Bridge.BridgeTurn. rewrite bind_gets.
  replace (((Bridge.select_ w =? -1) && Bridge.interrupted w) || (Bridge.select_ w =? 0)) with false by zbool.
  replace (Bridge.select_ w <? 0) with false by zbool. rewrite Hr. unfold Bridge.HandleSystemData.
  destruct (Bridge.recv w) as [n c']. cbn [fst snd] in *. subst c'. replace (n <? 0) with false by zbool.
  replace (n =? 0) with false by zbool. rewrite bind_run. destruct (process c b) as [[[] b'] |]; [| done].
  induction (Bridge.fds w) as [| fd fds IH]; [done |]. cbn [for_each]. rewrite Hf by left. rewrite bind_ret.
  apply IH. intros fd' Hin. apply Hf. by right.
Qed.

Definition sends_frame (m : MrCs2CanDataType) (b : Bridge.bridge_t) : Bridge.bridge_t :=
  Bridge.mk_bridge b.(Bridge.ClientSock) b.(Bridge.HideMs2) b.(Bridge.Loop)
    (b.(Bridge.events) ++ [Bridge.To_outside MR_IPC_SOCKET_ALL m]).

(** C3. The way of a frame from one bus to the others.  A bridge makes a message of
    a frame of the track format and sends it to the hub, and the hub's next turn
    sends it to every other client.  In a turn in which only this message is
    there, a bridge of common/cs2eth.c sends one frame, the same whatever bridge
    it is, unless the message is the answer of a Mobile Station 2 to a ping and
    the bridge hides those ([hears]); client_cs2sl sends that frame too, unless
    the frame that came is of none of the commands mrsystem knows, and then it
    sends nothing.  The frame sent is the frame that came exactly where
    [lossless] says so.  [char] is unsigned. *)
Theorem frame_to_every_bus malloc_entry malloc_stack k h cs p s f m0 cmd0 sender :
  DlisteSpec.allocator malloc_entry -> ListeSpec.allocator malloc_stack ->
  (forall h, is_Some (malloc_entry h)) -> (forall h, is_Some (malloc_stack h)) ->
  hub_ok h cs -> fds_ok h (joined k h ++ cs) -> client_memory k h cs ->
  (p, s) ∈ joined k h ++ cs -> looks_at k s = true -> cs2_frame f -> ipc_ok cmd0 ->
  let m := MrCs2Decode m0 f in
  let c := Bridge.outside_command cmd0 m sender in
  0 < (k.(Hub.recv) s).1 -> (k.(Hub.recv) s).2 = c ->
  exists h' m', Hub.DrehscheibeTurn malloc_entry malloc_stack k h = Some (tt, h') /\
    (forall r, r ∈ (joined k h ++ cs).*2 -> r <> s -> Hub.Send r c ∈ h'.(Hub.events)) /\
    (wire m' = on_bus f <-> lossless m = true) /\
    forall b w cmd1 msg1, 0 < w.(Bridge.select_) -> w.(Bridge.ready) b.(Bridge.ClientSock) = true ->
      0 < w.(Bridge.recv).1 -> w.(Bridge.recv).2 = c -> (forall fd, fd ∈ w.(Bridge.fds) -> w.(Bridge.ready) fd = false) ->
      Bridge.BridgeTurn cmd1 (Bridge.Cs2ethProcessSystemData msg1) w b =
        Some (tt, if hears b m then sends_frame m' b else b) /\
      Bridge.BridgeTurn cmd1 (Bridge.Cs2slProcessSystemData msg1) w b =
        Some (tt, if command_of m =? MrIpcCmdNull then b else sends_frame m' b).
Proof.
  intros Ha1 Ha2 Hr1 Hr2 Hh Hf Hm Hp Hl Hfr Hc m c Hn Ec.
  destruct (turn_run malloc_entry malloc_stack Ha1 Ha2 Hr1 Hr2 k h cs Hh Hf Hm) as (h' & R & _ & He & _).
  pose proof (decoded_ok m0 f Hfr) as Hok. fold m in Hok.
  destruct (outside_decoded cmd0 m sender Hok Hc) as (_ & _ & _ & m' & Ed & _ & Hw). fold c in Ed.
  exists h', m'. split; [done |]. split.
  - intros r Hr Hne. rewrite He. apply elem_of_app. right. rewrite <- Ec. by apply (send_among k h cs p s r).
  - rewrite Hw, <- (wire_decoded m0 f Hfr). fold m. split; [split; [by apply lossless_exact | by apply lossless_wire] |].
    intros b w cmd1 msg1 H1 H2 H3 H4 H5. rewrite !(bridge_turn_run cmd1 _ w b c H1 H2 H3 H4 H5). split.
    2: { destruct (cs2sl_run cmd0 msg1 m sender b Hok Hc) as (m2 & Ed2 & R2). fold c in Ed2, R2.
      assert (m2 = m') as -> by (specialize (Ed m0); specialize (Ed2 m0); congruence).
      rewrite R2. by destruct (_ =? _), b. }
    destruct (cs2eth_run cmd0 msg1 m sender b Hok Hc) as (m2 & _ & _ & Ed2 & R2). fold c in Ed2, R2.
    assert (m2 = m') as -> by (specialize (Ed m0); specialize (Ed2 m0); congruence).
    rewrite R2. by destruct (hears b m), b.
Qed.

(** Two bridges at a hub; the function of a locomotive switched on on one bus. *)
Definition function_cmd : MrIpcCmdType :=
  Bridge.outside_command empty_cmd (MrCs2Decode empty_message function_frame) 4.
Definition function_turn : Hub.kernel :=
  Hub.mk_kernel 1 false (fun s => s =? 5) (-1) (fun _ => None) (fun _ => (40, function_cmd)).
Definition bridge_world : Bridge.world := Bridge.mk_world 1 false (fun s => s =? 8) (40, function_cmd) [9] (fun _ => []).
Lemma frame_to_every_bus_witness : exists h' m',
  Hub.DrehscheibeTurn MengeSpec.an_malloc ListeSpec.liste_malloc function_turn HubSpec.a_hub = Some (tt, h') /\
  Hub.Send 6 function_cmd ∈ h'.(Hub.events) /\
  Bridge.BridgeTurn empty_cmd (Bridge.Cs2ethProcessSystemData empty_message) bridge_world (Bridge.mk_bridge 8 false true []) =
    Some (tt, Bridge.mk_bridge 8 false true [Bridge.To_outside MR_IPC_SOCKET_ALL m']) /\
  Bridge.BridgeTurn empty_cmd (Bridge.Cs2slProcessSystemData empty_message) bridge_world (Bridge.mk_bridge 8 false true []) =
    Some (tt, Bridge.mk_bridge 8 false true [Bridge.To_outside MR_IPC_SOCKET_ALL m']) /\ wire m' = on_bus function_frame.
Proof.
  destruct (frame_to_every_bus MengeSpec.an_malloc ListeSpec.liste_malloc function_turn HubSpec.a_hub HubSpec.two_clients
    100 5 function_frame empty_message empty_cmd 4 MengeSpec.an_malloc_ok ListeSpec.liste_malloc_ok
    ltac:(by eexists) ltac:(by eexists) HubSpec.a_hub_ok) as (h' & m' & R & Hs & Hw & Hb).
  - apply HubSpec.all_fds; [done | by repeat constructor].
  - by intros p.
  - right. left.
  - reflexivity.
  - apply function_frame_ok.
  - reflexivity.
  - reflexivity.
  - reflexivity.
  - exists h', m'. split; [exact R |]. split; [apply Hs; [left | done] |].
    destruct (Hb (Bridge.mk_bridge 8 false true []) bridge_world empty_cmd empty_message) as [B1 B2];
      [done | done | done | done | by intros fd ->%list_elem_of_singleton |].
    split; [etrans; [exact B1 | reflexivity] |]. split; [etrans; [exact B2 | reflexivity] |]. apply Hw. reflexivity.
Defined.
End System.
