(* ===== verification/MrNumber.v ===== *)
(** Numbers as the C library prints them in hexadecimal and as [strtoul] reads
    them, for the configuration files of mrsystem. *)

From S2P Require Import Prelude World Messages Text.

Module Number.

(** [strtoul] with base 0. *)
Definition digit_in (base : Z) (a : ascii) : option Z :=
  let v := ch a in
  let d := if (48 <=? v) && (v <=? 57) then v - 48
           else if (97 <=? v) && (v <=? 122) then v - 87
           else if (65 <=? v) && (v <=? 90) then v - 55 else 36 in
  if d <? base then Some d else None.
Fixpoint digits_in (base acc : Z) (s : string) : Z :=
  match s with
  | String a s => match digit_in base a with Some v => digits_in base (base * acc + v) s | None => acc end
  | EmptyString => acc
  end.
Definition in_some_base (s : string) : Z :=
  match s with
  | String "0" (String x (String d rest)) =>
      if (Ascii.eqb x "x" || Ascii.eqb x "X") && (if digit_in 16 d then true else false)
      then digits_in 16 0 (String d rest) else digits_in 8 0 s
  | String "0" _ => digits_in 8 0 s
  | _ => digits_in 10 0 s
  end.
Definition strtoul (s : string) : Z :=
  match skip_blanks s with
  | String "-" s => to_ulong (- in_some_base s)
  | String "+" s => to_ulong (in_some_base s)
  | s => to_ulong (in_some_base s)
  end.

(** [%lx]: at most 16 digits. *)
Definition hex_digit (n : Z) : ascii := ascii_of_N (Z.to_N (if n <? 10 then n + 48 else n + 87)).
Fixpoint hex_digits (fuel : nat) (n : Z) (rest : string) : string :=
  match fuel with
  | O => rest
  | S fuel =>
      let rest := String (hex_digit (n mod 16)) rest in
      if n / 16 =? 0 then rest else hex_digits fuel (n / 16) rest
  end.
Definition hex (n : Z) : string := hex_digits 16 n "".

(** * What was printed is read *)

Lemma digits_in_ten s acc : digits_in 10 acc s = default 0 (digits (Some acc) s).1.
Proof.
  revert acc. induction s as [| a s IH]; intros acc; [done |]. cbn [digits_in digits]. unfold digit_in, digit.
  destruct ((48 <=? ch a) && (ch a <=? 57)) eqn:D.
  - bool_hyps. replace (ch a - 48 <? 10) with true by zbool. apply IH.
  - destruct ((97 <=? ch a) && (ch a <=? 122)) eqn:L; [| destruct ((65 <=? ch a) && (ch a <=? 90)) eqn:U].
    + bool_hyps. by replace (ch a - 87 <? 10) with false by zbool.
    + bool_hyps. by replace (ch a - 55 <? 10) with false by zbool.
    + done.
Qed.

(** A positive number does not start with 0. *)
Lemma go_first x : forall s, (0 < x)%N -> exists a t, pretty_N_go x s = String a t /\ digit a = Some (ch a - 48) /\ a <> "0"%char.
Proof.
  induction x as [x IH] using (well_founded_induction N.lt_wf_0). intros s Hx. rewrite pretty_N_go_step by done.
  destruct (decide (x / 10 = 0)%N) as [Z0 | NZ].
  - rewrite Z0, pretty_N_go_0. exists (pretty_N_char (x mod 10)), s. split; [done |].
    apply N.div_small_iff in Z0; [| done]. rewrite N.mod_small by done.
    assert (x = 1 \/ x = 2 \/ x = 3 \/ x = 4 \/ x = 5 \/ x = 6 \/ x = 7 \/ x = 8 \/ x = 9)%N as H by lia.
    by repeat destruct H as [-> | H]; [.. | subst x].
  - apply IH; [apply N.div_lt; lia | by apply N.neq_0_lt_0].
Qed.

Lemma ulong_small z : 0 <= z < 2 ^ 64 -> to_ulong z = z.
Proof.
  intros H. unfold to_ulong, ULONG_MAX. rewrite Z.abs_eq by lia. replace (2 ^ 64 - 1 <? z) with false by zbool.
  by apply wrap_small.
Qed.
Lemma i32_mod k z : (2 ^ 32 | k) -> i32 (z + k) = i32 z.
Proof.
  intros [q ->]. unfold swrap. f_equal. replace (z + q * 2 ^ 32 + 2 ^ (32 - 1)) with (z + 2 ^ (32 - 1) + q * 2 ^ 32) by ring.
  by apply Z.mod_add.
Qed.
Lemma int_ulong z : - 2 ^ 31 <= z < 2 ^ 31 -> i32 (to_ulong z) = z.
Proof.
  intros H. unfold to_ulong, ULONG_MAX. replace (2 ^ 64 - 1 <? Z.abs z) with false by (symmetry; apply Z.ltb_ge; lia).
  unfold wrap. rewrite Z.mod_eq by done. replace (z - 2 ^ 64 * (z / 2 ^ 64)) with (z + 2 ^ 64 * - (z / 2 ^ 64)) by ring.
  rewrite i32_mod by (exists (2 ^ 32 * - (z / 2 ^ 64)); ring). apply swrap_small; lia.
Qed.
Lemma int_of_u32 z : - 2 ^ 31 <= z < 2 ^ 31 -> i32 (u32 z) = z.
Proof.
  intros H. unfold wrap. rewrite Z.mod_eq by done. replace (z - 2 ^ 32 * (z / 2 ^ 32)) with (z + 2 ^ 32 * - (z / 2 ^ 32)) by ring.
  rewrite i32_mod by (exists (- (z / 2 ^ 32)); ring). apply swrap_small; lia.
Qed.

Lemma strtoul_dec z : strtoul (dec z) = to_ulong z.
Proof.
  assert (P : forall p, exists a t, pretty (N.pos p) = String a t /\ digit a = Some (ch a - 48) /\
    in_some_base (String a t) = Z.pos p).
  { intros p. unfold pretty, pretty_N. rewrite decide_False by done.
    destruct (go_first (N.pos p) "" eq_refl) as (a & t & E & D & N0). exists a, t. split; [done |]. split; [done |].
    assert (in_some_base (String a t) = digits_in 10 0 (String a t)) as ->.
    { destruct a as [[] [] [] [] [] [] [] []]; done. }
    rewrite digits_in_ten. pose proof (digits_pos p "" I) as Dp. rewrite <- append_nil in Dp.
    unfold pretty, pretty_N in Dp. rewrite decide_False, E in Dp by done. cbn [digits] in *. rewrite D in *. cbn [default from_option id] in *.
    by rewrite Dp. }
  unfold dec, strtoul. destruct z as [| p | p]; [done | |].
  - change (pretty (Z.pos p)) with (pretty (N.pos p)). destruct (P p) as (a & t & -> & D & <-).
    destruct a as [[] [] [] [] [] [] [] []]; done.
  - change (pretty (Z.neg p)) with (String "-" (pretty (N.pos p))). destruct (P p) as (a & t & -> & D & E).
    cbn [skip_blanks]. change (is_blank "-") with false. cbn match. by rewrite E.
Qed.

(** ** Hexadecimal numbers *)

Lemma hex_digit_in d : 0 <= d < 16 -> digit_in 16 (hex_digit d) = Some d.
Proof.
  intros H. assert (F : forallb (fun d => bool_decide (digit_in 16 (hex_digit d) = Some d)) (seqZ 0 16) = true) by reflexivity.
  pose proof (forallb_seqZ _ 0 16 d F ltac:(lia)) as B. by apply bool_decide_eq_true in B.
Qed.
Lemma hex_digits_in fuel n rest : 0 <= n < 16 ^ Z.of_nat fuel -> (0 < fuel)%nat ->
  exists d t, hex_digits fuel n rest = String (hex_digit d) t /\ 0 <= d < 16 /\
    digits_in 16 0 (hex_digits fuel n rest) = digits_in 16 n rest.
Proof.
  revert n rest. induction fuel as [| fuel IH]; intros n rest Hn Hf; [lia |]. cbn [hex_digits].
  pose proof (Z.mod_pos_bound n 16 eq_refl) as Hm. pose proof (Z.div_mod n 16 ltac:(done)) as E.
  assert (S16 : forall acc, digits_in 16 acc (String (hex_digit (n mod 16)) rest) = digits_in 16 (16 * acc + n mod 16) rest).
  { intros acc. cbn [digits_in]. by rewrite hex_digit_in. }
  destruct (Z.eqb_spec (n / 16) 0) as [Z0 | NZ].
  - exists (n mod 16), rest. split; [done |]. split; [done |]. rewrite S16. f_equal. lia.
  - rewrite Nat2Z.inj_succ, Z.pow_succ_r in Hn by lia.
    destruct (IH (n / 16) (String (hex_digit (n mod 16)) rest)) as (d & t & E1 & Hd & E2).
    { split; [apply Z.div_pos; lia | apply Z.div_lt_upper_bound; lia]. }
    { destruct fuel; [| lia]. exfalso. apply NZ. apply Z.div_small. cbn in Hn. lia. }
    exists d, t. split; [done |]. split; [done |]. rewrite E2, S16. f_equal. lia.
Qed.
Lemma strtoul_hex n : 0 <= n < 2 ^ 64 -> strtoul ("0x" +:+ hex n) = n.
Proof.
  intros H. destruct (hex_digits_in 16 n "" ltac:(change (16 ^ Z.of_nat 16) with (2 ^ 64); done) ltac:(lia)) as (d & t & E & Hd & D).
  fold (hex n) in *. unfold strtoul. change ("0x" +:+ hex n) with (String "0" (String "x" (hex n))). cbn [skip_blanks].
  change (is_blank "0") with false. cbn match. unfold in_some_base. rewrite E in *. rewrite hex_digit_in by done. cbn [andb orb Ascii.eqb].
  change (Ascii.eqb "x" "x") with true. cbn [orb andb]. rewrite D. cbn [digits_in]. by apply ulong_small.
Qed.

(** ** Their characters *)

Definition is_hex (a : ascii) : bool := ((48 <=? ch a) && (ch a <=? 57)) || ((97 <=? ch a) && (ch a <=? 102)).
Lemma hex_digit_char d : 0 <= d < 16 -> is_hex (hex_digit d) = true.
Proof.
  intros H. assert (F : forallb (fun d => is_hex (hex_digit d)) (seqZ 0 16) = true) by reflexivity.
  by apply (forallb_seqZ _ 0 16 d F).
Qed.
Lemma hex_digits_chars fuel n rest : Forall (fun a => is_hex a = true) (String.list_ascii_of_string rest) ->
  Forall (fun a => is_hex a = true) (String.list_ascii_of_string (hex_digits fuel n rest)).
Proof.
  revert n rest. induction fuel as [| fuel IH]; intros n rest Hr; [done |]. cbn [hex_digits].
  assert (Forall (fun a => is_hex a = true) (String.list_ascii_of_string (String (hex_digit (n mod 16)) rest))) as H.
  { constructor; [| done]. apply hex_digit_char, Z.mod_pos_bound. done. }
  destruct (n / 16 =? 0); [done | by apply IH].
Qed.
Lemma hex_digits_length fuel n rest : (String.length (hex_digits fuel n rest) <= fuel + String.length rest)%nat.
Proof.
  revert n rest. induction fuel as [| fuel IH]; intros n rest; [done |]. cbn [hex_digits].
  destruct (n / 16 =? 0); [cbn; lia |]. etrans; [apply IH | cbn; lia].
Qed.
Lemma go_length k x s : (x < 10 ^ N.of_nat k)%N -> (String.length (pretty_N_go x s) <= k + String.length s)%nat.
Proof.
  revert x s. induction k as [| k IH]; intros x s Hx.
  - assert (x = 0)%N as -> by (change (10 ^ N.of_nat 0)%N with 1%N in Hx; lia). by rewrite pretty_N_go_0.
  - destruct (decide (x = 0)%N) as [-> | H0]; [rewrite pretty_N_go_0; lia |].
    rewrite pretty_N_go_step by lia. etrans; [apply IH | cbn; lia].
    apply N.Div0.div_lt_upper_bound. rewrite Nat2N.inj_succ, N.pow_succ_r' in Hx. lia.
Qed.
Lemma dec_length z : - 2 ^ 31 <= z < 2 ^ 31 -> (String.length (dec z) <= 11)%nat.
Proof.
  intros H. assert (P : forall p, (N.pos p < 10 ^ 10)%N -> (String.length (pretty (N.pos p)) <= 10)%nat).
  { intros p Hp. unfold pretty, pretty_N. rewrite decide_False by done. etrans; [by apply (go_length 10) | cbn; lia]. }
  unfold dec. destruct z as [| p | p]; [cbn; lia | |].
  - change (pretty (Z.pos p)) with (pretty (N.pos p)). etrans; [apply P; lia | lia].
  - change (pretty (Z.neg p)) with (String "-" (pretty (N.pos p))). cbn [String.length].
    assert (String.length (pretty (N.pos p)) <= 10)%nat by (apply P; lia). lia.
Qed.
End Number.
