(* ===== verification/MrScan.v ===== *)
(** The scanner of mrsystem (src/mrsystem/src/basic_libs/scanner), which cuts a
    file or a text in memory into symbols. *)

From S2P Require Import Prelude World Messages Text.

Module Scan.

(** * Symbols ([ScanBasicSymbol]); the keywords of a caller have higher numbers *)

Definition PlusSy : Z := 0.
Definition MinusSy : Z := 1.
Definition SternSy : Z := 2.
Definition TeilSy : Z := 3.
Definition GleichSy : Z := 4.
Definition KleinerSy : Z := 5.
Definition GroesserSy : Z := 6.
Definition PunktSy : Z := 7.
Definition KommaSy : Z := 8.
Definition SemicolonSy : Z := 9.
Definition PfeilSy : Z := 10.
Definition KlammeraufSy : Z := 11.
Definition KlammerzuSy : Z := 12.
Definition MengeaufSy : Z := 13.
Definition MengezuSy : Z := 14.
Definition UngleichSy : Z := 15.
Definition KleinergleichSy : Z := 16.
Definition GroessergleichSy : Z := 17.
Definition HashSy : Z := 18.
Definition DoppelpunktSy : Z := 19.
Definition BezeichnerSy : Z := 20.
Definition ZeichenkettenSy : Z := 21.
Definition GzahlSy : Z := 22.
Definition Rzahlsy : Z := 23.
Definition EolnSy : Z := 24.
Definition EofSy : Z := 25.
Definition NoSy : Z := 26.

(** * Data *)

Definition SCAN_BLOCK_LAENGE : nat := 80.
Definition LF : ascii := ascii_of_nat 10.
Definition CR : ascii := ascii_of_nat 13.
Definition EOLN : ascii := ascii_of_nat 13.
Definition EOFI : ascii := ascii_of_nat 26.
Definition QUOTE : ascii := ascii_of_nat 34.

(** [Scanner].  [ScanFile] is [None] for the null pointer and otherwise what is
    left of the file; [ganz] is the field [i].  The indices are not negative. *)
Record scanner := mk_scanner {
  AktZeichen : nat;
  AnzZeichen : nat;
  ScanFile : option (list ascii);
  Puffer : list ascii;
  Sym : Z;
  Keywords : list (string * Z);
  zk : string;
  ganz : Z }.
#[export] Instance eta_scanner : Settable scanner := fun s =>
  mk_scanner s.(AktZeichen) s.(AnzZeichen) s.(ScanFile) s.(Puffer) s.(Sym) s.(Keywords) s.(zk) s.(ganz).

(** [ScanCreate]; [zk] and [i] are not set. *)
Definition ScanCreate (zk0 : string) (i0 : Z) : scanner := mk_scanner 32 0 None [] NoSy [] zk0 i0.

(** [fread] of a block into [Puffer]: without a file there is no result. *)
Definition fread : prog scanner unit :=
  let* file := gets ScanFile in
  let* rest := need file in
  let block := take SCAN_BLOCK_LAENGE rest in
  modify (fun s => s <| Puffer ::= fun p => block ++ drop (length block) p |>
    <| AnzZeichen := length block |> <| AktZeichen := 0%nat |> <| ScanFile := Some (drop (length block) rest) |>).

(** [ScanGetString]: [zk] up to its first NUL. *)
Definition ScanGetString : prog scanner string := let* z := gets zk in ret (c_str z).

(** What [ScanInit] is to read: a file that could be opened or not, or a text in
    memory and its length. *)
Inductive input :=
| A_file (contents : option (list ascii))
| A_text (Zeile : list ascii) (Laenge : nat).
(** [StaticPuffer] has one character more than a block; what is not read into it
    yet is never looked at. *)
Definition StaticPuffer : list ascii := replicate (S SCAN_BLOCK_LAENGE) NUL.
Definition ScanInit (source : input) (keywords : list (string * Z)) : prog scanner unit :=
  do* (match source with
       | A_file contents =>
           do* modify (fun s => s <| Puffer := StaticPuffer |> <| ScanFile := contents |>) in
           if contents then fread else ret tt
       | A_text Zeile Laenge =>
           modify (fun s => s <| ScanFile := None |> <| Puffer := Zeile |> <| AnzZeichen := Laenge |>)
       end) in
  modify (fun s => s <| AktZeichen := 0%nat |> <| Keywords := keywords |>).
(** [ScanExit]: without a file it does nothing. *)
Definition ScanExit : prog scanner unit :=
  let* file := gets ScanFile in
  if file then
    modify (fun s => s <| AktZeichen := 32%nat |> <| AnzZeichen := 0%nat |> <| ScanFile := None |>
      <| Sym := NoSy |> <| Keywords := [] |>)
  else ret tt.

(** * Characters *)

Definition has_file (s : scanner) : bool := if s.(ScanFile) then true else false.
Definition char_at (n : nat) : prog scanner ascii := let* p := gets Puffer in need (p !! n).

(** [NextChar] of scan_sca.c; [checks] is [false] for its copies in scan_eol.c
    and scan_ueb.c, which do not ask whether there is a file. *)
Definition NextChar (checks : bool) : prog scanner ascii :=
  let* s := get in
  do* (if (s.(AnzZeichen) <=? s.(AktZeichen))%nat && (negb checks || has_file s) then fread else ret tt) in
  let* s := get in
  if (s.(AktZeichen) <? s.(AnzZeichen))%nat then
    do* modify (fun s => s <| AktZeichen ::= S |>) in
    let* c := char_at s.(AktZeichen) in
    if Ascii.eqb c CR then
      let* s := get in
      do* (if (s.(AnzZeichen) <? s.(AktZeichen))%nat && (negb checks || has_file s) then fread else ret tt) in
      let* s := get in
      do* (if (0 <? s.(AnzZeichen))%nat && (s.(AktZeichen) <? s.(AnzZeichen))%nat then
             let* d := char_at s.(AktZeichen) in
             if Ascii.eqb d LF then modify (fun s => s <| AktZeichen ::= S |>) else ret tt
           else ret tt) in
      ret EOLN
    else if Ascii.eqb c LF then ret EOLN
    else ret c
  else ret EOFI.

(** [UngetChar]: at the start of the buffer everything moves up, for which it
    needs room for a block and one character. *)
Definition UngetChar (Zeichen : ascii) : prog scanner unit :=
  let* s := get in
  if (0 <? s.(AktZeichen))%nat then modify (fun s => s <| AktZeichen ::= Nat.pred |>)
  else
    do* guard (SCAN_BLOCK_LAENGE <? length s.(Puffer))%nat in
    modify (fun s => s <| Puffer ::= fun p => Zeichen :: take SCAN_BLOCK_LAENGE p ++ drop (S SCAN_BLOCK_LAENGE) p |>
      <| AnzZeichen ::= S |>).

(** [isdigit], [isalpha] and [isalnum] of the C locale. *)
Definition isdigit (c : ascii) : bool := (48 <=? ch c) && (ch c <=? 57).
Definition isalpha (c : ascii) : bool :=
  ((65 <=? ch c) && (ch c <=? 90)) || ((97 <=? ch c) && (ch c <=? 122)).
Definition isalnum (c : ascii) : bool := isalpha c || isdigit c.
Definition is_word (c : ascii) : bool := isalnum c || Ascii.eqb c "_".

(** The characters that are left, which bounds the loops. *)
Definition left_over (s : scanner) : nat :=
  (s.(AnzZeichen) - s.(AktZeichen) + match s.(ScanFile) with Some f => length f | None => 0 end)%nat.
Definition snoc (s : string) (c : ascii) : string := s +:+ String c "".

(** * Symbols of several characters *)

(** The loop of [Bezeichner]; [schreibweise] has room for [room] characters
    more, the next one writes its NUL behind the array. *)
Fixpoint word_loop (room : nat) (schreibweise : string) (AktZeichen : ascii) : prog scanner (string * ascii) :=
  if is_word AktZeichen then
    match room with
    | O => undefined
    | S room =>
        let* c := NextChar true in
        word_loop room (snoc schreibweise AktZeichen) c
    end
  else ret (schreibweise, AktZeichen).
Fixpoint keyword (w : string) (keywords : list (string * Z)) : Z :=
  match keywords with
  | [] => BezeichnerSy
  | (k, symbol) :: keywords => if String.eqb w k then symbol else keyword w keywords
  end.
Definition Bezeichner (StartZeichen : ascii) : prog scanner Z :=
  let* ' (schreibweise, c) := word_loop (Nat.pred SCAN_BLOCK_LAENGE) "" StartZeichen in
  do* UngetChar c in
  do* modify (fun s => s <| zk := schreibweise |>) in
  let* k := gets Keywords in
  ret (keyword schreibweise k).

Definition int_ok (z : Z) : bool := (- 2 ^ 31 <=? z) && (z <? 2 ^ 31).
(** The loop of [Zahl]: letters count as digits, too. *)
Fixpoint number_loop (fuel : nat) (AktZeichen : ascii) : prog scanner ascii :=
  match fuel with
  | O => undefined
  | S fuel =>
      let* n := gets ganz in
      do* guard (int_ok (10 * n) && int_ok (10 * n + ch AktZeichen) && int_ok (10 * n + ch AktZeichen - ch "0")) in
      do* modify (fun s => s <| ganz := 10 * n + ch AktZeichen - ch "0" |>) in
      let* c := NextChar true in
      if isalnum c then number_loop fuel c else ret c
  end.
Definition Zahl (StartZeichen : ascii) : prog scanner Z :=
  do* modify (fun s => s <| ganz := 0 |>) in
  let* s := get in
  let* c := number_loop (S (S (left_over s))) StartZeichen in
  do* UngetChar c in
  ret GzahlSy.

(** The loop of [Zeichenkette]; [zk] has room for [room] characters more. *)
Fixpoint string_loop (room : nat) : prog scanner unit :=
  match room with
  | O => undefined
  | S room =>
      let* c := NextChar true in
      if Ascii.eqb c QUOTE then
        let* d := NextChar true in
        if negb (Ascii.eqb d QUOTE) then UngetChar d
        else do* modify (fun s => s <| zk ::= fun z => snoc z d |>) in string_loop room
      else do* modify (fun s => s <| zk ::= fun z => snoc z c |>) in string_loop room
  end.
Definition Zeichenkette : prog scanner Z :=
  do* modify (fun s => s <| zk := "" |>) in
  do* string_loop SCAN_BLOCK_LAENGE in
  ret ZeichenkettenSy.

(** * The next symbol *)

Fixpoint skip_spaces (fuel : nat) : prog scanner ascii :=
  match fuel with
  | O => undefined
  | S fuel => let* c := NextChar true in if Ascii.eqb c " " then skip_spaces fuel else ret c
  end.

(** The symbols of one character. *)
Definition single (c : ascii) : option Z :=
  if Ascii.eqb c "+" then Some PlusSy
  else if Ascii.eqb c "*" then Some SternSy
  else if Ascii.eqb c "-" then Some MinusSy
  else if Ascii.eqb c "=" then Some GleichSy
  else if Ascii.eqb c "," then Some KommaSy
  else if Ascii.eqb c "^" then Some PfeilSy
  else if Ascii.eqb c "[" then Some MengeaufSy
  else if Ascii.eqb c "]" then Some MengezuSy
  else if Ascii.eqb c "#" then Some HashSy
  else if Ascii.eqb c ":" then Some DoppelpunktSy
  else if Ascii.eqb c ";" then Some SemicolonSy
  else if Ascii.eqb c "/" then Some TeilSy
  else if Ascii.eqb c "." then Some PunktSy
  else if Ascii.eqb c "(" then Some KlammeraufSy
  else if Ascii.eqb c ")" then Some KlammerzuSy
  else if Ascii.eqb c EOLN then Some EolnSy
  else if Ascii.eqb c EOFI then Some EofSy
  else None.

Definition Scan : prog scanner Z :=
  let* s := get in
  let* c := skip_spaces (S (S (left_over s))) in
  let* sy :=
    (if isalpha c then Bezeichner c
     else if isdigit c then Zahl c
     else if Ascii.eqb c "<" then
       let* d := NextChar true in
       if Ascii.eqb d ">" then ret UngleichSy
       else if Ascii.eqb d "=" then ret KleinergleichSy
       else do* UngetChar d in ret KleinerSy
     else if Ascii.eqb c QUOTE then Zeichenkette
     else if Ascii.eqb c ">" then
       let* d := NextChar true in
       if Ascii.eqb d "=" then ret GroessergleichSy
       else do* UngetChar d in ret GroesserSy
     else ret (default NoSy (single c))) in
  do* modify (fun s => s <| Sym := sy |>) in
  ret sy.

(** * Lines *)

(** The loop of [ScanEol]; the NUL needs a place as well. *)
Fixpoint eol_loop (room : nat) (PosInToken : string) : prog scanner (string * ascii) :=
  let* c := NextChar false in
  if negb (Ascii.eqb c EOLN) && negb (Ascii.eqb c EOFI) then
    match room with
    | O => undefined
    | S room => eol_loop room (snoc PosInToken c)
    end
  else ret (PosInToken, c).
Definition ScanEol : prog scanner Z :=
  let* ' (token, c) := eol_loop (Nat.pred SCAN_BLOCK_LAENGE) "" in
  do* modify (fun s => s <| zk := token |>) in
  do* UngetChar c in
  ret ZeichenkettenSy.

Fixpoint skip_line (fuel : nat) : prog scanner unit :=
  match fuel with
  | O => undefined
  | S fuel =>
      let* c := NextChar false in
      if negb (Ascii.eqb c EOLN) && negb (Ascii.eqb c EOFI) then skip_line fuel else ret tt
  end.
Definition ScanUeberlesen : prog scanner unit := let* s := get in skip_line (S (S (left_over s))).

(** Up to the next bracket; [Wen] is the word in it where there is one. *)
Fixpoint to_bracket (fuel : nat) (sy : Z) : prog scanner Z :=
  if negb (sy =? MengeaufSy) && negb (sy =? EofSy) then
    match fuel with
    | O => undefined
    | S fuel => let* sy := Scan in to_bracket fuel sy
    end
  else ret sy.
Definition ScanSuche : prog scanner (bool * option string) :=
  let* s := get in
  let* sy := to_bracket (S (S (left_over s))) s.(Sym) in
  if negb (sy =? EofSy) then
    let* sy := Scan in
    let* Wen := (if sy =? BezeichnerSy then let* z := ScanGetString in ret (Some z) else ret None) in
    let* sy := Scan in
    let Ok := sy =? MengezuSy in
    if Ok then let* sy := Scan in ret (sy =? EolnSy, Wen) else ret (Ok, Wen)
  else ret (false, None).
End Scan.
