(* ===== verification/MrCs2Parse.v ===== *)
(** The configuration files of a CS2 as mrsystem reads and writes them
    (src/mrsystem/src/libs/cs2_parse): lines with a paragraph, a title or a value. *)

From S2P Require Import Prelude World Messages Text MrNumber MrScan.

Module Cs2Parse.
Import Number Scan.

(** * Constants *)

(** ** Results of the parser *)
Definition PARSER_ERROR : Z := 0x00.
Definition PARSER_EOF : Z := 0x01.
Definition PARSER_PARAGRAPH : Z := 0x02.
Definition PARSER_VALUE : Z := 0x03.

(** ** Paragraphs *)
Definition PARSER_PARAGRAPH_UNDEFINED : Z := 0x00.
Definition PARSER_PARAGRAPH_LOK : Z := 0x01.
Definition PARSER_PARAGRAPH_NUMLOKS : Z := 0x02.
Definition PARSER_PARAGRAPH_LOKOMOTIVE : Z := 0x03.
Definition PARSER_PARAGRAPH_GERAET : Z := 0x04.
Definition PARSER_PARAGRAPH_GLEISBILD : Z := 0x05.
Definition PARSER_PARAGRAPH_MAGNETARTIKEL : Z := 0x06.
Definition PARSER_PARAGRAPH_FAHRSTRASSEN : Z := 0x07.
Definition PARSER_PARAGRAPH_GLEISBILDSEITE : Z := 0x08.
Definition PARSER_PARAGRAPH_LOKSTATUS : Z := 0x09.
Definition PARSER_PARAGRAPH_LOKLISTE : Z := 0x0A.

(** ** Values *)
Definition PARSER_VALUE_LOK : Z := 0x01.
Definition PARSER_VALUE_NAME : Z := 0x02.
Definition PARSER_VALUE_WERT : Z := 0x03.
Definition PARSER_VALUE_UID : Z := 0x04.
Definition PARSER_VALUE_ADRESSE : Z := 0x05.
Definition PARSER_VALUE_TYP : Z := 0x06.
Definition PARSER_VALUE_MFXUID : Z := 0x07.
Definition PARSER_VALUE_SYMBOL : Z := 0x08.
Definition PARSER_VALUE_AV : Z := 0x09.
Definition PARSER_VALUE_BV : Z := 0x0a.
Definition PARSER_VALUE_VOLUME : Z := 0x0b.
Definition PARSER_VALUE_VELOCITY : Z := 0x0c.
Definition PARSER_VALUE_RICHTUNG : Z := 0x0d.
Definition PARSER_VALUE_VMAX : Z := 0x0e.
Definition PARSER_VALUE_VMIN : Z := 0x0f.
Definition PARSER_VALUE_FKT : Z := 0x10.
Definition PARSER_VALUE_DAUER : Z := 0x11.
Definition PARSER_VALUE_GERAET : Z := 0x12.
Definition PARSER_VALUE_VERSION : Z := 0x13.
Definition PARSER_VALUE_MINOR : Z := 0x14.
Definition PARSER_VALUE_SERNUM : Z := 0x15.
Definition PARSER_VALUE_GFPUID : Z := 0x16.
Definition PARSER_VALUE_GUIUID : Z := 0x17.
Definition PARSER_VALUE_HARDVERS : Z := 0x18.
Definition PARSER_VALUE_MAJOR : Z := 0x19.
Definition PARSER_VALUE_SESSION : Z := 0x20.
Definition PARSER_VALUE_ID : Z := 0x21.
Definition PARSER_VALUE_LOKOMOTIVE : Z := 0x22.
Definition PARSER_VALUE_SID : Z := 0x24.
Definition PARSER_VALUE_ICON : Z := 0x25.
Definition PARSER_VALUE_TACHOMAX : Z := 0x26.
Definition PARSER_VALUE_XPROTOKOLL : Z := 0x27.
Definition PARSER_VALUE_MFXTYP : Z := 0x28.
Definition PARSER_VALUE_STAND : Z := 0x29.
Definition PARSER_VALUE_FAHRT : Z := 0x2a.
Definition PARSER_VALUE_FUNKTIONEN : Z := 0x2b.
Definition PARSER_VALUE_NR : Z := 0x2c.
Definition PARSER_VALUE_VORWAERTS : Z := 0x2d.
Definition PARSER_VALUE_RUECKWAERTS : Z := 0x2e.
Definition PARSER_VALUE_INTRAKTION : Z := 0x2f.
Definition PARSER_VALUE_SEITE : Z := 0x30.
Definition PARSER_VALUE_GROESSE : Z := 0x31.
Definition PARSER_VALUE_ZULETZT_BENUTZT : Z := 0x32.
Definition PARSER_VALUE_ARTIKEL : Z := 0x33.
Definition PARSER_VALUE_STELLUNG : Z := 0x34.
Definition PARSER_VALUE_SCHALTZEIT : Z := 0x35.
Definition PARSER_VALUE_UNGERADE : Z := 0x36.
Definition PARSER_VALUE_DECODER : Z := 0x37.
Definition PARSER_VALUE_DECTYP : Z := 0x38.
Definition PARSER_VALUE_FAHRSTRASSE : Z := 0x39.
Definition PARSER_VALUE_S88 : Z := 0x3a.
Definition PARSER_VALUE_S88EIN : Z := 0x3b.
Definition PARSER_VALUE_EXTERN : Z := 0x3c.
Definition PARSER_VALUE_ITEM : Z := 0x3d.
Definition PARSER_VALUE_FSVERWEIS : Z := 0x3e.
Definition PARSER_VALUE_MAGNETARTIKEL : Z := 0x3f.
Definition PARSER_VALUE_ELEMENT : Z := 0x40.
Definition PARSER_VALUE_DREHUNG : Z := 0x41.
Definition PARSER_VALUE_TEXT : Z := 0x48.
Definition PARSER_VALUE_ZUSTAND : Z := 0x49.
Definition PARSER_VALUE_DEVICE_ID : Z := 0x50.
Definition PARSER_VALUE_PAGE : Z := 0x51.
Definition PARSER_VALUE_SEKUNDE : Z := 0x52.
Definition PARSER_VALUE_IDX : Z := 0x53.
Definition PARSER_VALUE_ON : Z := 0x54.
Definition PARSER_VALUE_DV : Z := 0x55.
Definition PARSER_VALUE_LLINDEX : Z := 0x56.
Definition PARSER_VALUE_CRC : Z := 0x57.

(** ** Types of files *)
Definition PARSER_TYPE_LOKNAMEN : Z := 0x01.
Definition PARSER_TYPE_LOKINFO : Z := 0x02.
Definition PARSER_TYPE_GERAET_VRS : Z := 0x03.
Definition PARSER_TYPE_LOK_CS2 : Z := 0x04.
Definition PARSER_TYPE_GLEISBILD_CS2 : Z := 0x05.
Definition PARSER_TYPE_GLEISBILD_SEITE : Z := 0x06.
Definition PARSER_TYPE_MAGNETARTIKEL_CS2 : Z := 0x07.
Definition PARSER_TYPE_FAHRSTRASSEN_CS2 : Z := 0x08.
Definition PARSER_TYPE_HEADER_CS2 : Z := 0x09.
Definition PARSER_TYPE_LOKLISTE : Z := 0x0A.

(** ** Tokens of the keywords *)
Definition PARSER_TOKEN_KEYWORD_LOK : Z := 0x0100.
Definition PARSER_TOKEN_KEYWORD_NUMLOKS : Z := 0x0101.
Definition PARSER_TOKEN_KEYWORD_LOKOMOTIVE : Z := 0x0102.
Definition PARSER_TOKEN_KEYWORD_NAME : Z := 0x0103.
Definition PARSER_TOKEN_KEYWORD_WERT : Z := 0x0104.
Definition PARSER_TOKEN_KEYWORD_UID : Z := 0x0105.
Definition PARSER_TOKEN_KEYWORD_ADRESSE : Z := 0x0106.
Definition PARSER_TOKEN_KEYWORD_TYP : Z := 0x0107.
Definition PARSER_TOKEN_KEYWORD_MFXUID : Z := 0x0108.
Definition PARSER_TOKEN_KEYWORD_SYMBOL : Z := 0x0109.
Definition PARSER_TOKEN_KEYWORD_AV : Z := 0x010a.
Definition PARSER_TOKEN_KEYWORD_BV : Z := 0x010b.
Definition PARSER_TOKEN_KEYWORD_VOLUME : Z := 0x010c.
Definition PARSER_TOKEN_KEYWORD_VELOCITY : Z := 0x010d.
Definition PARSER_TOKEN_KEYWORD_RICHTUNG : Z := 0x010f.
Definition PARSER_TOKEN_KEYWORD_VMAX : Z := 0x0110.
Definition PARSER_TOKEN_KEYWORD_VMIN : Z := 0x0111.
Definition PARSER_TOKEN_KEYWORD_FKT : Z := 0x0112.
Definition PARSER_TOKEN_KEYWORD_DAUER : Z := 0x0113.
Definition PARSER_TOKEN_KEYWORD_SID : Z := 0x0114.
Definition PARSER_TOKEN_KEYWORD_ICON : Z := 0x0115.
Definition PARSER_TOKEN_KEYWORD_TACHOMAX : Z := 0x0116.
Definition PARSER_TOKEN_KEYWORD_XPROTOKOLL : Z := 0x0117.
Definition PARSER_TOKEN_KEYWORD_MFXTYP : Z := 0x0118.
Definition PARSER_TOKEN_KEYWORD_STAND : Z := 0x0119.
Definition PARSER_TOKEN_KEYWORD_FAHRT : Z := 0x011a.
Definition PARSER_TOKEN_KEYWORD_LOKSTATUS : Z := 0x011b.
Definition PARSER_TOKEN_KEYWORD_GERAET : Z := 0x0201.
Definition PARSER_TOKEN_KEYWORD_VERSION : Z := 0x0202.
Definition PARSER_TOKEN_KEYWORD_MINOR : Z := 0x0203.
Definition PARSER_TOKEN_KEYWORD_SERNUM : Z := 0x0204.
Definition PARSER_TOKEN_KEYWORD_GFPUID : Z := 0x0205.
Definition PARSER_TOKEN_KEYWORD_GUIUID : Z := 0x0206.
Definition PARSER_TOKEN_KEYWORD_HARDVERS : Z := 0x0207.
Definition PARSER_TOKEN_KEYWORD_MAJOR : Z := 0x0208.
Definition PARSER_TOKEN_KEYWORD_SESSION : Z := 0x0210.
Definition PARSER_TOKEN_KEYWORD_ID : Z := 0x0211.
Definition PARSER_TOKEN_KEYWORD_FUNKTIONEN : Z := 0x0212.
Definition PARSER_TOKEN_KEYWORD_NR : Z := 0x0213.
Definition PARSER_TOKEN_KEYWORD_VORWAERTS : Z := 0x0214.
Definition PARSER_TOKEN_KEYWORD_RUECKWAERTS : Z := 0x0215.
Definition PARSER_TOKEN_KEYWORD_INTRAKTION : Z := 0x0216.
Definition PARSER_TOKEN_KEYWORD_GLEISBILD : Z := 0x0301.
Definition PARSER_TOKEN_KEYWORD_SEITE : Z := 0x0302.
Definition PARSER_TOKEN_KEYWORD_GROESSE : Z := 0x0303.
Definition PARSER_TOKEN_KEYWORD_ZULETZT_BENUTZT : Z := 0x0304.
Definition PARSER_TOKEN_KEYWORD_MAGNETARTIKEL : Z := 0x0401.
Definition PARSER_TOKEN_KEYWORD_ARTIKEL : Z := 0x0402.
Definition PARSER_TOKEN_KEYWORD_STELLUNG : Z := 0x0403.
Definition PARSER_TOKEN_KEYWORD_SCHALTZEIT : Z := 0x0404.
Definition PARSER_TOKEN_KEYWORD_UNGERADE : Z := 0x0405.
Definition PARSER_TOKEN_KEYWORD_DECODER : Z := 0x0406.
Definition PARSER_TOKEN_KEYWORD_DECTYP : Z := 0x0407.
Definition PARSER_TOKEN_KEYWORD_FAHRSTRASSEN : Z := 0x0500.
Definition PARSER_TOKEN_KEYWORD_FAHRSTRASSE : Z := 0x0501.
Definition PARSER_TOKEN_KEYWORD_S88 : Z := 0x0502.
Definition PARSER_TOKEN_KEYWORD_S88EIN : Z := 0x0503.
Definition PARSER_TOKEN_KEYWORD_EXTERN : Z := 0x0504.
Definition PARSER_TOKEN_KEYWORD_ITEM : Z := 0x0505.
Definition PARSER_TOKEN_KEYWORD_FSVERWEIS : Z := 0x0506.
Definition PARSER_TOKEN_KEYWORD_SEKUNDE : Z := 0x0507.
Definition PARSER_TOKEN_KEYWORD_IDX : Z := 0x0508.
Definition PARSER_TOKEN_KEYWORD_ON : Z := 0x0509.
Definition PARSER_TOKEN_KEYWORD_GLEISBILDSEITE : Z := 0x0601.
Definition PARSER_TOKEN_KEYWORD_ELEMENT : Z := 0x0602.
Definition PARSER_TOKEN_KEYWORD_DREHUNG : Z := 0x0603.
Definition PARSER_TOKEN_KEYWORD_TEXT : Z := 0x0605.
Definition PARSER_TOKEN_KEYWORD_ZUSTAND : Z := 0x0606.
Definition PARSER_TOKEN_KEYWORD_DEVICE_ID : Z := 0x0607.
Definition PARSER_TOKEN_KEYWORD_PAGE : Z := 0x0608.
Definition PARSER_TOKEN_KEYWORD_LOKLISTE : Z := 0x0700.
Definition PARSER_TOKEN_KEYWORD_DV : Z := 0x0701.
Definition PARSER_TOKEN_KEYWORD_LLINDEX : Z := 0x0702.
Definition PARSER_TOKEN_KEYWORD_CRC : Z := 0x0703.

(** * Keywords of the types of files (cs2p_init.c) *)

Definition LokNameKeywords : list (string * Z) := [
  ("lok", PARSER_TOKEN_KEYWORD_LOK);
  ("numloks", PARSER_TOKEN_KEYWORD_NUMLOKS);
  ("name", PARSER_TOKEN_KEYWORD_NAME);
  ("wert", PARSER_TOKEN_KEYWORD_WERT)].
Definition LokInfoKeywords : list (string * Z) := [
  ("lokomotive", PARSER_TOKEN_KEYWORD_LOKOMOTIVE);
  ("lok", PARSER_TOKEN_KEYWORD_LOK);
  ("dv", PARSER_TOKEN_KEYWORD_DV);
  ("name", PARSER_TOKEN_KEYWORD_NAME);
  ("wert", PARSER_TOKEN_KEYWORD_WERT);
  ("uid", PARSER_TOKEN_KEYWORD_UID);
  ("adresse", PARSER_TOKEN_KEYWORD_ADRESSE);
  ("typ", PARSER_TOKEN_KEYWORD_TYP);
  ("mfxuid", PARSER_TOKEN_KEYWORD_MFXUID);
  ("symbol", PARSER_TOKEN_KEYWORD_SYMBOL);
  ("av", PARSER_TOKEN_KEYWORD_AV);
  ("bv", PARSER_TOKEN_KEYWORD_BV);
  ("volume", PARSER_TOKEN_KEYWORD_VOLUME);
  ("velocity", PARSER_TOKEN_KEYWORD_VELOCITY);
  ("richtung", PARSER_TOKEN_KEYWORD_RICHTUNG);
  ("vmax", PARSER_TOKEN_KEYWORD_VMAX);
  ("vmin", PARSER_TOKEN_KEYWORD_VMIN);
  ("fkt", PARSER_TOKEN_KEYWORD_FKT);
  ("dauer", PARSER_TOKEN_KEYWORD_DAUER)].
Definition GeraetVrsKeywords : list (string * Z) := [
  ("geraet", PARSER_TOKEN_KEYWORD_GERAET);
  ("version", PARSER_TOKEN_KEYWORD_VERSION);
  ("minor", PARSER_TOKEN_KEYWORD_MINOR);
  ("major", PARSER_TOKEN_KEYWORD_MAJOR);
  ("sernum", PARSER_TOKEN_KEYWORD_SERNUM);
  ("gfpuid", PARSER_TOKEN_KEYWORD_GFPUID);
  ("guiuid", PARSER_TOKEN_KEYWORD_GUIUID);
  ("hardvers", PARSER_TOKEN_KEYWORD_HARDVERS)].
Definition LokCs2Keywords : list (string * Z) := [
  ("lokomotive", PARSER_TOKEN_KEYWORD_LOKOMOTIVE);
  ("version", PARSER_TOKEN_KEYWORD_VERSION);
  ("lok", PARSER_TOKEN_KEYWORD_LOK);
  ("name", PARSER_TOKEN_KEYWORD_NAME);
  ("wert", PARSER_TOKEN_KEYWORD_WERT);
  ("uid", PARSER_TOKEN_KEYWORD_UID);
  ("adresse", PARSER_TOKEN_KEYWORD_ADRESSE);
  ("typ", PARSER_TOKEN_KEYWORD_TYP);
  ("mfxuid", PARSER_TOKEN_KEYWORD_MFXUID);
  ("symbol", PARSER_TOKEN_KEYWORD_SYMBOL);
  ("av", PARSER_TOKEN_KEYWORD_AV);
  ("bv", PARSER_TOKEN_KEYWORD_BV);
  ("volume", PARSER_TOKEN_KEYWORD_VOLUME);
  ("velocity", PARSER_TOKEN_KEYWORD_VELOCITY);
  ("richtung", PARSER_TOKEN_KEYWORD_RICHTUNG);
  ("vmax", PARSER_TOKEN_KEYWORD_VMAX);
  ("vmin", PARSER_TOKEN_KEYWORD_VMIN);
  ("fkt", PARSER_TOKEN_KEYWORD_FKT);
  ("dauer", PARSER_TOKEN_KEYWORD_DAUER);
  ("minor", PARSER_TOKEN_KEYWORD_MINOR);
  ("major", PARSER_TOKEN_KEYWORD_MAJOR);
  ("session", PARSER_TOKEN_KEYWORD_SESSION);
  ("id", PARSER_TOKEN_KEYWORD_ID);
  ("sid", PARSER_TOKEN_KEYWORD_SID);
  ("icon", PARSER_TOKEN_KEYWORD_ICON);
  ("tachomax", PARSER_TOKEN_KEYWORD_TACHOMAX);
  ("xprotokoll", PARSER_TOKEN_KEYWORD_XPROTOKOLL);
  ("mfxtyp", PARSER_TOKEN_KEYWORD_MFXTYP);
  ("stand", PARSER_TOKEN_KEYWORD_STAND);
  ("fahrt", PARSER_TOKEN_KEYWORD_FAHRT);
  ("funktionen", PARSER_TOKEN_KEYWORD_FUNKTIONEN);
  ("nr", PARSER_TOKEN_KEYWORD_NR);
  ("vorwaerts", PARSER_TOKEN_KEYWORD_VORWAERTS);
  ("rueckwaerts", PARSER_TOKEN_KEYWORD_RUECKWAERTS);
  ("inTraktion", PARSER_TOKEN_KEYWORD_INTRAKTION)].
Definition GleisbildCs2Keywords : list (string * Z) := [
  ("gleisbild", PARSER_TOKEN_KEYWORD_GLEISBILD);
  ("version", PARSER_TOKEN_KEYWORD_VERSION);
  ("minor", PARSER_TOKEN_KEYWORD_MINOR);
  ("major", PARSER_TOKEN_KEYWORD_MAJOR);
  ("seite", PARSER_TOKEN_KEYWORD_SEITE);
  ("id", PARSER_TOKEN_KEYWORD_ID);
  ("name", PARSER_TOKEN_KEYWORD_NAME);
  ("groesse", PARSER_TOKEN_KEYWORD_GROESSE);
  ("zuletztBenutzt", PARSER_TOKEN_KEYWORD_ZULETZT_BENUTZT);
  ("element", PARSER_TOKEN_KEYWORD_ELEMENT);
  ("zustand", PARSER_TOKEN_KEYWORD_ZUSTAND)].
Definition MagnetartikelCs2Keywords : list (string * Z) := [
  ("magnetartikel", PARSER_TOKEN_KEYWORD_MAGNETARTIKEL);
  ("version", PARSER_TOKEN_KEYWORD_VERSION);
  ("minor", PARSER_TOKEN_KEYWORD_MINOR);
  ("major", PARSER_TOKEN_KEYWORD_MAJOR);
  ("artikel", PARSER_TOKEN_KEYWORD_ARTIKEL);
  ("id", PARSER_TOKEN_KEYWORD_ID);
  ("name", PARSER_TOKEN_KEYWORD_NAME);
  ("typ", PARSER_TOKEN_KEYWORD_TYP);
  ("stellung", PARSER_TOKEN_KEYWORD_STELLUNG);
  ("schaltzeit", PARSER_TOKEN_KEYWORD_SCHALTZEIT);
  ("ungerade", PARSER_TOKEN_KEYWORD_UNGERADE);
  ("decoder", PARSER_TOKEN_KEYWORD_DECODER);
  ("dectyp", PARSER_TOKEN_KEYWORD_DECTYP)].
Definition FahrstrassenCs2Keywords : list (string * Z) := [
  ("fahrstrassen", PARSER_TOKEN_KEYWORD_FAHRSTRASSEN);
  ("version", PARSER_TOKEN_KEYWORD_VERSION);
  ("minor", PARSER_TOKEN_KEYWORD_MINOR);
  ("major", PARSER_TOKEN_KEYWORD_MAJOR);
  ("fahrstrasse", PARSER_TOKEN_KEYWORD_FAHRSTRASSE);
  ("id", PARSER_TOKEN_KEYWORD_ID);
  ("name", PARSER_TOKEN_KEYWORD_NAME);
  ("s88", PARSER_TOKEN_KEYWORD_S88);
  ("s88Ein", PARSER_TOKEN_KEYWORD_S88EIN);
  ("extern", PARSER_TOKEN_KEYWORD_EXTERN);
  ("item", PARSER_TOKEN_KEYWORD_ITEM);
  ("fsverweis", PARSER_TOKEN_KEYWORD_FSVERWEIS);
  ("magnetartikel", PARSER_TOKEN_KEYWORD_MAGNETARTIKEL);
  ("typ", PARSER_TOKEN_KEYWORD_TYP);
  ("stellung", PARSER_TOKEN_KEYWORD_STELLUNG);
  ("lok", PARSER_TOKEN_KEYWORD_LOK);
  ("sekunde", PARSER_TOKEN_KEYWORD_SEKUNDE);
  ("idx", PARSER_TOKEN_KEYWORD_IDX);
  ("wert", PARSER_TOKEN_KEYWORD_WERT);
  ("on", PARSER_TOKEN_KEYWORD_ON)].
Definition GleisbildPageCs2Keywords : list (string * Z) := [
  ("gleisbildseite", PARSER_TOKEN_KEYWORD_GLEISBILDSEITE);
  ("version", PARSER_TOKEN_KEYWORD_VERSION);
  ("minor", PARSER_TOKEN_KEYWORD_MINOR);
  ("major", PARSER_TOKEN_KEYWORD_MAJOR);
  ("element", PARSER_TOKEN_KEYWORD_ELEMENT);
  ("id", PARSER_TOKEN_KEYWORD_ID);
  ("typ", PARSER_TOKEN_KEYWORD_TYP);
  ("drehung", PARSER_TOKEN_KEYWORD_DREHUNG);
  ("artikel", PARSER_TOKEN_KEYWORD_ARTIKEL);
  ("text", PARSER_TOKEN_KEYWORD_TEXT);
  ("zustand", PARSER_TOKEN_KEYWORD_ZUSTAND);
  ("deviceId", PARSER_TOKEN_KEYWORD_DEVICE_ID);
  ("page", PARSER_TOKEN_KEYWORD_PAGE)].
Definition HeaderCs2Keywords : list (string * Z) := [
  ("lokomotive", PARSER_TOKEN_KEYWORD_LOKOMOTIVE);
  ("gleisbild", PARSER_TOKEN_KEYWORD_GLEISBILD);
  ("magnetartikel", PARSER_TOKEN_KEYWORD_MAGNETARTIKEL);
  ("fahrstrassen", PARSER_TOKEN_KEYWORD_FAHRSTRASSEN);
  ("gleisbildseite", PARSER_TOKEN_KEYWORD_GLEISBILDSEITE);
  ("lokstatus", PARSER_TOKEN_KEYWORD_LOKSTATUS);
  ("lok", PARSER_TOKEN_KEYWORD_LOK);
  ("numloks", PARSER_TOKEN_KEYWORD_NUMLOKS)].
Definition LoklisteKeywords : list (string * Z) := [
  ("lokliste", PARSER_TOKEN_KEYWORD_LOKLISTE);
  ("dv", PARSER_TOKEN_KEYWORD_DV);
  ("idx", PARSER_TOKEN_KEYWORD_IDX);
  ("llindex", PARSER_TOKEN_KEYWORD_LLINDEX);
  ("name", PARSER_TOKEN_KEYWORD_NAME);
  ("crc", PARSER_TOKEN_KEYWORD_CRC)].
(** The table of a type, which [Cs2pInit] gives to the scanner. *)
Definition type_keywords : list (Z * list (string * Z)) := [
  (PARSER_TYPE_LOKNAMEN, LokNameKeywords);
  (PARSER_TYPE_LOKINFO, LokInfoKeywords);
  (PARSER_TYPE_GERAET_VRS, GeraetVrsKeywords);
  (PARSER_TYPE_LOK_CS2, LokCs2Keywords);
  (PARSER_TYPE_GLEISBILD_CS2, GleisbildCs2Keywords);
  (PARSER_TYPE_MAGNETARTIKEL_CS2, MagnetartikelCs2Keywords);
  (PARSER_TYPE_FAHRSTRASSEN_CS2, FahrstrassenCs2Keywords);
  (PARSER_TYPE_GLEISBILD_SEITE, GleisbildPageCs2Keywords);
  (PARSER_TYPE_HEADER_CS2, HeaderCs2Keywords);
  (PARSER_TYPE_LOKLISTE, LoklisteKeywords)].

(** * Values of the tokens (cs2p_parse.c) *)

(** The paragraphs [DoParagraph] knows. *)
Definition paragraph_tokens : list (Z * Z) := [
  (PARSER_TOKEN_KEYWORD_LOK, PARSER_PARAGRAPH_LOK);
  (PARSER_TOKEN_KEYWORD_NUMLOKS, PARSER_PARAGRAPH_NUMLOKS);
  (PARSER_TOKEN_KEYWORD_LOKOMOTIVE, PARSER_PARAGRAPH_LOKOMOTIVE);
  (PARSER_TOKEN_KEYWORD_GERAET, PARSER_PARAGRAPH_GERAET);
  (PARSER_TOKEN_KEYWORD_GLEISBILD, PARSER_PARAGRAPH_GLEISBILD);
  (PARSER_TOKEN_KEYWORD_MAGNETARTIKEL, PARSER_PARAGRAPH_MAGNETARTIKEL);
  (PARSER_TOKEN_KEYWORD_FAHRSTRASSEN, PARSER_PARAGRAPH_FAHRSTRASSEN);
  (PARSER_TOKEN_KEYWORD_GLEISBILDSEITE, PARSER_PARAGRAPH_GLEISBILDSEITE);
  (PARSER_TOKEN_KEYWORD_LOKSTATUS, PARSER_PARAGRAPH_LOKSTATUS);
  (PARSER_TOKEN_KEYWORD_LOKLISTE, PARSER_PARAGRAPH_LOKLISTE)].
(** The names [DoValue] knows. *)
Definition value_tokens : list (Z * Z) := [
  (PARSER_TOKEN_KEYWORD_LOK, PARSER_VALUE_LOK);
  (PARSER_TOKEN_KEYWORD_LOKOMOTIVE, PARSER_VALUE_LOKOMOTIVE);
  (PARSER_TOKEN_KEYWORD_NAME, PARSER_VALUE_NAME);
  (PARSER_TOKEN_KEYWORD_WERT, PARSER_VALUE_WERT);
  (PARSER_TOKEN_KEYWORD_UID, PARSER_VALUE_UID);
  (PARSER_TOKEN_KEYWORD_ADRESSE, PARSER_VALUE_ADRESSE);
  (PARSER_TOKEN_KEYWORD_TYP, PARSER_VALUE_TYP);
  (PARSER_TOKEN_KEYWORD_MFXUID, PARSER_VALUE_MFXUID);
  (PARSER_TOKEN_KEYWORD_SYMBOL, PARSER_VALUE_SYMBOL);
  (PARSER_TOKEN_KEYWORD_AV, PARSER_VALUE_AV);
  (PARSER_TOKEN_KEYWORD_BV, PARSER_VALUE_BV);
  (PARSER_TOKEN_KEYWORD_VOLUME, PARSER_VALUE_VOLUME);
  (PARSER_TOKEN_KEYWORD_VELOCITY, PARSER_VALUE_VELOCITY);
  (PARSER_TOKEN_KEYWORD_RICHTUNG, PARSER_VALUE_RICHTUNG);
  (PARSER_TOKEN_KEYWORD_VMAX, PARSER_VALUE_VMAX);
  (PARSER_TOKEN_KEYWORD_VMIN, PARSER_VALUE_VMIN);
  (PARSER_TOKEN_KEYWORD_FKT, PARSER_VALUE_FKT);
  (PARSER_TOKEN_KEYWORD_DAUER, PARSER_VALUE_DAUER);
  (PARSER_TOKEN_KEYWORD_GERAET, PARSER_VALUE_GERAET);
  (PARSER_TOKEN_KEYWORD_VERSION, PARSER_VALUE_VERSION);
  (PARSER_TOKEN_KEYWORD_MINOR, PARSER_VALUE_MINOR);
  (PARSER_TOKEN_KEYWORD_SERNUM, PARSER_VALUE_SERNUM);
  (PARSER_TOKEN_KEYWORD_GFPUID, PARSER_VALUE_GFPUID);
  (PARSER_TOKEN_KEYWORD_GUIUID, PARSER_VALUE_GUIUID);
  (PARSER_TOKEN_KEYWORD_HARDVERS, PARSER_VALUE_HARDVERS);
  (PARSER_TOKEN_KEYWORD_MAJOR, PARSER_VALUE_MAJOR);
  (PARSER_TOKEN_KEYWORD_SESSION, PARSER_VALUE_SESSION);
  (PARSER_TOKEN_KEYWORD_ID, PARSER_VALUE_ID);
  (PARSER_TOKEN_KEYWORD_SID, PARSER_VALUE_SID);
  (PARSER_TOKEN_KEYWORD_ICON, PARSER_VALUE_ICON);
  (PARSER_TOKEN_KEYWORD_TACHOMAX, PARSER_VALUE_TACHOMAX);
  (PARSER_TOKEN_KEYWORD_XPROTOKOLL, PARSER_VALUE_XPROTOKOLL);
  (PARSER_TOKEN_KEYWORD_MFXTYP, PARSER_VALUE_MFXTYP);
  (PARSER_TOKEN_KEYWORD_STAND, PARSER_VALUE_STAND);
  (PARSER_TOKEN_KEYWORD_FAHRT, PARSER_VALUE_FAHRT);
  (PARSER_TOKEN_KEYWORD_FUNKTIONEN, PARSER_VALUE_FUNKTIONEN);
  (PARSER_TOKEN_KEYWORD_NR, PARSER_VALUE_NR);
  (PARSER_TOKEN_KEYWORD_VORWAERTS, PARSER_VALUE_VORWAERTS);
  (PARSER_TOKEN_KEYWORD_RUECKWAERTS, PARSER_VALUE_RUECKWAERTS);
  (PARSER_TOKEN_KEYWORD_INTRAKTION, PARSER_VALUE_INTRAKTION);
  (PARSER_TOKEN_KEYWORD_SEITE, PARSER_VALUE_SEITE);
  (PARSER_TOKEN_KEYWORD_GROESSE, PARSER_VALUE_GROESSE);
  (PARSER_TOKEN_KEYWORD_ZULETZT_BENUTZT, PARSER_VALUE_ZULETZT_BENUTZT);
  (PARSER_TOKEN_KEYWORD_ARTIKEL, PARSER_VALUE_ARTIKEL);
  (PARSER_TOKEN_KEYWORD_STELLUNG, PARSER_VALUE_STELLUNG);
  (PARSER_TOKEN_KEYWORD_SCHALTZEIT, PARSER_VALUE_SCHALTZEIT);
  (PARSER_TOKEN_KEYWORD_UNGERADE, PARSER_VALUE_UNGERADE);
  (PARSER_TOKEN_KEYWORD_DECODER, PARSER_VALUE_DECODER);
  (PARSER_TOKEN_KEYWORD_DECTYP, PARSER_VALUE_DECTYP);
  (PARSER_TOKEN_KEYWORD_FAHRSTRASSE, PARSER_VALUE_FAHRSTRASSE);
  (PARSER_TOKEN_KEYWORD_S88, PARSER_VALUE_S88);
  (PARSER_TOKEN_KEYWORD_S88EIN, PARSER_VALUE_S88EIN);
  (PARSER_TOKEN_KEYWORD_EXTERN, PARSER_VALUE_EXTERN);
  (PARSER_TOKEN_KEYWORD_MAGNETARTIKEL, PARSER_VALUE_MAGNETARTIKEL);
  (PARSER_TOKEN_KEYWORD_ITEM, PARSER_VALUE_ITEM);
  (PARSER_TOKEN_KEYWORD_FSVERWEIS, PARSER_VALUE_FSVERWEIS);
  (PARSER_TOKEN_KEYWORD_ELEMENT, PARSER_VALUE_ELEMENT);
  (PARSER_TOKEN_KEYWORD_DREHUNG, PARSER_VALUE_DREHUNG);
  (PARSER_TOKEN_KEYWORD_TEXT, PARSER_VALUE_TEXT);
  (PARSER_TOKEN_KEYWORD_ZUSTAND, PARSER_VALUE_ZUSTAND);
  (PARSER_TOKEN_KEYWORD_DEVICE_ID, PARSER_VALUE_DEVICE_ID);
  (PARSER_TOKEN_KEYWORD_PAGE, PARSER_VALUE_PAGE);
  (PARSER_TOKEN_KEYWORD_SEKUNDE, PARSER_VALUE_SEKUNDE);
  (PARSER_TOKEN_KEYWORD_IDX, PARSER_VALUE_IDX);
  (PARSER_TOKEN_KEYWORD_ON, PARSER_VALUE_ON);
  (PARSER_TOKEN_KEYWORD_DV, PARSER_VALUE_DV);
  (PARSER_TOKEN_KEYWORD_LLINDEX, PARSER_VALUE_LLINDEX);
  (PARSER_TOKEN_KEYWORD_CRC, PARSER_VALUE_CRC)].

(** * The parser *)

(** [Cs2parser]; [Verbose] only decides about output. *)
Record cs2parser := mk_cs2parser {
  Scanner : scanner;
  Type_ : Z;
  SubType : Z;
  Level : Z;
  Name : string;
  Value : string }.
#[export] Instance eta_cs2parser : Settable cs2parser := fun p =>
  mk_cs2parser p.(Scanner) p.(Type_) p.(SubType) p.(Level) p.(Name) p.(Value).
Definition on_scanner {A} (m : prog scanner A) : prog cs2parser A := fun p =>
  match m p.(Scanner) with Some (a, s) => Some (a, p <| Scanner := s |>) | None => None end.

(** [Cs2pCreate]: the fields of [memory] but the scanner are not set. *)
Definition Cs2pCreate (zk0 : string) (i0 : Z) (memory : cs2parser) : cs2parser :=
  memory <| Scanner := ScanCreate zk0 i0 |>.
Fixpoint entry {A} (key : Z) (table : list (Z * A)) : option A :=
  match table with
  | [] => None
  | (k, v) :: table => if key =? k then Some v else entry key table
  end.
Definition Cs2pInit (type : Z) (InputLine : list ascii) (Len : nat) : prog cs2parser unit :=
  match entry type type_keywords with
  | Some keywords => on_scanner (ScanInit (A_text InputLine Len) keywords)
  | None => ret tt
  end.

(** [strcpy] of the scanner's text to [Name] and [Value]. *)
Definition Cs2pSetName : prog cs2parser unit :=
  let* z := on_scanner ScanGetString in
  do* guard (String.length z <? 20)%nat in
  modify (fun p => p <| Name := z |>).
Definition Cs2pSetValue : prog cs2parser unit :=
  let* z := on_scanner ScanGetString in
  do* guard (String.length z <? 80)%nat in
  modify (fun p => p <| Value := z |>).
Definition left_to_scan (p : cs2parser) : nat := S (S (left_over p.(Scanner))).

(** The rest of a paragraph's line.  A symbol that is not the end takes a
    character, or the scanner stays where it is for ever. *)
Fixpoint rest_of_line (fuel : nat) : prog cs2parser unit :=
  match fuel with
  | O => undefined
  | S fuel =>
      let* Token := on_scanner Scan in
      if negb (Token =? EolnSy) then rest_of_line fuel else ret tt
  end.
Definition DoParagraph : prog cs2parser unit :=
  let* Token := on_scanner Scan in
  match entry Token paragraph_tokens with
  | Some sub =>
      do* Cs2pSetName in
      do* modify (fun p => p <| SubType := sub |>) in
      let* Token := on_scanner Scan in
      if Token =? MengezuSy then let* p := get in rest_of_line (left_to_scan p) else ret tt
  | None => modify (fun p => p <| SubType := 0 |>)
  end.

(** The dots before a name. *)
Fixpoint dots (fuel : nat) (Token : Z) : prog cs2parser Z :=
  match fuel with
  | O => undefined
  | S fuel =>
      if Token =? PunktSy then
        do* modify (fun p => p <| Level ::= Z.succ |>) in
        let* Token := on_scanner Scan in
        dots fuel Token
      else ret Token
  end.
Definition DoValue (StartToken : Z) : prog cs2parser unit :=
  let* p := get in
  let* Token := dots (left_to_scan p) StartToken in
  match entry Token value_tokens with
  | Some sub =>
      do* Cs2pSetName in
      do* modify (fun p => p <| SubType := sub |>) in
      let* Token := on_scanner Scan in
      if Token =? GleichSy then
        do* on_scanner ScanEol in
        do* Cs2pSetValue in
        do* on_scanner Scan in
        ret tt
      else if Token =? EolnSy then modify (fun p => p <| Value := "" |>)
      else ret tt
  | None => ret tt
  end.

Definition Cs2pParse : prog cs2parser Z :=
  let* Token := on_scanner Scan in
  let value :=
    do* modify (fun p => p <| Level := 0 |>) in
    do* modify (fun p => p <| Type_ := PARSER_VALUE |>) in
    do* DoValue Token in
    ret PARSER_VALUE in
  if (Token =? EofSy) || (Token =? EolnSy) then
    do* modify (fun p => p <| Type_ := PARSER_EOF |>) in
    ret PARSER_EOF
  else if Token =? MengeaufSy then
    do* modify (fun p => p <| Type_ := PARSER_PARAGRAPH |>) in
    do* DoParagraph in
    ret PARSER_PARAGRAPH
  else if Token =? PunktSy then value
  else if PARSER_TOKEN_KEYWORD_LOK <=? Token then value
  else ret PARSER_ERROR.

(** * Writing (write_cs2.c): the text each function adds to the stream *)

Fixpoint dot_text (n : nat) : string :=
  match n with O => "" | S n => String "." (dot_text n) end.
Definition indent (Level : Z) : string :=
  (if 0 <? Level then " " else "") +:+ dot_text (Z.to_nat Level).

Definition ParagraphNames : list string :=
  [""; "lok"; "numloks"; "lokomotive"; "gleisbild"; "gleisbildseite"; "magnetartikel"; "fahrstrassen"].
Definition CS2_PARAGRAPH_TYPE_LOKOMOTIVE : Z := 3.
Definition Cs2WriteParagraphByName (Paragraph : string) : string := fmt ["["; Paragraph; "]"; nl].
Definition Cs2WriteParagraphByType (type : Z) : option string :=
  name ← (if type <? 0 then None else ParagraphNames !! Z.to_nat type);
  Some (Cs2WriteParagraphByName name).
Definition Cs2WriteTitleByName (Title : string) (Level : Z) : string := fmt [indent Level; Title; nl].
Definition Cs2WriteStringValueByName (Title Value : string) (Level : Z) : string :=
  fmt [indent Level; Title; "="; Value; nl].
Definition Cs2WriteIntValueByName (Title : string) (Value Level : Z) : string :=
  Cs2WriteStringValueByName Title (dec Value) Level.
(** [%x] of an [int] *)
Definition Cs2WriteHexValueByName (Title : string) (Value Level : Z) : string :=
  Cs2WriteStringValueByName Title ("0x" +:+ hex (u32 Value)) Level.
Definition Cs2WriteULongValueByName (Title : string) (Value Level : Z) : string :=
  Cs2WriteStringValueByName Title ("0x" +:+ hex Value) Level.
Definition Cs2WriteHexLongValueByName (Title : string) (Value Level : Z) : string :=
  Cs2WriteStringValueByName Title ("0x" +:+ hex Value) Level.
End Cs2Parse.
