(* ===== verification/MrCs2Spec.v ===== *)
(** What mrsystem writes into a configuration file of a CS2 it reads again: the
    parser on the lines of write_cs2.c. *)

From S2P Require Import Prelude World Messages Text MrScan MrCs2Parse.

Module Cs2Spec.
Import Scan Cs2Parse.

Abbreviation bytes s := (String.list_ascii_of_string s).

Lemma bytes_app a b : bytes (a +:+ b) = bytes a ++ bytes b.
Proof. induction a as [| x a IH]; [done | exact (f_equal _ IH)]. Qed.
Lemma app_snoc (a b : list ascii) x : (a ++ [x]) ++ b = a ++ x :: b.
Proof. by rewrite <- app_assoc. Qed.

(** * The scanner in the middle of a text *)

Section Reading.
Context (keywords : list (string * Z)).

(** The text [pre ++ post] of which [pre] has been read. *)
Definition view (pre post : list ascii) (sy : Z) (z : string) (g : Z) : scanner :=
  mk_scanner (length pre) (length (pre ++ post)) None (pre ++ post) sy keywords z g.

Lemma left_view pre post sy z g : left_over (view pre post sy z g) = length post.
Proof. unfold left_over, view. cbn. rewrite length_app. lia. Qed.
Lemma view_snoc pre c post sy z g : view (pre ++ [c]) post sy z g =
  (view pre (c :: post) sy z g) <| AktZeichen ::= S |>.
Proof. unfold view, over; cbn. by rewrite app_snoc, length_app, Nat.add_1_r. Qed.

(** A line feed is read as the end of the line. *)
Definition seen (c : ascii) : ascii := if Ascii.eqb c LF then EOLN else c.

Lemma next_char b pre c post sy z g : c <> CR ->
  NextChar b (view pre (c :: post) sy z g) = Some (seen c, view (pre ++ [c]) post sy z g).
Proof.
  intros Hc. unfold NextChar. rewrite bind_get. cbn [AktZeichen AnzZeichen view].
  replace (length (pre ++ c :: post) <=? length pre)%nat with false
    by (symmetry; apply Nat.leb_gt; rewrite length_app; cbn; lia).
  cbn [andb]. rewrite bind_ret, bind_get. cbn [AktZeichen AnzZeichen view].
  replace (length pre <? length (pre ++ c :: post))%nat with true
    by (symmetry; apply Nat.ltb_lt; rewrite length_app; cbn; lia).
  rewrite bind_modify, <- view_snoc. unfold char_at. rewrite bind_assoc, bind_gets. cbn [Puffer view].
  rewrite app_snoc, list_lookup_middle by done. cbn [need]. rewrite bind_ret.
  apply Ascii.eqb_neq in Hc as ->. unfold seen. by destruct (Ascii.eqb c LF).
Qed.
Lemma next_end pre sy z g : NextChar true (view pre [] sy z g) = Some (EOFI, view pre [] sy z g).
Proof.
  unfold NextChar. rewrite bind_get. cbn [AktZeichen AnzZeichen view has_file ScanFile].
  rewrite app_nil_r, Nat.leb_refl. cbn [andb orb negb]. rewrite bind_ret, bind_get. cbn [AktZeichen AnzZeichen view].
  by rewrite app_nil_r, Nat.ltb_irrefl.
Qed.
Lemma unget pre c d post sy z g :
  UngetChar d (view (pre ++ [c]) post sy z g) = Some (tt, view pre (c :: post) sy z g).
Proof.
  unfold UngetChar. rewrite bind_get. cbn [AktZeichen view]. rewrite length_app, Nat.add_1_r. cbn [Nat.ltb Nat.leb].
  unfold modify. do 2 f_equal. rewrite view_snoc. done.
Qed.

(** * Words *)

Definition is_name (w : string) : Prop := match w with
  | String a w => isalpha a = true /\ Forall (fun c => is_word c = true) (bytes w)
  | EmptyString => False
  end.

Lemma word_loop_run w room acc a pre c post sy z g :
  is_word a = true -> Forall (fun c => is_word c = true) (bytes w) -> (String.length w < room)%nat ->
  c <> CR -> is_word (seen c) = false ->
  word_loop room acc a (view pre (bytes w ++ c :: post) sy z g) =
    Some ((acc +:+ String a w, seen c), view ((pre ++ bytes w) ++ [c]) post sy z g).
Proof.
  intros Ha Hw Hr Hc Hs. revert room acc a pre Ha Hr. induction w as [| b w IH]; intros room acc a pre Ha Hr.
  - destruct room; [cbn in Hr; lia |]. cbn [word_loop bytes app]. rewrite Ha, (bind_some _ _ _ _ _ (next_char _ _ _ _ _ _ _ Hc)).
    rewrite app_nil_r. destruct room; cbn [word_loop]; by rewrite Hs.
  - cbn [bytes] in Hw. apply Forall_cons in Hw as [Hb Hw]. cbn [String.length] in Hr. destruct room; [lia |].
    cbn [word_loop bytes app]. rewrite Ha.
    assert (b <> CR) as Hb' by (intros ->; done). rewrite (bind_some _ _ _ _ _ (next_char _ _ _ _ _ _ _ Hb')).
    assert (seen b = b) as -> by (unfold seen; destruct (Ascii.eqb_spec b LF); [by subst | done]).
    rewrite (IH Hw) by (done || lia). do 3 f_equal.
    + unfold snoc. by rewrite <- Text.app_cons_assoc.
    + by rewrite app_snoc.
Qed.

Lemma str_length_bytes w : length (bytes w) = String.length w.
Proof. induction w as [| a w IH]; [done | cbn; by rewrite IH]. Qed.
Lemma isalpha_word c : isalpha c = true -> is_word c = true.
Proof. intros H. unfold is_word, isalnum. by rewrite H. Qed.
Lemma word_plain c : is_word c = true -> c <> CR /\ c <> LF /\ Ascii.eqb c " " = false.
Proof. intros H. split_and!; [intros -> | intros -> | destruct (Ascii.eqb_spec c " "); [subst |]]; done. Qed.
Lemma seen_plain c : c <> LF -> seen c = c.
Proof. intros H. unfold seen. by apply Ascii.eqb_neq in H as ->. Qed.

(** What [Scan] makes of its first character. *)
Definition symbol_of (c : ascii) : prog scanner Z :=
  let* sy :=
    (if isalpha c then Bezeichner c
     else if isdigit c then Zahl c
     else if Ascii.eqb c "<" then
       let* d := NextChar true in
       if Ascii.eqb d ">" then ret UngleichSy
       else if Ascii.eqb d "=" then ret KleinergleichSy
       else do* UngetChar d in ret KleinerSy
     else if Ascii.eqb c QUOTE then Zeichenkette
     else if Ascii.eqb c ">" then
       let* d := NextChar true in
       if Ascii.eqb d "=" then ret GroessergleichSy
       else do* UngetChar d in ret GroesserSy
     else ret (default NoSy (single c))) in
  do* modify (fun s => s <| Sym := sy |>) in
  ret sy.
Lemma Scan_char pre c post sy z g : c <> CR -> seen c <> " "%char ->
  Scan (view pre (c :: post) sy z g) = symbol_of (seen c) (view (pre ++ [c]) post sy z g).
Proof.
  intros Hc Hs. unfold Scan. rewrite bind_get, left_view. cbn [length skip_spaces].
  rewrite bind_assoc, (bind_some _ _ _ _ _ (next_char true _ _ _ _ _ _ Hc)).
  apply Ascii.eqb_neq in Hs as ->. by rewrite bind_ret.
Qed.
Lemma Scan_space pre post sy z g :
  Scan (view pre (" "%char :: post) sy z g) = Scan (view (pre ++ [" "%char]) post sy z g).
Proof.
  unfold Scan. rewrite !bind_get, !left_view. cbn [length]. set (n := S (length post)). cbn [skip_spaces].
  rewrite bind_assoc, (bind_some _ _ _ _ _ (next_char true pre " " post sy z g ltac:(done))). done.
Qed.
Lemma Scan_end pre sy z g : Scan (view pre [] sy z g) = Some (EofSy, view pre [] EofSy z g).
Proof.
  unfold Scan. rewrite bind_get, left_view. cbn [length skip_spaces].
  rewrite bind_assoc, (bind_some _ _ _ _ _ (next_end _ _ _ _)). reflexivity.
Qed.

(** A symbol of one character. *)
Lemma Scan_single pre c post sy z g k : c <> CR -> seen c <> " "%char ->
  isalnum (seen c) = false -> Ascii.eqb (seen c) "<" = false -> Ascii.eqb (seen c) QUOTE = false ->
  Ascii.eqb (seen c) ">" = false -> single (seen c) = Some k ->
  Scan (view pre (c :: post) sy z g) = Some (k, view (pre ++ [c]) post k z g).
Proof.
  intros Hc Hs Ha H1 H2 H3 Hk. rewrite Scan_char by done. unfold symbol_of.
  apply orb_false_iff in Ha as [-> ->]. rewrite H1, H2, H3, Hk. reflexivity.
Qed.
(** A word, up to a character that is not part of one. *)
Lemma Scan_word w pre c post sy z g : is_name w -> (String.length w < SCAN_BLOCK_LAENGE)%nat ->
  c <> CR -> is_word (seen c) = false ->
  Scan (view pre (bytes w ++ c :: post) sy z g) =
    Some (keyword w keywords, view (pre ++ bytes w) (c :: post) (keyword w keywords) w g).
Proof.
  destruct w as [| a w]; [done |]. intros [Ha Hw] Hl Hc Hs. cbn [bytes]. pose proof (isalpha_word a Ha) as Ha'.
  destruct (word_plain a Ha') as (H1 & H2 & H3). cbn [app].
  rewrite Scan_char by (done || (rewrite seen_plain by done; by apply Ascii.eqb_neq)). rewrite seen_plain by done.
  unfold symbol_of. rewrite Ha. unfold Bezeichner. rewrite bind_assoc.
  rewrite (bind_some _ _ _ _ _ (word_loop_run w (Nat.pred SCAN_BLOCK_LAENGE) _ a _ c post sy z g Ha' Hw ltac:(unfold SCAN_BLOCK_LAENGE in *; cbn in Hl |- *; lia) Hc Hs)).
  rewrite bind_assoc, (bind_some _ _ _ _ _ (unget _ _ _ _ _ _ _)), bind_assoc, bind_modify, bind_assoc, bind_gets, bind_ret, bind_modify.
  unfold ret, view, over; cbn. by rewrite app_snoc.
Qed.

(** * The rest of a line *)

Definition is_plain (c : ascii) : bool :=
  negb (Ascii.eqb c CR) && negb (Ascii.eqb c LF) && negb (Ascii.eqb c EOFI) && negb (Ascii.eqb c NUL).
Definition value_ok (v : string) : Prop :=
  Forall (fun c => is_plain c = true) (bytes v) /\ (String.length v < SCAN_BLOCK_LAENGE)%nat.

Lemma plain_parts c : is_plain c = true -> c <> CR /\ c <> LF /\ c <> EOFI /\ c <> NUL.
Proof.
  unfold is_plain. rewrite !andb_true_iff, !negb_true_iff, !Ascii.eqb_neq. tauto.
Qed.
Lemma bytes_no_nul v : Forall (fun c => c <> NUL) (bytes v) -> c_str v = v.
Proof.
  intros H. apply c_str_no_nul. induction v as [| c v IH]; [done |]. cbn in *.
  apply Forall_cons in H as [Hc Hv]. by split; [| apply IH].
Qed.
Lemma value_text v : value_ok v -> c_str v = v.
Proof. intros [Hv _]. apply bytes_no_nul. eapply Forall_impl; [done |]. intros c Hc. by apply plain_parts. Qed.
Lemma name_text w : is_name w -> c_str w = w.
Proof.
  destruct w as [| a w]; [done |]. intros [Ha Hw]. apply bytes_no_nul. constructor; [by intros -> |].
  eapply Forall_impl; [done |]. by intros c Hc ->.
Qed.

Lemma eol_loop_run v room acc pre post sy z g : Forall (fun c => is_plain c = true) (bytes v) ->
  (String.length v <= room)%nat ->
  eol_loop room acc (view pre (bytes v ++ LF :: post) sy z g) =
    Some ((acc +:+ v, EOLN), view ((pre ++ bytes v) ++ [LF]) post sy z g).
Proof.
  intros Hv. revert room acc pre. induction v as [| c v IH]; intros room acc pre Hr.
  - destruct room; cbn [eol_loop bytes app]; rewrite (bind_some _ _ _ _ _ (next_char false pre LF post sy z g ltac:(done)));
      cbn; by rewrite app_nil_r, <- append_nil.
  - cbn [bytes] in Hv. apply Forall_cons in Hv as [Hc Hv]. destruct (plain_parts c Hc) as (H1 & H2 & H3 & _).
    cbn [String.length] in Hr. destruct room; [lia |]. cbn [eol_loop bytes app].
    rewrite (bind_some _ _ _ _ _ (next_char false pre c _ sy z g H1)), seen_plain by done.
    assert (Ascii.eqb c EOLN = false) as -> by by apply Ascii.eqb_neq. assert (Ascii.eqb c EOFI = false) as -> by by apply Ascii.eqb_neq.
    cbn [negb andb]. rewrite (IH Hv) by lia. do 3 f_equal; [| by rewrite app_snoc].
    unfold snoc. by rewrite <- Text.app_cons_assoc.
Qed.
Lemma ScanEol_run v pre post sy z g : value_ok v ->
  ScanEol (view pre (bytes v ++ LF :: post) sy z g) = Some (ZeichenkettenSy, view (pre ++ bytes v) (LF :: post) sy v g).
Proof.
  intros [Hv Hl]. unfold ScanEol. rewrite (bind_some _ _ _ _ _ (eol_loop_run v (Nat.pred SCAN_BLOCK_LAENGE) _ pre post sy z g Hv
    ltac:(unfold SCAN_BLOCK_LAENGE in *; cbn in *; lia))).
  rewrite bind_modify. unfold view at 1, over; cbn -[UngetChar].
  change (mk_scanner _ _ _ _ _ _ _ _) with (view ((pre ++ bytes v) ++ [LF]) post sy v g).
  by rewrite (bind_some _ _ _ _ _ (unget _ _ _ _ _ _ _)).
Qed.

(** * The parser in the middle of a text *)

(** The fields of the parser beside the scanner. *)
Record fields := mk_fields { f_type : Z; f_sub : Z; f_level : Z; f_name : string; f_value : string }.
Definition parsing (pre post : list ascii) (sy : Z) (z : string) (g : Z) (f : fields) : cs2parser :=
  mk_cs2parser (view pre post sy z g) f.(f_type) f.(f_sub) f.(f_level) f.(f_name) f.(f_value).

Lemma scan_parsing {A} (m : prog scanner A) a pre post sy z g pre' post' sy' z' g' f :
  m (view pre post sy z g) = Some (a, view pre' post' sy' z' g') ->
  on_scanner m (parsing pre post sy z g f) = Some (a, parsing pre' post' sy' z' g' f).
Proof. intros H. unfold on_scanner. cbn [parsing Scanner]. by rewrite H. Qed.

(** The line end, a dot and the other symbols of one character. *)
Lemma scan_one pre c post sy z g f k : c <> CR -> seen c <> " "%char ->
  isalnum (seen c) = false -> Ascii.eqb (seen c) "<" = false -> Ascii.eqb (seen c) QUOTE = false ->
  Ascii.eqb (seen c) ">" = false -> single (seen c) = Some k ->
  on_scanner Scan (parsing pre (c :: post) sy z g f) = Some (k, parsing (pre ++ [c]) post k z g f).
Proof. intros. by apply scan_parsing, Scan_single. Qed.
Lemma scan_name w pre c post sy z g f : is_name w -> (String.length w < 20)%nat -> c <> CR -> is_word (seen c) = false ->
  on_scanner Scan (parsing pre (bytes w ++ c :: post) sy z g f) =
    Some (keyword w keywords, parsing (pre ++ bytes w) (c :: post) (keyword w keywords) w g f).
Proof. intros. apply scan_parsing, Scan_word; [done | unfold SCAN_BLOCK_LAENGE; lia | done..]. Qed.

Lemma set_name pre post sy w g f : is_name w -> (String.length w < 20)%nat ->
  Cs2pSetName (parsing pre post sy w g f) =
    Some (tt, parsing pre post sy w g (mk_fields f.(f_type) f.(f_sub) f.(f_level) w f.(f_value))).
Proof.
  intros Hw Hl. unfold Cs2pSetName, on_scanner. rewrite bind_run. cbn -[Nat.ltb]. rewrite name_text by done.
  apply Nat.ltb_lt in Hl. rewrite Hl. reflexivity.
Qed.
Lemma set_value pre post sy v g f : value_ok v ->
  Cs2pSetValue (parsing pre post sy v g f) =
    Some (tt, parsing pre post sy v g (mk_fields f.(f_type) f.(f_sub) f.(f_level) f.(f_name) v)).
Proof.
  intros Hv. unfold Cs2pSetValue, on_scanner. rewrite bind_run. cbn -[Nat.ltb]. rewrite value_text by done.
  destruct Hv as [_ Hl]. apply Nat.ltb_lt in Hl. unfold SCAN_BLOCK_LAENGE in Hl. rewrite Hl. reflexivity.
Qed.

(** The dots and the name. *)
Definition deeper (n : nat) (f : fields) : fields :=
  mk_fields f.(f_type) f.(f_sub) (f.(f_level) + Z.of_nat n) f.(f_name) f.(f_value).
Lemma level_up pre post sy z g f : (parsing pre post sy z g f) <| Level ::= Z.succ |> = parsing pre post sy z g (deeper 1 f).
Proof. done. Qed.
Lemma deeper_twice n f : deeper n (deeper 1 f) = deeper (S n) f.
Proof. unfold deeper. cbn [f_type f_sub f_level f_name f_value]. f_equal. lia. Qed.
Lemma dots_run n fuel w pre c post sy z g f : is_name w -> (String.length w < 20)%nat -> c <> CR -> is_word (seen c) = false ->
  keyword w keywords <> PunktSy -> (n < fuel)%nat ->
  (let* Token := on_scanner Scan in dots fuel Token) (parsing pre (bytes (dot_text n) ++ bytes w ++ c :: post) sy z g f) =
    Some (keyword w keywords, parsing ((pre ++ bytes (dot_text n)) ++ bytes w) (c :: post) (keyword w keywords) w g (deeper n f)).
Proof.
  intros Hw Hl Hc Hs Hk. revert fuel pre sy f. induction n as [| n IH]; intros fuel pre sy f Hf; (destruct fuel as [| fuel]; [lia |]).
  - cbn [dot_text String.list_ascii_of_string app]. rewrite app_nil_r, (bind_some _ _ _ _ _ (scan_name w _ _ _ _ _ _ _ Hw Hl Hc Hs)).
    cbn [dots]. apply Z.eqb_neq in Hk as ->. unfold deeper. rewrite Z.add_0_r. by destruct f.
  - cbn [dot_text String.list_ascii_of_string app].
    rewrite (bind_some _ _ _ _ _ (scan_one pre "." _ sy z g f PunktSy ltac:(done) ltac:(done) eq_refl eq_refl eq_refl eq_refl eq_refl)).
    cbn [dots]. rewrite Z.eqb_refl, bind_modify, level_up, IH by lia. by rewrite deeper_twice, app_snoc.
Qed.

(** * Lines *)

Inductive line :=
| Heading (name : string)
| Title (level : nat) (name : string)
| Entry (level : nat) (name value : string).
Definition line_text (l : line) : string :=
  match l with
  | Heading name => Cs2WriteParagraphByName name
  | Title level name => Cs2WriteTitleByName name (Z.of_nat level)
  | Entry level name value => Cs2WriteStringValueByName name value (Z.of_nat level)
  end.
Definition line_kind (l : line) : Z := match l with Heading _ => PARSER_PARAGRAPH | _ => PARSER_VALUE end.
(** A line with keywords of the table that the parser has a paragraph or a value
    for. *)
Definition line_ok (l : line) : Prop :=
  match l with
  | Heading name => is_name name /\ (String.length name < 20)%nat /\ is_Some (entry (keyword name keywords) paragraph_tokens)
  | Title _ name => is_name name /\ (String.length name < 20)%nat /\ is_Some (entry (keyword name keywords) value_tokens)
  | Entry _ name value =>
      is_name name /\ (String.length name < 20)%nat /\ is_Some (entry (keyword name keywords) value_tokens) /\ value_ok value
  end.
(** The fields after a line. *)
Definition sub_of (name : string) (table : list (Z * Z)) : Z := default 0 (entry (keyword name keywords) table).
Definition read_line (l : line) (f : fields) : fields :=
  match l with
  | Heading name => mk_fields PARSER_PARAGRAPH (sub_of name paragraph_tokens) f.(f_level) name f.(f_value)
  | Title level name => mk_fields PARSER_VALUE (sub_of name value_tokens) (Z.of_nat level) name ""
  | Entry level name value => mk_fields PARSER_VALUE (sub_of name value_tokens) (Z.of_nat level) name value
  end.

(** The keywords of both tables are above the other symbols. *)
Lemma entry_above {A} (table : list (Z * A)) k : forallb (fun e => PARSER_TOKEN_KEYWORD_LOK <=? e.1) table = true ->
  is_Some (entry k table) -> PARSER_TOKEN_KEYWORD_LOK <= k.
Proof.
  induction table as [| [k' v] table IH]; cbn; [by intros _ [? [=]] |]. intros [H1 H2]%andb_true_iff.
  destruct (Z.eqb_spec k k'); [subst; intros _; by apply Z.leb_le | by apply IH].
Qed.
Lemma value_token k : is_Some (entry k value_tokens) -> PARSER_TOKEN_KEYWORD_LOK <= k.
Proof. by apply entry_above. Qed.

(** The end of a line whose name has been read. *)
Definition value_line (Token : Z) : prog cs2parser unit :=
  match entry Token value_tokens with
  | Some sub =>
      do* Cs2pSetName in
      do* modify (fun p => p <| SubType := sub |>) in
      let* Token := on_scanner Scan in
      if Token =? GleichSy then
        do* on_scanner ScanEol in
        do* Cs2pSetValue in
        do* on_scanner Scan in
        ret tt
      else if Token =? EolnSy then modify (fun p => p <| Value := "" |>)
      else ret tt
  | None => ret tt
  end.
Lemma new_sub pre post sy z g f v : (parsing pre post sy z g f) <| SubType := v |> =
  parsing pre post sy z g (mk_fields f.(f_type) v f.(f_level) f.(f_name) f.(f_value)).
Proof. done. Qed.
Lemma new_value pre post sy z g f v : (parsing pre post sy z g f) <| Value := v |> =
  parsing pre post sy z g (mk_fields f.(f_type) f.(f_sub) f.(f_level) f.(f_name) v).
Proof. done. Qed.

Lemma new_level pre post sy z g f v : (parsing pre post sy z g f) <| Level := v |> =
  parsing pre post sy z g (mk_fields f.(f_type) f.(f_sub) v f.(f_name) f.(f_value)).
Proof. done. Qed.
Lemma new_type pre post sy z g f v : (parsing pre post sy z g f) <| Type_ := v |> =
  parsing pre post sy z g (mk_fields v f.(f_sub) f.(f_level) f.(f_name) f.(f_value)).
Proof. done. Qed.

Ltac one c k := rewrite (bind_some _ _ _ _ _ (scan_one _ c _ _ _ _ _ k ltac:(done) ltac:(done) eq_refl eq_refl eq_refl eq_refl eq_refl)).
Lemma title_end w pre post sy g f : is_name w -> (String.length w < 20)%nat -> is_Some (entry (keyword w keywords) value_tokens) ->
  exists sy', value_line (keyword w keywords) (parsing pre (LF :: post) sy w g f) =
    Some (tt, parsing (pre ++ [LF]) post sy' w g (mk_fields f.(f_type) (sub_of w value_tokens) f.(f_level) w "")).
Proof.
  intros Hw Hl [sub Hs]. exists EolnSy. unfold value_line, sub_of. rewrite Hs.
  rewrite (bind_some _ _ _ _ _ (set_name _ _ _ _ _ _ Hw Hl)), bind_modify, new_sub.
  one LF EolnSy. reflexivity.
Qed.
Lemma entry_end w v pre post sy g f : is_name w -> (String.length w < 20)%nat -> is_Some (entry (keyword w keywords) value_tokens) ->
  value_ok v ->
  exists sy', value_line (keyword w keywords) (parsing pre ("="%char :: bytes v ++ LF :: post) sy w g f) =
    Some (tt, parsing (((pre ++ ["="%char]) ++ bytes v) ++ [LF]) post sy' v g (mk_fields f.(f_type) (sub_of w value_tokens) f.(f_level) w v)).
Proof.
  intros Hw Hl [sub Hs] Hv. exists EolnSy. unfold value_line, sub_of. rewrite Hs.
  rewrite (bind_some _ _ _ _ _ (set_name _ _ _ _ _ _ Hw Hl)), bind_modify, new_sub.
  one "="%char GleichSy. change (GleichSy =? GleichSy) with true. cbn match.
  rewrite (bind_some _ _ _ _ _ (scan_parsing _ _ _ _ _ _ _ _ _ _ _ _ _ (ScanEol_run v _ _ _ _ _ Hv))).
  rewrite (bind_some _ _ _ _ _ (set_value _ _ _ _ _ _ Hv)). one LF EolnSy. reflexivity.
Qed.

Lemma length_dots n : String.length (dot_text n) = n.
Proof. induction n as [| n IH]; [done | cbn; by rewrite IH]. Qed.
Lemma dots_dot m : dots (S m) PunktSy =
  (do* modify (fun p => p <| Level ::= Z.succ |>) in let* Token := on_scanner Scan in dots m Token).
Proof. done. Qed.
Definition at_level (level : Z) (f : fields) : fields :=
  mk_fields PARSER_VALUE f.(f_sub) level f.(f_name) f.(f_value).
Lemma parse_name level w c pre post sy z g f : is_name w -> (String.length w < 20)%nat ->
  PARSER_TOKEN_KEYWORD_LOK <= keyword w keywords -> c <> CR -> is_word (seen c) = false ->
  Cs2pParse (parsing pre (bytes (indent (Z.of_nat level)) ++ bytes w ++ c :: post) sy z g f) =
    (do* value_line (keyword w keywords) in ret PARSER_VALUE)
      (parsing ((pre ++ bytes (indent (Z.of_nat level))) ++ bytes w) (c :: post) (keyword w keywords) w g (at_level (Z.of_nat level) f)).
Proof.
  intros Hw Hl Hk Hc Hs. unfold PARSER_TOKEN_KEYWORD_LOK in Hk. set (k := keyword w keywords) in *.
  assert (forall b, b < 0x100 -> (k =? b) = false) as Hne by (intros; apply Z.eqb_neq; lia).
  unfold Cs2pParse, DoValue. fold value_line. destruct level as [| n].
  - change (bytes (indent (Z.of_nat 0))) with (@nil ascii). rewrite app_nil_r. cbn [app].
    rewrite (bind_some _ _ _ _ _ (scan_name w _ _ _ _ _ _ _ Hw Hl Hc Hs)). fold k.
    rewrite !Hne by done. cbn [orb]. apply Z.leb_le in Hk. change 0x100 with PARSER_TOKEN_KEYWORD_LOK in Hk. rewrite Hk.
    rewrite bind_modify, new_level, bind_modify, new_type, !bind_assoc, bind_get, bind_assoc. cbn [left_to_scan dots].
    rewrite Hne by done. rewrite bind_ret. reflexivity.
  - change (bytes (indent (Z.of_nat (S n)))) with (" "%char :: bytes (dot_text (Z.to_nat (Z.of_nat (S n))))).
    rewrite Nat2Z.id. cbn [dot_text String.list_ascii_of_string app].
    rewrite (bind_some (on_scanner Scan) _ _ PunktSy (parsing ((pre ++ [" "%char]) ++ ["."%char])
      (bytes (dot_text n) ++ bytes w ++ c :: post) PunktSy z g f)).
    + change (PunktSy =? EofSy) with false. change (PunktSy =? EolnSy) with false. change (PunktSy =? MengeaufSy) with false.
      rewrite Z.eqb_refl. cbn [orb]. rewrite bind_modify, new_level, bind_modify, new_type, !bind_assoc, bind_get, bind_assoc.
      unfold left_to_scan. cbn [parsing Scanner]. rewrite left_view.
      rewrite dots_dot, bind_assoc, bind_modify, level_up.
      rewrite (bind_some _ _ _ _ _ (dots_run n (S (length (bytes (dot_text n) ++ bytes w ++ c :: post))) w _ c post _ z g _ Hw Hl Hc Hs ltac:(fold k; unfold PunktSy; lia)
        ltac:(rewrite length_app, str_length_bytes, length_dots; lia))).
      rewrite deeper_twice, !app_snoc. reflexivity.
    + apply scan_parsing. rewrite Scan_space.
      apply (Scan_single _ "." _ sy z g PunktSy); done.
Qed.
(** A line that was written is read as what it says, and the parser stands at
    the next one. *)
Lemma parse_line l pre post sy z g f : line_ok l ->
  exists sy' z', Cs2pParse (parsing pre (bytes (line_text l) ++ post) sy z g f) =
    Some (line_kind l, parsing (pre ++ bytes (line_text l)) post sy' z' g (read_line l f)).
Proof.
  destruct l as [w | level w | level w v]; cbn [line_ok line_text line_kind read_line].
  - intros (Hw & Hl & [sub Hs]). exists EolnSy, w.
    assert (bytes (Cs2WriteParagraphByName w) = "["%char :: bytes w ++ ["]"%char; LF]) as ->.
    { unfold Cs2WriteParagraphByName, fmt. by rewrite !bytes_app. }
    rewrite <- app_comm_cons, <- app_assoc. cbn [app].
    unfold Cs2pParse, sub_of. one "["%char MengeaufSy. change ((MengeaufSy =? EofSy) || (MengeaufSy =? EolnSy)) with false.
    rewrite Z.eqb_refl, bind_modify, new_type. unfold DoParagraph. rewrite bind_assoc.
    rewrite (bind_some _ _ _ _ _ (scan_name w _ "]"%char _ _ _ _ _ Hw Hl ltac:(done) eq_refl)), Hs.
    rewrite !bind_assoc, (bind_some _ _ _ _ _ (set_name _ _ _ _ _ _ Hw Hl)), bind_assoc, bind_modify, new_sub, bind_assoc.
    one "]"%char MengezuSy. rewrite Z.eqb_refl, bind_assoc, bind_get. unfold left_to_scan. cbn [rest_of_line].
    rewrite bind_assoc. one LF EolnSy. cbn. by rewrite !app_snoc, <- !app_assoc.
  - intros (Hw & Hl & Hs). pose proof (value_token _ Hs) as Hk.
    assert (bytes (Cs2WriteTitleByName w (Z.of_nat level)) = bytes (indent (Z.of_nat level)) ++ bytes w ++ [LF]) as ->.
    { unfold Cs2WriteTitleByName, fmt. by rewrite !bytes_app. }
    rewrite <- !app_assoc. cbn [app]. rewrite parse_name by done.
    destruct (title_end w ((pre ++ bytes (indent (Z.of_nat level))) ++ bytes w) post (keyword w keywords) g (at_level (Z.of_nat level) f) Hw Hl Hs) as [sy' E].
    exists sy', w. rewrite (bind_some _ _ _ _ _ E). by rewrite <- !app_assoc.
  - intros (Hw & Hl & Hs & Hv). pose proof (value_token _ Hs) as Hk.
    assert (bytes (Cs2WriteStringValueByName w v (Z.of_nat level)) =
      bytes (indent (Z.of_nat level)) ++ bytes w ++ "="%char :: bytes v ++ [LF]) as ->.
    { unfold Cs2WriteStringValueByName, fmt. by rewrite !bytes_app. }
    rewrite <- !app_assoc. cbn [app]. rewrite <- !app_assoc. cbn [app]. rewrite parse_name by done.
    destruct (entry_end w v ((pre ++ bytes (indent (Z.of_nat level))) ++ bytes w) post (keyword w keywords) g (at_level (Z.of_nat level) f) Hw Hl Hs Hv) as [sy' E].
    exists sy', v. rewrite (bind_some _ _ _ _ _ E). by rewrite <- !app_assoc.
Qed.
Lemma parse_end pre sy z g f : exists p,
  Cs2pParse (parsing pre [] sy z g f) = Some (PARSER_EOF, p).
Proof.
  eexists. unfold Cs2pParse. rewrite (bind_some _ _ _ _ _ (scan_parsing _ _ _ _ _ _ _ _ _ _ _ _ _ (Scan_end pre sy z g))).
  reflexivity.
Qed.
(** A line that starts with a word the table does not have is an error. *)
Lemma parse_unknown w c pre post sy z g f : is_name w -> (String.length w < SCAN_BLOCK_LAENGE)%nat ->
  keyword w keywords = BezeichnerSy -> c <> CR -> is_word (seen c) = false ->
  exists p, Cs2pParse (parsing pre (bytes w ++ c :: post) sy z g f) = Some (PARSER_ERROR, p).
Proof.
  intros Hw Hl Hk Hc Hs. eexists. unfold Cs2pParse.
  rewrite (bind_some _ _ _ _ _ (scan_parsing _ _ _ _ _ _ _ _ _ _ _ _ _ (Scan_word w pre c post sy z g Hw Hl Hc Hs))), Hk.
  reflexivity.
Qed.
End Reading.
End Cs2Spec.
