(* ===== verification/MrConfig.v ===== *)
(** What the tables of the control centre of mrsystem (src/mrsystem/src/client_zentrale)
    have in common: the loop over the lines of a file, the name of the file, and
    the order of a walk over a map with numbers as keys.

    [ConfigSpec]: what a file of known lines does, a line with an unknown word,
    and the numbers and words that are written. *)

From stdpp Require Import sorting.
From S2P Require Import Prelude World Messages Text MrNumber MrScan MrCs2Parse MrCs2Spec.

Module Config.
Import Cs2Parse.

(** * The loop over the lines

    Every table has its own copy; it differs in what a value does to the variables
    of the loop and what is done at the end of the file. *)

Section Loop.
Context {vars : Type} (value_read : Z -> Z -> string -> prog vars unit) (at_end : prog vars unit).

Definition on_parser {A} (m : prog cs2parser A) : prog (cs2parser * vars) A := fun '(p, l) =>
  match m p with Some (a, p) => Some (a, (p, l)) | None => None end.
Definition on_vars {A} (m : prog vars A) : prog (cs2parser * vars) A := fun '(p, l) =>
  match m l with Some (a, l) => Some (a, (p, l)) | None => None end.

(** A line takes at least a character. *)
Fixpoint parse_loop (fuel : nat) : prog (cs2parser * vars) Z :=
  match fuel with
  | O => undefined
  | S fuel =>
      let* LineInfo := on_parser Cs2pParse in
      let* ' (p, _) := get in
      do* on_vars (if LineInfo =? PARSER_EOF then at_end
                   else if LineInfo =? PARSER_VALUE then value_read p.(SubType) p.(Level) p.(Value)
                   else ret tt) in
      if negb (LineInfo =? PARSER_EOF) && negb (LineInfo =? PARSER_ERROR) then parse_loop fuel else ret LineInfo
  end.

(** From [Cs2pCreate] to the end of the loop: how it ended and the variables. *)
Definition parse (zk0 : string) (i0 : Z) (memory : cs2parser) (type : Z) (Buf : list ascii) (Len : nat) (l : vars) :
    option (Z * vars) :=
  match Cs2pInit type Buf Len (Cs2pCreate zk0 i0 memory) with
  | Some (_, p) =>
      match parse_loop (S (S Len)) (p, l) with
      | Some (LineInfo, (_, l)) => Some (LineInfo, l)
      | None => None
      end
  | None => None
  end.
End Loop.

(** * Files *)

(** The name of a file; of an empty path the character before the first is
    looked at. *)
Definition with_slash (path : string) : option string :=
  c ← string_last path;
  Some (if negb (Ascii.eqb c "/") then path +:+ "/" else path).
Definition file_name (path name : string) : option string := p ← with_slash path; Some (p +:+ name).

(** The files by their names; whether [fopen] succeeds is an argument
    [may_open] of what opens them. *)
Definition disk : Type := gmap string (list ascii).

(** * Maps with a number as key *)

Section Walk.
Context {A : Type}.
Definition key_le (e f : Z * A) : Prop := e.1 <= f.1.
#[export] Instance key_le_dec : RelDecision key_le.
Proof. intros e f. unfold key_le. apply _. Defined.
(** Keys are compared by their difference, an [int].  A search compares with the
    keys on its way down the tree; here it is defined where no key of the map is
    too far away. *)
Definition near (k : Z) (db : gmap Z A) : bool := bool_decide (map_Forall (fun k' _ => - 2 ^ 31 < k - k' < 2 ^ 31) db).
Definition map_get (k : Z) (db : gmap Z A) : option (option A) := if near k db then Some (db !! k) else None.
Definition map_set (k : Z) (a : A) (db : gmap Z A) : option (gmap Z A) := if near k db then Some (<[k := a]> db) else None.
Definition map_del (k : Z) (db : gmap Z A) : option (gmap Z A) := if near k db then Some (delete k db) else None.

(** The data in the order in which [MapWalkAscend] visits them: that of the
    numbers where the comparisons that built the tree did not overflow. *)
Definition in_order (db : gmap Z A) : bool := bool_decide (map_Forall (fun k _ => near k db = true) db).
Definition by_number (db : gmap Z A) : list A := (merge_sort key_le (map_to_list db)).*2.
Definition walk_ids (db : gmap Z A) : option (list A) := if in_order db then Some (by_number db) else None.
End Walk.
End Config.

Module ConfigSpec.
Import Number Scan Cs2Parse Cs2Spec Config.

Abbreviation text_of ls := (fmt (map line_text ls)).

(** * The loop *)

Section Loop.
Context {vars : Type} (value_read : Z -> Z -> string -> prog vars unit) (at_end : prog vars unit).
Context (table : list (string * Z)).

(** What a line that was written does to the variables. *)
Definition effect (l : line) : prog vars unit :=
  match l with
  | Heading _ => ret tt
  | Title level name => value_read (sub_of table name value_tokens) (Z.of_nat level) ""
  | Entry level name value => value_read (sub_of table name value_tokens) (Z.of_nat level) value
  end.

Lemma loop_line l fuel pre post sy z g f st st' : line_ok table l -> effect l st = Some (tt, st') ->
  exists sy' z', parse_loop value_read at_end (S fuel) (parsing table pre (bytes (line_text l) ++ post) sy z g f, st) =
    parse_loop value_read at_end fuel (parsing table (pre ++ bytes (line_text l)) post sy' z' g (read_line table l f), st').
Proof.
  intros Hl He. destruct (parse_line table l pre post sy z g f Hl) as (sy' & z' & E). exists sy', z'.
  cbn [parse_loop]. unfold on_parser at 1. rewrite bind_run, E, bind_get.
  destruct l as [w | level w | level w v]; cbn [line_kind]; unfold on_vars; rewrite bind_run.
  - cbn in He. by injection He as <-.
  - change (PARSER_VALUE =? PARSER_EOF) with false. change (PARSER_VALUE =? PARSER_VALUE) with true. cbn match.
    cbn [parsing SubType Level Value read_line f_sub f_level f_value]. unfold effect in He. by rewrite He.
  - change (PARSER_VALUE =? PARSER_EOF) with false. change (PARSER_VALUE =? PARSER_VALUE) with true. cbn match.
    cbn [parsing SubType Level Value read_line f_sub f_level f_value]. unfold effect in He. by rewrite He.
Qed.
Lemma loop_lines ls fuel pre post sy z g f st st' : Forall (line_ok table) ls -> for_each ls effect st = Some (tt, st') ->
  exists sy' z' f', parse_loop value_read at_end (length ls + fuel) (parsing table pre (bytes (text_of ls) ++ post) sy z g f, st) =
    parse_loop value_read at_end fuel (parsing table (pre ++ bytes (text_of ls)) post sy' z' g f', st').
Proof.
  revert pre sy z f st. induction ls as [| l ls IH]; intros pre sy z f st Hok He.
  - injection He as <-. exists sy, z, f. by rewrite app_nil_r.
  - apply Forall_cons in Hok as [Hl Hok]. cbn [for_each] in He. rewrite bind_run in He.
    destruct (effect l st) as [[[] st1] |] eqn:E1; [| done].
    destruct (loop_line l (length ls + fuel) pre (bytes (text_of ls) ++ post) sy z g f st st1 Hl E1) as (sy1 & z1 & E).
    destruct (IH (pre ++ bytes (line_text l)) sy1 z1 (read_line table l f) st1 Hok He) as (sy2 & z2 & f2 & E2).
    exists sy2, z2, f2. cbn [length map fmt]. rewrite bytes_app, <- !app_assoc.
    change (S (length ls) + fuel)%nat with (S (length ls + fuel)). rewrite E, E2. by rewrite <- app_assoc.
Qed.
Lemma loop_end fuel pre sy z g f st st' : at_end st = Some (tt, st') -> exists p,
  parse_loop value_read at_end (S fuel) (parsing table pre [] sy z g f, st) = Some (PARSER_EOF, (p, st')).
Proof.
  intros He. destruct (parse_end table pre sy z g f) as [p E]. exists p. cbn [parse_loop]. unfold on_parser.
  rewrite bind_run, E, bind_get. change (PARSER_EOF =? PARSER_EOF) with true. cbn match. unfold on_vars. by rewrite bind_run, He.
Qed.
Lemma loop_unknown fuel w c pre post sy z g f st : is_name w -> (String.length w < SCAN_BLOCK_LAENGE)%nat ->
  keyword w table = BezeichnerSy -> c <> CR -> Scan.is_word (seen c) = false ->
  exists p, parse_loop value_read at_end (S fuel) (parsing table pre (bytes w ++ c :: post) sy z g f, st) =
    Some (PARSER_ERROR, (p, st)).
Proof.
  intros. destruct (parse_unknown table w c pre post sy z g f) as [p E]; [done..|]. exists p. cbn [parse_loop].
  unfold on_parser. by rewrite bind_run, E, bind_get.
Qed.

Lemma text_length ls : (length ls <= length (bytes (text_of ls)))%nat.
Proof.
  induction ls as [| l ls IH]; [done |]. cbn [map fmt length]. rewrite bytes_app, length_app.
  assert (1 <= length (bytes (line_text l)))%nat; [| lia].
  destruct l; cbn [line_text]; unfold Cs2WriteParagraphByName, Cs2WriteTitleByName, Cs2WriteStringValueByName, fmt, nl;
    rewrite !bytes_app, !length_app; cbn; lia.
Qed.

(** * Whole files *)

Context (zk0 : string) (i0 : Z) (memory : cs2parser) (type : Z) (Htype : entry type type_keywords = Some table).

Lemma parse_starts Buf Len l r : parse_loop value_read at_end (S (S Len)) (parsing table [] Buf NoSy zk0 i0
    (mk_fields memory.(Type_) memory.(SubType) memory.(Level) memory.(Cs2Parse.Name) memory.(Value)), l) = r -> Len = length Buf ->
  parse value_read at_end zk0 i0 memory type Buf Len l =
    match r with Some (LineInfo, (_, l)) => Some (LineInfo, l) | None => None end.
Proof.
  intros <- ->. unfold parse, Cs2pInit. by rewrite Htype.
Qed.
(** A file of known lines is read to its end. *)
Lemma file_read ls l l' l'' : Forall (line_ok table) ls -> for_each ls effect l = Some (tt, l') -> at_end l' = Some (tt, l'') ->
  parse value_read at_end zk0 i0 memory type (bytes (text_of ls)) (length (bytes (text_of ls))) l = Some (PARSER_EOF, l'').
Proof.
  intros Hok He Hend. set (n := length (bytes (text_of ls))). pose proof (text_length ls) as Hn. fold n in Hn.
  destruct (loop_lines ls (S (S n - length ls)) [] [] NoSy zk0 i0
    (mk_fields memory.(Type_) memory.(SubType) memory.(Level) memory.(Cs2Parse.Name) memory.(Value)) l l' Hok He) as (sy & z & f & E).
  destruct (loop_end (S n - length ls) ([] ++ bytes (text_of ls)) sy z i0 f l' l'' Hend) as [p E']. rewrite E', app_nil_r in E.
  replace (length ls + S (S n - length ls))%nat with (S (S n)) in E by lia. by rewrite (parse_starts _ _ _ _ E eq_refl).
Qed.
(** An unknown word after known lines ends the loop there. *)
Lemma file_unknown ls w c rest l l' : Forall (line_ok table) ls -> for_each ls effect l = Some (tt, l') ->
  is_name w -> (String.length w < SCAN_BLOCK_LAENGE)%nat -> keyword w table = BezeichnerSy -> c <> CR -> Scan.is_word (seen c) = false ->
  let text := bytes (text_of ls) ++ bytes w ++ c :: rest in
  parse value_read at_end zk0 i0 memory type text (length text) l = Some (PARSER_ERROR, l').
Proof.
  intros Hok He Hw Hl Hk Hc Hs text.
  assert (length ls < length text)%nat as Hlen.
  { unfold text. pose proof (text_length ls). rewrite !length_app. cbn [length]. lia. }
  destruct (loop_lines ls (S (S (length text) - length ls)) [] (bytes w ++ c :: rest) NoSy zk0 i0
    (mk_fields memory.(Type_) memory.(SubType) memory.(Level) memory.(Cs2Parse.Name) memory.(Value)) l l' Hok He) as (sy & z & f & E).
  destruct (loop_unknown (S (length text) - length ls) w c ([] ++ bytes (text_of ls)) rest sy z i0 f l') as [p E']; [done..|].
  fold text in E. rewrite E' in E. replace (length ls + S (S (length text) - length ls))%nat with (S (S (length text))) in E by lia.
  by rewrite (parse_starts _ _ _ _ E eq_refl).
Qed.

Lemma run_app l1 l2 st st1 : for_each l1 effect st = Some (tt, st1) -> for_each (l1 ++ l2) effect st = for_each l2 effect st1.
Proof. intros E. by rewrite for_each_app, bind_run, E. Qed.
Lemma run_line l ls st st1 : effect l st = Some (tt, st1) -> for_each (l :: ls) effect st = for_each ls effect st1.
Proof. intros E. cbn [for_each]. by rewrite bind_run, E. Qed.
End Loop.
Arguments run_app {vars value_read table} l1 l2 st st1 _.
Arguments run_line {vars value_read table} l ls st st1 _.

Lemma concat_text lss : fmt (map (fun ls => text_of ls) lss) = text_of (concat lss).
Proof. induction lss as [| ls lss IH]; [done |]. cbn [map concat fmt]. by rewrite IH, map_app, fmt_app. Qed.

(** A file that was written, and another one. *)
Lemma disk_written (files : disk) name text : <[name := text]> files !! name = Some text.
Proof. apply (lookup_insert_eq (M := gmap string)). Qed.
Lemma disk_other (files : disk) name name' text : name <> name' -> <[name := text]> files !! name' = files !! name'.
Proof. apply (lookup_insert_ne (M := gmap string)). Qed.

(** A text that has room where it is copied to. *)
Lemma room_run {S A} (v : string) (n : nat) (m : prog S A) st : (String.length v < n)%nat ->
  (do* guard (String.length v <? n)%nat in m) st = m st.
Proof. by intros ->%Nat.ltb_lt. Qed.

(** The last element of a list that is not empty. *)
Lemma last_any {A} (x : A) l d d' : List.last (x :: l) d = List.last (x :: l) d'.
Proof. revert x. induction l as [| y l IH]; intros x; [done | apply (IH y)]. Qed.

Lemma Forall_last_of {A} (P : A -> Prop) x l : Forall P (x :: l) -> P (List.last (x :: l) x).
Proof.
  intros H. destruct (@exists_last _ (x :: l) ltac:(done)) as (front & y & E). rewrite E in H |- *.
  rewrite List.last_last. by apply Forall_app in H as [_ [Hy _]%Forall_cons].
Qed.

(** * Keys that are near each other *)

(** No two of the numbers are so far apart that their difference is not an
    [int]. *)
Definition close (ks : list Z) : Prop := forall k k', k ∈ ks -> k' ∈ ks -> - 2 ^ 31 < k - k' < 2 ^ 31.
Definition keys {A} (db : gmap Z A) : list Z := (map_to_list db).*1.
Definition among {A} (ks : list Z) (db : gmap Z A) : Prop := map_Forall (fun k _ => k ∈ ks) db.

Section Near.
Context {A : Type} (ks : list Z) (Hks : close ks).
Implicit Types db : gmap Z A.

Lemma near_among k db : k ∈ ks -> among ks db -> near k db = true.
Proof using Hks. intros Hk Hdb. apply bool_decide_eq_true. intros k' a Ha. apply Hks; [done | by eapply Hdb]. Qed.
Lemma among_empty : among ks (∅ : gmap Z A).
Proof. apply map_Forall_empty. Qed.
Lemma among_set k a db : k ∈ ks -> among ks db -> among ks (<[k := a]> db).
Proof. intros. by apply map_Forall_insert_2. Qed.
Lemma among_del k db : among ks db -> among ks (delete k db).
Proof. apply map_Forall_delete. Qed.
Lemma map_set_run k a db : k ∈ ks -> among ks db -> map_set k a db = Some (<[k := a]> db).
Proof using Hks. intros. unfold map_set. by rewrite near_among. Qed.
Lemma map_get_run k db : k ∈ ks -> among ks db -> map_get k db = Some (db !! k).
Proof using Hks. intros. unfold map_get. by rewrite near_among. Qed.
Lemma map_del_run k db : k ∈ ks -> among ks db -> map_del k db = Some (delete k db).
Proof using Hks. intros. unfold map_del. by rewrite near_among. Qed.
Lemma walk_ids_run db : among ks db -> walk_ids db = Some (by_number db).
Proof using Hks.
  intros H. unfold walk_ids. replace (in_order db) with true; [done |]. symmetry. apply bool_decide_eq_true.
  intros k a Ha. apply near_among; [by eapply H | done].
Qed.
End Near.
Lemma among_keys {A} (db : gmap Z A) : among (keys db) db.
Proof. intros k a H. unfold keys. apply list_elem_of_fmap. exists (k, a). by rewrite elem_of_map_to_list. Qed.
Lemma near_empty {A} k : near k (∅ : gmap Z A) = true.
Proof. apply bool_decide_eq_true, map_Forall_empty. Qed.

(** * Tables with a number as key *)

Section Tables.
Context {A : Type} (key : A -> Z) (dropped : A -> bool).
Definition keyed (db : gmap Z A) : Prop := map_Forall (fun k a => key a = k) db.
Definition put (m : gmap Z A) (a : A) : gmap Z A := if dropped a then delete (key a) m else <[key a := a]> m.

Lemma put_all ls m : NoDup (map key ls) -> (forall a, a ∈ ls -> m !! key a = None) ->
  foldl put m ls = list_to_map (map (fun a => (key a, a)) (filter (fun a => dropped a = false) ls)) ∪ m.
Proof.
  revert m. induction ls as [| a ls IH]; intros m Hnd Hnew; [symmetry; apply (left_id_L ∅ (∪)) |].
  cbn [map] in Hnd. apply NoDup_cons in Hnd as [Ha Hnd]. cbn [foldl]. unfold put at 2.
  pose proof (Hnew a ltac:(left)) as Ha'. destruct (dropped a) eqn:D.
  - rewrite filter_cons_False by congruence. rewrite delete_id by done. apply IH; [done |]. intros b Hb. apply Hnew. by right.
  - rewrite filter_cons_True by done. cbn [map list_to_map foldr]. rewrite <- insert_union_l, insert_union_r.
    + apply IH; [done |]. intros b Hb. rewrite lookup_insert_ne; [apply Hnew; by right |].
      intros E. change (key a = key b) in E. apply Ha. rewrite E. by apply list_elem_of_fmap_2.
    + apply not_elem_of_list_to_map_1. change (map ?f ?l) with (f <$> l). rewrite <- list_fmap_compose. intros (b & E & Hb)%list_elem_of_fmap.
      apply list_elem_of_filter in Hb as [_ Hb]. apply Ha. change (key a = key b) in E. rewrite E. by apply list_elem_of_fmap_2.
Qed.

Context (db : gmap Z A) (Hkeyed : keyed db).
Lemma by_number_in a : a ∈ by_number db <-> db !! key a = Some a.
Proof.
  unfold by_number. rewrite list_elem_of_fmap. setoid_rewrite merge_sort_Permutation. split.
  - intros ([k b] & -> & H%elem_of_map_to_list). cbn. by rewrite (Hkeyed k b H).
  - intros H. exists (key a, a). by rewrite elem_of_map_to_list.
Qed.
Lemma by_number_keys : NoDup (map key (by_number db)).
Proof.
  assert (map key (by_number db) ≡ₚ (map_to_list db).*1) as ->; [| apply NoDup_fst_map_to_list].
  unfold by_number. rewrite merge_sort_Permutation. change (map key) with (fmap (M := list) key). rewrite <- list_fmap_compose.
  match goal with |- ?a ≡ₚ ?b => assert (a = b) as ->; [| done] end. apply list_fmap_ext.
  intros i [k l] H%list_elem_of_lookup_2. by apply elem_of_map_to_list, Hkeyed in H.
Qed.
Lemma by_number_keyed a : a ∈ by_number db -> key a ∈ keys db.
Proof.
  intros H%by_number_in. unfold keys. apply list_elem_of_fmap. exists (key a, a). by rewrite elem_of_map_to_list.
Qed.
Lemma by_number_length : length (by_number db) = size db.
Proof. unfold by_number. rewrite length_fmap, merge_sort_Permutation. apply length_map_to_list. Qed.
Lemma by_number_nil : by_number db = [] <-> db = ∅.
Proof. rewrite <- length_zero_iff_nil, by_number_length. apply map_size_empty_iff. Qed.
(** What is put into an empty table in the order of a walk is the table. *)
Lemma put_walk (g : A -> A) : (forall a, key (g a) = key a) ->
  foldl put ∅ (map g (by_number db)) = filter (fun e => dropped e.2 = false) (g <$> db).
Proof.
  intros Hg. assert (NoDup (map key (map g (by_number db)))) as Hnd.
  { rewrite map_map. erewrite map_ext; [apply by_number_keys | done]. }
  rewrite put_all by (done || (intros; apply lookup_empty)). rewrite (right_id_L ∅ (∪)).
  apply map_eq. intros k. apply option_eq. intros b. rewrite <- elem_of_list_to_map.
  - change (map ?f ?l) with (f <$> l). rewrite map_lookup_filter_Some, lookup_fmap_Some, list_elem_of_fmap.
    setoid_rewrite list_elem_of_filter. setoid_rewrite list_elem_of_fmap. setoid_rewrite by_number_in. cbn. split.
    + intros (b' & [= -> ->] & Hd & a & -> & Ha). split; [| done]. exists a. by rewrite Hg.
    + intros ((a & <- & Ha) & Hd). exists (g a). pose proof (Hkeyed _ _ Ha) as <-. rewrite Hg. split; [done |]. split; [done |]. by exists a.
  - change (map ?f ?l) with (f <$> l). rewrite <- list_fmap_compose. eapply sublist_NoDup; [exact Hnd |].
    apply fmap_sublist, sublist_filter.
Qed.
End Tables.

(** * Numbers *)

Definition is_int (z : Z) : Prop := - 2 ^ 31 <= z < 2 ^ 31.
Definition is_ulong (z : Z) : Prop := 0 <= z < 2 ^ 64.

Lemma read_dec z : is_int z -> i32 (strtoul (dec z)) = z.
Proof. intros H. rewrite strtoul_dec. by apply int_ulong. Qed.
Lemma read_hex z : is_int z -> i32 (strtoul ("0x" +:+ hex (u32 z))) = z.
Proof.
  intros H. rewrite strtoul_hex by (pose proof (Z.mod_pos_bound z (2 ^ 32) eq_refl); unfold wrap; lia). by apply int_of_u32.
Qed.

(** * Lines the parser knows *)

Lemma plain_above a : 45 <= ch a -> is_plain a = true.
Proof.
  intros H. unfold is_plain. rewrite !andb_true_iff, !negb_true_iff, !Ascii.eqb_neq.
  split_and!; intros ->; cbn in H; by apply H.
Qed.
Lemma dec_ok z : is_int z -> value_ok (dec z).
Proof.
  intros H. split.
  - apply Forall_forall. intros a Ha%numeral_dec. apply plain_above. unfold numeral in Ha. apply orb_true_iff in Ha as [Ha | Ha]; bool_hyps; lia.
  - pose proof (dec_length z H). unfold SCAN_BLOCK_LAENGE. lia.
Qed.
Lemma hex_ok n : value_ok ("0x" +:+ hex n).
Proof.
  split.
  - rewrite bytes_app. apply Forall_app. split; [by repeat constructor |].
    eapply Forall_impl; [by apply hex_digits_chars |]. intros a Ha. apply plain_above. unfold is_hex in Ha.
    apply orb_true_iff in Ha as [Ha | Ha]; bool_hyps; lia.
  - pose proof (hex_digits_length 16 n ""). change (String.length ("0x" +:+ hex n)) with (2 + String.length (hex n))%nat.
    unfold hex, SCAN_BLOCK_LAENGE in *. cbn [String.length] in *. lia.
Qed.

Section Words.
Context (table : list (string * Z)).
(** A word of the table that has a value. *)
Definition known (w : string) : bool :=
  match w with String a t => isalpha a && forallb is_word (bytes t) | EmptyString => false end &&
  (String.length w <? 20)%nat && (if entry (keyword w table) value_tokens is Some _ then true else false).
Lemma known_ok w : known w = true ->
  is_name w /\ (String.length w < 20)%nat /\ is_Some (entry (keyword w table) value_tokens).
Proof.
  unfold known. rewrite !andb_true_iff. intros [[H1 H2] H3]. split_and!.
  - destruct w as [| a t]; [done |]. apply andb_true_iff in H1 as [Ha Ht]. split; [done |].
    by apply List.Forall_forall, List.forallb_forall.
  - by apply Nat.ltb_lt.
  - by destruct (entry _ _).
Qed.
Lemma entry_ok level w v : known w = true -> value_ok v -> line_ok table (Entry level w v).
Proof. intros (H1 & H2 & H3)%known_ok Hv. done. Qed.
Lemma title_ok level w : known w = true -> line_ok table (Title level w).
Proof. by intros (H1 & H2 & H3)%known_ok. Qed.
End Words.
Ltac lines_ok := repeat first
  [ apply Forall_nil_2 | apply Forall_cons_2 | apply title_ok; reflexivity
  | apply entry_ok; [reflexivity | first [apply hex_ok | apply dec_ok; first [assumption | done] | assumption]] ].
End ConfigSpec.
