(* ===== verification/MrLok.v ===== *)
(** The locomotives of the control centre of mrsystem
    (src/mrsystem/src/client_zentrale/lok.c): the table of locomotives, the file
    lokomotive.cs2 it is loaded from and saved to.

    [LokSpec]: what is saved is what is
    loaded, and what a file does that the parser does not understand. *)

From stdpp Require Import sorting.
From S2P Require Import Prelude World Messages Text MrCs2 MrIpc MrNumber MrScan MrCs2Parse MrCs2Spec MrConfig.

Module Lok.
Import Number Cs2Parse Config.
Import MrIpc(switch).

(** * Data *)

Definition LOK_NUM_FUNCTIONS : Z := 32.
Record LokFktTyp := mk_fkt { FktTyp : Z; FktDauer : Z; FktWert : Z }.
#[export] Instance eta_fkt : Settable LokFktTyp := fun f => mk_fkt f.(FktTyp) f.(FktDauer) f.(FktWert).
Record LokInfo := mk_lok {
  IsDeleted : bool;
  Uid : Z;
  Name : string;
  Adresse : Z;
  Typ : string;
  MfxUid : Z;
  Symbol : Z;
  Av : Z;
  Bv : Z;
  Volume : Z;
  Velocity : Z;
  Richtung : Z;
  Vmax : Z;
  Vmin : Z;
  Fkt : list LokFktTyp }.
#[export] Instance eta_lok : Settable LokInfo := fun l =>
  mk_lok l.(IsDeleted) l.(Uid) l.(Name) l.(Adresse) l.(Typ) l.(MfxUid) l.(Symbol) l.(Av) l.(Bv)
    l.(Volume) l.(Velocity) l.(Richtung) l.(Vmax) l.(Vmin) l.(Fkt).

(** [LokStruct].  [LokDb] is a map whose keys are the names in its data, compared
    by [strcmp]; a pointer to a locomotive of it is its name. *)
Record LokStruct := mk_loks {
  LocFilePath : option string;
  NumLoks : Z;
  NumLokFkts : Z;
  IsChanged : bool;
  LokDb : gmap string LokInfo }.
#[export] Instance eta_loks : Settable LokStruct := fun d =>
  mk_loks d.(LocFilePath) d.(NumLoks) d.(NumLokFkts) d.(IsChanged) d.(LokDb).

Fixpoint strcmp (a b : string) : Z :=
  match a, b with
  | EmptyString, EmptyString => 0
  | EmptyString, String y _ => - ch y
  | String x _, EmptyString => ch x
  | String x a, String y b => if ch x =? ch y then strcmp a b else ch x - ch y
  end.
Definition before_eq (e f : string * LokInfo) : Prop := strcmp e.1 f.1 <= 0.
#[export] Instance before_eq_dec : RelDecision before_eq.
Proof. intros e f. unfold before_eq. apply _. Defined.
(** The locomotives in the order in which [MapWalkAscend] visits them. *)
Definition walk (db : gmap string LokInfo) : list LokInfo := (merge_sort before_eq (map_to_list db)).*2.

(** * The table *)

(** [LokCreate], [LokInit] and [LokClear]; what [LokCreate] leaves unset is
    [memory]'s. *)
Definition LokCreate (memory : LokStruct) : LokStruct :=
  memory <| LocFilePath := Some "/var/www/config/" |> <| NumLoks := 0 |> <| LokDb := ∅ |>.
Definition LokInit (Data : LokStruct) (LocPath : option string) (NumLokFkts_ : Z) : LokStruct :=
  Data <| LocFilePath := LocPath |> <| NumLoks := 0 |> <| NumLokFkts := NumLokFkts_ |> <| IsChanged := false |>.
Definition LokClear (Data : LokStruct) : LokStruct :=
  Data <| NumLoks := 0 |> <| IsChanged := false |> <| LokDb := ∅ |>.

Definition LokInfoInit : LokInfo :=
  mk_lok false 0 "" 0 "" 0 0 0 0 0 0 0 0 0 (replicate (Z.to_nat LOK_NUM_FUNCTIONS) (mk_fkt 0 0 0)).

(** [LokIsEqual], which does not look at the functions. *)
Definition LokIsEqual (a b : LokInfo) : bool :=
  (a.(Uid) =? b.(Uid)) && String.eqb a.(Name) b.(Name) && (a.(Adresse) =? b.(Adresse)) &&
  String.eqb a.(Typ) b.(Typ) && (a.(MfxUid) =? b.(MfxUid)) && (a.(Symbol) =? b.(Symbol)) &&
  (a.(Av) =? b.(Av)) && (a.(Bv) =? b.(Bv)) && (a.(Volume) =? b.(Volume)) && (a.(Velocity) =? b.(Velocity)) &&
  (a.(Richtung) =? b.(Richtung)) && (a.(Vmax) =? b.(Vmax)) && (a.(Vmin) =? b.(Vmin)).

Definition LokInsert (Data : LokStruct) (Lok : LokInfo) : LokStruct :=
  if negb (String.eqb Lok.(Name) "") then
    match Data.(LokDb) !! Lok.(Name) with
    | Some OldLok =>
        let d := if negb (LokIsEqual OldLok Lok)
                 then Data <| IsChanged := true |> <| LokDb ::= <[Lok.(Name) := Lok]> |> else Data in
        d <| LokDb ::= alter (fun l => l <| IsDeleted := false |>) Lok.(Name) |>
    | None =>
        Data <| IsChanged := true |> <| LokDb ::= <[Lok.(Name) := Lok <| IsDeleted := false |>]> |>
          <| NumLoks ::= Z.succ |>
    end
  else Data.

(** The last locomotive with an address, by its name. *)
Definition LokSearch (Data : LokStruct) (Addr : Z) : option string :=
  foldl (fun r l => if Addr =? l.(Uid) then Some l.(Name) else r) None (walk Data.(LokDb)).

Definition LokMarkAllDeleted (Data : LokStruct) : LokStruct :=
  Data <| LokDb ::= fmap (fun l => l <| IsDeleted := true |>) |> <| NumLoks := 0 |>.
Definition LokMarkDeleted (Data : LokStruct) (Name_ : string) : LokStruct :=
  match Data.(LokDb) !! Name_ with
  | Some _ => Data <| LokDb ::= alter (fun l => l <| IsDeleted := true |>) Name_ |> <| NumLoks ::= Z.pred |>
  | None => Data
  end.
Definition LokMarkAllUndeleted (Data : LokStruct) : LokStruct :=
  Data <| LokDb ::= fmap (fun l => l <| IsDeleted := false |>) |> <| NumLoks := Z.of_nat (size Data.(LokDb)) |>.

(** The last deleted locomotive of a walk. *)
Definition SearchDeleted (Data : LokStruct) : option string :=
  foldl (fun r l => if l.(IsDeleted) then Some l.(Name) else r) None (walk Data.(LokDb)).
Definition LokHaveDeleted (Data : LokStruct) : bool := if SearchDeleted Data is Some _ then true else false.
Fixpoint purge (fuel : nat) (Data : LokStruct) : option LokStruct :=
  match fuel with
  | O => None
  | S fuel =>
      match SearchDeleted Data with
      | Some Name_ => purge fuel (Data <| LokDb ::= delete Name_ |>)
      | None => Some Data
      end
  end.
Definition PurgeDeletedLoks (Data : LokStruct) : option LokStruct := purge (S (size Data.(LokDb))) Data.

(** * Reading the file *)

(** The table and the variables of [LokParseLokomotiveCs2], beside the parser. *)
Record loading := mk_loading {
  Data : LokStruct;
  NewLok : LokInfo;
  FktIndex : Z;
  NumRead : Z }.
#[export] Instance eta_loading : Settable loading := fun l =>
  mk_loading l.(Data) l.(NewLok) l.(FktIndex) l.(NumRead).
Definition set_lok (f : LokInfo -> LokInfo) : prog loading unit := modify (fun l => l <| NewLok ::= f |>).
(** A field of the function [FktIndex]: the code only asks whether it is too
    large. *)
Definition set_fkt (f : LokFktTyp -> LokFktTyp) : prog loading unit :=
  let* i := gets FktIndex in
  if i <? LOK_NUM_FUNCTIONS then
    do* guard (0 <=? i) in
    set_lok (fun l => l <| Fkt ::= alter f (Z.to_nat i) |>)
  else ret tt.
Definition insert_read : prog loading unit := modify (fun l => l <| Data ::= fun d => LokInsert d l.(NewLok) |>).

(** The cases of [PARSER_VALUE] for the value [v] at a level; those left out do
    nothing. *)
Definition value_read (sub level : Z) (v : string) : prog loading unit :=
  let n := strtoul v in
  switch sub [
    (PARSER_VALUE_LOKOMOTIVE,
      let* k := gets NumRead in
      do* (if negb (k =? 0) then insert_read else ret tt) in
      modify (fun l => l <| NumRead ::= Z.succ |> <| FktIndex := -1 |> <| NewLok := LokInfoInit |>));
    (PARSER_VALUE_UID, set_lok (fun l => l <| Uid := n |>));
    (PARSER_VALUE_NAME, do* guard (String.length v <? 17)%nat in set_lok (fun l => l <| Name := v |>));
    (PARSER_VALUE_ADRESSE, set_lok (fun l => l <| Adresse := i32 n |>));
    (PARSER_VALUE_TYP,
      if level =? 1 then do* guard (String.length v <? 20)%nat in set_lok (fun l => l <| Typ := v |>)
      else if level =? 2 then set_fkt (fun f => f <| FktTyp := i32 n |>)
      else ret tt);
    (PARSER_VALUE_MFXUID, set_lok (fun l => l <| MfxUid := n |>));
    (PARSER_VALUE_SYMBOL, set_lok (fun l => l <| Symbol := i32 n |>));
    (PARSER_VALUE_AV, set_lok (fun l => l <| Av := i32 n |>));
    (PARSER_VALUE_BV, set_lok (fun l => l <| Bv := i32 n |>));
    (PARSER_VALUE_VOLUME, set_lok (fun l => l <| Volume := i32 n |>));
    (PARSER_VALUE_VELOCITY, set_lok (fun l => l <| Velocity := i32 n |>));
    (PARSER_VALUE_RICHTUNG, set_lok (fun l => l <| Richtung := i32 n |>));
    (PARSER_VALUE_VMAX, set_lok (fun l => l <| Vmax := i32 n |>));
    (PARSER_VALUE_VMIN, set_lok (fun l => l <| Vmin := i32 n |>));
    (PARSER_VALUE_FUNKTIONEN, modify (fun l => l <| FktIndex ::= Z.succ |>));
    (PARSER_VALUE_DAUER, set_fkt (fun f => f <| FktDauer := i32 n |>));
    (PARSER_VALUE_WERT, set_fkt (fun f => f <| FktWert := i32 n |>))]
  (ret tt).

Section Files.
(** The parser before anything is set in it. *)
Context (zk0 : string) (i0 : Z) (memory : cs2parser).

Definition LokParseLokomotiveCs2 (Buf : list ascii) (Len : nat) (d : LokStruct) : option (bool * LokStruct) :=
  '(LineInfo, l) ← parse value_read insert_read zk0 i0 memory PARSER_TYPE_LOK_CS2 Buf Len (mk_loading d LokInfoInit 0 0);
  Some (LineInfo =? PARSER_EOF, l.(Data)).

Definition CS2_FILE_STRING_LOKOMOTIVE : string := "lokomotive.cs2".
Definition LokLoadLokomotiveCs2 (may_open : string -> bool) (files : disk) (d : LokStruct) : option LokStruct :=
  match d.(LocFilePath) with
  | None => Some d
  | Some path =>
      name ← file_name path CS2_FILE_STRING_LOKOMOTIVE;
      match files !! name with
      | Some content =>
          if (0 <? length content)%nat && may_open name then
            '(ok, d) ← LokParseLokomotiveCs2 content (length content) d;
            Some ((if negb ok then LokClear d else d) <| IsChanged := false |>)
          else Some d
      | None => Some d
      end
  end.

(** * Writing the file *)

(** [WriteLokOfLokomotiveCs2] for function [i]. *)
Definition write_fkt (i : Z) (f : LokFktTyp) : string :=
  let part (name : string) (v : Z) := if negb (v =? 0) then Cs2WriteIntValueByName name v 2 else "" in
  fmt [Cs2WriteTitleByName "funktionen" 1;
       Cs2WriteIntValueByName "nr" i 2;
       part "typ" f.(FktTyp); part "dauer" f.(FktDauer); part "wert" f.(FktWert);
       if negb (f.(FktTyp) =? 0) && negb (f.(FktDauer) =? 0) && negb (f.(FktWert) =? 0)
       then Cs2WriteHexValueByName "vorwaerts" 0 2 +:+ Cs2WriteHexValueByName "rueckwaerts" 0 2 else ""].
Definition WriteLokOfLokomotiveCs2 (NumFkts : Z) (Lok : LokInfo) : option string :=
  if Lok.(IsDeleted) then Some ""
  else
    fkts ← mapM (fun i => f ← Lok.(Fkt) !! Z.to_nat i; Some (write_fkt i f)) (range 0 (NumFkts - 1));
    Some (fmt [
      Cs2WriteTitleByName "lokomotive" 0;
      Cs2WriteStringValueByName "name" Lok.(Name) 1;
      Cs2WriteULongValueByName "uid" Lok.(Uid) 1;
      Cs2WriteHexValueByName "adresse" Lok.(Adresse) 1;
      Cs2WriteStringValueByName "typ" Lok.(Typ) 1;
      Cs2WriteHexValueByName "sid" 1 1;
      Cs2WriteULongValueByName "mfxuid" Lok.(MfxUid) 1;
      Cs2WriteStringValueByName "icon" Lok.(Name) 1;
      Cs2WriteIntValueByName "symbol" Lok.(Symbol) 1;
      Cs2WriteIntValueByName "av" Lok.(Av) 1;
      Cs2WriteIntValueByName "bv" Lok.(Bv) 1;
      Cs2WriteIntValueByName "volume" Lok.(Volume) 1;
      Cs2WriteIntValueByName "velocity" Lok.(Velocity) 1;
      Cs2WriteIntValueByName "richtung" Lok.(Richtung) 1;
      Cs2WriteIntValueByName "tachomax" 320 1;
      Cs2WriteIntValueByName "vmax" Lok.(Vmax) 1;
      Cs2WriteIntValueByName "vmin" Lok.(Vmin) 1;
      Cs2WriteIntValueByName "xprotokoll" 0 1;
      Cs2WriteIntValueByName "mfxtyp" 0 1;
      Cs2WriteHexValueByName "stand" 0 1;
      Cs2WriteHexValueByName "fahrt" 0 1;
      fmt fkts;
      Cs2WriteHexLongValueByName "inTraktion" 0xffffffff 1]).

Definition lok_file (d : LokStruct) : option string :=
  heading ← Cs2WriteParagraphByType CS2_PARAGRAPH_TYPE_LOKOMOTIVE;
  loks ← mapM (WriteLokOfLokomotiveCs2 d.(NumLokFkts)) (walk d.(LokDb));
  Some (fmt [heading;
    Cs2WriteTitleByName "version" 0;
    Cs2WriteIntValueByName "major" 0 1;
    Cs2WriteIntValueByName "minor" 1 1;
    Cs2WriteTitleByName "session" 0;
    Cs2WriteIntValueByName "id" 1 1;
    fmt loks]).
Definition LokSaveLokomotiveCs2 (may_open : string -> bool) (files : disk) (d : LokStruct) : option (disk * LokStruct) :=
  if d.(IsChanged) || LokHaveDeleted d then
    match d.(LocFilePath) with
    | None => Some (files, d)
    | Some path =>
        name ← file_name path CS2_FILE_STRING_LOKOMOTIVE;
        if may_open name then
          text ← lok_file d;
          d ← PurgeDeletedLoks d;
          Some (<[name := String.list_ascii_of_string text]> files, d <| IsChanged := false |>)
        else Some (files, d)
    end
  else Some (files, d).
End Files.
End Lok.

Module LokSpec.
Import Number Scan Cs2Parse Cs2Spec Config ConfigSpec Lok.

Abbreviation table := LokCs2Keywords.
Abbreviation effect := (ConfigSpec.effect value_read table).

(** * What the lines of a locomotive do *)

Definition zero : LokFktTyp := mk_fkt 0 0 0.

(** ** A function *)

Definition fkt_lines (i : Z) (f : LokFktTyp) : list line :=
  let part (name : string) (v : Z) := if negb (v =? 0) then [Entry 2 name (dec v)] else [] in
  [Title 1 "funktionen"; Entry 2 "nr" (dec i)] ++ part "typ" f.(FktTyp) ++ part "dauer" f.(FktDauer) ++ part "wert" f.(FktWert) ++
  (if negb (f.(FktTyp) =? 0) && negb (f.(FktDauer) =? 0) && negb (f.(FktWert) =? 0)
   then [Entry 2 "vorwaerts" ("0x" +:+ hex (u32 0)); Entry 2 "rueckwaerts" ("0x" +:+ hex (u32 0))] else []).
Lemma write_fkt_lines i f : write_fkt i f = text_of (fkt_lines i f).
Proof.
  unfold write_fkt, fkt_lines. rewrite !map_app, !fmt_app. unfold Cs2WriteIntValueByName, Cs2WriteHexValueByName.
  destruct (FktTyp f =? 0), (FktDauer f =? 0), (FktWert f =? 0);
    cbn [negb andb map fmt line_text]; change (Z.of_nat 1) with 1; change (Z.of_nat 2) with 2; rewrite <- ?append_nil; done.
Qed.
Definition fkt_ok (f : LokFktTyp) : Prop := is_int f.(FktTyp) /\ is_int f.(FktDauer) /\ is_int f.(FktWert).

(** The functions while the one at [i] is read: those before it, what is known of
    it, and the others as they were. *)
Definition mid (i : nat) (fs : list LokFktTyp) (f : LokFktTyp) : list LokFktTyp := take i fs ++ f :: replicate (31 - i) zero.
Definition filled (i : nat) (fs : list LokFktTyp) : list LokFktTyp := take i fs ++ replicate (32 - i) zero.
Lemma filled_mid i fs : (i < 32)%nat -> filled i fs = mid i fs zero.
Proof. intros H. unfold filled, mid. by replace (32 - i)%nat with (S (31 - i)) by lia. Qed.
Lemma filled_next i fs f : fs !! i = Some f -> filled (S i) fs = mid i fs f.
Proof. intros H. unfold filled, mid. rewrite (take_S_r _ _ _ H), <- app_assoc. by replace (32 - S i)%nat with (31 - i)%nat by lia. Qed.
Lemma alter_mid g i fs f : (i <= length fs)%nat -> alter g i (mid i fs f) = mid i fs (g f).
Proof.
  intros H. unfold mid. rewrite alter_app_r_alt by (rewrite length_take; lia). by rewrite length_take_le, Nat.sub_diag.
Qed.

Section Functions.
Context (d : LokStruct) (l : LokInfo) (fs : list LokFktTyp) (k : Z) (Hfs : length fs = 32%nat).
Definition reading (i : Z) (new : list LokFktTyp) : loading := mk_loading d (l <| Fkt := new |>) i k.

Lemma lok_part_run name (set : Z -> LokFktTyp -> LokFktTyp) v i f f' :
  (forall st, effect (Entry 2 name (dec v)) st = set_fkt (set (i32 (strtoul (dec v)))) st) ->
  is_int v -> (i < 32)%nat -> set v f = f' -> (v = 0 -> f = f') ->
  for_each (if negb (v =? 0) then [Entry 2 name (dec v)] else []) effect (reading (Z.of_nat i) (mid i fs f)) =
    Some (tt, reading (Z.of_nat i) (mid i fs f')).
Proof.
  intros He Hv Hi Hf H0. destruct (Z.eqb_spec v 0) as [Hz | _]; [by rewrite H0 by done |]. cbn [negb for_each].
  rewrite bind_run, He, read_dec by done. unfold set_fkt. rewrite bind_gets. cbn [reading FktIndex]. unfold LOK_NUM_FUNCTIONS.
  replace (Z.of_nat i <? 32) with true by zbool. replace (0 <=? Z.of_nat i) with true by zbool. unfold guard.
  rewrite bind_ret, Nat2Z.id. cbn -[mid alter]. rewrite alter_mid, Hf by lia. done.
Qed.
Lemma fkt_run i f : fs !! i = Some f -> fkt_ok f ->
  for_each (fkt_lines (Z.of_nat i) f) effect (reading (Z.of_nat i - 1) (filled i fs)) =
    Some (tt, reading (Z.of_nat i) (filled (S i) fs)).
Proof.
  intros Hf (H1 & H2 & H3). assert (Hi : (i < 32)%nat) by (rewrite <- Hfs; by eapply lookup_lt_Some).
  rewrite filled_mid, (filled_next _ _ _ Hf) by done. destruct f as [t du w]. unfold fkt_lines. cbn [FktTyp FktDauer FktWert] in *.
  rewrite (run_app _ _ _ (reading (Z.of_nat i) (mid i fs zero))).
  2: { cbn -[mid]. by replace (Z.succ (Z.of_nat i - 1)) with (Z.of_nat i) by lia. }
  rewrite (run_app _ _ _ _ (lok_part_run "typ" (fun v f => f <| FktTyp := v |>) t i zero (mk_fkt t 0 0)
    ltac:(done) H1 Hi ltac:(done) ltac:(by intros ->))).
  rewrite (run_app _ _ _ _ (lok_part_run "dauer" (fun v f => f <| FktDauer := v |>) du i (mk_fkt t 0 0) (mk_fkt t du 0)
    ltac:(done) H2 Hi ltac:(done) ltac:(by intros ->))).
  rewrite (run_app _ _ _ _ (lok_part_run "wert" (fun v f => f <| FktWert := v |>) w i (mk_fkt t du 0) (mk_fkt t du w)
    ltac:(done) H3 Hi ltac:(done) ltac:(by intros ->))).
  by destruct (_ && _).
Qed.
Definition numbered (n : nat) : list line :=
  concat (imap (fun i f => fkt_lines (Z.of_nat i) f) (take n fs)).
Lemma fkts_run n : (n <= 32)%nat -> Forall fkt_ok fs ->
  for_each (numbered n) effect (reading (-1) (filled 0 fs)) = Some (tt, reading (Z.of_nat n - 1) (filled n fs)).
Proof.
  intros Hn Hok. induction n as [| n IH]; [done |].
  destruct (lookup_lt_is_Some_2 fs n ltac:(lia)) as [f Hf]. unfold numbered. rewrite (take_S_r _ _ _ Hf), imap_app, concat_app.
  rewrite (run_app _ _ _ _ (IH ltac:(lia))), length_take_le by lia. change (imap _ [f]) with [fkt_lines (Z.of_nat (n + 0)) f].
  cbn [concat]. rewrite Nat.add_0_r, app_nil_r. rewrite fkt_run; [| done | by eapply Forall_lookup_1]. do 3 f_equal. lia.
Qed.
End Functions.

(** ** A locomotive *)

Definition head_lines (l : LokInfo) : list line := [
  Title 0 "lokomotive";
  Entry 1 "name" l.(Name);
  Entry 1 "uid" ("0x" +:+ hex l.(Uid));
  Entry 1 "adresse" ("0x" +:+ hex (u32 l.(Adresse)));
  Entry 1 "typ" l.(Typ);
  Entry 1 "sid" ("0x" +:+ hex (u32 1));
  Entry 1 "mfxuid" ("0x" +:+ hex l.(MfxUid));
  Entry 1 "icon" l.(Name);
  Entry 1 "symbol" (dec l.(Symbol));
  Entry 1 "av" (dec l.(Av));
  Entry 1 "bv" (dec l.(Bv));
  Entry 1 "volume" (dec l.(Volume));
  Entry 1 "velocity" (dec l.(Velocity));
  Entry 1 "richtung" (dec l.(Richtung));
  Entry 1 "tachomax" (dec 320);
  Entry 1 "vmax" (dec l.(Vmax));
  Entry 1 "vmin" (dec l.(Vmin));
  Entry 1 "xprotokoll" (dec 0);
  Entry 1 "mfxtyp" (dec 0);
  Entry 1 "stand" ("0x" +:+ hex (u32 0));
  Entry 1 "fahrt" ("0x" +:+ hex (u32 0))].
Definition tail_lines : list line := [Entry 1 "inTraktion" ("0x" +:+ hex 0xffffffff)].
Definition lok_lines (n : nat) (l : LokInfo) : list line := head_lines l ++ numbered l.(Fkt) n ++ tail_lines.

(** A locomotive that fits into its record and whose texts fit on a line. *)
Record lok_ok (l : LokInfo) : Prop := {
  ok_name : l.(Name) <> "" /\ value_ok l.(Name) /\ (String.length l.(Name) < 17)%nat;
  ok_typ : value_ok l.(Typ) /\ (String.length l.(Typ) < 20)%nat;
  ok_uid : is_ulong l.(Uid) /\ is_ulong l.(MfxUid);
  ok_ints : Forall is_int [l.(Adresse); l.(Symbol); l.(Av); l.(Bv); l.(Volume); l.(Velocity); l.(Richtung); l.(Vmax); l.(Vmin)];
  ok_fkts : length l.(Fkt) = 32%nat /\ Forall fkt_ok l.(Fkt) }.

Lemma numbered_text n fs : (n <= length fs)%nat ->
  mapM (fun i => f ← fs !! Z.to_nat i; Some (write_fkt i f)) (range 0 (Z.of_nat n - 1)) =
    Some (imap (fun i f => write_fkt (Z.of_nat i) f) (take n fs)).
Proof.
  intros Hn. apply mapM_Some, Forall2_same_length_lookup. rewrite length_imap, length_take_le by done.
  unfold range. rewrite length_seqZ. split; [lia |].
  intros i z t [Hz Hi]%lookup_seqZ Ht. apply list_lookup_imap_Some in Ht as (f & Hf & ->).
  apply lookup_take_Some in Hf as [Hf _]. subst z. by rewrite Z.add_0_l, Nat2Z.id, Hf.
Qed.
Lemma write_lok n l : (n <= 32)%nat -> lok_ok l -> l.(IsDeleted) = false ->
  WriteLokOfLokomotiveCs2 (Z.of_nat n) l = Some (text_of (lok_lines n l)).
Proof.
  intros Hn [_ _ _ _ [Hl _]] Hd. unfold WriteLokOfLokomotiveCs2. rewrite Hd, numbered_text by lia. cbn [mbind option_bind].
  assert (fmt (imap (fun i f => write_fkt (Z.of_nat i) f) (take n (Fkt l))) = text_of (numbered (Fkt l) n)) as ->.
  { unfold numbered. rewrite <- concat_text. f_equal. symmetry.
    etrans; [apply fmap_imap |]. apply imap_ext. intros. symmetry. apply write_fkt_lines. }
  unfold lok_lines. rewrite !map_app, !fmt_app. unfold Cs2WriteIntValueByName, Cs2WriteHexValueByName, Cs2WriteULongValueByName, Cs2WriteHexLongValueByName.
  cbn [head_lines tail_lines map line_text fmt]. f_equal. rewrite <- !str_app_assoc. reflexivity.
Qed.
(** ** The lines are lines the parser knows *)

Lemma fkt_lines_ok i f : is_int i -> fkt_ok f -> Forall (line_ok table) (fkt_lines i f).
Proof.
  intros Hi (H1 & H2 & H3). unfold fkt_lines.
  rewrite !Forall_app. split_and!; [| destruct (_ =? _).. | destruct (_ && _)]; cbn [negb]; lines_ok.
Qed.
Lemma numbered_ok n fs : (n <= 32)%nat -> Forall fkt_ok fs -> Forall (line_ok table) (numbered fs n).
Proof.
  intros Hn Hfs. apply Forall_concat, Forall_lookup_2. intros i ls H. apply list_lookup_imap_Some in H as (f & [Hf Hi]%lookup_take_Some & ->).
  apply fkt_lines_ok; [unfold is_int; lia |]. by eapply Forall_lookup_1.
Qed.
Lemma lok_lines_ok n l : (n <= 32)%nat -> lok_ok l -> Forall (line_ok table) (lok_lines n l).
Proof.
  intros Hn [(_ & Hv & _) [Ht _] _ Hi [_ Hf]]. rewrite !Forall_cons in Hi. destruct Hi as (H1 & H2 & H3 & H4 & H5 & H6 & H7 & H8 & H9 & _).
  unfold lok_lines. rewrite !Forall_app. split_and!; [| by apply numbered_ok |]; lines_ok.
Qed.
(** ** A locomotive is read *)

(** What is left of a locomotive in the file: [n] functions. *)
Definition stored (n : nat) (l : LokInfo) : LokInfo := l <| IsDeleted := false |> <| Fkt := filled n l.(Fkt) |>.
Definition pending (st : loading) : LokStruct := if st.(NumRead) =? 0 then st.(Data) else LokInsert st.(Data) st.(NewLok).

Lemma run_name v ls st : (String.length v < 17)%nat ->
  for_each (Entry 1 "name" v :: ls) effect st = for_each ls effect (st <| NewLok ::= fun l => l <| Name := v |> |>).
Proof.
  intros Hv. apply run_line. transitivity ((do* guard (String.length v <? 17)%nat in set_lok (fun l => l <| Name := v |>)) st); [done |].
  by apply Nat.ltb_lt in Hv as ->.
Qed.
Lemma run_typ v ls st : (String.length v < 20)%nat ->
  for_each (Entry 1 "typ" v :: ls) effect st = for_each ls effect (st <| NewLok ::= fun l => l <| Typ := v |> |>).
Proof.
  intros Hv. apply run_line. transitivity ((do* guard (String.length v <? 20)%nat in set_lok (fun l => l <| Typ := v |>)) st); [done |].
  by apply Nat.ltb_lt in Hv as ->.
Qed.
Lemma run_start ls st : for_each (Title 0 "lokomotive" :: ls) effect st =
  for_each ls effect (mk_loading (pending st) LokInfoInit (-1) (Z.succ st.(NumRead))).
Proof. apply run_line. destruct st as [d l i k]. unfold pending. cbn. by destruct (k =? 0). Qed.

Lemma lok_head_run l st : lok_ok l ->
  for_each (head_lines l) effect st =
    Some (tt, reading (pending st) (stored 0 l) (Z.succ st.(NumRead)) (-1) (filled 0 l.(Fkt))).
Proof.
  intros [(_ & _ & Hn) [_ Ht] [Hu Hm] Hi _]. rewrite !Forall_cons in Hi. destruct Hi as (H1 & H2 & H3 & H4 & H5 & H6 & H7 & H8 & H9 & _).
  unfold head_lines. rewrite run_start, run_name by done.
  do 2 erewrite run_line by reflexivity. rewrite run_typ by done. do 16 (erewrite run_line by reflexivity).
  cbn [for_each]. unfold ret. do 2 f_equal. cbn -[strtoul hex dec stored filled]. unfold reading. f_equal.
  rewrite !read_dec, read_hex, !strtoul_hex by done. by destruct l.
Qed.
Lemma lok_run n l st : (n <= 32)%nat -> lok_ok l ->
  for_each (lok_lines n l) effect st = Some (tt, mk_loading (pending st) (stored n l) (Z.of_nat n - 1) (Z.succ st.(NumRead))).
Proof.
  intros Hn Hl. unfold lok_lines. rewrite (run_app _ _ _ _ (lok_head_run l st Hl)). destruct (ok_fkts _ Hl) as [Hf Hok].
  rewrite (run_app _ _ _ _ (fkts_run _ _ _ _ Hf n Hn Hok)). by destruct l.
Qed.
(** * What the file of a table is *)

Abbreviation kept ls := (filter (fun l : LokInfo => l.(IsDeleted) = false) ls).
Definition first_lines : list line := [
  Heading "lokomotive";
  Title 0 "version"; Entry 1 "major" (dec 0); Entry 1 "minor" (dec 1);
  Title 0 "session"; Entry 1 "id" (dec 1)].
Definition file_lines (n : nat) (ls : list LokInfo) : list line := first_lines ++ concat (map (lok_lines n) ls).

Lemma write_loks n ls : (n <= 32)%nat -> Forall lok_ok ls ->
  exists texts, mapM (WriteLokOfLokomotiveCs2 (Z.of_nat n)) ls = Some texts /\
    fmt texts = text_of (concat (map (lok_lines n) (kept ls))).
Proof.
  intros Hn. induction ls as [| l ls IH]; intros Hok; [by exists [] |].
  apply Forall_cons in Hok as [Hl Hok]. destruct (IH Hok) as (texts & E & Et). cbn [mapM]. rewrite E.
  destruct (l.(IsDeleted)) eqn:D.
  - rewrite filter_cons_False by (by rewrite D). exists ("" :: texts). unfold WriteLokOfLokomotiveCs2 at 1. by rewrite D.
  - rewrite filter_cons_True by done. exists (text_of (lok_lines n l) :: texts). rewrite write_lok by done. split; [done |].
    cbn [map concat fmt]. by rewrite map_app, fmt_app, Et.
Qed.
Lemma lok_file_text d n : d.(NumLokFkts) = Z.of_nat n -> (n <= 32)%nat -> Forall lok_ok (walk d.(LokDb)) ->
  lok_file d = Some (text_of (file_lines n (kept (walk d.(LokDb))))).
Proof.
  intros En Hn Hok. destruct (write_loks n _ Hn Hok) as (texts & E & Et). unfold lok_file. rewrite En, E. cbn [mbind option_bind].
  change (Cs2WriteParagraphByType CS2_PARAGRAPH_TYPE_LOKOMOTIVE) with (Some (Cs2WriteParagraphByName "lokomotive")).
  cbn [mbind option_bind]. unfold file_lines, Cs2WriteIntValueByName. rewrite map_app, fmt_app, <- Et. unfold first_lines.
  cbn [map line_text fmt]. f_equal. rewrite <- !str_app_assoc, <- append_nil. reflexivity.
Qed.
Lemma lok_file_lines_ok n ls : (n <= 32)%nat -> Forall lok_ok ls -> Forall (line_ok table) (file_lines n ls).
Proof.
  intros Hn Hok. unfold file_lines. apply Forall_app. split.
  - constructor; [by repeat constructor | lines_ok].
  - apply Forall_concat, Forall_map. eapply Forall_impl; [done |]. intros l. by apply lok_lines_ok.
Qed.

(** * What the lines of a file do *)

(** The table with what is read so far, before and after the last locomotive is
    inserted. *)
Definition read_so_far (st : loading) (d : LokStruct) : Prop :=
  0 <= st.(NumRead) /\ pending st = d /\ LokInsert st.(Data) st.(NewLok) = d.
Lemma loks_run n ls st d : (n <= 32)%nat -> Forall lok_ok ls -> read_so_far st d ->
  exists st', for_each (concat (map (lok_lines n) ls)) effect st = Some (tt, st') /\
    read_so_far st' (foldl LokInsert d (map (stored n) ls)).
Proof.
  intros Hn. revert st d. induction ls as [| l ls IH]; intros st d Hok Hr; [by exists st |].
  apply Forall_cons in Hok as [Hl Hok]. cbn [map concat foldl]. rewrite (run_app _ _ _ _ (lok_run n l st Hn Hl)).
  apply IH; [done |]. destruct Hr as (Hk & Hp & _). rewrite Hp. unfold read_so_far, pending. cbn [NumRead Data NewLok].
  replace (Z.succ (NumRead st) =? 0) with false by zbool. split; [lia | done].
Qed.
Lemma lok_file_run n ls d : (n <= 32)%nat -> Forall lok_ok ls ->
  exists st, for_each (file_lines n ls) effect (mk_loading d LokInfoInit 0 0) = Some (tt, st) /\
    LokInsert st.(Data) st.(NewLok) = foldl LokInsert d (map (stored n) ls).
Proof.
  intros Hn Hok. destruct (loks_run n ls (mk_loading d LokInfoInit 0 0) d Hn Hok) as (st & E & _ & _ & H); [done |].
  exists st. split; [| done]. unfold file_lines. by rewrite (run_app _ _ _ (mk_loading d LokInfoInit 0 0)).
Qed.
(** * What is in the table then *)

Definition entries (ls : list LokInfo) : list (string * LokInfo) := map (fun l => (l.(Name), l)) ls.
Lemma insert_new d l : l.(Name) <> "" -> l.(IsDeleted) = false -> d.(LokDb) !! l.(Name) = None ->
  LokInsert d l = d <| IsChanged := true |> <| LokDb ::= <[l.(Name) := l]> |> <| NumLoks ::= Z.succ |>.
Proof.
  intros Hn Hd Hl. unfold LokInsert. apply String.eqb_neq in Hn as ->. rewrite Hl. cbn [negb].
  assert (l <| IsDeleted := false |> = l) as -> by (destruct l; cbn in *; by subst). done.
Qed.
Lemma insert_all ls d : NoDup (map Name ls) -> Forall (fun l => l.(Name) <> "" /\ l.(IsDeleted) = false) ls ->
  (forall l, l ∈ ls -> d.(LokDb) !! l.(Name) = None) ->
  (foldl LokInsert d ls).(LokDb) = list_to_map (entries ls) ∪ d.(LokDb) /\
  (foldl LokInsert d ls).(NumLoks) = d.(NumLoks) + Z.of_nat (length ls).
Proof.
  revert d. induction ls as [| l ls IH]; intros d Hnd Hok Hnew.
  - cbn. by rewrite (left_id_L ∅ (∪)), Z.add_0_r.
  - cbn [map] in Hnd. apply NoDup_cons in Hnd as [Hl Hnd]. apply Forall_cons in Hok as [[Hn Hd] Hok]. cbn [foldl].
    rewrite insert_new by (done || (apply Hnew; left)).
    destruct (IH (d <| IsChanged := true |> <| LokDb ::= <[l.(Name) := l]> |> <| NumLoks ::= Z.succ |>)) as [-> ->]; [done.. | |].
    + intros l' Hl'. cbn. rewrite lookup_insert_ne; [apply Hnew; by right |].
      intros E. apply Hl. rewrite E. by apply list_elem_of_fmap_2.
    + cbn -[union Z.add Z.of_nat]. split; [| lia].
      rewrite <- insert_union_l, insert_union_r; [done |]. apply not_elem_of_list_to_map_1.
      unfold entries. by rewrite <- list_fmap_compose.
Qed.
(** ** The locomotives of a table *)

Definition named (db : gmap string LokInfo) : Prop := map_Forall (fun key l => l.(Name) = key) db.
Definition undeleted (db : gmap string LokInfo) : gmap string LokInfo := filter (fun e => e.2.(IsDeleted) = false) db.

Section Table.
Context (db : gmap string LokInfo) (Hnamed : named db).

Lemma walk_in l : l ∈ walk db <-> db !! l.(Name) = Some l.
Proof.
  unfold walk. rewrite list_elem_of_fmap. setoid_rewrite merge_sort_Permutation. split.
  - intros ([k l'] & -> & H%elem_of_map_to_list). cbn. by rewrite (Hnamed k l' H).
  - intros H. exists (l.(Name), l). by rewrite elem_of_map_to_list.
Qed.
Lemma walk_names : NoDup (map Name (walk db)).
Proof.
  assert (map Name (walk db) ≡ₚ (map_to_list db).*1) as ->; [| apply NoDup_fst_map_to_list].
  unfold walk. rewrite merge_sort_Permutation. change (map Name) with (fmap (M := list) Name). rewrite <- list_fmap_compose.
  match goal with |- ?a ≡ₚ ?b => assert (a = b) as ->; [| done] end. apply list_fmap_ext. intros i [k l] H%list_elem_of_lookup_2. by apply elem_of_map_to_list, Hnamed in H.
Qed.
Lemma kept_names n : NoDup (map Name (map (stored n) (kept (walk db)))).
Proof.
  rewrite map_map. change (map (fun l => Name (stored n l))) with (map Name).
  eapply sublist_NoDup; [apply walk_names |]. apply fmap_sublist, sublist_filter.
Qed.
Lemma kept_entries n : list_to_map (entries (map (stored n) (kept (walk db)))) = stored n <$> undeleted db.
Proof.
  apply map_eq. intros k. apply option_eq. intros l. unfold entries. rewrite <- elem_of_list_to_map.
  - rewrite lookup_fmap_Some, list_elem_of_fmap. setoid_rewrite list_elem_of_fmap. setoid_rewrite list_elem_of_filter.
    setoid_rewrite walk_in. setoid_rewrite map_lookup_filter_Some. split.
    + intros (l1 & [= -> ->] & l2 & -> & Hd & H). by exists l2.
    + intros (l2 & <- & H & Hd). pose proof (Hnamed _ _ H) as <-. by exists (stored n l2); split; [| exists l2].
  - change (map ?f ?l) with (f <$> l). rewrite <- list_fmap_compose. apply kept_names.
Qed.
Lemma kept_size n : length (map (stored n) (kept (walk db))) = size (undeleted db).
Proof.
  rewrite <- (map_size_fmap (stored n) (undeleted db)), <- kept_entries, map_size_list_to_map; unfold entries.
  - by rewrite !length_map.
  - change (map ?f ?l) with (f <$> l). rewrite <- list_fmap_compose. apply kept_names.
Qed.
End Table.
(** ** Deleted locomotives are purged *)

Lemma last_found (P : LokInfo -> bool) ls r :
  let f := fun r l => if P l then Some l.(Name) else r in
  (exists l, l ∈ ls /\ P l = true /\ foldl f r ls = Some l.(Name)) \/ (Forall (fun l => P l = false) ls /\ foldl f r ls = r).
Proof.
  intros f. revert r. induction ls as [| l ls IH]; intros r; [by right |]. cbn [foldl].
  destruct (IH (f r l)) as [(l' & Hl & Hp & E) | [Hp E]].
  - left. exists l'. by split; [right |].
  - rewrite E. unfold f. destruct (P l) eqn:Pl; [left; exists l; by split; [left |] | right; by split; [constructor |]].
Qed.
Lemma search_deleted d : named d.(LokDb) ->
  match SearchDeleted d with
  | Some key => exists l, d.(LokDb) !! key = Some l /\ l.(IsDeleted) = true
  | None => undeleted d.(LokDb) = d.(LokDb)
  end.
Proof.
  intros Hn. unfold SearchDeleted. destruct (last_found IsDeleted (walk d.(LokDb)) None) as [(l & Hl & Hd & ->) | [Hd ->]].
  - exists l. by apply walk_in in Hl.
  - apply map_filter_id. intros k l H. rewrite Forall_forall in Hd. apply (Hd l), (walk_in _ Hn). by rewrite (Hn k l H).
Qed.
Lemma purge_run fuel d : named d.(LokDb) -> (size d.(LokDb) < fuel)%nat ->
  purge fuel d = Some (d <| LokDb := undeleted d.(LokDb) |>).
Proof.
  revert d. induction fuel as [| fuel IH]; intros d Hn Hf; [lia |]. cbn [purge].
  pose proof (search_deleted d Hn) as H. destruct (SearchDeleted d) as [key |].
  - destruct H as (l & Hl & Hd). pose proof (map_size_delete_Some key d.(LokDb) ltac:(by exists l)) as Hs.
    assert (size d.(LokDb) <> 0%nat) as H0 by (intros E%map_size_empty_inv; by rewrite E in Hl).
    rewrite IH; [| by apply (map_Forall_delete (M := gmap string)) | change (size (delete key d.(LokDb)) < fuel)%nat; rewrite Hs; lia].
    cbn. do 2 f_equal. unfold undeleted. apply map_filter_delete_not. intros l'. rewrite Hl. intros [= <-]. cbn. by rewrite Hd.
  - by rewrite H; destruct d.
Qed.
(** * Saving and loading *)

(** Tables as [LokInsert] makes them, with locomotives that fit. *)
Record table_ok (n : nat) (d : LokStruct) : Prop := {
  ok_named : named d.(LokDb);
  ok_loks : map_Forall (fun _ => lok_ok) d.(LokDb);
  ok_num : d.(NumLokFkts) = Z.of_nat n /\ (n <= 32)%nat }.
Lemma walk_ok n d : table_ok n d -> Forall lok_ok (walk d.(LokDb)).
Proof. intros [Hn Hl _]. apply Forall_forall. intros l H%walk_in; [by eapply Hl | done]. Qed.
Lemma kept_ok n d : table_ok n d -> Forall lok_ok (kept (walk d.(LokDb))).
Proof.
  intros H%walk_ok. rewrite Forall_forall in H. apply Forall_forall. intros l [_ Hl]%list_elem_of_filter. by apply H.
Qed.

Lemma save_run n d path name may_open files : table_ok n d -> d.(LocFilePath) = Some path -> file_name path CS2_FILE_STRING_LOKOMOTIVE = Some name ->
  may_open name = true -> d.(IsChanged) || LokHaveDeleted d = true ->
  LokSaveLokomotiveCs2 may_open files d =
    Some (<[name := bytes (text_of (file_lines n (kept (walk d.(LokDb)))))]> files,
          d <| LokDb := undeleted d.(LokDb) |> <| IsChanged := false |>).
Proof.
  intros Hd Hp Hname Ho Hc. unfold LokSaveLokomotiveCs2. rewrite Hc, Hp, Hname. cbn [mbind option_bind]. rewrite Ho.
  pose proof (walk_ok _ _ Hd) as Hw. destruct Hd as [Hn _ [Hk Hk']]. rewrite (lok_file_text d n) by done. cbn [mbind option_bind].
  unfold PurgeDeletedLoks. by rewrite purge_run by (done || lia).
Qed.

Section Loading.
Context (zk0 : string) (i0 : Z) (memory : cs2parser).
Lemma lok_load_run n ls e path name may_open files : (n <= 32)%nat -> Forall lok_ok ls ->
  e.(LocFilePath) = Some path -> file_name path CS2_FILE_STRING_LOKOMOTIVE = Some name -> may_open name = true ->
  files !! name = Some (bytes (text_of (file_lines n ls))) ->
  LokLoadLokomotiveCs2 zk0 i0 memory may_open files e = Some ((foldl LokInsert e (map (stored n) ls)) <| IsChanged := false |>).
Proof.
  intros Hn Hok Hp Hname Ho Hf. unfold LokLoadLokomotiveCs2. rewrite Hp, Hname. cbn [mbind option_bind]. rewrite Hf, Ho.
  destruct (lok_file_run n ls e Hn Hok) as (st & E & Hst). unfold LokParseLokomotiveCs2.
  rewrite (file_read _ _ table zk0 i0 memory PARSER_TYPE_LOK_CS2 eq_refl _ _ _ _ (lok_file_lines_ok n ls Hn Hok) E eq_refl).
  cbn [mbind option_bind Data over]. rewrite Hst.
  assert (1 <= length (bytes (text_of (file_lines n ls))))%nat as Hl by (pose proof (text_length (file_lines n ls)); cbn in *; lia).
  by apply Nat.ltb_lt in Hl as ->.
Qed.

(** ** Errors *)

Lemma clear_insert d l : LokClear (LokInsert d l) = LokClear d.
Proof.
  unfold LokInsert. destruct (negb _); [| done]. destruct (LokDb d !! Name l) as [o |]; [| done].
  by destruct (negb (LokIsEqual o l)).
Qed.
Lemma clear_inserts ls d : LokClear (foldl LokInsert d ls) = LokClear d.
Proof. revert d. induction ls as [| l ls IH]; intros d; [done |]. cbn [foldl]. by rewrite IH, clear_insert. Qed.
(** C38. A line that starts with a word the parser does not know, anywhere behind
    locomotives it could read, makes all of the table empty: what was read from
    the file, what the file has after the line and what was in the table before. *)
Theorem unknown_word_clears n ls w c rest e path name may_open files : (n <= 32)%nat -> Forall lok_ok ls ->
  is_name w -> (String.length w < SCAN_BLOCK_LAENGE)%nat -> keyword w table = BezeichnerSy -> c <> CR -> Scan.is_word (seen c) = false ->
  e.(LocFilePath) = Some path -> file_name path CS2_FILE_STRING_LOKOMOTIVE = Some name -> may_open name = true ->
  files !! name = Some (bytes (text_of (file_lines n ls)) ++ bytes w ++ c :: rest) ->
  LokLoadLokomotiveCs2 zk0 i0 memory may_open files e = Some (LokClear e).
Proof.
  intros Hn Hok Hw Hl Hk Hc Hs Hp Hname Ho Hf. unfold LokLoadLokomotiveCs2. rewrite Hp, Hname. cbn [mbind option_bind]. rewrite Hf, Ho.
  destruct (lok_file_run n ls e Hn Hok) as (st & E & Hst). unfold LokParseLokomotiveCs2.
  rewrite (file_unknown _ _ table zk0 i0 memory PARSER_TYPE_LOK_CS2 eq_refl _ _ _ rest _ _ (lok_file_lines_ok n ls Hn Hok) E Hw Hl Hk Hc Hs).
  replace (0 <? _)%nat with true by (symmetry; apply Nat.ltb_lt; rewrite !length_app; cbn [length]; lia). cbn [andb mbind option_bind].
  change (PARSER_ERROR =? PARSER_EOF) with false. cbn [negb].
  rewrite <- (clear_insert st.(Data) st.(NewLok)), Hst, clear_inserts. done.
Qed.

(** C6. A table of locomotives that is saved and loaded into an empty table is
    there again: all locomotives that are not marked as deleted, with every field
    but the functions.  Of the 32 functions those the table is set up for, the
    first [n] (NumLokFkts, at most 32), are written and come back; the others are not written
    and come back zero ([stored]).  Those marked as deleted are gone from the file
    and from the table that was saved.  The table has to be marked as changed or
    have a locomotive marked as deleted, for otherwise nothing is written; the
    texts have to fit the parser's lines and their arrays, and the numbers their
    types. *)
Theorem saved_locos_load n d e path name may_open files : table_ok n d ->
  d.(LocFilePath) = Some path -> e.(LocFilePath) = Some path -> file_name path CS2_FILE_STRING_LOKOMOTIVE = Some name -> may_open name = true ->
  d.(IsChanged) || LokHaveDeleted d = true -> e.(LokDb) = ∅ -> e.(NumLoks) = 0 ->
  exists files' d' e', LokSaveLokomotiveCs2 may_open files d = Some (files', d') /\
    LokLoadLokomotiveCs2 zk0 i0 memory may_open files' e = Some e' /\
    d'.(LokDb) = undeleted d.(LokDb) /\ d'.(IsChanged) = false /\
    e'.(LokDb) = stored n <$> d'.(LokDb) /\ e'.(NumLoks) = Z.of_nat (size d'.(LokDb)) /\ e'.(IsChanged) = false.
Proof.
  intros Hd Hp Hp' Hname Ho Hc He Hz. pose proof (kept_ok _ _ Hd) as Hk. pose proof (ok_named _ _ Hd) as Hn.
  do 3 eexists. split; [by eapply save_run |]. split.
  { apply (lok_load_run n (kept (walk d.(LokDb))) e path name); [apply (ok_num _ _ Hd) | done..|]. apply disk_written. }
  destruct (insert_all (map (stored n) (kept (walk d.(LokDb)))) e) as [E1 E2].
  - by apply kept_names.
  - apply Forall_map. eapply Forall_impl; [exact Hk |]. intros l Hl. split; [apply (ok_name l Hl) | done].
  - intros. by rewrite He, lookup_empty.
  - cbn -[union stored]. rewrite E1, E2, He, Hz, kept_entries, kept_size, (right_id_L ∅ (∪)) by done. done.
Qed.
End Loading.

(** ** Examples *)

Definition br01 : LokInfo := mk_lok false 0x4007 "BR 01" (-7) "mfx" 0xffffffff00000001 12 1 2 3 4 5 6 (-8)
  ([mk_fkt 1 2 3; zero; mk_fkt 0 5 0] ++ replicate 29 zero).
Definition v200 : LokInfo := mk_lok true 17 "V 200" 7 "dcc" 0 12 1 2 3 4 5 6 8 (replicate 32 zero).
Definition two_locos : LokStruct := mk_loks (Some "/tmp") 1 2 true (<["BR 01" := br01]> {["V 200" := v200]}).
Definition no_locos : LokStruct := mk_loks (Some "/tmp") 0 2 false ∅.
Definition a_parser : cs2parser := mk_cs2parser (ScanCreate "" 0) 0 0 0 "" "".

Ltac lok_fits := repeat first [ done | lia | apply Forall_nil_2 | apply Forall_cons_2 | split | progress cbn ].
Lemma br01_ok : lok_ok br01.
Proof. split; unfold is_ulong, fkt_ok, is_int, value_ok, SCAN_BLOCK_LAENGE; lok_fits. Qed.
Lemma v200_ok : lok_ok v200.
Proof. split; unfold is_ulong, fkt_ok, is_int, value_ok, SCAN_BLOCK_LAENGE; lok_fits. Qed.
Lemma two_locos_ok : table_ok 2 two_locos.
Proof.
  split; cbn [two_locos LokDb].
  - by apply (map_Forall_insert_2 (M := gmap string)); [| apply (map_Forall_singleton (M := gmap string))].
  - apply (map_Forall_insert_2 (M := gmap string)); [exact br01_ok | apply (map_Forall_singleton (M := gmap string)); exact v200_ok].
  - split; [done | lia].
Qed.

Lemma saved_locos_load_witness : exists files' d' e',
  LokSaveLokomotiveCs2 (fun _ => true) ∅ two_locos = Some (files', d') /\
  LokLoadLokomotiveCs2 "" 0 a_parser (fun _ => true) files' no_locos = Some e' /\
  d'.(LokDb) = undeleted two_locos.(LokDb) /\ d'.(IsChanged) = false /\
  e'.(LokDb) = stored 2 <$> d'.(LokDb) /\ e'.(NumLoks) = Z.of_nat (size d'.(LokDb)) /\ e'.(IsChanged) = false.
Proof.
  apply (saved_locos_load "" 0 a_parser 2 two_locos no_locos "/tmp" "/tmp/lokomotive.cs2" (fun _ => true) ∅);
    [exact two_locos_ok | reflexivity..].
Defined.
Lemma unknown_word_clears_witness :
  LokLoadLokomotiveCs2 "" 0 a_parser (fun _ => true)
    {["/tmp/lokomotive.cs2" := bytes (text_of (file_lines 2 [br01])) ++ bytes "mehrfach" ++ LF :: bytes "lokomotive"]} two_locos =
  Some (LokClear two_locos).
Proof.
  apply (unknown_word_clears "" 0 a_parser 2 [br01] "mehrfach" LF (bytes "lokomotive") two_locos "/tmp" "/tmp/lokomotive.cs2").
  - lia.
  - constructor; [exact br01_ok | constructor].
  - split; [reflexivity | repeat constructor].
  - apply Nat.ltb_lt; reflexivity.
  - reflexivity.
  - discriminate.
  - reflexivity.
  - reflexivity.
  - reflexivity.
  - reflexivity.
  - apply (lookup_singleton_eq (M := gmap string)).
Defined.
End LokSpec.
