(* ===== verification/MrMagnetartikel.v ===== *)
(** The accessories of the control centre of mrsystem
    (src/mrsystem/src/client_zentrale/magnetartikel.c) and the file
    magnetartikel.cs2.

    [MagnetartikelSpec]: what is saved is what is
    loaded, but for the accessories of one type. *)

From S2P Require Import Prelude World Messages Text MrCs2 MrIpc MrNumber MrScan MrCs2Parse MrCs2Spec MrConfig.

Module Magnetartikel.
Import Number Cs2Parse Config.
Import MrIpc(switch).

(** * Data *)

Record MagnetartikelInfo := mk_artikel {
  Id : Z;
  Name : string;
  Typ : string;
  Stellung : Z;
  Schaltzeit : Z;
  Ungerade : Z;
  Decoder : string;
  Dectyp : string }.
#[export] Instance eta_artikel : Settable MagnetartikelInfo := fun a =>
  mk_artikel a.(Id) a.(Name) a.(Typ) a.(Stellung) a.(Schaltzeit) a.(Ungerade) a.(Decoder) a.(Dectyp).

(** The map is ordered by the difference of two numbers. *)
Record MagnetartikelStruct := mk_magnetartikel {
  MagnetartikelFilePath : option string;
  NumArtikel : Z;
  MagnetartikelDb : gmap Z MagnetartikelInfo }.
#[export] Instance eta_magnetartikel : Settable MagnetartikelStruct := fun d =>
  mk_magnetartikel d.(MagnetartikelFilePath) d.(NumArtikel) d.(MagnetartikelDb).

(** * The table *)

Definition MagnetartikelCreate : MagnetartikelStruct := mk_magnetartikel (Some "/var/www/config/") 0 ∅.
Definition MagnetartikelInit (Data : MagnetartikelStruct) (MagnetartikelPath : option string) : MagnetartikelStruct :=
  Data <| MagnetartikelFilePath := MagnetartikelPath |> <| NumArtikel := 0 |>.
Definition MagnetartikelClear (Data : MagnetartikelStruct) : MagnetartikelStruct :=
  Data <| MagnetartikelDb := ∅ |> <| NumArtikel := 0 |>.
(** Both branches copy every field. *)
Definition MagnetartikelInsert (Data : MagnetartikelStruct) (a : MagnetartikelInfo) : option MagnetartikelStruct :=
  db ← map_set a.(Id) a Data.(MagnetartikelDb); Some (Data <| MagnetartikelDb := db |>).
Definition MagnetartikelDelete (Data : MagnetartikelStruct) (a : MagnetartikelInfo) : option MagnetartikelStruct :=
  db ← map_del a.(Id) Data.(MagnetartikelDb); Some (Data <| MagnetartikelDb := db |>).
Definition MagnetartikelSearch (Data : MagnetartikelStruct) (Id_ : Z) : option (option MagnetartikelInfo) :=
  map_get Id_ Data.(MagnetartikelDb).

(** * Reading the file *)

(** The table and the variables of [MagnetartikelParseMagnetartikelCs2]. *)
Record loading := mk_loading {
  Data : MagnetartikelStruct;
  NewMagnetartikel : MagnetartikelInfo;
  NumRead : Z }.
#[export] Instance eta_loading : Settable loading := fun l => mk_loading l.(Data) l.(NewMagnetartikel) l.(NumRead).
Definition set_new (f : MagnetartikelInfo -> MagnetartikelInfo) : prog loading unit :=
  modify (fun l => l <| NewMagnetartikel ::= f |>).

Definition CS_MAGNETARTIKEL_TYP_STRING_STD_ROT_GRUEN : string := "std_rot_gruen".
(** An accessory of this type is taken out of the table. *)
Definition insert_or_delete (d : MagnetartikelStruct) (a : MagnetartikelInfo) : option MagnetartikelStruct :=
  if String.eqb a.(Typ) CS_MAGNETARTIKEL_TYP_STRING_STD_ROT_GRUEN then MagnetartikelDelete d a else MagnetartikelInsert d a.
Definition insert_read : prog loading unit :=
  let* l := get in
  let* d := need (insert_or_delete l.(Data) l.(NewMagnetartikel)) in
  modify (fun l => l <| Data := d |>).

(** The cases of [PARSER_VALUE]; those left out do nothing.  [strcpy] needs room
    for the text and its NUL. *)
Definition value_read (sub level : Z) (v : string) : prog loading unit :=
  let n := i32 (strtoul v) in
  switch sub [
    (PARSER_VALUE_ARTIKEL,
      let* k := gets NumRead in
      do* (if negb (k =? 0) then insert_read else ret tt) in
      do* set_new (fun a => a <| Ungerade := -1 |>) in
      modify (fun l => l <| NumRead ::= Z.succ |>));
    (PARSER_VALUE_ID, set_new (fun a => a <| Id := n |>));
    (PARSER_VALUE_NAME, do* guard (String.length v <? 32)%nat in set_new (fun a => a <| Name := v |>));
    (PARSER_VALUE_TYP, do* guard (String.length v <? 32)%nat in set_new (fun a => a <| Typ := v |>));
    (PARSER_VALUE_STELLUNG, set_new (fun a => a <| Stellung := n |>));
    (PARSER_VALUE_SCHALTZEIT, set_new (fun a => a <| Schaltzeit := n |>));
    (PARSER_VALUE_UNGERADE, set_new (fun a => a <| Ungerade := n |>));
    (PARSER_VALUE_DECODER, do* guard (String.length v <? 20)%nat in set_new (fun a => a <| Decoder := v |>));
    (PARSER_VALUE_DECTYP, do* guard (String.length v <? 20)%nat in set_new (fun a => a <| Dectyp := v |>))]
  (ret tt).

Definition CS2_FILE_STRING_MAGNETARTIKEL : string := "magnetartikel.cs2".
Section Files.
(** The parser and the local variable before anything is set in them. *)
Context (zk0 : string) (i0 : Z) (memory : cs2parser) (stack : MagnetartikelInfo).

Definition MagnetartikelParseMagnetartikelCs2 (Buf : list ascii) (Len : nat) (d : MagnetartikelStruct) :
    option (bool * MagnetartikelStruct) :=
  '(LineInfo, l) ← parse value_read insert_read zk0 i0 memory PARSER_TYPE_MAGNETARTIKEL_CS2 Buf Len
    (mk_loading d (stack <| Ungerade := -1 |>) 0);
  Some (LineInfo =? PARSER_EOF, l.(Data)).
(** [malloc] of no bytes is taken to give memory. *)
Definition MagnetartikelLoadMagnetartikelCs2 (may_open : string -> bool) (files : disk) (d : MagnetartikelStruct) :
    option MagnetartikelStruct :=
  match d.(MagnetartikelFilePath) with
  | None => Some d
  | Some path =>
      name ← file_name path CS2_FILE_STRING_MAGNETARTIKEL;
      match files !! name with
      | Some content =>
          if may_open name then
            '(ok, d) ← MagnetartikelParseMagnetartikelCs2 content (length content) d;
            Some (if negb ok then MagnetartikelClear d else d)
          else Some d
      | None => Some d
      end
  end.
End Files.

(** * Writing the file *)

Definition WriteMagnetartikelOfMagnetartikelCs2 (a : MagnetartikelInfo) : string :=
  fmt [Cs2WriteTitleByName "artikel" 0;
       Cs2WriteIntValueByName "id" a.(Id) 1;
       Cs2WriteStringValueByName "name" a.(Name) 1;
       Cs2WriteStringValueByName "typ" a.(Typ) 1;
       Cs2WriteIntValueByName "stellung" a.(Stellung) 1;
       Cs2WriteIntValueByName "schaltzeit" a.(Schaltzeit) 1;
       if negb (a.(Ungerade) =? -1) then Cs2WriteIntValueByName "ungerade" a.(Ungerade) 1 else "";
       Cs2WriteStringValueByName "decoder" a.(Decoder) 1;
       Cs2WriteStringValueByName "dectyp" a.(Dectyp) 1].
Definition CS2_PARAGRAPH_TYPE_MAGNETARTIKEL : Z := 6.
Definition artikel_file (d : MagnetartikelStruct) : option string :=
  heading ← Cs2WriteParagraphByType CS2_PARAGRAPH_TYPE_MAGNETARTIKEL;
  artikel ← walk_ids d.(MagnetartikelDb);
  Some (fmt [heading;
    Cs2WriteTitleByName "version" 0;
    Cs2WriteIntValueByName "major" 0 1;
    Cs2WriteIntValueByName "minor" 1 1;
    fmt (map WriteMagnetartikelOfMagnetartikelCs2 artikel)]).
Definition MagnetartikelSaveMagnetartikelCs2 (may_open : string -> bool) (files : disk) (d : MagnetartikelStruct) : option disk :=
  match d.(MagnetartikelFilePath) with
  | None => Some files
  | Some path =>
      name ← file_name path CS2_FILE_STRING_MAGNETARTIKEL;
      if may_open name then
        text ← artikel_file d;
        Some (<[name := String.list_ascii_of_string text]> files)
      else Some files
  end.
End Magnetartikel.

Module MagnetartikelSpec.
Import Number Scan Cs2Parse Cs2Spec Config ConfigSpec Magnetartikel.

Abbreviation table := MagnetartikelCs2Keywords.
Abbreviation effect := (ConfigSpec.effect value_read table).

(** * An accessory *)

Definition artikel_lines (a : MagnetartikelInfo) : list line :=
  [Title 0 "artikel"; Entry 1 "id" (dec a.(Id)); Entry 1 "name" a.(Name); Entry 1 "typ" a.(Typ);
   Entry 1 "stellung" (dec a.(Stellung)); Entry 1 "schaltzeit" (dec a.(Schaltzeit))] ++
  (if negb (a.(Ungerade) =? -1) then [Entry 1 "ungerade" (dec a.(Ungerade))] else []) ++
  [Entry 1 "decoder" a.(Decoder); Entry 1 "dectyp" a.(Dectyp)].

(** An accessory whose texts fit into its record. *)
Definition text_ok (n : nat) (v : string) : Prop := value_ok v /\ (String.length v < n)%nat.
Record artikel_ok (a : MagnetartikelInfo) : Prop := {
  ok_name : text_ok 32 a.(Name);
  ok_typ : text_ok 32 a.(Typ);
  ok_decoder : text_ok 20 a.(Decoder);
  ok_dectyp : text_ok 20 a.(Dectyp);
  ok_ints : is_int a.(Id) /\ is_int a.(Stellung) /\ is_int a.(Schaltzeit) /\ is_int a.(Ungerade) }.

Lemma write_artikel a : WriteMagnetartikelOfMagnetartikelCs2 a = text_of (artikel_lines a).
Proof.
  unfold WriteMagnetartikelOfMagnetartikelCs2, artikel_lines, Cs2WriteIntValueByName. rewrite !map_app, !fmt_app.
  destruct (a.(Ungerade) =? -1); cbn [negb map line_text fmt]; rewrite <- !str_app_assoc; reflexivity.
Qed.
Lemma artikel_lines_ok a : artikel_ok a -> Forall (line_ok table) (artikel_lines a).
Proof.
  intros [[Hn _] [Ht _] [Hd _] [Hc _] (H1 & H2 & H3 & H4)]. unfold artikel_lines. rewrite !Forall_app.
  split_and!; [| destruct (_ =? _) |]; cbn [negb]; lines_ok.
Qed.

(** What inserting comes to where the numbers are near each other. *)
Definition dropped (a : MagnetartikelInfo) : bool := String.eqb a.(Typ) CS_MAGNETARTIKEL_TYP_STRING_STD_ROT_GRUEN.
Definition taken (d : MagnetartikelStruct) (a : MagnetartikelInfo) : MagnetartikelStruct :=
  d <| MagnetartikelDb ::= fun db => put Id dropped db a |>.
Definition pending (st : loading) : MagnetartikelStruct :=
  if st.(NumRead) =? 0 then st.(Data) else taken st.(Data) st.(NewMagnetartikel).

Section Near.
Context (ks : list Z) (Hks : close ks).
Definition fits_in (st : loading) : Prop :=
  among ks st.(Data).(MagnetartikelDb) /\ (st.(NumRead) = 0 \/ st.(NewMagnetartikel).(Id) ∈ ks).

Lemma insert_taken d a : a.(Id) ∈ ks -> among ks d.(MagnetartikelDb) -> insert_or_delete d a = Some (taken d a).
Proof using Hks.
  intros Ha Hd. unfold insert_or_delete, taken, put, dropped, MagnetartikelDelete, MagnetartikelInsert.
  rewrite (map_del_run ks Hks), (map_set_run ks Hks) by done. by destruct (String.eqb _ _).
Qed.
Lemma taken_among d a : a.(Id) ∈ ks -> among ks d.(MagnetartikelDb) -> among ks (taken d a).(MagnetartikelDb).
Proof. intros. unfold taken, put. cbn. destruct (dropped a); [by apply among_del | by apply among_set]. Qed.
Lemma pending_among st : fits_in st -> among ks (pending st).(MagnetartikelDb).
Proof. intros [H1 H2]. unfold pending. destruct (Z.eqb_spec st.(NumRead) 0); [done |]. apply taken_among; tauto. Qed.
Ltac number := erewrite run_line by reflexivity.
Ltac copied n H := erewrite run_line by (etrans; [apply (room_run _ n (set_new _)); exact H | reflexivity]).
Lemma artikel_run a st : artikel_ok a -> fits_in st ->
  for_each (artikel_lines a) effect st = Some (tt, mk_loading (pending st) a (Z.succ st.(NumRead))).
Proof using Hks.
  intros [[_ Hn] [_ Ht] [_ Hd] [_ Hc] (H1 & H2 & H3 & H4)] [Hf1 Hf2]. unfold artikel_lines. cbn [app].
  assert (effect (Title 0 "artikel") st = Some (tt, mk_loading (pending st) (st.(NewMagnetartikel) <| Ungerade := -1 |>)
    (Z.succ st.(NumRead)))) as E.
  { transitivity ((do* (if negb (st.(NumRead) =? 0) then insert_read else ret tt) in
      do* set_new (fun a => a <| Ungerade := -1 |>) in modify (fun l => l <| NumRead ::= Z.succ |>)) st); [done |].
    unfold pending. destruct (Z.eqb_spec st.(NumRead) 0) as [E0 | E0]; cbn [negb].
    - by destruct st.
    - unfold insert_read. rewrite !bind_assoc, bind_get, insert_taken by tauto. by destruct st. }
  rewrite (run_line _ _ _ _ E). number. copied 32%nat Hn. copied 32%nat Ht. number. number.
  destruct (Z.eqb_spec a.(Ungerade) (-1)) as [Hu |]; cbn [negb app].
  - copied 20%nat Hd. copied 20%nat Hc. unfold for_each, ret. cbn -[strtoul dec]. rewrite !read_dec, <- Hu by done. by destruct a.
  - number. copied 20%nat Hd. copied 20%nat Hc. unfold for_each, ret. cbn -[strtoul dec]. rewrite !read_dec by done. by destruct a.
Qed.

End Near.

(** * The file *)

Definition first_lines : list line :=
  [Heading "magnetartikel"; Title 0 "version"; Entry 1 "major" (dec 0); Entry 1 "minor" (dec 1)].
Definition file_lines (l : list MagnetartikelInfo) : list line := first_lines ++ concat (map artikel_lines l).
Lemma artikel_file_text d : close (keys d.(MagnetartikelDb)) ->
  artikel_file d = Some (text_of (file_lines (by_number d.(MagnetartikelDb)))).
Proof.
  intros Hc. unfold artikel_file. rewrite (walk_ids_run _ Hc) by apply among_keys. change (Cs2WriteParagraphByType _) with (Some (Cs2WriteParagraphByName "magnetartikel")).
  cbn [mbind option_bind]. unfold file_lines. rewrite map_app, fmt_app, <- concat_text, map_map.
  rewrite (map_ext _ _ write_artikel). unfold first_lines, Cs2WriteIntValueByName. cbn [map line_text fmt].
  f_equal. rewrite <- !str_app_assoc, <- append_nil. reflexivity.
Qed.
Lemma artikel_file_lines_ok l : Forall artikel_ok l -> Forall (line_ok table) (file_lines l).
Proof.
  intros Hok. unfold file_lines. apply Forall_app. split.
  - constructor; [by repeat constructor | lines_ok].
  - apply Forall_concat, Forall_map. eapply Forall_impl; [done |]. apply artikel_lines_ok.
Qed.
Lemma artikels_run ks l st : close ks -> fits_in ks st -> Forall artikel_ok l -> Forall (fun a => a.(Id) ∈ ks) l ->
  st.(NumRead) <> 0 -> 0 <= st.(NumRead) ->
  exists st', for_each (concat (map artikel_lines l)) effect st = Some (tt, st') /\ fits_in ks st' /\ st'.(NumRead) <> 0 /\
    taken st'.(Data) st'.(NewMagnetartikel) = foldl taken (taken st.(Data) st.(NewMagnetartikel)) l.
Proof.
  intros Hks. revert st. induction l as [| a l IH]; intros st Hf Hok Hin H0 Hk; [by exists st |].
  apply Forall_cons in Hok as [Ha Hok]. apply Forall_cons in Hin as [Hi Hin]. cbn [map concat foldl].
  rewrite (run_app _ _ _ _ (artikel_run ks Hks a st Ha Hf)).
  destruct (IH (mk_loading (pending st) a (Z.succ st.(NumRead)))) as (st' & -> & Hf' & Hn' & E); [| done | done | cbn; lia.. |].
  - split; [by apply pending_among | by right].
  - exists st'. split_and!; [done.. |]. rewrite E. cbn [Data NewMagnetartikel]. unfold pending. by apply Z.eqb_neq in H0 as ->.
Qed.
Lemma artikel_file_run ks a l st : close ks -> among ks st.(Data).(MagnetartikelDb) -> Forall artikel_ok (a :: l) ->
  Forall (fun a => a.(Id) ∈ ks) (a :: l) -> st.(NumRead) = 0 ->
  exists st' st'', for_each (file_lines (a :: l)) effect st = Some (tt, st') /\ insert_read st' = Some (tt, st'') /\
    st''.(Data) = foldl taken st.(Data) (a :: l).
Proof.
  intros Hks Hd Hok Hin H0. apply Forall_cons in Hok as [Ha Hok]. apply Forall_cons in Hin as [Hi Hin]. unfold file_lines.
  rewrite (run_app _ _ _ st) by done. cbn [map concat foldl].
  rewrite (run_app _ _ _ _ (artikel_run ks Hks a st Ha (conj Hd (or_introl H0)))).
  assert (pending st = st.(Data)) as -> by (unfold pending; by rewrite H0).
  destruct (artikels_run ks l (mk_loading st.(Data) a (Z.succ st.(NumRead))) Hks) as (st' & -> & [Hf1 Hf2] & Hn' & E);
    [split; [done | by right] | done | done | cbn; lia.. |].
  eexists st', _. split; [done |]. unfold insert_read. rewrite bind_get, (insert_taken ks Hks) by tauto.
  split; [reflexivity |]. exact E.
Qed.

(** * Saving and loading *)

Lemma db_fold l d : (foldl taken d l).(MagnetartikelDb) = foldl (put Id dropped) d.(MagnetartikelDb) l.
Proof. revert d. induction l as [| a l IH]; intros d; [done |]. cbn [foldl]. by rewrite IH. Qed.
Lemma artikel_load_run zk0 i0 memory stack d name path may_open files ls st st' : d.(MagnetartikelFilePath) = Some path ->
  file_name path CS2_FILE_STRING_MAGNETARTIKEL = Some name -> may_open name = true -> Forall artikel_ok ls ->
  for_each (file_lines ls) effect (mk_loading d (stack <| Ungerade := -1 |>) 0) = Some (tt, st) ->
  insert_read st = Some (tt, st') -> files !! name = Some (bytes (text_of (file_lines ls))) ->
  MagnetartikelLoadMagnetartikelCs2 zk0 i0 memory stack may_open files d = Some st'.(Data).
Proof.
  intros Hp Hname Ho Hok E Er Hf. unfold MagnetartikelLoadMagnetartikelCs2. rewrite Hp, Hname. cbn [mbind option_bind]. rewrite Hf, Ho.
  unfold MagnetartikelParseMagnetartikelCs2.
  by rewrite (file_read _ _ table zk0 i0 memory PARSER_TYPE_MAGNETARTIKEL_CS2 eq_refl _ _ _ _ (artikel_file_lines_ok _ Hok) E Er).
Qed.

(** What a table with these accessories is after it is loaded from its file. *)
Definition reloaded (stack : MagnetartikelInfo) (db : gmap Z MagnetartikelInfo) : gmap Z MagnetartikelInfo :=
  if bool_decide (db = ∅) then put Id dropped ∅ (stack <| Ungerade := -1 |>)
  else filter (fun a => a.2.(Typ) <> CS_MAGNETARTIKEL_TYP_STRING_STD_ROT_GRUEN) db.

(** C7. What a table of accessories is after it is saved and loaded into an empty
    table: every accessory is there again with every field, except for those of
    the type std_rot_gruen, which are written, and taken out when they are read;
    but if the table had no accessory, there is one made of what the stack held
    (unless that has the type std_rot_gruen).  The texts have to fit the parser's
    lines and their arrays, the numbers the type int, and no two numbers may be
    2^31 or more apart, for then comparing them overflows. *)
Theorem saved_accessories_load zk0 i0 memory stack d e path name may_open files :
  keyed Id d.(MagnetartikelDb) -> map_Forall (fun _ => artikel_ok) d.(MagnetartikelDb) -> close (keys d.(MagnetartikelDb)) ->
  d.(MagnetartikelFilePath) = Some path -> e.(MagnetartikelFilePath) = Some path ->
  file_name path CS2_FILE_STRING_MAGNETARTIKEL = Some name -> may_open name = true -> e.(MagnetartikelDb) = ∅ ->
  exists files' e', MagnetartikelSaveMagnetartikelCs2 may_open files d = Some files' /\
    MagnetartikelLoadMagnetartikelCs2 zk0 i0 memory stack may_open files' e = Some e' /\
    e'.(MagnetartikelDb) = reloaded stack d.(MagnetartikelDb).
Proof.
  intros Hk Hok Hc Hp Hp' Hname Ho He. set (ls := by_number d.(MagnetartikelDb)).
  assert (Forall artikel_ok ls) as Hw.
  { apply Forall_forall. intros a Ha%(by_number_in Id); [by eapply Hok | done]. }
  exists (<[name := bytes (text_of (file_lines ls))]> files).
  assert (exists st st', for_each (file_lines ls) effect (mk_loading e (stack <| Ungerade := -1 |>) 0) = Some (tt, st) /\
    insert_read st = Some (tt, st') /\ st'.(Data).(MagnetartikelDb) = reloaded stack d.(MagnetartikelDb)) as (st & st' & E & Er & Hdb).
  { pose proof (put_walk Id dropped _ Hk (fun a => a) ltac:(done)) as Hput. rewrite map_id, map_fmap_id in Hput. fold ls in Hput.
    unfold reloaded. destruct ls as [| a l] eqn:W.
    - apply by_number_nil in W. rewrite bool_decide_eq_true_2 by done.
      eexists _, _. split; [reflexivity |]. unfold insert_read. rewrite bind_get.
      assert (close [stack.(Id)]) as Hcs by (by intros k k' ->%list_elem_of_singleton ->%list_elem_of_singleton; lia).
      rewrite (insert_taken _ Hcs) by (by left || (cbn; rewrite He; apply among_empty)).
      split; [reflexivity |]. cbn. by rewrite He.
    - rewrite bool_decide_eq_false_2 by (intros Hd; apply by_number_nil in Hd; fold ls in Hd; congruence).
      destruct (artikel_file_run _ a l (mk_loading e (stack <| Ungerade := -1 |>) 0) Hc) as (st & st' & E & Er & Hdb); [| done | | done |].
      + cbn. rewrite He. apply among_empty.
      + rewrite <- W. apply Forall_forall. intros b. by apply (by_number_keyed Id).
      + exists st, st'. split_and!; [done.. |]. rewrite Hdb, db_fold. cbn [Data]. rewrite He, Hput.
        apply map_filter_ext. intros k b _. cbn. unfold dropped. rewrite <- (String.eqb_neq (Typ b)). done. }
  exists st'.(Data). split_and!; [| | done].
  - unfold MagnetartikelSaveMagnetartikelCs2. rewrite Hp, Hname. cbn [mbind option_bind]. by rewrite Ho, artikel_file_text.
  - eapply artikel_load_run; [done.. | apply disk_written].
Qed.

(** ** Examples *)

Definition signal : MagnetartikelInfo := mk_artikel 3 "Signal 3" "lichtsignal_HP01" 1 200 (-1) "ja8" "mm2".
Definition switch_7 : MagnetartikelInfo := mk_artikel 7 "Weiche 7" "linksweiche" 0 200 1 "ja8" "mm2".
Definition uncoupler : MagnetartikelInfo := mk_artikel 9 "Entkuppler" "std_rot_gruen" 0 200 (-1) "ja8" "mm2".
Definition three : MagnetartikelStruct :=
  mk_magnetartikel (Some "/cfg/") 0 (<[3 := signal]> (<[7 := switch_7]> {[9 := uncoupler]})).
Definition nothing : MagnetartikelStruct := mk_magnetartikel (Some "/cfg/") 0 ∅.
Definition a_parser : cs2parser := mk_cs2parser (ScanCreate "" 0) 0 0 0 "" "".

Ltac artikel_fits :=
  split; unfold text_ok, value_ok, is_int, SCAN_BLOCK_LAENGE; repeat first [ done | lia | constructor | progress cbn ].
Lemma three_ok : map_Forall (fun _ => artikel_ok) three.(MagnetartikelDb).
Proof.
  cbn [three MagnetartikelDb]. do 2 (apply (map_Forall_insert_2 (M := gmap Z)); [artikel_fits |]).
  apply (map_Forall_singleton (M := gmap Z)). artikel_fits.
Qed.
Lemma three_close : close (keys three.(MagnetartikelDb)).
Proof.
  assert (keys three.(MagnetartikelDb) ⊆ [3; 7; 9]) as H by (vm_compute; set_solver).
  intros k k' Hk%H Hk'%H. rewrite !elem_of_cons, elem_of_nil in *. lia.
Qed.
Lemma saved_accessories_load_witness : exists files' e',
  MagnetartikelSaveMagnetartikelCs2 (fun _ => true) ∅ three = Some files' /\
  MagnetartikelLoadMagnetartikelCs2 "" 0 a_parser signal (fun _ => true) files' nothing = Some e' /\
  e'.(MagnetartikelDb) = reloaded signal three.(MagnetartikelDb).
Proof.
  apply (saved_accessories_load "" 0 a_parser signal three nothing "/cfg/" "/cfg/magnetartikel.cs2" (fun _ => true) ∅).
  - cbn [three MagnetartikelDb]. do 2 (apply (map_Forall_insert_2 (M := gmap Z)); [reflexivity |]).
    apply (map_Forall_singleton (M := gmap Z)). reflexivity.
  - exact three_ok.
  - exact three_close.
  - reflexivity.
  - reflexivity.
  - reflexivity.
  - reflexivity.
  - reflexivity.
Defined.
End MagnetartikelSpec.
