(* ===== verification/MrGleisbild.v ===== *)
(** The track pages of the control centre of mrsystem: their list
    (src/mrsystem/src/client_zentrale/gleisbild.c) and a page
    (src/mrsystem/src/client_zentrale/gleisbildpage.c), with their files.

    [GleisbildSpec], [GleisbildPageSpec]: what is written is what is
    read, and where a page that is saved goes. *)

From S2P Require Import Prelude World Messages Text MrCs2 MrIpc MrNumber MrScan MrCs2Parse MrCs2Spec MrConfig.

(** * The list of the pages *)

Module Gleisbild.
Import Number Cs2Parse Config.
Import MrIpc(switch).

Record GleisbildInfo := mk_page { Id : Z; Name : string; Zustand : Z }.
#[export] Instance eta_page : Settable GleisbildInfo := fun g => mk_page g.(Id) g.(Name) g.(Zustand).
Record GleisbildStruct := mk_gleisbild {
  GleisbildFilePath : option string;
  NumPages : Z;
  GleisbildDb : gmap Z GleisbildInfo }.
#[export] Instance eta_gleisbild : Settable GleisbildStruct := fun d =>
  mk_gleisbild d.(GleisbildFilePath) d.(NumPages) d.(GleisbildDb).

Definition GleisbildCreate : GleisbildStruct := mk_gleisbild (Some "/var/www/config/") 0 ∅.
Definition GleisbildInit (Data : GleisbildStruct) (GleisbildPath : option string) : GleisbildStruct :=
  Data <| GleisbildFilePath := GleisbildPath |> <| NumPages := 0 |>.
Definition GleisbildClear (Data : GleisbildStruct) : GleisbildStruct :=
  Data <| NumPages := 0 |> <| GleisbildDb := ∅ |>.
(** Both branches copy every field. *)
Definition GleisbildInsert (Data : GleisbildStruct) (g : GleisbildInfo) : option GleisbildStruct :=
  db ← map_set g.(Id) g Data.(GleisbildDb); Some (Data <| GleisbildDb := db |>).
Definition GleisbildDelete (Data : GleisbildStruct) (g : GleisbildInfo) : option GleisbildStruct :=
  db ← map_del g.(Id) Data.(GleisbildDb); Some (Data <| GleisbildDb := db |>).
Definition GleisbildSearch (Data : GleisbildStruct) (Id_ : Z) : option (option GleisbildInfo) :=
  map_get Id_ Data.(GleisbildDb).

(** ** Reading *)

(** The table and the variables of [GleisbildParseGleisbildCs2]. *)
Record loading := mk_loading { Data : GleisbildStruct; NewGleisbild : GleisbildInfo; NumRead : Z }.
#[export] Instance eta_loading : Settable loading := fun l => mk_loading l.(Data) l.(NewGleisbild) l.(NumRead).
Definition set_new (f : GleisbildInfo -> GleisbildInfo) : prog loading unit := modify (fun l => l <| NewGleisbild ::= f |>).
Definition insert_read : prog loading unit :=
  let* l := get in
  let* d := need (GleisbildInsert l.(Data) l.(NewGleisbild)) in
  modify (fun l => l <| Data := d |>).
(** The cases of [PARSER_VALUE]; those left out do nothing. *)
Definition value_read (sub level : Z) (v : string) : prog loading unit :=
  let n := i32 (strtoul v) in
  switch sub [
    (PARSER_VALUE_SEITE,
      let* k := gets NumRead in
      do* (if negb (k =? 0) then insert_read else ret tt) in
      do* modify (fun l => l <| NumRead ::= Z.succ |>) in
      set_new (fun g => g <| Id := 0 |> <| Zustand := 0 |>));
    (PARSER_VALUE_NAME, do* guard (String.length v <? 32)%nat in set_new (fun g => g <| Name := v |>));
    (PARSER_VALUE_ID, set_new (fun g => g <| Id := n |>));
    (PARSER_VALUE_ZUSTAND, set_new (fun g => g <| Id := n |>))]
  (ret tt).

Definition CS2_FILE_STRING_GLEISBILD : string := "gleisbild.cs2".
Section Files.
(** The parser and the local variable before anything is set in them. *)
Context (zk0 : string) (i0 : Z) (memory : cs2parser) (stack : GleisbildInfo).
Definition GleisbildParseGleisbildCs2 (Buf : list ascii) (Len : nat) (d : GleisbildStruct) : option (bool * GleisbildStruct) :=
  '(LineInfo, l) ← parse value_read insert_read zk0 i0 memory PARSER_TYPE_GLEISBILD_CS2 Buf Len (mk_loading d stack 0);
  Some (LineInfo =? PARSER_EOF, l.(Data) <| NumPages := l.(NumRead) |>).
(** The file is read where [strcat] gives the null pointer, which it never does. *)
Definition strcat_is_null : bool := false.
Definition GleisbildLoadGleisbildCs2 (may_open : string -> bool) (files : disk) (d : GleisbildStruct) : option GleisbildStruct :=
  match d.(GleisbildFilePath) with
  | None => Some d
  | Some path =>
      name ← file_name path CS2_FILE_STRING_GLEISBILD;
      if strcat_is_null then
        match files !! name with
        | Some content =>
            if may_open name then
              '(ok, d) ← GleisbildParseGleisbildCs2 content (length content) d;
              Some (if negb ok then GleisbildClear d else d)
            else Some d
        | None => Some d
        end
      else Some d
  end.
End Files.

(** ** Writing *)

Definition WriteGleisbildOfGleisbildCs2 (g : GleisbildInfo) : string :=
  fmt [Cs2WriteTitleByName "seite" 0;
       if negb (g.(Id) =? 0) then Cs2WriteIntValueByName "id" g.(Id) 1 else "";
       Cs2WriteStringValueByName "name" g.(Name) 1].
Definition CS2_PARAGRAPH_TYPE_GLEISBILD : Z := 4.
Definition gleisbild_file (d : GleisbildStruct) : option string :=
  heading ← Cs2WriteParagraphByType CS2_PARAGRAPH_TYPE_GLEISBILD;
  first ← GleisbildSearch d 0;
  seiten ← walk_ids d.(GleisbildDb);
  Some (fmt [heading;
    Cs2WriteTitleByName "version" 0;
    Cs2WriteIntValueByName "major" 0 1;
    Cs2WriteIntValueByName "minor" 1 1;
    Cs2WriteTitleByName "groesse" 0;
    match first with
    | Some FirstPage =>
        Cs2WriteTitleByName "zuletztBenutzt" 0 +:+ Cs2WriteStringValueByName "name" FirstPage.(Name) 1
    | None => ""
    end;
    fmt (map WriteGleisbildOfGleisbildCs2 seiten)]).
Definition GleisbildSaveGleisbildCs2 (may_open : string -> bool) (files : disk) (d : GleisbildStruct) : option disk :=
  match d.(GleisbildFilePath) with
  | None => Some files
  | Some path =>
      name ← file_name path CS2_FILE_STRING_GLEISBILD;
      if may_open name then
        text ← gleisbild_file d;
        Some (<[name := String.list_ascii_of_string text]> files)
      else Some files
  end.
End Gleisbild.

(** * A page *)

Module GleisbildPage.
Import Number Cs2Parse Config.
Import MrIpc(switch).

Record GleisbildBildElement := mk_bild_element {
  Id : Z;
  Typ : string;
  Drehung : Z;
  Artikel : Z;
  Text : string;
  Zustand : Z;
  DeviceId : Z }.
#[export] Instance eta_bild_element : Settable GleisbildBildElement := fun e =>
  mk_bild_element e.(Id) e.(Typ) e.(Drehung) e.(Artikel) e.(Text) e.(Zustand) e.(DeviceId).
Record GleisbildPageStruct := mk_gleisbild_page {
  GleisbildName : string;
  GleisbildPageFilePath : option string;
  NumElements : Z;
  Page : Z;
  ElementDb : gmap Z GleisbildBildElement }.
#[export] Instance eta_gleisbild_page : Settable GleisbildPageStruct := fun d =>
  mk_gleisbild_page d.(GleisbildName) d.(GleisbildPageFilePath) d.(NumElements) d.(Page) d.(ElementDb).

(** [GleisbildPageCreate]; what it leaves unset is [memory]'s. *)
Definition GleisbildPageCreate (memory : GleisbildPageStruct) : GleisbildPageStruct :=
  memory <| GleisbildPageFilePath := Some "/var/www/config/" |> <| NumElements := 0 |> <| ElementDb := ∅ |>.
Definition GleisbildPageInit (Data : GleisbildPageStruct) (GleisbildPagePath : option string) (GleisbildName_ : string)
    (PageNum : Z) : GleisbildPageStruct :=
  Data <| GleisbildPageFilePath := GleisbildPagePath |> <| GleisbildName := GleisbildName_ |> <| NumElements := 0 |>
    <| Page := PageNum |>.
Definition GleisbildPageClear (Data : GleisbildPageStruct) : GleisbildPageStruct :=
  Data <| NumElements := 0 |> <| ElementDb := ∅ |>.
(** Both branches copy every field. *)
Definition GleisbildPageInsert (Data : GleisbildPageStruct) (e : GleisbildBildElement) : option GleisbildPageStruct :=
  db ← map_set e.(Id) e Data.(ElementDb); Some (Data <| ElementDb := db |>).
Definition GleisbildPageDelete (Data : GleisbildPageStruct) (e : GleisbildBildElement) : option GleisbildPageStruct :=
  db ← map_del e.(Id) Data.(ElementDb); Some (Data <| ElementDb := db |>).
Definition GleisbildPageSearch (Data : GleisbildPageStruct) (Id_ : Z) : option (option GleisbildBildElement) :=
  map_get Id_ Data.(ElementDb).

(** ** Reading *)

(** The page and the variables of [GleisbildPageParseGleisbildPageCs2]. *)
Record loading := mk_loading { Data : GleisbildPageStruct; NewElement : GleisbildBildElement; NumRead : Z }.
#[export] Instance eta_loading : Settable loading := fun l => mk_loading l.(Data) l.(NewElement) l.(NumRead).
Definition set_new (f : GleisbildBildElement -> GleisbildBildElement) : prog loading unit :=
  modify (fun l => l <| NewElement ::= f |>).
Definition unset (e : GleisbildBildElement) : GleisbildBildElement :=
  e <| Drehung := -1 |> <| Text := "" |> <| Zustand := -1 |> <| DeviceId := -1 |>.
Definition CS2_GLEISBILD_TYP_STRING_LEER : string := "leer".
(** What a function that can be undefined makes of the page and the element. *)
Definition into_page (f : GleisbildPageStruct -> GleisbildBildElement -> option GleisbildPageStruct) : prog loading unit :=
  let* l := get in
  let* d := need (f l.(Data) l.(NewElement)) in
  modify (fun l => l <| Data := d |>).
(** At the end of the file the element is inserted whatever its type is. *)
Definition insert_last : prog loading unit := into_page GleisbildPageInsert.
Definition insert_read : prog loading unit :=
  into_page (fun d e => if String.eqb e.(Typ) CS2_GLEISBILD_TYP_STRING_LEER then GleisbildPageDelete d e else GleisbildPageInsert d e).
(** The cases of [PARSER_VALUE]; those left out do nothing. *)
Definition value_read (sub level : Z) (v : string) : prog loading unit :=
  let n := i32 (strtoul v) in
  switch sub [
    (PARSER_VALUE_ELEMENT,
      let* k := gets NumRead in
      do* (if negb (k =? 0) then insert_read else ret tt) in
      do* modify (fun l => l <| NumRead ::= Z.succ |>) in
      set_new unset);
    (PARSER_VALUE_PAGE, modify (fun l => l <| Data ::= fun d => d <| Page := n |> |>));
    (PARSER_VALUE_ID, set_new (fun e => e <| Id := n |>));
    (PARSER_VALUE_TYP, do* guard (String.length v <? 32)%nat in set_new (fun e => e <| Typ := v |>));
    (PARSER_VALUE_DREHUNG, set_new (fun e => e <| Drehung := n |>));
    (PARSER_VALUE_ARTIKEL, set_new (fun e => e <| Artikel := n |>));
    (PARSER_VALUE_TEXT, do* guard (String.length v <? 64)%nat in set_new (fun e => e <| Text := v |>));
    (PARSER_VALUE_ZUSTAND, set_new (fun e => e <| Zustand := n |>));
    (PARSER_VALUE_DEVICE_ID, set_new (fun e => e <| DeviceId := n |>))]
  (ret tt).

Definition CS2_FILE_EXTENSION : string := ".cs2".
Definition CS2_GLEISBILD_PAGE_SUBDIR : string := "gleisbilder/".
(** The name that is loaded; the name that is saved has no extension. *)
Definition save_name (path page : string) : option string :=
  p ← with_slash path;
  dir ← with_slash (p +:+ CS2_GLEISBILD_PAGE_SUBDIR);
  Some (dir +:+ page).
Definition load_name (path page : string) : option string :=
  name ← save_name path page; Some (name +:+ CS2_FILE_EXTENSION).
(** The text it puts into [PageName], which has room for 127 characters. *)
Definition GleisbildPageGetName (Data : GleisbildPageStruct) : option string :=
  dir ← with_slash CS2_GLEISBILD_PAGE_SUBDIR;
  let name := dir +:+ Data.(GleisbildName) +:+ CS2_FILE_EXTENSION in
  if (String.length name <? 128)%nat then Some name else None.

Section Files.
(** The parser and the local variable before anything is set in them. *)
Context (zk0 : string) (i0 : Z) (memory : cs2parser) (stack : GleisbildBildElement).
Definition GleisbildPageParseGleisbildPageCs2 (Buf : list ascii) (Len : nat) (d : GleisbildPageStruct) :
    option (bool * GleisbildPageStruct) :=
  '(LineInfo, l) ← parse value_read insert_last zk0 i0 memory PARSER_TYPE_GLEISBILD_SEITE Buf Len (mk_loading d (unset stack) 0);
  Some (LineInfo =? PARSER_EOF, l.(Data) <| NumElements := l.(NumRead) |>).
(** [malloc] of no bytes is taken to give memory. *)
Definition GleisbildPageLoadGleisbildPageCs2 (may_open : string -> bool) (files : disk) (d : GleisbildPageStruct) :
    option GleisbildPageStruct :=
  match d.(GleisbildPageFilePath) with
  | None => Some d
  | Some path =>
      name ← load_name path d.(GleisbildName);
      match files !! name with
      | Some content =>
          if may_open name then
            '(ok, d) ← GleisbildPageParseGleisbildPageCs2 content (length content) d;
            Some (if negb ok then GleisbildPageClear d else d)
          else Some d
      | None => Some d
      end
  end.
End Files.

(** ** Writing *)

Definition WriteElementOfGleisbildPageCs2 (e : GleisbildBildElement) : string :=
  let part (name : string) (v : Z) := if negb (v =? -1) then Cs2WriteIntValueByName name v 1 else "" in
  fmt [Cs2WriteTitleByName "element" 0;
       Cs2WriteHexLongValueByName "id" (u64 e.(Id)) 1;
       Cs2WriteStringValueByName "typ" e.(Typ) 1;
       part "drehung" e.(Drehung);
       Cs2WriteIntValueByName "artikel" e.(Artikel) 1;
       if negb (String.length e.(Text) =? 0)%nat then Cs2WriteStringValueByName "text" e.(Text) 1 else "";
       part "zustand" e.(Zustand);
       part "deviceId" e.(DeviceId)].
Definition CS2_PARAGRAPH_TYPE_GLEISBILDSEITE : Z := 5.
Definition page_file (d : GleisbildPageStruct) : option string :=
  heading ← Cs2WriteParagraphByType CS2_PARAGRAPH_TYPE_GLEISBILDSEITE;
  elements ← walk_ids d.(ElementDb);
  Some (fmt [heading;
    Cs2WriteTitleByName "version" 0;
    Cs2WriteIntValueByName "major" 0 1;
    Cs2WriteIntValueByName "minor" 1 1;
    fmt (map WriteElementOfGleisbildPageCs2 elements)]).
Definition GleisbildPageSaveGleisbildPageCs2 (may_open : string -> bool) (files : disk) (d : GleisbildPageStruct) : option disk :=
  match d.(GleisbildPageFilePath) with
  | None => Some files
  | Some path =>
      name ← save_name path d.(GleisbildName);
      if may_open name then
        text ← page_file d;
        Some (<[name := String.list_ascii_of_string text]> files)
      else Some files
  end.
End GleisbildPage.

(** * The list of the pages *)

Module GleisbildSpec.
Import Number Scan Cs2Parse Cs2Spec Config ConfigSpec Gleisbild.

Abbreviation table := GleisbildCs2Keywords.
Abbreviation effect := (ConfigSpec.effect value_read table).

Definition seite_lines (g : GleisbildInfo) : list line :=
  [Title 0 "seite"] ++ (if negb (g.(Id) =? 0) then [Entry 1 "id" (dec g.(Id))] else []) ++ [Entry 1 "name" g.(Name)].
Definition seite_ok (g : GleisbildInfo) : Prop := value_ok g.(Name) /\ (String.length g.(Name) < 32)%nat /\ is_int g.(Id).

Lemma write_seite g : WriteGleisbildOfGleisbildCs2 g = text_of (seite_lines g).
Proof.
  unfold WriteGleisbildOfGleisbildCs2, seite_lines, Cs2WriteIntValueByName. rewrite !map_app, !fmt_app.
  destruct (g.(Id) =? 0); cbn [negb map line_text fmt]; rewrite <- !str_app_assoc; reflexivity.
Qed.
Lemma seite_lines_ok g : seite_ok g -> Forall (line_ok table) (seite_lines g).
Proof. intros (Hn & _ & Hi). unfold seite_lines. destruct (_ =? _); cbn [negb app]; lines_ok. Qed.

(** What a page has in the file. *)
Definition stored (g : GleisbildInfo) : GleisbildInfo := g <| Zustand := 0 |>.
Definition taken (d : GleisbildStruct) (g : GleisbildInfo) : GleisbildStruct :=
  d <| GleisbildDb ::= fun db => put Id (fun _ => false) db g |>.
Definition pending (st : loading) : GleisbildStruct :=
  if st.(NumRead) =? 0 then st.(Data) else taken st.(Data) st.(NewGleisbild).

Section Near.
Context (ks : list Z) (Hks : close ks).
Definition fits_in (st : loading) : Prop :=
  among ks st.(Data).(GleisbildDb) /\ (st.(NumRead) = 0 \/ st.(NewGleisbild).(Id) ∈ ks).
Lemma seite_taken d g : g.(Id) ∈ ks -> among ks d.(GleisbildDb) -> GleisbildInsert d g = Some (taken d g).
Proof using Hks. intros. unfold GleisbildInsert. by rewrite (map_set_run ks Hks). Qed.
Lemma seiten_among st : fits_in st -> among ks (pending st).(GleisbildDb).
Proof. intros [H1 H2]. unfold pending. destruct (Z.eqb_spec st.(NumRead) 0); [done |]. apply among_set; tauto. Qed.

Lemma seite_run g st : seite_ok g -> fits_in st ->
  for_each (seite_lines g) effect st = Some (tt, mk_loading (pending st) (stored g) (Z.succ st.(NumRead))).
Proof using Hks.
  intros (_ & Hn & Hi) [Hf1 Hf2]. unfold seite_lines. cbn [app].
  assert (effect (Title 0 "seite") st = Some (tt, mk_loading (pending st) (st.(NewGleisbild) <| Id := 0 |> <| Zustand := 0 |>)
    (Z.succ st.(NumRead)))) as E.
  { transitivity ((do* (if negb (st.(NumRead) =? 0) then insert_read else ret tt) in
      do* modify (fun l => l <| NumRead ::= Z.succ |>) in set_new (fun g => g <| Id := 0 |> <| Zustand := 0 |>)) st); [done |].
    unfold pending. destruct (Z.eqb_spec st.(NumRead) 0) as [E0 | E0]; cbn [negb].
    - by destruct st.
    - unfold insert_read. rewrite !bind_assoc, bind_get, seite_taken by tauto. by destruct st. }
  rewrite (run_line _ _ _ _ E). destruct (Z.eqb_spec g.(Id) 0) as [Hz |]; cbn [negb app]; [| erewrite run_line by reflexivity];
    (erewrite run_line by (etrans; [apply (room_run _ 32 (set_new _)); exact Hn | reflexivity]));
    unfold for_each, ret; cbn -[strtoul dec]; unfold stored; cbn; rewrite ?read_dec, <- ?Hz by done; by destruct g.
Qed.

End Near.

Definition first_lines (first : option GleisbildInfo) : list line :=
  [Heading "gleisbild"; Title 0 "version"; Entry 1 "major" (dec 0); Entry 1 "minor" (dec 1); Title 0 "groesse"] ++
  match first with Some g => [Title 0 "zuletztBenutzt"; Entry 1 "name" g.(Name)] | None => [] end.
Definition file_lines (first : option GleisbildInfo) (l : list GleisbildInfo) : list line :=
  first_lines first ++ concat (map seite_lines l).
Lemma seite_file_text d : close (0 :: keys d.(GleisbildDb)) ->
  gleisbild_file d = Some (text_of (file_lines (d.(GleisbildDb) !! 0) (by_number d.(GleisbildDb)))).
Proof.
  intros Hc. assert (among (0 :: keys d.(GleisbildDb)) d.(GleisbildDb)) as Ha.
  { eapply map_Forall_impl; [apply among_keys |]. intros k g Hk. by right. }
  unfold gleisbild_file, GleisbildSearch. rewrite (walk_ids_run _ Hc), (map_get_run _ Hc) by (done || left). change (Cs2WriteParagraphByType _) with (Some (Cs2WriteParagraphByName "gleisbild")).
  cbn [mbind option_bind]. unfold file_lines. rewrite map_app, fmt_app, <- concat_text, map_map.
  rewrite (map_ext _ _ write_seite). unfold first_lines, Cs2WriteIntValueByName. rewrite map_app, fmt_app.
  destruct (d.(GleisbildDb) !! 0); cbn [map line_text fmt]; f_equal; rewrite <- !str_app_assoc, <- !append_nil; reflexivity.
Qed.
Lemma seite_file_lines_ok first l : match first with Some g => seite_ok g | None => True end -> Forall seite_ok l ->
  Forall (line_ok table) (file_lines first l).
Proof.
  intros Hf Hok. unfold file_lines, first_lines. rewrite !Forall_app. split_and!.
  - constructor; [by repeat constructor | lines_ok].
  - destruct first as [g |]; [destruct Hf as (Hn & _ & _) |]; lines_ok.
  - apply Forall_concat, Forall_map. eapply Forall_impl; [done |]. apply seite_lines_ok.
Qed.
Lemma seite_first_run first st : match first with Some g => seite_ok g | None => True end ->
  exists st', for_each (first_lines first) effect st = Some (tt, st') /\ st'.(Data) = st.(Data) /\ st'.(NumRead) = st.(NumRead).
Proof.
  intros Hf. unfold first_lines. rewrite (run_app _ _ _ st) by done. destruct first as [g |]; [| by exists st].
  destruct Hf as (_ & Hn & _). exists (st <| NewGleisbild ::= fun e => e <| Name := g.(Name) |> |>). split; [| done].
  erewrite run_line by reflexivity. by erewrite run_line by (etrans; [apply (room_run _ 32 (set_new _)); exact Hn | reflexivity]).
Qed.
Lemma seiten_run ks l st : close ks -> fits_in ks st -> Forall seite_ok l -> Forall (fun g => g.(Id) ∈ ks) l -> 0 < st.(NumRead) ->
  exists st', for_each (concat (map seite_lines l)) effect st = Some (tt, st') /\ fits_in ks st' /\
    taken st'.(Data) st'.(NewGleisbild) = foldl taken (taken st.(Data) st.(NewGleisbild)) (map stored l) /\
    st'.(NumRead) = st.(NumRead) + Z.of_nat (length l).
Proof.
  intros Hks. revert st. induction l as [| g l IH]; intros st Hf Hok Hin Hk; [exists st; cbn; rewrite Z.add_0_r; done |].
  apply Forall_cons in Hok as [Hg Hok]. apply Forall_cons in Hin as [Hi Hin]. cbn [map concat foldl].
  rewrite (run_app _ _ _ _ (seite_run ks Hks g st Hg Hf)).
  destruct (IH (mk_loading (pending st) (stored g) (Z.succ st.(NumRead)))) as (st' & -> & Hf' & E & En); [| done | done | cbn; lia |].
  - split; [by apply seiten_among | by right].
  - exists st'. split; [done |]. split; [done |]. rewrite E, En. cbn [Data NewGleisbild NumRead length]. split; [| lia].
    unfold pending. by replace (st.(NumRead) =? 0) with false by zbool.
Qed.

(** The text of a list of pages is read as that list, with the state of every
    page cleared; GleisbildLoadGleisbildCs2 does not get that far. *)
Theorem gleisbild_file_parses zk0 i0 memory stack d e :
  keyed Id d.(GleisbildDb) -> map_Forall (fun _ => seite_ok) d.(GleisbildDb) -> close (0 :: keys d.(GleisbildDb)) ->
  d.(GleisbildDb) <> ∅ -> e.(GleisbildDb) = ∅ ->
  exists text e', gleisbild_file d = Some text /\
    GleisbildParseGleisbildCs2 zk0 i0 memory stack (bytes text) (String.length text) e = Some (true, e') /\
    e'.(GleisbildDb) = stored <$> d.(GleisbildDb) /\ e'.(NumPages) = Z.of_nat (size d.(GleisbildDb)).
Proof.
  intros Hk Hok Hc Hne He. set (ks := 0 :: keys d.(GleisbildDb)) in *. set (ls := by_number d.(GleisbildDb)).
  assert (Forall seite_ok ls) as Hw.
  { apply Forall_forall. intros a Ha%(by_number_in Id); [by eapply Hok | done]. }
  assert (Forall (fun g => g.(Id) ∈ ks) ls) as Hin.
  { apply Forall_forall. intros a Ha. right. by apply (by_number_keyed Id). }
  assert (match d.(GleisbildDb) !! 0 with Some g => seite_ok g | None => True end) as Hfirst.
  { destruct (d.(GleisbildDb) !! 0) eqn:E0; [by eapply Hok | done]. }
  pose proof (put_walk Id (fun _ => false) _ Hk stored ltac:(done)) as Hput. fold ls in Hput.
  assert (length ls = size d.(GleisbildDb)) as Hlen by apply by_number_length.
  exists (text_of (file_lines (d.(GleisbildDb) !! 0) ls)).
  destruct ls as [| g l] eqn:W; [exfalso; by apply Hne, by_number_nil |].
  pose proof (seite_file_lines_ok _ _ Hfirst Hw) as Hlines. apply Forall_cons in Hw as [Hg Hl], Hin as [Hi Hin].
  destruct (seite_first_run (d.(GleisbildDb) !! 0) (mk_loading e stack 0) Hfirst) as (st1 & E1 & Ed & Ek).
  assert (fits_in ks st1) as Hf1 by (split; [rewrite Ed; cbn; rewrite He; apply among_empty | by left]).
  destruct (seiten_run ks l (mk_loading (pending st1) (stored g) (Z.succ st1.(NumRead))) Hc) as (st2 & E2 & [Hf2 Hf3] & Ei & En);
    [split; [by apply seiten_among | by right] | done | done | cbn; rewrite Ek; cbn; lia |].
  assert (for_each (file_lines (d.(GleisbildDb) !! 0) (g :: l)) effect (mk_loading e stack 0) = Some (tt, st2)) as E.
  { unfold file_lines. rewrite (run_app _ _ _ _ E1). cbn [map concat]. by rewrite (run_app _ _ _ _ (seite_run ks Hc g st1 Hg Hf1)). }
  assert (insert_read st2 = Some (tt, st2 <| Data := taken st2.(Data) st2.(NewGleisbild) |>)) as Er.
  { unfold insert_read. rewrite bind_get, (seite_taken ks Hc); [done | | done].
    destruct Hf3 as [H0 |]; [| done]. rewrite En in H0. cbn in H0. rewrite Ek in H0. cbn in H0. lia. }
  eexists. split; [rewrite seite_file_text by done; by fold ls; rewrite W |]. split.
  { unfold GleisbildParseGleisbildCs2. rewrite <- str_length_bytes.
    by rewrite (file_read _ _ table zk0 i0 memory PARSER_TYPE_GLEISBILD_CS2 eq_refl _ _ _ _ Hlines E Er). }
  cbn -[taken]. rewrite Ei, En. cbn [Data NewGleisbild NumRead]. unfold pending. rewrite Ek, Ed. cbn [NumRead Data Z.eqb].
  split; [| rewrite <- Hlen; cbn [length]; lia].
  assert (forall l d, (foldl taken d l).(GleisbildDb) = foldl (put Id (fun _ => false)) d.(GleisbildDb) l) as Hfold.
  { clear. intros l. induction l as [| g l IH]; intros d; [done |]. cbn [foldl]. by rewrite IH. }
  change (taken e (stored g)) with (foldl taken e [stored g]). rewrite <- foldl_app, Hfold, He. cbn [app].
  change (stored g :: map stored l) with (map stored (g :: l)). rewrite Hput. apply map_filter_id. done.
Qed.
(** ** Example *)

Definition station : GleisbildInfo := mk_page 0 "Bahnhof" 0.
Definition yard : GleisbildInfo := mk_page 1 "Rangierbahnhof" 1.
Definition two_pages : GleisbildStruct := mk_gleisbild (Some "/cfg/") 2 (<[0 := station]> {[1 := yard]}).
Definition no_pages : GleisbildStruct := mk_gleisbild (Some "/cfg/") 0 ∅.
Definition a_parser : cs2parser := mk_cs2parser (ScanCreate "" 0) 0 0 0 "" "".
Ltac fits := unfold seite_ok, value_ok, is_int, SCAN_BLOCK_LAENGE; repeat first [ done | lia | constructor | progress cbn ].
Lemma gleisbild_file_parses_witness : exists text e', gleisbild_file two_pages = Some text /\
  GleisbildParseGleisbildCs2 "" 0 a_parser station (bytes text) (String.length text) no_pages = Some (true, e') /\
  e'.(GleisbildDb) = stored <$> two_pages.(GleisbildDb) /\ e'.(NumPages) = Z.of_nat (size two_pages.(GleisbildDb)).
Proof.
  apply (gleisbild_file_parses "" 0 a_parser station two_pages no_pages).
  - cbn [two_pages GleisbildDb]. apply (map_Forall_insert_2 (M := gmap Z)); [reflexivity |].
    apply (map_Forall_singleton (M := gmap Z)). reflexivity.
  - cbn [two_pages GleisbildDb]. apply (map_Forall_insert_2 (M := gmap Z)); [fits |].
    apply (map_Forall_singleton (M := gmap Z)). fits.
  - assert (0 :: keys two_pages.(GleisbildDb) ⊆ [0; 1]) as H by (vm_compute; set_solver).
    intros k k' Hk%H Hk'%H. rewrite !elem_of_cons, elem_of_nil in *. lia.
  - intros E. assert (two_pages.(GleisbildDb) !! 0 = None) as H by (rewrite E; apply lookup_empty). discriminate H.
  - reflexivity.
Defined.
End GleisbildSpec.

(** * A page *)

Module GleisbildPageSpec.
Import Number Scan Cs2Parse Cs2Spec Config ConfigSpec GleisbildPage.

Abbreviation table := GleisbildPageCs2Keywords.
Abbreviation effect := (ConfigSpec.effect value_read table).

Definition part (name : string) (v : Z) : list line := if negb (v =? -1) then [Entry 1 name (dec v)] else [].
Definition element_lines (e : GleisbildBildElement) : list line :=
  [Title 0 "element"; Entry 1 "id" ("0x" +:+ hex (u64 e.(Id))); Entry 1 "typ" e.(Typ)] ++ part "drehung" e.(Drehung) ++
  [Entry 1 "artikel" (dec e.(Artikel))] ++
  (if negb (String.length e.(Text) =? 0)%nat then [Entry 1 "text" e.(Text)] else []) ++
  part "zustand" e.(Zustand) ++ part "deviceId" e.(DeviceId).
Definition element_ok (e : GleisbildBildElement) : Prop :=
  value_ok e.(Typ) /\ (String.length e.(Typ) < 32)%nat /\
  value_ok e.(Text) /\ (String.length e.(Text) < 64)%nat /\
  Forall is_int [e.(Id); e.(Drehung); e.(Artikel); e.(Zustand); e.(DeviceId)].

Lemma part_text name v : text_of (part name v) = if negb (v =? -1) then Cs2WriteIntValueByName name v 1 else "".
Proof. unfold part. destruct (negb (v =? -1)); [| done]. cbn [map line_text fmt]. by rewrite <- append_nil. Qed.
Lemma write_element e : WriteElementOfGleisbildPageCs2 e = text_of (element_lines e).
Proof.
  unfold WriteElementOfGleisbildPageCs2, element_lines, Cs2WriteHexLongValueByName. rewrite !map_app, !fmt_app, !part_text.
  destruct (String.length (Text e) =? 0)%nat; cbn [negb map line_text fmt]; rewrite <- !str_app_assoc, <- ?append_nil; reflexivity.
Qed.
Lemma part_ok name v : is_int v -> known table name = true -> Forall (line_ok table) (part name v).
Proof. intros Hv Hn. unfold part. destruct (negb _); [| done]. constructor; [| done]. apply entry_ok; [done | by apply dec_ok]. Qed.
Lemma element_lines_ok e : element_ok e -> Forall (line_ok table) (element_lines e).
Proof.
  intros (Ht & _ & Hx & _ & Hi). rewrite !Forall_cons in Hi. destruct Hi as (H1 & H2 & H3 & H4 & H5 & _).
  unfold element_lines. rewrite !Forall_app. split_and!; try (by apply part_ok); [lines_ok.. |].
  destruct (_ =? _)%nat; cbn [negb]; lines_ok.
Qed.
(** What inserting an element comes to where the numbers are near each other. *)
Definition dropped (e : GleisbildBildElement) : bool := String.eqb e.(Typ) CS2_GLEISBILD_TYP_STRING_LEER.
Definition taken (d : GleisbildPageStruct) (e : GleisbildBildElement) : GleisbildPageStruct :=
  d <| ElementDb ::= fun db => put Id dropped db e |>.
Definition pending (st : loading) : GleisbildPageStruct :=
  if st.(NumRead) =? 0 then st.(Data) else taken st.(Data) st.(NewElement).
Lemma read_hex64 z : is_int z -> i32 (strtoul ("0x" +:+ hex (u64 z))) = z.
Proof.
  intros H. rewrite strtoul_hex by (apply Z.mod_pos_bound; done). unfold wrap. rewrite Z.mod_eq by done.
  replace (z - 2 ^ 64 * (z / 2 ^ 64)) with (z + 2 ^ 64 * - (z / 2 ^ 64)) by ring.
  rewrite i32_mod by (exists (2 ^ 32 * - (z / 2 ^ 64)); ring). by apply swrap_small.
Qed.
Lemma page_part_run name (set : Z -> GleisbildBildElement -> GleisbildBildElement) v d e e' k :
  (forall st, effect (Entry 1 name (dec v)) st = Some (tt, st <| NewElement ::= set (i32 (strtoul (dec v))) |>)) ->
  is_int v -> (v = -1 -> e = e') -> set v e = e' ->
  for_each (part name v) effect (mk_loading d e k) = Some (tt, mk_loading d e' k).
Proof.
  intros He Hv H1 Hs. unfold part. destruct (Z.eqb_spec v (-1)) as [Hm | _]; [by rewrite <- H1 |]. cbn [negb for_each].
  rewrite bind_run, He, read_dec by done. cbn. by rewrite Hs.
Qed.
Section Near.
Context (ks : list Z) (Hks : close ks).
Definition fits_in (st : loading) : Prop :=
  among ks st.(Data).(ElementDb) /\ (st.(NumRead) = 0 \/ st.(NewElement).(Id) ∈ ks).
Lemma insert_read_run st : among ks st.(Data).(ElementDb) -> st.(NewElement).(Id) ∈ ks ->
  insert_read st = Some (tt, st <| Data := taken st.(Data) st.(NewElement) |>).
Proof using Hks.
  intros Hd He. unfold insert_read, into_page. rewrite bind_get. unfold GleisbildPageDelete, GleisbildPageInsert.
  rewrite (map_del_run ks Hks), (map_set_run ks Hks) by done. unfold taken, put, dropped. by destruct (String.eqb _ _).
Qed.
Lemma insert_last_run st : among ks st.(Data).(ElementDb) -> st.(NewElement).(Id) ∈ ks ->
  insert_last st = Some (tt, st <| Data ::= fun d => d <| ElementDb ::= <[st.(NewElement).(Id) := st.(NewElement)]> |> |>).
Proof using Hks.
  intros Hd He. unfold insert_last, into_page, GleisbildPageInsert. by rewrite bind_get, (map_set_run ks Hks).
Qed.
Lemma elements_among st : fits_in st -> among ks (pending st).(ElementDb).
Proof.
  intros [H1 H2]. unfold pending, taken, put. destruct (Z.eqb_spec st.(NumRead) 0); [done |]. cbn.
  destruct (dropped _); [by apply among_del | apply among_set; tauto].
Qed.

Lemma element_run e st : element_ok e -> fits_in st ->
  for_each (element_lines e) effect st = Some (tt, mk_loading (pending st) e (Z.succ st.(NumRead))).
Proof using Hks.
  intros (_ & Ht & _ & Hx & Hi) [Hf1 Hf2]. rewrite !Forall_cons in Hi. destruct Hi as (H1 & H2 & H3 & H4 & H5 & _).
  assert (effect (Title 0 "element") st = Some (tt, mk_loading (pending st) (unset st.(NewElement)) (Z.succ st.(NumRead)))) as E.
  { transitivity ((do* (if negb (st.(NumRead) =? 0) then insert_read else ret tt) in
      do* modify (fun l => l <| NumRead ::= Z.succ |>) in set_new unset) st); [done |].
    unfold pending. destruct (Z.eqb_spec st.(NumRead) 0) as [E0 | E0]; cbn [negb].
    - by destruct st.
    - rewrite bind_run, insert_read_run by tauto. by destruct st. }
  unfold element_lines. cbn [app]. rewrite (run_line _ _ _ _ E). erewrite run_line by reflexivity.
  erewrite run_line by (etrans; [apply (room_run _ 32 (set_new _)); exact Ht | reflexivity]).
  destruct e as [i t dr a x z dv]. cbn [Id Typ Drehung Artikel Text Zustand DeviceId] in *.
  set (n := st.(NewElement)). cbn -[strtoul hex dec part for_each].
  rewrite read_hex64 by done.
  rewrite (run_app _ _ _ _ (page_part_run "drehung" (fun v e => e <| Drehung := v |>) dr _ (mk_bild_element i t (-1) n.(Artikel) "" (-1) (-1))
    (mk_bild_element i t dr n.(Artikel) "" (-1) (-1)) _ ltac:(done) H2 ltac:(by intros ->) eq_refl)).
  erewrite run_line by reflexivity. cbn -[strtoul hex dec part for_each]. rewrite read_dec by done.
  rewrite (run_app _ _ _ (mk_loading (pending st) (mk_bild_element i t dr a x (-1) (-1)) (Z.succ st.(NumRead)))).
  2: { destruct (Nat.eqb_spec (String.length x) 0) as [Hz |]; cbn [negb]; [by destruct x |].
    erewrite run_line by (etrans; [apply (room_run _ 64 (set_new _)); exact Hx | reflexivity]). reflexivity. }
  rewrite (run_app _ _ _ _ (page_part_run "zustand" (fun v e => e <| Zustand := v |>) z _ (mk_bild_element i t dr a x (-1) (-1))
    (mk_bild_element i t dr a x z (-1)) _ ltac:(done) H4 ltac:(by intros ->) eq_refl)).
  apply (page_part_run "deviceId" (fun v e => e <| DeviceId := v |>)); [done | done | by intros -> | done].
Qed.
End Near.

Definition first_lines : list line :=
  [Heading "gleisbildseite"; Title 0 "version"; Entry 1 "major" (dec 0); Entry 1 "minor" (dec 1)].
Definition file_lines (l : list GleisbildBildElement) : list line := first_lines ++ concat (map element_lines l).
Lemma page_file_text d : close (keys d.(ElementDb)) -> page_file d = Some (text_of (file_lines (by_number d.(ElementDb)))).
Proof.
  intros Hc. unfold page_file. rewrite (walk_ids_run _ Hc) by apply among_keys.
  change (Cs2WriteParagraphByType _) with (Some (Cs2WriteParagraphByName "gleisbildseite")).
  cbn [mbind option_bind]. unfold file_lines. rewrite map_app, fmt_app, <- concat_text, map_map.
  rewrite (map_ext _ _ write_element). unfold first_lines, Cs2WriteIntValueByName. cbn [map line_text fmt].
  f_equal. rewrite <- !str_app_assoc, <- append_nil. reflexivity.
Qed.
Lemma page_file_lines_ok l : Forall element_ok l -> Forall (line_ok table) (file_lines l).
Proof.
  intros Hok. unfold file_lines. apply Forall_app. split.
  - constructor; [by repeat constructor | lines_ok].
  - apply Forall_concat, Forall_map. eapply Forall_impl; [done |]. apply element_lines_ok.
Qed.
Lemma elements_run ks l st : close ks -> fits_in ks st -> Forall element_ok l -> Forall (fun e => e.(Id) ∈ ks) l -> 0 < st.(NumRead) ->
  exists st', for_each (concat (map element_lines l)) effect st = Some (tt, st') /\ fits_in ks st' /\
    st'.(Data) = foldl taken st.(Data) (removelast (st.(NewElement) :: l)) /\
    st'.(NewElement) = List.last (st.(NewElement) :: l) st.(NewElement) /\ st'.(NumRead) = st.(NumRead) + Z.of_nat (length l).
Proof.
  intros Hks. revert st. induction l as [| e l IH]; intros st Hf Hok Hin Hk; [exists st; cbn; rewrite Z.add_0_r; done |].
  apply Forall_cons in Hok as [He Hok]. apply Forall_cons in Hin as [Hi Hin]. cbn [map concat].
  rewrite (run_app _ _ _ _ (element_run ks Hks e st He Hf)).
  destruct (IH (mk_loading (pending st) e (Z.succ st.(NumRead)))) as (st' & -> & Hf' & Ed & El & En); [| done | done | cbn; lia |].
  - split; [by apply elements_among | by right].
  - exists st'. split_and!; [done | done | | | rewrite En; cbn [NumRead length]; lia].
    + rewrite Ed. cbn [Data NewElement]. unfold pending. replace (st.(NumRead) =? 0) with false by zbool. done.
    + rewrite El. cbn [NewElement]. apply (last_any e l).
Qed.

(** What an empty page becomes when the text of a page with these elements is
    read, and the last of them in the order of their numbers. *)
Definition reloaded (stack : GleisbildBildElement) (db : gmap Z GleisbildBildElement) : gmap Z GleisbildBildElement :=
  match list.last (by_number db) with
  | None => {[stack.(Id) := unset stack]}
  | Some e => <[e.(Id) := e]> (filter (fun e => e.2.(Typ) <> CS2_GLEISBILD_TYP_STRING_LEER) db)
  end.
Lemma page_fold l d : (foldl taken d l).(ElementDb) = foldl (put Id dropped) d.(ElementDb) l.
Proof. revert d. induction l as [| e l IH]; intros d; [done |]. cbn [foldl]. by rewrite IH. Qed.
Lemma page_read db : keyed Id db -> forall e l, by_number db = e :: l ->
  <[Id (List.last (e :: l) e) := List.last (e :: l) e]> (foldl (put Id dropped) ∅ (removelast (e :: l))) =
  <[Id (List.last (e :: l) e) := List.last (e :: l) e]> (filter (fun e => e.2.(Typ) <> CS2_GLEISBILD_TYP_STRING_LEER) db).
Proof.
  intros Hk e l W. pose proof (put_walk Id dropped _ Hk (fun e => e) ltac:(done)) as Hput. rewrite map_id, map_fmap_id, W in Hput.
  replace (filter (fun e => e.2.(Typ) <> CS2_GLEISBILD_TYP_STRING_LEER) db) with (filter (fun e => dropped e.2 = false) db).
  2: { apply map_filter_ext. intros k b _. cbn. unfold dropped. by rewrite <- (String.eqb_neq (Typ b)). }
  rewrite <- Hput. destruct (@exists_last _ (e :: l) ltac:(done)) as (front & b & ->). rewrite removelast_last, List.last_last, foldl_app.
  cbn [foldl]. unfold put at 2. destruct (dropped b); [by rewrite insert_delete_eq | by rewrite insert_insert_eq].
Qed.

(** C36. What an empty page becomes when the text of a page is read: the elements
    are there again with every field, except for those of the type leer, which are
    taken out when they are read; but the last one in the order of the numbers is
    there whatever its type is, and if the page had no element, there is one made
    of what the stack held.  The number of elements is that of the page that was
    written.  The texts have to fit the parser's lines and their arrays, the
    numbers the type int, and no two numbers may be 2^31 or more apart, for then
    comparing them overflows. *)
Theorem page_file_parses zk0 i0 memory stack d p :
  keyed Id d.(ElementDb) -> map_Forall (fun _ => element_ok) d.(ElementDb) -> close (keys d.(ElementDb)) -> p.(ElementDb) = ∅ ->
  exists text p', page_file d = Some text /\
    GleisbildPageParseGleisbildPageCs2 zk0 i0 memory stack (bytes text) (String.length text) p = Some (true, p') /\
    p'.(ElementDb) = reloaded stack d.(ElementDb) /\ p'.(NumElements) = Z.of_nat (size d.(ElementDb)).
Proof.
  intros Hk Hok Hc Hp. set (ls := by_number d.(ElementDb)). exists (text_of (file_lines ls)).
  assert (Forall element_ok ls) as Hw.
  { apply Forall_forall. intros a Ha%(by_number_in Id); [by eapply Hok | done]. }
  assert (exists st st', for_each (file_lines ls) effect (mk_loading p (unset stack) 0) = Some (tt, st) /\
    insert_last st = Some (tt, st') /\ st'.(Data).(ElementDb) = reloaded stack d.(ElementDb) /\
    st'.(NumRead) = Z.of_nat (length ls)) as (st & st' & E & Er & Hdb & Hn).
  { assert (Forall (fun e => e.(Id) ∈ keys d.(ElementDb)) ls) as Hin.
    { apply Forall_forall. intros a. by apply (by_number_keyed Id). }
    unfold reloaded. fold ls. destruct ls as [| e l] eqn:W.
    - eexists _, _. split; [reflexivity |]. assert (close [stack.(Id)]) as Hcs by (by intros k k' ->%list_elem_of_singleton ->%list_elem_of_singleton; lia).
      rewrite (insert_last_run _ Hcs) by (by left || (cbn; rewrite Hp; apply among_empty)). split; [reflexivity |]. cbn. by rewrite Hp.
    - apply Forall_cons in Hw as [He Hl], Hin as [Hi Hin].
      assert (among (keys d.(ElementDb)) p.(ElementDb)) as Hamong by (rewrite Hp; apply among_empty).
      destruct (elements_run _ l (mk_loading p e 1) Hc) as (st & E & [Hf1 Hf2] & Ed & El & En);
        [split; [done | by right] | done | done | done |].
      exists st. eexists. split_and!.
      + unfold file_lines. rewrite (run_app _ _ _ (mk_loading p (unset stack) 0)) by done. cbn [map concat].
        rewrite (run_app _ _ _ _ (element_run _ Hc e (mk_loading p (unset stack) 0) He (conj Hamong (or_introl eq_refl)))). exact E.
      + apply (insert_last_run _ Hc); [done |]. destruct Hf2 as [H0 |]; [| done]. rewrite En in H0. cbn in H0. lia.
      + cbn -[List.last removelast]. rewrite Ed, El, page_fold. cbn [Data NewElement]. rewrite Hp, (page_read _ Hk e l W).
        destruct (@exists_last _ (e :: l) ltac:(done)) as (front & b & ->). by rewrite List.last_last, last_snoc.
      + cbn. rewrite En. cbn. lia. }
  exists (st'.(Data) <| NumElements := st'.(NumRead) |>). split; [by apply page_file_text |]. split; [| split; [done |]].
  - unfold GleisbildPageParseGleisbildPageCs2. rewrite <- str_length_bytes.
    by rewrite (file_read _ _ table zk0 i0 memory PARSER_TYPE_GLEISBILD_SEITE eq_refl _ _ _ _ (page_file_lines_ok _ Hw) E Er).
  - cbn. rewrite Hn. unfold ls. by rewrite by_number_length.
Qed.

(** ** Where a page goes *)

Lemma load_name_differs path page name name' : save_name path page = Some name -> load_name path page = Some name' -> name <> name'.
Proof.
  unfold load_name. intros ->. cbn [mbind option_bind]. intros [= <-] E. apply (f_equal (fun s => length (bytes s))) in E.
  rewrite bytes_app, length_app in E. cbn in E. lia.
Qed.
(** ** Examples *)

Definition straight : GleisbildBildElement := mk_bild_element 0x102 "gerade" 1 (-1) "" (-1) (-1).
Definition lamp : GleisbildBildElement := mk_bild_element 0x103 "lampe_ge" (-1) 12 "Stellwerk" 1 4711.
Definition a_page : GleisbildPageStruct :=
  mk_gleisbild_page "Bahnhof" (Some "/cfg/") 2 0 (<[0x102 := straight]> {[0x103 := lamp]}).
Definition an_empty_page : GleisbildPageStruct := mk_gleisbild_page "Bahnhof" (Some "/cfg/") 0 0 ∅.
Definition a_parser : cs2parser := mk_cs2parser (ScanCreate "" 0) 0 0 0 "" "".
Ltac fits := unfold element_ok, value_ok, is_int, SCAN_BLOCK_LAENGE; repeat first [ done | lia | constructor | progress cbn ].
Lemma page_file_parses_witness : exists text p', page_file a_page = Some text /\
  GleisbildPageParseGleisbildPageCs2 "" 0 a_parser lamp (bytes text) (String.length text) an_empty_page = Some (true, p') /\
  p'.(ElementDb) = reloaded lamp a_page.(ElementDb) /\ p'.(NumElements) = Z.of_nat (size a_page.(ElementDb)).
Proof.
  apply (page_file_parses "" 0 a_parser lamp a_page an_empty_page).
  - cbn [a_page ElementDb]. apply (map_Forall_insert_2 (M := gmap Z)); [reflexivity |].
    apply (map_Forall_singleton (M := gmap Z)). reflexivity.
  - cbn [a_page ElementDb]. apply (map_Forall_insert_2 (M := gmap Z)); [fits |].
    apply (map_Forall_singleton (M := gmap Z)). fits.
  - assert (keys a_page.(ElementDb) ⊆ [0x102; 0x103]) as H by (vm_compute; set_solver).
    intros k k' Hk%H Hk'%H. rewrite !elem_of_cons, elem_of_nil in *. lia.
  - reflexivity.
Defined.
End GleisbildPageSpec.
