(* ===== verification/MrFahrstrasse.v ===== *)
(** The routes of the control centre of mrsystem
    (src/mrsystem/src/client_zentrale/fahrstrasse.c) and the file
    fahrstrassen.cs2.

    [FahrstrasseSpec]: what is saved and loaded has lost the last item of every
    route but the last one, and the routes without an item. *)

From S2P Require Import Prelude World Messages Text MrCs2 MrIpc MrNumber MrScan MrCs2Parse MrCs2Spec MrConfig.

(** The type [float]: its zero, the text of [%1.3f], and what [atof] makes of a
    text. *)
Class Float := {
  float : Type;
  float_zero : float;
  is_zero : float -> bool;
  print_float : float -> string;
  atof : string -> float }.

Module Fahrstrasse.
Import Number Cs2Parse Config.
Import MrIpc(switch).

Section Routes.
Context `{Float}.

(** * Data *)

Record FahrstrasseItem := mk_item {
  FsVerweis : Z;
  Typ : string;
  Lok : string;
  Magnetartikel : Z;
  Stellung : Z;
  Sekunde : float;
  Idx : Z;
  Wert : Z }.
#[export] Instance eta_item : Settable FahrstrasseItem := fun i =>
  mk_item i.(FsVerweis) i.(Typ) i.(Lok) i.(Magnetartikel) i.(Stellung) i.(Sekunde) i.(Idx) i.(Wert).
Record FahrstrasseInfo := mk_route {
  Id : Z;
  Name : string;
  On : Z;
  S88 : Z;
  S88Ein : Z;
  Extern : Z;
  ItemDb : gmap Z FahrstrasseItem }.
#[export] Instance eta_route : Settable FahrstrasseInfo := fun r =>
  mk_route r.(Id) r.(Name) r.(On) r.(S88) r.(S88Ein) r.(Extern) r.(ItemDb).
Record FahrstrasseStruct := mk_fahrstrasse {
  FahrstrasseFilePath : option string;
  NumPages : Z;
  FahrstrasseDb : gmap Z FahrstrasseInfo }.
#[export] Instance eta_fahrstrasse : Settable FahrstrasseStruct := fun d =>
  mk_fahrstrasse d.(FahrstrasseFilePath) d.(NumPages) d.(FahrstrasseDb).

(** * The table *)

Definition FahrstrasseCreate : FahrstrasseStruct := mk_fahrstrasse (Some "/var/www/config/") 0 ∅.
Definition FahrstrasseInit (Data : FahrstrasseStruct) (FahrstrassePath : option string) : FahrstrasseStruct :=
  Data <| FahrstrasseFilePath := FahrstrassePath |> <| NumPages := 0 |>.
Definition FahrstrasseClear (Data : FahrstrasseStruct) : FahrstrasseStruct :=
  Data <| NumPages := 0 |> <| FahrstrasseDb := ∅ |>.
(** The entry that was there is deleted with its items; the new one takes over
    the map of the items, which the caller does not use again. *)
Definition FahrstrasseInsert (Data : FahrstrasseStruct) (r : FahrstrasseInfo) : option FahrstrasseStruct :=
  old ← map_get r.(Id) Data.(FahrstrasseDb);
  db ← match old with Some _ => map_del r.(Id) Data.(FahrstrasseDb) | None => Some Data.(FahrstrasseDb) end;
  db ← map_set r.(Id) r db;
  Some (Data <| FahrstrasseDb := db |>).
Definition FahrstrasseDelete (Data : FahrstrasseStruct) (r : FahrstrasseInfo) : option FahrstrasseStruct :=
  db ← map_del r.(Id) Data.(FahrstrasseDb); Some (Data <| FahrstrasseDb := db |>).
Definition FahrstrasseSearch (Data : FahrstrasseStruct) (Id_ : Z) : option (option FahrstrasseInfo) :=
  map_get Id_ Data.(FahrstrasseDb).
(** Both branches copy every field. *)
Definition FahrstrasseItemInsert (Data : FahrstrasseInfo) (Nr : Z) (i : FahrstrasseItem) : option FahrstrasseInfo :=
  db ← map_set Nr i Data.(ItemDb); Some (Data <| ItemDb := db |>).
Definition FahrstrasseDeleteItem (Data : FahrstrasseInfo) (Nr : Z) : option FahrstrasseInfo :=
  db ← map_del Nr Data.(ItemDb); Some (Data <| ItemDb := db |>).
Definition FahrstrasseSearchItem (Data : FahrstrasseInfo) (Nr : Z) : option (option FahrstrasseItem) := map_get Nr Data.(ItemDb).

(** * Reading the file *)

(** The table and the variables of [FahrstrasseParseFahrstrasseCs2]. *)
Record loading := mk_loading {
  Data : FahrstrasseStruct;
  NewFahrstrasse : FahrstrasseInfo;
  NewFahrstrasseItem : FahrstrasseItem;
  NumFahrstrassen : Z;
  NumItem : Z }.
#[export] Instance eta_loading : Settable loading := fun l =>
  mk_loading l.(Data) l.(NewFahrstrasse) l.(NewFahrstrasseItem) l.(NumFahrstrassen) l.(NumItem).
Definition set_new (f : FahrstrasseInfo -> FahrstrasseInfo) : prog loading unit := modify (fun l => l <| NewFahrstrasse ::= f |>).
Definition set_item (f : FahrstrasseItem -> FahrstrasseItem) : prog loading unit := modify (fun l => l <| NewFahrstrasseItem ::= f |>).
Definition no_contacts (r : FahrstrasseInfo) : FahrstrasseInfo :=
  r <| S88 := -1 |> <| S88Ein := -1 |> <| Extern := -1 |> <| ItemDb := ∅ |>.
Definition fresh (r : FahrstrasseInfo) : FahrstrasseInfo := no_contacts r <| On := 0 |>.
Definition no_item : FahrstrasseItem := mk_item (-1) "" "" (-1) (-1) float_zero (-1) (-1).
Definition insert_item : prog loading unit :=
  let* l := get in
  let* r := need (FahrstrasseItemInsert l.(NewFahrstrasse) l.(NumItem) l.(NewFahrstrasseItem)) in
  modify (fun l => l <| NewFahrstrasse := r |>).
Definition insert_route : prog loading unit :=
  let* l := get in
  let* d := need (FahrstrasseInsert l.(Data) l.(NewFahrstrasse)) in
  modify (fun l => l <| Data := d |>).
Definition delete_route : prog loading unit :=
  let* l := get in
  let* d := need (FahrstrasseDelete l.(Data) l.(NewFahrstrasse)) in
  modify (fun l => l <| Data := d |>).

(** The case of [PARSER_EOF]. *)
Definition at_end : prog loading unit :=
  let* n := gets NumItem in
  if negb (n =? 0) then do* insert_item in insert_route else delete_route.
(** The cases of [PARSER_VALUE]; those left out do nothing. *)
Definition value_read (sub level : Z) (v : string) : prog loading unit :=
  let n := i32 (strtoul v) in
  switch sub [
    (PARSER_VALUE_FAHRSTRASSE,
      let* k := gets NumFahrstrassen in
      do* (if negb (k =? 0) then
             let* i := gets NumItem in
             if negb (i =? 0) then
               do* insert_route in
               do* modify (fun l => l <| NumItem := 0 |>) in
               set_new fresh
             else do* delete_route in set_new no_contacts
           else ret tt) in
      modify (fun l => l <| NumFahrstrassen ::= Z.succ |>));
    (PARSER_VALUE_ID, set_new (fun r => r <| Id := n |>));
    (PARSER_VALUE_NAME, do* guard (String.length v <? 32)%nat in set_new (fun r => r <| Name := v |>));
    (PARSER_VALUE_S88, set_new (fun r => r <| S88 := n |>));
    (PARSER_VALUE_S88EIN, set_new (fun r => r <| S88Ein := n |>));
    (PARSER_VALUE_EXTERN, set_new (fun r => r <| Extern := n |>));
    (PARSER_VALUE_ITEM,
      let* i := gets NumItem in
      do* (if negb (i =? 0) then insert_item else ret tt) in
      do* modify (fun l => l <| NumItem ::= Z.succ |>) in
      set_item (fun _ => no_item));
    (PARSER_VALUE_FSVERWEIS, set_item (fun i => i <| FsVerweis := n |>));
    (PARSER_VALUE_TYP, do* guard (String.length v <? 32)%nat in set_item (fun i => i <| Typ := v |>));
    (PARSER_VALUE_MAGNETARTIKEL, set_item (fun i => i <| Magnetartikel := n |>));
    (PARSER_VALUE_STELLUNG, set_item (fun i => i <| Stellung := n |>));
    (PARSER_VALUE_LOK, do* guard (String.length v <? 32)%nat in set_item (fun i => i <| Lok := v |>));
    (PARSER_VALUE_SEKUNDE, set_item (fun i => i <| Sekunde := atof v |>));
    (PARSER_VALUE_IDX, set_item (fun i => i <| Idx := n |>));
    (PARSER_VALUE_WERT, set_item (fun i => i <| Wert := n |>))]
  (ret tt).

Definition CS2_FILE_STRING_FAHRSTRASSE : string := "fahrstrassen.cs2".

(** The parser and the local variables before anything is set in them. *)
Context (zk0 : string) (i0 : Z) (memory : cs2parser) (stack : FahrstrasseInfo) (stack_item : FahrstrasseItem).
Definition FahrstrasseParseFahrstrasseCs2 (Buf : list ascii) (Len : nat) (d : FahrstrasseStruct) :
    option (bool * FahrstrasseStruct) :=
  '(LineInfo, l) ← parse value_read at_end zk0 i0 memory PARSER_TYPE_FAHRSTRASSEN_CS2 Buf Len
    (mk_loading d (fresh stack) stack_item 0 0);
  Some (LineInfo =? PARSER_EOF, l.(Data) <| NumPages := l.(NumFahrstrassen) |>).
(** [malloc] of no bytes is taken to give memory. *)
Definition FahrstrasseLoadFahrstrasseCs2 (may_open : string -> bool) (files : disk) (d : FahrstrasseStruct) :
    option FahrstrasseStruct :=
  match d.(FahrstrasseFilePath) with
  | None => Some d
  | Some path =>
      name ← file_name path CS2_FILE_STRING_FAHRSTRASSE;
      match files !! name with
      | Some content =>
          if may_open name then
            '(ok, d) ← FahrstrasseParseFahrstrasseCs2 content (length content) d;
            Some (if negb ok then FahrstrasseClear d else d)
          else Some d
      | None => Some d
      end
  end.

(** * Writing the file *)

(** A field that is written where it is not -1. *)
Definition write_set (name : string) (v level : Z) : string :=
  if negb (v =? -1) then Cs2WriteIntValueByName name v level else "".
Definition Cs2WriteFloatValueByName (Title : string) (Value : float) (Level : Z) : string :=
  Cs2WriteStringValueByName Title (print_float Value) Level.
Definition WriteItemOfFahrstrasseCs2 (i : FahrstrasseItem) : string :=
  fmt [Cs2WriteTitleByName "item" 1;
       write_set "fsverweis" i.(FsVerweis) 2;
       if negb (String.eqb i.(Typ) "") then Cs2WriteStringValueByName "typ" i.(Typ) 2 else "";
       write_set "magnetartikel" i.(Magnetartikel) 2;
       write_set "stellung" i.(Stellung) 2;
       if negb (is_zero i.(Sekunde)) then Cs2WriteFloatValueByName "sekunde" i.(Sekunde) 2 else "";
       write_set "idx" i.(Idx) 2;
       write_set "wert" i.(Wert) 2].
Definition WriteFahrstrasseOfFahrstrasseCs2 (r : FahrstrasseInfo) : option string :=
  items ← walk_ids r.(ItemDb);
  Some (fmt [Cs2WriteTitleByName "fahrstrasse" 0;
       Cs2WriteIntValueByName "id" r.(Id) 1;
       Cs2WriteStringValueByName "name" r.(Name) 1;
       write_set "s88" r.(S88) 1;
       write_set "s88Ein" r.(S88Ein) 1;
       write_set "extern" r.(Extern) 1;
       fmt (map WriteItemOfFahrstrasseCs2 items)]).
Definition CS2_PARAGRAPH_TYPE_FAHRSTRASSEN : Z := 7.
Definition route_file (d : FahrstrasseStruct) : option string :=
  heading ← Cs2WriteParagraphByType CS2_PARAGRAPH_TYPE_FAHRSTRASSEN;
  routes ← walk_ids d.(FahrstrasseDb);
  texts ← mapM WriteFahrstrasseOfFahrstrasseCs2 routes;
  Some (fmt [heading;
    Cs2WriteTitleByName "version" 0;
    Cs2WriteIntValueByName "major" 0 1;
    Cs2WriteIntValueByName "minor" 1 1;
    fmt texts]).
Definition FahrstrasseSaveFahrstrasseCs2 (may_open : string -> bool) (files : disk) (d : FahrstrasseStruct) : option disk :=
  match d.(FahrstrasseFilePath) with
  | None => Some files
  | Some path =>
      name ← file_name path CS2_FILE_STRING_FAHRSTRASSE;
      if may_open name then
        text ← route_file d;
        Some (<[name := String.list_ascii_of_string text]> files)
      else Some files
  end.
End Routes.
End Fahrstrasse.

Module FahrstrasseSpec.
Import Number Scan Cs2Parse Cs2Spec Config ConfigSpec Fahrstrasse.

Section Routes.
Context `{Float}.

Abbreviation table := FahrstrassenCs2Keywords.
Abbreviation effect := (ConfigSpec.effect value_read table).

(** * Lines *)

Definition set_line (name : string) (v : Z) (level : nat) : list line :=
  if negb (v =? -1) then [Entry level name (dec v)] else [].
Definition item_lines (i : FahrstrasseItem) : list line :=
  [Title 1 "item"] ++ set_line "fsverweis" i.(FsVerweis) 2 ++
  (if negb (String.eqb i.(Typ) "") then [Entry 2 "typ" i.(Typ)] else []) ++
  set_line "magnetartikel" i.(Magnetartikel) 2 ++ set_line "stellung" i.(Stellung) 2 ++
  (if negb (is_zero i.(Sekunde)) then [Entry 2 "sekunde" (print_float i.(Sekunde))] else []) ++
  set_line "idx" i.(Idx) 2 ++ set_line "wert" i.(Wert) 2.
Definition head_lines (r : FahrstrasseInfo) : list line :=
  [Title 0 "fahrstrasse"; Entry 1 "id" (dec r.(Id)); Entry 1 "name" r.(Name)] ++
  set_line "s88" r.(S88) 1 ++ set_line "s88Ein" r.(S88Ein) 1 ++ set_line "extern" r.(Extern) 1.
Definition items (r : FahrstrasseInfo) : list FahrstrasseItem := by_number r.(ItemDb).
Definition route_lines (r : FahrstrasseInfo) : list line := head_lines r ++ concat (map item_lines (items r)).

(** Texts that fit, and a printed number of seconds that fits a line. *)
Definition item_ok (i : FahrstrasseItem) : Prop :=
  value_ok i.(Typ) /\ (String.length i.(Typ) < 32)%nat /\ (is_zero i.(Sekunde) = false -> value_ok (print_float i.(Sekunde))) /\
  Forall is_int [i.(FsVerweis); i.(Magnetartikel); i.(Stellung); i.(Idx); i.(Wert)].
Record route_ok (r : FahrstrasseInfo) : Prop := {
  ok_name : value_ok r.(Name) /\ (String.length r.(Name) < 32)%nat;
  ok_ints : Forall is_int [r.(Id); r.(S88); r.(S88Ein); r.(Extern)];
  ok_items : Forall item_ok (items r);
  ok_close : close (keys r.(ItemDb));
  ok_count : Z.of_nat (length (items r)) < 2 ^ 31 }.

Lemma set_text name v level : text_of (set_line name v level) = write_set name v (Z.of_nat level).
Proof. unfold set_line, write_set. destruct (negb (v =? -1)); [| done]. cbn [map line_text fmt]. by rewrite <- append_nil. Qed.
Lemma write_item i : WriteItemOfFahrstrasseCs2 i = text_of (item_lines i).
Proof.
  unfold WriteItemOfFahrstrasseCs2, item_lines. rewrite !map_app, !fmt_app, !set_text. unfold Cs2WriteFloatValueByName.
  destruct (String.eqb _ _), (is_zero _); cbn [negb map line_text fmt]; rewrite <- !str_app_assoc, <- ?append_nil; reflexivity.
Qed.
Lemma write_route r : close (keys r.(ItemDb)) -> WriteFahrstrasseOfFahrstrasseCs2 r = Some (text_of (route_lines r)).
Proof.
  intros Hc. unfold WriteFahrstrasseOfFahrstrasseCs2, route_lines, head_lines, items. rewrite (walk_ids_run _ Hc) by apply among_keys.
  cbn [mbind option_bind]. f_equal. rewrite (map_ext _ _ write_item).
  rewrite !map_app, !fmt_app, !set_text, <- concat_text, map_map. unfold Cs2WriteIntValueByName.
  cbn [map line_text fmt]. rewrite <- !str_app_assoc, <- ?append_nil. reflexivity.
Qed.

Lemma set_ok name v level : is_int v -> known table name = true -> Forall (line_ok table) (set_line name v level).
Proof. intros Hv Hn. unfold set_line. destruct (negb _); [| done]. constructor; [| done]. apply entry_ok; [done | by apply dec_ok]. Qed.
Lemma item_lines_ok i : item_ok i -> Forall (line_ok table) (item_lines i).
Proof.
  intros (Ht & _ & Hs & Hi). rewrite !Forall_cons in Hi. destruct Hi as (H1 & H2 & H3 & H4 & H5 & _).
  unfold item_lines. rewrite !Forall_app. split_and!; try (by apply set_ok).
  - lines_ok.
  - destruct (String.eqb _ _); cbn [negb]; lines_ok.
  - destruct (is_zero _); cbn [negb]; [done |]. specialize (Hs eq_refl). lines_ok.
Qed.
Lemma route_lines_ok r : route_ok r -> Forall (line_ok table) (route_lines r).
Proof.
  intros [[Hn _] Hi Hok _ _]. rewrite !Forall_cons in Hi. destruct Hi as (H1 & H2 & H3 & H4 & _).
  unfold route_lines, head_lines. rewrite !Forall_app. split_and!; try (by apply set_ok); [lines_ok |].
  apply Forall_concat, Forall_map. eapply Forall_impl; [done |]. apply item_lines_ok.
Qed.
(** * What the lines do *)

Lemma item_set name (set : Z -> FahrstrasseItem -> FahrstrasseItem) v d r e e' k n :
  (forall st, effect (Entry 2 name (dec v)) st = Some (tt, st <| NewFahrstrasseItem ::= set (i32 (strtoul (dec v))) |>)) ->
  is_int v -> (v = -1 -> e = e') -> set v e = e' ->
  for_each (set_line name v 2) effect (mk_loading d r e k n) = Some (tt, mk_loading d r e' k n).
Proof.
  intros He Hv H1 Hs. unfold set_line. destruct (Z.eqb_spec v (-1)) as [Hm | _]; [by rewrite <- H1 |]. cbn [negb for_each].
  rewrite bind_run, He, read_dec by done. cbn. by rewrite Hs.
Qed.
Lemma route_set name (set : Z -> FahrstrasseInfo -> FahrstrasseInfo) v d r r' e k n :
  (forall st, effect (Entry 1 name (dec v)) st = Some (tt, st <| NewFahrstrasse ::= set (i32 (strtoul (dec v))) |>)) ->
  is_int v -> (v = -1 -> r = r') -> set v r = r' ->
  for_each (set_line name v 1) effect (mk_loading d r e k n) = Some (tt, mk_loading d r' e k n).
Proof.
  intros He Hv H1 Hs. unfold set_line. destruct (Z.eqb_spec v (-1)) as [Hm | _]; [by rewrite <- H1 |]. cbn [negb for_each].
  rewrite bind_run, He, read_dec by done. cbn. by rewrite Hs.
Qed.

(** An item as it is read: its locomotive is not written, and its seconds are
    those that were printed. *)
Definition stored_item (i : FahrstrasseItem) : FahrstrasseItem :=
  i <| Lok := "" |> <| Sekunde := if is_zero i.(Sekunde) then float_zero else atof (print_float i.(Sekunde)) |>.
(** The items read so far without the last one, the last one, and their number. *)
Definition read_item (s : gmap Z FahrstrasseItem * FahrstrasseItem * Z) (i : FahrstrasseItem) :
    gmap Z FahrstrasseItem * FahrstrasseItem * Z :=
  let '(m, e, n) := s in ((if n =? 0 then m else <[n := e]> m), stored_item i, n + 1).
Definition with_items (d : FahrstrasseStruct) (r : FahrstrasseInfo) (k : Z) (s : gmap Z FahrstrasseItem * FahrstrasseItem * Z) :
    loading := let '(m, e, n) := s in mk_loading d (r <| ItemDb := m |>) e k n.

(** Items read so far have numbers from 1 on. *)
Definition counted (s : gmap Z FahrstrasseItem * FahrstrasseItem * Z) : Prop :=
  let '(m, _, n) := s in 0 <= n < 2 ^ 31 /\ map_Forall (fun k _ => 0 < k < n) m.
Lemma counted_near m e n : counted (m, e, n) -> near n m = true.
Proof. intros [Hn Hm]. apply bool_decide_eq_true. intros k a Ha. specialize (Hm k a Ha). cbn in Hm. lia. Qed.
Lemma read_counted s i : counted s -> s.2 + 1 < 2 ^ 31 -> counted (read_item s i).
Proof.
  destruct s as [[m e] n]. cbn. intros [Hn Hm] Hl. split; [lia |].
  assert (map_Forall (fun k _ => 0 < k < n + 1) m) as Hm' by (eapply map_Forall_impl; [exact Hm |]; cbn; lia).
  destruct (Z.eqb_spec n 0); [done |]. apply map_Forall_insert_2; [lia | done].
Qed.
Lemma item_run i d r k s : item_ok i -> counted s ->
  for_each (item_lines i) effect (with_items d r k s) = Some (tt, with_items d r k (read_item s i)).
Proof.
  intros (_ & Ht & _ & Hi) Hs. rewrite !Forall_cons in Hi. destruct Hi as (H1 & H2 & H3 & H4 & H5 & _).
  destruct s as [[m e] n], i as [fv t lo ma st se ix we]. cbn [FsVerweis Typ Lok Magnetartikel Stellung Sekunde Idx Wert] in *.
  set (m' := if n =? 0 then m else <[n := e]> m). set (r' := r <| ItemDb := m' |>).
  set (se' := if is_zero se then float_zero else atof (print_float se)).
  assert (effect (Title 1 "item") (with_items d r k (m, e, n)) = Some (tt, mk_loading d r' no_item k (n + 1))) as E.
  { transitivity ((do* (if negb (n =? 0) then insert_item else ret tt) in
      do* modify (fun l => l <| NumItem ::= Z.succ |>) in set_item (fun _ => no_item)) (with_items d r k (m, e, n))); [done |].
    unfold r', m'. rewrite Z.add_1_r. destruct (n =? 0) eqn:Z; cbn [negb]; [done |].
    unfold insert_item, FahrstrasseItemInsert, map_set. rewrite !bind_assoc, bind_get. cbn [with_items NewFahrstrasse NumItem NewFahrstrasseItem].
    change (ItemDb (r <| ItemDb := m |>)) with m. by rewrite (counted_near m e n Hs). }
  unfold item_lines. cbn [FsVerweis Typ Lok Magnetartikel Stellung Sekunde Idx Wert app]. rewrite (run_line _ _ _ _ E).
  rewrite (run_app _ _ _ _ (item_set "fsverweis" (fun v i => i <| FsVerweis := v |>) fv d r' no_item
    (mk_item fv "" "" (-1) (-1) float_zero (-1) (-1)) k _ ltac:(done) H1 ltac:(by intros ->) eq_refl)).
  rewrite (run_app _ _ _ (mk_loading d r' (mk_item fv t "" (-1) (-1) float_zero (-1) (-1)) k (n + 1))).
  2: { destruct (String.eqb_spec t "") as [-> |]; [done |]. cbn [negb].
    erewrite run_line by (etrans; [apply (room_run _ 32 (set_item _)); exact Ht | reflexivity]). reflexivity. }
  rewrite (run_app _ _ _ _ (item_set "magnetartikel" (fun v i => i <| Magnetartikel := v |>) ma d r' (mk_item fv t "" (-1) (-1) float_zero (-1) (-1))
    (mk_item fv t "" ma (-1) float_zero (-1) (-1)) k _ ltac:(done) H2 ltac:(by intros ->) eq_refl)).
  rewrite (run_app _ _ _ _ (item_set "stellung" (fun v i => i <| Stellung := v |>) st d r' (mk_item fv t "" ma (-1) float_zero (-1) (-1))
    (mk_item fv t "" ma st float_zero (-1) (-1)) k _ ltac:(done) H3 ltac:(by intros ->) eq_refl)).
  rewrite (run_app _ _ _ (mk_loading d r' (mk_item fv t "" ma st se' (-1) (-1)) k (n + 1))).
  2: { unfold se'. destruct (is_zero se); [done |]. cbn [negb]. by erewrite run_line by reflexivity. }
  rewrite (run_app _ _ _ _ (item_set "idx" (fun v i => i <| Idx := v |>) ix d r' (mk_item fv t "" ma st se' (-1) (-1))
    (mk_item fv t "" ma st se' ix (-1)) k _ ltac:(done) H4 ltac:(by intros ->) eq_refl)).
  by rewrite (item_set "wert" (fun v i => i <| Wert := v |>) we d r' (mk_item fv t "" ma st se' ix (-1))
    (mk_item fv t "" ma st se' ix we) k _ ltac:(done) H5 ltac:(by intros ->) eq_refl).
Qed.
Lemma items_run its d r k s : Forall item_ok its -> counted s -> s.2 + Z.of_nat (length its) < 2 ^ 31 ->
  for_each (concat (map item_lines its)) effect (with_items d r k s) = Some (tt, with_items d r k (foldl read_item s its)).
Proof.
  revert s. induction its as [| i its IH]; intros s Hok Hs Hl; [done |]. apply Forall_cons in Hok as [Hi Hok].
  cbn [map concat foldl length] in *. rewrite (run_app _ _ _ _ (item_run i d r k s Hi Hs)).
  assert ((read_item s i).2 = s.2 + 1) as E by (by destruct s as [[m e] n]).
  apply IH; [done | apply read_counted; [done | lia] | lia].
Qed.

Lemma items_counted its s : counted s -> s.2 + Z.of_nat (length its) < 2 ^ 31 -> counted (foldl read_item s its).
Proof.
  revert s. induction its as [| i its IH]; intros s Hs Hl; [done |]. cbn [foldl length] in *.
  assert ((read_item s i).2 = s.2 + 1) as E by (by destruct s as [[m e] n]).
  apply IH; [apply read_counted; [done | lia] | lia].
Qed.

(** Items numbered from 1. *)
Definition number_item (s : gmap Z FahrstrasseItem * Z) (i : FahrstrasseItem) : gmap Z FahrstrasseItem * Z :=
  (<[s.2 := stored_item i]> s.1, s.2 + 1).
Definition number (its : list FahrstrasseItem) : gmap Z FahrstrasseItem :=
  (foldl number_item (∅, 1) its).1.
Lemma number_snoc its i : number (its ++ [i]) = <[Z.of_nat (length its) + 1 := stored_item i]> (number its).
Proof.
  unfold number. rewrite foldl_app.
  assert ((foldl number_item (∅, 1) its).2 = Z.of_nat (length its) + 1) as E.
  { induction its as [| x its IH] using rev_ind; [done |]. rewrite foldl_app, length_app. cbn. rewrite IH. lia. }
  cbn. by rewrite E.
Qed.
Definition last_item (e : FahrstrasseItem) (its : list FahrstrasseItem) : FahrstrasseItem := foldl (fun _ i => stored_item i) e its.
Lemma items_read its e : foldl read_item (∅, e, 0) its = (number (removelast its), last_item e its, Z.of_nat (length its)).
Proof.
  induction its as [| i its IH] using rev_ind; [done |]. rewrite foldl_app, IH, removelast_last, length_app.
  unfold last_item. rewrite foldl_app. cbn [foldl read_item length]. f_equal; [| lia]. f_equal.
  clear IH. destruct its as [| x front _] using rev_ind; [done |]. rewrite removelast_last, number_snoc, length_app, foldl_app.
  cbn [length foldl]. replace (Z.of_nat (length front + 1) =? 0) with false by zbool. f_equal. lia.
Qed.
(** ** Routes *)

(** What is read of a route that is not the last one, and of the last one; what
    has no item is taken out. *)
Definition trimmed (r : FahrstrasseInfo) : FahrstrasseInfo := r <| On := 0 |> <| ItemDb := number (removelast (items r)) |>.
Definition full (r : FahrstrasseInfo) : FahrstrasseInfo := r <| On := 0 |> <| ItemDb := number (items r) |>.
Definition itemless (r : FahrstrasseInfo) : bool := Z.of_nat (length (items r)) =? 0.
Definition taken (f : FahrstrasseInfo -> FahrstrasseInfo) (d : FahrstrasseStruct) (r : FahrstrasseInfo) : FahrstrasseStruct :=
  d <| FahrstrasseDb ::= fun db => if itemless r then delete r.(Id) db else <[r.(Id) := f r]> db |>.
(** The variables after the lines of a route. *)
Definition at_route (d : FahrstrasseStruct) (r : FahrstrasseInfo) (e : FahrstrasseItem) (k : Z) : loading :=
  mk_loading d (trimmed r) (last_item e (items r)) k (Z.of_nat (length (items r))).

Lemma route_head_run r st d r0 : route_ok r ->
  effect (Title 0 "fahrstrasse") st = Some (tt, mk_loading d (fresh r0) st.(NewFahrstrasseItem) (Z.succ st.(NumFahrstrassen)) 0) ->
  for_each (head_lines r) effect st =
    Some (tt, with_items d (r <| On := 0 |>) (Z.succ st.(NumFahrstrassen)) (∅, st.(NewFahrstrasseItem), 0)).
Proof.
  intros [[_ Hn] Hi _ _ _] E. rewrite !Forall_cons in Hi. destruct Hi as (H1 & H2 & H3 & H4 & _).
  unfold head_lines. cbn [app]. rewrite (run_line _ _ _ _ E). erewrite run_line by reflexivity.
  erewrite run_line by (etrans; [apply (room_run _ 32 (set_new _)); exact Hn | reflexivity]).
  cbn -[strtoul dec set_line for_each]. rewrite read_dec by done. destruct r as [i na on s se ex db]. cbn [Id Name S88 S88Ein Extern] in *.
  rewrite (run_app _ _ _ _ (route_set "s88" (fun v r => r <| S88 := v |>) s d (mk_route i na 0 (-1) (-1) (-1) ∅)
    (mk_route i na 0 s (-1) (-1) ∅) _ _ _ ltac:(done) H2 ltac:(by intros ->) eq_refl)).
  rewrite (run_app _ _ _ _ (route_set "s88Ein" (fun v r => r <| S88Ein := v |>) se d (mk_route i na 0 s (-1) (-1) ∅)
    (mk_route i na 0 s se (-1) ∅) _ _ _ ltac:(done) H3 ltac:(by intros ->) eq_refl)).
  by rewrite (route_set "extern" (fun v r => r <| Extern := v |>) ex d (mk_route i na 0 s se (-1) ∅)
    (mk_route i na 0 s se ex ∅) _ _ _ ltac:(done) H4 ltac:(by intros ->) eq_refl).
Qed.
Lemma route_run r st d r0 : route_ok r ->
  effect (Title 0 "fahrstrasse") st = Some (tt, mk_loading d (fresh r0) st.(NewFahrstrasseItem) (Z.succ st.(NumFahrstrassen)) 0) ->
  for_each (route_lines r) effect st = Some (tt, at_route d r st.(NewFahrstrasseItem) (Z.succ st.(NumFahrstrassen))).
Proof.
  intros Hr E. unfold route_lines. rewrite (run_app _ _ _ _ (route_head_run r st d r0 Hr E)).
  rewrite items_run, items_read; [done | apply Hr | | apply (ok_count r Hr)]. split; [lia | apply map_Forall_empty].
Qed.

Section Near.
Context (ks : list Z) (Hks : close ks).
Lemma insert_route_run st : among ks st.(Data).(FahrstrasseDb) -> st.(NewFahrstrasse).(Id) ∈ ks ->
  insert_route st = Some (tt, st <| Data ::= fun d => d <| FahrstrasseDb ::= <[st.(NewFahrstrasse).(Id) := st.(NewFahrstrasse)]> |> |>).
Proof using Hks.
  intros Hd Hr. unfold insert_route, FahrstrasseInsert. rewrite bind_get, (map_get_run ks Hks) by done. cbn [mbind option_bind].
  destruct (_ !! _); [rewrite (map_del_run ks Hks) by done |]; cbn [mbind option_bind];
    rewrite (map_set_run ks Hks) by (try apply among_del; done); [| done].
  destruct st as [d r i k n]. unfold need, bind, ret, modify. cbn. by rewrite ?insert_delete_eq.
Qed.
Lemma delete_route_run st : among ks st.(Data).(FahrstrasseDb) -> st.(NewFahrstrasse).(Id) ∈ ks ->
  delete_route st = Some (tt, st <| Data ::= fun d => d <| FahrstrasseDb ::= delete st.(NewFahrstrasse).(Id) |> |>).
Proof using Hks. intros Hd Hr. unfold delete_route, FahrstrasseDelete. by rewrite bind_get, (map_del_run ks Hks). Qed.
Lemma taken_routes f d r : r.(Id) ∈ ks -> among ks d.(FahrstrasseDb) -> among ks (taken f d r).(FahrstrasseDb).
Proof. intros. unfold taken. cbn. destruct (itemless r); [by apply among_del | by apply among_set]. Qed.

Lemma next_route d r e k : 0 < k -> r.(Id) ∈ ks -> among ks d.(FahrstrasseDb) ->
  effect (Title 0 "fahrstrasse") (at_route d r e k) =
    Some (tt, mk_loading (taken trimmed d r) (fresh (trimmed r)) (at_route d r e k).(NewFahrstrasseItem)
      (Z.succ (at_route d r e k).(NumFahrstrassen)) 0).
Proof using Hks.
  intros Hk Hr Hd. transitivity ((do* (if negb (k =? 0) then
       let* i := gets NumItem in
       if negb (i =? 0) then do* insert_route in do* modify (fun l => l <| NumItem := 0 |>) in set_new fresh
       else do* delete_route in set_new no_contacts else ret tt) in
     modify (fun l => l <| NumFahrstrassen ::= Z.succ |>)) (at_route d r e k)); [done |].
  replace (k =? 0) with false by zbool. cbn [negb]. unfold taken. rewrite bind_assoc, bind_gets. cbn [at_route NumItem].
  fold (itemless r). unfold itemless. destruct (Z.eqb_spec (Z.of_nat (length (items r))) 0) as [Hz | Hz]; cbn [negb].
  - rewrite !bind_assoc, bind_run, delete_route_run by done. unfold at_route. rewrite Hz. by destruct d, r.
  - rewrite !bind_assoc, bind_run, insert_route_run by done. by destruct d, r.
Qed.
Lemma routes_run rs d r e k : Forall route_ok rs -> Forall (fun r => r.(Id) ∈ ks) (r :: rs) -> among ks d.(FahrstrasseDb) -> 0 < k ->
  exists e', for_each (concat (map route_lines rs)) effect (at_route d r e k) =
    Some (tt, at_route (foldl (taken trimmed) d (removelast (r :: rs))) (List.last (r :: rs) r) e' (k + Z.of_nat (length rs))) /\
    among ks (foldl (taken trimmed) d (removelast (r :: rs))).(FahrstrasseDb).
Proof using Hks.
  revert d r e k. induction rs as [| r' rs IH]; intros d r e k Hok Hin Hd Hk; [exists e; cbn; by rewrite Z.add_0_r |].
  apply Forall_cons in Hok as [Hr Hok], Hin as [Hi Hin]. cbn [map concat].
  rewrite (run_app _ _ _ _ (route_run r' (at_route d r e k) _ _ Hr (next_route d r e k Hk Hi Hd))).
  cbn [at_route NumFahrstrassen NewFahrstrasseItem].
  destruct (IH (taken trimmed d r) r' (last_item e (items r)) (Z.succ k)) as (e' & -> & Ha); [done | done | by apply taken_routes | lia |].
  exists e'. split; [| done]. cbn [length]. replace (Z.succ k + Z.of_nat (length rs)) with (k + Z.of_nat (S (length rs))) by lia.
  do 3 f_equal. symmetry. apply (last_any r' rs).
Qed.
Lemma end_run d r e k : route_ok r -> r.(Id) ∈ ks -> among ks d.(FahrstrasseDb) ->
  exists st, at_end (at_route d r e k) = Some (tt, st) /\ st.(Data) = taken full d r /\ st.(NumFahrstrassen) = k.
Proof using Hks.
  intros Hr Hi Hd. unfold at_end, taken. rewrite bind_gets. cbn [at_route NumItem]. fold (itemless r). unfold itemless.
  destruct (Z.eqb_spec (Z.of_nat (length (items r))) 0) as [Hz | Hz]; cbn [negb].
  - rewrite delete_route_run by done. eexists. split; [reflexivity |]. by destruct d.
  - assert (counted ((at_route d r e k).(NewFahrstrasse).(ItemDb), last_item e (items r), (at_route d r e k).(NumItem))) as Hc.
    { pose proof (items_counted (items r) (∅, e, 0)) as E. rewrite items_read in E. apply E; [| apply (ok_count r Hr)].
      split; [lia | apply map_Forall_empty]. }
    pose proof (counted_near _ _ _ Hc) as Hn. unfold insert_item, FahrstrasseItemInsert, map_set.
    rewrite bind_assoc, bind_get, Hn. cbn [mbind option_bind]. eexists. split.
    + rewrite bind_assoc. unfold need. rewrite bind_run. cbn [ret]. rewrite bind_run. unfold modify at 1. by rewrite insert_route_run.
    + split; [| done]. cbn. destruct d as [pa nu db], r as [i na on s se ex its]. unfold full. cbn. do 3 f_equal.
      assert (its = its) by done. destruct (@exists_last _ (items (mk_route i na on s se ex its))) as (front & x & E);
        [by intros E; rewrite E in Hz |].
      rewrite E. unfold last_item. rewrite removelast_last, number_snoc, length_app, foldl_app. cbn. f_equal. lia.
Qed.
End Near.
(** * The file *)

Definition first_lines : list line :=
  [Heading "fahrstrassen"; Title 0 "version"; Entry 1 "major" (dec 0); Entry 1 "minor" (dec 1)].
Definition file_lines (rs : list FahrstrasseInfo) : list line := first_lines ++ concat (map route_lines rs).
Lemma write_routes rs : Forall route_ok rs ->
  mapM WriteFahrstrasseOfFahrstrasseCs2 rs = Some (map (fun r => text_of (route_lines r)) rs).
Proof.
  intros Hok. apply mapM_Some, Forall2_fmap_r. apply Forall_Forall2_diag. eapply Forall_impl; [exact Hok |].
  intros r Hr. apply write_route, Hr.
Qed.
Lemma route_file_text d : close (keys d.(FahrstrasseDb)) -> Forall route_ok (by_number d.(FahrstrasseDb)) ->
  route_file d = Some (text_of (file_lines (by_number d.(FahrstrasseDb)))).
Proof.
  intros Hc Hok. unfold route_file. rewrite (walk_ids_run _ Hc) by apply among_keys.
  change (Cs2WriteParagraphByType _) with (Some (Cs2WriteParagraphByName "fahrstrassen")).
  cbn [mbind option_bind]. rewrite write_routes by done. cbn [mbind option_bind].
  unfold file_lines. rewrite map_app, fmt_app, <- concat_text, map_map.
  unfold first_lines, Cs2WriteIntValueByName. cbn [map line_text fmt].
  f_equal. rewrite <- !str_app_assoc, <- append_nil. reflexivity.
Qed.
Lemma route_file_lines_ok rs : Forall route_ok rs -> Forall (line_ok table) (file_lines rs).
Proof.
  intros Hok. unfold file_lines. apply Forall_app. split.
  - constructor; [by repeat constructor | lines_ok].
  - apply Forall_concat, Forall_map. eapply Forall_impl; [done |]. apply route_lines_ok.
Qed.
Lemma route_file_run ks r rs d stack stack_item : close ks -> among ks d.(FahrstrasseDb) -> Forall route_ok (r :: rs) ->
  Forall (fun r => r.(Id) ∈ ks) (r :: rs) ->
  exists e, for_each (file_lines (r :: rs)) effect (mk_loading d (fresh stack) stack_item 0 0) =
    Some (tt, at_route (foldl (taken trimmed) d (removelast (r :: rs))) (List.last (r :: rs) r) e (1 + Z.of_nat (length rs))) /\
    among ks (foldl (taken trimmed) d (removelast (r :: rs))).(FahrstrasseDb).
Proof.
  intros Hks Hd [Hr Hok]%Forall_cons Hin. unfold file_lines.
  rewrite (run_app _ _ _ (mk_loading d (fresh stack) stack_item 0 0)) by done. cbn [map concat].
  rewrite (run_app _ _ _ _ (route_run r (mk_loading d (fresh stack) stack_item 0 0) d stack Hr ltac:(done))).
  by apply routes_run.
Qed.

(** The routes of a table that have an item, as [f] makes them. *)
Definition with_an_item (db : gmap Z FahrstrasseInfo) : gmap Z FahrstrasseInfo := filter (fun e => itemless e.2 = false) db.
(** What a table with these routes is after it is loaded from its file. *)
Definition reloaded (db : gmap Z FahrstrasseInfo) : gmap Z FahrstrasseInfo :=
  match list.last (by_number db) with
  | Some r => if itemless r then trimmed <$> with_an_item db else <[r.(Id) := full r]> (trimmed <$> with_an_item db)
  | None => ∅
  end.
Lemma taken_put rs m d : d.(FahrstrasseDb) = trimmed <$> m ->
  (foldl (taken trimmed) d rs).(FahrstrasseDb) = trimmed <$> foldl (put Id itemless) m rs.
Proof.
  revert m d. induction rs as [| r rs IH]; intros m d Hm; [done |]. cbn [foldl]. apply IH. unfold taken, put. cbn. rewrite Hm.
  destruct (itemless r); [by rewrite fmap_delete | by rewrite fmap_insert].
Qed.
Lemma all_taken db d r rs : keyed Id db -> by_number db = r :: rs -> d.(FahrstrasseDb) = ∅ ->
  (taken full (foldl (taken trimmed) d (removelast (r :: rs))) (List.last (r :: rs) r)).(FahrstrasseDb) = reloaded db.
Proof.
  intros Hk W Hd. pose proof (put_walk Id itemless _ Hk (fun r => r) ltac:(done)) as Hput. rewrite map_id, map_fmap_id, W in Hput.
  unfold reloaded, with_an_item. rewrite W, <- Hput. destruct (@exists_last _ (r :: rs) ltac:(done)) as (front & l & ->).
  rewrite removelast_last, List.last_last, last_snoc, foldl_app. unfold taken at 1. cbn -[taken put].
  rewrite (taken_put _ ∅) by (by rewrite fmap_empty). cbn [foldl].
  set (m := foldl _ ∅ front). unfold put. destruct (itemless l); [by rewrite fmap_delete |]. rewrite fmap_insert. change (Id l) with (Id (trimmed l)) at 2.
  by rewrite insert_insert_eq.
Qed.

(** C37. What a table of routes is after it is saved and loaded into an empty
    table.  A route without an item is gone.  The last route in the order of the
    numbers, if it has an item, comes back with all of its items; every other
    route has lost its last item, and one that had a single item is there with
    none.  The items are numbered from 1 on, their locomotives are not written,
    and their seconds are what is read of the text that was printed.  NumPages is
    the number of the routes that were written.  The texts have to fit the
    parser's lines and their arrays, the numbers the type int, and no two numbers
    of routes, or of a route's items, may be 2^31 or more apart, for then
    comparing them overflows. *)
Theorem routes_lose_last_item zk0 i0 memory stack stack_item d e path name may_open files :
  keyed Id d.(FahrstrasseDb) -> map_Forall (fun _ => route_ok) d.(FahrstrasseDb) -> close (keys d.(FahrstrasseDb)) ->
  d.(FahrstrasseFilePath) = Some path -> e.(FahrstrasseFilePath) = Some path ->
  file_name path CS2_FILE_STRING_FAHRSTRASSE = Some name -> may_open name = true -> e.(FahrstrasseDb) = ∅ ->
  exists files' e', FahrstrasseSaveFahrstrasseCs2 may_open files d = Some files' /\
    FahrstrasseLoadFahrstrasseCs2 zk0 i0 memory stack stack_item may_open files' e = Some e' /\
    e'.(FahrstrasseDb) = reloaded d.(FahrstrasseDb) /\ e'.(NumPages) = Z.of_nat (size d.(FahrstrasseDb)).
Proof.
  intros Hk Hok Hc Hp Hp' Hname Ho He. set (rs := by_number d.(FahrstrasseDb)).
  assert (Forall route_ok rs) as Hw.
  { apply Forall_forall. intros a Ha%(by_number_in Id); [by eapply Hok | done]. }
  assert (Forall (fun r => r.(Id) ∈ keys d.(FahrstrasseDb)) rs) as Hin.
  { apply Forall_forall. intros a. by apply (by_number_keyed Id). }
  assert (exists st st', for_each (file_lines rs) effect (mk_loading e (fresh stack) stack_item 0 0) = Some (tt, st) /\
    at_end st = Some (tt, st') /\ st'.(Data).(FahrstrasseDb) = reloaded d.(FahrstrasseDb) /\
    st'.(NumFahrstrassen) = Z.of_nat (length rs)) as (st & st' & E & Er & Hdb & Hn).
  { destruct rs as [| r l] eqn:W.
    - eexists _, _. split; [reflexivity |]. unfold at_end. rewrite bind_gets. cbn [NumItem negb Z.eqb].
      assert (close [stack.(Id)]) as Hcs by (by intros k k' ->%list_elem_of_singleton ->%list_elem_of_singleton; lia).
      rewrite (delete_route_run _ Hcs) by (by left || (cbn; rewrite He; apply among_empty)). split; [reflexivity |].
      cbn. unfold reloaded. fold rs. by rewrite W, He, delete_empty.
    - destruct (route_file_run _ r l e stack stack_item Hc) as (x & E & Ha); [rewrite He; apply among_empty | done.. |].
      destruct (end_run _ Hc (foldl (taken trimmed) e (removelast (r :: l))) (List.last (r :: l) r) x (1 + Z.of_nat (length l)))
        as (st & Eend & Ed & En).
      + by apply Forall_last_of.
      + by apply Forall_last_of in Hin.
      + done.
      + eexists _, st. split; [exact E |]. split; [exact Eend |]. rewrite Ed, En. split; [by apply all_taken | cbn [length]; lia]. }
  exists (<[name := bytes (text_of (file_lines rs))]> files), (st'.(Data) <| NumPages := st'.(NumFahrstrassen) |>). split_and!.
  - unfold FahrstrasseSaveFahrstrasseCs2. rewrite Hp, Hname. cbn [mbind option_bind]. by rewrite Ho, route_file_text.
  - unfold FahrstrasseLoadFahrstrasseCs2. rewrite Hp', Hname. cbn [mbind option_bind]. rewrite disk_written, Ho.
    unfold FahrstrasseParseFahrstrasseCs2.
    by rewrite (file_read _ _ table zk0 i0 memory PARSER_TYPE_FAHRSTRASSEN_CS2 eq_refl _ _ _ _ (route_file_lines_ok _ Hw) E Er).
  - done.
  - cbn. rewrite Hn. unfold rs. by rewrite by_number_length.
Qed.
End Routes.

(** ** Example: seconds in thousandths *)

Lemma walk_one {A} (a : A) : by_number {[1 := a]} = [a].
Proof. reflexivity. Qed.
Lemma walk_two {A} (a b : A) : by_number (<[1 := a]> {[2 := b]}) = [a; b].
Proof. vm_compute. reflexivity. Qed.

#[local] Instance thousandths : Float := {|
  float := Z; float_zero := 0; is_zero := Z.eqb 0; print_float := dec; atof := fun s => i32 (strtoul s) |}.
Definition an_item (n s : Z) : FahrstrasseItem := mk_item (-1) "mag" "" n 1 s (-1) (-1).
Definition entry_route : FahrstrasseInfo := mk_route 1 "Einfahrt" 0 17 1 (-1) (<[1 := an_item 3 500]> {[2 := an_item 4 0]}).
Definition exit_route : FahrstrasseInfo := mk_route 2 "Ausfahrt" 0 (-1) (-1) (-1) {[1 := an_item 5 0]}.
Definition siding : FahrstrasseInfo := mk_route 3 "Abstellgleis" 0 (-1) (-1) (-1) ∅.
Definition three_routes : FahrstrasseStruct :=
  mk_fahrstrasse (Some "/cfg/") 3 (<[1 := entry_route]> (<[2 := exit_route]> {[3 := siding]})).
Definition no_routes : FahrstrasseStruct := mk_fahrstrasse (Some "/cfg/") 0 ∅.
Definition a_parser : cs2parser := mk_cs2parser (ScanCreate "" 0) 0 0 0 "" "".
Lemma an_item_ok n s : is_int n -> is_int s -> item_ok (an_item n s).
Proof.
  intros Hn Hs. unfold item_ok, value_ok, SCAN_BLOCK_LAENGE. cbn -[Z.eqb dec strtoul]. split_and!; [repeat constructor | lia.. | |].
  - intros _. by apply dec_ok.
  - unfold is_int. repeat constructor; done || apply Hn.
Qed.
Lemma small_close {A} (db : gmap Z A) : keys db ⊆ [1; 2; 3] -> close (keys db).
Proof. intros H k k' Hk%H Hk'%H. rewrite !elem_of_cons, elem_of_nil in *. lia. Qed.
Lemma a_route_ok r its : items r = its -> keys r.(ItemDb) ⊆ [1; 2; 3] -> Forall item_ok its -> (length its < 3)%nat ->
  value_ok r.(Name) /\ (String.length r.(Name) < 32)%nat -> Forall is_int [r.(Id); r.(S88); r.(S88Ein); r.(Extern)] -> route_ok r.
Proof. intros <- Hk Hi Hl Hn Hz. split; [done | done | done | by apply small_close | lia]. Qed.
Ltac fits := unfold value_ok, is_int, SCAN_BLOCK_LAENGE; repeat first [ done | lia | constructor | progress cbn ].
Lemma three_routes_ok : map_Forall (fun _ => route_ok) three_routes.(FahrstrasseDb).
Proof.
  cbn [three_routes FahrstrasseDb]. apply (map_Forall_insert_2 (M := gmap Z)); [| apply (map_Forall_insert_2 (M := gmap Z))];
    [| | apply (map_Forall_singleton (M := gmap Z))].
  - apply (a_route_ok entry_route _ (walk_two _ _)); [vm_compute; set_solver | | fits..].
    repeat (apply Forall_cons_2; [by apply an_item_ok |]). constructor.
  - apply (a_route_ok exit_route _ (walk_one _)); [vm_compute; set_solver | | fits..].
    repeat (apply Forall_cons_2; [by apply an_item_ok |]). constructor.
  - apply (a_route_ok siding []); [reflexivity | vm_compute; set_solver | fits..].
Qed.
Lemma routes_lose_last_item_witness : exists files' e',
  FahrstrasseSaveFahrstrasseCs2 (fun _ => true) ∅ three_routes = Some files' /\
  FahrstrasseLoadFahrstrasseCs2 "" 0 a_parser entry_route (an_item 0 0) (fun _ => true) files' no_routes = Some e' /\
  e'.(FahrstrasseDb) = reloaded three_routes.(FahrstrasseDb) /\ e'.(NumPages) = Z.of_nat (size three_routes.(FahrstrasseDb)).
Proof.
  apply (routes_lose_last_item "" 0 a_parser entry_route (an_item 0 0) three_routes no_routes "/cfg/" "/cfg/fahrstrassen.cs2" (fun _ => true) ∅).
  - cbn [three_routes FahrstrasseDb]. do 2 (apply (map_Forall_insert_2 (M := gmap Z)); [reflexivity |]).
    apply (map_Forall_singleton (M := gmap Z)). reflexivity.
  - exact three_routes_ok.
  - apply small_close. vm_compute. set_solver.
  - reflexivity.
  - reflexivity.
  - reflexivity.
  - reflexivity.
  - reflexivity.
Defined.
End FahrstrasseSpec.
